(* ===== verification/_CoqProject ===== *)
-Q . S2P
Prelude.v
HostMem.v
Radix.v
X86Pt.v
MemOps.v
VmMem.v
Ept.v
Npt.v
GuestMem.v
VmDemo.v
Mmu.v
GuestPt.v
Vcpu.v
Virtio.v
E820.v
FwCfg.v
Decoder.v
Inat.v
Insn.v
InsnSpec.v
InsnDecode.v
Apic.v
Emul.v
VmExit.v
Vm.v
Cr3Cache.v
VmcsFields.v
VmcsSetup.v
WorldSwitch.v
Debug.v
VmxHost.v
Stage2.v
Boot.v
Iommu.v
Svm.v
Arm64.v
Module.v
Seabios.v
