(* ===== verification/Prelude.v ===== *)
(** * relm: a verification development

    relm is a Linux kernel module that runs virtual machines on Intel (VMX), AMD (SVM)
    and, in progress, ARM64 processors.  This library models its C code as Rocq functions
    and proves what makes it correct.  Every definition bears the name of the C
    function, structure or constant it translates; paths below are relative to the
    root of the repository.

    ** The program and the files

    Memory.  Physical pages and the kernel page allocator are [HostMem]; [Radix] is the
    theory of radix page tables (walk, invariant, one entry written, one tree freed)
    that the three second-stage tables share, and [X86Pt] its 4-level x86 instance.
    [Ept] is src/arch/x86/vmx/ept.c, [Npt] src/arch/x86/svm/npt.c, [Stage2]
    src/arch/arm64/stage2.c.  [VmMem] is the registry of MMIO windows of
    src/virtio/mmio.c.  [MemOps] is struct relm_mem_ops of include/relm/vm.h as an
    interface: a class of operations and a class of their laws, which [Ept] and [Npt]
    discharge and [GuestMem] (guest RAM, the copies to and from guest memory, the
    memory part of src/core/vm.c) is proved against.  [GuestPt] holds the page tables the
    guest boots on, [Mmu] the software walker of guest page tables
    (src/arch/x86/{vmx,svm}/mmu.c), [Iommu] the DMA domain (src/core/iommu.c).

    CPUs.  [Vcpu] is src/core/vcpu.c: a vCPU, its thread and those that start and stop
    it, as a step relation on the interleaving.  [VmxHost] turns VMX on and off on the
    host's CPUs, [VmcsFields] and [VmcsSetup] allocate and write the VMCS of a vCPU,
    [Cr3Cache] is the cache of CR3 targets (all src/arch/x86/vmx/vmx.c), [VmExit] the
    exit handlers (src/arch/x86/vmx/vmexit.c), [WorldSwitch] the assembly that enters the
    guest and catches its exits (src/arch/x86/vmx/vmx_asm.S, vmx_vcpu_run) around them,
    [Apic] the local APIC (src/arch/x86/vmx/apic.c).  [Svm] is src/arch/x86/svm/svm.c, [Arm64] src/arch/arm64.

    Devices and emulation.  [Virtio] is src/virtio/virtio.c, [Decoder] src/core/decoder.c
    with the adapter of src/arch/x86/decoder/utils.c, [Emul] the two places that
    execute a guest instruction (src/virtio/mmio.c and src/arch/x86/vmx/apic.c).  [Inat] and
    [Insn] are the table-driven decoder of src/arch/x86/decoder/inat.c and insn.c with their
    headers; [InsnSpec] is a calculus of weakest preconditions for its monad, and
    [InsnDecode] its theorems.  [Debug] is the live disassembler and the page-fault report
    (src/debug, src/arch/x86/vmx/insn_dump.c).

    A VM as a whole.  [Vm] is the life of a VM (src/core/vm.c), [Boot] the Linux loader
    (src/arch/x86/boot/boot.c), [E820] and [FwCfg] the tables firmware reads, [Seabios]
    the firmware loader (src/firmware), [Module] loading and unloading of the kernel
    module (src/core/relm.c).  [VmDemo] builds a VM with a concrete allocator.

    ** How the code is rendered

    A w-bit integer is a [Z] and the wrap-around is written where it can happen ([u8],
    [u16], [u32], [u64]).  A function that changes state takes it and returns it, also
    when it fails; an int result is a [Z], an error the negative errno.  A pointer that
    can be NULL is an [option] or 0.  What would be a wild or NULL access or a fault of
    the host kernel is a value of its own ([Oops] of [GuestMem.access], [None] in [VmxHost]).
    Locks, logging and memory barriers are not represented, except in [Vcpu], where the
    order of the stores is the point.  What the code relies on and does not define is
    a parameter with its documented behaviour as laws: the page allocator ([PageAlloc],
    [PageAllocOk]), block allocators, kmap, the IOMMU layer of Linux ([IommuApi]), the Zydis
    decoder, the generated opcode tables of inat.c, the device operations of virtio, the
    processor's answers to CPUID, RDMSR, VMWRITE and the ARM system registers, and what
    a guest does between an entry and the next exit.  Demo modules instantiate them and
    evaluate the theorems.

    ** What is proved

    - The second-stage tables refine a map from guest pages to frames over any sequence
      of operations, give back every page, and agree with the hardware's walk
      ([Ept.ept_lifecycle_refines], [Stage2.stage2_life_refines],
      [Ept.ept_map_guest_ram_correct], [Stage2.stage2_map_guest_ram_correct]); the geometry
      that is chosen is one the processor accepts ([Stage2.chosen_geometry_valid]).
    - Guest RAM: the guest sees what was copied, allocation is all or nothing, the boot
      tables map the identity, the walker computes the translation of the architecture
      in its three paging modes, device DMA reaches the pages the guest has
      ([GuestMem], [GuestPt], [Mmu], [Iommu]).
    - A vCPU: in every interleaving the backend is called in the order of the protocol, and
      a stop request ends the thread ([Vcpu]); the VMCS it starts with passes the checks
      of VM entry, its memory comes back ([VmcsSetup]); an exit keeps its contract, EFER
      and the entry controls stay consistent, emulated loads and stores reach the
      device and the register ([VmExit]); through the assembly the guest gets the registers
      the handlers left and the caller its own stack and registers, and vcpu->launched
      follows the VMCS ([WorldSwitch.vmx_run_refines],
      [WorldSwitch.launch_flag_invariant]); a guest of ARM64 resumes with the registers it
      left, and the host gets its own back ([Arm64]).
    - The machine: APIC end of interrupt, inter-processor interrupts and the timer's
      count, the virtio registry and queues, the decoder's contract, the fw_cfg directory.
    - The table-driven decoder reads inside its buffer and ends for every table and input,
      the parts it finds lie one after the other, and the prefix bytes are the ones the
      instruction has ([InsnDecode]).  The disassembler stays inside its arrays and prints
      the text of the instruction, and the page-fault report names the cause ([Debug]).
    - The VM: creation, running and destruction balance ([Vm]), the loader puts kernel,
      initrd, command line and boot parameters where they belong ([Boot]), VMX goes on
      and off on every CPU ([VmxHost]), the module undoes what it did ([Module]).

    Theorems about what the code gets wrong stand beside the others and say so.

    ** Bounds and fuel

    Loops that are not structural carry fuel, and a theorem shows a bound that is enough:
    the mappers of large pages advance at least 4 KiB a round
    ([Ept.ept_map_guest_ram_huge_terminates], [Stage2.stage2_map_guest_ram_huge_terminates]), copies
    through the guest's tables take one round a byte at most ([Mmu]), walks are as deep
    as the table.  The loops of the instruction decoder have fuel 17 for at most 15 bytes
    ([InsnDecode.insn_decode_total]), the world switch two blocks for each exit and six
    for the way in and out ([WorldSwitch.vmx_run_refines]), a dump at most 256 rounds.  Guest addresses are taken below 2^48 and frames below 2^52 where
    the hardware has these limits.

    ** What is not modelled

    The assembly of SVM (svm_asm.S), which does not assemble, of ARM64 (entry.S) and of the
    boot stubs beyond their bytes; src/arch/x86/svm/vmexit.c, which is unfinished and does
    not parse; the exit handlers of ARM64, which are only declared; the opcode tables, which
    are generated, and the vendored Zydis; functions of vmx.c that nothing calls
    (relm_init_cr3_targets, relm_setup_guest_state, relm_set_exception_intercept); register
    and table dumps, tracing and the test programs. *)
From stdpp Require Export base gmap list strings.
From Stdlib Require Export ZArith Lia.

#[global] Open Scope Z_scope.

(** ** Machine integers: a w-bit unsigned integer is a [Z]; wrap-around is
    written out at the operation that can wrap. *)
Definition u8 (z : Z) : Z := z mod 2 ^ 8.
Definition u16 (z : Z) : Z := z mod 2 ^ 16.
Definition u32 (z : Z) : Z := z mod 2 ^ 32.
Definition u64 (z : Z) : Z := z mod 2 ^ 64.

(** The C truth value of [e & m]. *)
Definition flag (e m : Z) : bool := negb (Z.land e m =? 0).

(** ** errno values (Linux uapi) *)
Definition ENOENT : Z := 2.
Definition EIO : Z := 5.
Definition E2BIG : Z := 7.
Definition ENOMEM : Z := 12.
Definition EACCES : Z := 13.
Definition EFAULT : Z := 14.
Definition EBUSY : Z := 16.
Definition EEXIST : Z := 17.
Definition ENODEV : Z := 19.
Definition EINVAL : Z := 22.
Definition ENOSPC : Z := 28.
Definition ERANGE : Z := 34.
Definition ENOSYS : Z := 38.
Definition ENODATA : Z := 61.
Definition EOPNOTSUPP : Z := 95.
Definition ENAVAIL : Z := 119.
Definition ENOTSUPP : Z := 524.

(** ** Pages (Linux, 4 KiB) *)
Definition PAGE_SIZE : Z := 4096.
Definition PAGE_MASK : Z := 0xFFFFFFFFFFFFF000.
Definition page_off (x : Z) : Z := Z.land x 0xFFF.
Definition PAGE_ALIGNED (x : Z) : bool := page_off x =? 0.
Definition PAGE_ALIGN (x : Z) : Z := Z.land (u64 (x + 4095)) PAGE_MASK.

(** ** A computation that returns a C value and a new state *)
Definition M (S A : Type) : Type := S -> A * S.
Definition ret {S A} (a : A) : M S A := fun s => (a, s).
Definition bind {S A B} (c : M S A) (k : A -> M S B) : M S B :=
  fun s => let '(a, s') := c s in k a s'.
Definition get {S} : M S S := fun s => (s, s).
Definition put {S} (s : S) : M S unit := fun _ => (tt, s).

Declare Scope c_scope.
Delimit Scope c_scope with c.
Notation "x <- c1 ;; c2" := (bind c1 (fun x => c2))
  (at level 100, c1 at next level, right associativity) : c_scope.
Notation "c1 ;; c2" := (bind c1 (fun _ => c2))
  (at level 100, right associativity) : c_scope.

(** ** Bits *)

Lemma flag_pow2 (e k : Z) : 0 <= k -> flag e (2 ^ k) = Z.testbit e k.
Proof.
  intros Hk. unfold flag.
  destruct (Z.testbit e k) eqn:E.
  - apply negb_true_iff, Z.eqb_neq. intros H.
    assert (Z.testbit (Z.land e (2 ^ k)) k = true) as B.
    { rewrite Z.land_spec, E, Z.pow2_bits_true by lia. done. }
    rewrite H, Z.bits_0 in B. done.
  - apply negb_false_iff, Z.eqb_eq. apply Z.bits_inj'. intros n Hn.
    rewrite Z.land_spec, Z.bits_0, Z.pow2_bits_eqb by lia.
    destruct (Z.eqb_spec k n); subst; rewrite ?E; auto using andb_false_r.
Qed.

Lemma flag_lor (a b m : Z) : flag (Z.lor a b) m = flag a m || flag b m.
Proof.
  unfold flag. rewrite Z.land_lor_distr_l.
  destruct (Z.eqb_spec (Z.land a m) 0) as [->|Ha].
  - by rewrite Z.lor_0_l.
  - apply negb_true_iff, Z.eqb_neq. intros H.
    apply Z.lor_eq_0_l in H. done.
Qed.

Lemma land_ones_mod (x k : Z) : 0 <= k -> Z.land x (2 ^ k - 1) = x mod 2 ^ k.
Proof. intros Hk. rewrite <- Z.land_ones, Z.ones_equiv by lia. done. Qed.

Lemma page_off_mod (x : Z) : page_off x = x mod 4096.
Proof. exact (land_ones_mod x 12 ltac:(lia)). Qed.

Lemma PAGE_ALIGNED_spec (x : Z) : PAGE_ALIGNED x = true <-> x mod 4096 = 0.
Proof. unfold PAGE_ALIGNED. rewrite page_off_mod. apply Z.eqb_eq. Qed.

Lemma testbit_small (x k n : Z) : 0 <= x < 2 ^ k -> 0 <= k <= n -> Z.testbit x n = false.
Proof.
  intros Hx Hn. rewrite <- (Z.mod_small x (2 ^ k)) by lia.
  apply Z.mod_pow2_bits_high. lia.
Qed.

(** A contiguous mask: bits [lo, lo+w). *)
(** Two bits of a word tested with one mask. *)
Lemma land_two_bits (x a b : Z) : 0 <= a -> 0 <= b ->
  (Z.land x (Z.lor (2 ^ a) (2 ^ b)) =? Z.lor (2 ^ a) (2 ^ b)) = Z.testbit x a && Z.testbit x b.
Proof.
  intros Ha Hb. apply eq_true_iff_eq. rewrite Z.eqb_eq, andb_true_iff. split.
  - intros E. split.
    + apply (f_equal (fun w => Z.testbit w a)) in E. rewrite Z.land_spec, Z.lor_spec, !Z.pow2_bits_eqb, Z.eqb_refl in E by lia.
      by rewrite andb_true_r in E.
    + apply (f_equal (fun w => Z.testbit w b)) in E. rewrite Z.land_spec, Z.lor_spec, !Z.pow2_bits_eqb, Z.eqb_refl in E by lia.
      by rewrite orb_true_r, andb_true_r in E.
  - intros [Ba Bb]. apply Z.bits_inj'. intros n Hn. rewrite Z.land_spec, Z.lor_spec, !Z.pow2_bits_eqb by lia.
    destruct (Z.eqb_spec a n) as [<- |]; [by rewrite Ba|].
    destruct (Z.eqb_spec b n) as [<- |]; [by rewrite Bb|]. apply andb_false_r.
Qed.

Lemma lor_flag (x k : Z) : 0 <= k -> Z.testbit x k = true -> Z.lor x (2 ^ k) = x.
Proof.
  intros Hk B. apply Z.bits_inj'. intros n Hn. rewrite Z.lor_spec, Z.pow2_bits_eqb by lia.
  destruct (Z.eqb_spec k n) as [<- |]; [by rewrite B|apply orb_false_r].
Qed.

Lemma land_field (x lo w : Z) : 0 <= lo -> 0 <= w ->
  Z.land x (Z.shiftl (Z.ones w) lo) = ((x / 2 ^ lo) mod 2 ^ w) * 2 ^ lo.
Proof.
  intros Hlo Hw.
  rewrite <- Z.land_ones, <- Z.shiftr_div_pow2, <- Z.shiftl_mul_pow2 by lia.
  apply Z.bits_inj'. intros n Hn.
  rewrite Z.land_spec, !Z.shiftl_spec by lia.
  destruct (Z.ltb_spec n lo).
  - rewrite !(Z.testbit_neg_r _ (n - lo)) by lia. apply andb_false_r.
  - rewrite Z.land_spec, Z.shiftr_spec by lia. do 2 f_equal. lia.
Qed.

(** Arithmetic on fixed powers of two without unfolding them by hand. *)
Ltac zpow := repeat match goal with
  | H : context [2 ^ ?k] |- _ => is_ground k; let v := eval vm_compute in (2 ^ k) in change (2 ^ k) with v in H
  | |- context [2 ^ ?k] => is_ground k; let v := eval vm_compute in (2 ^ k) in change (2 ^ k) with v
  end.
Ltac zdm := Z.div_mod_to_equations; lia.

Lemma u64_range (z : Z) : 0 <= u64 z < 2 ^ 64.
Proof. apply Z.mod_pos_bound. lia. Qed.
Lemma u64_small (z : Z) : 0 <= z < 2 ^ 64 -> u64 z = z.
Proof. apply Z.mod_small. Qed.

Lemma page_align_pages size : 0 <= size -> size <= 2 ^ 48 ->
  0 <= PAGE_ALIGN size / 4096 /\ PAGE_ALIGN size = PAGE_ALIGN size / 4096 * 4096 /\
  size <= PAGE_ALIGN size < size + 4096.
Proof.
  intros H0 H1. unfold PAGE_ALIGN. rewrite u64_small by lia.
  change PAGE_MASK with (Z.shiftl (Z.ones 52) 12). rewrite land_field by lia. zpow. zdm.
Qed.

Create HintDb relm.
#[export] Hint Resolve u64_range : relm.
Create Rewrite HintDb relm.
#[export] Hint Rewrite page_off_mod : relm.

(** ** Fixed-size C arrays with a live prefix

    [shift_down a i n]: the loop
    [for (j = i; j + 1 < n; j++) a[j] = a[j + 1];] of the dense registries. *)
Fixpoint shift_loop {A} (fuel : nat) (a : list A) (j n : nat) : list A :=
  match fuel with
  | O => a
  | S f =>
      if (j + 1 <? n)%nat
      then match a !! (j + 1)%nat with
           | Some x => shift_loop f (<[j := x]> a) (S j) n
           | None => a
           end
      else a
  end.
Definition shift_down {A} (a : list A) (i n : nat) : list A := shift_loop n a i n.

Lemma shift_loop_length {A} fuel (a : list A) j n : length (shift_loop fuel a j n) = length a.
Proof.
  revert a j. induction fuel as [|f IH]; intros a j; simpl; [done|].
  repeat case_match; auto. rewrite IH. apply length_insert.
Qed.

Lemma shift_loop_lookup {A} fuel (a : list A) j n k :
  (n <= length a)%nat -> (n <= fuel + j)%nat -> (j <= n)%nat ->
  shift_loop fuel a j n !! k =
    if decide (j <= k /\ k + 1 < n)%nat then a !! (k + 1)%nat else a !! k.
Proof.
  revert a j. induction fuel as [|f IH]; intros a j Hn Hf Hj; simpl.
  { rewrite decide_False by lia. done. }
  destruct (Nat.ltb_spec (j + 1) n) as [Hlt|Hge]; [|by rewrite decide_False by lia].
  destruct (lookup_lt_is_Some_2 a (j + 1)) as [x Hx]; [lia|]. rewrite Hx.
  rewrite IH by (rewrite ?length_insert; lia).
  destruct (decide (k = j)) as [->|Hkj].
  { rewrite decide_False, decide_True, list_lookup_insert_eq by lia. done. }
  repeat case_decide; try lia; by rewrite list_lookup_insert_ne by lia.
Qed.

(** The live prefix after the shift is the old one without entry [i]. *)
Lemma shift_down_take {A} (a : list A) i n : (i < n)%nat -> (n <= length a)%nat ->
  take (n - 1) (shift_down a i n) = delete i (take n a).
Proof.
  intros Hi Hn. apply list_eq. intros k. unfold shift_down.
  destruct (decide (k < n - 1)%nat) as [Hk|Hk].
  - rewrite lookup_take_lt, shift_loop_lookup by lia.
    destruct (decide (i <= k)%nat) as [Hik|Hik].
    + rewrite decide_True by lia. rewrite list_lookup_delete_ge, lookup_take_lt by lia.
      f_equal. lia.
    + rewrite decide_False by lia. rewrite list_lookup_delete_lt, lookup_take_lt by lia. done.
  - rewrite lookup_take_ge by lia. symmetry. apply lookup_ge_None.
    rewrite length_delete; [rewrite length_take; lia|].
    apply lookup_lt_is_Some_2. rewrite length_take. lia.
Qed.

Lemma shift_down_length {A} (a : list A) i n : length (shift_down a i n) = length a.
Proof. apply shift_loop_length. Qed.

Lemma take_insert_end {A} (a : list A) n x : (n < length a)%nat ->
  take (S n) (<[n := x]> a) = take n a ++ [x].
Proof.
  intros Hn. rewrite (take_S_r _ _ x); [|by apply list_lookup_insert_eq].
  by rewrite take_insert_ge.
Qed.

(** The index of the first element satisfying [p], as the search loops find it. *)
Fixpoint find_index {A} (p : A -> bool) (l : list A) : option nat :=
  match l with
  | [] => None
  | x :: l => if p x then Some 0%nat else S <$> find_index p l
  end.

Lemma find_index_Some {A} (p : A -> bool) l i : find_index p l = Some i ->
  exists x, l !! i = Some x /\ p x = true /\ forall j y, (j < i)%nat -> l !! j = Some y -> p y = false.
Proof.
  revert i. induction l as [|x l IH]; intros i; simpl; [done|].
  destruct (p x) eqn:E.
  - intros [= <-]. exists x. split_and!; auto. intros j y Hj. lia.
  - destruct (find_index p l) as [k|]; simpl; [|done]. intros [= <-].
    destruct (IH k eq_refl) as (y & Hy & Py & Hb). exists y. split_and!; auto.
    intros [|j] z Hj; simpl; [naive_solver|]. apply Hb. lia.
Qed.

Lemma find_index_None {A} (p : A -> bool) l : find_index p l = None ->
  forall x, x ∈ l -> p x = false.
Proof.
  induction l as [|y l IH]; simpl; intros H x Hx.
  - by apply not_elem_of_nil in Hx.
  - destruct (p y) eqn:E; [done|]. destruct (find_index p l); [done|].
    apply elem_of_cons in Hx as [->|]; auto.
Qed.

(** [strscpy(dst, s, n)]: at most [n - 1] characters, always terminated. *)
Definition strscpy (n : nat) (s : string) : string := String.substring 0 (n - 1) s.

Lemma existsb_false {A} (p : A -> bool) l : existsb p l = false <-> forall x, x ∈ l -> p x = false.
Proof.
  rewrite <- not_true_iff_false, existsb_exists. setoid_rewrite <- list_elem_of_In. split.
  - intros H x Hx. apply not_true_iff_false. eauto.
  - intros H (x & Hx & P). by rewrite H in P.
Qed.

Lemma existsb_true {A} (p : A -> bool) l : existsb p l = true <-> exists x, x ∈ l /\ p x = true.
Proof. rewrite existsb_exists. by setoid_rewrite <- list_elem_of_In. Qed.

Lemma fold_left_ext {A B} (f g : A -> B -> A) l a : (forall a x, f a x = g a x) ->
  fold_left f l a = fold_left g l a.
Proof. intros E. revert a. induction l as [|x l IH]; intros a; simpl; [done|]. by rewrite E, IH. Qed.

(** Two fields that do not overlap add up. *)
Lemma lor_shiftl a b k : 0 <= k -> 0 <= a < 2 ^ k -> Z.lor a (Z.shiftl b k) = a + b * 2 ^ k.
Proof.
  intros Hk Ha. rewrite <- Z.shiftl_mul_pow2 by lia. symmetry.
  rewrite <- Z.lxor_lor, Z.add_nocarry_lxor; try done.
  all: apply Z.bits_inj'; intros n Hn; rewrite Z.land_spec, Z.bits_0, Z.shiftl_spec by lia.
  all: destruct (Z.ltb_spec n k); [by rewrite (Z.testbit_neg_r b), andb_false_r by lia|].
  all: by rewrite (testbit_small a k) by lia.
Qed.

(** ** Byte order *)

(** The [n] bytes of an integer, least significant first, and back. *)
Fixpoint le_bytes (n : nat) (z : Z) : list Z :=
  match n with
  | O => []
  | S n => z mod 256 :: le_bytes n (z / 256)
  end.
Definition be_bytes (n : nat) (z : Z) : list Z := rev (le_bytes n z).

Fixpoint of_le (l : list Z) : Z :=
  match l with
  | [] => 0
  | b :: l => b + 256 * of_le l
  end.
Definition of_be (l : list Z) : Z := of_le (rev l).

Lemma le_bytes_length n z : length (le_bytes n z) = n.
Proof. revert z. induction n as [|n IH]; intros z; simpl; [done|]. by rewrite IH. Qed.

Lemma of_le_bytes n z : of_le (le_bytes n z) = z mod 256 ^ Z.of_nat n.
Proof.
  revert z. induction n as [|n IH]; intros z; cbn [le_bytes of_le].
  { by rewrite Z.mod_1_r. }
  rewrite IH, Nat2Z.inj_succ, Z.pow_succ_r by lia.
  rewrite Z.rem_mul_r by (lia || (apply Z.pow_pos_nonneg; lia)). lia.
Qed.

Lemma of_be_bytes n z : of_be (be_bytes n z) = z mod 256 ^ Z.of_nat n.
Proof. unfold of_be, be_bytes. rewrite rev_involutive. apply of_le_bytes. Qed.

Definition is_byte (b : Z) : Prop := 0 <= b < 256.

Lemma of_le_range l : Forall is_byte l -> 0 <= of_le l < 256 ^ Z.of_nat (length l).
Proof.
  induction 1 as [|b l Hb _ IH]; [done|]. cbn [of_le length].
  rewrite Nat2Z.inj_succ, Z.pow_succ_r by lia. unfold is_byte in Hb. nia.
Qed.

Lemma le_bytes_of_le l : Forall is_byte l -> le_bytes (length l) (of_le l) = l.
Proof.
  induction 1 as [|b l Hb _ IH]; [done|]. cbn [of_le length le_bytes]. unfold is_byte in Hb.
  rewrite (Z.mul_comm 256), Z.mod_add, Z.div_add by done.
  rewrite Z.mod_small, Z.div_small, Z.add_0_l by done. by rewrite IH.
Qed.

(** The bytes of a C string literal, without the terminator. *)
Fixpoint string_bytes (s : string) : list Z :=
  match s with
  | EmptyString => []
  | String c s => Z.of_nat (Ascii.nat_of_ascii c) :: string_bytes s
  end.

Ltac tidy_bool := repeat match goal with
  | H : _ && _ = true |- _ => apply andb_true_iff in H as [? ?]
  | H : _ || _ = false |- _ => apply orb_false_iff in H as [? ?]
  | H : negb _ = true |- _ => apply negb_true_iff in H
  | H : negb _ = false |- _ => apply negb_false_iff in H
  | H : (_ =? _)%Z = true |- _ => apply Z.eqb_eq in H
  | H : (_ =? _)%Z = false |- _ => apply Z.eqb_neq in H
  | H : (_ <? _)%Z = true |- _ => apply Z.ltb_lt in H
  | H : (_ <? _)%Z = false |- _ => apply Z.ltb_ge in H
  | H : (_ <=? _)%Z = true |- _ => apply Z.leb_le in H
  | H : (_ <=? _)%Z = false |- _ => apply Z.leb_gt in H
  end.
