(* ===== verification/HostMem.v ===== *)
(** * Host physical memory and the kernel page allocator

    The part of the Linux kernel the memory code of relm runs on: physical
    pages, the page allocator ([__get_free_page], [alloc_page], [free_page])
    and 64-bit loads and stores into a page.  The direct map is a bijection, so
    [virt_to_phys]/[phys_to_virt] are the identity and a kernel pointer to a
    page is its physical address; NULL is 0.

    The allocator is not part of the repository: it is the parameter
    [page_choice] of the class [PageAlloc], a function of the number of the call
    and of the set of pages in use (so it may fail at any call), with the
    documented behaviour as the laws of [PageAllocOk]. *)
From S2P Require Import Prelude.

Record host := Host {
  h_words : gmap Z (gmap Z Z);  (** page -> index -> 64-bit word (page-table view) *)
  h_bytes : gmap Z (gmap Z Z);  (** page -> offset -> byte (guest-RAM view) *)
  h_live : gset Z;              (** pages handed out and not freed *)
  h_tick : nat                  (** allocator calls so far *)
}.

Definition host0 : host := Host ∅ ∅ ∅ 0.

Class PageAlloc := page_choice : nat -> gset Z -> option Z.

(** What the code relies on: a page handed out is not in use, is page aligned,
    not NULL and below the 52-bit physical address limit of x86-64. *)
Class PageAllocOk (PA : PageAlloc) : Prop := {
  page_fresh n s p : page_choice n s = Some p -> p ∉ s;
  page_aligned n s p : page_choice n s = Some p -> p mod 4096 = 0;
  page_range n s p : page_choice n s = Some p -> 0 < p < 2 ^ 52
}.

Section HostMem.
Context `{PA : PageAlloc}.

(** [__get_free_page(... | __GFP_ZERO)] / [alloc_page(... | __GFP_ZERO)] *)
Definition get_zeroed_page (h : host) : option Z * host :=
  match page_choice (h_tick h) (h_live h) with
  | Some p => (Some p, Host (<[p := ∅]> (h_words h)) (<[p := ∅]> (h_bytes h))
                            ({[p]} ∪ h_live h) (S (h_tick h)))
  | None => (None, Host (h_words h) (h_bytes h) (h_live h) (S (h_tick h)))
  end.

Definition free_page (h : host) (p : Z) : host :=
  Host (delete p (h_words h)) (delete p (h_bytes h)) (h_live h ∖ {[p]}) (h_tick h).

(** [t->entries[i]] *)
Definition rd64 (h : host) (t i : Z) : Z := default 0 ((default ∅ (h_words h !! t)) !! i).
Definition wr64 (h : host) (t i v : Z) : host :=
  Host (<[t := <[i := v]> (default ∅ (h_words h !! t))]> (h_words h))
       (h_bytes h) (h_live h) (h_tick h).

(** One byte of a page. *)
Definition rd8 (h : host) (p o : Z) : Z := default 0 ((default ∅ (h_bytes h !! p)) !! o).
Definition wr8 (h : host) (p o v : Z) : host :=
  Host (h_words h) (<[p := <[o := v]> (default ∅ (h_bytes h !! p))]> (h_bytes h))
       (h_live h) (h_tick h).

Lemma rd64_wr64_eq h t i v : rd64 (wr64 h t i v) t i = v.
Proof. unfold rd64, wr64; simpl. by rewrite lookup_insert_eq; simpl; rewrite lookup_insert_eq. Qed.

Lemma rd64_wr64_ne h t i v t' i' : t' <> t \/ i' <> i -> rd64 (wr64 h t i v) t' i' = rd64 h t' i'.
Proof.
  intros Hne. unfold rd64, wr64; simpl. rewrite lookup_insert. case_decide; subst; simpl; [|done].
  by rewrite lookup_insert_ne by naive_solver.
Qed.

Lemma rd64_wr64 h t i v t' i' :
  rd64 (wr64 h t i v) t' i' = if decide (t' = t /\ i' = i) then v else rd64 h t' i'.
Proof.
  case_decide as E; [destruct E; subst; apply rd64_wr64_eq|].
  apply rd64_wr64_ne. destruct (decide (t' = t)); naive_solver.
Qed.

Lemma h_live_wr64 h t i v : h_live (wr64 h t i v) = h_live h.
Proof. done. Qed.

Lemma get_zeroed_page_Some h p h' : get_zeroed_page h = (Some p, h') ->
  page_choice (h_tick h) (h_live h) = Some p /\ h_live h' = {[p]} ∪ h_live h.
Proof. unfold get_zeroed_page. case_match; naive_solver. Qed.

Lemma get_zeroed_page_None h h' : get_zeroed_page h = (None, h') ->
  h_words h' = h_words h /\ h_bytes h' = h_bytes h /\ h_live h' = h_live h.
Proof. unfold get_zeroed_page. case_match; naive_solver. Qed.

Lemma rd64_new_page h p h' t i : get_zeroed_page h = (Some p, h') ->
  rd64 h' t i = if decide (t = p) then 0 else rd64 h t i.
Proof.
  unfold get_zeroed_page. case_match; [|done]. intros [= -> <-]. unfold rd64; simpl.
  rewrite lookup_insert. repeat case_decide; subst; try done.
Qed.

Lemma rd64_no_page h h' t i : get_zeroed_page h = (None, h') -> rd64 h' t i = rd64 h t i.
Proof. intros (E & _ & _)%get_zeroed_page_None. unfold rd64. by rewrite E. Qed.

Lemma rd64_free h p t i : t <> p -> rd64 (free_page h p) t i = rd64 h t i.
Proof. intros. unfold rd64, free_page; simpl. by rewrite lookup_delete_ne. Qed.

(** Bytes of the pages in use are left alone. *)
Definition same_bytes (h h' : host) : Prop :=
  forall p o, p ∈ h_live h -> rd8 h' p o = rd8 h p o.

Lemma same_bytes_refl h : same_bytes h h.
Proof. done. Qed.

Lemma same_bytes_trans h1 h2 h3 : h_live h1 ⊆ h_live h2 ->
  same_bytes h1 h2 -> same_bytes h2 h3 -> same_bytes h1 h3.
Proof. intros L E E' p o Hp. rewrite E', E; auto. Qed.

Lemma same_bytes_page `{!PageAllocOk PA} h o h' : get_zeroed_page h = (o, h') ->
  same_bytes h h' /\ h_live h ⊆ h_live h'.
Proof.
  unfold get_zeroed_page. destruct (page_choice _ _) as [p|] eqn:E; intros [= <- <-].
  - split; [|simpl; set_solver]. intros q i Hq. unfold rd8; simpl. rewrite lookup_insert_ne; [done|].
    intros ->. by apply page_fresh in E.
  - split; [done|simpl; set_solver].
Qed.

Lemma rd8_wr8 h p o v p' o' :
  rd8 (wr8 h p o v) p' o' = if decide (p' = p /\ o' = o) then v else rd8 h p' o'.
Proof.
  unfold rd8, wr8; simpl. rewrite lookup_insert. case_decide as E.
  - subst. simpl. rewrite lookup_insert. repeat case_decide; naive_solver.
  - rewrite decide_False by naive_solver. done.
Qed.

End HostMem.

(** A concrete allocator for evaluation: the n-th call hands out the n-th page,
    and fails once [limit] pages have been handed out. *)
Definition bump_alloc (limit : nat) : PageAlloc := fun n s =>
  let p := 4096 * (Z.of_nat n + 1) in
  if (decide (p ∈ s)) then None
  else if (n <? limit)%nat && (p <? 2 ^ 52) then Some p else None.

#[export] Instance bump_alloc_ok (limit : nat) : PageAllocOk (bump_alloc limit).
Proof.
  split; intros n s p; unfold page_choice, bump_alloc; case_decide; try done;
    case_match eqn:E; try done; intros [= <-];
    apply andb_true_iff in E as [_ E%Z.ltb_lt].
  - done.
  - rewrite Z.mul_comm. apply Z.mod_mul. lia.
  - lia.
Qed.
