(* ===== verification/Radix.v ===== *)
(** * Radix page tables

    The generic theory behind the three second-stage page tables of relm (EPT,
    NPT, Arm stage 2).  A table is a host page of 512 64-bit entries; [kind n e]
    says what entry [e] of a table of level [n] is for the hardware walker
    (level 1 holds page leaves).  [walk] is the hardware walk; [wf] is the
    tree invariant: a ghost map [own] gives every table its level and the
    prefix of the page numbers it translates, and every table entry leads to
    the table that owns the extended prefix.  Nothing here is code of relm; the
    backends instantiate it. *)
From S2P Require Import Prelude HostMem.

Inductive ekind := KNone | KTable (c : Z) | KLeaf.

(** The index used below [n] further levels, and the prefix above them. *)
Definition slot (n : nat) (v : Z) : Z := (v / 512 ^ Z.of_nat n) mod 512.
Definition prefix (n : nat) (v : Z) : Z := v / 512 ^ Z.of_nat n.

Lemma pow512_pos n : 0 < 512 ^ Z.of_nat n.
Proof. apply Z.pow_pos_nonneg; lia. Qed.

Lemma slot_range n v : 0 <= slot n v < 512.
Proof. apply Z.mod_pos_bound. lia. Qed.

Lemma prefix_slot n v : prefix n v = prefix (S n) v * 512 + slot n v.
Proof.
  unfold prefix, slot. rewrite Nat2Z.inj_succ, Z.pow_succ_r, (Z.mul_comm 512 (512 ^ _)) by lia.
  rewrite <- Z.div_div by (pose proof (pow512_pos n); lia).
  pose proof (Z.div_mod (v / 512 ^ Z.of_nat n) 512). lia.
Qed.

Lemma prefix_0 v : prefix 0 v = v.
Proof. unfold prefix. apply Z.div_1_r. Qed.

Lemma prefix_top n v : 0 <= v < 512 ^ Z.of_nat n -> prefix n v = 0.
Proof. apply Z.div_small. Qed.

Lemma prefix_S n v v' : prefix n v = prefix n v' -> prefix (S n) v = prefix (S n) v'.
Proof. rewrite !(prefix_slot n). pose proof (slot_range n v). pose proof (slot_range n v'). lia. Qed.

Lemma prefix_slot_inj n v v' :
  prefix (S n) v = prefix (S n) v' -> slot n v = slot n v' -> prefix n v = prefix n v'.
Proof. rewrite !(prefix_slot n). lia. Qed.

Lemma prefix_slot_eq n v v' : prefix n v = prefix n v' -> slot n v = slot n v'.
Proof. intros H. pose proof (prefix_S _ _ _ H). rewrite !(prefix_slot n) in H. lia. Qed.

Lemma prefix_div n v : prefix n v / 512 = prefix (S n) v.
Proof. rewrite (prefix_slot n). pose proof (slot_range n v). zdm. Qed.

Lemma prefix_mod n v : prefix n v mod 512 = slot n v.
Proof. done. Qed.

Section Radix.
Context (kind : nat -> Z -> ekind).

Fixpoint walk (n : nat) (h : host) (t v : Z) : option (nat * Z) :=
  match n with
  | O => None
  | S m =>
      let e := rd64 h t (slot m v) in
      match kind n e with
      | KNone => None
      | KLeaf => Some (n, e)
      | KTable c => walk m h c v
      end
  end.

Record wf (h : host) (own : gmap Z (nat * Z)) (root : Z) (N : nat) : Prop := Wf {
  wf_root : own !! root = Some (N, 0);
  wf_child t n p i c : own !! t = Some (n, p) -> 0 <= i < 512 ->
    kind n (rd64 h t i) = KTable c -> exists m, n = S m /\ own !! c = Some (m, p * 512 + i);
  wf_live t x : own !! t = Some x -> t ∈ h_live h
}.

(** [path h v n r m t]: the walk for [v] from table [r] of level [n] reaches
    table [t] of level [m]. *)
Inductive path (h : host) (v : Z) : nat -> Z -> nat -> Z -> Prop :=
| path_refl n t : path h v n t n t
| path_step n r c m t :
    kind (S n) (rd64 h r (slot n v)) = KTable c -> path h v n c m t -> path h v (S n) r m t.

Lemma path_level h v n r m t : path h v n r m t -> (m <= n)%nat.
Proof. induction 1; lia. Qed.

Lemma path_snoc h v n r m t c :
  path h v n r (S m) t -> kind (S m) (rd64 h t (slot m v)) = KTable c -> path h v n r m c.
Proof.
  intros P. remember (S m) as k eqn:Ek. revert m Ek.
  induction P; intros m' -> Hk; econstructor; eauto. constructor.
Qed.

Lemma path_walk h v n r m t : path h v n r m t -> walk n h r v = walk m h t v.
Proof. induction 1 as [|n r c m t E P IH]; [done|]. simpl. by rewrite E. Qed.

Lemma path_prefix h v v' n r m t :
  path h v n r m t -> prefix m v = prefix m v' -> path h v' n r m t.
Proof.
  intros P. induction P as [|n r c m t E P IH]; intros Hp; [constructor|].
  apply path_step with c; [|auto].
  assert (forall k, (m <= k)%nat -> prefix k v = prefix k v') as Hk.
  { induction 1; auto using prefix_S. }
  rewrite <- (prefix_slot_eq n v v'); [done|].
  apply Hk. eapply path_level; eauto.
Qed.

Section WithWf.
Context (h : host) (own : gmap Z (nat * Z)) (root : Z) (N : nat) (W : wf h own root N).

Lemma path_own v n r m t : own !! r = Some (n, prefix n v) -> path h v n r m t ->
  own !! t = Some (m, prefix m v).
Proof.
  intros Hr P. induction P as [|n r c m t E P IH]; [done|].
  apply IH. destruct (wf_child _ _ _ _ W _ _ _ _ _ Hr (slot_range n v) E) as (k & [= <-] & ->).
  by rewrite <- prefix_slot.
Qed.

Lemma root_own v : 0 <= v < 512 ^ Z.of_nat N -> own !! root = Some (N, prefix N v).
Proof. intros Hv. rewrite prefix_top by done. apply W. Qed.

(** A write into a table only changes the walks that go through that entry. *)
Lemma walk_write t m p i e v n r : own !! t = Some (S m, p) -> 0 <= i < 512 ->
  own !! r = Some (n, prefix n v) -> prefix m v <> p * 512 + i ->
  walk n (wr64 h t i e) r v = walk n h r v.
Proof.
  intros Ht Hi. revert r. induction n as [|n IH]; intros r Hr Hne; [done|]. simpl.
  assert (rd64 (wr64 h t i e) r (slot n v) = rd64 h r (slot n v)) as ->.
  { apply rd64_wr64_ne. destruct (decide (r = t)) as [->|]; [right|by left].
    rewrite Ht in Hr. injection Hr as <- ->. intros <-. apply Hne, prefix_slot. }
  destruct (kind (S n) (rd64 h r (slot n v))) as [|c|] eqn:E; [done| |done].
  apply IH; [|done].
  destruct (wf_child _ _ _ _ W _ _ _ _ _ Hr (slot_range n v) E) as (k & [= <-] & ->).
  by rewrite <- prefix_slot.
Qed.

(** ... and leaves the tables above it reachable. *)
Lemma path_write t k p i e v n r m t' : own !! t = Some (k, p) -> (k <= m)%nat ->
  own !! r = Some (n, prefix n v) -> path h v n r m t' -> path (wr64 h t i e) v n r m t'.
Proof.
  intros Ht Hk Hr P. induction P as [|n r c m t' E P IH]; [constructor|].
  pose proof (path_level _ _ _ _ _ _ P).
  apply path_step with c.
  - rewrite rd64_wr64_ne; [done|left]. intros ->. rewrite Ht in Hr. injection Hr as -> _. lia.
  - apply IH; [done|].
    destruct (wf_child _ _ _ _ W _ _ _ _ _ Hr (slot_range n v) E) as (j & [= <-] & ->).
    by rewrite <- prefix_slot.
Qed.

(** Writing an entry that is not a table entry. *)
Lemma wf_write t n p i e : own !! t = Some (n, p) -> (forall c, kind n e <> KTable c) ->
  wf (wr64 h t i e) own root N.
Proof.
  intros Ht He. split; [apply W| |apply W].
  intros t' n' p' i' c Ht' Hi'. rewrite rd64_wr64. case_decide as E.
  - destruct E as [-> ->]. rewrite Ht in Ht'. injection Ht' as <- <-. naive_solver.
  - by apply W.
Qed.

Lemma wf_write_leaf t n p i e : own !! t = Some (n, p) -> kind n e = KLeaf ->
  wf (wr64 h t i e) own root N.
Proof. intros Ht He. eapply wf_write; [done|]. intros c. by rewrite He. Qed.

Lemma wf_write_none t n p i e : own !! t = Some (n, p) -> kind n e = KNone ->
  wf (wr64 h t i e) own root N.
Proof. intros Ht He. eapply wf_write; [done|]. intros c. by rewrite He. Qed.

(** The walk after the write of a leaf (or of an empty entry) at the end of a path. *)
Lemma walk_set t m e v v' : 0 <= v < 512 ^ Z.of_nat N -> 0 <= v' < 512 ^ Z.of_nat N ->
  path h v N root (S m) t -> (forall c, kind (S m) e <> KTable c) ->
  walk N (wr64 h t (slot m v) e) root v' =
    if decide (prefix m v' = prefix m v)
    then match kind (S m) e with KLeaf => Some (S m, e) | _ => None end
    else walk N h root v'.
Proof.
  intros Hv Hv' P He. pose proof (path_own _ _ _ _ _ (root_own v Hv) P) as Ht.
  case_decide as E.
  - rewrite (path_walk _ v' N root (S m) t).
    + simpl. rewrite <- (prefix_slot_eq m v v'), rd64_wr64_eq by done.
      destruct (kind (S m) e) eqn:?; naive_solver.
    + apply path_prefix with v; [|by apply prefix_S].
      eapply path_write; eauto. by apply root_own.
  - eapply walk_write; eauto using slot_range, root_own.
    rewrite <- prefix_slot. done.
Qed.

End WithWf.

(** ** Descending one level, allocating the table when it is missing *)
Section GetOrCreate.
Context `{PA : PageAlloc} {PAok : PageAllocOk PA}.
Context (pres : Z -> bool) (adr : Z -> Z) (link : Z -> Z).

Definition get_or_create (h : host) (t i : Z) : option Z * host :=
  let e := rd64 h t i in
  if pres e then (Some (adr e), h)
  else match get_zeroed_page h with
       | (Some c, h1) => (Some c, wr64 h1 t i (link c))
       | (None, h1) => (None, h1)
       end.

Context (kind_0 : forall n, kind n 0 = KNone).

Lemma walk_zero h n t v : (forall i, rd64 h t i = 0) -> walk n h t v = None.
Proof. destruct n; simpl; [done|]. intros ->. by rewrite kind_0. Qed.

Lemma walk_ext h h' n t v : (forall t i, rd64 h t i = rd64 h' t i) -> walk n h t v = walk n h' t v.
Proof.
  intros E. revert t. induction n as [|n IH]; intros t; [done|]. simpl. rewrite E.
  by destruct (kind _ _).
Qed.

Lemma walk_agree h h' own root N n t v : wf h own root N ->
  (forall t i, t ∈ dom own -> rd64 h t i = rd64 h' t i) ->
  own !! t = Some (n, prefix n v) -> walk n h' t v = walk n h t v.
Proof.
  intros W E. revert t. induction n as [|n IH]; intros t Ht; [done|]. simpl.
  rewrite <- E by (apply elem_of_dom; eauto).
  destruct (kind (S n) (rd64 h t (slot n v))) as [|c|] eqn:K; [done| |done].
  apply IH. destruct (wf_child _ _ _ _ W _ _ _ _ _ Ht (slot_range n v) K) as (k & [= <-] & ->).
  by rewrite <- prefix_slot.
Qed.

Lemma path_agree h h' own root N v n r m t : wf h own root N ->
  (forall t i, t ∈ dom own -> rd64 h t i = rd64 h' t i) ->
  own !! r = Some (n, prefix n v) -> path h v n r m t -> path h' v n r m t.
Proof.
  intros W E Hr P. induction P as [|n r c m t K P IH]; [constructor|].
  apply path_step with c; [rewrite <- E; [done|apply elem_of_dom; eauto]|apply IH].
  destruct (wf_child _ _ _ _ W _ _ _ _ _ Hr (slot_range n v) K) as (j & [= <-] & ->).
  by rewrite <- prefix_slot.
Qed.

Lemma wf_agree h h' own root N : wf h own root N ->
  (forall t i, t ∈ dom own -> rd64 h t i = rd64 h' t i) -> dom own ⊆ h_live h' ->
  wf h' own root N.
Proof.
  intros W E L. split; [apply W| |].
  - intros t n p i c Ht Hi. rewrite <- E by (apply elem_of_dom; eauto). by apply W.
  - intros t x Ht. apply L, elem_of_dom. eauto.
Qed.

Lemma own_fresh h own root N p n s : wf h own root N -> h_live h = s ->
  page_choice n s = Some p -> own !! p = None.
Proof.
  intros W <- Hp. destruct (own !! p) eqn:E; [|done].
  apply (wf_live _ _ _ _ W) in E. by apply page_fresh in Hp.
Qed.

(** No leaf above level 1: the tables map 4 KiB pages only. *)
Definition noleaf (h : host) (own : gmap Z (nat * Z)) : Prop :=
  forall t n p i, own !! t = Some (n, p) -> n <> 1%nat -> kind n (rd64 h t i) <> KLeaf.

(** Every table but the root hangs under a table entry: nothing is leaked. *)
Definition covered (h : host) (own : gmap Z (nat * Z)) (root : Z) (N : nat) : Prop :=
  forall t n p, own !! t = Some (n, p) -> t = root \/
    (n < N)%nat /\
    exists t', own !! t' = Some (S n, p / 512) /\ kind (S n) (rd64 h t' (p mod 512)) = KTable t.

(** An entry that is not zero means something: no half-written entries. *)
Definition clean (h : host) (own : gmap Z (nat * Z)) : Prop :=
  forall t n p i, own !! t = Some (n, p) -> rd64 h t i = 0 \/ kind n (rd64 h t i) <> KNone.

(** What one descent guarantees. *)
Definition descended (h h' : host) (own own' : gmap Z (nat * Z)) (root : Z) (N : nat) : Prop :=
  wf h' own' root N /\ own ⊆ own' /\ h_live h' = h_live h ∪ dom own' /\
  (forall t, t ∈ dom own' -> t ∈ dom own \/ t ∉ h_live h) /\
  (noleaf h own -> noleaf h' own') /\ (covered h own root N -> covered h' own' root N) /\
  (clean h own -> clean h' own') /\
  (forall v, 0 <= v < 512 ^ Z.of_nat N -> walk N h' root v = walk N h root v).

Lemma wf_dom_live h own root N : wf h own root N -> dom own ⊆ h_live h.
Proof. intros W t [x Hx]%elem_of_dom. by eapply wf_live. Qed.

Lemma descended_refl h own root N : wf h own root N -> descended h h own own root N.
Proof. intros W. split_and!; auto. pose proof (wf_dom_live _ _ _ _ W). set_solver. Qed.

Lemma descended_trans h1 h2 h3 o1 o2 o3 root N :
  descended h1 h2 o1 o2 root N -> descended h2 h3 o2 o3 root N -> descended h1 h3 o1 o3 root N.
Proof.
  intros (W & S & L & F & D & C & K & E) (W' & S' & L' & F' & D' & C' & K' & E'). split_and!; auto.
  - by trans o2.
  - rewrite L', L. apply subseteq_dom in S'. set_solver.
  - intros t [?|?]%F'; [auto|]. right. set_solver.
  - intros v Hv. rewrite E', E; auto.
Qed.

(** A fresh zeroed page hung under an empty entry changes no walk. *)
Lemma hang_table h own root N n t v p h1 :
  wf h own root N -> 0 <= v < 512 ^ Z.of_nat N -> path h v N root (S n) t ->
  kind (S n) (rd64 h t (slot n v)) = KNone ->
  get_zeroed_page h = (Some p, h1) -> kind (S n) (link p) = KTable p ->
  let h2 := wr64 h1 t (slot n v) (link p) in
  let own' := <[p := (n, prefix n v)]> own in
  descended h h2 own own' root N /\ path h2 v N root n p.
Proof.
  intros W Hv P K G Kl h2 own'.
  destruct (get_zeroed_page_Some _ _ _ G) as [Hc L].
  pose proof (own_fresh _ _ _ _ _ _ _ W eq_refl Hc) as Hfresh.
  pose proof (path_own _ _ _ _ W _ _ _ _ _ (root_own _ _ _ _ W v Hv) P) as Ht.
  assert (t <> p) as Htp by congruence.
  assert (forall t' i', t' ∈ dom own -> rd64 h t' i' = rd64 h1 t' i') as A.
  { intros t' i' [x Hx]%elem_of_dom. rewrite (rd64_new_page _ _ _ _ _ G).
    case_decide; [congruence|done]. }
  assert (wf h1 own root N) as W1.
  { eapply wf_agree; eauto. rewrite L. intros t' [x Hx%(wf_live _ _ _ _ W)]%elem_of_dom. set_solver. }
  assert (wf h2 own' root N) as W2.
  { split.
    - unfold own'. rewrite lookup_insert_ne; [apply W|]. intros ->.
      by rewrite (wf_root _ _ _ _ W) in Hfresh.
    - intros t' n' p' i' c Ht' Hi'. unfold h2. rewrite rd64_wr64. case_decide as E.
      + destruct E as [-> ->]. unfold own' in Ht'. rewrite lookup_insert_ne in Ht' by done.
        rewrite Ht in Ht'. injection Ht' as <- <-. rewrite Kl. intros [= <-]. exists n.
        unfold own'. rewrite lookup_insert_eq, <- prefix_slot. done.
      + unfold own' in Ht'. rewrite lookup_insert in Ht'. case_decide as Ep.
        * injection Ht' as <- <-. subst. rewrite (rd64_new_page _ _ _ _ _ G), decide_True by done.
          by rewrite kind_0.
        * intros Kc. destruct (wf_child _ _ _ _ W1 _ _ _ _ _ Ht' Hi' Kc) as (m & -> & Hm).
          exists m. split; [done|]. unfold own'. rewrite lookup_insert_ne; [done|congruence].
    - intros t' x. unfold own'. rewrite lookup_insert. unfold h2. rewrite h_live_wr64, L.
      case_decide; [set_solver|]. intros Hx%(wf_live _ _ _ _ W). set_solver. }
  assert (path h1 v N root (S n) t) as P1.
  { exact (path_agree _ _ _ _ _ _ _ _ _ _ W A (root_own _ _ _ _ W v Hv) P). }
  assert (path h2 v N root (S n) t) as P2.
  { eapply (path_write _ _ _ _ W1); [exact Ht|lia|by apply (root_own _ _ _ _ W)|done]. }
  assert (path h2 v N root n p) as P3.
  { eapply path_snoc; [exact P2|]. unfold h2. by rewrite rd64_wr64_eq. }
  split; [split_and!|done]; [done| | | | | | |].
  - apply insert_subseteq. done.
  - unfold h2, own'. rewrite h_live_wr64, L, dom_insert_L. pose proof (wf_dom_live _ _ _ _ W). set_solver.
  - intros t'. unfold own'. rewrite dom_insert_L. intros [->%elem_of_singleton|]%elem_of_union; [right|by left].
    by apply page_fresh in Hc.
  - intros D t' n' p' i'. unfold own'. rewrite lookup_insert. unfold h2. rewrite rd64_wr64.
    case_decide as Ep; case_decide as Et; intros Hl Hn.
    + naive_solver.
    + subst. rewrite (rd64_new_page _ _ _ _ _ G), decide_True by done. by rewrite kind_0.
    + destruct Et as [-> ->]. rewrite Ht in Hl. injection Hl as <- <-. by rewrite Kl.
    + rewrite <- A by (apply elem_of_dom; eauto). by eapply D.
  - intros C t' n' p'. unfold own'. rewrite lookup_insert. case_decide as Ep; intros Hl.
    + injection Hl as <- <-. subst. right.
      split; [pose proof (path_level _ _ _ _ _ _ P); lia|]. exists t.
      rewrite lookup_insert_ne by done. rewrite prefix_div, prefix_mod. split; [done|].
      unfold h2. by rewrite rd64_wr64_eq.
    + destruct (C _ _ _ Hl) as [->|(HN & t2 & Ht2 & K2)]; [by left|]. right. split; [done|]. exists t2.
      assert (t2 <> p) by congruence. rewrite lookup_insert_ne by done. split; [done|].
      unfold h2. rewrite rd64_wr64_ne; [by rewrite <- A by (apply elem_of_dom; eauto)|].
      destruct (decide (t2 = t)) as [->|]; [right|by left]. rewrite Ht in Ht2.
      injection Ht2 as <- _. congruence.
  - intros C t' n' p' i'. unfold own'. rewrite lookup_insert. unfold h2. rewrite rd64_wr64.
    case_decide as Ep; case_decide as Et; intros Hl.
    + naive_solver.
    + subst. left. by rewrite (rd64_new_page _ _ _ _ _ G), decide_True.
    + destruct Et as [-> ->]. rewrite Ht in Hl. injection Hl as <- <-. right. by rewrite Kl.
    + rewrite <- A by (apply elem_of_dom; eauto). by eapply C.
  - intros v' Hv'. destruct (decide (prefix n v' = prefix n v)) as [E|E].
    + rewrite (path_walk h v' N root (S n) t), (path_walk h2 v' N root n p).
      * simpl. rewrite (prefix_slot_eq n v' v), K by done. apply walk_zero.
        intros i. unfold h2. rewrite rd64_wr64_ne by auto.
        by rewrite (rd64_new_page _ _ _ _ _ G), decide_True.
      * by eapply path_prefix.
      * eapply path_prefix; [done|]. by apply prefix_S.
    + unfold h2. rewrite (walk_write _ _ _ _ W1 t n (prefix (S n) v)); eauto using slot_range.
      * eapply walk_agree; eauto. by apply (root_own _ _ _ _ W).
      * by apply (root_own _ _ _ _ W).
      * by rewrite <- prefix_slot.
Qed.

(** The software test [pres] and the link encoding agree with the hardware view
    for table entries of level [n]. *)
Class Format (n : nat) : Prop := {
  fmt_none e : pres e = false -> kind n e <> KLeaf -> kind n e = KNone;
  fmt_some e : pres e = true -> kind n e <> KLeaf -> kind n e = KTable (adr e);
  fmt_link k s c : page_choice k s = Some c -> kind n (link c) = KTable c
}.

Lemma get_or_create_spec h own root N n t v `{!Format (S n)} :
  wf h own root N -> 0 <= v < 512 ^ Z.of_nat N -> path h v N root (S n) t ->
  kind (S n) (rd64 h t (slot n v)) <> KLeaf ->
  let '(o, h') := get_or_create h t (slot n v) in
  exists own', descended h h' own own' root N /\
    (forall t x, own' !! t = Some x -> own !! t = Some x \/ x = (n, prefix n v)) /\
    (forall c, o = Some c -> path h' v N root n c) /\
    (o = None -> exists k s, page_choice k s = None).
Proof.
  intros W Hv P K. unfold get_or_create.
  destruct (pres (rd64 h t (slot n v))) eqn:Ep.
  - exists own. split_and!; auto using descended_refl; [|done]. intros c [= <-].
    eapply path_snoc; [done|]. by apply fmt_some.
  - destruct (get_zeroed_page h) as [[p|] h1] eqn:G.
    + destruct (get_zeroed_page_Some _ _ _ G) as [Hc _].
      destruct (hang_table h own root N n t v p h1) as [D Pn]; auto.
      { by apply fmt_none. }
      { by eapply fmt_link. }
      eexists. split_and!; [exact D| | |done]; [|by intros c [= <-]].
      intros t' x. rewrite lookup_insert. case_decide; [intros [= <-]; by right|by left].
    + destruct (get_zeroed_page_None _ _ G) as (E1 & _ & E3).
      assert (forall t i, rd64 h1 t i = rd64 h t i) as E by (intros; by eapply rd64_no_page).
      exists own. split_and!; [|by left|done|].
      * split_and!; auto.
        -- eapply wf_agree; eauto. rewrite E3. intros t' [x Hx%(wf_live _ _ _ _ W)]%elem_of_dom. done.
        -- rewrite E3. pose proof (wf_dom_live _ _ _ _ W). set_solver.
        -- intros D t' n' p' i'. rewrite E. apply D.
        -- intros C t' n' p' Hl. destruct (C _ _ _ Hl) as [|(? & t2 & ? & ?)]; [by left|right].
           split; [done|]. exists t2. by rewrite E.
        -- intros C t' n' p' i'. rewrite E. apply C.
        -- intros v' _. by apply walk_ext.
      * intros _. exists (h_tick h), (h_live h). unfold get_zeroed_page in G. by case_match.
Qed.

(** Descending [k] levels, to a table of level [m]. *)
Fixpoint descend (k m : nat) (h : host) (t v : Z) : option Z * host :=
  match k with
  | O => (Some t, h)
  | S k' =>
      match get_or_create h t (slot (k' + m) v) with
      | (Some c, h') => descend k' m h' c v
      | (None, h') => (None, h')
      end
  end.

Lemma descend_spec k m h own root N t v o h' :
  (forall j, (1 < j)%nat -> Format j) -> (1 <= m)%nat ->
  wf h own root N -> (forall n e, walk N h root v = Some (n, e) -> (n <= m)%nat) -> 0 <= v < 512 ^ Z.of_nat N ->
  path h v N root (k + m) t -> descend k m h t v = (o, h') ->
  exists own', descended h h' own own' root N /\
    (forall t x, own' !! t = Some x -> own !! t = Some x \/ (m <= fst x)%nat /\ snd x = prefix (fst x) v) /\
    (forall c, o = Some c -> path h' v N root m c) /\
    (o = None -> exists j s, page_choice j s = None).
Proof.
  intros Fm Hm. revert h own t.
  induction k as [|k IH]; intros h own t W D Hv P Hd; simpl in Hd, P.
  { injection Hd as <- <-. exists own. split_and!; auto using descended_refl; [|done].
    by intros c [= <-]. }
  assert (kind (S (k + m)) (rd64 h t (slot (k + m) v)) <> KLeaf) as Nl.
  { intros K. assert (S (k + m) <= m)%nat; [|lia]. eapply D. rewrite (path_walk _ _ _ _ _ _ P). simpl. by rewrite K. }
  pose proof (get_or_create_spec h own root N (k + m) t v (Format0 := Fm (S (k + m)) ltac:(lia)) W Hv P Nl) as G.
  destruct (get_or_create h t (slot (k + m) v)) as [[c|] h1]; destruct G as (own1 & D1 & Lv & Pc & Pn).
  - pose proof D1 as (W1 & _ & _ & _ & _ & _ & _ & E1).
    destruct (IH h1 own1 c W1 ltac:(intros n e; rewrite E1 by done; apply D) Hv (Pc _ eq_refl) Hd) as (own2 & D2 & Lv2 & Q).
    exists own2. split; [by eapply descended_trans|]. split; [|done].
    intros t' x [[Hx| ->]%Lv|Hx]%Lv2; [by left|right; cbn; split; [lia|done]|by right].
  - injection Hd as <- <-. exists own1. split_and!; auto; [|done].
    intros t' x [Hx| ->]%Lv; [by left|right; cbn; split; [lia|done]].
Qed.

(** With 4 KiB pages only, no walk ends above level 1. *)
Lemma noleaf_walk h own root N v n e : wf h own root N -> noleaf h own -> 0 <= v < 512 ^ Z.of_nat N ->
  walk N h root v = Some (n, e) -> n = 1%nat.
Proof.
  intros W D Hv. assert (forall k t, own !! t = Some (k, prefix k v) -> walk k h t v = Some (n, e) -> n = 1%nat) as G;
    [|apply G; by apply (root_own _ _ _ _ W)].
  induction k as [|k IH]; intros t Ht; simpl; [done|].
  destruct (kind (S k) (rd64 h t (slot k v))) as [|c|] eqn:K; [done| |].
  - apply IH. destruct (wf_child _ _ _ _ W _ _ _ _ _ Ht (slot_range k v) K) as (j & [= <-] & ->). by rewrite <- prefix_slot.
  - intros [= <- <-]. destruct k; [done|]. by apply (D _ _ _ (slot (S k) v) Ht) in K.
Qed.

Lemma descend_bytes k m h t v o h' : descend k m h t v = (o, h') ->
  same_bytes h h' /\ h_live h ⊆ h_live h'.
Proof.
  revert h t. induction k as [|k IH]; intros h t; simpl; [by intros [= _ <-]|].
  unfold get_or_create. destruct (pres _); [apply IH|].
  destruct (get_zeroed_page h) as [o1 h1] eqn:G. destruct (same_bytes_page _ _ _ G) as [B L].
  destruct o1 as [c|]; [|by intros [= _ <-]]. intros [B' L']%IH. split; [|by etrans].
  by eapply same_bytes_trans.
Qed.

(** A write that is not a table entry over an entry that is none keeps [covered]. *)
Lemma covered_write h own root N t n p i e : own !! t = Some (n, p) -> covered h own root N ->
  (forall c, kind n (rd64 h t i) <> KTable c) -> covered (wr64 h t i e) own root N.
Proof.
  intros Ht C K t1 n1 p1 Hl. destruct (C _ _ _ Hl) as [|(HN & t2 & Ht2 & K2)]; [by left|right].
  split; [done|]. exists t2. split; [done|]. rewrite rd64_wr64. case_decide as E; [|done].
  destruct E as [-> <-]. rewrite Ht in Ht2. injection Ht2 as -> ->. by apply K in K2.
Qed.

Lemma noleaf_write h own t p i e : own !! t = Some (1%nat, p) -> noleaf h own ->
  noleaf (wr64 h t i e) own.
Proof.
  intros Ht D t' n' p' i' Ht' Hn. rewrite rd64_wr64. case_decide as E.
  - destruct E as [-> ->]. congruence.
  - by apply (D _ _ _ _ Ht').
Qed.

End GetOrCreate.

(** ** Freeing a tree of tables *)
Section Free.
Context (skip : Z -> bool) (adr : Z -> Z).

Fixpoint free_tree (level : nat) (h : host) (t : Z) : host :=
  match level with
  | O => h
  | S O => free_page h t
  | S level' =>
      let h := fold_left (fun h i =>
                 let entry := rd64 h t (Z.of_nat i) in
                 if skip entry then h else free_tree level' h (adr entry)) (seq 0 512) h in
      free_page h t
  end.

Context (h0 : host) (own : gmap Z (nat * Z)) (root : Z) (N : nat).
Context (W : wf h0 own root N) (C : covered h0 own root N).
Context (kind_1 : forall e c, kind 1 e <> KTable c).
Context (skip_spec : forall t n p i, own !! t = Some (S (S n), p) -> 0 <= i < 512 ->
  let e := rd64 h0 t i in
  if skip e then (forall c, kind (S (S n)) e <> KTable c) else kind (S (S n)) e = KTable (adr e)).

(** The tables of level at most [n] below prefix [p] of level [n]. *)
Definition under (n : nat) (p t : Z) : Prop := exists m q,
  own !! t = Some (m, q) /\ (m <= n)%nat /\ q / 512 ^ Z.of_nat (n - m) = p.

Lemma own_inj n p t1 t2 : own !! t1 = Some (n, p) -> own !! t2 = Some (n, p) -> t1 = t2.
Proof.
  remember (N - n)%nat as k eqn:Ek. revert n p t1 t2 Ek.
  induction k as [|k IH]; intros n p t1 t2 Ek H1 H2.
  all: pose proof (wf_root _ _ _ _ W) as Wr.
  all: destruct (C _ _ _ H1) as [->|(N1 & u1 & O1 & K1)]; destruct (C _ _ _ H2) as [->|(N2 & u2 & O2 & K2)];
    try congruence; try lia; simplify_eq; try lia.
  assert (u1 = u2) as -> by (eapply (IH (S n)); eauto; lia). congruence.
Qed.

Lemma under_anc n p t : (1 <= n <= N)%nat -> under n p t -> exists y, own !! y = Some (n, p).
Proof.
  intros Hn (m & q & Ho & Hm & Hq). remember (n - m)%nat as k eqn:Ek. revert m q t Ho Hm Hq Ek.
  induction k as [|k IH]; intros m q t Ho Hm Hq Ek.
  - assert (m = n) as -> by lia. exists t. rewrite Z.div_1_r in Hq. by subst.
  - destruct (C _ _ _ Ho) as [->|(HN & u & Hu & _)].
    + rewrite (wf_root _ _ _ _ W) in Ho. injection Ho as <- _. lia.
    + eapply (IH _ _ u Hu); [lia| |lia]. rewrite <- Hq.
      rewrite Z.div_div by (pose proof (pow512_pos k); lia). f_equal.
      rewrite Nat2Z.inj_succ, Z.pow_succ_r by lia. lia.
Qed.

Lemma under_succ n p t : (forall t p, own !! t <> Some (0%nat, p)) -> own !! t <> Some (S n, p) ->
  under (S n) p t <-> exists i, 0 <= i < 512 /\ under n (p * 512 + i) t.
Proof.
  intros O0 Hne. split.
  - intros (m & q & Ho & Hm & Hq). destruct (decide (m = S n)) as [->|Hmn].
    { rewrite Nat.sub_diag, Z.div_1_r in Hq. congruence. }
    exists ((q / 512 ^ Z.of_nat (n - m)) mod 512). split; [apply Z.mod_pos_bound; lia|].
    exists m, q. split_and!; [done|lia|]. subst p. replace (S n - m)%nat with (S (n - m)) by lia.
    rewrite Nat2Z.inj_succ, Z.pow_succ_r, (Z.mul_comm 512) by lia.
    rewrite <- Z.div_div by (pose proof (pow512_pos (n - m)); lia).
    pose proof (Z.div_mod (q / 512 ^ Z.of_nat (n - m)) 512). lia.
  - intros (i & Hi & m & q & Ho & Hm & Hq). exists m, q. split_and!; [done|lia|].
    replace (S n - m)%nat with (S (n - m)) by lia.
    rewrite Nat2Z.inj_succ, Z.pow_succ_r, (Z.mul_comm 512) by lia.
    rewrite <- Z.div_div by (pose proof (pow512_pos (n - m)); lia). rewrite Hq. zdm.
Qed.

Lemma under_disj n p p' t : under n p t -> under n p' t -> p = p'.
Proof. intros (m & q & Ho & _ & <-) (m' & q' & Ho' & _ & <-). naive_solver. Qed.

Lemma own_level_0 t p : (1 <= N)%nat -> own !! t <> Some (0%nat, p).
Proof.
  intros HN Ho. destruct (C _ _ _ Ho) as [->|(_ & u & Hu & K)].
  - rewrite (wf_root _ _ _ _ W) in Ho. naive_solver lia.
  - by apply kind_1 in K.
Qed.

(** Freeing at [t] releases exactly the tables under it and touches no other page. *)
Definition freed (h h' : host) (P : Z -> Prop) : Prop :=
  (forall x, x ∈ h_live h' <-> x ∈ h_live h /\ ~ P x) /\
  (forall x i, ~ P x -> rd64 h' x i = rd64 h x i).

Lemma freed_none h (P : Z -> Prop) : (forall x, ~ P x) -> freed h h P.
Proof. intros No. split; [|done]. intros x. specialize (No x). tauto. Qed.

Lemma freed_trans h1 h2 h3 (P Q R : Z -> Prop) : freed h1 h2 P -> freed h2 h3 Q ->
  (forall x, R x <-> P x \/ Q x) -> freed h1 h3 R.
Proof.
  intros [L W1] [L' W2] E. split.
  - intros x. rewrite L', L, E. tauto.
  - intros x i Hx. rewrite E in Hx. rewrite W2, W1; tauto.
Qed.

Lemma freed_page h p : freed h (free_page h p) (fun x => x = p).
Proof. split; [|intros x i; apply rd64_free]. intros x. simpl. set_solver. Qed.

Definition intact (h : host) (P : Z -> Prop) : Prop := forall x i, P x -> rd64 h x i = rd64 h0 x i.

Lemma free_tree_spec n h t p : (1 <= n <= N)%nat -> own !! t = Some (n, p) ->
  intact h (under n p) -> freed h (free_tree n h t) (under n p).
Proof.
  intros Hn. assert (1 <= N)%nat as HN by lia. revert h t p.
  induction n as [|n IH]; intros h t p Ht Hi; [lia|].
  assert (under (S n) p t) as Ut by (exists (S n), p; rewrite Nat.sub_diag, Z.div_1_r; auto).
  destruct n as [|n].
  { assert (forall x, under 1 p x <-> x = t) as U.
    { intros x. split; [|by intros ->]. intros (m & q & Ho & Hm & Hq).
      destruct m as [|[|]]; [by apply own_level_0 in Ho| |lia].
      rewrite Z.div_1_r in Hq. subst. by eapply own_inj. }
    split; [intros x; simpl; rewrite U; set_solver|]. intros x i. rewrite U. apply rd64_free. }
  cbn [free_tree]. set (F := fun h i => _).
  assert (forall l h1, NoDup l -> (forall i, i ∈ l -> (i < 512)%nat) ->
    (forall x j, x = t \/ (exists i, i ∈ l /\ under (S n) (p * 512 + Z.of_nat i) x) ->
       rd64 h1 x j = rd64 h0 x j) ->
    freed h1 (fold_left F l h1) (fun x => exists i, i ∈ l /\ under (S n) (p * 512 + Z.of_nat i) x)) as L.
  { induction l as [|i l IHl]; intros h1 ND Hb A; simpl.
    { apply freed_none. by intros x (? & []%not_elem_of_nil & _). }
    setoid_rewrite elem_of_cons in Hb. setoid_rewrite elem_of_cons in A.
    apply NoDup_cons in ND as [Hil ND].
    assert (freed h1 (F h1 i) (under (S n) (p * 512 + Z.of_nat i))) as F1.
    { unfold F. rewrite A by auto. specialize (Hb i (or_introl eq_refl)).
      assert (0 <= Z.of_nat i < 512) as Hi' by lia.
      pose proof (skip_spec t n p (Z.of_nat i) Ht ltac:(lia)) as Sk. cbv zeta in Sk.
      destruct (skip _).
      - assert (forall x, ~ under (S n) (p * 512 + Z.of_nat i) x) as No; [|by apply freed_none].
        intros x (y & Hy)%under_anc; [|lia]. destruct (C _ _ _ Hy) as [->|(_ & u & Hu & K)].
        + rewrite (wf_root _ _ _ _ W) in Hy. injection Hy as Hy _. lia.
        + replace ((p * 512 + Z.of_nat i) / 512) with p in Hu by zdm.
          replace ((p * 512 + Z.of_nat i) mod 512) with (Z.of_nat i) in K by zdm.
          rewrite (own_inj _ _ _ _ Hu Ht) in K. by apply Sk in K.
      - destruct (wf_child _ _ _ _ W _ _ _ _ _ Ht Hi' Sk) as (m & [= <-] & Hc).
        apply IH; [lia|done|]. intros x j Hx. apply A. eauto. }
    assert (freed (F h1 i) (fold_left F l (F h1 i))
      (fun x => exists k, k ∈ l /\ under (S n) (p * 512 + Z.of_nat k) x)) as F2.
    { apply IHl; [done|by auto|]. intros x j Hx. rewrite (proj2 F1).
      - apply A. destruct Hx as [|(k & ? & ?)]; eauto.
      - destruct Hx as [->|(k & Hk & Hx)]; intros Hu.
        + destruct Hu as (m & q & Ho & Hm & _). rewrite Ht in Ho. injection Ho as <- _. lia.
        + pose proof (under_disj _ _ _ _ Hu Hx). assert (i = k) as -> by lia. done. }
    eapply freed_trans; [exact F1|exact F2|]. intros x. setoid_rewrite elem_of_cons. split.
    - intros (k & [->|Hk] & Hu); eauto.
    - intros [Hu|(k & Hk & Hu)]; eauto. }
  eapply freed_trans; [apply (L (seq 0 512) h)|apply freed_page|].
  { apply NoDup_seq. } { intros i. rewrite elem_of_seq. lia. }
  { intros x j Hx. apply Hi. destruct Hx as [->|(i & Hi1%elem_of_seq & m & q & Ho & Hm & Hq)]; [done|].
    apply under_succ; [intros; by apply own_level_0| |].
    - intros Ho'. rewrite Ho in Ho'. injection Ho' as -> _. lia.
    - exists (Z.of_nat i). split; [lia|]. by exists m, q. }
  intros x. destruct (decide (own !! x = Some (S (S n), p))) as [Hx|Hx].
  { rewrite (own_inj _ _ _ _ Hx Ht). tauto. }
  rewrite under_succ by (done || intros; by apply own_level_0). split.
  - intros (i & Hi1 & Hu). left. exists (Z.to_nat i). rewrite elem_of_seq, Z2Nat.id by lia.
    split; [lia|done].
  - intros [(i & Hi1%elem_of_seq & Hu)| ->]; [|done]. exists (Z.of_nat i). split; [lia|done].
Qed.

(** Every table lies below the root. *)
Lemma own_below x m q : own !! x = Some (m, q) -> (m <= N)%nat /\ 0 <= q < 512 ^ Z.of_nat (N - m).
Proof.
  intros Ho. remember (N - m)%nat as k eqn:Ek. revert m q x Ho Ek. pose proof (wf_root _ _ _ _ W) as Wr.
  induction k as [|k IH]; intros m q x Ho Ek; destruct (C _ _ _ Ho) as [->|(Hm & u & Hu & _)].
  1, 3: rewrite Wr in Ho; injection Ho as <- <-; lia.
  - lia.
  - destruct (IH _ _ _ Hu ltac:(lia)) as [_ Hq]. rewrite Nat2Z.inj_succ, Z.pow_succ_r by lia.
    split; [lia|]. revert Hq. generalize (512 ^ Z.of_nat k). intros. zdm.
Qed.

(** Freeing from the root gives back exactly the tables. *)
Lemma free_root_live : (1 <= N)%nat -> h_live (free_tree N h0 root) = h_live h0 ∖ dom own.
Proof.
  intros HN. destruct (free_tree_spec N h0 root 0) as [F _]; [lia|apply W|by intros x i _|].
  apply set_eq. intros x. rewrite F, elem_of_difference, elem_of_dom. split; intros [Hl Hn]; split; try done.
  - intros [[m q] Ho]. apply Hn. exists m, q. destruct (own_below _ _ _ Ho) as [Hm Hq]. split_and!; [done..|]. by apply Z.div_small.
  - intros (m & q & Ho & _). eauto.
Qed.

End Free.
End Radix.

(** ** 4-level x86 geometry: page numbers of 48-bit addresses *)

Definition vpn (gpa : Z) : Z := (gpa / 4096) mod 2 ^ 36.

Lemma vpn_range gpa : 0 <= vpn gpa < 512 ^ Z.of_nat 4.
Proof. apply (Z.mod_pos_bound (gpa / 4096) (2 ^ 36)). lia. Qed.

Lemma vpn_inj a b : 0 <= a < 2 ^ 48 -> 0 <= b < 2 ^ 48 -> b mod 4096 = 0 ->
  vpn a = vpn b <-> b <= a < b + 4096.
Proof. unfold vpn. intros. rewrite !Z.mod_small by (zpow; zdm). zdm. Qed.

Lemma index_slot (k : nat) (gpa : Z) : (k <= 3)%nat ->
  Z.land (Z.shiftr gpa (12 + 9 * Z.of_nat k)) 0x1FF = slot k (vpn gpa).
Proof.
  intros Hk. change 0x1FF with (2 ^ 9 - 1). rewrite land_ones_mod, Z.shiftr_div_pow2 by lia.
  unfold slot, vpn. assert (k = 0 \/ k = 1 \/ k = 2 \/ k = 3)%nat as [->|[->|[->| ->]]] by lia.
  all: cbn [Z.of_nat Pos.of_succ_nat Pos.succ Z.mul Z.add Pos.mul Pos.add].
  all: match goal with |- context [512 ^ ?k] => let v := eval vm_compute in (512 ^ k) in change (512 ^ k) with v end.
  all: zpow; zdm.
Qed.

(** The 52-bit physical address field of an x86 table entry. *)
Definition mask52 : Z := 0x000FFFFFFFFFF000.

Lemma mask52_land x : Z.land x mask52 = ((x / 4096) mod 2 ^ 40) * 4096.
Proof. exact (land_field x 12 40 ltac:(lia) ltac:(lia)). Qed.

Lemma mask52_id x : 0 <= x < 2 ^ 52 -> x mod 4096 = 0 -> Z.land x mask52 = x.
Proof. intros H1 H2. rewrite mask52_land. zpow. zdm. Qed.

Lemma mask52_entry x f : 0 <= x < 2 ^ 52 -> x mod 4096 = 0 -> Z.land f mask52 = 0 ->
  Z.land (Z.lor (Z.land x mask52) f) mask52 = x.
Proof.
  intros H1 H2 Hf. rewrite Z.land_lor_distr_l, Hf, Z.lor_0_r, <- Z.land_assoc, Z.land_diag.
  by apply mask52_id.
Qed.

Lemma mask52_flag x f m : Z.land mask52 m = 0 -> flag (Z.lor (Z.land x mask52) f) m = flag f m.
Proof.
  intros Hm. rewrite flag_lor. unfold flag at 1. by rewrite <- Z.land_assoc, Hm, Z.land_0_r.
Qed.

Lemma mask52_bounds x : 0 <= Z.land x mask52 < 2 ^ 52 /\ Z.land x mask52 mod 4096 = 0.
Proof.
  rewrite mask52_land. pose proof (Z.mod_pos_bound (x / 4096) (2 ^ 40)). zpow.
  split; [lia|]. apply Z.mod_mul. lia.
Qed.

(** A frame base and an offset below the page size. *)
Lemma lor_page_off f gpa : f mod 4096 = 0 -> Z.lor f (page_off gpa) = f + gpa mod 4096.
Proof.
  intros Hf. rewrite page_off_mod. symmetry.
  rewrite <- Z.lxor_lor, Z.add_nocarry_lxor; try done.
  all: apply Z.bits_inj'; intros n Hn; rewrite Z.land_spec, Z.bits_0.
  all: change 4096 with (2 ^ 12) in *.
  all: destruct (Z.ltb_spec n 12); [|by rewrite Z.mod_pow2_bits_high, andb_false_r by lia].
  all: replace f with ((f / 2 ^ 12) * 2 ^ 12) by (zpow; zdm).
  all: by rewrite Z.mul_pow2_bits_low by lia.
Qed.
