(* ===== verification/X86Pt.v ===== *)
(** * x86 4-level second-stage tables

    EPT and NPT entries share one layout as far as relm uses it: bit 0 makes an
    entry valid, bit 7 makes a leaf of an upper-level entry, bits 51:12 are the
    address.  This file has the hardware view of such tables, the invariant of a
    context that maps 4 KiB pages, and the effect of the four elementary steps
    (map, unmap, software walk, tear-down) on it.  The two backends instantiate
    it. *)
From S2P Require Import Prelude HostMem Radix.

(** The anonymous [stats] struct of both contexts. *)
Record pt_stats := PtStats {
  pages_4kb : Z; pages_2mb : Z; pages_1gb : Z; total_mapped : Z
}.

(** ** The hardware walk *)
Definition PT_VALID : Z := 0x1.
Definition PT_PS : Z := 0x80.

Definition x86_kind (n : nat) (e : Z) : ekind :=
  if negb (flag e PT_VALID) then KNone
  else match n with
       | 1%nat => KLeaf
       | _ => if flag e PT_PS then KLeaf else KTable (Z.land e mask52)
       end.

(** The address a leaf of level [n] gives [gpa]: the frame and the offset in it. *)
Definition leaf_address (n : nat) (e gpa : Z) : Z :=
  let sz := 4096 * 512 ^ (Z.of_nat n - 1) in
  Z.land e mask52 / sz * sz + gpa mod sz.

(** A read through the tables at [root]; bit 7 is reserved in a level-4 entry. *)
Definition pt_translate (h : host) (root gpa : Z) : option Z :=
  match walk x86_kind 4 h root (vpn gpa) with
  | Some (n, e) => if (n <=? 3)%nat then Some (leaf_address n e gpa) else None
  | None => None
  end.

Lemma x86_kind_0 n : x86_kind n 0 = KNone.
Proof. done. Qed.

Lemma x86_kind_1 e c : x86_kind 1 e <> KTable c.
Proof. unfold x86_kind. by case_match. Qed.

(** ** The invariant

    [own] is the table tree, [ms] the set of mapped page numbers. *)
Record pt_inv (h : host) (root : Z) (own : gmap Z (nat * Z)) (ms : gset Z) : Prop := PtInv {
  pi_wf : wf x86_kind h own root 4;
  pi_small : noleaf x86_kind h own;
  pi_cov : covered x86_kind h own root 4;
  pi_root : 0 < root < 2 ^ 52;
  pi_set v : 0 <= v < 512 ^ Z.of_nat 4 -> v ∈ ms <-> walk x86_kind 4 h root v <> None;
  pi_range v : v ∈ ms -> 0 <= v < 512 ^ Z.of_nat 4
}.

(** The statistics count the mapped pages exactly. *)
Definition counts (st : pt_stats) (ms : gset Z) : Prop :=
  pages_4kb st = Z.of_nat (size ms) /\ total_mapped st = 4096 * Z.of_nat (size ms).

Definition bump_4kb (st : pt_stats) : pt_stats :=
  PtStats (u64 (pages_4kb st + 1)) (pages_2mb st) (pages_1gb st) (u64 (total_mapped st + 4096)).
Definition drop_4kb (st : pt_stats) : pt_stats :=
  PtStats (u64 (pages_4kb st - 1)) (pages_2mb st) (pages_1gb st) (u64 (total_mapped st - 4096)).

Section X86.
Context `{PA : PageAlloc} {PAok : PageAllocOk PA}.

Definition pt_pres (e : Z) : bool := flag e PT_VALID.
Definition pt_adr (e : Z) : Z := Z.land e mask52.
Definition pt_link (c : Z) : Z := Z.lor (Z.land c mask52) 0x7.

#[local] Instance x86_format (n : nat) : (1 < n)%nat -> Format x86_kind pt_pres pt_adr pt_link n.
Proof.
  intros Hn. unfold pt_pres, pt_adr, pt_link. split; unfold x86_kind.
  - intros e He _. by rewrite He.
  - intros e He. rewrite He; simpl. destruct n as [|[|n]]; try lia. by case_match.
  - intros k s c Hp. pose proof (page_range _ _ _ Hp). pose proof (page_aligned _ _ _ Hp).
    rewrite !mask52_flag, mask52_entry by (done || lia). simpl.
    by destruct n as [|[|n]]; try lia.
Qed.

Lemma mapped_range h root own ms : pt_inv h root own ms -> Z.of_nat (size ms) <= 2 ^ 36.
Proof.
  intros I. assert (ms ⊆ list_to_set (seqZ 0 (2 ^ 36))) as Hs.
  { intros v Hv%(pi_range _ _ _ _ I). apply elem_of_list_to_set, elem_of_seqZ. lia. }
  apply subseteq_size in Hs. rewrite size_list_to_set in Hs by apply NoDup_seqZ.
  rewrite length_seqZ in Hs. lia.
Qed.

(** ** Creating *)
Lemma pt_inv_fresh h root h' : get_zeroed_page h = (Some root, h') ->
  pt_inv h' root {[root := (4%nat, 0)]} ∅ /\ h_live h' = {[root]} ∪ h_live h /\ root ∉ h_live h.
Proof.
  intros G. destruct (get_zeroed_page_Some _ _ _ G) as [Hc L].
  assert (forall i, rd64 h' root i = 0) as Z0.
  { intros i. by rewrite (rd64_new_page _ _ _ _ _ G), decide_True. }
  split; [split|split; [done|by apply page_fresh in Hc]].
  - split; [by rewrite lookup_singleton_eq| |].
    + intros t n p i c [<- _]%lookup_singleton_Some. rewrite Z0. by rewrite x86_kind_0.
    + intros t x [<- _]%lookup_singleton_Some. rewrite L. set_solver.
  - intros t n p i [<- _]%lookup_singleton_Some _. by rewrite Z0, x86_kind_0.
  - intros t n p [<- _]%lookup_singleton_Some. by left.
  - by apply page_range in Hc.
  - intros v Hv. rewrite (walk_zero _ x86_kind_0) by done. set_solver.
  - set_solver.
Qed.

Lemma translate_fresh h root h' gpa : get_zeroed_page h = (Some root, h') ->
  pt_translate h' root gpa = None.
Proof.
  intros G. unfold pt_translate. rewrite (walk_zero _ x86_kind_0); [done|].
  intros i. by rewrite (rd64_new_page _ _ _ _ _ G), decide_True.
Qed.

(** In the 4 KiB invariant a walk ends at level 1. *)
Lemma walk_level h root own ms v n e : pt_inv h root own ms -> 0 <= v < 512 ^ Z.of_nat 4 ->
  walk x86_kind 4 h root v = Some (n, e) -> n = 1%nat /\ flag e PT_VALID = true.
Proof.
  intros I Hv E. split; [exact (noleaf_walk _ _ _ _ _ _ _ _ (pi_wf _ _ _ _ I) (pi_small _ _ _ _ I) Hv E)|].
  revert E. generalize 4%nat, root. induction n0 as [|k IH]; intros t; simpl; [done|].
  unfold x86_kind at 1. destruct (flag (rd64 h t (slot k v)) PT_VALID) eqn:F; [|done]. cbn [negb].
  destruct k; [by intros [= _ <-]|]. destruct (flag _ PT_PS); [by intros [= _ <-]|apply IH].
Qed.

Lemma pi_leaf h root own ms v m : pt_inv h root own ms -> 0 <= v < 512 ^ Z.of_nat 4 -> (1 <= m)%nat ->
  forall n e, walk x86_kind 4 h root v = Some (n, e) -> (n <= m)%nat.
Proof. intros I Hv Hm n e E. destruct (walk_level _ _ _ _ _ _ _ I Hv E) as [-> _]. done. Qed.

(** ** Mapping *)
Abbreviation goc := (get_or_create pt_pres pt_adr pt_link).
Abbreviation pt_descend := (descend pt_pres pt_adr pt_link).

(** What an attempted mapping of page [v] may do: [r] is the C result. *)
Record map_step (h : host) (root : Z) (own : gmap Z (nat * Z)) (ms : gset Z)
    (v leaf r : Z) (h' : host) (own' : gmap Z (nat * Z)) (ms' : gset Z) : Prop := MapStep {
  ms_inv : pt_inv h' root own' ms';
  ms_own : own ⊆ own';
  ms_live : h_live h' = h_live h ∪ dom own';
  ms_new t : t ∈ dom own' -> t ∈ dom own \/ t ∉ h_live h;
  ms_code : r = 0 \/ r = - ENOMEM /\ exists k s, page_choice k s = None;
  ms_fail : r <> 0 -> ms' = ms;
  ms_done : r = 0 -> ms' = {[v]} ∪ ms;
  ms_walk v' : 0 <= v' < 512 ^ Z.of_nat 4 -> walk x86_kind 4 h' root v' =
    if decide (r = 0 /\ v' = v) then Some (1%nat, leaf) else walk x86_kind 4 h root v'
}.

Lemma pt_inv_descended h h' root own own' ms : pt_inv h root own ms ->
  descended x86_kind h h' own own' root 4 -> pt_inv h' root own' ms.
Proof.
  intros [W D Cv R Es Er] (W' & _ & _ & _ & N & Cv' & _ & E). split; auto.
  intros v Hv. rewrite (E v Hv). by apply Es.
Qed.

(** A step of the mapper: descend three levels, then write the leaf. *)
Lemma pt_map_step h root own ms gpa leaf o h1 :
  pt_inv h root own ms -> flag leaf PT_VALID = true ->
  pt_descend 3 1 h root (vpn gpa) = (o, h1) ->
  match o with
  | None => exists own', map_step h root own ms (vpn gpa) leaf (- ENOMEM) h1 own' ms
  | Some pt => exists own',
      map_step h root own ms (vpn gpa) leaf 0 (wr64 h1 pt (slot 0 (vpn gpa)) leaf) own'
        ({[vpn gpa]} ∪ ms) /\
      (flag (rd64 h1 pt (slot 0 (vpn gpa))) PT_VALID = true <-> vpn gpa ∈ ms)
  end.
Proof.
  intros I Hf Ed. pose proof (vpn_range gpa) as Hv.
  destruct (descend_spec x86_kind _ _ _ x86_kind_0 3 1 h own root 4 root (vpn gpa) o h1
    x86_format (le_n 1) (pi_wf _ _ _ _ I) (pi_leaf _ _ _ _ _ _ I Hv (le_n 1)) Hv (path_refl _ _ _ _ _) Ed)
    as (own1 & D1 & _ & Pt & Pn).
  pose proof (pt_inv_descended _ _ _ _ _ _ I D1) as I1.
  destruct D1 as (W1 & S1 & L1 & F1 & _ & _ & _ & E1).
  destruct o as [pt|]; exists own1; [|by split; eauto].
  specialize (Pt _ eq_refl).
  pose proof (path_own _ _ _ _ _ W1 _ _ _ _ _ (root_own _ _ _ _ _ W1 _ Hv) Pt) as Ht.
  assert (x86_kind 1 leaf = KLeaf) as Kl by (unfold x86_kind; by rewrite Hf).
  set (h2 := wr64 h1 pt (slot 0 (vpn gpa)) leaf).
  assert (forall v', 0 <= v' < 512 ^ Z.of_nat 4 -> walk x86_kind 4 h2 root v' =
    if decide (v' = vpn gpa) then Some (1%nat, leaf) else walk x86_kind 4 h root v') as Ew.
  { intros v' Hv'. unfold h2. rewrite (walk_set _ _ _ _ _ W1) by (done || by rewrite Kl).
    rewrite !prefix_0, Kl. case_decide; auto. }
  assert (flag (rd64 h1 pt (slot 0 (vpn gpa))) PT_VALID = true <-> vpn gpa ∈ ms) as Hms.
  { rewrite (pi_set _ _ _ _ I1 _ Hv), (path_walk _ _ _ _ _ _ _ Pt). simpl. unfold x86_kind.
    destruct (flag (rd64 h1 pt _) _); simpl; split; congruence. }
  split; [|done].
  split; auto; try done.
  2:{ intros v' Hv'. rewrite Ew by done. repeat case_decide; naive_solver. }
  split; auto.
  - eapply wf_write_leaf; eauto.
  - by eapply noleaf_write; [|apply I1].
  - eapply covered_write; [exact Ht|apply I1|]. intros c. apply x86_kind_1.
  - apply I.
  - intros v' Hv'. rewrite Ew by done. rewrite elem_of_union, elem_of_singleton, (pi_set _ _ _ _ I _ Hv').
    case_decide; naive_solver.
  - intros v' [->%elem_of_singleton|Hv']%elem_of_union; [done|]. by apply (pi_range _ _ _ _ I).
Qed.

Lemma counts_bump st h root own ms v (b : bool) : pt_inv h root own ms ->
  (b = true <-> v ∈ ms) -> counts st ms -> counts (if b then st else bump_4kb st) ({[v]} ∪ ms).
Proof.
  intros I Hb [C1 C2]. pose proof (mapped_range _ _ _ _ I) as Hr. destruct b.
  - rewrite (subseteq_union_1_L _ ms) by (apply singleton_subseteq_l, Hb; done). by split.
  - assert (size ({[v]} ∪ ms) = S (size ms)) as E.
    { rewrite size_union, size_singleton; [done|]. intros x ->%elem_of_singleton Hx. by apply Hb in Hx. }
    unfold counts, bump_4kb; simpl. rewrite E, C1, C2, !u64_small by lia. lia.
Qed.

(** A 2 MiB leaf: descend two levels, then write it over the level-2 entry. *)
Lemma pt_huge_step h root own ms gpa leaf pd h1 :
  pt_inv h root own ms -> flag leaf PT_VALID = true -> flag leaf PT_PS = true ->
  pt_descend 2 2 h root (vpn gpa) = (Some pd, h1) ->
  forall gpa', pt_translate (wr64 h1 pd (slot 1 (vpn gpa)) leaf) root gpa' =
    if decide (prefix 1 (vpn gpa') = prefix 1 (vpn gpa)) then Some (leaf_address 2 leaf gpa')
    else pt_translate h root gpa'.
Proof.
  intros I Hf Hp Ed gpa'. pose proof (vpn_range gpa) as Hv. pose proof (vpn_range gpa') as Hv'.
  destruct (descend_spec x86_kind _ _ _ x86_kind_0 2 2 h own root 4 root (vpn gpa) _ h1
    x86_format ltac:(lia) (pi_wf _ _ _ _ I) (pi_leaf _ _ _ _ _ 2 I Hv ltac:(lia)) Hv (path_refl _ _ _ _ _) Ed)
    as (own1 & D1 & _ & Pt & _). specialize (Pt _ eq_refl).
  destruct D1 as (W1 & _ & _ & _ & _ & _ & _ & E1).
  assert (x86_kind 2 leaf = KLeaf) as Kl by (unfold x86_kind; by rewrite Hf, Hp).
  unfold pt_translate. rewrite (walk_set _ _ _ _ _ W1) by (done || by rewrite Kl).
  rewrite Kl. case_decide; [done|]. by rewrite E1.
Qed.

(** ** The software walk *)
Definition pt_find (h : host) (root gpa : Z) : option Z :=
  let e4 := rd64 h root (Z.land (Z.shiftr gpa 39) 0x1FF) in
  if negb (flag e4 PT_VALID) then None else
  let e3 := rd64 h (Z.land e4 mask52) (Z.land (Z.shiftr gpa 30) 0x1FF) in
  if negb (flag e3 PT_VALID) then None else
  let e2 := rd64 h (Z.land e3 mask52) (Z.land (Z.shiftr gpa 21) 0x1FF) in
  if negb (flag e2 PT_VALID) then None else Some (Z.land e2 mask52).

Lemma index_1 gpa : Z.land (Z.shiftr gpa 12) 0x1FF = slot 0 (vpn gpa).
Proof. exact (index_slot 0 gpa ltac:(lia)). Qed.
Lemma index_2 gpa : Z.land (Z.shiftr gpa 21) 0x1FF = slot 1 (vpn gpa).
Proof. exact (index_slot 1 gpa ltac:(lia)). Qed.
Lemma index_3 gpa : Z.land (Z.shiftr gpa 30) 0x1FF = slot 2 (vpn gpa).
Proof. exact (index_slot 2 gpa ltac:(lia)). Qed.
Lemma index_4 gpa : Z.land (Z.shiftr gpa 39) 0x1FF = slot 3 (vpn gpa).
Proof. exact (index_slot 3 gpa ltac:(lia)). Qed.

Lemma kind_table h own t n p i : noleaf x86_kind h own -> own !! t = Some (S (S n), p) ->
  x86_kind (S (S n)) (rd64 h t i) =
    if flag (rd64 h t i) PT_VALID then KTable (Z.land (rd64 h t i) mask52) else KNone.
Proof.
  intros D Ht. pose proof (D t _ _ i Ht ltac:(lia)) as N. revert N. unfold x86_kind.
  destruct (flag _ PT_VALID); [|done]. simpl. by case_match.
Qed.

(** Either the walk stops before level 1, in the code and in the hardware, or the
    page table of [gpa] is found. *)
Lemma pt_find_spec h root own ms gpa : pt_inv h root own ms ->
  match pt_find h root gpa with
  | Some pt => path x86_kind h (vpn gpa) 4 root 1 pt
  | None => walk x86_kind 4 h root (vpn gpa) = None
  end.
Proof.
  intros I. unfold pt_find.
  rewrite index_4, index_3, index_2.
  pose proof (vpn_range gpa) as Hv. set (v := vpn gpa) in *.
  pose proof (pi_wf _ _ _ _ I) as W. pose proof (pi_small _ _ _ _ I) as D.
  assert (forall k t, (1 <= k)%nat -> path x86_kind h v 4 root (S k) t ->
    let e := rd64 h t (slot k v) in
    if flag e PT_VALID then path x86_kind h v 4 root k (Z.land e mask52)
    else walk x86_kind 4 h root v = None) as Step.
  { intros [|k] t Hk P e; [lia|].
    pose proof (path_own _ _ _ _ _ W _ _ _ _ _ (root_own _ _ _ _ _ W _ Hv) P) as Ht.
    pose proof (kind_table _ _ _ _ _ (slot (S k) v) D Ht) as K.
    fold e in K. destruct (flag e PT_VALID) eqn:F.
    - by eapply path_snoc.
    - rewrite (path_walk _ _ _ _ _ _ _ P). cbn [walk]. fold e. by rewrite K. }
  pose proof (Step 3%nat _ ltac:(lia) (path_refl _ _ _ _ _)) as S3. cbv zeta in S3 |- *.
  destruct (flag (rd64 h root _) PT_VALID); simpl; [|done].
  pose proof (Step 2%nat _ ltac:(lia) S3) as S2. cbv zeta in S2.
  destruct (flag (rd64 h _ (slot 2 v)) PT_VALID); simpl; [|done].
  pose proof (Step 1%nat _ ltac:(lia) S2) as S1. cbv zeta in S1.
  by destruct (flag (rd64 h _ (slot 1 v)) PT_VALID); simpl.
Qed.


(** Reading the leaf the software walk ends at. *)
Lemma pt_find_walk h root own ms gpa : pt_inv h root own ms ->
  walk x86_kind 4 h root (vpn gpa) =
    match pt_find h root gpa with
    | Some pt => let e := rd64 h pt (Z.land (Z.shiftr gpa 12) 0x1FF) in
                 if flag e PT_VALID then Some (1%nat, e) else None
    | None => None
    end.
Proof.
  intros I. pose proof (pt_find_spec _ _ _ _ gpa I) as F. destruct (pt_find h root gpa) as [pt|]; [|done].
  rewrite (path_walk _ _ _ _ _ _ _ F), index_1. cbn [walk]. unfold x86_kind.
  by destruct (flag (rd64 h pt _) PT_VALID).
Qed.

Lemma leaf_address_1 e gpa : Z.lor (Z.land e mask52) (Z.land gpa 0xFFF) = leaf_address 1 e gpa.
Proof.
  change (Z.land gpa 0xFFF) with (page_off gpa).
  rewrite lor_page_off by apply mask52_bounds. unfold leaf_address.
  pose proof (mask52_bounds e) as [_ Hm]. simpl. change (4096 * 512 ^ 0) with 4096. zdm.
Qed.

Lemma leaf_address_frame e gpa : leaf_address 1 e gpa = Z.land e mask52 + gpa mod 4096.
Proof.
  unfold leaf_address. pose proof (mask52_bounds e) as [_ Hm].
  simpl. change (4096 * 512 ^ 0) with 4096. zdm.
Qed.

Lemma frame_id hpa flags : 0 <= hpa < 2 ^ 52 -> hpa mod 4096 = 0 -> Z.land flags mask52 = 0 ->
  Z.land (Z.lor hpa flags) mask52 = hpa.
Proof. intros. rewrite Z.land_lor_distr_l, H1, Z.lor_0_r. by apply mask52_id. Qed.

(** The translations after an attempted mapping of a leaf. *)
Lemma translate_step h h' root own ms v hpa flags r own' ms' gpa' :
  map_step h root own ms v (Z.lor (Z.land hpa mask52) flags) r h' own' ms' ->
  pt_translate h' root gpa' =
    if decide (r = 0 /\ vpn gpa' = v) then Some (Z.land (Z.lor hpa flags) mask52 + gpa' mod 4096)
    else pt_translate h root gpa'.
Proof.
  intros M. unfold pt_translate. rewrite (ms_walk _ _ _ _ _ _ _ _ _ _ M) by apply vpn_range.
  case_decide; [|done]. simpl. rewrite leaf_address_frame, !Z.land_lor_distr_l.
  by rewrite <- (Z.land_assoc hpa), Z.land_diag.
Qed.

Lemma pt_translate_find h root own ms gpa : pt_inv h root own ms ->
  pt_translate h root gpa =
    match pt_find h root gpa with
    | Some pt => let e := rd64 h pt (Z.land (Z.shiftr gpa 12) 0x1FF) in
                 if flag e PT_VALID then Some (Z.lor (Z.land e mask52) (Z.land gpa 0xFFF)) else None
    | None => None
    end.
Proof.
  intros I. unfold pt_translate. rewrite (pt_find_walk _ _ _ _ _ I).
  destruct (pt_find h root gpa); [|done]. simpl. by destruct (flag _ _); rewrite ?leaf_address_1.
Qed.

(** ** Unmapping *)
Lemma pt_unmap_step h root own ms gpa pt : pt_inv h root own ms ->
  pt_find h root gpa = Some pt -> let i := Z.land (Z.shiftr gpa 12) 0x1FF in
  flag (rd64 h pt i) PT_VALID = true ->
  vpn gpa ∈ ms /\ pt_inv (wr64 h pt i 0) root own (ms ∖ {[vpn gpa]}) /\
  forall v', 0 <= v' < 512 ^ Z.of_nat 4 -> walk x86_kind 4 (wr64 h pt i 0) root v' =
    if decide (v' = vpn gpa) then None else walk x86_kind 4 h root v'.
Proof.
  intros I F i. unfold i. rewrite index_1. intros Hp.
  pose proof (vpn_range gpa) as Hv. pose proof (pt_find_spec _ _ _ _ gpa I) as P. rewrite F in P.
  pose proof (pi_wf _ _ _ _ I) as W.
  pose proof (path_own _ _ _ _ _ W _ _ _ _ _ (root_own _ _ _ _ _ W _ Hv) P) as Ht.
  assert (vpn gpa ∈ ms) as Hin.
  { rewrite (pi_set _ _ _ _ I _ Hv), (pt_find_walk _ _ _ _ _ I), F, index_1. simpl. by rewrite Hp. }
  assert (forall v', 0 <= v' < 512 ^ Z.of_nat 4 ->
    walk x86_kind 4 (wr64 h pt (slot 0 (vpn gpa)) 0) root v' =
      if decide (v' = vpn gpa) then None else walk x86_kind 4 h root v') as Ew.
  { intros v' Hv'. rewrite (walk_set _ _ _ _ _ W) by done. by rewrite !prefix_0. }
  split_and!; [done| |done]. split.
  - by eapply wf_write_none.
  - by eapply noleaf_write; [|apply I].
  - eapply covered_write; [exact Ht|apply I|]. intros c. apply x86_kind_1.
  - apply I.
  - intros v' Hv'. rewrite Ew by done.
    rewrite elem_of_difference, elem_of_singleton, (pi_set _ _ _ _ I _ Hv'). case_decide; naive_solver.
  - intros v' [Hv' _]%elem_of_difference. by apply (pi_range _ _ _ _ I).
Qed.

Lemma counts_drop st h root own ms v : pt_inv h root own ms -> v ∈ ms -> counts st ms ->
  counts (drop_4kb st) (ms ∖ {[v]}).
Proof.
  intros I Hin [C1 C2]. pose proof (mapped_range _ _ _ _ I).
  pose proof (size_difference ms {[v]}) as Sz. rewrite size_singleton in Sz.
  specialize (Sz ltac:(set_solver)).
  assert (0 < size ms)%nat by (destruct (size ms) eqn:E0; [|lia]; apply size_empty_inv in E0; set_solver).
  unfold counts, drop_4kb; simpl. rewrite C1, C2, Sz, !u64_small by lia. lia.
Qed.

(** ** Tear-down *)
Definition pt_skip (e : Z) : bool := negb (flag e PT_VALID) || flag e PT_PS.

Lemma pt_free_spec h root own ms : pt_inv h root own ms ->
  h_live (free_tree pt_skip pt_adr 4 h root) = h_live h ∖ dom own.
Proof.
  intros I. apply (free_root_live x86_kind pt_skip pt_adr h own root 4 (pi_wf _ _ _ _ I) (pi_cov _ _ _ _ I) x86_kind_1); [|lia].
  intros t n p i Ht Hi. cbv zeta. rewrite (kind_table _ _ _ _ _ _ (pi_small _ _ _ _ I) Ht).
  pose proof (pi_small _ _ _ _ I t _ _ i Ht ltac:(lia)) as N. unfold x86_kind in N. unfold pt_skip.
  destruct (flag (rd64 h t i) PT_VALID); simpl in *; [|done]. by destruct (flag (rd64 h t i) PT_PS).
Qed.

(** ** Steps that leave the tables alone *)
Lemma pt_inv_ext h h' root own ms : pt_inv h root own ms ->
  (forall t i, t ∈ dom own -> rd64 h t i = rd64 h' t i) -> dom own ⊆ h_live h' -> pt_inv h' root own ms.
Proof.
  intros I E L. pose proof (pi_wf _ _ _ _ I) as W. split.
  - by eapply wf_agree.
  - intros t n p i Ht. rewrite <- E by (apply elem_of_dom; eauto). by eapply (pi_small _ _ _ _ I).
  - intros t n p Ht. destruct (pi_cov _ _ _ _ I _ _ _ Ht) as [|(Hn & u & Hu & K)]; [by left|right].
    split; [done|]. exists u. rewrite <- E by (apply elem_of_dom; eauto). done.
  - apply I.
  - intros v Hv. rewrite (walk_agree _ _ _ _ _ _ _ _ v W E); [by apply (pi_set _ _ _ _ I)|]. by apply (root_own _ _ _ _ _ W).
  - apply I.
Qed.

Lemma pt_translate_ext h h' root own ms gpa : pt_inv h root own ms ->
  (forall t i, t ∈ dom own -> rd64 h t i = rd64 h' t i) ->
  pt_translate h' root gpa = pt_translate h root gpa.
Proof.
  intros I E. unfold pt_translate. pose proof (pi_wf _ _ _ _ I) as W.
  rewrite (walk_agree _ _ _ _ _ _ _ _ _ W E); [done|]. apply (root_own _ _ _ _ _ W), vpn_range.
Qed.

Lemma alloc_keeps h root own ms p h' : pt_inv h root own ms -> get_zeroed_page h = (Some p, h') ->
  forall t i, t ∈ dom own -> rd64 h t i = rd64 h' t i.
Proof.
  intros I G t i Ht. rewrite (rd64_new_page _ _ _ _ _ G). case_decide as E; [|done]. subst t.
  apply get_zeroed_page_Some in G as [G _]. apply page_fresh in G. destruct G.
  apply elem_of_dom in Ht as [x Hx]. by apply (wf_live _ _ _ _ _ (pi_wf _ _ _ _ I)) in Hx.
Qed.

End X86.

(** ** The contract: a finite map from page numbers to frames

    The abstract state of a second-stage context, and the steps its operations
    may take with their C results.  [guard] is the argument check of the map
    operation. *)
Inductive pt_op := OMap (gpa hpa flags : Z) | OUnmap (gpa : Z).

Inductive spec_step (guard : Z -> Z -> Z -> bool) (m : gmap Z Z) : pt_op -> Z -> gmap Z Z -> Prop :=
| spec_map gpa hpa flags : guard gpa hpa flags = true ->
    spec_step guard m (OMap gpa hpa flags) 0 (<[vpn gpa := Z.land (Z.lor hpa flags) mask52]> m)
| spec_map_nomem gpa hpa flags : guard gpa hpa flags = true ->
    spec_step guard m (OMap gpa hpa flags) (- ENOMEM) m
| spec_map_inval gpa hpa flags : guard gpa hpa flags = false ->
    spec_step guard m (OMap gpa hpa flags) (- EINVAL) m
| spec_unmap gpa f : m !! vpn gpa = Some f -> spec_step guard m (OUnmap gpa) 0 (delete (vpn gpa) m)
| spec_unmap_none gpa : m !! vpn gpa = None -> spec_step guard m (OUnmap gpa) (- ENOENT) m.

(** [translates f m]: the hardware translation [f] is the abstract map [m]. *)
Definition translates (f : Z -> option Z) (m : gmap Z Z) : Prop :=
  forall gpa, f gpa = (fun frame => frame + gpa mod 4096) <$> m !! vpn gpa.

Inductive spec_run (guard : Z -> Z -> Z -> bool) : gmap Z Z -> list (pt_op * Z) -> gmap Z Z -> Prop :=
| spec_nil m : spec_run guard m [] m
| spec_cons m op r m1 tr m2 : spec_step guard m op r m1 -> spec_run guard m1 tr m2 ->
    spec_run guard m ((op, r) :: tr) m2.
