(* ===== verification/MemOps.v ===== *)
(** * The second-stage memory interface

    [struct relm_mem_ops] of include/relm/vm.h: what the VM core asks of the
    architecture backend that owns the second-stage tables.  [MemOps] are the
    operations on the backend's context ([None] is a NULL context pointer), with
    the C return codes; [MemOpsOk] is what a backend promises: an invariant of
    its context, the translation the hardware sees, and the exact effect of each
    operation on both.  The VM core is proved against this interface, and the
    EPT and NPT backends discharge it. *)
From S2P Require Import Prelude HostMem Radix.

Definition RELM_MEM_F_READ : Z := 0x1.
Definition RELM_MEM_F_WRITE : Z := 0x2.
Definition RELM_MEM_F_EXEC : Z := 0x4.
Definition RELM_MEM_F_MMIO : Z := 0x8.

Class MemOps := {
  mo_ctx : Type;
  mo_map_page : host -> option mo_ctx -> Z -> Z -> Z -> Z * host * option mo_ctx;
  mo_unmap_page : host -> option mo_ctx -> Z -> host * option mo_ctx;
  mo_destroy : host -> option mo_ctx -> host * option mo_ctx
}.

(** What mapping one 4 KiB page promises, for a context with invariant [inv]
    (its tables are the pages [T]) and hardware translation [tr]: on success the
    page is mapped to the frame and nothing else changes; on failure no
    translation changes; new tables are fresh pages; guest bytes stay. *)
Definition map_promise {PA : PageAlloc} {C : Type}
    (mapf : host -> option C -> Z -> Z -> Z * host * option C)
    (inv : host -> C -> gset Z -> Prop) (tr : host -> C -> Z -> option Z) : Prop :=
  forall h c T gpa hpa r h' o, inv h c T ->
    gpa mod 4096 = 0 -> hpa mod 4096 = 0 -> 0 <= hpa < 2 ^ 52 ->
    mapf h (Some c) gpa hpa = (r, h', o) ->
    exists c' T', o = Some c' /\ inv h' c' T' /\ T ⊆ T' /\
      h_live h' = h_live h ∪ T' /\ (forall t, t ∈ T' -> t ∈ T \/ t ∉ h_live h) /\
      same_bytes h h' /\
      (r = 0 \/ r = - ENOMEM /\ exists k s, page_choice k s = None) /\
      forall gpa', tr h' c' gpa' =
        if decide (r = 0 /\ vpn gpa' = vpn gpa) then Some (hpa + gpa' mod 4096) else tr h c gpa'.

(** [mo_inv h c T]: the context is well formed and its tables are the pages [T]. *)
Class MemOpsOk {PA : PageAlloc} (MO : MemOps) := {
  mo_inv : host -> mo_ctx -> gset Z -> Prop;
  mo_translate : host -> mo_ctx -> Z -> option Z;
  mo_live h c T : mo_inv h c T -> T ⊆ h_live h;
  mo_map_ok flags : flag flags RELM_MEM_F_READ = true ->
    map_promise (fun h c gpa hpa => mo_map_page h c gpa hpa flags) mo_inv mo_translate;
  mo_unmap_ok h c T gpa h' o : mo_inv h c T ->
    mo_unmap_page h (Some c) gpa = (h', o) ->
    exists c', o = Some c' /\ mo_inv h' c' T /\ h_live h' = h_live h /\ same_bytes h h' /\
      forall gpa', mo_translate h' c' gpa' =
        if decide (vpn gpa' = vpn gpa) then None else mo_translate h c gpa';
  mo_destroy_ok h c T h' o : mo_inv h c T -> mo_destroy h (Some c) = (h', o) ->
    o = None /\ h_live h' = h_live h ∖ T;
  (** a step that leaves the words of the tables alone, and the tables in use,
      leaves the context alone: stores of bytes into pages, handing out or freeing
      a page that is not a table *)
  mo_frame h h' c T : mo_inv h c T -> (forall t i, t ∈ T -> rd64 h t i = rd64 h' t i) ->
    T ⊆ h_live h' -> mo_inv h' c T /\ forall gpa, mo_translate h' c gpa = mo_translate h c gpa
}.

(** ** Mapping a contiguous range page by page

    The loop of the range mappers of the backends: [skip] is the test that leaves
    a page out. *)
Section RangeLoop.
Context `{PA : PageAlloc} {C : Type}.
Context (mapf : host -> option C -> Z -> Z -> Z * host * option C) (skip : Z -> bool).

Fixpoint range_loop (n : nat) (i : Z) (h : host) (c : option C) (gpa_start hpa_start : Z)
    : Z * host * option C :=
  match n with
  | O => (0, h, c)
  | S n =>
      let gpa := u64 (gpa_start + i * 4096) in
      let hpa := u64 (hpa_start + i * 4096) in
      if skip gpa then range_loop n (i + 1) h c gpa_start hpa_start
      else match mapf h c gpa hpa with
           | (r, h, c) => if r <? 0 then (r, h, c)
                          else range_loop n (i + 1) h c gpa_start hpa_start
           end
  end.

Context (inv : host -> C -> gset Z -> Prop) (tr : host -> C -> Z -> option Z).
Context (P : map_promise mapf inv tr).

(** [k] pages are done: the translation of an address of the 48-bit guest space. *)
Definition range_done (tr0 : Z -> option Z) (g p : Z) (i k : Z) (gpa : Z) : option Z :=
  if decide (g + i * 4096 <= gpa < g + k * 4096 /\ skip (gpa - gpa mod 4096) = false)
  then Some (p + (gpa - g)) else tr0 gpa.

Lemma range_loop_spec n i h c T g p r h' o :
  inv h c T -> T ⊆ h_live h -> g mod 4096 = 0 -> p mod 4096 = 0 -> 0 <= i -> 0 <= g -> 0 <= p ->
  g + (i + Z.of_nat n) * 4096 <= 2 ^ 48 -> p + (i + Z.of_nat n) * 4096 <= 2 ^ 52 ->
  range_loop n i h (Some c) g p = (r, h', o) ->
  exists c' T' k, o = Some c' /\ inv h' c' T' /\ T ⊆ T' /\ h_live h' = h_live h ∪ T' /\
    (forall t, t ∈ T' -> t ∈ T \/ t ∉ h_live h) /\ same_bytes h h' /\
    (r = 0 /\ k = i + Z.of_nat n \/ r = - ENOMEM /\ i <= k < i + Z.of_nat n) /\
    forall gpa, 0 <= gpa < 2 ^ 48 -> tr h' c' gpa = range_done (tr h c) g p i k gpa.
Proof.
  revert i h c T. induction n as [|n IH]; intros i h c T I L Hg Hp Hi Hg0 Hp0 Hgs Hps; cbn [range_loop].
  { intros [= <- <- <-]. exists c, T, i. split_and!; [done|done|done|set_solver|auto|done|left; lia|].
    intros gpa _. unfold range_done. by rewrite decide_False by lia. }
  rewrite !u64_small by (zpow; lia). rewrite Nat2Z.inj_succ in *.
  set (gi := g + i * 4096). assert (gi mod 4096 = 0) as Hgi by (unfold gi; zdm).
  assert (forall gpa, gi <= gpa < gi + 4096 -> gpa - gpa mod 4096 = gi) as Pg by (intros; zdm).
  destruct (skip gi) eqn:Sk.
  - intros (c' & T' & k & -> & I' & S' & L' & F' & B' & K & E)%(IH _ _ _ T); [|done || lia..].
    exists c', T', k. split_and!; auto; [destruct K as [[]|[]]; [left|right]; lia|].
    intros gpa Hgpa. rewrite E by done. unfold range_done.
    destruct (decide (gi <= gpa < gi + 4096)) as [D|D].
    + rewrite Pg by done. rewrite !decide_False; [done| |]; [intros [_ ?]; congruence|].
      unfold gi in *. lia.
    + apply decide_ext. unfold gi in *. split; intros [? ?]; split; done || lia.
  - destruct (mapf h (Some c) gi (p + i * 4096)) as [[r1 h1] o1] eqn:Em.
    destruct (P h c T gi (p + i * 4096) r1 h1 o1 I Hgi ltac:(zdm) ltac:(lia) Em)
      as (c1 & T1 & -> & I1 & S1 & L1 & F1 & B1 & R1 & E1).
    assert (forall gpa, 0 <= gpa < 2 ^ 48 -> tr h1 c1 gpa =
      if decide (r1 = 0 /\ gi <= gpa < gi + 4096) then Some (p + (gpa - g)) else tr h c gpa) as E1'.
    { intros gpa Hgpa. rewrite E1. pose proof (vpn_inj gpa gi Hgpa ltac:(unfold gi; lia) Hgi) as V.
      etrans; [apply (decide_ext _ (r1 = 0 /\ gi <= gpa < gi + 4096)); by rewrite V|].
      destruct (decide (r1 = 0 /\ gi <= gpa < gi + 4096)) as [D|]; [|done]. f_equal. pose proof (Pg _ (proj2 D)). unfold gi in *. lia. }
    destruct (Z.ltb_spec r1 0) as [Hr|Hr].
    + intros [= <- <- <-]. assert (r1 = - ENOMEM) as -> by (destruct R1 as [|[]]; lia).
      exists c1, T1, i. split_and!; auto; [right; lia|].
      intros gpa Hgpa. rewrite E1' by done. unfold range_done. rewrite !decide_False by lia. done.
    + assert (r1 = 0) as -> by (destruct R1 as [|[-> _]]; [done|unfold ENOMEM in Hr; lia]).
      intros (c' & T' & k & -> & I' & S' & L' & F' & B' & K & E)%(IH _ _ _ T1);
        [|done || lia || (rewrite L1; set_solver)..].
      exists c', T', k. split_and!; auto.
      * set_solver.
      * rewrite L', L1. set_solver.
      * intros t [Ht|Ht]%F'; [auto|]. right. rewrite L1 in Ht. set_solver.
      * eapply same_bytes_trans; [|done..]. rewrite L1. set_solver.
      * destruct K as [[]|[]]; [left|right]; lia.
      * intros gpa Hgpa. rewrite E by done. unfold range_done.
        destruct (decide (gi <= gpa < gi + 4096)) as [D|D].
        -- rewrite Pg, Sk by done. rewrite decide_False, decide_True by (unfold gi in *; lia).
           rewrite E1', decide_True by done. done.
        -- rewrite E1', (decide_False (P := 0 = 0 /\ _)) by (done || naive_solver).
           apply decide_ext. unfold gi in *. split; intros [? ?]; split; done || lia.
Qed.
End RangeLoop.
