(* ===== verification/VmMem.v ===== *)
(** * Guest memory bookkeeping of a VM

    [struct relm_vm_memory] of include/relm/vm.h: the list of guest RAM regions
    and the registry of reserved MMIO windows, with the registry operations of
    src/virtio/mmio.c.  The VM is the state the operations run on, so the NULL
    checks on the [vm] pointer have no counterpart; other pointers that the code
    tests against NULL are [option]s. *)
From S2P Require Import Prelude.

Definition RELM_MAX_MMIO_REGIONS : nat := 8.

(** [struct guest_mem_region]; [next] is the list. [pages] is NULL for an MMIO
    pass-through region; an entry is a page (its physical address) or NULL. *)
Record guest_mem_region := GuestRegion {
  gr_gpa_start : Z;
  gr_size : Z;
  gr_pages : option (list (option Z));
  gr_nr_pages : Z;
  gr_flags : Z
}.

Record relm_mmio_region := MmioRegion {
  mr_gpa_start : Z;
  mr_size : Z;
  mr_name : string
}.

Record relm_vm_memory := VmMemory {
  mem_regions : list guest_mem_region;
  total_guest_ram : Z;
  mmio_regions : list relm_mmio_region;   (** the array, RELM_MAX_MMIO_REGIONS slots *)
  mmio_region_count : nat
}.

Definition mmio_region_none : relm_mmio_region := MmioRegion 0 0 "".

(** The memory of a VM just allocated with kzalloc. *)
Definition vm_memory0 : relm_vm_memory :=
  VmMemory [] 0 (replicate RELM_MAX_MMIO_REGIONS mmio_region_none) 0.

Definition live_regions (m : relm_vm_memory) : list relm_mmio_region :=
  take (mmio_region_count m) (mmio_regions m).

(** The overlap test of the reserve loops: both ends are 64-bit sums. *)
Definition range_overlap (gpa_start this_end start size : Z) : bool :=
  (gpa_start <? u64 (start + size)) && (start <? this_end).

Definition relm_vm_reserve_mmio_region (m : relm_vm_memory) (gpa_start size : Z)
    (name : option string) : Z * relm_vm_memory :=
  match name with
  | None => (- EINVAL, m)
  | Some name =>
      if size =? 0 then (- EINVAL, m)
      else if negb (PAGE_ALIGNED gpa_start) || negb (PAGE_ALIGNED size) then (- EINVAL, m)
      else
        let this_end := u64 (gpa_start + size) in
        if existsb (fun r => range_overlap gpa_start this_end (gr_gpa_start r) (gr_size r))
                   (mem_regions m)
        then (- EBUSY, m)
        else if existsb (fun r => range_overlap gpa_start this_end (mr_gpa_start r) (mr_size r))
                        (live_regions m)
        then (- EBUSY, m)
        else if (RELM_MAX_MMIO_REGIONS <=? mmio_region_count m)%nat then (- ENOSPC, m)
        else (0, VmMemory (mem_regions m) (total_guest_ram m)
                   (<[mmio_region_count m := MmioRegion gpa_start size (strscpy 32 name)]>
                      (mmio_regions m))
                   (S (mmio_region_count m)))
  end.

Definition relm_vm_release_mmio_region (m : relm_vm_memory) (gpa_start : Z) : relm_vm_memory :=
  match find_index (fun r => mr_gpa_start r =? gpa_start) (live_regions m) with
  | Some i => VmMemory (mem_regions m) (total_guest_ram m)
                (shift_down (mmio_regions m) i (mmio_region_count m))
                (mmio_region_count m - 1)
  | None => m
  end.

(** [fault_gpa >= start && fault_gpa < start + size], the sum in 64 bits. *)
Definition in_region (r : relm_mmio_region) (gpa : Z) : bool :=
  (mr_gpa_start r <=? gpa) && (gpa <? u64 (mr_gpa_start r + mr_size r)).

Definition relm_vm_gpa_is_mmio_region (m : relm_vm_memory) (fault_gpa : Z) : bool :=
  existsb (fun r => in_region r fault_gpa) (live_regions m).

(** unsigned int relm_vm_mmio_region_count *)
Definition relm_vm_mmio_region_count (m : relm_vm_memory) : nat := mmio_region_count m.

(** [inl errno] or [inr] the copied-out descriptor. *)
Definition relm_vm_mmio_region_at (m : relm_vm_memory) (index : nat) : Z + relm_mmio_region :=
  if (mmio_region_count m <=? index)%nat then inl (- ENOENT)
  else match mmio_regions m !! index with
       | Some r => inr r
       | None => inl (- ENOENT)
       end.

(** ** The registry invariant *)

Definition region_ok (r : relm_mmio_region) : Prop :=
  0 <= mr_gpa_start r /\ 0 < mr_size r /\ mr_gpa_start r + mr_size r < 2 ^ 64 /\
  mr_gpa_start r mod 4096 = 0 /\ mr_size r mod 4096 = 0.

Definition ram_ok (r : guest_mem_region) : Prop :=
  0 <= gr_gpa_start r /\ 0 < gr_size r /\ gr_gpa_start r + gr_size r < 2 ^ 64.

Definition disjoint_ranges (s1 l1 s2 l2 : Z) : Prop := s1 + l1 <= s2 \/ s2 + l2 <= s1.

Record mmio_wf (m : relm_vm_memory) : Prop := MmioWf {
  mw_len : length (mmio_regions m) = RELM_MAX_MMIO_REGIONS;
  mw_count : (mmio_region_count m <= RELM_MAX_MMIO_REGIONS)%nat;
  mw_ok : Forall region_ok (live_regions m);
  mw_ram_ok : Forall ram_ok (mem_regions m);
  mw_ram r g : r ∈ live_regions m -> g ∈ mem_regions m ->
    disjoint_ranges (mr_gpa_start r) (mr_size r) (gr_gpa_start g) (gr_size g);
  mw_disj i j r r' : live_regions m !! i = Some r -> live_regions m !! j = Some r' -> i <> j ->
    disjoint_ranges (mr_gpa_start r) (mr_size r) (mr_gpa_start r') (mr_size r')
}.

Lemma range_overlap_false a la b lb : 0 <= a -> 0 < la -> a + la < 2 ^ 64 ->
  0 <= b -> 0 < lb -> b + lb < 2 ^ 64 ->
  range_overlap a (u64 (a + la)) b lb = false <-> disjoint_ranges a la b lb.
Proof.
  intros. unfold range_overlap, disjoint_ranges. rewrite !u64_small by lia.
  rewrite andb_false_iff, !Z.ltb_ge. lia.
Qed.

Lemma in_region_spec r gpa : region_ok r ->
  in_region r gpa = true <-> mr_gpa_start r <= gpa < mr_gpa_start r + mr_size r.
Proof.
  intros (? & ? & ? & _). unfold in_region. rewrite u64_small by lia.
  rewrite andb_true_iff, Z.leb_le, Z.ltb_lt. done.
Qed.

Lemma mmio_wf_init : mmio_wf vm_memory0.
Proof.
  split; try done; try (unfold live_regions; simpl; lia).
  - intros r g. unfold live_regions; simpl. intros []%not_elem_of_nil.
Qed.

(** The successful case of a reservation, as an equation on the live list. *)
Lemma reserve_inv m g l nm m' : mmio_wf m ->
  relm_vm_reserve_mmio_region m g l nm = (0, m') ->
  exists name, nm = Some name /\ l <> 0 /\ g mod 4096 = 0 /\ l mod 4096 = 0 /\
    live_regions m' = live_regions m ++ [MmioRegion g l (strscpy 32 name)] /\
    mem_regions m' = mem_regions m /\ total_guest_ram m' = total_guest_ram m /\
    length (mmio_regions m') = length (mmio_regions m) /\
    mmio_region_count m' = S (mmio_region_count m) /\
    (mmio_region_count m < RELM_MAX_MMIO_REGIONS)%nat /\
    (forall r, r ∈ mem_regions m -> range_overlap g (u64 (g + l)) (gr_gpa_start r) (gr_size r) = false) /\
    (forall r, r ∈ live_regions m -> range_overlap g (u64 (g + l)) (mr_gpa_start r) (mr_size r) = false).
Proof.
  intros W. unfold relm_vm_reserve_mmio_region. destruct nm as [name|]; [|done].
  destruct (Z.eqb_spec l 0); [done|].
  destruct (negb (PAGE_ALIGNED g) || negb (PAGE_ALIGNED l)) eqn:A; [done|].
  case_match eqn:E1; [done|]. case_match eqn:E2; [done|].
  destruct (Nat.leb_spec RELM_MAX_MMIO_REGIONS (mmio_region_count m)); [done|].
  intros [= <-]. tidy_bool. exists name.
  rewrite <- !PAGE_ALIGNED_spec. split_and!; auto; simpl.
  - unfold live_regions; simpl. apply take_insert_end. rewrite (mw_len _ W). done.
  - apply length_insert.
  - by apply existsb_false.
  - by apply existsb_false.
Qed.

Lemma release_inv m g : mmio_wf m ->
  let m' := relm_vm_release_mmio_region m g in
  mem_regions m' = mem_regions m /\ total_guest_ram m' = total_guest_ram m /\
  length (mmio_regions m') = length (mmio_regions m) /\
  (mmio_region_count m' <= mmio_region_count m)%nat /\
  live_regions m' = match find_index (fun r => mr_gpa_start r =? g) (live_regions m) with
                    | Some i => delete i (live_regions m)
                    | None => live_regions m
                    end.
Proof.
  intros W m'. unfold m', relm_vm_release_mmio_region.
  destruct (find_index _ _) as [i|] eqn:E; [|auto].
  split_and!; simpl; auto using shift_down_length; [lia|].
  unfold live_regions at 1; simpl. apply shift_down_take.
  - apply find_index_Some in E as (x & Hx & _). apply lookup_lt_Some in Hx.
    unfold live_regions in Hx. rewrite length_take in Hx. lia.
  - rewrite (mw_len _ W). apply W.
Qed.

(** ** Properties of the registry *)

Lemma reserve_wf m m' g l ret nm :
  mmio_wf m -> 0 <= g -> 0 <= l -> g + l < 2 ^ 64 ->
  relm_vm_reserve_mmio_region m g l nm = (ret, m') -> mmio_wf m'.
Proof.
  intros W Hg Hl Hw H. destruct (decide (ret = 0)) as [->|Hr].
  2:{ unfold relm_vm_reserve_mmio_region in H. repeat case_match; simplify_eq; done. }
  destruct (reserve_inv _ _ _ _ _ W H)
    as (name & -> & Hl0 & Ag & Al & Elive & Emem & _ & Elen & Ecnt & Hcnt & Nram & Nmm).
  assert (region_ok (MmioRegion g l (strscpy 32 name))) as Rok.
  { unfold region_ok; simpl. lia. }
  assert (forall r, r ∈ live_regions m ->
            disjoint_ranges g l (mr_gpa_start r) (mr_size r)) as Dmm.
  { intros r Hr. pose proof (proj1 (Forall_forall _ _) (mw_ok _ W) _ Hr) as (? & ? & ? & _).
    apply range_overlap_false; auto; lia. }
  split.
  - rewrite Elen. apply W.
  - rewrite Ecnt. lia.
  - rewrite Elive. apply Forall_app. split; [apply W|]. by constructor.
  - rewrite Emem. apply W.
  - intros r x. rewrite Elive, Emem, elem_of_app, list_elem_of_singleton.
    intros [Hr| ->] Hx; [by apply (mw_ram _ W)|]. simpl.
    pose proof (proj1 (Forall_forall _ _) (mw_ram_ok _ W) _ Hx) as (? & ? & ?).
    apply range_overlap_false; auto; lia.
  - intros i j r r'. rewrite Elive, !lookup_snoc_Some.
    intros [[Hi Er]|[Hi Er]] [[Hj Er']|[Hj Er']] Hij; simpl in *; subst.
    + by eapply (mw_disj _ W i j).
    + apply list_elem_of_lookup_2 in Er. specialize (Dmm _ Er). unfold disjoint_ranges in *. simpl. lia.
    + apply list_elem_of_lookup_2 in Er'. by apply Dmm.
    + lia.
Qed.

(** A reservation request whose range does not run past the 64-bit address
    space keeps the registry invariant whatever its outcome: at most eight
    windows, all page aligned and non-empty, pairwise disjoint and disjoint from
    every guest RAM region; a refused request changes nothing. *)
Theorem reserve_preserves_wf (m m' : relm_vm_memory) (g l ret : Z) (nm : option string) :
  mmio_wf m -> 0 <= g -> 0 <= l -> g + l < 2 ^ 64 ->
  relm_vm_reserve_mmio_region m g l nm = (ret, m') ->
  mmio_wf m' /\ (ret <> 0 -> m' = m).
Proof.
  intros W Hg Hl Hw H. split; [exact (reserve_wf _ _ _ _ _ _ W Hg Hl Hw H)|]. intros Hr.
  unfold relm_vm_reserve_mmio_region in H. repeat case_match; simplify_eq; done.
Qed.

Lemma reserve_preserves_wf_witness :
  mmio_wf (snd (relm_vm_reserve_mmio_region vm_memory0 0xD0000000 4096 (Some "virtio"%string))).
Proof.
  apply (reserve_preserves_wf vm_memory0 _ 0xD0000000 4096 0 (Some "virtio"%string));
    [apply mmio_wf_init | lia | lia | lia | reflexivity].
Defined.

(** After a successful reservation an address is recognised as MMIO exactly
    when it was before or lies in the reserved window. *)
Theorem is_mmio_after_reserve (m m' : relm_vm_memory) (g l : Z) (nm : option string) (gpa : Z) :
  mmio_wf m -> 0 <= g -> 0 <= l -> g + l < 2 ^ 64 ->
  relm_vm_reserve_mmio_region m g l nm = (0, m') ->
  relm_vm_gpa_is_mmio_region m' gpa =
    relm_vm_gpa_is_mmio_region m gpa || ((g <=? gpa) && (gpa <? g + l)).
Proof.
  intros W Hg Hl Hw H. destruct (reserve_inv _ _ _ _ _ W H) as (name & -> & _ & _ & _ & E & _).
  unfold relm_vm_gpa_is_mmio_region. rewrite E, existsb_app; simpl. rewrite orb_false_r.
  unfold in_region at 2; simpl. by rewrite u64_small by lia.
Qed.

Lemma is_mmio_after_reserve_witness :
  relm_vm_gpa_is_mmio_region
    (snd (relm_vm_reserve_mmio_region vm_memory0 0xD0000000 4096 (Some "virtio"%string))) 0xD0000010 = true.
Proof.
  rewrite (is_mmio_after_reserve vm_memory0 _ 0xD0000000 4096 (Some "virtio"%string) 0xD0000010);
    [reflexivity | apply mmio_wf_init | lia | lia | lia | reflexivity].
Defined.

(** Two live windows of a well-formed registry that start at the same address are the same. *)
Lemma start_inj m i j r r' : mmio_wf m -> live_regions m !! i = Some r ->
  live_regions m !! j = Some r' -> mr_gpa_start r = mr_gpa_start r' -> i = j.
Proof.
  intros W Hi Hj E. destruct (decide (i = j)); [done|].
  pose proof (mw_disj _ W _ _ _ _ Hi Hj) as D. unfold disjoint_ranges in D.
  apply list_elem_of_lookup_2 in Hi, Hj.
  pose proof (proj1 (Forall_forall _ _) (mw_ok _ W) _ Hi) as (? & ? & _).
  pose proof (proj1 (Forall_forall _ _) (mw_ok _ W) _ Hj) as (? & ? & _). lia.
Qed.

Lemma elem_of_delete {A} (l : list A) i x : x ∈ delete i l <-> exists j, j <> i /\ l !! j = Some x.
Proof.
  rewrite list_elem_of_lookup. split.
  - intros [k Hk]. destruct (decide (k < i)%nat).
    + rewrite list_lookup_delete_lt in Hk by done. exists k. split; [lia|done].
    + rewrite list_lookup_delete_ge in Hk by lia. exists (S k). split; [lia|done].
  - intros (j & Hne & Hj). destruct (decide (j < i)%nat).
    + exists j. by rewrite list_lookup_delete_lt.
    + exists (j - 1)%nat. rewrite list_lookup_delete_ge by lia. by replace (S (j - 1)) with j by lia.
Qed.

Lemma release_elem m g r : mmio_wf m ->
  r ∈ live_regions (relm_vm_release_mmio_region m g) <-> r ∈ live_regions m /\ mr_gpa_start r <> g.
Proof.
  intros W. destruct (release_inv m g W) as (_ & _ & _ & _ & Elive). rewrite Elive.
  destruct (find_index _ _) as [i|] eqn:F.
  - apply find_index_Some in F as (x & Hx & Px%Z.eqb_eq & _). rewrite elem_of_delete. split.
    + intros (j & Hne & Hj). split; [by eapply list_elem_of_lookup_2|].
      intros E. apply Hne. eapply start_inj; eauto. congruence.
    + intros [[j Hj]%list_elem_of_lookup Hne]. exists j. split; [|done].
      intros ->. rewrite Hx in Hj. naive_solver.
  - pose proof (find_index_None _ _ F) as N. split; [|naive_solver].
    intros Hr. split; [done|]. apply Z.eqb_neq, (N _ Hr).
Qed.

Lemma release_wf m g : mmio_wf m -> mmio_wf (relm_vm_release_mmio_region m g).
Proof.
  intros W. destruct (release_inv m g W) as (Emem & _ & Elen & Ecnt & Elive).
  pose proof (fun r => release_elem m g r W) as Eq. set (m' := relm_vm_release_mmio_region m g) in *.
  split.
  - rewrite Elen. apply W.
  - pose proof (mw_count _ W). lia.
  - apply Forall_forall. intros r [Hr _]%Eq. by apply (proj1 (Forall_forall _ _) (mw_ok _ W)).
  - rewrite Emem. apply W.
  - rewrite Emem. intros r x [Hr _]%Eq. by apply (mw_ram _ W).
  - rewrite Elive. destruct (find_index _ _) as [k|]; [|apply W].
    intros i j r r'. rewrite !list_lookup_delete. intros Hi Hj Hij.
    repeat case_decide; eapply (mw_disj _ W); eauto; lia.
Qed.

(** Releasing a start address keeps the registry invariant and removes exactly
    the window that starts there: an address stays MMIO exactly when some other
    window holds it; releasing an address nothing starts at changes nothing. *)
Theorem release_spec (m : relm_vm_memory) (g : Z) :
  mmio_wf m ->
  let m' := relm_vm_release_mmio_region m g in
  mmio_wf m' /\
  (forall gpa, relm_vm_gpa_is_mmio_region m' gpa = true <->
     exists r, r ∈ live_regions m /\ mr_gpa_start r <> g /\ in_region r gpa = true) /\
  ((forall r, r ∈ live_regions m -> mr_gpa_start r <> g) -> m' = m).
Proof.
  intros W m'. split_and!; [by apply release_wf| |].
  - intros gpa. unfold relm_vm_gpa_is_mmio_region. rewrite existsb_true.
    split; intros (r & Hr & P); exists r; unfold m' in *; rewrite release_elem in * by done; naive_solver.
  - intros N. unfold m', relm_vm_release_mmio_region.
    destruct (find_index _ _) as [i|] eqn:F; [|done].
    apply find_index_Some in F as (x & Hx & Px%Z.eqb_eq & _).
    by apply list_elem_of_lookup_2, N in Hx.
Qed.

Lemma release_spec_witness : mmio_wf (relm_vm_release_mmio_region vm_memory0 0xD0000000).
Proof. apply (release_spec vm_memory0 0xD0000000). apply mmio_wf_init. Defined.

(** Reserving a window and releasing it gives back the registry: the same live
    windows in the same order, so the slot is free for the next device. *)
Theorem reserve_release (m m' : relm_vm_memory) (g l : Z) (nm : option string) :
  mmio_wf m -> 0 <= g -> 0 <= l -> g + l < 2 ^ 64 ->
  relm_vm_reserve_mmio_region m g l nm = (0, m') ->
  live_regions (relm_vm_release_mmio_region m' g) = live_regions m /\
  mmio_region_count (relm_vm_release_mmio_region m' g) = mmio_region_count m.
Proof.
  intros W Hg Hl Hw H. pose proof (reserve_inv _ _ _ _ _ W H)
    as (name & -> & Hl0 & _ & _ & E & _ & _ & Elen & Ecnt & Hcnt & _ & Nmm).
  assert (mmio_wf m') as W' by exact (reserve_wf _ _ _ _ _ _ W Hg Hl Hw H).
  assert (find_index (fun r => mr_gpa_start r =? g) (live_regions m') =
          Some (length (live_regions m))) as F.
  { rewrite E. assert (forall r, r ∈ live_regions m -> (mr_gpa_start r =? g) = false) as N.
    { intros r Hr. apply Z.eqb_neq. intros Er. specialize (Nmm _ Hr).
      pose proof (proj1 (Forall_forall _ _) (mw_ok _ W) _ Hr) as (? & ? & ? & _).
      apply range_overlap_false in Nmm; [|lia..]. unfold disjoint_ranges in Nmm. lia. }
    clear -N. induction (live_regions m) as [|r rs IH]; simpl; [by rewrite Z.eqb_refl|].
    rewrite N by set_solver. rewrite IH by set_solver. done. }
  destruct (release_inv m' g W') as (_ & _ & _ & _ & El). rewrite F, E in El.
  assert (length (live_regions m) = mmio_region_count m) as Hlen.
  { unfold live_regions. rewrite length_take, (mw_len _ W). pose proof (mw_count _ W). lia. }
  split.
  - rewrite El. apply list_eq. intros k. rewrite list_lookup_delete. case_decide.
    + by rewrite lookup_app_l by lia.
    + rewrite (lookup_ge_None_2 (live_regions m)) by lia. apply lookup_ge_None_2.
      rewrite length_app; simpl. lia.
  - unfold relm_vm_release_mmio_region. rewrite F; simpl. lia.
Qed.

Lemma reserve_release_witness :
  live_regions (relm_vm_release_mmio_region
    (snd (relm_vm_reserve_mmio_region vm_memory0 0xD0000000 4096 (Some "virtio"%string))) 0xD0000000) = [].
Proof.
  apply (reserve_release vm_memory0 _ 0xD0000000 4096 (Some "virtio"%string));
    [apply mmio_wf_init | lia | lia | lia | reflexivity].
Defined.

(** The 64-bit end of a window is not checked for wrap-around: the topmost page
    of the address space can be reserved any number of times, although the second
    request overlaps the first, and is never recognised as MMIO. *)
Theorem reserve_top_page_wraps :
  let top := 2 ^ 64 - 4096 in
  let '(r1, m1) := relm_vm_reserve_mmio_region vm_memory0 top 4096 (Some "a"%string) in
  let '(r2, m2) := relm_vm_reserve_mmio_region m1 top 4096 (Some "b"%string) in
  r1 = 0 /\ r2 = 0 /\ mmio_region_count m2 = 2%nat /\
  forall gpa, 0 <= gpa < 2 ^ 64 -> relm_vm_gpa_is_mmio_region m2 gpa = false.
Proof.
  intros top. destruct (relm_vm_reserve_mmio_region vm_memory0 _ _ _) as [r1 m1] eqn:E1.
  vm_compute in E1. injection E1 as <- <-.
  destruct (relm_vm_reserve_mmio_region _ top _ _) as [r2 m2] eqn:E2.
  vm_compute in E2. injection E2 as <- <-. split_and!; [done..|].
  intros gpa [H0 _]. unfold relm_vm_gpa_is_mmio_region, live_regions, in_region; simpl.
  change (u64 (18446744073709547520 + 4096)) with 0.
  destruct (Z.ltb_spec gpa 0); [lia|]. by rewrite !andb_false_r.
Qed.

(** ** The overlap test of the RAM mappers

    The loop over the registry in the backends' [*_range_overlaps_mmio]. *)
Definition windows_overlap (m : relm_vm_memory) (gpa size : Z) : bool :=
  existsb (fun i => match relm_vm_mmio_region_at m i with
                    | inl _ => false
                    | inr r => (gpa <? u64 (mr_gpa_start r + mr_size r)) &&
                               (mr_gpa_start r <? u64 (gpa + size))
                    end) (seq 0 (relm_vm_mmio_region_count m)).

Lemma windows_overlap_live m g l : mmio_wf m ->
  windows_overlap m g l =
    existsb (fun r => (g <? u64 (mr_gpa_start r + mr_size r)) && (mr_gpa_start r <? u64 (g + l)))
      (live_regions m).
Proof.
  intros W. unfold windows_overlap, relm_vm_mmio_region_count, relm_vm_mmio_region_at, live_regions.
  pose proof (mw_len _ W) as Hl. pose proof (mw_count _ W) as Hc.
  generalize dependent (mmio_region_count m). intros n Hc.
  rewrite <- Hl in Hc. clear W Hl. generalize dependent (mmio_regions m). intros rs Hc.
  apply eq_true_iff_eq. rewrite !existsb_true. split.
  - intros (i & Hi%elem_of_seq & P). destruct (Nat.leb_spec n i); [lia|].
    destruct (rs !! i) as [r|] eqn:E; [|done]. exists r. split; [|done].
    apply list_elem_of_lookup. exists i. by rewrite lookup_take_lt by lia.
  - intros (r & [i Hi]%list_elem_of_lookup & P). apply lookup_take_Some in Hi as [Hi Hlt].
    exists i. rewrite elem_of_seq. split; [lia|]. destruct (Nat.leb_spec n i); [lia|]. by rewrite Hi.
Qed.

(** A page of guest RAM overlaps a window exactly when each of its addresses is MMIO. *)
Lemma windows_overlap_page m g gpa : mmio_wf m -> g mod 4096 = 0 -> 0 <= g < 2 ^ 48 -> g <= gpa < g + 4096 ->
  windows_overlap m g 4096 = relm_vm_gpa_is_mmio_region m gpa.
Proof.
  intros W Ha Hg Hgpa. rewrite windows_overlap_live by done. unfold relm_vm_gpa_is_mmio_region.
  pose proof (mw_ok _ W) as Ok. induction (live_regions m) as [|r rs IH]; simpl; [done|].
  apply Forall_cons in Ok as [(R1 & R2 & R3 & R4 & R5) Ok]. rewrite IH by done. f_equal.
  unfold in_region. rewrite !u64_small by (zpow; lia).
  apply eq_true_iff_eq. rewrite !andb_true_iff, !Z.ltb_lt, Z.leb_le. zdm.
Qed.

