(* ===== verification/Ept.v ===== *)
(** * Intel extended page tables

    src/arch/x86/vmx/ept.c and include/arch/x86/vmx/ept.h: the 4-level table of a
    VMX guest.  The state is the host memory and the context [struct ept_context]
    (NULL is [None]); an [int] result is the C return value.  Locking and the
    INVEPT instruction have no effect on the tables and are not represented. *)
From S2P Require Import Prelude HostMem Radix X86Pt MemOps VmMem.

(** ** Constants of ept.h and vm.h *)
Definition EPT_PAGE_SIZE_4KB : Z := 0x1000.
Definition EPT_PAGE_SIZE_2MB : Z := 0x200000.
Definition EPT_PAGE_MASK_4KB : Z := 0xFFF.
Definition EPT_PAGE_MASK_2MB : Z := 0x1FFFFF.
Definition EPT_ACCESS_READ : Z := 0x1.
Definition EPT_ACCESS_WRITE : Z := 0x2.
Definition EPT_ACCESS_EXEC : Z := 0x4.
Definition EPT_MEMTYPE_UC : Z := 0x0.
Definition EPT_MEMTYPE_WB : Z := 0x30.
Definition EPT_IGNORE_PAT : Z := 0x40.
Definition EPT_PAGE_SIZE : Z := 0x80.
Definition EPT_ADDR_MASK : Z := 0x000FFFFFFFFFF000.
Definition EPT_RWX : Z := Z.lor EPT_ACCESS_READ (Z.lor EPT_ACCESS_WRITE EPT_ACCESS_EXEC).
Definition EPTP_MEMTYPE_WB : Z := 6.
Definition EPTP_MEMTYPE_MASK : Z := 0x7.
Definition EPTP_PAGE_WALK_LENGTH_4 : Z := 0x18.
Definition EPTP_ENABLE_AD_FLAGS : Z := 0x40.
Definition EPT_CAP_PAGE_WALK_4 : Z := 0x40.
Definition EPT_CAP_MEMTYPE_WB : Z := 0x4000.
Definition EPT_CAP_INVEPT : Z := 0x100000.

Definition EPT_PML4_INDEX (gpa : Z) : Z := Z.land (Z.shiftr gpa 39) 0x1FF.
Definition EPT_PDPT_INDEX (gpa : Z) : Z := Z.land (Z.shiftr gpa 30) 0x1FF.
Definition EPT_PD_INDEX (gpa : Z) : Z := Z.land (Z.shiftr gpa 21) 0x1FF.
Definition EPT_PT_INDEX (gpa : Z) : Z := Z.land (Z.shiftr gpa 12) 0x1FF.
Definition EPT_PAGE_OFFSET (gpa : Z) : Z := Z.land gpa 0xFFF.

Definition ept_is_4kb_aligned (addr : Z) : bool := Z.land addr EPT_PAGE_MASK_4KB =? 0.
Definition ept_is_2mb_aligned (addr : Z) : bool := Z.land addr EPT_PAGE_MASK_2MB =? 0.

Definition CONSTRUCT_EPTP (pml4_pa memtype : Z) (enable_ad : bool) : Z :=
  Z.lor (Z.lor (Z.lor (Z.land pml4_pa EPT_ADDR_MASK) EPTP_PAGE_WALK_LENGTH_4)
               (if enable_ad then EPTP_ENABLE_AD_FLAGS else 0))
        (Z.land memtype EPTP_MEMTYPE_MASK).

Record ept_context := EptContext {
  pml4 : Z;        (** kernel address of the root table; 0 is NULL *)
  pml4_pa : Z;
  eptp : Z;
  memtype : Z;
  ad_enabled : bool;
  stats : pt_stats
}.

Definition set_stats (ept : ept_context) (st : pt_stats) : ept_context :=
  EptContext (pml4 ept) (pml4_pa ept) (eptp ept) (memtype ept) (ad_enabled ept) st.

Section Ept.
Context `{PA : PageAlloc}.

(** The capability MSR is read by the hardware; its value is the argument. *)
Definition relm_ept_check_support (ept_vpid_cap : Z) : bool :=
  if negb (flag ept_vpid_cap EPT_CAP_PAGE_WALK_4) then false
  else if negb (flag ept_vpid_cap EPT_CAP_MEMTYPE_WB) then false
  else if negb (flag ept_vpid_cap EPT_CAP_INVEPT) then false
  else true.

(** [kz] says whether the kzalloc of the context struct succeeds. *)
Definition relm_ept_context_create (kz : bool) (h : host) : (Z + ept_context) * host :=
  if negb kz then (inl (- ENOMEM), h)
  else match get_zeroed_page h with
       | (None, h) => (inl (- ENOMEM), h)
       | (Some root, h) =>
           (inr (EptContext root root (CONSTRUCT_EPTP root EPTP_MEMTYPE_WB false)
                            EPTP_MEMTYPE_WB false (PtStats 0 0 0 0)), h)
       end.

(** Returns the error code and the new [vm->arch.ept]. *)
Definition relm_setup_ept (ept_vpid_cap : Z) (kz : bool) (h : host)
    (arch_ept : option ept_context) : Z * host * option ept_context :=
  if negb (relm_ept_check_support ept_vpid_cap) then (- ENOTSUPP, h, arch_ept)
  else match relm_ept_context_create kz h with
       | (inl err, h) => (err, h, None)
       | (inr ept, h) => (0, h, Some ept)
       end.

Definition relm_ept_alloc_table (h : host) : option Z * host := get_zeroed_page h.

(** [entry_ptr] is entry [idx] of table [t]; the [level] argument is unused. *)
Definition relm_ept_get_or_create_table (h : host) (t idx : Z) : option Z * host :=
  let entry := rd64 h t idx in
  if flag entry EPT_ACCESS_READ then (Some (Z.land entry EPT_ADDR_MASK), h)
  else match relm_ept_alloc_table h with
       | (Some table_va, h) =>
           let table_pa := table_va in
           (Some table_va, wr64 h t idx (Z.lor (Z.land table_pa EPT_ADDR_MASK) EPT_RWX))
       | (None, h) => (None, h)
       end.

Definition relm_ept_map_page (h : host) (ept : option ept_context) (gpa hpa flags : Z)
    : Z * host * option ept_context :=
  match ept with
  | None => (- EINVAL, h, None)
  | Some ept =>
      if pml4 ept =? 0 then (- EINVAL, h, Some ept)
      else if negb (ept_is_4kb_aligned gpa) || negb (ept_is_4kb_aligned hpa)
      then (- EINVAL, h, Some ept)
      else if negb (flag flags EPT_ACCESS_READ) then (- EINVAL, h, Some ept)
      else
        match relm_ept_get_or_create_table h (pml4 ept) (EPT_PML4_INDEX gpa) with
        | (None, h) => (- ENOMEM, h, Some ept)
        | (Some pdpt, h) =>
        match relm_ept_get_or_create_table h pdpt (EPT_PDPT_INDEX gpa) with
        | (None, h) => (- ENOMEM, h, Some ept)
        | (Some pd, h) =>
        match relm_ept_get_or_create_table h pd (EPT_PD_INDEX gpa) with
        | (None, h) => (- ENOMEM, h, Some ept)
        | (Some pt, h) =>
            let pt_idx := EPT_PT_INDEX gpa in
            let st := stats ept in
            let ept := if flag (rd64 h pt pt_idx) EPT_ACCESS_READ then ept
                       else set_stats ept (PtStats (u64 (pages_4kb st + 1)) (pages_2mb st)
                              (pages_1gb st) (u64 (total_mapped st + EPT_PAGE_SIZE_4KB))) in
            (0, wr64 h pt pt_idx (Z.lor (Z.land hpa EPT_ADDR_MASK) flags), Some ept)
        end end end
  end.

(** [for (i = 0; i < n; i++)] of the range mappers; [n] iterations are left. *)
Fixpoint ept_map_range_loop (n : nat) (i : Z) (h : host) (ept : option ept_context)
    (gpa_start hpa_start flags : Z) : Z * host * option ept_context :=
  match n with
  | O => (0, h, ept)
  | S n =>
      let gpa := u64 (gpa_start + i * EPT_PAGE_SIZE_4KB) in
      let hpa := u64 (hpa_start + i * EPT_PAGE_SIZE_4KB) in
      match relm_ept_map_page h ept gpa hpa flags with
      | (r, h, ept) =>
          if r <? 0 then (r, h, ept)
          else ept_map_range_loop n (i + 1) h ept gpa_start hpa_start flags
      end
  end.

Definition relm_ept_map_range (h : host) (ept : option ept_context)
    (gpa_start hpa_start size flags : Z) : Z * host * option ept_context :=
  match ept with
  | None => (- EINVAL, h, None)
  | Some _ =>
      let size := PAGE_ALIGN size in
      let num_pages := size / EPT_PAGE_SIZE_4KB in
      ept_map_range_loop (Z.to_nat num_pages) 0 h ept gpa_start hpa_start flags
  end.

(** The leaf is built with a product, as the code has it. *)
Definition relm_ept_map_huge_page (h : host) (ept : option ept_context) (gpa hpa flags : Z)
    : Z * host * option ept_context :=
  match ept with
  | None => (- EINVAL, h, None)
  | Some ept =>
      if pml4 ept =? 0 then (- EINVAL, h, Some ept)
      else if negb (ept_is_2mb_aligned gpa) || negb (ept_is_2mb_aligned hpa)
      then (- EINVAL, h, Some ept)
      else if negb (flag flags EPT_ACCESS_READ) then (- EINVAL, h, Some ept)
      else
        match relm_ept_get_or_create_table h (pml4 ept) (EPT_PML4_INDEX gpa) with
        | (None, h) => (- ENOMEM, h, Some ept)
        | (Some pdpt, h) =>
        match relm_ept_get_or_create_table h pdpt (EPT_PDPT_INDEX gpa) with
        | (None, h) => (- ENOMEM, h, Some ept)
        | (Some pd, h) =>
            let pd_idx := EPT_PD_INDEX gpa in
            let st := stats ept in
            let ept := if flag (rd64 h pd pd_idx) EPT_ACCESS_READ then ept
                       else set_stats ept (PtStats (pages_4kb st) (u64 (pages_2mb st + 1))
                              (pages_1gb st) (u64 (total_mapped st + EPT_PAGE_SIZE_2MB))) in
            (0, wr64 h pd pd_idx (Z.lor (Z.lor (u64 (hpa * EPT_ADDR_MASK)) flags) EPT_PAGE_SIZE),
             Some ept)
        end end
  end.

(** [vm] may be NULL here. *)
Definition ept_range_overlaps_mmio (vm : option relm_vm_memory) (gpa size : Z) : bool :=
  let range_end := u64 (gpa + size) in
  match vm with
  | None => false
  | Some m =>
      existsb (fun i => match relm_vm_mmio_region_at m i with
                        | inl _ => false
                        | inr r => (gpa <? u64 (mr_gpa_start r + mr_size r)) &&
                                   (mr_gpa_start r <? range_end)
                        end) (seq 0 (relm_vm_mmio_region_count m))
  end.

Fixpoint ept_map_ram_loop (n : nat) (i : Z) (h : host) (ept : option ept_context)
    (vm : option relm_vm_memory) (gpa_start hpa_start flags : Z) : Z * host * option ept_context :=
  match n with
  | O => (0, h, ept)
  | S n =>
      let gpa := u64 (gpa_start + i * EPT_PAGE_SIZE_4KB) in
      let hpa := u64 (hpa_start + i * EPT_PAGE_SIZE_4KB) in
      if ept_range_overlaps_mmio vm gpa EPT_PAGE_SIZE_4KB
      then ept_map_ram_loop n (i + 1) h ept vm gpa_start hpa_start flags
      else
        match relm_ept_map_page h ept gpa hpa flags with
        | (r, h, ept) =>
            if r <? 0 then (r, h, ept)
            else ept_map_ram_loop n (i + 1) h ept vm gpa_start hpa_start flags
        end
  end.

Definition relm_ept_map_guest_ram_4kb (h : host) (ept : option ept_context)
    (vm : option relm_vm_memory) (gpa_start hpa_start size flags : Z)
    : Z * host * option ept_context :=
  match ept with
  | None => (- EINVAL, h, None)
  | Some _ =>
      let size := PAGE_ALIGN size in
      let num_pages := size / EPT_PAGE_SIZE_4KB in
      ept_map_ram_loop (Z.to_nat num_pages) 0 h ept vm gpa_start hpa_start flags
  end.

(** The [while (gpa < end)] loop; out of fuel is [None]. *)
Fixpoint ept_map_huge_loop (fuel : nat) (h : host) (ept : option ept_context)
    (vm : option relm_vm_memory) (gpa hpa end_ flags : Z)
    : option (Z * host * option ept_context) :=
  if negb (gpa <? end_) then Some (0, h, ept)
  else
    match fuel with
    | O => None
    | S fuel =>
        let remaining := u64 (end_ - gpa) in
        let offset_in_2mb := Z.land gpa (EPT_PAGE_SIZE_2MB - 1) in
        let aligned_2mb := (offset_in_2mb =? 0) && (Z.land hpa (EPT_PAGE_SIZE_2MB - 1) =? 0) in
        let whole_2mb_fits := EPT_PAGE_SIZE_2MB <=? remaining in
        if aligned_2mb && whole_2mb_fits &&
           negb (ept_range_overlaps_mmio vm gpa EPT_PAGE_SIZE_2MB)
        then
          match relm_ept_map_huge_page h ept gpa hpa flags with
          | (r, h, ept) =>
              if r <? 0 then Some (r, h, ept)
              else ept_map_huge_loop fuel h ept vm (u64 (gpa + EPT_PAGE_SIZE_2MB))
                     (u64 (hpa + EPT_PAGE_SIZE_2MB)) end_ flags
          end
        else
          let to_boundary := EPT_PAGE_SIZE_2MB - offset_in_2mb in
          let chunk := if remaining <? to_boundary then remaining else to_boundary in
          match relm_ept_map_guest_ram_4kb h ept vm gpa hpa chunk flags with
          | (r, h, ept) =>
              if r <? 0 then Some (r, h, ept)
              else ept_map_huge_loop fuel h ept vm (u64 (gpa + chunk)) (u64 (hpa + chunk)) end_ flags
          end
    end.

(** One stride maps at least one 4 KiB page, so 2^52 strides are always enough. *)
Definition relm_ept_map_guest_ram_huge (fuel : nat) (h : host) (ept : option ept_context)
    (vm : option relm_vm_memory) (gpa_start hpa_start size flags : Z)
    : option (Z * host * option ept_context) :=
  match ept with
  | None => Some (- EINVAL, h, None)
  | Some _ =>
      let size := PAGE_ALIGN size in
      let end_ := u64 (gpa_start + size) in
      ept_map_huge_loop fuel h ept vm gpa_start hpa_start end_ flags
  end.

Definition relm_ept_unmap_page (h : host) (ept : option ept_context) (gpa : Z)
    : Z * host * option ept_context :=
  match ept with
  | None => (- EINVAL, h, None)
  | Some ept =>
      if pml4 ept =? 0 then (- EINVAL, h, Some ept)
      else
        let e4 := rd64 h (pml4 ept) (EPT_PML4_INDEX gpa) in
        if negb (flag e4 EPT_ACCESS_READ) then (- ENOENT, h, Some ept)
        else
          let pdpt := Z.land e4 EPT_ADDR_MASK in
          let e3 := rd64 h pdpt (EPT_PDPT_INDEX gpa) in
          if negb (flag e3 EPT_ACCESS_READ) then (- ENOENT, h, Some ept)
          else
            let pd := Z.land e3 EPT_ADDR_MASK in
            let e2 := rd64 h pd (EPT_PD_INDEX gpa) in
            if negb (flag e2 EPT_ACCESS_READ) then (- ENOENT, h, Some ept)
            else
              let pt := Z.land e2 EPT_ADDR_MASK in
              let pt_idx := EPT_PT_INDEX gpa in
              if negb (flag (rd64 h pt pt_idx) EPT_ACCESS_READ) then (- ENOENT, h, Some ept)
              else
                let st := stats ept in
                (0, wr64 h pt pt_idx 0,
                 Some (set_stats ept (PtStats (u64 (pages_4kb st - 1)) (pages_2mb st)
                        (pages_1gb st) (u64 (total_mapped st - EPT_PAGE_SIZE_4KB)))))
  end.

(** [inl errno], or [inr] the value stored through [hpa]. *)
Definition relm_ept_get_mapping (h : host) (ept : option ept_context) (gpa : Z) : Z + Z :=
  match ept with
  | None => inl (- EINVAL)
  | Some ept =>
      if pml4 ept =? 0 then inl (- EINVAL)
      else
        let e4 := rd64 h (pml4 ept) (EPT_PML4_INDEX gpa) in
        if negb (flag e4 EPT_ACCESS_READ) then inl (- ENOENT)
        else
          let pdpt := Z.land e4 EPT_ADDR_MASK in
          let e3 := rd64 h pdpt (EPT_PDPT_INDEX gpa) in
          if negb (flag e3 EPT_ACCESS_READ) then inl (- ENOENT)
          else
            let pd := Z.land e3 EPT_ADDR_MASK in
            let e2 := rd64 h pd (EPT_PD_INDEX gpa) in
            if negb (flag e2 EPT_ACCESS_READ) then inl (- ENOENT)
            else
              let pt := Z.land e2 EPT_ADDR_MASK in
              let leaf_entry := rd64 h pt (EPT_PT_INDEX gpa) in
              if negb (flag leaf_entry EPT_ACCESS_READ) then inl (- ENOENT)
              else inr (Z.lor (Z.land leaf_entry EPT_ADDR_MASK) (EPT_PAGE_OFFSET gpa))
  end.

Fixpoint relm_ept_free_table (level : nat) (h : host) (t : Z) : host :=
  match level with
  | O => h
  | S O => free_page h t
  | S level' =>
      let h := fold_left (fun h i =>
                 let entry := rd64 h t (Z.of_nat i) in
                 if negb (flag entry EPT_ACCESS_READ) then h
                 else if flag entry EPT_PAGE_SIZE then h
                 else relm_ept_free_table level' h (Z.land entry EPT_ADDR_MASK))
               (seq 0 512) h in
      free_page h t
  end.

(** The context struct itself is kfree'd: the result is only the host memory. *)
Definition relm_ept_context_destroy (h : host) (ept : option ept_context) : host :=
  match ept with
  | None => h
  | Some ept => if pml4 ept =? 0 then h else relm_ept_free_table 4 h (pml4 ept)
  end.

(** ** The VMX implementation of [struct relm_mem_ops] *)
Definition vmx_mem_flags (flags : Z) : Z :=
  let ept_flags := 0 in
  let ept_flags := if flag flags RELM_MEM_F_READ then Z.lor ept_flags EPT_ACCESS_READ else ept_flags in
  let ept_flags := if flag flags RELM_MEM_F_WRITE then Z.lor ept_flags EPT_ACCESS_WRITE else ept_flags in
  let ept_flags := if flag flags RELM_MEM_F_EXEC then Z.lor ept_flags EPT_ACCESS_EXEC else ept_flags in
  if flag flags RELM_MEM_F_MMIO
  then Z.lor ept_flags (Z.lor EPT_MEMTYPE_UC EPT_IGNORE_PAT)
  else Z.lor ept_flags EPT_MEMTYPE_WB.

Definition vmx_mem_map_page (h : host) (ept : option ept_context) (gpa hpa flags : Z)
    : Z * host * option ept_context :=
  relm_ept_map_page h ept gpa hpa (vmx_mem_flags flags).

Definition vmx_mem_unmap_page (h : host) (ept : option ept_context) (gpa : Z)
    : host * option ept_context :=
  match relm_ept_unmap_page h ept gpa with (_, h, ept) => (h, ept) end.

Definition vmx_mem_destroy (h : host) (ept : option ept_context) : host * option ept_context :=
  match ept with
  | None => (h, None)
  | Some _ => (relm_ept_context_destroy h ept, None)
  end.

End Ept.

(** The fault handlers of ept.c: both are fatal.  [have] is that the VM and its tables exist. *)
Definition relm_handle_ept_violation (have : bool) : Z := if negb have then - ENAVAIL else - EFAULT.
Definition relm_vcpu_handle_ept_misconfig : Z := - EFAULT.

(** ** Correctness

    [ept_inv h ept own ms]: the tables of [ept] are the pages of [own], form a
    tree that maps exactly the page numbers [ms] with 4 KiB leaves, and the
    statistics count them.  [ept_translate] is the hardware's view. *)
Definition ept_translate (h : host) (ept : ept_context) (gpa : Z) : option Z :=
  pt_translate h (pml4 ept) gpa.

Definition ept_inv (h : host) (ept : ept_context) (own : gmap Z (nat * Z)) (ms : gset Z) : Prop :=
  pt_inv h (pml4 ept) own ms /\ counts (stats ept) ms.

Definition ept_ok (h : host) (ept : ept_context) (T : gset Z) : Prop :=
  exists own ms, dom own = T /\ ept_inv h ept own ms.

(** The argument checks of [relm_ept_map_page]. *)
Definition ept_guard (gpa hpa flags : Z) : bool :=
  ept_is_4kb_aligned gpa && ept_is_4kb_aligned hpa && flag flags EPT_ACCESS_READ.

Section EptCorrect.
Context `{PA : PageAlloc} {PAok : PageAllocOk PA}.

Lemma ept_aligned x : ept_is_4kb_aligned x = true <-> x mod 4096 = 0.
Proof. apply PAGE_ALIGNED_spec. Qed.

Lemma ept_guard_intro gpa hpa flags : gpa mod 4096 = 0 -> hpa mod 4096 = 0 ->
  flag flags EPT_ACCESS_READ = true -> ept_guard gpa hpa flags = true.
Proof. intros Hg Hh Hf. unfold ept_guard. by rewrite (proj2 (ept_aligned _) Hg), (proj2 (ept_aligned _) Hh). Qed.

Lemma map_page_unfold h ept gpa hpa flags : 0 < pml4 ept ->
  relm_ept_map_page h (Some ept) gpa hpa flags =
    if negb (ept_guard gpa hpa flags) then (- EINVAL, h, Some ept)
    else match descend pt_pres pt_adr pt_link 3 1 h (pml4 ept) (vpn gpa) with
    | (None, h) => (- ENOMEM, h, Some ept)
    | (Some pt, h) =>
        (0, wr64 h pt (slot 0 (vpn gpa)) (Z.lor (Z.land hpa mask52) flags),
         Some (if flag (rd64 h pt (slot 0 (vpn gpa))) PT_VALID then ept
               else set_stats ept (bump_4kb (stats ept))))
    end.
Proof.
  intros Hr. unfold relm_ept_map_page, ept_guard.
  rewrite (proj2 (Z.eqb_neq (pml4 ept) 0)) by lia.
  destruct (ept_is_4kb_aligned gpa); [|done]. destruct (ept_is_4kb_aligned hpa); [|done].
  destruct (flag flags EPT_ACCESS_READ); [|done]. simpl.
  unfold EPT_PML4_INDEX, EPT_PDPT_INDEX, EPT_PD_INDEX, EPT_PT_INDEX.
  rewrite index_4, index_3, index_2, index_1.
  change relm_ept_get_or_create_table with (get_or_create pt_pres pt_adr pt_link).
  destruct (get_or_create _ _ _ h _ _) as [[pdpt|] h1]; [|done].
  destruct (get_or_create _ _ _ h1 _ _) as [[pd|] h2]; [|done].
  by destruct (get_or_create _ _ _ h2 _ _) as [[pt|] h3].
Qed.

Lemma ept_map_step h ept own ms gpa hpa flags r h' o :
  ept_inv h ept own ms -> ept_guard gpa hpa flags = true ->
  relm_ept_map_page h (Some ept) gpa hpa flags = (r, h', o) ->
  exists ept' own' ms', o = Some ept' /\ pml4 ept' = pml4 ept /\
    (r <> 0 -> ept' = ept) /\ ept_inv h' ept' own' ms' /\ same_bytes h h' /\
    map_step h (pml4 ept) own ms (vpn gpa) (Z.lor (Z.land hpa mask52) flags) r h' own' ms'.
Proof.
  intros [I Cn] Gd. rewrite map_page_unfold, Gd by apply I. cbn [negb].
  destruct (descend _ _ _ _ _ _ _ _) as [o1 h1] eqn:Ed.
  pose proof (pt_map_step h (pml4 ept) own ms gpa (Z.lor (Z.land hpa mask52) flags) o1 h1 I) as M.
  rewrite mask52_flag in M by done. unfold ept_guard in Gd. tidy_bool. specialize (M ltac:(done) Ed).
  apply descend_bytes in Ed as [B _].
  destruct o1 as [pt|]; intros [= <- <- <-].
  - destruct M as (own' & M & Bt). do 3 eexists. split; [done|].
    assert (pml4 (if flag (rd64 h1 pt (slot 0 (vpn gpa))) PT_VALID then ept
      else set_stats ept (bump_4kb (stats ept))) = pml4 ept) as Er by (by case_match).
    split_and!; [done|done| |done|exact M]. split; [rewrite Er; apply M|].
    pose proof (counts_bump _ _ _ _ _ _ _ I Bt Cn). by case_match.
  - destruct M as (own' & M). do 3 eexists. split_and!; [done..| |done|exact M]. split; [apply M|done].
Qed.

Lemma unmap_page_unfold h ept gpa : 0 < pml4 ept ->
  relm_ept_unmap_page h (Some ept) gpa =
    match pt_find h (pml4 ept) gpa with
    | Some pt => let i := Z.land (Z.shiftr gpa 12) 0x1FF in
                 if flag (rd64 h pt i) PT_VALID
                 then (0, wr64 h pt i 0, Some (set_stats ept (drop_4kb (stats ept))))
                 else (- ENOENT, h, Some ept)
    | None => (- ENOENT, h, Some ept)
    end.
Proof.
  intros Hr. unfold relm_ept_unmap_page, pt_find. rewrite (proj2 (Z.eqb_neq (pml4 ept) 0)) by lia. cbv zeta.
  change EPT_ACCESS_READ with PT_VALID. change EPT_ADDR_MASK with mask52.
  unfold EPT_PML4_INDEX, EPT_PDPT_INDEX, EPT_PD_INDEX, EPT_PT_INDEX.
  do 3 (destruct (flag _ PT_VALID); cbn [negb]; [|reflexivity]).
  destruct (flag _ PT_VALID); reflexivity.
Qed.

Lemma ept_unmap_step h ept own ms gpa r h' o : ept_inv h ept own ms ->
  relm_ept_unmap_page h (Some ept) gpa = (r, h', o) ->
  exists ept', o = Some ept' /\ ept_inv h' ept' own (ms ∖ {[vpn gpa]}) /\
    pml4 ept' = pml4 ept /\ h_live h' = h_live h /\ same_bytes h h' /\
    (r = 0 /\ vpn gpa ∈ ms \/ r = - ENOENT /\ vpn gpa ∉ ms /\ h' = h /\ ept' = ept) /\
    forall gpa', ept_translate h' ept' gpa' =
      if decide (vpn gpa' = vpn gpa) then None else ept_translate h ept gpa'.
Proof.
  intros [I Cn]. rewrite unmap_page_unfold by apply I. cbv zeta.
  pose proof (pt_find_walk _ _ _ _ gpa I) as Fw. cbv zeta in Fw.
  pose proof (pi_set _ _ _ _ I _ (vpn_range gpa)) as Es.
  assert (walk x86_kind 4 h (pml4 ept) (vpn gpa) = None -> (- ENOENT, h, Some ept) = (r, h', o) ->
    exists ept', o = Some ept' /\ ept_inv h' ept' own (ms ∖ {[vpn gpa]}) /\
    pml4 ept' = pml4 ept /\ h_live h' = h_live h /\ same_bytes h h' /\
    (r = 0 /\ vpn gpa ∈ ms \/ r = - ENOENT /\ vpn gpa ∉ ms /\ h' = h /\ ept' = ept) /\
    forall gpa', ept_translate h' ept' gpa' =
      if decide (vpn gpa' = vpn gpa) then None else ept_translate h ept gpa') as Miss.
  { intros N [= <- <- <-]. rewrite N in Es. exists ept.
    assert (ms ∖ {[vpn gpa]} = ms) as -> by (apply set_eq; set_solver).
    split_and!; [done|by split|done..| |].
    { right. split_and!; try done. intros Hin. by apply Es in Hin. }
    intros g. case_decide as E; [|done].
    unfold ept_translate, pt_translate. by rewrite E, N. }
  destruct (pt_find h (pml4 ept) gpa) as [pt|] eqn:F; [|by auto].
  destruct (flag _ PT_VALID) eqn:Fl; [|by auto].
  intros [= <- <- <-]. destruct (pt_unmap_step _ _ _ _ _ _ I F Fl) as (Hin & I' & Ew).
  eexists. split_and!; [done| |done|done|done|by left|].
  - split; [exact I'|]. by eapply counts_drop.
  - intros g. unfold ept_translate, pt_translate. simpl pml4. rewrite Ew by apply vpn_range.
    by case_decide.
Qed.

(** ** The interface of [struct relm_mem_ops] *)
Lemma ept_ok_live h ept T : ept_ok h ept T -> T ⊆ h_live h.
Proof. intros (own & ms & <- & [I _]). eapply wf_dom_live, I. Qed.

Lemma ept_map_promise flags : flag flags EPT_ACCESS_READ = true -> Z.land flags EPT_ADDR_MASK = 0 ->
  map_promise (fun h c gpa hpa => relm_ept_map_page h c gpa hpa flags) ept_ok ept_translate.
Proof.
  intros Hf Hm h ept T gpa hpa r h' o (own & ms & <- & I) Hg Hh Hr E.
  destruct (ept_map_step _ _ _ _ _ _ _ _ _ _ I (ept_guard_intro _ _ _ Hg Hh Hf) E)
    as (ept' & own' & ms' & -> & Er & _ & I' & B & M).
  exists ept', (dom own'). split_and!; [done|by exists own', ms'|by apply subseteq_dom, M|apply M..|done| |].
  - apply M.
  - intros g. unfold ept_translate. rewrite Er, (translate_step _ _ _ _ _ _ _ _ _ _ _ _ M).
    by rewrite frame_id.
Qed.

Lemma ept_ok_frame h h' ept T : ept_ok h ept T -> (forall t i, t ∈ T -> rd64 h t i = rd64 h' t i) ->
  T ⊆ h_live h' -> ept_ok h' ept T /\ forall gpa, ept_translate h' ept gpa = ept_translate h ept gpa.
Proof.
  intros (own & ms & <- & [I Cn]) E L. split.
  - exists own, ms. split; [done|split; [|done]]. by eapply pt_inv_ext.
  - intros g. by eapply pt_translate_ext.
Qed.

Lemma ept_destroy_live h ept T : ept_ok h ept T ->
  h_live (relm_ept_context_destroy h (Some ept)) = h_live h ∖ T.
Proof.
  intros (own & ms & <- & [I _]). unfold relm_ept_context_destroy.
  rewrite (proj2 (Z.eqb_neq (pml4 ept) 0)) by (destruct (pi_root _ _ _ _ I); lia).
  rewrite <- (pt_free_spec _ _ _ _ I). f_equal.
  assert (forall n h t, relm_ept_free_table n h t = free_tree pt_skip pt_adr n h t) as ->; [|done].
  induction n as [|[|n] IH]; intros h1 t; [done|done|]. cbn [relm_ept_free_table free_tree].
  f_equal. apply fold_left_ext. intros h2 i. unfold pt_skip.
  change (flag (rd64 h2 t (Z.of_nat i)) EPT_ACCESS_READ) with (flag (rd64 h2 t (Z.of_nat i)) PT_VALID).
  destruct (flag _ PT_VALID); cbn [negb orb]; [|done].
  change EPT_PAGE_SIZE with PT_PS. destruct (flag _ PT_PS); [done|]. apply IH.
Qed.

Lemma vmx_flags_ok flags : flag flags RELM_MEM_F_READ = true ->
  flag (vmx_mem_flags flags) EPT_ACCESS_READ = true /\ Z.land (vmx_mem_flags flags) EPT_ADDR_MASK = 0.
Proof. intros Hf. unfold vmx_mem_flags. rewrite Hf. by repeat case_match. Qed.

Definition vmx_mem_ops : MemOps := {|
  mo_ctx := ept_context;
  mo_map_page := vmx_mem_map_page;
  mo_unmap_page := vmx_mem_unmap_page;
  mo_destroy := vmx_mem_destroy
|}.

#[export] Instance vmx_mem_ops_ok : MemOpsOk vmx_mem_ops.
Proof.
  refine {| mo_inv := (ept_ok : host -> @mo_ctx vmx_mem_ops -> _); mo_translate := ept_translate |}.
  - apply ept_ok_live.
  - intros flags (Hf & Hm)%vmx_flags_ok. by apply ept_map_promise.
  - intros h ept T gpa h' o (own & ms & <- & I). cbn [mo_unmap_page vmx_mem_ops]. unfold vmx_mem_unmap_page.
    destruct (relm_ept_unmap_page h (Some ept) gpa) as [[r h1] o1] eqn:E. intros [= <- <-].
    destruct (ept_unmap_step _ _ _ _ _ _ _ _ I E) as (ept' & -> & I' & _ & L & B & _ & Et).
    exists ept'. split_and!; [done|by do 2 eexists|done..].
  - intros h ept T h' o Ok E. rewrite <- (f_equal fst E : _ = h'), <- (f_equal snd E : _ = o).
    split; [done|]. by apply ept_destroy_live.
  - apply ept_ok_frame.
Defined.

Lemma ept_create_ok kz h ept h' : relm_ept_context_create kz h = (inr ept, h') ->
  ept_ok h' ept {[pml4 ept]} /\ h_live h' = {[pml4 ept]} ∪ h_live h /\ pml4 ept ∉ h_live h /\
  (forall gpa, ept_translate h' ept gpa = None).
Proof.
  unfold relm_ept_context_create. destruct kz; [|done]. cbn [negb].
  destruct (get_zeroed_page h) as [[root|] h1] eqn:G; [|done]. intros [= <- <-].
  destruct (pt_inv_fresh _ _ _ G) as (I & L & F). split_and!; [|done|done|].
  - exists {[root := (4%nat, 0)]}, ∅. split; [by rewrite dom_singleton_L|]. by split.
  - intros g. by eapply translate_fresh.
Qed.

(** ** Properties *)

(** Mapping a page in a well-formed EPT context: with aligned addresses, a 52-bit
    frame and readable permissions the call either returns 0 and from then on the
    hardware translates exactly the addresses of that guest page to the frame, or
    returns -ENOMEM (only when the page allocator refused a page) and changes no
    translation; the context stays well formed, its counters exact, and only
    fresh pages became tables. *)
Theorem ept_map_page_correct (h : host) (ept : ept_context) (T : gset Z) (gpa hpa flags r : Z)
    (h' : host) (o : option ept_context) :
  ept_ok h ept T -> gpa mod 4096 = 0 -> hpa mod 4096 = 0 -> 0 <= hpa < 2 ^ 52 ->
  flag flags EPT_ACCESS_READ = true -> Z.land flags EPT_ADDR_MASK = 0 ->
  relm_ept_map_page h (Some ept) gpa hpa flags = (r, h', o) ->
  exists ept' T', o = Some ept' /\ ept_ok h' ept' T' /\ T ⊆ T' /\
    h_live h' = h_live h ∪ T' /\ (forall t, t ∈ T' -> t ∈ T \/ t ∉ h_live h) /\
    (r = 0 \/ r = - ENOMEM /\ exists k s, page_choice k s = None) /\
    forall gpa', ept_translate h' ept' gpa' =
      if decide (r = 0 /\ vpn gpa' = vpn gpa) then Some (hpa + gpa' mod 4096)
      else ept_translate h ept gpa'.
Proof.
  intros Ok Hg Hh Hr Hf Hm E.
  destruct (ept_map_promise flags Hf Hm _ _ _ _ _ _ _ _ Ok Hg Hh Hr E)
    as (ept' & T' & ? & ? & ? & ? & ? & _ & ? & ?).
  by exists ept', T'.
Qed.

(** The software walk agrees with the hardware: in a well-formed context
    relm_ept_get_mapping returns the host address the hardware would use, and
    -ENOENT exactly when a guest access would fault. *)
Theorem ept_get_mapping_correct (h : host) (ept : ept_context) (T : gset Z) (gpa : Z) :
  ept_ok h ept T ->
  relm_ept_get_mapping h (Some ept) gpa =
    match ept_translate h ept gpa with Some hpa => inr hpa | None => inl (- ENOENT) end.
Proof.
  intros (own & ms & _ & [I _]). unfold ept_translate. rewrite (pt_translate_find _ _ _ _ _ I).
  unfold relm_ept_get_mapping, pt_find.
  rewrite (proj2 (Z.eqb_neq (pml4 ept) 0)) by (destruct (pi_root _ _ _ _ I); lia). cbv zeta.
  change EPT_ACCESS_READ with PT_VALID. change EPT_ADDR_MASK with mask52.
  unfold EPT_PML4_INDEX, EPT_PDPT_INDEX, EPT_PD_INDEX, EPT_PT_INDEX, EPT_PAGE_OFFSET.
  do 3 (destruct (flag _ PT_VALID); cbn [negb]; [|reflexivity]).
  destruct (flag _ PT_VALID); reflexivity.
Qed.

(** Unmapping a page: 0 exactly when the page was mapped, -ENOENT and no change
    at all otherwise; afterwards an access to that page faults and every other
    translation is what it was; the tables stay the same pages. *)
Theorem ept_unmap_page_correct (h : host) (ept : ept_context) (T : gset Z) (gpa r : Z)
    (h' : host) (o : option ept_context) :
  ept_ok h ept T -> relm_ept_unmap_page h (Some ept) gpa = (r, h', o) ->
  exists ept', o = Some ept' /\ ept_ok h' ept' T /\ h_live h' = h_live h /\
    (r = 0 /\ ept_translate h ept gpa <> None \/
     r = - ENOENT /\ ept_translate h ept gpa = None /\ h' = h /\ ept' = ept) /\
    forall gpa', ept_translate h' ept' gpa' =
      if decide (vpn gpa' = vpn gpa) then None else ept_translate h ept gpa'.
Proof.
  intros (own & ms & <- & I) E.
  destruct (ept_unmap_step _ _ _ _ _ _ _ _ I E) as (ept' & -> & I' & _ & L & _ & R & Et).
  exists ept'. split_and!; [done|by do 2 eexists|done| |done].
  assert (ept_translate h ept gpa <> None <-> vpn gpa ∈ ms) as Hin.
  { destruct I as [I _]. rewrite (pi_set _ _ _ _ I _ (vpn_range gpa)). unfold ept_translate, pt_translate.
    destruct (walk _ _ _ _ _) as [[n e]|] eqn:Ew; [|done].
    by destruct (walk_level _ _ _ _ _ _ _ I (vpn_range gpa) Ew) as [-> _]. }
  destruct R as [[-> Hv]|(-> & Hv & -> & ->)]; [left|right].
  - split; [done|]. by apply Hin.
  - split_and!; try done. destruct (ept_translate h ept gpa) eqn:E1; [|done]. by destruct Hv; apply Hin.
Qed.

(** A sequence of calls on one context, with the results they returned. *)
Fixpoint ept_run (h : host) (ept : option ept_context) (ops : list pt_op)
    : list (pt_op * Z) * host * option ept_context :=
  match ops with
  | [] => ([], h, ept)
  | op :: ops =>
      let '(r, h, ept) := match op with
                          | OMap gpa hpa flags => relm_ept_map_page h ept gpa hpa flags
                          | OUnmap gpa => relm_ept_unmap_page h ept gpa
                          end in
      let '(tr, h, ept) := ept_run h ept ops in ((op, r) :: tr, h, ept)
  end.

(** One call simulates one step of the abstract map. *)
Lemma ept_sim h ept T m op r h1 o : ept_ok h ept T -> translates (ept_translate h ept) m ->
  match op with
  | OMap gpa hpa flags => relm_ept_map_page h (Some ept) gpa hpa flags
  | OUnmap gpa => relm_ept_unmap_page h (Some ept) gpa
  end = (r, h1, o) ->
  exists ept1 T1 m1, o = Some ept1 /\ ept_ok h1 ept1 T1 /\ spec_step ept_guard m op r m1 /\
    translates (ept_translate h1 ept1) m1 /\ T ⊆ T1 /\ h_live h1 = h_live h ∪ T1 /\
    (forall t, t ∈ T1 -> t ∈ T \/ t ∉ h_live h).
Proof.
  intros Ok Tr E. pose proof (ept_ok_live _ _ _ Ok) as Lv. destruct Ok as (own & ms & <- & I).
  destruct op as [gpa hpa flags|gpa].
  - destruct (ept_guard gpa hpa flags) eqn:Gd.
    + destruct (ept_map_step _ _ _ _ _ _ _ _ _ _ I Gd E) as (ept' & own' & ms' & -> & Er & _ & I' & _ & M).
      exists ept', (dom own').
      assert (forall g, ept_translate h1 ept' g = if decide (r = 0 /\ vpn g = vpn gpa)
        then Some (Z.land (Z.lor hpa flags) mask52 + g mod 4096) else ept_translate h ept g) as Et.
      { intros g. unfold ept_translate. rewrite Er. apply (translate_step _ _ _ _ _ _ _ _ _ _ _ _ M). }
      assert (dom own ⊆ dom own') as So by (apply subseteq_dom, M).
      destruct (ms_code _ _ _ _ _ _ _ _ _ _ M) as [-> |[-> _]]; eexists;
        (split_and!; [done|by do 2 eexists|by constructor| |done|apply M|apply M]).
      * intros g. rewrite Et, lookup_insert. destruct (decide (vpn gpa = vpn g)) as [Eg|Ng].
        -- by rewrite decide_True by (split; congruence).
        -- rewrite decide_False by (intros [_ ?]; congruence). apply Tr.
      * intros g. rewrite Et, decide_False by (intros [? _]; done). apply Tr.
    + rewrite map_page_unfold, Gd in E by apply I. injection E as <- <- <-.
      exists ept, (dom own), m. split_and!; [done|by do 2 eexists|by constructor|done|done|set_solver|auto].
  - destruct (ept_unmap_step _ _ _ _ _ _ _ _ I E) as (ept' & -> & I' & _ & L & _ & R & Et).
    exists ept', (dom own).
    assert (vpn gpa ∈ ms <-> m !! vpn gpa <> None) as Hm.
    { rewrite (pi_set _ _ _ _ (proj1 I) _ (vpn_range gpa)). specialize (Tr gpa).
      unfold ept_translate, pt_translate in Tr. destruct (walk _ _ _ _ _) as [[n e]|] eqn:Ew.
      - destruct (walk_level _ _ _ _ _ _ _ (proj1 I) (vpn_range gpa) Ew) as [-> _].
        by destruct (m !! vpn gpa).
      - by destruct (m !! vpn gpa). }
    destruct R as [[-> Hv]|(-> & Hv & -> & ->)].
    + exists (delete (vpn gpa) m). apply Hm in Hv. destruct (m !! vpn gpa) as [f|] eqn:Em; [|done].
      split_and!; [done|by do 2 eexists|by econstructor| |done|rewrite L; set_solver|auto].
      intros g. rewrite Et, lookup_delete. destruct (decide (vpn gpa = vpn g)) as [Eg|Ng].
      * by rewrite decide_True by done.
      * rewrite decide_False by congruence. apply Tr.
    + exists m. split_and!; [done|by do 2 eexists| |done|done|set_solver|auto].
      constructor. destruct (m !! vpn gpa); [|done]. by destruct Hv; apply Hm.
Qed.

Lemma ept_run_sim ops h ept T m tr h' o : ept_ok h ept T -> translates (ept_translate h ept) m ->
  ept_run h (Some ept) ops = (tr, h', o) ->
  exists ept' T' m', o = Some ept' /\ ept_ok h' ept' T' /\ map fst tr = ops /\
    spec_run ept_guard m tr m' /\ translates (ept_translate h' ept') m' /\
    h_live h' ∖ T' = h_live h ∖ T.
Proof.
  revert h ept T m tr. induction ops as [|op ops IH]; intros h ept T m tr Ok Tr; cbn [ept_run].
  { intros [= <- <- <-]. exists ept, T, m. split_and!; try done. constructor. }
  destruct (match op with OMap _ _ _ => _ | _ => _ end) as [[r h1] o1] eqn:E.
  destruct (ept_sim _ _ _ _ _ _ _ _ Ok Tr E) as (ept1 & T1 & m1 & -> & Ok1 & St & Tr1 & Ss & L & F).
  destruct (ept_run h1 (Some ept1) ops) as [[tr2 h2] o2] eqn:E2. intros [= <- <- <-].
  destruct (IH _ _ _ _ _ Ok1 Tr1 E2) as (ept' & T' & m' & -> & Ok' & <- & Rn & Tr' & L').
  exists ept', T', m'. split_and!; try done.
  - by econstructor.
  - pose proof (ept_ok_live _ _ _ Ok). rewrite L', L. set_solver.
Qed.

(** C1. The life of an EPT context refines a finite map from guest page numbers to
    frames.  From creation on, whatever sequence of map and unmap calls is made,
    with whatever arguments, the results are those the abstract map allows, the
    hardware translation is the abstract map, and destroying the context returns
    every page it ever took and no other: the set of pages in use is the one
    before the creation. *)
Theorem ept_lifecycle_refines (h0 h h' : host) (ept : ept_context) (ops : list pt_op)
    (tr : list (pt_op * Z)) (o : option ept_context) :
  relm_ept_context_create true h0 = (inr ept, h) ->
  ept_run h (Some ept) ops = (tr, h', o) ->
  exists ept' m, o = Some ept' /\ map fst tr = ops /\ spec_run ept_guard ∅ tr m /\
    translates (ept_translate h' ept') m /\
    h_live (relm_ept_context_destroy h' o) = h_live h0.
Proof.
  intros C R. destruct (ept_create_ok _ _ _ _ C) as (Ok & L & F & E0).
  destruct (ept_run_sim _ _ _ _ ∅ _ _ _ Ok ltac:(intros g; by rewrite E0, lookup_empty) R)
    as (ept' & T' & m & -> & Ok' & Ef & Rn & Tr & L').
  exists ept', m. split_and!; try done. rewrite (ept_destroy_live _ _ _ Ok'), L', L. set_solver.
Qed.

(** ** The range mappers *)
Lemma ept_ram_loop_eq n i h ept vm g p flags : ept_map_ram_loop n i h ept vm g p flags =
  range_loop (fun h c gpa hpa => relm_ept_map_page h c gpa hpa flags)
    (fun gpa => ept_range_overlaps_mmio vm gpa EPT_PAGE_SIZE_4KB) n i h ept g p.
Proof.
  revert i h ept. induction n as [|n IH]; intros i h ept; [done|]. cbn [ept_map_ram_loop range_loop].
  change EPT_PAGE_SIZE_4KB with 4096. case_match; [done|].
  destruct (relm_ept_map_page _ _ _ _ _) as [[r h1] o1]. case_match; [done|]. apply IH.
Qed.

(** C26. Mapping guest RAM around the MMIO windows: for a RAM range inside the 48-bit
    guest space, on success every address of the range that is in no reserved
    window translates to the same offset of the host range; an address in a window
    and an address outside the range translate as before, so device windows keep
    faulting; when a table page cannot be had the same holds for the prefix of the
    range mapped so far. *)
Theorem ept_map_guest_ram_correct (h : host) (ept : ept_context) (T : gset Z) (m : relm_vm_memory)
    (g p size flags r : Z) (h' : host) (o : option ept_context) :
  ept_ok h ept T -> mmio_wf m -> g mod 4096 = 0 -> p mod 4096 = 0 -> 0 <= g -> 0 <= p -> 0 <= size ->
  g + PAGE_ALIGN size <= 2 ^ 48 -> p + PAGE_ALIGN size <= 2 ^ 52 -> size <= 2 ^ 48 ->
  flag flags EPT_ACCESS_READ = true -> Z.land flags EPT_ADDR_MASK = 0 ->
  relm_ept_map_guest_ram_4kb h (Some ept) (Some m) g p size flags = (r, h', o) ->
  exists ept' T' done_, o = Some ept' /\ ept_ok h' ept' T' /\
    (r = 0 /\ done_ = PAGE_ALIGN size \/ r = - ENOMEM /\ 0 <= done_ < PAGE_ALIGN size) /\
    forall gpa, 0 <= gpa < 2 ^ 48 -> ept_translate h' ept' gpa =
      if decide (g <= gpa < g + done_ /\ relm_vm_gpa_is_mmio_region m gpa = false)
      then Some (p + (gpa - g)) else ept_translate h ept gpa.
Proof.
  intros Ok W Hg Hp Hg0 Hp0 Hs0 Hgs Hps Hs Hf Hm E. unfold relm_ept_map_guest_ram_4kb in E.
  rewrite ept_ram_loop_eq in E. change EPT_PAGE_SIZE_4KB with 4096 in E.
  destruct (page_align_pages size Hs0 Hs) as (Pn & Pe & Pb).
  apply (range_loop_spec _ _ _ _ (ept_map_promise flags Hf Hm) _ _ _ _ T) in E;
    [|done || (eapply ept_ok_live; done) || lia..].
  destruct E as (ept' & T' & k & -> & Ok' & _ & _ & _ & _ & K & Et).
  exists ept', T', (k * 4096). split_and!; [done|done| |].
  - destruct K as [[-> ->]|[-> K]]; [left|right]; (split; [done|lia]).
  - intros gpa Hgpa. rewrite Et by done. unfold range_done. apply decide_ext.
    rewrite Z.mul_0_l, Z.add_0_r. split; intros [Hr Hb]; (split; [done|]).
    + by rewrite <- (windows_overlap_page m (gpa - gpa mod 4096)) by (done || (zpow; zdm)).
    + rewrite <- Hb. apply windows_overlap_page; [done|zdm|zpow; zdm|zdm].
Qed.

(** A 2 MiB mapping never leads to the frame it was given: the leaf is built with
    [hpa * EPT_ADDR_MASK] where [hpa & EPT_ADDR_MASK] is meant, so after a
    successful call with an aligned non-zero frame below 2^52 the hardware
    translates every address of the guest page to some other frame. *)
Theorem ept_huge_page_wrong (h : host) (ept : ept_context) (T : gset Z) (gpa hpa flags : Z)
    (h' : host) (o : option ept_context) :
  ept_ok h ept T -> hpa mod 2 ^ 21 = 0 -> 0 < hpa < 2 ^ 52 -> Z.land flags EPT_ADDR_MASK = 0 ->
  relm_ept_map_huge_page h (Some ept) gpa hpa flags = (0, h', o) ->
  forall gpa', gpa' / 2 ^ 21 = gpa / 2 ^ 21 ->
  exists hpa', pt_translate h' (pml4 ept) gpa' = Some hpa' /\ hpa' / 2 ^ 21 <> hpa / 2 ^ 21.
Proof.
  intros (own & ms & _ & [I _]) Ha Hr Hf E gpa' Hg. revert E. unfold relm_ept_map_huge_page.
  rewrite (proj2 (Z.eqb_neq (pml4 ept) 0)) by (destruct (pi_root _ _ _ _ I); lia).
  case_match; [done|]. destruct (flag flags EPT_ACCESS_READ) eqn:Fr; [|done]. cbn [negb].
  unfold EPT_PML4_INDEX, EPT_PDPT_INDEX, EPT_PD_INDEX. rewrite index_4, index_3, index_2.
  change relm_ept_get_or_create_table with (get_or_create pt_pres pt_adr pt_link).
  destruct (descend pt_pres pt_adr pt_link 2 2 h (pml4 ept) (vpn gpa)) as [o1 h1] eqn:Ed.
  cbn [descend Nat.add] in Ed.
  destruct (get_or_create _ _ _ h _ _) as [[pdpt|] h2] eqn:E2; [|done].
  destruct (get_or_create _ _ _ h2 _ _) as [[pd|] h3] eqn:E3; [|done].
  injection Ed as <- <-. intros [= <- _].
  set (leaf := Z.lor (Z.lor (u64 (hpa * EPT_ADDR_MASK)) flags) EPT_PAGE_SIZE).
  assert (flag leaf PT_VALID = true /\ flag leaf PT_PS = true) as [Fv Fp].
  { unfold leaf. rewrite !flag_lor. change PT_VALID with EPT_ACCESS_READ. rewrite Fr.
    split; [by rewrite orb_true_r|apply orb_true_r]. }
  rewrite (pt_huge_step h _ own ms gpa leaf pd h3 I Fv Fp); [|cbn [descend Nat.add]; by rewrite E2, E3].
  rewrite decide_True.
  2:{ unfold prefix, vpn. zpow. change (512 ^ Z.of_nat 1) with 512. zpow. zdm. }
  eexists. split; [done|]. unfold leaf_address, leaf. change EPT_ADDR_MASK with mask52 in *.
  rewrite !Z.land_lor_distr_l, Hf. change (Z.land EPT_PAGE_SIZE mask52) with 0.
  rewrite !Z.lor_0_r, mask52_land. unfold u64, mask52.
  change (4096 * 512 ^ (Z.of_nat 2 - 1)) with (2 ^ 21).
  replace (hpa * 4503599627366400 mod 2 ^ 64) with ((- hpa / 2 ^ 21 * 2 ^ 33) mod 2 ^ 64).
  2:{ zpow. zdm. }
  zpow. zdm.
Qed.

(** ** The huge-page-preferring mapper *)
Lemma huge_off gpa : Z.land gpa (EPT_PAGE_SIZE_2MB - 1) = gpa mod 2 ^ 21.
Proof. exact (land_ones_mod gpa 21 ltac:(lia)). Qed.

(** Every round ends at a 2 MiB boundary or at the end of the range. *)
Lemma huge_loop_total fuel h ept vm gpa hpa end_ flags :
  0 <= gpa -> 0 <= end_ < 2 ^ 64 -> end_ / 2 ^ 21 - gpa / 2 ^ 21 + 1 <= Z.of_nat fuel ->
  ept_map_huge_loop fuel h ept vm gpa hpa end_ flags <> None.
Proof.
  revert h ept gpa hpa. induction fuel as [|fuel IH]; intros h ept gpa hpa H0 He Hf; cbn [ept_map_huge_loop].
  { destruct (Z.ltb_spec gpa end_) as [Hlt|]; [|done]. exfalso. zpow. zdm. }
  destruct (Z.ltb_spec gpa end_) as [Hlt|]; [|done]. cbn [negb]. cbv zeta. rewrite huge_off.
  rewrite (u64_small (end_ - gpa)) by lia. change EPT_PAGE_SIZE_2MB with (2 ^ 21).
  destruct (_ && _ && _) eqn:B.
  - tidy_bool. destruct (relm_ept_map_huge_page _ _ _ _ _) as [[r h1] e1]. case_match; [done|].
    rewrite (u64_small (gpa + _)) by lia. apply IH; [lia|done|]. zpow. zdm.
  - clear B. set (chunk := if end_ - gpa <? _ then _ else _).
    assert (0 <= chunk <= end_ - gpa /\ (gpa + chunk = end_ \/ gpa + chunk = (gpa / 2 ^ 21 + 1) * 2 ^ 21)) as Hc.
    { unfold chunk. destruct (Z.ltb_spec (end_ - gpa) (2 ^ 21 - gpa mod 2 ^ 21)); zpow; zdm. }
    destruct (relm_ept_map_guest_ram_4kb _ _ _ _ _ _ _) as [[r h1] e1]. case_match; [done|].
    rewrite (u64_small (gpa + _)) by lia.
    destruct Hc as [Hc0 [E|E]].
    + rewrite E. destruct fuel as [|fuel]; cbn [ept_map_huge_loop]; by rewrite (Z.ltb_irrefl end_).
    + apply IH; [lia|done|]. rewrite E. rewrite Z.div_mul by lia. lia.
Qed.

(** The huge-page-preferring mapper terminates: for a range that ends below 2^64
    the loop makes at most one round per 2 MiB block the range touches. *)
Theorem ept_map_guest_ram_huge_terminates (fuel : nat) (h : host) (ept : option ept_context)
    (vm : option relm_vm_memory) (g p size flags : Z) :
  0 <= g -> g + PAGE_ALIGN size < 2 ^ 64 -> 0 <= PAGE_ALIGN size ->
  (g + PAGE_ALIGN size) / 2 ^ 21 - g / 2 ^ 21 + 1 <= Z.of_nat fuel ->
  exists res, relm_ept_map_guest_ram_huge fuel h ept vm g p size flags = Some res.
Proof.
  intros H0 H1 H2 Hf. unfold relm_ept_map_guest_ram_huge. destruct ept as [ept|]; [|by eexists].
  rewrite u64_small by lia.
  destruct (ept_map_huge_loop fuel h (Some ept) vm g p (g + PAGE_ALIGN size) flags) as [res|] eqn:E;
    [by exists res|]. destruct (huge_loop_total fuel h (Some ept) vm g p (g + PAGE_ALIGN size) flags); [lia|lia|done|done].
Qed.
End EptCorrect.

(** ** Concrete instances: a context of the bump allocator *)
Module EptDemo.
#[local] Instance alloc : PageAlloc := bump_alloc 64.

Definition h0 : host := snd (relm_ept_context_create true host0).
Definition ept0 : ept_context :=
  match fst (relm_ept_context_create true host0) with
  | inr ept => ept
  | inl _ => EptContext 0 0 0 0 false (PtStats 0 0 0 0)
  end.

Lemma ept_demo_create : relm_ept_context_create true host0 = (inr ept0, h0).
Proof. reflexivity. Defined.

Lemma ept_demo_ok : ept_ok h0 ept0 {[4096]}.
Proof. exact (proj1 (ept_create_ok true host0 ept0 h0 eq_refl)). Qed.

Lemma ept_map_page_correct_witness :
  exists ept' h', relm_ept_map_page h0 (Some ept0) 0x5000 0x9000 0x37 = (0, h', Some ept') /\
    ept_translate h' ept' 0x5123 = Some 0x9123.
Proof.
  destruct (relm_ept_map_page h0 (Some ept0) 0x5000 0x9000 0x37) as [[r h'] o] eqn:E.
  assert (r = 0) as Hr by (vm_compute in E; congruence). subst r.
  destruct (ept_map_page_correct h0 ept0 {[4096]} 0x5000 0x9000 0x37 0 h' o ept_demo_ok
    eq_refl eq_refl ltac:(lia) eq_refl eq_refl E) as (ept' & T' & -> & _ & _ & _ & _ & _ & Et).
  exists ept', h'. split; [done|]. by rewrite Et.
Defined.

Lemma ept_get_mapping_correct_witness : relm_ept_get_mapping h0 (Some ept0) 0x5123 = inl (- ENOENT).
Proof. rewrite (ept_get_mapping_correct h0 ept0 {[4096]} 0x5123 ept_demo_ok). reflexivity. Defined.

Lemma ept_unmap_page_correct_witness : exists ept',
  relm_ept_unmap_page h0 (Some ept0) 0x5000 = (- ENOENT, h0, Some ept') /\
  ept_translate h0 ept' 0x5123 = None.
Proof.
  destruct (ept_unmap_page_correct h0 ept0 {[4096]} 0x5000 _ _ _ ept_demo_ok eq_refl)
    as (ept' & E & _ & _ & _ & Et).
  exists ept'. split; [injection E as <-; reflexivity|]. rewrite Et. reflexivity.
Defined.

Lemma ept_lifecycle_refines_witness :
  let '(tr, h', o) := ept_run h0 (Some ept0) [OMap 0x5000 0x9000 7; OUnmap 0x5000; OUnmap 0x5000] in
  map snd tr = [0; 0; - ENOENT] /\ h_live (relm_ept_context_destroy h' o) = ∅.
Proof.
  destruct (ept_run _ _ _) as [[tr h'] o] eqn:E.
  destruct (ept_lifecycle_refines host0 h0 h' ept0 _ tr o ept_demo_create E) as (_ & _ & _ & _ & _ & _ & L).
  split; [|exact L]. vm_compute in E. injection E as <- _ _. reflexivity.
Defined.

Lemma ept_map_guest_ram_correct_witness : exists ept' h',
  relm_ept_map_guest_ram_4kb h0 (Some ept0) (Some vm_memory0) 0 0x100000 0x3000 7 = (0, h', Some ept') /\
  ept_translate h' ept' 0x1010 = Some 0x101010.
Proof.
  destruct (relm_ept_map_guest_ram_4kb h0 (Some ept0) (Some vm_memory0) 0 0x100000 0x3000 7)
    as [[r h'] o] eqn:E.
  assert (r = 0) as Hr by (vm_compute in E; congruence). subst r.
  destruct (ept_map_guest_ram_correct h0 ept0 {[4096]} vm_memory0 0 0x100000 0x3000 7 0 h' o ept_demo_ok
    mmio_wf_init eq_refl eq_refl ltac:(lia) ltac:(lia) ltac:(lia) ltac:(vm_compute; discriminate)
    ltac:(vm_compute; discriminate) ltac:(lia) eq_refl eq_refl E)
    as (ept' & T' & d & -> & _ & [[_ ->]|[? _]] & Et); [|discriminate].
  exists ept', h'. split; [done|]. rewrite Et by lia. reflexivity.
Defined.

Lemma ept_map_guest_ram_huge_terminates_witness : exists res,
  relm_ept_map_guest_ram_huge 3 h0 (Some ept0) None 0x1000 0x1000 0x300000 7 = Some res.
Proof.
  apply (ept_map_guest_ram_huge_terminates 3 h0 (Some ept0) None 0x1000 0x1000 0x300000 7);
    vm_compute; (reflexivity || discriminate).
Defined.

Lemma ept_huge_page_wrong_witness : exists h' o hpa',
  relm_ept_map_huge_page h0 (Some ept0) 0x200000 0x400000 7 = (0, h', o) /\
  pt_translate h' (pml4 ept0) 0x200010 = Some hpa' /\ hpa' <> 0x400010.
Proof.
  destruct (relm_ept_map_huge_page h0 (Some ept0) 0x200000 0x400000 7) as [[r h'] o] eqn:E.
  assert (r = 0) as Hr by (vm_compute in E; congruence). subst r.
  destruct (ept_huge_page_wrong h0 ept0 {[4096]} 0x200000 0x400000 7 h' o ept_demo_ok
    eq_refl ltac:(lia) eq_refl E 0x200010 eq_refl) as (hpa' & Et & Ne).
  exists h', o, hpa'. split_and!; [done|done|]. intros ->. by apply Ne.
Defined.
End EptDemo.
