(* ===== verification/Npt.v ===== *)
(** * AMD nested page tables

    src/arch/x86/svm/npt.c and include/arch/x86/svm/npt.h: the 4-level table of an
    SVM guest, the counterpart of Ept.v.  An NPT entry is an ordinary long-mode
    entry, so a mapping must be present and user.  Locking, printing and the TLB
    flush request have no effect on the tables and are not represented. *)
From S2P Require Import Prelude HostMem Radix X86Pt MemOps VmMem.

(** ** Constants of npt.h *)
Definition NPT_PAGE_SIZE_4KB : Z := 0x1000.
Definition NPT_PAGE_SIZE_2MB : Z := 0x200000.
Definition NPT_PAGE_MASK_2MB : Z := 0x1FFFFF.
Definition NPT_PRESENT : Z := 0x1.
Definition NPT_WRITABLE : Z := 0x2.
Definition NPT_USER : Z := 0x4.
Definition NPT_PWT : Z := 0x8.
Definition NPT_PCD : Z := 0x10.
Definition NPT_PAGE_SIZE : Z := 0x80.
Definition NPT_NX : Z := 0x8000000000000000.
Definition NPT_ADDR_MASK : Z := 0x000FFFFFFFFFF000.
Definition NPT_RWX : Z := Z.lor NPT_PRESENT (Z.lor NPT_WRITABLE NPT_USER).
Definition NPT_MEMTYPE_UC : Z := Z.lor NPT_PWT NPT_PCD.
Definition NPT_MEMTYPE_WB : Z := 0.
Definition SVM_CPUID_FEATURE_BIT : Z := 0x4.
Definition SVM_FEAT_NPT : Z := 0x1.

Definition NPT_PML4_INDEX (gpa : Z) : Z := Z.land (Z.shiftr gpa 39) 0x1FF.
Definition NPT_PDPT_INDEX (gpa : Z) : Z := Z.land (Z.shiftr gpa 30) 0x1FF.
Definition NPT_PD_INDEX (gpa : Z) : Z := Z.land (Z.shiftr gpa 21) 0x1FF.
Definition NPT_PT_INDEX (gpa : Z) : Z := Z.land (Z.shiftr gpa 12) 0x1FF.
Definition NPT_PAGE_OFFSET (gpa : Z) : Z := Z.land gpa 0xFFF.

Definition npt_is_2mb_aligned (addr : Z) : bool := Z.land addr NPT_PAGE_MASK_2MB =? 0.

Record npt_context := NptContext {
  npt_pml4 : Z;      (** kernel address of the root table; 0 is NULL *)
  npt_pml4_pa : Z;
  npt_stats : pt_stats
}.

Definition set_npt_stats (npt : npt_context) (st : pt_stats) : npt_context :=
  NptContext (npt_pml4 npt) (npt_pml4_pa npt) st.

Section Npt.
Context `{PA : PageAlloc}.

(** The two CPUID words are the arguments. *)
Definition relm_npt_check_support (ecx edx : Z) : bool :=
  if negb (flag ecx SVM_CPUID_FEATURE_BIT) then false
  else if negb (flag edx SVM_FEAT_NPT) then false
  else true.

Definition relm_npt_context_create (kz : bool) (h : host) : (Z + npt_context) * host :=
  if negb kz then (inl (- ENOMEM), h)
  else match get_zeroed_page h with
       | (None, h) => (inl (- ENOMEM), h)
       | (Some root, h) => (inr (NptContext root root (PtStats 0 0 0 0)), h)
       end.

Definition relm_setup_npt (ecx edx : Z) (kz : bool) (h : host)
    (arch_npt : option npt_context) : Z * host * option npt_context :=
  if negb (relm_npt_check_support ecx edx) then (- ENOTSUPP, h, arch_npt)
  else match relm_npt_context_create kz h with
       | (inl err, h) => (err, h, None)
       | (inr npt, h) => (0, h, Some npt)
       end.

Definition relm_npt_alloc_table (h : host) : option Z * host := get_zeroed_page h.

Definition relm_npt_get_or_create_table (h : host) (t idx : Z) : option Z * host :=
  let entry := rd64 h t idx in
  if flag entry NPT_PRESENT then (Some (Z.land entry NPT_ADDR_MASK), h)
  else match relm_npt_alloc_table h with
       | (Some table_va, h) =>
           let table_pa := table_va in
           (Some table_va, wr64 h t idx (Z.lor (Z.land table_pa NPT_ADDR_MASK) NPT_RWX))
       | (None, h) => (None, h)
       end.

(** [(flags & (NPT_PRESENT | NPT_USER)) != (NPT_PRESENT | NPT_USER)] is refused. *)
Definition npt_present_user (flags : Z) : bool :=
  Z.land flags (Z.lor NPT_PRESENT NPT_USER) =? Z.lor NPT_PRESENT NPT_USER.

Definition relm_npt_map_page (h : host) (npt : option npt_context) (gpa hpa flags : Z)
    : Z * host * option npt_context :=
  match npt with
  | None => (- EINVAL, h, None)
  | Some npt =>
      if npt_pml4 npt =? 0 then (- EINVAL, h, Some npt)
      else if flag gpa 0xFFF || flag hpa 0xFFF then (- EINVAL, h, Some npt)
      else if negb (npt_present_user flags) then (- EINVAL, h, Some npt)
      else
        match relm_npt_get_or_create_table h (npt_pml4 npt) (NPT_PML4_INDEX gpa) with
        | (None, h) => (- ENOMEM, h, Some npt)
        | (Some pdpt, h) =>
        match relm_npt_get_or_create_table h pdpt (NPT_PDPT_INDEX gpa) with
        | (None, h) => (- ENOMEM, h, Some npt)
        | (Some pd, h) =>
        match relm_npt_get_or_create_table h pd (NPT_PD_INDEX gpa) with
        | (None, h) => (- ENOMEM, h, Some npt)
        | (Some pt, h) =>
            let pt_idx := NPT_PT_INDEX gpa in
            let st := npt_stats npt in
            let npt := if flag (rd64 h pt pt_idx) NPT_PRESENT then npt
                       else set_npt_stats npt (PtStats (u64 (pages_4kb st + 1)) (pages_2mb st)
                              (pages_1gb st) (u64 (total_mapped st + NPT_PAGE_SIZE_4KB))) in
            (0, wr64 h pt pt_idx (Z.lor (Z.land hpa NPT_ADDR_MASK) flags), Some npt)
        end end end
  end.

Fixpoint npt_map_range_loop (n : nat) (i : Z) (h : host) (npt : option npt_context)
    (gpa_start hpa_start flags : Z) : Z * host * option npt_context :=
  match n with
  | O => (0, h, npt)
  | S n =>
      let gpa := u64 (gpa_start + i * NPT_PAGE_SIZE_4KB) in
      let hpa := u64 (hpa_start + i * NPT_PAGE_SIZE_4KB) in
      match relm_npt_map_page h npt gpa hpa flags with
      | (r, h, npt) =>
          if r <? 0 then (r, h, npt)
          else npt_map_range_loop n (i + 1) h npt gpa_start hpa_start flags
      end
  end.

Definition relm_npt_map_range (h : host) (npt : option npt_context)
    (gpa_start hpa_start size flags : Z) : Z * host * option npt_context :=
  match npt with
  | None => (- EINVAL, h, None)
  | Some _ =>
      let size := PAGE_ALIGN size in
      let num_pages := size / NPT_PAGE_SIZE_4KB in
      npt_map_range_loop (Z.to_nat num_pages) 0 h npt gpa_start hpa_start flags
  end.

Definition relm_npt_map_huge_page (h : host) (npt : option npt_context) (gpa hpa flags : Z)
    : Z * host * option npt_context :=
  match npt with
  | None => (- EINVAL, h, None)
  | Some npt =>
      if npt_pml4 npt =? 0 then (- EINVAL, h, Some npt)
      else if negb (npt_is_2mb_aligned gpa) || negb (npt_is_2mb_aligned hpa)
      then (- EINVAL, h, Some npt)
      else if negb (npt_present_user flags) then (- EINVAL, h, Some npt)
      else
        match relm_npt_get_or_create_table h (npt_pml4 npt) (NPT_PML4_INDEX gpa) with
        | (None, h) => (- ENOMEM, h, Some npt)
        | (Some pdpt, h) =>
        match relm_npt_get_or_create_table h pdpt (NPT_PDPT_INDEX gpa) with
        | (None, h) => (- ENOMEM, h, Some npt)
        | (Some pd, h) =>
            let pd_idx := NPT_PD_INDEX gpa in
            let st := npt_stats npt in
            let npt := if flag (rd64 h pd pd_idx) NPT_PRESENT then npt
                       else set_npt_stats npt (PtStats (pages_4kb st) (u64 (pages_2mb st + 1))
                              (pages_1gb st) (u64 (total_mapped st + NPT_PAGE_SIZE_2MB))) in
            (0, wr64 h pd pd_idx
                  (Z.lor (Z.lor (Z.land hpa NPT_ADDR_MASK) flags) NPT_PAGE_SIZE), Some npt)
        end end
  end.

Definition npt_range_overlaps_mmio (vm : option relm_vm_memory) (gpa size : Z) : bool :=
  let range_end := u64 (gpa + size) in
  match vm with
  | None => false
  | Some m =>
      existsb (fun i => match relm_vm_mmio_region_at m i with
                        | inl _ => false
                        | inr r => (gpa <? u64 (mr_gpa_start r + mr_size r)) &&
                                   (mr_gpa_start r <? range_end)
                        end) (seq 0 (relm_vm_mmio_region_count m))
  end.

Fixpoint npt_map_ram_loop (n : nat) (i : Z) (h : host) (npt : option npt_context)
    (vm : option relm_vm_memory) (gpa_start hpa_start flags : Z) : Z * host * option npt_context :=
  match n with
  | O => (0, h, npt)
  | S n =>
      let gpa := u64 (gpa_start + i * NPT_PAGE_SIZE_4KB) in
      let hpa := u64 (hpa_start + i * NPT_PAGE_SIZE_4KB) in
      if npt_range_overlaps_mmio vm gpa NPT_PAGE_SIZE_4KB
      then npt_map_ram_loop n (i + 1) h npt vm gpa_start hpa_start flags
      else
        match relm_npt_map_page h npt gpa hpa flags with
        | (r, h, npt) =>
            if r <? 0 then (r, h, npt)
            else npt_map_ram_loop n (i + 1) h npt vm gpa_start hpa_start flags
        end
  end.

Definition relm_npt_map_guest_ram_4kb (h : host) (npt : option npt_context)
    (vm : option relm_vm_memory) (gpa_start hpa_start size flags : Z)
    : Z * host * option npt_context :=
  match npt with
  | None => (- EINVAL, h, None)
  | Some _ =>
      let size := PAGE_ALIGN size in
      let num_pages := size / NPT_PAGE_SIZE_4KB in
      npt_map_ram_loop (Z.to_nat num_pages) 0 h npt vm gpa_start hpa_start flags
  end.

(** The [while (gpa < end)] loop.  The local [ret] is read before it is assigned in
    the aligned branch, so its value on entry, whatever the stack holds, is an
    argument; that branch maps nothing. *)
Fixpoint npt_map_huge_loop (fuel : nat) (ret : Z) (h : host) (npt : option npt_context)
    (vm : option relm_vm_memory) (gpa hpa end_ flags : Z)
    : option (Z * host * option npt_context) :=
  if negb (gpa <? end_) then Some (0, h, npt)
  else
    match fuel with
    | O => None
    | S fuel =>
        let remaining := u64 (end_ - gpa) in
        let offset_in_2mb := Z.land gpa (NPT_PAGE_SIZE_2MB - 1) in
        let aligned_2mb := (offset_in_2mb =? 0) && (Z.land hpa (NPT_PAGE_SIZE_2MB - 1) =? 0) in
        let whole_2mb_fits := NPT_PAGE_SIZE_2MB <=? remaining in
        if aligned_2mb && whole_2mb_fits &&
           negb (npt_range_overlaps_mmio vm gpa NPT_PAGE_SIZE_2MB)
        then
          if ret <? 0 then Some (ret, h, npt)
          else npt_map_huge_loop fuel ret h npt vm (u64 (gpa + NPT_PAGE_SIZE_2MB))
                 (u64 (hpa + NPT_PAGE_SIZE_2MB)) end_ flags
        else
          let to_boundary := NPT_PAGE_SIZE_2MB - offset_in_2mb in
          let chunk := if remaining <? to_boundary then remaining else to_boundary in
          match relm_npt_map_guest_ram_4kb h npt vm gpa hpa chunk flags with
          | (ret, h, npt) =>
              if ret <? 0 then Some (ret, h, npt)
              else npt_map_huge_loop fuel ret h npt vm (u64 (gpa + chunk)) (u64 (hpa + chunk)) end_ flags
          end
    end.

Definition relm_npt_map_guest_ram_huge (fuel : nat) (ret0 : Z) (h : host) (npt : option npt_context)
    (vm : option relm_vm_memory) (gpa_start hpa_start size flags : Z)
    : option (Z * host * option npt_context) :=
  match npt with
  | None => Some (- EINVAL, h, None)
  | Some _ =>
      let size := PAGE_ALIGN size in
      let end_ := u64 (gpa_start + size) in
      npt_map_huge_loop fuel ret0 h npt vm gpa_start hpa_start end_ flags
  end.

Definition relm_npt_unmap_page (h : host) (npt : option npt_context) (gpa : Z)
    : Z * host * option npt_context :=
  match npt with
  | None => (- EINVAL, h, None)
  | Some npt =>
      if npt_pml4 npt =? 0 then (- EINVAL, h, Some npt)
      else
        let e4 := rd64 h (npt_pml4 npt) (NPT_PML4_INDEX gpa) in
        if negb (flag e4 NPT_PRESENT) then (- ENOENT, h, Some npt)
        else
          let pdpt := Z.land e4 NPT_ADDR_MASK in
          let e3 := rd64 h pdpt (NPT_PDPT_INDEX gpa) in
          if negb (flag e3 NPT_PRESENT) then (- ENOENT, h, Some npt)
          else
            let pd := Z.land e3 NPT_ADDR_MASK in
            let e2 := rd64 h pd (NPT_PD_INDEX gpa) in
            if negb (flag e2 NPT_PRESENT) then (- ENOENT, h, Some npt)
            else
              let pt := Z.land e2 NPT_ADDR_MASK in
              let pt_idx := NPT_PT_INDEX gpa in
              if negb (flag (rd64 h pt pt_idx) NPT_PRESENT) then (- ENOENT, h, Some npt)
              else
                let st := npt_stats npt in
                (0, wr64 h pt pt_idx 0,
                 Some (set_npt_stats npt (PtStats (u64 (pages_4kb st - 1)) (pages_2mb st)
                        (pages_1gb st) (u64 (total_mapped st - NPT_PAGE_SIZE_4KB)))))
  end.

Definition relm_npt_get_mapping (h : host) (npt : option npt_context) (gpa : Z) : Z + Z :=
  match npt with
  | None => inl (- EINVAL)
  | Some npt =>
      if npt_pml4 npt =? 0 then inl (- EINVAL)
      else
        let e4 := rd64 h (npt_pml4 npt) (NPT_PML4_INDEX gpa) in
        if negb (flag e4 NPT_PRESENT) then inl (- ENOENT)
        else
          let pdpt := Z.land e4 NPT_ADDR_MASK in
          let e3 := rd64 h pdpt (NPT_PDPT_INDEX gpa) in
          if negb (flag e3 NPT_PRESENT) then inl (- ENOENT)
          else
            let pd := Z.land e3 NPT_ADDR_MASK in
            let e2 := rd64 h pd (NPT_PD_INDEX gpa) in
            if negb (flag e2 NPT_PRESENT) then inl (- ENOENT)
            else
              let pt := Z.land e2 NPT_ADDR_MASK in
              let leaf_entry := rd64 h pt (NPT_PT_INDEX gpa) in
              if negb (flag leaf_entry NPT_PRESENT) then inl (- ENOENT)
              else inr (Z.lor (Z.land leaf_entry NPT_ADDR_MASK) (NPT_PAGE_OFFSET gpa))
  end.

Fixpoint relm_npt_free_table (level : nat) (h : host) (t : Z) : host :=
  match level with
  | O => h
  | S O => free_page h t
  | S level' =>
      let h := fold_left (fun h i =>
                 let entry := rd64 h t (Z.of_nat i) in
                 if negb (flag entry NPT_PRESENT) then h
                 else if flag entry NPT_PAGE_SIZE then h
                 else relm_npt_free_table level' h (Z.land entry NPT_ADDR_MASK))
               (seq 0 512) h in
      free_page h t
  end.

Definition relm_npt_context_destroy (h : host) (npt : option npt_context) : host :=
  match npt with
  | None => h
  | Some npt => if npt_pml4 npt =? 0 then h else relm_npt_free_table 4 h (npt_pml4 npt)
  end.

(** ** The SVM implementation of [struct relm_mem_ops] *)
Definition svm_mem_flags (flags : Z) : Z :=
  let npt_flags := Z.lor NPT_PRESENT NPT_USER in
  let npt_flags := if flag flags RELM_MEM_F_WRITE then Z.lor npt_flags NPT_WRITABLE else npt_flags in
  let npt_flags := if negb (flag flags RELM_MEM_F_EXEC) then Z.lor npt_flags NPT_NX else npt_flags in
  if flag flags RELM_MEM_F_MMIO
  then Z.lor npt_flags NPT_MEMTYPE_UC
  else Z.lor npt_flags NPT_MEMTYPE_WB.

Definition svm_mem_map_page (h : host) (npt : option npt_context) (gpa hpa flags : Z)
    : Z * host * option npt_context :=
  relm_npt_map_page h npt gpa hpa (svm_mem_flags flags).

Definition svm_mem_unmap_page (h : host) (npt : option npt_context) (gpa : Z)
    : host * option npt_context :=
  match relm_npt_unmap_page h npt gpa with (_, h, npt) => (h, npt) end.

Definition svm_mem_destroy (h : host) (npt : option npt_context) : host * option npt_context :=
  match npt with
  | None => (h, None)
  | Some _ => (relm_npt_context_destroy h npt, None)
  end.

End Npt.

(** The nested page fault: every one is fatal.  [have] is that the vCPU, its VM and the tables exist. *)
Definition relm_npt_handle_fault (have : bool) : Z := if negb have then - ENAVAIL else - EFAULT.

(** The flush: vm->vcpus as an array of pointers; a vCPU is the tlb_ctl byte of its VMCB, if it
    has one. *)
Definition TLB_CONTROL_FLUSH_ASID : Z := 3.
Definition relm_npt_invalidate (max_vcpus : nat) (vcpus : option (list (option (option Z)))) :
    option (list (option (option Z))) :=
  match vcpus with
  | None => None
  | Some l =>
      let flush v := match v with Some (Some _) => Some (Some TLB_CONTROL_FLUSH_ASID) | v => v end in
      Some (map flush (take max_vcpus l) ++ drop max_vcpus l)
  end.

(** ** Correctness *)
Definition npt_translate (h : host) (npt : npt_context) (gpa : Z) : option Z :=
  pt_translate h (npt_pml4 npt) gpa.

Definition npt_inv (h : host) (npt : npt_context) (own : gmap Z (nat * Z)) (ms : gset Z) : Prop :=
  pt_inv h (npt_pml4 npt) own ms /\ counts (npt_stats npt) ms.

Definition npt_ok (h : host) (npt : npt_context) (T : gset Z) : Prop :=
  exists own ms, dom own = T /\ npt_inv h npt own ms.

(** The argument checks of [relm_npt_map_page]. *)
Definition npt_guard (gpa hpa flags : Z) : bool :=
  negb (flag gpa 0xFFF) && negb (flag hpa 0xFFF) && npt_present_user flags.

Section NptCorrect.
Context `{PA : PageAlloc} {PAok : PageAllocOk PA}.

Lemma npt_aligned x : x mod 4096 = 0 -> flag x 0xFFF = false.
Proof. intros H. unfold flag. by rewrite (proj2 (PAGE_ALIGNED_spec x) H : (Z.land x 0xFFF =? 0) = true). Qed.

Lemma npt_guard_intro gpa hpa flags : gpa mod 4096 = 0 -> hpa mod 4096 = 0 ->
  npt_present_user flags = true -> npt_guard gpa hpa flags = true.
Proof. intros Hg Hh Hf. unfold npt_guard. by rewrite !npt_aligned, Hf. Qed.

Lemma present_user_valid flags : npt_present_user flags = true -> flag flags PT_VALID = true.
Proof.
  unfold npt_present_user. change (Z.lor NPT_PRESENT NPT_USER) with 5. intros E%Z.eqb_eq.
  change PT_VALID with (2 ^ 0). rewrite flag_pow2 by lia.
  assert (Z.testbit (Z.land flags 5) 0 = true) as B by (by rewrite E).
  rewrite Z.land_spec in B. by apply andb_true_iff in B as [? _].
Qed.

Lemma npt_map_unfold h npt gpa hpa flags : 0 < npt_pml4 npt ->
  relm_npt_map_page h (Some npt) gpa hpa flags =
    if negb (npt_guard gpa hpa flags) then (- EINVAL, h, Some npt)
    else match descend pt_pres pt_adr pt_link 3 1 h (npt_pml4 npt) (vpn gpa) with
    | (None, h) => (- ENOMEM, h, Some npt)
    | (Some pt, h) =>
        (0, wr64 h pt (slot 0 (vpn gpa)) (Z.lor (Z.land hpa mask52) flags),
         Some (if flag (rd64 h pt (slot 0 (vpn gpa))) PT_VALID then npt
               else set_npt_stats npt (bump_4kb (npt_stats npt))))
    end.
Proof.
  intros Hr. unfold relm_npt_map_page, npt_guard.
  rewrite (proj2 (Z.eqb_neq (npt_pml4 npt) 0)) by lia.
  destruct (flag gpa 0xFFF); [done|]. destruct (flag hpa 0xFFF); [done|].
  destruct (npt_present_user flags); [|done]. cbn [negb orb andb].
  unfold NPT_PML4_INDEX, NPT_PDPT_INDEX, NPT_PD_INDEX, NPT_PT_INDEX.
  rewrite index_4, index_3, index_2, index_1.
  change relm_npt_get_or_create_table with (get_or_create pt_pres pt_adr pt_link).
  cbn [descend Nat.add].
  destruct (get_or_create _ _ _ h _ _) as [[pdpt|] h1]; [|done].
  destruct (get_or_create _ _ _ h1 _ _) as [[pd|] h2]; [|done].
  by destruct (get_or_create _ _ _ h2 _ _) as [[pt|] h3].
Qed.

Lemma npt_map_step h npt own ms gpa hpa flags r h' o :
  npt_inv h npt own ms -> npt_guard gpa hpa flags = true ->
  relm_npt_map_page h (Some npt) gpa hpa flags = (r, h', o) ->
  exists npt' own' ms', o = Some npt' /\ npt_pml4 npt' = npt_pml4 npt /\
    (r <> 0 -> npt' = npt) /\ npt_inv h' npt' own' ms' /\ same_bytes h h' /\
    map_step h (npt_pml4 npt) own ms (vpn gpa) (Z.lor (Z.land hpa mask52) flags) r h' own' ms'.
Proof.
  intros [I Cn] Gd. rewrite npt_map_unfold, Gd by apply I. cbn [negb].
  destruct (descend _ _ _ _ _ _ _ _) as [o1 h1] eqn:Ed.
  pose proof (pt_map_step h (npt_pml4 npt) own ms gpa (Z.lor (Z.land hpa mask52) flags) o1 h1 I) as M.
  rewrite mask52_flag in M by done. unfold npt_guard in Gd. tidy_bool.
  specialize (M ltac:(by apply present_user_valid) Ed). apply descend_bytes in Ed as [B _].
  destruct o1 as [pt|]; intros [= <- <- <-].
  - destruct M as (own' & M & Bt). do 3 eexists. split; [done|].
    assert (npt_pml4 (if flag (rd64 h1 pt (slot 0 (vpn gpa))) PT_VALID then npt
      else set_npt_stats npt (bump_4kb (npt_stats npt))) = npt_pml4 npt) as Er by (by case_match).
    split_and!; [done|done| |done|exact M]. split; [rewrite Er; apply M|].
    pose proof (counts_bump _ _ _ _ _ _ _ I Bt Cn). by case_match.
  - destruct M as (own' & M). do 3 eexists. split_and!; [done..| |done|exact M]. split; [apply M|done].
Qed.

Lemma npt_unmap_unfold h npt gpa : 0 < npt_pml4 npt ->
  relm_npt_unmap_page h (Some npt) gpa =
    match pt_find h (npt_pml4 npt) gpa with
    | Some pt => let i := Z.land (Z.shiftr gpa 12) 0x1FF in
                 if flag (rd64 h pt i) PT_VALID
                 then (0, wr64 h pt i 0, Some (set_npt_stats npt (drop_4kb (npt_stats npt))))
                 else (- ENOENT, h, Some npt)
    | None => (- ENOENT, h, Some npt)
    end.
Proof.
  intros Hr. unfold relm_npt_unmap_page, pt_find. rewrite (proj2 (Z.eqb_neq (npt_pml4 npt) 0)) by lia. cbv zeta.
  change NPT_PRESENT with PT_VALID. change NPT_ADDR_MASK with mask52.
  unfold NPT_PML4_INDEX, NPT_PDPT_INDEX, NPT_PD_INDEX, NPT_PT_INDEX.
  do 3 (destruct (flag _ PT_VALID); cbn [negb]; [|reflexivity]).
  destruct (flag _ PT_VALID); reflexivity.
Qed.

(** The page is gone, or was not there and nothing changed. *)
Lemma npt_unmap_step h npt own ms gpa r h' o : npt_inv h npt own ms ->
  relm_npt_unmap_page h (Some npt) gpa = (r, h', o) ->
  exists npt', o = Some npt' /\ npt_inv h' npt' own (ms ∖ {[vpn gpa]}) /\
    h_live h' = h_live h /\ same_bytes h h' /\
    (r = 0 /\ npt_translate h npt gpa <> None \/
     r = - ENOENT /\ npt_translate h npt gpa = None /\ h' = h /\ npt' = npt) /\
    forall gpa', npt_translate h' npt' gpa' =
      if decide (vpn gpa' = vpn gpa) then None else npt_translate h npt gpa'.
Proof.
  intros [I Cn]. rewrite npt_unmap_unfold by apply I. cbv zeta.
  pose proof (pt_find_walk _ _ _ _ gpa I) as Fw. cbv zeta in Fw.
  pose proof (pt_translate_find _ _ _ _ gpa I) as Ft. cbv zeta in Ft.
  pose proof (pi_set _ _ _ _ I _ (vpn_range gpa)) as Es.
  destruct (decide (walk x86_kind 4 h (npt_pml4 npt) (vpn gpa) = None)) as [N|N].
  - intros E. assert ((r, h', o) = (- ENOENT, h, Some npt)) as [= -> -> ->].
    { rewrite <- E. destruct (pt_find _ _ _); [|done]. by destruct (flag _ PT_VALID); rewrite N in Fw. }
    exists npt. rewrite N in Es.
    assert (ms ∖ {[vpn gpa]} = ms) as -> by (apply set_eq; set_solver).
    assert (npt_translate h npt gpa = None) as Tn by (unfold npt_translate, pt_translate; by rewrite N).
    split_and!; [done|by split|done|done|by right|].
    intros g. case_decide as Eg; [|done]. unfold npt_translate, pt_translate. by rewrite Eg, N.
  - destruct (pt_find h (npt_pml4 npt) gpa) as [pt|] eqn:F; [|done].
    destruct (flag _ PT_VALID) eqn:Fl; [|done].
    intros [= <- <- <-]. destruct (pt_unmap_step _ _ _ _ _ _ I F Fl) as (Hin & I' & Ew).
    eexists. split_and!; [done| |done|done| |].
    + split; [exact I'|]. by eapply counts_drop.
    + left. unfold npt_translate. by rewrite Ft.
    + intros g. unfold npt_translate, pt_translate. simpl npt_pml4. rewrite Ew by apply vpn_range.
      by case_decide.
Qed.

(** ** The interface of [struct relm_mem_ops] *)
Lemma npt_ok_live h npt T : npt_ok h npt T -> T ⊆ h_live h.
Proof. intros (own & ms & <- & [I _]). eapply wf_dom_live, I. Qed.

Lemma npt_map_promise flags : npt_present_user flags = true -> Z.land flags NPT_ADDR_MASK = 0 ->
  map_promise (fun h c gpa hpa => relm_npt_map_page h c gpa hpa flags) npt_ok npt_translate.
Proof.
  intros Hf Hm h npt T gpa hpa r h' o (own & ms & <- & I) Hg Hh Hr E.
  destruct (npt_map_step _ _ _ _ _ _ _ _ _ _ I (npt_guard_intro _ _ _ Hg Hh Hf) E)
    as (npt' & own' & ms' & -> & Er & _ & I' & B & M).
  exists npt', (dom own'). split_and!; [done|by exists own', ms'|by apply subseteq_dom, M|apply M..|done| |].
  - apply M.
  - intros g. unfold npt_translate. rewrite Er, (translate_step _ _ _ _ _ _ _ _ _ _ _ _ M).
    by rewrite frame_id.
Qed.

Lemma npt_destroy_live h npt T : npt_ok h npt T ->
  h_live (relm_npt_context_destroy h (Some npt)) = h_live h ∖ T.
Proof.
  intros (own & ms & <- & [I _]). unfold relm_npt_context_destroy.
  rewrite (proj2 (Z.eqb_neq (npt_pml4 npt) 0)) by (destruct (pi_root _ _ _ _ I); lia).
  rewrite <- (pt_free_spec _ _ _ _ I). f_equal.
  assert (forall n h t, relm_npt_free_table n h t = free_tree pt_skip pt_adr n h t) as ->; [|done].
  induction n as [|[|n] IH]; intros h1 t; [done|done|]. cbn [relm_npt_free_table free_tree].
  f_equal. apply fold_left_ext. intros h2 i. unfold pt_skip.
  change (flag (rd64 h2 t (Z.of_nat i)) NPT_PRESENT) with (flag (rd64 h2 t (Z.of_nat i)) PT_VALID).
  destruct (flag _ PT_VALID); cbn [negb orb]; [|done].
  change NPT_PAGE_SIZE with PT_PS. destruct (flag _ PT_PS); [done|]. apply IH.
Qed.

Lemma svm_flags_ok flags :
  npt_present_user (svm_mem_flags flags) = true /\ Z.land (svm_mem_flags flags) NPT_ADDR_MASK = 0.
Proof. unfold svm_mem_flags. by repeat case_match. Qed.

Definition svm_mem_ops : MemOps := {|
  mo_ctx := npt_context;
  mo_map_page := svm_mem_map_page;
  mo_unmap_page := svm_mem_unmap_page;
  mo_destroy := svm_mem_destroy
|}.

#[export] Instance svm_mem_ops_ok : MemOpsOk svm_mem_ops.
Proof.
  refine {| mo_inv := (npt_ok : host -> @mo_ctx svm_mem_ops -> _); mo_translate := npt_translate |}.
  - apply npt_ok_live.
  - intros flags _. by apply npt_map_promise; apply svm_flags_ok.
  - intros h npt T gpa h' o (own & ms & <- & I). cbn [mo_unmap_page svm_mem_ops]. unfold svm_mem_unmap_page.
    destruct (relm_npt_unmap_page h (Some npt) gpa) as [[r h1] o1] eqn:E. intros [= <- <-].
    destruct (npt_unmap_step _ _ _ _ _ _ _ _ I E) as (npt' & -> & I' & L & B & _ & Et).
    exists npt'. split_and!; [done|by do 2 eexists|done..].
  - intros h npt T h' o Ok E. rewrite <- (f_equal fst E : _ = h'), <- (f_equal snd E : _ = o).
    split; [done|]. by apply npt_destroy_live.
  - intros h h' npt T (own & ms & <- & [I Cn]) E L. split.
    + exists own, ms. split; [done|split; [|done]]. by eapply pt_inv_ext.
    + intros g. by eapply pt_translate_ext.
Defined.

Lemma npt_create_ok kz h npt h' : relm_npt_context_create kz h = (inr npt, h') ->
  npt_ok h' npt {[npt_pml4 npt]} /\ h_live h' = {[npt_pml4 npt]} ∪ h_live h /\ npt_pml4 npt ∉ h_live h /\
  (forall gpa, npt_translate h' npt gpa = None).
Proof.
  unfold relm_npt_context_create. destruct kz; [|done]. cbn [negb].
  destruct (get_zeroed_page h) as [[root|] h1] eqn:G; [|done]. intros [= <- <-].
  destruct (pt_inv_fresh _ _ _ G) as (I & L & F). split_and!; [|done|done|].
  - exists {[root := (4%nat, 0)]}, ∅. split; [by rewrite dom_singleton_L|]. by split.
  - intros g. by eapply translate_fresh.
Qed.

(** ** Properties *)

(** Mapping a page through the SVM backend (svm_mem_map_page, any permission
    flags): 0 and from then on the hardware translates exactly that guest page to
    the frame, or -ENOMEM, only when the allocator refused a page, and no
    translation changes; an unaligned address is refused with -EINVAL and nothing
    changes. *)
Theorem svm_map_page_correct (h : host) (npt : npt_context) (T : gset Z) (gpa hpa flags r : Z)
    (h' : host) (o : option npt_context) :
  npt_ok h npt T -> 0 <= hpa < 2 ^ 52 ->
  svm_mem_map_page h (Some npt) gpa hpa flags = (r, h', o) ->
  exists npt' T', o = Some npt' /\ npt_ok h' npt' T' /\ T ⊆ T' /\
    (r = 0 \/ (r = - ENOMEM /\ exists k s, page_choice k s = None) \/
     (r = - EINVAL /\ (gpa mod 4096 <> 0 \/ hpa mod 4096 <> 0) /\ h' = h /\ npt' = npt)) /\
    forall gpa', npt_translate h' npt' gpa' =
      if decide (r = 0 /\ vpn gpa' = vpn gpa) then Some (hpa + gpa' mod 4096)
      else npt_translate h npt gpa'.
Proof.
  intros Ok Hr E. destruct (svm_flags_ok flags) as [Hf Hm].
  destruct (decide (gpa mod 4096 = 0 /\ hpa mod 4096 = 0)) as [[Hg Hh]|N].
  - destruct (npt_map_promise _ Hf Hm _ _ _ _ _ _ _ _ Ok Hg Hh Hr E)
      as (npt' & T' & -> & Ok' & Ss & _ & _ & _ & R & Et).
    exists npt', T'. split_and!; try done. tauto.
  - unfold svm_mem_map_page in E. pose proof Ok as (own & ms & _ & [I _]).
    rewrite npt_map_unfold in E by apply I.
    assert (npt_guard gpa hpa (svm_mem_flags flags) = false) as Gd.
    { apply not_true_iff_false. unfold npt_guard, flag. rewrite !negb_involutive. intros Gd.
      apply andb_true_iff in Gd as [Gd _]. apply andb_true_iff in Gd as [A B].
      destruct N. split; [by apply (PAGE_ALIGNED_spec gpa)|by apply (PAGE_ALIGNED_spec hpa)]. }
    rewrite Gd in E. injection E as <- <- <-. exists npt, T. split_and!; try done.
    right. right. split_and!; try done. destruct (decide (gpa mod 4096 = 0)); [right|left]; tauto.
Qed.

(** Unmapping and looking up through the NPT: relm_npt_get_mapping is the
    hardware translation; relm_npt_unmap_page returns 0 exactly for a mapped page,
    which then faults while every other translation stays, and -ENOENT without any
    change otherwise. *)
Theorem npt_unmap_and_lookup_correct (h : host) (npt : npt_context) (T : gset Z) (gpa r : Z)
    (h' : host) (o : option npt_context) :
  npt_ok h npt T -> relm_npt_unmap_page h (Some npt) gpa = (r, h', o) ->
  relm_npt_get_mapping h (Some npt) gpa =
    match npt_translate h npt gpa with Some hpa => inr hpa | None => inl (- ENOENT) end /\
  exists npt', o = Some npt' /\ npt_ok h' npt' T /\
    (r = 0 /\ npt_translate h npt gpa <> None \/
     r = - ENOENT /\ npt_translate h npt gpa = None /\ h' = h /\ npt' = npt) /\
    forall gpa', npt_translate h' npt' gpa' =
      if decide (vpn gpa' = vpn gpa) then None else npt_translate h npt gpa'.
Proof.
  intros (own & ms & <- & I) E. split.
  - destruct I as [I _]. unfold npt_translate. rewrite (pt_translate_find _ _ _ _ _ I).
    unfold relm_npt_get_mapping, pt_find.
    rewrite (proj2 (Z.eqb_neq (npt_pml4 npt) 0)) by (destruct (pi_root _ _ _ _ I); lia). cbv zeta.
    change NPT_PRESENT with PT_VALID. change NPT_ADDR_MASK with mask52.
    unfold NPT_PML4_INDEX, NPT_PDPT_INDEX, NPT_PD_INDEX, NPT_PT_INDEX, NPT_PAGE_OFFSET.
    do 3 (destruct (flag _ PT_VALID); cbn [negb]; [|reflexivity]).
    destruct (flag _ PT_VALID); reflexivity.
  - destruct (npt_unmap_step _ _ _ _ _ _ _ _ I E) as (npt' & -> & I' & _ & _ & R & Et).
    exists npt'. split_and!; [done|by do 2 eexists|done|done].
Qed.

(** A 2 MiB NPT mapping that returns 0 makes the hardware translate the whole
    aligned 2 MiB guest block to the 2 MiB frame at the same offsets, and leaves
    every other translation alone. *)
Theorem npt_huge_page_correct (h : host) (npt : npt_context) (T : gset Z) (gpa hpa flags : Z)
    (h' : host) (o : option npt_context) :
  npt_ok h npt T -> 0 <= hpa < 2 ^ 52 -> Z.land flags NPT_ADDR_MASK = 0 ->
  relm_npt_map_huge_page h (Some npt) gpa hpa flags = (0, h', o) ->
  hpa mod 2 ^ 21 = 0 /\
  forall gpa', pt_translate h' (npt_pml4 npt) gpa' =
    if decide (prefix 1 (vpn gpa') = prefix 1 (vpn gpa)) then Some (hpa + gpa' mod 2 ^ 21)
    else npt_translate h npt gpa'.
Proof.
  intros (own & ms & _ & [I _]) Hr Hf. unfold relm_npt_map_huge_page.
  rewrite (proj2 (Z.eqb_neq (npt_pml4 npt) 0)) by (destruct (pi_root _ _ _ _ I); lia).
  destruct (npt_is_2mb_aligned gpa); [|done]. destruct (npt_is_2mb_aligned hpa) eqn:Ha; [|done].
  destruct (npt_present_user flags) eqn:Fr; [|done]. cbn [negb orb].
  assert (hpa mod 2 ^ 21 = 0) as Hh.
  { unfold npt_is_2mb_aligned in Ha. change NPT_PAGE_MASK_2MB with (2 ^ 21 - 1) in Ha.
    rewrite land_ones_mod in Ha by lia. by apply Z.eqb_eq. }
  unfold NPT_PML4_INDEX, NPT_PDPT_INDEX, NPT_PD_INDEX. rewrite index_4, index_3, index_2.
  change relm_npt_get_or_create_table with (get_or_create pt_pres pt_adr pt_link).
  destruct (get_or_create _ _ _ h _ _) as [[pdpt|] h2] eqn:E2; [|done].
  destruct (get_or_create _ _ _ h2 _ _) as [[pd|] h3] eqn:E3; [|done].
  intros [= <- _]. split; [done|]. intros gpa'.
  set (leaf := Z.lor (Z.lor (Z.land hpa NPT_ADDR_MASK) flags) NPT_PAGE_SIZE).
  assert (flag leaf PT_VALID = true /\ flag leaf PT_PS = true) as [Fv Fp].
  { unfold leaf. rewrite !flag_lor, (present_user_valid _ Fr).
    split; [by rewrite orb_true_r|apply orb_true_r]. }
  rewrite (pt_huge_step h _ own ms gpa leaf pd h3 I Fv Fp); [|cbn [descend Nat.add]; by rewrite E2, E3].
  case_decide; [|done]. f_equal. unfold leaf_address, leaf. change NPT_ADDR_MASK with mask52 in *.
  rewrite !Z.land_lor_distr_l, Hf, <- Z.land_assoc, Z.land_diag.
  change (Z.land NPT_PAGE_SIZE mask52) with 0. rewrite !Z.lor_0_r, mask52_id; [|done|zpow; zdm].
  change (4096 * 512 ^ (Z.of_nat 2 - 1)) with (2 ^ 21). zpow. zdm.
Qed.

(** A run of the huge mapper over aligned blocks free of MMIO windows. *)
Lemma npt_huge_loop_idle fuel ret h npt vm gpa hpa end_ flags :
  0 <= gpa -> gpa mod 2 ^ 21 = 0 -> hpa mod 2 ^ 21 = 0 -> 0 <= hpa -> end_ < 2 ^ 64 -> end_ mod 2 ^ 21 = 0 ->
  hpa + (end_ - gpa) < 2 ^ 64 ->
  (forall g, gpa <= g < end_ -> npt_range_overlaps_mmio vm g NPT_PAGE_SIZE_2MB = false) ->
  0 <= ret -> (end_ - gpa) / 2 ^ 21 <= Z.of_nat fuel ->
  npt_map_huge_loop fuel ret h npt vm gpa hpa end_ flags = Some (0, h, npt).
Proof.
  revert gpa hpa. induction fuel as [|fuel IH]; intros gpa hpa H0 Ha Hh Hh0 He Hea Hs Hov Hr Hf;
    cbn [npt_map_huge_loop].
  { destruct (Z.ltb_spec gpa end_); [|done]. exfalso. zpow. zdm. }
  destruct (Z.ltb_spec gpa end_) as [Hlt|]; [|done]. cbn [negb]. cbv zeta.
  change NPT_PAGE_SIZE_2MB with (2 ^ 21). rewrite !land_ones_mod, Ha, Hh by lia.
  rewrite (u64_small (end_ - gpa)) by lia.
  assert (2 ^ 21 <= end_ - gpa) as Hfit by (zpow; zdm).
  rewrite (proj2 (Z.leb_le _ _) Hfit). rewrite Hov by lia. cbn [andb negb Z.eqb].
  destruct (Z.ltb_spec ret 0); [lia|]. rewrite !u64_small by lia.
  apply IH; try (zpow; zdm); try lia. intros g Hg. apply Hov. lia.
Qed.

(** The NPT huge-page-preferring RAM mapper maps nothing: over an aligned range
    free of device windows it reports success whenever the uninitialised variable
    it tests happens to be non-negative, and leaves memory and context untouched,
    so every access to that guest RAM still faults. *)
Theorem npt_map_guest_ram_huge_maps_nothing (fuel : nat) (ret0 : Z) (h : host) (npt : npt_context)
    (vm : option relm_vm_memory) (g p size flags : Z) :
  0 <= g -> g mod 2 ^ 21 = 0 -> p mod 2 ^ 21 = 0 -> 0 <= p -> 0 <= size -> size mod 2 ^ 21 = 0 ->
  g + size < 2 ^ 48 -> p + size < 2 ^ 64 ->
  (forall x, g <= x < g + size -> npt_range_overlaps_mmio vm x NPT_PAGE_SIZE_2MB = false) ->
  0 <= ret0 -> size / 2 ^ 21 <= Z.of_nat fuel ->
  relm_npt_map_guest_ram_huge fuel ret0 h (Some npt) vm g p size flags = Some (0, h, Some npt).
Proof.
  intros Hg Hga Hpa Hp Hs Hsa Hgs Hps Hov Hr Hf. unfold relm_npt_map_guest_ram_huge.
  destruct (page_align_pages size Hs ltac:(lia)) as (_ & P1 & P2).
  assert (PAGE_ALIGN size = size) as -> by (zpow; zdm). rewrite u64_small by lia.
  apply npt_huge_loop_idle; try done; try lia; [zpow; zdm|].
  by replace (g + size - g) with size by lia.
Qed.
End NptCorrect.

(** ** Concrete instances *)
Module NptDemo.
#[local] Instance alloc : PageAlloc := bump_alloc 64.

Definition h0 : host := snd (relm_npt_context_create true host0).
Definition npt0 : npt_context :=
  match fst (relm_npt_context_create true host0) with
  | inr npt => npt
  | inl _ => NptContext 0 0 (PtStats 0 0 0 0)
  end.

Lemma npt_demo_ok : npt_ok h0 npt0 {[4096]}.
Proof. exact (proj1 (npt_create_ok true host0 npt0 h0 eq_refl)). Qed.

Lemma svm_map_page_correct_witness :
  exists npt' h', svm_mem_map_page h0 (Some npt0) 0x5000 0x9000 7 = (0, h', Some npt') /\
    npt_translate h' npt' 0x5123 = Some 0x9123.
Proof.
  destruct (svm_mem_map_page h0 (Some npt0) 0x5000 0x9000 7) as [[r h'] o] eqn:E.
  assert (r = 0) as Hr by (vm_compute in E; congruence). subst r.
  destruct (svm_map_page_correct h0 npt0 {[4096]} 0x5000 0x9000 7 0 h' o npt_demo_ok ltac:(lia) E)
    as (npt' & T' & -> & _ & _ & _ & Et).
  exists npt', h'. split; [done|]. by rewrite Et.
Defined.

Lemma npt_unmap_and_lookup_correct_witness :
  relm_npt_get_mapping h0 (Some npt0) 0x5123 = inl (- ENOENT).
Proof.
  destruct (npt_unmap_and_lookup_correct h0 npt0 {[4096]} 0x5123 _ _ _ npt_demo_ok eq_refl) as [E _].
  rewrite E. reflexivity.
Defined.

Lemma npt_huge_page_correct_witness : exists h' o,
  relm_npt_map_huge_page h0 (Some npt0) 0x200000 0x400000 7 = (0, h', o) /\
  pt_translate h' (npt_pml4 npt0) 0x200010 = Some 0x400010.
Proof.
  destruct (relm_npt_map_huge_page h0 (Some npt0) 0x200000 0x400000 7) as [[r h'] o] eqn:E.
  assert (r = 0) as Hr by (vm_compute in E; congruence). subst r.
  destruct (npt_huge_page_correct h0 npt0 {[4096]} 0x200000 0x400000 7 h' o npt_demo_ok
    ltac:(lia) eq_refl E) as [_ Et].
  exists h', o. split; [done|]. by rewrite Et.
Defined.

Lemma npt_map_guest_ram_huge_maps_nothing_witness :
  relm_npt_map_guest_ram_huge 2 0 h0 (Some npt0) None 0 0x400000 0x400000 7 = Some (0, h0, Some npt0).
Proof.
  apply (npt_map_guest_ram_huge_maps_nothing 2 0 h0 npt0 None 0 0x400000 0x400000 7);
    try lia; try reflexivity. all: vm_compute; discriminate.
Defined.
End NptDemo.
