(* ===== verification/GuestMem.v ===== *)
(** * Guest memory of a VM

    The memory part of src/core/vm.c: allocation of guest RAM, pass-through MMIO
    mappings, tear-down, and the copies between host buffers and guest physical
    memory.  The second-stage tables are behind the interface [MemOps]; host
    memory is [host].  [kmap_local_page] is the parameter [kmap]: whether the
    page can be mapped.  A NULL dereference or an out-of-range array read, which
    the C code commits, is the outcome [Oops]. *)
From S2P Require Import Prelude HostMem Radix MemOps VmMem.

(** The conversion to [int]. *)
Definition s32 (z : Z) : Z := (z + 2 ^ 31) mod 2 ^ 32 - 2 ^ 31.

(** What [struct relm_vm] holds for memory: the tables' context and the lists. *)
Record vm_mem {MO : MemOps} := VmMem {
  v_ctx : option mo_ctx;
  v_mem : relm_vm_memory
}.

Definition set_regions (m : relm_vm_memory) (rs : list guest_mem_region) (ram : Z) : relm_vm_memory :=
  VmMemory rs ram (mmio_regions m) (mmio_region_count m).

Definition RAM_FLAGS : Z := Z.lor RELM_MEM_F_READ (Z.lor RELM_MEM_F_WRITE RELM_MEM_F_EXEC).
Definition MMIO_FLAGS : Z := Z.lor RELM_MEM_F_READ (Z.lor RELM_MEM_F_WRITE RELM_MEM_F_MMIO).

Section GuestRam.
Context `{PA : PageAlloc} {MO : MemOps}.

(** The allocation loop: [pages] is what region->pages holds so far; the result
    is [ret], the host, the context and the recorded pages. *)
Fixpoint alloc_ram_loop (n : nat) (i : Z) (h : host) (c : option mo_ctx) (gpa_start flags : Z)
    (pages : list (option Z)) : Z * host * option mo_ctx * list (option Z) :=
  match n with
  | O => (0, h, c, pages)
  | S n =>
      match get_zeroed_page h with
      | (None, h) => (- ENOMEM, h, c, pages)
      | (Some page, h) =>
          let gpa := u64 (gpa_start + i * PAGE_SIZE) in
          let hpa := page in
          match mo_map_page h c gpa hpa flags with
          | (ret, h, c) =>
              if ret <? 0 then (ret, free_page h page, c, pages)
              else alloc_ram_loop n (i + 1) h c gpa_start flags (pages ++ [Some page])
          end
      end
  end.

(** [while (i--) if (region->pages[i]) __free_page(region->pages[i]);] *)
Definition free_pages_down (h : host) (pages : list (option Z)) : host :=
  fold_left (fun h o => match o with Some p => free_page h p | None => h end) (rev pages) h.

(** [kz1], [kz2]: whether the allocations of the region struct and of its page
    array succeed. *)
Definition relm_vm_allocate_guest_ram (kz1 kz2 : bool) (h : host) (vm : vm_mem) (size gpa_start : Z)
    : Z * host * vm_mem :=
  let size := PAGE_ALIGN size in
  let num_pages := size / PAGE_SIZE in
  if negb kz1 then (- ENOMEM, h, vm)
  else if negb kz2 then (- ENOMEM, h, vm)
  else
    match alloc_ram_loop (Z.to_nat num_pages) 0 h (v_ctx vm) gpa_start RAM_FLAGS [] with
    | (ret, h, c, pages) =>
        if ret <? 0 then (ret, free_pages_down h pages, VmMem _ c (v_mem vm))
        else
          let region := GuestRegion gpa_start size (Some pages) num_pages RAM_FLAGS in
          (0, h, VmMem _ c (set_regions (v_mem vm) (region :: mem_regions (v_mem vm))
                              (u64 (total_guest_ram (v_mem vm) + size))))
    end.

Fixpoint mmio_map_loop (n : nat) (i : Z) (h : host) (c : option mo_ctx) (gpa hpa flags : Z)
    : Z * Z * host * option mo_ctx :=
  match n with
  | O => (0, i, h, c)
  | S n =>
      let current_gpa := u64 (gpa + i * PAGE_SIZE) in
      let current_hpa := u64 (hpa + i * PAGE_SIZE) in
      match mo_map_page h c current_gpa current_hpa flags with
      | (ret, h, c) => if ret <? 0 then (ret, i, h, c) else mmio_map_loop n (i + 1) h c gpa hpa flags
      end
  end.

(** [while (i--) relm_ept_unmap_page(vm->arch.ept, gpa + i * PAGE_SIZE);] *)
Fixpoint mmio_unmap_down (i : nat) (h : host) (c : option mo_ctx) (gpa : Z) : host * option mo_ctx :=
  match i with
  | O => (h, c)
  | S i => let '(h, c) := mo_unmap_page h c (u64 (gpa + Z.of_nat i * PAGE_SIZE)) in
           mmio_unmap_down i h c gpa
  end.

Definition relm_vm_map_mmio_region (kz : bool) (h : host) (vm : vm_mem) (gpa hpa size : Z)
    : Z * host * vm_mem :=
  match v_ctx vm with
  | None => (- EINVAL, h, vm)
  | Some _ =>
      if size =? 0 then (- EINVAL, h, vm)
      else if flag gpa 0xFFF || flag hpa 0xFFF || flag size 0xFFF then (- EINVAL, h, vm)
      else if negb kz then (- ENOMEM, h, vm)
      else
        let num_pages := size / PAGE_SIZE in
        match mmio_map_loop (Z.to_nat num_pages) 0 h (v_ctx vm) gpa hpa MMIO_FLAGS with
        | (ret, i, h, c) =>
            if ret <? 0 then
              let '(h, c) := mmio_unmap_down (Z.to_nat i) h c gpa in
              (ret, h, VmMem _ c (v_mem vm))
            else
              let region := GuestRegion gpa size None num_pages MMIO_FLAGS in
              (0, h, VmMem _ c (set_regions (v_mem vm) (region :: mem_regions (v_mem vm))
                                  (total_guest_ram (v_mem vm))))
        end
  end.

(** The pages of one region; the array has [nr_pages] slots. *)
Definition free_region (h : host) (r : guest_mem_region) : host :=
  match gr_pages r with
  | None => h
  | Some pages =>
      fold_left (fun h o => match o with Some p => free_page h p | None => h end)
                (take (Z.to_nat (gr_nr_pages r)) pages) h
  end.

Definition relm_vm_free_guest_mem (h : host) (vm : vm_mem) : host * vm_mem :=
  (fold_left free_region (mem_regions (v_mem vm)) h,
   VmMem _ (v_ctx vm) (set_regions (v_mem vm) [] 0)).

End GuestRam.

(** ** Access to guest memory *)

Definition in_gr (r : guest_mem_region) (gpa : Z) : bool :=
  (gr_gpa_start r <=? gpa) && (gpa <? u64 (gr_gpa_start r + gr_size r)).

(** The region of the last round is kept while it still holds the address. *)
Definition find_region (m : relm_vm_memory) (region : option guest_mem_region) (gpa : Z)
    : option guest_mem_region :=
  match region with
  | Some r => if in_gr r gpa then Some r else List.find (fun r => in_gr r gpa) (mem_regions m)
  | None => List.find (fun r => in_gr r gpa) (mem_regions m)
  end.

Inductive access (A : Type) := Done (r : Z) (a : A) | Oops | OutOfFuel.
Arguments Done {A}.
Arguments Oops {A}.
Arguments OutOfFuel {A}.

(** [memcpy(page_va + o, l, n)] and [memcpy(l, page_va + o, n)] *)
Fixpoint page_write (h : host) (p o : Z) (l : list Z) : host :=
  match l with
  | [] => h
  | b :: l => page_write (wr8 h p o b) p (o + 1) l
  end.
Definition page_read (h : host) (p o : Z) (n : nat) : list Z :=
  map (fun j => rd8 h p (o + Z.of_nat j)) (seq 0 n).

Section Access.
Context (kmap : Z -> bool).

(** The loop the three accessors share.  [act] is the access to one page: its
    page, offset, the bytes done so far and the length; [clamp] says whether the
    length is cut at the region's end; [kfail] is the result of a failed mapping
    when nothing was done yet, [None] when the code goes on with the NULL
    pointer. *)
Fixpoint guest_loop {A} (clamp : bool) (kfail : option Z) (act : A -> Z -> Z -> Z -> Z -> A)
    (fuel : nat) (m : relm_vm_memory) (size : Z) (region : option guest_mem_region)
    (copied current_gpa : Z) (a : A) : access A :=
  if negb (copied <? size) then Done (s32 copied) a
  else
    match fuel with
    | O => OutOfFuel
    | S fuel =>
        match find_region m region current_gpa with
        | None => Done (if 0 <? copied then s32 copied else - EFAULT) a
        | Some r =>
            let region_offset := u64 (current_gpa - gr_gpa_start r) in
            let page_index := region_offset / PAGE_SIZE in
            let page_offset := region_offset mod PAGE_SIZE in
            let bytes := PAGE_SIZE - page_offset in
            let bytes := if u64 (size - copied) <? bytes then u64 (size - copied) else bytes in
            let bytes := if clamp && (u64 (gr_size r - region_offset) <? bytes)
                         then u64 (gr_size r - region_offset) else bytes in
            match gr_pages r with
            | None => Oops
            | Some pages =>
                match pages !! Z.to_nat page_index with
                | None => Oops
                | Some None => Done (if 0 <? copied then s32 copied else - EFAULT) a
                | Some (Some page) =>
                    if negb (kmap page) then
                      match kfail with
                      | None => Oops
                      | Some e => Done (if 0 <? copied then s32 copied else e) a
                      end
                    else
                      guest_loop clamp kfail act fuel m size (Some r) (copied + bytes)
                        (u64 (current_gpa + bytes)) (act a page page_offset copied bytes)
                end
            end
        end
    end.

(** A round advances at least one byte, so [size] rounds are enough. *)
Definition relm_vm_copy_to_guest (h : host) (m : relm_vm_memory) (gpa : Z)
    (data : option (list Z)) (size : Z) : access host :=
  match data with
  | None => Done (- EINVAL) h
  | Some src =>
      if size =? 0 then Done (- EINVAL) h
      else guest_loop true None
             (fun h page off copied n =>
                page_write h page off (take (Z.to_nat n) (drop (Z.to_nat copied) src)))
             (Z.to_nat size) m size None 0 gpa h
  end.

(** [have_dst] says that the destination is not NULL; the value is the bytes
    stored into it, from its start. *)
Definition relm_vm_copy_from_guest (h : host) (m : relm_vm_memory) (gpa : Z)
    (have_dst : bool) (size : Z) : access (list Z) :=
  if negb have_dst || (size =? 0) then Done (- EINVAL) []
  else guest_loop true (Some (- EFAULT))
         (fun dst page off copied n => dst ++ page_read h page off (Z.to_nat n))
         (Z.to_nat size) m size None 0 gpa [].

Definition relm_vm_zero_guest_memory (h : host) (m : relm_vm_memory) (gpa size : Z) : access host :=
  if size =? 0 then Done (- EINVAL) h
  else guest_loop false (Some (- ENOMEM))
         (fun h page off copied n => page_write h page off (replicate (Z.to_nat n) 0))
         (Z.to_nat size) m size None 0 gpa h.

End Access.

(** ** Correctness of the accessors

    [ram_at m g p]: guest address [g] lies in the host page [p]. *)
Definition ram_at (m : relm_vm_memory) (g p : Z) : Prop := exists r ps,
  r ∈ mem_regions m /\ gr_pages r = Some ps /\
  gr_gpa_start r <= g < gr_gpa_start r + gr_size r /\
  ps !! Z.to_nat ((g - gr_gpa_start r) / 4096) = Some (Some p).

(** Every region is backed by pages, regions do not overlap, and no page backs
    two places. *)
Record ram_inv (m : relm_vm_memory) : Prop := RamInv {
  ra_ok r : r ∈ mem_regions m -> exists ps, gr_pages r = Some (map Some ps) /\
    gr_size r = 4096 * Z.of_nat (length ps) /\ gr_nr_pages r = Z.of_nat (length ps) /\
    0 <= gr_gpa_start r /\ gr_gpa_start r mod 4096 = 0 /\ gr_gpa_start r + gr_size r <= 2 ^ 48;
  ra_uniq r r' g : r ∈ mem_regions m -> r' ∈ mem_regions m ->
    gr_gpa_start r <= g < gr_gpa_start r + gr_size r ->
    gr_gpa_start r' <= g < gr_gpa_start r' + gr_size r' -> r = r';
  ra_inj g g' p : ram_at m g p -> ram_at m g' p -> g / 4096 = g' / 4096
}.

Definition covered_gpa (m : relm_vm_memory) (g : Z) : Prop := exists p, ram_at m g p.

Section AccessCorrect.
Context (m : relm_vm_memory) (RI : ram_inv m).

Lemma in_gr_spec r g : r ∈ mem_regions m ->
  in_gr r g = true <-> gr_gpa_start r <= g < gr_gpa_start r + gr_size r.
Proof.
  intros Hr. destruct (ra_ok _ RI _ Hr) as (ps & _ & Hs & _ & H0 & _ & H1).
  unfold in_gr. rewrite u64_small by lia. rewrite andb_true_iff, Z.leb_le, Z.ltb_lt. done.
Qed.

(** The page array entry of an address in a region. *)
Lemma region_page r g : r ∈ mem_regions m -> gr_gpa_start r <= g < gr_gpa_start r + gr_size r ->
  exists ps p, gr_pages r = Some ps /\
    ps !! Z.to_nat ((g - gr_gpa_start r) / 4096) = Some (Some p) /\ ram_at m g p.
Proof.
  intros Hr Hg. destruct (ra_ok _ RI _ Hr) as (ps & Hp & Hs & _ & H0 & _ & H1).
  destruct (lookup_lt_is_Some_2 ps (Z.to_nat ((g - gr_gpa_start r) / 4096))) as [p E]; [zdm|].
  assert (map Some ps !! Z.to_nat ((g - gr_gpa_start r) / 4096) = Some (Some p)) as E'.
  { change (map Some ps) with (Some <$> ps). by rewrite list_lookup_fmap, E. }
  exists (map Some ps), p. split_and!; [done|done|]. by exists r, (map Some ps).
Qed.

Lemma ram_at_fun g p p' : ram_at m g p -> ram_at m g p' -> p = p'.
Proof.
  intros (r & ps & Hr & Hp & Hg & E) (r' & ps' & Hr' & Hp' & Hg' & E').
  assert (r = r') as <- by (by eapply (ra_uniq _ RI)). congruence.
Qed.

(** The whole page around a RAM address is RAM of the same host page. *)
Lemma ram_at_page g g' p : ram_at m g p -> g' / 4096 = g / 4096 -> ram_at m g' p.
Proof.
  intros (r & ps & Hr & Hp & Hg & E) Eg. pose proof (ra_ok _ RI _ Hr) as (qs & _ & Hs & _ & H0 & Ha & H1).
  exists r, ps. split_and!; [done|done|zdm|zdm|].
  replace ((g' - gr_gpa_start r) / 4096) with ((g - gr_gpa_start r) / 4096) by zdm. done.
Qed.

Lemma find_region_spec region g : (forall r, region = Some r -> r ∈ mem_regions m) ->
  match find_region m region g with
  | Some r => r ∈ mem_regions m /\ gr_gpa_start r <= g < gr_gpa_start r + gr_size r
  | None => ~ covered_gpa m g
  end.
Proof.
  intros Hc.
  assert (match List.find (fun r => in_gr r g) (mem_regions m) with
          | Some r => r ∈ mem_regions m /\ gr_gpa_start r <= g < gr_gpa_start r + gr_size r
          | None => ~ covered_gpa m g
          end) as F.
  { destruct (List.find _ _) as [r|] eqn:E.
    - apply find_some in E as [Hr%list_elem_of_In E]. split; [done|]. by apply in_gr_spec.
    - intros (p & r & ps & Hr & _ & Hg & _). pose proof (find_none _ _ E r) as N.
      rewrite <- list_elem_of_In in N. specialize (N Hr). simpl in N.
      by rewrite (proj2 (in_gr_spec r g Hr) Hg) in N. }
  unfold find_region. destruct region as [r|]; [|done].
  destruct (in_gr r g) eqn:E; [|done]. split; [auto|]. apply in_gr_spec; auto.
Qed.

(** The result code for [k] of [size] bytes done. *)
Definition access_code (size k : Z) : Z :=
  if k =? size then s32 size else if 0 <? k then s32 k else - EFAULT.

Lemma guest_loop_spec {A} (kmap : Z -> bool) clamp kfail act (gpa size : Z) (Inv : Z -> A -> Prop) :
  (forall p, kmap p = true) -> 0 <= gpa -> gpa + size < 2 ^ 64 ->
  (forall a page copied n, Inv copied a -> 0 <= copied -> 0 < n -> copied + n <= size ->
     (gpa + copied) mod 4096 + n <= 4096 -> ram_at m (gpa + copied) page ->
     Inv (copied + n) (act a page ((gpa + copied) mod 4096) copied n)) ->
  forall fuel copied region a, (forall r, region = Some r -> r ∈ mem_regions m) ->
  Inv copied a -> 0 <= copied <= size -> size - copied <= Z.of_nat fuel ->
  exists k a', guest_loop kmap clamp kfail act fuel m size region copied (gpa + copied) a =
      Done (access_code size k) a' /\ Inv k a' /\ copied <= k <= size /\
    (forall j, copied <= j < k -> covered_gpa m (gpa + j)) /\
    (k = size \/ ~ covered_gpa m (gpa + k)).
Proof.
  intros Hk H0 Hs Step. induction fuel as [|fuel IH]; intros copied region a Hc I Hcp Hf.
  { cbn [guest_loop]. destruct (Z.ltb_spec copied size); [lia|]. exists copied, a.
    unfold access_code. rewrite (proj2 (Z.eqb_eq copied size)) by lia.
    assert (copied = size) as -> by lia. split_and!; [done|done|lia|lia|lia|by left]. }
  cbn [guest_loop]. destruct (Z.ltb_spec copied size) as [Hlt|Hge]; cbn [negb].
  2:{ exists copied, a. unfold access_code. rewrite (proj2 (Z.eqb_eq copied size)) by lia.
      assert (copied = size) as -> by lia. split_and!; [done|done|lia|lia|lia|by left]. }
  pose proof (find_region_spec region (gpa + copied) Hc) as F.
  destruct (find_region m region (gpa + copied)) as [r|].
  2:{ exists copied, a. unfold access_code. rewrite (proj2 (Z.eqb_neq copied size)) by lia.
      split_and!; [done|done|lia|lia|lia|by right]. }
  destruct F as [Hr Hg]. destruct (region_page r _ Hr Hg) as (ps & p & Hp & E & At).
  destruct (ra_ok _ RI _ Hr) as (qs & _ & Rs & _ & R0 & Ra & R1).
  cbv zeta. unfold PAGE_SIZE. rewrite (u64_small (gpa + copied - gr_gpa_start r)) by lia.
  rewrite Hp, E, Hk. cbn [negb]. set (off := (gpa + copied - gr_gpa_start r) mod 4096).
  assert (off = (gpa + copied) mod 4096) as Eo by (unfold off; zdm).
  rewrite !(u64_small (size - copied)), (u64_small (gr_size r - _)) by lia.
  set (n1 := if size - copied <? 4096 - off then size - copied else 4096 - off).
  assert (n1 = Z.min (size - copied) (4096 - off)) as En by (unfold n1; destruct (Z.ltb_spec (size - copied) (4096 - off)); lia).
  assert (0 <= off < 4096) by (apply Z.mod_pos_bound; lia).
  assert ((if clamp && (gr_size r - (gpa + copied - gr_gpa_start r) <? n1)
           then gr_size r - (gpa + copied - gr_gpa_start r) else n1) = n1) as ->.
  { destruct clamp; [|done]. cbn [andb].
    destruct (Z.ltb_spec (gr_size r - (gpa + copied - gr_gpa_start r)) n1); [|done].
    exfalso. unfold off in *. zdm. }
  rewrite u64_small by lia. rewrite <- Z.add_assoc.
  destruct (IH (copied + n1) (Some r) (act a p off copied n1)) as (k & a' & -> & I' & K & Cv & Rk).
  { by intros ? [= <-]. }
  { rewrite Eo. apply Step; try done; lia. }
  { lia. } { lia. }
  exists k, a'. split_and!; [done|done|lia|lia| |done].
  intros j Hj. destruct (decide (j < copied + n1)); [|apply Cv; lia].
  exists p. apply (ram_at_page _ _ _ At). zdm.
Qed.

Lemma page_write_words h p o l : h_words (page_write h p o l) = h_words h /\
  h_live (page_write h p o l) = h_live h /\ h_tick (page_write h p o l) = h_tick h.
Proof. revert h o. induction l as [|b l IH]; intros h o; simpl; [done|].
  by destruct (IH (wr8 h p o b) (o + 1)) as (-> & -> & ->). Qed.

Lemma rd8_page_write h p o l p' o' : rd8 (page_write h p o l) p' o' =
  if decide (p' = p /\ o <= o' < o + Z.of_nat (length l)) then default 0 (l !! Z.to_nat (o' - o))
  else rd8 h p' o'.
Proof.
  revert h o. induction l as [|b l IH]; intros h o; cbn [page_write length].
  { rewrite decide_False; [done|]. intros [_ ?]. lia. }
  rewrite IH, rd8_wr8, Nat2Z.inj_succ.
  destruct (decide (p' = p)) as [->|Hp].
  2:{ rewrite !decide_False; [done|..]; intros [? _]; done. }
  destruct (decide (o' = o)) as [->|Ho].
  { rewrite (decide_False (P := p = p /\ o + 1 <= _ < _)) by (intros [_ ?]; lia).
    rewrite (decide_True (P := p = p /\ o = o)) by done.
    rewrite decide_True by (split; [done|lia]). by rewrite Z.sub_diag. }
  rewrite (decide_False (P := p = p /\ o' = o)) by naive_solver.
  destruct (decide (o < o' < o + 1 + Z.of_nat (length l))).
  - rewrite !decide_True by (split; [done|lia]).
    replace (Z.to_nat (o' - o)) with (S (Z.to_nat (o' - (o + 1)))) by lia. done.
  - rewrite !decide_False by (intros [_ ?]; lia). done.
Qed.

(** The bytes of RAM after a store of [k] bytes of [src] at [gpa]; nothing else of
    the host memory changed. *)
Definition stored (h : host) (gpa : Z) (src : list Z) (k : Z) (h' : host) : Prop :=
  h_words h' = h_words h /\ h_live h' = h_live h /\
  (forall g p, ram_at m g p -> rd8 h' p (g mod 4096) =
     if decide (gpa <= g < gpa + k) then default 0 (src !! Z.to_nat (g - gpa)) else rd8 h p (g mod 4096)) /\
  (forall p o, (forall g, ~ ram_at m g p) -> rd8 h' p o = rd8 h p o).

Lemma stored_0 h gpa src : stored h gpa src 0 h.
Proof. split_and!; try done. intros g p _. rewrite decide_False; [done|lia]. Qed.

Lemma stored_step h gpa src page copied n h1 l : stored h gpa src copied h1 ->
  0 <= copied -> 0 < n -> (gpa + copied) mod 4096 + n <= 4096 -> ram_at m (gpa + copied) page ->
  length l = Z.to_nat n -> (forall j, 0 <= j < n -> l !! Z.to_nat j = src !! Z.to_nat (copied + j)) ->
  stored h gpa src (copied + n) (page_write h1 page ((gpa + copied) mod 4096) l).
Proof.
  intros (Sw & Sl & Sb & So) H0 Hn Hpg At Hl El.
  destruct (page_write_words h1 page ((gpa + copied) mod 4096) l) as (Ew & Elv & _).
  split_and!; [congruence|congruence| |].
  - intros g p Hg. rewrite rd8_page_write, Hl, Z2Nat.id by lia. rewrite (Sb g p Hg).
    destruct (decide (gpa + copied <= g < gpa + copied + n)) as [D|D].
    + assert (g / 4096 = (gpa + copied) / 4096) as Epg by zdm.
      pose proof (ram_at_fun _ _ _ (ram_at_page _ _ _ At Epg) Hg) as <-.
      rewrite !decide_True by (try split; try done; zdm).
      rewrite El by zdm. do 3 f_equal. zdm.
    + rewrite decide_False.
      2:{ intros [-> Ho]. pose proof (ra_inj _ RI _ _ _ Hg At). zdm. }
      repeat case_decide; try done; lia.
  - intros p o N. rewrite rd8_page_write, decide_False; [by apply So|].
    intros [-> _]. by apply (N (gpa + copied)).
Qed.
End AccessCorrect.

Lemma copy_to_spec (kmap : Z -> bool) (h : host) (m : relm_vm_memory) (gpa size : Z)
    (src : list Z) :
  ram_inv m -> (forall p, kmap p = true) -> 0 <= gpa -> 0 < size -> gpa + size < 2 ^ 64 ->
  size <= Z.of_nat (length src) ->
  exists k h', relm_vm_copy_to_guest kmap h m gpa (Some src) size = Done (access_code size k) h' /\
    0 <= k <= size /\ (forall j, 0 <= j < k -> covered_gpa m (gpa + j)) /\
    (k = size \/ ~ covered_gpa m (gpa + k)) /\ stored m h gpa src k h'.
Proof.
  intros RI Hk H0 Hs Hw Hl. unfold relm_vm_copy_to_guest.
  rewrite (proj2 (Z.eqb_neq size 0)) by lia.
  destruct (guest_loop_spec m RI kmap true None
    (fun h page off copied n => page_write h page off (take (Z.to_nat n) (drop (Z.to_nat copied) src)))
    gpa size (fun k h' => stored m h gpa src k h') Hk H0 Hw) with (fuel := Z.to_nat size)
    (copied := 0) (region := @None guest_mem_region) (a := h) as (k & h' & E & S & K & Cv & R);
    [|done|apply stored_0|lia|lia|].
  - intros h1 page copied n S Hc Hn Hcn Hpg At.
    apply (stored_step m RI); try done.
    + rewrite length_take, length_drop. lia.
    + intros j Hj. rewrite lookup_take_lt, lookup_drop by lia. f_equal. lia.
  - rewrite Z.add_0_r in E. exists k, h'. split_and!; try done; lia.
Qed.

(** The copy out of the guest reads the bytes of the covered prefix. *)
Lemma copy_from_spec (kmap : Z -> bool) (h : host) (m : relm_vm_memory) (gpa size : Z) :
  ram_inv m -> (forall p, kmap p = true) -> 0 <= gpa -> 0 < size -> gpa + size < 2 ^ 64 ->
  exists k dst, relm_vm_copy_from_guest kmap h m gpa true size = Done (access_code size k) dst /\
    0 <= k <= size /\ (forall j, 0 <= j < k -> covered_gpa m (gpa + j)) /\
    (k = size \/ ~ covered_gpa m (gpa + k)) /\ length dst = Z.to_nat k /\
    forall j p, 0 <= j < k -> ram_at m (gpa + j) p ->
      dst !! Z.to_nat j = Some (rd8 h p ((gpa + j) mod 4096)).
Proof.
  intros RI Hk H0 Hs Hw. unfold relm_vm_copy_from_guest. cbn [negb orb].
  rewrite (proj2 (Z.eqb_neq size 0)) by lia.
  destruct (guest_loop_spec m RI kmap true (Some (- EFAULT))
    (fun dst page off copied n => dst ++ page_read h page off (Z.to_nat n)) gpa size
    (fun k dst => length dst = Z.to_nat k /\ forall j p, 0 <= j < k -> ram_at m (gpa + j) p ->
      dst !! Z.to_nat j = Some (rd8 h p ((gpa + j) mod 4096))) Hk H0 Hw) with (fuel := Z.to_nat size)
    (copied := 0) (region := @None guest_mem_region) (a := @nil Z) as (k & dst & E & [Sl S] & K & Cv & R);
    [|done|split; [done|lia]|lia|lia|].
  - intros dst page copied n [Sl S] Hc Hn Hcn Hpg At. split.
    + rewrite length_app. unfold page_read. rewrite length_map, length_seq. lia.
    + intros j p Hj Atj. destruct (decide (j < copied)).
      { rewrite lookup_app_l by lia. apply S; [lia|done]. }
      rewrite lookup_app_r, Sl by lia. unfold page_read.
      change (map ?f ?l) with (f <$> l). rewrite list_lookup_fmap.
      rewrite lookup_seq_lt by lia. cbn [fmap option_fmap option_map].
      assert ((gpa + j) / 4096 = (gpa + copied) / 4096) as Epg by zdm.
      rewrite <- (ram_at_fun m RI _ _ _ (ram_at_page m RI _ _ _ At Epg) Atj).
      do 2 f_equal. zdm.
  - rewrite Z.add_0_r in E. exists k, dst. split_and!; try done; lia.
Qed.

Lemma s32_small z : 0 <= z < 2 ^ 31 -> s32 z = z.
Proof. intros H. unfold s32. rewrite Z.mod_small by lia. lia. Qed.

(** A copy into guest RAM followed by a copy out of it gives the buffer back,
    across page and region boundaries. *)
Theorem copy_round_trip (kmap : Z -> bool) (h : host) (m : relm_vm_memory) (gpa size : Z)
    (src : list Z) :
  ram_inv m -> (forall p, kmap p = true) -> 0 <= gpa -> 0 < size < 2 ^ 31 -> gpa + size < 2 ^ 64 ->
  size = Z.of_nat (length src) -> (forall j, 0 <= j < size -> covered_gpa m (gpa + j)) ->
  exists h', relm_vm_copy_to_guest kmap h m gpa (Some src) size = Done size h' /\
    relm_vm_copy_from_guest kmap h' m gpa true size = Done size src.
Proof.
  intros RI Hk H0 Hs Hw Hl Hcov.
  destruct (copy_to_spec kmap h m gpa size src RI Hk H0 ltac:(lia) Hw ltac:(lia))
    as (k & h' & E & K & _ & R & S).
  assert (k = size) as -> by (destruct R as [|R]; [done|]; destruct (decide (k = size)); [done|];
    destruct R; apply Hcov; lia).
  unfold access_code in E. rewrite Z.eqb_refl, s32_small in E by lia.
  exists h'. split; [done|].
  destruct (copy_from_spec kmap h' m gpa size RI Hk H0 ltac:(lia) Hw) as (k & dst & -> & K' & _ & R' & Ld & Sd).
  assert (k = size) as -> by (destruct R' as [|R']; [done|]; destruct (decide (k = size)); [done|];
    destruct R'; apply Hcov; lia).
  unfold access_code. rewrite Z.eqb_refl, s32_small by lia. f_equal.
  apply list_eq. intros i. destruct (decide (i < length src)%nat) as [Hi|Hi].
  - destruct (Hcov (Z.of_nat i) ltac:(lia)) as [p At].
    pose proof (Sd (Z.of_nat i) p ltac:(lia) At) as Ei. rewrite Nat2Z.id in Ei. rewrite Ei.
    destruct S as (_ & _ & Sb & _). rewrite (Sb _ _ At), decide_True by lia.
    replace (Z.to_nat (gpa + Z.of_nat i - gpa)) with i by lia.
    destruct (lookup_lt_is_Some_2 src i Hi) as [x Hx]. by rewrite Hx.
  - rewrite !lookup_ge_None_2; [done|lia..].
Qed.

(** Zeroing guest memory stores zero at every address of the covered prefix of
    the range and touches nothing else. *)
Theorem zero_guest_memory_correct (kmap : Z -> bool) (h : host) (m : relm_vm_memory) (gpa size : Z) :
  ram_inv m -> (forall p, kmap p = true) -> 0 <= gpa -> 0 < size -> gpa + size < 2 ^ 64 ->
  exists k h', relm_vm_zero_guest_memory kmap h m gpa size = Done (access_code size k) h' /\
    0 <= k <= size /\ (k = size \/ ~ covered_gpa m (gpa + k)) /\
    stored m h gpa (replicate (Z.to_nat size) 0) k h'.
Proof.
  intros RI Hk H0 Hs Hw. unfold relm_vm_zero_guest_memory.
  rewrite (proj2 (Z.eqb_neq size 0)) by lia.
  destruct (guest_loop_spec m RI kmap false (Some (- ENOMEM))
    (fun h page off copied n => page_write h page off (replicate (Z.to_nat n) 0))
    gpa size (fun k h' => stored m h gpa (replicate (Z.to_nat size) 0) k h') Hk H0 Hw) with
    (fuel := Z.to_nat size) (copied := 0) (region := @None guest_mem_region) (a := h)
    as (k & h' & E & S & K & _ & R); [|done|apply stored_0|lia|lia|].
  - intros h1 page copied n S Hc Hn Hcn Hpg At. apply (stored_step m RI); try done.
    + by rewrite length_replicate.
    + intros j Hj. rewrite !lookup_replicate_2 by lia. done.
  - rewrite Z.add_0_r in E. exists k, h'. split_and!; try done; lia.
Qed.

(** ** Allocation, and what the guest sees

    [vm_inv]: the tables are well formed; guest RAM is backed by distinct pages in
    use, none of them a table; and the hardware translates each RAM address to its
    place in its page. *)
Section VmInv.
Context `{PA : PageAlloc} {PAok : PageAllocOk PA} {MO : MemOps} {MOok : MemOpsOk MO}.

Record vm_inv (h : host) (c : mo_ctx) (m : relm_vm_memory) (T : gset Z) : Prop := VmInv {
  vi_ctx : mo_inv h c T;
  vi_ram : ram_inv m;
  vi_page g p : ram_at m g p -> p ∈ h_live h /\ p ∉ T /\ p mod 4096 = 0;
  vi_translate g p : ram_at m g p -> mo_translate h c g = Some (p + g mod 4096)
}.

(** The byte the guest reads at [g] through the second-stage tables. *)
Definition gread (h : host) (c : mo_ctx) (g : Z) : option Z :=
  match mo_translate h c g with
  | Some hpa => Some (rd8 h (hpa - hpa mod 4096) (hpa mod 4096))
  | None => None
  end.

Lemma gread_ram h c m T g p : vm_inv h c m T -> ram_at m g p ->
  gread h c g = Some (rd8 h p (g mod 4096)).
Proof.
  intros V At. unfold gread. rewrite (vi_translate _ _ _ _ V _ _ At).
  destruct (vi_page _ _ _ _ V _ _ At) as (_ & _ & Ha). do 2 f_equal; zdm.
Qed.

(** Stores into guest RAM keep the invariant. *)
Lemma vm_inv_stored h c m T gpa src k h' : vm_inv h c m T -> stored m h gpa src k h' -> vm_inv h' c m T.
Proof.
  intros V (Sw & Sl & _ & _). destruct (mo_frame h h' c T (vi_ctx _ _ _ _ V)) as [I E].
  { intros t i _. unfold rd64. by rewrite Sw. }
  { rewrite Sl. apply (mo_live _ _ _ (vi_ctx _ _ _ _ V)). }
  split; [done|apply V| |].
  - intros g p At. rewrite Sl. by eapply (vi_page _ _ _ _ V).
  - intros g p At. rewrite E. by apply (vi_translate _ _ _ _ V).
Qed.

(** One zeroed page, given to the guest: nothing in use is disturbed. *)
Lemma fresh_page_frame h c T p h1 : mo_inv h c T -> get_zeroed_page h = (Some p, h1) ->
  mo_inv h1 c T /\ (forall g, mo_translate h1 c g = mo_translate h c g) /\ p ∉ T.
Proof.
  intros I G. pose proof (mo_live _ _ _ I) as Lv. destruct (get_zeroed_page_Some _ _ _ G) as [Hc L].
  apply page_fresh in Hc. assert (p ∉ T) as HpT by set_solver.
  destruct (mo_frame h h1 c T I) as [I1 E1]; [| |done].
  - intros t i Ht. rewrite (rd64_new_page _ _ _ _ _ G). by rewrite decide_False by set_solver.
  - rewrite L. set_solver.
Qed.

Record ram_alloc (h : host) (c : mo_ctx) (T : gset Z) (g i : Z) (n : nat) (r : Z)
    (h' : host) (c' : mo_ctx) (T' : gset Z) (new : list Z) : Prop := RamAlloc {
  al_inv : mo_inv h' c' T';
  al_sub : T ⊆ T';
  al_tab t : t ∈ T' -> t ∈ T \/ t ∉ h_live h;
  al_live : h_live h' = h_live h ∪ T' ∪ list_to_set new;
  al_code : r = 0 /\ length new = n \/ r = - ENOMEM /\ (length new < n)%nat;
  al_nodup : NoDup new;
  al_new p : p ∈ new -> p ∉ h_live h /\ p ∉ T' /\ p mod 4096 = 0 /\ 0 < p < 2 ^ 52;
  al_trans gpa : 0 <= gpa < 2 ^ 48 -> mo_translate h' c' gpa =
    if decide (g + i * 4096 <= gpa < g + (i + Z.of_nat (length new)) * 4096)
    then (fun p => p + gpa mod 4096) <$> new !! Z.to_nat ((gpa - (g + i * 4096)) / 4096)
    else mo_translate h c gpa
}.

Lemma ram_alloc_nil h c T g i n r : mo_inv h c T -> (r = 0 /\ n = 0%nat \/ r = - ENOMEM /\ (0 < n)%nat) ->
  forall h1, (forall t i, t ∈ T -> rd64 h t i = rd64 h1 t i) -> h_live h1 = h_live h ->
  ram_alloc h c T g i n r h1 c T [].
Proof.
  intros I R h1 Ew El. pose proof (mo_live _ _ _ I) as Lv.
  destruct (mo_frame h h1 c T I Ew) as [I1 E1]; [by rewrite El|].
  split; auto; try done.
  - rewrite El. set_solver.
  - simpl. destruct R as [[-> ->]|[-> ?]]; [left|right]; done.
  - constructor.
  - set_solver.
  - intros gpa _. rewrite decide_False by (simpl; lia). apply E1.
Qed.

Lemma alloc_loop_spec n i h c T g ps r h' o ps' :
  mo_inv h c T -> g mod 4096 = 0 -> 0 <= g -> 0 <= i -> g + (i + Z.of_nat n) * 4096 <= 2 ^ 48 ->
  alloc_ram_loop n i h (Some c) g RAM_FLAGS ps = (r, h', o, ps') ->
  exists c' T' new, o = Some c' /\ ps' = ps ++ map Some new /\
    ram_alloc h c T g i n r h' c' T' new.
Proof.
  revert i h c T ps. induction n as [|n IH]; intros i h c T ps I Ha Hg Hi Hs; cbn [alloc_ram_loop].
  { intros [= <- <- <- <-]. exists c, T, []. rewrite app_nil_r. split_and!; [done|done|].
    apply ram_alloc_nil; auto. }
  destruct (get_zeroed_page h) as [[page|] h1] eqn:G.
  2:{ intros [= <- <- <- <-]. exists c, T, []. rewrite app_nil_r. split_and!; [done|done|].
      destruct (get_zeroed_page_None _ _ G) as (_ & _ & El).
      apply ram_alloc_nil; [done|right; split; [done|lia]| |done].
      intros t j _. by rewrite (rd64_no_page _ _ _ _ G). }
  destruct (get_zeroed_page_Some _ _ _ G) as [Hc L].
  destruct (fresh_page_frame _ _ _ _ _ I G) as (I1 & E1 & HpT).
  pose proof (page_fresh _ _ _ Hc) as Hf. pose proof (page_aligned _ _ _ Hc) as Hpa.
  pose proof (page_range _ _ _ Hc) as Hpr. pose proof (mo_live _ _ _ I) as Lv.
  rewrite Nat2Z.inj_succ in Hs. cbv zeta. unfold PAGE_SIZE. rewrite u64_small by lia.
  set (gi := g + i * 4096). assert (gi mod 4096 = 0) as Hgi by (unfold gi; zdm).
  destruct (mo_map_page h1 (Some c) gi page RAM_FLAGS) as [[r1 h2] o2] eqn:Em.
  destruct (mo_map_ok RAM_FLAGS eq_refl h1 c T gi page r1 h2 o2 I1 Hgi Hpa ltac:(lia) Em)
    as (c2 & T2 & -> & I2 & S2 & L2 & F2 & _ & R2 & E2).
  assert (page ∉ T2) as HpT2.
  { intros Ht. apply F2 in Ht as [|Ht]; [done|]. apply Ht. rewrite L. set_solver. }
  assert (forall gpa, 0 <= gpa < 2 ^ 48 -> mo_translate h2 c2 gpa =
    if decide (r1 = 0 /\ gi <= gpa < gi + 4096) then Some (page + gpa mod 4096) else mo_translate h c gpa) as E2'.
  { intros gpa Hgpa. rewrite E2, E1. apply decide_ext.
    pose proof (vpn_inj gpa gi Hgpa ltac:(unfold gi; lia) Hgi) as Vp. tauto. }
  destruct (Z.ltb_spec r1 0) as [Hr|Hr].
  - intros [= <- <- <- <-]. assert (r1 = - ENOMEM) as -> by (destruct R2 as [|[]]; lia).
    exists c2, T2, []. rewrite app_nil_r. split_and!; [done|done|].
    destruct (mo_frame h2 (free_page h2 page) c2 T2 I2) as [I3 E3].
    { intros t j Ht. rewrite rd64_free; [done|]. by intros ->. }
    { simpl. pose proof (mo_live _ _ _ I2). set_solver. }
    split; auto; try done.
    + intros t Ht. apply F2 in Ht as [|Ht]; [by left|]. right. rewrite L in Ht. set_solver.
    + simpl. rewrite L2, L. set_solver.
    + right. split; [done|simpl; lia].
    + constructor.
    + set_solver.
    + intros gpa Hgpa. rewrite E3, E2' by done. rewrite !decide_False by (simpl; lia). done.
  - assert (r1 = 0) as -> by (destruct R2 as [|[-> _]]; [done|unfold ENOMEM in Hr; lia]).
    intros (c' & T' & new & -> & -> & Al)%(IH _ _ _ T2); [|done || lia..].
    destruct Al as [I' S' F' L' R' ND' N' E']. exists c', T', (page :: new).
    split_and!; [done|by rewrite <- app_assoc|]. split.
    + done.
    + set_solver.
    + intros t Ht. apply F' in Ht as [Ht|Ht].
      * apply F2 in Ht as [|Ht]; [by left|]. right. rewrite L in Ht. set_solver.
      * right. rewrite L2, L in Ht. set_solver.
    + rewrite L', L2, L. simpl. set_solver.
    + simpl. destruct R' as [[-> ?]|[-> ?]]; [left|right]; split; try done; lia.
    + apply NoDup_cons. split; [|done]. intros Hn. apply N' in Hn as [Hn _].
      apply Hn. rewrite L2, L. set_solver.
    + intros p [->|Hp]%elem_of_cons.
      * split_and!; [done| |done|lia|lia]. intros Ht. apply F' in Ht as [|Ht]; [done|].
        apply Ht. rewrite L2, L. set_solver.
      * destruct (N' p Hp) as (Hn & ? & ? & ?). split_and!; try done || lia. rewrite L2, L in Hn. set_solver.
    + intros gpa Hgpa. rewrite E' by done. simpl length. rewrite Nat2Z.inj_succ. unfold gi in *.
      destruct (decide (g + i * 4096 <= gpa < g + i * 4096 + 4096)) as [D|D].
      * rewrite decide_False, decide_True by lia. rewrite E2', decide_True by done.
        replace ((gpa - (g + i * 4096)) / 4096) with 0 by zdm. done.
      * destruct (decide (g + (i + 1) * 4096 <= gpa < g + (i + 1 + Z.of_nat (length new)) * 4096)) as [D'|D'].
        -- rewrite decide_True by lia.
           replace (Z.to_nat ((gpa - (g + i * 4096)) / 4096))
             with (S (Z.to_nat ((gpa - (g + (i + 1) * 4096)) / 4096))) by zdm. done.
        -- rewrite E2', !decide_False; [done|lia|lia|done].
Qed.

Lemma ram_at_cons m r rs ps ram g p : gr_pages r = Some (map Some ps) ->
  ram_at (set_regions m (r :: rs) ram) g p <->
    (gr_gpa_start r <= g < gr_gpa_start r + gr_size r /\
     ps !! Z.to_nat ((g - gr_gpa_start r) / 4096) = Some p) \/
    ram_at (set_regions m rs ram) g p.
Proof.
  intros Hp. split.
  - intros (r' & ps' & [->|Hr]%elem_of_cons & Hp' & Hg & E); [left|right; by exists r', ps'].
    split; [done|]. rewrite Hp in Hp'. injection Hp' as <-.
    change (map Some ps) with (Some <$> ps) in E. rewrite list_lookup_fmap in E.
    by destruct (ps !! _); simplify_eq/=.
  - intros [[Hg E]|(r' & ps' & Hr & ? & ? & ?)].
    + exists r, (map Some ps). split_and!; [apply elem_of_cons; by left|done|lia|lia|].
      change (map Some ps) with (Some <$> ps). by rewrite list_lookup_fmap, E.
    + exists r', ps'. split_and!; [apply elem_of_cons; by right|done|lia|lia|done].
Qed.

Definition gpa_free (m : relm_vm_memory) (g l : Z) : Prop :=
  forall r, r ∈ mem_regions m -> disjoint_ranges g l (gr_gpa_start r) (gr_size r).

(** A fresh region of fresh pages, mapped in order, extends the invariant. *)
Lemma vm_inv_extend h c m T g h' c' T' new ram : vm_inv h c m T ->
  ram_alloc h c T g 0 (length new) 0 h' c' T' new -> 0 <= g -> g mod 4096 = 0 ->
  g + 4096 * Z.of_nat (length new) <= 2 ^ 48 -> gpa_free m g (4096 * Z.of_nat (length new)) ->
  let l := 4096 * Z.of_nat (length new) in
  let r := GuestRegion g l (Some (map Some new)) (Z.of_nat (length new)) RAM_FLAGS in
  vm_inv h' c' (set_regions m (r :: mem_regions m) ram) T'.
Proof.
  intros V Al Hg Ha Hs Fr l r. pose proof (vi_ram _ _ _ _ V) as RI.
  assert (forall x p, ram_at (set_regions m (r :: mem_regions m) ram) x p <->
    (g <= x < g + l /\ new !! Z.to_nat ((x - g) / 4096) = Some p) \/ ram_at m x p) as At
    by (intros x p; by rewrite (ram_at_cons _ _ _ new)).
  assert (forall x p, ram_at m x p -> ~ (g <= x < g + l) /\ 0 <= x < 2 ^ 48) as Old.
  { intros x p (r' & ps & Hr & _ & Hx & _). destruct (ra_ok _ RI _ Hr) as (qs & _ & Rs & _ & R0 & _ & R1).
    specialize (Fr _ Hr). unfold disjoint_ranges in Fr. lia. }
  assert (forall x p, g <= x < g + l -> new !! Z.to_nat ((x - g) / 4096) = Some p -> p ∈ new) as In.
  { intros x p _ E. by apply list_elem_of_lookup_2 in E. }
  split.
  - apply Al.
  - split.
    + intros r' [->|Hr]%elem_of_cons; [|by apply (ra_ok _ RI)].
      exists new. simpl. split_and!; try done; lia.
    + intros r1 r2 x [->|H1]%elem_of_cons [->|H2]%elem_of_cons X1 X2; try done.
      * specialize (Fr _ H2). unfold disjoint_ranges in Fr. simpl in X1. lia.
      * specialize (Fr _ H1). unfold disjoint_ranges in Fr. simpl in X2. lia.
      * by eapply (ra_uniq _ RI).
    + intros x y p [[Hx Ex]|Hx]%At [[Hy Ey]|Hy]%At.
      * pose proof (NoDup_lookup _ _ _ _ (al_nodup _ _ _ _ _ _ _ _ _ _ _ Al) Ex Ey). zdm.
      * destruct (al_new _ _ _ _ _ _ _ _ _ _ _ Al p (In _ _ Hx Ex)) as [Hn _].
        by destruct Hn; eapply (vi_page _ _ _ _ V).
      * destruct (al_new _ _ _ _ _ _ _ _ _ _ _ Al p (In _ _ Hy Ey)) as [Hn _].
        by destruct Hn; eapply (vi_page _ _ _ _ V).
      * by eapply (ra_inj _ RI).
  - intros x p [[Hx Ex]|Hx]%At.
    + destruct (al_new _ _ _ _ _ _ _ _ _ _ _ Al p (In _ _ Hx Ex)) as (_ & ? & ? & _).
      split_and!; try done. rewrite (al_live _ _ _ _ _ _ _ _ _ _ _ Al).
      apply elem_of_union. right. apply elem_of_list_to_set. eauto.
    + destruct (vi_page _ _ _ _ V _ _ Hx) as (Hl & Ht & ?). split_and!; [|intros Ht'|done].
      * rewrite (al_live _ _ _ _ _ _ _ _ _ _ _ Al). set_solver.
      * by apply (al_tab _ _ _ _ _ _ _ _ _ _ _ Al) in Ht' as [|].
  - intros x p Hx. rewrite (al_trans _ _ _ _ _ _ _ _ _ _ _ Al).
    2:{ apply At in Hx as [[Hx _]|Hx]; [lia|]. by apply Old in Hx as []. }
    rewrite Z.mul_0_l, Z.add_0_r, Z.add_0_l, (Z.mul_comm (Z.of_nat _)).
    apply At in Hx as [[Hx Ex]|Hx].
    + rewrite decide_True by done. by rewrite Ex.
    + rewrite decide_False by (by eapply Old). by apply (vi_translate _ _ _ _ V).
Qed.

Lemma free_list_live h l : h_live (fold_left
    (fun h o => match o with Some p => free_page h p | None => h end) (map Some l) h) =
  h_live h ∖ list_to_set l.
Proof.
  revert h. induction l as [|p l IH]; intros h; simpl; [set_solver|]. rewrite IH. simpl. set_solver.
Qed.

(** Freeing pages that are not tables leaves the tables alone. *)
Lemma free_list_frame h c T l : mo_inv h c T -> (forall t, t ∈ T -> t ∉ l) ->
  mo_inv (fold_left (fun h o => match o with Some p => free_page h p | None => h end) (map Some l) h) c T.
Proof.
  intros I Hd. apply (mo_frame h); [done| |].
  - clear I. intros t i Ht. specialize (Hd t Ht). revert h. induction l as [|p l IH]; intros h; [done|].
    simpl. rewrite <- IH by set_solver. by rewrite rd64_free by set_solver.
  - rewrite free_list_live. pose proof (mo_live _ _ _ I) as Lv.
    intros t Ht. apply elem_of_difference. split; [by apply Lv|]. rewrite elem_of_list_to_set. by apply Hd.
Qed.

(** What an allocation does to the allocator, the tables and the lists. *)
Lemma alloc_ram_spec h h' c m T size g r vm' :
  vm_inv h c m T -> 0 <= g -> g mod 4096 = 0 -> 0 <= size <= 2 ^ 48 -> g + PAGE_ALIGN size <= 2 ^ 48 ->
  gpa_free m g (PAGE_ALIGN size) ->
  relm_vm_allocate_guest_ram true true h (VmMem _ (Some c) m) size g = (r, h', vm') ->
  exists c' T', v_ctx vm' = Some c' /\ T ⊆ T' /\ (forall t, t ∈ T' -> t ∈ T \/ t ∉ h_live h) /\ mo_inv h' c' T' /\
    ((r = 0 /\ vm_inv h' c' (v_mem vm') T' /\
      (forall x, g <= x < g + PAGE_ALIGN size -> covered_gpa (v_mem vm') x) /\
      (forall x, 0 <= x < 2 ^ 48 -> ~ (g <= x < g + PAGE_ALIGN size) ->
         mo_translate h' c' x = mo_translate h c x) /\
      total_guest_ram (v_mem vm') = u64 (total_guest_ram m + PAGE_ALIGN size) /\
      exists new : list Z, h_live h' = h_live h ∪ T' ∪ list_to_set new /\ (forall p, p ∈ new -> p ∉ h_live h) /\
        forall p, (exists x, ram_at (v_mem vm') x p) <-> p ∈ new \/ exists x, ram_at m x p) \/
     (r = - ENOMEM /\ v_mem vm' = m /\ h_live h' = h_live h ∪ T')).
Proof.
  intros V Hg Ha Hs Hgs Fr. unfold relm_vm_allocate_guest_ram. cbn [negb v_ctx v_mem].
  destruct (page_align_pages size ltac:(lia) ltac:(lia)) as (Pn & Pe & Pb).
  unfold PAGE_SIZE. set (n := Z.to_nat (PAGE_ALIGN size / 4096)).
  assert (PAGE_ALIGN size = 4096 * Z.of_nat n) as En by (unfold n; lia).
  destruct (alloc_ram_loop n 0 h (Some c) g RAM_FLAGS []) as [[[r1 h1] o1] ps] eqn:E.
  destruct (alloc_loop_spec n 0 h c T g [] r1 h1 o1 ps (vi_ctx _ _ _ _ V) Ha Hg ltac:(lia) ltac:(lia) E)
    as (c' & T' & new & -> & -> & Al). rewrite app_nil_l in *.
  destruct (al_code _ _ _ _ _ _ _ _ _ _ _ Al) as [[-> Ln]|[-> Ln]].
  - cbn [Z.ltb Z.compare]. intros [= <- <- <-]. exists c', T'.
    split_and!; [done|apply Al|apply Al|apply Al|left]. cbn [v_mem]. split; [done|].
    assert (vm_inv h1 c' (set_regions m (GuestRegion g (PAGE_ALIGN size) (Some (map Some new))
      (PAGE_ALIGN size / 4096) RAM_FLAGS :: mem_regions m) (u64 (total_guest_ram m + PAGE_ALIGN size))) T') as V'.
    { replace (PAGE_ALIGN size / 4096) with (Z.of_nat n) by lia. rewrite !En. subst n. rewrite <- !Ln.
      apply (vm_inv_extend h c m T); try done; [by rewrite Ln|lia|by rewrite Ln, <- En]. }
    split_and!; [done| | |done|].
    + intros x Hx. destruct (lookup_lt_is_Some_2 new (Z.to_nat ((x - g) / 4096))) as [p Hp]; [rewrite Ln; zdm|].
      exists p. apply (ram_at_cons _ _ _ new); [done|]. left. by split.
    + intros x Hx Hn. rewrite (al_trans _ _ _ _ _ _ _ _ _ _ _ Al) by done.
      by rewrite decide_False by lia.
    + exists new. split_and!; [apply Al|intros p Hp; by apply (al_new _ _ _ _ _ _ _ _ _ _ _ Al)|]. intros p. split.
      * intros [x Hx]. apply (ram_at_cons _ _ _ new) in Hx as [[_ Hx]|Hx]; [|right; by exists x|done].
        left. by apply list_elem_of_lookup_2 in Hx.
      * intros [[i Hi]%list_elem_of_lookup|[x Hx]].
        -- exists (g + 4096 * Z.of_nat i). apply (ram_at_cons _ _ _ new); [done|]. left. simpl.
           pose proof (lookup_lt_Some _ _ _ Hi). split; [lia|].
           replace ((g + 4096 * Z.of_nat i - g) / 4096) with (Z.of_nat i) by zdm. by rewrite Nat2Z.id.
        -- exists x. apply (ram_at_cons _ _ _ new); [done|]. by right.
  - cbn [Z.ltb Z.compare]. intros [= <- <- <-]. exists c', T'. unfold free_pages_down. rewrite <- map_rev.
    assert (forall x, x ∈ rev new <-> x ∈ new) as Er by (intros x; by rewrite !list_elem_of_In, <- in_rev).
    split_and!; [done|apply Al|apply Al| |right].
    { apply free_list_frame; [apply Al|]. intros t Ht Hn%Er%(al_new _ _ _ _ _ _ _ _ _ _ _ Al). tauto. }
    split_and!; [done|done|]. rewrite free_list_live.
    rewrite (al_live _ _ _ _ _ _ _ _ _ _ _ Al). apply set_eq. intros x.
    rewrite elem_of_difference, !elem_of_union, !elem_of_list_to_set, Er. split; [tauto|]. intros Hx. split; [tauto|].
    intros Hn%(al_new _ _ _ _ _ _ _ _ _ _ _ Al). tauto.
Qed.


(** C2. What the hypervisor copies into guest RAM is what the guest reads: after a
    copy of a whole buffer into valid guest memory, the byte the guest reads at
    each address through its second-stage tables is the byte of the buffer inside
    the range and the byte it would have read before outside it; the memory stays
    valid. *)
Theorem guest_sees_copied_data (kmap : Z -> bool) (h : host) (c : mo_ctx) (m : relm_vm_memory)
    (T : gset Z) (gpa size : Z) (src : list Z) :
  vm_inv h c m T -> (forall p, kmap p = true) -> 0 <= gpa -> 0 < size < 2 ^ 31 -> gpa + size < 2 ^ 64 ->
  size = Z.of_nat (length src) -> (forall j, 0 <= j < size -> covered_gpa m (gpa + j)) ->
  exists h', relm_vm_copy_to_guest kmap h m gpa (Some src) size = Done size h' /\ vm_inv h' c m T /\
    forall g, covered_gpa m g -> gread h' c g =
      if decide (gpa <= g < gpa + size) then src !! Z.to_nat (g - gpa) else gread h c g.
Proof.
  intros V Hk H0 Hs Hw Hl Hcov.
  destruct (copy_to_spec kmap h m gpa size src (vi_ram _ _ _ _ V) Hk H0 ltac:(lia) Hw ltac:(lia))
    as (k & h' & E & K & _ & R & S).
  assert (k = size) as -> by (destruct R as [|R]; [done|]; destruct (decide (k = size)); [done|];
    destruct R; apply Hcov; lia).
  unfold access_code in E. rewrite Z.eqb_refl, s32_small in E by lia.
  pose proof (vm_inv_stored _ _ _ _ _ _ _ _ V S) as V'.
  exists h'. split_and!; [done|done|]. intros g [p At].
  rewrite (gread_ram _ _ _ _ _ _ V' At), (gread_ram _ _ _ _ _ _ V At).
  destruct S as (_ & _ & Sb & _). rewrite (Sb _ _ At). case_decide; [|done].
  destruct (lookup_lt_is_Some_2 src (Z.to_nat (g - gpa))) as [x Hx]; [lia|]. by rewrite Hx.
Qed.

(** The pages go back, the tables stay. *)
Lemma free_mem_spec (h h' : host) (c : mo_ctx) (m : relm_vm_memory) (T : gset Z)
    (vm' : vm_mem) :
  vm_inv h c m T -> relm_vm_free_guest_mem h (VmMem _ (Some c) m) = (h', vm') ->
  (forall x, x ∈ h_live h' <-> x ∈ h_live h /\ forall g, ~ ram_at m g x) /\
  mo_inv h' c T /\ v_ctx vm' = Some c /\ mem_regions (v_mem vm') = [] /\ total_guest_ram (v_mem vm') = 0.
Proof.
  intros V E. unfold relm_vm_free_guest_mem in E. cbn [v_ctx v_mem] in E.
  assert (exists l, fold_left free_region (mem_regions m) h =
    fold_left (fun h o => match o with Some p => free_page h p | None => h end) (map Some l) h /\
    forall x, x ∈ l <-> exists g, ram_at m g x) as (l & Ef & El).
  { pose proof (ra_ok _ (vi_ram _ _ _ _ V)) as Ok. clear V E. unfold ram_at.
    revert h Ok. induction (mem_regions m) as [|r rs IH]; intros h Ok.
    - exists []. split; [done|]. intros x. split; [by intros []%not_elem_of_nil|].
      by intros (g & r & ps & []%not_elem_of_nil & _).
    - destruct (Ok r (list_elem_of_here _ _)) as (ps & Hp & Hs & Hn & _).
      destruct (IH (free_region h r)) as (l & E & El); [intros; by apply Ok; right|].
      exists (ps ++ l). cbn [fold_left]. rewrite E, map_app, fold_left_app. split.
      + f_equal. unfold free_region. rewrite Hp, Hn, Nat2Z.id, take_ge; [done|]. by rewrite length_map.
      + intros x. rewrite elem_of_app, El. split.
        * intros [[i Hi]%list_elem_of_lookup|(g & r' & qs & Hr & ?)].
          -- exists (gr_gpa_start r + 4096 * Z.of_nat i), r, (map Some ps).
             pose proof (lookup_lt_Some _ _ _ Hi). split_and!; [left|done|lia|lia|].
             replace ((gr_gpa_start r + 4096 * Z.of_nat i - gr_gpa_start r) / 4096) with (Z.of_nat i) by zdm.
             rewrite Nat2Z.id. change (map Some ps) with (Some <$> ps). by rewrite list_lookup_fmap, Hi.
          -- exists g, r', qs. split; [by right|done].
        * intros (g & r' & qs & [->|Hr]%elem_of_cons & Hq & Hg & Hx); [left|right; by exists g, r', qs].
          rewrite Hp in Hq. injection Hq as <-. change (map Some ps) with (Some <$> ps) in Hx.
          rewrite list_lookup_fmap in Hx. destruct (ps !! _) eqn:Eq; simplify_eq/=.
          by apply list_elem_of_lookup_2 in Eq. }
  injection E as <- <-. rewrite Ef.
  assert (forall t, t ∈ T -> t ∉ l) as Hd.
  { intros t Ht [g Hg]%El. by destruct (vi_page _ _ _ _ V _ _ Hg) as (_ & ? & _). }
  split_and!; [|by apply free_list_frame; [apply V|]|done..].
  - intros x. rewrite free_list_live, elem_of_difference, elem_of_list_to_set, El.
    naive_solver.
Qed.

(** Releasing guest memory returns exactly the pages that back guest RAM to the
    allocator, leaves the second-stage tables valid, and empties the lists. *)
Theorem free_guest_mem_correct (h h' : host) (c : mo_ctx) (m : relm_vm_memory) (T : gset Z)
    (vm' : vm_mem) :
  vm_inv h c m T -> relm_vm_free_guest_mem h (VmMem _ (Some c) m) = (h', vm') ->
  (forall x, x ∈ h_live h' <-> x ∈ h_live h /\ forall g, ~ ram_at m g x) /\
  mo_inv h' c T /\ v_ctx vm' = Some c /\ mem_regions (v_mem vm') = [] /\ total_guest_ram (v_mem vm') = 0.
Proof. apply free_mem_spec. Qed.
End VmInv.

(** ** Concrete instances: one region of two pages *)
Module GuestMemDemo.
Definition m1 : relm_vm_memory :=
  set_regions vm_memory0 [GuestRegion 0 0x2000 (Some [Some 0x9000; Some 0x5000]) 2 RAM_FLAGS] 0x2000.

Lemma demo_at g p : ram_at m1 g p <-> 0 <= g < 0x2000 /\ p = if g <? 4096 then 0x9000 else 0x5000.
Proof.
  unfold m1. rewrite (ram_at_cons _ _ _ [0x9000; 0x5000]) by done. cbn [gr_gpa_start gr_size].
  split.
  - intros [[Hg E]|(r & _ & []%not_elem_of_nil & _)]. split; [lia|]. rewrite Z.sub_0_r in E.
    destruct (Z.ltb_spec g 4096).
    + replace (g / 4096) with 0 in E by zdm. by injection E as <-.
    + replace (g / 4096) with 1 in E by zdm. by injection E as <-.
  - intros [Hg ->]. left. split; [lia|]. rewrite Z.sub_0_r. destruct (Z.ltb_spec g 4096).
    + by replace (g / 4096) with 0 by zdm.
    + by replace (g / 4096) with 1 by zdm.
Qed.

Lemma demo_inv : ram_inv m1.
Proof.
  split.
  - intros r ->%list_elem_of_singleton. by exists [0x9000; 0x5000].
  - intros r r' g ->%list_elem_of_singleton ->%list_elem_of_singleton. done.
  - intros g g' p [Hg E]%demo_at [Hg' E']%demo_at.
    destruct (Z.ltb_spec g 4096), (Z.ltb_spec g' 4096); simplify_eq; zdm.
Qed.

Lemma demo_covered g : 0 <= g < 0x2000 -> covered_gpa m1 g.
Proof. intros Hg. eexists. by apply demo_at. Qed.

Lemma copy_round_trip_witness : exists h',
  relm_vm_copy_to_guest (fun _ => true) host0 m1 0xFFE (Some [1; 2; 3; 4]) 4 = Done 4 h' /\
  relm_vm_copy_from_guest (fun _ => true) h' m1 0xFFE true 4 = Done 4 [1; 2; 3; 4].
Proof.
  apply (copy_round_trip (fun _ => true) host0 m1 0xFFE 4 [1; 2; 3; 4] demo_inv);
    [done|lia|lia|lia|done|]. intros j Hj. apply demo_covered. lia.
Defined.

Lemma zero_guest_memory_correct_witness : exists k h',
  relm_vm_zero_guest_memory (fun _ => true) host0 m1 0xFFE 4 = Done (access_code 4 k) h' /\ k = 4.
Proof.
  destruct (zero_guest_memory_correct (fun _ => true) host0 m1 0xFFE 4 demo_inv)
    as (k & h' & E & K & R & _); [done|lia|lia|lia|].
  exists k, h'. split; [done|]. destruct R as [|R]; [done|].
  destruct (decide (k = 4)); [done|]. destruct R. apply demo_covered. lia.
Defined.
End GuestMemDemo.
