(* ===== verification/VmDemo.v ===== *)
(** * Concrete VMs

    The VM memory layer on the EPT backend with a concrete page allocator: the
    hypotheses of the guest-memory theorems hold of a VM that was really built. *)
From S2P Require Import Prelude HostMem Radix X86Pt MemOps VmMem Ept GuestMem.

Module VmDemo.
#[local] Instance alloc : PageAlloc := bump_alloc 54.
#[local] Instance ops : MemOps := vmx_mem_ops.
#[local] Instance ops_ok : MemOpsOk ops := vmx_mem_ops_ok.

Definition vm0 : vm_mem := VmMem _ (Some EptDemo.ept0) vm_memory0.

Lemma vm0_inv : vm_inv EptDemo.h0 EptDemo.ept0 vm_memory0 {[4096]}.
Proof.
  split.
  - exact EptDemo.ept_demo_ok.
  - split.
    + by intros r []%not_elem_of_nil.
    + by intros r r' g []%not_elem_of_nil.
    + by intros g g' p (? & ? & []%not_elem_of_nil & _).
  - by intros g p (? & ? & []%not_elem_of_nil & _).
  - by intros g p (? & ? & []%not_elem_of_nil & _).
Qed.


(** A VM with two pages of RAM. *)
Definition loop2 := alloc_ram_loop 2 0 EptDemo.h0 (Some EptDemo.ept0) 0 RAM_FLAGS [].

Lemma demo_vm : exists h c m T, vm_inv h c m T /\ (forall g, 0 <= g < 0x2000 -> covered_gpa m g) /\
  total_guest_ram m = 0x2000.
Proof.
  assert (fst (fst (fst loop2)) = 0) as Hr by (vm_compute; reflexivity).
  destruct loop2 as [[[r h1] o] ps] eqn:E. unfold loop2 in E. cbn [fst] in Hr. subst r.
  destruct (alloc_loop_spec (MO := ops) 2 0 EptDemo.h0 EptDemo.ept0 {[4096]} 0 [] 0 h1 o ps
    (vi_ctx _ _ _ _ vm0_inv) eq_refl ltac:(lia) ltac:(lia) ltac:(lia) E) as (c' & T' & new & _ & _ & Al).
  destruct (al_code _ _ _ _ _ _ _ _ _ _ _ Al) as [[_ Ln]|[? _]]; [|done].
  rewrite <- Ln in Al.
  pose proof (vm_inv_extend _ _ _ _ 0 h1 c' T' new 0x2000 vm0_inv Al) as V. rewrite Ln in V.
  specialize (V ltac:(lia) eq_refl ltac:(lia) ltac:(by intros x []%not_elem_of_nil)).
  do 4 eexists. split; [exact V|]. split; [|reflexivity]. intros g Hg.
  destruct (lookup_lt_is_Some_2 new (Z.to_nat (g / 4096))) as [p Hp]; [rewrite Ln; zdm|].
  exists p. apply (ram_at_cons _ _ _ new); [done|]. left. cbn [gr_gpa_start gr_size].
  rewrite Z.sub_0_r. split; [lia|done].
Qed.

Lemma guest_sees_copied_data_witness : exists h c m h',
  relm_vm_copy_to_guest (fun _ => true) h m 0xFFE (Some [1; 2; 3; 4]) 4 = Done 4 h' /\
  gread h' c 0x1000 = Some 3.
Proof.
  destruct demo_vm as (h & c & m & T & V & Cv & _).
  destruct (guest_sees_copied_data (fun _ => true) h c m T 0xFFE 4 [1; 2; 3; 4] V) as (h' & E & _ & G);
    [done|lia|lia|lia|done|intros j Hj; apply Cv; lia|].
  exists h, c, m, h'. split; [done|]. rewrite G by (apply Cv; lia). reflexivity.
Defined.

Lemma free_guest_mem_correct_witness : exists h c m T h' vm',
  vm_inv h c m T /\ relm_vm_free_guest_mem h (VmMem _ (Some c) m) = (h', vm') /\ mo_inv h' c T.
Proof.
  destruct demo_vm as (h & c & m & T & V & _).
  destruct (relm_vm_free_guest_mem h (VmMem _ (Some c) m)) as [h' vm'] eqn:E.
  destruct (free_guest_mem_correct h h' c m T vm' V E) as (_ & I & _).
  by exists h, c, m, T, h', vm'.
Defined.

(** The same VM on a host with five free pages: the second RAM page is refused. *)
Definition alloc5 : PageAlloc := bump_alloc 5.
Definition failed : Z * host * @vm_mem (@vmx_mem_ops alloc5) :=
  match @relm_ept_context_create alloc5 true host0 with
  | (inr ept, h) => @relm_vm_allocate_guest_ram alloc5 (@vmx_mem_ops alloc5) true true h
                      (@VmMem (@vmx_mem_ops alloc5) (Some ept) vm_memory0) 0x2000 0
  | (inl e, h) => (e, h, @VmMem (@vmx_mem_ops alloc5) None vm_memory0)
  end.
Definition failed_root : Z :=
  match v_ctx (snd failed) with Some ept => pml4 (ept : ept_context) | None => 0 end.

(** A failed RAM allocation leaves translations to freed pages behind: when the
    allocator runs dry after the first page, -ENOMEM is returned and the page is
    freed, but the hardware still translates guest address 0 to it. *)
Theorem failed_allocation_dangles :
  fst (fst failed) = - ENOMEM /\
  exists p, pt_translate (snd (fst failed)) failed_root 0 = Some p /\ p ∉ h_live (snd (fst failed)).
Proof.
  split; [vm_compute; reflexivity|]. exists 0x2000.
  split; [vm_compute; reflexivity|].
  assert (bool_decide (0x2000 ∈ h_live (snd (fst failed))) = false) as B by (vm_compute; reflexivity).
  by apply bool_decide_eq_false in B.
Qed.
End VmDemo.
