(* ===== verification/Mmu.v ===== *)
(** * The software walker of the guest's own page tables

    src/arch/x86/vmx/mmu.c and src/arch/x86/svm/mmu.c: a guest virtual address is
    translated by reading the paging structures out of guest RAM.  The two files
    hold the same walkers; VMX reads the control registers with VMREAD, SVM out of
    the VMCB, so each has its own entry points over the record [guest_regs].

    [x86_translate] states the translation of the architecture with bit fields and
    no masks; the walkers are proved equal to it. *)
From S2P Require Import Prelude HostMem Radix VmMem GuestMem.

Definition PTE_PRESENT : Z := 1.
Definition PTE_PS : Z := 0x80.
Definition PTE_ADDR_MASK : Z := 0x000FFFFFFFFFF000.
Definition CS_AR_BYTES_L : Z := Z.shiftl 1 13.
Definition X86_CR4_LA57 : Z := Z.shiftl 1 12.
(** Kernel header constants. *)
Definition X86_CR0_PG : Z := Z.shiftl 1 31.
Definition X86_CR4_PSE : Z := Z.shiftl 1 4.
Definition X86_CR4_PAE : Z := Z.shiftl 1 5.
Definition EFER_LMA : Z := Z.shiftl 1 10.

(** The guest state the walkers read. *)
Record guest_regs := GuestRegs {
  cr0 : Z; cr3 : Z; cr4 : Z; efer : Z; cs_base : Z; cs_ar : Z
}.

Section Walk.
Context (kmap : Z -> bool) (h : host) (m : relm_vm_memory).

(** [val] starts as 0, so a short read leaves the high bytes 0. *)
Definition mmu_read_entry (entry_gpa size : Z) : access Z :=
  match relm_vm_copy_from_guest kmap h m entry_gpa true size with
  | Done ret bytes => if ret <? 0 then Done (- EFAULT) 0 else Done 0 (of_le bytes)
  | Oops => Oops
  | OutOfFuel => OutOfFuel
  end.

(** [ret = mmu_read_entry(...); if (ret < 0) return ret; if (!(e & PTE_PRESENT))
    return -EFAULT;], the start of every level.  The value is [*gpa], [None] while
    it is not written. *)
Definition present_entry (entry_gpa size : Z) (k : Z -> access (option Z)) : access (option Z) :=
  match mmu_read_entry entry_gpa size with
  | Done ret e => if ret <? 0 then Done ret None
                  else if negb (flag e PTE_PRESENT) then Done (- EFAULT) None
                  else k e
  | Oops => Oops
  | OutOfFuel => OutOfFuel
  end.

(** The loop of [mmu_walk_long], from [level] down to 1. *)
Fixpoint walk_levels (level : nat) (table gva : Z) : access (option Z) :=
  match level with
  | O => Done (- EFAULT) None
  | S l =>
      let shift := 12 + 9 * Z.of_nat l in
      let index := Z.land (Z.shiftr gva shift) 0x1FF in
      present_entry (u64 (table + index * 8)) 8 (fun entry =>
        if (1 <? level)%nat && flag entry PTE_PS then
          let page_mask := 2 ^ shift - 1 in
          if (level =? 4)%nat then Done (- EFAULT) None
          else Done 0 (Some (Z.lor (Z.land (Z.land entry PTE_ADDR_MASK) (u64 (Z.lnot page_mask)))
                               (Z.land gva page_mask)))
        else if (level =? 1)%nat then
          Done 0 (Some (Z.lor (Z.land entry PTE_ADDR_MASK) (Z.land gva 0xFFF)))
        else walk_levels l (Z.land entry PTE_ADDR_MASK) gva)
  end.

Definition walk_pae (pdpt gva : Z) : access (option Z) :=
  present_entry (u64 (pdpt + Z.land (Z.shiftr gva 30) 0x3 * 8)) 8 (fun pdpte =>
  present_entry (u64 (Z.land pdpte PTE_ADDR_MASK + Z.land (Z.shiftr gva 21) 0x1FF * 8)) 8 (fun pde =>
  if flag pde PTE_PS then
    Done 0 (Some (Z.lor (Z.land (Z.land pde PTE_ADDR_MASK) (u64 (Z.lnot 0x1FFFFF))) (Z.land gva 0x1FFFFF)))
  else
  present_entry (u64 (Z.land pde PTE_ADDR_MASK + Z.land (Z.shiftr gva 12) 0x1FF * 8)) 8 (fun pte =>
  Done 0 (Some (Z.lor (Z.land pte PTE_ADDR_MASK) (Z.land gva 0xFFF)))))).

Definition walk_legacy (pd cr4 gva : Z) : access (option Z) :=
  present_entry (u64 (pd + Z.land (Z.shiftr gva 22) 0x3FF * 4)) 4 (fun pde =>
  if flag cr4 X86_CR4_PSE && flag pde PTE_PS then
    Done 0 (Some (Z.lor (Z.land pde 0xFFC00000) (Z.land gva 0x3FFFFF)))
  else
  present_entry (u64 (Z.land pde 0xFFFFF000 + Z.land (Z.shiftr gva 12) 0x3FF * 4)) 4 (fun pte =>
  Done 0 (Some (Z.lor (Z.land pte 0xFFFFF000) (Z.land gva 0xFFF))))).

(** ** VMX *)

Definition vmx_mmu_walk_long (r : guest_regs) (gva : Z) : access (option Z) :=
  walk_levels 4 (Z.land (cr3 r) PTE_ADDR_MASK) gva.
Definition vmx_mmu_walk_pae (r : guest_regs) (gva : Z) : access (option Z) :=
  walk_pae (Z.land (cr3 r) 0xFFFFFFE0) gva.
Definition vmx_mmu_walk_legacy (r : guest_regs) (gva : Z) : access (option Z) :=
  walk_legacy (Z.land (cr3 r) 0xFFFFF000) (cr4 r) gva.

Definition vmx_mmu_rip_to_linear (r : guest_regs) (rip : Z) : Z :=
  if flag (efer r) EFER_LMA && flag (cs_ar r) CS_AR_BYTES_L then rip
  else u64 (u64 (cs_base r + rip) * 0xFFFFFFFF).

Definition vmx_mmu_gva_to_gpa (r : guest_regs) (gva : Z) : access (option Z) :=
  if negb (flag (cr0 r) X86_CR0_PG) then Done 0 (Some gva)
  else if flag (efer r) EFER_LMA then
    if flag (cr4 r) X86_CR4_LA57 then Done (- EINVAL) None
    else vmx_mmu_walk_long r gva
  else
    let gva := Z.land gva 0xFFFFFFFF in
    if flag (cr4 r) X86_CR4_PAE then vmx_mmu_walk_pae r gva
    else vmx_mmu_walk_legacy r gva.

(** ** SVM *)

Definition svm_mmu_walk_long (cr3 gva : Z) : access (option Z) :=
  walk_levels 4 (Z.land cr3 PTE_ADDR_MASK) gva.
Definition svm_mmu_walk_pae (pdpt gva : Z) : access (option Z) := walk_pae pdpt gva.
Definition svm_mmu_walk_legacy (pd cr4 gva : Z) : access (option Z) := walk_legacy pd cr4 gva.

(** No header of the repository defines SVM_SEG_ATTRIB_L, so it is an argument. *)
Definition svm_mmu_rip_to_linear (SVM_SEG_ATTRIB_L : Z) (r : guest_regs) (rip : Z) : Z :=
  if flag (efer r) EFER_LMA && flag (cs_ar r) SVM_SEG_ATTRIB_L then rip
  else Z.land (u64 (cs_base r + rip)) 0xFFFFFFFF.

Definition svm_mmu_gva_to_gpa (r : guest_regs) (gva : Z) : access (option Z) :=
  if negb (flag (cr0 r) X86_CR0_PG) then Done 0 (Some gva)
  else if flag (efer r) EFER_LMA then
    if flag (cr4 r) X86_CR4_LA57 then Done (- EINVAL) None
    else svm_mmu_walk_long (cr3 r) gva
  else
    let gva := Z.land gva 0xFFFFFFFF in
    if flag (cr4 r) X86_CR4_PAE then svm_mmu_walk_pae (Z.land (cr3 r) 0xFFFFFFE0) gva
    else svm_mmu_walk_legacy (Z.land (cr3 r) 0xFFFFF000) (cr4 r) gva.

(** ** Reading guest virtual memory

    [buf] is the destination, [size] bytes; a chunk overwrites its place in it. *)
Definition overlay (buf : list Z) (at_ : Z) (bytes : list Z) : list Z :=
  take (Z.to_nat at_) buf ++ bytes ++ drop (Z.to_nat at_ + length bytes) buf.

Section CopyVirt.
Context (gva_to_gpa : guest_regs -> Z -> access (option Z)).

Fixpoint copy_virt_loop (fuel : nat) (r : guest_regs) (gva size copied : Z) (buf : list Z)
    : access (list Z) :=
  if negb (copied <? size) then Done (s32 copied) buf
  else
    match fuel with
    | O => OutOfFuel
    | S fuel =>
        let cur_gva := u64 (gva + copied) in
        let chunk := Z.min (size - copied) (PAGE_SIZE - page_off cur_gva) in
        match gva_to_gpa r cur_gva with
        | Done ret gpa =>
            if ret <? 0 then Done ret buf
            else
              match relm_vm_copy_from_guest kmap h m (default 0 gpa) true chunk with
              | Done ret bytes =>
                  if ret <? 0 then Done ret (overlay buf copied bytes)
                  else copy_virt_loop fuel r gva size (copied + chunk) (overlay buf copied bytes)
              | Oops => Oops
              | OutOfFuel => OutOfFuel
              end
        | Oops => Oops
        | OutOfFuel => OutOfFuel
        end
    end.

(** The [vcpu] is there; [data = None] is NULL.  A round copies at least one byte. *)
Definition copy_from_guest_virt (r : guest_regs) (gva : Z) (data : option (list Z)) (size : Z)
    : access (list Z) :=
  match data with
  | None => Done (- EINVAL) []
  | Some buf => if size =? 0 then Done (- EINVAL) buf
                else copy_virt_loop (Z.to_nat size) r gva size 0 buf
  end.
End CopyVirt.

Definition vmx_mmu_copy_from_guest_virt := copy_from_guest_virt vmx_mmu_gva_to_gpa.
Definition svm_mmu_copy_from_guest_virt := copy_from_guest_virt svm_mmu_gva_to_gpa.

End Walk.

(** ** The architecture *)

(** Bits [hi:lo]. *)
Definition field (hi lo z : Z) : Z := (z / 2 ^ lo) mod 2 ^ (hi - lo + 1).

Section Spec.
Context (h : host) (m : relm_vm_memory).

(** The byte of guest RAM at a guest physical address, and [n] of them. *)
Definition gbyte (g : Z) : option Z :=
  r ← List.find (fun r => (gr_gpa_start r <=? g) && (g <? gr_gpa_start r + gr_size r)) (mem_regions m);
  ps ← gr_pages r;
  p ← ps !! Z.to_nat ((g - gr_gpa_start r) / 4096);
  page ← p;
  Some (rd8 h page (g mod 4096)).
Definition gbytes (n : nat) (g : Z) : option (list Z) := mapM (fun i => gbyte (g + Z.of_nat i)) (seq 0 n).

(** A present entry of [n] bytes. *)
Definition entry (n : nat) (g : Z) : option Z :=
  e ← of_le <$> gbytes n g; if field 0 0 e =? 1 then Some e else None.
Definition ps (e : Z) : bool := field 7 7 e =? 1.

Definition spec_long (cr3 v : Z) : option Z :=
  e4 ← entry 8 (2 ^ 12 * field 51 12 cr3 + 8 * field 47 39 v);
  if ps e4 then None else
  e3 ← entry 8 (2 ^ 12 * field 51 12 e4 + 8 * field 38 30 v);
  if ps e3 then Some (2 ^ 30 * field 51 30 e3 + field 29 0 v) else
  e2 ← entry 8 (2 ^ 12 * field 51 12 e3 + 8 * field 29 21 v);
  if ps e2 then Some (2 ^ 21 * field 51 21 e2 + field 20 0 v) else
  e1 ← entry 8 (2 ^ 12 * field 51 12 e2 + 8 * field 20 12 v);
  Some (2 ^ 12 * field 51 12 e1 + field 11 0 v).

Definition spec_pae (cr3 v : Z) : option Z :=
  e3 ← entry 8 (2 ^ 5 * field 31 5 cr3 + 8 * field 31 30 v);
  e2 ← entry 8 (2 ^ 12 * field 51 12 e3 + 8 * field 29 21 v);
  if ps e2 then Some (2 ^ 21 * field 51 21 e2 + field 20 0 v) else
  e1 ← entry 8 (2 ^ 12 * field 51 12 e2 + 8 * field 20 12 v);
  Some (2 ^ 12 * field 51 12 e1 + field 11 0 v).

Definition spec_legacy (cr3 : Z) (pse : bool) (v : Z) : option Z :=
  e2 ← entry 4 (2 ^ 12 * field 31 12 cr3 + 4 * field 31 22 v);
  if pse && ps e2 then Some (2 ^ 22 * field 31 22 e2 + field 21 0 v) else
  e1 ← entry 4 (2 ^ 12 * field 31 12 e2 + 4 * field 21 12 v);
  Some (2 ^ 12 * field 31 12 e1 + field 11 0 v).

(** Five-level paging is not supported: no translation. *)
Definition x86_translate (r : guest_regs) (v : Z) : option Z :=
  if negb (Z.testbit (cr0 r) 31) then Some v
  else if Z.testbit (efer r) 10 then
    if Z.testbit (cr4 r) 12 then None else spec_long (cr3 r) v
  else if Z.testbit (cr4 r) 5 then spec_pae (cr3 r) (v mod 2 ^ 32)
  else spec_legacy (cr3 r) (Z.testbit (cr4 r) 4) (v mod 2 ^ 32).

(** The byte at a guest virtual address. *)
Definition vbyte (r : guest_regs) (v : Z) : option Z := g ← x86_translate r v; gbyte g.
End Spec.

(** ** Masks as fields *)

Lemma flag_field e k : 0 <= k -> flag e (2 ^ k) = (field k k e =? 1).
Proof.
  intros Hk. rewrite flag_pow2 by done. unfold field. replace (k - k + 1) with 1 by lia.
  rewrite <- Z.testbit_spec' by done. by destruct (Z.testbit e k).
Qed.

(** A field in place, under the mask of its bits. *)
Lemma mask_field hi lo mask e : 0 <= lo <= hi -> mask = Z.shiftl (Z.ones (hi - lo + 1)) lo ->
  Z.land e mask = 2 ^ lo * field hi lo e.
Proof. intros H ->. rewrite land_field by lia. unfold field. lia. Qed.

Lemma shift_field v lo w : 0 <= lo -> 0 <= w -> Z.land (Z.shiftr v lo) (2 ^ w - 1) = field (lo + w - 1) lo v.
Proof.
  intros H1 H2. rewrite land_ones_mod, Z.shiftr_div_pow2 by done. unfold field.
  by replace (lo + w - 1 - lo + 1) with w by lia.
Qed.

Lemma low_field v w : 0 < w -> Z.land v (2 ^ w - 1) = field (w - 1) 0 v.
Proof.
  intros H. rewrite <- (Z.shiftr_0_r v) at 1. rewrite shift_field by lia.
  by replace (0 + w - 1) with (w - 1) by lia.
Qed.

Lemma field_range hi lo e : lo <= hi -> 0 <= field hi lo e < 2 ^ (hi - lo + 1).
Proof. intros H. apply Z.mod_pos_bound. apply Z.pow_pos_nonneg; lia. Qed.

(** A frame and an offset below it. *)
Lemma frame_or lo hi e v : 0 < lo <= hi ->
  Z.lor (2 ^ lo * field hi lo e) (field (lo - 1) 0 v) = 2 ^ lo * field hi lo e + field (lo - 1) 0 v.
Proof.
  intros H. pose proof (field_range (lo - 1) 0 v ltac:(lia)) as R.
  replace (lo - 1 - 0 + 1) with lo in R by lia.
  pose proof (lor_shiftl (field (lo - 1) 0 v) (field hi lo e) lo ltac:(lia) R) as E.
  rewrite Z.shiftl_mul_pow2 in E by lia. rewrite Z.lor_comm, (Z.mul_comm (2 ^ lo)), E. lia.
Qed.

(** ** Reads of guest RAM *)
Section Walkers.
Context (kmap : Z -> bool) (h : host) (m : relm_vm_memory).
Context (RI : ram_inv m) (Hk : forall p, kmap p = true).

Lemma gbyte_ram g p : ram_at m g p -> gbyte h m g = Some (rd8 h p (g mod 4096)).
Proof.
  intros (r & ps & Hr & Hp & Hg & E). unfold gbyte.
  destruct (List.find _ _) as [r'|] eqn:F; cbn [mbind option_bind].
  - apply find_some in F as [Hr'%list_elem_of_In F]. tidy_bool.
    assert (r = r') as <- by (by eapply (ra_uniq _ RI)). rewrite Hp. cbn [mbind option_bind]. by rewrite E.
  - pose proof (find_none _ _ F r (proj1 (list_elem_of_In _ _) Hr)) as N. simpl in N.
    rewrite (proj2 (Z.leb_le _ _)), (proj2 (Z.ltb_lt _ _)) in N by lia. done.
Qed.

Lemma gbyte_none g : ~ covered_gpa m g -> gbyte h m g = None.
Proof.
  intros N. unfold gbyte. destruct (List.find _ _) as [r|] eqn:F; [|done]. simpl.
  apply find_some in F as [Hr%list_elem_of_In F]. tidy_bool.
  destruct (region_page m RI r g Hr ltac:(lia)) as (? & p & _ & _ & At). destruct N. by exists p.
Qed.

(** A read inside one page gives all the bytes or fails. *)
Lemma copy_from_gbytes g n : (0 < n)%nat -> Z.of_nat n <= 4096 -> 0 <= g -> g + Z.of_nat n < 2 ^ 64 ->
  g mod 4096 + Z.of_nat n <= 4096 ->
  relm_vm_copy_from_guest kmap h m g true (Z.of_nat n) =
    match gbytes h m n g with Some l => Done (Z.of_nat n) l | None => Done (- EFAULT) [] end.
Proof.
  intros Hn Hn' H0 Hw Hp.
  destruct (copy_from_spec kmap h m g (Z.of_nat n) RI Hk H0 ltac:(lia) Hw)
    as (k & dst & -> & K & Cv & R & Ld & Sd).
  assert (forall j, 0 <= j < Z.of_nat n -> (g + j) / 4096 = g / 4096) as Ep by (intros; zdm).
  destruct (decide (0 < k)) as [Hk0|Hk0].
  - destruct (Cv 0 ltac:(lia)) as [p At]. rewrite Z.add_0_r in At.
    assert (k = Z.of_nat n) as ->.
    { destruct R as [|N]; [done|]. destruct (decide (k = Z.of_nat n)); [done|]. destruct N.
      exists p. apply (ram_at_page m RI _ _ _ At). apply Ep. lia. }
    unfold access_code. rewrite Z.eqb_refl, s32_small by lia.
    assert (gbytes h m n g = Some dst) as ->; [|done].
    apply mapM_Some, Forall2_same_length_lookup_2; [rewrite length_seq; lia|].
    intros i x y Hx Hy. apply lookup_seq in Hx as [-> Hi]. cbn [Nat.add].
    assert (ram_at m (g + Z.of_nat i) p) as Ai by (apply (ram_at_page m RI _ _ _ At); apply Ep; lia).
    pose proof (Sd (Z.of_nat i) p ltac:(lia) Ai) as S. rewrite Nat2Z.id in S.
    rewrite (gbyte_ram _ _ Ai). congruence.
  - assert (k = 0) as -> by lia. destruct R as [|N]; [lia|]. rewrite Z.add_0_r in N.
    unfold access_code. rewrite (proj2 (Z.eqb_neq 0 (Z.of_nat n))) by lia. cbn [Z.ltb Z.compare].
    assert (gbytes h m n g = None) as ->.
    { destruct n as [|n]; [lia|]. unfold gbytes. cbn [seq mapM]. rewrite Z.add_0_r, (gbyte_none g N). done. }
    destruct dst; [done|simpl in Ld; lia].
Qed.

Lemma present_entry_spec n g k : (0 < n <= 8)%nat -> 0 <= g -> g + Z.of_nat n < 2 ^ 64 ->
  g mod 4096 + Z.of_nat n <= 4096 ->
  present_entry kmap h m (u64 g) (Z.of_nat n) k =
    match entry h m n g with Some e => k e | None => Done (- EFAULT) None end.
Proof.
  intros Hn H0 Hw Hp. unfold present_entry, mmu_read_entry, entry.
  rewrite u64_small, copy_from_gbytes by lia.
  destruct (gbytes h m n g) as [l|]; simpl; [|done].
  rewrite (proj2 (Z.ltb_ge _ _)) by lia. simpl.
  change PTE_PRESENT with (2 ^ 0). rewrite flag_field by lia. by destruct (field 0 0 (of_le l) =? 1).
Qed.

(** What the walk returns for the translation [o]. *)
Definition walked (o : option Z) : access (option Z) :=
  match o with Some g => Done 0 (Some g) | None => Done (- EFAULT) None end.

Lemma walked_bind {A} (o : option A) (f : A -> option Z) k : (forall x, k x = walked (f x)) ->
  match o with Some e => k e | None => Done (- EFAULT) None end = walked (o ≫= f).
Proof. intros E. by destruct o. Qed.

(** One level with 512 entries of 8 bytes, and one with 1024 entries of 4 bytes. *)
Lemma level8 a v lo k : 0 <= lo ->
  present_entry kmap h m (u64 (Z.land a PTE_ADDR_MASK + Z.land (Z.shiftr v lo) 0x1FF * 8)) 8 k =
    match entry h m 8 (2 ^ 12 * field 51 12 a + 8 * field (lo + 9 - 1) lo v) with
    | Some e => k e | None => Done (- EFAULT) None end.
Proof.
  intros Hlo. change 0x1FF with (2 ^ 9 - 1). rewrite shift_field by lia.
  rewrite (mask_field 51 12) by (done || lia).
  pose proof (field_range 51 12 a ltac:(lia)). pose proof (field_range (lo + 9 - 1) lo v ltac:(lia)) as F.
  replace (lo + 9 - 1 - lo + 1) with 9 in F by lia. zpow.
  rewrite (Z.mul_comm _ 8). apply (present_entry_spec 8); [lia|lia|lia|zdm].
Qed.

Lemma level4 a v lo k : 0 <= lo ->
  present_entry kmap h m (u64 (Z.land a 0xFFFFF000 + Z.land (Z.shiftr v lo) 0x3FF * 4)) 4 k =
    match entry h m 4 (2 ^ 12 * field 31 12 a + 4 * field (lo + 10 - 1) lo v) with
    | Some e => k e | None => Done (- EFAULT) None end.
Proof.
  intros Hlo. change 0x3FF with (2 ^ 10 - 1). rewrite shift_field by lia.
  rewrite (mask_field 31 12) by (done || lia).
  pose proof (field_range 31 12 a ltac:(lia)). pose proof (field_range (lo + 10 - 1) lo v ltac:(lia)) as F.
  replace (lo + 10 - 1 - lo + 1) with 10 in F by lia. zpow.
  rewrite (Z.mul_comm _ 4). apply (present_entry_spec 4); [lia|lia|lia|zdm].
Qed.

(** The leaf of a page of [2 ^ lo] bytes. *)
Lemma leaf hi lo mask e v : 0 < lo <= hi -> mask = Z.shiftl (Z.ones (hi - lo + 1)) lo ->
  Z.lor (Z.land e mask) (Z.land v (2 ^ lo - 1)) = 2 ^ lo * field hi lo e + field (lo - 1) 0 v.
Proof. intros H ->. rewrite (mask_field hi lo) by (done || lia). rewrite low_field, frame_or by lia. done. Qed.

Lemma large_leaf lo e v : lo = 30 \/ lo = 21 ->
  Z.lor (Z.land (Z.land e PTE_ADDR_MASK) (u64 (Z.lnot (2 ^ lo - 1)))) (Z.land v (2 ^ lo - 1)) =
  2 ^ lo * field 51 lo e + field (lo - 1) 0 v.
Proof. intros H. rewrite <- Z.land_assoc. apply leaf; [lia|]. by destruct H as [-> | ->]. Qed.

Lemma leaf_4k e v : Z.lor (Z.land e PTE_ADDR_MASK) (Z.land v 0xFFF) = 2 ^ 12 * field 51 12 e + field 11 0 v.
Proof. apply (leaf 51 12); [lia|done]. Qed.

Lemma flag_ps e : flag e PTE_PS = ps e.
Proof. exact (flag_field e 7 ltac:(lia)). Qed.

Lemma walk_long_spec cr3 v : walk_levels kmap h m 4 (Z.land cr3 PTE_ADDR_MASK) v = walked (spec_long h m cr3 v).
Proof.
  cbn [walk_levels Nat.ltb Nat.leb Nat.eqb andb]. unfold spec_long.
  change (12 + 9 * Z.of_nat 3) with 39. change (12 + 9 * Z.of_nat 2) with 30.
  change (12 + 9 * Z.of_nat 1) with 21. change (12 + 9 * Z.of_nat 0) with 12.
  rewrite level8 by lia. apply walked_bind. intros e4. rewrite flag_ps. destruct (ps e4); [done|].
  rewrite level8 by lia. apply walked_bind. intros e3. rewrite flag_ps, large_leaf by (by left).
  destruct (ps e3); [done|].
  rewrite level8 by lia. apply walked_bind. intros e2. rewrite flag_ps, large_leaf by (by right).
  destruct (ps e2); [done|].
  rewrite level8 by lia. apply walked_bind. intros e1. by rewrite leaf_4k.
Qed.

Lemma walk_pae_spec cr3 v : walk_pae kmap h m (Z.land cr3 0xFFFFFFE0) v = walked (spec_pae h m cr3 v).
Proof.
  unfold walk_pae, spec_pae.
  rewrite (mask_field 31 5) by (done || lia). change 3 with (2 ^ 2 - 1). rewrite shift_field by lia.
  rewrite (Z.mul_comm _ 8).
  pose proof (field_range 31 5 cr3 ltac:(lia)). pose proof (field_range (30 + 2 - 1) 30 v ltac:(lia)).
  rewrite (present_entry_spec 8); [|lia|zpow; lia|zpow; lia|zpow; zdm].
  apply walked_bind. intros e3.
  rewrite level8 by lia. apply walked_bind. intros e2.
  change 0x1FFFFF with (2 ^ 21 - 1). rewrite flag_ps, large_leaf by (by right). destruct (ps e2); [done|].
  rewrite level8 by lia. apply walked_bind. intros e1. by rewrite leaf_4k.
Qed.

Lemma walk_legacy_spec cr3 cr4 v :
  walk_legacy kmap h m (Z.land cr3 0xFFFFF000) cr4 v = walked (spec_legacy h m cr3 (Z.testbit cr4 4) v).
Proof.
  unfold walk_legacy, spec_legacy.
  rewrite level4 by lia. apply walked_bind. intros e2.
  rewrite flag_ps. change X86_CR4_PSE with (2 ^ 4). rewrite flag_pow2 by lia.
  change 0x3FFFFF with (2 ^ 22 - 1). rewrite (leaf 31 22) by (done || lia).
  destruct (Z.testbit cr4 4 && ps e2); [done|].
  rewrite level4 by lia. apply walked_bind. intros e1. by rewrite (leaf 31 12) by (done || lia).
Qed.

(** What [gva_to_gpa] returns: 5-level paging is refused with its own code. *)
Definition translated (r : guest_regs) (v : Z) : access (option Z) :=
  match x86_translate h m r v with
  | Some g => Done 0 (Some g)
  | None => Done (if Z.testbit (efer r) 10 && Z.testbit (cr4 r) 12 then - EINVAL else - EFAULT) None
  end.

Lemma gva_to_gpa_spec r v :
  vmx_mmu_gva_to_gpa kmap h m r v = translated r v /\ svm_mmu_gva_to_gpa kmap h m r v = translated r v.
Proof.
  unfold vmx_mmu_gva_to_gpa, vmx_mmu_walk_long, vmx_mmu_walk_pae, vmx_mmu_walk_legacy.
  match goal with |- ?a = _ /\ ?b = _ => assert (a = b) as -> end.
  { unfold svm_mmu_gva_to_gpa, svm_mmu_walk_long, svm_mmu_walk_pae, svm_mmu_walk_legacy. reflexivity. }
  assert (svm_mmu_gva_to_gpa kmap h m r v = translated r v) as E; [|by split].
  unfold svm_mmu_gva_to_gpa, svm_mmu_walk_long, svm_mmu_walk_pae, svm_mmu_walk_legacy, translated, x86_translate.
  rewrite walk_long_spec, walk_pae_spec, walk_legacy_spec.
  change X86_CR0_PG with (2 ^ 31). change X86_CR4_LA57 with (2 ^ 12).
  change X86_CR4_PAE with (2 ^ 5). change EFER_LMA with (2 ^ 10). change 0xFFFFFFFF with (2 ^ 32 - 1).
  rewrite !flag_pow2, land_ones_mod by lia.
  generalize (spec_long h m (cr3 r) v) (spec_pae h m (cr3 r) (v mod 2 ^ 32))
    (spec_legacy h m (cr3 r) (Z.testbit (cr4 r) 4) (v mod 2 ^ 32)). intros o1 o2 o3.
  destruct (Z.testbit (cr0 r) 31); cbn [negb]; [|reflexivity].
  destruct (Z.testbit (efer r) 10); cbn [andb]; [destruct (Z.testbit (cr4 r) 12)|destruct (Z.testbit (cr4 r) 5)];
    reflexivity.
Qed.
End Walkers.

(** ** The translation is constant over a page *)

Lemma field_page hi lo v : 12 <= lo -> field hi lo (v / 4096 * 4096) = field hi lo v.
Proof.
  intros H. unfold field. f_equal. replace (2 ^ lo) with (4096 * 2 ^ (lo - 12)).
  2:{ change 4096 with (2 ^ 12). rewrite <- Z.pow_add_r by lia. f_equal. lia. }
  pose proof (Z.pow_pos_nonneg 2 (lo - 12)).
  rewrite <- !Z.div_div, Z.div_mul by lia. done.
Qed.

Lemma field_offset k v : 11 <= k -> field k 0 v = field k 0 (v / 4096 * 4096) + v mod 4096.
Proof.
  intros H. unfold field. rewrite !Z.div_1_r. replace (2 ^ (k - 0 + 1)) with (4096 * 2 ^ (k - 11)).
  2:{ change 4096 with (2 ^ 12). rewrite <- Z.pow_add_r by lia. f_equal. lia. }
  pose proof (Z.pow_pos_nonneg 2 (k - 11)).
  rewrite !Z.rem_mul_r, Z.div_mul, Z_mod_mult by lia. lia.
Qed.

Section PageLinear.
Context (h : host) (m : relm_vm_memory).

(** [f] translates the page and keeps the offset. *)
Definition page_linear (f : Z -> option Z) : Prop := forall v,
  f v = (fun g => g + v mod 4096) <$> f (v / 4096 * 4096).

(** Follow the walk; at a leaf the two sides differ by the offset. *)
Ltac walk_case := cbn [mbind option_bind fmap option_fmap option_map]; match goal with
  | |- Some _ = Some _ => f_equal; lia
  | |- None = None => reflexivity
  | |- context [entry ?h ?m ?n ?g] => destruct (entry h m n g)
  | |- context [if ?b then _ else _] => destruct b
  end.

Lemma spec_long_linear cr3 : page_linear (spec_long h m cr3).
Proof.
  intros v. unfold spec_long. rewrite (field_page 47 39 v), (field_page 38 30 v), (field_page 29 21 v), (field_page 20 12 v) by lia.
  rewrite (field_offset 29 v), (field_offset 20 v), (field_offset 11 v) by lia.
  repeat walk_case.
Qed.

Lemma spec_pae_linear cr3 : page_linear (spec_pae h m cr3).
Proof.
  intros v. unfold spec_pae. rewrite (field_page 31 30 v), (field_page 29 21 v), (field_page 20 12 v) by lia.
  rewrite (field_offset 20 v), (field_offset 11 v) by lia.
  repeat walk_case.
Qed.

Lemma spec_legacy_linear cr3 pse : page_linear (spec_legacy h m cr3 pse).
Proof.
  intros v. unfold spec_legacy. rewrite (field_page 31 22 v), (field_page 21 12 v) by lia.
  rewrite (field_offset 21 v), (field_offset 11 v) by lia.
  repeat walk_case.
Qed.

Lemma x86_translate_linear r : page_linear (x86_translate h m r).
Proof.
  assert (forall f, page_linear f -> page_linear (fun v => f (v mod 2 ^ 32))) as Hm.
  { intros f Hf v. rewrite (Hf (v mod 2 ^ 32)). zpow.
    replace (v mod 4294967296 / 4096 * 4096) with (v / 4096 * 4096 mod 4294967296) by zdm.
    replace (v mod 4294967296 mod 4096) with (v mod 4096) by zdm. done. }
  intros v. unfold x86_translate.
  destruct (Z.testbit (cr0 r) 31); cbn [negb]; [|cbn [fmap option_fmap option_map]; f_equal; zdm].
  destruct (Z.testbit (efer r) 10).
  - destruct (Z.testbit (cr4 r) 12); [done|]. apply spec_long_linear.
  - destruct (Z.testbit (cr4 r) 5).
    + exact (Hm _ (spec_pae_linear (cr3 r)) v).
    + exact (Hm _ (spec_legacy_linear (cr3 r) (Z.testbit (cr4 r) 4)) v).
Qed.

Lemma translate_add r v g i : x86_translate h m r v = Some g -> 0 <= i -> v mod 4096 + i < 4096 ->
  x86_translate h m r (v + i) = Some (g + i).
Proof.
  intros E Hi Hp. rewrite x86_translate_linear in E |- *.
  replace ((v + i) / 4096 * 4096) with (v / 4096 * 4096) by zdm.
  destruct (x86_translate h m r (v / 4096 * 4096)) as [g0|]; [|done].
  cbn [fmap option_fmap option_map] in *. injection E as <-. f_equal. zdm.
Qed.
End PageLinear.

(** ** Copies from guest virtual memory *)
Section Copy.
Context (kmap : Z -> bool) (h : host) (m : relm_vm_memory).
Context (RI : ram_inv m) (Hk : forall p, kmap p = true).

(** A leaf: below 2^52, and with the offset of the address. *)
Lemma leaf_range hi lo e w : 12 <= lo <= hi -> hi <= 51 ->
  0 <= 2 ^ lo * field hi lo e + field (lo - 1) 0 w < 2 ^ 52 /\
  (2 ^ lo * field hi lo e + field (lo - 1) 0 w) mod 4096 = w mod 4096.
Proof.
  intros Hlo Hhi. pose proof (field_range hi lo e ltac:(lia)) as R1.
  pose proof (field_range (lo - 1) 0 w ltac:(lia)) as R2. replace (lo - 1 - 0 + 1) with lo in R2 by lia.
  assert (2 ^ (hi - lo + 1) * 2 ^ lo <= 2 ^ 52) as P.
  { rewrite <- Z.pow_add_r by lia. apply Z.pow_le_mono_r; lia. }
  split; [nia|]. unfold field at 2. rewrite Z.div_1_r. replace (lo - 1 - 0 + 1) with lo by lia.
  replace (2 ^ lo) with (4096 * 2 ^ (lo - 12)).
  2:{ change 4096 with (2 ^ 12). rewrite <- Z.pow_add_r by lia. f_equal. lia. }
  pose proof (Z.pow_pos_nonneg 2 (lo - 12)). rewrite Z.rem_mul_r by lia.
  rewrite <- Z.mul_assoc, Z.add_comm, <- Z.add_assoc, <- Z.mul_add_distr_l, (Z.mul_comm 4096), Z_mod_plus_full.
  apply Z.mod_mod. lia.
Qed.

Lemma translate_range r v g : 0 <= v -> x86_translate h m r v = Some g ->
  0 <= g /\ (g = v \/ g < 2 ^ 52) /\ g mod 4096 = v mod 4096.
Proof.
  intros Hv. assert (v mod 2 ^ 32 mod 4096 = v mod 4096) as Em by (zpow; zdm).
  unfold x86_translate, spec_long, spec_pae, spec_legacy.
  destruct (Z.testbit (cr0 r) 31); cbn [negb]; [|intros [= <-]; split_and!; [done|by left|done]].
  destruct (Z.testbit (efer r) 10); [destruct (Z.testbit (cr4 r) 12); [done|]|destruct (Z.testbit (cr4 r) 5)].
  all: repeat (cbn [mbind option_bind]; match goal with
    | |- Some _ = Some _ -> _ => intros [= <-]
    | |- None = Some _ -> _ => discriminate
    | |- context [entry ?h ?m ?n ?g] => destruct (entry h m n g)
    | |- context [if ?b then _ else _] => destruct b
    end).
  all: match goal with |- context [2 ^ ?lo * field ?hi ?lo ?e + field ?k 0 ?w] =>
    pose proof (leaf_range hi lo e w ltac:(lia) ltac:(lia)) as [? L]; change (lo - 1) with k in * end.
  all: split_and!; [lia|right; lia|congruence].
Qed.

(** [l] is the memory at [gva], as far as [n] bytes. *)
Definition vbytes_are (r : guest_regs) (gva n : Z) (l : list Z) : Prop :=
  length l = Z.to_nat n /\ forall i, 0 <= i < n -> l !! Z.to_nat i = vbyte h m r (gva + i).

Lemma gbytes_None n g : gbytes h m n g = None -> exists i, (i < n)%nat /\ gbyte h m (g + Z.of_nat i) = None.
Proof.
  intros E. destruct (decide (Forall (fun i => is_Some (gbyte h m (g + Z.of_nat i))) (seq 0 n))) as [F|N].
  - apply mapM_is_Some in F as [l F]. unfold gbytes in E. congruence.
  - apply not_Forall_Exists, Exists_exists in N as (i & Hi & N); [|apply _].
    apply elem_of_seq in Hi. exists i. split; [lia|]. by apply eq_None_not_Some.
Qed.

Lemma gbytes_Some n g l : gbytes h m n g = Some l -> length l = n /\
  forall i, (i < n)%nat -> l !! i = gbyte h m (g + Z.of_nat i).
Proof.
  intros F%mapM_Some. pose proof (Forall2_length _ _ _ F) as L. rewrite length_seq in L. split; [done|].
  intros i Hi. destruct (lookup_lt_is_Some_2 l i) as [x Hx]; [lia|].
  rewrite Hx. symmetry. eapply (Forall2_lookup_lr _ _ _ _ _ _ F); [|done]. by apply lookup_seq.
Qed.

Lemma take_overlay buf at_ bytes : 0 <= at_ -> (Z.to_nat at_ + length bytes <= length buf)%nat ->
  take (Z.to_nat (at_ + Z.of_nat (length bytes))) (overlay buf at_ bytes) = take (Z.to_nat at_) buf ++ bytes /\
  length (overlay buf at_ bytes) = length buf.
Proof.
  intros H0 Hl. unfold overlay. split.
  - rewrite app_assoc, take_app_length'; [done|]. rewrite length_app, length_take. lia.
  - rewrite !length_app, length_take, length_drop. lia.
Qed.

(** The bytes of one chunk extend what was copied. *)
Lemma vbytes_extend r gva copied l g n bytes : vbytes_are r gva copied l -> 0 <= copied ->
  x86_translate h m r (gva + copied) = Some g -> (gva + copied) mod 4096 + Z.of_nat n <= 4096 ->
  gbytes h m n g = Some bytes -> vbytes_are r gva (copied + Z.of_nat n) (l ++ bytes).
Proof.
  intros [Ll Vl] H0 Et Hp [Lb Vb]%gbytes_Some. split; [rewrite length_app; lia|]. intros i Hi.
  destruct (decide (i < copied)); [rewrite lookup_app_l by lia; apply Vl; lia|].
  rewrite lookup_app_r, Ll by lia. replace (Z.to_nat i - Z.to_nat copied)%nat with (Z.to_nat (i - copied)) by lia.
  rewrite Vb by lia. unfold vbyte. replace (gva + i) with (gva + copied + (i - copied)) by lia.
  rewrite (translate_add h m r _ g) by (done || lia). rewrite Z2Nat.id by lia. done.
Qed.

Section Loop.
Context (gva_to_gpa : guest_regs -> Z -> access (option Z)) (r : guest_regs) (gva size : Z).
Context (Ht : forall v, gva_to_gpa r v = translated h m r v).
Context (H0 : 0 <= gva) (Hw : gva + size < 2 ^ 64) (Hs : size < 2 ^ 31).

(** All the bytes, or an error and a byte that is not there. *)
Definition virt_result (a : access (list Z)) : Prop :=
  (exists l, vbytes_are r gva size l /\ a = Done size l) \/
  (exists i e buf, 0 <= i < size /\ vbyte h m r (gva + i) = None /\ e < 0 /\ a = Done e buf).

Lemma copy_virt_loop_spec fuel copied buf : 0 <= copied <= size -> size - copied <= Z.of_nat fuel ->
  length buf = Z.to_nat size -> vbytes_are r gva copied (take (Z.to_nat copied) buf) ->
  virt_result (copy_virt_loop kmap h m gva_to_gpa fuel r gva size copied buf).
Proof.
  revert copied buf. induction fuel as [|fuel IH]; intros copied buf Hc Hf Lb V; cbn [copy_virt_loop].
  all: destruct (Z.ltb_spec copied size) as [Hlt|Hge]; cbn [negb]; try lia.
  all: try (assert (copied = size) as -> by lia; left; exists (take (Z.to_nat size) buf); split; [done|];
    rewrite s32_small by lia; f_equal; symmetry; apply take_ge; lia).
  rewrite page_off_mod. unfold PAGE_SIZE. rewrite u64_small, Ht by lia. unfold translated.
  assert (0 <= (gva + copied) mod 4096 < 4096) as Ho by (apply Z.mod_pos_bound; lia).
  destruct (x86_translate h m r (gva + copied)) as [g|] eqn:Et.
  2:{ right. assert (vbyte h m r (gva + copied) = None) as N by (unfold vbyte; by rewrite Et).
      exists copied. destruct (Z.testbit (efer r) 10 && Z.testbit (cr4 r) 12).
      - exists (- EINVAL), buf. by split_and!; try lia.
      - exists (- EFAULT), buf. by split_and!; try lia. }
  cbn [Z.ltb Z.compare]. change (default 0 (Some g)) with g.
  destruct (translate_range r (gva + copied) g ltac:(lia) Et) as (Hg & Hg' & Eg).
  set (n := Z.min (size - copied) (4096 - (gva + copied) mod 4096)).
  assert (exists k, n = Z.of_nat k /\ (0 < k)%nat) as (k & En & Hk0) by (exists (Z.to_nat n); lia).
  rewrite En, (copy_from_gbytes kmap h m RI Hk g k) by lia.
  destruct (gbytes h m k g) as [bytes|] eqn:Eb.
  - rewrite (proj2 (Z.ltb_ge _ _)) by lia. pose proof (gbytes_Some _ _ _ Eb) as [Lk _].
    destruct (take_overlay buf copied bytes) as [To Lo]; [lia|lia|]. rewrite Lk in To.
    apply IH; [lia|lia|by rewrite Lo|]. rewrite To. apply (vbytes_extend r gva copied _ g k); try done; lia.
  - right. apply gbytes_None in Eb as (i & Hi & N). exists (copied + Z.of_nat i).
    exists (- EFAULT), (overlay buf copied []). split_and!; [lia|lia| |done|reflexivity].
    unfold vbyte. rewrite Z.add_assoc, (translate_add h m r _ g) by (done || lia). exact N.
Qed.
End Loop.
End Copy.

(** C3. The walkers implement the architecture: with guest RAM well formed, VMX and
    SVM translate a guest virtual address exactly as the paging structures in guest
    RAM say - no paging, 32-bit with 4 MiB pages, PAE, 4-level with 1 GiB and 2 MiB
    pages - and return an error code exactly when there is no translation. *)
Theorem gva_to_gpa_correct (kmap : Z -> bool) (h : host) (m : relm_vm_memory) (r : guest_regs) (gva : Z) :
  ram_inv m -> (forall p, kmap p = true) ->
  match x86_translate h m r gva with
  | Some gpa => vmx_mmu_gva_to_gpa kmap h m r gva = Done 0 (Some gpa) /\
                svm_mmu_gva_to_gpa kmap h m r gva = Done 0 (Some gpa)
  | None => exists e, e < 0 /\ vmx_mmu_gva_to_gpa kmap h m r gva = Done e None /\
                svm_mmu_gva_to_gpa kmap h m r gva = Done e None
  end.
Proof.
  intros RI Hk. destruct (gva_to_gpa_spec kmap h m RI Hk r gva) as [-> ->]. unfold translated.
  destruct (x86_translate h m r gva); [done|]. eexists. split; [|done]. by destruct (_ && _).
Qed.

(** What both copies return. *)
Lemma copy_virt_result (kmap : Z -> bool) (h : host) (m : relm_vm_memory) (r : guest_regs)
    (gva size : Z) (buf : list Z) (a : access (list Z)) :
  ram_inv m -> (forall p, kmap p = true) -> 0 <= gva -> 0 < size < 2 ^ 31 -> gva + size < 2 ^ 64 ->
  length buf = Z.to_nat size ->
  a = vmx_mmu_copy_from_guest_virt kmap h m r gva (Some buf) size \/
  a = svm_mmu_copy_from_guest_virt kmap h m r gva (Some buf) size ->
  virt_result h m r gva size a.
Proof.
  intros RI Hk H0 Hs Hw Lb Ha.
  unfold vmx_mmu_copy_from_guest_virt, svm_mmu_copy_from_guest_virt, copy_from_guest_virt in Ha.
  rewrite (proj2 (Z.eqb_neq size 0)) in Ha by lia.
  assert (vbytes_are h m r gva 0 (take (Z.to_nat 0) buf)) as V0 by (split; [done|lia]).
  destruct Ha as [-> | ->].
  - apply (copy_virt_loop_spec kmap h m RI Hk); [|lia|lia|lia|lia|lia|lia|exact V0].
    intros v. exact (proj1 (gva_to_gpa_spec kmap h m RI Hk r v)).
  - apply (copy_virt_loop_spec kmap h m RI Hk); [|lia|lia|lia|lia|lia|lia|exact V0].
    intros v. exact (proj2 (gva_to_gpa_spec kmap h m RI Hk r v)).
Qed.

(** A copy from guest virtual memory ends; it returns [size] and the bytes the
    guest itself would read at [gva], [gva + 1], ..., however the pages are
    scattered in guest RAM, or an error when one of them is not there. *)
Theorem copy_from_guest_virt_correct (kmap : Z -> bool) (h : host) (m : relm_vm_memory) (r : guest_regs)
    (gva size : Z) (buf : list Z) (a : access (list Z)) :
  ram_inv m -> (forall p, kmap p = true) -> 0 <= gva -> 0 < size < 2 ^ 31 -> gva + size < 2 ^ 64 ->
  length buf = Z.to_nat size ->
  a = vmx_mmu_copy_from_guest_virt kmap h m r gva (Some buf) size \/
  a = svm_mmu_copy_from_guest_virt kmap h m r gva (Some buf) size ->
  (exists l, length l = Z.to_nat size /\
     (forall i, 0 <= i < size -> l !! Z.to_nat i = vbyte h m r (gva + i)) /\ a = Done size l) \/
  (exists i e buf', 0 <= i < size /\ vbyte h m r (gva + i) = None /\ e < 0 /\ a = Done e buf').
Proof.
  intros RI Hk H0 Hs Hw Lb Ha.
  destruct (copy_virt_result _ _ _ _ _ _ _ _ RI Hk H0 Hs Hw Lb Ha) as [(l & [L V] & E)|R]; [left; by exists l|by right].
Qed.

(** Outside 64-bit mode SVM computes the linear address CS.base + RIP modulo
    2^32, and VMX, which multiplies by the mask, gets every address below 4 GiB but 0
    wrong. *)
Theorem rip_to_linear_vmx_wrong (attrib_l : Z) (r : guest_regs) (rip : Z) :
  flag (efer r) EFER_LMA = false -> 0 < cs_base r + rip < 2 ^ 32 ->
  svm_mmu_rip_to_linear attrib_l r rip = cs_base r + rip /\
  vmx_mmu_rip_to_linear r rip <> cs_base r + rip.
Proof.
  intros El Hr. unfold svm_mmu_rip_to_linear, vmx_mmu_rip_to_linear. rewrite El. cbn [andb].
  rewrite !(u64_small (cs_base r + rip)) by lia. split.
  - change 0xFFFFFFFF with (2 ^ 32 - 1). rewrite land_ones_mod by lia. apply Z.mod_small. lia.
  - rewrite u64_small by lia. lia.
Qed.

(** ** Concrete instances

    Two pages of guest RAM; the first is the table of all four levels at once and
    maps the virtual pages 0, 1, 2 to the frames 0, 1, 0. *)
Module MmuDemo.
Import GuestMemDemo.
Definition hv : host :=
  fold_left (fun h '(p, o, b) => wr8 h p o b)
    [(0x9000, 0, 1); (0x9000, 8, 1); (0x9000, 9, 0x10); (0x9000, 16, 1); (0x5000, 0xFFE, 0xAA); (0x5000, 0xFFF, 0xBB)]
    host0.
Definition rl : guest_regs := GuestRegs X86_CR0_PG 0 X86_CR4_PAE EFER_LMA 0 0.

Lemma gva_to_gpa_correct_witness :
  vmx_mmu_gva_to_gpa (fun _ => true) hv m1 rl 0x2345 = Done 0 (Some 0x345).
Proof. exact (proj1 (gva_to_gpa_correct (fun _ => true) hv m1 rl 0x2345 demo_inv (fun _ => eq_refl))). Defined.

Lemma copy_from_guest_virt_correct_witness : exists l,
  vmx_mmu_copy_from_guest_virt (fun _ => true) hv m1 rl 0x1FFE (Some [0; 0; 0; 0]) 4 = Done 4 l /\
  l !! 1%nat = Some 0xBB.
Proof.
  destruct (copy_from_guest_virt_correct (fun _ => true) hv m1 rl 0x1FFE 4 [0; 0; 0; 0]
    (vmx_mmu_copy_from_guest_virt (fun _ => true) hv m1 rl 0x1FFE (Some [0; 0; 0; 0]) 4) demo_inv)
    as [(l & _ & V & E)|(i & e & b & _ & _ & He & E)];
    [done|lia|lia|lia|done|by left| |exfalso; vm_compute in E; injection E as <- _; lia].
  exists l. split; [exact E|]. exact (V 1 ltac:(lia)).
Defined.

Lemma rip_to_linear_vmx_wrong_witness :
  vmx_mmu_rip_to_linear (GuestRegs 0 0 0 0 0xF0000 0) 0xFFF0 <> 0xFFFF0.
Proof.
  exact (proj2 (rip_to_linear_vmx_wrong 0 (GuestRegs 0 0 0 0 0xF0000 0) 0xFFF0 eq_refl (conj eq_refl eq_refl))).
Defined.
End MmuDemo.
