(* ===== verification/GuestPt.v ===== *)
(** * The page tables the guest boots on

    relm_ept_create_guest_page_tables (src/arch/x86/vmx/ept.c) and
    relm_npt_create_guest_page_tables (src/arch/x86/svm/npt.c): three pages at the
    top of guest RAM, written through the guest copy of [GuestMem].  They are
    judged by the translation of the architecture of [Mmu]: a guest that loads the
    root into CR3 in long mode sees the first gigabyte at its own address. *)
From S2P Require Import Prelude HostMem Radix X86Pt VmMem GuestMem Mmu Ept Npt.

(** A page of 64-bit words as the bytes of [uint64_t *buf]. *)
Definition words_bytes (ws : list Z) : list Z := concat (map (le_bytes 8) ws).
(** [memset(buf, 0, PAGE_SIZE); buf[0] = w;] *)
Definition root_words (w : Z) : list Z := w :: replicate 511 0.
(** [buf[i] = (i * 0x200000ULL) | 0x87] for the 512 entries *)
Definition pd_words : list Z := map (fun i => Z.lor (Z.of_nat i * 0x200000) 0x87) (seq 0 512).

Section Create.
Context (kmap : Z -> bool) (kz : bool).

(** [ret = relm_vm_copy_to_guest(...); if (ret < 0) goto _out;] *)
Definition put_table (h : host) (m : relm_vm_memory) (gpa : Z) (ws : list Z)
    (k : host -> access (host * option Z)) : access (host * option Z) :=
  match relm_vm_copy_to_guest kmap h m gpa (Some (words_bytes ws)) PAGE_SIZE with
  | Done ret h => if ret <? 0 then Done ret (h, None) else k h
  | Oops => Oops
  | OutOfFuel => OutOfFuel
  end.

(** The value is the host and what is stored in [vm->arch.pml4_gpa], if anything. *)
Definition build_guest_page_tables (h : host) (m : relm_vm_memory) : access (host * option Z) :=
  let pt_base_gpa := u64 (total_guest_ram m - 3 * PAGE_SIZE) in
  let pml4_gpa := pt_base_gpa in
  let pdpt_gpa := u64 (pt_base_gpa + PAGE_SIZE) in
  let pd_gpa := u64 (pt_base_gpa + 2 * PAGE_SIZE) in
  if negb kz then Done (- ENOMEM) (h, None)
  else
    put_table h m pd_gpa pd_words (fun h =>
    put_table h m pdpt_gpa (root_words (Z.lor pd_gpa 0x7)) (fun h =>
    put_table h m pml4_gpa (root_words (Z.lor pdpt_gpa 0x7)) (fun h =>
    Done 0 (h, Some pml4_gpa)))).

Definition relm_ept_create_guest_page_tables (ept : option ept_context) (h : host) (m : relm_vm_memory)
    : access (host * option Z) :=
  match ept with
  | None => Done (- EINVAL) (h, None)
  | Some _ => build_guest_page_tables h m
  end.

Definition relm_npt_create_guest_page_tables (npt : option npt_context) (h : host) (m : relm_vm_memory)
    : access (host * option Z) :=
  match npt with
  | None => Done (- EINVAL) (h, None)
  | Some _ => build_guest_page_tables h m
  end.
End Create.

(** ** Words in guest memory *)

Lemma words_bytes_length ws : length (words_bytes ws) = (8 * length ws)%nat.
Proof.
  induction ws as [|w ws IH]; [done|]. unfold words_bytes in *. cbn [map concat].
  rewrite length_app, le_bytes_length, IH. cbn [length]. lia.
Qed.

Lemma words_bytes_lookup ws i w j : ws !! i = Some w -> (j < 8)%nat ->
  words_bytes ws !! (8 * i + j)%nat = le_bytes 8 w !! j.
Proof.
  revert i. induction ws as [|w' ws IH]; intros i Hi Hj; [done|].
  unfold words_bytes in *. cbn [map concat].
  destruct i as [|i]; cbn [lookup list_lookup] in Hi.
  - injection Hi as ->. rewrite lookup_app_l by (rewrite le_bytes_length; lia). done.
  - rewrite lookup_app_r by (rewrite le_bytes_length; lia). rewrite le_bytes_length.
    replace (8 * S i + j - 8)%nat with (8 * i + j)%nat by lia. by apply IH.
Qed.

Section Tables.
Context (m : relm_vm_memory) (RI : ram_inv m).

(** The page at [gpa] holds the words [ws]. *)
Definition table_at (h : host) (gpa : Z) (ws : list Z) : Prop := forall g, gpa <= g < gpa + 4096 ->
  gbyte h m g = words_bytes ws !! Z.to_nat (g - gpa).

Lemma gbyte_stored h gpa src k h' g : stored m h gpa src k h' -> k <= Z.of_nat (length src) ->
  covered_gpa m g ->
  gbyte h' m g = if decide (gpa <= g < gpa + k) then src !! Z.to_nat (g - gpa) else gbyte h m g.
Proof.
  intros (_ & _ & Sb & _) Hk [p At]. rewrite (gbyte_ram h' m RI g p At), (gbyte_ram h m RI g p At).
  rewrite (Sb g p At). case_decide; [|done].
  destruct (lookup_lt_is_Some_2 src (Z.to_nat (g - gpa))) as [x Hx]; [lia|]. by rewrite Hx.
Qed.

(** Writing a table, and what it leaves alone. *)
Lemma put_table_spec kmap h gpa ws k : (forall p, kmap p = true) -> 0 <= gpa -> gpa + 4096 < 2 ^ 64 ->
  length ws = 512%nat -> (forall g, gpa <= g < gpa + 4096 -> covered_gpa m g) ->
  exists h', put_table kmap h m gpa ws k = k h' /\ table_at h' gpa ws /\
    h_words h' = h_words h /\ h_live h' = h_live h /\
    forall g, covered_gpa m g -> ~ gpa <= g < gpa + 4096 -> gbyte h' m g = gbyte h m g.
Proof.
  intros Hk H0 Hw Hl Hcov.
  assert (length (words_bytes ws) = 4096%nat) as Lw by (by rewrite words_bytes_length, Hl).
  destruct (copy_to_spec kmap h m gpa PAGE_SIZE (words_bytes ws) RI Hk H0 ltac:(done) Hw)
    as (n & h' & E & Kn & _ & R & S); [by rewrite Lw|].
  assert (n = 4096) as ->.
  { destruct R as [|N]; [done|]. unfold PAGE_SIZE in Kn. destruct (decide (n = 4096)); [done|].
    destruct N. apply Hcov. lia. }
  exists h'. unfold put_table. rewrite E.
  split; [done|]. split; [|split; [apply S|split; [apply S|]]].
  - intros g Hg. rewrite (gbyte_stored _ _ _ _ _ _ S) by (rewrite ?Lw; auto; lia).
    by rewrite decide_True.
  - intros g Hg Ho. rewrite (gbyte_stored _ _ _ _ _ _ S) by (rewrite ?Lw; done || lia).
    by rewrite decide_False.
Qed.

Lemma table_at_frame h h' gpa ws : table_at h gpa ws -> (forall g, gpa <= g < gpa + 4096 -> gbyte h' m g = gbyte h m g) ->
  table_at h' gpa ws.
Proof. intros T E g Hg. by rewrite E, T. Qed.

(** The walker reads back the word. *)
Lemma table_entry h gpa ws i w : table_at h gpa ws -> 0 <= i < 512 -> ws !! Z.to_nat i = Some w ->
  0 <= w < 2 ^ 64 -> w mod 2 = 1 -> entry h m 8 (gpa + 8 * i) = Some w.
Proof.
  intros T Hi Hw Hr H1. unfold entry.
  assert (gbytes h m 8 (gpa + 8 * i) = Some (le_bytes 8 w)) as ->.
  { apply mapM_Some, Forall2_same_length_lookup_2; [by rewrite le_bytes_length|].
    intros k x y [-> Hk]%lookup_seq Hy. cbn [Nat.add]. rewrite T by lia.
    replace (Z.to_nat (gpa + 8 * i + Z.of_nat k - gpa)) with (8 * Z.to_nat i + k)%nat by lia.
    rewrite (words_bytes_lookup ws _ w) by done. exact Hy. }
  cbn [fmap option_fmap option_map mbind option_bind].
  rewrite of_le_bytes. change (256 ^ Z.of_nat 8) with (2 ^ 64). rewrite Z.mod_small by done.
  unfold field. change (2 ^ 0) with 1. change (2 ^ (0 - 0 + 1)) with 2. rewrite Z.div_1_r, H1. done.
Qed.
End Tables.

Lemma lor_low gpa : 0 <= gpa -> gpa mod 4096 = 0 -> Z.lor gpa 0x7 = gpa + 7.
Proof.
  intros H0 Ha. rewrite Z.lor_comm. replace gpa with (Z.shiftl (gpa / 4096) 12) at 1.
  - rewrite lor_shiftl by lia. change (2 ^ 12) with 4096. zdm.
  - rewrite Z.shiftl_mul_pow2 by lia. change (2 ^ 12) with 4096. zdm.
Qed.

Lemma pd_word i : 0 <= i < 512 -> pd_words !! Z.to_nat i = Some (i * 2 ^ 21 + 0x87).
Proof.
  intros Hi. unfold pd_words. change (map ?f ?l) with (f <$> l).
  rewrite list_lookup_fmap, lookup_seq_lt by lia. cbn [fmap option_fmap option_map]. f_equal.
  cbn [Nat.add]. rewrite Z2Nat.id by lia. change 0x200000 with (2 ^ 21).
  rewrite <- Z.shiftl_mul_pow2, Z.lor_comm, lor_shiftl by lia. rewrite Z.shiftl_mul_pow2 by lia. lia.
Qed.

(** A link to a table: present, no page-size bit, the address of the table. *)
Lemma link_fields gpa : 0 <= gpa < 2 ^ 52 -> gpa mod 4096 = 0 ->
  (gpa + 7) mod 2 = 1 /\ ps (gpa + 7) = false /\ 2 ^ 12 * field 51 12 (gpa + 7) = gpa.
Proof.
  intros Hr Ha. unfold ps, field. change (51 - 12 + 1) with 40. change (7 - 7 + 1) with 1. zpow.
  split; [zdm|]. split; [apply Z.eqb_neq; zdm|zdm].
Qed.

Lemma long_identity h m pml4 pdpt pd v : ram_inv m ->
  (forall x, x = pml4 \/ x = pdpt \/ x = pd -> 0 <= x < 2 ^ 52 /\ x mod 4096 = 0) ->
  table_at m h pd pd_words -> table_at m h pdpt (root_words (pd + 7)) ->
  table_at m h pml4 (root_words (pdpt + 7)) -> 0 <= v < 2 ^ 30 ->
  spec_long h m pml4 v = Some v.
Proof.
  intros RI Hx Td Tp T4 Hv.
  destruct (Hx pml4) as [R4 A4]; [tauto|]. destruct (Hx pdpt) as [Rp Ap]; [tauto|].
  destruct (Hx pd) as [Rd Ad]; [tauto|].
  destruct (link_fields pdpt Rp Ap) as (O1 & P1 & F1), (link_fields pd Rd Ad) as (O2 & P2 & F2).
  assert (2 ^ 12 * field 51 12 pml4 = pml4) as F4 by (unfold field; change (51 - 12 + 1) with 40; zpow; zdm).
  assert (field 47 39 v = 0 /\ field 38 30 v = 0 /\ field 29 21 v = v / 2 ^ 21 /\ field 20 0 v = v mod 2 ^ 21)
    as (I4 & I3 & I2 & I1).
  { unfold field. change (47 - 39 + 1) with 9. change (38 - 30 + 1) with 9. change (29 - 21 + 1) with 9.
    change (20 - 0 + 1) with 21. zpow. rewrite Z.div_1_r. split_and!; zdm. }
  unfold spec_long. rewrite F4, I4, I3, I2, I1.
  rewrite (table_entry m h pml4 _ 0 _ T4) by (done || zpow; lia). cbn [mbind option_bind]. rewrite P1, F1.
  rewrite (table_entry m h pdpt _ 0 _ Tp) by (done || zpow; lia). cbn [mbind option_bind]. rewrite P2, F2.
  assert (0 <= v / 2 ^ 21 < 512) as Hi by (zpow; zdm).
  rewrite (table_entry m h pd _ (v / 2 ^ 21) _ Td Hi (pd_word _ Hi)); [|zpow; zdm|zpow; zdm].
  cbn [mbind option_bind]. unfold ps, field.
  change (7 - 7 + 1) with 1. change (51 - 21 + 1) with 31. zpow.
  rewrite (proj2 (Z.eqb_eq _ 1)) by zdm. f_equal. zdm.
Qed.

(** The control registers of a guest in 4-level long mode. *)
Definition long_mode (r : guest_regs) : Prop :=
  Z.testbit (cr0 r) 31 = true /\ Z.testbit (efer r) 10 = true /\ Z.testbit (cr4 r) 12 = false.

(** Building the tables in the last three pages of RAM: they are there, nothing below
    them changed, and only bytes of guest RAM were written. *)
Lemma build_tables_spec (kmap : Z -> bool) (h : host) (m : relm_vm_memory) :
  ram_inv m -> (forall p, kmap p = true) ->
  total_guest_ram m mod 4096 = 0 -> 3 * 4096 <= total_guest_ram m < 2 ^ 48 ->
  (forall g, total_guest_ram m - 3 * 4096 <= g < total_guest_ram m -> covered_gpa m g) ->
  exists h', let root := total_guest_ram m - 3 * 4096 in
    build_guest_page_tables kmap true h m = Done 0 (h', Some root) /\
    h_words h' = h_words h /\ h_live h' = h_live h /\
    table_at m h' (root + 2 * 4096) pd_words /\ table_at m h' (root + 4096) (root_words (root + 2 * 4096 + 7)) /\
    table_at m h' root (root_words (root + 4096 + 7)) /\
    forall g, covered_gpa m g -> g < root -> gbyte h' m g = gbyte h m g.
Proof.
  intros RI Hk Ha Hr Hcov. cbv zeta. set (T := total_guest_ram m) in *. unfold build_guest_page_tables, PAGE_SIZE.
  fold T. rewrite (u64_small (T - 3 * 4096)), (u64_small (T - 3 * 4096 + 4096)),
    (u64_small (T - 3 * 4096 + 2 * 4096)) by lia.
  set (p4 := T - 3 * 4096). cbv zeta. cbn [negb].
  rewrite !lor_low by (unfold p4; zdm).
  destruct (put_table_spec m RI kmap h (p4 + 2 * 4096) pd_words (fun h =>
    put_table kmap h m (p4 + 4096) (root_words (p4 + 2 * 4096 + 7)) (fun h =>
    put_table kmap h m p4 (root_words (p4 + 4096 + 7)) (fun h => Done 0 (h, Some p4)))) Hk)
    as (h1 & -> & T1 & W1 & L1 & O1); [lia|lia|done|intros g Hg; apply Hcov; lia|].
  destruct (put_table_spec m RI kmap h1 (p4 + 4096) (root_words (p4 + 2 * 4096 + 7)) (fun h =>
    put_table kmap h m p4 (root_words (p4 + 4096 + 7)) (fun h => Done 0 (h, Some p4))) Hk)
    as (h2 & -> & T2 & W2 & L2 & O2); [lia|lia|done|intros g Hg; apply Hcov; lia|].
  destruct (put_table_spec m RI kmap h2 p4 (root_words (p4 + 4096 + 7)) (fun h => Done 0 (h, Some p4)) Hk)
    as (h3 & -> & T3 & W3 & L3 & O3); [lia|lia|done|intros g Hg; apply Hcov; lia|].
  exists h3. split_and!; [done|congruence|congruence| | |done|].
  - apply (table_at_frame m h2); [apply (table_at_frame m h1); [done|]|];
      intros g Hg; [apply O2|apply O3]; try lia; apply Hcov; lia.
  - apply (table_at_frame m h2); [done|]. intros g Hg. apply O3; [|lia]. apply Hcov; lia.
  - intros g Hc Hg. rewrite O3, O2, O1 by (done || lia). done.
Qed.

(** C13. When the last three pages of guest RAM are there, both backends build the
    boot tables in them and nothing else of guest RAM changes; and a guest in long
    mode with CR3 at the reported root reads every virtual address of the first
    gigabyte as the same physical address. *)
Theorem guest_page_tables_identity (kmap : Z -> bool) (ept : ept_context) (npt : npt_context)
    (h : host) (m : relm_vm_memory) :
  ram_inv m -> (forall p, kmap p = true) ->
  total_guest_ram m mod 4096 = 0 -> 3 * 4096 <= total_guest_ram m < 2 ^ 48 ->
  (forall g, total_guest_ram m - 3 * 4096 <= g < total_guest_ram m -> covered_gpa m g) ->
  exists h', let root := total_guest_ram m - 3 * 4096 in
    relm_ept_create_guest_page_tables kmap true (Some ept) h m = Done 0 (h', Some root) /\
    relm_npt_create_guest_page_tables kmap true (Some npt) h m = Done 0 (h', Some root) /\
    (forall g, covered_gpa m g -> g < root -> gbyte h' m g = gbyte h m g) /\
    forall r v, long_mode r -> cr3 r = root -> 0 <= v < 2 ^ 30 -> x86_translate h' m r v = Some v.
Proof.
  intros RI Hk Ha Hr Hcov. cbv zeta.
  destruct (build_tables_spec kmap h m RI Hk Ha Hr Hcov) as (h' & E & _ & _ & T1 & T2 & T3 & O).
  set (p4 := total_guest_ram m - 3 * 4096) in *.
  exists h'. split; [exact E|]. split; [exact E|]. split; [exact O|].
  intros r v (C0 & Ce & C4) C3 Hv. unfold x86_translate. rewrite C0, Ce, C4, C3. cbn [negb].
  apply (long_identity h' m p4 (p4 + 4096) (p4 + 2 * 4096)); try done.
  intros x [-> |[-> | ->]]; unfold p4; (split; [lia|zdm]).
Qed.

(** ** Concrete instance: three pages of RAM *)
Module GuestPtDemo.
Definition pages3 : list Z := [0x9000; 0x5000; 0x7000].
Definition m3 : relm_vm_memory :=
  set_regions vm_memory0 [GuestRegion 0 0x3000 (Some (map Some pages3)) 3 RAM_FLAGS] 0x3000.

Lemma m3_at g p : ram_at m3 g p <-> 0 <= g < 0x3000 /\ pages3 !! Z.to_nat (g / 4096) = Some p.
Proof.
  unfold m3. rewrite (ram_at_cons _ _ _ pages3) by done. cbn [gr_gpa_start gr_size]. rewrite Z.sub_0_r. split.
  - intros [[Hg E]|(r & _ & []%not_elem_of_nil & _)]. done.
  - intros [Hg E]. by left.
Qed.

Lemma m3_inv : ram_inv m3.
Proof.
  split.
  - intros r ->%list_elem_of_singleton. by exists pages3.
  - intros r r' g ->%list_elem_of_singleton ->%list_elem_of_singleton. done.
  - intros g g' p [Hg E]%m3_at [Hg' E']%m3_at.
    assert (NoDup pages3) as N by (apply (bool_decide_unpack _); done).
    pose proof (proj1 (NoDup_alt _) N _ _ _ E E'). zdm.
Qed.

Lemma guest_page_tables_identity_witness : exists h',
  relm_ept_create_guest_page_tables (fun _ => true) true (Some (EptContext 0 0 0 0 false (PtStats 0 0 0 0))) host0 m3 =
    Done 0 (h', Some 0) /\
  x86_translate h' m3 (GuestRegs X86_CR0_PG 0 X86_CR4_PAE EFER_LMA 0 0) 0x12345678 = Some 0x12345678.
Proof.
  destruct (guest_page_tables_identity (fun _ => true) (EptContext 0 0 0 0 false (PtStats 0 0 0 0))
    (NptContext 0 0 (PtStats 0 0 0 0)) host0 m3 m3_inv (fun _ => eq_refl) eq_refl)
    as (h' & E & _ & _ & I).
  - vm_compute. split; [discriminate|reflexivity].
  - intros g Hg. change (total_guest_ram m3) with 0x3000 in Hg.
    destruct (lookup_lt_is_Some_2 pages3 (Z.to_nat (g / 4096))) as [p Hp]; [simpl; zdm|].
    exists p. apply m3_at. split; [lia|done].
  - exists h'. split; [exact E|].
    refine (I (GuestRegs X86_CR0_PG 0 X86_CR4_PAE EFER_LMA 0 0) 0x12345678 _ _ _).
    + split; [reflexivity|split; reflexivity].
    + reflexivity.
    + vm_compute. split; [discriminate|reflexivity].
Defined.
End GuestPtDemo.
