(* ===== verification/Vcpu.v ===== *)
(** * The vCPU and its thread

    src/core/vcpu.c and include/relm/vcpu.h: creation, the execution thread
    [relm_vcpu_loop], start and stop.  The architecture backend is the table
    [vcpu_arch_ops] of functions on the vCPU.

    The thread runs beside the callers of start and stop and beside interrupt
    injection, so it is a step function on a system state: one step per call into
    the backend and one per [schedule()].  Linux's kthread contract is part of the
    system: a thread asked to stop before it ran never runs its function;
    [kthread_stop] waits for the thread; a thread that returns unasked leaves a
    task pointer nobody may use.  Logging and the locks are not represented. *)
From stdpp Require Import relations.
From S2P Require Import Prelude.

Definition EINTR : Z := 4.

Inductive vcpu_state :=
  | VCPU_STATE_UNINITIALIZED | VCPU_STATE_INITIALIZED | VCPU_STATE_RUNNING | VCPU_STATE_HALTED
  | VCPU_STATE_STOPPED | VCPU_STATE_SHUTDOWN | VCPU_STATE_ERROR.
#[export] Instance vcpu_state_eq_dec : EqDecision vcpu_state.
Proof. solve_decision. Defined.

(** [host_task] and [host_stack] are pointers, [None] for NULL; [vc_arch] is the
    backend's part. *)
Record vcpu {A : Type} := Vcpu {
  vpid : Z; target_cpu_id : Z; vc_state : vcpu_state; halted : bool;
  host_task : option Z; host_stack : option Z;
  total_exits : Z; start_time_ns : Z; end_time_ns : Z; vc_arch : A
}.
Arguments vcpu : clear implicits.
Arguments Vcpu {A}.

(** [None] is a NULL entry of the table. *)
Class vcpu_arch_ops := {
  arch : Type;
  arch0 : arch;   (** zeroed by kzalloc *)
  vcpu_alloc : option (vcpu arch -> Z * vcpu arch);
  vcpu_init : option (vcpu arch -> Z * vcpu arch);
  vcpu_run : vcpu arch -> Z * vcpu arch;
  handle_exit : vcpu arch -> Z * vcpu arch;
  vcpu_free : option (vcpu arch -> vcpu arch);
  vcpu_destroy : option (vcpu arch -> vcpu arch)
}.

Section Fields.
Context {A : Type}.
Definition set_state (v : vcpu A) (s : vcpu_state) : vcpu A :=
  Vcpu (vpid v) (target_cpu_id v) s (halted v) (host_task v) (host_stack v)
    (total_exits v) (start_time_ns v) (end_time_ns v) (vc_arch v).
Definition set_halted (v : vcpu A) (b : bool) : vcpu A :=
  Vcpu (vpid v) (target_cpu_id v) (vc_state v) b (host_task v) (host_stack v)
    (total_exits v) (start_time_ns v) (end_time_ns v) (vc_arch v).
Definition set_task (v : vcpu A) (t : option Z) : vcpu A :=
  Vcpu (vpid v) (target_cpu_id v) (vc_state v) (halted v) t (host_stack v)
    (total_exits v) (start_time_ns v) (end_time_ns v) (vc_arch v).
Definition set_target (v : vcpu A) (c : Z) : vcpu A :=
  Vcpu (vpid v) c (vc_state v) (halted v) (host_task v) (host_stack v)
    (total_exits v) (start_time_ns v) (end_time_ns v) (vc_arch v).
Definition set_exits (v : vcpu A) (n : Z) : vcpu A :=
  Vcpu (vpid v) (target_cpu_id v) (vc_state v) (halted v) (host_task v) (host_stack v)
    n (start_time_ns v) (end_time_ns v) (vc_arch v).
Definition set_start (v : vcpu A) (n : Z) : vcpu A :=
  Vcpu (vpid v) (target_cpu_id v) (vc_state v) (halted v) (host_task v) (host_stack v)
    (total_exits v) n (end_time_ns v) (vc_arch v).
Definition set_end (v : vcpu A) (n : Z) : vcpu A :=
  Vcpu (vpid v) (target_cpu_id v) (vc_state v) (halted v) (host_task v) (host_stack v)
    (total_exits v) (start_time_ns v) n (vc_arch v).
Definition set_arch (v : vcpu A) (a : A) : vcpu A :=
  Vcpu (vpid v) (target_cpu_id v) (vc_state v) (halted v) (host_task v) (host_stack v)
    (total_exits v) (start_time_ns v) (end_time_ns v) a.
End Fields.

(** ** Creation *)
Section Create.
Context {ops : vcpu_arch_ops}.

(** [kz], [stack]: the results of the two allocations; [inl e] is [ERR_PTR(e)]. *)
Definition relm_vcpu_create (kz : bool) (stack : option Z) (vpid : Z) : Z + vcpu arch :=
  match vcpu_alloc with
  | None => inl (- EINVAL)
  | Some alloc =>
      if negb kz then inl (- ENOMEM)
      else
        match stack with
        | None => inl (- ENOMEM)
        | Some st =>
            let v := Vcpu (u16 vpid) 0 VCPU_STATE_UNINITIALIZED false None (Some st) 0 0 0 arch0 in
            let '(ret, v) := alloc v in
            if negb (ret =? 0) then inl ret
            else inr (set_state v VCPU_STATE_INITIALIZED)
        end
  end.

(** ** Start and stop, and the thread *)

(** Where the thread stands: about to enter its function; yielding until it is on
    its CPU; about to initialise; at the head of the run loop; after a guest exit;
    asleep on the wait queue; about to tear down with the code it will return;
    returned. *)
Inductive pc := Start | Pinning | Init | Top (ret : Z) | Handle | Sleep | Destroy (ret : Z) | Exited (ret : Z).

#[export] Instance pc_eq_dec : EqDecision pc.
Proof. solve_decision. Defined.

Inductive call := CInit | CRun | CHandle | CDestroy.

Record sys := Sys {
  s_vcpu : vcpu arch;
  s_thread : option pc;       (** [None]: no thread exists *)
  s_stop : bool;              (** kthread_should_stop() *)
  s_cpu : Z;                  (** the CPU the thread is on *)
  s_current : gset Z;         (** the CPUs whose current_vcpu is this vCPU *)
  s_log : list (call * Z);    (** the calls into the backend, oldest first, with the CPU *)
  s_uaf : bool                (** a task pointer was used after its task was gone *)
}.

Context (cpu_possible cpu_online : Z -> bool) (set_cpus_allowed : Z -> Z).

(** The checks of [relm_vcpu_pin_to_cpu], before it waits for the migration. *)
Definition relm_vcpu_pin_to_cpu (v : vcpu arch) (target : Z) : Z :=
  match host_task v with
  | None => - EINVAL
  | Some _ =>
      if negb (cpu_possible target) then - EINVAL
      else if negb (cpu_online target) then - EINVAL
      else set_cpus_allowed target
  end.

Definition with_thread (s : sys) (v : vcpu arch) (p : pc) : sys :=
  Sys v (Some p) (s_stop s) (s_cpu s) (s_current s) (s_log s) (s_uaf s).
Definition on_cpu (s : sys) (c : Z) : sys :=
  Sys (s_vcpu s) (s_thread s) (s_stop s) c (s_current s) (s_log s) (s_uaf s).
Definition logged (s : sys) (k : call) : sys :=
  Sys (s_vcpu s) (s_thread s) (s_stop s) (s_cpu s) (s_current s) (s_log s ++ [(k, s_cpu s)]) (s_uaf s).

(** [relm_set_current_vcpu(vcpu)] and [relm_set_current_vcpu(NULL)] *)
Definition set_current (s : sys) : sys :=
  Sys (s_vcpu s) (s_thread s) (s_stop s) (s_cpu s) ({[s_cpu s]} ∪ s_current s) (s_log s) (s_uaf s).
Definition clear_current (s : sys) : sys :=
  Sys (s_vcpu s) (s_thread s) (s_stop s) (s_cpu s) (s_current s ∖ {[s_cpu s]}) (s_log s) (s_uaf s).

(** One step of [relm_vcpu_loop]; [c] is where [schedule()] puts the thread.  [None]:
    the thread cannot step (it sleeps, or it is gone). *)
Definition thread_step (c : Z) (s : sys) : option sys :=
  let v := s_vcpu s in
  match s_thread s with
  | None => None
  | Some Start =>
      if s_stop s then Some (with_thread s v (Exited (- EINTR)))
      else
        let s := set_current s in
        let ret := relm_vcpu_pin_to_cpu v (target_cpu_id v) in
        if negb (ret =? 0)
        then Some (clear_current (with_thread s (set_state v VCPU_STATE_ERROR) (Exited ret)))
        else Some (with_thread s v Pinning)
  | Some Pinning =>
      let s := on_cpu s c in
      if c =? target_cpu_id v then Some (with_thread s v Init) else Some s
  | Some Init =>
      let s := set_current s in
      match vcpu_init with
      | None => Some (clear_current (with_thread s (set_state v VCPU_STATE_ERROR) (Exited 0)))
      | Some init =>
          let s := logged s CInit in
          let '(ret, v) := init v in
          if negb (ret =? 0) then Some (with_thread s (set_state v VCPU_STATE_ERROR) (Destroy ret))
          else Some (with_thread s (set_state v VCPU_STATE_RUNNING) (Top ret))
      end
  | Some (Top ret) =>
      if s_stop s then Some (with_thread s v (Destroy ret))
      else
        let s := logged s CRun in
        let '(ret, v) := vcpu_run v in
        if negb (ret =? 0) then Some (with_thread s (set_state v VCPU_STATE_ERROR) (Destroy ret))
        else Some (with_thread s v Handle)
  | Some Handle =>
      let s := logged s CHandle in
      let '(ret, v) := handle_exit v in
      if ret <? 0 then Some (with_thread s (set_state v VCPU_STATE_ERROR) (Destroy ret))
      else
        let v := set_exits v (u64 (total_exits v + 1)) in
        if negb (bool_decide (vc_state v = VCPU_STATE_RUNNING)) then Some (with_thread s v (Destroy ret))
        else if halted v then Some (with_thread s v Sleep)
        else Some (with_thread s v (Top ret))
  | Some Sleep =>
      if negb (halted v) || s_stop s then Some (with_thread s v (Top 0)) else None
  | Some (Destroy ret) =>
      let s := match vcpu_destroy with Some _ => logged s CDestroy | None => s end in
      let v := match vcpu_destroy with Some destroy => destroy v | None => v end in
      let v := if bool_decide (vc_state v = VCPU_STATE_ERROR) then v else set_state v VCPU_STATE_STOPPED in
      Some (clear_current (with_thread s v (Exited ret)))
  | Some (Exited _) => None
  end.

(** [task]: what [kthread_create] returns, [inl e] for [ERR_PTR(e)]; [now] is the
    clock. *)
Definition relm_vcpu_run (task : Z + Z) (now : Z) (cpu : Z) (s : sys) : Z * sys :=
  let v := s_vcpu s in
  match host_task v with
  | Some _ => (- EBUSY, s)
  | None =>
      if negb (bool_decide (vc_state v = VCPU_STATE_INITIALIZED)) then (- EINVAL, s)
      else
        let v := set_start (set_exits (set_halted v false) 0) now in
        match task with
        | inl err => (err, Sys (set_task v None) (s_thread s) (s_stop s) (s_cpu s) (s_current s) (s_log s) (s_uaf s))
        | inr t => (0, Sys (set_task v (Some t)) (Some Start) false cpu (s_current s) (s_log s) (s_uaf s))
        end
  end.

(** [relm_vcpu_stop] up to the wait of [kthread_stop]: the flag is set on the task,
    if the task is still there. *)
Definition vcpu_stop_begin (s : sys) : sys :=
  match host_task (s_vcpu s) with
  | None => s
  | Some _ =>
      match s_thread s with
      | Some (Exited _) =>
          Sys (s_vcpu s) (s_thread s) (s_stop s) (s_cpu s) (s_current s) (s_log s) (s_uaf s || negb (s_stop s))
      | _ => Sys (s_vcpu s) (s_thread s) true (s_cpu s) (s_current s) (s_log s) (s_uaf s)
      end
  end.

(** The rest, once the thread has returned. *)
Definition vcpu_stop_end (now : Z) (s : sys) : option (Z * sys) :=
  match host_task (s_vcpu s), s_thread s with
  | None, _ => Some (0, s)
  | Some _, Some (Exited _) =>
      Some (0, Sys (set_end (set_task (s_vcpu s) None) now) None false (s_cpu s) (s_current s) (s_log s) (s_uaf s))
  | Some _, _ => None
  end.

(** Interrupt injection: the backend records it, then clears [halted] and wakes. *)
Definition inject (f : arch -> arch) (s : sys) : sys :=
  Sys (set_halted (set_arch (s_vcpu s) (f (vc_arch (s_vcpu s)))) false)
    (s_thread s) (s_stop s) (s_cpu s) (s_current s) (s_log s) (s_uaf s).

(** The interleavings. *)
Inductive step : sys -> sys -> Prop :=
  | SThread c s s' : thread_step c s = Some s' -> step s s'
  | SRun task now cpu s : step s (snd (relm_vcpu_run task now cpu s))
  | SStop s : step s (vcpu_stop_begin s)
  | SStopped now r s s' : s_stop s = true -> vcpu_stop_end now s = Some (r, s') -> step s s'
  | SInject f s : step s (inject f s).

Definition reachable : sys -> sys -> Prop := rtc step.

(** A vCPU just created. *)
Definition fresh (v : vcpu arch) : sys := Sys v None false 0 ∅ [] false.
End Create.

(** ** What every interleaving keeps *)

(** What the loop relies on: the backend leaves the identity of the vCPU and the
    task pointer alone. *)
Definition keeps {A} (v v' : vcpu A) : Prop :=
  host_task v' = host_task v /\ target_cpu_id v' = target_cpu_id v.
Record ops_ok (ops : vcpu_arch_ops) : Prop := OpsOk {
  ok_init f v : vcpu_init = Some f -> keeps v (snd (f v));
  ok_run v : keeps v (snd (vcpu_run v));
  ok_handle v : keeps v (snd (handle_exit v));
  ok_destroy f v : vcpu_destroy = Some f -> keeps v (f v)
}.

Section Invariant.
Context {ops : vcpu_arch_ops} (OK : ops_ok ops).
Context (cpu_possible cpu_online : Z -> bool) (set_cpus_allowed : Z -> Z).
Local Notation thread_step := (thread_step cpu_possible cpu_online set_cpus_allowed).
Local Notation step := (step cpu_possible cpu_online set_cpus_allowed).
Local Notation reachable := (reachable cpu_possible cpu_online set_cpus_allowed).
Context (T : Z).

(** The calls of [n] rounds of the run loop on CPU [T]. *)
Fixpoint rounds (n : nat) : list (call * Z) :=
  match n with O => [] | S n => (CRun, T) :: (CHandle, T) :: rounds n end.

Lemma rounds_snoc n : rounds n ++ [(CRun, T); (CHandle, T)] = rounds (S n).
Proof. induction n as [|n IH]; [done|]. cbn [rounds app] in *. by rewrite IH. Qed.

(** A complete session: initialised once, rounds, at most one guest entry that
    failed or was not handled, torn down. *)
Definition session (l : list (call * Z)) : Prop :=
  exists n e, (e = [] \/ e = [(CRun, T)]) /\ l = (CInit, T) :: rounds n ++ e ++ [(CDestroy, T)].

Definition ran (e : list (call * Z)) (l : list (call * Z)) : Prop := exists n, l = (CInit, T) :: rounds n ++ e.

Definition ended (v : vcpu arch) (l : list (call * Z)) : Prop :=
  (vc_state v = VCPU_STATE_INITIALIZED /\ l = []) \/
  ((vc_state v = VCPU_STATE_STOPPED \/ vc_state v = VCPU_STATE_ERROR) /\ exists l', session (l ++ l')) \/
  (vc_state v = VCPU_STATE_ERROR /\ l = []).

Definition at_pc (s : sys) (p : pc) : Prop :=
  let v := s_vcpu s in let l := s_log s in
  match p with
  | Start => vc_state v = VCPU_STATE_INITIALIZED /\ l = []
  | Pinning => vc_state v = VCPU_STATE_INITIALIZED /\ l = []
  | Init => vc_state v = VCPU_STATE_INITIALIZED /\ l = [] /\ s_cpu s = T
  | Top _ | Sleep => vc_state v = VCPU_STATE_RUNNING /\ ran [] l /\ s_cpu s = T
  | Handle => ran [(CRun, T)] l /\ s_cpu s = T
  | Destroy _ => (ran [] l \/ ran [(CRun, T)] l) /\ s_cpu s = T
  | Exited _ => ended v l
  end.

Record vcpu_inv (s : sys) : Prop := VcpuInv {
  vi_target : target_cpu_id (s_vcpu s) = T;
  vi_thread : match s_thread s with
              | Some p => (exists t, host_task (s_vcpu s) = Some t) /\ at_pc s p
              | None => host_task (s_vcpu s) = None /\ s_stop s = false /\ ended (s_vcpu s) (s_log s)
              end
}.

Lemma ran_session l : ran [] l \/ ran [(CRun, T)] l -> session (l ++ [(CDestroy, T)]).
Proof.
  intros [[n ->]|[n ->]]; [exists n, []|exists n, [(CRun, T)]]; (split; [auto|]); cbn [app]; by rewrite ?app_nil_r, <- ?app_assoc.
Qed.

Lemma vcpu_inv_fresh v : target_cpu_id v = T -> host_task v = None ->
  vc_state v = VCPU_STATE_INITIALIZED -> vcpu_inv (fresh v).
Proof. intros Ht Hn Hs. split; [done|]. simpl. split_and!; try done. by left. Qed.

Lemma ran_nil_snoc l k : ran [] l -> ran [k] (l ++ [k]).
Proof. intros [n ->]. exists n. rewrite app_nil_r. done. Qed.

Lemma ran_handled l : ran [(CRun, T)] l -> ran [] (l ++ [(CHandle, T)]).
Proof.
  intros [n ->]. exists (S n). rewrite app_nil_r, <- rounds_snoc. cbn [app]. by rewrite <- app_assoc.
Qed.

Lemma thread_step_inv c s s' : vcpu_inv s -> thread_step c s = Some s' -> vcpu_inv s'.
Proof.
  intros [Ht Hth]. unfold Vcpu.thread_step. destruct (s_thread s) as [p|] eqn:Ep; [|done].
  destruct Hth as [[t Htk] Hp]. destruct p as [| | |ret| | |ret|ret]; cbn [at_pc] in Hp; cbv zeta.
  - destruct (s_stop s); [intros [= <-]; split; simpl; [done|]; split; [eauto|]; left; tauto|].
    case_match; intros [= <-]; (split; simpl; [done|]; split; [eauto|]); [|tauto].
    right; right. split; [done|tauto].
  - destruct (Z.eqb_spec c (target_cpu_id (s_vcpu s))) as [Ec|]; intros [= <-]; (split; simpl; [done|]);
      rewrite ?Ep; (split; [eauto|]); simpl; [|tauto]. split_and!; tauto || congruence.
  - destruct Hp as (Hs & Hl & Hc). destruct vcpu_init as [f|] eqn:Ei.
    2:{ intros [= <-]. split; simpl; [done|]. split; [eauto|]. right; right. by split. }
    pose proof (ok_init _ OK f (s_vcpu s) Ei) as [K1 K2]. destruct (f (s_vcpu s)) as [r v]. cbn [snd] in *.
    assert (ran [] (s_log s ++ [(CInit, s_cpu s)])) as R by (exists 0%nat; by rewrite Hl, Hc).
    case_match; intros [= <-]; (split; simpl; [congruence|]; rewrite K1; split; [eauto|]); auto.
  - destruct Hp as (Hs & Hl & Hc). destruct (s_stop s); [intros [= <-]; split; simpl; [done|]; split; [eauto|]; auto|].
    pose proof (ok_run _ OK (s_vcpu s)) as [K1 K2]. destruct (vcpu_run (s_vcpu s)) as [r v]. cbn [snd] in *.
    pose proof (ran_nil_snoc _ (CRun, s_cpu s) Hl) as R. rewrite Hc in R.
    case_match; intros [= <-]; (split; simpl; [congruence|]; rewrite K1, Hc; split; [eauto|]); auto.
  - destruct Hp as (Hl & Hc). pose proof (ok_handle _ OK (s_vcpu s)) as [K1 K2].
    destruct (handle_exit (s_vcpu s)) as [r v]. cbn [snd] in *. apply ran_handled in Hl.
    case_match; [|destruct (bool_decide_reflect (vc_state (set_exits v (u64 (total_exits v + 1))) = VCPU_STATE_RUNNING))
      as [Er|Er]; cbn [negb]; [case_match|]]; intros [= <-];
      (split; simpl; [congruence|]; rewrite K1, Hc; split; [eauto|]); auto.
  - destruct (negb (halted (s_vcpu s)) || s_stop s); intros [= <-]. split; simpl; [done|]. split; [eauto|]. done.
  - destruct Hp as (Hl & Hc). intros [= <-]. pose proof (ran_session _ Hl) as S.
    assert (forall v, (vc_state v = VCPU_STATE_ERROR \/ vc_state v = VCPU_STATE_STOPPED) -> forall l',
      (l' = s_log s \/ l' = s_log s ++ [(CDestroy, T)]) -> ended v l') as En.
    { intros v Hv l' Hl'. right; left. split; [tauto|]. destruct Hl' as [-> | ->]; [by eexists|].
      exists []. by rewrite app_nil_r. }
    destruct vcpu_destroy as [f|] eqn:Ed;
      [pose proof (ok_destroy _ OK f (s_vcpu s) Ed) as [K1 K2]; set (v := f (s_vcpu s)) in *|];
      (case_bool_decide; split; simpl; [congruence|split; [exists t; simpl; congruence|]|congruence|split; [exists t; simpl; congruence|]];
       apply En; rewrite ?Hc; simpl; tauto).
  - done.
Qed.

Lemma step_inv s s' : vcpu_inv s -> step s s' -> vcpu_inv s'.
Proof.
  intros I St. destruct St as [c s s' E|task now cpu s|s|now r s s' Hst E|f s].
  - by eapply thread_step_inv.
  - unfold relm_vcpu_run. pose proof I as [Ht Hth]. destruct (host_task (s_vcpu s)) as [t|] eqn:Etk; [done|].
    destruct (s_thread s) as [p|] eqn:Ep; [destruct Hth as [[t ?] _]; congruence|].
    destruct Hth as (_ & Hst & En).
    destruct (bool_decide_reflect (vc_state (s_vcpu s) = VCPU_STATE_INITIALIZED)) as [Ei|Ei]; cbn [negb snd].
    2:{ done. }
    destruct task as [e|t]; (split; simpl; [done|]); rewrite ?Ep.
    + split_and!; [done|done|]. destruct En as [[? ?]|[[[?|?] _]|[? _]]]; [by left|simpl in *; congruence..].
    + split; [eauto|]. simpl. destruct En as [[? ?]|[[[?|?] _]|[? _]]]; [done|congruence..].
  - unfold vcpu_stop_begin. pose proof I as [Ht Hth]. destruct (host_task (s_vcpu s)) as [t|] eqn:Etk; [|done].
    destruct (s_thread s) as [p|] eqn:Ep; [|destruct Hth; congruence].
    destruct p; (split; simpl; [done|]); rewrite ?Ep; (split; [eauto|]); apply Hth.
  - unfold vcpu_stop_end in E. pose proof I as [Ht Hth].
    destruct (host_task (s_vcpu s)) as [t|] eqn:Etk.
    2:{ by injection E as <- <-. }
    destruct (s_thread s) as [[]|] eqn:Ep; simplify_eq. destruct Hth as [_ En]. split; simpl; [done|]. done.
  - pose proof I as [Ht Hth]. split; simpl; [done|]. destruct (s_thread s) as [p|]; [|done].
    destruct Hth as [? Hp]. split; [done|]. by destruct p.
Qed.

Lemma reachable_inv s0 s : vcpu_inv s0 -> reachable s0 s -> vcpu_inv s.
Proof.
  intros I R. revert s R. apply (rtc_ind_r vcpu_inv); [done|]. intros y z _ St Iy. by eapply step_inv.
Qed.

(** The log of a state is the start of a session. *)
Lemma inv_log s : vcpu_inv s -> s_log s = [] \/ exists l, session (s_log s ++ l).
Proof.
  intros [_ Hth].
  assert (forall e, e = [] \/ e = [(CRun, T)] -> ran e (s_log s) -> exists l, session (s_log s ++ l)) as R.
  { intros e He [n Hn]. eexists. apply ran_session. destruct He as [-> | ->]; [left|right]; by exists n. }
  assert (ended (s_vcpu s) (s_log s) -> s_log s = [] \/ exists l, session (s_log s ++ l)) as En
    by (intros [[]|[[]|[]]]; auto).
  destruct (s_thread s) as [p|]; [|apply En, Hth]. destruct Hth as [_ Hp].
  destruct p; cbn [at_pc] in Hp; try (left; tauto); try (apply En; tauto); right; naive_solver.
Qed.

(** ** Stopping *)

Fixpoint run_thread (cs : list Z) (s : sys) : sys :=
  match cs with
  | [] => s
  | c :: cs => run_thread cs (default s (thread_step c s))
  end.

Definition exited (s : sys) : Prop := exists r, s_thread s = Some (Exited r).

Lemma exited_stays cs s : exited s -> exited (run_thread cs s).
Proof.
  revert s. induction cs as [|c cs IH]; intros s [r Hs]; cbn [run_thread]; [by exists r|].
  apply IH. unfold Vcpu.thread_step. rewrite Hs. by exists r.
Qed.

(** How many steps a thread asked to stop needs, once it is on its CPU. *)
Definition left_to_do (p : pc) : nat :=
  match p with
  | Exited _ => 0 | Destroy _ => 1 | Start => 1 | Top _ => 2 | Sleep => 3 | Init => 3 | Pinning => 4 | Handle => 4
  end.

Lemma thread_step_stop c s p : s_stop s = true -> s_thread s = Some p ->
  (exists r, p = Exited r) \/
  exists s' p', thread_step c s = Some s' /\ s_stop s' = true /\ s_thread s' = Some p' /\
    (s_cpu s' = c \/ p <> Pinning) /\ target_cpu_id (s_vcpu s') = target_cpu_id (s_vcpu s) /\
    (left_to_do p' < left_to_do p \/ p = Pinning /\ p' = Pinning /\ c <> target_cpu_id (s_vcpu s))%nat.
Proof.
  intros Hst Hp. unfold Vcpu.thread_step. rewrite Hp, Hst.
  destruct p as [| | |ret| | |ret|ret]; [| | | | | | |left; by eexists]; right; cbv zeta.
  - by eexists _, _; split_and!; simpl; auto; lia.
  - destruct (Z.eqb_spec c (target_cpu_id (s_vcpu s))).
    + by eexists _, _; split_and!; simpl; auto; lia.
    + exists (on_cpu s c), Pinning. split_and!; simpl; auto.
  - destruct vcpu_init as [f|] eqn:Ei; [|by eexists _, _; split_and!; simpl; auto; lia].
    pose proof (ok_init _ OK f (s_vcpu s) Ei) as [_ K]. destruct (f (s_vcpu s)) as [r v].
    case_match; eexists _, _; split_and!; simpl; auto; lia.
  - by eexists _, _; split_and!; simpl; auto; lia.
  - pose proof (ok_handle _ OK (s_vcpu s)) as [_ K]. destruct (handle_exit (s_vcpu s)) as [r v].
    repeat case_match; eexists _, _; split_and!; simpl; auto; lia.
  - rewrite orb_true_r. eexists _, _; split_and!; simpl; auto; lia.
  - destruct vcpu_destroy as [f|] eqn:Ed; [pose proof (ok_destroy _ OK f (s_vcpu s) Ed) as [_ K]|];
      case_bool_decide; eexists _, _; split_and!; simpl; auto; lia.
Qed.

Lemma stop_after cs s p : s_stop s = true -> s_thread s = Some p -> p <> Pinning ->
  (left_to_do p <= length cs)%nat -> exited (run_thread cs s).
Proof.
  revert s p. induction cs as [|c cs IH]; intros s p Hst Hp Hn Hl; cbn [run_thread].
  - destruct p; simpl in Hl; lia || by eexists.
  - destruct (thread_step_stop c s p Hst Hp) as [[r ->]|(s' & p' & E & Hst' & Hp' & _ & _ & [Hd|[? _]])]; [| |done].
    + unfold Vcpu.thread_step. rewrite Hp. apply exited_stays. by exists r.
    + rewrite E. simpl. apply (IH s' p'); try done; [|simpl in Hl; lia].
      intros ->. destruct p; simpl in Hd; try lia.
Qed.

Lemma stop_sched pre post s p : s_stop s = true -> s_thread s = Some p -> target_cpu_id (s_vcpu s) = T ->
  (4 <= length post)%nat -> exited (run_thread (pre ++ T :: post) s).
Proof.
  revert s p. induction pre as [|c pre IH]; intros s p Hst Hp Ht Hl; cbn [app].
  all: destruct (decide (p = Pinning)) as [->|Hn];
    [|apply (stop_after _ s p); try done; destruct p; simpl; rewrite ?length_app; simpl; lia].
  all: cbn [run_thread].
  - destruct (thread_step_stop T s Pinning Hst Hp) as [[r ?]|(s' & p' & -> & Hst' & Hp' & _ & _ & [Hd|(_ & _ & ?)])]; [done| |congruence].
    simpl. apply (stop_after _ s' p'); try done; [intros ->|]; simpl in Hd; lia.
  - destruct (thread_step_stop c s Pinning Hst Hp) as [[r ?]|(s' & p' & -> & Hst' & Hp' & _ & Ht' & _)]; [done|].
    simpl. apply (IH s' p'); congruence.
Qed.

Lemma run_thread_inv cs s : vcpu_inv s -> vcpu_inv (run_thread cs s).
Proof.
  revert s. induction cs as [|c cs IH]; intros s I; cbn [run_thread]; [done|]. apply IH.
  destruct (thread_step c s) eqn:E; simpl; [|done]. by eapply thread_step_inv.
Qed.



(** A vCPU runs once: as soon as the backend was called for it, starting it again
    is refused for ever - busy while the thread is there, invalid after it was
    stopped - and changes nothing. *)
Theorem restart_refused (v : vcpu arch) (s : sys) (task : Z + Z) (now cpu : Z) :
  target_cpu_id v = T -> host_task v = None -> vc_state v = VCPU_STATE_INITIALIZED ->
  reachable (fresh v) s -> s_log s <> [] ->
  relm_vcpu_run task now cpu s =
    (match host_task (s_vcpu s) with Some _ => - EBUSY | None => - EINVAL end, s).
Proof.
  intros Ht Hk Hs R Hl.
  assert (vcpu_inv s) as [_ I] by (eapply reachable_inv; [|exact R]; by apply vcpu_inv_fresh).
  unfold relm_vcpu_run. destruct (host_task (s_vcpu s)) as [t|] eqn:Et; [done|].
  destruct (s_thread s) as [p|]; [destruct I as [[t ?] _]; congruence|].
  destruct I as (_ & _ & En). rewrite bool_decide_eq_false_2; [done|].
  destruct En as [[_ ?]|[[[?|?] _]|[_ ?]]]; congruence.
Qed.
End Invariant.

(** ** Concrete runs

    A backend whose guest executes a script: [true] is HLT, handled as in
    src/arch/x86/svm/vmexit.c, [false] is a shutdown; the flag is a pending
    interrupt. *)
Module VcpuDemo.
Definition handle (v : vcpu (list bool * bool)) : Z * vcpu (list bool * bool) :=
  match vc_arch v with
  | (true :: l, irq) => (0, set_halted (set_arch v (l, irq)) true)
  | (false :: l, irq) => (0, set_state (set_arch v (l, irq)) VCPU_STATE_STOPPED)
  | ([], irq) => (0, v)
  end.
#[export] Instance script_ops : vcpu_arch_ops := {|
  arch := list bool * bool; arch0 := ([], false);
  vcpu_alloc := Some (fun v => (0, v)); vcpu_init := Some (fun v => (0, v));
  vcpu_run := fun v => (0, v); handle_exit := handle;
  vcpu_free := None; vcpu_destroy := Some (fun v => v)
|}.

Lemma script_ok : ops_ok script_ops.
Proof.
  split.
  - intros f v [= <-]. by split.
  - intros v. by split.
  - intros [? ? ? ? ? ? ? ? ? [[|[] l] irq]]; by split.
  - intros f v [= <-]. by split.
Qed.

Definition yes : Z -> bool := fun _ => true.
Definition zero : Z -> Z := fun _ => 0.
Definition v0 (script : list bool) : vcpu arch :=
  Vcpu 1 1 VCPU_STATE_INITIALIZED false None (Some 0x1000) 0 0 0 (script, false).
Notation reach := (reachable yes yes zero).
Notation tstep := (thread_step yes yes zero).

Definition started (script : list bool) : sys := snd (relm_vcpu_run (inr 7) 0 0 (fresh (v0 script))).

Lemma reach_started script : reach (fresh (v0 script)) (started script).
Proof. apply rtc_once. apply SRun. Qed.

Lemma reach_run script cs s : reach (fresh (v0 script)) s ->
  reach (fresh (v0 script)) (run_thread yes yes zero cs s).
Proof.
  revert s. induction cs as [|c cs IH]; intros s R; cbn [run_thread]; [done|]. apply IH.
  destruct (thread_step yes yes zero c s) eqn:E; simpl; [|done]. eapply rtc_r; [exact R|]. by apply (SThread _ _ _ c).
Qed.

(** Pinned, initialised, one guest entry, halted and asleep. *)
Definition asleep : sys := run_thread yes yes zero [0; 0; 1; 1; 1; 1] (started [true]).



Lemma restart_refused_witness : relm_vcpu_run (inr 8) 0 0 asleep = (- EBUSY, asleep).
Proof.
  refine (restart_refused script_ok yes yes zero 1 (v0 [true]) asleep (inr 8) 0 0 eq_refl eq_refl eq_refl _ _);
    [apply reach_run, reach_started|discriminate].
Defined.

(** A vCPU that stops by itself - the guest shut down - leaves a task pointer
    behind: the thread returns without being asked to, and stopping the vCPU then
    uses the task after it is gone. *)
Theorem unasked_exit_use_after_free : exists s,
  reach (fresh (v0 [false])) s /\ (exists r, s_thread s = Some (Exited r)) /\
  vc_state (s_vcpu s) = VCPU_STATE_STOPPED /\ s_uaf s = false /\ s_uaf (vcpu_stop_begin s) = true.
Proof.
  exists (run_thread yes yes zero [0; 1; 1; 1; 1; 1] (started [false])).
  split; [apply reach_run, reach_started|]. split; [by exists 0|]. by split_and!.
Qed.

(** The guest has exited with HLT; then an interrupt arrives. *)
Definition after_exit : sys := run_thread yes yes zero [0; 1; 1; 1] (started [true]).
Definition late : sys := inject (ops := script_ops) (fun a : list bool * bool => (fst a, true)) after_exit.

(** A wake-up can be lost: an interrupt injected after the guest exited with HLT
    and before the exit is handled leaves the vCPU asleep with the interrupt
    pending; the thread cannot go on. *)
Theorem lost_wakeup : exists s, reach (fresh (v0 [true])) s /\
  s_thread s = Some Sleep /\ snd (vc_arch (s_vcpu s) : list bool * bool) = true /\ s_stop s = false /\
  forall c, tstep c s = None.
Proof.
  exists (run_thread yes yes zero [1] late). split; [|by split_and!].
  apply reach_run. apply (rtc_r _ after_exit); [apply reach_run, reach_started|apply SInject].
Qed.
End VcpuDemo.
