(* ===== verification/Virtio.v ===== *)
(** * The virtio-mmio transport

    src/virtio/virtio.c with include/virtio/virtio.h and mmio.h: the module-global
    registry of devices, the per-device selector registers, and the register
    block.  Devices and VMs are shared objects, so they live in a store keyed by
    pointer; the registry arrays have RELM_VIRTIO_MMIO_MAX_DEVICES slots and a live
    count.  The device callbacks ([struct relm_virtio_device_ops]) belong to the
    device implementations: they are the argument [optab], functions of the device
    that may change it. *)
From S2P Require Import Prelude VmMem.

Definition VIRTIO_MMIO_VALUE : Z := 0x74726976.
Definition VIRTIO_MMIO_VERSION_MODERN : Z := 2.
Definition RELM_VIRTIO_VENDOR_ID : Z := 0x52454C4D.
Definition VIRTIO_CONFIG_S_DRIVER_OK : Z := 4.
Definition VIRTIO_CONFIG_S_FAILED : Z := 0x80.
Definition RELM_VIRTIO_MAX_QUEUES : nat := 8.
Definition RELM_VIRTIO_MMIO_MAX_DEVICES : nat := 4.
Definition RELM_VIRTIO_MMIO_REGION_SIZE : Z := 0x1000.

Definition VIRTIO_MMIO_MAGIC_VALUE_OFF : Z := 0x000.
Definition VIRTIO_MMIO_VERSION_OFF : Z := 0x004.
Definition VIRTIO_MMIO_DEVICE_ID_OFF : Z := 0x008.
Definition VIRTIO_MMIO_VENDOR_ID_OFF : Z := 0x00c.
Definition VIRTIO_MMIO_DEVICE_FEATURES_OFF : Z := 0x010.
Definition VIRTIO_MMIO_DEVICE_FEATURES_SEL_OFF : Z := 0x014.
Definition VIRTIO_MMIO_DRIVER_FEATURES_OFF : Z := 0x020.
Definition VIRTIO_MMIO_DRIVER_FEATURES_SEL_OFF : Z := 0x024.
Definition VIRTIO_MMIO_QUEUE_SEL_OFF : Z := 0x030.
Definition VIRTIO_MMIO_QUEUE_NUM_MAX_OFF : Z := 0x034.
Definition VIRTIO_MMIO_QUEUE_NUM_OFF : Z := 0x038.
Definition VIRTIO_MMIO_QUEUE_READY_OFF : Z := 0x044.
Definition VIRTIO_MMIO_QUEUE_NOTIFY_OFF : Z := 0x050.
Definition VIRTIO_MMIO_INTERRUPT_STATUS_OFF : Z := 0x060.
Definition VIRTIO_MMIO_INTERRUPT_ACK_OFF : Z := 0x064.
Definition VIRTIO_MMIO_STATUS_OFF : Z := 0x070.
Definition VIRTIO_MMIO_QUEUE_DESC_LOW_OFF : Z := 0x080.
Definition VIRTIO_MMIO_QUEUE_DESC_HIGH_OFF : Z := 0x084.
Definition VIRTIO_MMIO_QUEUE_DRIVER_LOW_OFF : Z := 0x090.
Definition VIRTIO_MMIO_QUEUE_DRIVER_HIGH_OFF : Z := 0x094.
Definition VIRTIO_MMIO_QUEUE_DEVICE_LOW_OFF : Z := 0x0a0.
Definition VIRTIO_MMIO_QUEUE_DEVICE_HIGH_OFF : Z := 0x0a4.
Definition VIRTIO_MMIO_CONFIG_GENERATION_OFF : Z := 0x0fc.
Definition VIRTIO_MMIO_CONFIG_OFF : Z := 0x100.

Record relm_virtqueue := Virtqueue {
  queue_size : Z; desc_gpa : Z; avail_gpa : Z; used_gpa : Z; last_avail_idx : Z; vq_ready : bool
}.

(** [vm] and [ops] are pointers; [ops = None] is NULL. *)
Record relm_virtio_device := VirtioDevice {
  device_id : Z; mmio_base_gpa : Z; d_irq : Z; d_vm : Z; status : Z; guest_features : Z; isr : Z;
  queues : list relm_virtqueue; queue_count : Z; d_ops : option Z; d_name : string
}.

Record relm_virtio_device_ops := VirtioOps {
  op_device_features : relm_virtio_device -> Z -> Z;
  op_driver_features_ack : relm_virtio_device -> Z -> Z -> relm_virtio_device;
  op_queue_num_max : relm_virtio_device -> Z -> Z;
  op_config_read : relm_virtio_device -> Z -> Z -> Z;
  op_queue_notify : relm_virtio_device -> Z -> Z * relm_virtio_device;
  op_status_changed : option (relm_virtio_device -> Z -> relm_virtio_device)
}.

Record mmio_selector_state := Selectors {
  device_features_sel : Z; driver_features_sel : Z; queue_sel : Z
}.
Definition sel0 : mmio_selector_state := Selectors 0 0 0.

Definition set_placement (d : relm_virtio_device) (base irq : Z) : relm_virtio_device :=
  VirtioDevice (device_id d) base irq (d_vm d) (status d) (guest_features d) (isr d)
    (queues d) (queue_count d) (d_ops d) (d_name d).
Definition set_status (d : relm_virtio_device) (s : Z) : relm_virtio_device :=
  VirtioDevice (device_id d) (mmio_base_gpa d) (d_irq d) (d_vm d) s (guest_features d) (isr d)
    (queues d) (queue_count d) (d_ops d) (d_name d).
Definition set_features (d : relm_virtio_device) (f : Z) : relm_virtio_device :=
  VirtioDevice (device_id d) (mmio_base_gpa d) (d_irq d) (d_vm d) (status d) f (isr d)
    (queues d) (queue_count d) (d_ops d) (d_name d).
Definition set_isr (d : relm_virtio_device) (i : Z) : relm_virtio_device :=
  VirtioDevice (device_id d) (mmio_base_gpa d) (d_irq d) (d_vm d) (status d) (guest_features d) i
    (queues d) (queue_count d) (d_ops d) (d_name d).
Definition set_queues (d : relm_virtio_device) (q : list relm_virtqueue) : relm_virtio_device :=
  VirtioDevice (device_id d) (mmio_base_gpa d) (d_irq d) (d_vm d) (status d) (guest_features d) (isr d)
    q (queue_count d) (d_ops d) (d_name d).

(** [dev->queues[i]] updated by [f]; the guards of the code keep [i] in range. *)
Definition upd_queue (d : relm_virtio_device) (i : Z) (f : relm_virtqueue -> relm_virtqueue)
    : relm_virtio_device := set_queues d (alter f (Z.to_nat i) (queues d)).

Definition set_low (a v : Z) : Z := Z.lor (Z.land a 0xFFFFFFFF00000000) v.
Definition set_high (a v : Z) : Z := Z.lor (Z.land a 0x00000000FFFFFFFF) (u64 (Z.shiftl v 32)).

Definition vq_set_size (s : Z) (q : relm_virtqueue) : relm_virtqueue :=
  Virtqueue s (desc_gpa q) (avail_gpa q) (used_gpa q) (last_avail_idx q) (vq_ready q).
Definition vq_set_ready (b : bool) (q : relm_virtqueue) : relm_virtqueue :=
  Virtqueue (queue_size q) (desc_gpa q) (avail_gpa q) (used_gpa q) (last_avail_idx q) b.
Definition vq_set_desc (a : Z -> Z) (q : relm_virtqueue) : relm_virtqueue :=
  Virtqueue (queue_size q) (a (desc_gpa q)) (avail_gpa q) (used_gpa q) (last_avail_idx q) (vq_ready q).
Definition vq_set_avail (a : Z -> Z) (q : relm_virtqueue) : relm_virtqueue :=
  Virtqueue (queue_size q) (desc_gpa q) (a (avail_gpa q)) (used_gpa q) (last_avail_idx q) (vq_ready q).
Definition vq_set_used (a : Z -> Z) (q : relm_virtqueue) : relm_virtqueue :=
  Virtqueue (queue_size q) (desc_gpa q) (avail_gpa q) (a (used_gpa q)) (last_avail_idx q) (vq_ready q).
Definition vq_reset (q : relm_virtqueue) : relm_virtqueue := Virtqueue (queue_size q) 0 0 0 0 false.
Definition rings_set (q : relm_virtqueue) : bool :=
  negb (desc_gpa q =? 0) && negb (avail_gpa q =? 0) && negb (used_gpa q =? 0).

(** [for (qi = 0; qi < dev->queue_count; qi++)] over the queue array. *)
Definition upd_all_queues (d : relm_virtio_device) (f : relm_virtqueue -> relm_virtqueue)
    : relm_virtio_device :=
  set_queues d (imap (fun i q => if Z.of_nat i <? queue_count d then f q else q) (queues d)).

Section Virtio.
Context (optab : Z -> relm_virtio_device_ops).

Definition ops_of (d : relm_virtio_device) : relm_virtio_device_ops := optab (default 0 (d_ops d)).

(** The register block of one device: new selectors, device, [*value] and
    [*needs_irq]. *)
Definition register_access (sel : mmio_selector_state) (d : relm_virtio_device)
    (offset : Z) (is_write : bool) (value : Z) (needs_irq : bool)
    : mmio_selector_state * relm_virtio_device * Z * bool :=
  let ops := ops_of d in
  let queue_ok := queue_sel sel <? queue_count d in
  if VIRTIO_MMIO_CONFIG_OFF <=? offset then
    if is_write then (sel, d, value, needs_irq)
    else (sel, d, op_config_read ops d (offset - VIRTIO_MMIO_CONFIG_OFF) 4, needs_irq)
  else if offset =? VIRTIO_MMIO_MAGIC_VALUE_OFF then
    (sel, d, (if is_write then value else VIRTIO_MMIO_VALUE), needs_irq)
  else if offset =? VIRTIO_MMIO_VERSION_OFF then
    (sel, d, (if is_write then value else VIRTIO_MMIO_VERSION_MODERN), needs_irq)
  else if offset =? VIRTIO_MMIO_DEVICE_ID_OFF then
    (sel, d, (if is_write then value else device_id d), needs_irq)
  else if offset =? VIRTIO_MMIO_VENDOR_ID_OFF then
    (sel, d, (if is_write then value else RELM_VIRTIO_VENDOR_ID), needs_irq)
  else if offset =? VIRTIO_MMIO_DEVICE_FEATURES_OFF then
    (sel, d, (if is_write then value else op_device_features ops d (device_features_sel sel)), needs_irq)
  else if offset =? VIRTIO_MMIO_DEVICE_FEATURES_SEL_OFF then
    if is_write
    then (Selectors value (driver_features_sel sel) (queue_sel sel), d, value, needs_irq)
    else (sel, d, value, needs_irq)
  else if offset =? VIRTIO_MMIO_DRIVER_FEATURES_OFF then
    if is_write then
      let d := op_driver_features_ack ops d (driver_features_sel sel) value in
      let d := if driver_features_sel sel =? 0 then set_features d value else d in
      (sel, d, value, needs_irq)
    else (sel, d, value, needs_irq)
  else if offset =? VIRTIO_MMIO_DRIVER_FEATURES_SEL_OFF then
    if is_write
    then (Selectors (device_features_sel sel) value (queue_sel sel), d, value, needs_irq)
    else (sel, d, value, needs_irq)
  else if offset =? VIRTIO_MMIO_QUEUE_SEL_OFF then
    if is_write
    then (Selectors (device_features_sel sel) (driver_features_sel sel) value, d, value, needs_irq)
    else (sel, d, value, needs_irq)
  else if offset =? VIRTIO_MMIO_QUEUE_NUM_MAX_OFF then
    (sel, d, (if is_write then value else u16 (op_queue_num_max ops d (queue_sel sel))), needs_irq)
  else if offset =? VIRTIO_MMIO_QUEUE_NUM_OFF then
    if is_write then
      let max := u16 (op_queue_num_max ops d (queue_sel sel)) in
      if negb (value =? max) then (sel, d, value, needs_irq)
      else if queue_ok then
        (sel, upd_queue d (queue_sel sel) (vq_set_size (u16 value)), value, needs_irq)
      else (sel, d, value, needs_irq)
    else (sel, d, value, needs_irq)
  else if offset =? VIRTIO_MMIO_QUEUE_READY_OFF then
    if negb queue_ok then (sel, d, (if is_write then value else 0), needs_irq)
    else
      let vq := default (Virtqueue 0 0 0 0 0 false) (queues d !! Z.to_nat (queue_sel sel)) in
      if is_write then
        if value =? 0 then
          (sel, upd_queue d (queue_sel sel) (vq_set_ready false), value, needs_irq)
        else if (desc_gpa vq =? 0) || (avail_gpa vq =? 0) || (used_gpa vq =? 0) then
          (sel, d, value, needs_irq)
        else
          (sel, upd_queue d (queue_sel sel)
                  (vq_set_ready (flag (status d) VIRTIO_CONFIG_S_DRIVER_OK)), value, needs_irq)
      else (sel, d, (if vq_ready vq then 1 else 0), needs_irq)
  else if offset =? VIRTIO_MMIO_QUEUE_NOTIFY_OFF then
    if is_write then
      let '(processed, d) := op_queue_notify ops d value in
      if processed <? 0 then (sel, d, value, needs_irq)
      else if 0 <? processed then (sel, set_isr d (Z.lor (isr d) 1), value, true)
      else (sel, d, value, needs_irq)
    else (sel, d, 0, needs_irq)
  else if offset =? VIRTIO_MMIO_INTERRUPT_STATUS_OFF then
    (sel, d, (if is_write then value else isr d), needs_irq)
  else if offset =? VIRTIO_MMIO_INTERRUPT_ACK_OFF then
    if is_write
    then (sel, set_isr d (Z.land (isr d) (Z.lnot (u8 value))), value, needs_irq)
    else (sel, d, value, needs_irq)
  else if offset =? VIRTIO_MMIO_STATUS_OFF then
    if is_write then
      let d := set_status d (u8 value) in
      let d := if (value =? 0) || flag value VIRTIO_CONFIG_S_FAILED then upd_all_queues d vq_reset
               else if flag value VIRTIO_CONFIG_S_DRIVER_OK
               then upd_all_queues d (fun q => vq_set_ready (rings_set q) q)
               else d in
      let d := match op_status_changed ops with
               | Some f => f d (u8 value)
               | None => d
               end in
      (sel, d, value, needs_irq)
    else (sel, d, status d, needs_irq)
  else if offset =? VIRTIO_MMIO_QUEUE_DESC_LOW_OFF then
    (sel, (if is_write && queue_ok then upd_queue d (queue_sel sel) (vq_set_desc (fun a => set_low a value))
           else d), value, needs_irq)
  else if offset =? VIRTIO_MMIO_QUEUE_DESC_HIGH_OFF then
    (sel, (if is_write && queue_ok then upd_queue d (queue_sel sel) (vq_set_desc (fun a => set_high a value))
           else d), value, needs_irq)
  else if offset =? VIRTIO_MMIO_QUEUE_DRIVER_LOW_OFF then
    (sel, (if is_write && queue_ok then upd_queue d (queue_sel sel) (vq_set_avail (fun a => set_low a value))
           else d), value, needs_irq)
  else if offset =? VIRTIO_MMIO_QUEUE_DRIVER_HIGH_OFF then
    (sel, (if is_write && queue_ok then upd_queue d (queue_sel sel) (vq_set_avail (fun a => set_high a value))
           else d), value, needs_irq)
  else if offset =? VIRTIO_MMIO_QUEUE_DEVICE_LOW_OFF then
    (sel, (if is_write && queue_ok then upd_queue d (queue_sel sel) (vq_set_used (fun a => set_low a value))
           else d), value, needs_irq)
  else if offset =? VIRTIO_MMIO_QUEUE_DEVICE_HIGH_OFF then
    (sel, (if is_write && queue_ok then upd_queue d (queue_sel sel) (vq_set_used (fun a => set_high a value))
           else d), value, needs_irq)
  else if offset =? VIRTIO_MMIO_CONFIG_GENERATION_OFF then
    (sel, d, (if is_write then value else 0), needs_irq)
  else (sel, d, (if is_write then value else 0), needs_irq).

(** ** The module-global state *)
Record vstate := VState {
  vs_devs : gmap Z relm_virtio_device;       (** device pointer -> device *)
  vs_vms : gmap Z relm_vm_memory;            (** VM pointer -> its memory *)
  g_registered_devices : list Z;             (** the array *)
  g_registered_count : nat;
  g_selector_state : list mmio_selector_state;
  sel_dummy : mmio_selector_state
}.

Definition registered (s : vstate) : list Z := take (g_registered_count s) (g_registered_devices s).

Definition dev0 : relm_virtio_device := VirtioDevice 0 0 0 0 0 0 0 [] 0 None "".
Definition the_dev (s : vstate) (p : Z) : relm_virtio_device := default dev0 (vs_devs s !! p).

(** [dev] is a pointer; 0 is NULL. *)
Definition relm_virtio_mmio_register_device (s : vstate) (dev base_gpa irq : Z) : Z * vstate :=
  if dev =? 0 then (- EINVAL, s)
  else
    let d := the_dev s dev in
    match d_ops d with
    | None => (- EINVAL, s)
    | Some _ =>
        if (RELM_VIRTIO_MMIO_MAX_DEVICES <=? g_registered_count s)%nat then (- ENOSPC, s)
        else
          match vs_vms s !! d_vm d with
          | None => (- EINVAL, s)
          | Some m =>
              let '(ret, m) := relm_vm_reserve_mmio_region m base_gpa RELM_VIRTIO_MMIO_REGION_SIZE
                                 (Some (d_name d)) in
              if negb (ret =? 0) then (ret, s)
              else (0, VState (<[dev := set_placement d base_gpa irq]> (vs_devs s))
                              (<[d_vm d := m]> (vs_vms s))
                              (<[g_registered_count s := dev]> (g_registered_devices s))
                              (S (g_registered_count s)) (g_selector_state s) (sel_dummy s))
          end
    end.

(** Only the device array is shifted down. *)
Definition relm_virtio_mmio_unregister_device (s : vstate) (dev : Z) : vstate :=
  if dev =? 0 then s
  else
    match find_index (fun p => p =? dev) (registered s) with
    | None => s
    | Some i =>
        let d := the_dev s dev in
        VState (vs_devs s)
               (alter (fun m => relm_vm_release_mmio_region m (mmio_base_gpa d)) (d_vm d) (vs_vms s))
               (shift_down (g_registered_devices s) i (g_registered_count s))
               (g_registered_count s - 1) (g_selector_state s) (sel_dummy s)
    end.

Definition owns_gpa (s : vstate) (vm fault_gpa p : Z) : bool :=
  let d := the_dev s p in
  let end_ := u64 (mmio_base_gpa d + RELM_VIRTIO_MMIO_REGION_SIZE) in
  (d_vm d =? vm) && (mmio_base_gpa d <=? fault_gpa) && (fault_gpa <? end_).

Definition relm_virtio_find_device_for_gpa (s : vstate) (vm fault_gpa : Z) : option Z :=
  List.find (owns_gpa s vm fault_gpa) (registered s).

(** The slot of the selector state; [None] is the scratch state. *)
Definition selector_state_for (s : vstate) (dev : Z) : option nat :=
  find_index (fun p => p =? dev) (registered s).

Definition relm_virtio_mmio_register_access_locked (s : vstate) (dev offset : Z) (is_write : bool)
    (value : Z) (needs_irq : bool) : vstate * Z * bool :=
  match selector_state_for s dev with
  | Some i =>
      let '(sel, d, v, irq) := register_access (default sel0 (g_selector_state s !! i)) (the_dev s dev)
                                 offset is_write value needs_irq in
      (VState (<[dev := d]> (vs_devs s)) (vs_vms s) (g_registered_devices s) (g_registered_count s)
              (<[i := sel]> (g_selector_state s)) (sel_dummy s), v, irq)
  | None =>
      let '(sel, d, v, irq) := register_access (sel_dummy s) (the_dev s dev) offset is_write value needs_irq in
      (VState (<[dev := d]> (vs_devs s)) (vs_vms s) (g_registered_devices s) (g_registered_count s)
              (g_selector_state s) sel, v, irq)
  end.

(** The lock around it is not represented. *)
Definition relm_virtio_mmio_register_access (s : vstate) (dev offset : Z) (is_write : bool)
    (value : Z) (need_irq : bool) : vstate * Z * bool :=
  relm_virtio_mmio_register_access_locked s dev offset is_write value need_irq.

End Virtio.

(** ** The registry *)

Definition in_window (s : vstate) (p vm gpa : Z) : Prop :=
  d_vm (the_dev s p) = vm /\
  mmio_base_gpa (the_dev s p) <= gpa < mmio_base_gpa (the_dev s p) + RELM_VIRTIO_MMIO_REGION_SIZE.

(** Every registered device has its own live window in its VM's registry. *)
Record reg_wf (s : vstate) : Prop := RegWf {
  rw_len : length (g_registered_devices s) = RELM_VIRTIO_MMIO_MAX_DEVICES;
  rw_sel : length (g_selector_state s) = RELM_VIRTIO_MMIO_MAX_DEVICES;
  rw_count : (g_registered_count s <= RELM_VIRTIO_MMIO_MAX_DEVICES)%nat;
  rw_nodup : NoDup (registered s);
  rw_vms vm m : vs_vms s !! vm = Some m -> mmio_wf m;
  rw_dev p : p ∈ registered s -> exists m r, vs_vms s !! d_vm (the_dev s p) = Some m /\
    r ∈ live_regions m /\ mr_gpa_start r = mmio_base_gpa (the_dev s p) /\
    mr_size r = RELM_VIRTIO_MMIO_REGION_SIZE;
  rw_base p q : p ∈ registered s -> q ∈ registered s -> p <> q ->
    d_vm (the_dev s p) = d_vm (the_dev s q) ->
    mmio_base_gpa (the_dev s p) <> mmio_base_gpa (the_dev s q)
}.

Lemma dev_region s p : reg_wf s -> p ∈ registered s ->
  0 <= mmio_base_gpa (the_dev s p) /\ mmio_base_gpa (the_dev s p) + RELM_VIRTIO_MMIO_REGION_SIZE < 2 ^ 64.
Proof.
  intros W Hp. destruct (rw_dev _ W _ Hp) as (m & r & Hm & Hr & <- & <-).
  pose proof (proj1 (Forall_forall _ _) (mw_ok _ (rw_vms _ W _ _ Hm)) _ Hr) as (? & ? & ? & _). lia.
Qed.

Lemma owns_spec s p vm gpa : reg_wf s -> p ∈ registered s ->
  owns_gpa s vm gpa p = true <-> in_window s p vm gpa.
Proof.
  intros W Hp. pose proof (dev_region s p W Hp). unfold owns_gpa, in_window.
  rewrite u64_small by (unfold RELM_VIRTIO_MMIO_REGION_SIZE in *; lia).
  rewrite !andb_true_iff, Z.eqb_eq, Z.leb_le, Z.ltb_lt. tauto.
Qed.

Lemma window_unique s p q vm gpa : reg_wf s -> p ∈ registered s -> q ∈ registered s ->
  in_window s p vm gpa -> in_window s q vm gpa -> p = q.
Proof.
  intros W Hp Hq [Vp Gp] [Vq Gq]. destruct (decide (p = q)) as [|Hne]; [done|exfalso].
  destruct (rw_dev _ W _ Hp) as (m & r & Hm & Hr & Er & Sr).
  destruct (rw_dev _ W _ Hq) as (m' & r' & Hm' & Hr' & Er' & Sr').
  assert (m' = m) as -> by congruence. pose proof (rw_vms _ W _ _ Hm) as Wm.
  pose proof (rw_base _ W _ _ Hp Hq Hne ltac:(congruence)) as Nb.
  apply list_elem_of_lookup in Hr as [i Hi], Hr' as [j Hj].
  assert (i <> j) as Hij by (intros ->; congruence).
  pose proof (mw_disj _ Wm _ _ _ _ Hi Hj Hij) as D. unfold disjoint_ranges in D. lia.
Qed.

Lemma find_device_iff s vm gpa p : reg_wf s ->
  relm_virtio_find_device_for_gpa s vm gpa = Some p <-> p ∈ registered s /\ in_window s p vm gpa.
Proof.
  intros W. unfold relm_virtio_find_device_for_gpa. split.
  - intros [Hp%list_elem_of_In E]%find_some. split; [done|]. by apply owns_spec.
  - intros [Hp Wp]. destruct (List.find _ _) as [q|] eqn:E.
    + apply find_some in E as [Hq%list_elem_of_In E]. apply owns_spec in E; [|done..].
      f_equal. by eapply window_unique.
    + pose proof (find_none _ _ E p (proj1 (list_elem_of_In _ _) Hp)) as N.
      by rewrite (proj2 (owns_spec _ _ _ _ W Hp) Wp) in N.
Qed.

(** Looking up the device of a faulting address: the lookup finds a device
    exactly when one registered for that VM has a window holding the address, and
    then it is the only one; a device of another VM is never found, even when the
    guests' memory maps coincide. *)
Theorem find_device_correct (s : vstate) (vm gpa : Z) :
  reg_wf s ->
  match relm_virtio_find_device_for_gpa s vm gpa with
  | Some p => p ∈ registered s /\ in_window s p vm gpa /\
              forall q, q ∈ registered s -> in_window s q vm gpa -> q = p
  | None => forall q, q ∈ registered s -> ~ in_window s q vm gpa
  end.
Proof.
  intros W. destruct (relm_virtio_find_device_for_gpa s vm gpa) as [p|] eqn:E.
  - apply find_device_iff in E as [Hp Wp]; [|done]. split_and!; try apply Wp; try done.
    intros q Hq Wq. by eapply window_unique.
  - intros q Hq Wq. assert (relm_virtio_find_device_for_gpa s vm gpa = Some q) by (by apply find_device_iff).
    congruence.
Qed.

(** A registration that succeeds: [dev] is appended with its window, which is live in its
    VM and disjoint from those of the VM's other devices; the other devices stay. *)
Record reg_step (s s' : vstate) (dev base irq : Z) : Prop := RegStep {
  rs_registered : registered s' = registered s ++ [dev];
  rs_dev : the_dev s' dev = set_placement (the_dev s dev) base irq;
  rs_old p : p ∈ registered s -> the_dev s' p = the_dev s p;
  rs_disjoint p : p ∈ registered s -> d_vm (the_dev s p) = d_vm (the_dev s dev) ->
    mmio_base_gpa (the_dev s p) + RELM_VIRTIO_MMIO_REGION_SIZE <= base \/
    base + RELM_VIRTIO_MMIO_REGION_SIZE <= mmio_base_gpa (the_dev s p);
  rs_lens : length (g_registered_devices s') = length (g_registered_devices s) /\
    g_selector_state s' = g_selector_state s /\ (g_registered_count s' <= RELM_VIRTIO_MMIO_MAX_DEVICES)%nat;
  rs_vms : exists m m' nm, vs_vms s !! d_vm (the_dev s dev) = Some m /\ mmio_wf m' /\
    vs_vms s' = <[d_vm (the_dev s dev) := m']> (vs_vms s) /\
    live_regions m' = live_regions m ++ [MmioRegion base RELM_VIRTIO_MMIO_REGION_SIZE nm]
}.

Lemma register_step s s' dev base irq r : reg_wf s -> dev ∉ registered s -> 0 <= base ->
  base + RELM_VIRTIO_MMIO_REGION_SIZE < 2 ^ 64 -> relm_virtio_mmio_register_device s dev base irq = (r, s') ->
  r <> 0 /\ s' = s \/ r = 0 /\ reg_step s s' dev base irq.
Proof.
  intros W Hd Hb Hb'. unfold relm_virtio_mmio_register_device.
  destruct (Z.eqb_spec dev 0); [intros [= <- <-]; by left|].
  destruct (d_ops _); [|intros [= <- <-]; by left].
  destruct (Nat.leb_spec RELM_VIRTIO_MMIO_MAX_DEVICES (g_registered_count s)) as [|Hc]; [intros [= <- <-]; by left|].
  set (d := the_dev s dev). destruct (vs_vms s !! d_vm d) as [m|] eqn:Hm; [|intros [= <- <-]; by left].
  destruct (relm_vm_reserve_mmio_region m base _ _) as [ret m'] eqn:Er.
  destruct (Z.eqb_spec ret 0) as [-> |Hr]; cbn [negb]; intros [= <- <-]; [right; split; [done|]|by left].
  pose proof (rw_vms _ W _ _ Hm) as Wm.
  destruct (reserve_inv _ _ _ _ _ Wm Er) as (nm & _ & _ & _ & _ & El & _ & _ & _ & _ & _ & _ & Nov). split.
  - unfold registered; simpl. apply take_insert_end. rewrite (rw_len _ W). done.
  - unfold the_dev; simpl. by rewrite lookup_insert_eq.
  - intros p Hp. unfold the_dev; simpl. rewrite lookup_insert_ne; [done|]. by intros ->.
  - intros p Hp Hv. destruct (rw_dev _ W _ Hp) as (m2 & r & Hm2 & Hrr & Es & Ez).
    fold d in Hv. assert (m2 = m) as -> by congruence. specialize (Nov _ Hrr).
    pose proof (proj1 (Forall_forall _ _) (mw_ok _ Wm) _ Hrr) as (? & ? & ? & _).
    apply range_overlap_false in Nov; [|first [done|lia]..]. unfold disjoint_ranges in Nov. lia.
  - simpl. rewrite length_insert. split_and!; [done|done|lia].
  - exists m, m', (strscpy 32 nm). split_and!; [done|by eapply reserve_wf; [exact Wm|exact Hb| |exact Hb'|exact Er]|done|done].
Qed.

Lemma reg_step_wf s s' dev base irq : reg_wf s -> dev ∉ registered s -> reg_step s s' dev base irq -> reg_wf s'.
Proof.
  intros W Hd [Ereg Edev Eold Dis (L1 & L2 & L3) (m & m' & nm & Hm & Wm' & Evm & El)]. split.
  - rewrite L1. apply W.
  - rewrite L2. apply W.
  - exact L3.
  - rewrite Ereg. apply NoDup_app. split_and!; [apply W| |by apply NoDup_singleton].
    intros x Hx ->%list_elem_of_singleton. done.
  - intros vm m2. rewrite Evm, lookup_insert. case_decide; [by intros [= <-]|]. apply W.
  - intros p. rewrite Ereg, elem_of_app, list_elem_of_singleton, Evm. intros [Hp| ->].
    + rewrite Eold by done. destruct (rw_dev _ W _ Hp) as (m2 & r & Hm2 & Hrr & Es & Ez).
      destruct (decide (d_vm (the_dev s p) = d_vm (the_dev s dev))) as [Hv|Hv].
      * exists m', r. rewrite Hv, lookup_insert_eq, El. assert (m2 = m) as -> by congruence. split_and!; try done. set_solver.
      * exists m2, r. by rewrite lookup_insert_ne.
    + rewrite Edev; simpl. exists m', (MmioRegion base RELM_VIRTIO_MMIO_REGION_SIZE nm).
      rewrite lookup_insert_eq, El. split_and!; try done. set_solver.
  - intros p q. rewrite Ereg, !elem_of_app, !list_elem_of_singleton.
    intros [Hp| ->] [Hq| ->] Hne; rewrite ?Edev, ?(Eold p), ?(Eold q) by done; simpl; [by apply W| | |done].
    + intros Hv. destruct (Dis _ Hp Hv); unfold RELM_VIRTIO_MMIO_REGION_SIZE in *; lia.
    + intros Hv. destruct (Dis _ Hq (eq_sym Hv)); unfold RELM_VIRTIO_MMIO_REGION_SIZE in *; lia.
Qed.


Lemma unregister_list s dev i : reg_wf s ->
  find_index (fun p => p =? dev) (registered s) = Some i ->
  forall p, p ∈ registered (relm_virtio_mmio_unregister_device s dev) <->
    (p ∈ registered s /\ (dev <> 0 -> p <> dev)).
Proof.
  intros W F p. unfold relm_virtio_mmio_unregister_device.
  destruct (Z.eqb_spec dev 0) as [->|Hz]; [naive_solver|]. rewrite F. unfold registered at 1; simpl.
  pose proof (find_index_Some _ _ _ F) as (x & Hx & Px%Z.eqb_eq & _). subst x.
  pose proof (lookup_lt_Some _ _ _ Hx) as Hi. unfold registered in Hi. rewrite length_take in Hi.
  rewrite shift_down_take by (rewrite ?(rw_len _ W); lia || apply W).
  rewrite elem_of_delete. split.
  - intros (j & Hj & Hp). split; [by eapply list_elem_of_lookup_2|]. intros _ ->.
    by apply Hj, (NoDup_lookup _ _ _ _ (rw_nodup _ W) Hp Hx).
  - intros [[j Hj]%list_elem_of_lookup Hne]. exists j. split; [|done]. intros ->. naive_solver.
Qed.

(** Unregistering a device keeps the registry valid and forgets exactly that
    device: no address leads to it any more, every other lookup is unchanged, and
    its MMIO window is free again. *)
Theorem unregister_device_correct (s : vstate) (dev : Z) :
  reg_wf s -> dev <> 0 ->
  let s' := relm_virtio_mmio_unregister_device s dev in
  reg_wf s' /\
  (forall vm gpa, relm_virtio_find_device_for_gpa s' vm gpa =
     match relm_virtio_find_device_for_gpa s vm gpa with
     | Some p => if decide (p = dev) then None else Some p
     | None => None
     end) /\
  (dev ∈ registered s -> forall m r, vs_vms s' !! d_vm (the_dev s dev) = Some m ->
     r ∈ live_regions m -> mr_gpa_start r <> mmio_base_gpa (the_dev s dev)).
Proof.
  intros W Hz s'.
  destruct (find_index (fun p => p =? dev) (registered s)) as [i|] eqn:F.
  2:{ pose proof (find_index_None _ _ F) as N.
      assert (s' = s) as -> by (unfold s', relm_virtio_mmio_unregister_device;
        destruct (Z.eqb_spec dev 0); [done|]; by rewrite F).
      split_and!; [done| |intros Hd; apply N in Hd; by rewrite Z.eqb_refl in Hd].
      intros vm gpa. destruct (relm_virtio_find_device_for_gpa s vm gpa) as [p|] eqn:E; [|done].
      apply find_device_iff in E as [Hp _]; [|done]. case_decide; [|done]. subst.
      apply N in Hp. by rewrite Z.eqb_refl in Hp. }
  pose proof (unregister_list s dev i W F) as El. fold s' in El.
  assert (s' = VState (vs_devs s)
    (alter (fun m => relm_vm_release_mmio_region m (mmio_base_gpa (the_dev s dev))) (d_vm (the_dev s dev)) (vs_vms s))
    (shift_down (g_registered_devices s) i (g_registered_count s))
    (g_registered_count s - 1) (g_selector_state s) (sel_dummy s)) as Es.
  { unfold s', relm_virtio_mmio_unregister_device. destruct (Z.eqb_spec dev 0); [done|]. by rewrite F. }
  assert (forall p, the_dev s' p = the_dev s p) as Ed by (rewrite Es; done).
  assert (dev ∈ registered s) as Hd.
  { apply find_index_Some in F as (x & Hx & ->%Z.eqb_eq & _). by eapply list_elem_of_lookup_2. }
  assert (reg_wf s') as W'.
  { split.
    - rewrite Es; simpl. rewrite shift_down_length. apply W.
    - rewrite Es; simpl. apply W.
    - rewrite Es; simpl. pose proof (rw_count _ W). lia.
    - rewrite Es. unfold registered; simpl.
      pose proof (find_index_Some _ _ _ F) as (x & Hx & _).
      pose proof (lookup_lt_Some _ _ _ Hx) as Hi. unfold registered in Hi. rewrite length_take in Hi.
      rewrite shift_down_take by (rewrite ?(rw_len _ W); lia || apply W).
      eapply sublist_NoDup; [apply W|apply sublist_delete].
    - intros vm m. rewrite Es; simpl. rewrite lookup_alter. case_decide; [|apply W].
      destruct (vs_vms s !! vm) as [m0|] eqn:Hm; simpl; subst; rewrite Hm; [|done].
      intros [= <-]. eapply release_wf, W, Hm.
    - intros p [Hp Hne]%El. rewrite Ed. destruct (rw_dev _ W _ Hp) as (m & r & Hm & Hr & Eb & Ez).
      rewrite Es; simpl. rewrite lookup_alter. case_decide as D.
      + rewrite <- D in Hm. eexists _, r. rewrite D in Hm. rewrite <- D in *. rewrite Hm. split; [done|].
        split_and!; [|done|done]. apply release_elem; [by eapply W|]. split; [done|]. rewrite Eb.
        apply (rw_base _ W); try done; auto.
      + by exists m, r.
    - intros p q [Hp _]%El [Hq _]%El. rewrite !Ed. by apply W. }
  split_and!; [done| |].
  - intros vm gpa. assert (forall p, relm_virtio_find_device_for_gpa s' vm gpa = Some p <->
      relm_virtio_find_device_for_gpa s vm gpa = Some p /\ p <> dev) as Eq.
    { intros p. rewrite !find_device_iff by done. unfold in_window. rewrite Ed, El. naive_solver. }
    destruct (relm_virtio_find_device_for_gpa s vm gpa) as [p|] eqn:E.
    + destruct (relm_virtio_find_device_for_gpa s' vm gpa) as [q|] eqn:E'.
      * destruct (proj1 (Eq q) eq_refl) as [[= ->] Hq]. by rewrite decide_False.
      * case_decide; [done|]. by destruct (proj2 (Eq p) (conj eq_refl ltac:(done))).
    + destruct (relm_virtio_find_device_for_gpa s' vm gpa) as [q|]; [|done].
      by destruct (proj1 (Eq q) eq_refl).
  - intros _ m r. rewrite Es; simpl. rewrite lookup_alter, decide_True by done.
    destruct (vs_vms s !! _) as [m0|] eqn:Hm; simpl; [|done]. intros [= <-].
    rewrite release_elem by (by eapply W). by intros [_ ?].
Qed.

(** ** The register block *)

(** What the transport relies on: the callbacks leave the queue configuration and
    the status register, which the transport owns, alone. *)
Definition ops_frame (optab : Z -> relm_virtio_device_ops) : Prop :=
  (forall o d a b, queues (op_driver_features_ack (optab o) d a b) = queues d /\
                   status (op_driver_features_ack (optab o) d a b) = status d) /\
  (forall o d a, queues (snd (op_queue_notify (optab o) d a)) = queues d /\
                 status (snd (op_queue_notify (optab o) d a)) = status d) /\
  (forall o d a f, op_status_changed (optab o) = Some f ->
                   queues (f d a) = queues d /\ status (f d a) = status d).

Lemma upd_queue_lookup d i f j : queues (upd_queue d i f) !! j =
  if decide (Z.to_nat i = j) then f <$> queues d !! j else queues d !! j.
Proof.
  unfold upd_queue, set_queues; simpl. case_decide as E.
  - subst. apply list_lookup_alter_eq.
  - by apply list_lookup_alter_ne.
Qed.

Lemma upd_all_lookup d f j : queues (upd_all_queues d f) !! j =
  (fun q => if Z.of_nat j <? queue_count d then f q else q) <$> queues d !! j.
Proof. unfold upd_all_queues, set_queues; simpl. by rewrite list_lookup_imap. Qed.

Lemma flag_u8 v m : Z.land 0xFF m = m -> flag (u8 v) m = flag v m.
Proof.
  intros Hm. unfold flag, u8. do 2 f_equal.
  rewrite <- (land_ones_mod v 8) by lia. change (2 ^ 8 - 1) with 0xFF. by rewrite <- Z.land_assoc, Hm.
Qed.

Section Registers.
Context (optab : Z -> relm_virtio_device_ops).

(** What the three writes that can make queue [i] ready leave behind. *)
Definition ready_sound (d d' : relm_virtio_device) : Prop := forall i q q',
  queues d !! i = Some q -> vq_ready q = false ->
  queues d' !! i = Some q' -> vq_ready q' = true ->
  rings_set q' = true /\ flag (status d') VIRTIO_CONFIG_S_DRIVER_OK = true.

Lemma ready_same d d' : queues d' = queues d -> ready_sound d d'.
Proof. intros E i q q' Hq Rq. rewrite E, Hq. intros [= <-]. congruence. Qed.

Lemma ready_upd d i f : (forall q, vq_ready (f q) = true -> vq_ready q = true) ->
  ready_sound d (upd_queue d i f).
Proof.
  intros Hf j q q' Hq Rq. rewrite upd_queue_lookup, Hq. case_decide; simpl; intros [= <-]; [|congruence].
  intros Rf%Hf. congruence.
Qed.

Lemma ready_frame d d1 d2 : ready_sound d d1 -> queues d2 = queues d1 -> status d2 = status d1 ->
  ready_sound d d2.
Proof. intros S Eq Es i q q' Hq Rq. rewrite Eq, Es. by eapply S. Qed.

Lemma ready_status d v : ready_sound d
  (if (v =? 0) || flag v VIRTIO_CONFIG_S_FAILED then upd_all_queues (set_status d (u8 v)) vq_reset
   else if flag v VIRTIO_CONFIG_S_DRIVER_OK
   then upd_all_queues (set_status d (u8 v)) (fun q => vq_set_ready (rings_set q) q)
   else set_status d (u8 v)).
Proof.
  intros i q q' Hq Rq. destruct (_ || _).
  - rewrite upd_all_lookup; simpl. rewrite Hq. simpl. case_match; intros [= <-]; simpl; congruence.
  - destruct (flag v VIRTIO_CONFIG_S_DRIVER_OK) eqn:F; [|simpl; rewrite Hq; intros [= <-]; congruence].
    rewrite upd_all_lookup; simpl. rewrite Hq. simpl.
    case_match; intros [= <-]; simpl; [|congruence]. intros R. split; [done|]. by rewrite flag_u8.
Qed.


Lemma set_low_high a lo hi : 0 <= a < 2 ^ 64 -> 0 <= lo < 2 ^ 32 -> 0 <= hi < 2 ^ 32 ->
  set_high (set_low a lo) hi = hi * 2 ^ 32 + lo /\ set_low (set_high a hi) lo = hi * 2 ^ 32 + lo.
Proof.
  intros Ha Hlo Hhi. unfold set_low, set_high.
  rewrite u64_small by (rewrite Z.shiftl_mul_pow2 by lia; zpow; lia).
  assert (Z.land lo 0x00000000FFFFFFFF = lo) as L1.
  { change 0x00000000FFFFFFFF with (2 ^ 32 - 1). rewrite land_ones_mod by lia. by apply Z.mod_small. }
  assert (Z.land (Z.shiftl hi 32) 0xFFFFFFFF00000000 = Z.shiftl hi 32) as L2.
  { change 0xFFFFFFFF00000000 with (Z.shiftl (Z.ones 32) 32).
    rewrite land_field, Z.shiftl_mul_pow2 by lia. zpow. zdm. }
  assert (Z.lor lo (Z.shiftl hi 32) = hi * 2 ^ 32 + lo) as L3.
  { rewrite lor_shiftl; lia. }
  rewrite !Z.land_lor_distr_l, L1, L2, <- !Z.land_assoc.
  change (Z.land 0xFFFFFFFF00000000 0x00000000FFFFFFFF) with 0.
  change (Z.land 0x00000000FFFFFFFF 0xFFFFFFFF00000000) with 0.
  rewrite !Z.land_0_r, !Z.lor_0_l, (Z.lor_comm (Z.shiftl hi 32)). done.
Qed.

(** The three pairs of ring address registers, the field they program and its update. *)
Definition ring_regs : list (Z * Z * (relm_virtqueue -> Z) * ((Z -> Z) -> relm_virtqueue -> relm_virtqueue)) :=
  [(VIRTIO_MMIO_QUEUE_DESC_LOW_OFF, VIRTIO_MMIO_QUEUE_DESC_HIGH_OFF, desc_gpa, vq_set_desc);
   (VIRTIO_MMIO_QUEUE_DRIVER_LOW_OFF, VIRTIO_MMIO_QUEUE_DRIVER_HIGH_OFF, avail_gpa, vq_set_avail);
   (VIRTIO_MMIO_QUEUE_DEVICE_LOW_OFF, VIRTIO_MMIO_QUEUE_DEVICE_HIGH_OFF, used_gpa, vq_set_used)].

Definition write_reg (sel : mmio_selector_state) (d : relm_virtio_device) (offset value : Z)
    : relm_virtio_device := snd (fst (fst (register_access optab sel d offset true value false))).

Lemma write_ring sel d lo_off hi_off ring upd v : (lo_off, hi_off, ring, upd) ∈ ring_regs ->
  queue_sel sel < queue_count d ->
  write_reg sel d lo_off v = upd_queue d (queue_sel sel) (upd (fun a => set_low a v)) /\
  write_reg sel d hi_off v = upd_queue d (queue_sel sel) (upd (fun a => set_high a v)) /\
  forall f q, ring (upd f q) = f (ring q).
Proof.
  intros Hr Hok%Z.ltb_lt. unfold ring_regs in Hr. rewrite !elem_of_cons in Hr.
  destruct Hr as [Hr|[Hr|[Hr|[]%not_elem_of_nil]]]; injection Hr as -> -> -> ->.
  all: unfold write_reg, register_access; cbv zeta; rewrite Hok; split_and!; reflexivity.
Qed.

(** Programming a ring address: for each of the descriptor, driver and device
    ring, writing the low and the high half of an address to the selected queue, in
    either order, leaves exactly that 64-bit address in the queue, and leaves every
    other queue alone. *)
Theorem ring_address_round_trip (sel : mmio_selector_state) (d : relm_virtio_device) (lo_off hi_off : Z)
    (ring : relm_virtqueue -> Z) (upd : (Z -> Z) -> relm_virtqueue -> relm_virtqueue)
    (q : relm_virtqueue) (lo hi : Z) :
  (lo_off, hi_off, ring, upd) ∈ ring_regs -> 0 <= queue_sel sel < queue_count d ->
  queues d !! Z.to_nat (queue_sel sel) = Some q -> 0 <= ring q < 2 ^ 64 ->
  0 <= lo < 2 ^ 32 -> 0 <= hi < 2 ^ 32 ->
  forall d', d' = write_reg sel (write_reg sel d lo_off lo) hi_off hi \/
             d' = write_reg sel (write_reg sel d hi_off hi) lo_off lo ->
  (exists q', queues d' !! Z.to_nat (queue_sel sel) = Some q' /\ ring q' = hi * 2 ^ 32 + lo) /\
  (forall j, j <> Z.to_nat (queue_sel sel) -> queues d' !! j = queues d !! j).
Proof.
  intros Hr [_ Hs] Hq Ha Hlo Hhi d' Hd. pose proof (set_low_high _ lo hi Ha Hlo Hhi) as [L1 L2].
  pose proof (fun d v => write_ring sel d _ _ _ _ v Hr) as Wr.
  destruct (Wr d lo Hs) as (El & _ & Eu), (Wr d hi Hs) as (_ & Eh & _). rewrite El, Eh in Hd.
  destruct Hd as [-> | ->].
  - destruct (Wr (upd_queue d (queue_sel sel) (upd (fun a => set_low a lo))) hi Hs) as (_ & -> & _). split.
    + eexists. rewrite !upd_queue_lookup, !decide_True, Hq by done. split; [reflexivity|]. by rewrite !Eu.
    + intros j Hj. by rewrite !upd_queue_lookup, !decide_False by done.
  - destruct (Wr (upd_queue d (queue_sel sel) (upd (fun a => set_high a hi))) lo Hs) as (-> & _ & _). split.
    + eexists. rewrite !upd_queue_lookup, !decide_True, Hq by done. split; [reflexivity|]. by rewrite !Eu.
    + intros j Hj. by rewrite !upd_queue_lookup, !decide_False by done.
Qed.

(** A reset quiesces the device: writing 0 (or FAILED) to the status register
    leaves every configured queue not ready with no ring address and its read
    position at 0, and the status register holds the written byte. *)
Theorem status_reset_quiesces (sel sel' : mmio_selector_state) (d d' : relm_virtio_device)
    (value value' : Z) (irq irq' : bool) :
  ops_frame optab -> value = 0 \/ flag value VIRTIO_CONFIG_S_FAILED = true ->
  register_access optab sel d VIRTIO_MMIO_STATUS_OFF true value irq = (sel', d', value', irq') ->
  status d' = u8 value /\
  forall i q, Z.of_nat i < queue_count d -> queues d' !! i = Some q ->
    vq_ready q = false /\ desc_gpa q = 0 /\ avail_gpa q = 0 /\ used_gpa q = 0 /\ last_avail_idx q = 0.
Proof.
  intros (_ & _ & Fs) Hv.
  assert ((value =? 0) || flag value VIRTIO_CONFIG_S_FAILED = true) as Hb.
  { apply orb_true_iff. rewrite Z.eqb_eq. done. }
  assert (register_access optab sel d VIRTIO_MMIO_STATUS_OFF true value irq =
    (sel, match op_status_changed (ops_of optab d) with
          | Some f => f (upd_all_queues (set_status d (u8 value)) vq_reset) (u8 value)
          | None => upd_all_queues (set_status d (u8 value)) vq_reset end, value, irq)) as ->.
  { unfold register_access. cbv zeta. rewrite Hb. done. }
  intros [= <- <- <- <-]. set (d1 := upd_all_queues _ _).
  assert (forall i q, Z.of_nat i < queue_count d -> queues d1 !! i = Some q -> exists q0, q = vq_reset q0) as R.
  { intros i q Hi. unfold d1. rewrite upd_all_lookup; simpl. rewrite (proj2 (Z.ltb_lt _ _) Hi).
    destruct (queues d !! i) as [q0|]; simpl; [|done]. intros [= <-]. by exists q0. }
  destruct (op_status_changed _) as [f|] eqn:Ef.
  - destruct (Fs _ d1 (u8 value) _ Ef) as [-> ->]. split; [done|].
    intros i q Hi Hq. by destruct (R i q Hi Hq) as [q0 ->].
  - split; [done|]. intros i q Hi Hq. by destruct (R i q Hi Hq) as [q0 ->].
Qed.
End Registers.

(** ** Concrete instances: two devices of one VM, with inert callbacks *)
Module VirtioDemo.
Definition inert : relm_virtio_device_ops :=
  VirtioOps (fun _ _ => 0) (fun d _ _ => d) (fun _ _ => 256) (fun _ _ _ => 0) (fun d _ => (0, d)) None.
Definition optab0 : Z -> relm_virtio_device_ops := fun _ => inert.

Definition vq0 : relm_virtqueue := Virtqueue 0 0 0 0 0 false.
Definition blk : relm_virtio_device := VirtioDevice 2 0 0 1 0 0 0 [vq0; vq0] 2 (Some 7) "blk".

(** VM 1 with devices 10 and 11, nothing registered. *)
Definition s0 : vstate :=
  VState (<[10 := blk]> (<[11 := blk]> ∅)) {[1 := vm_memory0]} (replicate 4 0) 0 (replicate 4 sel0) sel0.

Lemma s0_wf : reg_wf s0.
Proof.
  split; [done|done|simpl; lia|constructor| | |].
  - intros vm m. unfold s0; cbn [vs_vms]. intros [<- <-]%lookup_singleton_Some. apply mmio_wf_init.
  - by intros p []%not_elem_of_nil.
  - by intros p q []%not_elem_of_nil.
Qed.

Lemma find_device_correct_witness : relm_virtio_find_device_for_gpa s0 1 0xD0000000 = None.
Proof.
  pose proof (find_device_correct s0 1 0xD0000000 s0_wf) as F.
  destruct (relm_virtio_find_device_for_gpa s0 1 0xD0000000) as [p|]; [|reflexivity].
  destruct F as [F _]. by apply not_elem_of_nil in F.
Defined.


Lemma unregister_device_correct_witness :
  relm_virtio_find_device_for_gpa (relm_virtio_mmio_unregister_device s0 10) 1 0xD0000070 = None.
Proof.
  destruct (unregister_device_correct s0 10 s0_wf ltac:(done)) as (_ & F & _). rewrite F. reflexivity.
Defined.

Lemma inert_frame : ops_frame optab0.
Proof. by split_and!; intros. Qed.

(** The guest has programmed the rings of queue 0 and sets DRIVER_OK. *)
Definition sel_q0 : mmio_selector_state := sel0.
Definition prog : relm_virtio_device :=
  set_queues blk [Virtqueue 256 0x1000 0x2000 0x3000 0 false; vq0].


Lemma ring_address_round_trip_witness : exists q,
  queues (write_reg optab0 sel0 (write_reg optab0 sel0 blk VIRTIO_MMIO_QUEUE_DESC_LOW_OFF 0x5000)
    VIRTIO_MMIO_QUEUE_DESC_HIGH_OFF 1) !! 0%nat = Some q /\ desc_gpa q = 0x100005000.
Proof.
  destruct (ring_address_round_trip optab0 sel0 blk VIRTIO_MMIO_QUEUE_DESC_LOW_OFF
    VIRTIO_MMIO_QUEUE_DESC_HIGH_OFF desc_gpa vq_set_desc vq0 0x5000 1) with
    (d' := write_reg optab0 sel0 (write_reg optab0 sel0 blk VIRTIO_MMIO_QUEUE_DESC_LOW_OFF 0x5000)
      VIRTIO_MMIO_QUEUE_DESC_HIGH_OFF 1) as [[q [Eq Er]] _];
    [left|simpl; lia|reflexivity|simpl; lia|lia|lia|by left|].
  exists q. split; [exact Eq|exact Er].
Defined.

Lemma status_reset_quiesces_witness :
  status (write_reg optab0 sel0 prog VIRTIO_MMIO_STATUS_OFF 0) = 0.
Proof.
  destruct (register_access optab0 sel0 prog VIRTIO_MMIO_STATUS_OFF true 0 false) as [[[sel' d'] v'] i'] eqn:E.
  unfold write_reg. rewrite E.
  by destruct (status_reset_quiesces optab0 sel0 sel' prog d' 0 v' false i' inert_frame (or_introl eq_refl) E).
Defined.

(** Ready is not kept true to its description (all ring addresses non-zero and
    DRIVER_OK reached): after a queue became ready, the guest can clear a ring
    address or write a status without DRIVER_OK, and the queue stays ready. *)
Theorem queue_ready_not_invariant : exists (d : relm_virtio_device) (q : relm_virtqueue),
  d = write_reg optab0 sel0 (write_reg optab0 sel0 (write_reg optab0 sel0 prog VIRTIO_MMIO_STATUS_OFF 7)
        VIRTIO_MMIO_QUEUE_DESC_LOW_OFF 0) VIRTIO_MMIO_STATUS_OFF 1 /\
  queues d !! 0%nat = Some q /\ vq_ready q = true /\ desc_gpa q = 0 /\
  flag (status d) VIRTIO_CONFIG_S_DRIVER_OK = false.
Proof. eexists _, _. split; [reflexivity|]. vm_compute. split_and!; reflexivity. Qed.

(** Unregistering a device hands its selector registers to the next one: the
    device array is shifted but the selector array is not.  Two devices are
    registered and the guest selects queue 1 on the second; after the first is
    unregistered, the second is found with queue 0 selected. *)
Theorem unregister_mixes_selectors :
  let '(_, s1) := relm_virtio_mmio_register_device s0 10 0xD0000000 5 in
  let '(_, s2) := relm_virtio_mmio_register_device s1 11 0xD0001000 6 in
  let '(s3, _, _) := relm_virtio_mmio_register_access optab0 s2 11 VIRTIO_MMIO_QUEUE_SEL_OFF true 1 false in
  let s4 := relm_virtio_mmio_unregister_device s3 10 in
  (i ← selector_state_for s3 11; queue_sel <$> g_selector_state s3 !! i) = Some 1 /\
  (i ← selector_state_for s4 11; queue_sel <$> g_selector_state s4 !! i) = Some 0.
Proof. vm_compute. split; reflexivity. Qed.
End VirtioDemo.
