(* ===== verification/E820.v ===== *)
(** * The e820 memory map

    src/firmware/e820.c and include/firmware/e820.h: the map SeaBIOS hands to the
    guest.  Only the RAM total of the VM is read; dumping the map prints only. *)
From S2P Require Import Prelude.

Definition E820_TYPE_RAM : Z := 1.
Definition E820_TYPE_RESERVED : Z := 2.
Definition RELM_E820_CONV_MEM_END : Z := 0x000A0000.
Definition RELM_E820_VGA_RESERVED_BASE : Z := 0x000A0000.
Definition RELM_E820_VGA_RESERVED_END : Z := 0x00100000.
Definition RELM_E820_EXTENDED_BASE : Z := 0x00100000.
Definition RELM_E820_BIOS_ROM_BASE : Z := 0xFFFE0000.
Definition RELM_E820_BIOS_ROM_SIZE : Z := 128 * 1024.
Definition RELM_E820_MAX_ENTRIES : nat := 8.

Record e820_entry := E820Entry { e_addr : Z; e_size : Z; e_type : Z }.

(** [entries] is the array of RELM_E820_MAX_ENTRIES slots. *)
Record relm_e820_map := E820Map { entries : list e820_entry; e820_count : nat }.

(** [memset] of the whole map *)
Definition e820_zero : relm_e820_map := E820Map (replicate RELM_E820_MAX_ENTRIES (E820Entry 0 0 0)) 0.

Definition relm_e820_add (map : relm_e820_map) (addr size type : Z) : Z * relm_e820_map :=
  if (RELM_E820_MAX_ENTRIES <=? e820_count map)%nat then (- ENOSPC, map)
  else (0, E820Map (<[e820_count map := E820Entry addr size type]> (entries map)) (S (e820_count map))).

Definition relm_e820_build (total_ram : Z) (map : relm_e820_map) : Z * relm_e820_map :=
  if total_ram <? 2 * 1024 * 1024 then (- EINVAL, map)
  else
    let map := e820_zero in
    let '(ret, map) := relm_e820_add map 0 RELM_E820_CONV_MEM_END E820_TYPE_RAM in
    if negb (ret =? 0) then (ret, map) else
    let '(ret, map) := relm_e820_add map RELM_E820_VGA_RESERVED_BASE
                         (RELM_E820_VGA_RESERVED_END - RELM_E820_VGA_RESERVED_BASE) E820_TYPE_RESERVED in
    if negb (ret =? 0) then (ret, map) else
    let '(ret, map) := relm_e820_add map RELM_E820_EXTENDED_BASE
                         (u64 (total_ram - RELM_E820_EXTENDED_BASE)) E820_TYPE_RAM in
    if negb (ret =? 0) then (ret, map) else
    let '(ret, map) := relm_e820_add map RELM_E820_BIOS_ROM_BASE RELM_E820_BIOS_ROM_SIZE E820_TYPE_RESERVED in
    if negb (ret =? 0) then (ret, map) else
    (0, map).

Definition e820_live (map : relm_e820_map) : list e820_entry := take (e820_count map) (entries map).

(** What a guest makes of the map: the type of an address is that of the first
    entry that holds it. *)
Definition e820_holds (a : Z) (e : e820_entry) : bool := (e_addr e <=? a) && (a <? e_addr e + e_size e).
Definition e820_type_at (map : relm_e820_map) (a : Z) : option Z :=
  e_type <$> List.find (e820_holds a) (e820_live map).

Lemma e820_build_eq ram map : 2 ^ 21 <= ram < 2 ^ 64 ->
  exists rest, relm_e820_build ram map = (0, E820Map
    (E820Entry 0 0xA0000 1 :: E820Entry 0xA0000 0x60000 2 :: E820Entry 0x100000 (ram - 0x100000) 1 ::
     E820Entry 0xFFFE0000 0x20000 2 :: rest) 4).
Proof.
  intros Hr. unfold relm_e820_build. rewrite (proj2 (Z.ltb_ge _ _)) by (zpow; lia).
  unfold RELM_E820_EXTENDED_BASE. rewrite u64_small by lia. eexists. reflexivity.
Qed.

(** For a guest with 2 MiB up to 4 GiB - 128 KiB of RAM the build succeeds and
    the map is sorted and free of overlaps; the guest is told RAM exactly for the
    conventional 640 KiB and for 1 MiB up to the end of its RAM, so every address it
    may use is backed; the VGA hole and the BIOS ROM are reserved. *)
Theorem e820_build_correct (ram : Z) (map0 : relm_e820_map) :
  2 ^ 21 <= ram <= RELM_E820_BIOS_ROM_BASE ->
  exists map, relm_e820_build ram map0 = (0, map) /\
    (forall i e e', e820_live map !! i = Some e -> e820_live map !! S i = Some e' ->
       0 < e_size e /\ e_addr e + e_size e <= e_addr e') /\
    forall a, e820_type_at map a =
      if decide (0 <= a < 0xA0000 \/ 0x100000 <= a < ram) then Some E820_TYPE_RAM
      else if decide (0xA0000 <= a < 0x100000 \/ 0xFFFE0000 <= a < 2 ^ 32) then Some E820_TYPE_RESERVED
      else None.
Proof.
  unfold RELM_E820_BIOS_ROM_BASE. intros Hr. destruct (e820_build_eq ram map0 ltac:(lia)) as [rest E].
  eexists. split; [exact E|]. split.
  - intros i e e'. unfold e820_live; simpl.
    destruct i as [|[|[|[|i]]]]; simpl; try done; intros [= <-] [= <-]; simpl; lia.
  - intros a. unfold e820_type_at, e820_live, e820_holds; simpl.
    repeat match goal with |- context [(?x <=? ?y)] => destruct (Z.leb_spec x y); simpl end;
    repeat match goal with |- context [(?x <? ?y)] => destruct (Z.ltb_spec x y); simpl end;
    repeat case_decide; try done; exfalso; zpow; lia.
Qed.

Lemma e820_build_correct_witness : exists map,
  relm_e820_build 0x8000000 e820_zero = (0, map) /\ e820_type_at map 0x7FFFFFF = Some E820_TYPE_RAM.
Proof.
  destruct (e820_build_correct 0x8000000 e820_zero) as (map & E & _ & T);
    [vm_compute; split; discriminate|].
  exists map. split; [exact E|]. rewrite T. reflexivity.
Defined.

(** With more RAM than 4 GiB - 128 KiB the extended-memory entry runs over the
    BIOS ROM: the map still builds, and it tells the guest that the ROM is RAM. *)
Theorem e820_ram_covers_rom (ram : Z) (map0 : relm_e820_map) :
  RELM_E820_BIOS_ROM_BASE < ram < 2 ^ 64 ->
  exists map, relm_e820_build ram map0 = (0, map) /\
    e820_type_at map RELM_E820_BIOS_ROM_BASE = Some E820_TYPE_RAM /\
    exists e, e ∈ e820_live map /\ e820_holds RELM_E820_BIOS_ROM_BASE e = true /\ e_type e = E820_TYPE_RESERVED.
Proof.
  unfold RELM_E820_BIOS_ROM_BASE. intros Hr. destruct (e820_build_eq ram map0 ltac:(lia)) as [rest E].
  eexists. split; [exact E|]. split.
  - unfold e820_type_at, e820_live, e820_holds; simpl.
    destruct (Z.ltb_spec 0xFFFE0000 (0x100000 + (ram - 0x100000))); [done|lia].
  - exists (E820Entry 0xFFFE0000 0x20000 2). split; [|split; reflexivity].
    unfold e820_live; simpl. do 3 right. left.
Qed.

Lemma e820_ram_covers_rom_witness : exists map,
  relm_e820_build (2 ^ 33) e820_zero = (0, map) /\
  e820_type_at map RELM_E820_BIOS_ROM_BASE = Some E820_TYPE_RAM.
Proof.
  destruct (e820_ram_covers_rom (2 ^ 33) e820_zero) as (map & E & T & _);
    [vm_compute; split; reflexivity|].
  by exists map.
Defined.
