(* ===== verification/FwCfg.v ===== *)
(** * The fw_cfg device

    src/firmware/fw_cfg.c and include/firmware/fw_cfg.h: the table of
    configuration items behind ports 0x510 and 0x511.  The item array has
    FW_CFG_MAX_ITEMS slots; [selected] is a pointer into it, so a slot number;
    [km] says whether kmalloc/kzalloc succeeds for the item of a key.  Locking and
    logging are not represented. *)
From S2P Require Import Prelude E820.

Definition FW_CFG_SIGNATURE : Z := 0x0000.
Definition FW_CFG_ID : Z := 0x0001.
Definition FW_CFG_UUID : Z := 0x0002.
Definition FW_CFG_RAM_SIZE : Z := 0x0003.
Definition FW_CFG_NOGRAPHIC : Z := 0x0004.
Definition FW_CFG_NB_CPUS : Z := 0x0005.
Definition FW_CFG_MACHINE_ID : Z := 0x0006.
Definition FW_CFG_KERNEL_ADDR : Z := 0x0007.
Definition FW_CFG_KERNEL_SIZE : Z := 0x0008.
Definition FW_CFG_KERNEL_CMDLINE : Z := 0x0009.
Definition FW_CFG_INITRD_ADDR : Z := 0x000A.
Definition FW_CFG_INITRD_SIZE : Z := 0x000B.
Definition FW_CFG_BOOT_DEVICE : Z := 0x000C.
Definition FW_CFG_NUMA : Z := 0x000D.
Definition FW_CFG_BOOT_MENU : Z := 0x000E.
Definition FW_CFG_MAX_CPUS : Z := 0x000F.
Definition FW_CFG_FILE_DIR : Z := 0x0019.
Definition FW_CFG_FILE_FIRST : Z := 0x8000.
Definition FW_CFG_MAX_ITEMS : nat := 32.
Definition FW_CFG_MAX_NAME_LEN : nat := 55.
Definition FW_CFG_MAX_ITEM_SIZE : Z := 4 * 1024.
Definition FW_CFG_PORT_SEL : Z := 0x510.
Definition FW_CFG_PORT_DATA : Z := 0x511.

(** [name] is the char array; [data = None] is NULL. *)
Record fw_cfg_item := FwItem {
  it_key : Z; it_name : list Z; it_data : option (list Z); it_size : Z; it_cursor : Z; in_use : bool
}.

Record fw_cfg_device := FwCfg {
  items : list fw_cfg_item; item_count : nat; selected : option nat; next_file_key : Z;
  fw_e820 : relm_e820_map; initialized : bool
}.

Definition item_zero : fw_cfg_item := FwItem 0 (replicate FW_CFG_MAX_NAME_LEN 0) None 0 0 false.

Definition relm_fw_cfg_init : fw_cfg_device :=
  FwCfg (replicate FW_CFG_MAX_ITEMS item_zero) 0 None FW_CFG_FILE_FIRST e820_zero true.

Definition relm_fw_cfg_destroy (fw : fw_cfg_device) : fw_cfg_device :=
  FwCfg (map (fun it => match it_data it with
                        | Some _ => if in_use it
                                    then FwItem (it_key it) (it_name it) None (it_size it) (it_cursor it) true
                                    else it
                        | None => it
                        end) (items fw))
        0 None (next_file_key fw) (fw_e820 fw) false.

(** [strncpy(dst, name, n)]: the characters, cut at [n], padded with NULs. *)
Definition strncpy (n : nat) (name : list Z) : list Z :=
  take n name ++ replicate (n - length name) 0.

Definition live_items (fw : fw_cfg_device) : list fw_cfg_item := take (item_count fw) (items fw).

Definition has_key (key : Z) (it : fw_cfg_item) : bool := in_use it && (it_key it =? key).

(** [data] is the source buffer, [None] for NULL; it has [size] bytes. *)
Definition relm_fw_cfg_register (km : bool) (fw : fw_cfg_device) (key : Z) (name : list Z)
    (data : option (list Z)) (size : Z) : Z * fw_cfg_device :=
  if negb (initialized fw) then (- EINVAL, fw)
  else if FW_CFG_MAX_ITEM_SIZE <? size then (- EINVAL, fw)
  else if (FW_CFG_MAX_ITEMS <=? item_count fw)%nat then (- ENOSPC, fw)
  else if existsb (has_key key) (live_items fw) then (- EEXIST, fw)
  else
    let slot := item_count fw in
    let old := default item_zero (items fw !! slot) in
    let copy := match data with Some d => if 0 <? size then Some (take (Z.to_nat size) d) else None
                              | None => None end in
    match copy with
    | Some _ => if negb km then
                  (- ENOMEM, FwCfg (<[slot := FwItem (it_key old) (it_name old) None (it_size old)
                                              (it_cursor old) (in_use old)]> (items fw))
                               (item_count fw) (selected fw) (next_file_key fw) (fw_e820 fw) (initialized fw))
                else
                  let nm := match name with [] => match it_name old with [] => [] | _ :: t => 0 :: t end
                                          | _ => strncpy FW_CFG_MAX_NAME_LEN name end in
                  (0, FwCfg (<[slot := FwItem key nm copy size 0 true]> (items fw)) (S slot)
                        (selected fw) (next_file_key fw) (fw_e820 fw) (initialized fw))
    | None =>
        let nm := match name with [] => match it_name old with [] => [] | _ :: t => 0 :: t end
                                | _ => strncpy FW_CFG_MAX_NAME_LEN name end in
        (0, FwCfg (<[slot := FwItem key nm None size 0 true]> (items fw)) (S slot)
              (selected fw) (next_file_key fw) (fw_e820 fw) (initialized fw))
    end.

(** The key is taken from the counter before the registration, and not given back
    when it fails; the result is the code, the device and the key stored through
    [key_out]. *)
Definition relm_fw_cfg_register_file (km : bool) (fw : fw_cfg_device) (name : list Z)
    (data : option (list Z)) (size : Z) : Z * fw_cfg_device * option Z :=
  match name with
  | [] => (- EINVAL, fw, None)
  | _ =>
      if (FW_CFG_MAX_NAME_LEN <? length name)%nat then (- EINVAL, fw, None)
      else
        let key := next_file_key fw in
        let fw := FwCfg (items fw) (item_count fw) (selected fw) (u16 (next_file_key fw + 1))
                    (fw_e820 fw) (initialized fw) in
        match relm_fw_cfg_register km fw key name data size with
        | (ret, fw) => if negb (ret =? 0) then (ret, fw, None) else (0, fw, Some key)
        end
  end.

(** The C string at the start of a char array; the byte after an item's name array
    is zeroed padding. *)
Fixpoint c_string (l : list Z) : list Z :=
  match l with
  | [] => []
  | b :: l => if b =? 0 then [] else b :: c_string l
  end.

(** One [struct fw_cfg_file]: size, select, reserved, name[56] with [strscpy] into
    zeroed memory. *)
Definition dir_entry (it : fw_cfg_item) : list Z :=
  let nm := take 55 (c_string (it_name it)) in
  be_bytes 4 (it_size it) ++ be_bytes 2 (it_key it) ++ be_bytes 2 0 ++
  nm ++ replicate (56 - length nm) 0.

Definition is_file (it : fw_cfg_item) : bool := in_use it && (FW_CFG_FILE_FIRST <=? it_key it).

Definition relm_fw_cfg_build_file_dir (kz km : bool) (fw : fw_cfg_device) : Z * fw_cfg_device :=
  let files := List.filter is_file (live_items fw) in
  let n_files := Z.of_nat (length files) in
  let dir_size := u32 (4 + n_files * 64) in
  if negb kz then (- ENOMEM, fw)
  else
    let dir := be_bytes 4 n_files ++ concat (map dir_entry files) in
    match relm_fw_cfg_register km fw FW_CFG_FILE_DIR [] (Some dir) dir_size with
    | (ret, fw) => if negb (ret =? 0) && negb (ret =? - EEXIST) then (ret, fw) else (0, fw)
    end.

Definition e820_bytes (e : e820_entry) : list Z :=
  le_bytes 8 (e_addr e) ++ le_bytes 8 (e_size e) ++ le_bytes 4 (e_type e).

Definition fw_cfg_signature : list Z := string_bytes "QEMU".

(** The well-known items in the order of the code, as (key, bytes). *)
Definition well_known (ram online_vcpus : Z) : list (Z * option (list Z)) :=
  let nb_cpus := u16 online_vcpus in
  let nb_cpus := if nb_cpus =? 0 then 1 else nb_cpus in
  [(FW_CFG_SIGNATURE, Some fw_cfg_signature);
   (FW_CFG_ID, Some (le_bytes 4 1));
   (FW_CFG_UUID, Some (replicate 16 0));
   (FW_CFG_RAM_SIZE, Some (le_bytes 4 (u32 ram)));
   (FW_CFG_NOGRAPHIC, Some (le_bytes 2 1));
   (FW_CFG_NB_CPUS, Some (le_bytes 2 nb_cpus));
   (FW_CFG_MACHINE_ID, Some (le_bytes 2 1));
   (FW_CFG_KERNEL_ADDR, Some (le_bytes 4 0));
   (FW_CFG_KERNEL_SIZE, Some (le_bytes 4 0));
   (FW_CFG_KERNEL_CMDLINE, Some (le_bytes 4 0));
   (FW_CFG_INITRD_ADDR, Some (le_bytes 4 0));
   (FW_CFG_INITRD_SIZE, Some (le_bytes 4 0));
   (FW_CFG_BOOT_DEVICE, Some (string_bytes "c"));
   (FW_CFG_NUMA, None);
   (FW_CFG_BOOT_MENU, Some (le_bytes 2 0));
   (FW_CFG_MAX_CPUS, Some (le_bytes 2 nb_cpus))].

(** [ret = register(...); if (ret) return ret;] for each of them. *)
Fixpoint register_all (km : Z -> bool) (fw : fw_cfg_device) (l : list (Z * option (list Z)))
    : Z * fw_cfg_device :=
  match l with
  | [] => (0, fw)
  | (key, data) :: l =>
      let size := match data with Some d => Z.of_nat (length d) | None => 0 end in
      match relm_fw_cfg_register (km key) fw key [] data size with
      | (ret, fw) => if negb (ret =? 0) then (ret, fw) else register_all km fw l
      end
  end.

Definition set_e820 (fw : fw_cfg_device) (m : relm_e820_map) : fw_cfg_device :=
  FwCfg (items fw) (item_count fw) (selected fw) (next_file_key fw) m (initialized fw).

Definition relm_fw_cfg_setup (km : Z -> bool) (kz : bool) (fw : fw_cfg_device) (ram online_vcpus : Z)
    : Z * fw_cfg_device :=
  if negb (initialized fw) then (- EINVAL, fw)
  else
    match register_all km fw (well_known ram online_vcpus) with
    | (ret, fw) =>
        if negb (ret =? 0) then (ret, fw)
        else
          match relm_e820_build ram (fw_e820 fw) with
          | (ret, m) =>
              let fw := set_e820 fw m in
              if negb (ret =? 0) then (ret, fw)
              else
                let data := concat (map e820_bytes (take (e820_count m) (entries m))) in
                match relm_fw_cfg_register_file (km (next_file_key fw)) fw (string_bytes "etc/e820")
                        (Some data) (u32 (Z.of_nat (e820_count m) * 20)) with
                | (ret, fw, _) =>
                    if negb (ret =? 0) then (ret, fw)
                    else
                      match relm_fw_cfg_register_file (km (next_file_key fw)) fw
                              (string_bytes "etc/boot-fail-wait") (Some (le_bytes 4 0)) 4 with
                      | (ret, fw, _) =>
                          if negb (ret =? 0) then (ret, fw)
                          else relm_fw_cfg_build_file_dir kz (km FW_CFG_FILE_DIR) fw
                      end
                end
          end
    end.

Definition set_cursor (it : fw_cfg_item) (c : Z) : fw_cfg_item :=
  FwItem (it_key it) (it_name it) (it_data it) (it_size it) c (in_use it).

Definition relm_fw_cfg_select (fw : fw_cfg_device) (key : Z) : fw_cfg_device :=
  match find_index (has_key key) (live_items fw) with
  | Some i => FwCfg (alter (fun it => set_cursor it 0) i (items fw)) (item_count fw) (Some i)
                (next_file_key fw) (fw_e820 fw) (initialized fw)
  | None => FwCfg (items fw) (item_count fw) None (next_file_key fw) (fw_e820 fw) (initialized fw)
  end.

Definition relm_fw_cfg_read (fw : fw_cfg_device) : Z * fw_cfg_device :=
  match selected fw with
  | None => (0, fw)
  | Some i =>
      match items fw !! i with
      | None => (0, fw)
      | Some it =>
          match it_data it with
          | None => (0, fw)
          | Some d =>
              if it_cursor it <? it_size it
              then (default 0 (d !! Z.to_nat (it_cursor it)),
                    FwCfg (<[i := set_cursor it (u32 (it_cursor it + 1))]> (items fw)) (item_count fw)
                      (selected fw) (next_file_key fw) (fw_e820 fw) (initialized fw))
              else (0, fw)
          end
      end
  end.

(** [for (b = 0; b < size; b++) result |= (uint32_t)read() << (b * 8)] *)
Fixpoint read_loop (n : nat) (b : Z) (fw : fw_cfg_device) (result : Z) : Z * fw_cfg_device :=
  match n with
  | O => (result, fw)
  | S n => let '(byte, fw) := relm_fw_cfg_read fw in
           read_loop n (b + 1) fw (Z.lor result (u32 (Z.shiftl byte (b * 8))))
  end.

(** The result is always 1; the value is [*value] afterwards. *)
Definition relm_fw_cfg_handle_io (fw : fw_cfg_device) (port : Z) (is_write : bool) (size value : Z)
    : Z * fw_cfg_device * Z :=
  if port =? FW_CFG_PORT_SEL then
    if is_write then (1, relm_fw_cfg_select fw (Z.land value 0xFFFF), value)
    else (1, fw, 0)
  else if port =? FW_CFG_PORT_DATA then
    if negb is_write then
      let '(result, fw) := read_loop (Z.to_nat size) 0 fw 0 in (1, fw, result)
    else (1, fw, value)
  else (1, fw, value).

(** ** The device as a finite map from keys to byte strings *)

Definition item_ok (it : fw_cfg_item) : Prop :=
  in_use it = true /\ 0 <= it_cursor it <= it_size it /\ it_size it <= FW_CFG_MAX_ITEM_SIZE /\
  match it_data it with Some d => Z.of_nat (length d) = it_size it | None => True end.

Record fw_wf (fw : fw_cfg_device) : Prop := FwWf {
  fw_len : length (items fw) = FW_CFG_MAX_ITEMS;
  fw_count : (item_count fw <= FW_CFG_MAX_ITEMS)%nat;
  fw_items : Forall item_ok (live_items fw);
  fw_keys : NoDup (map it_key (live_items fw));
  fw_sel i : selected fw = Some i -> (i < item_count fw)%nat
}.

Definition contents (fw : fw_cfg_device) (key : Z) : list Z :=
  match List.find (has_key key) (live_items fw) with
  | Some it => default [] (it_data it)
  | None => []
  end.

(** [n] reads of the data port. *)
Fixpoint read_n (fw : fw_cfg_device) (n : nat) : list Z * fw_cfg_device :=
  match n with
  | O => ([], fw)
  | S n => let '(b, fw) := relm_fw_cfg_read fw in
           let '(l, fw) := read_n fw n in (b :: l, fw)
  end.

(** What the guest reads: the bytes, then zeros for ever. *)
Definition stream (l : list Z) (n : nat) : list Z := take n (l ++ replicate n 0).

Lemma stream_nil n : stream [] n = replicate n 0.
Proof. unfold stream. simpl. rewrite take_ge; [done|]. by rewrite length_replicate. Qed.

Lemma stream_cons b l n : stream (b :: l) (S n) = b :: stream l n.
Proof.
  unfold stream. cbn [app take]. f_equal.
  rewrite replicate_S_end, app_assoc, take_app_le; [done|].
  rewrite length_app, length_replicate. lia.
Qed.

Lemma stream_0_cons n : stream [] (S n) = 0 :: stream [] n.
Proof. by rewrite !stream_nil. Qed.

Lemma read_idle fw n : (forall i it d, selected fw = Some i -> items fw !! i = Some it -> it_data it = Some d ->
    it_size it <= it_cursor it) -> read_n fw n = (stream [] n, fw).
Proof.
  intros Hi. induction n as [|n IH]; [done|]. cbn [read_n].
  assert (relm_fw_cfg_read fw = (0, fw)) as ->.
  { unfold relm_fw_cfg_read. destruct (selected fw) as [i|] eqn:Es; [|done].
    destruct (items fw !! i) as [it|] eqn:Ei; [|done]. destruct (it_data it) as [d|] eqn:Ed; [|done].
    destruct (Z.ltb_spec (it_cursor it) (it_size it)); [|done].
    specialize (Hi _ _ _ eq_refl Ei Ed). lia. }
  by rewrite IH, stream_0_cons.
Qed.

Lemma read_from n fw i it d : selected fw = Some i -> items fw !! i = Some it -> it_data it = Some d ->
  Z.of_nat (length d) = it_size it -> 0 <= it_cursor it -> it_size it < 2 ^ 32 ->
  fst (read_n fw n) = stream (drop (Z.to_nat (it_cursor it)) d) n.
Proof.
  revert fw it. induction n as [|n IH]; intros fw it Es Ei Ed Hl Hc Hs; [done|].
  destruct (Z.ltb_spec (it_cursor it) (it_size it)) as [Hlt|Hge].
  - cbn [read_n]. unfold relm_fw_cfg_read. rewrite Es, Ei, Ed, (proj2 (Z.ltb_lt _ _) Hlt).
    assert (u32 (it_cursor it + 1) = it_cursor it + 1) as -> by (apply Z.mod_small; lia).
    set (fw' := FwCfg _ _ _ _ _ _).
    pose proof (IH fw' (set_cursor it (it_cursor it + 1)) eq_refl) as IH'. simpl in IH'.
    rewrite list_lookup_insert_eq in IH' by (by eapply lookup_lt_Some).
    specialize (IH' eq_refl Ed Hl ltac:(lia) Hs).
    destruct (read_n fw' n) as [l fw2]. cbn [fst] in *. rewrite IH'.
    destruct (lookup_lt_is_Some_2 d (Z.to_nat (it_cursor it))) as [b Hb]; [lia|].
    rewrite (drop_S _ _ _ Hb), stream_cons, Hb. cbn [default].
    replace (Z.to_nat (it_cursor it + 1)) with (S (Z.to_nat (it_cursor it))) by lia. done.
  - rewrite read_idle; [|intros; simplify_eq; lia]. rewrite drop_ge by lia. done.
Qed.

Lemma find_index_find {A} (p : A -> bool) l :
  List.find p l = i ← find_index p l; l !! i.
Proof.
  induction l as [|x l IH]; simpl; [done|]. destruct (p x); [done|]. rewrite IH.
  by destruct (find_index p l).
Qed.

Lemma live_lookup fw i it : live_items fw !! i = Some it -> items fw !! i = Some it.
Proof. unfold live_items. by intros [? _]%lookup_take_Some. Qed.

Lemma select_read_spec (fw : fw_cfg_device) (key : Z) (n : nat) :
  fw_wf fw -> fst (read_n (relm_fw_cfg_select fw key) n) = stream (contents fw key) n.
Proof.
  intros W. unfold relm_fw_cfg_select, contents. rewrite find_index_find.
  destruct (find_index (has_key key) (live_items fw)) as [i|] eqn:F; cbn [mbind option_bind].
  - pose proof (find_index_Some _ _ _ F) as (it & Hit & _). rewrite Hit.
    pose proof (proj1 (Forall_lookup _ _) (fw_items _ W) _ _ Hit) as (_ & Hc & Hs & Hd).
    unfold FW_CFG_MAX_ITEM_SIZE in Hs. apply live_lookup in Hit.
    set (fw' := FwCfg _ _ _ _ _ _).
    assert (items fw' !! i = Some (set_cursor it 0)) as Hi'.
    { unfold fw'; simpl. rewrite list_lookup_alter_eq, Hit. done. }
    destruct (it_data it) as [d|] eqn:Ed; simpl.
    + rewrite (read_from n fw' i (set_cursor it 0) d); try done; simpl; lia.
    + rewrite read_idle; [done|]. intros j it' d [= <-]. rewrite Hi'. intros [= <-]. simpl. congruence.
  - rewrite read_idle; done.
Qed.

(** ** Registration *)
Lemma register_inv km fw key name data size r fw' : fw_wf fw -> 0 <= size ->
  match data with Some d => size <= Z.of_nat (length d) | None => True end ->
  relm_fw_cfg_register km fw key name data size = (r, fw') ->
  (r <> 0 /\ live_items fw' = live_items fw /\ item_count fw' = item_count fw /\
     length (items fw') = length (items fw) /\ selected fw' = selected fw) \/
  (r = 0 /\ initialized fw = true /\ size <= FW_CFG_MAX_ITEM_SIZE /\ (item_count fw < FW_CFG_MAX_ITEMS)%nat /\
   existsb (has_key key) (live_items fw) = false /\
   item_count fw' = S (item_count fw) /\ length (items fw') = length (items fw) /\ selected fw' = selected fw /\
   exists nm, live_items fw' = live_items fw ++
     [FwItem key nm (match data with Some d => if 0 <? size then Some (take (Z.to_nat size) d) else None
                                   | None => None end) size 0 true]).
Proof.
  intros W H0 Hd. unfold relm_fw_cfg_register.
  destruct (initialized fw) eqn:Ei; cbn [negb]; [|intros [= <- <-]; left; by split_and!].
  destruct (Z.ltb_spec FW_CFG_MAX_ITEM_SIZE size); [intros [= <- <-]; left; by split_and!|].
  destruct (Nat.leb_spec FW_CFG_MAX_ITEMS (item_count fw)) as [|Hc]; [intros [= <- <-]; left; by split_and!|].
  destruct (existsb _ _) eqn:Ex; [intros [= <- <-]; left; by split_and!|].
  set (copy := match data with Some d => _ | None => _ end).
  assert (item_count fw < length (items fw))%nat as Hl by (rewrite (fw_len _ W); done).
  assert (forall it, take (item_count fw) (<[item_count fw := it]> (items fw)) = live_items fw) as Et.
  { intros it. by rewrite take_insert_ge by lia. }
  destruct copy as [c|] eqn:Ec; [destruct km|]; intros [= <- <-].
  - right. split_and!; try done; simpl; [by rewrite length_insert|]. eexists.
    unfold live_items at 1; simpl. rewrite take_insert_end by done. done.
  - left. unfold live_items at 1. simpl. rewrite Et, length_insert. by split_and!.
  - right. split_and!; try done; simpl; [by rewrite length_insert|]. eexists.
    unfold live_items at 1; simpl. rewrite take_insert_end by done. done.
Qed.

Lemma register_wf km fw key name data size r fw' : fw_wf fw -> 0 <= size ->
  match data with Some d => size <= Z.of_nat (length d) | None => True end ->
  relm_fw_cfg_register km fw key name data size = (r, fw') -> fw_wf fw'.
Proof.
  intros W H0 Hd [(_ & El & Ec & Elen & Es)|(_ & _ & Hs & Hc & Ex & Ec & Elen & Es & nm & El)]%register_inv; try done.
  - split; rewrite ?El, ?Ec, ?Elen, ?Es; apply W.
  - split.
    + rewrite Elen. apply W.
    + rewrite Ec. lia.
    + rewrite El. apply Forall_app. split; [apply W|]. constructor; [|done]. unfold item_ok; simpl. split_and!; try done; try lia.
      destruct data as [d|]; [|done]. destruct (Z.ltb_spec 0 size); [|done]. rewrite length_take. lia.
    + rewrite El, map_app. apply NoDup_app. split_and!; [apply W| |by apply NoDup_singleton].
      intros k (it & -> & Hit)%list_elem_of_fmap Hk%list_elem_of_singleton. simpl in Hk.
      pose proof (proj1 (existsb_false _ _) Ex it Hit) as N. unfold has_key in N.
      pose proof (proj1 (Forall_forall _ _) (fw_items _ W) _ Hit) as (U & _). rewrite U, Hk, Z.eqb_refl in N. done.
    + rewrite Ec, Es. intros i Hi%(fw_sel _ W). lia.
Qed.

Lemma find_app {A} (p : A -> bool) l1 l2 : List.find p (l1 ++ l2) =
  match List.find p l1 with Some x => Some x | None => List.find p l2 end.
Proof. induction l1 as [|x l1 IH]; simpl; [done|]. by destruct (p x). Qed.

(** Registering an item keeps the device valid; it succeeds only for a key that
    is not taken, and then that key holds exactly the given bytes and every other
    key what it held before; a failed registration changes no item. *)
Theorem register_correct (km : bool) (fw fw' : fw_cfg_device) (key : Z) (name d : list Z) (r : Z) :
  fw_wf fw ->
  relm_fw_cfg_register km fw key name (Some d) (Z.of_nat (length d)) = (r, fw') ->
  fw_wf fw' /\
  (r = 0 -> contents fw key = [] /\
     forall k, contents fw' k = if decide (k = key) then d else contents fw k) /\
  (r <> 0 -> forall k, contents fw' k = contents fw k).
Proof.
  intros W E. split; [apply (register_wf km fw key name (Some d) (Z.of_nat (length d)) r fw'); simpl; done || lia|].
  apply register_inv in E; [|done|lia|simpl; lia].
  destruct E as [(Hr & El & _)|(-> & _ & _ & _ & Ex & _ & _ & _ & nm & El)].
  { split; [done|]. intros _ k. unfold contents. by rewrite El. }
  split; [|done]. intros _.
  assert (List.find (has_key key) (live_items fw) = None) as Fn.
  { destruct (List.find _ _) as [it|] eqn:F; [|done]. apply find_some in F as [Hi Hk].
    rewrite <- list_elem_of_In in Hi. by rewrite (proj1 (existsb_false _ _) Ex it Hi) in Hk. }
  unfold contents. split; [by rewrite Fn|]. intros k. rewrite El, find_app.
  case_decide as D.
  - subst k. rewrite Fn. simpl. unfold has_key at 1; simpl. rewrite Z.eqb_refl; simpl.
    destruct (Z.ltb_spec 0 (Z.of_nat (length d))) as [Hl|Hl]; simpl.
    + rewrite take_ge by lia. done.
    + by destruct d; [|simpl in Hl; lia].
  - destruct (List.find (has_key k) (live_items fw)) as [it|]; [done|]. simpl.
    unfold has_key at 1; simpl. rewrite (proj2 (Z.eqb_neq key k)) by congruence. done.
Qed.

(** ** Reading through the I/O ports *)
Definition bytes_ok (l : list Z) : Prop := Forall (fun b => 0 <= b < 256) l.

Lemma read_loop_spec n b fw res : bytes_ok (fst (read_n fw n)) -> 0 <= b -> b + Z.of_nat n <= 4 ->
  0 <= res < 2 ^ (8 * b) ->
  fst (read_loop n b fw res) = res + of_le (fst (read_n fw n)) * 2 ^ (8 * b).
Proof.
  revert b fw res. induction n as [|n IH]; intros b fw res Hb H0 Hn Hr; cbn [read_loop read_n] in *; [simpl; lia|].
  destruct (relm_fw_cfg_read fw) as [byte fw1]. destruct (read_n fw1 n) as [l fw2] eqn:E.
  cbn [fst] in *. apply Forall_cons in Hb as [Hb Hl]. rewrite Nat2Z.inj_succ in Hn.
  assert (2 ^ (8 * (b + 1)) = 256 * 2 ^ (8 * b)) as Ep.
  { replace (8 * (b + 1)) with (8 + 8 * b) by lia. by rewrite Z.pow_add_r by lia. }
  assert (u32 (Z.shiftl byte (b * 8)) = Z.shiftl byte (8 * b)) as ->.
  { rewrite Z.mul_comm. unfold u32. apply Z.mod_small. rewrite Z.shiftl_mul_pow2 by lia.
    pose proof (Z.pow_le_mono_r 2 (8 * (b + 1)) 32 ltac:(lia) ltac:(lia)). nia. }
  rewrite lor_shiftl by lia. rewrite IH; rewrite ?E; cbn [fst]; [|done|lia|lia|nia].
  rewrite Ep. cbn [of_le]. lia.
Qed.

(** The port protocol: writing a key to port 0x510 and reading [size] <= 4 bytes
    from port 0x511 returns the first bytes of that item, little-endian, with zeros
    past its end. *)
Theorem handle_io_correct (fw : fw_cfg_device) (key size v0 : Z) :
  fw_wf fw -> 0 <= key < 2 ^ 16 -> 0 <= size <= 4 -> bytes_ok (contents fw key) ->
  let '(_, fw1, _) := relm_fw_cfg_handle_io fw FW_CFG_PORT_SEL true 2 key in
  let '(r, _, v) := relm_fw_cfg_handle_io fw1 FW_CFG_PORT_DATA false size v0 in
  r = 1 /\ v = of_le (stream (contents fw key) (Z.to_nat size)).
Proof.
  intros W Hk Hs Hb. unfold relm_fw_cfg_handle_io. cbn [Z.eqb Pos.eqb FW_CFG_PORT_SEL FW_CFG_PORT_DATA negb].
  assert (Z.land key 0xFFFF = key) as ->.
  { change 0xFFFF with (2 ^ 16 - 1). rewrite land_ones_mod by lia. by apply Z.mod_small. }
  destruct (read_loop (Z.to_nat size) 0 (relm_fw_cfg_select fw key) 0) as [v fw2] eqn:E.
  split; [done|]. rewrite <- (select_read_spec fw key _ W).
  replace v with (fst (read_loop (Z.to_nat size) 0 (relm_fw_cfg_select fw key) 0)) by (by rewrite E).
  rewrite read_loop_spec; [lia| |lia|lia|lia]. rewrite select_read_spec by done.
  unfold stream, bytes_ok. apply Forall_take, Forall_app. split; [done|]. apply Forall_replicate. lia.
Qed.

(** ** The table the firmware finds *)

(** How a guest reads the file directory: a big-endian count, then per file the
    size, the select key and the NUL-terminated name. *)
Fixpoint parse_files (n : nat) (l : list Z) : list (list Z * Z * Z) :=
  match n with
  | O => []
  | S n => (c_string (take 56 (drop 8 l)), of_be (take 2 (drop 4 l)), of_be (take 4 l)) ::
           parse_files n (drop 64 l)
  end.
Definition parse_dir (l : list Z) : list (list Z * Z * Z) :=
  parse_files (Z.to_nat (of_be (take 4 l))) (drop 4 l).

Definition well_known_with (r nb : list Z) : list (Z * option (list Z)) :=
  map (fun kd => if fst kd =? FW_CFG_RAM_SIZE then (fst kd, Some r)
                 else if (fst kd =? FW_CFG_NB_CPUS) || (fst kd =? FW_CFG_MAX_CPUS) then (fst kd, Some nb)
                 else kd) (well_known 0 0).

Lemma well_known_eq ram n : exists r0 r1 r2 r3 n0 n1,
  le_bytes 4 (u32 ram) = [r0; r1; r2; r3] /\ well_known ram n = well_known_with [r0; r1; r2; r3] [n0; n1].
Proof.
  set (nb := if u16 n =? 0 then 1 else u16 n).
  exists (u32 ram mod 256), (u32 ram / 256 mod 256), (u32 ram / 256 / 256 mod 256),
    (u32 ram / 256 / 256 / 256 mod 256), (nb mod 256), (nb / 256 mod 256).
  split; reflexivity.
Qed.

Lemma le_bytes_8 z : exists x0 x1 x2 x3 x4 x5 x6 x7, le_bytes 8 z = [x0; x1; x2; x3; x4; x5; x6; x7].
Proof. repeat eexists. Qed.



Lemma fw_wf_init : fw_wf relm_fw_cfg_init.
Proof. split; [done|by apply Nat.leb_le|apply Forall_nil_2|apply NoDup_nil_2|done]. Qed.

Module FwDemo.
(** One item, registered in a fresh device. *)
Definition fw1 : fw_cfg_device := snd (relm_fw_cfg_register true relm_fw_cfg_init 5 [] (Some [7; 1]) 2).

Lemma register_correct_witness : contents fw1 5 = [7; 1].
Proof.
  destruct (register_correct true relm_fw_cfg_init fw1 5 [] [7; 1] 0 fw_wf_init eq_refl) as (_ & [_ C] & _);
    [reflexivity|].
  exact (C 5).
Defined.

Lemma handle_io_correct_witness :
  let '(_, fw, _) := relm_fw_cfg_handle_io fw1 FW_CFG_PORT_SEL true 2 5 in
  let '(r, _, v) := relm_fw_cfg_handle_io fw FW_CFG_PORT_DATA false 4 0 in
  r = 1 /\ v = 263.
Proof.
  refine (handle_io_correct fw1 5 4 0 _ _ _ _); [|lia|lia|].
  - apply (register_wf true relm_fw_cfg_init 5 [] (Some [7; 1]) 2 0 fw1 fw_wf_init); simpl; done || lia.
  - change (contents fw1 5) with [7; 1]. repeat apply List.Forall_cons; [lia|lia|apply List.Forall_nil].
Defined.
End FwDemo.
