(* ===== verification/Decoder.v ===== *)
(** * Decoding the instruction behind an MMIO access

    include/relm/decoder.h (the contract between the decoder and the emulators),
    src/core/decoder.c and src/arch/x86/decoder/utils.c (the adapter that reduces a
    decoded x86 instruction to that contract), and the register accessors of
    include/arch/x86/vmx/vcpu_arch.h.

    The Zydis library is third-party code: its decoder, its register tables and its
    enumerators are the parameters of the class [Zydis]. *)
From S2P Require Import Prelude.

Inductive relm_memory_access := RELM_MEMORY_ACCESS_INVALID | RELM_MEMORY_ACCESS_READ | RELM_MEMORY_ACCESS_WRITE.
Inductive relm_operand_kind := RELM_OPERAND_INVALID | RELM_OPERAND_GPR | RELM_OPERAND_IMMEDIATE.
Inductive relm_gpr_write_semantics :=
  | RELM_GPR_WRITE_NONE | RELM_GPR_WRITE_MERGE | RELM_GPR_WRITE_ZERO_EXTEND | RELM_GPR_WRITE_REPLACE.
#[export] Instance relm_memory_access_eq_dec : EqDecision relm_memory_access.
Proof. solve_decision. Defined.
#[export] Instance relm_operand_kind_eq_dec : EqDecision relm_operand_kind.
Proof. solve_decision. Defined.

Record relm_decoded_insn := DecodedInsn {
  d_length : Z; memory_access : relm_memory_access; memory_width : Z;
  operand_kind : relm_operand_kind; immediate : Z;
  gpr_index : Z; gpr_width : Z; gpr_bit_offset : Z; gpr_write_semantics : relm_gpr_write_semantics
}.

Definition relm_width_mask (width : Z) : Z :=
  if width =? 1 then 0xFF
  else if width =? 2 then 0xFFFF
  else if width =? 4 then 0xFFFFFFFF
  else if width =? 8 then 0xFFFFFFFFFFFFFFFF
  else 0.

Definition relm_decoded_has_valid_gpr (d : relm_decoded_insn) : bool :=
  if negb (bool_decide (operand_kind d = RELM_OPERAND_GPR)) then false
  else if (gpr_index d <? 0) || (16 <=? gpr_index d) then false
  else if relm_width_mask (gpr_width d) =? 0 then false
  else if gpr_bit_offset d =? 0 then true
  else (gpr_width d =? 1) && (gpr_bit_offset d =? 8).

Definition relm_decoded_gpr_extract (d : relm_decoded_insn) (enclosing_value : Z) : Z :=
  if negb (relm_decoded_has_valid_gpr d) then 0
  else Z.land (Z.shiftr enclosing_value (gpr_bit_offset d)) (relm_width_mask (gpr_width d)).

Definition relm_decoded_gpr_commit (d : relm_decoded_insn) (old_value transferred_value : Z) : Z :=
  if negb (relm_decoded_has_valid_gpr d) then old_value
  else
    let mask := relm_width_mask (gpr_width d) in
    match gpr_write_semantics d with
    | RELM_GPR_WRITE_MERGE =>
        let lane_mask := u64 (Z.shiftl mask (gpr_bit_offset d)) in
        Z.lor (Z.land old_value (u64 (Z.lnot lane_mask)))
          (u64 (Z.shiftl (Z.land transferred_value mask) (gpr_bit_offset d)))
    | RELM_GPR_WRITE_ZERO_EXTEND | RELM_GPR_WRITE_REPLACE => Z.land transferred_value mask
    | RELM_GPR_WRITE_NONE => old_value
    end.

(** ** The guest's registers, by instruction-encoding number

    The sixteen general registers in encoding order; [guest_reg_ptr] is the index
    into them. *)
Notation gprs := (list Z) (only parsing).
Definition guest_reg_read (regs : gprs) (index : Z) : Z :=
  if (0 <=? index) && (index <? 16) then default 0 (regs !! Z.to_nat index) else 0.
Definition guest_reg_write (regs : gprs) (index value : Z) : gprs :=
  if (0 <=? index) && (index <? 16) then <[Z.to_nat index := value]> regs else regs.

(** ** Zydis *)

Inductive z_operand_type := ZYDIS_OPERAND_TYPE_REGISTER | ZYDIS_OPERAND_TYPE_MEMORY
  | ZYDIS_OPERAND_TYPE_IMMEDIATE | ZYDIS_OPERAND_TYPE_OTHER.
Inductive z_register_class := ZYDIS_REGCLASS_GPR8 | ZYDIS_REGCLASS_GPR16 | ZYDIS_REGCLASS_GPR32
  | ZYDIS_REGCLASS_GPR64 | ZYDIS_REGCLASS_OTHER.
#[export] Instance z_operand_type_eq_dec : EqDecision z_operand_type.
Proof. solve_decision. Defined.

(** The fields the adapter reads; sizes are in bits; [imm_value] is the 64-bit
    pattern of the immediate. *)
Record z_operand := ZOperand {
  z_type : z_operand_type; z_explicit : bool; z_size : Z; z_actions : Z; z_reg : Z;
  z_memop_mem : bool; imm_is_relative : bool; imm_is_signed : bool; imm_s : Z; imm_u : Z
}.
Record z_instruction := ZInstruction {
  z_is_mov : bool; z_has_lock : bool; operand_count_visible : nat; z_length : Z
}.

Class Zydis := {
  zydis_decode_full : list Z -> option (z_instruction * list z_operand);
  zydis_register_class : Z -> z_register_class;
  zydis_largest_enclosing : Z -> Z;
  ZYDIS_REGISTER_RAX : Z; ZYDIS_REGISTER_R15 : Z;
  ZYDIS_REGISTER_AH : Z; ZYDIS_REGISTER_CH : Z; ZYDIS_REGISTER_DH : Z; ZYDIS_REGISTER_BH : Z;
  ZYDIS_OPERAND_ACTION_READ : Z; ZYDIS_OPERAND_ACTION_WRITE : Z;
  ZYDIS_OPERAND_ACTION_MASK_READ : Z; ZYDIS_OPERAND_ACTION_MASK_WRITE : Z
}.

(** ** The adapter *)
Section Adapter.
Context {Zy : Zydis}.

Definition set_gpr (out : relm_decoded_insn) (index width off : Z) : relm_decoded_insn :=
  DecodedInsn (d_length out) (memory_access out) (memory_width out) (operand_kind out) (immediate out)
    index width off (gpr_write_semantics out).
Definition set_sem (out : relm_decoded_insn) (s : relm_gpr_write_semantics) : relm_decoded_insn :=
  DecodedInsn (d_length out) (memory_access out) (memory_width out) (operand_kind out) (immediate out)
    (gpr_index out) (gpr_width out) (gpr_bit_offset out) s.
Definition set_kind (out : relm_decoded_insn) (k : relm_operand_kind) (imm : Z) : relm_decoded_insn :=
  DecodedInsn (d_length out) (memory_access out) (memory_width out) k imm
    (gpr_index out) (gpr_width out) (gpr_bit_offset out) (gpr_write_semantics out).
Definition set_mem (out : relm_decoded_insn) (a : relm_memory_access) (w : Z) : relm_decoded_insn :=
  DecodedInsn (d_length out) a w (operand_kind out) (immediate out)
    (gpr_index out) (gpr_width out) (gpr_bit_offset out) (gpr_write_semantics out).
Definition set_length (out : relm_decoded_insn) (n : Z) : relm_decoded_insn :=
  DecodedInsn n (memory_access out) (memory_width out) (operand_kind out) (immediate out)
    (gpr_index out) (gpr_width out) (gpr_bit_offset out) (gpr_write_semantics out).

(** [memset(out, 0); out->gpr_index = -1] *)
Definition decoded0 : relm_decoded_insn :=
  DecodedInsn 0 RELM_MEMORY_ACCESS_INVALID 0 RELM_OPERAND_INVALID 0 (-1) 0 0 RELM_GPR_WRITE_NONE.

Definition relm_zydis_decode_gpr (operand : z_operand) (out : relm_decoded_insn) : Z * relm_decoded_insn :=
  if negb (bool_decide (z_type operand = ZYDIS_OPERAND_TYPE_REGISTER)) then (- EOPNOTSUPP, out)
  else
    match zydis_register_class (z_reg operand) with
    | ZYDIS_REGCLASS_OTHER => (- EOPNOTSUPP, out)
    | _ =>
        if (z_size operand =? 0) || flag (z_size operand) 7 then (- EOPNOTSUPP, out)
        else
          let width := z_size operand / 8 in
          let out := set_gpr out (gpr_index out) width (gpr_bit_offset out) in
          if relm_width_mask width =? 0 then (- EOPNOTSUPP, out)
          else
            let enclosing := zydis_largest_enclosing (z_reg operand) in
            if (enclosing <? ZYDIS_REGISTER_RAX) || (ZYDIS_REGISTER_R15 <? enclosing) then (- EOPNOTSUPP, out)
            else
              let r := z_reg operand in
              let off := if (r =? ZYDIS_REGISTER_AH) || (r =? ZYDIS_REGISTER_CH) ||
                            (r =? ZYDIS_REGISTER_DH) || (r =? ZYDIS_REGISTER_BH) then 8 else 0 in
              let out := set_gpr out (enclosing - ZYDIS_REGISTER_RAX) width off in
              (if relm_decoded_has_valid_gpr out then 0 else - EOPNOTSUPP, out)
    end.

Definition relm_zydis_set_load_semantics (out : relm_decoded_insn) : Z * relm_decoded_insn :=
  if (gpr_width out =? 1) || (gpr_width out =? 2) then (0, set_sem out RELM_GPR_WRITE_MERGE)
  else if gpr_width out =? 4 then (0, set_sem out RELM_GPR_WRITE_ZERO_EXTEND)
  else if gpr_width out =? 8 then (0, set_sem out RELM_GPR_WRITE_REPLACE)
  else (- EOPNOTSUPP, out).

(** The loop over the visible operands: the memory operand and the other one. *)
Fixpoint find_operands (ops : list z_operand) (memory value_operand : option z_operand)
    : option (option z_operand * option z_operand) :=
  match ops with
  | [] => Some (memory, value_operand)
  | op :: ops =>
      if negb (z_explicit op) then None
      else if bool_decide (z_type op = ZYDIS_OPERAND_TYPE_MEMORY) then
        match memory with Some _ => None | None => find_operands ops (Some op) value_operand end
      else
        match value_operand with Some _ => None | None => find_operands ops memory (Some op) end
  end.

(** The operand that is not memory: [switch (value_operand->type)]. *)
Definition decode_value (memory value_operand : z_operand) (out : relm_decoded_insn) : Z * relm_decoded_insn :=
  match z_type value_operand with
  | ZYDIS_OPERAND_TYPE_REGISTER =>
      let out := set_kind out RELM_OPERAND_GPR (immediate out) in
      let '(ret, out) := relm_zydis_decode_gpr value_operand out in
      if ret <? 0 then (ret, out)
      else if negb (gpr_width out =? memory_width out) then (- EOPNOTSUPP, out)
      else if bool_decide (memory_access out = RELM_MEMORY_ACCESS_READ)
      then relm_zydis_set_load_semantics out
      else (0, set_sem out RELM_GPR_WRITE_NONE)
  | ZYDIS_OPERAND_TYPE_IMMEDIATE =>
      if negb (bool_decide (memory_access out = RELM_MEMORY_ACCESS_WRITE)) || imm_is_relative value_operand
      then (- EOPNOTSUPP, out)
      else (0, set_kind out RELM_OPERAND_IMMEDIATE
                 (if imm_is_signed value_operand then u64 (imm_s value_operand) else u64 (imm_u value_operand)))
  | _ => (- EOPNOTSUPP, out)
  end.

(** [insn_buf] holds [len] bytes; [None] is NULL.  [out] is not NULL. *)
Definition relm_decode_x86 (insn_buf : option (list Z)) (len : Z) (out : relm_decoded_insn)
    : Z * relm_decoded_insn :=
  match insn_buf with
  | None => (- EINVAL, out)
  | Some bytes =>
      if len <=? 0 then (- EINVAL, out)
      else
        let out := decoded0 in
        match zydis_decode_full (take (Z.to_nat len) bytes) with
        | None => (- EINVAL, out)
        | Some (instruction, operands) =>
            if negb (z_is_mov instruction) || z_has_lock instruction then (- EOPNOTSUPP, out)
            else if negb (operand_count_visible instruction =? 2)%nat then (- EOPNOTSUPP, out)
            else
              match find_operands (take (operand_count_visible instruction) operands) None None with
              | Some (Some memory, Some value_operand) =>
                  if negb (z_memop_mem memory) then (- EOPNOTSUPP, out)
                  else if (z_size memory =? 0) || flag (z_size memory) 7 then (- EOPNOTSUPP, out)
                  else
                    let width := z_size memory / 8 in
                    let out := set_mem out (memory_access out) width in
                    if relm_width_mask width =? 0 then (- EOPNOTSUPP, out)
                    else
                      let access :=
                        if z_actions memory =? ZYDIS_OPERAND_ACTION_READ then RELM_MEMORY_ACCESS_READ
                        else if z_actions memory =? ZYDIS_OPERAND_ACTION_WRITE then RELM_MEMORY_ACCESS_WRITE
                        else RELM_MEMORY_ACCESS_INVALID in
                      if bool_decide (access = RELM_MEMORY_ACCESS_INVALID) then (- EOPNOTSUPP, out)
                      else
                        let out := set_mem out access width in
                        let reads := flag (z_actions value_operand) ZYDIS_OPERAND_ACTION_MASK_READ in
                        let writes := flag (z_actions value_operand) ZYDIS_OPERAND_ACTION_MASK_WRITE in
                        if bool_decide (access = RELM_MEMORY_ACCESS_WRITE) && (negb reads || writes)
                        then (- EOPNOTSUPP, out)
                        else if bool_decide (access = RELM_MEMORY_ACCESS_READ) && (negb writes || reads)
                        then (- EOPNOTSUPP, out)
                        else
                          let '(ret, out) := decode_value memory value_operand out in
                          if ret <? 0 then (ret, out)
                          else if (z_length instruction =? 0) || (len <? z_length instruction)
                          then (- EINVAL, out)
                          else (z_length instruction, set_length out (z_length instruction))
              | _ => (- EOPNOTSUPP, out)
              end
        end
  end.

(** Built with CONFIG_X86. *)
Definition relm_decode_instruction (insn_buf : option (list Z)) (len : Z) (out : relm_decoded_insn)
    : Z * relm_decoded_insn := relm_decode_x86 insn_buf len out.
End Adapter.

(** ** The contract *)

Definition valid_width (w : Z) : Prop := w = 1 \/ w = 2 \/ w = 4 \/ w = 8.

Definition load_semantics (w : Z) : relm_gpr_write_semantics :=
  if w <? 4 then RELM_GPR_WRITE_MERGE else if w =? 4 then RELM_GPR_WRITE_ZERO_EXTEND else RELM_GPR_WRITE_REPLACE.

(** A register operand of the same width as the memory operand. *)
Definition gpr_operand (d : relm_decoded_insn) : Prop :=
  relm_decoded_has_valid_gpr d = true /\ gpr_width d = memory_width d.

Record insn_ok (len : Z) (d : relm_decoded_insn) : Prop := InsnOk {
  io_length : 0 < d_length d <= len;
  io_width : valid_width (memory_width d);
  io_operand : match memory_access d with
    | RELM_MEMORY_ACCESS_INVALID => False
    | RELM_MEMORY_ACCESS_READ => gpr_operand d /\ gpr_write_semantics d = load_semantics (memory_width d)
    | RELM_MEMORY_ACCESS_WRITE =>
        gpr_operand d /\ gpr_write_semantics d = RELM_GPR_WRITE_NONE \/ operand_kind d = RELM_OPERAND_IMMEDIATE
    end
}.

Lemma width_mask_spec w : relm_width_mask w <> 0 -> valid_width w.
Proof.
  unfold relm_width_mask, valid_width. repeat case_match; tidy_bool; auto. done.
Qed.

Lemma width_mask_ones w : valid_width w -> relm_width_mask w = Z.ones (8 * w).
Proof. by intros [->|[->|[->| ->]]]. Qed.

Lemma valid_gpr_inv d : relm_decoded_has_valid_gpr d = true ->
  operand_kind d = RELM_OPERAND_GPR /\ 0 <= gpr_index d < 16 /\ valid_width (gpr_width d) /\
  (gpr_bit_offset d = 0 \/ gpr_width d = 1 /\ gpr_bit_offset d = 8).
Proof.
  unfold relm_decoded_has_valid_gpr.
  destruct (bool_decide_reflect (operand_kind d = RELM_OPERAND_GPR)) as [K|]; cbn [negb]; [|done].
  destruct (Z.ltb_spec (gpr_index d) 0), (Z.leb_spec 16 (gpr_index d)); cbn [orb]; try done.
  destruct (Z.eqb_spec (relm_width_mask (gpr_width d)) 0) as [|W]; [done|].
  apply width_mask_spec in W. destruct (Z.eqb_spec (gpr_bit_offset d) 0); [intros _; split_and!; auto; lia|].
  intros [H1 H2]%andb_true_iff. tidy_bool. split_and!; auto; lia.
Qed.

Section Contract.
Context {Zy : Zydis}.

Lemma decode_gpr_spec op out r out' : operand_kind out = RELM_OPERAND_GPR ->
  relm_zydis_decode_gpr op out = (r, out') -> 0 <= r ->
  relm_decoded_has_valid_gpr out' = true /\ memory_access out' = memory_access out /\
  memory_width out' = memory_width out.
Proof.
  intros K. unfold relm_zydis_decode_gpr. repeat case_match; intros [= <- <-] Hge; try done.
Qed.

Lemma decode_value_spec mem op out r out' : decode_value mem op out = (r, out') -> 0 <= r ->
  valid_width (memory_width out) ->
  memory_access out <> RELM_MEMORY_ACCESS_INVALID ->
  memory_access out' = memory_access out /\ memory_width out' = memory_width out /\
  match memory_access out' with
  | RELM_MEMORY_ACCESS_INVALID => False
  | RELM_MEMORY_ACCESS_READ => gpr_operand out' /\ gpr_write_semantics out' = load_semantics (memory_width out')
  | RELM_MEMORY_ACCESS_WRITE =>
      gpr_operand out' /\ gpr_write_semantics out' = RELM_GPR_WRITE_NONE \/ operand_kind out' = RELM_OPERAND_IMMEDIATE
  end.
Proof.
  intros E Hr Hw Ha. unfold decode_value in E. destruct (z_type op); try (injection E as <- <-; done).
  - destruct (relm_zydis_decode_gpr op _) as [r1 o1] eqn:Eg.
    destruct (Z.ltb_spec r1 0); [injection E as <- <-; lia|].
    apply decode_gpr_spec in Eg as (V & A & W); [|done|lia]. simpl in A, W.
    destruct (Z.eqb_spec (gpr_width o1) (memory_width o1)) as [Ew|]; cbn [negb] in E; [|injection E as <- <-; done].
    destruct (bool_decide_reflect (memory_access o1 = RELM_MEMORY_ACCESS_READ)) as [Er|Er].
    + unfold relm_zydis_set_load_semantics in E. rewrite Ew, W in E.
      assert (exists s, out' = set_sem o1 s /\ s = load_semantics (memory_width o1)) as (s & -> & ->).
      { rewrite W. destruct Hw as [Hw|[Hw|[Hw|Hw]]]; rewrite Hw in E |- *; cbn in E; injection E as <- <-; eauto. }
      simpl. rewrite Er. split_and!; [congruence|done| |done]. split; [|done].
      rewrite <- V. reflexivity.
    + injection E as <- <-. simpl. split_and!; [done|done|]. destruct (memory_access o1); try congruence.
      left. split; [|done]. split; [|done]. rewrite <- V. reflexivity.
  - destruct (bool_decide_reflect (memory_access out = RELM_MEMORY_ACCESS_WRITE)) as [Ew|];
      cbn [negb orb] in E; [|injection E as <- <-; done].
    destruct (imm_is_relative op); injection E as <- <-; [done|]. simpl. rewrite Ew. auto.
Qed.

Lemma decode_x86_spec buf len out0 r out : relm_decode_x86 buf len out0 = (r, out) -> 0 <= r ->
  r = d_length out /\ insn_ok len out.
Proof.
  intros E Hr. unfold relm_decode_x86 in E. destruct buf as [bytes|]; [|injection E as <- <-; done].
  destruct (Z.leb_spec len 0); [injection E as <- <-; done|].
  destruct (zydis_decode_full _) as [[ins ops]|]; [|injection E as <- <-; done].
  destruct (_ || z_has_lock ins); [injection E as <- <-; done|].
  destruct (negb _); [injection E as <- <-; done|].
  destruct (find_operands _ _ _) as [[[mem|] [op|]]|]; try (injection E as <- <-; done).
  destruct (negb _); [injection E as <- <-; done|].
  destruct (_ || _); [injection E as <- <-; done|].
  destruct (Z.eqb_spec (relm_width_mask (z_size mem / 8)) 0) as [|W]; [injection E as <- <-; done|].
  apply width_mask_spec in W. cbv zeta in E.
  set (acc := if z_actions mem =? ZYDIS_OPERAND_ACTION_READ then _ else _) in E.
  destruct (bool_decide_reflect (acc = RELM_MEMORY_ACCESS_INVALID)) as [|Ha]; [injection E as <- <-; done|].
  destruct (_ && _); [injection E as <- <-; done|]. destruct (_ && _); [injection E as <- <-; done|].
  destruct (decode_value mem op _) as [r1 o1] eqn:Ev.
  destruct (Z.ltb_spec r1 0); [injection E as <- <-; lia|].
  destruct (decode_value_spec _ _ _ _ _ Ev ltac:(lia) W Ha) as (A1 & A2 & A3). simpl in A1, A2.
  destruct (Z.eqb_spec (z_length ins) 0), (Z.ltb_spec len (z_length ins)); cbn [orb] in E;
    injection E as <- <-; try (exfalso; unfold EINVAL in Hr; lia).
  split; [done|]. split; simpl; [lia|by rewrite A2|exact A3].
Qed.

(** C35. What a successful decode promises the emulators: the length is positive and
    within the bytes given, the memory operand is 1, 2, 4 or 8 bytes wide, a load
    has a real general register of that width with the right write-back rule, and a
    store has such a register or an immediate. *)
Theorem decode_contract (buf : option (list Z)) (len : Z) (out0 out : relm_decoded_insn) (r : Z) :
  relm_decode_instruction buf len out0 = (r, out) -> 0 <= r -> r = d_length out /\ insn_ok len out.
Proof. apply decode_x86_spec. Qed.
End Contract.

(** ** Register write-back *)

(** The bits of the register after a load of [v]: the lane takes the bits of [v];
    the rest is kept for 8- and 16-bit lanes and cleared for 32- and 64-bit ones. *)
Definition x86_load_bit (d : relm_decoded_insn) (old v i : Z) : bool :=
  if decide (gpr_bit_offset d <= i < gpr_bit_offset d + 8 * gpr_width d)
  then Z.testbit v (i - gpr_bit_offset d)
  else if decide (gpr_width d < 4) then Z.testbit old i else false.

Lemma u64_testbit x i : 0 <= i < 64 -> Z.testbit (u64 x) i = Z.testbit x i.
Proof. intros Hi. apply Z.mod_pow2_bits_low. lia. Qed.

Lemma commit_bits d old v i : relm_decoded_has_valid_gpr d = true ->
  gpr_write_semantics d = load_semantics (gpr_width d) -> 0 <= i < 64 ->
  Z.testbit (relm_decoded_gpr_commit d old v) i = x86_load_bit d old v i.
Proof.
  intros V S Hi. destruct (valid_gpr_inv d V) as (_ & _ & W & O). unfold relm_decoded_gpr_commit, x86_load_bit.
  rewrite V, S, (width_mask_ones _ W). cbn [negb].
  assert (forall n, 0 <= n -> Z.testbit (Z.land v (Z.ones n)) i = if decide (0 <= i < n) then Z.testbit v i else false) as L.
  { intros n Hn. rewrite Z.land_spec, Z.testbit_ones by lia. case_decide.
    - rewrite (proj2 (Z.leb_le 0 i)), (proj2 (Z.ltb_lt i n)) by lia. apply andb_true_r.
    - destruct (Z.leb_spec 0 i), (Z.ltb_spec i n); try lia; apply andb_false_r. }
  assert (0 < gpr_width d) as W0 by (destruct W as [|[|[|]]]; lia).
  unfold load_semantics. destruct (Z.ltb_spec (gpr_width d) 4) as [Hw|Hw].
  2:{ assert (gpr_bit_offset d = 0) as -> by (destruct O; lia). rewrite Z.sub_0_r.
      destruct (gpr_width d =? 4); rewrite L by lia; repeat case_decide; try lia; done. }
  rewrite Z.lor_spec, Z.land_spec, !u64_testbit, Z.lnot_spec, u64_testbit, !Z.shiftl_spec by lia.
  set (o := gpr_bit_offset d) in *. assert (0 <= o) by lia.
  destruct (decide (o <= i < o + 8 * gpr_width d)) as [D|D].
  - rewrite Z.testbit_ones, Z.land_spec, Z.testbit_ones by lia.
    rewrite !(proj2 (Z.leb_le 0 (i - o))), !(proj2 (Z.ltb_lt (i - o) _)) by lia.
    cbn [andb negb]. by rewrite andb_false_r, andb_true_r.
  - rewrite (decide_True (P := gpr_width d < 4)) by done.
    rewrite Z.land_spec. destruct (decide (i < o)).
    + rewrite !(Z.testbit_neg_r _ (i - o)) by lia. cbn [negb andb]. by rewrite andb_true_r, orb_false_r.
    + rewrite !Z.testbit_ones by lia. destruct (Z.leb_spec 0 (i - o)); [|lia].
      destruct (Z.ltb_spec (i - o) (8 * gpr_width d)); [lia|]. cbn [andb negb].
      by rewrite andb_true_r, andb_false_r, orb_false_r.
Qed.

(** The shared write-back helper implements the x86 rules bit by bit: a load into
    AH touches bits 15:8 only, 8- and 16-bit loads keep the rest of the register,
    32-bit loads clear the upper half, 64-bit loads replace everything; and reading
    the same lane back gives the transferred value. *)
Theorem gpr_commit_correct (d : relm_decoded_insn) (old v : Z) :
  relm_decoded_has_valid_gpr d = true -> gpr_write_semantics d = load_semantics (gpr_width d) ->
  (forall i, 0 <= i < 64 -> Z.testbit (relm_decoded_gpr_commit d old v) i = x86_load_bit d old v i) /\
  relm_decoded_gpr_extract d (relm_decoded_gpr_commit d old v) = v mod 2 ^ (8 * gpr_width d).
Proof.
  intros V S. split; [intros i; by apply commit_bits|].
  destruct (valid_gpr_inv d V) as (_ & _ & W & O). unfold relm_decoded_gpr_extract.
  assert (0 < gpr_width d <= 8) as W0 by (destruct W as [|[|[|]]]; lia).
  rewrite V, (width_mask_ones _ W). cbn [negb]. rewrite <- Z.land_ones by lia.
  apply Z.bits_inj'. intros i Hi. rewrite !Z.land_spec, Z.shiftr_spec by lia.
  rewrite !Z.testbit_ones by lia.
  destruct (Z.leb_spec 0 i), (Z.ltb_spec i (8 * gpr_width d)) as [D|D]; try lia.
  rewrite commit_bits by (done || (destruct W as [|[|[|]]]; lia)). unfold x86_load_bit.
  rewrite decide_True by lia. by replace (i + gpr_bit_offset d - gpr_bit_offset d) with i by lia.
Qed.

(** ** Concrete instance

    A decoder that knows [mov ebx, \[rax\]] (8B 18) and [mov \[rax\], ecx] (89 08). *)
Module DecoderDemo.
Definition mem_op (actions : Z) : z_operand :=
  ZOperand ZYDIS_OPERAND_TYPE_MEMORY true 32 actions 0 true false false 0 0.
Definition reg_op (r actions : Z) : z_operand :=
  ZOperand ZYDIS_OPERAND_TYPE_REGISTER true 32 actions r false false false 0 0.
#[export] Instance tiny_zydis : Zydis := {|
  zydis_decode_full := fun l =>
    match l with
    | 0x8B :: 0x18 :: _ => Some (ZInstruction true false 2 2, [reg_op 40 2; mem_op 1])
    | 0x89 :: 0x08 :: _ => Some (ZInstruction true false 2 2, [mem_op 2; reg_op 38 1])
    | _ => None
    end;
  zydis_register_class := fun r => if (37 <=? r) && (r <=? 52) then ZYDIS_REGCLASS_GPR32 else ZYDIS_REGCLASS_OTHER;
  zydis_largest_enclosing := fun r => r + 16;
  ZYDIS_REGISTER_RAX := 53; ZYDIS_REGISTER_R15 := 68;
  ZYDIS_REGISTER_AH := 9; ZYDIS_REGISTER_CH := 10; ZYDIS_REGISTER_DH := 11; ZYDIS_REGISTER_BH := 12;
  ZYDIS_OPERAND_ACTION_READ := 1; ZYDIS_OPERAND_ACTION_WRITE := 2;
  ZYDIS_OPERAND_ACTION_MASK_READ := 1; ZYDIS_OPERAND_ACTION_MASK_WRITE := 2
|}.

Definition load_ebx : relm_decoded_insn :=
  DecodedInsn 2 RELM_MEMORY_ACCESS_READ 4 RELM_OPERAND_GPR 0 3 4 0 RELM_GPR_WRITE_ZERO_EXTEND.

Lemma decode_contract_witness :
  relm_decode_instruction (Some [0x8B; 0x18; 0x90]) 3 decoded0 = (2, load_ebx) /\ insn_ok 3 load_ebx.
Proof.
  split; [reflexivity|].
  exact (proj2 (decode_contract (Some [0x8B; 0x18; 0x90]) 3 decoded0 load_ebx 2 eq_refl ltac:(lia))).
Defined.

Lemma gpr_commit_correct_witness :
  relm_decoded_gpr_extract load_ebx (relm_decoded_gpr_commit load_ebx (-1) 0x123456789) = 0x23456789.
Proof. exact (proj2 (gpr_commit_correct load_ebx (-1) 0x123456789 eq_refl eq_refl)). Defined.
End DecoderDemo.
