(* ===== verification/Inat.v ===== *)
(** * Instruction attributes

    include/arch/x86/decoder/inat.h and inat_types.h (the attribute word of an opcode) and
    src/arch/x86/decoder/inat.c (the searches in the opcode maps).  The maps themselves are
    generated from x86-opcode-map.txt: they are the record [inat_tables], a parameter of
    every search.  A read outside a table is [None], so that the bounds of the
    searches are theorems. *)
From S2P Require Import Prelude.

(** ** The attribute word *)

(** Prefix identifiers. *)
Definition INAT_PFX_OPNDSZ : Z := 1.
Definition INAT_PFX_REPE : Z := 2.
Definition INAT_PFX_REPNE : Z := 3.
Definition INAT_PFX_LOCK : Z := 4.
Definition INAT_PFX_CS : Z := 5.
Definition INAT_PFX_DS : Z := 6.
Definition INAT_PFX_ES : Z := 7.
Definition INAT_PFX_FS : Z := 8.
Definition INAT_PFX_GS : Z := 9.
Definition INAT_PFX_SS : Z := 10.
Definition INAT_PFX_ADDRSZ : Z := 11.
Definition INAT_PFX_REX : Z := 12.
Definition INAT_PFX_VEX2 : Z := 13.
Definition INAT_PFX_VEX3 : Z := 14.
Definition INAT_PFX_EVEX : Z := 15.
Definition INAT_PFX_REX2 : Z := 16.
Definition INAT_PFX_XOP : Z := 17.
Definition INAT_LSTPFX_MAX : Z := 3.
Definition INAT_LGCPFX_MAX : Z := 11.

(** Immediate sizes. *)
Definition INAT_IMM_BYTE : Z := 1.
Definition INAT_IMM_WORD : Z := 2.
Definition INAT_IMM_DWORD : Z := 3.
Definition INAT_IMM_QWORD : Z := 4.
Definition INAT_IMM_PTR : Z := 5.
Definition INAT_IMM_VWORD32 : Z := 6.
Definition INAT_IMM_VWORD : Z := 7.

(** Bit fields and flags. *)
Definition INAT_OPCODE_TABLE_SIZE : Z := 256.
Definition INAT_GROUP_TABLE_SIZE : Z := 8.
Definition INAT_PFX_OFFS : Z := 0.
Definition INAT_PFX_BITS : Z := 5.
Definition INAT_PFX_MAX : Z := Z.shiftl 1 INAT_PFX_BITS - 1.
Definition INAT_PFX_MASK : Z := Z.shiftl INAT_PFX_MAX INAT_PFX_OFFS.
Definition INAT_ESC_OFFS : Z := INAT_PFX_OFFS + INAT_PFX_BITS.
Definition INAT_ESC_BITS : Z := 2.
Definition INAT_ESC_MAX : Z := Z.shiftl 1 INAT_ESC_BITS - 1.
Definition INAT_ESC_MASK : Z := Z.shiftl INAT_ESC_MAX INAT_ESC_OFFS.
Definition INAT_GRP_OFFS : Z := INAT_ESC_OFFS + INAT_ESC_BITS.
Definition INAT_GRP_BITS : Z := 5.
Definition INAT_GRP_MAX : Z := Z.shiftl 1 INAT_GRP_BITS - 1.
Definition INAT_GRP_MASK : Z := Z.shiftl INAT_GRP_MAX INAT_GRP_OFFS.
Definition INAT_IMM_OFFS : Z := INAT_GRP_OFFS + INAT_GRP_BITS.
Definition INAT_IMM_BITS : Z := 3.
Definition INAT_IMM_MASK : Z := Z.shiftl (Z.shiftl 1 INAT_IMM_BITS - 1) INAT_IMM_OFFS.
Definition INAT_FLAG_OFFS : Z := INAT_IMM_OFFS + INAT_IMM_BITS.
Definition INAT_MODRM : Z := Z.shiftl 1 INAT_FLAG_OFFS.
Definition INAT_FORCE64 : Z := Z.shiftl 1 (INAT_FLAG_OFFS + 1).
Definition INAT_SCNDIMM : Z := Z.shiftl 1 (INAT_FLAG_OFFS + 2).
Definition INAT_MOFFSET : Z := Z.shiftl 1 (INAT_FLAG_OFFS + 3).
Definition INAT_VARIANT : Z := Z.shiftl 1 (INAT_FLAG_OFFS + 4).
Definition INAT_VEXOK : Z := Z.shiftl 1 (INAT_FLAG_OFFS + 5).
Definition INAT_XOPOK : Z := INAT_VEXOK.
Definition INAT_VEXONLY : Z := Z.shiftl 1 (INAT_FLAG_OFFS + 6).
Definition INAT_EVEXONLY : Z := Z.shiftl 1 (INAT_FLAG_OFFS + 7).
Definition INAT_NO_REX2 : Z := Z.shiftl 1 (INAT_FLAG_OFFS + 8).
Definition INAT_REX2_VARIANT : Z := Z.shiftl 1 (INAT_FLAG_OFFS + 9).
Definition INAT_EVEX_SCALABLE : Z := Z.shiftl 1 (INAT_FLAG_OFFS + 10).
Definition INAT_INV64 : Z := Z.shiftl 1 (INAT_FLAG_OFFS + 11).
Definition INAT_MAKE_PREFIX (pfx : Z) : Z := Z.shiftl pfx INAT_PFX_OFFS.
Definition INAT_MAKE_ESCAPE (esc : Z) : Z := Z.shiftl esc INAT_ESC_OFFS.
Definition INAT_MAKE_GROUP (grp : Z) : Z := Z.lor (Z.shiftl grp INAT_GRP_OFFS) INAT_MODRM.
Definition INAT_MAKE_IMM (imm : Z) : Z := Z.shiftl imm INAT_IMM_OFFS.

(** Attribute checks. *)
Definition inat_pfx (attr : Z) : Z := Z.land attr INAT_PFX_MASK.
Definition inat_is_legacy_prefix (attr : Z) : bool :=
  negb (inat_pfx attr =? 0) && (inat_pfx attr <=? INAT_LGCPFX_MAX).
Definition inat_is_address_size_prefix (attr : Z) : bool := inat_pfx attr =? INAT_PFX_ADDRSZ.
Definition inat_is_operand_size_prefix (attr : Z) : bool := inat_pfx attr =? INAT_PFX_OPNDSZ.
Definition inat_is_rex_prefix (attr : Z) : bool := inat_pfx attr =? INAT_PFX_REX.
Definition inat_is_rex2_prefix (attr : Z) : bool := inat_pfx attr =? INAT_PFX_REX2.
Definition inat_last_prefix_id (attr : Z) : Z :=
  if INAT_LSTPFX_MAX <? inat_pfx attr then 0 else inat_pfx attr.
Definition inat_is_vex_prefix (attr : Z) : bool :=
  (inat_pfx attr =? INAT_PFX_VEX2) || (inat_pfx attr =? INAT_PFX_VEX3) || (inat_pfx attr =? INAT_PFX_EVEX).
Definition inat_is_evex_prefix (attr : Z) : bool := inat_pfx attr =? INAT_PFX_EVEX.
Definition inat_is_vex3_prefix (attr : Z) : bool := inat_pfx attr =? INAT_PFX_VEX3.
Definition inat_is_xop_prefix (attr : Z) : bool := inat_pfx attr =? INAT_PFX_XOP.
Definition inat_is_escape (attr : Z) : bool := flag attr INAT_ESC_MASK.
Definition inat_escape_id (attr : Z) : Z := Z.shiftr (Z.land attr INAT_ESC_MASK) INAT_ESC_OFFS.
Definition inat_is_group (attr : Z) : bool := flag attr INAT_GRP_MASK.
Definition inat_group_id (attr : Z) : Z := Z.shiftr (Z.land attr INAT_GRP_MASK) INAT_GRP_OFFS.
Definition inat_group_common_attribute (attr : Z) : Z := Z.land attr (u32 (Z.lnot INAT_GRP_MASK)).
Definition inat_has_immediate (attr : Z) : bool := flag attr INAT_IMM_MASK.
Definition inat_immediate_size (attr : Z) : Z := Z.shiftr (Z.land attr INAT_IMM_MASK) INAT_IMM_OFFS.
Definition inat_has_modrm (attr : Z) : bool := flag attr INAT_MODRM.
Definition inat_is_force64 (attr : Z) : bool := flag attr INAT_FORCE64.
Definition inat_has_second_immediate (attr : Z) : bool := flag attr INAT_SCNDIMM.
Definition inat_has_moffset (attr : Z) : bool := flag attr INAT_MOFFSET.
Definition inat_has_variant (attr : Z) : bool := flag attr INAT_VARIANT.
Definition inat_accept_vex (attr : Z) : bool := flag attr INAT_VEXOK.
Definition inat_accept_xop (attr : Z) : bool := flag attr INAT_XOPOK.
Definition inat_must_vex (attr : Z) : bool := flag attr (Z.lor INAT_VEXONLY INAT_EVEXONLY).
Definition inat_must_evex (attr : Z) : bool := flag attr INAT_EVEXONLY.
Definition inat_evex_scalable (attr : Z) : bool := flag attr INAT_EVEX_SCALABLE.
Definition inat_is_invalid64 (attr : Z) : bool := flag attr INAT_INV64.

(** ** The opcode maps *)

(** A table of attributes is read by index; a pointer to one may be NULL. *)
Definition table := list Z.
Record inat_tables := InatTables {
  inat_primary_table : table;
  inat_escape_tables : list (list (option table));
  inat_group_tables : list (list (option table));
  inat_avx_tables : list (list (option table));
  inat_xop_tables : list (option table)
}.

Definition X86_VEX_M_MAX : Z := 0x1f.
Definition X86_XOP_M_MIN : Z := 0x08.
Definition X86_XOP_M_MAX : Z := 0x1f.

(** The dimensions of the declarations. *)
Definition table_ok (n : Z) (t : option table) : bool :=
  match t with None => true | Some t => Z.of_nat (length t) =? n end.
Definition map_ok (rows n : Z) (m : list (list (option table))) : bool :=
  (Z.of_nat (length m) =? rows) &&
  forallb (fun r => (Z.of_nat (length r) =? INAT_LSTPFX_MAX + 1) && forallb (table_ok n) r) m.
Definition tables_ok (T : inat_tables) : bool :=
  table_ok INAT_OPCODE_TABLE_SIZE (Some (inat_primary_table T)) &&
  map_ok (INAT_ESC_MAX + 1) INAT_OPCODE_TABLE_SIZE (inat_escape_tables T) &&
  map_ok (INAT_GRP_MAX + 1) INAT_GROUP_TABLE_SIZE (inat_group_tables T) &&
  map_ok (X86_VEX_M_MAX + 1) INAT_OPCODE_TABLE_SIZE (inat_avx_tables T) &&
  (Z.of_nat (length (inat_xop_tables T)) =? X86_XOP_M_MAX - X86_XOP_M_MIN + 1) &&
  forallb (table_ok INAT_OPCODE_TABLE_SIZE) (inat_xop_tables T).

Definition at_index {A} (l : list A) (n : Z) : option A := if n <? 0 then None else l !! Z.to_nat n.
Definition entry (m : list (list (option table))) (n k : Z) : option (option table) :=
  r ← at_index m n; at_index r k.

Definition X86_MODRM_MOD (modrm : Z) : Z := Z.shiftr (Z.land modrm 0xc0) 6.
Definition X86_MODRM_REG (modrm : Z) : Z := Z.shiftr (Z.land modrm 0x38) 3.
Definition X86_MODRM_RM (modrm : Z) : Z := Z.land modrm 0x07.

Section search.
Context (T : inat_tables).

Definition inat_get_opcode_attribute (opcode : Z) : option Z := at_index (inat_primary_table T) opcode.

Definition inat_get_last_prefix_id (last_pfx : Z) : option Z :=
  lpfx_attr ← inat_get_opcode_attribute last_pfx; Some (inat_last_prefix_id lpfx_attr).

Definition inat_get_escape_attribute (opcode lpfx_id esc_attr : Z) : option Z :=
  let n := inat_escape_id esc_attr in
  t ← entry (inat_escape_tables T) n 0;
  match t with
  | None => Some 0
  | Some t =>
      a ← at_index t opcode;
      if inat_has_variant a && negb (lpfx_id =? 0) then
        t ← entry (inat_escape_tables T) n lpfx_id;
        match t with None => Some 0 | Some t => at_index t opcode end
      else Some a
  end.

Definition inat_get_group_attribute (modrm lpfx_id grp_attr : Z) : option Z :=
  let n := inat_group_id grp_attr in
  let common := inat_group_common_attribute grp_attr in
  t ← entry (inat_group_tables T) n 0;
  match t with
  | None => Some common
  | Some t =>
      a ← at_index t (X86_MODRM_REG modrm);
      if inat_has_variant a && negb (lpfx_id =? 0) then
        t ← entry (inat_group_tables T) n lpfx_id;
        match t with
        | None => Some common
        | Some t => a ← at_index t (X86_MODRM_REG modrm); Some (Z.lor a common)
        end
      else Some (Z.lor a common)
  end.

Definition inat_get_avx_attribute (opcode vex_m vex_p : Z) : option Z :=
  if (X86_VEX_M_MAX <? vex_m) || (INAT_LSTPFX_MAX <? vex_p) then Some 0
  else
    t ← entry (inat_avx_tables T) vex_m 0;
    match t with
    | None => Some 0
    | Some t =>
        a ← at_index t opcode;
        if negb (inat_is_group a) && negb (vex_p =? 0) then
          t ← entry (inat_avx_tables T) vex_m vex_p;
          match t with None => Some 0 | Some t => at_index t opcode end
        else Some a
    end.

Definition inat_get_xop_attribute (opcode map_select : Z) : option Z :=
  if (map_select <? X86_XOP_M_MIN) || (X86_XOP_M_MAX <? map_select) then Some 0
  else
    t ← at_index (inat_xop_tables T) (map_select - X86_XOP_M_MIN);
    match t with None => Some 0 | Some t => at_index t opcode end.

(** At most [k] more opcode bytes follow one whose attribute is [attr], whatever they
    are: the opcode maps of the architecture stop at three bytes (0f 38 xx). *)
Fixpoint esc_ends (k : nat) (attr : Z) : bool :=
  if inat_is_escape attr then
    match k with
    | O => false
    | S k =>
        forallb (fun op => forallb (fun pfx =>
          match inat_get_escape_attribute op pfx attr with Some a => esc_ends k a | None => false end)
          [0; 1; 2; 3]) (seqZ 0 256)
    end
  else true.
Definition escapes_end (k : nat) : bool := forallb (esc_ends k) (inat_primary_table T).
End search.

(** ** The searches stay inside the tables *)

Lemma at_index_Some {A} (l : list A) n : 0 <= n < Z.of_nat (length l) -> exists x, at_index l n = Some x.
Proof.
  intros Hn. unfold at_index. rewrite (proj2 (Z.ltb_ge n 0)) by lia.
  apply lookup_lt_is_Some_2. lia.
Qed.

Lemma at_index_elem {A} (l : list A) n x : at_index l n = Some x -> x ∈ l.
Proof. unfold at_index. case_match; [done|]. apply list_elem_of_lookup_2. Qed.

Lemma land_mask_range x lo w : 0 <= lo -> 0 <= w ->
  0 <= Z.shiftr (Z.land x (Z.shiftl (Z.ones w) lo)) lo < 2 ^ w.
Proof.
  intros Hlo Hw. rewrite land_field, Z.shiftr_div_pow2, Z.div_mul by lia.
  apply Z.mod_pos_bound. lia.
Qed.

Lemma escape_id_range attr : 0 <= inat_escape_id attr < 4.
Proof. exact (land_mask_range attr 5 2 ltac:(lia) ltac:(lia)). Qed.
Lemma group_id_range attr : 0 <= inat_group_id attr < 32.
Proof. exact (land_mask_range attr 7 5 ltac:(lia) ltac:(lia)). Qed.
Lemma immediate_size_range attr : 0 <= inat_immediate_size attr < 8.
Proof. exact (land_mask_range attr 12 3 ltac:(lia) ltac:(lia)). Qed.
Lemma modrm_mod_range modrm : 0 <= X86_MODRM_MOD modrm < 4.
Proof. exact (land_mask_range modrm 6 2 ltac:(lia) ltac:(lia)). Qed.
Lemma modrm_reg_range modrm : 0 <= X86_MODRM_REG modrm < 8.
Proof. exact (land_mask_range modrm 3 3 ltac:(lia) ltac:(lia)). Qed.
Lemma pfx_range attr : 0 <= inat_pfx attr < 32.
Proof. exact (land_mask_range attr 0 5 ltac:(lia) ltac:(lia)). Qed.

Lemma last_prefix_id_range attr : 0 <= inat_last_prefix_id attr <= 3.
Proof.
  unfold inat_last_prefix_id. pose proof (pfx_range attr).
  destruct (Z.ltb_spec INAT_LSTPFX_MAX (inat_pfx attr)); unfold INAT_LSTPFX_MAX in *; lia.
Qed.

Lemma entry_ok rows w m n k : map_ok rows w m = true -> 0 <= n < rows -> 0 <= k <= 3 ->
  exists t, entry m n k = Some t /\ table_ok w t = true.
Proof.
  intros Hm Hn Hk. unfold map_ok in Hm. apply andb_true_iff in Hm as [Hr Hf]. apply Z.eqb_eq in Hr.
  rewrite forallb_forall in Hf. destruct (at_index_Some m n) as [r Er]; [lia|].
  specialize (Hf r (proj1 (list_elem_of_In _ _) (at_index_elem _ _ _ Er))).
  apply andb_true_iff in Hf as [Hl Ht]. apply Z.eqb_eq in Hl. rewrite forallb_forall in Ht.
  destruct (at_index_Some r k) as [t Et]; [unfold INAT_LSTPFX_MAX in Hl; lia|].
  exists t. split; [unfold entry; by rewrite Er|].
  apply Ht, list_elem_of_In, (at_index_elem _ _ _ Et).
Qed.

Lemma table_read w t n : table_ok w (Some t) = true -> 0 <= n < w -> exists a, at_index t n = Some a.
Proof. intros Ht Hn. apply Z.eqb_eq in Ht. apply at_index_Some. lia. Qed.

Section bounds.
Context (T : inat_tables) (HT : tables_ok T = true).

Lemma tables_parts :
  table_ok 256 (Some (inat_primary_table T)) = true /\ map_ok 4 256 (inat_escape_tables T) = true /\
  map_ok 32 8 (inat_group_tables T) = true /\ map_ok 32 256 (inat_avx_tables T) = true /\
  Z.of_nat (length (inat_xop_tables T)) = 24 /\ forallb (table_ok 256) (inat_xop_tables T) = true.
Proof. unfold tables_ok in HT. rewrite !andb_true_iff in HT. rewrite Z.eqb_eq in HT. tauto. Qed.

Lemma opcode_attribute_total opcode : 0 <= opcode < 256 ->
  exists a, inat_get_opcode_attribute T opcode = Some a.
Proof. apply table_read, tables_parts. Qed.

Lemma last_prefix_id_total b : 0 <= b < 256 ->
  exists p, inat_get_last_prefix_id T b = Some p /\ 0 <= p <= 3.
Proof.
  intros Hb. unfold inat_get_last_prefix_id. destruct (opcode_attribute_total b Hb) as [a ->].
  eexists. split; [done|]. apply last_prefix_id_range.
Qed.

Lemma escape_attribute_total opcode lpfx_id esc : 0 <= opcode < 256 -> 0 <= lpfx_id <= 3 ->
  exists a, inat_get_escape_attribute T opcode lpfx_id esc = Some a.
Proof.
  intros Ho Hl. unfold inat_get_escape_attribute. pose proof (escape_id_range esc) as Hn.
  destruct tables_parts as (_ & He & _).
  destruct (entry_ok _ _ _ _ 0 He Hn ltac:(lia)) as ([t|] & -> & Ht); simpl; [|eauto].
  destruct (table_read _ _ opcode Ht Ho) as [a ->]; simpl. case_match; [|eauto].
  destruct (entry_ok _ _ _ _ lpfx_id He Hn Hl) as ([t'|] & -> & Ht'); simpl; [|eauto].
  by apply (table_read 256).
Qed.

Lemma group_attribute_total modrm lpfx_id grp : 0 <= lpfx_id <= 3 ->
  exists a, inat_get_group_attribute T modrm lpfx_id grp = Some a.
Proof.
  intros Hl. unfold inat_get_group_attribute. pose proof (group_id_range grp) as Hn.
  pose proof (modrm_reg_range modrm) as Hm. destruct tables_parts as (_ & _ & Hg & _).
  destruct (entry_ok _ _ _ _ 0 Hg Hn ltac:(lia)) as ([t|] & -> & Ht); simpl; [|eauto].
  destruct (table_read _ _ _ Ht Hm) as [a ->]; simpl. case_match; [|eauto].
  destruct (entry_ok _ _ _ _ lpfx_id Hg Hn Hl) as ([t'|] & -> & Ht'); simpl; [|eauto].
  destruct (table_read _ _ _ Ht' Hm) as [a' ->]; simpl. eauto.
Qed.

Lemma avx_attribute_total opcode vex_m vex_p : 0 <= opcode < 256 -> 0 <= vex_m -> 0 <= vex_p ->
  exists a, inat_get_avx_attribute T opcode vex_m vex_p = Some a.
Proof.
  intros Ho Hm Hp. unfold inat_get_avx_attribute.
  destruct (_ || _) eqn:E; [eauto|]. tidy_bool. unfold X86_VEX_M_MAX, INAT_LSTPFX_MAX in *.
  destruct tables_parts as (_ & _ & _ & Ha & _).
  destruct (entry_ok _ _ _ vex_m 0 Ha ltac:(lia) ltac:(lia)) as ([t|] & -> & Ht); simpl; [|eauto].
  destruct (table_read _ _ opcode Ht Ho) as [a ->]; simpl. case_match; [|eauto].
  destruct (entry_ok _ _ _ vex_m vex_p Ha ltac:(lia) ltac:(lia)) as ([t'|] & -> & Ht'); simpl; [|eauto].
  by apply (table_read 256).
Qed.

Lemma xop_attribute_total opcode map_select : 0 <= opcode < 256 ->
  exists a, inat_get_xop_attribute T opcode map_select = Some a.
Proof.
  intros Ho. unfold inat_get_xop_attribute.
  destruct (_ || _) eqn:E; [eauto|]. tidy_bool. unfold X86_XOP_M_MIN, X86_XOP_M_MAX in *.
  destruct tables_parts as (_ & _ & _ & _ & Hl & Hx). rewrite forallb_forall in Hx.
  destruct (at_index_Some (inat_xop_tables T) (map_select - 8)) as [t Et]; [lia|]. rewrite Et. simpl.
  specialize (Hx t (proj1 (list_elem_of_In _ _) (at_index_elem _ _ _ Et))).
  destruct t as [t|]; [|eauto]. by apply (table_read 256).
Qed.

(** One more opcode byte uses up one of the escapes that are left. *)
Lemma esc_ends_step k attr op pfx a : esc_ends T k attr = true -> inat_is_escape attr = true ->
  0 <= op < 256 -> 0 <= pfx <= 3 -> inat_get_escape_attribute T op pfx attr = Some a ->
  exists k', k = S k' /\ esc_ends T k' a = true.
Proof.
  intros He Hi Ho Hp Ha. destruct k as [|k]; cbn [esc_ends] in He; rewrite Hi in He; [done|].
  exists k. split; [done|]. rewrite forallb_forall in He.
  specialize (He op). rewrite <- list_elem_of_In, elem_of_seqZ in He. specialize (He ltac:(lia)).
  rewrite forallb_forall in He. specialize (He pfx). rewrite Ha in He. apply He. simpl. lia.
Qed.

Lemma escapes_end_at k op a : escapes_end T k = true -> inat_get_opcode_attribute T op = Some a ->
  esc_ends T k a = true.
Proof.
  unfold escapes_end. rewrite forallb_forall. intros H E.
  apply H, list_elem_of_In, (at_index_elem _ _ _ E).
Qed.

Lemma esc_ends_masked k attr : esc_ends T k (Z.land attr INAT_INV64) = true.
Proof.
  assert (inat_is_escape (Z.land attr INAT_INV64) = false) as E.
  { unfold inat_is_escape, flag. by rewrite <- Z.land_assoc, Z.land_0_r. }
  destruct k; cbn [esc_ends]; by rewrite E.
Qed.
End bounds.
