(* ===== verification/Insn.v ===== *)
(** * The instruction decoder of the tree

    src/arch/x86/decoder/insn.c with include/arch/x86/decoder/insn.h and emulate_prefix.h: the
    decoder that splits the bytes of an x86 instruction into prefixes, opcode, ModRM, SIB,
    displacement and immediates.

    An instruction is decoded from a buffer of bytes; kaddr is offset 0 and [next_byte],
    [end_kaddr] are offsets.  The functions run in a monad over struct insn: a read or a
    write outside the buffer, a table or the four bytes of a field is [Wild], the
    [goto err_out] of the reading macros is [ErrOut], which the function they are in
    catches.  The loops over prefixes and escapes carry fuel. *)
From S2P Require Import Prelude Inat.

(** ** Data *)

(** struct insn_field: four bytes and their reading as a little-endian int. *)
Record insn_field := InsnField { bytes : list Z; got : bool; nbytes : Z }.
Definition signed (bits z : Z) : Z := (z + 2 ^ (bits - 1)) mod 2 ^ bits - 2 ^ (bits - 1).
Definition value (f : insn_field) : Z := signed 32 (of_le (bytes f)).
Definition zero_field : insn_field := InsnField [0; 0; 0; 0] false 0.
Definition insn_field_set (v n : Z) (f : insn_field) : insn_field := InsnField (le_bytes 4 v) (got f) n.
Definition set_got (f : insn_field) : insn_field := InsnField (bytes f) true (nbytes f).
Definition set_nbytes (n : Z) (f : insn_field) : insn_field := InsnField (bytes f) (got f) n.

(** struct insn.  The union of vex_prefix and xop_prefix is [vex_prefix], the one of
    immediate, moffset1 and immediate1 is [immediate1], the one of moffset2 and immediate2 is
    [immediate2]. *)
Record insn := Insn {
  prefixes : insn_field; rex_prefix : insn_field; vex_prefix : insn_field; opcode : insn_field;
  modrm : insn_field; sib : insn_field; displacement : insn_field;
  immediate1 : insn_field; immediate2 : insn_field;
  emulate_prefix_size : Z; attr : Z; opnd_bytes : Z; addr_bytes : Z; insn_length : Z; x86_64 : bool;
  end_kaddr : Z; next_byte : Z
}.

Definition set_prefixes (v : insn_field) (i : insn) : insn :=
  Insn v (rex_prefix i) (vex_prefix i) (opcode i) (modrm i) (sib i) (displacement i) (immediate1 i)
    (immediate2 i) (emulate_prefix_size i) (attr i) (opnd_bytes i) (addr_bytes i) (insn_length i)
    (x86_64 i) (end_kaddr i) (next_byte i).
Definition set_rex_prefix (v : insn_field) (i : insn) : insn :=
  Insn (prefixes i) v (vex_prefix i) (opcode i) (modrm i) (sib i) (displacement i) (immediate1 i)
    (immediate2 i) (emulate_prefix_size i) (attr i) (opnd_bytes i) (addr_bytes i) (insn_length i)
    (x86_64 i) (end_kaddr i) (next_byte i).
Definition set_vex_prefix (v : insn_field) (i : insn) : insn :=
  Insn (prefixes i) (rex_prefix i) v (opcode i) (modrm i) (sib i) (displacement i) (immediate1 i)
    (immediate2 i) (emulate_prefix_size i) (attr i) (opnd_bytes i) (addr_bytes i) (insn_length i)
    (x86_64 i) (end_kaddr i) (next_byte i).
Definition set_opcode (v : insn_field) (i : insn) : insn :=
  Insn (prefixes i) (rex_prefix i) (vex_prefix i) v (modrm i) (sib i) (displacement i) (immediate1 i)
    (immediate2 i) (emulate_prefix_size i) (attr i) (opnd_bytes i) (addr_bytes i) (insn_length i)
    (x86_64 i) (end_kaddr i) (next_byte i).
Definition set_modrm (v : insn_field) (i : insn) : insn :=
  Insn (prefixes i) (rex_prefix i) (vex_prefix i) (opcode i) v (sib i) (displacement i) (immediate1 i)
    (immediate2 i) (emulate_prefix_size i) (attr i) (opnd_bytes i) (addr_bytes i) (insn_length i)
    (x86_64 i) (end_kaddr i) (next_byte i).
Definition set_sib (v : insn_field) (i : insn) : insn :=
  Insn (prefixes i) (rex_prefix i) (vex_prefix i) (opcode i) (modrm i) v (displacement i)
    (immediate1 i) (immediate2 i) (emulate_prefix_size i) (attr i) (opnd_bytes i) (addr_bytes i)
    (insn_length i) (x86_64 i) (end_kaddr i) (next_byte i).
Definition set_displacement (v : insn_field) (i : insn) : insn :=
  Insn (prefixes i) (rex_prefix i) (vex_prefix i) (opcode i) (modrm i) (sib i) v (immediate1 i)
    (immediate2 i) (emulate_prefix_size i) (attr i) (opnd_bytes i) (addr_bytes i) (insn_length i)
    (x86_64 i) (end_kaddr i) (next_byte i).
Definition set_immediate1 (v : insn_field) (i : insn) : insn :=
  Insn (prefixes i) (rex_prefix i) (vex_prefix i) (opcode i) (modrm i) (sib i) (displacement i) v
    (immediate2 i) (emulate_prefix_size i) (attr i) (opnd_bytes i) (addr_bytes i) (insn_length i)
    (x86_64 i) (end_kaddr i) (next_byte i).
Definition set_immediate2 (v : insn_field) (i : insn) : insn :=
  Insn (prefixes i) (rex_prefix i) (vex_prefix i) (opcode i) (modrm i) (sib i) (displacement i)
    (immediate1 i) v (emulate_prefix_size i) (attr i) (opnd_bytes i) (addr_bytes i) (insn_length i)
    (x86_64 i) (end_kaddr i) (next_byte i).
Definition set_emulate_prefix_size (v : Z) (i : insn) : insn :=
  Insn (prefixes i) (rex_prefix i) (vex_prefix i) (opcode i) (modrm i) (sib i) (displacement i)
    (immediate1 i) (immediate2 i) v (attr i) (opnd_bytes i) (addr_bytes i) (insn_length i)
    (x86_64 i) (end_kaddr i) (next_byte i).
Definition set_attr (v : Z) (i : insn) : insn :=
  Insn (prefixes i) (rex_prefix i) (vex_prefix i) (opcode i) (modrm i) (sib i) (displacement i)
    (immediate1 i) (immediate2 i) (emulate_prefix_size i) v (opnd_bytes i) (addr_bytes i)
    (insn_length i) (x86_64 i) (end_kaddr i) (next_byte i).
Definition set_opnd_bytes (v : Z) (i : insn) : insn :=
  Insn (prefixes i) (rex_prefix i) (vex_prefix i) (opcode i) (modrm i) (sib i) (displacement i)
    (immediate1 i) (immediate2 i) (emulate_prefix_size i) (attr i) v (addr_bytes i) (insn_length i)
    (x86_64 i) (end_kaddr i) (next_byte i).
Definition set_addr_bytes (v : Z) (i : insn) : insn :=
  Insn (prefixes i) (rex_prefix i) (vex_prefix i) (opcode i) (modrm i) (sib i) (displacement i)
    (immediate1 i) (immediate2 i) (emulate_prefix_size i) (attr i) (opnd_bytes i) v (insn_length i)
    (x86_64 i) (end_kaddr i) (next_byte i).
Definition set_insn_length (v : Z) (i : insn) : insn :=
  Insn (prefixes i) (rex_prefix i) (vex_prefix i) (opcode i) (modrm i) (sib i) (displacement i)
    (immediate1 i) (immediate2 i) (emulate_prefix_size i) (attr i) (opnd_bytes i) (addr_bytes i) v
    (x86_64 i) (end_kaddr i) (next_byte i).
Definition set_next_byte (v : Z) (i : insn) : insn :=
  Insn (prefixes i) (rex_prefix i) (vex_prefix i) (opcode i) (modrm i) (sib i) (displacement i)
    (immediate1 i) (immediate2 i) (emulate_prefix_size i) (attr i) (opnd_bytes i) (addr_bytes i)
    (insn_length i) (x86_64 i) (end_kaddr i) v.

(** A field by name, as the helpers take a pointer to one. *)
Inductive part :=
  | PREFIXES | REX_PREFIX | VEX_PREFIX | OPCODE | MODRM | SIB | DISPLACEMENT | IMMEDIATE1 | IMMEDIATE2.
#[export] Instance part_eq_dec : EqDecision part.
Proof. solve_decision. Defined.
Definition field_of (p : part) (i : insn) : insn_field :=
  match p with
  | PREFIXES => prefixes i
  | REX_PREFIX => rex_prefix i
  | VEX_PREFIX => vex_prefix i
  | OPCODE => opcode i
  | MODRM => modrm i
  | SIB => sib i
  | DISPLACEMENT => displacement i
  | IMMEDIATE1 => immediate1 i
  | IMMEDIATE2 => immediate2 i
  end.
Definition set_field (p : part) (v : insn_field) (i : insn) : insn :=
  match p with
  | PREFIXES => set_prefixes v i
  | REX_PREFIX => set_rex_prefix v i
  | VEX_PREFIX => set_vex_prefix v i
  | OPCODE => set_opcode v i
  | MODRM => set_modrm v i
  | SIB => set_sib v i
  | DISPLACEMENT => set_displacement v i
  | IMMEDIATE1 => set_immediate1 v i
  | IMMEDIATE2 => set_immediate2 v i
  end.
Definition upd_field (p : part) (g : insn_field -> insn_field) (i : insn) : insn := set_field p (g (field_of p i)) i.

Definition MAX_INSN_SIZE : Z := 15.
Definition X86_SIB_BASE (sib : Z) : Z := Z.land sib 0x07.
Definition X86_REX2_M (rex : Z) : Z := Z.land rex 0x80.
Definition X86_REX_W (rex : Z) : Z := Z.land rex 8.
Definition X86_VEX_W (vex : Z) : Z := Z.land vex 0x80.
Definition X86_EVEX_M (vex : Z) : Z := Z.land vex 0x07.
Definition X86_VEX3_M (vex : Z) : Z := Z.land vex 0x1f.
Definition X86_VEX2_M : Z := 1.
Definition X86_VEX_P (vex : Z) : Z := Z.land vex 0x03.
Definition X86_XOP_M (xop : Z) : Z := Z.land xop 0x1f.
Definition X86_XOP_P (xop : Z) : Z := Z.land xop 0x03.
Definition xen_prefix : list Z := [0x0f; 0x0b; 0x78; 0x65; 0x6e].
Definition kvm_prefix : list Z := [0x0f; 0x0b; 0x6b; 0x76; 0x6d].

(** enum insn_mode, an unsigned int.  [INSN_MODE_KERN] is the enumerator of the header;
    insn.c defines a macro of that name before it compares. *)
Definition INSN_MODE_32 : Z := 0.
Definition INSN_MODE_64 : Z := 1.
Definition INSN_MODE_KERN : Z := 2.
Definition INSN_MODE_KERN_macro : Z := u32 (-1).

(** ** The monad *)

Inductive outcome (A : Type) := Val (a : A) (i : insn) | ErrOut (i : insn) | Wild | Spin.
Arguments Val {A}. Arguments ErrOut {A}. Arguments Wild {A}. Arguments Spin {A}.
Definition dec (A : Type) : Type := insn -> outcome A.
Definition dret {A} (a : A) : dec A := fun i => Val a i.
Definition dbind {A B} (m : dec A) (k : A -> dec B) : dec B := fun i =>
  match m i with Val a i => k a i | ErrOut i => ErrOut i | Wild => Wild | Spin => Spin end.
Definition gets {A} (f : insn -> A) : dec A := fun i => Val (f i) i.
Definition mod_ (f : insn -> insn) : dec unit := fun i => Val tt (f i).
Definition err_out {A} : dec A := fun i => ErrOut i.
(** A table search or an array access; [None] is out of range. *)
Definition lift {A} (o : option A) : dec A := fun i => match o with Some a => Val a i | None => Wild end.
(** The label err_out of a function: [return code]. *)
Definition catch (m : dec Z) (code : Z) : dec Z := fun i => match m i with ErrOut i => Val code i | r => r end.

Declare Scope insn_scope.
Delimit Scope insn_scope with insn.
Notation "x <- c1 ;; c2" := (dbind c1 (fun x => c2))
  (at level 100, c1 at next level, right associativity) : insn_scope.
Notation "c1 ;; c2" := (dbind c1 (fun _ => c2)) (at level 100, right associativity) : insn_scope.
#[local] Open Scope insn_scope.

(** if (c) m; *)
Definition when (c : bool) (m : dec unit) : dec unit := if c then m else dret tt.
(** insn_set_byte *)
Definition insn_set_byte (p : part) (n v : Z) : dec unit := fun i =>
  if (0 <=? n) && (n <? 4)
  then Val tt (upd_field p (fun f => InsnField (<[Z.to_nat n := v]> (bytes f)) (got f) (nbytes f)) i)
  else Wild.
Definition byte_of (p : part) (n : Z) : dec Z := fun i => lift (at_index (bytes (field_of p i)) n) i.
Definition advance (n : Z) : dec unit := mod_ (fun i => set_next_byte (next_byte i + n) i).
Definition field_set (p : part) (v n : Z) : dec unit := mod_ (upd_field p (insn_field_set v n)).
Definition mark_got (p : part) : dec unit := mod_ (upd_field p set_got).

(** The C types the macros read. *)
Inductive ctype := CU8 | CS8 | CS16 | CU16 | CS32.
Definition size_of (t : ctype) : Z := match t with CU8 | CS8 => 1 | CS16 | CU16 => 2 | CS32 => 4 end.
Definition leXX_to_cpu (t : ctype) (bs : list Z) : Z :=
  match t with
  | CU8 | CU16 => of_le bs
  | CS8 => signed 8 (of_le bs) | CS16 => signed 16 (of_le bs) | CS32 => signed 32 (of_le bs)
  end.

Definition slice (buf : list Z) (off n : Z) : list Z := take (Z.to_nat n) (drop (Z.to_nat off) buf).
Definition read_buf (buf : list Z) (off n : Z) : option (list Z) :=
  if (0 <=? off) && (off + n <=? Z.of_nat (length buf)) then Some (slice buf off n) else None.

Section decoder.
Context (T : inat_tables) (config_x86_64 : bool) (buf : list Z).

Definition validate_next (t : ctype) (n : Z) (i : insn) : bool := next_byte i + size_of t + n <=? end_kaddr i.
Definition get_next (t : ctype) : dec Z :=
  ok <- gets (validate_next t 0);;
  if negb ok then err_out
  else
    o <- gets next_byte;;
    bs <- lift (read_buf buf o (size_of t));;
    advance (size_of t);;
    dret (leXX_to_cpu t bs).
Definition peek_nbyte_next (n : Z) : dec Z :=
  ok <- gets (validate_next CU8 n);;
  if negb ok then err_out
  else
    o <- gets next_byte;;
    bs <- lift (read_buf buf (o + n) 1);;
    dret (leXX_to_cpu CU8 bs).
Definition peek_next : dec Z := peek_nbyte_next 0.
Definition opcode_attribute (b : Z) : dec Z := lift (inat_get_opcode_attribute T b).

(** ** Prefixes *)

Definition insn_init (buf_len : Z) (x64 : bool) : insn :=
  let buf_len := if MAX_INSN_SIZE <? buf_len then MAX_INSN_SIZE else buf_len in
  let z := zero_field in
  Insn z z z z z z z z z 0 0 4 (if x64 then 8 else 4) 0 x64 buf_len 0.

Fixpoint match_prefix (n : Z) (prefix : list Z) : dec bool :=
  match prefix with
  | [] => dret true
  | c :: prefix => b <- peek_nbyte_next n;; if b =? c then match_prefix (n + 1) prefix else dret false
  end.
Definition __insn_get_emulate_prefix (prefix : list Z) : dec Z :=
  catch (
    ok <- match_prefix 0 prefix;;
    if negb ok then err_out
    else
      let len := Z.of_nat (length prefix) in
      mod_ (set_emulate_prefix_size len);;
      advance len;;
      dret 1) 0.
Definition insn_get_emulate_prefix : dec unit :=
  r <- __insn_get_emulate_prefix xen_prefix;;
  if negb (r =? 0) then dret tt
  else _ <- __insn_get_emulate_prefix kvm_prefix;; dret tt.

(** The loop over legacy prefixes: its result is nb, lb and attr when it leaves. *)
Fixpoint legacy_loop (fuel : nat) (nb lb b a : Z) : dec (Z * Z * Z) :=
  match fuel with
  | O => fun _ => Spin
  | S fuel =>
      if negb (inat_is_legacy_prefix a) then dret (nb, lb, a)
      else
        bs <- gets (fun i => bytes (prefixes i));;
        let found := existsb (Z.eqb b) (take (Z.to_nat nb) bs) in
        if negb found && (nb =? 4) then dret (nb, lb, a)
        else
          when (negb found) (
            insn_set_byte PREFIXES nb b;;
            if inat_is_address_size_prefix a then
              mod_ (fun i => set_addr_bytes (Z.lxor (addr_bytes i) (if x86_64 i then 12 else 6)) i)
            else
              when (inat_is_operand_size_prefix a)
                (mod_ (fun i => set_opnd_bytes (Z.lxor (opnd_bytes i) 6) i)));;
          mod_ (upd_field PREFIXES (fun f => set_nbytes (u8 (nbytes f + 1)) f));;
          advance 1;;
          b' <- peek_next;;
          a' <- opcode_attribute b';;
          legacy_loop fuel (if found then nb else nb + 1) b b' a'
  end.

(** "Set the last prefix". *)
Definition set_last_prefix (nb lb : Z) : dec unit :=
  b3 <- byte_of PREFIXES 3;;
  when (negb (lb =? 0) && negb (lb =? b3)) (
    when (negb (b3 =? 0)) (mod_ (upd_field PREFIXES (fun f =>
      let n := Z.to_nat nb in
      InsnField (map (fun x => if x =? lb then b3 else x) (take n (bytes f)) ++ drop n (bytes f))
        (got f) (nbytes f))));;
    insn_set_byte PREFIXES 3 lb).

(** "Decode REX prefix": the attribute of the last byte looked at and whether control
    goes to vex_end. *)
Definition rex_step (a : Z) : dec (Z * bool) :=
  x64 <- gets x86_64;;
  if negb x64 then dret (a, false)
  else
    b <- peek_next;;
    a <- opcode_attribute b;;
    if inat_is_rex_prefix a then
      field_set REX_PREFIX b 1;;
      advance 1;;
      when (negb (X86_REX_W b =? 0)) (mod_ (set_opnd_bytes 8));;
      dret (a, false)
    else if inat_is_rex2_prefix a then
      insn_set_byte REX_PREFIX 0 b;;
      b <- peek_nbyte_next 1;;
      insn_set_byte REX_PREFIX 1 b;;
      mod_ (upd_field REX_PREFIX (set_nbytes 2));;
      advance 2;;
      when (negb (X86_REX_W b =? 0)) (mod_ (set_opnd_bytes 8));;
      mark_got REX_PREFIX;;
      dret (a, true)
    else dret (a, false).

(** "Decode VEX/XOP prefix", up to vex_end. *)
Definition vex_step (a : Z) : dec unit :=
  b <- peek_next;;
  if inat_is_vex_prefix a || inat_is_xop_prefix a then
    b2 <- peek_nbyte_next 1;;
    x64 <- gets x86_64;;
    if inat_is_xop_prefix a && (X86_MODRM_REG b2 =? 0) then dret tt
    else if negb x64 && negb (X86_MODRM_MOD b2 =? 3) then dret tt
    else
      insn_set_byte VEX_PREFIX 0 b;;
      insn_set_byte VEX_PREFIX 1 b2;;
      if inat_is_evex_prefix a then
        b2 <- peek_nbyte_next 2;;
        insn_set_byte VEX_PREFIX 2 b2;;
        b2 <- peek_nbyte_next 3;;
        insn_set_byte VEX_PREFIX 3 b2;;
        mod_ (upd_field VEX_PREFIX (set_nbytes 4));;
        advance 4;;
        when (x64 && negb (X86_VEX_W b2 =? 0)) (mod_ (set_opnd_bytes 8))
      else if inat_is_vex3_prefix a || inat_is_xop_prefix a then
        b2 <- peek_nbyte_next 2;;
        insn_set_byte VEX_PREFIX 2 b2;;
        mod_ (upd_field VEX_PREFIX (set_nbytes 3));;
        advance 3;;
        when (x64 && negb (X86_VEX_W b2 =? 0)) (mod_ (set_opnd_bytes 8))
      else
        insn_set_byte VEX_PREFIX 2 (Z.land b2 0x7f);;
        mod_ (upd_field VEX_PREFIX (set_nbytes 2));;
        advance 2
  else dret tt.

(** One iteration for each byte of the instruction and one to leave. *)
Definition loop_fuel : nat := 17.

Definition insn_get_prefixes : dec Z :=
  g <- gets (fun i => got (prefixes i));;
  if g : bool then dret 0
  else catch (
    insn_get_emulate_prefix;;
    b <- peek_next;;
    a <- opcode_attribute b;;
    r <- legacy_loop loop_fuel 0 0 b a;;
    let '(nb, lb, a) := r in
    set_last_prefix nb lb;;
    r <- rex_step a;;
    let '(a, vex_end) := r in
    (if vex_end : bool then dret tt else mark_got REX_PREFIX;; vex_step a);;
    mark_got VEX_PREFIX;;
    mark_got PREFIXES;;
    dret 0) (- ENODATA).

(** ** The queries of insn.h *)

(** if (!insn->prefixes.got) insn_get_prefixes(insn); *)
Definition ensure_prefixes : dec unit :=
  g <- gets (fun i => got (prefixes i));;
  if g : bool then dret tt else _ <- insn_get_prefixes;; dret tt.
Definition insn_is_rex2 : dec bool := ensure_prefixes;; gets (fun i => nbytes (rex_prefix i) =? 2).
Definition insn_rex2_m_bit : dec Z := b <- byte_of REX_PREFIX 1;; dret (X86_REX2_M b).
Definition insn_is_avx_or_xop : dec bool := ensure_prefixes;; gets (fun i => negb (value (vex_prefix i) =? 0)).
Definition insn_is_evex : dec bool := ensure_prefixes;; gets (fun i => nbytes (vex_prefix i) =? 4).
Definition avx_insn_is_xop : dec bool :=
  b <- byte_of VEX_PREFIX 0;; a <- opcode_attribute b;; dret (inat_is_xop_prefix a).
Definition insn_is_xop : dec bool :=
  avx <- insn_is_avx_or_xop;; if negb avx then dret false else avx_insn_is_xop.
Definition insn_has_emulate_prefix : dec bool := gets (fun i => negb (emulate_prefix_size i =? 0)).
Definition insn_vex_m_bits : dec Z :=
  n <- gets (fun i => nbytes (vex_prefix i));;
  if n =? 2 then dret X86_VEX2_M
  else
    b <- byte_of VEX_PREFIX 1;;
    dret (if n =? 3 then X86_VEX3_M b else X86_EVEX_M b).
Definition insn_vex_p_bits : dec Z :=
  n <- gets (fun i => nbytes (vex_prefix i));;
  b <- byte_of VEX_PREFIX (if n =? 2 then 1 else 2);; dret (X86_VEX_P b).
Definition insn_vex_w_bit : dec Z :=
  n <- gets (fun i => nbytes (vex_prefix i));;
  if n <? 3 then dret 0 else b <- byte_of VEX_PREFIX 2;; dret (X86_VEX_W b).
Definition insn_xop_map_bits : dec Z :=
  n <- gets (fun i => nbytes (vex_prefix i));;
  if n <? 3 then dret 0 else b <- byte_of VEX_PREFIX 1;; dret (X86_XOP_M b).
Definition insn_xop_p_bits : dec Z := b <- byte_of VEX_PREFIX 2;; dret (X86_XOP_P b).
Definition insn_last_prefix_id : dec Z :=
  avx <- insn_is_avx_or_xop;;
  if avx : bool then
    xop <- avx_insn_is_xop;; if xop : bool then insn_xop_p_bits else insn_vex_p_bits
  else
    b <- byte_of PREFIXES 3;;
    if negb (b =? 0) then lift (inat_get_last_prefix_id T b) else dret 0.

(** ** Opcode *)

Definition set_attr_m (a : Z) : dec unit := mod_ (set_attr a).

(** while (inat_is_escape(insn->attr)) *)
Fixpoint escape_loop (fuel : nat) : dec unit :=
  match fuel with
  | O => fun _ => Spin
  | S fuel =>
      a <- gets attr;;
      if negb (inat_is_escape a) then dret tt
      else
        op <- get_next CU8;;
        n <- gets (fun i => nbytes (opcode i));;
        insn_set_byte OPCODE n op;;
        mod_ (upd_field OPCODE (set_nbytes (u8 (n + 1))));;
        pfx_id <- insn_last_prefix_id;;
        a <- lift (inat_get_escape_attribute T op pfx_id a);;
        set_attr_m a;;
        escape_loop fuel
  end.

(** The three kinds of opcode: after a VEX or XOP prefix, after REX2, and plain. *)
Definition bad_insn : dec Z := set_attr_m 0;; dret (- EINVAL).
Definition opcode_end : dec Z := mark_got OPCODE;; dret 0.

Definition avx_opcode (op : Z) : dec Z :=
  xop <- avx_insn_is_xop;;
  if xop : bool then
    m <- insn_xop_map_bits;;
    a <- lift (inat_get_xop_attribute T op m);;
    set_attr_m a;;
    if negb (inat_accept_xop a) then bad_insn else opcode_end
  else
    m <- insn_vex_m_bits;;
    p <- insn_vex_p_bits;;
    a <- lift (inat_get_avx_attribute T op m p);;
    set_attr_m a;;
    w <- insn_vex_w_bit;;
    when (inat_evex_scalable a && (w =? 0) && (p =? INAT_PFX_OPNDSZ)) (mod_ (set_opnd_bytes 2));;
    evex <- insn_is_evex;;
    if (inat_must_evex a && negb evex) || (negb (inat_accept_vex a) && negb (inat_is_group a))
    then bad_insn else opcode_end.

Definition rex2_opcode (op : Z) : dec Z :=
  m <- insn_rex2_m_bit;;
  (if negb (m =? 0) then
     esc_attr <- opcode_attribute 0x0f;;
     pfx_id <- insn_last_prefix_id;;
     a <- lift (inat_get_escape_attribute T op pfx_id esc_attr);;
     set_attr_m a
   else
     a <- opcode_attribute op;; set_attr_m a);;
  opcode_end.

Definition plain_opcode (op : Z) : dec Z :=
  a <- opcode_attribute op;;
  x64 <- gets x86_64;;
  set_attr_m (if x64 && inat_is_invalid64 a then Z.land a INAT_INV64 else a);;
  escape_loop loop_fuel;;
  a <- gets attr;;
  if inat_must_vex a then bad_insn else opcode_end.

Definition insn_get_opcode : dec Z :=
  g <- gets (fun i => got (opcode i));;
  if g : bool then dret 0
  else
    ret <- insn_get_prefixes;;
    if negb (ret =? 0) then dret ret
    else catch (
      op <- get_next CU8;;
      insn_set_byte OPCODE 0 op;;
      mod_ (upd_field OPCODE (set_nbytes 1));;
      avx <- insn_is_avx_or_xop;;
      if avx : bool then avx_opcode op
      else
        rex2 <- insn_is_rex2;;
        if rex2 : bool then rex2_opcode op else plain_opcode op) (- ENODATA).

(** ** ModRM and SIB *)

Definition group_step (m : Z) : dec bool :=
  a <- gets attr;;
  if negb (inat_is_group a) then dret true
  else
    pfx_id <- insn_last_prefix_id;;
    a <- lift (inat_get_group_attribute T m (u8 pfx_id) a);;
    set_attr_m a;;
    avx <- insn_is_avx_or_xop;;
    dret (negb (avx && negb (inat_accept_vex a) && negb (inat_accept_xop a))).

Definition insn_get_modrm : dec Z :=
  g <- gets (fun i => got (modrm i));;
  if g : bool then dret 0
  else
    ret <- insn_get_opcode;;
    if negb (ret =? 0) then dret ret
    else catch (
      a <- gets attr;;
      good <- (if inat_has_modrm a then
                 m <- get_next CU8;; field_set MODRM m 1;; group_step m
               else dret true);;
      if negb good then bad_insn
      else
        x64 <- gets x86_64;;
        a <- gets attr;;
        when (x64 && inat_is_force64 a) (mod_ (set_opnd_bytes 8));;
        mark_got MODRM;;
        dret 0) (- ENODATA).

Definition insn_get_attribute : dec unit := _ <- insn_get_modrm;; dret tt.

Definition insn_rip_relative : dec bool :=
  x64 <- gets x86_64;;
  if negb x64 then dret false
  else
    ret <- insn_get_modrm;;
    if negb (ret =? 0) then dret false
    else
      n <- gets (fun i => nbytes (modrm i));;
      b <- byte_of MODRM 0;;
      dret (negb (n =? 0) && (Z.land b 0xc7 =? 0x5)).

Definition insn_get_sib : dec Z :=
  g <- gets (fun i => got (sib i));;
  if g : bool then dret 0
  else
    ret <- insn_get_modrm;;
    if negb (ret =? 0) then dret ret
    else catch (
      n <- gets (fun i => nbytes (modrm i));;
      m <- byte_of MODRM 0;;
      ab <- gets addr_bytes;;
      when (negb (n =? 0) && negb (ab =? 2) && negb (X86_MODRM_MOD m =? 3) && (X86_MODRM_RM m =? 4))
        (s <- get_next CU8;; field_set SIB s 1);;
      mark_got SIB;;
      dret 0) (- ENODATA).

(** ** Displacement and immediates *)

(** insn_field_set(&insn->field, get_next(t, insn), sizeof(t)) *)
Definition take_field (p : part) (t : ctype) : dec unit := v <- get_next t;; field_set p v (size_of t).

(** The type of the displacement, from ModRM, SIB and the address size. *)
Definition displacement_type (mod_ rm base addr_bytes : Z) : option ctype :=
  if mod_ =? 3 then None
  else if mod_ =? 1 then Some CS8
  else if addr_bytes =? 2 then
    if ((mod_ =? 0) && (rm =? 6)) || (mod_ =? 2) then Some CS16 else None
  else
    if ((mod_ =? 0) && (rm =? 5)) || (mod_ =? 2) || ((mod_ =? 0) && (base =? 5)) then Some CS32 else None.

Definition insn_get_displacement : dec Z :=
  g <- gets (fun i => got (displacement i));;
  if g : bool then dret 0
  else
    ret <- insn_get_sib;;
    if negb (ret =? 0) then dret ret
    else catch (
      n <- gets (fun i => nbytes (modrm i));;
      t <- gets (fun i => displacement_type (X86_MODRM_MOD (value (modrm i))) (X86_MODRM_RM (value (modrm i)))
                            (X86_SIB_BASE (value (sib i))) (addr_bytes i));;
      (if n =? 0 then dret tt
       else match t with Some t => take_field DISPLACEMENT t | None => dret tt end);;
      mark_got DISPLACEMENT;;
      dret 0) (- ENODATA).

Definition both_got : dec unit := mark_got IMMEDIATE2;; mark_got IMMEDIATE1.

Definition __get_moffset : dec Z :=
  catch (
    ab <- gets addr_bytes;;
    (if ab =? 2 then take_field IMMEDIATE1 CS16
     else if ab =? 4 then take_field IMMEDIATE1 CS32
     else if ab =? 8 then take_field IMMEDIATE1 CS32;; take_field IMMEDIATE2 CS32
     else err_out);;
    both_got;;
    dret 1) 0.

Definition __get_immv32 : dec Z :=
  catch (
    ob <- gets opnd_bytes;;
    (if ob =? 2 then take_field IMMEDIATE1 CS16
     else if (ob =? 4) || (ob =? 8) then take_field IMMEDIATE1 CS32
     else err_out);;
    dret 1) 0.

Definition __get_immv : dec Z :=
  catch (
    ob <- gets opnd_bytes;;
    (if ob =? 2 then take_field IMMEDIATE1 CS16
     else if ob =? 4 then take_field IMMEDIATE1 CS32;; mod_ (upd_field IMMEDIATE1 (set_nbytes 4))
     else if ob =? 8 then take_field IMMEDIATE1 CS32;; take_field IMMEDIATE2 CS32
     else err_out);;
    both_got;;
    dret 1) 0.

Definition __get_immptr : dec Z :=
  catch (
    ob <- gets opnd_bytes;;
    if ob =? 8 then dret 0
    else
      (if ob =? 2 then take_field IMMEDIATE1 CS16
       else if ob =? 4 then take_field IMMEDIATE1 CS32
       else err_out);;
      take_field IMMEDIATE2 CU16;;
      both_got;;
      dret 1) 0.

(** if (!__get_x(insn)) goto err_out; *)
Definition or_err (m : dec Z) : dec unit := r <- m;; if r =? 0 then err_out else dret tt.

Definition immediate_step (size : Z) : dec unit :=
  if size =? INAT_IMM_BYTE then take_field IMMEDIATE1 CS8
  else if size =? INAT_IMM_WORD then take_field IMMEDIATE1 CS16
  else if size =? INAT_IMM_DWORD then take_field IMMEDIATE1 CS32
  else if size =? INAT_IMM_QWORD then take_field IMMEDIATE1 CS32;; take_field IMMEDIATE2 CS32
  else if size =? INAT_IMM_PTR then or_err __get_immptr
  else if size =? INAT_IMM_VWORD32 then or_err __get_immv32
  else if size =? INAT_IMM_VWORD then or_err __get_immv
  else err_out.

Definition insn_get_immediate : dec Z :=
  g <- gets (fun i => got (immediate1 i));;
  if g : bool then dret 0
  else
    ret <- insn_get_displacement;;
    if negb (ret =? 0) then dret ret
    else catch (
      a <- gets attr;;
      (if inat_has_moffset a then or_err __get_moffset
       else if negb (inat_has_immediate a) then dret tt
       else
         immediate_step (inat_immediate_size a);;
         when (inat_has_second_immediate a) (take_field IMMEDIATE2 CS8));;
      mark_got IMMEDIATE1;;
      dret 0) (- ENODATA).

(** ** The whole instruction *)

Definition insn_get_length : dec Z :=
  l <- gets insn_length;;
  if negb (l =? 0) then dret 0
  else
    ret <- insn_get_immediate;;
    if negb (ret =? 0) then dret ret
    else mod_ (fun i => set_insn_length (u8 (next_byte i)) i);; dret 0.

Definition insn_complete (i : insn) : bool :=
  got (opcode i) && got (modrm i) && got (sib i) && got (displacement i) && got (immediate1 i).

Definition insn_decode (buf_len m : Z) : outcome Z :=
  let i := if m =? INSN_MODE_KERN_macro then insn_init buf_len config_x86_64
           else insn_init buf_len (m =? INSN_MODE_64) in
  (ret <- insn_get_length;;
   if negb (ret =? 0) then dret ret
   else c <- gets insn_complete;; dret (if c : bool then 0 else - EINVAL)) i.

Definition insn_decode_kernel : outcome Z := insn_decode MAX_INSN_SIZE INSN_MODE_KERN.
End decoder.

(** ** Offsets and classification *)

Definition insn_offset_rex_prefix (i : insn) : Z := nbytes (prefixes i).
Definition insn_offset_vex_prefix (i : insn) : Z := insn_offset_rex_prefix i + nbytes (rex_prefix i).
Definition insn_offset_opcode (i : insn) : Z := insn_offset_vex_prefix i + nbytes (vex_prefix i).
Definition insn_offset_modrm (i : insn) : Z := insn_offset_opcode i + nbytes (opcode i).
Definition insn_offset_sib (i : insn) : Z := insn_offset_modrm i + nbytes (modrm i).
Definition insn_offset_displacement (i : insn) : Z := insn_offset_sib i + nbytes (sib i).
Definition insn_offset_immediate (i : insn) : Z := insn_offset_displacement i + nbytes (displacement i).

(** for_each_insn_prefix: the bytes the loop visits. *)
Fixpoint insn_prefix_list (bs : list Z) : list Z :=
  match bs with
  | [] => []
  | b :: bs => if b =? 0 then [] else b :: insn_prefix_list bs
  end.

Definition POP_SS_OPCODE : Z := 0x1f.
Definition MOV_SREG_OPCODE : Z := 0x8e.
Definition insn_masking_exception (i : insn) : bool :=
  let op := nth 0 (bytes (opcode i)) 0 in
  (op =? POP_SS_OPCODE) || ((op =? MOV_SREG_OPCODE) && (X86_MODRM_REG (nth 0 (bytes (modrm i)) 0) =? 2)).

(** ** A small opcode map *)
Module InsnDemo.
Definition at_op (l : list (Z * Z)) (op : Z) : Z :=
  match list_find (fun e => e.1 = op) l with Some (_, (_, a)) => a | None => 0 end.
Definition mk_table (l : list (Z * Z)) : table := map (at_op l) (seqZ 0 256).
Definition primary : list (Z * Z) :=
  map (fun op => (op, INAT_MAKE_PREFIX INAT_PFX_REX)) (seqZ 0x40 16) ++
  [(0x66, INAT_MAKE_PREFIX INAT_PFX_OPNDSZ); (0x67, INAT_MAKE_PREFIX INAT_PFX_ADDRSZ);
   (0xf2, INAT_MAKE_PREFIX INAT_PFX_REPNE); (0xf3, INAT_MAKE_PREFIX INAT_PFX_REPE);
   (0xf0, INAT_MAKE_PREFIX INAT_PFX_LOCK); (0x2e, INAT_MAKE_PREFIX INAT_PFX_CS);
   (0xc5, Z.lor (INAT_MAKE_PREFIX INAT_PFX_VEX2) INAT_MODRM); (0xc4, Z.lor (INAT_MAKE_PREFIX INAT_PFX_VEX3) INAT_MODRM);
   (0x62, Z.lor (INAT_MAKE_PREFIX INAT_PFX_EVEX) INAT_MODRM); (0x8f, Z.lor (INAT_MAKE_PREFIX INAT_PFX_XOP) INAT_MODRM);
   (0xd5, INAT_MAKE_PREFIX INAT_PFX_REX2); (0x0f, INAT_MAKE_ESCAPE 1);
   (0x8b, INAT_MODRM); (0x90, 0); (0xb8, INAT_MAKE_IMM INAT_IMM_VWORD); (0xa1, INAT_MOFFSET);
   (0xc8, Z.lor (INAT_MAKE_IMM INAT_IMM_WORD) INAT_SCNDIMM); (0x83, Z.lor (INAT_MAKE_GROUP 1) (INAT_MAKE_IMM INAT_IMM_BYTE));
   (0x9a, Z.lor (INAT_MAKE_IMM INAT_IMM_PTR) INAT_INV64); (0xe8, Z.lor (INAT_MAKE_IMM INAT_IMM_VWORD32) INAT_FORCE64)].
Definition tables : inat_tables := Eval vm_compute in {|
  inat_primary_table := mk_table primary;
  inat_escape_tables :=
    [[None; None; None; None];
     [Some (mk_table [(0x38, INAT_MAKE_ESCAPE 2); (0x1f, INAT_MODRM); (0x0b, 0); (0x58, Z.lor INAT_MODRM INAT_VARIANT)]);
      Some (mk_table [(0x58, INAT_MODRM)]); None; None];
     [Some (mk_table [(0xf0, INAT_MODRM)]); None; None; None];
     [None; None; None; None]];
  inat_group_tables := replicate 32 [None; None; None; None];
  inat_avx_tables := [None; None; None; None] ::
    [Some (mk_table [(0x58, Z.lor INAT_MODRM INAT_VEXOK)]); None; None; None] :: replicate 30 [None; None; None; None];
  inat_xop_tables := replicate 24 None |}.

Definition run (bs : list Z) (m : Z) : outcome Z := insn_decode tables true bs (Z.of_nat (length bs)) m.
End InsnDemo.
