(* ===== verification/InsnSpec.v ===== *)
(** * Correctness of the instruction decoder

    For opcode maps of the declared dimensions whose escapes end within the four bytes of
    the opcode field, [insn_decode] (src/arch/x86/decoder/insn.c) always returns, reads only
    the bytes it was given, and splits the instruction into consecutive fields.  The
    proofs are in a weakest-precondition style over the monad of [Insn]. *)
From S2P Require Import Prelude Inat Insn.
#[local] Open Scope insn_scope.

(** ** Weakest preconditions

    [wp m i R Q]: from [i], [m] neither goes wild nor runs out of fuel; it returns with [Q],
    or jumps to err_out with [R]. *)
Definition wp {A} (m : dec A) (i : insn) (R : insn -> Prop) (Q : A -> insn -> Prop) : Prop :=
  match m i with Val a i' => Q a i' | ErrOut i' => R i' | Wild | Spin => False end.

Lemma wp_bind {A B} (m : dec A) (k : A -> dec B) i R Q :
  wp m i R (fun a i' => wp (k a) i' R Q) -> wp (dbind m k) i R Q.
Proof. unfold wp, dbind. by destruct (m i). Qed.
Lemma wp_ret {A} (a : A) i R Q : Q a i -> wp (dret a) i R Q.
Proof. done. Qed.
Lemma wp_gets {A} (f : insn -> A) i R (Q : A -> insn -> Prop) : Q (f i) i -> wp (gets f) i R Q.
Proof. done. Qed.
Lemma wp_mod f i R (Q : unit -> insn -> Prop) : Q tt (f i) -> wp (mod_ f) i R Q.
Proof. done. Qed.
Lemma wp_err {A} i (R : insn -> Prop) (Q : A -> insn -> Prop) : R i -> wp err_out i R Q.
Proof. done. Qed.
Lemma wp_lift {A} (o : option A) i R (Q : A -> insn -> Prop) :
  (exists a, o = Some a /\ Q a i) -> wp (lift o) i R Q.
Proof. unfold wp, lift. by intros (a & -> & H). Qed.
Lemma wp_catch m code i R (Q : Z -> insn -> Prop) : wp m i (Q code) Q -> wp (catch m code) i R Q.
Proof. unfold wp, catch. by destruct (m i). Qed.
Lemma wp_when c m i R (Q : unit -> insn -> Prop) :
  (c = true -> wp m i R Q) -> (c = false -> Q tt i) -> wp (when c m) i R Q.
Proof. destruct c; simpl; intros H1 H2; [by apply H1|by apply wp_ret, H2]. Qed.
Lemma wp_mono {A} (m : dec A) i (R R' : insn -> Prop) (Q Q' : A -> insn -> Prop) :
  wp m i R Q -> (forall i', R i' -> R' i') -> (forall a i', Q a i' -> Q' a i') -> wp m i R' Q'.
Proof. unfold wp. destruct (m i); auto. Qed.

(** Runs the straight-line part of a function. *)
Ltac wpx := repeat (cbv beta; lazymatch goal with
  | |- wp (dbind _ _) _ _ _ => apply wp_bind
  | |- wp (gets _) _ _ _ => apply wp_gets
  | |- wp (mod_ _) _ _ _ => apply wp_mod
  | |- wp (dret _) _ _ _ => apply wp_ret
  end); cbv beta.

(** ** The layout of a decoded instruction *)

Definition idx (p : part) : nat :=
  match p with
  | PREFIXES => 0 | REX_PREFIX => 1 | VEX_PREFIX => 2 | OPCODE => 3 | MODRM => 4 | SIB => 5
  | DISPLACEMENT => 6 | IMMEDIATE1 => 7 | IMMEDIATE2 => 8
  end.
Definition parts : list part :=
  [PREFIXES; REX_PREFIX; VEX_PREFIX; OPCODE; MODRM; SIB; DISPLACEMENT; IMMEDIATE1; IMMEDIATE2].
(** The bytes of the first [k] fields. *)
Definition bytes_before (k : nat) (i : insn) : Z :=
  foldr (fun p s => nbytes (field_of p i) + s) 0 (take k parts).
(** Where a field starts in the buffer. *)
Definition offset (p : part) (i : insn) : Z := emulate_prefix_size i + bytes_before (idx p) i.

(** The field holds the bytes at [off]. *)
Definition field_at (buf : list Z) (off : Z) (f : insn_field) : Prop :=
  take (Z.to_nat (nbytes f)) (bytes f) = slice buf off (nbytes f).
(** The value of the field is its bytes, sign-extended. *)
Definition sign_extended (f : insn_field) : Prop :=
  nbytes f = 0 \/ value f = signed (8 * nbytes f) (of_le (take (Z.to_nat (nbytes f)) (bytes f))).
Definition field_ok (f : insn_field) : Prop :=
  length (bytes f) = 4%nat /\ Forall is_byte (bytes f) /\ 0 <= nbytes f.
Lemma bytes_before_pos n i : (forall p, field_ok (field_of p i)) -> 0 <= bytes_before n i.
Proof.
  intros H. unfold bytes_before. generalize (take n parts). intros l.
  induction l as [|p l IH]; simpl; [lia|]. destruct (H p) as (_ & _ & ?). lia.
Qed.
Definition sizes_ok (i : insn) : Prop :=
  (opnd_bytes i = 2 \/ opnd_bytes i = 4 \/ opnd_bytes i = 8) /\
  (addr_bytes i = 4 \/ addr_bytes i = if x86_64 i then 8 else 2).

(** ** What the prefixes say *)

(** The bytes of the opcode map that the architecture fixes: 0 is no prefix, 66 is the only
    operand-size prefix and 67 the only address-size prefix. *)
Definition pfx_attr (T : inat_tables) (b : Z) : Z := default 0 (inat_get_opcode_attribute T b).
Definition legacy_byte (T : inat_tables) (b : Z) : bool := inat_is_legacy_prefix (pfx_attr T b).
Definition pfx_map_ok (T : inat_tables) : bool :=
  negb (legacy_byte T 0) &&
  forallb (fun b => Bool.eqb (inat_is_operand_size_prefix (pfx_attr T b)) (b =? 0x66) &&
                    Bool.eqb (inat_is_address_size_prefix (pfx_attr T b)) (b =? 0x67)) (seqZ 0 256).

Definition elem (x : Z) (l : list Z) : bool := existsb (Z.eqb x) l.
Definition opnd_size (ps : list Z) : Z := if elem 0x66 ps then 2 else 4.
Definition addr_size (x64 : bool) (ps : list Z) : Z :=
  if elem 0x67 ps then (if x64 then 4 else 2) else (if x64 then 8 else 4).

(** The bytes of the prefix field once the last prefix is in its place. *)
Definition place_last (nb lb : Z) (bs : list Z) : list Z :=
  let b3 := nth 3 bs 0 in
  if negb (lb =? 0) && negb (lb =? b3) then
    <[3%nat := lb]> (if b3 =? 0 then bs
      else map (fun x => if x =? lb then b3 else x) (take (Z.to_nat nb) bs) ++ drop (Z.to_nat nb) bs)
  else bs.

Lemma place_last_ok nb lb bs : length bs = 4%nat -> Forall is_byte bs -> is_byte lb ->
  length (place_last nb lb bs) = 4%nat /\ Forall is_byte (place_last nb lb bs).
Proof.
  intros Hl Hb Hlb. unfold place_last. destruct (_ && _); [|done].
  assert (is_byte (nth 3 bs 0)) as H3.
  { destruct bs as [|? [|? [|? [|d []]]]]; try done. by decompose_Forall_hyps. }
  rewrite length_insert. destruct (_ =? 0); [split; [done|by apply Forall_insert]|]. split.
  - rewrite length_app, length_map, length_take, length_drop. lia.
  - apply Forall_insert; [|done]. apply Forall_app. split; [|by apply Forall_drop].
    apply Forall_map, (Forall_impl is_byte); [by apply Forall_take|]. intros x Hx. simpl. by destruct (x =? lb).
Qed.

Lemma place_last_3 nb lb bs : length bs = 4%nat -> (lb = 0 -> nth 3 bs 0 = 0) ->
  place_last nb lb bs !! 3%nat = Some lb.
Proof.
  intros Hl H0. assert (bs !! 3%nat = Some (nth 3 bs 0)) as H3.
  { by destruct bs as [|? [|? [|? [|d []]]]]. }
  unfold place_last. destruct (Z.eqb_spec lb 0) as [-> |]; simpl; [by rewrite H3, H0|].
  destruct (Z.eqb_spec lb (nth 3 bs 0)) as [-> |]; simpl; [done|].
  rewrite list_lookup_insert_eq; [done|]. destruct (_ =? 0); [lia|].
  rewrite length_app, length_map, length_take, length_drop. lia.
Qed.

Lemma place_last_in nb lb bs x : length bs = 4%nat -> x ∈ place_last nb lb bs -> x ∈ bs \/ (x = lb /\ lb <> 0).
Proof.
  intros Hl. unfold place_last. destruct (Z.eqb_spec lb 0) as [|N]; simpl; [by left|].
  destruct (lb =? nth 3 bs 0); simpl; [by left|].
  assert (nth 3 bs 0 ∈ bs) as H3 by (apply list_elem_of_In, nth_In; lia).
  intros (k & Hk)%list_elem_of_lookup. destruct (decide (k = 3%nat)) as [-> |Hk3].
  { apply list_lookup_insert_Some in Hk as [(_ & <- & _)|[? _]]; [by right|done]. }
  rewrite list_lookup_insert_ne in Hk by done. apply list_elem_of_lookup_2 in Hk. left.
  destruct (_ =? 0); [done|]. apply elem_of_app in Hk as [Hk|Hk].
  - apply list_elem_of_fmap in Hk as (y & -> & Hy). apply elem_of_take in Hy as (j & Hj%list_elem_of_lookup_2 & _).
    by destruct (y =? lb).
  - apply list_elem_of_lookup in Hk as [j Hj]. rewrite lookup_drop in Hj. by eapply list_elem_of_lookup_2.
Qed.

Lemma place_last_set nb lb bs (P : Z -> Prop) x : length bs = 4%nat -> 0 <= nb <= 4 ->
  (forall x, x ∈ take (Z.to_nat nb) bs <-> P x) -> Forall (eq 0) (drop (Z.to_nat nb) bs) ->
  ~ P 0 -> (lb <> 0 -> P lb) -> x <> 0 -> x ∈ place_last nb lb bs <-> P x.
Proof.
  intros Hl Hn Hs Hz P0 Plb Hx. destruct bs as [|a [|b [|c [|d []]]]]; try done.
  unfold place_last. cbn [nth].
  assert (nb = 0 \/ nb = 1 \/ nb = 2 \/ nb = 3 \/ nb = 4) as Hnb by lia.
  rewrite <- Hs. rewrite <- Hs in P0, Plb.
  destruct Hnb as [-> |[-> |[-> |[-> | ->]]]]; simpl in *; decompose_Forall_hyps;
    destruct (Z.eqb_spec lb 0) as [-> |Hlb]; simpl; try (specialize (Plb Hlb));
    repeat match goal with |- context [?u =? ?v] => destruct (Z.eqb_spec u v); subst; simpl end;
    rewrite ?elem_of_cons, ?elem_of_nil in *; try tauto; intuition congruence.
Qed.

(** Access to one byte of a field. *)
Lemma wp_set_byte p n v i R (Q : unit -> insn -> Prop) : 0 <= n < 4 ->
  Q tt (upd_field p (fun f => InsnField (<[Z.to_nat n := v]> (bytes f)) (got f) (nbytes f)) i) ->
  wp (insn_set_byte p n v) i R Q.
Proof.
  intros Hn HQ. unfold wp, insn_set_byte. by rewrite (proj2 (Z.leb_le 0 n)), (proj2 (Z.ltb_lt n 4)) by lia.
Qed.

Lemma wp_byte_of p n i R (Q : Z -> insn -> Prop) : field_ok (field_of p i) -> 0 <= n < 4 ->
  (forall b, bytes (field_of p i) !! Z.to_nat n = Some b -> is_byte b -> Q b i) ->
  wp (byte_of p n) i R Q.
Proof.
  intros (L & B & _) Hn HQ. unfold byte_of, wp, lift, at_index. rewrite (proj2 (Z.ltb_ge n 0)) by lia.
  destruct (lookup_lt_is_Some_2 (bytes (field_of p i)) (Z.to_nat n)) as [b Hb]; [lia|].
  rewrite Hb. apply HQ; [done|]. by eapply Forall_lookup_1.
Qed.
(** The W bit of a REX or REX2 prefix, and what the decoder takes for the one of a VEX prefix. *)
Definition rex_w (i : insn) : bool :=
  let f := rex_prefix i in
  negb (X86_REX_W (nth (if nbytes f =? 2 then 1 else 0) (bytes f) 0) =? 0) && negb (nbytes f =? 0).
Definition vex_w (i : insn) : bool :=
  let f := vex_prefix i in
  x86_64 i && negb (X86_VEX_W (nth (if nbytes f =? 4 then 3 else 2) (bytes f) 0) =? 0) && (3 <=? nbytes f).

Lemma le_bytes_are_bytes n v : Forall is_byte (le_bytes n v).
Proof.
  revert v. induction n as [|n IH]; intros v; simpl; constructor; [|done].
  apply Z.mod_pos_bound. lia.
Qed.

Section spec.
Context (buf : list Z) (E : Z).

Record inv (i : insn) : Prop := Inv {
  inv_ok : forall p, field_ok (field_of p i);
  inv_next : next_byte i = emulate_prefix_size i + bytes_before 9 i;
  inv_emul : 0 <= emulate_prefix_size i;
  inv_end : end_kaddr i = E /\ next_byte i <= Z.max 0 E;
  inv_at : forall p, p <> PREFIXES -> field_at buf (offset p i) (field_of p i);
  inv_sext : sign_extended (displacement i) /\ sign_extended (immediate1 i);
  inv_sizes : sizes_ok i }.
(** The fields from [k] on have not been touched. *)
Definition fresh (k : nat) (i : insn) : Prop := forall p, (k <= idx p)%nat -> field_of p i = zero_field.

Lemma fresh_le k k' i : fresh k i -> (k <= k')%nat -> fresh k' i.
Proof. intros F H p Hp. apply F. lia. Qed.

Lemma inv_next_pos i : inv i -> 0 <= next_byte i.
Proof.
  intros I. rewrite (inv_next i I). pose proof (inv_emul i I).
  pose proof (bytes_before_pos 9 i (inv_ok i I)). lia.
Qed.

(** The next field of the instruction, or one more byte of the current one. *)
Lemma inv_put p f k i : inv i -> fresh (S (idx p)) i -> field_ok f ->
  nbytes f = nbytes (field_of p i) + k -> 0 <= k -> next_byte i + k <= E ->
  (p <> PREFIXES -> field_at buf (offset p i) f) ->
  (p = DISPLACEMENT \/ p = IMMEDIATE1 -> sign_extended f) ->
  inv (set_next_byte (next_byte i + k) (set_field p f i)) /\
  fresh (S (idx p)) (set_next_byte (next_byte i + k) (set_field p f i)).
Proof.
  intros I F Hf Hn Hk He Ha Hs. destruct I as [Iok In Ie [Iend Imax] Iat Isx Isz].
  assert (forall q, (S (idx p) <= idx q)%nat -> nbytes (field_of q i) = 0) as Z0.
  { intros q Hq. by rewrite (F q Hq). }
  split; [constructor|].
  - intros q. specialize (Iok q). destruct p, q; first [exact Hf|exact Iok].
  - unfold bytes_before in *. destruct p; simpl in *; lia.
  - destruct p; exact Ie.
  - destruct p; simpl; split; first [done|lia].
  - intros q Hq. destruct (decide (q = p)) as [-> |Hqp].
    { specialize (Ha Hq). destruct p; exact Ha. }
    destruct (decide (idx p < idx q)%nat) as [Hlt|Hge].
    + assert (field_of q (set_next_byte (next_byte i + k) (set_field p f i)) = zero_field) as ->.
      { rewrite <- (F q Hlt). destruct p, q; done. }
      unfold field_at, slice. simpl. by rewrite take_0.
    + specialize (Iat q Hq). destruct p, q; simpl in Hge; try lia; try done; exact Iat.
  - destruct Isx as [S1 S2].
    destruct p; simpl; auto.
  - destruct p; exact Isz.
  - intros q Hq. rewrite <- (F q Hq). destruct p, q; simpl in Hq; try lia; done.
Qed.
Definition st (k : nat) (i : insn) : Prop := inv i /\ fresh k i.

Lemma st_put p f k i : st (S (idx p)) i -> field_ok f ->
  nbytes f = nbytes (field_of p i) + k -> 0 <= k -> next_byte i + k <= E ->
  (p <> PREFIXES -> field_at buf (offset p i) f) ->
  (p = DISPLACEMENT \/ p = IMMEDIATE1 -> sign_extended f) ->
  st (S (idx p)) (set_next_byte (next_byte i + k) (set_field p f i)).
Proof. intros [I F] **. by apply inv_put. Qed.

(** Steps that leave the bytes of the fields alone. *)
Lemma st_same k i i' : st k i ->
  (forall p, bytes (field_of p i') = bytes (field_of p i) /\ nbytes (field_of p i') = nbytes (field_of p i) /\
             ((k <= idx p)%nat -> got (field_of p i') = got (field_of p i))) ->
  emulate_prefix_size i' = emulate_prefix_size i -> end_kaddr i' = end_kaddr i -> next_byte i' = next_byte i ->
  sizes_ok i' -> st k i'.
Proof.
  intros [I F] Hp He Hk Hn Hs. destruct I as [Iok In Ie [Iend Imax] Iat Isx Isz].
  assert (forall n, bytes_before n i' = bytes_before n i) as Hb.
  { intros n. unfold bytes_before. generalize (take n parts). intros l.
    induction l as [|q l IH]; simpl; [done|]. rewrite IH. by destruct (Hp q) as (_ & -> & _). }
  split; [constructor|].
  - intros p. destruct (Hp p) as (B & N & _). unfold field_ok. rewrite B, N. apply Iok.
  - by rewrite Hn, In, He, Hb.
  - by rewrite He.
  - by rewrite Hk, Hn.
  - intros p Np. destruct (Hp p) as (B & N & _). unfold field_at, offset. rewrite B, N, He, Hb. by apply Iat.
  - destruct (Hp DISPLACEMENT) as (B & N & _), (Hp IMMEDIATE1) as (B' & N' & _). simpl in *.
    unfold sign_extended, value. by rewrite B, N, B', N'.
  - done.
  - intros p Hp'. destruct (Hp p) as (B & N & G). specialize (G Hp').
    rewrite (F p Hp') in B, N, G. destruct (field_of p i'); simpl in *. by subst.
Qed.

Lemma st_le k k' i : st k i -> (k <= k')%nat -> st k' i.
Proof. intros [I F] H. split; [done|]. by eapply fresh_le. Qed.
Lemma st_sizes k i : st k i -> sizes_ok i.
Proof. intros [I _]. apply I. Qed.
Lemma st_attr k a i : st k i -> st k (set_attr a i).
Proof. intros S. eapply st_same; [exact S|by intros []|done..|exact (st_sizes k i S)]. Qed.
Lemma st_opnd k v i : st k i -> v = 2 \/ v = 4 \/ v = 8 -> st k (set_opnd_bytes v i).
Proof.
  intros S Hv. eapply st_same; [exact S|by intros []|done..|].
  destruct (st_sizes k i S) as [_ Ha]. split; [exact Hv|exact Ha].
Qed.
Lemma st_addr k v i : st k i -> (v = 4 \/ v = if x86_64 i then 8 else 2) -> st k (set_addr_bytes v i).
Proof.
  intros S Hv. eapply st_same; [exact S|by intros []|done..|].
  destruct (st_sizes k i S) as [Ho _]. split; [exact Ho|exact Hv].
Qed.
Lemma st_got k p i : st k i -> (idx p < k)%nat -> st k (upd_field p set_got i).
Proof.
  intros S Hp. eapply st_same; [exact S| |by destruct p..|].
  - intros q. split_and!; [by destruct p, q|by destruct p, q|].
    intros Hq. destruct p, q; simpl in *; lia || done.
  - pose proof (st_sizes k i S). by destruct p.
Qed.
Lemma st_next k i : st k i -> 0 <= next_byte i.
Proof. intros [I _]. by apply inv_next_pos. Qed.
Lemma st_field k p i : st k i -> field_ok (field_of p i).
Proof. intros [I _]. apply I. Qed.
Lemma st_end k i : st k i -> end_kaddr i = E.
Proof. intros [I _]. apply I. Qed.
Lemma st_fresh k p i : st k i -> (k <= idx p)%nat -> field_of p i = zero_field.
Proof. intros [_ F]. apply F. Qed.

(** ** Reading the buffer *)

Context (Hbuf : Forall is_byte buf) (HE : E <= 15) (HEb : E <= Z.of_nat (length buf)).

Definition byte_at (o : Z) : Z := of_le (slice buf o 1).

Lemma byte_at_lookup o b : 0 <= o -> buf !! Z.to_nat o = Some b -> byte_at o = b.
Proof.
  intros Ho Hb. unfold byte_at, slice. change (Z.to_nat 1) with 1%nat.
  rewrite (drop_S _ _ _ Hb). simpl. lia.
Qed.
Lemma byte_at_range o : 0 <= o < Z.of_nat (length buf) -> is_byte (byte_at o).
Proof.
  intros Ho. destruct (lookup_lt_is_Some_2 buf (Z.to_nat o)) as [b Hb]; [lia|].
  rewrite (byte_at_lookup o b) by (lia || done). by eapply Forall_lookup_1.
Qed.
Lemma slice_bytes o (n : nat) : 0 <= o -> o + Z.of_nat n <= Z.of_nat (length buf) ->
  slice buf o (Z.of_nat n) = map (fun k => byte_at (o + k)) (seqZ 0 (Z.of_nat n)).
Proof.
  intros Ho Hn. unfold slice. rewrite Nat2Z.id. apply list_eq. intros k.
  destruct (decide (k < n)%nat) as [Hk|Hk].
  - rewrite lookup_take_lt, lookup_drop, list_lookup_fmap by lia.
    destruct (lookup_lt_is_Some_2 buf (Z.to_nat o + k)) as [b Hb]; [lia|]. rewrite Hb.
    rewrite lookup_seqZ_lt by lia. simpl. f_equal. symmetry. apply byte_at_lookup; [lia|].
    rewrite <- Hb. f_equal. lia.
  - rewrite lookup_take_ge by lia. symmetry. apply lookup_ge_None_2.
    rewrite length_fmap, length_seqZ. lia.
Qed.

Lemma read_buf_ok o n : 0 <= o -> o + n <= Z.of_nat (length buf) -> read_buf buf o n = Some (slice buf o n).
Proof.
  intros Ho Hn. unfold read_buf. by rewrite (proj2 (Z.leb_le 0 o)), (proj2 (Z.leb_le _ _)) by lia.
Qed.

Lemma wp_get_next t i (R : insn -> Prop) (Q : Z -> insn -> Prop) : end_kaddr i = E -> 0 <= next_byte i -> R i ->
  (next_byte i + size_of t <= E ->
   Q (leXX_to_cpu t (slice buf (next_byte i) (size_of t))) (set_next_byte (next_byte i + size_of t) i)) ->
  wp (get_next buf t) i R Q.
Proof.
  intros He Hn HR HQ. unfold get_next. wpx. unfold validate_next. rewrite He, Z.add_0_r.
  destruct (Z.leb_spec (next_byte i + size_of t) E) as [Hle|Hgt]; simpl; [|by apply wp_err].
  wpx. apply wp_lift. eexists. split; [apply read_buf_ok; lia|]. unfold advance. wpx. exact (HQ Hle).
Qed.

Lemma wp_peek n i (R : insn -> Prop) (Q : Z -> insn -> Prop) : end_kaddr i = E -> 0 <= next_byte i -> 0 <= n -> R i ->
  (next_byte i + 1 + n <= E -> is_byte (byte_at (next_byte i + n)) -> Q (byte_at (next_byte i + n)) i) ->
  wp (peek_nbyte_next buf n) i R Q.
Proof.
  intros He Hx Hn HR HQ. unfold peek_nbyte_next. wpx. unfold validate_next. rewrite He. cbn [size_of].
  destruct (Z.leb_spec (next_byte i + 1 + n) E) as [Hle|Hgt]; cbn [negb]; [|by apply wp_err].
  wpx. apply wp_lift. eexists. split; [apply read_buf_ok; lia|]. wpx. apply HQ; [done|]. apply byte_at_range. lia.
Qed.

Lemma next_bound k i : st k i -> next_byte i <= Z.max 0 E.
Proof. intros [I _]. apply I. Qed.
Lemma nbytes_le_next k p i : st k i -> 0 <= nbytes (field_of p i) <= next_byte i.
Proof.
  intros [I _]. pose proof (inv_emul i I). rewrite (inv_next i I). unfold bytes_before.
  assert (forall p, 0 <= nbytes (field_of p i)) as N by (intros q; apply (inv_ok i I q)).
  pose proof (N PREFIXES); pose proof (N REX_PREFIX); pose proof (N VEX_PREFIX); pose proof (N OPCODE);
  pose proof (N MODRM); pose proof (N SIB); pose proof (N DISPLACEMENT); pose proof (N IMMEDIATE1);
  pose proof (N IMMEDIATE2). destruct p; simpl in *; lia.
Qed.

(** ** Prefixes *)

Context (T : inat_tables) (HT : tables_ok T = true).

Lemma wp_opcode_attribute b i R (Q : Z -> insn -> Prop) : is_byte b ->
  (forall a, inat_get_opcode_attribute T b = Some a -> Q a i) -> wp (opcode_attribute T b) i R Q.
Proof.
  intros Hb HQ. apply wp_lift. destruct (opcode_attribute_total T HT b Hb) as [a Ha]. eauto.
Qed.

(** Nothing is decoded yet; [len] bytes of an emulation prefix have been skipped. *)
Definition started (len : Z) (x64 : bool) : insn :=
  let z := zero_field in Insn z z z z z z z z z len 0 4 (if x64 then 8 else 4) 0 x64 E len.

Lemma st_started len x64 : 0 <= len <= Z.max 0 E -> st 0 (started len x64).
Proof.
  intros Hl. split; [constructor|by intros []].
  - intros p. replace (field_of p (started len x64)) with zero_field by (by destruct p).
    split_and!; [done|by repeat (constructor; [done|])|done].
  - unfold bytes_before. simpl. lia.
  - simpl. lia.
  - simpl. lia.
  - intros p _. replace (field_of p (started len x64)) with zero_field by (by destruct p).
    unfold field_at, slice. simpl. by rewrite take_0.
  - split; by left.
  - split; simpl; [lia|]. destruct x64; lia.
Qed.

Lemma match_prefix_ok n prefix i : end_kaddr i = E -> 0 <= next_byte i -> 0 <= n ->
  wp (match_prefix buf n prefix) i (fun i' => i' = i)
    (fun r i' => i' = i /\ (r = true -> prefix = [] \/ next_byte i + n + Z.of_nat (length prefix) <= E)).
Proof.
  intros He Hn. revert n. induction prefix as [|c prefix IH]; intros n H0; simpl; wpx; [by auto|].
  apply wp_peek; try done. intros Hle _. destruct (_ =? c); wpx; [|done].
  eapply wp_mono; [apply IH; lia|done|]. cbv beta. intros r i' [-> Hr]. split; [done|].
  intros Hr'. right. destruct (Hr Hr') as [-> |]; simpl; lia.
Qed.

Lemma emulate_prefix_ok_1 prefix x64 (R : insn -> Prop) : (0 < length prefix)%nat ->
  wp (__insn_get_emulate_prefix buf prefix) (started 0 x64) R
    (fun r i' => (r = 0 /\ i' = started 0 x64) \/ exists len, 0 <= len <= Z.max 0 E /\ r = 1 /\ i' = started len x64).
Proof.
  intros Hp. unfold __insn_get_emulate_prefix. apply wp_catch. wpx.
  eapply wp_mono; [by apply match_prefix_ok| |]; cbv beta; [by intros i' ->; left|].
  intros r i' [-> Hr]. destruct r; simpl; [|apply wp_err; by left]. unfold advance. wpx. right.
  exists (Z.of_nat (length prefix)). split_and!; [lia| |done|done].
  destruct (Hr eq_refl) as [-> |H]; [simpl in Hp; lia|]. simpl in H. lia.
Qed.

Lemma emulate_prefix_ok x64 (R : insn -> Prop) :
  wp (insn_get_emulate_prefix buf) (started 0 x64) R
    (fun _ i' => exists len, 0 <= len <= Z.max 0 E /\ i' = started len x64).
Proof.
  unfold insn_get_emulate_prefix. wpx. eapply wp_mono; [apply emulate_prefix_ok_1; simpl; lia|done|].
  cbv beta. intros r i' [[-> ->]|(len & Hl & -> & ->)]; simpl; wpx; [|eauto].
  eapply wp_mono; [apply emulate_prefix_ok_1; simpl; lia|done|].
  cbv beta. intros r i' [[-> ->]|(len & Hl & -> & ->)]; wpx; eauto.
  exists 0. split; [lia|done].
Qed.

Lemma st_pfx_bytes bs i : st 1 i -> length bs = 4%nat -> Forall is_byte bs -> next_byte i <= E ->
  st 1 (upd_field PREFIXES (fun f => InsnField bs (got f) (nbytes f)) i).
Proof.
  intros S Hl Hb He. pose proof (nbytes_le_next 1 PREFIXES i S) as Hn.
  assert (upd_field PREFIXES (fun f => InsnField bs (got f) (nbytes f)) i
          = set_next_byte (next_byte i + 0) (set_field PREFIXES (InsnField bs (got (prefixes i)) (nbytes (prefixes i))) i)) as ->.
  { rewrite Z.add_0_r. done. }
  eapply (st_put PREFIXES); [done| |simpl; lia|lia|lia|done|by intros []].
  split_and!; [done..|]. simpl in *. lia.
Qed.
(** The prefix bytes that have been passed. *)
Definition passed (i : insn) : list Z := slice buf (emulate_prefix_size i) (nbytes (prefixes i)).

Record scan (nb lb : Z) (i : insn) : Prop := Scan {
  sc_set : forall x, x ∈ take (Z.to_nat nb) (bytes (prefixes i)) <-> x ∈ passed i;
  sc_zero : Forall (eq 0) (drop (Z.to_nat nb) (bytes (prefixes i)));
  sc_last : lb = default 0 (last (passed i));
  sc_legacy : Forall (fun x => legacy_byte T x = true) (passed i);
  sc_opnd : opnd_bytes i = opnd_size (passed i);
  sc_addr : addr_bytes i = addr_size (x86_64 i) (passed i) }.

Lemma elem_spec x l : elem x l = true <-> x ∈ l.
Proof.
  unfold elem. rewrite existsb_true. split; [|intros H; exists x; split; [done|apply Z.eqb_refl]].
  intros (y & Hy & E'). apply Z.eqb_eq in E'. by subst.
Qed.
Lemma elem_snoc x l y : elem x (l ++ [y]) = elem x l || (x =? y).
Proof. unfold elem. rewrite existsb_app. simpl. by rewrite orb_false_r. Qed.

Lemma slice_snoc o n : 0 <= o -> 0 <= n -> o + n + 1 <= Z.of_nat (length buf) ->
  slice buf o (n + 1) = slice buf o n ++ [byte_at (o + n)].
Proof.
  intros Ho Hn Hl. unfold slice. destruct (lookup_lt_is_Some_2 buf (Z.to_nat (o + n))) as [b Hb]; [lia|].
  rewrite (byte_at_lookup _ b) by (lia || done). replace (Z.to_nat (n + 1)) with (S (Z.to_nat n)) by lia.
  apply take_S_r. rewrite lookup_drop. rewrite <- Hb. f_equal. lia.
Qed.

Lemma passed_next i : st 1 i -> next_byte i = emulate_prefix_size i + nbytes (prefixes i).
Proof.
  intros [I F]. rewrite (inv_next i I). unfold bytes_before. simpl.
  assert (forall q, (1 <= idx q)%nat -> nbytes (field_of q i) = 0) as Z0.
  { intros q Hq. by rewrite (F q Hq). }
  pose proof (Z0 REX_PREFIX); pose proof (Z0 VEX_PREFIX); pose proof (Z0 OPCODE); pose proof (Z0 MODRM);
  pose proof (Z0 SIB); pose proof (Z0 DISPLACEMENT); pose proof (Z0 IMMEDIATE1); pose proof (Z0 IMMEDIATE2).
  simpl in *. lia.
Qed.

(** The state after one more prefix byte: the bytes of the field, and the sizes. *)
Definition passed_one (bs : list Z) (ob ab : Z) (i : insn) : insn :=
  set_next_byte (next_byte i + 1)
    (set_opnd_bytes ob (set_addr_bytes ab
      (set_field PREFIXES (InsnField bs (got (prefixes i)) (nbytes (prefixes i) + 1)) i))).

Lemma st_passed_one bs ob ab i : st 1 i -> next_byte i + 1 <= E -> length bs = 4%nat -> Forall is_byte bs ->
  ob = 2 \/ ob = 4 \/ ob = 8 -> (ab = 4 \/ ab = if x86_64 i then 8 else 2) -> st 1 (passed_one bs ob ab i).
Proof.
  intros S He Hl Hb Ho Ha. pose proof (nbytes_le_next 1 PREFIXES i S) as Hn.
  unfold passed_one.
  change (st 1 (set_opnd_bytes ob (set_addr_bytes ab (set_next_byte (next_byte i + 1)
    (set_field PREFIXES (InsnField bs (got (prefixes i)) (nbytes (prefixes i) + 1)) i))))).
  apply st_opnd; [|done]. apply st_addr; [|done].
  apply (st_put PREFIXES); [done|split_and!; [done..|simpl in *; lia]|done|lia|lia|done|by intros []].
Qed.
Lemma passed_passed_one bs ob ab i : st 1 i -> next_byte i + 1 <= E ->
  passed (passed_one bs ob ab i) = passed i ++ [byte_at (next_byte i)].
Proof.
  intros S He. pose proof (nbytes_le_next 1 PREFIXES i S) as Hn. pose proof (passed_next i S) as Hx.
  assert (0 <= emulate_prefix_size i) by apply S. simpl in Hn.
  unfold passed, passed_one. simpl. rewrite slice_snoc by lia. by rewrite Hx.
Qed.

Lemma pfx_map_at b : pfx_map_ok T = true -> is_byte b ->
  inat_is_operand_size_prefix (pfx_attr T b) = (b =? 0x66) /\
  inat_is_address_size_prefix (pfx_attr T b) = (b =? 0x67).
Proof.
  unfold pfx_map_ok. rewrite andb_true_iff, forallb_forall. intros [_ H] Hb. specialize (H b).
  rewrite <- list_elem_of_In, elem_of_seqZ, andb_true_iff, !Bool.eqb_true_iff in H. apply H.
  unfold is_byte in Hb. lia.
Qed.

(** A prefix that was seen before changes nothing but the count. *)
Lemma scan_again nb lb b i : st 1 i -> next_byte i + 1 <= E -> b = byte_at (next_byte i) ->
  legacy_byte T b = true -> elem b (take (Z.to_nat nb) (bytes (prefixes i))) = true ->
  scan nb lb i -> scan nb b (passed_one (bytes (prefixes i)) (opnd_bytes i) (addr_bytes i) i).
Proof.
  intros S He Hb Hg Hf [Cs Cz Cl Cg Co Ca]. apply elem_spec in Hf.
  pose proof (passed_passed_one (bytes (prefixes i)) (opnd_bytes i) (addr_bytes i) i S He) as Hp.
  rewrite <- Hb in Hp. assert (b ∈ passed i) as Hin by by apply Cs.
  assert (forall x, elem x (passed i ++ [b]) = elem x (passed i)) as Hel.
  { intros x. rewrite elem_snoc. destruct (Z.eqb_spec x b) as [-> |]; [|by rewrite orb_false_r].
    by rewrite (proj2 (elem_spec b _) Hin). }
  constructor; rewrite ?Hp; [| | | |simpl; rewrite Co|simpl; rewrite Ca].
  - intros x. change (bytes (prefixes (passed_one _ _ _ i))) with (bytes (prefixes i)). rewrite Cs.
    rewrite elem_of_app, list_elem_of_singleton. split; [by left|]. by intros [? | ->].
  - exact Cz.
  - by rewrite last_snoc.
  - apply Forall_app. split; [done|]. by constructor.
  - unfold opnd_size. by rewrite Hel.
  - unfold addr_size. by rewrite Hel.
Qed.

(** A new prefix goes to the next byte of the field and switches the sizes. *)
Definition new_opnd (a : Z) (i : insn) : Z :=
  if inat_is_address_size_prefix a then opnd_bytes i
  else if inat_is_operand_size_prefix a then Z.lxor (opnd_bytes i) 6 else opnd_bytes i.
Definition new_addr (a : Z) (i : insn) : Z :=
  if inat_is_address_size_prefix a then Z.lxor (addr_bytes i) (if x86_64 i then 12 else 6) else addr_bytes i.

Lemma scan_new nb lb b i : st 1 i -> next_byte i + 1 <= E -> b = byte_at (next_byte i) -> 0 <= nb < 4 ->
  pfx_map_ok T = true -> is_byte b ->
  legacy_byte T b = true -> elem b (take (Z.to_nat nb) (bytes (prefixes i))) = false ->
  scan nb lb i ->
  scan (nb + 1) b (passed_one (<[Z.to_nat nb := b]> (bytes (prefixes i))) (new_opnd (pfx_attr T b) i) (new_addr (pfx_attr T b) i) i).
Proof.
  intros S He Hb Hnb Hm Hbb Hg Hf [Cs Cz Cl Cg Co Ca]. destruct (st_field 1 PREFIXES i S) as (Hlen & _ & _). simpl in Hlen.
  set (bs := <[Z.to_nat nb := b]> (bytes (prefixes i))).
  pose proof (passed_passed_one bs (new_opnd (pfx_attr T b) i) (new_addr (pfx_attr T b) i) i S He) as Hp.
  rewrite <- Hb in Hp. destruct (pfx_map_at b Hm Hbb) as [Mo Ma].
  assert (elem b (passed i) = false) as Hnin.
  { apply not_true_iff_false. rewrite elem_spec, <- Cs, <- elem_spec, Hf. done. }
  constructor; rewrite ?Hp.
  - intros x. change (bytes (prefixes (passed_one _ _ _ i))) with bs. unfold bs.
    replace (Z.to_nat (nb + 1)) with (Datatypes.S (Z.to_nat nb)) by lia.
    rewrite take_insert_end by lia. by rewrite !elem_of_app, Cs.
  - change (bytes (prefixes (passed_one _ _ _ i))) with bs. unfold bs.
    rewrite drop_insert_lt by lia. replace (Z.to_nat (nb + 1)) with (Z.to_nat nb + 1)%nat by lia.
    rewrite <- drop_drop. by apply Forall_drop.
  - by rewrite last_snoc.
  - apply Forall_app. split; [done|]. by constructor.
  - simpl. unfold new_opnd, opnd_size. rewrite Mo, Ma, Co, elem_snoc. unfold opnd_size.
    destruct (Z.eqb_spec b 103) as [-> |]; [by rewrite orb_false_r|].
    destruct (Z.eqb_spec b 102) as [Eb|]; [subst b; by rewrite Eb in *; rewrite Hnin|].
    by rewrite (proj2 (Z.eqb_neq 102 b)), orb_false_r by congruence.
  - simpl. unfold new_addr, addr_size. rewrite Ma, Ca, elem_snoc. unfold addr_size.
    destruct (Z.eqb_spec b 103) as [Eb|].
    + rewrite Eb in *. rewrite Hnin. by destruct (x86_64 i).
    + by rewrite (proj2 (Z.eqb_neq 103 b)), orb_false_r by congruence.
Qed.
(** The loop stops at the first byte that is no prefix, or at a fifth distinct one. *)
Definition stopped (nb : Z) (i : insn) : Prop :=
  legacy_byte T (byte_at (next_byte i)) = false \/ (nb = 4 /\ byte_at (next_byte i) ∉ passed i).

Record looping (x64 : bool) (em nb lb a : Z) (i : insn) : Prop := Looping {
  lo_st : st 1 i;
  lo_opnd : opnd_bytes i = 2 \/ opnd_bytes i = 4;
  lo_nb : 0 <= nb <= 4;
  lo_lb : is_byte lb;
  lo_next : next_byte i + 1 <= E;
  lo_attr : inat_get_opcode_attribute T (byte_at (next_byte i)) = Some a;
  lo_mode : x86_64 i = x64;
  lo_emul : emulate_prefix_size i = em;
  lo_scan : pfx_map_ok T = true -> scan nb lb i }.

Lemma xor6 v : v = 2 \/ v = 4 -> Z.lxor v 6 = 2 \/ Z.lxor v 6 = 4.
Proof. intros [-> | ->]; vm_compute; auto. Qed.
Lemma new_opnd_ok a i : opnd_bytes i = 2 \/ opnd_bytes i = 4 -> new_opnd a i = 2 \/ new_opnd a i = 4.
Proof. intros H. unfold new_opnd. repeat case_match; auto using xor6. Qed.
Lemma new_addr_ok a i : (addr_bytes i = 4 \/ addr_bytes i = if x86_64 i then 8 else 2) ->
  new_addr a i = 4 \/ new_addr a i = if x86_64 i then 8 else 2.
Proof. intros H. unfold new_addr. destruct (inat_is_address_size_prefix a); [|done]. destruct (x86_64 i), H as [-> | ->]; vm_compute; auto. Qed.

Lemma st_byte_next k i : st k i -> next_byte i + 1 <= E -> is_byte (byte_at (next_byte i)).
Proof. intros S H. apply byte_at_range. pose proof (st_next k i S). lia. Qed.

Lemma looping_next x64 em nb nb' lb a a' i bs ob ab : looping x64 em nb lb a i -> inat_is_legacy_prefix a = true ->
  length bs = 4%nat -> Forall is_byte bs -> ob = 2 \/ ob = 4 -> (ab = 4 \/ ab = if x86_64 i then 8 else 2) ->
  0 <= nb' <= 4 -> next_byte i + 1 + 1 <= E ->
  inat_get_opcode_attribute T (byte_at (next_byte i + 1)) = Some a' ->
  (pfx_map_ok T = true -> scan nb' (byte_at (next_byte i)) (passed_one bs ob ab i)) ->
  looping x64 em nb' (byte_at (next_byte i)) a' (passed_one bs ob ab i).
Proof.
  intros [S Ho Hnb Hlb Hn Ha Hm Hem Hsc] Hg Hl Hb Hob Hab Hnb' He Ha' Hs.
  constructor; try done; [apply st_passed_one; auto; lia|]. by eapply st_byte_next.
Qed.

Lemma legacy_loop_ok fuel x64 em nb lb a i : looping x64 em nb lb a i -> E - next_byte i < Z.of_nat fuel ->
  wp (legacy_loop T buf fuel nb lb (byte_at (next_byte i)) a) i (fun _ => True)
    (fun r i' => looping x64 em r.1.1 r.1.2 r.2 i' /\ (pfx_map_ok T = true -> stopped r.1.1 i')).
Proof.
  revert nb lb a i. induction fuel as [|fuel IH]; intros nb lb a i L Hf.
  { pose proof (lo_next _ _ _ _ _ _ L). lia. }
  pose proof L as [S Ho Hnb Hlb Hn Ha Hm Hem Hsc]. set (b := byte_at (next_byte i)) in *.
  pose proof (st_byte_next 1 i S Hn) as Hb. fold b in Hb.
  assert (pfx_attr T b = a) as Hpa by (unfold pfx_attr; by rewrite Ha).
  cbn [legacy_loop]. destruct (inat_is_legacy_prefix a) eqn:Hg; cbn [negb]; wpx.
  2:{ split; [done|]. intros _. left. unfold legacy_byte. fold b. by rewrite Hpa. }
  assert (legacy_byte T b = true) as Hlg by (unfold legacy_byte; by rewrite Hpa).
  destruct (st_field 1 PREFIXES i S) as (Hlen & Hby & _). simpl in Hlen, Hby.
  destruct (st_sizes 1 i S) as [_ Had]. pose proof (nbytes_le_next 1 PREFIXES i S) as Hnn. simpl in Hnn.
  assert (u8 (nbytes (prefixes i) + 1) = nbytes (prefixes i) + 1) as Hu8.
  { apply Z.mod_small. lia. }
  destruct (existsb _ _) eqn:Hfd; cbn [negb andb].
  - (* seen before *)
    cbn [when]. unfold advance, peek_next. wpx. unfold upd_field. cbn [field_of]. rewrite Hu8.
    change (set_next_byte _ _) with (passed_one (bytes (prefixes i)) (opnd_bytes i) (addr_bytes i) i).
    apply wp_peek; [exact (st_end 1 i S)|simpl; lia|lia|done|]. intros Hle Hb'. wpx.
    apply wp_opcode_attribute; [done|]. intros a' Ha'. rewrite Z.add_0_r in *.
    apply (IH nb b a'); [|simpl; lia].
    eapply looping_next; eauto. intros Hp. by apply (scan_again nb lb); auto.
  - destruct (Z.eqb_spec nb 4) as [Hnb4|Hnb4].
    { wpx. split; [done|]. intros Hp. right. split; [done|]. fold b.
      rewrite <- (sc_set _ _ _ (Hsc Hp)), <- elem_spec. unfold elem. by rewrite Hfd. }
    cbn [when]. wpx. apply wp_set_byte; [lia|].
    assert (forall j, j = set_opnd_bytes (new_opnd a i) (set_addr_bytes (new_addr a i)
              (set_field PREFIXES (InsnField (<[Z.to_nat nb := b]> (bytes (prefixes i))) (got (prefixes i)) (nbytes (prefixes i))) i)) ->
      wp (mod_ (upd_field PREFIXES (fun f => set_nbytes (u8 (nbytes f + 1)) f));; advance 1;;
          b' <- peek_next buf;; a' <- opcode_attribute T b';; legacy_loop T buf fuel (nb + 1) b b' a') j (fun _ => True)
        (fun r i' => looping x64 em r.1.1 r.1.2 r.2 i' /\ (pfx_map_ok T = true -> stopped r.1.1 i'))) as K.
    { intros j ->. unfold advance, peek_next. wpx. unfold upd_field.
      cbn [field_of prefixes set_field set_opnd_bytes set_addr_bytes set_prefixes nbytes].
      rewrite Hu8.
      change (set_next_byte _ _) with (passed_one (<[Z.to_nat nb := b]> (bytes (prefixes i))) (new_opnd a i) (new_addr a i) i).
      apply wp_peek; [exact (st_end 1 i S)|simpl; lia|lia|done|]. intros Hle Hb'. wpx.
      apply wp_opcode_attribute; [done|]. intros a' Ha'. rewrite Z.add_0_r in *.
      apply (IH (nb + 1) b a'); [|simpl; lia].
      eapply looping_next; eauto; [by rewrite length_insert|by apply Forall_insert|by apply new_opnd_ok|by apply new_addr_ok|lia|].
      intros Hp. rewrite <- Hpa. by apply (scan_new nb lb); auto; lia. }
    destruct (inat_is_address_size_prefix a) eqn:Haa; wpx.
    { apply K. unfold new_opnd, new_addr. by rewrite Haa. }
    destruct (inat_is_operand_size_prefix a) eqn:Hoo; cbn [when]; wpx; apply K; unfold new_opnd, new_addr; by rewrite Haa, Hoo.
Qed.
Lemma wp_set_last_prefix nb lb i R (Q : unit -> insn -> Prop) : field_ok (prefixes i) ->
  Q tt (set_prefixes (InsnField (place_last nb lb (bytes (prefixes i))) (got (prefixes i)) (nbytes (prefixes i))) i) ->
  wp (set_last_prefix nb lb) i R Q.
Proof.
  intros Hf HQ. unfold set_last_prefix. wpx. apply wp_byte_of; [exact Hf|lia|]. intros b3 Hb3 _. simpl in Hb3.
  destruct Hf as (Hl & _ & _). assert (nth 3 (bytes (prefixes i)) 0 = b3) as H3.
  { by apply nth_lookup_Some. }
  unfold place_last in HQ. rewrite H3 in HQ. apply wp_when; intros E1; rewrite E1 in HQ.
  - wpx. apply wp_when; intros E2; tidy_bool.
    + rewrite (proj2 (Z.eqb_neq _ _) E2) in HQ. wpx. by apply wp_set_byte.
    + rewrite E2 in HQ. by apply wp_set_byte.
  - by destruct i as [[] ? ? ? ? ? ? ? ? ? ? ? ? ? ? ? ?].
Qed.

Lemma offset_next p i : st (idx p) i -> offset p i = next_byte i.
Proof.
  intros [I F]. rewrite (inv_next i I). unfold offset, bytes_before.
  assert (forall q, (idx p <= idx q)%nat -> nbytes (field_of q i) = 0) as Z0.
  { intros q Hq. by rewrite (F q Hq). }
  pose proof (Z0 PREFIXES); pose proof (Z0 REX_PREFIX); pose proof (Z0 VEX_PREFIX); pose proof (Z0 OPCODE);
  pose proof (Z0 MODRM); pose proof (Z0 SIB); pose proof (Z0 DISPLACEMENT); pose proof (Z0 IMMEDIATE1);
  pose proof (Z0 IMMEDIATE2). clear I F Z0. destruct p; simpl in *; lia.
Qed.

(** The next field takes [k] bytes. *)
Lemma st_fill p bs g k i : st (idx p) i -> length bs = 4%nat -> Forall is_byte bs -> 0 <= k ->
  next_byte i + k <= E -> take (Z.to_nat k) bs = slice buf (next_byte i) k ->
  (p = DISPLACEMENT \/ p = IMMEDIATE1 -> sign_extended (InsnField bs g k)) ->
  st (S (idx p)) (set_next_byte (next_byte i + k) (set_field p (InsnField bs g k) i)).
Proof.
  intros S Hl Hb Hk He Ht Hs. apply st_put; try done.
  - eapply st_le; [exact S|lia].
  - rewrite (st_fresh _ p i S) by lia. simpl. lia.
  - intros _. unfold field_at. rewrite (offset_next p i S). exact Ht.
Qed.

Definition keep (i i' : insn) : Prop :=
  prefixes i' = prefixes i /\ emulate_prefix_size i' = emulate_prefix_size i /\
  addr_bytes i' = addr_bytes i /\ x86_64 i' = x86_64 i.

Lemma slice_1 o : 0 <= o -> o + 1 <= E -> slice buf o 1 = [byte_at o].
Proof. intros Ho He. rewrite <- (Z.add_0_r o) at 2. exact (slice_bytes o 1 Ho ltac:(lia)). Qed.
Lemma slice_2 o : 0 <= o -> o + 2 <= E -> slice buf o 2 = [byte_at o; byte_at (o + 1)].
Proof. intros Ho He. rewrite <- (Z.add_0_r o) at 2. exact (slice_bytes o 2 Ho ltac:(lia)). Qed.
Lemma slice_3 o : 0 <= o -> o + 3 <= E -> slice buf o 3 = [byte_at o; byte_at (o + 1); byte_at (o + 2)].
Proof. intros Ho He. rewrite <- (Z.add_0_r o) at 2. exact (slice_bytes o 3 Ho ltac:(lia)). Qed.
Lemma slice_4 o : 0 <= o -> o + 4 <= E ->
  slice buf o 4 = [byte_at o; byte_at (o + 1); byte_at (o + 2); byte_at (o + 3)].
Proof. intros Ho He. rewrite <- (Z.add_0_r o) at 2. exact (slice_bytes o 4 Ho ltac:(lia)). Qed.

Lemma rex_step_ok a i : st 1 i -> opnd_bytes i = 2 \/ opnd_bytes i = 4 ->
  wp (rex_step T buf a) i (fun _ => True)
    (fun _ i' => st 2 i' /\ keep i i' /\ opnd_bytes i' = if rex_w i' then 8 else opnd_bytes i).
Proof.
  intros S Ho. assert (rex_prefix i = zero_field) as Z1 by exact (st_fresh 1 REX_PREFIX i S ltac:(simpl; lia)).
  pose proof (st_next 1 i S) as Hn. pose proof (st_end 1 i S) as He. pose proof (st_le 1 2 i S ltac:(lia)) as S2.
  assert (rex_w i = false) as W0 by (unfold rex_w; by rewrite Z1).
  unfold rex_step. wpx. destruct (x86_64 i) eqn:Hx; cbn [negb]; wpx; [|by rewrite W0].
  apply wp_peek; [done..|]. rewrite !Z.add_0_r. intros Hle Hb. set (b := byte_at (next_byte i)) in *. wpx.
  apply wp_opcode_attribute; [done|]. intros a' _.
  destruct (inat_is_rex_prefix a'); [|destruct (inat_is_rex2_prefix a'); wpx; [|by rewrite W0]].
  - unfold field_set, advance. wpx. unfold upd_field, insn_field_set. cbn [field_of]. rewrite Z1. cbn [got zero_field].
    change (next_byte (set_field REX_PREFIX ?f i)) with (next_byte i).
    assert (st 2 (set_next_byte (next_byte i + 1) (set_field REX_PREFIX (InsnField (le_bytes 4 b) false 1) i))) as S'.
    { apply (st_fill REX_PREFIX); [done|done|apply le_bytes_are_bytes|lia|lia| |by intros []].
      rewrite slice_1 by lia. fold b. change (take (Z.to_nat 1) (le_bytes 4 b)) with [b mod 256]. by rewrite Z.mod_small. }
    apply wp_when; intros Hw; wpx.
    + split; [apply st_opnd; [done|lia]|]. split; [done|]. unfold rex_w. simpl.
      rewrite Z.mod_small by done. rewrite Hw. done.
    + split; [done|]. split; [done|]. unfold rex_w. simpl. rewrite Z.mod_small by done. by rewrite Hw.
  - apply wp_set_byte; [lia|]. wpx. apply wp_peek; [exact He|exact Hn|lia|done|]. intros Hle2 Hb2.
    change (next_byte (upd_field REX_PREFIX ?f i)) with (next_byte i) in *. set (b2 := byte_at (next_byte i + 1)) in *.
    wpx. apply wp_set_byte; [lia|]. unfold advance, mark_got. wpx.
    unfold upd_field. cbn [field_of]. rewrite Z1.
    change (bytes zero_field) with [0; 0; 0; 0]. change (got zero_field) with false.
    assert (st 2 (set_next_byte (next_byte i + 2) (set_field REX_PREFIX (InsnField [b; b2; 0; 0] false 2) i))) as S'.
    { apply (st_fill REX_PREFIX); [done|done|by repeat (constructor; [done|])|lia|lia| |by intros []].
      by rewrite slice_2 by lia. }
    apply wp_when; intros Hw; wpx.
    + split; [|split; [done|unfold rex_w; simpl; by rewrite Hw]].
      apply (st_got 2 REX_PREFIX); [apply st_opnd; [exact S'|lia]|simpl; lia].
    + split; [|split; [done|unfold rex_w; simpl; by rewrite Hw]].
      apply (st_got 2 REX_PREFIX); [exact S'|simpl; lia].
Qed.
(** The bytes of a VEX prefix: [bs] are the ones that were read. *)
Lemma vex_fill bs ob k i : st 2 i -> length bs = 4%nat -> Forall is_byte bs -> 0 <= k -> next_byte i + k <= E ->
  take (Z.to_nat k) bs = slice buf (next_byte i) k -> ob = 2 \/ ob = 4 \/ ob = 8 ->
  (ob = if x86_64 i && negb (X86_VEX_W (nth (if k =? 4 then 3 else 2) bs 0) =? 0) && (3 <=? k) then 8 else opnd_bytes i) ->
  let i' := set_opnd_bytes ob (set_next_byte (next_byte i + k) (set_field VEX_PREFIX (InsnField bs false k) i)) in
  st 3 i' /\ keep i i' /\ rex_prefix i' = rex_prefix i /\ opnd_bytes i' = if vex_w i' then 8 else opnd_bytes i.
Proof.
  intros S Hl Hb Hk He Ht Ho Hw i'. split_and!; [|done|done|exact Hw].
  apply st_opnd; [|done]. by apply (st_fill VEX_PREFIX); try done; intros [].
Qed.

Lemma vex_step_ok a i : st 2 i ->
  wp (vex_step buf a) i (fun _ => True)
    (fun _ i' => st 3 i' /\ keep i i' /\ rex_prefix i' = rex_prefix i /\
       opnd_bytes i' = if vex_w i' then 8 else opnd_bytes i).
Proof.
  intros S. assert (vex_prefix i = zero_field) as Z2 by exact (st_fresh 2 VEX_PREFIX i S ltac:(simpl; lia)).
  pose proof (st_next 2 i S) as Hn. pose proof (st_end 2 i S) as He. pose proof (st_sizes 2 i S) as [Ho _].
  assert (st 3 i /\ keep i i /\ rex_prefix i = rex_prefix i /\ opnd_bytes i = if vex_w i then 8 else opnd_bytes i) as None_.
  { split_and!; [by apply (st_le 2); [|lia]|done|done|]. unfold vex_w. rewrite Z2. simpl. by rewrite !andb_false_r. }
  unfold vex_step. wpx. apply wp_peek; [done..|]. rewrite !Z.add_0_r. intros Hle Hb.
  destruct (inat_is_vex_prefix a || inat_is_xop_prefix a); wpx; [|done].
  apply wp_peek; [done..|]. intros Hle1 Hb1. set (b1 := byte_at (next_byte i + 1)) in *. wpx.
  destruct (_ && _); wpx; [done|]. destruct (_ && _); wpx; [done|].
  apply wp_set_byte; [lia|]. wpx. apply wp_set_byte; [lia|].
  unfold upd_field. cbn [field_of]. rewrite Z2. cbn [zero_field bytes got nbytes].
  destruct (inat_is_evex_prefix a); [|destruct (inat_is_vex3_prefix a || inat_is_xop_prefix a)]; wpx; unfold advance.
  - apply wp_peek; [exact He|exact Hn|lia|done|]. intros Hle2 Hb2. change (next_byte i + 1 + 2 <= E) in Hle2.
    wpx. apply wp_set_byte; [lia|]. wpx.
    apply wp_peek; [exact He|exact Hn|lia|done|]. intros Hle3 Hb3. change (next_byte i + 1 + 3 <= E) in Hle3.
    wpx. apply wp_set_byte; [lia|]. wpx.
    pose proof (fun ob => vex_fill [byte_at (next_byte i); b1; byte_at (next_byte i + 2); byte_at (next_byte i + 3)] ob 4 i S eq_refl) as K.
    apply wp_when; intros Hw; wpx; match type of Hw with _ = ?v =>
        change (x86_64 i && negb (X86_VEX_W (byte_at (next_byte i + 3)) =? 0) = v) in Hw end;
      [apply (K 8)|apply (K (opnd_bytes i))];
      [by repeat (constructor; [done|])|lia|lia|by rewrite slice_4 by lia|lia|cbn [nth Z.eqb Pos.eqb]; by rewrite Hw
      |by repeat (constructor; [done|])|lia|lia|by rewrite slice_4 by lia|exact Ho|cbn [nth Z.eqb Pos.eqb]; by rewrite Hw].
  - apply wp_peek; [exact He|exact Hn|lia|done|]. intros Hle2 Hb2. change (next_byte i + 1 + 2 <= E) in Hle2.
    wpx. apply wp_set_byte; [lia|]. wpx.
    pose proof (fun ob => vex_fill [byte_at (next_byte i); b1; byte_at (next_byte i + 2); 0] ob 3 i S eq_refl) as K.
    apply wp_when; intros Hw; wpx; match type of Hw with _ = ?v =>
        change (x86_64 i && negb (X86_VEX_W (byte_at (next_byte i + 2)) =? 0) = v) in Hw end;
      [apply (K 8)|apply (K (opnd_bytes i))];
      [by repeat (constructor; [done|])|lia|lia|by rewrite slice_3 by lia|lia|cbn [nth Z.eqb Pos.eqb]; by rewrite Hw
      |by repeat (constructor; [done|])|lia|lia|by rewrite slice_3 by lia|exact Ho|cbn [nth Z.eqb Pos.eqb]; by rewrite Hw].
  - apply wp_set_byte; [lia|]. wpx.
    apply (vex_fill [byte_at (next_byte i); b1; Z.land b1 0x7f; 0] (opnd_bytes i) 2 i S eq_refl); try lia.
    + repeat (constructor; [done|]). constructor; [|by constructor].
      change 0x7f with (2 ^ 7 - 1). rewrite land_ones_mod by lia. unfold is_byte. pose proof (Z.mod_pos_bound b1 (2 ^ 7)). lia.
    + by rewrite slice_2 by lia.
    + by rewrite andb_false_r.
Qed.
(** What insn_get_prefixes leaves: the set of prefixes, the last one in its place, the run
    of prefixes as long as it can be, and the sizes they select. *)
Record pfx_core (i : insn) : Prop := PfxCore {
  pc_set : forall x, x <> 0 -> x ∈ bytes (prefixes i) <-> x ∈ passed i;
  pc_last : bytes (prefixes i) !! 3%nat = Some (default 0 (last (passed i)));
  pc_legacy : Forall (fun x => legacy_byte T x = true) (passed i);
  pc_stop : let b := byte_at (emulate_prefix_size i + nbytes (prefixes i)) in
    legacy_byte T b = false \/ (b ∉ passed i /\ 0 ∉ bytes (prefixes i));
  pc_addr : addr_bytes i = addr_size (x86_64 i) (passed i) }.
Definition pfx_result (i : insn) : Prop :=
  pfx_core i /\ opnd_bytes i = if vex_w i || rex_w i then 8 else opnd_size (passed i).

Definition same_pfx (i i' : insn) : Prop :=
  bytes (prefixes i') = bytes (prefixes i) /\ nbytes (prefixes i') = nbytes (prefixes i) /\
  emulate_prefix_size i' = emulate_prefix_size i /\ addr_bytes i' = addr_bytes i /\ x86_64 i' = x86_64 i.
Lemma same_pfx_passed i i' : same_pfx i i' -> passed i' = passed i.
Proof. intros (_ & H & H' & _). unfold passed. by rewrite H, H'. Qed.
Lemma pfx_core_same i i' : same_pfx i i' -> pfx_core i -> pfx_core i'.
Proof.
  intros S [Cs Cl Cg Cp Ca]. pose proof (same_pfx_passed _ _ S) as Hp. destruct S as (H1 & H2 & H3 & H4 & H5).
  constructor; rewrite ?Hp, ?H1, ?H2, ?H3, ?H4, ?H5; done.
Qed.

Lemma legacy_nonzero : pfx_map_ok T = true -> legacy_byte T 0 = false.
Proof. unfold pfx_map_ok. rewrite andb_true_iff, negb_true_iff. tauto. Qed.

(** The scan ends with the last prefix put in its place. *)
Lemma pfx_core_intro nb lb i i' : 0 <= nb <= 4 -> st 1 i -> pfx_map_ok T = true -> scan nb lb i -> stopped nb i ->
  i' = set_prefixes (InsnField (place_last nb lb (bytes (prefixes i))) (got (prefixes i)) (nbytes (prefixes i))) i ->
  pfx_core i' /\ opnd_bytes i' = opnd_size (passed i').
Proof.
  intros Hnb S Hm [Cs Cz Cl Cg Co Ca] Hstop ->. destruct (st_field 1 PREFIXES i S) as (Hlen & _ & _). simpl in Hlen.
  set (i' := set_prefixes _ i). change (passed i') with (passed i).
  assert (0 ∉ passed i) as N0.
  { intros H. rewrite Forall_forall in Cg. specialize (Cg 0 H). simpl in Cg. by rewrite (legacy_nonzero Hm) in Cg. }
  assert (lb <> 0 -> lb ∈ passed i) as Hlb.
  { rewrite Cl. destruct (last (passed i)) as [y|] eqn:El; simpl; [|done]. intros _.
    by apply last_Some_elem_of. }
  assert (lb = 0 -> forall x, x ∉ passed i) as Hnil.
  { intros L0 x. rewrite Cl in L0. destruct (last (passed i)) as [y|] eqn:El; simpl in L0.
    - subst y. exfalso. by apply N0, last_Some_elem_of.
    - apply last_None in El. rewrite El. apply not_elem_of_nil. }
  split; [constructor|exact Co].
  - intros x Hx. change (passed i') with (passed i). by apply (place_last_set nb lb (bytes (prefixes i)) (fun x => x ∈ passed i)).
  - change (passed i') with (passed i). rewrite <- Cl. apply place_last_3; [done|]. intros L0.
    destruct (decide (nth 3 (bytes (prefixes i)) 0 = 0)) as [|N]; [done|]. exfalso.
    destruct (bytes (prefixes i)) as [|b0 [|b1 [|b2 [|b3 []]]]] eqn:Eb; try done. cbn [nth] in N.
    destruct (decide (nb = 4)) as [-> |]; [apply (Hnil L0 b3), Cs; simpl; set_solver|].
    assert (b3 ∈ drop (Z.to_nat nb) [b0; b1; b2; b3]) as H3.
    { apply (list_elem_of_lookup_2 _ (3 - Z.to_nat nb)). rewrite lookup_drop.
      by replace (Z.to_nat nb + (3 - Z.to_nat nb))%nat with 3%nat by lia. }
    rewrite Forall_forall in Cz. specialize (Cz b3 H3). done.
  - exact Cg.
  - change (passed i') with (passed i).
    change (emulate_prefix_size i' + nbytes (prefixes i')) with (emulate_prefix_size i + nbytes (prefixes i)).
    rewrite <- (passed_next i S). destruct Hstop as [|[-> Hb]]; [by left|right]. split; [done|].
    intros H0. apply N0. rewrite <- Cs. change (bytes (prefixes i')) with (place_last 4 lb (bytes (prefixes i))) in H0.
    apply place_last_in in H0 as [H0|[H0 N]]; [by rewrite take_ge by (rewrite Hlen; simpl; lia)|done|done].
  - exact Ca.
Qed.
Lemma keep_same_pfx i i' : keep i i' -> same_pfx i i'.
Proof. intros (H & ? & ? & ?). unfold same_pfx. by rewrite H. Qed.

(** The prefixes are decoded. *)
Definition prefixed (x64 : bool) (i : insn) : Prop := st 3 i /\ got (prefixes i) = true /\ x86_64 i = x64.

Lemma looping_start len x64 a : 0 <= len <= Z.max 0 E -> len + 1 <= E ->
  inat_get_opcode_attribute T (byte_at len) = Some a -> looping x64 len 0 0 a (started len x64).
Proof.
  intros Hl He Ha. constructor; try done; [by apply (st_le 0); [apply st_started|lia]|by right|].
  intros _. constructor; simpl; try done.
  by repeat (constructor; [done|]).
Qed.

Lemma vex_end_ok x64 i : st 3 i -> x86_64 i = x64 ->
  (pfx_map_ok T = true -> pfx_result i) ->
  wp (mark_got VEX_PREFIX;; mark_got PREFIXES;; dret 0) i (fun _ => True)
    (fun r i' => (r = 0 /\ prefixed x64 i' /\ (pfx_map_ok T = true -> pfx_result i')) \/ r = - ENODATA).
Proof.
  intros S Hx HP. unfold mark_got. wpx. left. split; [done|]. split; [split_and!; [|done|done]|].
  - apply (st_got 3 PREFIXES); [apply (st_got 3 VEX_PREFIX); [done|]|]; simpl; lia.
  - intros Hm. destruct (HP Hm) as [Hc Ho]. split; [|exact Ho]. by apply (pfx_core_same i).
Qed.

Lemma insn_get_prefixes_ok x64 R :
  wp (insn_get_prefixes T buf) (started 0 x64) R
    (fun r i' => (r = 0 /\ prefixed x64 i' /\ (pfx_map_ok T = true -> pfx_result i')) \/ r = - ENODATA).
Proof.
  unfold insn_get_prefixes. wpx. change (got (prefixes (started 0 x64))) with false. cbv iota.
  apply wp_catch. apply wp_bind. eapply wp_mono; [apply (emulate_prefix_ok x64 (fun _ => True))|by right|]. cbv beta.
  intros _ i (len & Hlen & ->). apply wp_bind. unfold peek_next. apply wp_peek; [done|simpl; lia|lia|by right|].
  rewrite !Z.add_0_r. intros Hle Hb. apply wp_bind. apply wp_opcode_attribute; [done|]. intros a Ha.
  change (next_byte (started len x64)) with len in *.
  pose proof (legacy_loop_ok loop_fuel x64 len 0 0 a (started len x64) (looping_start len x64 a Hlen Hle Ha)) as W.
  change (next_byte (started len x64)) with len in W. specialize (W ltac:(unfold loop_fuel; lia)).
  apply wp_bind. eapply wp_mono; [exact W|by right|]. clear W.
  cbv beta. intros [[nb lb] a'] i [L Hst]. cbn [fst snd] in *. pose proof L as [S Ho Hnb Hlb Hn _ Hm _ Hsc].
  pose proof (st_field 1 PREFIXES i S) as Hf. apply wp_bind. apply wp_set_last_prefix; [done|].
  set (i2 := set_prefixes _ i).
  assert (st 1 i2) as S2.
  { destruct Hf as (Hl & Hby & _). destruct (place_last_ok nb lb (bytes (prefixes i)) Hl Hby Hlb). by apply st_pfx_bytes; [..|lia]. }
  assert (pfx_map_ok T = true -> pfx_core i2 /\ opnd_bytes i2 = opnd_size (passed i2)) as C2.
  { intros Hp. apply (pfx_core_intro nb lb i); auto. }
  apply wp_bind. eapply wp_mono; [apply (rex_step_ok a' i2 S2 Ho)|by right|]. cbv beta.
  intros [a3 vend] i3 (S3 & K3 & O3). apply wp_bind.
  assert (x86_64 i3 = x64) as X3 by (destruct K3 as (_ & _ & _ & ->); exact Hm).
  assert (forall i4, st 3 i4 -> keep i3 i4 -> rex_prefix i4 = rex_prefix i3 \/ rex_prefix i4 = set_got (rex_prefix i3) ->
      opnd_bytes i4 = (if vex_w i4 then 8 else opnd_bytes i3) ->
      wp (mark_got VEX_PREFIX;; mark_got PREFIXES;; dret 0) i4 (fun _ => True)
        (fun r i' => (r = 0 /\ prefixed x64 i' /\ (pfx_map_ok T = true -> pfx_result i')) \/ r = - ENODATA)) as K.
  { intros i4 S4 K4 R4 O4. apply vex_end_ok; [done|by destruct K4 as (_ & _ & _ & ->)|]. intros Hp.
    destruct (C2 Hp) as [Hc Hq]. pose proof (keep_same_pfx _ _ K3) as Ks3. pose proof (keep_same_pfx _ _ K4) as Ks4.
    split; [by apply (pfx_core_same i3), (pfx_core_same i2)|].
    rewrite O4, O3, Hq, (same_pfx_passed _ _ Ks4), (same_pfx_passed _ _ Ks3).
    assert (rex_w i4 = rex_w i3) as -> by (unfold rex_w; by destruct R4 as [-> | ->]).
    by destruct (vex_w i4), (rex_w i3). }
  assert (vex_w i3 = false) as V3.
  { unfold vex_w. rewrite (st_fresh 2 VEX_PREFIX i3 S3 ltac:(simpl; lia) : vex_prefix i3 = zero_field). by rewrite !andb_false_r. }
  destruct vend.
  - apply wp_ret. eapply wp_mono; [apply (K i3)|by right|done]; [by apply (st_le 2); [|lia]|done|by left|by rewrite V3].
  - unfold mark_got at 1. apply wp_bind, wp_mod.
    eapply wp_mono; [apply vex_step_ok, (st_got 2 REX_PREFIX); [done|simpl; lia]|by right|]. cbv beta.
    intros _ i4 (S4 & K4 & R4 & O4). eapply wp_mono; [apply (K i4)|by right|done]; [done|exact K4|by right|exact O4].
Qed.
End spec.
