(* ===== verification/InsnDecode.v ===== *)
(** * Correctness of the instruction decoder: from the opcode to the whole instruction

    Continues [InsnSpec] (prefixes) with the other fields of an instruction and states the
    theorems on insn_get_prefixes, insn_decode and the queries of insn.h. *)
From S2P Require Import Prelude Inat Insn InsnSpec.
#[local] Open Scope insn_scope.

(** ** Reading a field of one, two or four bytes *)

Definition is_signed (t : ctype) : bool := match t with CS8 | CS16 | CS32 => true | CU8 | CU16 => false end.

Lemma le_bytes_add n z k : le_bytes n (z + k * 256 ^ Z.of_nat n) = le_bytes n z.
Proof.
  revert z k. induction n as [|n IH]; intros z k; [done|]. cbn [le_bytes].
  rewrite Nat2Z.inj_succ, Z.pow_succ_r by lia.
  replace (z + k * (256 * 256 ^ Z.of_nat n)) with (z + (k * 256 ^ Z.of_nat n) * 256) by lia.
  by rewrite Z.mod_add, Z.div_add, IH by lia.
Qed.

Lemma take_le_bytes m n z : (n <= m)%nat -> take n (le_bytes m z) = le_bytes n z.
Proof.
  revert n z. induction m as [|m IH]; intros [|n] z H; try done; [lia|]. simpl. by rewrite IH by lia.
Qed.

Lemma signed_cong b z : 0 < b -> exists k, signed b z = z + k * 2 ^ b.
Proof.
  intros Hb. exists (- ((z + 2 ^ (b - 1)) / 2 ^ b)). unfold signed.
  rewrite Z.mod_eq by lia. lia.
Qed.

Lemma signed_range b z : 0 < b -> - 2 ^ (b - 1) <= signed b z < 2 ^ (b - 1).
Proof.
  intros Hb. unfold signed. assert (2 ^ b = 2 * 2 ^ (b - 1)) as H.
  { rewrite <- Z.pow_succ_r by lia. f_equal. lia. }
  pose proof (Z.mod_pos_bound (z + 2 ^ (b - 1)) (2 ^ b)). lia.
Qed.

(** The bytes of what was read are the bytes that were read. *)
Lemma read_bytes t bs : Z.of_nat (length bs) = size_of t -> Forall is_byte bs ->
  take (Z.to_nat (size_of t)) (le_bytes 4 (leXX_to_cpu t bs)) = bs.
Proof.
  intros Hl Hb. rewrite <- Hl, Nat2Z.id. rewrite take_le_bytes by (destruct t; simpl in Hl; lia).
  rewrite <- (le_bytes_of_le bs Hb) at 3.
  assert (exists k, leXX_to_cpu t bs = of_le bs + k * 256 ^ Z.of_nat (length bs)) as [k ->];
    [|apply le_bytes_add].
  destruct t; cbn [leXX_to_cpu]; try (exists 0; lia);
    rewrite Hl; [apply (signed_cong 8)|apply (signed_cong 16)|apply (signed_cong 32)]; lia.
Qed.

(** A signed read is sign-extended to the 32 bits of the field. *)
Lemma read_sign_extended t bs g : Z.of_nat (length bs) = size_of t -> Forall is_byte bs -> is_signed t = true ->
  sign_extended (InsnField (le_bytes 4 (leXX_to_cpu t bs)) g (size_of t)).
Proof.
  intros Hl Hb Ht. right. unfold value. cbn [bytes nbytes]. rewrite read_bytes by done.
  rewrite of_le_bytes. change (256 ^ Z.of_nat 4) with (2 ^ 32).
  assert (- 2 ^ 31 <= leXX_to_cpu t bs < 2 ^ 31) as R.
  { destruct t; try done; cbn [leXX_to_cpu];
      [pose proof (signed_range 8 (of_le bs))|pose proof (signed_range 16 (of_le bs))|pose proof (signed_range 32 (of_le bs))];
      simpl in *; lia. }
  replace (signed (8 * size_of t) (of_le bs)) with (leXX_to_cpu t bs) by (by destruct t).
  revert R. generalize (leXX_to_cpu t bs). intros v R. unfold signed. zpow. zdm.
Qed.

Section decode.
Context (buf : list Z) (E : Z).
Context (Hbuf : Forall is_byte buf) (HE : E <= 15) (HEb : E <= Z.of_nat (length buf)).
Context (T : inat_tables) (HT : tables_ok T = true).
#[local] Notation st := (InsnSpec.st buf E).

Lemma slice_length o n : 0 <= o -> 0 <= n -> o + n <= E -> Z.of_nat (length (slice buf o n)) = n.
Proof. intros Ho Hn He. unfold slice. rewrite length_take, length_drop. lia. Qed.
Lemma slice_are_bytes o n : Forall is_byte (slice buf o n).
Proof. apply Forall_take. by apply Forall_drop. Qed.

(** The state after insn_field_set(&insn->p, get_next(t, insn), sizeof(t)). *)
Lemma st_take p t i : st (idx p) i -> next_byte i + size_of t <= E ->
  (p = DISPLACEMENT \/ p = IMMEDIATE1 -> is_signed t = true) ->
  st (S (idx p)) (upd_field p (insn_field_set (leXX_to_cpu t (slice buf (next_byte i) (size_of t))) (size_of t))
                   (set_next_byte (next_byte i + size_of t) i)).
Proof.
  intros S He Ht. set (v := leXX_to_cpu _ _). pose proof (st_next _ _ _ _ S) as Hn.
  assert (0 < size_of t) as Hs by (by destruct t).
  pose proof (slice_length (next_byte i) (size_of t) Hn ltac:(lia) He) as Hl.
  assert (upd_field p (insn_field_set v (size_of t)) (set_next_byte (next_byte i + size_of t) i)
          = set_next_byte (next_byte i + size_of t) (set_field p (InsnField (le_bytes 4 v) (got (field_of p i)) (size_of t)) i)) as ->.
  { by destruct p. }
  apply st_fill; try done; [apply le_bytes_are_bytes|lia| |].
  - by apply read_bytes; [|apply slice_are_bytes].
  - intros Hp. apply read_sign_extended; [done|apply slice_are_bytes|auto].
Qed.

(** A field that is filled leaves the others and the scalars alone. *)
Definition beyond (i i' : insn) : Prop :=
  got (prefixes i') = got (prefixes i) /\ x86_64 i' = x86_64 i /\ attr i' = attr i /\
  opnd_bytes i' = opnd_bytes i /\ addr_bytes i' = addr_bytes i /\
  next_byte i <= next_byte i'.

Lemma wp_take_field p t i R (Q : unit -> insn -> Prop) : st (idx p) i -> p <> PREFIXES ->
  (p = DISPLACEMENT \/ p = IMMEDIATE1 -> is_signed t = true) -> R i ->
  (forall i', st (S (idx p)) i' -> beyond i i' -> next_byte i' = next_byte i + size_of t -> Q tt i') ->
  wp (take_field buf p t) i R Q.
Proof.
  intros S Hp Ht HR HQ. pose proof (st_next _ _ _ _ S) as Hn. unfold take_field. wpx.
  apply (wp_get_next buf E HEb); [exact (st_end _ _ _ _ S)|done|done|]. intros He. unfold field_set. wpx.
  assert (0 < size_of t) by (by destruct t).
  apply HQ; [by apply st_take| |]; destruct p; try done; unfold beyond; simpl; repeat (split; [done|]); lia.
Qed.
(** ** The queries *)

Lemma wp_ensure_prefixes i R (Q : unit -> insn -> Prop) : got (prefixes i) = true -> Q tt i ->
  wp (ensure_prefixes T buf) i R Q.
Proof. intros Hg HQ. unfold ensure_prefixes. wpx. rewrite Hg. by wpx. Qed.
Lemma wp_is_avx i R (Q : bool -> insn -> Prop) : got (prefixes i) = true -> (forall b, Q b i) ->
  wp (insn_is_avx_or_xop T buf) i R Q.
Proof. intros Hg HQ. unfold insn_is_avx_or_xop. wpx. apply wp_ensure_prefixes; [done|]. wpx. apply HQ. Qed.
Lemma wp_is_rex2 i R (Q : bool -> insn -> Prop) : got (prefixes i) = true -> (forall b, Q b i) ->
  wp (insn_is_rex2 T buf) i R Q.
Proof. intros Hg HQ. unfold insn_is_rex2. wpx. apply wp_ensure_prefixes; [done|]. wpx. apply HQ. Qed.
Lemma wp_is_evex i R (Q : bool -> insn -> Prop) : got (prefixes i) = true -> (forall b, Q b i) ->
  wp (insn_is_evex T buf) i R Q.
Proof. intros Hg HQ. unfold insn_is_evex. wpx. apply wp_ensure_prefixes; [done|]. wpx. apply HQ. Qed.

Definition fields_ok (i : insn) : Prop := forall p, field_ok (field_of p i).
Lemma st_fields k i : st k i -> fields_ok i.
Proof. intros S p. exact (st_field _ _ _ p i S). Qed.

Lemma land_3_range x : 0 <= Z.land x 3 <= 3.
Proof. pose proof (land_mask_range x 0 2 ltac:(lia) ltac:(lia)) as H. change (0 <= Z.land x 3 < 4) in H. lia. Qed.
Lemma land_1f_pos x : 0 <= Z.land x 0x1f.
Proof. apply Z.land_nonneg. by right. Qed.
Lemma land_7_pos x : 0 <= Z.land x 0x07.
Proof. apply Z.land_nonneg. by right. Qed.

Lemma wp_is_xop i R (Q : bool -> insn -> Prop) : fields_ok i -> (forall b, Q b i) -> wp (avx_insn_is_xop T) i R Q.
Proof.
  intros Hf HQ. unfold avx_insn_is_xop. wpx. apply wp_byte_of; [apply Hf|lia|]. intros b _ Hb. wpx.
  apply (wp_opcode_attribute T HT); [done|]. intros a _. wpx. apply HQ.
Qed.
Lemma wp_vex_p i R (Q : Z -> insn -> Prop) : fields_ok i -> (forall p, 0 <= p <= 3 -> Q p i) -> wp insn_vex_p_bits i R Q.
Proof.
  intros Hf HQ. unfold insn_vex_p_bits. wpx. apply wp_byte_of; [apply Hf|case_match; lia|]. intros b _ Hb. wpx.
  apply HQ, land_3_range.
Qed.
Lemma wp_vex_m i R (Q : Z -> insn -> Prop) : fields_ok i -> (forall m, 0 <= m -> Q m i) -> wp insn_vex_m_bits i R Q.
Proof.
  intros Hf HQ. unfold insn_vex_m_bits. wpx. case_match; wpx; [by apply HQ|].
  apply wp_byte_of; [apply Hf|lia|]. intros b _ Hb. wpx. apply HQ. case_match; [apply land_1f_pos|apply land_7_pos].
Qed.
Lemma wp_vex_w i R (Q : Z -> insn -> Prop) : fields_ok i -> (forall w, Q w i) -> wp insn_vex_w_bit i R Q.
Proof.
  intros Hf HQ. unfold insn_vex_w_bit. wpx. case_match; wpx; [apply HQ|].
  apply wp_byte_of; [apply Hf|lia|]. intros b _ Hb. wpx. apply HQ.
Qed.
Lemma wp_xop_map i R (Q : Z -> insn -> Prop) : fields_ok i -> (forall m, Q m i) -> wp insn_xop_map_bits i R Q.
Proof.
  intros Hf HQ. unfold insn_xop_map_bits. wpx. case_match; wpx; [apply HQ|].
  apply wp_byte_of; [apply Hf|lia|]. intros b _ Hb. wpx. apply HQ.
Qed.
Lemma wp_last_prefix_id i R (Q : Z -> insn -> Prop) : fields_ok i -> got (prefixes i) = true ->
  (forall p, 0 <= p <= 3 -> Q p i) -> wp (insn_last_prefix_id T buf) i R Q.
Proof.
  intros Hf Hg HQ. unfold insn_last_prefix_id. wpx. apply wp_is_avx; [done|]. intros [].
  - wpx. apply wp_is_xop; [done|]. intros []; [|by apply wp_vex_p].
    unfold insn_xop_p_bits. wpx. apply wp_byte_of; [apply Hf|lia|]. intros b _ Hb. wpx. apply HQ, land_3_range.
  - wpx. apply wp_byte_of; [apply Hf|lia|]. intros b _ Hb. case_match; [|wpx; apply HQ; lia].
    apply wp_lift. destruct (last_prefix_id_total T HT b Hb) as (p & Hp & Hr). eauto.
Qed.
(** ** The opcode *)

(** Up to field [k], with the prefixes decoded and at least one byte consumed. *)
Definition upto (k : nat) (x64 : bool) (i : insn) : Prop :=
  st k i /\ got (prefixes i) = true /\ x86_64 i = x64 /\ 0 < next_byte i <= E.
(** The return codes of the stages. *)
Definition rc (r : Z) (P : Prop) : Prop := (r = 0 /\ P) \/ r = - EINVAL \/ r = - ENODATA.

Lemma upto_fields k x64 i : upto k x64 i -> fields_ok i.
Proof. intros [S _]. by eapply st_fields. Qed.
Lemma upto_attr k x64 a i : upto k x64 i -> upto k x64 (set_attr a i).
Proof. intros (S & H). split; [by apply st_attr|exact H]. Qed.
Lemma upto_opnd k x64 v i : upto k x64 i -> v = 2 \/ v = 4 \/ v = 8 -> upto k x64 (set_opnd_bytes v i).
Proof. intros (S & H) Hv. split; [by apply st_opnd|exact H]. Qed.
Lemma upto_got k x64 p i : upto k x64 i -> (idx p < k)%nat -> upto k x64 (upd_field p set_got i).
Proof. intros (S & H & H') Hp. split; [by apply st_got|]. split; [by destruct p|]. destruct p; exact H'. Qed.
Lemma upto_le k k' x64 i : upto k x64 i -> (k <= k')%nat -> upto k' x64 i.
Proof. intros (S & H) Hk. split; [by eapply st_le|exact H]. Qed.

Lemma opcode_end_ok x64 i R : upto 4 x64 i -> wp opcode_end i R (fun r i' => rc r (upto 4 x64 i')).
Proof. intros U. unfold opcode_end, mark_got. wpx. left. split; [done|]. apply upto_got; [done|simpl; lia]. Qed.
Lemma bad_insn_ok P i R : wp bad_insn i R (fun r i' => rc r (P i')).
Proof. unfold bad_insn, set_attr_m. wpx. right. by left. Qed.

Lemma avx_opcode_ok x64 op i : is_byte op -> upto 4 x64 i ->
  wp (avx_opcode T buf op) i (fun _ => True) (fun r i' => rc r (upto 4 x64 i')).
Proof.
  intros Hop U. pose proof (upto_fields _ _ _ U) as Hf. unfold avx_opcode, set_attr_m. wpx.
  apply wp_is_xop; [done|]. intros [].
  - wpx. apply wp_xop_map; [done|]. intros m. wpx. apply wp_lift.
    destruct (xop_attribute_total T HT op m Hop) as [a ->]. eexists. split; [done|]. wpx.
    destruct (inat_accept_xop a); [|apply bad_insn_ok]. by apply opcode_end_ok, upto_attr.
  - wpx. apply wp_vex_m; [done|]. intros m Hm. wpx. apply wp_vex_p; [done|]. intros p Hp. wpx. apply wp_lift.
    destruct (avx_attribute_total T HT op m p Hop Hm ltac:(lia)) as [a ->]. eexists. split; [done|]. wpx.
    apply wp_vex_w; [exact Hf|]. intros w. wpx.
    assert (forall j, upto 4 x64 j -> wp (evex <- insn_is_evex T buf;;
      (if (inat_must_evex a && negb evex) || (negb (inat_accept_vex a) && negb (inat_is_group a))
       then bad_insn else opcode_end)) j (fun _ => True) (fun r i' => rc r (upto 4 x64 i'))) as K.
    { intros j Uj. wpx. apply wp_is_evex; [apply Uj|]. intros ev. case_match; [apply bad_insn_ok|by apply opcode_end_ok]. }
    apply wp_when; intros _; [apply wp_mod|]; apply K; [apply upto_opnd; [|lia]|]; by apply upto_attr.
Qed.

Lemma rex2_opcode_ok x64 op i : is_byte op -> upto 4 x64 i ->
  wp (rex2_opcode T buf op) i (fun _ => True) (fun r i' => rc r (upto 4 x64 i')).
Proof.
  intros Hop U. pose proof (upto_fields _ _ _ U) as Hf. unfold rex2_opcode, insn_rex2_m_bit, set_attr_m. wpx.
  apply wp_byte_of; [apply Hf|lia|]. intros b _ Hb. wpx. case_match; wpx.
  - apply (wp_opcode_attribute T HT); [done|]. intros esc _. wpx.
    apply wp_last_prefix_id; [done|apply U|]. intros p Hp. wpx. apply wp_lift.
    destruct (escape_attribute_total T HT op p esc Hop Hp) as [a ->]. eexists. split; [done|]. wpx.
    by apply opcode_end_ok, upto_attr.
  - apply (wp_opcode_attribute T HT); [done|]. intros a _. wpx. by apply opcode_end_ok, upto_attr.
Qed.

Lemma offset_opcode_next x64 i : upto 4 x64 i -> offset OPCODE i + nbytes (opcode i) = next_byte i.
Proof.
  intros [[I F] _]. rewrite (inv_next _ _ i I). unfold offset, bytes_before.
  assert (forall q, (4 <= idx q)%nat -> nbytes (field_of q i) = 0) as Z0.
  { intros q Hq. by rewrite (F q Hq). }
  pose proof (Z0 MODRM); pose proof (Z0 SIB); pose proof (Z0 DISPLACEMENT); pose proof (Z0 IMMEDIATE1);
  pose proof (Z0 IMMEDIATE2). clear I F Z0. simpl in *. lia.
Qed.

(** One more opcode byte. *)
Lemma upto_opcode_byte x64 i : upto 4 x64 i -> nbytes (opcode i) < 4 -> next_byte i + 1 <= E ->
  upto 4 x64 (set_next_byte (next_byte i + 1) (set_field OPCODE
    (InsnField (<[Z.to_nat (nbytes (opcode i)) := byte_at buf (next_byte i)]> (bytes (opcode i))) (got (opcode i))
       (nbytes (opcode i) + 1)) i)).
Proof.
  intros U Hn He. pose proof (offset_opcode_next _ _ U) as Ho. destruct U as (S & Hg & Hx & Hp).
  destruct (st_field _ _ _ OPCODE i S) as (Hl & Hb & H0). simpl in Hl, Hb, H0.
  pose proof (st_next _ _ _ _ S). split_and!; [|done|done|simpl; lia|simpl; lia].
  apply (st_put buf E OPCODE); [done| |done|lia|lia| |by intros []].
  - split_and!; cbn [bytes nbytes]; [by rewrite length_insert| |lia].
    apply Forall_insert; [done|]. apply (byte_at_range buf); [done|lia].
  - intros _. unfold field_at. cbn [bytes nbytes].
    replace (Z.to_nat (nbytes (opcode i) + 1)) with (Datatypes.S (Z.to_nat (nbytes (opcode i)))) by lia.
    rewrite take_insert_end by lia. 
    assert (0 <= offset OPCODE i) as Hoff.
    { unfold offset. pose proof (bytes_before_pos (idx OPCODE) i (st_fields 4 i S)). pose proof (inv_emul _ _ i (proj1 S)). lia. }
    rewrite slice_snoc by lia.
    rewrite Ho. f_equal. destruct S as [I _]. exact (inv_at _ _ i I OPCODE ltac:(done)).
Qed.

Lemma escape_loop_ok fuel k x64 i : upto 4 x64 i -> esc_ends T k (attr i) = true ->
  nbytes (opcode i) + Z.of_nat k <= 4 -> (k < fuel)%nat ->
  wp (escape_loop T buf fuel) i (fun _ => True) (fun _ i' => upto 4 x64 i').
Proof.
  revert k i. induction fuel as [|fuel IH]; intros k i U He Hk Hf; [lia|]. cbn [escape_loop]. wpx.
  destruct (inat_is_escape (attr i)) eqn:Hi; cbn [negb]; [|by wpx].
  pose proof U as (S & Hg & Hx & Hp). wpx.
  apply (wp_get_next buf E HEb); [exact (st_end _ _ _ _ S)|lia|done|]. cbn [size_of]. intros Hle. wpx.
  change (leXX_to_cpu CU8 (slice buf (next_byte i) 1)) with (byte_at buf (next_byte i)).
  pose proof (st_byte_next buf E Hbuf HEb 4 i S Hle) as Hb. set (op := byte_at buf (next_byte i)) in *.
  change (opcode (set_next_byte _ i)) with (opcode i).
  destruct (st_field _ _ _ OPCODE i S) as (_ & _ & H0). simpl in H0.
  destruct k as [|k]; [simpl in He; by rewrite Hi in He|].
  assert (u8 (nbytes (opcode i) + 1) = nbytes (opcode i) + 1) as Hu by (apply Z.mod_small; lia).
  apply wp_set_byte; [lia|]. wpx. unfold upd_field. cbn [field_of]. rewrite Hu.
  pose proof (upto_opcode_byte x64 i U ltac:(lia) Hle) as U'. fold op in U'.
  apply wp_last_prefix_id; [exact (upto_fields _ _ _ U')|exact Hg|]. intros pfx Hpfx. wpx. apply wp_lift.
  destruct (escape_attribute_total T HT op pfx (attr i) Hb Hpfx) as [a Ha]. exists a. split; [done|].
  unfold set_attr_m. wpx.
  destruct (esc_ends_step T (Datatypes.S k) (attr i) op pfx a He Hi Hb Hpfx Ha) as (k' & [= <-] & He').
  apply (IH k); [by apply upto_attr|done|simpl; lia|lia].
Qed.
Context (Hesc : escapes_end T 3 = true).

Lemma plain_opcode_ok x64 op i : is_byte op -> upto 4 x64 i -> nbytes (opcode i) = 1 ->
  wp (plain_opcode T buf op) i (fun _ => True) (fun r i' => rc r (upto 4 x64 i')).
Proof.
  intros Hop U H1. unfold plain_opcode, set_attr_m. wpx. apply (wp_opcode_attribute T HT); [done|]. intros a Ha. wpx.
  eapply wp_mono; [eapply (escape_loop_ok loop_fuel 3 x64)| |].
  - by apply upto_attr.
  - cbn [attr set_attr]. case_match; [apply esc_ends_masked|by eapply escapes_end_at].
  - simpl. lia.
  - unfold loop_fuel. lia.
  - done.
  - cbv beta. intros _ i' U'. wpx. case_match; [apply bad_insn_ok|by apply opcode_end_ok].
Qed.

Lemma rc_done (P : insn -> Prop) r i : r <> 0 -> rc r True -> rc r (P i).
Proof. intros Hr [[? _]|H]; [done|by right]. Qed.

Lemma insn_get_opcode_ok x64 R :
  wp (insn_get_opcode T buf) (started E 0 x64) R (fun r i' => rc r (upto 4 x64 i')).
Proof.
  unfold insn_get_opcode. wpx. change (got (opcode (started E 0 x64))) with false. cbv iota.
  apply wp_bind. eapply wp_mono; [apply (insn_get_prefixes_ok buf E Hbuf HE HEb T HT x64 (fun _ => False))|done|].
  cbv beta. intros r i [(-> & (S & Hg & Hx) & _)| ->]; [|cbn [Z.eqb negb ENODATA Z.opp]; wpx; right; by right].
  cbn [Z.eqb negb]. apply wp_catch. wpx.
  pose proof (st_next _ _ _ _ S) as Hn.
  apply (wp_get_next buf E HEb); [exact (st_end _ _ _ _ S)|done|right; by right|]. cbn [size_of]. intros Hle. wpx.
  apply wp_set_byte; [lia|]. wpx.
  change (leXX_to_cpu CU8 (slice buf (next_byte i) 1)) with (byte_at buf (next_byte i)).
  pose proof (st_byte_next buf E Hbuf HEb 3 i S Hle) as Hb. set (op := byte_at buf (next_byte i)) in *.
  unfold upd_field. cbn [field_of]. change (opcode (set_next_byte _ i)) with (opcode i).
  rewrite (st_fresh _ _ 3 OPCODE i S ltac:(simpl; lia) : opcode i = zero_field).
  set (i1 := set_field OPCODE _ _).
  assert (upto 4 x64 i1) as U.
  { assert (i1 = set_next_byte (next_byte i + 1) (set_field OPCODE (InsnField [op; 0; 0; 0] false 1) i)) as -> by done.
    split_and!; [|done|done|simpl; lia|simpl; lia].
    apply (st_fill buf E OPCODE); [done|done|by repeat (constructor; [done|])|lia|lia| |by intros []].
    by rewrite (slice_1 buf E HEb) by lia. }
  clearbody op. assert (nbytes (opcode i1) = 1) as H1 by done. clearbody i1.
  apply wp_is_avx; [apply U|]. intros []; [|wpx; apply wp_is_rex2; [apply U|]; intros []];
    (eapply wp_mono; [by first [apply avx_opcode_ok|apply rex2_opcode_ok|apply plain_opcode_ok]|intros ? _; right; by right|done]).
Qed.

(** ** ModRM, SIB and displacement *)

Lemma group_step_ok x64 m i : upto 5 x64 i ->
  wp (group_step T buf m) i (fun _ => True) (fun _ i' => upto 5 x64 i').
Proof.
  intros U. unfold group_step, set_attr_m. wpx. case_match; wpx; [done|].
  apply wp_last_prefix_id; [by eapply upto_fields|apply U|]. intros p Hp. wpx. apply wp_lift.
  destruct (group_attribute_total T HT m (u8 p) (attr i)) as [a ->]; [unfold u8; rewrite Z.mod_small; lia|].
  eexists. split; [done|]. wpx. apply wp_is_avx; [apply U|]. intros b. wpx. by apply upto_attr.
Qed.

Lemma upto_take p t x64 i : upto (idx p) x64 i -> p <> PREFIXES -> next_byte i + size_of t <= E ->
  (p = DISPLACEMENT \/ p = IMMEDIATE1 -> is_signed t = true) ->
  upto (S (idx p)) x64 (upd_field p (insn_field_set (leXX_to_cpu t (slice buf (next_byte i) (size_of t))) (size_of t))
                         (set_next_byte (next_byte i + size_of t) i)).
Proof.
  intros (S & Hg & Hx & Hn) Hp He Ht. assert (0 < size_of t) by (by destruct t).
  split; [by apply st_take|]. destruct p; try done; split_and!; try done; simpl; lia.
Qed.

Lemma insn_get_modrm_ok x64 R :
  wp (insn_get_modrm T buf) (started E 0 x64) R (fun r i' => rc r (upto 5 x64 i')).
Proof.
  unfold insn_get_modrm. wpx. change (got (modrm (started E 0 x64))) with false. cbv iota.
  apply wp_bind. eapply wp_mono; [apply (insn_get_opcode_ok x64 (fun _ => False))|done|].
  cbv beta. intros r i [[-> U]|Hr];
    [|wpx; assert (r =? 0 = false) as -> by (by destruct Hr as [-> | ->]); cbn [negb]; wpx; by right].
  cbn [Z.eqb negb]. apply wp_catch. apply wp_bind, wp_gets. apply wp_bind.
  assert (forall good j, upto 5 x64 j -> wp (if negb good then bad_insn else x64 <- gets x86_64;; a <- gets attr;;
        when (x64 && inat_is_force64 a) (mod_ (set_opnd_bytes 8));; mark_got MODRM;; dret 0) j (fun _ => True)
        (fun r i' => rc r (upto 5 x64 i'))) as K.
  { intros [] j Uj; cbn [negb]; [|apply bad_insn_ok]. wpx.
    apply wp_when; intros _; unfold mark_got; wpx; left; (split; [done|]); apply upto_got; simpl; try lia; [|done].
    apply upto_opnd; [done|lia]. }
  assert (forall good j, upto 5 x64 j -> wp (if negb good then bad_insn else x64 <- gets x86_64;; a <- gets attr;;
        when (x64 && inat_is_force64 a) (mod_ (set_opnd_bytes 8));; mark_got MODRM;; dret 0) j
        (fun i' => rc (- ENODATA) (upto 5 x64 i')) (fun r i' => rc r (upto 5 x64 i'))) as K'.
  { intros good j Uj. eapply wp_mono; [by apply K| |done]. intros ? _. right. by right. }
  clear K. destruct (inat_has_modrm (attr i)); [|wpx; by apply K'; apply (upto_le 4); [|lia]].
  apply wp_bind. destruct U as (S & Hg & Hx & Hn).
  apply (wp_get_next buf E HEb); [exact (st_end _ _ _ _ S)|lia|right; by right|]. cbn [size_of]. intros Hle.
  apply wp_bind. unfold field_set. apply wp_mod.
  eapply wp_mono; [apply (group_step_ok x64)|intros ? _; right; by right|intros good j; apply K'].
  by apply (upto_take MODRM CU8); [| |simpl; lia|intros []].
Qed.
(** A stage that fails hands its code on. *)
Ltac fail_code Hr := lazymatch type of Hr with ?r = _ \/ _ =>
  assert (r =? 0 = false) as -> by (by destruct Hr as [-> | ->]); cbn [negb]; wpx; by right end.

Lemma insn_get_sib_ok x64 R :
  wp (insn_get_sib T buf) (started E 0 x64) R (fun r i' => rc r (upto 6 x64 i')).
Proof.
  unfold insn_get_sib. wpx. change (got (sib (started E 0 x64))) with false. cbv iota.
  apply wp_bind. eapply wp_mono; [apply (insn_get_modrm_ok x64 (fun _ => False))|done|].
  cbv beta. intros r i [[-> U]|Hr]; [|fail_code Hr]. cbn [Z.eqb negb]. apply wp_catch. wpx.
  apply wp_byte_of; [by apply (upto_fields _ _ _ U)|lia|]. intros m _ _. wpx.
  assert (forall j, upto 6 x64 j -> rc 0 (upto 6 x64 (upd_field SIB set_got j))) as K.
  { intros j Uj. left. split; [done|]. apply upto_got; [done|simpl; lia]. }
  apply wp_when; intros _; wpx; [|by unfold mark_got; wpx; apply K, (upto_le 5); [|lia]].
  pose proof U as (S & Hg & Hx & Hn).
  apply (wp_get_next buf E HEb); [exact (st_end _ _ _ _ S)|lia|right; by right|]. cbn [size_of]. intros Hle.
  unfold field_set, mark_got. wpx. apply K. by apply (upto_take SIB CU8); [| |simpl; lia|intros []].
Qed.

Lemma displacement_type_signed m rm b ab t : displacement_type m rm b ab = Some t -> is_signed t = true.
Proof. unfold displacement_type. repeat case_match; intros [= <-]; done. Qed.

Lemma wp_take_upto p t x64 i R (Q : unit -> insn -> Prop) : upto (idx p) x64 i -> p <> PREFIXES ->
  (p = DISPLACEMENT \/ p = IMMEDIATE1 -> is_signed t = true) -> R i ->
  (forall i', upto (S (idx p)) x64 i' -> beyond i i' -> Q tt i') -> wp (take_field buf p t) i R Q.
Proof.
  intros U Hp Ht HR HQ. pose proof U as (S & Hg & Hx & Hn). apply wp_take_field; try done.
  intros i' S' B Hn'. apply HQ; [|done]. destruct B as (Bg & Bx & _ & _ & _ & Bn).
  split_and!; [done|congruence|congruence|lia|]. pose proof (next_bound _ _ _ _ S'). lia.
Qed.

Lemma insn_get_displacement_ok x64 R :
  wp (insn_get_displacement T buf) (started E 0 x64) R (fun r i' => rc r (upto 7 x64 i')).
Proof.
  unfold insn_get_displacement. wpx. change (got (displacement (started E 0 x64))) with false. cbv iota.
  apply wp_bind. eapply wp_mono; [apply (insn_get_sib_ok x64 (fun _ => False))|done|].
  cbv beta. intros r i [[-> U]|Hr]; [|fail_code Hr]. cbn [Z.eqb negb]. apply wp_catch. wpx.
  assert (forall j, upto 7 x64 j -> wp (mark_got DISPLACEMENT;; dret 0) j (fun i' => rc (- ENODATA) (upto 7 x64 i'))
            (fun r i' => rc r (upto 7 x64 i'))) as K.
  { intros j Uj. unfold mark_got. wpx. left. split; [done|]. apply upto_got; [done|simpl; lia]. }
  assert (upto 7 x64 i) as U7 by (by apply (upto_le 6); [|lia]).
  destruct (_ =? 0); [apply wp_ret; by apply K|].
  destruct (displacement_type _ _ _ _) as [t|] eqn:Ht; [|apply wp_ret; by apply K].
  apply (wp_take_upto DISPLACEMENT t x64); [done|done| |right; by right|by intros i' Ui' _; apply K].
  intros _. by eapply displacement_type_signed.
Qed.

(** ** Immediates *)

(** immediate2 is written once: the attribute does not ask for a second immediate after
    one that already takes both fields. *)
Definition imm2_once (a : Z) : bool :=
  negb (inat_has_second_immediate a &&
        let s := inat_immediate_size a in (s =? INAT_IMM_QWORD) || (s =? INAT_IMM_PTR) || (s =? INAT_IMM_VWORD)).

Lemma wp_both_got x64 i R (Q : unit -> insn -> Prop) : upto 9 x64 i ->
  (forall i', upto 9 x64 i' -> attr i' = attr i -> Q tt i') -> wp both_got i R Q.
Proof.
  intros U HQ. unfold both_got, mark_got. wpx. apply HQ; [|done].
  apply upto_got; [apply upto_got; [done|]|]; simpl; lia.
Qed.

(** The helpers return 1 with both fields decoded, or 0. *)
Definition imm_post (k : nat) (x64 : bool) (a : Z) (r : Z) (i : insn) : Prop :=
  r = 0 \/ (r = 1 /\ upto k x64 i /\ attr i = a).

Lemma take_imm1 x64 t i R (Q : unit -> insn -> Prop) : upto 7 x64 i -> is_signed t = true -> R i ->
  (forall i', upto 8 x64 i' -> attr i' = attr i -> Q tt i') -> wp (take_field buf IMMEDIATE1 t) i R Q.
Proof.
  intros U Ht HR HQ. apply (wp_take_upto IMMEDIATE1 t x64); try done.
  intros i' U' (_ & _ & Ha & _). by apply HQ.
Qed.
Lemma take_imm2 x64 t i R (Q : unit -> insn -> Prop) : upto 8 x64 i -> R i ->
  (forall i', upto 9 x64 i' -> attr i' = attr i -> Q tt i') -> wp (take_field buf IMMEDIATE2 t) i R Q.
Proof.
  intros U HR HQ. apply (wp_take_upto IMMEDIATE2 t x64); try done; [by intros []|].
  intros i' U' (_ & _ & Ha & _). by apply HQ.
Qed.

(** Finishes a helper once its fields have been read. *)
Lemma finish_imm x64 a i (R : insn -> Prop) : upto 8 x64 i \/ upto 9 x64 i -> attr i = a ->
  wp (both_got;; dret 1) i R (imm_post 9 x64 a).
Proof.
  intros U Ha. apply wp_bind. apply (wp_both_got x64).
  { destruct U; [by apply (upto_le 8); [|lia]|done]. }
  intros i' U' Ha'. wpx. right. split_and!; [done|done|congruence].
Qed.

Lemma get_moffset_ok x64 i R : upto 7 x64 i ->
  wp (__get_moffset buf) i R (imm_post 9 x64 (attr i)).
Proof.
  intros U. unfold __get_moffset. apply wp_catch. apply wp_bind, wp_gets, wp_bind.
  repeat case_match; [..|apply wp_err; by left].
  - apply (take_imm1 x64); [done|done|by left|]. intros i' U' Ha. apply finish_imm; auto.
  - apply (take_imm1 x64); [done|done|by left|]. intros i' U' Ha. apply finish_imm; auto.
  - apply wp_bind. apply (take_imm1 x64); [done|done|by left|]. intros i' U' Ha.
    apply (take_imm2 x64); [done|by left|]. intros i2 U2 Ha2. apply finish_imm; [by right|congruence].
Qed.

Lemma get_immv32_ok x64 i R : upto 7 x64 i ->
  wp (__get_immv32 buf) i R (imm_post 8 x64 (attr i)).
Proof.
  intros U. unfold __get_immv32. apply wp_catch. apply wp_bind, wp_gets, wp_bind.
  repeat case_match; [..|apply wp_err; by left];
    (apply (take_imm1 x64); [done|done|by left|]; intros i' U' Ha; wpx; right; by split_and!).
Qed.

Lemma get_immv_ok x64 i R : upto 7 x64 i ->
  wp (__get_immv buf) i R (imm_post 9 x64 (attr i)).
Proof.
  intros U. unfold __get_immv. apply wp_catch. apply wp_bind, wp_gets, wp_bind.
  repeat case_match; [..|apply wp_err; by left].
  - apply (take_imm1 x64); [done|done|by left|]. intros i' U' Ha. apply finish_imm; auto.
  - apply wp_bind. unfold take_field. apply wp_bind. pose proof U as (S & _ & _ & Hn).
    apply (wp_get_next buf E HEb); [exact (st_end _ _ _ _ S)|lia|by left|]. intros Hle. unfold field_set. do 2 apply wp_mod.
    apply finish_imm; [left|done]. by apply (upto_take IMMEDIATE1 CS32).
  - apply wp_bind. apply (take_imm1 x64); [done|done|by left|]. intros i' U' Ha.
    apply (take_imm2 x64); [done|by left|]. intros i2 U2 Ha2. apply finish_imm; [by right|congruence].
Qed.

Lemma get_immptr_ok x64 i R : upto 7 x64 i ->
  wp (__get_immptr buf) i R (imm_post 9 x64 (attr i)).
Proof.
  intros U. unfold __get_immptr. apply wp_catch. apply wp_bind, wp_gets.
  case_match; [wpx; by left|]. apply wp_bind.
  repeat case_match; [..|apply wp_err; by left];
    (apply (take_imm1 x64); [done|done|by left|]; intros i' U' Ha; apply wp_bind;
     apply (take_imm2 x64); [done|by left|]; intros i2 U2 Ha2; apply finish_imm; [by right|congruence]).
Qed.
Definition both_fields (size : Z) : bool := (size =? INAT_IMM_QWORD) || (size =? INAT_IMM_PTR) || (size =? INAT_IMM_VWORD).

Lemma wp_or_err k x64 m i (Q : unit -> insn -> Prop) : wp m i (fun _ => False) (imm_post k x64 (attr i)) ->
  (forall i', upto k x64 i' -> attr i' = attr i -> Q tt i') -> wp (or_err m) i (fun _ => True) Q.
Proof.
  intros W HQ. unfold or_err. apply wp_bind. eapply wp_mono; [exact W|done|]. cbv beta.
  intros r i' [-> |(-> & U & Ha)]; simpl; [by apply wp_err|]. wpx. auto.
Qed.

Lemma immediate_step_ok x64 size i : upto 7 x64 i ->
  wp (immediate_step buf size) i (fun _ => True)
    (fun _ i' => upto (if both_fields size then 9 else 8) x64 i' /\ attr i' = attr i).
Proof.
  intros U. unfold immediate_step, both_fields.
  destruct (Z.eqb_spec size INAT_IMM_BYTE) as [-> |]; [by apply (take_imm1 x64)|].
  destruct (Z.eqb_spec size INAT_IMM_WORD) as [-> |]; [by apply (take_imm1 x64)|].
  destruct (Z.eqb_spec size INAT_IMM_DWORD) as [-> |]; [by apply (take_imm1 x64)|].
  destruct (size =? INAT_IMM_QWORD).
  { apply wp_bind, (take_imm1 x64); [done..|]. intros i' U' Ha. apply (take_imm2 x64); [done..|].
    intros i2 U2 Ha2. split; [done|congruence]. }
  destruct (size =? INAT_IMM_PTR); [by eapply wp_or_err; [by apply get_immptr_ok|]|].
  destruct (Z.eqb_spec size INAT_IMM_VWORD32) as [-> |]; [by eapply wp_or_err; [by apply get_immv32_ok|]|].
  destruct (size =? INAT_IMM_VWORD); [by eapply wp_or_err; [by apply get_immv_ok|]|by apply wp_err].
Qed.

(** The instruction is decoded: it has between one byte and the end of the buffer, and if
    immediate2 was written once its fields are laid out as [st] says. *)
Definition decoded (x64 : bool) (i : insn) : Prop :=
  0 < next_byte i <= E /\ x86_64 i = x64 /\ (imm2_once (attr i) = true -> st 9 i).

Lemma upto_decoded x64 i : upto 9 x64 i -> decoded x64 i.
Proof. intros (S & _ & Hx & Hn). split; [exact Hn|]. by split. Qed.
Lemma upto9 k x64 i : upto k x64 i -> (k <= 9)%nat -> upto 9 x64 i.
Proof. apply upto_le. Qed.

Lemma second_immediate_ok x64 a i : upto (if both_fields (inat_immediate_size a) then 9 else 8) x64 i -> attr i = a ->
  wp (when (inat_has_second_immediate a) (take_field buf IMMEDIATE2 CS8)) i (fun _ => True)
    (fun _ i' => decoded x64 i').
Proof.
  intros U Ha. apply wp_when; intros Hs.
  - destruct (both_fields _) eqn:Hb.
    + unfold take_field. apply wp_bind. pose proof U as (S & _ & Hx & Hn).
      apply (wp_get_next buf E HEb); [exact (st_end _ _ _ _ S)|lia|done|]. cbn [size_of]. intros Hle.
      unfold field_set. apply wp_mod. split; [simpl; lia|]. split; [done|].
      change (attr (upd_field _ _ _)) with (attr i). rewrite Ha. unfold imm2_once, both_fields in *. by rewrite Hs, Hb.
    + apply (take_imm2 x64); [done|done|]. intros i' U' _. by apply upto_decoded.
  - apply upto_decoded. by apply (upto9 (if both_fields (inat_immediate_size a) then 9 else 8)); [|case_match; lia].
Qed.

Lemma decoded_got x64 i : decoded x64 i -> decoded x64 (upd_field IMMEDIATE1 set_got i).
Proof.
  intros (Hn & Hx & HS). split; [exact Hn|]. split; [exact Hx|]. intros H. apply st_got; [by apply HS|simpl; lia].
Qed.

Lemma insn_get_immediate_ok x64 R :
  wp (insn_get_immediate T buf) (started E 0 x64) R (fun r i' => rc r (decoded x64 i')).
Proof.
  unfold insn_get_immediate. wpx. change (got (immediate1 (started E 0 x64))) with false. cbv iota.
  apply wp_bind. eapply wp_mono; [apply (insn_get_displacement_ok x64 (fun _ => False))|done|].
  cbv beta. intros r i [[-> U]|Hr]; [|fail_code Hr]. cbn [Z.eqb negb]. apply wp_catch. apply wp_bind, wp_gets, wp_bind.
  assert (forall j, decoded x64 j -> wp (mark_got IMMEDIATE1;; dret 0) j (fun i' => rc (- ENODATA) (decoded x64 i'))
            (fun r i' => rc r (decoded x64 i'))) as K.
  { intros j Dj. unfold mark_got. wpx. left. split; [done|]. by apply decoded_got. }
  assert (forall i', rc (- ENODATA) (decoded x64 i')) as KE by (intros i'; right; by right).
  destruct (inat_has_moffset (attr i)).
  { eapply wp_mono; [eapply (wp_or_err 9 x64 _ i (fun _ i' => decoded x64 i'))|by intros; apply KE|intros []; apply K].
    - by apply get_moffset_ok.
    - intros i' U' _. by apply upto_decoded. }
  destruct (inat_has_immediate (attr i)); cbn [negb].
  2:{ apply wp_ret. apply K, upto_decoded. by apply (upto9 7); [|lia]. }
  apply wp_bind. eapply wp_mono; [by apply (immediate_step_ok x64)|by intros; apply KE|]. cbv beta.
  intros _ i1 [U1 Ha1]. eapply wp_mono; [apply (second_immediate_ok x64)|by intros; apply KE|intros []; apply K]; done.
Qed.

Lemma insn_get_length_ok x64 R :
  wp (insn_get_length T buf) (started E 0 x64) R
    (fun r i' => rc r (decoded x64 i' /\ insn_length i' = next_byte i')).
Proof.
  unfold insn_get_length. wpx. cbn [insn_length started Z.eqb negb].
  apply wp_bind. eapply wp_mono; [apply (insn_get_immediate_ok x64 (fun _ => False))|done|].
  cbv beta. intros r i [[-> D]|Hr]; [|fail_code Hr]. cbn [Z.eqb negb]. wpx. left. split; [done|].
  pose proof D as (Hn & Hx & HS). split; [split; [exact Hn|split; [exact Hx|]]|].
  - intros H. eapply st_same; [by apply HS|by intros []|done..|]. exact (st_sizes _ _ _ _ (HS H)).
  - cbn [insn_length set_insn_length next_byte]. apply Z.mod_small. lia.
Qed.
End decode.

(** ** The decoder as a whole *)

(** The offsets of insn.h by field. *)
Definition code_offset (p : part) (i : insn) : Z :=
  match p with
  | PREFIXES => 0
  | REX_PREFIX => insn_offset_rex_prefix i
  | VEX_PREFIX => insn_offset_vex_prefix i
  | OPCODE => insn_offset_opcode i
  | MODRM => insn_offset_modrm i
  | SIB => insn_offset_sib i
  | DISPLACEMENT => insn_offset_displacement i
  | IMMEDIATE1 => insn_offset_immediate i
  | IMMEDIATE2 => insn_offset_immediate i + nbytes (immediate1 i)
  end.

Lemma code_offset_ok p i : offset p i = emulate_prefix_size i + code_offset p i.
Proof.
  unfold offset, bytes_before, code_offset, insn_offset_immediate, insn_offset_displacement, insn_offset_sib,
    insn_offset_modrm, insn_offset_opcode, insn_offset_vex_prefix, insn_offset_rex_prefix.
  destruct p; simpl; lia.
Qed.

Definition window (buf_len : Z) : Z := if MAX_INSN_SIZE <? buf_len then MAX_INSN_SIZE else buf_len.
Lemma window_bounds n len : len <= Z.of_nat n -> window len <= 15 /\ window len <= Z.of_nat n.
Proof. unfold window, MAX_INSN_SIZE. intros H. destruct (Z.ltb_spec 15 len); lia. Qed.
Lemma window_min len : window len = Z.min 15 len.
Proof. unfold window, MAX_INSN_SIZE. destruct (Z.ltb_spec 15 len); lia. Qed.

(** The mode a call of insn_decode selects. *)
Definition mode_64 (config_x86_64 : bool) (m : Z) : bool :=
  if m =? INSN_MODE_KERN_macro then config_x86_64 else m =? INSN_MODE_64.

Section whole.
Context (T : inat_tables) (config_x86_64 : bool) (buf : list Z) (buf_len m : Z).
Context (Hbuf : Forall is_byte buf) (HT : tables_ok T = true) (Hesc : escapes_end T 3 = true).
Context (Hlen : buf_len <= Z.of_nat (length buf)).

Lemma insn_decode_result : exists r i, insn_decode T config_x86_64 buf buf_len m = Val r i /\
  (r = 0 \/ r = - EINVAL \/ r = - ENODATA) /\
  (r = 0 -> decoded buf (window buf_len) (mode_64 config_x86_64 m) i /\ insn_length i = next_byte i).
Proof.
  destruct (window_bounds _ _ Hlen) as [H15 Hb].
  pose proof (insn_get_length_ok buf (window buf_len) Hbuf H15 Hb T HT Hesc (mode_64 config_x86_64 m) (fun _ => False)) as W.
  assert (insn_decode T config_x86_64 buf buf_len m =
    (ret <- insn_get_length T buf;; (if negb (ret =? 0) then dret ret
      else c <- gets insn_complete;; dret (if c : bool then 0 else - EINVAL)))
    (started (window buf_len) 0 (mode_64 config_x86_64 m))) as ->.
  { unfold insn_decode, mode_64. by destruct (m =? INSN_MODE_KERN_macro). }
  unfold wp in W. unfold dbind at 1. destruct (insn_get_length T buf _) as [r i|i| |]; [|done..].
  destruct W as [(-> & D & Hl)|Hr].
  - cbn [Z.eqb negb]. unfold dbind, gets, dret. exists (if insn_complete i then 0 else - EINVAL), i.
    split; [done|]. split; [|done]. destruct (insn_complete i); auto.
  - assert (r =? 0 = false) as -> by (by destruct Hr as [-> | ->]). exists r, i. split; [done|].
    split; [by right|]. intros ->. by destruct Hr.
Qed.
End whole.

(** C19. Decoding is total and stays in bounds: for opcode maps of the declared dimensions whose
    escapes end within the opcode field, insn_decode terminates on every buffer and in every
    mode, never reads outside the buffer or a table nor writes outside a field, and
    returns 0, -EINVAL or -ENODATA; on 0 the instruction has at least one byte and at most
    the 15 bytes of the architecture and the length of the buffer. *)
Theorem insn_decode_total T config_x86_64 buf buf_len m :
  Forall is_byte buf -> tables_ok T = true -> escapes_end T 3 = true -> buf_len <= Z.of_nat (length buf) ->
  exists r i, insn_decode T config_x86_64 buf buf_len m = Val r i /\
    (r = 0 \/ r = - EINVAL \/ r = - ENODATA) /\
    (r = 0 -> 1 <= insn_length i <= Z.min 15 buf_len).
Proof.
  intros Hb HT He Hl. destruct (insn_decode_result T config_x86_64 buf buf_len m Hb HT He Hl) as (r & i & -> & Hr & H).
  exists r, i. split; [done|]. split; [done|]. intros ->. destruct (H eq_refl) as ((Hn & _) & ->).
  rewrite window_min in Hn. lia.
Qed.



(** insn_decode_kernel passes the enumerator INSN_MODE_KERN, insn_decode compares with the
    macro of the same name: a kernel instruction is decoded as 32-bit code. *)
Lemma decode_kernel_is_32_bit T config_x86_64 buf :
  insn_decode_kernel T config_x86_64 buf = insn_decode T config_x86_64 buf MAX_INSN_SIZE INSN_MODE_32.
Proof. reflexivity. Qed.

Module DecodeDemo.
Import InsnDemo.

Lemma tables_fine : tables_ok tables = true /\ escapes_end tables 3 = true /\ pfx_map_ok tables = true.
Proof. by vm_compute. Qed.
Ltac bytes_ := repeat (constructor; [unfold is_byte; lia|]); constructor.

(** mov rax, [rsp + 8] *)
Definition mov : list Z := [0x48; 0x8b; 0x44; 0x24; 0x08].
Definition mov_insn : insn := Eval vm_compute in match run mov INSN_MODE_64 with Val _ i => i | _ => insn_init 0 true end.

Lemma insn_decode_total_witness :
  exists r i, insn_decode tables true mov 5 INSN_MODE_64 = Val r i /\
    (r = 0 \/ r = - EINVAL \/ r = - ENODATA) /\ (r = 0 -> 1 <= insn_length i <= Z.min 15 5).
Proof. apply insn_decode_total; [bytes_|apply tables_fine..|simpl; lia]. Defined.


(** repne after two operand-size prefixes, in front of a three-byte opcode *)
Definition prefixed_bytes : list Z := [0x66; 0xf2; 0x66; 0x0f; 0x38; 0xf0; 0xc0].

(** In an instruction behind an emulation prefix the offsets of insn.h, which the header
    counts from kaddr, miss the five bytes of that prefix. *)
Lemma offsets_miss_emulation_prefix : exists i, run [0x0f; 0x0b; 0x78; 0x65; 0x6e; 0x90] INSN_MODE_64 = Val 0 i /\
  insn_offset_opcode i = 0 /\ nth 0 (bytes (opcode i)) 0 = 0x90.
Proof. eexists. split; [vm_compute; reflexivity|]. by vm_compute. Qed.

(** An EVEX prefix with W set: insn_vex_w_bit reports it, but the operand size stays 4,
    because the W test of the decoder looks at the fourth byte. *)
Lemma evex_w_missed : exists i, run [0x62; 0xf1; 0xfc; 0x48; 0x58; 0xc1] INSN_MODE_64 = Val 0 i /\
  insn_vex_w_bit i = Val 0x80 i /\ opnd_bytes i = 4.
Proof. eexists. split; [vm_compute; reflexivity|]. by vm_compute. Qed.

(** 1f is POP DS; POP SS is 17. *)
Lemma pop_ss_not_recognised : exists i, run [0x17] INSN_MODE_32 = Val 0 i /\ insn_masking_exception i = false.
Proof. eexists. split; [vm_compute; reflexivity|]. by vm_compute. Qed.
End DecodeDemo.
