(* ===== verification/Apic.v ===== *)
(** * The virtual local APIC

    src/arch/x86/vmx/apic.c and include/arch/x86/vmx/apic.h: the software model of
    the registers, its mirror in the virtual-APIC page (which the processor serves
    guest reads from), interrupt bitmaps, end of interrupt, processor priority,
    inter-processor interrupts, error latch and timer.

    The registers that are plain 32-bit fields are a map from [areg]; the 256-bit
    bitmaps are eight words as in the code.  The mirror is [vapic], by byte offset;
    it is only there while [vapic_page] is.  [now] is ktime_get_ns().  The VM is the
    list of its vCPU slots.  Locks and logging are not represented. *)
From S2P Require Import Prelude HostMem Ept.

Definition APIC_DEFAULT_BASE : Z := 0xFEE00000.
Definition APIC_REGISTER_SIZE : Z := 0x1000.
Definition APIC_REG_ID : Z := 0x020.
Definition APIC_REG_VERSION : Z := 0x030.
Definition APIC_REG_TPR : Z := 0x080.
Definition APIC_REG_APR : Z := 0x090.
Definition APIC_REG_PPR : Z := 0x0A0.
Definition APIC_REG_EOI : Z := 0x0B0.
Definition APIC_REG_RRD : Z := 0x0C0.
Definition APIC_REG_LDR : Z := 0x0D0.
Definition APIC_REG_DFR : Z := 0x0E0.
Definition APIC_REG_SVR : Z := 0x0F0.
Definition APIC_REG_ISR (n : Z) : Z := 0x100 + n * 0x10.
Definition APIC_REG_TMR (n : Z) : Z := 0x180 + n * 0x10.
Definition APIC_REG_IRR (n : Z) : Z := 0x200 + n * 0x10.
Definition APIC_REG_ESR : Z := 0x280.
Definition APIC_REG_LVT_CMCI : Z := 0x2F0.
Definition APIC_REG_ICR_LOW : Z := 0x300.
Definition APIC_REG_ICR_HIGH : Z := 0x310.
Definition APIC_REG_LVT_TIMER : Z := 0x320.
Definition APIC_REG_LVT_THERMAL : Z := 0x330.
Definition APIC_REG_LVT_PMC : Z := 0x340.
Definition APIC_REG_LVT_LINT0 : Z := 0x350.
Definition APIC_REG_LVT_LINT1 : Z := 0x360.
Definition APIC_REG_LVT_ERROR : Z := 0x370.
Definition APIC_REG_TIMER_ICR : Z := 0x380.
Definition APIC_REG_TIMER_CCR : Z := 0x390.
Definition APIC_REG_TIMER_DCR : Z := 0x3E0.
Definition APIC_VERSION_VALUE : Z := 0x00050014.
Definition APIC_SVR_RESET_VALUE : Z := 0x000000FF.
Definition APIC_SVR_SW_ENABLE : Z := Z.shiftl 1 8.
Definition APIC_LVT_MASKED : Z := Z.shiftl 1 16.
Definition APIC_LVT_VECTOR_MASK : Z := 0xFF.
Definition APIC_ICR_VECTOR_MASK : Z := 0xFF.
Definition APIC_ICR_DELIVERY_MASK : Z := 0x700.
Definition APIC_ICR_DELIVERY_FIXED : Z := 0.
Definition APIC_ICR_SEND_PENDING : Z := Z.shiftl 1 12.
Definition APIC_ICR_TRIGGER_LEVEL : Z := Z.shiftl 1 15.
Definition APIC_ICR_SHORTHAND_MASK : Z := 0x000C0000.
Definition APIC_ICR_SHORTHAND_ALL_INCL : Z := 0x00080000.
Definition APIC_ICR_SHORTHAND_ALL_EXCL : Z := 0x000C0000.
Definition APIC_ICR_SHORTHAND_SELF : Z := 0x00040000.
Definition APIC_ICR_DEST_SHIFT : Z := 24.
Definition APIC_TIMER_DCR_DIV1 : Z := 0x0B.
Definition APIC_ESR_VALID_BITS : Z := 0xFF.
Definition APIC_ILLEGAL_VECTOR_THRESHOLD : Z := 16.
Definition RELM_IRQ_VECTOR_BASE : Z := 0x20.
Definition RELM_MAX_VCPUS : nat := 1.
Definition APIC_TIMER_MODE_ONESHOT : Z := 0.
Definition APIC_TIMER_MODE_PERIODIC : Z := 1.
(** R=1 W=1 X=0 *)
Definition EPT_APIC_FLAGS : Z := 0x3.

Definition APIC_VEC_WORD (v : Z) : Z := Z.shiftr v 5.
Definition APIC_VEC_BIT (v : Z) : Z := Z.land v 0x1F.
Definition APIC_VEC_MASK (v : Z) : Z := Z.shiftl 1 (APIC_VEC_BIT v).

(** The 32-bit fields of [struct virt_apic]. *)
Inductive areg := r_apic_id | r_version | r_tpr | r_ppr | r_svr | r_ldr | r_dfr | r_esr | r_esr_pending
  | r_icr_low | r_icr_high | r_lvt_timer | r_lvt_thermal | r_lvt_pmc | r_lvt_lint0 | r_lvt_lint1 | r_lvt_error
  | r_timer_icr | r_timer_dcr.
#[export] Instance areg_eq_dec : EqDecision areg.
Proof. solve_decision. Defined.

Record virt_apic := VirtApic {
  vapic_page : option Z; vapic : gmap Z Z; vapic_page_pa : Z;
  apic_access_page : option Z; apic_access_page_pa : Z;
  reg : areg -> Z;
  irr : list Z; isr : list Z; tmr : list Z;
  timer_mode : Z; timer_start_ns : Z; timer_deadline_tsc : Z;
  is_enabled : bool; apic_reg_virt_supported : bool
}.

Definition upd_reg (f : areg -> Z) (r : areg) (v : Z) : areg -> Z := fun r' => if decide (r' = r) then v else f r'.

Definition set_reg (a : virt_apic) (r : areg) (v : Z) : virt_apic :=
  VirtApic (vapic_page a) (vapic a) (vapic_page_pa a) (apic_access_page a) (apic_access_page_pa a)
    (upd_reg (reg a) r v) (irr a) (isr a) (tmr a) (timer_mode a) (timer_start_ns a) (timer_deadline_tsc a)
    (is_enabled a) (apic_reg_virt_supported a).
Definition set_maps (a : virt_apic) (i s t : list Z) : virt_apic :=
  VirtApic (vapic_page a) (vapic a) (vapic_page_pa a) (apic_access_page a) (apic_access_page_pa a)
    (reg a) i s t (timer_mode a) (timer_start_ns a) (timer_deadline_tsc a)
    (is_enabled a) (apic_reg_virt_supported a).
Definition set_vapic (a : virt_apic) (p : gmap Z Z) : virt_apic :=
  VirtApic (vapic_page a) p (vapic_page_pa a) (apic_access_page a) (apic_access_page_pa a)
    (reg a) (irr a) (isr a) (tmr a) (timer_mode a) (timer_start_ns a) (timer_deadline_tsc a)
    (is_enabled a) (apic_reg_virt_supported a).
Definition set_pages (a : virt_apic) (p : option Z) (pa : Z) (q : option Z) (qa : Z) (c : gmap Z Z) : virt_apic :=
  VirtApic p c pa q qa (reg a) (irr a) (isr a) (tmr a) (timer_mode a) (timer_start_ns a) (timer_deadline_tsc a)
    (is_enabled a) (apic_reg_virt_supported a).
Definition set_timer (a : virt_apic) (mode start : Z) : virt_apic :=
  VirtApic (vapic_page a) (vapic a) (vapic_page_pa a) (apic_access_page a) (apic_access_page_pa a)
    (reg a) (irr a) (isr a) (tmr a) mode start (timer_deadline_tsc a) (is_enabled a) (apic_reg_virt_supported a).
Definition set_enabled (a : virt_apic) (b : bool) : virt_apic :=
  VirtApic (vapic_page a) (vapic a) (vapic_page_pa a) (apic_access_page a) (apic_access_page_pa a)
    (reg a) (irr a) (isr a) (tmr a) (timer_mode a) (timer_start_ns a) (timer_deadline_tsc a) b
    (apic_reg_virt_supported a).
Definition set_reg_virt (a : virt_apic) (b : bool) : virt_apic :=
  VirtApic (vapic_page a) (vapic a) (vapic_page_pa a) (apic_access_page a) (apic_access_page_pa a)
    (reg a) (irr a) (isr a) (tmr a) (timer_mode a) (timer_start_ns a) (timer_deadline_tsc a) (is_enabled a) b.

Definition relm_vapic_sync_reg (a : virt_apic) (offset value : Z) : virt_apic :=
  match vapic_page a with
  | Some _ => if offset <? APIC_REGISTER_SIZE then set_vapic a (<[offset := value]> (vapic a)) else a
  | None => a
  end.
Definition relm_vapic_read_reg (a : virt_apic) (offset : Z) : Z :=
  match vapic_page a with
  | Some _ => if offset <? APIC_REGISTER_SIZE then default 0 (vapic a !! offset) else 0
  | None => 0
  end.

(** [apic->f = v; relm_vapic_sync_reg(apic, offset, apic->f);] *)
Definition store (a : virt_apic) (r : areg) (offset v : Z) : virt_apic :=
  relm_vapic_sync_reg (set_reg a r v) offset v.

(** ** Allocation and reset *)
Section Pages.
Context {PA : PageAlloc}.

Definition relm_apic_alloc (h : host) (a : virt_apic) : Z * host * virt_apic :=
  match get_zeroed_page h with
  | (None, h) => (- ENOMEM, h, set_pages a None (vapic_page_pa a) (apic_access_page a) (apic_access_page_pa a) ∅)
  | (Some p, h) =>
      let a := set_pages a (Some p) p (apic_access_page a) (apic_access_page_pa a) ∅ in
      match get_zeroed_page h with
      | (None, h) => (- ENOMEM, free_page h p, set_pages a None 0 None (apic_access_page_pa a) ∅)
      | (Some q, h) => (0, h, set_pages a (Some p) p (Some q) q ∅)
      end
  end.

Definition relm_apic_free (h : host) (a : virt_apic) : host * virt_apic :=
  let '(h, a) := match vapic_page a with
                 | Some p => (free_page h p, set_pages a None 0 (apic_access_page a) (apic_access_page_pa a) ∅)
                 | None => (h, a)
                 end in
  match apic_access_page a with
  | Some q => (free_page h q, set_pages a (vapic_page a) (vapic_page_pa a) None 0 (vapic a))
  | None => (h, a)
  end.

(** The APIC-access page appears in the guest at the default base. *)
Definition relm_apic_ept_setup (h : host) (ept : option ept_context) (a : virt_apic)
    : Z * host * option ept_context :=
  match ept with
  | None => (- EINVAL, h, ept)
  | Some _ =>
      if apic_access_page_pa a =? 0 then (- EINVAL, h, ept)
      else
        match relm_ept_map_page h ept APIC_DEFAULT_BASE (apic_access_page_pa a) EPT_APIC_FLAGS with
        | (ret, h, ept) => if ret <? 0 then (ret, h, ept) else (0, h, ept)
        end
  end.
End Pages.

Definition zero8 : list Z := replicate 8 0.

(** The registers the reset mirrors, in the order of the code. *)
Definition reset_mirror : list (areg * Z) :=
  [(r_apic_id, APIC_REG_ID); (r_version, APIC_REG_VERSION); (r_tpr, APIC_REG_TPR); (r_ppr, APIC_REG_PPR);
   (r_ldr, APIC_REG_LDR); (r_dfr, APIC_REG_DFR); (r_svr, APIC_REG_SVR); (r_esr, APIC_REG_ESR);
   (r_icr_high, APIC_REG_ICR_HIGH); (r_lvt_timer, APIC_REG_LVT_TIMER); (r_lvt_thermal, APIC_REG_LVT_THERMAL);
   (r_lvt_pmc, APIC_REG_LVT_PMC); (r_lvt_lint0, APIC_REG_LVT_LINT0); (r_lvt_lint1, APIC_REG_LVT_LINT1);
   (r_lvt_error, APIC_REG_LVT_ERROR); (r_timer_icr, APIC_REG_TIMER_ICR); (r_timer_dcr, APIC_REG_TIMER_DCR)].

Definition reset_reg (a : virt_apic) (apic_id : Z) (r : areg) : Z :=
  match r with
  | r_apic_id => u32 (Z.shiftl apic_id 24)
  | r_version => APIC_VERSION_VALUE
  | r_svr => APIC_SVR_RESET_VALUE
  | r_dfr => 0xFFFFFFFF
  | r_lvt_timer | r_lvt_thermal | r_lvt_pmc | r_lvt_lint0 | r_lvt_lint1 | r_lvt_error => APIC_LVT_MASKED
  | r_timer_dcr => APIC_TIMER_DCR_DIV1
  | r_esr_pending => reg a r_esr_pending
  | _ => 0
  end.

Definition relm_apic_init (a : virt_apic) (apic_id : Z) : virt_apic :=
  let a := VirtApic (vapic_page a) (vapic a) (vapic_page_pa a) (apic_access_page a) (apic_access_page_pa a)
             (reset_reg a apic_id) zero8 zero8 zero8 APIC_TIMER_MODE_ONESHOT 0 0 false (apic_reg_virt_supported a) in
  match vapic_page a with
  | None => a
  | Some _ =>
      let a := fold_left (fun a '(r, off) => relm_vapic_sync_reg a off (reg a r)) reset_mirror a in
      fold_left (fun a i =>
        relm_vapic_sync_reg
          (relm_vapic_sync_reg (relm_vapic_sync_reg a (APIC_REG_ISR (Z.of_nat i)) 0) (APIC_REG_TMR (Z.of_nat i)) 0)
          (APIC_REG_IRR (Z.of_nat i)) 0) (seq 0 8) a
  end.

(** ** The VMCS fields

    [vmwrite f] says whether writing field [f] succeeds; [msr] is the value of
    IA32_VMX_PROCBASED_CTLS2. *)
Definition VMCS_VIRTUAL_APIC_PAGE_ADDR : Z := 0x2012.
Definition VMCS_APIC_ACCESS_ADDR : Z := 0x2014.
Definition VMCS_TPR_THRESHOLD : Z := 0x401C.
Definition VMCS_PROC2_VIRTUALIZE_APIC_ACCESSES : Z := 1.
Definition VMCS_PROC2_APIC_REGISTER_VIRT : Z := Z.shiftl 1 8.
Definition VMCS_SECONDARY_PROC_BASED_EXEC_CONTROLS : Z := 0x401E.

Definition relm_apic_vmcs_setup (vmwrite : Z -> bool) (msr : Z) (vmcs : gmap Z Z) (a : virt_apic)
    : Z * gmap Z Z * virt_apic :=
  if (vapic_page_pa a =? 0) || (apic_access_page_pa a =? 0) then (- EINVAL, vmcs, a)
  else if negb (vmwrite VMCS_VIRTUAL_APIC_PAGE_ADDR) then (- EIO, vmcs, a)
  else
    let vmcs := <[VMCS_VIRTUAL_APIC_PAGE_ADDR := vapic_page_pa a]> vmcs in
    if negb (vmwrite VMCS_APIC_ACCESS_ADDR) then (- EIO, vmcs, a)
    else
      let vmcs := <[VMCS_APIC_ACCESS_ADDR := apic_access_page_pa a]> vmcs in
      if negb (vmwrite VMCS_TPR_THRESHOLD) then (- EIO, vmcs, a)
      else
        let vmcs := <[VMCS_TPR_THRESHOLD := 0]> vmcs in
        let allowed1 := u32 (Z.shiftr msr 32) in
        if negb (flag allowed1 VMCS_PROC2_VIRTUALIZE_APIC_ACCESSES) then (0, vmcs, set_reg_virt a false)
        else
          let current_sec := u32 (default 0 (vmcs !! VMCS_SECONDARY_PROC_BASED_EXEC_CONTROLS)) in
          let new_sec := Z.lor current_sec VMCS_PROC2_VIRTUALIZE_APIC_ACCESSES in
          let ok := flag allowed1 VMCS_PROC2_APIC_REGISTER_VIRT in
          let new_sec := if ok then Z.lor new_sec VMCS_PROC2_APIC_REGISTER_VIRT else new_sec in
          if negb (vmwrite VMCS_SECONDARY_PROC_BASED_EXEC_CONTROLS) then (- EIO, vmcs, a)
          else (0, <[VMCS_SECONDARY_PROC_BASED_EXEC_CONTROLS := new_sec]> vmcs, set_reg_virt a ok).

(** ** Interrupt bitmaps *)

(** Word [w] of a bitmap. *)
Definition word_at (ws : list Z) (w : Z) : Z := default 0 (ws !! Z.to_nat w).

(** The search from word 7 down for the highest set bit:
    [31 - __builtin_clz(x)] is the logarithm. *)
Fixpoint highest (n : nat) (ws : list Z) : option Z :=
  match n with
  | O => None
  | S w => let x := word_at ws (Z.of_nat w) in
           if negb (x =? 0) then Some (Z.of_nat w * 32 + Z.log2 x) else highest w ws
  end.

Definition set_bit (ws : list Z) (v : Z) : list Z :=
  <[Z.to_nat (APIC_VEC_WORD v) := Z.lor (word_at ws (APIC_VEC_WORD v)) (APIC_VEC_MASK v)]> ws.
Definition clear_bit (ws : list Z) (v : Z) : list Z :=
  <[Z.to_nat (APIC_VEC_WORD v) := Z.land (word_at ws (APIC_VEC_WORD v)) (u32 (Z.lnot (APIC_VEC_MASK v)))]> ws.

Definition relm_apic_ppr_update (a : virt_apic) : virt_apic :=
  let isrv := default 0 (highest 8 (isr a)) in
  let tpr_class := Z.land (reg a r_tpr) 0xF0 in
  let ppr := if 0 <? isrv
             then let isr_class := Z.land isrv 0xF0 in if tpr_class <? isr_class then isr_class else tpr_class
             else tpr_class in
  store a r_ppr APIC_REG_PPR ppr.

Definition relm_apic_eoi (a : virt_apic) : virt_apic :=
  match highest 8 (isr a) with
  | None => a
  | Some vector =>
      let a := set_maps a (irr a) (clear_bit (isr a) vector) (tmr a) in
      let w := APIC_VEC_WORD vector in
      let a := relm_vapic_sync_reg a (APIC_REG_ISR w) (word_at (isr a) w) in
      let a := if flag (word_at (tmr a) w) (APIC_VEC_MASK vector)
               then let a := set_maps a (irr a) (isr a) (clear_bit (tmr a) vector) in
                    relm_vapic_sync_reg a (APIC_REG_TMR w) (word_at (tmr a) w)
               else a in
      relm_apic_ppr_update a
  end.

(** A vCPU as the APIC sees it. *)
Record acpu := ACpu { ac_apic : virt_apic; ac_halted : bool }.

Definition inject_apic (a : virt_apic) (vector : Z) (level_triggered : bool) : virt_apic :=
  let w := APIC_VEC_WORD vector in
  let a := set_maps a (set_bit (irr a) vector) (isr a)
             (if level_triggered then set_bit (tmr a) vector else clear_bit (tmr a) vector) in
  relm_vapic_sync_reg (relm_vapic_sync_reg a (APIC_REG_IRR w) (word_at (irr a) w))
    (APIC_REG_TMR w) (word_at (tmr a) w).

Definition relm_apic_inject_interrupt (c : acpu) (vector : Z) (level_triggered : bool) : acpu :=
  ACpu (inject_apic (ac_apic c) vector level_triggered) false.

Definition relm_apic_set_error (c : acpu) (error_bit : Z) : acpu :=
  let error_bit := Z.land error_bit APIC_ESR_VALID_BITS in
  if error_bit =? 0 then c
  else
    let a := ac_apic c in
    let a := set_reg a r_esr_pending (Z.lor (reg a r_esr_pending) error_bit) in
    let c := ACpu a (ac_halted c) in
    if is_enabled a && negb (flag (reg a r_lvt_error) APIC_LVT_MASKED) then
      let error_vector := Z.land (reg a r_lvt_error) APIC_LVT_VECTOR_MASK in
      if APIC_ILLEGAL_VECTOR_THRESHOLD <=? error_vector
      then relm_apic_inject_interrupt c error_vector false else c
    else c.

(** src/arch/x86/vmx/vmx.c: a platform line becomes a vector above the exceptions. *)
Definition vmx_inject_irq (c : acpu) (irq : Z) : Z * acpu :=
  let vector := u32 (RELM_IRQ_VECTOR_BASE + irq) in
  if 255 <? vector then (- EINVAL, c) else (0, relm_apic_inject_interrupt c vector false).

(** ** Inter-processor interrupts *)

(** The vCPU slots of a VM. *)
Notation apic_vm := (list (option acpu)) (only parsing).

(** Does vCPU slot [i], holding [c], match the destination? *)
Definition ipi_match (sender icr_low icr_high : Z) (i : Z) (c : acpu) : bool :=
  let shorthand := Z.land icr_low APIC_ICR_SHORTHAND_MASK in
  let dest_field := u8 (Z.shiftr icr_high APIC_ICR_DEST_SHIFT) in
  if shorthand =? APIC_ICR_SHORTHAND_SELF then i =? sender
  else if shorthand =? APIC_ICR_SHORTHAND_ALL_INCL then true
  else if shorthand =? APIC_ICR_SHORTHAND_ALL_EXCL then negb (i =? sender)
  else if negb (flag icr_low (Z.shiftl 1 11)) then u8 (Z.shiftr (reg (ac_apic c) r_apic_id) 24) =? dest_field
  else flag (u8 (Z.shiftr (reg (ac_apic c) r_ldr) 24)) dest_field.

(** [slots] are the slots from number [i] on; the result is the slots found. *)
Fixpoint relm_apic_ipi_resolve_targets (slots : list (option acpu)) (i : Z) (sender icr_low icr_high : Z)
    (found max_targets : nat) : list Z :=
  match slots with
  | [] => []
  | s :: slots =>
      if (max_targets <=? found)%nat then []
      else
        match s with
        | None => relm_apic_ipi_resolve_targets slots (i + 1) sender icr_low icr_high found max_targets
        | Some c =>
            if ipi_match sender icr_low icr_high i c
            then i :: relm_apic_ipi_resolve_targets slots (i + 1) sender icr_low icr_high (S found) max_targets
            else relm_apic_ipi_resolve_targets slots (i + 1) sender icr_low icr_high found max_targets
        end
  end.

Definition upd_cpu (vm : apic_vm) (i : Z) (f : acpu -> acpu) : apic_vm := alter (fmap f) (Z.to_nat i) vm.

(** Only fixed delivery does something. *)
Definition relm_apic_ipi_deliver (vm : apic_vm) (target delivery_mode vector : Z) (level : bool) : apic_vm :=
  if delivery_mode =? APIC_ICR_DELIVERY_FIXED
  then upd_cpu vm target (fun c => relm_apic_inject_interrupt c (u8 vector) level)
  else vm.

Definition relm_apic_handle_icr_write (max_targets : nat) (vm : apic_vm) (sender value : Z) : apic_vm :=
  let delivery_mode := Z.land value APIC_ICR_DELIVERY_MASK in
  let vector := Z.land value APIC_ICR_VECTOR_MASK in
  let level := flag value APIC_ICR_TRIGGER_LEVEL in
  let vm := upd_cpu vm sender (fun c =>
              ACpu (relm_vapic_sync_reg (set_reg (ac_apic c) r_icr_low value) APIC_REG_ICR_LOW
                      (Z.land value (u32 (Z.lnot APIC_ICR_SEND_PENDING)))) (ac_halted c)) in
  let icr_high := match vm !! Z.to_nat sender with
                  | Some (Some c) => reg (ac_apic c) r_icr_high | _ => 0 end in
  let targets := relm_apic_ipi_resolve_targets vm 0 sender value icr_high 0 max_targets in
  fold_left (fun vm t => relm_apic_ipi_deliver vm t delivery_mode vector level) targets vm.

(** ** Timer *)

Definition timer_divisor (dcr : Z) : Z :=
  let d := Z.land dcr 0x0F in
  if d =? 0x00 then 2 else if d =? 0x01 then 4 else if d =? 0x02 then 8 else if d =? 0x03 then 16
  else if d =? 0x08 then 32 else if d =? 0x09 then 64 else if d =? 0x0A then 128 else 1.

Definition relm_apic_get_timer_ccr (now : Z) (a : virt_apic) : Z :=
  let icr := reg a r_timer_icr in
  if (icr =? 0) || (timer_start_ns a =? 0) then 0
  else
    let elapsed_ns := u64 (now - timer_start_ns a) in
    let ticks := elapsed_ns / (10 * timer_divisor (reg a r_timer_dcr)) in
    if timer_mode a =? APIC_TIMER_MODE_PERIODIC then u32 (icr - u32 (ticks mod icr))
    else if icr <=? ticks then 0 else u32 (icr - ticks).

(** ** Register reads and writes *)

(** The registers whose read returns the field. *)
Definition plain_read (offset : Z) : option areg :=
  if offset =? APIC_REG_ID then Some r_apic_id
  else if offset =? APIC_REG_VERSION then Some r_version
  else if offset =? APIC_REG_LDR then Some r_ldr
  else if offset =? APIC_REG_DFR then Some r_dfr
  else if offset =? APIC_REG_SVR then Some r_svr
  else if offset =? APIC_REG_ESR then Some r_esr
  else if offset =? APIC_REG_ICR_HIGH then Some r_icr_high
  else if offset =? APIC_REG_LVT_TIMER then Some r_lvt_timer
  else if offset =? APIC_REG_LVT_THERMAL then Some r_lvt_thermal
  else if offset =? APIC_REG_LVT_PMC then Some r_lvt_pmc
  else if offset =? APIC_REG_LVT_LINT0 then Some r_lvt_lint0
  else if offset =? APIC_REG_LVT_LINT1 then Some r_lvt_lint1
  else if offset =? APIC_REG_LVT_ERROR then Some r_lvt_error
  else if offset =? APIC_REG_TIMER_ICR then Some r_timer_icr
  else if offset =? APIC_REG_TIMER_DCR then Some r_timer_dcr
  else None.

Definition in_bitmap (offset base : Z) : bool := (base <=? offset) && (offset <=? base + 7 * 0x10).

(** Result code, [*value], and the APIC: a read of TPR, PPR or CCR updates it. *)
Definition relm_apic_read (now : Z) (a : virt_apic) (offset : Z) : Z * Z * virt_apic :=
  if flag offset 0x3 then (0, 0, a)
  else
    match plain_read offset with
    | Some r => (0, reg a r, a)
    | None =>
        if offset =? APIC_REG_TPR then
          let a := set_reg a r_tpr (relm_vapic_read_reg a APIC_REG_TPR) in (0, reg a r_tpr, a)
        else if (offset =? APIC_REG_APR) || (offset =? APIC_REG_PPR) then
          let a := relm_apic_ppr_update a in (0, reg a r_ppr, a)
        else if (offset =? APIC_REG_EOI) || (offset =? APIC_REG_RRD) then (0, 0, a)
        else if offset =? APIC_REG_LVT_CMCI then (0, APIC_LVT_MASKED, a)
        else if offset =? APIC_REG_ICR_LOW then (0, Z.land (reg a r_icr_low) (u32 (Z.lnot APIC_ICR_SEND_PENDING)), a)
        else if offset =? APIC_REG_TIMER_CCR then
          let v := relm_apic_get_timer_ccr now a in (0, v, relm_vapic_sync_reg a APIC_REG_TIMER_CCR v)
        else if in_bitmap offset (APIC_REG_ISR 0) then (0, word_at (isr a) ((offset - APIC_REG_ISR 0) / 0x10), a)
        else if in_bitmap offset (APIC_REG_TMR 0) then (0, word_at (tmr a) ((offset - APIC_REG_TMR 0) / 0x10), a)
        else if in_bitmap offset (APIC_REG_IRR 0) then (0, word_at (irr a) ((offset - APIC_REG_IRR 0) / 0x10), a)
        else (- EINVAL, 0, a)
    end.

(** The fields a write just stores: the field and the value it keeps. *)
Definition plain_write (offset value : Z) : option (areg * Z) :=
  if offset =? APIC_REG_ID then Some (r_apic_id, Z.land value 0xFF000000)
  else if offset =? APIC_REG_LDR then Some (r_ldr, Z.land value 0xFF000000)
  else if offset =? APIC_REG_DFR then Some (r_dfr, Z.lor value 0x0FFFFFFF)
  else if offset =? APIC_REG_ICR_HIGH then Some (r_icr_high, value)
  else if offset =? APIC_REG_LVT_THERMAL then Some (r_lvt_thermal, value)
  else if offset =? APIC_REG_LVT_PMC then Some (r_lvt_pmc, value)
  else if offset =? APIC_REG_LVT_LINT0 then Some (r_lvt_lint0, value)
  else if offset =? APIC_REG_LVT_LINT1 then Some (r_lvt_lint1, value)
  else if offset =? APIC_REG_LVT_ERROR then Some (r_lvt_error, value)
  else if offset =? APIC_REG_TIMER_DCR then Some (r_timer_dcr, Z.land value 0x0B)
  else None.

(** One of the eight words of a read-only bitmap. *)
Definition bitmap_word (offset base : Z) : bool := in_bitmap offset base && ((offset - base) mod 0x10 =? 0).

(** Everything but ICR_LOW, which involves other vCPUs. *)
Definition write_own (now : Z) (a : virt_apic) (offset value : Z) : Z * virt_apic :=
  match plain_write offset value with
  | Some (r, v) => (0, store a r offset v)
  | None =>
      if offset =? APIC_REG_VERSION then (0, a)
      else if offset =? APIC_REG_TPR then
        (0, relm_apic_ppr_update (store a r_tpr APIC_REG_TPR (Z.land value 0xFF)))
      else if offset =? APIC_REG_EOI then (0, relm_vapic_sync_reg (relm_apic_eoi a) APIC_REG_EOI 0)
      else if offset =? APIC_REG_SVR then
        (0, relm_vapic_sync_reg (set_enabled (set_reg a r_svr value) (flag value APIC_SVR_SW_ENABLE)) APIC_REG_SVR value)
      else if bitmap_word offset (APIC_REG_ISR 0) || bitmap_word offset (APIC_REG_TMR 0) ||
              bitmap_word offset (APIC_REG_IRR 0) then (0, a)
      else if offset =? APIC_REG_ESR then
        let esr := Z.land (reg a r_esr_pending) APIC_ESR_VALID_BITS in
        (0, relm_vapic_sync_reg (set_reg (set_reg a r_esr esr) r_esr_pending 0) APIC_REG_ESR esr)
      else if offset =? APIC_REG_LVT_CMCI then (0, a)
      else if offset =? APIC_REG_LVT_TIMER then
        (0, relm_vapic_sync_reg (set_timer (set_reg a r_lvt_timer value) (Z.land (Z.shiftr value 17) 0x3) (timer_start_ns a))
              APIC_REG_LVT_TIMER value)
      else if offset =? APIC_REG_TIMER_ICR then
        let a := store a r_timer_icr APIC_REG_TIMER_ICR value in
        (0, set_timer a (timer_mode a) (if negb (value =? 0) then now else 0))
      else if offset =? APIC_REG_TIMER_CCR then (0, a)
      else (- EINVAL, a)
  end.

(** vCPU slot [i] of the VM writes. *)
Definition relm_apic_write (now : Z) (vm : apic_vm) (i : Z) (offset value : Z) : Z * apic_vm :=
  if flag offset 0x3 then (0, vm)
  else if offset =? APIC_REG_ICR_LOW then (0, relm_apic_handle_icr_write RELM_MAX_VCPUS vm i value)
  else
    match vm !! Z.to_nat i with
    | Some (Some c) =>
        let '(ret, a) := write_own now (ac_apic c) offset value in
        (ret, <[Z.to_nat i := Some (ACpu a (ac_halted c))]> vm)
    | _ => (0, vm)
    end.

(** ** The bitmaps as sets of vectors *)

Definition vec (v : Z) : Prop := 0 <= v < 256.
Definition has (ws : list Z) (v : Z) : bool := Z.testbit (word_at ws (APIC_VEC_WORD v)) (APIC_VEC_BIT v).
Definition bm_ok (ws : list Z) : Prop := length ws = 8%nat /\ forall w, 0 <= word_at ws w < 2 ^ 32.

Lemma vec_word v : vec v -> 0 <= APIC_VEC_WORD v < 8 /\ APIC_VEC_WORD v = v / 32.
Proof. unfold vec, APIC_VEC_WORD. intros V. rewrite Z.shiftr_div_pow2 by lia. zpow. split; zdm. Qed.
Lemma vec_bit v : APIC_VEC_BIT v = v mod 32.
Proof. exact (land_ones_mod v 5 ltac:(lia)). Qed.
Lemma vec_bit_range v : 0 <= APIC_VEC_BIT v < 32.
Proof. rewrite vec_bit. zdm. Qed.
Lemma vec_inj u v : vec u -> vec v -> APIC_VEC_WORD u = APIC_VEC_WORD v -> APIC_VEC_BIT u = APIC_VEC_BIT v -> u = v.
Proof. intros U V. rewrite (proj2 (vec_word u U)), (proj2 (vec_word v V)), !vec_bit. zdm. Qed.

Lemma mask_bit v n : 0 <= n -> Z.testbit (APIC_VEC_MASK v) n = (n =? APIC_VEC_BIT v).
Proof.
  intros N. unfold APIC_VEC_MASK. rewrite Z.shiftl_1_l, Z.pow2_bits_eqb by apply vec_bit_range. apply Z.eqb_sym.
Qed.

Lemma word_at_insert ws w x u : length ws = 8%nat -> 0 <= w < 8 -> 0 <= u ->
  word_at (<[Z.to_nat w := x]> ws) u = if u =? w then x else word_at ws u.
Proof.
  intros L W U. unfold word_at. destruct (Z.eqb_spec u w) as [->|N].
  - by rewrite list_lookup_insert_eq by lia.
  - by rewrite list_lookup_insert_ne by lia.
Qed.
Lemma word_at_neg ws u : u < 0 -> word_at ws u = word_at ws 0.
Proof. intros. unfold word_at. by replace (Z.to_nat u) with (Z.to_nat 0) by lia. Qed.

Lemma bm_ok_insert ws w x : bm_ok ws -> 0 <= w < 8 -> 0 <= x < 2 ^ 32 -> bm_ok (<[Z.to_nat w := x]> ws).
Proof.
  intros [L R] W X. split; [by rewrite length_insert|]. intros u.
  destruct (Z_lt_le_dec u 0); [rewrite word_at_neg by lia|]; (rewrite word_at_insert by lia; case_match; [lia|apply R]).
Qed.

Lemma lor_below a b k : 0 <= k -> 0 <= a < 2 ^ k -> 0 <= b < 2 ^ k -> 0 <= Z.lor a b < 2 ^ k.
Proof.
  intros K A B. rewrite <- (Z.mod_small a (2 ^ k)), <- (Z.mod_small b (2 ^ k)) by lia.
  rewrite <- !Z.land_ones, <- Z.land_lor_distr_l, Z.land_ones by lia. apply Z.mod_pos_bound. lia.
Qed.
Lemma land_below a b k : 0 <= k -> 0 <= a < 2 ^ k -> 0 <= Z.land a b < 2 ^ k.
Proof.
  intros K A. rewrite <- (Z.mod_small a (2 ^ k)) by lia. rewrite <- Z.land_ones by lia.
  rewrite <- Z.land_assoc, (Z.land_comm _ b), Z.land_assoc, Z.land_ones by lia. apply Z.mod_pos_bound. lia.
Qed.
Lemma mask_below v : 0 <= APIC_VEC_MASK v < 2 ^ 32.
Proof.
  unfold APIC_VEC_MASK. rewrite Z.shiftl_1_l. pose proof (vec_bit_range v). split; [lia|].
  apply Z.pow_lt_mono_r; lia.
Qed.

Lemma set_bit_ok ws v : bm_ok ws -> vec v -> bm_ok (set_bit ws v).
Proof. intros B V. apply bm_ok_insert; [exact B|apply vec_word; exact V|]. apply lor_below; [lia|apply B|apply mask_below]. Qed.
Lemma clear_bit_ok ws v : bm_ok ws -> vec v -> bm_ok (clear_bit ws v).
Proof. intros B V. apply bm_ok_insert; [done|by apply vec_word|]. apply land_below; [lia|apply B]. Qed.

Lemma same_slot u v : vec u -> vec v ->
  (u =? v) = (APIC_VEC_WORD u =? APIC_VEC_WORD v) && (APIC_VEC_BIT u =? APIC_VEC_BIT v).
Proof.
  intros U V. destruct (Z.eqb_spec u v) as [->|N]; [by rewrite !Z.eqb_refl|].
  destruct (Z.eqb_spec (APIC_VEC_WORD u) (APIC_VEC_WORD v)), (Z.eqb_spec (APIC_VEC_BIT u) (APIC_VEC_BIT v)); try done.
  exfalso. by apply N, vec_inj.
Qed.

Lemma has_set_bit ws v u : bm_ok ws -> vec v -> vec u -> has (set_bit ws v) u = (u =? v) || has ws u.
Proof.
  intros [L _] V U. unfold has, set_bit. rewrite word_at_insert by (done || apply vec_word; done).
  rewrite (same_slot u v U V). destruct (Z.eqb_spec (APIC_VEC_WORD u) (APIC_VEC_WORD v)) as [->|]; simpl; [|done].
  rewrite Z.lor_spec, mask_bit by apply vec_bit_range. apply orb_comm.
Qed.
Lemma has_clear_bit ws v u : bm_ok ws -> vec v -> vec u -> has (clear_bit ws v) u = negb (u =? v) && has ws u.
Proof.
  intros [L _] V U. unfold has, clear_bit. rewrite word_at_insert by (done || apply vec_word; done).
  rewrite (same_slot u v U V). destruct (Z.eqb_spec (APIC_VEC_WORD u) (APIC_VEC_WORD v)) as [->|]; simpl; [|done].
  unfold u32. rewrite Z.land_spec, Z.mod_pow2_bits_low, Z.lnot_spec, mask_bit by (pose proof (vec_bit_range u); lia).
  apply andb_comm.
Qed.

Lemma flag_has ws v : bm_ok ws -> vec v -> flag (word_at ws (APIC_VEC_WORD v)) (APIC_VEC_MASK v) = has ws v.
Proof. intros B V. unfold APIC_VEC_MASK. rewrite Z.shiftl_1_l. apply flag_pow2. apply vec_bit_range. Qed.

(** [highest] is the maximum of the set. *)
Lemma highest_spec ws n : bm_ok ws -> (n <= 8)%nat ->
  match highest n ws with
  | Some v => 0 <= v < 32 * Z.of_nat n /\ has ws v = true /\
              forall u, 0 <= u < 32 * Z.of_nat n -> has ws u = true -> u <= v
  | None => forall u, 0 <= u < 32 * Z.of_nat n -> has ws u = false
  end.
Proof.
  intros B. induction n as [|w IH]; intros N; [simpl; lia|]. simpl.
  destruct (Z.eqb_spec (word_at ws (Z.of_nat w)) 0) as [E|E]; simpl.
  - specialize (IH ltac:(lia)).
    assert (forall u, 32 * Z.of_nat w <= u < 32 * Z.of_nat (S w) -> has ws u = false) as Top.
    { intros u U. unfold has. destruct (vec_word u ltac:(unfold vec; lia)) as [_ ->].
      replace (u / 32) with (Z.of_nat w) by zdm. rewrite E. apply Z.bits_0. }
    destruct (highest w ws) as [v|].
    + destruct IH as (R & H & M). split; [lia|]. split; [done|]. intros u U Hu.
      destruct (Z_lt_le_dec u (32 * Z.of_nat w)); [apply M; done || lia|]. rewrite Top in Hu by lia. done.
    + intros u U. destruct (Z_lt_le_dec u (32 * Z.of_nat w)); [apply IH; lia|apply Top; lia].
  - pose proof (proj2 B (Z.of_nat w)) as R. set (x := word_at ws (Z.of_nat w)) in *.
    assert (0 <= Z.log2 x < 32) as L by (split; [apply Z.log2_nonneg|apply Z.log2_lt_pow2; lia]).
    split; [lia|]. split.
    + unfold has. rewrite vec_bit. destruct (vec_word (Z.of_nat w * 32 + Z.log2 x) ltac:(unfold vec; lia)) as [_ ->].
      replace ((Z.of_nat w * 32 + Z.log2 x) / 32) with (Z.of_nat w) by zdm.
      replace ((Z.of_nat w * 32 + Z.log2 x) mod 32) with (Z.log2 x) by zdm. apply Z.bit_log2. lia.
    + intros u U Hu. destruct (Z_lt_le_dec (Z.of_nat w * 32 + Z.log2 x) u) as [D|D]; [|done].
      unfold has in Hu. rewrite vec_bit in Hu. destruct (vec_word u ltac:(unfold vec; lia)) as [_ E2]. rewrite E2 in Hu.
      replace (u / 32) with (Z.of_nat w) in Hu by zdm. fold x in Hu.
      rewrite Z.bits_above_log2 in Hu; [done|lia|zdm].
Qed.

(** ** Processor priority and end of interrupt *)

(** The architectural value of PPR: the higher of the task-priority class and the
    class of the highest vector in service. *)
Definition ppr_value (tpr : Z) (s : list Z) : Z :=
  Z.max (Z.land tpr 0xF0) (Z.land (default 0 (highest 8 s)) 0xF0).

Lemma sync_frame a o v :
  let b := relm_vapic_sync_reg a o v in
  vapic_page b = vapic_page a /\ reg b = reg a /\ irr b = irr a /\ isr b = isr a /\ tmr b = tmr a /\
  timer_mode b = timer_mode a /\ timer_start_ns b = timer_start_ns a /\ is_enabled b = is_enabled a.
Proof. unfold relm_vapic_sync_reg. by repeat case_match. Qed.

Lemma sync_page a o v : vapic_page (relm_vapic_sync_reg a o v) = vapic_page a.
Proof. apply sync_frame. Qed.
Lemma sync_regs a o v : reg (relm_vapic_sync_reg a o v) = reg a.
Proof. apply sync_frame. Qed.
Lemma sync_irr a o v : irr (relm_vapic_sync_reg a o v) = irr a.
Proof. apply sync_frame. Qed.
Lemma sync_isr a o v : isr (relm_vapic_sync_reg a o v) = isr a.
Proof. apply sync_frame. Qed.
Lemma sync_tmr a o v : tmr (relm_vapic_sync_reg a o v) = tmr a.
Proof. apply sync_frame. Qed.
Lemma sync_read a o v o' : vapic_page a <> None -> o < APIC_REGISTER_SIZE ->
  relm_vapic_read_reg (relm_vapic_sync_reg a o v) o' = if o' =? o then v else relm_vapic_read_reg a o'.
Proof.
  intros P O. unfold relm_vapic_read_reg, relm_vapic_sync_reg. destruct (vapic_page a) as [p|] eqn:E; [|done].
  rewrite (proj2 (Z.ltb_lt _ _) O). simpl. rewrite E.
  destruct (Z.eqb_spec o' o) as [->|N].
  - by rewrite (proj2 (Z.ltb_lt _ _) O), lookup_insert_eq.
  - by rewrite lookup_insert_ne by done.
Qed.
Create HintDb apic.
(** Project a field out of a chain of updates. *)
Ltac asimp := repeat progress (autorewrite with apic; simpl).
#[export] Hint Rewrite sync_page sync_regs sync_irr sync_isr sync_tmr : apic.

Lemma land_F0_nonneg x : 0 <= x -> 0 <= Z.land x 0xF0.
Proof. intros. apply Z.land_nonneg. lia. Qed.

Lemma ppr_update_eq a : 0 <= reg a r_tpr -> bm_ok (isr a) ->
  relm_apic_ppr_update a = store a r_ppr APIC_REG_PPR (ppr_value (reg a r_tpr) (isr a)).
Proof.
  intros T B. unfold relm_apic_ppr_update, ppr_value. f_equal.
  pose proof (highest_spec (isr a) 8 B ltac:(lia)) as H.
  pose proof (land_F0_nonneg _ T).
  destruct (highest 8 (isr a)) as [v|]; simpl; [|rewrite Z.land_0_l; lia].
  pose proof (land_F0_nonneg v ltac:(lia)).
  destruct (Z.ltb_spec 0 v) as [V|V].
  - destruct (Z.ltb_spec (Z.land (reg a r_tpr) 0xF0) (Z.land v 0xF0)); lia.
  - replace v with 0 by lia. rewrite Z.land_0_l. lia.
Qed.

(** The set of vectors a bitmap stands for. *)
Definition maximal (ws : list Z) (v : Z) : Prop :=
  vec v /\ has ws v = true /\ forall u, vec u -> has ws u = true -> u <= v.

Lemma highest_Some ws v : bm_ok ws -> highest 8 ws = Some v -> maximal ws v.
Proof. intros B E. pose proof (highest_spec ws 8 B ltac:(lia)) as H. rewrite E in H. exact H. Qed.
Lemma highest_None ws : bm_ok ws -> highest 8 ws = None -> forall u, vec u -> has ws u = false.
Proof. intros B E. pose proof (highest_spec ws 8 B ltac:(lia)) as H. rewrite E in H. exact H. Qed.
Lemma highest_maximal ws v : bm_ok ws -> maximal ws v -> highest 8 ws = Some v.
Proof.
  intros B (V & H & M). destruct (highest 8 ws) as [u|] eqn:E.
  - apply highest_Some in E as (U & Hu & Mu); [|done]. f_equal. pose proof (M u U Hu). pose proof (Mu v V H). lia.
  - by rewrite (highest_None ws B E v V) in H.
Qed.

(** The state an end of interrupt recomputes the priority from. *)
Lemma eoi_retire a v : bm_ok (tmr a) -> vec v -> highest 8 (isr a) = Some v ->
  exists b, relm_apic_eoi a = relm_apic_ppr_update b /\
    isr b = clear_bit (isr a) v /\ irr b = irr a /\ reg b = reg a /\ vapic_page b = vapic_page a /\
    tmr b = (if has (tmr a) v then clear_bit (tmr a) v else tmr a) /\
    (vapic_page a <> None -> forall o, relm_vapic_read_reg b o =
       (if (o =? APIC_REG_ISR (APIC_VEC_WORD v))%Z then word_at (isr b) (APIC_VEC_WORD v)
        else if (o =? APIC_REG_TMR (APIC_VEC_WORD v))%Z && has (tmr a) v then word_at (tmr b) (APIC_VEC_WORD v)
        else relm_vapic_read_reg a o)).
Proof.
  intros T V E. pose proof (vec_word v V) as [W _]. unfold relm_apic_eoi. rewrite E.
  eexists. split; [reflexivity|]. rewrite sync_tmr. simpl tmr. rewrite (flag_has _ v T V).
  destruct (has (tmr a) v); asimp; (do 5 (split; [done|])); intros P o;
    rewrite ?sync_read by (simpl; autorewrite with apic; done || (unfold APIC_REG_TMR, APIC_REG_ISR, APIC_REGISTER_SIZE; lia)).
  - change (relm_vapic_read_reg (set_maps ?x _ _ _) o) with (relm_vapic_read_reg x o).
    rewrite !sync_read by (done || (unfold APIC_REG_ISR, APIC_REGISTER_SIZE; lia)). autorewrite with apic. simpl.
    rewrite andb_true_r.
    destruct (Z.eqb_spec o (APIC_REG_TMR (APIC_VEC_WORD v))) as [->|]; [|done].
    by rewrite (proj2 (Z.eqb_neq _ _)) by (unfold APIC_REG_ISR, APIC_REG_TMR; lia).
  - by rewrite andb_false_r.
Qed.


(** ** Coherence of the virtual-APIC page

    [coh rd f i s t]: reading the page with [rd] gives what the software model holds. *)
Definition bm_coh (rd : Z -> Z) (base : Z) (ws : list Z) : Prop :=
  forall w, 0 <= w < 8 -> rd (base + w * 0x10) = word_at ws w.

Record coh (rd : Z -> Z) (f : areg -> Z) (i s t : list Z) : Prop := Coh {
  coh_reg : forall r o, (r, o) ∈ reset_mirror -> rd o = f r;
  coh_icr : rd APIC_REG_ICR_LOW = Z.land (f r_icr_low) (u32 (Z.lnot APIC_ICR_SEND_PENDING));
  coh_eoi : rd APIC_REG_EOI = 0;
  coh_rrd : rd APIC_REG_RRD = 0;
  coh_irr : bm_coh rd (APIC_REG_IRR 0) i;
  coh_isr : bm_coh rd (APIC_REG_ISR 0) s;
  coh_tmr : bm_coh rd (APIC_REG_TMR 0) t
}.

(** The state of one virtual APIC that every operation keeps: 32-bit registers,
    256-bit maps and, while there is a page, a page that agrees with them; and a
    priority that is up to date. *)
Record apic_base (a : virt_apic) : Prop := ApicBase {
  ok_regs : forall r, 0 <= reg a r < 2 ^ 32;
  ok_irr : bm_ok (irr a);
  ok_isr : bm_ok (isr a);
  ok_tmr : bm_ok (tmr a);
  ok_page : vapic_page a <> None -> coh (relm_vapic_read_reg a) (reg a) (irr a) (isr a) (tmr a)
}.
Definition ppr_fresh (a : virt_apic) : Prop := reg a r_ppr = ppr_value (reg a r_tpr) (isr a).
Definition apic_ok (a : virt_apic) : Prop := apic_base a /\ ppr_fresh a.

(** The mirrored registers have one slot each, apart from the other slots. *)
Definition mirror_slot (o : Z) : bool :=
  (0 <=? o) && (o <? APIC_REGISTER_SIZE) &&
  negb (existsb (Z.eqb o) [APIC_REG_ICR_LOW; APIC_REG_EOI; APIC_REG_RRD; APIC_REG_TIMER_CCR]) &&
  negb ((APIC_REG_ISR 0 <=? o) && (o <=? APIC_REG_IRR 7)).

Lemma mirror_slots r o : (r, o) ∈ reset_mirror -> mirror_slot o = true.
Proof.
  intros H. revert r o H. assert (forallb (fun x => mirror_slot x.2) reset_mirror = true) as F by reflexivity.
  intros r o H. rewrite forallb_forall in F. exact (F (r, o) (proj1 (list_elem_of_In _ _) H)).
Qed.
Lemma mirror_inj r o r' o' : (r, o) ∈ reset_mirror -> (r', o') ∈ reset_mirror -> r = r' <-> o = o'.
Proof.
  assert (forallb (fun x => forallb (fun y => Bool.eqb (bool_decide (x.1 = y.1)) (x.2 =? y.2)) reset_mirror)
            reset_mirror = true) as F by (vm_compute; reflexivity).
  intros H H'. rewrite forallb_forall in F.
  pose proof (F (r, o) (proj1 (list_elem_of_In _ _) H)) as G. rewrite forallb_forall in G.
  pose proof (G (r', o') (proj1 (list_elem_of_In _ _) H')) as K. simpl in K.
  apply Bool.eqb_prop in K. destruct (Z.eqb_spec o o'), (bool_decide_reflect (r = r')); naive_solver.
Qed.
Lemma mirror_regs r o : (r, o) ∈ reset_mirror -> r <> r_icr_low /\ r <> r_esr_pending.
Proof.
  assert (forallb (fun x => bool_decide (x.1 <> r_icr_low /\ x.1 <> r_esr_pending)) reset_mirror = true) as F
    by (vm_compute; reflexivity).
  intros H. rewrite forallb_forall in F.
  exact (bool_decide_eq_true_1 _ (F (r, o) (proj1 (list_elem_of_In _ _) H))).
Qed.
Lemma mirror_slot_facts o : mirror_slot o = true ->
  0 <= o < APIC_REGISTER_SIZE /\ o <> APIC_REG_ICR_LOW /\ o <> APIC_REG_EOI /\ o <> APIC_REG_RRD /\
  (o < APIC_REG_ISR 0 \/ APIC_REG_IRR 7 < o).
Proof.
  unfold mirror_slot. simpl. rewrite orb_false_r, !andb_true_iff, !negb_true_iff, !orb_false_iff, andb_false_iff,
    !Z.eqb_neq, !Z.leb_gt, Z.leb_le, Z.ltb_lt. tauto.
Qed.

Lemma bm_coh_other rd rd' base ws o v : (forall x, rd' x = if x =? o then v else rd x) ->
  o < base \/ base + 7 * 0x10 < o -> bm_coh rd base ws -> bm_coh rd' base ws.
Proof. intros E O H w W. rewrite E, (proj2 (Z.eqb_neq _ _)) by lia. by apply H. Qed.

(** Writing a mirrored register and its slot. *)
Lemma coh_store rd rd' f i s t r o v : (r, o) ∈ reset_mirror -> (forall x, rd' x = if x =? o then v else rd x) ->
  coh rd f i s t -> coh rd' (upd_reg f r v) i s t.
Proof.
  intros R E C. destruct (mirror_slot_facts o (mirror_slots _ _ R)) as (? & N1 & N2 & N3 & N4).
  pose proof (proj1 (mirror_regs _ _ R)) as Nr.
  constructor.
  - intros r' o' R'. rewrite E. unfold upd_reg. pose proof (mirror_inj _ _ _ _ R R') as J.
    destruct (Z.eqb_spec o' o) as [Eo|Eo].
    + by rewrite decide_True by (symmetry; by apply J).
    + rewrite decide_False by (intros Er; apply Eo; symmetry; by apply J). by apply (coh_reg _ _ _ _ _ C).
  - rewrite E, (proj2 (Z.eqb_neq _ _)) by (symmetry; exact N1). unfold upd_reg. rewrite decide_False by done. apply C.
  - rewrite E, (proj2 (Z.eqb_neq _ _)) by (symmetry; exact N2). apply C.
  - rewrite E, (proj2 (Z.eqb_neq _ _)) by (symmetry; exact N3). apply C.
  - eapply bm_coh_other; [exact E| |apply C]. revert N4. unfold APIC_REG_ISR, APIC_REG_IRR. lia.
  - eapply bm_coh_other; [exact E| |apply C]. revert N4. unfold APIC_REG_ISR, APIC_REG_IRR. lia.
  - eapply bm_coh_other; [exact E| |apply C]. revert N4. unfold APIC_REG_ISR, APIC_REG_IRR, APIC_REG_TMR. lia.
Qed.

Lemma coh_same rd rd' f i s t : (forall x, rd' x = rd x) -> coh rd f i s t -> coh rd' f i s t.
Proof.
  intros E []. constructor; rewrite ?E; try done; try (intros w W; rewrite E; auto).
Qed.
Lemma coh_esr_pending rd f i s t v : coh rd f i s t -> coh rd (upd_reg f r_esr_pending v) i s t.
Proof.
  intros []. constructor; try done. intros r o R. unfold upd_reg.
  rewrite decide_False by apply (mirror_regs _ _ R). auto.
Qed.
Lemma coh_icr_write rd rd' f i s t v : coh rd f i s t ->
  (forall x, rd' x = if x =? APIC_REG_ICR_LOW then Z.land v (u32 (Z.lnot APIC_ICR_SEND_PENDING)) else rd x) ->
  coh rd' (upd_reg f r_icr_low v) i s t.
Proof.
  intros C E. constructor.
  - intros r o R. destruct (mirror_slot_facts o (mirror_slots _ _ R)) as (_ & N & _).
    rewrite E, (proj2 (Z.eqb_neq _ _)) by exact N. unfold upd_reg.
    rewrite decide_False by apply (mirror_regs _ _ R). by apply (coh_reg _ _ _ _ _ C).
  - by rewrite E.
  - rewrite E. apply C.
  - rewrite E. apply C.
  - eapply bm_coh_other; [exact E| |apply C]. right. vm_compute. reflexivity.
  - eapply bm_coh_other; [exact E| |apply C]. right. vm_compute. reflexivity.
  - eapply bm_coh_other; [exact E| |apply C]. right. vm_compute. reflexivity.
Qed.
Lemma coh_ccr_write rd rd' f i s t v : coh rd f i s t ->
  (forall x, rd' x = if x =? APIC_REG_TIMER_CCR then v else rd x) -> coh rd' f i s t.
Proof.
  intros C E. constructor.
  - intros r o R. rewrite E, (proj2 (Z.eqb_neq _ _)); [by apply (coh_reg _ _ _ _ _ C)|].
    intros ->. apply mirror_slots in R. discriminate R.
  - rewrite E. apply C.
  - rewrite E. apply C.
  - rewrite E. apply C.
  - eapply bm_coh_other; [exact E| |apply C]. right. vm_compute. reflexivity.
  - eapply bm_coh_other; [exact E| |apply C]. right. vm_compute. reflexivity.
  - eapply bm_coh_other; [exact E| |apply C]. right. vm_compute. reflexivity.
Qed.

Lemma bm_coh_insert rd rd' base ws w x : bm_coh rd base ws -> length ws = 8%nat -> 0 <= w < 8 ->
  (forall o, rd' o = if o =? base + w * 0x10 then x else rd o) -> bm_coh rd' base (<[Z.to_nat w := x]> ws).
Proof.
  intros C L W E u U. rewrite E, word_at_insert by lia.
  destruct (Z.eqb_spec u w) as [->|N]; [by rewrite Z.eqb_refl|].
  rewrite (proj2 (Z.eqb_neq _ _)) by lia. by apply C.
Qed.

(** Writing a bitmap word. *)
Lemma coh_maps rd rd' f i s t i' s' t' o v : coh rd f i s t -> APIC_REG_ISR 0 <= o <= APIC_REG_IRR 7 ->
  (forall x, rd' x = if x =? o then v else rd x) ->
  bm_coh rd' (APIC_REG_IRR 0) i' -> bm_coh rd' (APIC_REG_ISR 0) s' -> bm_coh rd' (APIC_REG_TMR 0) t' ->
  coh rd' f i' s' t'.
Proof.
  intros C O E I S T. unfold APIC_REG_ISR, APIC_REG_IRR in O. constructor; try done;
    [|rewrite E, (proj2 (Z.eqb_neq _ _)) by (unfold APIC_REG_ICR_LOW, APIC_REG_EOI, APIC_REG_RRD; lia); apply C..].
  intros r p R. destruct (mirror_slot_facts p (mirror_slots _ _ R)) as (_ & _ & _ & _ & N).
  unfold APIC_REG_ISR, APIC_REG_IRR in N. rewrite E, (proj2 (Z.eqb_neq _ _)) by lia. by apply (coh_reg _ _ _ _ _ C).
Qed.
Lemma coh_irr_write rd rd' f i s t w x : coh rd f i s t -> length i = 8%nat -> 0 <= w < 8 ->
  (forall o, rd' o = if o =? APIC_REG_IRR w then x else rd o) -> coh rd' f (<[Z.to_nat w := x]> i) s t.
Proof.
  intros C L W E. eapply coh_maps; [exact C| |exact E| | |]; unfold APIC_REG_ISR, APIC_REG_IRR, APIC_REG_TMR in *; [lia|..].
  - eapply bm_coh_insert; [apply C|done|done|]. intros o. rewrite E. done.
  - eapply bm_coh_other; [exact E|lia|apply C].
  - eapply bm_coh_other; [exact E|lia|apply C].
Qed.
Lemma coh_isr_write rd rd' f i s t w x : coh rd f i s t -> length s = 8%nat -> 0 <= w < 8 ->
  (forall o, rd' o = if o =? APIC_REG_ISR w then x else rd o) -> coh rd' f i (<[Z.to_nat w := x]> s) t.
Proof.
  intros C L W E. eapply coh_maps; [exact C| |exact E| | |]; unfold APIC_REG_ISR, APIC_REG_IRR, APIC_REG_TMR in *; [lia|..].
  - eapply bm_coh_other; [exact E|lia|apply C].
  - eapply bm_coh_insert; [apply C|done|done|]. intros o. rewrite E. done.
  - eapply bm_coh_other; [exact E|lia|apply C].
Qed.
Lemma coh_tmr_write rd rd' f i s t w x : coh rd f i s t -> length t = 8%nat -> 0 <= w < 8 ->
  (forall o, rd' o = if o =? APIC_REG_TMR w then x else rd o) -> coh rd' f i s (<[Z.to_nat w := x]> t).
Proof.
  intros C L W E. eapply coh_maps; [exact C| |exact E| | |]; unfold APIC_REG_ISR, APIC_REG_IRR, APIC_REG_TMR in *; [lia|..].
  - eapply bm_coh_other; [exact E|lia|apply C].
  - eapply bm_coh_other; [exact E|lia|apply C].
  - eapply bm_coh_insert; [apply C|done|done|]. intros o. rewrite E. done.
Qed.

Lemma upd_reg_range f r v : (forall r, 0 <= f r < 2 ^ 32) -> 0 <= v < 2 ^ 32 -> forall r', 0 <= upd_reg f r v r' < 2 ^ 32.
Proof. intros F V r'. unfold upd_reg. by case_decide. Qed.
Lemma zero8_ok : bm_ok zero8.
Proof.
  split; [done|]. intros w. unfold word_at, zero8.
  destruct (replicate 8 0 !! Z.to_nat w) as [x|] eqn:E; simpl; [apply lookup_replicate in E as [-> _]|]; lia.
Qed.

(** Reset, on a page that has just been allocated. *)
Lemma init_ok a id : 0 <= reg a r_esr_pending < 2 ^ 32 -> vapic a = ∅ ->
  apic_ok (relm_apic_init a id) /\ isr (relm_apic_init a id) = zero8.
Proof.
  destruct a as [pg c ppa q qpa f i s t tm ts td en rv]; simpl. intros R ->.
  assert (reg (relm_apic_init (VirtApic pg ∅ ppa q qpa f i s t tm ts td en rv) id) =
          reset_reg (VirtApic pg ∅ ppa q qpa f i s t tm ts td en rv) id) as Er by (by destruct pg).
  assert (irr (relm_apic_init (VirtApic pg ∅ ppa q qpa f i s t tm ts td en rv) id) = zero8) as Ei by (by destruct pg).
  assert (isr (relm_apic_init (VirtApic pg ∅ ppa q qpa f i s t tm ts td en rv) id) = zero8) as Es by (by destruct pg).
  assert (tmr (relm_apic_init (VirtApic pg ∅ ppa q qpa f i s t tm ts td en rv) id) = zero8) as Et by (by destruct pg).
  split; [|done]. split; [constructor|].
  - rewrite Er. intros r. destruct r; cycle 8; [exact R|..]; cycle 10; [apply Z.mod_pos_bound; lia|..]; vm_compute; split; (discriminate || reflexivity).
  - rewrite Ei. apply zero8_ok.
  - rewrite Es. apply zero8_ok.
  - rewrite Et. apply zero8_ok.
  - destruct pg as [p|]; [intros _|done]. rewrite Er, Ei, Es, Et. clear. unfold relm_apic_init. cbn [vapic_page].
    assert (reset_reg (VirtApic (Some p) ∅ ppa q qpa f i s t tm ts td en rv) id r_icr_low = 0) as Hg by reflexivity.
    revert Hg. generalize (reset_reg (VirtApic (Some p) ∅ ppa q qpa f i s t tm ts td en rv) id). intros g Hg. constructor.
    + match goal with |- forall r o, _ -> ?rd o = ?f r =>
        assert (Forall (fun x => rd x.2 = f x.1) reset_mirror) as F end.
      { unfold reset_mirror. repeat (apply Forall_cons; split; [vm_compute; reflexivity|]). apply Forall_nil. exact I. }
      intros r o H. exact (proj1 (Forall_forall _ _) F (r, o) H).
    + rewrite Hg. vm_compute. reflexivity.
    + vm_compute; reflexivity.
    + vm_compute; reflexivity.
    + intros w W. assert (w = 0 \/ w = 1 \/ w = 2 \/ w = 3 \/ w = 4 \/ w = 5 \/ w = 6 \/ w = 7) as D by lia.
      repeat destruct D as [->|D]; subst; vm_compute; reflexivity.
    + intros w W. assert (w = 0 \/ w = 1 \/ w = 2 \/ w = 3 \/ w = 4 \/ w = 5 \/ w = 6 \/ w = 7) as D by lia.
      repeat destruct D as [->|D]; subst; vm_compute; reflexivity.
    + intros w W. assert (w = 0 \/ w = 1 \/ w = 2 \/ w = 3 \/ w = 4 \/ w = 5 \/ w = 6 \/ w = 7) as D by lia.
      repeat destruct D as [->|D]; subst; vm_compute; reflexivity.
  - unfold ppr_fresh. rewrite Er, Es. reflexivity.
Qed.

Lemma init_page a id : vapic_page (relm_apic_init a id) = vapic_page a.
Proof. destruct a as [pg ? ? ? ? ? ? ? ? ? ? ? ? ?]. by destruct pg. Qed.

Lemma mirror_offset r o : (r, o) ∈ reset_mirror -> o < APIC_REGISTER_SIZE.
Proof. intros R. apply (mirror_slot_facts o (mirror_slots _ _ R)). Qed.

(** Membership in the table is decided by evaluation. *)
Ltac in_mirror := apply (bool_decide_unpack _); vm_compute; exact I.

Lemma base_store a r o v : apic_base a -> (r, o) ∈ reset_mirror -> 0 <= v < 2 ^ 32 -> apic_base (store a r o v).
Proof.
  intros B R V. unfold store. constructor; asimp; try apply B.
  - by apply upd_reg_range; [apply B|].
  - intros P. eapply coh_store; [exact R| |by apply (ok_page a B)]. intros x.
    by rewrite sync_read by (done || by eapply mirror_offset).
Qed.

Lemma ppr_value_range tpr s : 0 <= tpr < 2 ^ 32 -> bm_ok s -> 0 <= ppr_value tpr s < 2 ^ 32.
Proof.
  intros T B. unfold ppr_value. pose proof (land_below tpr 0xF0 32 ltac:(lia) T) as Lt.
  pose proof (highest_spec s 8 B ltac:(lia)) as Hs.
  assert (0 <= default 0 (highest 8 s) < 2 ^ 32) as D by (destruct (highest 8 s); simpl; zpow; lia).
  pose proof (land_below _ 0xF0 32 ltac:(lia) D). lia.
Qed.

Lemma base_ppr a : apic_base a -> apic_ok (relm_apic_ppr_update a).
Proof.
  intros B. rewrite ppr_update_eq by apply B.
  split; [apply base_store; [done|in_mirror|apply ppr_value_range; apply B]|].
  unfold ppr_fresh, store. by asimp.
Qed.

Lemma eoi_base a v b : apic_base a -> maximal (isr a) v -> isr b = clear_bit (isr a) v -> irr b = irr a ->
  reg b = reg a -> vapic_page b = vapic_page a -> tmr b = (if has (tmr a) v then clear_bit (tmr a) v else tmr a) ->
  (vapic_page a <> None -> forall o, relm_vapic_read_reg b o =
       (if o =? APIC_REG_ISR (APIC_VEC_WORD v) then word_at (isr b) (APIC_VEC_WORD v)
        else if (o =? APIC_REG_TMR (APIC_VEC_WORD v)) && has (tmr a) v then word_at (tmr b) (APIC_VEC_WORD v)
        else relm_vapic_read_reg a o)) -> apic_base b.
Proof.
  intros B (V & _) Es Ei Er Ep Et Rd. pose proof (vec_word v V) as [W _]. constructor.
  - rewrite Er. apply B.
  - rewrite Ei. apply B.
  - rewrite Es. apply clear_bit_ok; [apply B|done].
  - rewrite Et. destruct (has (tmr a) v); [apply clear_bit_ok; [apply B|done]|apply B].
  - rewrite Ep. intros P. rewrite Er, Ei, Et. specialize (Rd P). rewrite Es in Rd |- *.
    assert (forall ws, bm_ok ws -> word_at (clear_bit ws v) (APIC_VEC_WORD v) =
              Z.land (word_at ws (APIC_VEC_WORD v)) (u32 (Z.lnot (APIC_VEC_MASK v)))) as Wc.
    { intros ws [L _]. unfold clear_bit. by rewrite word_at_insert, Z.eqb_refl by lia. }
    set (rd1 := fun o => if o =? APIC_REG_ISR (APIC_VEC_WORD v)
                         then word_at (clear_bit (isr a) v) (APIC_VEC_WORD v) else relm_vapic_read_reg a o).
    assert (coh rd1 (reg a) (irr a) (clear_bit (isr a) v) (tmr a)) as C1.
    { eapply coh_isr_write; [by apply (ok_page a B)|apply B|done|]. intros o. unfold rd1. by rewrite Wc by apply B. }
    destruct (has (tmr a) v) eqn:H.
    + eapply coh_tmr_write; [exact C1|apply B|done|]. intros o. rewrite Rd, Et, (Wc (tmr a)) by apply B. rewrite andb_true_r.
      unfold rd1. destruct (Z.eqb_spec o (APIC_REG_TMR (APIC_VEC_WORD v))) as [->|]; [|done].
      by rewrite (proj2 (Z.eqb_neq _ _)) by (unfold APIC_REG_ISR, APIC_REG_TMR; lia).
    + eapply coh_same; [|exact C1]. intros o. rewrite Rd. by rewrite andb_false_r.
Qed.

Lemma eoi_ok a : apic_ok a -> apic_ok (relm_apic_eoi a).
Proof.
  intros [B F]. destruct (highest 8 (isr a)) as [v|] eqn:E.
  - pose proof (highest_Some _ _ (ok_isr a B) E) as M.
    destruct (eoi_retire a v (ok_tmr a B) (proj1 M) E) as (b & -> & Es & Ei & Er & Ep & Et & Rd).
    apply base_ppr. by apply (eoi_base a v b).
  - unfold relm_apic_eoi. by rewrite E.
Qed.

Lemma inject_frame a v l : let b := inject_apic a v l in
  reg b = reg a /\ isr b = isr a /\ vapic_page b = vapic_page a /\ irr b = set_bit (irr a) v /\
  tmr b = (if l then set_bit (tmr a) v else clear_bit (tmr a) v).
Proof. unfold inject_apic. by asimp. Qed.

Lemma inject_ok a v l : vec v -> apic_ok a -> apic_ok (inject_apic a v l).
Proof.
  intros V [B F]. pose proof (vec_word v V) as [W _].
  destruct (inject_frame a v l) as (Er & Es & Ep & Ei & Et).
  split; [constructor|unfold ppr_fresh; by rewrite Er, Es].
  - rewrite Er. apply B.
  - rewrite Ei. apply set_bit_ok; [apply B|done].
  - rewrite Es. apply B.
  - rewrite Et. destruct l; [apply set_bit_ok|apply clear_bit_ok]; try done; apply B.
  - rewrite Ep. intros P. rewrite Er, Es, Ei, Et. unfold inject_apic.
    set (a1 := set_maps _ _ _ _).
    assert (coh (relm_vapic_read_reg (relm_vapic_sync_reg a1 (APIC_REG_IRR (APIC_VEC_WORD v))
                   (word_at (irr a1) (APIC_VEC_WORD v)))) (reg a) (set_bit (irr a) v) (isr a) (tmr a)) as C1.
    { eapply coh_irr_write; [by apply (ok_page a B)|apply B|done|]. intros o.
      rewrite sync_read by (done || (unfold APIC_REG_IRR, APIC_REGISTER_SIZE; lia)).
      unfold a1; simpl. unfold set_bit. by rewrite word_at_insert, Z.eqb_refl by (apply B || lia). }
    destruct l; (eapply coh_tmr_write; [exact C1|apply B|done|]); intros o;
      rewrite sync_read by ((rewrite sync_page; done) || (unfold APIC_REG_TMR, APIC_REGISTER_SIZE; lia));
      unfold a1; simpl; unfold set_bit, clear_bit;
      by rewrite word_at_insert, Z.eqb_refl by (apply B || lia).
Qed.

Lemma plain_write_mirror o v r x : 0 <= v < 2 ^ 32 -> plain_write o v = Some (r, x) ->
  (r, o) ∈ reset_mirror /\ r <> r_tpr /\ r <> r_ppr /\ 0 <= x < 2 ^ 32.
Proof.
  intros V. unfold plain_write.
  repeat (match goal with |- context [o =? ?c] => destruct (Z.eqb_spec o c) as [->|_] end;
    [intros [= <- <-]; split; [in_mirror|]; split; [discriminate|]; split; [discriminate|];
     first [exact V|apply land_below; [lia|exact V]|apply lor_below; [lia|exact V|lia]]|]).
  discriminate.
Qed.

Lemma store_fresh a r o v : r <> r_tpr -> r <> r_ppr -> ppr_fresh a -> ppr_fresh (store a r o v).
Proof. intros T P F. unfold ppr_fresh, store. asimp. unfold upd_reg. by rewrite !decide_False by congruence. Qed.

Lemma ok_store a r o v : apic_ok a -> (r, o) ∈ reset_mirror -> r <> r_tpr -> r <> r_ppr -> 0 <= v < 2 ^ 32 ->
  apic_ok (store a r o v).
Proof. intros [B F] R T P V. split; [by apply base_store|by apply store_fresh]. Qed.

(** [b] is [a] but for fields the invariant does not read. *)
Lemma ok_same a b : apic_ok a -> vapic_page b = vapic_page a -> vapic b = vapic a -> reg b = reg a ->
  irr b = irr a -> isr b = isr a -> tmr b = tmr a -> apic_ok b.
Proof.
  intros [[] F] P C R I S T. unfold apic_ok, ppr_fresh in *. rewrite R, S. split; [|exact F].
  constructor; rewrite ?R, ?I, ?S, ?T, ?P; try done. intros N. eapply coh_same; [|exact (ok_page0 N)].
  intros x. unfold relm_vapic_read_reg. by rewrite P, C.
Qed.

(** The latched errors have no slot in the page. *)
Lemma ok_esr_pending a v : apic_ok a -> 0 <= v < 2 ^ 32 -> apic_ok (set_reg a r_esr_pending v).
Proof.
  intros [[] F] V. split; [|exact F].
  constructor; simpl; try done; [by apply upd_reg_range|]. intros P. by apply coh_esr_pending, ok_page0.
Qed.

Lemma sync_set_esr a e p : relm_vapic_sync_reg (set_reg (set_reg a r_esr e) r_esr_pending p) APIC_REG_ESR e =
  set_reg (store a r_esr APIC_REG_ESR e) r_esr_pending p.
Proof. unfold store, relm_vapic_sync_reg; simpl. by destruct (vapic_page a). Qed.
Lemma sync_set_svr a v b : relm_vapic_sync_reg (set_enabled (set_reg a r_svr v) b) APIC_REG_SVR v =
  set_enabled (store a r_svr APIC_REG_SVR v) b.
Proof. unfold store, relm_vapic_sync_reg; simpl. by destruct (vapic_page a). Qed.
Lemma sync_set_lvt a v m s : relm_vapic_sync_reg (set_timer (set_reg a r_lvt_timer v) m s) APIC_REG_LVT_TIMER v =
  set_timer (store a r_lvt_timer APIC_REG_LVT_TIMER v) m s.
Proof. unfold store, relm_vapic_sync_reg; simpl. by destruct (vapic_page a). Qed.

Lemma ok_eoi_slot a : apic_ok a -> apic_ok (relm_vapic_sync_reg a APIC_REG_EOI 0).
Proof.
  intros [B F]. split; [|unfold ppr_fresh; by asimp]. constructor; asimp; try apply B.
  intros P. eapply coh_same; [|by apply (ok_page a B)]. intros x. rewrite sync_read by done.
  destruct (Z.eqb_spec x APIC_REG_EOI) as [->|]; [symmetry; by apply (coh_eoi _ _ _ _ _ (ok_page a B P))|done].
Qed.
Lemma ok_ccr_slot a v : apic_ok a -> apic_ok (relm_vapic_sync_reg a APIC_REG_TIMER_CCR v).
Proof.
  intros [B F]. split; [|unfold ppr_fresh; by asimp]. constructor; asimp; try apply B.
  intros P. eapply coh_ccr_write; [by apply (ok_page a B)|]. intros x. by rewrite sync_read by done.
Qed.

Lemma write_own_ok now a o v : 0 <= v < 2 ^ 32 -> apic_ok a -> apic_ok (write_own now a o v).2.
Proof.
  intros V A. pose proof A as [B F]. unfold write_own. destruct (plain_write o v) as [[r x]|] eqn:E.
  { destruct (plain_write_mirror _ _ _ _ V E) as (R & T & P & X). by apply ok_store. }
  repeat (case_match; [|]); simpl; try exact A.
  - apply base_ppr. apply base_store; [done|in_mirror|apply land_below; [lia|exact V]].
  - by apply ok_eoi_slot, eoi_ok.
  - rewrite sync_set_svr. apply (ok_same (store a r_svr APIC_REG_SVR v)); [|reflexivity..].
    apply ok_store; [exact A|in_mirror|discriminate|discriminate|exact V].
  - rewrite sync_set_esr. apply ok_esr_pending; [|lia].
    apply ok_store; [exact A|in_mirror|discriminate|discriminate|apply land_below; [lia|apply B]].
  - rewrite sync_set_lvt. apply (ok_same (store a r_lvt_timer APIC_REG_LVT_TIMER v)); [|reflexivity..].
    apply ok_store; [exact A|in_mirror|discriminate|discriminate|exact V].
  - apply (ok_same (store a r_timer_icr APIC_REG_TIMER_ICR v)); [|reflexivity..].
    apply ok_store; [exact A|in_mirror|discriminate|discriminate|exact V].
  - apply (ok_same (store a r_timer_icr APIC_REG_TIMER_ICR v)); [|reflexivity..].
    apply ok_store; [exact A|in_mirror|discriminate|discriminate|exact V].
Qed.

(** ** The APICs of a virtual machine over time *)

(** What can happen to the APICs: a register access by vCPU [i], a platform
    interrupt, an error, or vCPU [i] halting. *)
Inductive apic_step : apic_vm -> apic_vm -> Prop :=
  | step_write now vm i o v : 0 <= v < 2 ^ 32 -> apic_step vm (relm_apic_write now vm i o v).2
  | step_read now vm i o c : vm !! i = Some (Some c) ->
      apic_step vm (<[i := Some (ACpu (relm_apic_read now (ac_apic c) o).2 (ac_halted c))]> vm)
  | step_irq vm i c irq : vm !! i = Some (Some c) -> apic_step vm (<[i := Some (vmx_inject_irq c irq).2]> vm)
  | step_error vm i c bit : vm !! i = Some (Some c) -> 0 <= bit -> apic_step vm (<[i := Some (relm_apic_set_error c bit)]> vm)
  | step_halt vm i c : vm !! i = Some (Some c) -> apic_step vm (<[i := Some (ACpu (ac_apic c) true)]> vm).

(** Every APIC has just been reset, on a fresh page. *)
Definition apic_boot (vm : apic_vm) : Prop :=
  forall i c, vm !! i = Some (Some c) -> exists a id,
    ac_apic c = relm_apic_init a id /\ vapic a = ∅ /\ vapic_page a <> None /\ 0 <= reg a r_esr_pending < 2 ^ 32.

Definition cpu_ok (c : acpu) : Prop :=
  apic_ok (ac_apic c) /\ vapic_page (ac_apic c) <> None /\ isr (ac_apic c) = zero8.

(** [d] has every request [c] has. *)
Definition irr_le (c d : acpu) : Prop :=
  forall v, vec v -> has (irr (ac_apic c)) v = true -> has (irr (ac_apic d)) v = true.

(** What one step does to the APIC of one vCPU. *)
Definition cpu_next (c d : acpu) : Prop := cpu_ok c -> cpu_ok d /\ irr_le c d.

#[export] Instance cpu_next_refl : Reflexive cpu_next.
Proof. intros c H. split; [done|]. by intros v. Qed.
#[export] Instance cpu_next_trans : Transitive cpu_next.
Proof.
  intros c d e D E H. destruct (D H) as [Hd L]. destruct (E Hd) as [He M]. split; [done|]. intros v V Hv.
  by apply M, L.
Qed.

Lemma store_frame a r o v : irr (store a r o v) = irr a /\ isr (store a r o v) = isr a /\ vapic_page (store a r o v) = vapic_page a.
Proof. unfold store. by asimp. Qed.
Lemma ppr_update_frame a : irr (relm_apic_ppr_update a) = irr a /\ isr (relm_apic_ppr_update a) = isr a /\
  vapic_page (relm_apic_ppr_update a) = vapic_page a.
Proof. apply store_frame. Qed.
Lemma zero8_highest : highest 8 zero8 = None.
Proof. reflexivity. Qed.

Lemma write_own_frame now a o v : isr a = zero8 -> let b := (write_own now a o v).2 in
  irr b = irr a /\ isr b = isr a /\ vapic_page b = vapic_page a.
Proof.
  intros Z. unfold write_own. repeat (case_match; simplify_eq); simpl; asimp; try done.
  - apply store_frame.
  - destruct (ppr_update_frame (store a r_tpr APIC_REG_TPR (Z.land v 255))) as (-> & -> & ->). apply store_frame.
  - unfold relm_apic_eoi. by rewrite Z, zero8_highest.
  - apply store_frame.
  - apply store_frame.
Qed.

Lemma read_frame now a o : let b := (relm_apic_read now a o).2 in
  irr b = irr a /\ isr b = isr a /\ vapic_page b = vapic_page a.
Proof.
  unfold relm_apic_read. repeat case_match; try done; simpl; asimp; try done; apply ppr_update_frame.
Qed.

(** Without a change to TPR nothing happens on its read. *)
Lemma upd_reg_id f r : forall r', upd_reg f r (f r) r' = f r'.
Proof. intros r'. unfold upd_reg. by case_decide; subst. Qed.
Lemma ok_regs_ext a f : (forall r, f r = reg a r) -> apic_ok a ->
  apic_ok (VirtApic (vapic_page a) (vapic a) (vapic_page_pa a) (apic_access_page a) (apic_access_page_pa a) f
    (irr a) (isr a) (tmr a) (timer_mode a) (timer_start_ns a) (timer_deadline_tsc a) (is_enabled a) (apic_reg_virt_supported a)).
Proof.
  intros E [[] F]. split.
  - constructor; simpl; try done; [intros r; by rewrite E|]. intros P. specialize (ok_page0 P).
    change (relm_vapic_read_reg _) with (relm_vapic_read_reg a).
    destruct ok_page0. constructor; try done; [intros r o R; rewrite E; auto|by rewrite E].
  - unfold ppr_fresh; simpl. by rewrite !E.
Qed.

Lemma read_ok now a o : apic_ok a -> vapic_page a <> None -> apic_ok (relm_apic_read now a o).2.
Proof.
  intros A P. unfold relm_apic_read. repeat case_match; try exact A; simpl.
  - unfold set_reg. apply ok_regs_ext; [|done].
    rewrite (coh_reg _ _ _ _ _ (ok_page a (proj1 A) P) r_tpr APIC_REG_TPR) by in_mirror. apply upd_reg_id.
  - apply base_ppr, A.
  - by apply ok_ccr_slot.
Qed.

Lemma icr_vector v : vec (Z.land v APIC_ICR_VECTOR_MASK).
Proof.
  unfold vec, APIC_ICR_VECTOR_MASK. change 255 with (2 ^ 8 - 1). rewrite land_ones_mod by lia.
  exact (Z.mod_pos_bound v 256 eq_refl).
Qed.

Lemma next_inject c v l : vec v -> cpu_next c (relm_apic_inject_interrupt c v l).
Proof.
  intros V (A & P & Z). destruct (inject_frame (ac_apic c) v l) as (_ & Es & Ep & Ei & _). split.
  - split; [by apply inject_ok|]. simpl. by rewrite Ep, Es.
  - intros u U H. simpl. rewrite Ei, has_set_bit, H by (done || apply A). apply orb_true_r.
Qed.
Lemma next_error c bit : 0 <= bit -> cpu_next c (relm_apic_set_error c bit).
Proof.
  intros Hb. unfold relm_apic_set_error. case_match; [reflexivity|].
  set (c1 := ACpu _ (ac_halted c)).
  assert (cpu_next c c1) as N.
  { intros (A & P & Z). split; [|by intros v]. split; [|done]. apply ok_esr_pending; [done|].
    apply lor_below; [lia|apply A|]. change APIC_ESR_VALID_BITS with (2 ^ 8 - 1). rewrite land_ones_mod by lia.
    pose proof (Z.mod_pos_bound bit (2 ^ 8) ltac:(lia)). zpow. lia. }
  repeat case_match; try exact N. etransitivity; [exact N|]. intros Hc. revert Hc. apply next_inject. exact (icr_vector _).
Qed.
Lemma next_irq c irq : cpu_next c (vmx_inject_irq c irq).2.
Proof.
  unfold vmx_inject_irq. case_match; [reflexivity|]. apply next_inject.
  unfold u32 in *. tidy_bool. pose proof (Z.mod_pos_bound (RELM_IRQ_VECTOR_BASE + irq) (2 ^ 32) ltac:(lia)). unfold vec. lia.
Qed.

(** The same for a whole VM: the slots stay what they are. *)
Definition vm_next : apic_vm -> apic_vm -> Prop := Forall2 (option_Forall2 cpu_next).
#[export] Instance vm_next_refl : Reflexive vm_next.
Proof. intros vm. apply Forall2_lookup. intros i. reflexivity. Qed.
#[export] Instance vm_next_trans : Transitive vm_next.
Proof.
  intros a b c A B. unfold vm_next in *. rewrite !Forall2_lookup in *. intros i. specialize (A i). specialize (B i).
  destruct A as [x y A|]; inversion B as [? z B'|]; subst; constructor.
  destruct A as [x' y' A|]; inversion B' as [? z' B''|]; subst; constructor. by etransitivity.
Qed.

Lemma vm_next_insert vm i c d : vm !! i = Some (Some c) -> cpu_next c d -> vm_next vm (<[i := Some d]> vm).
Proof.
  intros E N. apply Forall2_lookup. intros j. destruct (decide (i = j)) as [<-|Ne].
  - rewrite list_lookup_insert_eq by (by eapply lookup_lt_Some). rewrite E. by do 2 constructor.
  - rewrite list_lookup_insert_ne by done. reflexivity.
Qed.
Lemma vm_next_upd vm i f : (forall c, cpu_next c (f c)) -> vm_next vm (upd_cpu vm i f).
Proof.
  intros N. apply Forall2_lookup. intros j. unfold upd_cpu. destruct (decide (Z.to_nat i = j)) as [<-|Ne].
  - rewrite list_lookup_alter, decide_True by done. destruct (vm !! Z.to_nat i) as [[e|]|]; [do 2 constructor; apply N|do 2 constructor|constructor].
  - rewrite list_lookup_alter, decide_False by done. reflexivity.
Qed.

Lemma next_icr_low c v : 0 <= v < 2 ^ 32 ->
  cpu_next c (ACpu (relm_vapic_sync_reg (set_reg (ac_apic c) r_icr_low v) APIC_REG_ICR_LOW
                      (Z.land v (u32 (Z.lnot APIC_ICR_SEND_PENDING)))) (ac_halted c)).
Proof.
  intros V ([B F] & P & Z). unfold cpu_ok, irr_le; asimp. split; [|done]. split; [|done]. split.
  - constructor; asimp; try apply B; [by apply upd_reg_range; [apply B|]|]. intros _.
    eapply coh_icr_write; [by apply (ok_page _ B)|]. intros x. by rewrite sync_read by done.
  - unfold ppr_fresh; asimp. exact F.
Qed.

Lemma vm_next_deliver vm ts mode v l : vec v ->
  vm_next vm (fold_left (fun vm t => relm_apic_ipi_deliver vm t mode v l) ts vm).
Proof.
  intros V. revert vm. induction ts as [|t ts IH]; intros vm; [reflexivity|]. simpl. etransitivity; [|apply IH].
  unfold relm_apic_ipi_deliver. case_match; [|reflexivity]. apply vm_next_upd. intros c. apply next_inject.
  unfold u8, vec in *. zpow. rewrite Z.mod_small; lia.
Qed.

Lemma step_next vm vm' : apic_step vm vm' -> vm_next vm vm'.
Proof.
  intros [now vm1 i o v V|now vm1 i o c E|vm1 i c irq E|vm1 i c bit E Hb|vm1 i c E].
  - unfold relm_apic_write. case_match; [reflexivity|]. case_match.
    + unfold relm_apic_handle_icr_write. simpl. etransitivity; [|apply vm_next_deliver, icr_vector].
      apply vm_next_upd. intros c. by apply next_icr_low.
    + destruct (vm1 !! Z.to_nat i) as [[c|]|] eqn:E; [|reflexivity..].
      destruct (write_own now (ac_apic c) o v) as [ret b] eqn:W. simpl. eapply vm_next_insert; [exact E|].
      intros (A & P & Z). pose proof (write_own_ok now _ o v V A) as K.
      pose proof (write_own_frame now _ o v Z) as (Ei & Es & Ep). rewrite W in *. simpl in *.
      unfold cpu_ok, irr_le; simpl. by rewrite Ei, Es, Ep.
  - eapply vm_next_insert; [exact E|]. intros (A & P & Z). pose proof (read_ok now _ o A P) as K.
    pose proof (read_frame now (ac_apic c) o) as (Ei & Es & Ep). unfold cpu_ok, irr_le; simpl. by rewrite Ei, Es, Ep.
  - eapply vm_next_insert; [exact E|apply next_irq].
  - eapply vm_next_insert; [exact E|by apply next_error].
  - eapply vm_next_insert; [exact E|]. intros H. split; [exact H|]. by intros v.
Qed.

Lemma steps_next vm vm' : rtc apic_step vm vm' -> vm_next vm vm'.
Proof. induction 1; [reflexivity|]. etransitivity; [by apply step_next|done]. Qed.

Lemma boot_ok vm i c : apic_boot vm -> vm !! i = Some (Some c) -> cpu_ok c.
Proof.
  intros B E. destruct (B i c E) as (a & id & Ea & V & P & R). destruct (init_ok a id R V) as [A Z].
  unfold cpu_ok. rewrite Ea. by rewrite init_page.
Qed.

Lemma plain_read_mirror o r : plain_read o = Some r -> (r, o) ∈ reset_mirror.
Proof.
  unfold plain_read.
  repeat (match goal with |- context [o =? ?c] => destruct (Z.eqb_spec o c) as [->|_] end; [intros [= <-]; in_mirror|]).
  discriminate.
Qed.

Lemma bitmap_read rd base ws o : bm_coh rd base ws -> o mod 0x10 = 0 -> base mod 0x10 = 0 -> in_bitmap o base = true ->
  rd o = word_at ws ((o - base) / 0x10).
Proof.
  intros C O B I. unfold in_bitmap in I. tidy_bool. rewrite <- C by zdm. f_equal. zdm.
Qed.

Lemma read_page now a o v b : apic_ok a -> vapic_page a <> None -> relm_apic_read now a o = (0, v, b) ->
  o mod 0x10 = 0 -> o <> APIC_REG_APR -> o <> APIC_REG_TIMER_CCR -> o <> APIC_REG_LVT_CMCI ->
  relm_vapic_read_reg a o = v.
Proof.
  intros [B F] P. pose proof (ok_page a B P) as C. unfold relm_apic_read. intros R O N1 N2 N3.
  assert (flag o 3 = false) as Fl.
  { unfold flag. change 3 with (2 ^ 2 - 1). rewrite land_ones_mod by lia. zpow. by replace (o mod 4) with 0 by zdm. }
  rewrite Fl in R. destruct (plain_read o) as [r|] eqn:E.
  { injection R as <- <-. by apply (coh_reg _ _ _ _ _ C), plain_read_mirror. }
  destruct (Z.eqb_spec o APIC_REG_TPR) as [->|_]; [by simplify_eq|].
  rewrite (proj2 (Z.eqb_neq _ _) N1) in R.
  destruct (Z.eqb_spec o APIC_REG_PPR) as [->|_]; cbn [orb] in R.
  { rewrite (coh_reg _ _ _ _ _ C r_ppr APIC_REG_PPR) by in_mirror. rewrite ppr_update_eq in R by apply B.
    injection R as <- <-. unfold store. asimp. unfold upd_reg. rewrite decide_True by done. exact F. }
  destruct (Z.eqb_spec o APIC_REG_EOI) as [->|_]; cbn [orb] in R; [injection R as <- <-; apply C|].
  destruct (Z.eqb_spec o APIC_REG_RRD) as [->|_]; [injection R as <- <-; apply C|].
  rewrite (proj2 (Z.eqb_neq _ _) N3) in R.
  destruct (Z.eqb_spec o APIC_REG_ICR_LOW) as [->|_]; [injection R as <- <-; apply C|].
  rewrite (proj2 (Z.eqb_neq _ _) N2) in R.
  destruct (in_bitmap o (APIC_REG_ISR 0)) eqn:I1; [injection R as <- <-; by apply bitmap_read; [apply C|..]|].
  destruct (in_bitmap o (APIC_REG_TMR 0)) eqn:I2; [injection R as <- <-; by apply bitmap_read; [apply C|..]|].
  destruct (in_bitmap o (APIC_REG_IRR 0)) eqn:I3; [injection R as <- <-; by apply bitmap_read; [apply C|..]|].
  discriminate R.
Qed.

(** In every state the APICs can reach from reset, through any interleaving of
    register accesses, interrupts, errors and halts, each virtual APIC is well formed:
    its registers are 32-bit, its bitmaps 256-bit, its processor priority is the one
    TPR and the in-service vectors give, and the virtual-APIC page, which the processor
    serves guest reads from, holds at each 16-byte register slot what the software read
    handler returns for it.  The three exceptions are APR, the running timer count and
    LVT CMCI, whose slots are not kept. *)
Theorem page_coherent (vm0 vm : apic_vm) (i : nat) (c : acpu) :
  apic_boot vm0 -> rtc apic_step vm0 vm -> vm !! i = Some (Some c) ->
  apic_ok (ac_apic c) /\ vapic_page (ac_apic c) <> None /\
  forall now o v b, relm_apic_read now (ac_apic c) o = (0, v, b) ->
    o mod 0x10 = 0 -> o <> APIC_REG_APR -> o <> APIC_REG_TIMER_CCR -> o <> APIC_REG_LVT_CMCI ->
    relm_vapic_read_reg (ac_apic c) o = v.
Proof.
  intros B S E. pose proof (steps_next _ _ S) as N. unfold vm_next in N. rewrite Forall2_lookup in N. specialize (N i).
  rewrite E in N. inversion N as [x y N' E0|]; subst. inversion N' as [c0 ? N''|]; subst.
  destruct (N'' (boot_ok vm0 i c0 B (eq_sym E0))) as [(A & P & _) _]. split; [done|]. split; [done|].
  intros now o v b. by apply read_page.
Qed.

(** No interrupt is ever delivered: from reset on, whatever happens, the
    in-service set of every vCPU stays empty and a vector that is pending stays
    pending for ever.  The hand-over from IRR to ISR that the injection comment leaves
    to the run loop does not exist. *)
Theorem requests_never_serviced (vm0 vm vm' : apic_vm) (i : nat) (c : acpu) :
  apic_boot vm0 -> rtc apic_step vm0 vm -> rtc apic_step vm vm' -> vm !! i = Some (Some c) ->
  exists c', vm' !! i = Some (Some c') /\ irr_le c c' /\
    (forall v, vec v -> has (isr (ac_apic c')) v = false) /\ relm_apic_eoi (ac_apic c') = ac_apic c'.
Proof.
  intros B S S' E. pose proof (steps_next _ _ S) as N. pose proof (steps_next _ _ S') as N1.
  unfold vm_next in *. rewrite Forall2_lookup in N, N1. specialize (N i). specialize (N1 i).
  rewrite E in N, N1. inversion N as [x y N' E0|]; subst. inversion N' as [c0 ? N''|]; subst.
  inversion N1 as [x1 y1 M' E1 F1|]; subst. inversion M' as [x2 d M''|]; subst.
  destruct (N'' (boot_ok vm0 i c0 B (eq_sym E0))) as [K _]. destruct (M'' K) as [(A & P & Z) L].
  exists d. split; [done|]. split; [exact L|].
  assert (highest 8 (isr (ac_apic d)) = None) as H by (rewrite Z; reflexivity).
  split; [by apply highest_None; [apply A|]|]. unfold relm_apic_eoi. by rewrite H.
Qed.

(** ** Delivery of inter-processor interrupts *)

Lemma resolve_spec lo hi sender max slots : forall i found, (found + length slots <= max)%nat -> 0 <= i ->
  let ts := relm_apic_ipi_resolve_targets slots i sender lo hi found max in
  NoDup ts /\ forall t, t ∈ ts <-> i <= t /\ exists c, slots !! Z.to_nat (t - i) = Some (Some c) /\ ipi_match sender lo hi t c = true.
Proof.
  induction slots as [|s slots IH]; intros i found L I; simpl.
  - split; [apply NoDup_nil_2|]. intros t. rewrite elem_of_nil. split; [done|]. intros (_ & c & [=] & _).
  - simpl in L. rewrite (proj2 (Nat.leb_gt _ _)) by lia.
    assert (forall t c, i <= t -> (s :: slots) !! Z.to_nat (t - i) = Some (Some c) <->
              (t = i /\ s = Some c) \/ (i + 1 <= t /\ slots !! Z.to_nat (t - (i + 1)) = Some (Some c))) as Lk.
    { intros t c T. destruct (Z.eq_dec t i) as [->|N].
      - rewrite Z.sub_diag. simpl. split; [intros [= ->]; by left|]. intros [[_ ->]|[? _]]; [done|lia].
      - replace (Z.to_nat (t - i)) with (S (Z.to_nat (t - (i + 1)))) by lia. simpl.
        split; [intros E; right; split; [lia|done]|]. intros [[? _]|[_ E]]; [lia|done]. }
    destruct s as [c|]; [destruct (ipi_match sender lo hi i c) eqn:E|].
    + destruct (IH (i + 1) (S found) ltac:(lia) ltac:(lia)) as [ND M]. split.
      * apply NoDup_cons_2; [|exact ND]. rewrite M. lia.
      * intros t. rewrite elem_of_cons, M. split.
        -- intros [->|(T & d & Ed & Md)]; [split; [lia|]; exists c; rewrite Lk by lia; naive_solver|].
           split; [lia|]. exists d. rewrite Lk by lia. auto.
        -- intros (T & d & Ed & Md). apply Lk in Ed as [[-> _]|[T' Ed]]; [by left|right; eauto|done].
    + destruct (IH (i + 1) found ltac:(lia) ltac:(lia)) as [ND M]. split; [exact ND|]. intros t. rewrite M. split.
      * intros (T & d & Ed & Md). split; [lia|]. exists d. rewrite Lk by lia. auto.
      * intros (T & d & Ed & Md). apply Lk in Ed as [[-> [= ->]]|[T' Ed]]; [congruence|eauto|done].
    + destruct (IH (i + 1) found ltac:(lia) ltac:(lia)) as [ND M]. split; [exact ND|]. intros t. rewrite M. split.
      * intros (T & d & Ed & Md). split; [lia|]. exists d. rewrite Lk by lia. auto.
      * intros (T & d & Ed & Md). apply Lk in Ed as [[-> [=]]|[T' Ed]]; [eauto|done].
Qed.

Lemma upd_cpu_lookup (vm : apic_vm) t f j : 0 <= t ->
  upd_cpu vm t f !! j = if decide (Z.of_nat j = t) then fmap f <$> vm !! j else vm !! j.
Proof. intros T. unfold upd_cpu. rewrite list_lookup_alter.
  destruct (decide (Z.of_nat j = t)) as [<-|N]; [by rewrite Nat2Z.id, decide_True by done|by rewrite decide_False by lia].
Qed.

Lemma deliver_lookup mode v l ts j : vec v -> NoDup ts -> (forall t, t ∈ ts -> 0 <= t) -> forall vm : apic_vm,
  fold_left (fun vm t => relm_apic_ipi_deliver vm t mode v l) ts vm !! j =
  if decide (Z.of_nat j ∈ ts) then if mode =? 0 then fmap (fun c => relm_apic_inject_interrupt c v l) <$> vm !! j else vm !! j
  else vm !! j.
Proof.
  intros V. induction ts as [|t ts IH]; intros ND T vm; [by case_decide; [set_solver|]|].
  apply NoDup_cons in ND as [Nt ND]. simpl. rewrite IH by (done || set_solver).
  unfold relm_apic_ipi_deliver. assert (u8 v = v) as Ev by (unfold u8, vec in *; zpow; rewrite Z.mod_small; lia).
  rewrite Ev. change APIC_ICR_DELIVERY_FIXED with 0. specialize (T t ltac:(left)).
  destruct (mode =? 0); [rewrite upd_cpu_lookup by done|]; repeat case_decide; try done; try set_solver; subst; done.
Qed.

(** Whether the command in ICR addresses slot [j]: by shorthand (bits 19:18: self, all,
    all others) or, without one, by the destination in ICR_HIGH, which is an APIC id
    in physical mode (bit 11 clear) and a set of logical ids in logical mode. *)
Definition addressed (sender icr_low icr_high j : Z) (c : acpu) : Prop :=
  let dest := (icr_high / 2 ^ 24) mod 256 in
  match (icr_low / 2 ^ 18) mod 4 with
  | 1 => j = sender
  | 2 => True
  | 3 => j <> sender
  | _ => if Z.testbit icr_low 11
         then exists b, 0 <= b < 8 /\ Z.testbit (reg (ac_apic c) r_ldr) (24 + b) = true /\ Z.testbit dest b = true
         else (reg (ac_apic c) r_apic_id / 2 ^ 24) mod 256 = dest
  end.

Lemma flag_bits a b n : 0 <= n -> 0 <= b < 2 ^ n ->
  flag a b = true <-> exists k, 0 <= k < n /\ Z.testbit a k = true /\ Z.testbit b k = true.
Proof.
  intros N B. unfold flag. rewrite negb_true_iff, Z.eqb_neq. split.
  - intros H. assert (0 < Z.land a b) as P by (pose proof (proj2 (Z.land_nonneg a b) ltac:(lia)); lia).
    exists (Z.log2 (Z.land a b)). pose proof (Z.bit_log2 _ P) as L. rewrite Z.land_spec in L.
    apply andb_true_iff in L as [La Lb]. split; [|done]. split; [apply Z.log2_nonneg|].
    destruct (Z_lt_le_dec (Z.log2 (Z.land a b)) n); [done|]. by rewrite (testbit_small b n) in Lb by lia.
  - intros (k & K & A & Bk) E. assert (Z.testbit (Z.land a b) k = true) as T by (by rewrite Z.land_spec, A, Bk).
    rewrite E, Z.bits_0 in T. done.
Qed.

Lemma byte_bit x k : 0 <= k < 8 -> Z.testbit ((x / 2 ^ 24) mod 256) k = Z.testbit x (24 + k).
Proof.
  intros K. change 256 with (2 ^ 8). rewrite Z.mod_pow2_bits_low, Z.div_pow2_bits by lia. by rewrite Z.add_comm.
Qed.

Lemma match_addressed sender lo hi j c : ipi_match sender lo hi j c = true <-> addressed sender lo hi j c.
Proof.
  unfold ipi_match, addressed, u8. change APIC_ICR_DEST_SHIFT with 24. rewrite !Z.shiftr_div_pow2 by lia.
  change (2 ^ 8) with 256.
  assert (Z.land lo APIC_ICR_SHORTHAND_MASK = (lo / 2 ^ 18) mod 4 * 2 ^ 18) as Sh.
  { change APIC_ICR_SHORTHAND_MASK with (Z.shiftl (Z.ones 2) 18).
    apply Z.bits_inj'. intros n Hn. rewrite <- Z.shiftl_mul_pow2, Z.land_spec by lia. change 4 with (2 ^ 2).
    rewrite <- Z.land_ones, <- Z.shiftr_div_pow2 by lia.
    destruct (Z_lt_le_dec n 18); [rewrite !Z.shiftl_spec_low by lia; apply andb_false_r|].
    rewrite !Z.shiftl_spec, Z.land_spec, Z.shiftr_spec by lia. by replace (n - 18 + 18) with n by lia. }
  rewrite Sh. unfold APIC_ICR_SHORTHAND_SELF, APIC_ICR_SHORTHAND_ALL_INCL, APIC_ICR_SHORTHAND_ALL_EXCL.
  pose proof (Z.mod_pos_bound (lo / 2 ^ 18) 4 ltac:(lia)) as M.
  assert ((lo / 2 ^ 18) mod 4 = 0 \/ (lo / 2 ^ 18) mod 4 = 1 \/ (lo / 2 ^ 18) mod 4 = 2 \/ (lo / 2 ^ 18) mod 4 = 3) as D by lia.
  destruct D as [->|[->|[->| ->]]]; simpl (_ =? _); cbn match.
  - change (Z.shiftl 1 11) with (2 ^ 11). rewrite flag_pow2 by lia. destruct (Z.testbit lo 11); simpl negb; cbn match.
    + rewrite (flag_bits _ _ 8) by (try lia; apply Z.mod_pos_bound; lia). split; intros (k & K & A & Bk); exists k; split; try done.
      * by rewrite byte_bit in A.
      * by rewrite byte_bit.
    + apply Z.eqb_eq.
  - apply Z.eqb_eq.
  - done.
  - rewrite negb_true_iff. apply Z.eqb_neq.
Qed.

(** The sender after it has recorded the command. *)
Definition icr_recorded (v : Z) (c : acpu) : acpu :=
  ACpu (relm_vapic_sync_reg (set_reg (ac_apic c) r_icr_low v) APIC_REG_ICR_LOW
          (Z.land v (u32 (Z.lnot APIC_ICR_SEND_PENDING)))) (ac_halted c).

Lemma icr_recorded_frame v c : let d := icr_recorded v c in
  (forall r, r <> r_icr_low -> reg (ac_apic d) r = reg (ac_apic c) r) /\ irr (ac_apic d) = irr (ac_apic c) /\
  isr (ac_apic d) = isr (ac_apic c) /\ ac_halted d = ac_halted c.
Proof.
  unfold icr_recorded; simpl. rewrite sync_regs, sync_irr, sync_isr. simpl.
  split; [|done]. intros r R. unfold upd_reg. by rewrite decide_False.
Qed.

Lemma icr_write_lookup max (vm : apic_vm) s cs v j c : (length vm <= max)%nat -> vm !! s = Some (Some cs) ->
  vm !! j = Some (Some c) ->
  let c1 := if decide (j = s) then icr_recorded v c else c in
  relm_apic_handle_icr_write max vm (Z.of_nat s) v !! j = Some (Some (
    if ipi_match (Z.of_nat s) v (reg (ac_apic cs) r_icr_high) (Z.of_nat j) c && (Z.land v APIC_ICR_DELIVERY_MASK =? 0)
    then relm_apic_inject_interrupt c1 (Z.land v APIC_ICR_VECTOR_MASK) (flag v APIC_ICR_TRIGGER_LEVEL) else c1)).
Proof.
  intros L Es Ej c1. unfold relm_apic_handle_icr_write. fold (icr_recorded v). set (vm1 := upd_cpu vm _ _).
  assert (forall k, vm1 !! k = if decide (k = s) then fmap (icr_recorded v) <$> vm !! k else vm !! k) as Lk.
  { intros k. unfold vm1. rewrite upd_cpu_lookup by lia. repeat case_decide; try done; lia. }
  rewrite (Nat2Z.id s), Lk, decide_True, Es by done. simpl. rewrite (proj1 (icr_recorded_frame v cs)) by done.
  set (hi := reg (ac_apic cs) r_icr_high).
  assert (length vm1 = length vm) as Ln by (unfold vm1, upd_cpu; apply length_alter).
  destruct (resolve_spec v hi (Z.of_nat s) max vm1 0 0 ltac:(lia) ltac:(lia)) as [ND M].
  rewrite deliver_lookup; [|apply icr_vector|exact ND|intros t T; apply M in T; lia].
  assert (vm1 !! j = Some (Some c1)) as E1 by (rewrite Lk, Ej; unfold c1; by case_decide).
  assert (ipi_match (Z.of_nat s) v hi (Z.of_nat j) c1 = ipi_match (Z.of_nat s) v hi (Z.of_nat j) c) as Em.
  { unfold c1, ipi_match. case_decide; [|done]. by rewrite !(proj1 (icr_recorded_frame v c)). }
  rewrite <- Em, E1. destruct (decide (Z.of_nat j ∈ _)) as [T|T].
  - apply M in T as (_ & d & Ed & Md). rewrite Z.sub_0_r, Nat2Z.id, E1 in Ed. injection Ed as <-. rewrite Md. simpl.
    by case_match.
  - destruct (ipi_match (Z.of_nat s) v hi (Z.of_nat j) c1) eqn:Ma; [|done]. exfalso. apply T, M. split; [lia|].
    exists c1. by rewrite Z.sub_0_r, Nat2Z.id, E1.
Qed.

(** C29. A write to ICR delivers a fixed interrupt to exactly the vCPUs the command
    addresses: those get the vector in their request set and leave the halted state;
    for every other vCPU, and for every other delivery mode, the requests and the
    halted state stay; nobody's in-service set changes, and no vCPU disappears. *)
Theorem icr_write_correct (max : nat) (vm : apic_vm) (s : nat) (cs : acpu) (v : Z) (j : nat) (c : acpu) :
  (length vm <= max)%nat -> vm !! s = Some (Some cs) -> vm !! j = Some (Some c) -> bm_ok (irr (ac_apic c)) ->
  let hit := Z.land v APIC_ICR_DELIVERY_MASK = APIC_ICR_DELIVERY_FIXED /\
             addressed (Z.of_nat s) v (reg (ac_apic cs) r_icr_high) (Z.of_nat j) c in
  exists c', relm_apic_handle_icr_write max vm (Z.of_nat s) v !! j = Some (Some c') /\
    (forall u, vec u -> has (irr (ac_apic c')) u = true <-> has (irr (ac_apic c)) u = true \/ (hit /\ u = v mod 256)) /\
    (ac_halted c' = true <-> ac_halted c = true /\ ~ hit) /\
    isr (ac_apic c') = isr (ac_apic c).
Proof.
  intros L Es Ej B hit. eexists. split; [by apply icr_write_lookup|].
  set (c1 := if decide (j = s) then icr_recorded v c else c).
  assert (irr (ac_apic c1) = irr (ac_apic c) /\ isr (ac_apic c1) = isr (ac_apic c) /\ ac_halted c1 = ac_halted c)
    as (Ei & Es1 & Eh) by (unfold c1; case_decide; [apply icr_recorded_frame|done]).
  assert (Z.land v APIC_ICR_VECTOR_MASK = v mod 256) as Ev by exact (land_ones_mod v 8 ltac:(lia)).
  pose proof (icr_vector v) as V. rewrite Ev in V |- *.
  destruct (ipi_match _ v _ _ c && _) eqn:H.
  - assert (hit) as Hit by (apply andb_true_iff in H as [H1 H2]; apply match_addressed in H1; apply Z.eqb_eq in H2; done).
    destruct (inject_frame (ac_apic c1) (v mod 256) (flag v APIC_ICR_TRIGGER_LEVEL)) as (_ & Fs & _ & Fi & _).
    simpl. rewrite Fs, Fi, Ei, Es1. split; [|split; [|done]].
    + intros u U. rewrite has_set_bit, orb_true_iff, Z.eqb_eq by done. tauto.
    + split; [done|tauto].
  - assert (~ hit) as Hit.
    { intros [H2 H1]. apply match_addressed in H1. rewrite H1, H2 in H. done. }
    rewrite Ei, Es1, Eh. split; [|split; [|done]]; [intros u U|]; tauto.
Qed.

(** ** Timer *)

Lemma timer_divisor_range d : 1 <= timer_divisor d <= 128.
Proof. unfold timer_divisor. repeat case_match; lia. Qed.

(** The current count of the timer, [e] nanoseconds after it was armed: one tick
    takes ten nanoseconds times the divisor; a one-shot timer counts down from the
    initial count to 0 and stays there, a periodic timer runs through the values from
    the initial count down to 1 with the period of the initial count; the count never
    exceeds the initial count. *)
Theorem timer_ccr_correct (a : virt_apic) (now e : Z) :
  0 < reg a r_timer_icr < 2 ^ 32 -> 0 < timer_start_ns a -> now = timer_start_ns a + e -> 0 <= e < 2 ^ 64 ->
  let icr := reg a r_timer_icr in
  let ticks := e / (10 * timer_divisor (reg a r_timer_dcr)) in
  (timer_mode a = APIC_TIMER_MODE_PERIODIC ->
     1 <= relm_apic_get_timer_ccr now a <= icr /\ exists k, 0 <= k /\ ticks = k * icr + (icr - relm_apic_get_timer_ccr now a)) /\
  (timer_mode a <> APIC_TIMER_MODE_PERIODIC -> relm_apic_get_timer_ccr now a = Z.max 0 (icr - ticks)).
Proof.
  intros I S -> E. pose proof (timer_divisor_range (reg a r_timer_dcr)) as D.
  unfold relm_apic_get_timer_ccr. rewrite (proj2 (Z.eqb_neq _ _)), (proj2 (Z.eqb_neq (timer_start_ns a) 0)) by lia. simpl orb.
  cbn match. replace (timer_start_ns a + e - timer_start_ns a) with e by lia. rewrite u64_small by lia.
  set (icr := reg a r_timer_icr) in *. set (dv := 10 * timer_divisor (reg a r_timer_dcr)) in *.
  assert (0 <= e / dv) as T by (apply Z.div_pos; lia).
  pose proof (Z.mod_pos_bound (e / dv) icr ltac:(lia)) as Mb. pose proof (Z.div_mod (e / dv) icr ltac:(lia)) as Dm.
  cbn zeta. split; intros Md.
  - rewrite Md, Z.eqb_refl. unfold u32. rewrite (Z.mod_small ((e / dv) mod icr)), Z.mod_small by lia. split; [lia|].
    exists (e / dv / icr). split; [apply Z.div_pos; lia|]. lia.
  - rewrite (proj2 (Z.eqb_neq _ _) Md). destruct (Z.leb_spec icr (e / dv)); [lia|]. unfold u32. rewrite Z.mod_small; lia.
Qed.

(** ** Concrete instances *)
Module ApicDemo.
(** An APIC whose pages have just been allocated. *)
Definition blank : virt_apic :=
  VirtApic (Some 0x5000) ∅ 0x5000 (Some 0x6000) 0x6000 (fun _ => 0) zero8 zero8 zero8 0 0 0 false false.
Definition boot1 : apic_vm := [Some (ACpu (relm_apic_init blank 0) true)].
(** Software enable, task priority 0x20, then an interrupt to itself. *)
Definition vm1 : apic_vm := (relm_apic_write 1000 boot1 0 APIC_REG_SVR 0x1FF).2.
Definition vm2 : apic_vm := (relm_apic_write 1000 vm1 0 APIC_REG_TPR 0x20).2.
Definition vm3 : apic_vm := (relm_apic_write 1000 vm2 0 APIC_REG_ICR_LOW 0x40041).2.

Lemma boot1_boot : apic_boot boot1.
Proof.
  intros [|i] c E; [|discriminate E]. injection E as <-. exists blank, 0.
  split; [reflexivity|]. split; [reflexivity|]. split; [discriminate|]. simpl. lia.
Qed.
Lemma steps2 : rtc apic_step boot1 vm2.
Proof.
  eapply rtc_l; [apply (step_write 1000 boot1 0 APIC_REG_SVR 0x1FF); lia|].
  apply rtc_once. apply (step_write 1000 vm1 0 APIC_REG_TPR 0x20). lia.
Qed.
Lemma steps3 : rtc apic_step vm2 vm3.
Proof. apply rtc_once. apply (step_write 1000 vm2 0 APIC_REG_ICR_LOW 0x40041). lia. Qed.

Lemma steps13 : rtc apic_step boot1 vm3.
Proof. exact (transitivity steps2 steps3). Qed.

Lemma page_coherent_witness : exists c b, vm3 !! 0%nat = Some (Some c) /\
  relm_apic_read 0 (ac_apic c) (APIC_REG_IRR 2) = (0, 2, b) /\ relm_vapic_read_reg (ac_apic c) (APIC_REG_IRR 2) = 2.
Proof.
  destruct (vm3 !! 0%nat) as [[c|]|] eqn:E; [|vm_compute in E; discriminate E..].
  destruct (page_coherent boot1 vm3 0 c boot1_boot steps13 E) as (_ & _ & R).
  assert (relm_apic_read 0 (ac_apic c) (APIC_REG_IRR 2) = (0, 2, ac_apic c)) as Rd.
  { vm_compute in E. injection E as <-. reflexivity. }
  exists c, (ac_apic c). split; [reflexivity|]. split; [exact Rd|].
  apply (R 0 (APIC_REG_IRR 2) 2 (ac_apic c) Rd); vm_compute; (reflexivity || discriminate).
Defined.

Lemma requests_never_serviced_witness : exists c c', vm3 !! 0%nat = Some (Some c) /\
  vm3 !! 0%nat = Some (Some c') /\ has (irr (ac_apic c')) 0x41 = true /\ has (isr (ac_apic c')) 0x41 = false.
Proof.
  destruct (vm3 !! 0%nat) as [[c|]|] eqn:E; [|vm_compute in E; discriminate E..].
  destruct (requests_never_serviced boot1 vm3 vm3 0 c boot1_boot steps13 (rtc_refl _ _) E)
    as (c' & E' & L & S & _).
  exists c, c'. split; [reflexivity|]. rewrite E in E'. split; [exact E'|].
  split; [|apply S; unfold vec; lia]. apply L; [unfold vec; lia|]. vm_compute in E. injection E as <-. reflexivity.
Defined.

Lemma icr_write_correct_witness : exists c c', vm2 !! 0%nat = Some (Some c) /\
  relm_apic_handle_icr_write RELM_MAX_VCPUS vm2 0 0x40041 !! 0%nat = Some (Some c') /\
  has (irr (ac_apic c')) 0x41 = true /\ ac_halted c' = false.
Proof.
  destruct (vm2 !! 0%nat) as [[c|]|] eqn:E; [|vm_compute in E; discriminate E..].
  assert (bm_ok (irr (ac_apic c))) as B.
  { vm_compute in E. injection E as <-. exact zero8_ok. }
  destruct (icr_write_correct RELM_MAX_VCPUS vm2 0 c 0x40041 0 c ltac:(vm_compute; lia) E E B) as (c' & E' & I & H & _).
  exists c, c'. split; [reflexivity|]. split; [exact E'|]. split.
  - apply I; [unfold vec; lia|]. right. split; [|reflexivity]. split; reflexivity.
  - apply not_true_is_false. intros K. apply H in K as [_ K]. apply K. split; reflexivity.
Defined.

(** Vectors 0x31 and 0x52 in service, the second level triggered. *)
Definition servicing : virt_apic :=
  set_maps (relm_apic_init blank 0) zero8 (set_bit (set_bit zero8 0x31) 0x52) (set_bit zero8 0x52).


Definition armed : virt_apic := set_timer (set_reg (set_reg blank r_timer_icr 100) r_timer_dcr 0x0B) 0 5000.
Lemma timer_ccr_correct_witness : relm_apic_get_timer_ccr 5250 armed = 75.
Proof.
  rewrite (proj2 (timer_ccr_correct armed 5250 250 ltac:(vm_compute; split; reflexivity) ltac:(vm_compute; reflexivity)
    eq_refl ltac:(lia)) ltac:(vm_compute; discriminate)). reflexivity.
Defined.
End ApicDemo.
