(* ===== verification/Emul.v ===== *)
(** * Emulation of trapped memory accesses

    The two places where the hypervisor executes a guest instruction itself:
    relm_virtio_mmio_handle_ept_violation of src/virtio/mmio.c and
    relm_apic_handle_access of src/arch/x86/vmx/apic.c.  Both fetch the bytes at the
    guest's instruction pointer through the guest's page tables (Mmu), decode them
    (Decoder), perform the access on the device model (Virtio, Apic), write the
    register back and step over the instruction.

    [world] is what they touch: the vCPU with its VMCS, the virtual APICs of the VM,
    the virtio devices.  The machine around them is the section context: guest
    memory, which virtio handlers there are, which VMCS fields can be written, the
    clock and the content of uninitialised stack buffers. *)
From S2P Require Import Prelude HostMem VmMem GuestMem Mmu Vcpu Virtio FwCfg Decoder Apic.

(** ** VMCS fields *)
Definition VM_EXIT_REASON : Z := 0x4402.
Definition VM_EXIT_INTR_INFO : Z := 0x4404.
Definition VM_EXIT_INSTRUCTION_LEN : Z := 0x440c.
Definition VM_EXIT_QUALIFICATION : Z := 0x6400.
Definition GUEST_PHYSICAL_ADDRESS : Z := 0x2400.
Definition GUEST_CR0 : Z := 0x6800.
Definition GUEST_CR3 : Z := 0x6802.
Definition GUEST_CR4 : Z := 0x6804.
Definition GUEST_CS_BASE : Z := 0x6808.
Definition GUEST_RSP : Z := 0x681c.
Definition GUEST_RIP : Z := 0x681e.
Definition GUEST_CS_AR_BYTES : Z := 0x4816.
Definition GUEST_IA32_EFER : Z := 0x2806.
Definition CR0_READ_SHADOW : Z := 0x6004.
Definition CR4_READ_SHADOW : Z := 0x6006.
Definition VMCS_ENTRY_CONTROLS : Z := 0x4012.

Definition APIC_ACCESS_OFFSET_MASK : Z := 0x00000FFF.
Definition APIC_ACCESS_TYPE_MASK : Z := 0x0000F000.
Definition APIC_ACCESS_TYPE_SHIFT : Z := 12.
Definition APIC_ACCESS_TYPE_LINEAR_READ : Z := 0.
Definition APIC_ACCESS_TYPE_LINEAR_WRITE : Z := 1.
Definition APIC_ACCESS_TYPE_LINEAR_FETCH : Z := 2.
Definition APIC_ACCESS_TYPE_EVENT_DELIVERY : Z := 3.

(** The vCPU as the exit handlers see it: [vcpu->arch.regs], the current VMCS, and
    the other fields they read or write.  [vcpu->halted] is in the [acpu] of its
    slot, where the APIC clears it. *)
Record xcpu := XCpu {
  x_gprs : gprs; x_rip : Z; x_vmcs : gmap Z Z; x_state : vcpu_state; x_launched : bool; x_exits : Z;
  x_efer : Z; x_cr0 : Z; x_cr4 : Z; x_xcr0 : Z
}.

Record world := World { w_cpu : xcpu; w_apics : apic_vm; w_virtio : vstate; w_fw : fw_cfg_device }.

Definition set_gprs (c : xcpu) (g : gprs) : xcpu :=
  XCpu g (x_rip c) (x_vmcs c) (x_state c) (x_launched c) (x_exits c) (x_efer c) (x_cr0 c) (x_cr4 c) (x_xcr0 c).
Definition set_rip (c : xcpu) (r : Z) : xcpu :=
  XCpu (x_gprs c) r (x_vmcs c) (x_state c) (x_launched c) (x_exits c) (x_efer c) (x_cr0 c) (x_cr4 c) (x_xcr0 c).
Definition set_vmcs (c : xcpu) (v : gmap Z Z) : xcpu :=
  XCpu (x_gprs c) (x_rip c) v (x_state c) (x_launched c) (x_exits c) (x_efer c) (x_cr0 c) (x_cr4 c) (x_xcr0 c).
Definition set_xstate (c : xcpu) (s : vcpu_state) : xcpu :=
  XCpu (x_gprs c) (x_rip c) (x_vmcs c) s (x_launched c) (x_exits c) (x_efer c) (x_cr0 c) (x_cr4 c) (x_xcr0 c).

Definition on_cpu (f : xcpu -> xcpu) (w : world) : world := World (f (w_cpu w)) (w_apics w) (w_virtio w) (w_fw w).

Definition __vmread (c : xcpu) (f : Z) : Z := default 0 (x_vmcs c !! f).

(** The guest state the page walkers read from the VMCS. *)
Definition mmu_regs (c : xcpu) : guest_regs :=
  GuestRegs (__vmread c GUEST_CR0) (__vmread c GUEST_CR3) (__vmread c GUEST_CR4) (__vmread c GUEST_IA32_EFER)
    (__vmread c GUEST_CS_BASE) (__vmread c GUEST_CS_AR_BYTES).

(** Continue with the result of a memory access, if it returned. *)
Definition and_then {A B} (a : access A) (k : Z -> A -> access B) : access B :=
  match a with Done r x => k r x | Oops => Oops | OutOfFuel => OutOfFuel end.

Section Emulation.
Context {Zy : Zydis} (kmap : Z -> bool) (h : host).
Context (optab : Z -> relm_virtio_device_ops).
Context (wr : Z -> bool) (now : Z) (vmptr self : Z) (stk : list Z).

(** [_vmwrite]: whether it succeeded. *)
Definition _vmwrite (c : xcpu) (f v : Z) : bool * xcpu :=
  if wr f then (true, set_vmcs c (<[f := v]> (x_vmcs c))) else (false, c).
(** A [_vmwrite] whose result is ignored. *)
Definition vmwrite_ (c : xcpu) (f v : Z) : xcpu := (_vmwrite c f v).2.

Definition vm_mem (w : world) : relm_vm_memory := default vm_memory0 (vs_vms (w_virtio w) !! vmptr).

Definition fetch (w : world) (gva : Z) (buf : list Z) (size : Z) : access (list Z) :=
  vmx_mmu_copy_from_guest_virt kmap h (vm_mem w) (mmu_regs (w_cpu w)) gva (Some buf) size.

(** ** virtio-MMIO *)

(** The two-part fetch into [insn_buf\[16\]]: number of bytes, or an error, and the
    buffer. *)
Definition fetch_insn (w : world) (guest_linear : Z) : access (list Z) :=
  let first := Z.min 16 (PAGE_SIZE - page_off guest_linear) in
  let head := take (Z.to_nat first) stk in
  let tail := drop (Z.to_nat first) stk in
  and_then (fetch w guest_linear head first) (fun n b1 =>
    if (0 <? n) && (first <? 16)
    then and_then (fetch w (u64 (guest_linear + first)) tail (16 - first)) (fun n2 b2 =>
           Done (if 0 <? n2 then n + n2 else n) (b1 ++ b2))
    else Done n (b1 ++ tail)).

(** The value of a store: the immediate or the register lane. *)
Definition store_value (d : relm_decoded_insn) (regs : gprs) : option Z :=
  match operand_kind d with
  | RELM_OPERAND_IMMEDIATE => Some (u32 (Z.land (immediate d) (relm_width_mask (memory_width d))))
  | RELM_OPERAND_GPR => Some (u32 (relm_decoded_gpr_extract d (guest_reg_read regs (gpr_index d))))
  | RELM_OPERAND_INVALID => None
  end.

(** The write-back of a load. *)
Definition commit_gpr (d : relm_decoded_insn) (regs : gprs) (value : Z) : gprs :=
  guest_reg_write regs (gpr_index d) (relm_decoded_gpr_commit d (guest_reg_read regs (gpr_index d)) value).

Definition inject_irq (w : world) (irq : Z) : world :=
  World (w_cpu w) (upd_cpu (w_apics w) self (fun c => (vmx_inject_irq c irq).2)) (w_virtio w) (w_fw w).

(** Step over the instruction, in both copies of RIP; whether the VMWRITE succeeded. *)
Definition step_over (w : world) (guest_rip len : Z) : bool * world :=
  let c := set_rip (w_cpu w) (u64 (guest_rip + len)) in
  let '(ok, c) := _vmwrite c GUEST_RIP (x_rip c) in
  (ok, on_cpu (fun _ => c) w).

(** The device access of the decoded instruction; [None] is [return false]. *)
Definition mmio_access (w : world) (dev offset : Z) (d : relm_decoded_insn) : option world :=
  let access is_write value :=
    let '(s, v, irq) := relm_virtio_mmio_register_access optab (w_virtio w) dev offset is_write value false in
    (World (w_cpu w) (w_apics w) s (w_fw w), v, irq) in
  let irq_line := d_irq (the_dev (w_virtio w) dev) in
  match memory_access d with
  | RELM_MEMORY_ACCESS_WRITE =>
      match store_value d (x_gprs (w_cpu w)) with
      | None => None
      | Some value =>
          let '(w, _, irq) := access true value in
          Some (if irq then inject_irq w irq_line else w)
      end
  | RELM_MEMORY_ACCESS_READ =>
      if negb (bool_decide (operand_kind d = RELM_OPERAND_GPR)) then None
      else
        let '(w, v, irq) := access false 0 in
        let w := on_cpu (fun c => set_gprs c (commit_gpr d (x_gprs c) v)) w in
        Some (if irq then inject_irq w irq_line else w)
  | RELM_MEMORY_ACCESS_INVALID => None
  end.

(** Result 1 is [true], 0 is [false].  A failing VMWRITE of RIP returns -EIO from a
    [bool] function, which is [true]. *)
Definition relm_virtio_mmio_handle_ept_violation (w : world) (fault_gpa : Z) : access world :=
  match relm_virtio_find_device_for_gpa (w_virtio w) vmptr fault_gpa with
  | None => Done 0 w
  | Some dev =>
      let offset := u32 (fault_gpa - mmio_base_gpa (the_dev (w_virtio w) dev)) in
      let guest_rip := x_rip (w_cpu w) in
      let guest_linear := vmx_mmu_rip_to_linear (mmu_regs (w_cpu w)) guest_rip in
      and_then (fetch_insn w guest_linear) (fun n insn_buf =>
        if n <? 0 then Done 0 w
        else
          let '(ret, d) := relm_decode_instruction (Some insn_buf) n decoded0 in
          if ret <? 0 then Done 0 w
          else if negb (memory_width d =? 4) || flag offset 3 then Done 0 w
          else if bool_decide (operand_kind d = RELM_OPERAND_GPR) && negb (relm_decoded_has_valid_gpr d) then Done 0 w
          else
            match mmio_access w dev offset d with
            | None => Done 0 w
            | Some w => let '(_, w) := step_over w guest_rip (d_length d) in Done 1 w
            end)
  end.

(** ** APIC accesses *)

Definition self_apic (w : world) : option acpu :=
  match w_apics w !! Z.to_nat self with Some c => c | None => None end.

(** Read register [offset] of the vCPU's own APIC. *)
Definition apic_read_self (w : world) (offset : Z) : Z * Z * world :=
  match self_apic w with
  | None => (- EINVAL, 0, w)
  | Some c =>
      let '(ret, v, a) := relm_apic_read now (ac_apic c) offset in
      (ret, v, World (w_cpu w) (upd_cpu (w_apics w) self (fun c => ACpu a (ac_halted c))) (w_virtio w) (w_fw w))
  end.

Definition is_write_type (t : Z) : bool :=
  (t =? APIC_ACCESS_TYPE_LINEAR_WRITE) || (t =? APIC_ACCESS_TYPE_EVENT_DELIVERY).

(** The access itself; [inl] is an early error return. *)
Definition apic_access (w : world) (access_type offset : Z) (d : relm_decoded_insn) : Z + world :=
  if is_write_type access_type then
    match store_value d (x_gprs (w_cpu w)) with
    | None => inl (- EINVAL)
    | Some value =>
        let '(_, vm) := relm_apic_write now (w_apics w) self offset value in
        inr (World (w_cpu w) vm (w_virtio w) (w_fw w))
    end
  else if negb (bool_decide (operand_kind d = RELM_OPERAND_GPR)) then inl (- EINVAL)
  else
    let '(ret, value, w) := apic_read_self w offset in
    if access_type =? APIC_ACCESS_TYPE_LINEAR_READ then
      let value := if ret <? 0 then 0 else value in
      inr (on_cpu (fun c => set_gprs c (commit_gpr d (x_gprs c) value)) w)
    else if ret =? 0 then inr (on_cpu (fun c => set_gprs c (commit_gpr d (x_gprs c) value)) w)
    else inr w.

Definition relm_apic_handle_access (w : world) : access world :=
  let c := w_cpu w in
  let qual := __vmread c VM_EXIT_QUALIFICATION in
  let offset := Z.land qual APIC_ACCESS_OFFSET_MASK in
  let access_type := Z.shiftr (Z.land qual APIC_ACCESS_TYPE_MASK) APIC_ACCESS_TYPE_SHIFT in
  let guest_rip := __vmread c GUEST_RIP in
  let instr_len := __vmread c VM_EXIT_INSTRUCTION_LEN in
  if access_type =? APIC_ACCESS_TYPE_LINEAR_FETCH
  then Done 0 (on_cpu (fun c => set_xstate c VCPU_STATE_STOPPED) w)
  else if (instr_len =? 0) || (15 <? instr_len) then Done (- EINVAL) w
  else
    let guest_linear := vmx_mmu_rip_to_linear (mmu_regs c) guest_rip in
    and_then (fetch w guest_linear (take (Z.to_nat instr_len) stk) instr_len) (fun ret buf =>
      if ret <? 0 then Done ret w
      else if negb (ret =? instr_len) then Done (- EFAULT) w
      else
        let '(decoded_len, d) := relm_decode_instruction (Some buf) instr_len decoded0 in
        if decoded_len <? 0 then Done decoded_len w
        else if negb (d_length d =? instr_len) || negb (decoded_len =? instr_len) then Done (- EINVAL) w
        else if negb (memory_width d =? 4) || flag offset 3 then Done (- EOPNOTSUPP) w
        else if (is_write_type access_type && negb (bool_decide (memory_access d = RELM_MEMORY_ACCESS_WRITE))) ||
                (negb (is_write_type access_type) && negb (bool_decide (memory_access d = RELM_MEMORY_ACCESS_READ)))
        then Done (- EINVAL) w
        else if bool_decide (operand_kind d = RELM_OPERAND_GPR) && negb (relm_decoded_has_valid_gpr d)
        then Done (- EINVAL) w
        else
          match apic_access w access_type offset d with
          | inl e => Done e w
          | inr w => let '(_, w) := step_over w guest_rip (d_length d) in Done 1 w
          end).
End Emulation.
