(* ===== verification/VmExit.v ===== *)
(** * VM exits on VMX

    src/arch/x86/vmx/vmexit.c, with the control-register handlers of
    src/arch/x86/vmx/vmx.c: [handle_vmexit] imports the registers the exit stub
    pushed, runs the handler of the exit reason and copies the registers back; its
    result tells the stub (vmx_asm.S) to resume the guest (any value but 0) or to
    return to the vCPU thread (0).

    The CPUID instruction and the capability MSRs are parameters. *)
From S2P Require Import Prelude HostMem VmMem GuestMem Mmu Vcpu Virtio FwCfg Decoder Apic Emul.

Definition EXIT_REASON_EXCEPTION_NMI : Z := 0x00.
Definition EXIT_REASON_EXTERNAL_INTERRUPT : Z := 0x01.
Definition EXIT_REASON_TRIPLE_FAULT : Z := 0x02.
Definition EXIT_REASON_INIT_SIGNAL : Z := 0x03.
Definition EXIT_REASON_CPUID : Z := 0x0A.
Definition EXIT_REASON_HLT : Z := 0x0C.
Definition EXIT_REASON_VMCALL : Z := 0x12.
Definition EXIT_REASON_CR_ACCESS : Z := 0x1C.
Definition EXIT_REASON_IO_INSTRUCTION : Z := 0x1E.
Definition EXIT_REASON_MSR_READ : Z := 0x1F.
Definition EXIT_REASON_MSR_WRITE : Z := 0x20.
Definition EXIT_REASON_INVALID_GUEST_STATE : Z := 0x21.
Definition EXIT_REASON_APIC_ACCESS : Z := 0x2C.
Definition EXIT_REASON_EPT_VIOLATION : Z := 0x30.
Definition EXIT_REASON_EPT_MISCONFIG : Z := 0x31.
Definition EXIT_REASON_VMX_PREEMPTION_TIMER_EXPIRED : Z := 0x34.
Definition EXIT_REASON_XSETBV : Z := 0x37.

Definition CR_ACCESS_CR_NUMBER_MASK : Z := 0x0F.
Definition CR_ACCESS_CR_NUMBER_CR0 : Z := 0.
Definition CR_ACCESS_CR_NUMBER_CR3 : Z := 3.
Definition CR_ACCESS_CR_NUMBER_CR4 : Z := 4.
Definition CR_ACCESS_TYPE_MASK : Z := 0x30.
Definition CR_ACCESS_TYPE_WRITE : Z := 0.
Definition CR_ACCESS_SOURCE_REG_MASK : Z := 0xF00.
Definition CR_ACCESS_SOURCE_REG_SHIFT : Z := 8.
Definition X86_CR4_VMXE : Z := Z.shiftl 1 13.
Definition VM_ENTRY_IA32E_MODE : Z := Z.shiftl 1 9.
Definition MSR_IA32_EFER : Z := 0xC0000080.
Definition MSR_IA32_APIC_BASE : Z := 0x1B.
Definition MSR_IA32_VMX_CR0_FIXED0 : Z := 0x486.
Definition MSR_IA32_VMX_CR0_FIXED1 : Z := 0x487.
Definition MSR_IA32_VMX_CR4_FIXED0 : Z := 0x488.
Definition MSR_IA32_VMX_CR4_FIXED1 : Z := 0x489.
Definition RELM_GUEST_IDT_STUBS_GPA : Z := 0x6000.
Definition RELM_GUEST_IDT_STUBS_STRIDE : Z := 16.
Definition RELM_GUEST_IDT_STUBS_SIZE : Z := 256 * RELM_GUEST_IDT_STUBS_STRIDE.
Definition RELM_KVM_CPUID_SIGNATURE : Z := 0x40000000.
Definition RELM_KVM_CPUID_FEATURES : Z := 0x40000001.

(** Register numbers. *)
Definition RAX : nat := 0.
Definition RCX : nat := 1.
Definition RDX : nat := 2.
Definition RBX : nat := 3.
Definition RSP : nat := 4.

Definition gpr (c : xcpu) (r : nat) : Z := default 0 (x_gprs c !! r).
Definition set_gpr (c : xcpu) (r : nat) (v : Z) : xcpu := set_gprs c (<[r := v]> (x_gprs c)).

Section Handlers.
Context {Zy : Zydis} (kmap : Z -> bool) (h : host).
Context (optab : Z -> relm_virtio_device_ops).
Context (wr : Z -> bool) (now : Z) (vmptr self : Z) (stk : list Z).
Context (cpuid : Z -> Z -> Z * Z * Z * Z) (rdmsr : Z -> Z).

Definition stop (s : vcpu_state) (w : world) : world := on_cpu (fun c => set_xstate c s) w.

(** [instr_len = __vmread(VM_EXIT_INSTRUCTION_LEN); _vmwrite(GUEST_RIP, guest_rip + instr_len);] *)
Definition skip (guest_rip : Z) (c : xcpu) : xcpu :=
  vmwrite_ wr c GUEST_RIP (u64 (guest_rip + __vmread c VM_EXIT_INSTRUCTION_LEN)).

(** ** CPUID *)

Definition relm_handle_kvm_cpuid_leaf (leaf : Z) (r : Z * Z * Z * Z) : Z * Z * Z * Z :=
  if leaf =? RELM_KVM_CPUID_SIGNATURE then (RELM_KVM_CPUID_FEATURES, 0x4b4d564b, 0x564b4d56, 0x0000004d)
  else if leaf =? RELM_KVM_CPUID_FEATURES then (0, 0, 0, 0)
  else r.

Definition emulate_cpuid (c : xcpu) : xcpu :=
  let leaf := u32 (gpr c RAX) in
  let subleaf := u32 (gpr c RCX) in
  let '(eax, ebx, ecx, edx) := relm_handle_kvm_cpuid_leaf leaf (cpuid leaf subleaf) in
  set_gpr (set_gpr (set_gpr (set_gpr c RAX eax) RBX ebx) RCX ecx) RDX edx.

Definition handle_cpuid (w : world) (guest_rip : Z) : Z * world :=
  (1, on_cpu (fun c => skip guest_rip (emulate_cpuid c)) w).

(** ** Control registers *)

Definition source_reg (exit_qual : Z) : Z :=
  Z.shiftr (Z.land exit_qual CR_ACCESS_SOURCE_REG_MASK) CR_ACCESS_SOURCE_REG_SHIFT.

Definition skip_here (c : xcpu) : xcpu := skip (__vmread c GUEST_RIP) c.

(** Both copies of the register get the value; the read shadow gets [shadow] of it.
    A failing write of the shadow returns -EIO without stepping over the instruction. *)
Definition cr_write (field shadow_field fixed0 fixed1 : Z) (shadow : Z -> Z) (keep : xcpu -> Z -> xcpu)
    (c : xcpu) (src : Z) : Z * xcpu :=
  if 15 <? src then (1, skip_here c)
  else
    let v := Z.land (Z.lor (guest_reg_read (x_gprs c) src) (rdmsr fixed0)) (rdmsr fixed1) in
    let c := vmwrite_ wr (keep c v) field v in
    match _vmwrite wr c shadow_field (shadow v) with
    | (false, c) => (- EIO, c)
    | (true, c) => (1, skip_here c)
    end.

Definition set_cr0 (c : xcpu) (v : Z) : xcpu :=
  XCpu (x_gprs c) (x_rip c) (x_vmcs c) (x_state c) (x_launched c) (x_exits c) (x_efer c) v (x_cr4 c) (x_xcr0 c).
Definition set_cr4 (c : xcpu) (v : Z) : xcpu :=
  XCpu (x_gprs c) (x_rip c) (x_vmcs c) (x_state c) (x_launched c) (x_exits c) (x_efer c) (x_cr0 c) v (x_xcr0 c).
Definition set_efer (c : xcpu) (v : Z) : xcpu :=
  XCpu (x_gprs c) (x_rip c) (x_vmcs c) (x_state c) (x_launched c) (x_exits c) v (x_cr0 c) (x_cr4 c) (x_xcr0 c).
Definition set_xcr0 (c : xcpu) (v : Z) : xcpu :=
  XCpu (x_gprs c) (x_rip c) (x_vmcs c) (x_state c) (x_launched c) (x_exits c) (x_efer c) (x_cr0 c) (x_cr4 c) v.
Definition count_exit (c : xcpu) : xcpu :=
  XCpu (x_gprs c) (x_rip c) (x_vmcs c) (x_state c) true (u64 (x_exits c + 1)) (x_efer c) (x_cr0 c) (x_cr4 c) (x_xcr0 c).

Definition relm_cr0_write_handle_exit (c : xcpu) (exit_qual : Z) : Z * xcpu :=
  cr_write GUEST_CR0 CR0_READ_SHADOW MSR_IA32_VMX_CR0_FIXED0 MSR_IA32_VMX_CR0_FIXED1 (fun v => v) set_cr0
    c (source_reg exit_qual).
Definition relm_cr4_write_handle_exit (c : xcpu) (exit_qual : Z) : Z * xcpu :=
  cr_write GUEST_CR4 CR4_READ_SHADOW MSR_IA32_VMX_CR4_FIXED0 MSR_IA32_VMX_CR4_FIXED1
    (fun v => Z.land v (u64 (Z.lnot X86_CR4_VMXE))) set_cr4 c (source_reg exit_qual).

Definition relm_cr3_passthrough_handle_exit (c : xcpu) (exit_qual acc_type : Z) : Z * xcpu :=
  let reg := source_reg exit_qual in
  let c :=
    if 15 <? reg then c
    else if acc_type =? CR_ACCESS_TYPE_WRITE then
      vmwrite_ wr c GUEST_CR3 (Z.land (guest_reg_read (x_gprs c) reg) (u64 (Z.lnot (Z.shiftl 1 63))))
    else set_gprs c (guest_reg_write (x_gprs c) reg (__vmread c GUEST_CR3)) in
  (1, skip_here c).

Definition handle_cr_access (w : world) (exit_qualification : Z) : Z * world :=
  let cr_num := Z.land exit_qualification CR_ACCESS_CR_NUMBER_MASK in
  let acc_type := Z.land exit_qualification CR_ACCESS_TYPE_MASK in
  let on f := let '(r, c) := f (w_cpu w) in (r, on_cpu (fun _ => c) w) in
  if (cr_num =? CR_ACCESS_CR_NUMBER_CR0) && (acc_type =? CR_ACCESS_TYPE_WRITE)
  then on (fun c => relm_cr0_write_handle_exit c exit_qualification)
  else if cr_num =? CR_ACCESS_CR_NUMBER_CR3
  then on (fun c => relm_cr3_passthrough_handle_exit c exit_qualification acc_type)
  else if (cr_num =? CR_ACCESS_CR_NUMBER_CR4) && (acc_type =? CR_ACCESS_TYPE_WRITE)
  then on (fun c => relm_cr4_write_handle_exit c exit_qualification)
  else (0, stop VCPU_STATE_STOPPED w).

(** ** Exceptions, halts, hypercalls *)

(** The page-fault dump only logs; the host's own NMI handler runs in between. *)
Definition handle_exception_nmi (w : world) : Z * world :=
  let intr_info := u32 (__vmread (w_cpu w) VM_EXIT_INTR_INFO) in
  let vector := Z.land intr_info 0xFF in
  let intr_type := Z.land (Z.shiftr intr_info 8) 0x7 in
  let valid := flag intr_info (Z.shiftl 1 31) in
  if valid && (intr_type =? 2) && (vector =? 2) then (1, w) else (0, stop VCPU_STATE_STOPPED w).

Definition handle_hlt (w : world) (guest_rip : Z) : Z * world :=
  (0, World (skip guest_rip (w_cpu w)) (upd_cpu (w_apics w) self (fun c => ACpu (ac_apic c) true))
        (w_virtio w) (w_fw w)).

Definition handle_vmcall (w : world) (guest_rip : Z) : Z * world :=
  let rax := gpr (w_cpu w) RAX in
  let stubs_lo := RELM_GUEST_IDT_STUBS_GPA in
  let stubs_hi := stubs_lo + RELM_GUEST_IDT_STUBS_SIZE in
  let from_diag_stub := (stubs_lo <=? guest_rip) && (guest_rip <? stubs_hi) && (rax <? 256) in
  if from_diag_stub then (0, w) else (1, on_cpu (skip guest_rip) w).

(** ** Port I/O *)

Definition handle_io_instruction (w : world) (guest_rip exit_qualification : Z) : Z * world :=
  let size := Z.land exit_qualification 0x7 + 1 in
  let is_in := flag exit_qualification (Z.shiftl 1 3) in
  let is_str := flag exit_qualification (Z.shiftl 1 4) in
  let is_rep := flag exit_qualification (Z.shiftl 1 5) in
  let port := Z.land (Z.shiftr exit_qualification 16) 0xFFFF in
  if ((port =? FW_CFG_PORT_SEL) || (port =? FW_CFG_PORT_DATA)) && negb is_str && negb is_rep then
    let size_mask := if size =? 1 then 0xFF else if size =? 2 then 0xFFFF else 0xFFFFFFFF in
    let io_val := if is_in then 0 else u32 (Z.land (gpr (w_cpu w) RAX) size_mask) in
    let '(ret, fw, io_val) := relm_fw_cfg_handle_io (w_fw w) port (negb is_in) size io_val in
    let c := if is_in then set_gpr (w_cpu w) RAX (Z.land io_val 0xFFFFFFFF) else w_cpu w in
    (ret, World (skip guest_rip c) (w_apics w) (w_virtio w) fw)
  else (1, on_cpu (skip guest_rip) w).

(** ** MSRs and XCR0 *)

Definition handle_msr_read (w : world) (guest_rip : Z) : Z * world :=
  let msr := Z.land (gpr (w_cpu w) RCX) 0xFFFFFFFF in
  let val := if msr =? MSR_IA32_APIC_BASE
             then Z.lor (Z.lor 0xfee00000 (Z.shiftl 1 11)) (Z.shiftl 1 8) else 0 in
  (1, on_cpu (fun c => skip guest_rip (set_gpr (set_gpr c RAX (u32 val)) RDX (u32 (Z.shiftr val 32)))) w).

Definition EFER_VALID_MASK : Z :=
  Z.lor (Z.lor (Z.lor (Z.shiftl 1 0) (Z.shiftl 1 8)) (Z.shiftl 1 10)) (Z.shiftl 1 11).

Definition write_efer (c : xcpu) (val : Z) : xcpu :=
  let val := Z.land (Z.land val EFER_VALID_MASK) (u64 (Z.lnot (Z.shiftl 1 10))) in
  let lme := flag val (Z.shiftl 1 8) in
  let pg := flag (__vmread c GUEST_CR0) (Z.shiftl 1 31) in
  let lma := lme && pg in
  let val := if lma then Z.lor val (Z.shiftl 1 10) else val in
  let c := set_efer (vmwrite_ wr c GUEST_IA32_EFER val) val in
  let entry_ctrl := u32 (__vmread c VMCS_ENTRY_CONTROLS) in
  let entry_ctrl := if lma then Z.lor entry_ctrl VM_ENTRY_IA32E_MODE
                    else Z.land entry_ctrl (u32 (Z.lnot VM_ENTRY_IA32E_MODE)) in
  vmwrite_ wr c VMCS_ENTRY_CONTROLS entry_ctrl.

Definition handle_msr_write (w : world) (guest_rip : Z) : Z * world :=
  let c := w_cpu w in
  let msr := Z.land (gpr c RCX) 0xFFFFFFFF in
  let val := Z.lor (u64 (Z.shiftl (gpr c RDX) 32)) (Z.land (gpr c RAX) 0xFFFFFFFF) in
  let c := if msr =? MSR_IA32_EFER then write_efer c val else c in
  (1, on_cpu (fun _ => skip guest_rip c) w).

Definition handle_xsetbv (w : world) (guest_rip : Z) : Z * world :=
  let c := w_cpu w in
  let xcr := u32 (gpr c RCX) in
  let val := Z.lor (Z.shiftl (u32 (gpr c RDX)) 32) (u32 (gpr c RAX)) in
  if negb (xcr =? 0) then (0, stop VCPU_STATE_STOPPED w)
  else if Z.land val 1 =? 0 then (0, stop VCPU_STATE_STOPPED w)
  else (1, on_cpu (fun c => skip guest_rip (set_xcr0 c val)) w).

(** ** EPT violations *)

Definition handle_ept_violation (w : world) (exit_qualification : Z) : access world :=
  let gpa := __vmread (w_cpu w) GUEST_PHYSICAL_ADDRESS in
  let was_present := flag exit_qualification (Z.shiftl 1 3) || flag exit_qualification (Z.shiftl 1 4) ||
                     flag exit_qualification (Z.shiftl 1 5) in
  if negb was_present && relm_vm_gpa_is_mmio_region (vm_mem vmptr w) gpa then
    and_then (relm_virtio_mmio_handle_ept_violation kmap h optab wr vmptr self stk w gpa) (fun handled w =>
      if negb (handled =? 0) then Done 1 w else Done 0 (stop VCPU_STATE_ERROR w))
  else Done 0 (stop VCPU_STATE_STOPPED w).

(** ** The dispatcher *)

Definition lift (r : Z * world) : access world := Done r.1 r.2.

(** The handlers that only log and decide. *)
Definition handle_external_interrupt (w : world) : Z * world := (1, w).
Definition handle_triple_fault (w : world) : Z * world := (0, stop VCPU_STATE_STOPPED w).
Definition handle_apic_access (w : world) : access world := relm_apic_handle_access kmap h wr now vmptr self stk w.
Definition handle_init_signal (w : world) : Z * world := (0, stop VCPU_STATE_STOPPED w).
Definition handle_invalid_guest_state (w : world) : Z * world := (0, stop VCPU_STATE_STOPPED w).
Definition handle_preemption_timer_expired (w : world) : Z * world := (0, stop VCPU_STATE_STOPPED w).
Definition handle_ept_misconfig (w : world) : Z * world := (0, stop VCPU_STATE_ERROR w).

Definition dispatch (w : world) (exit_reason exit_qualification guest_rip : Z) : access world :=
  if exit_reason =? EXIT_REASON_EXCEPTION_NMI then lift (handle_exception_nmi w)
  else if exit_reason =? EXIT_REASON_EXTERNAL_INTERRUPT then lift (handle_external_interrupt w)
  else if exit_reason =? EXIT_REASON_TRIPLE_FAULT then lift (handle_triple_fault w)
  else if exit_reason =? EXIT_REASON_APIC_ACCESS then handle_apic_access w
  else if exit_reason =? EXIT_REASON_INIT_SIGNAL then lift (handle_init_signal w)
  else if exit_reason =? EXIT_REASON_HLT then lift (handle_hlt w guest_rip)
  else if exit_reason =? EXIT_REASON_CPUID then lift (handle_cpuid w guest_rip)
  else if exit_reason =? EXIT_REASON_IO_INSTRUCTION then lift (handle_io_instruction w guest_rip exit_qualification)
  else if exit_reason =? EXIT_REASON_VMCALL then lift (handle_vmcall w guest_rip)
  else if exit_reason =? EXIT_REASON_MSR_READ then lift (handle_msr_read w guest_rip)
  else if exit_reason =? EXIT_REASON_MSR_WRITE then lift (handle_msr_write w guest_rip)
  else if exit_reason =? EXIT_REASON_EPT_VIOLATION then handle_ept_violation w exit_qualification
  else if exit_reason =? EXIT_REASON_CR_ACCESS then lift (handle_cr_access w exit_qualification)
  else if exit_reason =? EXIT_REASON_INVALID_GUEST_STATE then lift (handle_invalid_guest_state w)
  else if exit_reason =? EXIT_REASON_VMX_PREEMPTION_TIMER_EXPIRED then lift (handle_preemption_timer_expired w)
  else if exit_reason =? EXIT_REASON_EPT_MISCONFIG then lift (handle_ept_misconfig w)
  else if exit_reason =? EXIT_REASON_XSETBV then lift (handle_xsetbv w guest_rip)
  else Done 0 (stop VCPU_STATE_STOPPED w).

(** The registers pushed by the exit stub, in encoding order; the RSP entry is not part
    of the block.  The vCPU is the current one of this CPU. *)
Definition handle_vmexit (w : world) (guest_gprs : gprs) : access (gprs * world) :=
  let c := w_cpu w in
  let exit_reason := __vmread c VM_EXIT_REASON in
  if flag exit_reason (Z.shiftl 1 31) then Done 0 (guest_gprs, stop VCPU_STATE_STOPPED w)
  else
    let exit_reason := Z.land exit_reason 0xFFFF in
    let exit_qualification := __vmread c VM_EXIT_QUALIFICATION in
    let guest_rip := __vmread c GUEST_RIP in
    let guest_rsp := __vmread c GUEST_RSP in
    let c := set_rip (set_gprs (count_exit c) (<[RSP := guest_rsp]> guest_gprs)) guest_rip in
    and_then (dispatch (on_cpu (fun _ => c) w) exit_reason exit_qualification guest_rip) (fun ret w =>
      Done ret (<[RSP := default 0 (guest_gprs !! RSP)]> (x_gprs (w_cpu w)), w)).

(** [vcpu_arch_ops.handle_exit]: the exit has been handled; report what it left. *)
Definition vmx_handle_exit (w : world) : Z := if bool_decide (x_state (w_cpu w) = VCPU_STATE_ERROR) then - EFAULT else 0.
End Handlers.

(** ** What an exit leaves behind *)

Definition rip_of (w : world) : Z := __vmread (w_cpu w) GUEST_RIP.
Definition halted_of (self : Z) (w : world) : option bool :=
  match w_apics w !! Z.to_nat self with Some (Some c) => Some (ac_halted c) | _ => None end.

(** The cases of a handled exit from [w] to [w'], with the result:
    - the guest resumes behind the instruction, which was [len] bytes long;
    - the guest resumes where it was (an interrupt or NMI that belongs to the host);
    - the guest has halted, behind the instruction, and the thread is to wait;
    - the vCPU is dead;
    - a trap of the diagnostic IDT: back to the thread with nothing changed;
    - an APIC access that could not be emulated: an error code, nothing changed. *)
Inductive verdict (self reason : Z) (w w' : world) : Z -> Prop :=
  | v_step len : x_state (w_cpu w') = x_state (w_cpu w) -> rip_of w' = u64 (rip_of w + len) ->
      len = __vmread (w_cpu w) VM_EXIT_INSTRUCTION_LEN \/ (reason = EXIT_REASON_EPT_VIOLATION /\ 0 < len <= 16) ->
      verdict self reason w w' 1
  | v_again : reason = EXIT_REASON_EXTERNAL_INTERRUPT \/ reason = EXIT_REASON_EXCEPTION_NMI -> w' = w ->
      verdict self reason w w' 1
  | v_halt : reason = EXIT_REASON_HLT -> x_state (w_cpu w') = x_state (w_cpu w) ->
      rip_of w' = u64 (rip_of w + __vmread (w_cpu w) VM_EXIT_INSTRUCTION_LEN) ->
      halted_of self w' <> Some false -> verdict self reason w w' 0
  | v_dead s : s = VCPU_STATE_STOPPED \/ s = VCPU_STATE_ERROR -> w' = stop s w -> verdict self reason w w' 0
  | v_diag : reason = EXIT_REASON_VMCALL -> w' = w -> verdict self reason w w' 0
  | v_fault e : reason = EXIT_REASON_APIC_ACCESS -> e < 0 -> w' = w -> verdict self reason w w' e.

Section Verdicts.
Context {Zy : Zydis} (kmap : Z -> bool) (h : host).
Context (optab : Z -> relm_virtio_device_ops).
Context (wr : Z -> bool) (now : Z) (vmptr self : Z) (stk : list Z).
Context (cpuid : Z -> Z -> Z * Z * Z * Z) (rdmsr : Z -> Z).
Context (Hwr : forall f, wr f = true).

Lemma vmread_vmwrite c f v g : __vmread (vmwrite_ wr c f v) g = if g =? f then v else __vmread c g.
Proof.
  unfold __vmread, vmwrite_, _vmwrite. rewrite Hwr. simpl. destruct (Z.eqb_spec g f) as [->|N].
  - by rewrite lookup_insert_eq.
  - by rewrite lookup_insert_ne by done.
Qed.
Lemma vmwrite_frame c f v : x_gprs (vmwrite_ wr c f v) = x_gprs c /\ x_state (vmwrite_ wr c f v) = x_state c /\
  x_rip (vmwrite_ wr c f v) = x_rip c.
Proof. unfold vmwrite_, _vmwrite. by destruct (wr f). Qed.
Lemma vmwrite_eq c f v : _vmwrite wr c f v = (true, vmwrite_ wr c f v).
Proof. unfold vmwrite_, _vmwrite. by rewrite Hwr. Qed.

Lemma skip_state rip c : x_state (skip wr rip c) = x_state c.
Proof. apply vmwrite_frame. Qed.
Lemma skip_rip rip c : __vmread (skip wr rip c) GUEST_RIP = u64 (rip + __vmread c VM_EXIT_INSTRUCTION_LEN).
Proof. unfold skip. by rewrite vmread_vmwrite, Z.eqb_refl. Qed.

(** A handler that computes on the vCPU and steps over the instruction. *)
Lemma step_verdict reason w w' c : w_cpu w' = skip wr (rip_of w) c -> x_state c = x_state (w_cpu w) ->
  __vmread c VM_EXIT_INSTRUCTION_LEN = __vmread (w_cpu w) VM_EXIT_INSTRUCTION_LEN -> verdict self reason w w' 1.
Proof.
  intros E S L. eapply v_step; [| |by left].
  - by rewrite E, skip_state, S.
  - unfold rip_of at 1. by rewrite E, skip_rip, L.
Qed.

Lemma cr_write_verdict reason f s m0 m1 sh keep w src :
  (forall c v, x_state (keep c v) = x_state c /\ x_vmcs (keep c v) = x_vmcs c) ->
  f <> GUEST_RIP -> s <> GUEST_RIP -> f <> VM_EXIT_INSTRUCTION_LEN -> s <> VM_EXIT_INSTRUCTION_LEN ->
  forall r c, cr_write wr rdmsr f s m0 m1 sh keep (w_cpu w) src = (r, c) ->
  verdict self reason w (on_cpu (fun _ => c) w) r.
Proof.
  intros K F1 S1 F2 S2 r c. unfold cr_write. destruct (15 <? src).
  { intros [= <- <-]. by eapply step_verdict. }
  rewrite vmwrite_eq. intros [= <- <-].
  set (v := Z.land _ _). destruct (K (w_cpu w) v) as [Ks Kv].
  assert (forall g, g <> f -> g <> s ->
    __vmread (vmwrite_ wr (vmwrite_ wr (keep (w_cpu w) v) f v) s (sh v)) g = __vmread (w_cpu w) g) as Rd.
  { intros g G1 G2. rewrite !vmread_vmwrite, !(proj2 (Z.eqb_neq _ _)) by done. unfold __vmread. by rewrite Kv. }
  unfold skip_here. eapply step_verdict; [simpl|..].
  - rewrite Rd by done. reflexivity.
  - by rewrite !(proj1 (proj2 (vmwrite_frame _ _ _))).
  - by rewrite Rd by done.
Qed.

Lemma cr_access_verdict reason w q r w' : handle_cr_access wr rdmsr w q = (r, w') -> verdict self reason w w' r.
Proof.
  unfold handle_cr_access, relm_cr0_write_handle_exit, relm_cr4_write_handle_exit.
  destruct (_ && _).
  { destruct (cr_write _ _ _ _ _ _ _ _ _ _) as [r1 c1] eqn:E. intros [= <- <-].
    by eapply cr_write_verdict; [| | | | |exact E]. }
  destruct (_ =? CR_ACCESS_CR_NUMBER_CR3).
  { unfold relm_cr3_passthrough_handle_exit. intros [= <- <-]. unfold skip_here.
    set (c := if 15 <? _ then _ else _).
    assert (x_state c = x_state (w_cpu w) /\
            forall g, g <> GUEST_CR3 -> __vmread c g = __vmread (w_cpu w) g) as [S Rd].
    { unfold c. repeat case_match; [done| |done].
      split; [apply vmwrite_frame|]. intros g G. by rewrite vmread_vmwrite, (proj2 (Z.eqb_neq _ _)). }
    eapply step_verdict; [simpl; by rewrite Rd|done|by apply Rd]. }
  destruct (_ && _).
  { destruct (cr_write _ _ _ _ _ _ _ _ _ _) as [r1 c1] eqn:E. intros [= <- <-].
    by eapply cr_write_verdict; [| | | | |exact E]. }
  intros [= <- <-]. eapply v_dead; [by left|done].
Qed.

Lemma write_efer_frame c v g : g <> GUEST_IA32_EFER -> g <> VMCS_ENTRY_CONTROLS ->
  x_state (write_efer wr c v) = x_state c /\ x_gprs (write_efer wr c v) = x_gprs c /\
  __vmread (write_efer wr c v) g = __vmread c g.
Proof.
  intros G1 G2. unfold write_efer. set (val := if _ && _ then _ else _).
  destruct (vmwrite_frame (set_efer (vmwrite_ wr c GUEST_IA32_EFER val) val) VMCS_ENTRY_CONTROLS
    (if flag (Z.land (Z.land v EFER_VALID_MASK) (u64 (Z.lnot (Z.shiftl 1 10)))) (Z.shiftl 1 8) &&
        flag (__vmread c GUEST_CR0) (Z.shiftl 1 31)
     then Z.lor (u32 (__vmread (set_efer (vmwrite_ wr c GUEST_IA32_EFER val) val) VMCS_ENTRY_CONTROLS)) VM_ENTRY_IA32E_MODE
     else Z.land (u32 (__vmread (set_efer (vmwrite_ wr c GUEST_IA32_EFER val) val) VMCS_ENTRY_CONTROLS))
            (u32 (Z.lnot VM_ENTRY_IA32E_MODE)))) as (Eg & Es & _).
  rewrite Eg, Es, vmread_vmwrite, (proj2 (Z.eqb_neq _ _) G2). simpl.
  destruct (vmwrite_frame c GUEST_IA32_EFER val) as (Fg & Fs & _). split; [done|]. split; [done|].
  change (__vmread (set_efer ?x _) g) with (__vmread x g). by rewrite vmread_vmwrite, (proj2 (Z.eqb_neq _ _) G1).
Qed.

(** The instruction emulators: they change the world only when they step over the
    instruction. *)
Lemma step_over_verdict reason w w1 w' rip len ok : step_over wr w1 rip len = (ok, w') ->
  x_state (w_cpu w1) = x_state (w_cpu w) -> rip = rip_of w ->
  len = __vmread (w_cpu w) VM_EXIT_INSTRUCTION_LEN \/ (reason = EXIT_REASON_EPT_VIOLATION /\ 0 < len <= 16) ->
  verdict self reason w w' 1.
Proof.
  unfold step_over. rewrite vmwrite_eq. intros [= <- <-] S -> L. eapply v_step; [| |exact L].
  - simpl. rewrite (proj1 (proj2 (vmwrite_frame _ _ _))). exact S.
  - unfold rip_of at 1. simpl. by rewrite vmread_vmwrite, Z.eqb_refl.
Qed.

Lemma apic_access_state w t o d w1 : apic_access now self w t o d = inr w1 -> x_state (w_cpu w1) = x_state (w_cpu w).
Proof.
  unfold apic_access, apic_read_self. repeat (case_match; simplify_eq); try done; by intros [= <-].
Qed.

Lemma mmio_access_state w dev o d w1 : mmio_access optab self w dev o d = Some w1 ->
  x_state (w_cpu w1) = x_state (w_cpu w) /\ __vmread (w_cpu w1) = __vmread (w_cpu w).
Proof.
  unfold mmio_access, inject_irq. repeat (case_match; simplify_eq); try done; by intros [= <-].
Qed.

Lemma apic_verdict w w' r : relm_apic_handle_access kmap h wr now vmptr self stk w = Done r w' ->
  verdict self EXIT_REASON_APIC_ACCESS w w' r.
Proof.
  unfold relm_apic_handle_access. set (len := __vmread (w_cpu w) VM_EXIT_INSTRUCTION_LEN).
  case_match. { intros [= <- <-]. eapply v_dead; [by left|done]. }
  case_match. { intros [= <- <-]. by apply v_fault. }
  destruct (fetch _ _ _ _ _ _ _) as [n buf| |]; cbn [and_then]; [|discriminate..].
  destruct (Z.ltb_spec n 0). { intros [= <- <-]. by apply v_fault. }
  case_match. { intros [= <- <-]. by apply v_fault. }
  destruct (relm_decode_instruction (Some buf) len decoded0) as [dl d] eqn:D.
  destruct (Z.ltb_spec dl 0) as [Dn|Dn]. { intros E. inversion E; subst. by apply v_fault. }
  destruct (negb (d_length d =? len) || negb (dl =? len)) eqn:L1. { intros [= <- <-]. by apply v_fault. }
  do 3 (match goal with |- (if ?b then _ else _) = _ -> _ => destruct b end; [intros [= <- <-]; by apply v_fault|]).
  destruct (apic_access _ _ _ _ _ _) as [e|w1] eqn:A.
  { intros [= <- <-]. unfold apic_access in A. apply v_fault; [done| |done]. repeat (case_match; simplify_eq); done. }
  destruct (step_over wr w1 _ _) as [ok w2] eqn:S. intros [= <- <-].
  eapply step_over_verdict; [exact S|by eapply apic_access_state|done|].
  left. tidy_bool. done.
Qed.

Lemma copy_ret_le m tr fuel r gva size copied buf n b : copied <= size < 2 ^ 31 -> 0 <= copied ->
  copy_virt_loop kmap h m tr fuel r gva size copied buf = Done n b -> n <= size.
Proof.
  revert copied buf. induction fuel as [|fuel IH]; intros copied buf C P; cbn [copy_virt_loop];
    destruct (Z.ltb_spec copied size); cbn [negb]; try discriminate.
  1, 3: intros [= <- _]; rewrite s32_small by lia; lia.
  destruct (tr r _) as [t g| |]; [|discriminate..]. destruct (Z.ltb_spec t 0); [intros [= <- _]; lia|].
  destruct (relm_vm_copy_from_guest _ _ _ _ _ _) as [u l| |]; [|discriminate..].
  destruct (Z.ltb_spec u 0); [intros [= <- _]; lia|]. apply IH.
  - split; lia.
  - rewrite page_off_mod. unfold PAGE_SIZE. pose proof (Z.mod_pos_bound (u64 (gva + copied)) 4096 ltac:(lia)). lia.
Qed.
Lemma fetch_le w gva buf size n b : 0 < size < 2 ^ 31 -> fetch kmap h vmptr w gva buf size = Done n b -> n <= size.
Proof.
  intros S. unfold fetch, vmx_mmu_copy_from_guest_virt, copy_from_guest_virt.
  rewrite (proj2 (Z.eqb_neq _ _)) by lia. apply copy_ret_le; lia.
Qed.
Lemma fetch_insn_le w lin n b : fetch_insn kmap h vmptr stk w lin = Done n b -> n <= 16.
Proof.
  unfold fetch_insn. rewrite page_off_mod. unfold PAGE_SIZE.
  pose proof (Z.mod_pos_bound lin 4096 ltac:(lia)). set (first := Z.min 16 _).
  assert (1 <= first <= 16) as F by lia.
  destruct (fetch _ _ _ _ _ _ first) as [n1 b1| |] eqn:E1; simpl; [|discriminate..].
  apply fetch_le in E1; [|lia].
  destruct (Z.ltb_spec 0 n1), (Z.ltb_spec first 16); simpl; try (intros [= <- _]; lia).
  destruct (fetch _ _ _ _ _ _ (16 - first)) as [n2 b2| |] eqn:E2; simpl; [|discriminate..].
  apply fetch_le in E2; [|lia]. intros [= <- _]. destruct (Z.ltb_spec 0 n2); lia.
Qed.

Lemma ept_verdict w q r w' : x_rip (w_cpu w) = rip_of w ->
  handle_ept_violation kmap h optab wr vmptr self stk w q = Done r w' ->
  verdict self EXIT_REASON_EPT_VIOLATION w w' r.
Proof.
  intros Hr. unfold handle_ept_violation. destruct (_ && _).
  2:{ intros [= <- <-]. eapply v_dead; [by left|done]. }
  unfold relm_virtio_mmio_handle_ept_violation.
  destruct (relm_virtio_find_device_for_gpa _ _ _) as [dev|].
  2:{ simpl. intros [= <- <-]. eapply v_dead; [by right|done]. }
  destruct (fetch_insn _ _ _ _ _ _) as [n buf| |] eqn:F; cbn [and_then]; [|discriminate..].
  destruct (n <? 0). { simpl. intros [= <- <-]. eapply v_dead; [by right|done]. }
  destruct (relm_decode_instruction (Some buf) n decoded0) as [dl d] eqn:D.
  destruct (Z.ltb_spec dl 0). { simpl. intros [= <- <-]. eapply v_dead; [by right|done]. }
  destruct (_ || _). { simpl. intros [= <- <-]. eapply v_dead; [by right|done]. }
  destruct (_ && _). { simpl. intros [= <- <-]. eapply v_dead; [by right|done]. }
  destruct (mmio_access _ _ _ _ _ _) as [w1|] eqn:M.
  2:{ simpl. intros [= <- <-]. eapply v_dead; [by right|done]. }
  destruct (step_over wr w1 _ _) as [ok w2] eqn:S. simpl. intros [= <- <-].
  destruct (mmio_access_state _ _ _ _ _ M) as [St Rd].
  eapply step_over_verdict; [exact S|exact St|exact Hr|]. right. split; [done|].
  pose proof (fetch_insn_le _ _ _ _ F) as N16.
  pose proof (io_length _ _ (proj2 (decode_x86_spec _ _ _ _ _ D ltac:(lia)))). lia.
Qed.

Lemma dispatch_verdict w reason q r w' : x_rip (w_cpu w) = rip_of w ->
  dispatch kmap h optab wr now vmptr self stk cpuid rdmsr w reason q (rip_of w) = Done r w' ->
  verdict self reason w w' r.
Proof.
  intros Hr. unfold dispatch, lift.
  destruct (Z.eqb_spec reason EXIT_REASON_EXCEPTION_NMI) as [E|_].
  { unfold handle_exception_nmi. destruct (_ && _); intros [= <- <-]; [apply v_again; auto|eapply v_dead; [by left|done]]. }
  destruct (Z.eqb_spec reason EXIT_REASON_EXTERNAL_INTERRUPT) as [E|_]. { intros [= <- <-]. apply v_again; auto. }
  destruct (reason =? EXIT_REASON_TRIPLE_FAULT). { intros [= <- <-]. eapply v_dead; [by left|done]. }
  destruct (Z.eqb_spec reason EXIT_REASON_APIC_ACCESS) as [->|_]. { apply apic_verdict. }
  destruct (reason =? EXIT_REASON_INIT_SIGNAL). { intros [= <- <-]. eapply v_dead; [by left|done]. }
  destruct (Z.eqb_spec reason EXIT_REASON_HLT) as [E|_].
  { intros [= <- <-]. apply v_halt; [done|apply skip_state|unfold rip_of at 1; simpl; apply skip_rip|].
    unfold halted_of; simpl. unfold upd_cpu. rewrite list_lookup_alter, decide_True by done.
    by destruct (w_apics w !! Z.to_nat self) as [[c|]|]. }
  destruct (reason =? EXIT_REASON_CPUID).
  { intros [= <- <-]. eapply step_verdict; [reflexivity|..]; unfold emulate_cpuid;
      by destruct (relm_handle_kvm_cpuid_leaf _ _) as [[[? ?] ?] ?]. }
  destruct (reason =? EXIT_REASON_IO_INSTRUCTION).
  { unfold handle_io_instruction. destruct (_ && _); [|intros [= <- <-]; by eapply step_verdict].
    destruct (relm_fw_cfg_handle_io _ _ _ _ _) as [[ret fw] v] eqn:E. intros [= <- <-].
    assert (ret = 1) as -> by (unfold relm_fw_cfg_handle_io in E; repeat (case_match; simplify_eq); done).
    eapply step_verdict; [reflexivity|..]; by destruct (flag q _). }
  destruct (Z.eqb_spec reason EXIT_REASON_VMCALL) as [E|_].
  { unfold handle_vmcall. destruct (_ && _); intros [= <- <-]; [by apply v_diag|by eapply step_verdict]. }
  destruct (reason =? EXIT_REASON_MSR_READ). { intros [= <- <-]. by eapply step_verdict. }
  destruct (reason =? EXIT_REASON_MSR_WRITE).
  { unfold handle_msr_write. destruct (_ =? MSR_IA32_EFER); intros [= <- <-]; [|by eapply step_verdict].
    eapply step_verdict; [reflexivity|..]; by apply (write_efer_frame _ _ VM_EXIT_INSTRUCTION_LEN). }
  destruct (Z.eqb_spec reason EXIT_REASON_EPT_VIOLATION) as [->|_]. { by apply ept_verdict. }
  destruct (reason =? EXIT_REASON_CR_ACCESS).
  { destruct (handle_cr_access wr rdmsr w q) as [r1 w1] eqn:E. intros [= <- <-]. by eapply cr_access_verdict. }
  destruct (reason =? EXIT_REASON_INVALID_GUEST_STATE). { intros [= <- <-]. eapply v_dead; [by left|done]. }
  destruct (reason =? EXIT_REASON_VMX_PREEMPTION_TIMER_EXPIRED). { intros [= <- <-]. eapply v_dead; [by left|done]. }
  destruct (reason =? EXIT_REASON_EPT_MISCONFIG). { intros [= <- <-]. eapply v_dead; [by right|done]. }
  destruct (reason =? EXIT_REASON_XSETBV).
  { unfold handle_xsetbv. repeat case_match; intros [= <- <-]; [eapply v_dead; [by left|done]..|by eapply step_verdict]. }
  intros [= <- <-]. eapply v_dead; [by left|done].
Qed.

(** ** Every exit is handled *)

(** The linear address of the instruction. *)
Definition insn_linear (w : world) : Z := vmx_mmu_rip_to_linear (mmu_regs (w_cpu w)) (rip_of w).

Section Total.
Context (w : world) (RI : ram_inv (vm_mem vmptr w)) (Hk : forall p, kmap p = true).
Context (Hs : length stk = 16%nat) (Hl : 0 <= insn_linear w) (Hl' : insn_linear w + 16 < 2 ^ 64).

Lemma fetch_result gva buf size : 0 <= gva -> 0 < size < 2 ^ 31 -> gva + size < 2 ^ 64 -> length buf = Z.to_nat size ->
  virt_result h (vm_mem vmptr w) (mmu_regs (w_cpu w)) gva size (fetch kmap h vmptr w gva buf size).
Proof. intros. eapply copy_virt_result; try done. by left. Qed.

Lemma fetch_total gva buf size : 0 <= gva -> 0 < size < 2 ^ 31 -> gva + size < 2 ^ 64 -> length buf = Z.to_nat size ->
  exists n b, fetch kmap h vmptr w gva buf size = Done n b.
Proof.
  intros G S B L. destruct (fetch_result gva buf size G S B L) as [(l & _ & ->)|(i & e & b & _ & _ & _ & ->)]; eauto.
Qed.

Lemma fetch_insn_total : exists n b, fetch_insn kmap h vmptr stk w (insn_linear w) = Done n b.
Proof.
  unfold fetch_insn. rewrite page_off_mod. unfold PAGE_SIZE.
  pose proof (Z.mod_pos_bound (insn_linear w) 4096 ltac:(lia)). set (first := Z.min 16 _).
  assert (1 <= first <= 16) as F by lia.
  destruct (fetch_total (insn_linear w) (take (Z.to_nat first) stk) first) as (n & b & ->);
    [lia|lia|lia|rewrite length_take; lia|]. cbn [and_then].
  destruct (Z.ltb_spec 0 n), (Z.ltb_spec first 16); cbn [andb]; eauto.
  rewrite u64_small by lia.
  destruct (fetch_total (insn_linear w + first) (drop (Z.to_nat first) stk) (16 - first)) as (n2 & b2 & ->);
    [lia|lia|lia|rewrite length_drop; lia|]. cbn [and_then]. eauto.
Qed.

Lemma apic_total : exists r w', relm_apic_handle_access kmap h wr now vmptr self stk w = Done r w'.
Proof.
  unfold relm_apic_handle_access. fold (rip_of w). fold (insn_linear w). set (len := __vmread _ VM_EXIT_INSTRUCTION_LEN).
  case_match; [eauto|]. destruct (Z.eqb_spec len 0), (Z.ltb_spec 15 len); cbn [orb]; eauto.
  destruct (Z_lt_le_dec len 0) as [N|N].
  { unfold fetch, vmx_mmu_copy_from_guest_virt, copy_from_guest_virt. rewrite (proj2 (Z.eqb_neq _ _)) by lia.
    replace (Z.to_nat len) with 0%nat by lia. cbn [copy_virt_loop].
    destruct (Z.ltb_spec 0 len); [lia|]. cbn [negb and_then]. rewrite s32_small by lia.
    cbn [Z.ltb Z.compare]. rewrite (proj2 (Z.eqb_neq _ _)) by lia. cbn [negb]. eauto. }
  destruct (fetch_total (insn_linear w) (take (Z.to_nat len) stk) len) as (k & b & ->);
    [lia|lia|lia|rewrite length_take; lia|]. cbn [and_then].
  destruct (relm_decode_instruction (Some b) len decoded0) as [dl d].
  destruct (apic_access _ _ _ _ _ _); [|destruct (step_over _ _ _ _)]; repeat case_match; eauto.
Qed.

Lemma ept_total q : x_rip (w_cpu w) = rip_of w ->
  exists r w', handle_ept_violation kmap h optab wr vmptr self stk w q = Done r w'.
Proof.
  intros Hr. unfold handle_ept_violation. destruct (_ && _); [|eauto].
  unfold relm_virtio_mmio_handle_ept_violation. destruct (relm_virtio_find_device_for_gpa _ _ _) as [dev|]; [|simpl; eauto].
  rewrite Hr. fold (insn_linear w). destruct fetch_insn_total as (n & b & ->). cbn [and_then].
  destruct (relm_decode_instruction (Some b) n decoded0) as [dl d].
  destruct (mmio_access _ _ _ _ _ _) as [w1|]; [destruct (step_over _ _ _ _)|]; repeat case_match; simpl; eauto.
Qed.

Lemma dispatch_total reason q : x_rip (w_cpu w) = rip_of w ->
  exists r w', dispatch kmap h optab wr now vmptr self stk cpuid rdmsr w reason q (rip_of w) = Done r w'.
Proof.
  intros Hr. unfold dispatch, lift. pose proof apic_total. pose proof (ept_total q Hr).
  repeat case_match; eauto.
Qed.
End Total.
End Verdicts.

(** The state a handler starts from: exit counted, registers imported. *)
Definition entered (w : world) (g : gprs) : world :=
  on_cpu (fun c => set_rip (set_gprs (count_exit c) (<[RSP := __vmread c GUEST_RSP]> g)) (__vmread c GUEST_RIP)) w.

Definition basic_reason (w : world) : Z := Z.land (__vmread (w_cpu w) VM_EXIT_REASON) 0xFFFF.

(** Copying the registers back leaves the stub's block with the handler's writes. *)
Lemma sync_back (b : gprs) rsp : length b = 16%nat -> <[RSP := default 0 (b !! RSP)]> (<[RSP := rsp]> b) = b.
Proof.
  intros L. rewrite list_insert_insert_eq. apply list_insert_id.
  destruct (lookup_lt_is_Some_2 b RSP) as [x Hx]; [unfold RSP; lia|]. by rewrite Hx.
Qed.
Lemma sync_back_write (b : gprs) rsp i v : length b = 16%nat -> i <> RSP ->
  <[RSP := default 0 (b !! RSP)]> (<[i := v]> (<[RSP := rsp]> b)) = <[i := v]> b.
Proof.
  intros L N. rewrite (list_insert_insert_ne b) by done. rewrite list_insert_insert_eq.
  rewrite list_insert_insert_ne by done. f_equal. apply list_insert_id.
  destruct (lookup_lt_is_Some_2 b RSP) as [x Hx]; [unfold RSP; lia|]. by rewrite Hx.
Qed.

Section Exits.
Context {Zy : Zydis} (kmap : Z -> bool) (h : host).
Context (optab : Z -> relm_virtio_device_ops).
Context (wr : Z -> bool) (now : Z) (vmptr self : Z) (stk : list Z).
Context (cpuid : Z -> Z -> Z * Z * Z * Z) (rdmsr : Z -> Z).

Notation vmexit := (handle_vmexit kmap h optab wr now vmptr self stk cpuid rdmsr).


(** ** Emulated loads and stores, end to end *)
Section Mmio.
Context (w : world) (g : gprs) (code : list Z) (d : relm_decoded_insn) (dl dev gpa : Z).
Context (Hwr : forall f, wr f = true) (Hk : forall p, kmap p = true) (RI : ram_inv (vm_mem vmptr w)).
Context (Hs : length stk = 16%nat) (Hg : length g = 16%nat).
(** The guest, in 64-bit mode, touched an unmapped page in a device's window ... *)
Context (Hreason : __vmread (w_cpu w) VM_EXIT_REASON = EXIT_REASON_EPT_VIOLATION).
Context (Habsent : Z.land (__vmread (w_cpu w) VM_EXIT_QUALIFICATION) 0x38 = 0).
Context (Hgpa : __vmread (w_cpu w) GUEST_PHYSICAL_ADDRESS = gpa).
Context (Hmmio : relm_vm_gpa_is_mmio_region (vm_mem vmptr w) gpa = true).
Context (Hdev : relm_virtio_find_device_for_gpa (w_virtio w) vmptr gpa = Some dev).
Context (Hlma : flag (__vmread (w_cpu w) GUEST_IA32_EFER) EFER_LMA = true).
Context (Hcsl : flag (__vmread (w_cpu w) GUEST_CS_AR_BYTES) CS_AR_BYTES_L = true).
(** ... with the instruction [d], which is what the bytes at its RIP decode to. *)
Context (Hrip : 0 <= rip_of w) (Hrip' : rip_of w + 16 < 2 ^ 64) (Hcode : length code = 16%nat).
Context (Hbytes : forall i, 0 <= i < 16 -> vbyte h (vm_mem vmptr w) (mmu_regs (w_cpu w)) (rip_of w + i) = code !! Z.to_nat i).
Context (Hdec : relm_decode_instruction (Some code) 16 decoded0 = (dl, d)) (Hdl : 0 <= dl).
Context (Hwidth : memory_width d = 4).

Notation offset := (u32 (gpa - mmio_base_gpa (the_dev (w_virtio w) dev))).
Context (Haligned : flag offset 3 = false).

Lemma linear_is_rip : insn_linear w = rip_of w.
Proof. unfold insn_linear, vmx_mmu_rip_to_linear. simpl. by rewrite Hlma, Hcsl. Qed.

Lemma fetch_part a n buf : 0 <= a -> 0 < n -> a + n <= 16 -> length buf = Z.to_nat n ->
  fetch kmap h vmptr w (rip_of w + a) buf n = Done n (take (Z.to_nat n) (drop (Z.to_nat a) code)).
Proof.
  intros A N AN L.
  destruct (fetch_result kmap h vmptr w RI Hk (rip_of w + a) buf n ltac:(lia) ltac:(lia) ltac:(lia) L)
    as [(l & [Ll Vl] & ->)|(i & e & b & I & V & _ & _)].
  - f_equal. apply list_eq. intros i. destruct (decide (i < Z.to_nat n)%nat).
    + rewrite lookup_take_lt, lookup_drop by lia. specialize (Vl (Z.of_nat i) ltac:(lia)). rewrite Nat2Z.id in Vl.
      rewrite Vl, <- Z.add_assoc, Hbytes by lia. f_equal. lia.
    + rewrite !lookup_ge_None_2; [done| |lia]. rewrite length_take, length_drop. lia.
  - rewrite <- Z.add_assoc, Hbytes in V by lia. apply lookup_ge_None in V. lia.
Qed.

Lemma fetch_code : fetch_insn kmap h vmptr stk w (rip_of w) = Done 16 code.
Proof.
  unfold fetch_insn. rewrite page_off_mod. unfold PAGE_SIZE.
  pose proof (Z.mod_pos_bound (rip_of w) 4096 ltac:(lia)) as M. set (first := Z.min 16 _).
  assert (1 <= first <= 16) as F by lia.
  rewrite <- (Z.add_0_r (rip_of w)), fetch_part by (try rewrite length_take; lia). cbn [and_then].
  rewrite (proj2 (Z.ltb_lt 0 first)) by lia. destruct (Z.ltb_spec first 16) as [C|C]; cbn [andb].
  - rewrite u64_small, Z.add_0_r, fetch_part by (try rewrite length_drop; lia). cbn [and_then].
    rewrite (proj2 (Z.ltb_lt 0 (16 - first))) by lia. f_equal; [lia|]. rewrite drop_0, (take_ge (drop _ _)).
    + apply take_drop.
    + rewrite length_drop. lia.
  - replace first with 16 by lia. f_equal. rewrite drop_0, take_ge, drop_ge by lia. apply app_nil_r.
Qed.

Lemma insn_facts : dl = d_length d /\ insn_ok 16 d.
Proof. exact (decode_x86_spec _ _ _ _ _ Hdec Hdl). Qed.

Lemma absent_flag m : Z.land 0x38 m = m -> flag (__vmread (w_cpu w) VM_EXIT_QUALIFICATION) m = false.
Proof. intros M. unfold flag. by rewrite <- M, Z.land_assoc, Habsent, Z.land_0_l. Qed.

(** The exit comes down to the device access and the step over the instruction. *)
Lemma mmio_exit w1 : mmio_access optab self (entered w g) dev offset d = Some w1 ->
  exists w2, step_over wr w1 (rip_of w) (d_length d) = (true, w2) /\
    vmexit w g = Done 1 (<[RSP := default 0 (g !! RSP)]> (x_gprs (w_cpu w2)), w2).
Proof.
  intros A. destruct insn_facts as [_ [_ _ Op]].
  unfold handle_vmexit. rewrite Hreason. change (flag EXIT_REASON_EPT_VIOLATION (Z.shiftl 1 31)) with false.
  change (Z.land EXIT_REASON_EPT_VIOLATION 0xFFFF) with EXIT_REASON_EPT_VIOLATION. cbn match.
  change (on_cpu (fun _ => set_rip (set_gprs (count_exit (w_cpu w)) _) _) w) with (entered w g).
  change (dispatch _ _ _ _ _ _ _ _ _ _ (entered w g) EXIT_REASON_EPT_VIOLATION ?q ?r)
    with (handle_ept_violation kmap h optab wr vmptr self stk (entered w g) q).
  unfold handle_ept_violation. rewrite !absent_flag by reflexivity. cbn [orb negb andb].
  change (__vmread (w_cpu (entered w g)) ?f) with (__vmread (w_cpu w) f).
  change (vm_mem vmptr (entered w g)) with (vm_mem vmptr w). rewrite Hgpa, Hmmio.
  unfold relm_virtio_mmio_handle_ept_violation.
  change (w_virtio (entered w g)) with (w_virtio w). rewrite Hdev.
  change (x_rip (w_cpu (entered w g))) with (rip_of w).
  change (vmx_mmu_rip_to_linear (mmu_regs (w_cpu (entered w g))) (rip_of w)) with (insn_linear w).
  change (fetch_insn kmap h vmptr stk (entered w g)) with (fetch_insn kmap h vmptr stk w).
  rewrite linear_is_rip, fetch_code. cbn [and_then]. change (16 <? 0) with false. cbn match.
  rewrite Hdec. rewrite (proj2 (Z.ltb_ge dl 0) Hdl), Hwidth, Haligned. cbn [Z.eqb Pos.eqb negb orb].
  assert (bool_decide (operand_kind d = RELM_OPERAND_GPR) && negb (relm_decoded_has_valid_gpr d) = false) as ->.
  { apply andb_false_iff. destruct (memory_access d); [done| |].
    - right. destruct Op as [[-> _] _]. done.
    - destruct Op as [[[-> _] _]|K]; [by right|]. left. by rewrite K. }
  rewrite A. unfold step_over. rewrite vmwrite_eq by exact Hwr. eexists. split; [reflexivity|].
  reflexivity.
Qed.

(** The step over the instruction touches only RIP. *)
Lemma step_over_frame w1 len w2 : step_over wr w1 (rip_of w) len = (true, w2) ->
  rip_of w2 = u64 (rip_of w + len) /\ x_gprs (w_cpu w2) = x_gprs (w_cpu w1) /\
  x_state (w_cpu w2) = x_state (w_cpu w1) /\ w_virtio w2 = w_virtio w1 /\ w_apics w2 = w_apics w1 /\ w_fw w2 = w_fw w1.
Proof.
  unfold step_over. rewrite vmwrite_eq by exact Hwr. intros [= <-]. unfold rip_of at 1. simpl.
  rewrite vmread_vmwrite, Z.eqb_refl by exact Hwr. destruct (vmwrite_frame wr (set_rip (w_cpu w1) (u64 (rip_of w + len)))
    GUEST_RIP (u64 (rip_of w + len))) as (Eg & Es & _). by rewrite Eg, Es.
Qed.

(** The interrupt line of the device, if the access asked for it. *)
Definition irq_if (irq : bool) (a : apic_vm) : apic_vm :=
  if irq then upd_cpu a self (fun c => (vmx_inject_irq c (d_irq (the_dev (w_virtio w) dev))).2) else a.


(** What the instruction stores: its immediate, or the low half of the source register. *)
Definition stored_value : Z :=
  match operand_kind d with
  | RELM_OPERAND_IMMEDIATE => immediate d mod 2 ^ 32
  | _ => default 0 (<[RSP := __vmread (w_cpu w) GUEST_RSP]> g !! Z.to_nat (gpr_index d)) mod 2 ^ 32
  end.

Lemma store_value_eq : memory_access d = RELM_MEMORY_ACCESS_WRITE ->
  store_value d (x_gprs (w_cpu (entered w g))) = Some stored_value.
Proof.
  intros Wt. destruct insn_facts as [_ [_ _ Op]]. rewrite Wt in Op. unfold store_value, stored_value, u32.
  destruct Op as [[[V W] _]|K].
  - destruct (valid_gpr_inv d V) as (K & I & _ & Off). rewrite K. f_equal. unfold relm_decoded_gpr_extract, guest_reg_read.
    rewrite V, W, Hwidth, (proj2 (Z.leb_le 0 _)), (proj2 (Z.ltb_lt _ 16)) by lia. cbn [negb andb].
    replace (gpr_bit_offset d) with 0 by lia. rewrite Z.shiftr_0_r. change (relm_width_mask 4) with (2 ^ 32 - 1).
    rewrite land_ones_mod by lia. by rewrite Z.mod_mod by lia.
  - rewrite K, Hwidth. change (relm_width_mask 4) with (2 ^ 32 - 1). rewrite land_ones_mod by lia.
    by rewrite Z.mod_mod by lia.
Qed.

End Mmio.

(** ** Long mode *)

(** EFER.LMA is LME and CR0.PG, and the next VM entry is in the mode LMA says. *)
Definition long_mode_ok (c : xcpu) : Prop :=
  let efer := __vmread c GUEST_IA32_EFER in
  Z.testbit efer 10 = Z.testbit efer 8 && Z.testbit (__vmread c GUEST_CR0) 31 /\
  Z.testbit (__vmread c VMCS_ENTRY_CONTROLS) 9 = Z.testbit efer 10.

Definition mode_fields : list Z := [GUEST_CR0; GUEST_IA32_EFER; VMCS_ENTRY_CONTROLS].
Definition same_mode (c c' : xcpu) : Prop := forall f, f ∈ mode_fields -> __vmread c' f = __vmread c f.

Lemma same_mode_ok c c' : same_mode c c' -> long_mode_ok c -> long_mode_ok c'.
Proof.
  intros S. unfold long_mode_ok. by rewrite !S by (unfold mode_fields; set_solver).
Qed.

Section Writable.
Context (Hwr : forall f, wr f = true).

Lemma vmwrite_mode c c' f v : same_mode c c' -> f ∉ mode_fields -> same_mode c (vmwrite_ wr c' f v).
Proof.
  intros S F g G. rewrite vmread_vmwrite, (proj2 (Z.eqb_neq _ _)) by (done || (intros ->; done)). by apply S.
Qed.
Lemma skip_mode c c' rip : same_mode c c' -> same_mode c (skip wr rip c').
Proof. intros S. apply vmwrite_mode; [done|]. vm_compute. set_solver. Qed.

Lemma step_over_mode w w1 rip len : same_mode (w_cpu w) (w_cpu w1) -> same_mode (w_cpu w) (w_cpu (step_over wr w1 rip len).2).
Proof.
  intros S. unfold step_over. rewrite vmwrite_eq by done. simpl. apply vmwrite_mode; [exact S|]. vm_compute. set_solver.
Qed.

Lemma apic_mode w r w' : relm_apic_handle_access kmap h wr now vmptr self stk w = Done r w' -> same_mode (w_cpu w) (w_cpu w').
Proof.
  unfold relm_apic_handle_access. case_match; [by intros [= _ <-]|]. case_match; [by intros [= _ <-]|].
  destruct (fetch _ _ _ _ _ _ _) as [n b| |]; cbn [and_then]; [|discriminate..].
  destruct (relm_decode_instruction (Some b) _ decoded0) as [dl d].
  destruct (apic_access _ _ _ _ _ _) as [e|w1] eqn:A; [repeat case_match; by intros [= _ <-]|].
  destruct (step_over wr w1 _ _) as [ok w2] eqn:S.
  repeat case_match; intros [= _ <-]; try done. change w2 with (ok, w2).2. rewrite <- S. apply step_over_mode.
  unfold apic_access, apic_read_self in A. repeat (case_match; simplify_eq); done.
Qed.

Lemma ept_mode w q r w' : handle_ept_violation kmap h optab wr vmptr self stk w q = Done r w' -> same_mode (w_cpu w) (w_cpu w').
Proof.
  unfold handle_ept_violation, relm_virtio_mmio_handle_ept_violation. destruct (_ && _); [|by intros [= _ <-]].
  destruct (relm_virtio_find_device_for_gpa _ _ _) as [dev|]; [|by intros [= _ <-]].
  destruct (fetch_insn _ _ _ _ _ _) as [n b| |]; cbn [and_then]; [|discriminate..].
  destruct (relm_decode_instruction (Some b) n decoded0) as [dl d].
  destruct (mmio_access _ _ _ _ _ _) as [w1|] eqn:M; [|repeat case_match; by intros [= _ <-]].
  destruct (step_over wr w1 _ _) as [ok w2] eqn:S.
  repeat case_match; cbn [and_then]; intros [= _ <-]; try done. change w2 with (ok, w2).2. rewrite <- S. apply step_over_mode.
  apply mmio_access_state in M as [_ M]. intros f _. by rewrite M.
Qed.

(** A write of EFER through WRMSR. *)
Lemma write_efer_ok c v : long_mode_ok (write_efer wr c v).
Proof.
  unfold write_efer. set (v1 := Z.land (Z.land v _) _).
  change (Z.shiftl 1 8) with (2 ^ 8). change (Z.shiftl 1 31) with (2 ^ 31). rewrite !flag_pow2 by lia.
  set (lma := Z.testbit v1 8 && Z.testbit (__vmread c GUEST_CR0) 31).
  assert (Z.testbit v1 10 = false) as N by (unfold v1; rewrite Z.land_spec; apply andb_false_r).
  set (v2 := if lma then _ else _).
  assert (Z.testbit v2 10 = lma /\ Z.testbit v2 8 = Z.testbit v1 8) as [T10 T8].
  { unfold v2. destruct lma; [|done]. rewrite !Z.lor_spec, N. change (Z.testbit (Z.shiftl 1 10) 10) with true.
    change (Z.testbit (Z.shiftl 1 10) 8) with false. by rewrite orb_false_r. }
  unfold long_mode_ok. rewrite !vmread_vmwrite by done. simpl (_ =? _).
  change (__vmread (set_efer ?x _) ?f) with (__vmread x f). rewrite !vmread_vmwrite by done. simpl (_ =? _). cbn match.
  rewrite T10, T8. split; [done|]. set (e := u32 _). clearbody lma e. destruct lma.
  - rewrite Z.lor_spec. change (Z.testbit VM_ENTRY_IA32E_MODE 9) with true. apply orb_true_r.
  - rewrite Z.land_spec. apply andb_false_r.
Qed.

Lemma cr_mode w q r w' : Z.land q CR_ACCESS_CR_NUMBER_MASK <> CR_ACCESS_CR_NUMBER_CR0 ->
  handle_cr_access wr rdmsr w q = (r, w') -> same_mode (w_cpu w) (w_cpu w').
Proof.
  intros N. unfold handle_cr_access. rewrite (proj2 (Z.eqb_neq _ _) N). cbn [andb].
  destruct (_ =? CR_ACCESS_CR_NUMBER_CR3).
  { unfold relm_cr3_passthrough_handle_exit. intros [= _ <-]. apply skip_mode. repeat case_match; [done| |done].
    apply vmwrite_mode; [done|]. vm_compute. set_solver. }
  destruct (_ && _); [|by intros [= _ <-]].
  unfold relm_cr4_write_handle_exit, cr_write. destruct (15 <? _); [intros [= _ <-]; by apply skip_mode|].
  rewrite vmwrite_eq by done. intros [= _ <-]. apply skip_mode.
  apply vmwrite_mode; [apply vmwrite_mode; [done|]|]; vm_compute; set_solver.
Qed.

Lemma dispatch_mode w reason q rip r w' :
  ~ (reason = EXIT_REASON_CR_ACCESS /\ Z.land q CR_ACCESS_CR_NUMBER_MASK = CR_ACCESS_CR_NUMBER_CR0) ->
  dispatch kmap h optab wr now vmptr self stk cpuid rdmsr w reason q rip = Done r w' ->
  long_mode_ok (w_cpu w) -> long_mode_ok (w_cpu w').
Proof.
  intros N D L. cut (same_mode (w_cpu w) (w_cpu w') \/ long_mode_ok (w_cpu w')); [intros [S|S]; [by eapply same_mode_ok|done]|].
  revert D. unfold dispatch, lift.
  destruct (reason =? EXIT_REASON_EXCEPTION_NMI).
  { unfold handle_exception_nmi. destruct (_ && _); intros [= _ <-]; by left. }
  destruct (reason =? EXIT_REASON_EXTERNAL_INTERRUPT); [intros [= _ <-]; by left|].
  destruct (reason =? EXIT_REASON_TRIPLE_FAULT); [intros [= _ <-]; by left|].
  destruct (reason =? EXIT_REASON_APIC_ACCESS); [intros D; left; by eapply apic_mode|].
  destruct (reason =? EXIT_REASON_INIT_SIGNAL); [intros [= _ <-]; by left|].
  destruct (reason =? EXIT_REASON_HLT); [intros [= _ <-]; left; by apply skip_mode|].
  destruct (reason =? EXIT_REASON_CPUID).
  { intros [= _ <-]. left. apply skip_mode. unfold emulate_cpuid.
    by destruct (relm_handle_kvm_cpuid_leaf _ _) as [[[? ?] ?] ?]. }
  destruct (reason =? EXIT_REASON_IO_INSTRUCTION).
  { unfold handle_io_instruction. destruct (_ && _); [|intros [= _ <-]; left; by apply skip_mode].
    destruct (relm_fw_cfg_handle_io _ _ _ _ _) as [[ret fw] v]. intros [= _ <-]. left. apply skip_mode.
    by destruct (flag q _). }
  destruct (reason =? EXIT_REASON_VMCALL).
  { unfold handle_vmcall. destruct (_ && _); intros [= _ <-]; left; [done|by apply skip_mode]. }
  destruct (reason =? EXIT_REASON_MSR_READ); [intros [= _ <-]; left; by apply skip_mode|].
  destruct (reason =? EXIT_REASON_MSR_WRITE).
  { unfold handle_msr_write. destruct (_ =? MSR_IA32_EFER); intros [= _ <-]; [right|left; by apply skip_mode].
    eapply same_mode_ok; [apply skip_mode; intros f _; reflexivity|apply write_efer_ok]. }
  destruct (reason =? EXIT_REASON_EPT_VIOLATION); [intros D; left; by eapply ept_mode|].
  destruct (Z.eqb_spec reason EXIT_REASON_CR_ACCESS) as [->|_].
  { destruct (handle_cr_access wr rdmsr w q) as [r1 w1] eqn:E. intros [= _ <-]. left. eapply cr_mode; [|exact E]. tauto. }
  destruct (reason =? EXIT_REASON_INVALID_GUEST_STATE); [intros [= _ <-]; by left|].
  destruct (reason =? EXIT_REASON_VMX_PREEMPTION_TIMER_EXPIRED); [intros [= _ <-]; by left|].
  destruct (reason =? EXIT_REASON_EPT_MISCONFIG); [intros [= _ <-]; by left|].
  destruct (reason =? EXIT_REASON_XSETBV); [|intros [= _ <-]; by left].
  unfold handle_xsetbv. repeat case_match; intros [= _ <-]; left; [done|done|by apply skip_mode].
Qed.
End Writable.

(** C5. The long-mode switch stays consistent through every exit but a write to CR0:
    EFER.LMA is LME and PG, and the IA-32e-mode-guest entry control follows it, so the
    guest is re-entered in the mode its registers say. *)
Theorem long_mode_invariant (w w' : world) (g g' : gprs) (r : Z) :
  (forall f, wr f = true) -> long_mode_ok (w_cpu w) ->
  ~ (basic_reason w = EXIT_REASON_CR_ACCESS /\
     Z.land (__vmread (w_cpu w) VM_EXIT_QUALIFICATION) CR_ACCESS_CR_NUMBER_MASK = CR_ACCESS_CR_NUMBER_CR0) ->
  vmexit w g = Done r (g', w') -> long_mode_ok (w_cpu w').
Proof.
  intros Hwr L N. unfold handle_vmexit. destruct (flag _ _); [by intros [= _ _ <-]|].
  change (on_cpu (fun _ => set_rip (set_gprs (count_exit (w_cpu w)) _) _) w) with (entered w g).
  destruct (dispatch _ _ _ _ _ _ _ _ _ _ _ _ _ _) as [r1 w1| |] eqn:D; cbn [and_then]; [|discriminate..].
  intros [= _ _ <-]. by eapply dispatch_mode.
Qed.

(** An APIC access that the hardware reports without a usable instruction length is
    answered with an error code, and every code but 0 makes the exit stub resume the
    guest: at the same instruction, with the same registers, and with the vCPU still
    running, so the same exit happens again, for ever. *)
Theorem apic_fault_resumes (w : world) (g : gprs) :
  length g = 16%nat -> __vmread (w_cpu w) VM_EXIT_REASON = EXIT_REASON_APIC_ACCESS ->
  Z.land (__vmread (w_cpu w) VM_EXIT_QUALIFICATION) APIC_ACCESS_TYPE_MASK = 0 ->
  __vmread (w_cpu w) VM_EXIT_INSTRUCTION_LEN = 0 \/ 15 < __vmread (w_cpu w) VM_EXIT_INSTRUCTION_LEN ->
  vmexit w g = Done (- EINVAL) (g, entered w g) /\ vmexit (entered w g) g = Done (- EINVAL) (g, entered (entered w g) g) /\
  rip_of (entered w g) = rip_of w /\ x_state (w_cpu (entered w g)) = x_state (w_cpu w) /\
  w_apics (entered w g) = w_apics w.
Proof.
  intros Lg Hr Ht Hl.
  assert (forall v : world, __vmread (w_cpu v) = __vmread (w_cpu w) -> vmexit v g = Done (- EINVAL) (g, entered v g)) as K.
  { intros v E. unfold handle_vmexit. rewrite E, Hr. change (flag EXIT_REASON_APIC_ACCESS _) with false. cbn match.
    change (Z.land EXIT_REASON_APIC_ACCESS 0xFFFF) with EXIT_REASON_APIC_ACCESS.
    rewrite <- E. change (on_cpu (fun _ => set_rip (set_gprs (count_exit (w_cpu v)) _) _) v) with (entered v g).
    change (dispatch _ _ _ _ _ _ _ _ _ _ (entered v g) EXIT_REASON_APIC_ACCESS _ _)
      with (relm_apic_handle_access kmap h wr now vmptr self stk (entered v g)).
    unfold relm_apic_handle_access. change (__vmread (w_cpu (entered v g)) ?f) with (__vmread (w_cpu v) f).
    rewrite E, Ht. change (Z.shiftr 0 _ =? APIC_ACCESS_TYPE_LINEAR_FETCH) with false. cbn match.
    destruct (Z.eqb_spec (__vmread (w_cpu w) VM_EXIT_INSTRUCTION_LEN) 0),
      (Z.ltb_spec 15 (__vmread (w_cpu w) VM_EXIT_INSTRUCTION_LEN)); cbn [orb]; try lia; cbn [and_then];
      (do 2 f_equal; cbn [entered on_cpu w_cpu x_gprs set_rip set_gprs]; by apply sync_back). }
  split; [by apply K|]. split; [by apply K|]. done.
Qed.
End Exits.

(** ** Concrete instances

    A guest in long mode with [mov ebx, \[rax\]] at 0x1800 and [mov \[rax\], ecx] at
    0x1900, and a block device at 0xD0000000. *)
Module ExitDemo.
Import GuestMemDemo MmuDemo VirtioDemo DecoderDemo ApicDemo.

Definition hx : host :=
  fold_left (fun h '(p, o, b) => wr8 h p o b)
    [(0x5000, 0x800, 0x8B); (0x5000, 0x801, 0x18); (0x5000, 0x900, 0x89); (0x5000, 0x901, 0x08)] hv.
Definition s1 : vstate :=
  (relm_virtio_mmio_register_device
     (VState (vs_devs s0) {[1 := m1]} (g_registered_devices s0) 0 (g_selector_state s0) sel0) 10 0xD0000000 5).2.
Definition vmcs0 : list (Z * Z) :=
  [(VM_EXIT_INSTRUCTION_LEN, 2); (GUEST_CR0, X86_CR0_PG); (GUEST_CR4, X86_CR4_PAE);
   (GUEST_IA32_EFER, Z.lor EFER_LMA (Z.shiftl 1 8)); (GUEST_CS_AR_BYTES, CS_AR_BYTES_L);
   (VMCS_ENTRY_CONTROLS, VM_ENTRY_IA32E_MODE); (GUEST_RSP, 0x7000)].
Definition regs0 : gprs := [0xD0000000; 5; 6; -1; 0; 0; 0; 0; 0; 0; 0; 0; 0; 0; 0; 0].
Definition at_exit (reason qual rip gpa : Z) : world :=
  World (XCpu regs0 0 (list_to_map ([(VM_EXIT_REASON, reason); (VM_EXIT_QUALIFICATION, qual); (GUEST_RIP, rip);
                                     (GUEST_PHYSICAL_ADDRESS, gpa)] ++ vmcs0))
           VCPU_STATE_RUNNING true 0 0 0 0 0)
    [Some (ACpu (relm_apic_init blank 0) false)] s1 relm_fw_cfg_init.
Definition stk0 : list Z := replicate 16 0xCC.
Definition code_at (a b : Z) : list Z := a :: b :: replicate 14 0.

(** A processor that needs CR0.NE and CR4.VMXE set, as VMX processors do. *)
Definition caps (m : Z) : Z :=
  if m =? MSR_IA32_VMX_CR0_FIXED0 then 0x20 else if m =? MSR_IA32_VMX_CR0_FIXED1 then 0xFFFFFFFF
  else if m =? MSR_IA32_VMX_CR4_FIXED0 then X86_CR4_VMXE else 0x3FFFFF.

Notation run := (handle_vmexit (fun _ => true) hx optab0 (fun _ => true) 0 1 0 stk0 (fun _ _ => (0, 0, 0, 0)) caps).

(** Reserving the device's window has not touched the RAM. *)
Lemma ram_inv_same m m' : mem_regions m = mem_regions m' -> ram_inv m -> ram_inv m'.
Proof.
  intros E [A B C]. split.
  - intros r R. apply A. by rewrite E.
  - intros r r' g R R'. apply B; by rewrite E.
  - intros g g' p (r & ps & R & X) (r' & ps' & R' & X'). apply (C g g' p).
    + exists r, ps. rewrite E. by split.
    + exists r', ps'. rewrite E. by split.
Qed.
Lemma exit_inv reason qual rip gpa : ram_inv (vm_mem 1 (at_exit reason qual rip gpa)).
Proof. apply (ram_inv_same m1); [vm_compute; reflexivity|exact demo_inv]. Qed.

Definition w_load : world := at_exit EXIT_REASON_EPT_VIOLATION 1 0x1800 0xD0000000.
Definition w_store : world := at_exit EXIT_REASON_EPT_VIOLATION 2 0x1900 0xD0000030.

Lemma load_bytes : forall i, 0 <= i < 16 ->
  vbyte hx (vm_mem 1 w_load) (mmu_regs (w_cpu w_load)) (rip_of w_load + i) = code_at 0x8B 0x18 !! Z.to_nat i.
Proof.
  intros i Hi. assert (Z.to_nat i < 16)%nat as L by lia. rewrite <- (Z2Nat.id i) at 1 by lia.
  revert L. generalize (Z.to_nat i). clear. intros n L. do 16 (destruct n; [vm_compute; reflexivity|]). lia.
Qed.
Lemma store_bytes : forall i, 0 <= i < 16 ->
  vbyte hx (vm_mem 1 w_store) (mmu_regs (w_cpu w_store)) (rip_of w_store + i) = code_at 0x89 0x08 !! Z.to_nat i.
Proof.
  intros i Hi. assert (Z.to_nat i < 16)%nat as L by lia. rewrite <- (Z2Nat.id i) at 1 by lia.
  revert L. generalize (Z.to_nat i). clear. intros n L. do 16 (destruct n; [vm_compute; reflexivity|]). lia.
Qed.


Definition store_ecx : relm_decoded_insn :=
  DecodedInsn 2 RELM_MEMORY_ACCESS_WRITE 4 RELM_OPERAND_GPR 0 1 4 0 RELM_GPR_WRITE_NONE.


(** HLT at 0x1800. *)
Definition w_hlt : world := at_exit EXIT_REASON_HLT 0 0x1800 0.

(** WRMSR of EFER with LME clear, while paging is on. *)
Definition w_wrmsr : world :=
  on_cpu (fun c => set_gprs c (<[RCX := MSR_IA32_EFER]> regs0)) (at_exit EXIT_REASON_MSR_WRITE 0 0x1800 0).
Lemma long_mode_invariant_witness : exists g' w',
  run w_wrmsr (<[RCX := MSR_IA32_EFER]> (<[RAX := 0]> regs0)) = Done 1 (g', w') /\ long_mode_ok (w_cpu w') /\
  Z.testbit (__vmread (w_cpu w') VMCS_ENTRY_CONTROLS) 9 = false.
Proof.
  destruct (run w_wrmsr (<[RCX := MSR_IA32_EFER]> (<[RAX := 0]> regs0))) as [r [g' w']| |] eqn:E;
    [|vm_compute in E; discriminate E..].
  assert (r = 1) as -> by (vm_compute in E; congruence).
  exists g', w'. split; [reflexivity|]. split.
  - refine (long_mode_invariant (fun _ => true) hx optab0 (fun _ => true) 0 1 0 stk0 (fun _ _ => (0, 0, 0, 0)) caps
      w_wrmsr w' _ g' 1 (fun _ => eq_refl) _ _ E); [vm_compute; split; reflexivity|].
    intros [K _]. vm_compute in K. discriminate K.
  - vm_compute in E. injection E as _ <-. vm_compute. reflexivity.
Defined.

(** An APIC access exit without an instruction length. *)
Definition w_apic : world :=
  on_cpu (fun c => set_vmcs c (<[VM_EXIT_INSTRUCTION_LEN := 0]> (x_vmcs c))) (at_exit EXIT_REASON_APIC_ACCESS 0x30 0x1800 0).
Lemma apic_fault_resumes_witness : run w_apic regs0 = Done (- EINVAL) (regs0, entered w_apic regs0).
Proof.
  exact (proj1 (apic_fault_resumes (fun _ => true) hx optab0 (fun _ => true) 0 1 0 stk0 (fun _ _ => (0, 0, 0, 0)) caps
    w_apic regs0 eq_refl ltac:(vm_compute; reflexivity) ltac:(vm_compute; reflexivity)
    ltac:(left; vm_compute; reflexivity))).
Defined.

(** A trap of the diagnostic IDT, which is meant to stop the guest, does not: the
    result 0 only goes back to the vCPU thread, whose loop goes on while the state is
    RUNNING, and neither the state nor RIP has changed, so the guest executes the same
    VMCALL again. *)
Theorem diag_trap_not_stopped : exists w g w',
  run w g = Done 0 (g, w') /\ basic_reason w = EXIT_REASON_VMCALL /\
  RELM_GUEST_IDT_STUBS_GPA <= rip_of w < RELM_GUEST_IDT_STUBS_GPA + RELM_GUEST_IDT_STUBS_SIZE /\
  x_state (w_cpu w') = VCPU_STATE_RUNNING /\ rip_of w' = rip_of w /\ vmx_handle_exit w' = 0.
Proof.
  exists (at_exit EXIT_REASON_VMCALL 0 0x60D8 0), (<[RAX := 13]> regs0),
    (entered (at_exit EXIT_REASON_VMCALL 0 0x60D8 0) (<[RAX := 13]> regs0)).
  split; [vm_compute; reflexivity|]. split; [vm_compute; reflexivity|].
  split; [vm_compute; split; [discriminate|reflexivity]|]. split; vm_compute; [reflexivity|split; reflexivity].
Qed.

(** A write to CR0 that clears paging while long mode is enabled leaves EFER.LMA and
    the entry control set: the handler copies CR0 but not the mode that depends on it. *)
Theorem cr0_write_breaks_long_mode : exists w g g' w',
  long_mode_ok (w_cpu w) /\ run w g = Done 1 (g', w') /\
  Z.testbit (__vmread (w_cpu w') GUEST_CR0) 31 = false /\ Z.testbit (__vmread (w_cpu w') GUEST_IA32_EFER) 10 = true /\
  ~ long_mode_ok (w_cpu w').
Proof.
  destruct (run (at_exit EXIT_REASON_CR_ACCESS 0x300 0x1800 0) (<[RBX := 0x60000021]> regs0)) as [r [g' w']| |] eqn:E;
    [|vm_compute in E; discriminate E..].
  assert (r = 1) as -> by (vm_compute in E; congruence).
  exists (at_exit EXIT_REASON_CR_ACCESS 0x300 0x1800 0), (<[RBX := 0x60000021]> regs0), g', w'.
  split; [vm_compute; split; reflexivity|]. split; [exact E|]. vm_compute in E. injection E as _ <-.
  split; [reflexivity|]. split; [reflexivity|]. intros [K _]. vm_compute in K. discriminate K.
Qed.

(** A byte read from the fw_cfg data port replaces all of RAX, where the instruction
    changes AL only. *)
Theorem in_al_clobbers_rax : exists w g g' w',
  run w g = Done 1 (g', w') /\ basic_reason w = EXIT_REASON_IO_INSTRUCTION /\
  Z.land (__vmread (w_cpu w) VM_EXIT_QUALIFICATION) 7 = 0 /\
  g !! RAX = Some 0x1234567890 /\ g' !! RAX = Some 0.
Proof.
  destruct (run (at_exit EXIT_REASON_IO_INSTRUCTION 0x5110008 0x1800 0) (<[RAX := 0x1234567890]> regs0)) as [r [g' w']| |] eqn:E;
    [|vm_compute in E; discriminate E..].
  assert (r = 1) as -> by (vm_compute in E; congruence).
  exists (at_exit EXIT_REASON_IO_INSTRUCTION 0x5110008 0x1800 0), (<[RAX := 0x1234567890]> regs0), g', w'.
  split; [exact E|]. vm_compute in E. injection E as <- _. repeat split; vm_compute; reflexivity.
Qed.
End ExitDemo.
