(* ===== verification/Vm.v ===== *)
(** * The life of a VM

    src/core/vm.c: creation and destruction of a VM, adding and finding its vCPUs,
    starting and stopping all of them; and the [add_vcpu] operations of the two x86
    backends.  The second-stage tables are behind [MemOps] and [VmOps] (the two
    entries of [struct relm_mem_ops] that only creation uses); each vCPU slot holds
    the vCPU with its thread, the [sys] of [Vcpu].

    Allocations of structs are boolean parameters (whether they succeed).  A caller
    that waits in [kthread_stop] lets the thread run: [before i] and [during i] are
    the CPUs the scheduler gives the thread of slot [i] until the stop request and
    after it.  A wait that is not over at the end of [during i] is [OutOfFuel]; the
    theorems show it ends. *)
From stdpp Require Import pretty.
From S2P Require Import Prelude HostMem Radix MemOps VmMem X86Pt Ept Npt GuestMem Mmu GuestPt Vcpu.

Definition RELM_MAX_VCPUS : Z := 1.
Definition HOST_CPU_ID : Z := 1.
Definition RELM_VM_NAME_LEN : nat := 16.
Definition VPID_TO_INDEX (vpid : Z) : Z := vpid - 1.
Definition VPID_IS_VALID (vpid max : Z) : bool := (0 <? vpid) && (vpid <=? max).

Inductive vm_state :=
  | VM_STATE_CREATED | VM_STATE_INITIALIZED | VM_STATE_RUNNING | VM_STATE_SUSPENDED | VM_STATE_STOPPED.
#[export] Instance vm_state_eq_dec : EqDecision vm_state.
Proof. solve_decision. Defined.

(** [vo_buffer]: whether the page buffer of the guest tables can be allocated. *)
Class VmOps (MO : MemOps) := {
  vo_setup : host -> Z * host * option mo_ctx;
  vo_buffer : bool;
  vo_create_guest_page_tables : option mo_ctx -> host -> relm_vm_memory -> access (host * option Z)
}.

(** What creation relies on: [setup] makes an empty context of fresh tables or takes
    nothing; building the guest tables writes bytes of guest RAM only, and succeeds
    when its buffer and the last three pages of RAM are there. *)
Class VmOpsOk {PA : PageAlloc} {MO : MemOps} {MOok : MemOpsOk MO} (VO : VmOps MO) := {
  vo_setup_ok h r h' o : vo_setup h = (r, h', o) ->
    (r = 0 /\ exists c T, o = Some c /\ mo_inv h' c T /\ T ## h_live h /\ h_live h' = h_live h ∪ T) \/
    (r < 0 /\ h_live h' = h_live h);
  vo_tables_ok h c m : ram_inv m -> total_guest_ram m mod 4096 = 0 ->
    3 * 4096 <= total_guest_ram m < 2 ^ 48 ->
    (forall g, total_guest_ram m - 3 * 4096 <= g < total_guest_ram m -> covered_gpa m g) ->
    exists h', vo_create_guest_page_tables (Some c) h m =
        Done (if vo_buffer then 0 else - ENOMEM)
             (h', if vo_buffer then Some (total_guest_ram m - 3 * 4096) else None) /\
      h_words h' = h_words h /\ h_live h' = h_live h
}.

Section Vm.
Context {MO : MemOps} {VO : VmOps MO} {ops : vcpu_arch_ops}.

(** [vcpus] is [None] for the NULL array. *)
Record relm_vm := RelmVm {
  vm_id : Z; vm_name : string; vm_memory : vm_mem; pml4_gpa : Z;
  max_vcpus : Z; online_vcpus : Z; vcpus : option (list (option sys));
  vm_st : vm_state; vm_start_time_ns : Z
}.

Definition vm_with_memory (vm : relm_vm) (m : vm_mem) : relm_vm :=
  RelmVm (vm_id vm) (vm_name vm) m (pml4_gpa vm) (max_vcpus vm) (online_vcpus vm) (vcpus vm) (vm_st vm) (vm_start_time_ns vm).
Definition vm_with_root (vm : relm_vm) (root : option Z) : relm_vm :=
  RelmVm (vm_id vm) (vm_name vm) (vm_memory vm) (default (pml4_gpa vm) root) (max_vcpus vm) (online_vcpus vm) (vcpus vm)
    (vm_st vm) (vm_start_time_ns vm).
Definition vm_with_vcpus (vm : relm_vm) (l : list (option sys)) (online : Z) : relm_vm :=
  RelmVm (vm_id vm) (vm_name vm) (vm_memory vm) (pml4_gpa vm) (max_vcpus vm) online (Some l) (vm_st vm) (vm_start_time_ns vm).
Definition vm_with_state (vm : relm_vm) (s : vm_state) : relm_vm :=
  RelmVm (vm_id vm) (vm_name vm) (vm_memory vm) (pml4_gpa vm) (max_vcpus vm) (online_vcpus vm) (vcpus vm) s (vm_start_time_ns vm).
Definition vm_started_at (vm : relm_vm) (now : Z) : relm_vm :=
  RelmVm (vm_id vm) (vm_name vm) (vm_memory vm) (pml4_gpa vm) (max_vcpus vm) (online_vcpus vm) (vcpus vm) (vm_st vm) now.

(** ** Introspection operations: the backend's table, patched with the generic ones *)
Record relm_vm_operations := VmOperations {
  op_vm_init : option (relm_vm -> Z * relm_vm);
  op_vm_destroy : option (relm_vm -> relm_vm);
  op_add_vcpu : option (relm_vm -> Z -> access relm_vm);
  op_get_uptime : option (Z -> relm_vm -> Z);
  op_get_cpu_utilization : option (relm_vm -> Z)
}.

Definition relm_op_get_uptime (now : Z) (vm : relm_vm) : Z := u64 (now - vm_start_time_ns vm).
Definition relm_op_get_cpu_utilization (vm : relm_vm) : Z := 0.

Definition relm_vm_ops_merg (a : relm_vm_operations) : relm_vm_operations :=
  VmOperations (op_vm_init a) (op_vm_destroy a) (op_add_vcpu a)
    (Some (default relm_op_get_uptime (op_get_uptime a)))
    (Some (default relm_op_get_cpu_utilization (op_get_cpu_utilization a))).

(** ** Creation *)
Definition relm_vm_create_guest_page_tables (h : host) (vm : relm_vm) : access (host * relm_vm) :=
  match vo_create_guest_page_tables (v_ctx (vm_memory vm)) h (v_mem (vm_memory vm)) with
  | Done ret (h, root) => Done ret (h, vm_with_root vm root)
  | Oops => Oops
  | OutOfFuel => OutOfFuel
  end.

Context {PA : PageAlloc}.

(** [_out_free_mmu]: the context goes, then the VM itself. *)
Definition out_free_mmu (h : host) (vm : relm_vm) : access (host * option relm_vm) :=
  Done 0 (fst (mo_destroy h (v_ctx (vm_memory vm))), None).

(** [_out_free_memory] *)
Definition out_free_memory (h : host) (vm : relm_vm) : access (host * option relm_vm) :=
  let '(h, m) := relm_vm_free_guest_mem h (vm_memory vm) in out_free_mmu h (vm_with_memory vm m).

(** [kz_vcpus]: whether the array of vCPU pointers can be allocated. *)
Definition finish_create (kz_vcpus : bool) (h : host) (vm : relm_vm) : access (host * option relm_vm) :=
  if negb kz_vcpus then out_free_memory h vm
  else Done 0 (h, Some (vm_with_state (vm_with_vcpus vm (replicate (Z.to_nat (max_vcpus vm)) None) (online_vcpus vm))
                          VM_STATE_INITIALIZED)).

(** The name is cut at 15 characters and the terminator.  The result is the returned
    pointer, [None] for NULL. *)
Definition relm_create_vm (kz_vm kz1 kz2 kz_vcpus : bool) (h : host) (id : Z) (name : option string) (ram_size : Z)
    : access (host * option relm_vm) :=
  if negb kz_vm then Done 0 (h, None)
  else
    let nm := match name with Some n => n | None => "vm-" +:+ pretty id end in
    let vm := RelmVm id (strscpy RELM_VM_NAME_LEN nm) (VmMem _ None vm_memory0) 0
                RELM_MAX_VCPUS 0 None VM_STATE_CREATED 0 in
    match vo_setup h with
    | (ret, h, c) =>
        let vm := vm_with_memory vm (VmMem _ c vm_memory0) in
        if ret <? 0 then Done 0 (h, None)
        else if 0 <? ram_size then
          match relm_vm_allocate_guest_ram kz1 kz2 h (vm_memory vm) ram_size 0 with
          | (ret, h, m) =>
              let vm := vm_with_memory vm m in
              if ret <? 0 then out_free_mmu h vm
              else
                match relm_vm_create_guest_page_tables h vm with
                | Done ret (h, vm) => if ret <? 0 then out_free_mmu h vm else finish_create kz_vcpus h vm
                | Oops => Oops
                | OutOfFuel => OutOfFuel
                end
          end
        else finish_create kz_vcpus h vm
    end.

(** ** vCPUs of a VM *)

(** [kz], [stack]: the two allocations of relm_vcpu_create. *)
Definition store_vcpu (vm : relm_vm) (index : Z) (r : Z + vcpu arch) : access relm_vm :=
  match r, vcpus vm with
  | inl err, _ => Done err vm
  | inr v, Some l =>
      if (0 <=? index) && (index <? Z.of_nat (length l)) then
        Done 0 (vm_with_vcpus vm (<[Z.to_nat index := Some (fresh (set_target v HOST_CPU_ID))]> l) (online_vcpus vm + 1))
      else Oops
  | inr _, None => Oops
  end.

Definition vmx_add_vcpu (kz : bool) (stack : option Z) (vm : relm_vm) (vpid : Z) : access relm_vm :=
  store_vcpu vm (VPID_TO_INDEX vpid) (relm_vcpu_create kz stack vpid).

Definition svm_add_vcpu (kz : bool) (stack : option Z) (vm : relm_vm) (vpid : Z) : access relm_vm :=
  if (vpid <? 0) || (max_vcpus vm <=? vpid) then Done (- EINVAL) vm
  else store_vcpu vm vpid (relm_vcpu_create kz stack vpid).

Definition vmx_vm_ops (kz : bool) (stack : option Z) : relm_vm_operations :=
  VmOperations (Some (fun vm => (0, vm))) (Some (fun vm => vm)) (Some (vmx_add_vcpu kz stack)) None None.
Definition svm_vm_ops (kz : bool) (stack : option Z) : relm_vm_operations :=
  VmOperations (Some (fun vm => (0, vm))) (Some (fun vm => vm)) (Some (svm_add_vcpu kz stack)) None None.

(** [arch_ops] is the table creation merged into the VM. *)
Definition relm_vm_add_vcpu (arch_ops : relm_vm_operations) (vm : relm_vm) (vpid : Z) : access relm_vm :=
  if negb (VPID_IS_VALID vpid (max_vcpus vm)) then Done (- EINVAL) vm
  else
    match vcpus vm with
    | None => Oops
    | Some l =>
        match l !! Z.to_nat (VPID_TO_INDEX vpid) with
        | None => Oops
        | Some (Some _) => Done (- EEXIST) vm
        | Some None =>
            match op_add_vcpu (relm_vm_ops_merg arch_ops) with
            | None => Done (- ENOTSUPP) vm
            | Some add => add vm vpid
            end
        end
    end.

Definition relm_vm_get_vcpu (vm : relm_vm) (vpid : Z) : option sys :=
  if vpid =? 0 then None
  else
    match vcpus vm with
    | None => None
    | Some l => if negb (VPID_IS_VALID vpid (max_vcpus vm)) then None
                else mjoin (l !! Z.to_nat (VPID_TO_INDEX vpid))
    end.

(** ** Start, stop, destruction *)
Context (cpu_possible cpu_online : Z -> bool) (set_cpus_allowed : Z -> Z).
Context (before during : nat -> list Z) (now : Z).

(** [kthread_stop]: ask, and let the thread run until the schedule ends. *)
Definition kthread_stop (i : nat) (s : sys) : sys :=
  run_thread cpu_possible cpu_online set_cpus_allowed (during i)
    (vcpu_stop_begin (run_thread cpu_possible cpu_online set_cpus_allowed (before i) s)).

(** The loop over the slots that stops every vCPU that has a task. *)
Fixpoint stop_vcpus (i : nat) (l : list (option sys)) : option (list (option sys)) :=
  match l with
  | [] => Some []
  | None :: l => cons None <$> stop_vcpus (S i) l
  | Some s :: l =>
      match host_task (s_vcpu s) with
      | None => cons (Some s) <$> stop_vcpus (S i) l
      | Some _ =>
          match vcpu_stop_end now (kthread_stop i s) with
          | None => None
          | Some (_, s) => cons (Some s) <$> stop_vcpus (S i) l
          end
      end
  end.

Definition relm_stop_vm (vm : relm_vm) : access relm_vm :=
  match vcpus vm with
  | None => Done (- EINVAL) vm
  | Some l =>
      match stop_vcpus 0 l with
      | None => OutOfFuel
      | Some l => Done 0 (vm_with_state (vm_with_vcpus vm l (online_vcpus vm)) VM_STATE_STOPPED)
      end
  end.

(** [task i]: what kthread_create returns for slot [i], and the CPU the thread starts
    on.  The result is [ret], the number of vCPUs that run, and the slots. *)
Context (task : nat -> Z + Z) (cpu : nat -> Z).

Fixpoint start_vcpus (i : nat) (l : list (option sys)) : Z * Z * list (option sys) :=
  match l with
  | [] => (0, 0, [])
  | None :: l => let '(ret, n, l) := start_vcpus (S i) l in (ret, n, None :: l)
  | Some s :: l =>
      match host_task (s_vcpu s) with
      | Some _ => let '(ret, n, l) := start_vcpus (S i) l in (ret, n + 1, Some s :: l)
      | None =>
          let '(ret, s) := relm_vcpu_run (task i) now (cpu i) s in
          if ret <? 0 then (ret, 0, Some s :: l)
          else let '(ret, n, l) := start_vcpus (S i) l in (ret, n + 1, Some s :: l)
      end
  end.

Definition relm_run_vm (vm : relm_vm) : access relm_vm :=
  if negb (bool_decide (vm_st vm = VM_STATE_INITIALIZED)) && negb (bool_decide (vm_st vm = VM_STATE_STOPPED))
  then Done (- EINVAL) vm
  else if online_vcpus vm =? 0 then Done (- ENOENT) vm
  else
    let vm := vm_with_state (vm_started_at vm now) VM_STATE_RUNNING in
    match vcpus vm with
    | None => Oops
    | Some l =>
        let '(ret, started, l) := start_vcpus 0 l in
        if ret <? 0 then
          match stop_vcpus 0 l with
          | None => OutOfFuel
          | Some l => Done ret (vm_with_state (vm_with_vcpus vm l (online_vcpus vm)) VM_STATE_INITIALIZED)
          end
        else
          let vm := vm_with_vcpus vm l (online_vcpus vm) in
          if started =? 0 then Done (- EIO) (vm_with_state vm VM_STATE_STOPPED) else Done 0 vm
    end.

(** The backend's part of the vCPU is released; the rest is freed with it. *)
Definition relm_vcpu_free (s : sys) : sys :=
  match vcpu_free with
  | None => s
  | Some f => Sys (f (s_vcpu s)) (s_thread s) (s_stop s) (s_cpu s) (s_current s) (s_log s) (s_uaf s)
  end.

(** The vCPUs that are freed, as they are then. *)
Fixpoint destroy_vcpus (i : nat) (l : list (option sys)) : option (list sys) :=
  match l with
  | [] => Some []
  | None :: l => destroy_vcpus (S i) l
  | Some s :: l =>
      match host_task (s_vcpu s) with
      | None => cons (relm_vcpu_free s) <$> destroy_vcpus (S i) l
      | Some _ =>
          let s := kthread_stop i s in
          match s_thread s with
          | Some (Exited _) => cons (relm_vcpu_free s) <$> destroy_vcpus (S i) l
          | _ => None
          end
      end
  end.

Definition relm_destroy_vm (h : host) (vm : relm_vm) : access (host * list sys) :=
  match match vcpus vm with Some l => destroy_vcpus 0 l | None => Some [] end with
  | None => OutOfFuel
  | Some freed =>
      let '(h, m) := relm_vm_free_guest_mem h (vm_memory vm) in
      Done 0 (fst (mo_destroy h (v_ctx m)), freed)
  end.
End Vm.

(** ** The x86 backends *)

(** [cap], [ecx], [edx]: what the processor reports; [kz], [kzb]: the allocations of
    the context and of the table buffer. *)
Definition vmx_vmops {PA : PageAlloc} (cap : Z) (kz kzb : bool) (kmap : Z -> bool) : VmOps vmx_mem_ops := {|
  vo_setup h := (relm_setup_ept cap kz h None : Z * host * option (@mo_ctx vmx_mem_ops));
  vo_buffer := kzb;
  vo_create_guest_page_tables c := (relm_ept_create_guest_page_tables kmap kzb (c : option ept_context))
|}.
Definition svm_vmops {PA : PageAlloc} (ecx edx : Z) (kz kzb : bool) (kmap : Z -> bool) : VmOps svm_mem_ops := {|
  vo_setup h := (relm_setup_npt ecx edx kz h None : Z * host * option (@mo_ctx svm_mem_ops));
  vo_buffer := kzb;
  vo_create_guest_page_tables c := (relm_npt_create_guest_page_tables kmap kzb (c : option npt_context))
|}.

Lemma tables_promise (kmap : Z -> bool) (kzb : bool) h m : (forall p, kmap p = true) ->
  ram_inv m -> total_guest_ram m mod 4096 = 0 -> 3 * 4096 <= total_guest_ram m < 2 ^ 48 ->
  (forall g, total_guest_ram m - 3 * 4096 <= g < total_guest_ram m -> covered_gpa m g) ->
  exists h', build_guest_page_tables kmap kzb h m =
      Done (if kzb then 0 else - ENOMEM) (h', if kzb then Some (total_guest_ram m - 3 * 4096) else None) /\
    h_words h' = h_words h /\ h_live h' = h_live h.
Proof.
  intros Hk RI Ha Hr Hc. destruct kzb; [|by exists h].
  destruct (build_tables_spec kmap h m RI Hk Ha Hr Hc) as (h' & E & W & L & _). by exists h'.
Qed.

Section Backends.
Context `{PAok : PageAllocOk} (kmap : Z -> bool) (Hk : forall p, kmap p = true).

Lemma vmx_vmops_ok cap kz kzb : VmOpsOk (vmx_vmops cap kz kzb kmap).
Proof.
  split; [|intros; by apply tables_promise].
  intros h r h' o. cbn [vo_setup vmx_vmops]. unfold relm_setup_ept.
  destruct (negb (relm_ept_check_support cap)); [intros E; injection E as <- <- <-; right; by split|].
  destruct (relm_ept_context_create kz h) as [[e|ept] h1] eqn:E; intros X; injection X as <- <- <-; [right|left].
  - unfold relm_ept_context_create in E. destruct kz; [|by injection E as <- <-].
    cbn [negb] in E. destruct (get_zeroed_page h) as [[root|] h2] eqn:G; simplify_eq.
    destruct (get_zeroed_page_None _ _ G) as (_ & _ & ?). done.
  - destruct (ept_create_ok _ _ _ _ E) as (Ok & L & F & _). split; [done|].
    exists ept, {[pml4 ept]}. split_and!; [done|done|set_solver|rewrite L; set_solver].
Qed.

Lemma svm_vmops_ok ecx edx kz kzb : VmOpsOk (svm_vmops ecx edx kz kzb kmap).
Proof.
  split; [|intros; by apply tables_promise].
  intros h r h' o. cbn [vo_setup svm_vmops]. unfold relm_setup_npt.
  destruct (negb (relm_npt_check_support ecx edx)); [intros E; injection E as <- <- <-; right; by split|].
  destruct (relm_npt_context_create kz h) as [[e|npt] h1] eqn:E; intros X; injection X as <- <- <-; [right|left].
  - unfold relm_npt_context_create in E. destruct kz; [|by injection E as <- <-].
    cbn [negb] in E. destruct (get_zeroed_page h) as [[root|] h2] eqn:G; simplify_eq.
    destruct (get_zeroed_page_None _ _ G) as (_ & _ & ?). done.
  - destruct (npt_create_ok _ _ _ _ E) as (Ok & L & F & _). split; [done|].
    exists npt, {[npt_pml4 npt]}. split_and!; [done|done|set_solver|rewrite L; set_solver].
Qed.
End Backends.

(** ** Creation and the pages it takes *)
Section Create.
Context `{PAok : PageAllocOk} {MO : MemOps} {MOok : MemOpsOk MO} {VO : VmOps MO} {VOok : VmOpsOk VO}.
Context {ops : vcpu_arch_ops}.

(** The VM's memory is valid, and the pages in use are those of [base], the tables
    and the RAM pages, which were not in [base]. *)
Definition vm_ok (base : gset Z) (h : host) (vm : relm_vm) : Prop := exists c T,
  v_ctx (vm_memory vm) = Some c /\ vm_inv h c (v_mem (vm_memory vm)) T /\
  (forall x, x ∈ h_live h <-> x ∈ base \/ x ∈ T \/ exists g, ram_at (v_mem (vm_memory vm)) g x) /\
  (forall x, x ∈ T \/ (exists g, ram_at (v_mem (vm_memory vm)) g x) -> x ∉ base).

Lemma no_ram_at g p : ~ ram_at vm_memory0 g p.
Proof. by intros (? & ? & []%not_elem_of_nil & _). Qed.

Lemma vm_inv_empty h c T : mo_inv h c T -> vm_inv h c vm_memory0 T.
Proof.
  intros I. split; [done| | |].
  - split; [by intros r []%not_elem_of_nil|by intros r r' g []%not_elem_of_nil|].
    by intros g g' p []%no_ram_at.
  - by intros g p []%no_ram_at.
  - by intros g p []%no_ram_at.
Qed.

Lemma vm_inv_words h h' c m T : vm_inv h c m T -> h_words h' = h_words h -> h_live h' = h_live h -> vm_inv h' c m T.
Proof.
  intros V W L. destruct (mo_frame h h' c T (vi_ctx _ _ _ _ V)) as [I E].
  { intros t i _. unfold rd64. by rewrite W. }
  { rewrite L. apply (mo_live _ _ _ (vi_ctx _ _ _ _ V)). }
  split; [done|apply V| |].
  - intros g p At. rewrite L. by eapply (vi_page _ _ _ _ V).
  - intros g p At. rewrite E. by apply (vi_translate _ _ _ _ V).
Qed.

Lemma vm_ok_words base h h' vm : vm_ok base h vm -> h_words h' = h_words h -> h_live h' = h_live h -> vm_ok base h' vm.
Proof.
  intros (c & T & Ec & V & L & F) W E. exists c, T. split_and!; try done; [by eapply vm_inv_words|].
  intros x. by rewrite E.
Qed.

(** Releasing RAM and tables leaves the pages of [base]. *)
Lemma release_all base h vm h' m : vm_ok base h vm -> relm_vm_free_guest_mem h (vm_memory vm) = (h', m) ->
  h_live (fst (mo_destroy h' (v_ctx m))) = base.
Proof.
  intros (c & T & Ec & V & L & F) E. destruct (vm_memory vm) as [o m0]. cbn [v_ctx v_mem] in *. subst o.
  destruct (free_mem_spec _ _ _ _ _ _ V E) as (L' & I & Ec' & _). rewrite Ec'.
  destruct (mo_destroy h' (Some c)) as [h2 o2] eqn:D. cbn [fst].
  destruct (mo_destroy_ok _ _ _ _ _ I D) as [_ ->]. apply set_eq. intros x.
  rewrite elem_of_difference, L', L. split.
  - intros [[[?|[?|[g ?]]] N] ?]; [done|done|]. by destruct (N g).
  - intros B. split_and!; [by left| |].
    + intros g At. apply (F x); [right; by exists g|done].
    + intros Ht. apply (F x); [by left|done].
Qed.

Lemma out_free_mmu_spec h vm base T c : v_ctx (vm_memory vm) = Some c -> mo_inv h c T ->
  T ## base -> h_live h = base ∪ T -> exists h', out_free_mmu h vm = Done 0 (h', None) /\ h_live h' = base.
Proof.
  intros Ec I D L. unfold out_free_mmu. rewrite Ec. destruct (mo_destroy h (Some c)) as [h' o] eqn:E.
  exists h'. split; [done|]. destruct (mo_destroy_ok _ _ _ _ _ I E) as [_ ->]. rewrite L. set_solver.
Qed.

Lemma finish_create_spec kz base h vm : vm_ok base h vm -> exists h' o, finish_create kz h vm = Done 0 (h', o) /\
  match o with
  | None => h_live h' = base
  | Some vm' => h' = h /\ vm' = vm_with_state (vm_with_vcpus vm (replicate (Z.to_nat (max_vcpus vm)) None)
                                    (online_vcpus vm)) VM_STATE_INITIALIZED
  end.
Proof.
  intros Ok. unfold finish_create. destruct kz; cbn [negb].
  - by exists h, (Some (vm_with_state (vm_with_vcpus vm (replicate (Z.to_nat (max_vcpus vm)) None)
                                    (online_vcpus vm)) VM_STATE_INITIALIZED)).
  - unfold out_free_memory, out_free_mmu. destruct (relm_vm_free_guest_mem h (vm_memory vm)) as [h1 m1] eqn:E.
    eexists _, None. split; [done|]. by eapply release_all.
Qed.

(** What creation hands out. *)
Record created (base : gset Z) (ram_size : Z) (h : host) (vm : relm_vm) : Prop := Created {
  cr_ok : vm_ok base h vm;
  cr_state : vm_st vm = VM_STATE_INITIALIZED;
  cr_max : max_vcpus vm = RELM_MAX_VCPUS;
  cr_slots : vcpus vm = Some (replicate (Z.to_nat RELM_MAX_VCPUS) None) /\ online_vcpus vm = 0;
  cr_ram : total_guest_ram (v_mem (vm_memory vm)) = PAGE_ALIGN ram_size;
  cr_covered g : 0 <= g < PAGE_ALIGN ram_size -> covered_gpa (v_mem (vm_memory vm)) g;
  cr_root : pml4_gpa vm = if ram_size =? 0 then 0 else PAGE_ALIGN ram_size - 3 * 4096
}.

(** The part after [setup] and the name: guest RAM, its tables, the vCPU array. *)
Lemma create_with_ram kz1 kz2 kzv base h vm c T size :
  vm_memory vm = VmMem _ (Some c) vm_memory0 -> mo_inv h c T -> T ## base -> h_live h = base ∪ T ->
  max_vcpus vm = RELM_MAX_VCPUS -> online_vcpus vm = 0 -> 2 * 4096 < size <= 2 ^ 47 ->
  exists h' o,
    match relm_vm_allocate_guest_ram kz1 kz2 h (vm_memory vm) size 0 with
    | (ret, h, m) =>
        let vm := vm_with_memory vm m in
        if ret <? 0 then out_free_mmu h vm
        else match relm_vm_create_guest_page_tables h vm with
             | Done ret (h, vm) => if ret <? 0 then out_free_mmu h vm else finish_create kzv h vm
             | Oops => Oops
             | OutOfFuel => OutOfFuel
             end
    end = Done 0 (h', o) /\
    match o with Some vm' => created base size h' vm' | None => vo_buffer = true -> h_live h' = base end.
Proof.
  intros Em I D L Hmax Hon Hs. rewrite Em.
  destruct (kz1 && kz2) eqn:Kz.
  2: { unfold relm_vm_allocate_guest_ram.
    assert (forall A (x y : A), (if negb kz1 then x else if negb kz2 then x else y) = x) as ->
      by (intros; destruct kz1, kz2; done). cbn [Z.ltb Z.compare].
    destruct (out_free_mmu_spec h (vm_with_memory vm (VmMem _ (Some c) vm_memory0)) base T c eq_refl I D L)
      as (h' & E & ?). exists h', None. by split. }
  apply andb_true_iff in Kz as [-> ->].
  destruct (page_align_pages size ltac:(lia) ltac:(lia)) as (Pn & Pe & Pb).
  destruct (relm_vm_allocate_guest_ram true true h (VmMem _ (Some c) vm_memory0) size 0) as [[r h1] m1] eqn:E.
  destruct (alloc_ram_spec h h1 c vm_memory0 T size 0 r m1 (vm_inv_empty _ _ _ I) ltac:(lia) eq_refl ltac:(lia)
    ltac:(lia) ltac:(by intros x []%not_elem_of_nil) E) as (c1 & T1 & Ec & Sub & Fr & I1 & R).
  assert (T1 ## base) as D1 by (intros x [?|?]%Fr ?; set_solver).
  destruct R as [(-> & V1 & Cv & _ & Tot & new & L1 & Fn & Rn)|(-> & _ & L1)].
  2: { cbn [Z.ltb Z.compare]. destruct (out_free_mmu_spec h1 (vm_with_memory vm m1) base T1 c1 Ec I1 D1)
      as (h' & E' & ?); [rewrite L1, L; set_solver|]. exists h', None. by split. }
  cbn [Z.ltb Z.compare].
  change (total_guest_ram vm_memory0) with 0 in Tot. rewrite Z.add_0_l, u64_small in Tot by lia.
  destruct (vo_tables_ok h1 c1 (v_mem m1) (vi_ram _ _ _ _ V1)) as (h2 & E2 & W2 & L2);
    [rewrite Tot; zdm|rewrite Tot; zdm|intros g Hg; apply Cv; zdm|].
  unfold relm_vm_create_guest_page_tables. cbn [vm_with_memory vm_memory]. rewrite Ec, E2, Tot.
  pose proof (vm_inv_words _ h2 _ _ _ V1 W2 L2) as V2.
  destruct vo_buffer eqn:Bf; cbn [Z.ltb Z.compare Z.opp ENOMEM].
  2: { unfold out_free_mmu. by eexists _, None. }
  set (vm2 := vm_with_root _ _).
  assert (vm_ok base h2 vm2) as Ok.
  { exists c1, T1. split_and!; [done|done| |].
    - intros x. cbn [vm2 vm_memory vm_with_root vm_with_memory]. rewrite L2, L1, L, Rn.
      rewrite !elem_of_union, elem_of_list_to_set. pose proof (Sub x). split.
      + intros [[[?|?]|?]|?]; auto.
      + intros [?|[?|[?|[? []%no_ram_at]]]]; auto.
    - intros x [Hx|Hx%Rn]; [intros Hb; by apply (D1 x)|]. destruct Hx as [Hx|[? []%no_ram_at]].
      apply Fn in Hx. rewrite L in Hx. set_solver. }
  destruct (finish_create_spec kzv base h2 vm2 Ok) as (h' & o & -> & F). exists h', o. split; [done|].
  destruct o as [vm'|]; [|done]. destruct F as [-> ->]. split; [exact Ok|done| | | | |].
  - exact Hmax.
  - cbn. by rewrite Hmax, Hon.
  - exact Tot.
  - intros g Hg. by apply Cv.
  - cbn. by rewrite (proj2 (Z.eqb_neq size 0)) by lia.
Qed.

(** Creation of a VM without RAM or with at least three pages of it, whatever
    allocations fail. *)
Lemma create_spec kz_vm kz1 kz2 kzv h id name size : size = 0 \/ 2 * 4096 < size <= 2 ^ 47 ->
  exists h' o, relm_create_vm kz_vm kz1 kz2 kzv h id name size = Done 0 (h', o) /\
    match o with
    | Some vm => created (h_live h) size h' vm
    | None => vo_buffer = true \/ size = 0 -> h_live h' = h_live h
    end.
Proof.
  intros Hs. unfold relm_create_vm. destruct kz_vm; cbn [negb]; [|by exists h, None].
  destruct (vo_setup h) as [[r h1] o1] eqn:Es.
  destruct (vo_setup_ok _ _ _ _ Es) as [(-> & c & T & -> & I & D & L)|(Hr & L)].
  2: { rewrite (proj2 (Z.ltb_lt r 0)) by done. by exists h1, None. }
  cbn [Z.ltb Z.compare]. cbv zeta. set (vm := vm_with_memory _ _). destruct Hs as [->|Hs].
  - cbn [Z.ltb Z.compare].
    assert (vm_ok (h_live h) h1 vm) as Ok.
    { exists c, T. split_and!; [done|by apply vm_inv_empty| |].
      - intros x. rewrite L, elem_of_union. split; [tauto|]. intros [?|[?|[? []%no_ram_at]]]; auto.
      - intros x [Hx|[? []%no_ram_at]] Hb. by apply (D x). }
    destruct (finish_create_spec kzv _ _ _ Ok) as (h' & o & -> & F). exists h', o. split; [done|].
    destruct o; [|done]. destruct F as [-> ->]. split; try done. change (PAGE_ALIGN 0) with 0. lia.
  - rewrite (proj2 (Z.ltb_lt 0 size)) by lia.
    destruct (create_with_ram kz1 kz2 kzv (h_live h) h1 vm c T size eq_refl I D L eq_refl eq_refl Hs)
      as (h' & o & E & P). exists h', o. split; [exact E|].
    destruct o; [done|]. intros [?| ->]; [by apply P|lia].
Qed.
End Create.

(** ** The vCPU slots *)
Section Slots.
Context {MO : MemOps} {ops : vcpu_arch_ops} (OK : ops_ok ops).
Context (cpu_possible cpu_online : Z -> bool) (set_cpus_allowed : Z -> Z).
Local Notation vcpu_inv := (vcpu_inv HOST_CPU_ID).
Local Notation kthread_stop := (kthread_stop cpu_possible cpu_online set_cpus_allowed).
Local Notation stop_vcpus := (stop_vcpus cpu_possible cpu_online set_cpus_allowed).
Local Notation destroy_vcpus := (destroy_vcpus cpu_possible cpu_online set_cpus_allowed).

(** A schedule on which every thread asked to stop gets five steps, the first on the
    CPU it is bound to. *)
Definition fair (during : nat -> list Z) : Prop := forall i, exists pre post,
  during i = pre ++ HOST_CPU_ID :: post /\ (4 <= length post)%nat.

Definition slot_inv (o : option sys) : Prop := match o with Some s => vcpu_inv s | None => True end.
(** No thread, no task: stopped, or never started. *)
Definition slot_idle (o : option sys) : Prop :=
  match o with Some s => vcpu_inv s /\ host_task (s_vcpu s) = None /\ s_thread s = None | None => True end.

Lemma inv_task_thread s : vcpu_inv s -> (host_task (s_vcpu s) = None <-> s_thread s = None).
Proof.
  intros [_ I]. destruct (s_thread s); [destruct I as [[t ->] _]; done|]. destruct I as (-> & _). done.
Qed.

(** A caller of [kthread_stop] returns. *)
Lemma kthread_stop_returns before during i s t : fair during -> vcpu_inv s -> host_task (s_vcpu s) = Some t ->
  vcpu_inv (kthread_stop before during i s) /\ exited (kthread_stop before during i s).
Proof.
  intros Fr I Ht. unfold kthread_stop. destruct (Fr i) as (pre & post & -> & Hl).
  set (s1 := run_thread _ _ _ (before i) s).
  assert (vcpu_inv s1) as I1 by (by apply run_thread_inv).
  assert (s_thread s1 <> None) as Th.
  { assert (s_thread s <> None) as Hs by (intros N%inv_task_thread; congruence).
    unfold s1. clear -Hs. revert s Hs. induction (before i) as [|c cs IH]; intros s Hs; cbn [run_thread]; [done|].
    apply IH. destruct (thread_step _ _ _ c s) eqn:E; [|done]. simpl.
    unfold thread_step in E. repeat case_match; simplify_eq/=; congruence. }
  assert (vcpu_inv (vcpu_stop_begin s1)) as I2 by (eapply (step_inv OK cpu_possible cpu_online set_cpus_allowed); [done|apply SStop]).
  split; [by apply run_thread_inv|].
  destruct (host_task (s_vcpu s1)) as [t1|] eqn:Et; [|by apply inv_task_thread in Et].
  destruct (s_thread s1) as [p|] eqn:Ep; [|done].
  assert (exited s1 \/ s_stop (vcpu_stop_begin s1) = true /\ s_thread (vcpu_stop_begin s1) = Some p) as [X|[Hs Hp]].
  { unfold vcpu_stop_begin, exited. rewrite Et, Ep. destruct p; simpl; eauto. }
  - apply exited_stays. destruct X as [r X]. exists r. unfold vcpu_stop_begin. rewrite Et, X. done.
  - eapply stop_sched; try done. apply I2.
Qed.

Lemma stop_vcpus_spec before during now i l : fair during -> Forall slot_inv l ->
  exists l', stop_vcpus before during now i l = Some l' /\ Forall slot_idle l' /\
    Forall2 (fun o o' => is_Some o <-> is_Some o') l l'.
Proof.
  intros Fr F. revert i. induction F as [|o l Ho F IH]; intros i; [by exists []|].
  destruct (IH (S i)) as (l' & E & Fl & Sh). destruct o as [s|]; cbn [Vm.stop_vcpus].
  2: { rewrite E. exists (None :: l'). split_and!; [done|by constructor|by constructor]. }
  destruct (host_task (s_vcpu s)) as [t|] eqn:Et.
  2: { rewrite E. exists (Some s :: l'). split_and!; [done| |by constructor].
    constructor; [|done]. split_and!; [done|done|]. by apply inv_task_thread. }
  destruct (kthread_stop_returns before during i s t Fr Ho Et) as [I [r X]].
  set (s' := kthread_stop before during i s) in *. destruct I as [It I]. rewrite X in I. destruct I as [[t' Et'] En].
  unfold vcpu_stop_end. rewrite Et', X, E. eexists (Some _ :: l'). split_and!; [done| |by constructor].
  constructor; [|done]. split_and!; [|done|done]. split; [done|]. simpl. by split_and!.
Qed.

Lemma destroy_vcpus_spec before during i l : fair during -> Forall slot_inv l ->
  exists freed, destroy_vcpus before during i l = Some freed /\
    Forall (fun s => s_thread s = None \/ exited s) freed /\ length freed = length (omap id l).
Proof.
  intros Fr F. revert i. induction F as [|o l Ho F IH]; intros i; [by exists []|].
  destruct (IH (S i)) as (l' & E & Fl & Ln). destruct o as [s|]; cbn [Vm.destroy_vcpus omap list_omap id]; [|by exists l'].
  assert (forall s, s_thread (relm_vcpu_free s) = s_thread s) as Et by (intros s1; unfold relm_vcpu_free; by case_match).
  destruct (host_task (s_vcpu s)) as [t|] eqn:Eh.
  - destruct (kthread_stop_returns before during i s t Fr Ho Eh) as [_ [r X]].
    cbv zeta. rewrite X, E. eexists (_ :: l'). split_and!; [done| |simpl; by rewrite Ln].
    constructor; [|done]. right. exists r. by rewrite Et.
  - rewrite E. eexists (_ :: l'). split_and!; [done| |simpl; by rewrite Ln].
    constructor; [|done]. left. rewrite Et. by apply inv_task_thread.
Qed.

(** Every vCPU there has its thread. *)
Definition slot_started (o : option sys) : Prop :=
  match o with Some s => vcpu_inv s /\ is_Some (host_task (s_vcpu s)) | None => True end.
(** A vCPU that is not running can be started, and its thread can be created. *)
Definition slot_ready (task : nat -> Z + Z) (i : nat) (o : option sys) : Prop :=
  match o with
  | Some s => host_task (s_vcpu s) = None -> vc_state (s_vcpu s) = VCPU_STATE_INITIALIZED /\ exists t, task i = inr t
  | None => True
  end.

Lemma run_slot task now cpu s : vcpu_inv s -> host_task (s_vcpu s) = None -> (forall e, task = inl e -> e < 0) ->
  exists r s', relm_vcpu_run task now cpu s = (r, s') /\ vcpu_inv s' /\
    (r < 0 /\ ~ (vc_state (s_vcpu s) = VCPU_STATE_INITIALIZED /\ exists t, task = inr t) \/
     r = 0 /\ is_Some (host_task (s_vcpu s'))).
Proof.
  intros I Hn He. assert (vcpu_inv (snd (relm_vcpu_run task now cpu s))) as I'.
  { eapply (step_inv OK cpu_possible cpu_online set_cpus_allowed); [exact I|apply SRun]. }
  destruct (relm_vcpu_run task now cpu s) as [r s'] eqn:E. exists r, s'. split_and!; [done|done|].
  unfold relm_vcpu_run in E. rewrite Hn in E. case_bool_decide as St; cbn [negb] in E.
  - destruct task as [e|t]; simplify_eq/=; [left; split; [by apply He|]|right; split; [done|by eexists]].
    by intros [_ [t ?]].
  - simplify_eq. left. split; [done|]. by intros [? _].
Qed.

Lemma start_vcpus_spec task now cpu i l ret n l' : Forall slot_inv l -> (forall j e, task j = inl e -> e < 0) ->
  start_vcpus now task cpu i l = (ret, n, l') ->
  Forall slot_inv l' /\ Forall2 (fun o o' => is_Some o <-> is_Some o') l l' /\ 0 <= n /\
  (ret < 0 /\ ~ (forall j o, l !! j = Some o -> slot_ready task (i + j) o) \/
   ret = 0 /\ Forall slot_started l' /\ (n = 0 -> Forall (eq None) l)).
Proof.
  intros F He. revert i ret n l'. induction F as [|o l Ho F IH]; intros i ret n l'; cbn [start_vcpus].
  { intros [= <- <- <-]. split_and!; try done. by right. }
  assert (forall o, ~ (forall j o, l !! j = Some o -> slot_ready task (S i + j) o) ->
    ~ (forall j o', (o :: l) !! j = Some o' -> slot_ready task (i + j) o')) as Nx.
  { intros o1 N A. apply N. intros j o' Hj. specialize (A (S j) o' Hj). by rewrite Nat.add_succ_r in A. }
  destruct (start_vcpus now task cpu (S i) l) as [[r1 n1] l1] eqn:E1.
  destruct (IH _ _ _ _ E1) as (I1 & Sh & Hn & R).
  destruct o as [s|]; [destruct (host_task (s_vcpu s)) as [t|] eqn:Et|].
  - intros [= <- <- <-]. split_and!; [by constructor|by constructor|lia|].
    destruct R as [[? N]|(-> & St & _)]; [left; split; [done|by apply Nx]|right].
    split_and!; [done| |lia]. constructor; [|done]. split; [done|by rewrite Et].
  - destruct (run_slot (task i) now (cpu i) s Ho Et (He i)) as (r & s' & -> & I' & [[Hr N]|[-> Hs]]).
    + rewrite (proj2 (Z.ltb_lt r 0)) by done. intros [= <- <- <-]. split_and!; [by constructor| |done|].
      * constructor; [done|]. clear. induction l; by constructor.
      * left. split; [done|]. intros A. specialize (A 0%nat _ eq_refl Et). by rewrite Nat.add_0_r in A.
    + cbn [Z.ltb Z.compare]. intros [= <- <- <-]. split_and!; [by constructor|by constructor|lia|].
      destruct R as [[? N]|(-> & St & _)]; [left; split; [done|by apply Nx]|right].
      split_and!; [done| |lia]. by constructor.
  - intros [= <- <- <-]. split_and!; [by constructor|by constructor|lia|].
    destruct R as [[? N]|(-> & St & Z0)]; [left; split; [done|by apply Nx]|right].
    split_and!; [done|by constructor|]. intros ?. constructor; auto.
Qed.
End Slots.

(** ** Properties *)
Section Life.
Context `{PAok : PageAllocOk} {MO : MemOps} {MOok : MemOpsOk MO} {VO : VmOps MO} {VOok : VmOpsOk VO}.
Context {ops : vcpu_arch_ops} (OK : ops_ok ops).
(** The backend's allocation of its part of the vCPU leaves the generic part alone. *)
Context (OKalloc : forall f v, vcpu_alloc = Some f ->
  host_task (snd (f v)) = host_task v /\ vpid (snd (f v)) = vpid v).
Context (cpu_possible cpu_online : Z -> bool) (set_cpus_allowed : Z -> Z).
Local Notation vcpu_inv := (vcpu_inv HOST_CPU_ID).
Local Notation relm_run_vm := (relm_run_vm cpu_possible cpu_online set_cpus_allowed).
Local Notation relm_stop_vm := (relm_stop_vm cpu_possible cpu_online set_cpus_allowed).
Local Notation relm_destroy_vm := (relm_destroy_vm cpu_possible cpu_online set_cpus_allowed).
Local Notation vstep := (step cpu_possible cpu_online set_cpus_allowed).

(** The slots are the array of [max_vcpus] pointers: slot [i] holds the vCPU with
    VPID [i + 1] or nothing, and [online_vcpus] counts the vCPUs. *)
Record slots_ok (vm : relm_vm) (l : list (option sys)) : Prop := SlotsOk {
  so_vcpus : vcpus vm = Some l;
  so_length : Z.of_nat (length l) = max_vcpus vm;
  so_max : max_vcpus vm < 2 ^ 16;
  so_online : online_vcpus vm = Z.of_nat (length (omap id l));
  so_inv : Forall slot_inv l
}.

Lemma omap_shape (l l' : list (option (sys (ops := ops)))) : Forall2 (fun o o' => is_Some o <-> is_Some o') l l' ->
  length (omap id l) = length (omap id l').
Proof.
  induction 1 as [|[s|] [s'|] l l' [A B] _ IH]; cbn [omap list_omap id length]; [done|by rewrite IH| | |done].
  - destruct (A (ex_intro _ s eq_refl)). done.
  - destruct (B (ex_intro _ s' eq_refl)). done.
Qed.

Lemma idle_inv (l : list (option sys)) : Forall slot_idle l -> Forall slot_inv l.
Proof. intros F. eapply Forall_impl; [exact F|]. intros [s|]; [|done]. by intros [? _]. Qed.

Lemma slots_ok_update vm vm' l l' : slots_ok vm l -> vcpus vm' = Some l' -> max_vcpus vm' = max_vcpus vm ->
  online_vcpus vm' = online_vcpus vm -> Forall2 (fun o o' => is_Some o <-> is_Some o') l l' -> Forall slot_inv l' ->
  slots_ok vm' l'.
Proof.
  intros [] Ev Em Eo Sh F. split; [done| |congruence| |done].
  - rewrite <- (Forall2_length _ _ _ Sh). congruence.
  - rewrite <- (omap_shape _ _ Sh). congruence.
Qed.

Lemma create_vcpu_spec kz stack id v : relm_vcpu_create kz stack id = inr v ->
  vcpu_inv (fresh (set_target v HOST_CPU_ID)) /\ vpid v = u16 id.
Proof.
  unfold relm_vcpu_create. destruct vcpu_alloc as [f|] eqn:Ef; [|done]. destruct kz; [|done]. cbn [negb].
  destruct stack as [st|]; [|done].
  set (v0 := Vcpu (u16 id) 0 _ _ _ _ _ _ _ _). pose proof (OKalloc f v0 eq_refl) as [Ht Hv].
  destruct (f v0) as [r v1]. cbn [snd] in *. case_match; [done|]. intros [= <-].
  split; [|done]. by apply vcpu_inv_fresh.
Qed.

Lemma omap_insert_None (l : list (option (sys (ops := ops)))) i s : l !! i = Some None ->
  length (omap id (<[i := Some s]> l)) = S (length (omap id l)).
Proof.
  revert i. induction l as [|[o|] l IH]; intros [|i] Hi; try done; cbn [insert list_insert omap list_omap id length].
  - f_equal. by apply IH.
  - by apply IH.
Qed.

(** Adding a vCPU, on every branch. *)
Lemma add_result (kz : bool) (stack : option Z) (vm : relm_vm) (l : list (option sys)) (id : Z) :
  slots_ok vm l ->
  exists r vm', relm_vm_add_vcpu (vmx_vm_ops kz stack) vm id = Done r vm' /\
    ((vm' = vm /\ (VPID_IS_VALID id (max_vcpus vm) = false /\ r = - EINVAL \/
                   is_Some (relm_vm_get_vcpu vm id) /\ r = - EEXIST \/
                   relm_vm_get_vcpu vm id = None /\ relm_vcpu_create kz stack id = inl r)) \/
     (r = 0 /\ relm_vm_get_vcpu vm id = None /\ exists v l', relm_vcpu_create kz stack id = inr v /\
        relm_vm_get_vcpu vm' id = Some (fresh (set_target v HOST_CPU_ID)) /\ vpid v = id /\
        (forall id', id' <> id -> relm_vm_get_vcpu vm' id' = relm_vm_get_vcpu vm id') /\
        online_vcpus vm' = online_vcpus vm + 1 /\ vm_memory vm' = vm_memory vm /\ slots_ok vm' l')).
Proof.
  intros [Ev Ln Mx On Inv]. unfold relm_vm_add_vcpu, relm_vm_get_vcpu. rewrite Ev.
  destruct (VPID_IS_VALID id (max_vcpus vm)) eqn:Va; cbn [negb]; [|by eexists _, vm; split; [done|left; auto]].
  assert (1 <= id <= max_vcpus vm) as Hi by (unfold VPID_IS_VALID in Va; lia).
  rewrite (proj2 (Z.eqb_neq id 0)) by lia. unfold VPID_TO_INDEX.
  destruct (lookup_lt_is_Some_2 l (Z.to_nat (id - 1))) as [o Ho]; [lia|]. rewrite Ho.
  destruct o as [s|]; [eexists _, vm; split; [done|]; left; split; [done|]; right; left; split; [by exists s|done]|].
  cbn [op_add_vcpu relm_vm_ops_merg vmx_vm_ops]. unfold vmx_add_vcpu, store_vcpu. rewrite Ev.
  destruct (relm_vcpu_create kz stack id) as [e|v] eqn:Ec; [eexists _, vm; split; [done|]; left; auto|].
  unfold VPID_TO_INDEX. rewrite (proj2 (Z.leb_le 0 (id - 1))), (proj2 (Z.ltb_lt (id - 1) (Z.of_nat (length l)))) by lia. cbn [andb].
  destruct (create_vcpu_spec _ _ _ _ Ec) as [I Hv].
  eexists _, _. split; [done|]. right. split_and!; [done|done|].
  exists v, (<[Z.to_nat (id - 1) := Some (fresh (set_target v HOST_CPU_ID))]> l).
  cbn [vm_with_vcpus vcpus max_vcpus online_vcpus]. rewrite Va. cbn [negb]. split_and!; [done| | | |done|done|].
  - rewrite list_lookup_insert_eq; [done|]. by eapply lookup_lt_Some.
  - rewrite Hv. apply Z.mod_small. lia.
  - intros id' Hn. destruct (id' =? 0); [done|]. destruct (VPID_IS_VALID id' (max_vcpus vm)) eqn:Va'; [|done].
    cbn [negb]. f_equal. apply list_lookup_insert_ne. unfold VPID_IS_VALID in Va'. lia.
  - split; cbn [vcpus max_vcpus online_vcpus]; [done|by rewrite length_insert|done| |by apply Forall_insert].
    rewrite On, omap_insert_None, Nat2Z.inj_succ by done. reflexivity.
Qed.

Lemma add_spec kz stack vm l id : slots_ok vm l -> exists r vm' l',
  relm_vm_add_vcpu (vmx_vm_ops kz stack) vm id = Done r vm' /\ slots_ok vm' l' /\ vm_memory vm' = vm_memory vm.
Proof.
  intros So. destruct (add_result kz stack vm l id So) as (r & vm' & E & [[-> _]|(_ & _ & v & l' & _ & _ & _ & _ & _ & M & So')]).
  - by exists r, vm, l.
  - by exists r, vm', l'.
Qed.


(** ** Start and stop *)
Lemma stop_spec before during now vm l : slots_ok vm l -> fair during ->
  exists vm' l', relm_stop_vm before during now vm = Done 0 vm' /\ vm_st vm' = VM_STATE_STOPPED /\
    slots_ok vm' l' /\ Forall slot_idle l' /\ vm_memory vm' = vm_memory vm.
Proof.
  intros So Fr. unfold Vm.relm_stop_vm. rewrite (so_vcpus _ _ So).
  destruct (stop_vcpus_spec OK cpu_possible cpu_online set_cpus_allowed before during now 0 l Fr (so_inv _ _ So))
    as (l' & -> & Id & Sh).
  eexists _, l'. split_and!; [done|done| |done|done].
  by eapply slots_ok_update; [exact So|..|by apply idle_inv].
Qed.

Lemma run_spec before during now task cpu vm l :
  slots_ok vm l -> online_vcpus vm <> 0 -> vm_st vm = VM_STATE_INITIALIZED \/ vm_st vm = VM_STATE_STOPPED ->
  fair during -> (forall i e, task i = inl e -> e < 0) ->
  exists r vm' l', relm_run_vm before during now task cpu vm = Done r vm' /\ slots_ok vm' l' /\
    vm_memory vm' = vm_memory vm /\
    (r = 0 /\ vm_st vm' = VM_STATE_RUNNING /\ Forall slot_started l' \/
     r < 0 /\ vm_st vm' = VM_STATE_INITIALIZED /\ Forall slot_idle l') /\
    ((forall i o, l !! i = Some o -> slot_ready task i o) -> r = 0).
Proof.
  intros So Hon Hst Fr He. unfold Vm.relm_run_vm.
  assert (negb (bool_decide (vm_st vm = VM_STATE_INITIALIZED)) && negb (bool_decide (vm_st vm = VM_STATE_STOPPED)) = false)
    as -> by (destruct Hst as [-> | ->]; done).
  rewrite (proj2 (Z.eqb_neq _ 0)) by done. cbv zeta. cbn [vm_with_state vm_started_at vcpus]. rewrite (so_vcpus _ _ So).
  destruct (start_vcpus now task cpu 0 l) as [[r n] l1] eqn:E.
  destruct (start_vcpus_spec OK cpu_possible cpu_online set_cpus_allowed task now cpu 0 l r n l1 (so_inv _ _ So) He E)
    as (I1 & Sh1 & _ & [[Hr N]|(-> & St & Z0)]).
  - rewrite (proj2 (Z.ltb_lt r 0)) by done.
    destruct (stop_vcpus_spec OK cpu_possible cpu_online set_cpus_allowed before during now 0 l1 Fr I1) as (l2 & -> & Id & Sh2).
    eexists r, _, l2. split_and!; [done| |done|by right|by intros ?%N].
    eapply slots_ok_update; [exact So|done|done|done| |by apply idle_inv].
    clear -Sh1 Sh2. revert l2 Sh2. induction Sh1; intros l2 Sh2; inversion_clear Sh2; constructor; [by etrans|auto].
  - cbn [Z.ltb Z.compare]. destruct (Z.eqb_spec n 0) as [->|Hn].
    + specialize (Z0 eq_refl). destruct Hon. rewrite (so_online _ _ So).
      clear -Z0. induction Z0 as [|o l <- _ IH]; [done|exact IH].
    + eexists 0, _, l1. split_and!; [done| |done|by left|done].
      by eapply slots_ok_update; [exact So|..].
Qed.

(** ** The life of a VM *)

(** What may happen to a VM between creation and destruction: a vCPU is added, the VM
    is started or stopped, one vCPU's thread, its callers or an interrupt make a step,
    bytes of pages are written. *)
Inductive vm_step : host * relm_vm -> host * relm_vm -> Prop :=
  | VAdd kz stack id h vm r vm' : relm_vm_add_vcpu (vmx_vm_ops kz stack) vm id = Done r vm' -> vm_step (h, vm) (h, vm')
  | VRun before during now task cpu h vm r vm' : fair during -> (forall i e, task i = inl e -> e < 0) ->
      relm_run_vm before during now task cpu vm = Done r vm' -> vm_step (h, vm) (h, vm')
  | VStop before during now h vm r vm' : fair during ->
      relm_stop_vm before during now vm = Done r vm' -> vm_step (h, vm) (h, vm')
  | VSlot h vm l i s s' : vcpus vm = Some l -> l !! i = Some (Some s) -> vstep s s' ->
      vm_step (h, vm) (h, vm_with_vcpus vm (<[i := Some s']> l) (online_vcpus vm))
  | VStore h h' vm : h_words h' = h_words h -> h_live h' = h_live h -> vm_step (h, vm) (h', vm).

Definition life (base : gset Z) (x : host * relm_vm) : Prop :=
  vm_ok base (fst x) (snd x) /\ exists l, slots_ok (snd x) l.

Lemma created_life base size h vm : created base size h vm -> life base (h, vm).
Proof.
  intros [Ok _ Mx [Ev Eo] _ _ _]. split; [done|]. exists (replicate (Z.to_nat RELM_MAX_VCPUS) None). cbn [snd].
  split; [done|by rewrite Mx|by rewrite Mx|by rewrite Eo|by repeat constructor].
Qed.

Lemma vm_ok_memory base h vm vm' : vm_ok base h vm -> vm_memory vm' = vm_memory vm -> vm_ok base h vm'.
Proof. intros Ok E. unfold vm_ok. by rewrite E. Qed.

Lemma run_refused before during now task cpu vm l : slots_ok vm l ->
  ~ (online_vcpus vm <> 0 /\ (vm_st vm = VM_STATE_INITIALIZED \/ vm_st vm = VM_STATE_STOPPED)) ->
  exists r, relm_run_vm before during now task cpu vm = Done r vm.
Proof.
  intros So N. unfold Vm.relm_run_vm. repeat case_bool_decide; cbn [negb andb]; [..|by eexists].
  all: destruct (Z.eqb_spec (online_vcpus vm) 0); [by eexists|]; by destruct N; auto.
Qed.

Lemma life_step base x y : life base x -> vm_step x y -> life base y.
Proof.
  intros [Ok [l So]] St.
  destruct St as [kz stack id h vm r vm' E|before during now task cpu h vm r vm' Fr He E
    |before during now h vm r vm' Fr E|h vm l0 i s s' Ev Hi S|h h' vm W L]; cbn [fst snd] in *.
  - destruct (add_spec kz stack vm l id So) as (r1 & vm1 & l1 & E1 & So1 & M1).
    rewrite E in E1. injection E1 as _ <-. split; [by eapply vm_ok_memory|by exists l1].
  - destruct (decide (online_vcpus vm <> 0 /\ (vm_st vm = VM_STATE_INITIALIZED \/ vm_st vm = VM_STATE_STOPPED))) as [[Ho Hs]|N].
    + destruct (run_spec before during now task cpu vm l So Ho Hs Fr He) as (r1 & vm1 & l1 & E1 & So1 & M1 & _).
      rewrite E in E1. injection E1 as _ <-. split; [by eapply vm_ok_memory|by exists l1].
    + destruct (run_refused before during now task cpu vm l So N) as [r1 E1].
      rewrite E in E1. injection E1 as _ <-. split; [done|by exists l].
  - destruct (stop_spec before during now vm l So Fr) as (vm1 & l1 & E1 & _ & So1 & _ & M1).
    rewrite E in E1. injection E1 as _ <-. split; [by eapply vm_ok_memory|by exists l1].
  - pose proof (so_vcpus _ _ So) as Ev'. rewrite Ev in Ev'. injection Ev' as <-.
    split; [by eapply vm_ok_memory|]. exists (<[i := Some s']> l0). cbn [snd].
    eapply slots_ok_update; [exact So|done|done|done| |].
    + apply Forall2_same_length_lookup_2; [by rewrite length_insert|]. intros j o o' Hj Hj'.
      destruct (decide (j = i)) as [->|Hn]; [|rewrite list_lookup_insert_ne in Hj' by done; by simplify_eq].
      rewrite list_lookup_insert_eq in Hj' by (by eapply lookup_lt_Some). simplify_eq. split; intros _; by eexists.
    + apply Forall_insert; [apply So|]. eapply (step_inv OK); [|exact S].
      exact (Forall_lookup_1 _ _ _ _ (so_inv _ _ So) Hi).
  - split; [by eapply vm_ok_words|by exists l].
Qed.

Lemma life_inv base x y : life base x -> rtc vm_step x y -> life base y.
Proof. intros I R. induction R; [done|]. eauto using life_step. Qed.

Lemma destroy_spec base before during h vm l : vm_ok base h vm -> slots_ok vm l -> fair during ->
  exists h' freed, relm_destroy_vm before during h vm = Done 0 (h', freed) /\
    h_live h' = base /\ Forall (fun s => s_thread s = None \/ exited s) freed.
Proof.
  intros Ok So Fr. unfold Vm.relm_destroy_vm. rewrite (so_vcpus _ _ So).
  destruct (destroy_vcpus_spec OK cpu_possible cpu_online set_cpus_allowed before during 0 l Fr (so_inv _ _ So))
    as (freed & -> & Fd & _).
  destruct (relm_vm_free_guest_mem h (vm_memory vm)) as [h1 m1] eqn:E.
  eexists _, freed. split_and!; [done| |done]. by eapply release_all.
Qed.

(** C17. Creating a VM, whatever allocation fails on the way: with no RAM or at least
    three pages of it, creation returns.  A VM it hands out is initialised, empty of
    vCPUs, and its RAM is valid, mapped and of the requested size rounded to pages,
    with the root of the boot tables in the last three pages; its tables and RAM pages
    are all it took from the allocator.  When it returns NULL, every page went back
    unless the buffer for the boot tables was refused. *)
Theorem create_vm_correct (kz_vm kz1 kz2 kz_vcpus : bool) (h : host) (id : Z) (name : option string) (size : Z) :
  size = 0 \/ 2 * 4096 < size <= 2 ^ 47 ->
  exists h' o, relm_create_vm kz_vm kz1 kz2 kz_vcpus h id name size = Done 0 (h', o) /\
    match o with
    | Some vm => created (h_live h) size h' vm
    | None => vo_buffer = true \/ size = 0 -> h_live h' = h_live h
    end.
Proof. apply create_spec. Qed.

(** Adding a vCPU on Intel: outside 1..max_vcpus it is refused, an occupied VPID is
    refused, a failing allocation is reported, and none of these changes the VM;
    otherwise the new vCPU is found under its VPID, is bound to the host CPU and ready
    to start, every other VPID finds what it found before, and the count is exact. *)
Theorem vmx_add_vcpu_correct (kz : bool) (stack : option Z) (vm : relm_vm) (l : list (option sys)) (id : Z) :
  slots_ok vm l ->
  exists r vm', relm_vm_add_vcpu (vmx_vm_ops kz stack) vm id = Done r vm' /\
    ((vm' = vm /\ (VPID_IS_VALID id (max_vcpus vm) = false /\ r = - EINVAL \/
                   is_Some (relm_vm_get_vcpu vm id) /\ r = - EEXIST \/
                   relm_vm_get_vcpu vm id = None /\ relm_vcpu_create kz stack id = inl r)) \/
     (r = 0 /\ relm_vm_get_vcpu vm id = None /\ exists v l', relm_vcpu_create kz stack id = inr v /\
        relm_vm_get_vcpu vm' id = Some (fresh (set_target v HOST_CPU_ID)) /\ vpid v = id /\
        (forall id', id' <> id -> relm_vm_get_vcpu vm' id' = relm_vm_get_vcpu vm id') /\
        online_vcpus vm' = online_vcpus vm + 1 /\ slots_ok vm' l')).
Proof.
  intros So. destruct (add_result kz stack vm l id So) as (r & vm' & E & R). exists r, vm'. split; [done|].
  destruct R as [R|(-> & G & v & l' & Ec & G' & Hv & Fr & On & _ & So')]; [by left|right].
  split_and!; [done|done|]. exists v, l'. by split_and!.
Qed.

(** On AMD no vCPU can be added: whatever the VPID, a VM as creation makes it
    refuses it and stays as it is. *)
Theorem svm_add_vcpu_refused (kz : bool) (stack : option Z) (base : gset Z) (size : Z) (h : host) (vm : relm_vm) (id : Z) :
  created base size h vm -> relm_vm_add_vcpu (svm_vm_ops kz stack) vm id = Done (- EINVAL) vm.
Proof.
  intros [_ _ Mx [Ev _] _ _ _]. unfold relm_vm_add_vcpu. rewrite Ev, Mx.
  destruct (VPID_IS_VALID id RELM_MAX_VCPUS) eqn:Va; [|done]. cbn [negb].
  assert (id = 1) as -> by (unfold VPID_IS_VALID, RELM_MAX_VCPUS in Va; lia).
  change (replicate (Z.to_nat RELM_MAX_VCPUS) None !! Z.to_nat (VPID_TO_INDEX 1)) with (Some (@None (sys (ops := ops)))).
  cbn [op_add_vcpu relm_vm_ops_merg svm_vm_ops]. unfold svm_add_vcpu. by rewrite Mx.
Qed.

(** Starting a VM is all or nothing: with any outcome of thread creation, on a fair
    schedule the call returns, either 0 with the VM running and a thread for every
    vCPU, or an error with the VM back in INITIALIZED and every thread it had stopped
    - no vCPU keeps a task.  It succeeds when every vCPU without a thread was never
    started and gets one. *)
Theorem run_vm_all_or_nothing (before during : nat -> list Z) (now : Z) (task : nat -> Z + Z) (cpu : nat -> Z)
    (vm : relm_vm) (l : list (option sys)) :
  slots_ok vm l -> online_vcpus vm <> 0 -> vm_st vm = VM_STATE_INITIALIZED \/ vm_st vm = VM_STATE_STOPPED ->
  fair during -> (forall i e, task i = inl e -> e < 0) ->
  exists r vm' l', relm_run_vm before during now task cpu vm = Done r vm' /\ slots_ok vm' l' /\
    vm_memory vm' = vm_memory vm /\
    (r = 0 /\ vm_st vm' = VM_STATE_RUNNING /\ Forall slot_started l' \/
     r < 0 /\ vm_st vm' = VM_STATE_INITIALIZED /\ Forall slot_idle l') /\
    ((forall i o, l !! i = Some o -> slot_ready task i o) -> r = 0).
Proof. apply run_spec. Qed.

(** Stopping a VM: on a fair schedule the call returns 0, the VM is STOPPED, every
    vCPU thread has returned and no vCPU keeps a task; the vCPUs and the memory of the
    VM are the same ones. *)
Theorem stop_vm_stops_all (before during : nat -> list Z) (now : Z) (vm : relm_vm) (l : list (option sys)) :
  slots_ok vm l -> fair during ->
  exists vm' l', relm_stop_vm before during now vm = Done 0 vm' /\ vm_st vm' = VM_STATE_STOPPED /\
    slots_ok vm' l' /\ Forall slot_idle l' /\ vm_memory vm' = vm_memory vm.
Proof. apply stop_spec. Qed.

End Life.

(** ** Concrete VMs: EPT, 54 free host pages, 12 KiB of guest RAM *)
Module LifeDemo.
#[local] Instance alloc : PageAlloc := bump_alloc 54.
#[local] Instance mops : MemOps := vmx_mem_ops.
#[local] Instance mops_ok : MemOpsOk mops := vmx_mem_ops_ok.
Definition EPT_ALL : Z := Z.lor EPT_CAP_PAGE_WALK_4 (Z.lor EPT_CAP_MEMTYPE_WB EPT_CAP_INVEPT).
#[local] Instance vops : VmOps mops := vmx_vmops EPT_ALL true true VcpuDemo.yes.
#[local] Instance vops_ok : VmOpsOk vops := vmx_vmops_ok VcpuDemo.yes (fun _ => eq_refl) EPT_ALL true true.
#[local] Existing Instance VcpuDemo.script_ops.

Lemma demo_alloc_keeps (f : vcpu arch -> Z * vcpu arch) v : vcpu_alloc = Some f ->
  host_task (snd (f v)) = host_task v /\ vpid (snd (f v)) = vpid v.
Proof. intros [= <-]. by split. Qed.

Definition made : access (host * option relm_vm) :=
  relm_create_vm true true true true host0 7 (Some "guest") 0x2800.
Definition made_ok : bool := match made with Done 0 (_, Some _) => true | _ => false end.

Lemma create_vm_correct_witness : exists h vm, made = Done 0 (h, Some vm) /\ created ∅ 0x2800 h vm.
Proof.
  assert (made_ok = true) as B by (vm_compute; reflexivity).
  destruct (create_vm_correct true true true true host0 7 (Some "guest") 0x2800 ltac:(right; lia)) as (h & o & E & C).
  change (made = Done 0 (h, o)) in E. change (h_live host0) with (∅ : gset Z) in C.
  unfold made_ok in B. rewrite E in B. destruct o as [vm|]; [|discriminate B]. exists h, vm. exact (conj E C).
Defined.

Lemma made_slots : exists h vm, made = Done 0 (h, Some vm) /\ created ∅ 0x2800 h vm /\
  slots_ok vm [None].
Proof.
  destruct create_vm_correct_witness as (h & vm & E & C). exists h, vm. split; [exact E|]. split; [exact C|].
  destruct C as [_ _ Mx [Ev Eo] _ _ _]. split; [done|by rewrite Mx|by rewrite Mx|by rewrite Eo|by repeat constructor].
Qed.

Lemma vmx_add_vcpu_correct_witness : exists vm vm' v,
  relm_vm_add_vcpu (vmx_vm_ops true (Some 0x8000)) vm 1 = Done 0 vm' /\
  relm_vm_get_vcpu vm' 1 = Some (fresh (set_target v HOST_CPU_ID)).
Proof.
  destruct made_slots as (h & vm & _ & C & So).
  destruct (vmx_add_vcpu_correct demo_alloc_keeps true (Some 0x8000) vm [None] 1 So) as (r & vm' & E & R).
  destruct R as [[_ [[B _]|[[[x B] _]|[_ B]]]]|(-> & _ & v & l' & _ & G & _)].
  - rewrite (cr_max _ _ _ _ C) in B. discriminate.
  - unfold relm_vm_get_vcpu in B. rewrite (so_vcpus _ _ So), (cr_max _ _ _ _ C) in B. discriminate.
  - discriminate.
  - exists vm, vm', v. by split.
Defined.

Lemma svm_add_vcpu_refused_witness : exists vm,
  relm_vm_add_vcpu (svm_vm_ops true (Some 0x8000)) vm 1 = Done (- EINVAL) vm.
Proof.
  destruct made_slots as (h & vm & _ & C & _). exists vm.
  exact (svm_add_vcpu_refused true (Some 0x8000) ∅ 0x2800 h vm 1 C).
Defined.

(** A VM with one vCPU. *)
Definition vm1 : relm_vm := RelmVm 7 "guest" (VmMem _ None vm_memory0) 0 1 1
  (Some [Some (fresh (VcpuDemo.v0 [true]))]) VM_STATE_INITIALIZED 0.
Definition during1 : nat -> list Z := fun _ => [0; 1; 1; 1; 1; 1].

Lemma vm1_slots : slots_ok vm1 [Some (fresh (VcpuDemo.v0 [true]))].
Proof. split; try done. constructor; [by apply vcpu_inv_fresh|constructor]. Qed.
Lemma during1_fair : fair during1.
Proof. intros i. exists [0], [1; 1; 1; 1]. by split. Qed.

Lemma run_vm_all_or_nothing_witness : exists vm' l',
  relm_run_vm VcpuDemo.yes VcpuDemo.yes VcpuDemo.zero (fun _ => []) during1 5 (fun _ => inr 9) (fun _ => 0) vm1 = Done 0 vm' /\
  slots_ok vm' l' /\ Forall slot_started l'.
Proof.
  destruct (run_vm_all_or_nothing VcpuDemo.script_ok VcpuDemo.yes VcpuDemo.yes VcpuDemo.zero (fun _ => []) during1 5
    (fun _ => inr 9) (fun _ => 0) vm1 _ vm1_slots ltac:(done) ltac:(by left) during1_fair ltac:(done))
    as (r & vm' & l' & E & So & _ & R & Ok).
  assert (r = 0) as ->.
  { apply Ok. intros [|i] o [= <-]. intros _. split; [done|by exists 9]. }
  destruct R as [(_ & _ & St)|[? _]]; [|done]. by exists vm', l'.
Defined.

Lemma stop_vm_stops_all_witness : exists vm' l',
  relm_stop_vm VcpuDemo.yes VcpuDemo.yes VcpuDemo.zero (fun _ => []) during1 5 vm1 = Done 0 vm' /\
  slots_ok vm' l' /\ Forall slot_idle l'.
Proof.
  destruct (stop_vm_stops_all VcpuDemo.script_ok VcpuDemo.yes VcpuDemo.yes VcpuDemo.zero (fun _ => []) during1 5 vm1
    _ vm1_slots during1_fair) as (vm' & l' & E & _ & So & Id & _). by exists vm', l'.
Defined.


(** Creation leaks guest RAM when the boot tables cannot be built: with one page of
    RAM the table addresses wrap below zero, NULL is returned, and the RAM page is
    still in use. *)
Theorem create_leaks_ram : exists h, relm_create_vm true true true true host0 7 (Some "guest") 0x1000 = Done 0 (h, None) /\
  h_live h <> ∅.
Proof.
  assert (match relm_create_vm true true true true host0 7 (Some "guest") 0x1000 with
    | Done 0 (h, None) => negb (bool_decide (h_live h = ∅)) | _ => false end = true) as B by (vm_compute; reflexivity).
  revert B. generalize (relm_create_vm true true true true host0 7 (Some "guest") 0x1000).
  intros [[| |] [h [vm|]]| |] B; try discriminate B.
  exists h. split; [reflexivity|]. by apply negb_true_iff, bool_decide_eq_false in B.
Qed.
End LifeDemo.
