(* ===== verification/Cr3Cache.v ===== *)
(** * The CR3 shadow cache

    The relm_cr3_cache_* functions of src/arch/x86/vmx/vmx.c.  The processor holds up
    to four CR3-target values; a guest that loads one of them into CR3 does not exit.
    The cache counts the CR3 loads that do exit in a table of sixteen candidates and
    programs the most frequent ones into the VMCS.

    An index that the code marks absent with RELM_CR3_CACHE_SIZE is an [option].  The
    VMCS is that of [Emul.xcpu]; [wr] says which fields can be written. *)
From S2P Require Import Prelude HostMem VmMem GuestMem Mmu Vcpu Virtio FwCfg Decoder Apic Emul VmExit.

Definition RELM_CR3_MAX_TARGETS : Z := 4.
Definition RELM_CR3_CACHE_SIZE : nat := 16.
Definition RELM_CR3_PROMOTE_THRESHOLD : Z := 10.
Definition CR3_TARGET_COUNT : Z := 0x400A.
Definition CR3_TARGET_VALUES : list Z := [0x6008; 0x600A; 0x600C; 0x600E].
Definition U64_MAX : Z := 2 ^ 64 - 1.

Record cr3_target_entry := Cr3Entry {
  cr3_value : Z; hit_count : Z; last_seen_ns : Z; promoted : bool
}.
Record cr3_shadow_cache := Cr3Cache {
  candidates : list cr3_target_entry; candidate_count : Z; promoted_count : Z;
  total_cr3_exits : Z; total_suppressions : Z
}.

Definition empty_entry : cr3_target_entry := Cr3Entry 0 0 0 false.
Definition relm_cr3_cache_init : cr3_shadow_cache :=
  Cr3Cache (replicate RELM_CR3_CACHE_SIZE empty_entry) 0 0 0 0.

Definition set_candidates (k : cr3_shadow_cache) (l : list cr3_target_entry) : cr3_shadow_cache :=
  Cr3Cache l (candidate_count k) (promoted_count k) (total_cr3_exits k) (total_suppressions k).
Definition set_promoted_count (k : cr3_shadow_cache) (n : Z) : cr3_shadow_cache :=
  Cr3Cache (candidates k) (candidate_count k) n (total_cr3_exits k) (total_suppressions k).
Definition set_candidate_count (k : cr3_shadow_cache) (n : Z) : cr3_shadow_cache :=
  Cr3Cache (candidates k) n (promoted_count k) (total_cr3_exits k) (total_suppressions k).
Definition set_total_exits (k : cr3_shadow_cache) (n : Z) : cr3_shadow_cache :=
  Cr3Cache (candidates k) (candidate_count k) (promoted_count k) n (total_suppressions k).
Definition set_promoted (b : bool) (e : cr3_target_entry) : cr3_target_entry :=
  Cr3Entry (cr3_value e) (hit_count e) (last_seen_ns e) b.

(** ** The policy *)

(** One pass: the first of the best unpicked entries, with its count and time. *)
Fixpoint best_scan (i : nat) (l : list cr3_target_entry) (picked : list nat) (best : option nat)
    (best_count best_ts : Z) : option nat :=
  match l with
  | [] => best
  | e :: l =>
      if bool_decide (i ∈ picked) || (cr3_value e =? 0) || (hit_count e =? 0)
      then best_scan (S i) l picked best best_count best_ts
      else if (best_count <? hit_count e) || ((hit_count e =? best_count) && (best_ts <? last_seen_ns e))
           then best_scan (S i) l picked (Some i) (hit_count e) (last_seen_ns e)
           else best_scan (S i) l picked best best_count best_ts
  end.

(** The passes; [picked] are the indices chosen so far, newest first. *)
Fixpoint policy_passes (n : nat) (l : list cr3_target_entry) (picked : list nat) : list nat :=
  match n with
  | O => picked
  | S n => match best_scan 0 l picked None 0 0 with
           | None => picked
           | Some i => policy_passes n l (i :: picked)
           end
  end.

(** The indices the policy selects, in the order it writes them. *)
Definition policy_indices (l : list cr3_target_entry) (n_candidates : Z) : list nat :=
  let n_passes := if n_candidates <? RELM_CR3_MAX_TARGETS then n_candidates else RELM_CR3_MAX_TARGETS in
  rev (policy_passes (Z.to_nat n_passes) (take (Z.to_nat n_candidates) l) []).

(** [selected_out] and its count: the length of the list. *)
Definition relm_cr3_cache_policy_frequency (l : list cr3_target_entry) (n_candidates : Z) : list Z :=
  map (fun i => cr3_value (default empty_entry (l !! i))) (policy_indices l n_candidates).

Section Cache.
Context (wr : Z -> bool).

(** [_vmwrite(CR3_TARGET_VALUES[i], new_targets[i])] until one fails. *)
Fixpoint write_targets (c : xcpu) (fields values : list Z) : bool * xcpu :=
  match fields, values with
  | f :: fields, v :: values =>
      match _vmwrite wr c f v with
      | (true, c) => write_targets c fields values
      | (false, c) => (false, c)
      end
  | _, _ => (true, c)
  end.

Definition in_current (l : list cr3_target_entry) (v : Z) : bool :=
  existsb (fun e => promoted e && (cr3_value e =? v)) l.

Definition mark (targets : list Z) (e : cr3_target_entry) : cr3_target_entry :=
  if cr3_value e =? 0 then e
  else if existsb (Z.eqb (cr3_value e)) targets then set_promoted true e else e.

Definition relm_cr3_cache_apply (c : xcpu) (k : cr3_shadow_cache) : xcpu * cr3_shadow_cache :=
  let new_targets := relm_cr3_cache_policy_frequency (candidates k) (u32 (candidate_count k)) in
  let new_count := Z.of_nat (length new_targets) in
  let changed := negb (new_count =? promoted_count k) ||
                 negb (forallb (in_current (candidates k)) new_targets) in
  if negb changed then (c, k)
  else
    let k := set_candidates k (map (set_promoted false) (candidates k)) in
    match write_targets c CR3_TARGET_VALUES new_targets with
    | (false, c) => (vmwrite_ wr c CR3_TARGET_COUNT 0, set_promoted_count k 0)
    | (true, c) =>
        match _vmwrite wr c CR3_TARGET_COUNT new_count with
        | (false, c) => (vmwrite_ wr c CR3_TARGET_COUNT 0, set_promoted_count k 0)
        | (true, c) => (c, set_promoted_count (set_candidates k (map (mark new_targets) (candidates k))) new_count)
        end
    end.

(** The search of relm_cr3_cache_record: the entry of the value, the first empty slot
    and the least used entry that is not promoted, up to where the loop stops. *)
Fixpoint record_scan (i : nat) (l : list cr3_target_entry) (v : Z) (empty evict : option nat) (evict_count : Z)
    : option nat * option nat * option nat :=
  match l with
  | [] => (None, empty, evict)
  | e :: l =>
      if cr3_value e =? v then (Some i, empty, evict)
      else
        let empty := if (cr3_value e =? 0) && bool_decide (empty = None) then Some i else empty in
        if negb (cr3_value e =? 0) && negb (promoted e) && (hit_count e <? evict_count)
        then record_scan (S i) l v empty (Some i) (hit_count e)
        else record_scan (S i) l v empty evict evict_count
  end.

Definition hit (now : Z) (e : cr3_target_entry) : cr3_target_entry :=
  Cr3Entry (cr3_value e) (u64 (hit_count e + 1)) now (promoted e).

Definition relm_cr3_cache_record (now : Z) (c : xcpu) (k : cr3_shadow_cache) (v : Z) : xcpu * cr3_shadow_cache :=
  let k := set_total_exits k (u64 (total_cr3_exits k + 1)) in
  match record_scan 0 (candidates k) v None None U64_MAX with
  | (Some i, _, _) =>
      let e := hit now (default empty_entry (candidates k !! i)) in
      let k := set_candidates k (<[i := e]> (candidates k)) in
      if (RELM_CR3_PROMOTE_THRESHOLD <=? hit_count e) && negb (promoted e)
      then relm_cr3_cache_apply c k else (c, k)
  | (None, Some i, _) =>
      (c, set_candidate_count (set_candidates k (<[i := Cr3Entry v 1 now false]> (candidates k)))
            (u64 (candidate_count k + 1)))
  | (None, None, Some i) => (c, set_candidates k (<[i := Cr3Entry v 1 now false]> (candidates k)))
  | (None, None, None) => (c, k)
  end.

Definition relm_cr3_cache_handle_exit (now : Z) (c : xcpu) (k : cr3_shadow_cache) (exit_qual : Z)
    : Z * xcpu * cr3_shadow_cache :=
  let src_reg := source_reg exit_qual in
  if 15 <? src_reg then (1, skip_here wr c, k)
  else
    let new_cr3 := guest_reg_read (x_gprs c) src_reg in
    let c := vmwrite_ wr c GUEST_CR3 new_cr3 in
    let '(c, k) := relm_cr3_cache_record now c k new_cr3 in
    (1, skip_here wr c, k).

(** What the processor compares with: the first CR3_TARGET_COUNT target values. *)
Definition vmcs_targets (c : xcpu) : list Z :=
  map (fun f => __vmread c f) (take (Z.to_nat (__vmread c CR3_TARGET_COUNT)) CR3_TARGET_VALUES).
End Cache.

(** ** The policy picks the best entries *)
Definition better (e e' : cr3_target_entry) : Prop :=
  hit_count e' < hit_count e \/ hit_count e = hit_count e' /\ last_seen_ns e' < last_seen_ns e.

(** An index the policy may choose. *)
Definition eligible (l : list cr3_target_entry) (i : nat) (e : cr3_target_entry) : Prop :=
  l !! i = Some e /\ cr3_value e <> 0 /\ hit_count e <> 0.

Definition counts_ok (l : list cr3_target_entry) : Prop :=
  forall i e, l !! i = Some e -> 0 <= hit_count e < 2 ^ 64 /\ 0 <= last_seen_ns e.

Section Policy.
Context (l0 : list cr3_target_entry) (Nn : counts_ok l0).

(** Where a pass stands: nothing found, or the best entry seen. *)
Definition scan_best (picked : list nat) (best : option nat) (bc bt : Z) : Prop :=
  match best with
  | None => bc = 0 /\ bt = 0
  | Some j => j ∉ picked /\ exists e, eligible l0 j e /\ bc = hit_count e /\ bt = last_seen_ns e
  end.
Definition beats (bc bt : Z) (e : cr3_target_entry) : Prop :=
  hit_count e < bc \/ hit_count e = bc /\ last_seen_ns e <= bt.

Lemma best_scan_spec pre l picked best bc bt : l0 = pre ++ l -> scan_best picked best bc bt -> 0 <= bc -> 0 <= bt ->
  (forall j e, (j < length pre)%nat -> eligible l0 j e -> j ∉ picked -> beats bc bt e) ->
  match best_scan (length pre) l picked best bc bt with
  | None => forall j e, eligible l0 j e -> j ∈ picked
  | Some j => j ∉ picked /\ exists e, eligible l0 j e /\ forall j' e', eligible l0 j' e' -> j' ∉ picked -> ~ better e' e
  end.
Proof.
  revert pre best bc bt. induction l as [|e l IH]; intros pre best bc bt E B Hb Ht A; cbn [best_scan].
  - rewrite app_nil_r in E. subst pre. destruct best as [j|].
    + destruct B as (Hj & e & El & -> & ->). split; [done|]. exists e. split; [done|].
      intros j' e' El' Hj' Bt. pose proof (A j' e' ltac:(by eapply lookup_lt_Some, El') El' Hj') as C.
      unfold better, beats in *. lia.
    + destruct B as [-> ->]. intros j e El. destruct (decide (j ∈ picked)); [done|].
      pose proof (A j e ltac:(by eapply lookup_lt_Some, El) El ltac:(done)) as C.
      destruct El as (L & _ & Hh). pose proof (Nn j e L). unfold beats in C. lia.
  - assert (l0 = (pre ++ [e]) ++ l) as E' by (by rewrite <- app_assoc).
    assert (l0 !! length pre = Some e) as Le by (by rewrite E, lookup_app_r, Nat.sub_diag by done).
    pose proof (Nn _ _ Le) as [Ph Pt].
    assert (length (pre ++ [e]) = S (length pre)) as Ln by (rewrite length_app; simpl; lia).
    specialize (IH (pre ++ [e])). rewrite Ln in IH.
    assert (forall bc' bt', (forall x, beats bc bt x -> beats bc' bt' x) ->
      (eligible l0 (length pre) e -> length pre ∉ picked -> beats bc' bt' e) ->
      forall j e', (j < S (length pre))%nat -> eligible l0 j e' -> j ∉ picked -> beats bc' bt' e') as Nx.
    { intros bc' bt' M Q j e' Hj El' Hp. destruct (decide (j = length pre)) as [->|].
      - destruct El' as (L' & ?). rewrite Le in L'. injection L' as <-. by apply Q.
      - apply M, (A j); [lia|done|done]. }
    destruct (bool_decide (length pre ∈ picked) || (cr3_value e =? 0) || (hit_count e =? 0)) eqn:Sk.
    + apply IH; try done. apply Nx; [done|]. intros (_ & ? & ?) Hp. exfalso.
      rewrite !orb_true_iff, bool_decide_eq_true, !Z.eqb_eq in Sk. tauto.
    + rewrite !orb_false_iff, bool_decide_eq_false, !Z.eqb_neq in Sk. destruct Sk as [[Hp Hv] Hh].
      destruct ((bc <? hit_count e) || ((hit_count e =? bc) && (bt <? last_seen_ns e))) eqn:Bt.
      * apply IH; try done; [|lia|]. { split; [done|]. exists e. by split_and!. }
        apply Nx; [|unfold beats; lia]. rewrite orb_true_iff, andb_true_iff, !Z.ltb_lt, Z.eqb_eq in Bt. unfold beats. lia.
      * apply IH; try done. apply Nx; [done|]. rewrite orb_false_iff, andb_false_iff, !Z.ltb_ge, Z.eqb_neq in Bt.
        unfold beats. lia.
Qed.

(** The indices picked so far, newest first: all eligible, none beaten by one left
    out, none beaten by a later one. *)
Record picks (picked : list nat) : Prop := Picks {
  pk_nodup : NoDup picked;
  pk_elig i : i ∈ picked -> exists e, eligible l0 i e;
  pk_top i e j e' : i ∈ picked -> eligible l0 i e -> j ∉ picked -> eligible l0 j e' -> ~ better e' e;
  pk_sorted : forall a i b j e e', picked = a ++ i :: b -> j ∈ a -> eligible l0 i e -> eligible l0 j e' -> ~ better e' e
}.

Lemma picks_passes n picked : picks picked ->
  picks (policy_passes n l0 picked) /\ (length (policy_passes n l0 picked) <= length picked + n)%nat /\
  (length (policy_passes n l0 picked) = length picked + n \/
   forall j e, eligible l0 j e -> j ∈ policy_passes n l0 picked)%nat.
Proof.
  revert picked. induction n as [|n IH]; intros picked P; cbn [policy_passes]; [split_and!; [done|lia|left; lia]|].
  pose proof (best_scan_spec [] l0 picked None 0 0 eq_refl (conj eq_refl eq_refl) ltac:(done) ltac:(done)
    ltac:(simpl; lia)) as S. cbn [length] in S.
  destruct (best_scan 0 l0 picked None 0 0) as [i|]; [|split_and!; [done|lia|by right]].
  destruct S as (Hi & e & El & Top). destruct (IH (i :: picked)) as (P' & L' & C').
  - destruct P as [Nd Ee Tp So]. split.
    + by constructor.
    + intros j [->|Hj]%elem_of_cons; [by exists e|by apply Ee].
    + intros i' e1 j e' [->|Hi']%elem_of_cons El1 [Hn1 Hn2]%not_elem_of_cons Ej.
      * destruct El as [L1 _], El1 as [L2 _]. rewrite L1 in L2. injection L2 as <-. by apply (Top j).
      * by apply (Tp i' e1 j e').
    + intros [|x a] i' b j e1 e' E Hj El1 Ej; [by apply not_elem_of_nil in Hj|].
      injection E as -> E. apply elem_of_cons in Hj as [->|Hj]; [|by apply (So a i' b j e1 e')].
      apply (Tp i' e1 x e'); try done. rewrite E. apply elem_of_app. right. left.
  - simpl in *. split_and!; [done|lia|]. destruct C'; [left; lia|by right].
Qed.
End Policy.

Lemma policy_indices_spec l n : counts_ok l -> 0 <= n ->
  let sel := policy_indices l n in let t := take (Z.to_nat n) l in
  NoDup sel /\ (forall i, i ∈ sel -> exists e, eligible t i e) /\
  (forall i e j e', i ∈ sel -> eligible t i e -> j ∉ sel -> eligible t j e' -> ~ better e' e) /\
  (forall a i b j e e', sel = a ++ i :: b -> j ∈ b -> eligible t i e -> eligible t j e' -> ~ better e' e) /\
  Z.of_nat (length sel) <= Z.min n 4 /\
  (Z.of_nat (length sel) = Z.min n 4 \/ forall j e, eligible t j e -> j ∈ sel).
Proof.
  intros Cn Hn. cbv zeta. unfold policy_indices. set (t := take (Z.to_nat n) l).
  assert (counts_ok t) as Ct by (intros i e [L _]%lookup_take_Some; by apply (Cn i)).
  set (np := Z.to_nat _). assert (Z.of_nat np = Z.min n 4) as Enp
    by (unfold np, RELM_CR3_MAX_TARGETS; destruct (Z.ltb_spec n 4); lia).
  destruct (picks_passes t Ct np []) as ([Nd El Tp So] & Ln & Fl).
  { split; [apply NoDup_nil_2|by intros i []%not_elem_of_nil|by intros i e j e1 []%not_elem_of_nil|by intros [] ? ? ? ? ? ?]. }
  set (pk := policy_passes np t []) in *.
  assert (forall i, i ∈ rev pk <-> i ∈ pk) as Er by (intros i; by rewrite !list_elem_of_In, <- in_rev).
  rewrite length_rev. simpl in Ln, Fl. split_and!; [..|lia|].
  - apply NoDup_ListNoDup, NoDup_rev. by apply NoDup_ListNoDup.
  - intros i ?%Er. by apply El.
  - intros i e j e' Hi%Er E Hj E'. rewrite Er in Hj. by apply (Tp i e j e').
  - intros a i b j e e' E Hj Ei Ej. apply (So (rev b) i (rev a) j e e'); [| |done|done].
    + rewrite <- (rev_involutive pk), E, rev_app_distr. simpl. by rewrite <- app_assoc.
    + by rewrite list_elem_of_In, <- in_rev, <- list_elem_of_In.
  - destruct Fl as [Fl|Fl]; [left; lia|right]. intros j e Ej. apply Er. by apply (Fl j e).
Qed.

(** ** The cache and the VMCS *)
Record cache_inv (c : xcpu) (k : cr3_shadow_cache) : Prop := CacheInv {
  ci_length : length (candidates k) = RELM_CR3_CACHE_SIZE;
  ci_range : 0 <= candidate_count k <= 16;
  ci_prefix i e : candidates k !! i = Some e -> (cr3_value e = 0 <-> candidate_count k <= Z.of_nat i);
  ci_distinct i j e e' : candidates k !! i = Some e -> candidates k !! j = Some e' ->
    cr3_value e = cr3_value e' -> cr3_value e <> 0 -> i = j;
  ci_counts : counts_ok (candidates k);
  ci_promoted e : e ∈ candidates k -> promoted e = true -> cr3_value e <> 0;
  ci_count : __vmread c CR3_TARGET_COUNT = promoted_count k /\ 0 <= promoted_count k <= 4;
  ci_targets v : v ∈ vmcs_targets c <-> exists e, e ∈ candidates k /\ promoted e = true /\ cr3_value e = v
}.

Lemma eligible_lookup l n i e : eligible (take n l) i e -> l !! i = Some e /\ cr3_value e <> 0.
Proof. by intros (L%lookup_take_Some & ? & _); destruct L. Qed.

(** The values the policy writes are values of entries. *)
Lemma policy_values l n v : counts_ok l -> 0 <= n -> v ∈ relm_cr3_cache_policy_frequency l n ->
  v <> 0 /\ exists i e, i ∈ policy_indices l n /\ l !! i = Some e /\ cr3_value e = v.
Proof.
  intros Cn Hn (i & -> & Hi)%list_elem_of_fmap.
  destruct (policy_indices_spec l n Cn Hn) as (_ & El & _). destruct (El i Hi) as [e [L V]%eligible_lookup].
  rewrite L. split; [done|]. by exists i, e.
Qed.

Lemma policy_length l n : counts_ok l -> 0 <= n -> (length (relm_cr3_cache_policy_frequency l n) <= 4)%nat.
Proof.
  intros Cn Hn. unfold relm_cr3_cache_policy_frequency. rewrite length_map.
  destruct (policy_indices_spec l n Cn Hn) as (_ & _ & _ & _ & B & _). lia.
Qed.

(** A write that succeeds is read back; one that does not is not. *)
Lemma vmread_set c f v g : __vmread (set_vmcs c (<[f := v]> (x_vmcs c))) g = if decide (f = g) then v else __vmread c g.
Proof. unfold __vmread, set_vmcs. cbn [x_vmcs]. by rewrite lookup_insert; case_decide. Qed.

Lemma write_targets_spec wr c fs vs b c' : NoDup fs -> (length vs <= length fs)%nat ->
  write_targets wr c fs vs = (b, c') ->
  (forall g, g ∉ fs -> __vmread c' g = __vmread c g) /\
  (b = true -> map (fun f => __vmread c' f) (take (length vs) fs) = vs).
Proof.
  revert c vs. induction fs as [|f fs IH]; intros c [|v vs] Nd Ln; cbn [write_targets].
  1, 3: intros [= <- <-]; by split. { simpl in Ln. lia. }
  apply NoDup_cons in Nd as [Hf Nd]. unfold _vmwrite. destruct (wr f).
  - intros W. destruct (IH _ vs Nd ltac:(simpl in Ln; lia) W) as [Fr Eq]. split.
    + intros g [Hg1 Hg2]%not_elem_of_cons. rewrite Fr by done. rewrite vmread_set. by rewrite decide_False.
    + intros Hb. cbn [length take map]. rewrite (Eq Hb). f_equal. rewrite Fr by done. rewrite vmread_set.
      by rewrite decide_True.
  - intros [= <- <-]. by split.
Qed.

Section Inv.
Context (wr : Z -> bool) (Wc : wr CR3_TARGET_COUNT = true).

(** Only the flags changed, and the flagged entries are the targets of the VMCS. *)
Lemma inv_reflag c c' k k' : cache_inv c k -> candidate_count k' = candidate_count k ->
  (exists f, (forall e, exists b, f e = set_promoted b e) /\ candidates k' = map f (candidates k)) ->
  (forall e, e ∈ candidates k' -> promoted e = true -> cr3_value e <> 0) ->
  (__vmread c' CR3_TARGET_COUNT = promoted_count k' /\ 0 <= promoted_count k' <= 4) ->
  (forall v, v ∈ vmcs_targets c' <-> exists e, e ∈ candidates k' /\ promoted e = true /\ cr3_value e = v) ->
  cache_inv c' k'.
Proof.
  intros I Ec (f & Hf & El) P Cn Tg.
  assert (forall i e', candidates k' !! i = Some e' -> exists e, candidates k !! i = Some e /\
    cr3_value e' = cr3_value e /\ hit_count e' = hit_count e /\ last_seen_ns e' = last_seen_ns e) as Lk.
  { intros i e'. rewrite El. change (map f) with (fmap (M := list) f). rewrite list_lookup_fmap.
    destruct (candidates k !! i) as [e|] eqn:E; simpl; [|done]. intros [= <-]. exists e. split; [done|].
    destruct (Hf e) as [b ->]. done. }
  split; try done.
  - rewrite El, length_map. apply I.
  - rewrite Ec. apply I.
  - intros i e' (e & L & Ev & _)%Lk. rewrite Ev, Ec. by apply (ci_prefix _ _ I).
  - intros i j e1 e2 (x & Lx & -> & _)%Lk (y & Ly & -> & _)%Lk. by eapply (ci_distinct _ _ I).
  - intros i e' (e & L & _ & -> & ->)%Lk. by apply (ci_counts _ _ I i).
Qed.

Lemma targets_none c : __vmread c CR3_TARGET_COUNT = 0 -> vmcs_targets c = [].
Proof. intros E. unfold vmcs_targets. by rewrite E. Qed.

Lemma elem_map_flag b l e : e ∈ map (set_promoted b) l -> promoted e = b.
Proof. by intros (x & -> & _)%list_elem_of_fmap. Qed.

(** The policy ran: flags are off, the count is zero. *)
Lemma inv_disabled c c' k : cache_inv c k -> __vmread c' CR3_TARGET_COUNT = 0 ->
  cache_inv c' (set_promoted_count (set_candidates k (map (set_promoted false) (candidates k))) 0).
Proof.
  intros I E. eapply inv_reflag; [exact I|done| | | |].
  - exists (set_promoted false). split; [intros e; by exists false|done].
  - intros e Hp%elem_map_flag ?. congruence.
  - simpl. split; [done|lia].
  - intros v. rewrite targets_none by done. split; [by intros []%not_elem_of_nil|].
    intros (e & Hp%elem_map_flag & ? & _). congruence.
Qed.

Lemma vmread_write_count c v : __vmread (vmwrite_ wr c CR3_TARGET_COUNT v) CR3_TARGET_COUNT = v.
Proof. unfold vmwrite_, _vmwrite. rewrite Wc. cbn [snd]. rewrite vmread_set. by rewrite decide_True. Qed.

Lemma mark_value ts e : cr3_value (mark ts e) = cr3_value e.
Proof. unfold mark. by repeat case_match. Qed.

(** Applying the policy leaves the values of the table alone. *)
Lemma apply_values c k : map cr3_value (candidates (snd (relm_cr3_cache_apply wr c k))) = map cr3_value (candidates k).
Proof.
  unfold relm_cr3_cache_apply. cbv zeta. destruct (negb _); [done|].
  destruct (write_targets _ _ _ _) as [[] c1]; [destruct (_vmwrite _ _ _ _) as [[] c2]|]; simpl; rewrite !map_map;
    apply map_ext; intros e; by rewrite ?mark_value.
Qed.

Lemma apply_inv c k c' k' : cache_inv c k -> relm_cr3_cache_apply wr c k = (c', k') ->
  cache_inv c' k'.
Proof.
  intros I. unfold relm_cr3_cache_apply. pose proof (ci_range _ _ I) as Rg.
  assert (u32 (candidate_count k) = candidate_count k) as -> by (apply Z.mod_small; lia).
  set (ts := relm_cr3_cache_policy_frequency _ _).
  assert (length ts <= 4)%nat as Lt by (apply policy_length; [apply I|lia]).
  destruct (negb _) eqn:Ch; [by intros [= <- <-]|]. cbv zeta.
  destruct (write_targets wr c CR3_TARGET_VALUES ts) as [b c1] eqn:W.
  destruct (write_targets_spec wr c CR3_TARGET_VALUES ts b c1) as [Fr Eq]; [|done|done|].
  { apply (bool_decide_unpack _). by vm_compute. }
  destruct b.
  2: { intros [= <- <-]. apply (inv_disabled c); [done|apply vmread_write_count]. }
  specialize (Eq eq_refl). unfold _vmwrite. rewrite Wc. intros [= <- <-].
  set (c2 := set_vmcs c1 _).
  assert (__vmread c2 CR3_TARGET_COUNT = Z.of_nat (length ts)) as Rc
    by (unfold c2; rewrite vmread_set; by rewrite decide_True).
  assert (vmcs_targets c2 = ts) as Tg.
  { unfold vmcs_targets. rewrite Rc, Nat2Z.id. rewrite <- Eq at 2. apply map_ext_in. intros f Hf.
    unfold c2. rewrite vmread_set, decide_False; [done|]. intros <-.
    apply list_elem_of_In, elem_of_take in Hf as (i & L & _).
    by do 4 (destruct i as [|i]; [discriminate L|]). }
  eapply inv_reflag; [exact I|done| | | |].
  - exists (fun e => mark ts (set_promoted false e)). split; [|simpl; by rewrite map_map].
    intros e. unfold mark. cbn [cr3_value set_promoted]. repeat case_match; by eexists.
  - simpl. intros e (x & -> & Hx)%list_elem_of_fmap. rewrite mark_value. unfold mark.
    destruct (Z.eqb_spec (cr3_value x) 0); [|done]. apply elem_map_flag in Hx. congruence.
  - simpl. split; [exact Rc|lia].
  - simpl. rewrite Tg. intros v. split.
    + intros Hv. destruct (policy_values (candidates k) (candidate_count k) v) as (V0 & i & e & _ & L & Ev);
        [apply I|lia|done|].
      exists (mark ts (set_promoted false e)). rewrite mark_value. split_and!; [|unfold mark; cbn [cr3_value set_promoted]|done].
      * apply list_elem_of_fmap. exists (set_promoted false e). split; [done|].
        apply list_elem_of_fmap. exists e. split; [done|]. by eapply list_elem_of_lookup_2.
      * rewrite Ev, (proj2 (Z.eqb_neq v 0)) by done.
        rewrite (proj2 (existsb_true (Z.eqb v) ts)); [done|]. exists v. split; [done|apply Z.eqb_refl].
    + intros (e & (x & -> & Hx)%list_elem_of_fmap & Hp & <-). rewrite mark_value. unfold mark in Hp.
      apply elem_map_flag in Hx. destruct (Z.eqb_spec (cr3_value x) 0); [congruence|].
      destruct (existsb (Z.eqb (cr3_value x)) ts) eqn:Ex; [|congruence].
      apply existsb_true in Ex as (y & Hy & ->%Z.eqb_eq). done.
Qed.

(** What the search of the table finds. *)
Definition live_unpromoted (e : cr3_target_entry) : Prop := cr3_value e <> 0 /\ promoted e = false.
Definition scan_ok (l0 : list cr3_target_entry) (m : nat) (v : Z) (empty evict : option nat) (ec : Z) : Prop :=
  (forall i e, (i < m)%nat -> l0 !! i = Some e -> cr3_value e <> v) /\
  match empty with
  | Some i => (exists e, l0 !! i = Some e /\ cr3_value e = 0) /\ forall j e, (j < i)%nat -> l0 !! j = Some e -> cr3_value e <> 0
  | None => forall i e, (i < m)%nat -> l0 !! i = Some e -> cr3_value e <> 0
  end /\
  (forall i e, (i < m)%nat -> l0 !! i = Some e -> live_unpromoted e -> ec <= hit_count e) /\
  match evict with
  | Some i => exists e, l0 !! i = Some e /\ live_unpromoted e /\ hit_count e = ec
  | None => ec = U64_MAX
  end.

Lemma record_scan_spec l0 v pre l empty evict ec : l0 = pre ++ l -> scan_ok l0 (length pre) v empty evict ec ->
  match record_scan (length pre) l v empty evict ec with
  | (Some i, _, _) => exists e, l0 !! i = Some e /\ cr3_value e = v
  | (None, em, ev) => exists ec', scan_ok l0 (length l0) v em ev ec'
  end.
Proof.
  revert pre empty evict ec. induction l as [|e l IH]; intros pre empty evict ec E (Nv & Em & Lo & Ev); cbn [record_scan].
  { rewrite app_nil_r in E. subst pre. exists ec. by split_and!. }
  assert (l0 !! length pre = Some e) as Le by (by rewrite E, lookup_app_r, Nat.sub_diag by done).
  destruct (Z.eqb_spec (cr3_value e) v) as [Hv|Hv]; [by exists e|].
  assert (length (pre ++ [e]) = S (length pre)) as Ln by (rewrite length_app; simpl; lia).
  specialize (IH (pre ++ [e])). rewrite Ln in IH.
  assert (forall (Q : cr3_target_entry -> Prop), Q e -> (forall i e, (i < length pre)%nat -> l0 !! i = Some e -> Q e) ->
    forall i e, (i < S (length pre))%nat -> l0 !! i = Some e -> Q e) as Nx.
  { intros Q Qe Qi i e' Hi L. destruct (decide (i = length pre)) as [->|]; [by simplify_eq|]. apply (Qi i); [lia|done]. }
  cbv zeta. set (em := if _ : bool then Some (length pre) else empty).
  assert (match em with
    | Some i => (exists e, l0 !! i = Some e /\ cr3_value e = 0) /\ forall j e, (j < i)%nat -> l0 !! j = Some e -> cr3_value e <> 0
    | None => forall i e, (i < S (length pre))%nat -> l0 !! i = Some e -> cr3_value e <> 0
    end) as Em'.
  { unfold em. destruct (Z.eqb_spec (cr3_value e) 0) as [Z0|Z0]; cbn [andb].
    - destruct empty as [x|]; cbn; [done|]. split; [by exists e|]. intros j e' Hj L. by apply (Em j).
    - destruct empty as [x|]; [done|]. by apply Nx. }
  destruct (negb (cr3_value e =? 0) && negb (promoted e) && (hit_count e <? ec)) eqn:Bt.
  - rewrite !andb_true_iff, !negb_true_iff, Z.eqb_neq, Z.ltb_lt in Bt. destruct Bt as [[V0 Pr] Hl].
    apply IH; [by rewrite <- app_assoc|]. split_and!; [by apply Nx|exact Em'| |by exists e].
    apply (Nx (fun e' : cr3_target_entry => live_unpromoted e' -> hit_count e <= hit_count e')); [done|].
    intros i e' Hi L U. pose proof (Lo i e' Hi L U). lia.
  - apply IH; [by rewrite <- app_assoc|]. split_and!; [by apply Nx|exact Em'| |done].
    apply (Nx (fun e' : cr3_target_entry => live_unpromoted e' -> ec <= hit_count e')); [|done].
    intros [V0 Pr]. rewrite (proj2 (Z.eqb_neq _ 0) V0), Pr in Bt. cbn [negb andb] in Bt. by apply Z.ltb_ge in Bt.
Qed.

(** One slot that is not promoted takes another entry that is not promoted: the VMCS
    stays in step. *)
Lemma targets_insert (l : list cr3_target_entry) (i : nat) (e e' : cr3_target_entry) : l !! i = Some e -> promoted e' = promoted e ->
  (promoted e = true -> cr3_value e' = cr3_value e) -> forall v,
  (exists x, x ∈ <[i := e']> l /\ promoted x = true /\ cr3_value x = v) <-> (exists x, x ∈ l /\ promoted x = true /\ cr3_value x = v).
Proof.
  intros L P V v. pose proof (lookup_lt_Some _ _ _ L) as Hi. split; intros (x & [j Hj]%list_elem_of_lookup & Px & Vx).
  - destruct (decide (i = j)) as [->|Hn].
    + rewrite list_lookup_insert_eq in Hj by done. injection Hj as <-. exists e.
      split_and!; [by eapply list_elem_of_lookup_2|congruence|]. rewrite <- V; congruence.
    + rewrite list_lookup_insert_ne in Hj by done. exists x. split_and!; [by eapply list_elem_of_lookup_2|done..].
  - destruct (decide (i = j)) as [->|Hn].
    + exists e'. rewrite L in Hj. injection Hj as ->. split_and!; [|congruence|rewrite V; congruence].
      apply list_elem_of_lookup. exists j. by apply list_lookup_insert_eq.
    + exists x. split_and!; [|done..]. apply list_elem_of_lookup. exists j. by rewrite list_lookup_insert_ne.
Qed.

Lemma inv_insert c k k' i e e' : cache_inv c k -> candidates k !! i = Some e -> candidates k' = <[i := e']> (candidates k) ->
  promoted_count k' = promoted_count k -> promoted e' = promoted e -> (promoted e = true -> cr3_value e' = cr3_value e) ->
  0 <= hit_count e' < 2 ^ 64 -> 0 <= last_seen_ns e' -> 0 <= candidate_count k' <= 16 ->
  (forall j x, candidates k' !! j = Some x -> (cr3_value x = 0 <-> candidate_count k' <= Z.of_nat j)) ->
  (cr3_value e' = cr3_value e \/ forall j x, candidates k !! j = Some x -> cr3_value x <> cr3_value e') ->
  cache_inv c k'.
Proof.
  intros I L El Ec Pe Ve Hh Ht Rg Pf Nw. pose proof (lookup_lt_Some _ _ _ L) as Hi.
  assert (forall j x, candidates k' !! j = Some x -> (j = i /\ x = e') \/ (j <> i /\ candidates k !! j = Some x)) as Lk.
  { intros j x. rewrite El. destruct (decide (i = j)) as [->|Hn]; [rewrite list_lookup_insert_eq by done|rewrite list_lookup_insert_ne by done].
    - intros [= <-]. by left. - by right. }
  split; try done.
  - rewrite El, length_insert. apply I.
  - assert (forall j x, j <> i -> candidates k !! j = Some x -> cr3_value x = cr3_value e' -> cr3_value x <> 0 -> False) as X.
    { intros j x Hn Lj V V0. destruct Nw as [Nw|Nw]; [|by apply (Nw j x)].
      apply Hn, (ci_distinct _ _ I j i x e Lj L); congruence. }
    intros j1 j2 x y [[-> ->]|[H1 L1]]%Lk [[-> ->]|[H2 L2]]%Lk V V0; [done|exfalso..|].
    + apply (X j2 y); congruence.
    + apply (X j1 x); congruence.
    + by apply (ci_distinct _ _ I j1 j2 x y).
  - intros j x [[-> ->]|[_ Lj]]%Lk; [done|]. by apply (ci_counts _ _ I j).
  - intros x [j [[-> ->]|[_ Lj]]%Lk]%list_elem_of_lookup Px; [|by apply (ci_promoted _ _ I); [eapply list_elem_of_lookup_2|]].
    rewrite Ve by congruence. apply (ci_promoted _ _ I); [by eapply list_elem_of_lookup_2|congruence].
  - rewrite Ec. apply I.
  - intros v. rewrite El, (targets_insert _ _ _ _ L Pe Ve). apply I.
Qed.

Lemma scan_start l v : scan_ok l 0 v None None U64_MAX.
Proof. split_and!; try done; intros; lia. Qed.

Lemma record_inv now c k v c' k' : cache_inv c k -> v <> 0 \/ candidate_count k < 16 -> 0 <= now ->
  relm_cr3_cache_record wr now c k v = (c', k') -> cache_inv c' k'.
Proof.
  intros I0 Hv Hn. unfold relm_cr3_cache_record. cbv zeta. set (k1 := set_total_exits k _).
  assert (cache_inv c k1) as I by (by destruct I0; split). change (candidate_count k) with (candidate_count k1) in Hv.
  clearbody k1. clear I0 k. rename k1 into k. pose proof (ci_range _ _ I) as Rg.
  pose proof (record_scan_spec (candidates k) v [] (candidates k) None None U64_MAX eq_refl (scan_start _ _)) as S.
  cbn [length] in S. destruct (record_scan 0 (candidates k) v None None U64_MAX) as [[[i|] em] ev].
  - destruct S as (e & L & <-). rewrite L. cbn [default id].
    assert (cache_inv c (set_candidates k (<[i := hit now e]> (candidates k)))) as I'.
    { eapply (inv_insert c k _ i e (hit now e)); try done; [apply u64_range| |by left].
      intros j x. cbn [candidates set_candidates candidate_count]. rewrite list_lookup_insert.
      case_decide as D; [|by apply (ci_prefix _ _ I)]. destruct D as [<- _]. intros [= <-].
      exact (ci_prefix _ _ I i e L). }
    case_match; [|by intros [= <- <-]]. intros A. by apply (apply_inv _ _ _ _ I') in A.
  - destruct S as (ec & Nv & Em & Lo & Ev). pose proof (ci_length _ _ I) as Ln. destruct em as [i|].
    + destruct Em as [(e & L & V0) Bf]. intros [= <- <-]. pose proof (lookup_lt_Some _ _ _ L) as Hi.
      assert (candidate_count k = Z.of_nat i) as Ci.
      { pose proof (proj1 (ci_prefix _ _ I i e L) V0). destruct (decide (candidate_count k = Z.of_nat i)); [done|].
        destruct (lookup_lt_is_Some_2 (candidates k) (Z.to_nat (candidate_count k))) as [x Lx]; [lia|].
        destruct (Bf (Z.to_nat (candidate_count k)) x); [lia|done|]. apply (ci_prefix _ _ I _ _ Lx). lia. }
      assert (v <> 0) as Hv0 by (intros ->; by apply (Nv i e)).
      rewrite Ln in Hi. unfold RELM_CR3_CACHE_SIZE in Hi. rewrite u64_small by lia.
      assert (promoted e = false) as Pe.
      { destruct (promoted e) eqn:P; [|done]. destruct (ci_promoted _ _ I e); [by eapply list_elem_of_lookup_2|done..]. }
      eapply (inv_insert c k _ i e (Cr3Entry v 1 now false)); try done; [congruence|simpl; lia| |].
      * intros j x. cbn [candidates set_candidates set_candidate_count candidate_count]. rewrite list_lookup_insert.
        case_decide as D; [destruct D as [<- _]; intros [= <-]; simpl; lia|].
        intros Lj. rewrite (ci_prefix _ _ I j x Lj). rewrite Ci. assert (j <> i) by (intros ->; apply D; split; [done|by eapply lookup_lt_Some]). lia.
      * right. intros j x Lj. apply (Nv j); [by eapply lookup_lt_Some|done].
    + destruct ev as [i|]; intros [= <- <-]; [|done]. destruct Ev as (e & L & [V0 Pe] & _).
      pose proof (lookup_lt_Some _ _ _ L) as Hi.
      assert (candidate_count k = 16) as Cf.
      { destruct (decide (candidate_count k = 16)); [done|].
        destruct (lookup_lt_is_Some_2 (candidates k) (Z.to_nat (candidate_count k))) as [x Lx]; [rewrite Ln; unfold RELM_CR3_CACHE_SIZE; lia|].
        destruct (Em _ x (lookup_lt_Some _ _ _ Lx) Lx). apply (ci_prefix _ _ I _ _ Lx). lia. }
      assert (v <> 0) as Hv0 by (destruct Hv; [done|lia]). rewrite Ln in Hi. unfold RELM_CR3_CACHE_SIZE in Hi.
      eapply (inv_insert c k _ i e (Cr3Entry v 1 now false)); try done; [congruence| |].
      * intros j x. cbn [candidates set_candidates candidate_count]. rewrite list_lookup_insert.
        case_decide as D; [destruct D as [<- _]; intros [= <-]; simpl; lia|apply (ci_prefix _ _ I)].
      * right. intros j x Lj. apply (Nv j); [by eapply lookup_lt_Some|done].
Qed.

(** At most four entries are promoted, so a full table has one that is not. *)
Lemma unpromoted_exists c k : cache_inv c k -> exists i e, candidates k !! i = Some e /\ promoted e = false.
Proof.
  intros I. destruct (decide (Exists (fun e => promoted e = false) (candidates k))) as [X|X].
  { apply Exists_exists in X as (e & [i L]%list_elem_of_lookup & P). by exists i, e. }
  exfalso. apply not_Exists_Forall in X; [|intros; apply _]. rewrite Forall_forall in X.
  assert (length (map cr3_value (candidates k)) <= length (vmcs_targets c))%nat as B.
  { apply submseteq_length, NoDup_submseteq.
    - apply NoDup_alt. intros i j x. change (map cr3_value) with (fmap (M := list) cr3_value).
      rewrite !list_lookup_fmap. destruct (candidates k !! i) as [e|] eqn:L1; [|done].
      destruct (candidates k !! j) as [e'|] eqn:L2; [|done]. intros [= <-] [= Ev].
      eapply (ci_distinct _ _ I); try done. apply (ci_promoted _ _ I); [by eapply list_elem_of_lookup_2|].
      apply not_false_iff_true, X. by eapply list_elem_of_lookup_2.
    - intros v (e & -> & He)%list_elem_of_fmap. apply I. exists e. split_and!; [done| |done].
      by apply not_false_iff_true, X. }
  rewrite length_map, (ci_length _ _ I) in B. unfold vmcs_targets in B. rewrite length_map, length_take in B.
  unfold RELM_CR3_CACHE_SIZE in B. simpl in B. lia.
Qed.

Lemma elem_values l l' (e : cr3_target_entry) : map cr3_value l = map cr3_value l' -> e ∈ l ->
  exists e', e' ∈ l' /\ cr3_value e' = cr3_value e.
Proof.
  intros E He. assert (cr3_value e ∈ map cr3_value l') as H by (rewrite <- E; apply list_elem_of_fmap; by exists e).
  apply list_elem_of_fmap in H as (e' & Ev & ?). by exists e'.
Qed.

Lemma elem_insert_self (l : list cr3_target_entry) i e e' : l !! i = Some e -> e' ∈ <[i := e']> l.
Proof. intros L. apply list_elem_of_lookup. exists i. apply list_lookup_insert_eq. by eapply lookup_lt_Some. Qed.
Lemma elem_insert_other (l : list cr3_target_entry) i e e' x : l !! i = Some e -> x ∈ l -> x <> e -> x ∈ <[i := e']> l.
Proof.
  intros L [j Lj]%list_elem_of_lookup Hn. apply list_elem_of_lookup. exists j.
  rewrite list_lookup_insert_ne; [done|]. intros ->. congruence.
Qed.

(** The value is in the table afterwards, and so is every promoted one. *)
Lemma record_tracks now c k v c' k' : cache_inv c k -> v <> 0 ->
  (forall e, e ∈ candidates k -> hit_count e < U64_MAX) -> relm_cr3_cache_record wr now c k v = (c', k') ->
  (exists e, e ∈ candidates k' /\ cr3_value e = v) /\
  (forall e, e ∈ candidates k -> promoted e = true -> exists e', e' ∈ candidates k' /\ cr3_value e' = cr3_value e).
Proof.
  clear Wc. intros I0 Hv Hm. unfold relm_cr3_cache_record. cbv zeta. set (k1 := set_total_exits k _).
  assert (cache_inv c k1) as I by (by destruct I0; split). change (candidates k) with (candidates k1) in *.
  clearbody k1. clear I0 k. rename k1 into k.
  pose proof (record_scan_spec (candidates k) v [] (candidates k) None None U64_MAX eq_refl (scan_start _ _)) as S.
  cbn [length] in S. destruct (record_scan 0 (candidates k) v None None U64_MAX) as [[[i|] em] ev].
  - destruct S as (e & L & Ev). rewrite L. cbn [default id].
    set (k2 := set_candidates k (<[i := hit now e]> (candidates k))).
    assert (forall c1 k1, map cr3_value (candidates k1) = map cr3_value (candidates k2) ->
      (c1, k1) = (c', k') -> (exists e, e ∈ candidates k' /\ cr3_value e = v) /\
      (forall e, e ∈ candidates k -> promoted e = true -> exists e', e' ∈ candidates k' /\ cr3_value e' = cr3_value e)) as Fin.
    { intros c1 k1 Em [= <- <-]. split.
      - destruct (elem_values _ (candidates k1) (hit now e) (eq_sym Em)) as (x & ? & Ex);
          [by apply (elem_insert_self _ i e)|]. exists x. by rewrite Ex.
      - intros x Hx _. destruct (decide (cr3_value x = v)) as [Xv|Xn].
        + destruct (elem_values _ (candidates k1) (hit now e) (eq_sym Em)) as (y & ? & Ey);
            [by apply (elem_insert_self _ i e)|]. exists y. split; [done|]. rewrite Ey, Xv. done.
        + destruct (elem_values _ (candidates k1) x (eq_sym Em)) as (y & ? & Ey); [|by exists y].
          apply (elem_insert_other _ i e); [done..|congruence]. }
    case_match; [|by apply Fin]. destruct (relm_cr3_cache_apply wr c k2) as [c1 k1] eqn:A. apply Fin.
    rewrite <- (apply_values c k2), A. done.
  - destruct S as (ec & Nv & Em & Lo & Ev).
    assert (forall i e, candidates k !! i = Some e -> promoted e = false ->
      (exists x, x ∈ <[i := Cr3Entry v 1 now false]> (candidates k) /\ cr3_value x = v) /\
      (forall x, x ∈ candidates k -> promoted x = true ->
         exists x', x' ∈ <[i := Cr3Entry v 1 now false]> (candidates k) /\ cr3_value x' = cr3_value x)) as Fin.
    { intros i e L Pe. split; [exists (Cr3Entry v 1 now false); split; [by apply (elem_insert_self _ i e)|done]|].
      intros x Hx Px. exists x. split; [|done]. apply (elem_insert_other _ i e); [done..|congruence]. }
    destruct em as [i|]; [|destruct ev as [i|]].
    + destruct Em as [(e & L & V0) _]. intros [= <- <-]. apply (Fin i e L).
      destruct (promoted e) eqn:P; [|done]. destruct (ci_promoted _ _ I e); [by eapply list_elem_of_lookup_2|done..].
    + destruct Ev as (e & L & [_ Pe] & _). intros [= <- <-]. by apply (Fin i e L).
    + exfalso. destruct (unpromoted_exists c k I) as (i & e & L & Pe).
      pose proof (lookup_lt_Some _ _ _ L) as Hi. pose proof (Lo i e Hi L (conj (Em i e Hi L) Pe)).
      pose proof (Hm e ltac:(by eapply list_elem_of_lookup_2)). lia.
Qed.
End Inv.

(** ** Properties *)

(** The loads that exit, one after the other. *)
Definition record_all (wr : Z -> bool) (l : list (Z * Z)) (ck : xcpu * cr3_shadow_cache) : xcpu * cr3_shadow_cache :=
  fold_left (fun ck nv => relm_cr3_cache_record wr (fst nv) (fst ck) (snd ck) (snd nv)) l ck.

Lemma init_inv c : __vmread c CR3_TARGET_COUNT = 0 -> cache_inv c relm_cr3_cache_init.
Proof.
  intros E. assert (forall e, e ∈ candidates relm_cr3_cache_init -> e = empty_entry) as Em
    by (intros e [? _]%elem_of_replicate; done).
  assert (forall i e, candidates relm_cr3_cache_init !! i = Some e -> e = empty_entry) as Lk
    by (intros i e L; by eapply Em, list_elem_of_lookup_2).
  split.
  - done.
  - simpl. lia.
  - intros i e ->%Lk. simpl. lia.
  - intros i j e e' ->%Lk _ _ []. done.
  - intros i e ->%Lk. simpl. lia.
  - intros e ->%Em. done.
  - simpl. lia.
  - intros v. rewrite targets_none by done. split; [by intros []%not_elem_of_nil|].
    by intros (e & ->%Em & ? & _).
Qed.

(** The frequency policy chooses the best entries of the table: at most four, each
    used and none twice, four or all there are; an entry left out never has more hits
    than a chosen one, nor as many and seen later; and they are written in that
    order. *)
Theorem policy_correct (l : list cr3_target_entry) (n : Z) : counts_ok l -> 0 <= n <= Z.of_nat (length l) ->
  let sel := policy_indices l n in let t := take (Z.to_nat n) l in
  relm_cr3_cache_policy_frequency l n = map (fun i => cr3_value (default empty_entry (l !! i))) sel /\
  NoDup sel /\ (forall i, i ∈ sel -> exists e, eligible t i e) /\
  (forall i e j e', i ∈ sel -> eligible t i e -> j ∉ sel -> eligible t j e' -> ~ better e' e) /\
  (forall a i b j e e', sel = a ++ i :: b -> j ∈ b -> eligible t i e -> eligible t j e' -> ~ better e' e) /\
  (Z.of_nat (length sel) = Z.min n 4 \/ Z.of_nat (length sel) < Z.min n 4 /\ forall j e, eligible t j e -> j ∈ sel).
Proof.
  intros Cn Hn. cbv zeta. destruct (policy_indices_spec l n Cn ltac:(lia)) as (Nd & El & Tp & So & Ln & Fl).
  split_and!; try done. destruct (decide (Z.of_nat (length (policy_indices l n)) = Z.min n 4)); [by left|right].
  split; [lia|]. by destruct Fl.
Qed.

(** C30. The processor suppresses exactly the exits the cache knows about: after any
    sequence of exiting CR3 loads of non-zero values, with writes of target values
    failing or not, the values the processor compares with are the values of the
    entries marked promoted, at most four of them; the entries are distinct and fill
    the front of the table. *)
Theorem cr3_targets_tracked (wr : Z -> bool) (c c' : xcpu) (k' : cr3_shadow_cache) (l : list (Z * Z)) :
  wr CR3_TARGET_COUNT = true -> __vmread c CR3_TARGET_COUNT = 0 ->
  (forall now v, (now, v) ∈ l -> 0 <= now /\ v <> 0) ->
  record_all wr l (c, relm_cr3_cache_init) = (c', k') -> cache_inv c' k'.
Proof.
  intros Wc E Ok. assert (forall ck, cache_inv (fst ck) (snd ck) ->
    cache_inv (fst (record_all wr l ck)) (snd (record_all wr l ck))) as Go.
  { induction l as [|[now v] l IH]; intros [c1 k1] I; [done|]. unfold record_all. cbn [fold_left fst snd].
    destruct (Ok now v (list_elem_of_here _ _)) as [Hn Hv].
    destruct (relm_cr3_cache_record wr now c1 k1 v) as [c2 k2] eqn:R.
    apply IH; [intros; apply Ok; by right|]. by eapply (record_inv wr Wc); [|left| |exact R]. }
  intros R. specialize (Go (c, relm_cr3_cache_init) (init_inv c E)). rewrite R in Go. exact Go.
Qed.

(** Recording never drops a load: with the table in order and no counter at its
    maximum, a CR3 value that was recorded is in the table - a full table always has
    an entry that can be evicted - and no promoted value is ever evicted. *)
Theorem record_never_drops (wr : Z -> bool) (now : Z) (c c' : xcpu) (k k' : cr3_shadow_cache) (v : Z) :
  cache_inv c k -> v <> 0 -> (forall e, e ∈ candidates k -> hit_count e < U64_MAX) ->
  relm_cr3_cache_record wr now c k v = (c', k') ->
  (exists e, e ∈ candidates k' /\ cr3_value e = v) /\
  (forall e, e ∈ candidates k -> promoted e = true -> exists e', e' ∈ candidates k' /\ cr3_value e' = cr3_value e).
Proof. apply (record_tracks wr). Qed.

(** ** Concrete runs *)
Module Cr3Demo.
Definition all_writable : Z -> bool := fun _ => true.
Definition cpu0 : xcpu := XCpu (replicate 16 0) 0 ∅ VCPU_STATE_RUNNING true 0 0 0 0 0.
(** Ten loads of one value, three of another. *)
Definition loads : list (Z * Z) := map (fun i => (Z.of_nat i, 0x5000)) (seq 1 10) ++ map (fun i => (Z.of_nat i, 0x7000)) (seq 11 3).
Definition after : xcpu * cr3_shadow_cache := record_all all_writable loads (cpu0, relm_cr3_cache_init).

Lemma loads_ok now v : (now, v) ∈ loads -> 0 <= now /\ v <> 0.
Proof.
  intros [(i & [= -> ->] & _)%list_elem_of_fmap|(i & [= -> ->] & _)%list_elem_of_fmap]%elem_of_app; (split; [lia|done]).
Qed.

Lemma after_eq : record_all all_writable loads (cpu0, relm_cr3_cache_init) = (fst after, snd after).
Proof. unfold after. destruct (record_all all_writable loads (cpu0, relm_cr3_cache_init)) as [c k]. reflexivity. Qed.

Lemma cr3_targets_tracked_witness : vmcs_targets (fst after) = [0x5000] /\ cache_inv (fst after) (snd after).
Proof.
  split; [vm_compute; reflexivity|].
  exact (cr3_targets_tracked all_writable cpu0 (fst after) (snd after) loads eq_refl eq_refl loads_ok after_eq).
Defined.

Lemma policy_correct_witness : relm_cr3_cache_policy_frequency (candidates (snd after)) 2 = [0x5000; 0x7000] /\
  NoDup (policy_indices (candidates (snd after)) 2).
Proof.
  split; [vm_compute; reflexivity|].
  apply (policy_correct (candidates (snd after)) 2); [|vm_compute; split; discriminate].
  apply (ci_counts (fst after)). apply cr3_targets_tracked_witness.
Defined.

Lemma record_never_drops_witness : exists e,
  e ∈ candidates (snd (relm_cr3_cache_record all_writable 20 (fst after) (snd after) 0x9000)) /\ cr3_value e = 0x9000.
Proof.
  assert (forallb (fun e => hit_count e <? U64_MAX) (candidates (snd after)) = true) as B by (vm_compute; reflexivity).
  pose proof (proj2 cr3_targets_tracked_witness) as I. revert B I. generalize (fst after) (snd after). intros c k B I.
  destruct (relm_cr3_cache_record all_writable 20 c k 0x9000) as [c' k'] eqn:R.
  destruct (record_never_drops all_writable 20 c c' k k' 0x9000 I ltac:(discriminate)) as [(e & ? & ?) _]; [|exact R|by exists e].
  intros e He. rewrite forallb_forall in B. apply Z.ltb_lt, B. by apply list_elem_of_In.
Defined.

(** Sixteen values, then zero, then one more: zero overwrites an entry, the slot
    counts as empty, and the count of entries becomes 17 in a table of 16. *)
Definition full_then_zero : list (Z * Z) :=
  map (fun i => (Z.of_nat i, Z.of_nat i * 4096)) (seq 1 16) ++ [(17, 0); (18, 0x20000)].
Theorem zero_cr3_overflows_count :
  candidate_count (snd (record_all all_writable full_then_zero (cpu0, relm_cr3_cache_init))) = 17.
Proof. vm_compute. reflexivity. Qed.
End Cr3Demo.
