(* ===== verification/VmcsFields.v ===== *)
(** * VMCS fields and control bits

    The encodings and bits the VMX set-up code writes: include/arch/x86/vmx/vmcs.h,
    vmcs_state.h, ept.h, the reset values of include/firmware/seabios.h, and the guest
    descriptor tables of include/boot/arch/x86/loader.h.  The control-register bits and
    the MSR numbers at the end are Linux's. *)
From S2P Require Import Prelude.

Definition VMCS_VPID : Z := 0x00000000.
Definition VMCS_IO_BITMAP_A : Z := 0x00002000.
Definition VMCS_IO_BITMAP_B : Z := 0x00002002.
Definition VMCS_MSR_BITMAP : Z := 0x00002004.
Definition VMCS_EXIT_MSR_STORE_ADDR : Z := 0x00002006.
Definition VMCS_EXIT_MSR_LOAD_ADDR : Z := 0x00002008.
Definition VMCS_ENTRY_MSR_LOAD_ADDR : Z := 0x0000200a.
Definition VMCS_PIN_BASED_EXEC_CONTROLS : Z := 0x00004000.
Definition VMCS_PRIMARY_PROC_BASED_EXEC_CONTROLS : Z := 0x00004002.
Definition VMCS_EXCEPTION_BITMAP : Z := 0x00004004.
Definition VMCS_EXIT_CONTROLS : Z := 0x0000400c.
Definition VMCS_EXIT_MSR_STORE_COUNT : Z := 0x00002007.
Definition VMCS_EXIT_MSR_LOAD_COUNT : Z := 0x00002009.
Definition VMCS_ENTRY_MSR_LOAD_COUNT : Z := 0x0000200b.
Definition CR0_GUEST_HOST_MASK : Z := 0x00006000.
Definition CR4_GUEST_HOST_MASK : Z := 0x00006002.
Definition VMCS_PIN_EXTINT_EXITING : Z := Z.shiftl 1 0.
Definition VMCS_PIN_NMI_EXITING : Z := Z.shiftl 1 3.
Definition VMCS_PIN_VIRTUAL_NMIS : Z := Z.shiftl 1 5.
Definition VMCS_PROC_HLT_EXITING : Z := Z.shiftl 1 7.
Definition VMCS_PROC_CR8_LOAD_EXITING : Z := Z.shiftl 1 19.
Definition VMCS_PROC_CR8_STORE_EXITING : Z := Z.shiftl 1 20.
Definition VMCS_PROC_TPR_SHADOW : Z := Z.shiftl 1 21.
Definition VMCS_PROC_UNCOND_IO_EXITING : Z := Z.shiftl 1 24.
Definition VMCS_PROC_USE_IO_BITMAPS : Z := Z.shiftl 1 25.
Definition VMCS_PROC_USE_MSR_BITMAPS : Z := Z.shiftl 1 28.
Definition VMCS_PROC_ACTIVATE_SECONDARY : Z := Z.shiftl 1 31.
Definition VMCS_PROC2_ENABLE_EPT : Z := Z.shiftl 1 1.
Definition VMCS_PROC2_RDTSCP : Z := Z.shiftl 1 3.
Definition VMCS_PROC2_VPID : Z := Z.shiftl 1 5.
Definition VMCS_PROC2_UNRESTRICTED_GUEST : Z := Z.shiftl 1 7.
Definition VMCS_PROC2_ENABLE_INVPCID : Z := Z.shiftl 1 12.
Definition VMCS_PROC2_ENABLE_VMFUNC : Z := Z.shiftl 1 13.
Definition VM_EXIT_HOST_ADDR_SPACE_SIZE : Z := Z.shiftl 1 9.
Definition VMCS_EXIT_SAVE_IA32_PAT : Z := Z.shiftl 1 18.
Definition VMCS_EXIT_LOAD_IA32_PAT : Z := Z.shiftl 1 19.
Definition VMCS_EXIT_SAVE_EFER : Z := Z.shiftl 1 20.
Definition VMCS_EXIT_LOAD_EFER : Z := Z.shiftl 1 21.
Definition VMCS_EXIT_ACK_INTR_ON_EXIT : Z := Z.shiftl 1 15.
Definition VMCS_ENTRY_LOAD_DEBUG : Z := Z.shiftl 1 2.
Definition VMCS_ENTRY_LOAD_GUEST_PAT : Z := Z.shiftl 1 14.
Definition VMCS_ENTRY_LOAD_IA32_EFER : Z := Z.shiftl 1 15.
Definition MSR_IA32_STAR : Z := 0xC0000081.
Definition MSR_IA32_LSTAR : Z := 0xC0000082.
Definition MSR_IA32_CSTAR : Z := 0xC0000083.
Definition MSR_IA32_FMASK : Z := 0xC0000084.
Definition MSR_IA32_FS_BASE : Z := 0xC0000100.
Definition MSR_IA32_GS_BASE : Z := 0xC0000101.
Definition IA32_SYSENTER_CS : Z := 0x00000174.
Definition VMCS_IO_BITMAP_PAGE_SIZE : Z := 4096.
Definition VMCS_IO_BITMAP_SIZE : Z := 4096.
Definition HOST_CR0 : Z := 0x00006c00.
Definition HOST_CR3 : Z := 0x00006c02.
Definition HOST_CR4 : Z := 0x00006c04.
Definition HOST_RSP : Z := 0x00006c14.
Definition HOST_RIP : Z := 0x00006c16.
Definition HOST_ES_SELECTOR : Z := 0x00000c00.
Definition HOST_CS_SELECTOR : Z := 0x00000c02.
Definition HOST_SS_SELECTOR : Z := 0x00000c04.
Definition HOST_DS_SELECTOR : Z := 0x00000c06.
Definition HOST_FS_SELECTOR : Z := 0x00000c08.
Definition HOST_GS_SELECTOR : Z := 0x00000c0a.
Definition HOST_TR_SELECTOR : Z := 0x00000c0c.
Definition HOST_FS_BASE : Z := 0x00006c06.
Definition HOST_GS_BASE : Z := 0x00006c08.
Definition HOST_TR_BASE : Z := 0x00006c0a.
Definition HOST_GDTR_BASE : Z := 0x00006c0c.
Definition HOST_IDTR_BASE : Z := 0x00006c0e.
Definition HOST_SYSENTER_CS : Z := 0x00006C0C.
Definition HOST_SYSENTER_ESP : Z := 0x00006C0E.
Definition HOST_SYSENTER_EIP : Z := 0x00006C10.
Definition GUEST_RFLAGS : Z := 0x00006820.
Definition MSR_IA32_CR_PAT : Z := 0x00000277.
Definition MSR_EFER : Z := 0xc0000080.
Definition HOST_IA32_PAT : Z := 0x00002c00.
Definition HOST_IA32_EFER : Z := 0x00002c02.
Definition GUEST_ES_SELECTOR : Z := 0x00000800.
Definition GUEST_CS_SELECTOR : Z := 0x00000802.
Definition GUEST_SS_SELECTOR : Z := 0x00000804.
Definition GUEST_DS_SELECTOR : Z := 0x00000806.
Definition GUEST_FS_SELECTOR : Z := 0x00000808.
Definition GUEST_GS_SELECTOR : Z := 0x0000080a.
Definition GUEST_LDTR_SELECTOR : Z := 0x0000080c.
Definition GUEST_TR_SELECTOR : Z := 0x0000080e.
Definition GUEST_ES_LIMIT : Z := 0x00004800.
Definition GUEST_CS_LIMIT : Z := 0x00004802.
Definition GUEST_SS_LIMIT : Z := 0x00004804.
Definition GUEST_DS_LIMIT : Z := 0x00004806.
Definition GUEST_FS_LIMIT : Z := 0x00004808.
Definition GUEST_GS_LIMIT : Z := 0x0000480a.
Definition GUEST_LDTR_LIMIT : Z := 0x0000480c.
Definition GUEST_TR_LIMIT : Z := 0x0000480e.
Definition GUEST_GDTR_LIMIT : Z := 0x00004810.
Definition GUEST_IDTR_LIMIT : Z := 0x00004812.
Definition GUEST_ES_AR_BYTES : Z := 0x00004814.
Definition GUEST_SS_AR_BYTES : Z := 0x00004818.
Definition GUEST_DS_AR_BYTES : Z := 0x0000481a.
Definition GUEST_FS_AR_BYTES : Z := 0x0000481c.
Definition GUEST_GS_AR_BYTES : Z := 0x0000481e.
Definition GUEST_LDTR_AR_BYTES : Z := 0x00004820.
Definition GUEST_TR_AR_BYTES : Z := 0x00004822.
Definition GUEST_ES_BASE : Z := 0x00006806.
Definition GUEST_SS_BASE : Z := 0x0000680a.
Definition GUEST_DS_BASE : Z := 0x0000680c.
Definition GUEST_FS_BASE : Z := 0x0000680e.
Definition GUEST_GS_BASE : Z := 0x00006810.
Definition GUEST_LDTR_BASE : Z := 0x00006812.
Definition GUEST_TR_BASE : Z := 0x00006814.
Definition GUEST_GDTR_BASE : Z := 0x00006816.
Definition GUEST_IDTR_BASE : Z := 0x00006818.
Definition GUEST_IA32_PAT : Z := 0x00002804.
Definition GUEST_INTERRUPTIBILITY_INFO : Z := 0x00004824.
Definition GUEST_PENDING_DBG_EXCEPTIONS : Z := 0x00006822.
Definition GUEST_ACTIVITY_STATE : Z := 0x00004826.
Definition VMCS_LINK_POINTER : Z := 0x00002800.
Definition SEABIOS_INITIAL_CS_SELECTOR : Z := 0xF000.
Definition SEABIOS_INITIAL_CS_BASE : Z := 0xFFFF0000.
Definition SEABIOS_INITIAL_CS_LIMIT : Z := 0x0000FFFF.
Definition SEABIOS_INITIAL_CS_ACCESS : Z := 0x0000009B.
Definition SEABIOS_INITIAL_RIP : Z := 0x0000FFF0.
Definition SEABIOS_INITIAL_DS_SELECTOR : Z := 0x0000.
Definition SEABIOS_INITIAL_DS_BASE : Z := 0x00000000.
Definition SEABIOS_INITIAL_DS_LIMIT : Z := 0x0000FFFF.
Definition SEABIOS_INITIAL_DS_ACCESS : Z := 0x00000093.
Definition SEABIOS_INITIAL_GDTR_BASE : Z := 0x00000000.
Definition SEABIOS_INITIAL_GDTR_LIMIT : Z := 0x0000FFFF.
Definition SEABIOS_INITIAL_IDTR_BASE : Z := 0x00000000.
Definition SEABIOS_INITIAL_LDTR_ACCESS : Z := 0x00000082.
Definition SEABIOS_INITIAL_TR_ACCESS : Z := 0x0000008B.
Definition SEABIOS_INITIAL_RFLAGS : Z := 0x00000002.
Definition RELM_GUEST_GDT_GPA : Z := 0x00004000.
Definition RELM_GUEST_GDT_SIZE : Z := 24.
Definition RELM_GUEST_IDT_GPA : Z := 0x00005000.
Definition EPT_POINTER : Z := 0x0000201A.
Definition RELM_GUEST_IDT_SIZE : Z := 256 * 16.

(** ** Linux *)
Definition X86_CR0_PE : Z := Z.shiftl 1 0.
Definition X86_CR0_NE : Z := Z.shiftl 1 5.
Definition X86_CR0_WP : Z := Z.shiftl 1 16.
Definition X86_CR0_NW : Z := Z.shiftl 1 29.
Definition X86_CR0_CD : Z := Z.shiftl 1 30.
Definition EFER_SCE : Z := Z.shiftl 1 0.
Definition EFER_LME : Z := Z.shiftl 1 8.
Definition MSR_FS_BASE : Z := 0xC0000100.
Definition MSR_GS_BASE : Z := 0xC0000101.
Definition MSR_IA32_SYSENTER_CS : Z := 0x174.
Definition MSR_IA32_SYSENTER_ESP : Z := 0x175.
Definition MSR_IA32_SYSENTER_EIP : Z := 0x176.
Definition MSR_IA32_VMX_PINBASED_CTLS : Z := 0x481.
Definition MSR_IA32_VMX_PROCBASED_CTLS : Z := 0x482.
Definition MSR_IA32_VMX_EXIT_CTLS : Z := 0x483.
Definition MSR_IA32_VMX_ENTRY_CTLS : Z := 0x484.
Definition MSR_IA32_VMX_PROCBASED_CTLS2 : Z := 0x48B.
Definition __KERNEL_CS : Z := 0x10.
Definition __KERNEL_DS : Z := 0x18.
