(* ===== verification/VmcsSetup.v ===== *)
(** * Setting up a vCPU on VMX

    The two phases of src/arch/x86/vmx/vmx.c that prepare a vCPU: [vmx_vcpu_alloc]
    takes its memory (VMCS region, bitmaps, MSR areas, APIC pages) and
    [vmx_vcpu_init], on the vCPU's own CPU, writes the execution controls, the host
    state and the guest's initial state into the VMCS.

    VMREAD, VMWRITE and RDMSR are the processor: [wr f] says whether field [f] can be
    written, [rdmsr] is what the capability MSRs hold.  [blk] is what the kernel returns
    for each multi-page block the vCPU asks for, [None] for NULL; [va_held] is the
    set of blocks taken and not given back. *)
From S2P Require Import Prelude HostMem VmMem Ept GuestMem Mmu Vcpu Virtio FwCfg Decoder Apic Emul VmExit Cr3Cache VmcsFields.

(** ** Checked writes *)
Section Writes.
Context (wr : Z -> bool).

(** [CHECK_VMWRITE] on each pair in turn: the function returns -EIO at the first that
    fails. *)
Fixpoint check_vmwrites (l : list (Z * Z)) (c : xcpu) : bool * xcpu :=
  match l with
  | [] => (true, c)
  | (f, v) :: l => match _vmwrite wr c f v with
                   | (true, c) => check_vmwrites l c
                   | (false, c) => (false, c)
                   end
  end.
Definition vmws (l : list (Z * Z)) (c : xcpu) (k : xcpu -> Z * xcpu) : Z * xcpu :=
  match check_vmwrites l c with
  | (true, c) => k c
  | (false, c) => (- EIO, c)
  end.
End Writes.

(** ** Execution controls *)
Record vmx_exec_ctrls := VmxExecCtrls { pin_based : Z; primary_proc : Z; secondary_proc : Z; vm_entry : Z; vm_exit : Z }.

Definition bits (l : list Z) : Z := fold_right Z.lor 0 l.

Section Setup.
Context (wr : Z -> bool) (rdmsr : Z -> Z).

Definition allowed0 (msr : Z) : Z := u32 (rdmsr msr).
Definition allowed1 (msr : Z) : Z := u32 (Z.shiftr (rdmsr msr) 32).

Definition _cpu_has_vpid : bool :=
  if negb (flag (allowed1 MSR_IA32_VMX_PROCBASED_CTLS) VMCS_PROC_ACTIVATE_SECONDARY) then false
  else flag (allowed1 MSR_IA32_VMX_PROCBASED_CTLS2) VMCS_PROC2_VPID.

Definition relm_init_exec_controls : vmx_exec_ctrls :=
  VmxExecCtrls
    (bits [VMCS_PIN_EXTINT_EXITING; VMCS_PIN_NMI_EXITING; VMCS_PIN_VIRTUAL_NMIS])
    (bits [VMCS_PROC_USE_MSR_BITMAPS; VMCS_PROC_ACTIVATE_SECONDARY; VMCS_PROC_HLT_EXITING; VMCS_PROC_CR8_LOAD_EXITING;
           VMCS_PROC_CR8_STORE_EXITING; VMCS_PROC_TPR_SHADOW; VMCS_PROC_UNCOND_IO_EXITING; VMCS_PROC_USE_IO_BITMAPS])
    (let s := bits [VMCS_PROC2_ENABLE_EPT; VMCS_PROC2_RDTSCP; VMCS_PROC2_ENABLE_INVPCID; VMCS_PROC2_UNRESTRICTED_GUEST;
                    VMCS_PROC2_ENABLE_VMFUNC] in
     if _cpu_has_vpid then Z.lor s VMCS_PROC2_VPID else s)
    (bits [VM_ENTRY_IA32E_MODE; VMCS_ENTRY_LOAD_GUEST_PAT; VMCS_ENTRY_LOAD_IA32_EFER; VMCS_ENTRY_LOAD_DEBUG])
    (bits [VM_EXIT_HOST_ADDR_SPACE_SIZE; VMCS_EXIT_SAVE_IA32_PAT; VMCS_EXIT_LOAD_IA32_PAT; VMCS_EXIT_SAVE_EFER;
           VMCS_EXIT_LOAD_EFER; VMCS_EXIT_ACK_INTR_ON_EXIT]).

Definition vmx_adjust (req a0 a1 : Z) : Z := Z.land (Z.lor req a0) a1.
Definition adjusted (req msr : Z) : Z := vmx_adjust req (allowed0 msr) (allowed1 msr).

Definition relm_apply_exec_controls (k : vmx_exec_ctrls) (c : xcpu) : Z * xcpu :=
  vmws wr
    [(VMCS_PIN_BASED_EXEC_CONTROLS, adjusted (pin_based k) MSR_IA32_VMX_PINBASED_CTLS);
     (VMCS_PRIMARY_PROC_BASED_EXEC_CONTROLS, adjusted (primary_proc k) MSR_IA32_VMX_PROCBASED_CTLS);
     (VMCS_SECONDARY_PROC_BASED_EXEC_CONTROLS, adjusted (secondary_proc k) MSR_IA32_VMX_PROCBASED_CTLS2);
     (VMCS_ENTRY_CONTROLS, adjusted (vm_entry k) MSR_IA32_VMX_ENTRY_CTLS);
     (VMCS_EXIT_CONTROLS, adjusted (vm_exit k) MSR_IA32_VMX_EXIT_CTLS)] c (fun c => (0, c)).

(** ** Control registers *)
Definition fixed_cr0 (v : Z) : Z := Z.land (Z.lor v (rdmsr MSR_IA32_VMX_CR0_FIXED0)) (rdmsr MSR_IA32_VMX_CR0_FIXED1).
Definition fixed_cr4 (v : Z) : Z := Z.land (Z.lor v (rdmsr MSR_IA32_VMX_CR4_FIXED0)) (rdmsr MSR_IA32_VMX_CR4_FIXED1).
Definition LONG_CR0 : Z := bits [X86_CR0_PG; X86_CR0_PE; X86_CR0_NE; X86_CR0_WP].

(** [cr3] is vcpu->arch.cr3. *)
Definition relm_setup_cr_controls (cr3 : Z) (c : xcpu) : Z * xcpu :=
  let cr0 := fixed_cr0 LONG_CR0 in
  let cr4 := fixed_cr4 X86_CR4_PAE in
  let c := set_cr4 (set_cr0 c cr0) cr4 in
  vmws wr
    [(GUEST_CR0, cr0); (GUEST_CR4, cr4); (GUEST_CR3, cr3);
     (CR0_READ_SHADOW, cr0); (CR4_READ_SHADOW, Z.land cr4 (u64 (Z.lnot X86_CR4_VMXE)));
     (CR0_GUEST_HOST_MASK, bits [X86_CR0_PE; X86_CR0_NE; X86_CR0_CD; X86_CR0_NW]);
     (CR4_GUEST_HOST_MASK, bits [X86_CR4_PAE; X86_CR4_PSE; X86_CR4_VMXE])] c (fun c => (0, c)).

(** ** Host state *)

(** What the instructions read on the host CPU: the control registers, the task
    register, the descriptor-table registers and the base of the TSS descriptor [tr]
    selects; [vmexit_handler] is the address of the exit stub. *)
Record host_regs := HostRegs {
  hr_cr0 : Z; hr_cr3 : Z; hr_cr4 : Z; hr_tr : Z; hr_tr_base : Z; hr_gdt : Z; hr_idt : Z; hr_vmexit_handler : Z
}.

Definition relm_setup_host_state (H : host_regs) (host_rsp : Z) (c : xcpu) : Z * xcpu :=
  vmws wr
    [(HOST_CR0, hr_cr0 H); (HOST_CR3, hr_cr3 H); (HOST_CR4, hr_cr4 H);
     (HOST_RSP, host_rsp); (HOST_RIP, hr_vmexit_handler H);
     (HOST_CS_SELECTOR, Z.land __KERNEL_CS 0xFFF8); (HOST_SS_SELECTOR, Z.land __KERNEL_DS 0xFFF8);
     (HOST_DS_SELECTOR, Z.land __KERNEL_DS 0xFFF8); (HOST_ES_SELECTOR, Z.land __KERNEL_DS 0xFFF8);
     (HOST_FS_SELECTOR, 0); (HOST_GS_SELECTOR, 0)] c (fun c =>
  if hr_tr H =? 0 then (- EINVAL, c)
  else vmws wr
    [(HOST_TR_SELECTOR, Z.land (hr_tr H) 0xFFF8); (HOST_TR_BASE, hr_tr_base H); (HOST_GDTR_BASE, hr_gdt H);
     (HOST_IDTR_BASE, hr_idt H); (VMCS_LINK_POINTER, 0xFFFFFFFFFFFFFFFF);
     (HOST_FS_BASE, rdmsr MSR_FS_BASE); (HOST_GS_BASE, rdmsr MSR_GS_BASE);
     (HOST_SYSENTER_CS, rdmsr MSR_IA32_SYSENTER_CS); (HOST_SYSENTER_ESP, rdmsr MSR_IA32_SYSENTER_ESP);
     (HOST_SYSENTER_EIP, rdmsr MSR_IA32_SYSENTER_EIP); (HOST_IA32_EFER, rdmsr MSR_EFER);
     (HOST_IA32_PAT, rdmsr MSR_IA32_CR_PAT)] c (fun c => (0, c))).

(** ** Guest state *)

(** What [vm->arch] and [vm->memory] say about the guest to start. *)
Record boot_info := BootInfo { bi_pml4 : Z; bi_kernel_entry : Z; bi_boot_params : Z; bi_total_ram : Z }.

(** The four fields of a data segment. *)
Definition segment (s b l a : Z) (sel base limit ar : Z) : list (Z * Z) := [(s, sel); (b, base); (l, limit); (a, ar)].
Definition data_segments (sel base limit ar : Z) : list (Z * Z) :=
  segment GUEST_DS_SELECTOR GUEST_DS_BASE GUEST_DS_LIMIT GUEST_DS_AR_BYTES sel base limit ar ++
  segment GUEST_ES_SELECTOR GUEST_ES_BASE GUEST_ES_LIMIT GUEST_ES_AR_BYTES sel base limit ar.
Definition seg_ss : Z -> Z -> Z -> Z -> list (Z * Z) := segment GUEST_SS_SELECTOR GUEST_SS_BASE GUEST_SS_LIMIT GUEST_SS_AR_BYTES.
Definition seg_fs : Z -> Z -> Z -> Z -> list (Z * Z) := segment GUEST_FS_SELECTOR GUEST_FS_BASE GUEST_FS_LIMIT GUEST_FS_AR_BYTES.
Definition seg_gs : Z -> Z -> Z -> Z -> list (Z * Z) := segment GUEST_GS_SELECTOR GUEST_GS_BASE GUEST_GS_LIMIT GUEST_GS_AR_BYTES.
Definition seg_cs : Z -> Z -> Z -> Z -> list (Z * Z) := segment GUEST_CS_SELECTOR GUEST_CS_BASE GUEST_CS_LIMIT GUEST_CS_AR_BYTES.
Definition seg_ldtr : Z -> Z -> Z -> Z -> list (Z * Z) :=
  segment GUEST_LDTR_SELECTOR GUEST_LDTR_BASE GUEST_LDTR_LIMIT GUEST_LDTR_AR_BYTES.
Definition seg_tr : Z -> Z -> Z -> Z -> list (Z * Z) := segment GUEST_TR_SELECTOR GUEST_TR_BASE GUEST_TR_LIMIT GUEST_TR_AR_BYTES.

Definition idle_state : list (Z * Z) :=
  [(GUEST_ACTIVITY_STATE, 0); (GUEST_INTERRUPTIBILITY_INFO, 0); (GUEST_PENDING_DBG_EXCEPTIONS, 0);
   (VMCS_LINK_POINTER, 0xFFFFFFFFFFFFFFFF)].

Definition LONG_EFER : Z := bits [EFER_LME; EFER_LMA; EFER_SCE].

(** RSP is register 4 and RSI register 6 of the instruction encoding. *)
Definition relm_setup_guest_state_longmode (B : boot_info) (c : xcpu) : Z * xcpu :=
  let entry_controls := Z.lor (u32 (__vmread c VMCS_ENTRY_CONTROLS)) VM_ENTRY_IA32E_MODE in
  vmws wr [(VMCS_ENTRY_CONTROLS, entry_controls)] c (fun c =>
  if bi_pml4 B =? 0 then (- EINVAL, c)
  else vmws wr [(GUEST_CR3, bi_pml4 B); (GUEST_IA32_EFER, LONG_EFER)] c (fun c =>
  let c := set_efer c LONG_EFER in
  let cr0 := fixed_cr0 LONG_CR0 in
  let cr4 := fixed_cr4 X86_CR4_PAE in
  vmws wr [(GUEST_CR0, cr0); (GUEST_CR4, cr4)] c (fun c =>
  let c := set_xcr0 (set_cr4 (set_cr0 c cr0) cr4) 0 in
  vmws wr
    ([(GUEST_IA32_PAT, rdmsr MSR_IA32_CR_PAT)] ++ seg_cs 0x0008 0 0xFFFFFFFF 0xA09B ++
     data_segments 0x0010 0 0xFFFFFFFF 0xC093 ++ seg_ss 0x0010 0 0xFFFFFFFF 0xC093 ++
     seg_fs 0x0010 0 0xFFFFFFFF 0xC093 ++ seg_gs 0x0010 0 0xFFFFFFFF 0xC093 ++
     seg_ldtr 0 0 0 0x10000 ++ seg_tr 0 0 0x67 0x008B ++
     [(GUEST_GDTR_BASE, RELM_GUEST_GDT_GPA); (GUEST_GDTR_LIMIT, RELM_GUEST_GDT_SIZE - 1);
      (GUEST_IDTR_BASE, RELM_GUEST_IDT_GPA); (GUEST_IDTR_LIMIT, RELM_GUEST_IDT_SIZE - 1)]) c (fun c =>
  let entry_rip := bi_kernel_entry B in
  if entry_rip =? 0 then (- EINVAL, c)
  else vmws wr [(GUEST_RIP, entry_rip)] c (fun c =>
  let entry_rsi := bi_boot_params B in
  if entry_rsi =? 0 then (- EINVAL, c)
  else vmws wr
    [(GUEST_RSP, Z.land (u64 (bi_total_ram B - 3 * PAGE_SIZE)) (u64 (Z.lnot 0xF))); (GUEST_RFLAGS, 0x2)] c (fun c =>
  let c := set_rip (set_gprs c (guest_reg_write (guest_reg_write (x_gprs c) 6 entry_rsi) 4 (__vmread c GUEST_RSP))) entry_rip in
  vmws wr idle_state c (fun c => (0, c)))))))).

(** The 16-bit reset state SeaBIOS starts from. *)
Definition relm_setup_guest_state_firmware (c : xcpu) : Z * xcpu :=
  let entry_controls := Z.land (u32 (__vmread c VMCS_ENTRY_CONTROLS)) (u32 (Z.lnot VM_ENTRY_IA32E_MODE)) in
  vmws wr [(VMCS_ENTRY_CONTROLS, entry_controls)] c (fun c =>
  let c := set_efer c 0 in
  let ds := fun seg : Z -> Z -> Z -> Z -> list (Z * Z) =>
    seg SEABIOS_INITIAL_DS_SELECTOR SEABIOS_INITIAL_DS_BASE SEABIOS_INITIAL_DS_LIMIT SEABIOS_INITIAL_DS_ACCESS in
  vmws wr
    ([(GUEST_IA32_EFER, 0)] ++
     seg_cs SEABIOS_INITIAL_CS_SELECTOR SEABIOS_INITIAL_CS_BASE SEABIOS_INITIAL_CS_LIMIT SEABIOS_INITIAL_CS_ACCESS ++
     ds data_segments ++ ds seg_fs ++ ds seg_gs ++ ds seg_ss ++
     seg_ldtr 0 0 0xFFFF SEABIOS_INITIAL_LDTR_ACCESS ++ seg_tr 0 0 0x67 SEABIOS_INITIAL_TR_ACCESS ++
     [(GUEST_GDTR_BASE, SEABIOS_INITIAL_GDTR_BASE); (GUEST_GDTR_LIMIT, SEABIOS_INITIAL_GDTR_LIMIT);
      (GUEST_IDTR_BASE, SEABIOS_INITIAL_IDTR_BASE); (GUEST_IDTR_LIMIT, 0x3FF);
      (GUEST_RIP, SEABIOS_INITIAL_RIP); (GUEST_RSP, 0); (GUEST_RFLAGS, SEABIOS_INITIAL_RFLAGS)]) c (fun c =>
  let c := set_rip (set_gprs c (guest_reg_write (x_gprs c) 4 0)) SEABIOS_INITIAL_RIP in
  vmws wr idle_state c (fun c => (0, c)))).
End Setup.

(** ** The MSR bitmap *)
Definition RELM_MSR_READ : Z := 1.
Definition RELM_MSR_WRITE : Z := 2.

(** The bitmap page, byte by byte. *)
Definition bm_byte (b : gmap Z Z) (i : Z) : Z := default 0 (b !! i).
Definition bm_set (b : gmap Z Z) (byte bit : Z) : gmap Z Z := <[byte := Z.lor (bm_byte b byte) (Z.shiftl 1 bit)]> b.

Definition relm_msr_bitmap_set (b : gmap Z Z) (msr access : Z) : gmap Z Z :=
  let go offset :=
    let byte := offset + Z.land msr 0x1FFF / 8 in
    let bit := Z.land msr 0x1FFF mod 8 in
    let b := if flag access RELM_MSR_READ then bm_set b byte bit else b in
    if flag access RELM_MSR_WRITE then bm_set b (byte + 0x800) bit else b in
  if msr <=? 0x1FFF then go 0
  else if (0xC0000000 <=? msr) && (msr <=? 0xC0001FFF) then go 0x400
  else b.

Definition relm_intercept_sysenter_cs (b : gmap Z Z) : gmap Z Z := relm_msr_bitmap_set b IA32_SYSENTER_CS RELM_MSR_READ.
Definition relm_intercept_apic_base (b : gmap Z Z) : gmap Z Z := relm_msr_bitmap_set b MSR_IA32_APIC_BASE RELM_MSR_READ.

(** ** Memory of a vCPU *)

(** The blocks a vCPU asks the kernel for. *)
Inductive block := BVmcs | BIo | BMsr | BStore | BLoad | BEntry.
#[export] Instance block_eq_dec : EqDecision block.
Proof. solve_decision. Defined.
#[export] Instance block_countable : Countable block.
Proof.
  refine (inj_countable' (fun b => match b with BVmcs => 0 | BIo => 1 | BMsr => 2 | BStore => 3 | BLoad => 4 | BEntry => 5 end)%nat
    (fun n => match n with 0 => BVmcs | 1 => BIo | 2 => BMsr | 3 => BStore | 4 => BLoad | _ => BEntry end)%nat _).
  by intros [].
Defined.

Record msr_entry := MsrEntry { me_index : Z; me_value : Z }.

(** Addresses are 0 for NULL; an MSR area is its address and its entries. *)
Record vmx_blocks := VmxBlocks {
  vb_vmcs : Z; vb_io : Z; vb_msr : Z; vb_msr_bits : gmap Z Z;
  vb_store : Z * list msr_entry; vb_load : Z * list msr_entry; vb_entry : Z * list msr_entry;
  vb_exit_count : Z; vb_entry_count : Z
}.

Record vmx_arch := VmxArch {
  va_cpu : xcpu; va_cr3 : Z; va_host_rsp : Z; va_fs_base : Z; va_gs_base : Z;
  va_ctrls : vmx_exec_ctrls; va_exception_bitmap : Z; va_apic : virt_apic;
  va_blocks : vmx_blocks; va_held : gset block
}.

Definition va_set_cpu (v : vmx_arch) (c : xcpu) : vmx_arch :=
  VmxArch c (va_cr3 v) (va_host_rsp v) (va_fs_base v) (va_gs_base v) (va_ctrls v) (va_exception_bitmap v) (va_apic v) (va_blocks v) (va_held v).
Definition va_set_start (v : vmx_arch) (cr3 host_rsp : Z) : vmx_arch :=
  VmxArch (va_cpu v) cr3 host_rsp (va_fs_base v) (va_gs_base v) (va_ctrls v) (va_exception_bitmap v) (va_apic v) (va_blocks v) (va_held v).
Definition va_set_ctrls (v : vmx_arch) (k : vmx_exec_ctrls) : vmx_arch :=
  VmxArch (va_cpu v) (va_cr3 v) (va_host_rsp v) (va_fs_base v) (va_gs_base v) k (va_exception_bitmap v) (va_apic v) (va_blocks v) (va_held v).
Definition va_set_exceptions (v : vmx_arch) (b : Z) : vmx_arch :=
  VmxArch (va_cpu v) (va_cr3 v) (va_host_rsp v) (va_fs_base v) (va_gs_base v) (va_ctrls v) b (va_apic v) (va_blocks v) (va_held v).
Definition va_set_apic (v : vmx_arch) (a : virt_apic) : vmx_arch :=
  VmxArch (va_cpu v) (va_cr3 v) (va_host_rsp v) (va_fs_base v) (va_gs_base v) (va_ctrls v) (va_exception_bitmap v) a (va_blocks v) (va_held v).
Definition va_set_blocks (v : vmx_arch) (b : vmx_blocks) (held : gset block) : vmx_arch :=
  VmxArch (va_cpu v) (va_cr3 v) (va_host_rsp v) (va_fs_base v) (va_gs_base v) (va_ctrls v) (va_exception_bitmap v) (va_apic v) b held.

Definition vb_set_vmcs (b : vmx_blocks) (p : Z) : vmx_blocks :=
  VmxBlocks p (vb_io b) (vb_msr b) (vb_msr_bits b) (vb_store b) (vb_load b) (vb_entry b) (vb_exit_count b) (vb_entry_count b).
Definition vb_set_io (b : vmx_blocks) (p : Z) : vmx_blocks :=
  VmxBlocks (vb_vmcs b) p (vb_msr b) (vb_msr_bits b) (vb_store b) (vb_load b) (vb_entry b) (vb_exit_count b) (vb_entry_count b).
Definition vb_set_msr (b : vmx_blocks) (p : Z) (bits : gmap Z Z) : vmx_blocks :=
  VmxBlocks (vb_vmcs b) (vb_io b) p bits (vb_store b) (vb_load b) (vb_entry b) (vb_exit_count b) (vb_entry_count b).
Definition vb_set_areas (b : vmx_blocks) (s l e : Z * list msr_entry) (nx ne : Z) : vmx_blocks :=
  VmxBlocks (vb_vmcs b) (vb_io b) (vb_msr b) (vb_msr_bits b) s l e nx ne.

Section Alloc.
Context (wr : Z -> bool) (rdmsr : Z -> Z) (blk : block -> option Z).

(** Taking and giving back a block. *)
Definition take_block (v : vmx_arch) (x : block) (k : Z -> vmx_blocks) : Z * vmx_arch :=
  match blk x with
  | None => (- ENOMEM, v)
  | Some p => (0, va_set_blocks v (k p) ({[x]} ∪ va_held v))
  end.
Definition give_block (v : vmx_arch) (x : block) (b : vmx_blocks) : vmx_arch :=
  va_set_blocks v b (va_held v ∖ {[x]}).

Definition relm_setup_vmcs_region (v : vmx_arch) : Z * vmx_arch := take_block v BVmcs (vb_set_vmcs (va_blocks v)).
Definition relm_free_vmcs_region (v : vmx_arch) : vmx_arch :=
  if vb_vmcs (va_blocks v) =? 0 then v else give_block v BVmcs (vb_set_vmcs (va_blocks v) 0).

Definition relm_setup_io_bitmap (v : vmx_arch) : Z * vmx_arch := take_block v BIo (vb_set_io (va_blocks v)).
Definition relm_free_io_bitmap (v : vmx_arch) : vmx_arch :=
  if vb_io (va_blocks v) =? 0 then v else give_block v BIo (vb_set_io (va_blocks v) 0).

Definition relm_setup_msr_bitmap (v : vmx_arch) : Z * vmx_arch :=
  take_block v BMsr (fun p => vb_set_msr (va_blocks v) p (relm_intercept_apic_base (relm_intercept_sysenter_cs ∅))).
Definition relm_free_msr_bitmap (v : vmx_arch) : vmx_arch :=
  if vb_msr (va_blocks v) =? 0 then v else give_block v BMsr (vb_set_msr (va_blocks v) 0 ∅).

Definition populate_msr_load_area (indices values : list Z) : list msr_entry := zip_with MsrEntry indices values.
Definition populate_msr_store_area (indices : list Z) : list msr_entry := map (fun i => MsrEntry i 0) indices.

(** The areas share the index list; the values the host reloads on an exit are those
    the guest loads on an entry, as the code writes them. *)
Definition relm_setup_msr_areas (v : vmx_arch) (vmexit_list vmentry_list vmentry_values : list Z) : Z * vmx_arch :=
  let nx := Z.of_nat (length vmexit_list) in
  let ne := Z.of_nat (length vmentry_list) in
  if (65535 <? nx) || (65535 <? ne) then (- EINVAL, v)
  else
    let b := va_blocks v in
    let none := (0, []) in
    match blk BStore with
    | None => (- ENOMEM, va_set_blocks v (vb_set_areas b none (vb_load b) (vb_entry b) (vb_exit_count b) (vb_entry_count b)) (va_held v))
    | Some ps =>
        match blk BLoad with
        | None => (- ENOMEM, va_set_blocks v (vb_set_areas b none none (vb_entry b) (vb_exit_count b) (vb_entry_count b)) (va_held v))
        | Some pl =>
            match blk BEntry with
            | None => (- ENOMEM, va_set_blocks v (vb_set_areas b none none none (vb_exit_count b) (vb_entry_count b)) (va_held v))
            | Some pe =>
                let entries := populate_msr_load_area vmentry_list vmentry_values in
                (0, va_set_blocks v
                      (vb_set_areas b (ps, populate_msr_store_area vmexit_list) (pl, entries) (pe, entries) nx ne)
                      ({[BStore]} ∪ ({[BLoad]} ∪ ({[BEntry]} ∪ va_held v))))
            end
        end
    end.

Definition relm_free_all_msr_areas (v : vmx_arch) : vmx_arch :=
  let b := va_blocks v in
  let free (a : Z * list msr_entry) (x : block) (h : gset block) := if fst a =? 0 then h else h ∖ {[x]} in
  va_set_blocks v (vb_set_areas b (0, []) (0, []) (0, []) 0 0)
    (free (vb_entry b) BEntry (free (vb_load b) BLoad (free (vb_store b) BStore (va_held v)))).

Definition managed_msrs : list Z :=
  [MSR_IA32_EFER; MSR_IA32_STAR; MSR_IA32_LSTAR; MSR_IA32_CSTAR; MSR_IA32_FMASK; MSR_IA32_FS_BASE; MSR_IA32_GS_BASE].

Definition relm_vcpu_setup_msr_state (v : vmx_arch) : Z * vmx_arch :=
  let v := va_set_cpu v (set_efer (va_cpu v) LONG_EFER) in
  relm_setup_msr_areas v managed_msrs managed_msrs [LONG_EFER; 0; 0; 0; 0; va_fs_base v; va_gs_base v].

(** [cur] is the vCPU whose VMCS is current on this CPU, if any: the bitmap is
    written there. *)
Definition relm_clear_exception_intercept (v : vmx_arch) (vector : Z) (cur : xcpu) : vmx_arch * xcpu :=
  let v := va_set_exceptions v (Z.land (va_exception_bitmap v) (u32 (Z.lnot (Z.shiftl 1 vector)))) in
  (v, vmwrite_ wr cur VMCS_EXCEPTION_BITMAP (va_exception_bitmap v)).
Definition relm_disable_page_fault_intercept (v : vmx_arch) (cur : xcpu) : vmx_arch * xcpu :=
  relm_clear_exception_intercept v 14 cur.
Definition relm_disable_ud_intercept (v : vmx_arch) (cur : xcpu) : vmx_arch * xcpu :=
  relm_clear_exception_intercept v 16 cur.

Definition relm_vcpu_io_bitmap_enabled (v : vmx_arch) : bool := flag (primary_proc (va_ctrls v)) VMCS_PROC_USE_IO_BITMAPS.
Definition relm_vcpu_msr_bitmap_enabled (v : vmx_arch) : bool := flag (primary_proc (va_ctrls v)) VMCS_PROC_USE_MSR_BITMAPS.

Context {PA : PageAlloc}.

(** The error exits of vmx_vcpu_alloc, from the last to the first. *)
Definition out_free_apic (h : host) (v : vmx_arch) : Z * host * vmx_arch :=
  let '(h, a) := relm_apic_free h (va_apic v) in (- ENOMEM, h, va_set_apic v a).
Definition out_free_vmcs (h : host) (v : vmx_arch) : Z * host * vmx_arch := out_free_apic h (relm_free_vmcs_region v).
Definition out_free_io_bitmap (h : host) (v : vmx_arch) : Z * host * vmx_arch := out_free_vmcs h (relm_free_io_bitmap v).
Definition out_free_msr_bitmap (h : host) (v : vmx_arch) : Z * host * vmx_arch :=
  out_free_io_bitmap h (relm_free_msr_bitmap v).

Definition HOST_STACK_SIZE : Z := 4096 * 4.

Definition vmx_vcpu_alloc (pml4_gpa vpid host_stack : Z) (h : host) (v : vmx_arch) (cur : xcpu)
    : Z * host * vmx_arch * xcpu :=
  match relm_apic_alloc h (va_apic v) with
  | (ret, h, a) =>
      let v := va_set_apic v a in
      if negb (ret =? 0) then (- ENOMEM, h, v, cur)
      else
        let v := va_set_cpu v (set_rip (va_cpu v) 0) in
        let v := va_set_start v pml4_gpa (Z.land (u64 (host_stack + HOST_STACK_SIZE - 0x100)) (u64 (Z.lnot 0xF))) in
        match relm_setup_vmcs_region v with
        | (ret, v) =>
            if negb (ret =? 0) then (out_free_apic h v, cur)
            else
              let v := va_set_ctrls v (relm_init_exec_controls rdmsr) in
              match (if relm_vcpu_io_bitmap_enabled v then relm_setup_io_bitmap v else (0, v)) with
              | (ret, v) =>
                  if negb (ret =? 0) then (out_free_vmcs h v, cur)
                  else
                    let v := va_set_exceptions v 0 in
                    let '(v, cur) := relm_disable_page_fault_intercept v cur in
                    let '(v, cur) := relm_disable_ud_intercept v cur in
                    match (if relm_vcpu_msr_bitmap_enabled v then relm_setup_msr_bitmap v else (0, v)) with
                    | (ret, v) =>
                        if negb (ret =? 0) then (out_free_io_bitmap h v, cur)
                        else
                          match relm_vcpu_setup_msr_state v with
                          | (ret, v) =>
                              if negb (ret =? 0) then (out_free_msr_bitmap h v, cur)
                              else (0, h, va_set_apic v (relm_apic_init (va_apic v) (u8 (vpid - 1))), cur)
                          end
                    end
              end
        end
  end.

Definition vmx_vcpu_free (h : host) (v : vmx_arch) : host * vmx_arch :=
  let '(h, a) := relm_apic_free h (va_apic v) in
  (h, relm_free_vmcs_region (relm_free_io_bitmap (relm_free_msr_bitmap (relm_free_all_msr_areas (va_set_apic v a))))).

(** ** Phase 2 *)

(** [vmclear], [vmptrld]: whether the instructions succeed. *)
Definition relm_vmclear (vmclear : bool) (v : vmx_arch) : Z :=
  if vb_vmcs (va_blocks v) =? 0 then - EINVAL else if vmclear then 0 else - EIO.
Definition relm_vmptrld (vmptrld : bool) (v : vmx_arch) : Z :=
  if vb_vmcs (va_blocks v) =? 0 then - EINVAL else if vmptrld then 0 else - EIO.

(** The address and the count of an MSR area, when there is one. *)
Definition area_writes (addr count : Z) (a : Z * list msr_entry) (n : Z) : list (Z * Z) :=
  if negb (fst a =? 0) && (0 <? n) then [(addr, fst a); (count, n)] else [].

(** The writes between the controls and the APIC. *)
Definition memory_writes (v : vmx_arch) (vpid : Z) : list (Z * Z) :=
  let b := va_blocks v in
  (if _cpu_has_vpid rdmsr then [(VMCS_VPID, vpid)] else []) ++
  (if relm_vcpu_io_bitmap_enabled v && negb (vb_io b =? 0)
   then [(VMCS_IO_BITMAP_A, vb_io b); (VMCS_IO_BITMAP_B, u64 (vb_io b + VMCS_IO_BITMAP_SIZE))] else []) ++
  (if relm_vcpu_msr_bitmap_enabled v && negb (vb_msr b =? 0) then [(VMCS_MSR_BITMAP, vb_msr b)] else []) ++
  area_writes VMCS_EXIT_MSR_STORE_ADDR VMCS_EXIT_MSR_STORE_COUNT (vb_store b) (vb_exit_count b) ++
  area_writes VMCS_EXIT_MSR_LOAD_ADDR VMCS_EXIT_MSR_LOAD_COUNT (vb_load b) (vb_entry_count b) ++
  area_writes VMCS_ENTRY_MSR_LOAD_ADDR VMCS_ENTRY_MSR_LOAD_COUNT (vb_entry b) (vb_entry_count b) ++
  [(VMCS_EXCEPTION_BITMAP, Z.land (va_exception_bitmap v) 0xFFFFFFFF); (CR3_TARGET_COUNT, 0)].

(** The result is the code, the host, the EPT context and the vCPU. *)
Definition vmx_vcpu_init (vmclear vmptrld : bool) (H : host_regs) (B : boot_info) (vpid : Z)
    (h : host) (ept : option ept_context) (v : vmx_arch) : Z * host * option ept_context * vmx_arch :=
  let ret := relm_vmclear vmclear v in
  if negb (ret =? 0) then (ret, h, ept, v)
  else
    let ret := relm_vmptrld vmptrld v in
    if negb (ret =? 0) then (ret, h, ept, v)
    else
      match ept with
      | None => (- EINVAL, h, ept, v)
      | Some e =>
          match check_vmwrites wr [(EPT_POINTER, eptp e)] (va_cpu v) with
          | (false, c) => (- EIO, h, ept, va_set_cpu v c)
          | (true, c) =>
              match relm_apply_exec_controls wr rdmsr (va_ctrls v) c with
              | (ret, c) =>
                  if negb (ret =? 0) then (- EIO, h, ept, va_set_cpu v c)
                  else
                    match check_vmwrites wr (memory_writes v vpid) c with
                    | (false, c) => (- EIO, h, ept, va_set_cpu v c)
                    | (true, c) =>
                        match relm_apic_vmcs_setup wr (rdmsr MSR_IA32_VMX_PROCBASED_CTLS2) (x_vmcs c) (va_apic v) with
                        | (ret, m, a) =>
                            let v := va_set_apic (va_set_cpu v (set_vmcs c m)) a in
                            if negb (ret =? 0) then (- EIO, h, ept, v)
                            else
                              match relm_apic_ept_setup h ept a with
                              | (ret, h, ept) =>
                                  if negb (ret =? 0) then (- EIO, h, ept, v)
                                  else
                                    match relm_setup_cr_controls wr rdmsr (va_cr3 v) (va_cpu v) with
                                    | (ret, c) =>
                                        if negb (ret =? 0) then (- EIO, h, ept, va_set_cpu v c)
                                        else
                                          match relm_setup_host_state wr rdmsr H (va_host_rsp v) c with
                                          | (ret, c) =>
                                              if negb (ret =? 0) then (- EIO, h, ept, va_set_cpu v c)
                                              else
                                                match relm_setup_guest_state_longmode wr rdmsr B c with
                                                | (ret, c) =>
                                                    let v := va_set_cpu v c in
                                                    if negb (ret =? 0) then (- EIO, h, ept, v)
                                                    else (0, h, ept, va_set_start v (bi_pml4 B) (va_host_rsp v))
                                                end
                                          end
                                    end
                              end
                        end
                    end
              end
          end
      end.
End Alloc.

(** ** What a sequence of writes leaves in the VMCS *)
Fixpoint last_write (l : list (Z * Z)) (f : Z) : option Z :=
  match l with
  | [] => None
  | (g, v) :: l => match last_write l f with
                   | Some x => Some x
                   | None => if g =? f then Some v else None
                   end
  end.

(** [c'] is [c] after the writes [l]; only the VMCS changed. *)
Definition written (l : list (Z * Z)) (c c' : xcpu) : Prop :=
  c' = set_vmcs c (x_vmcs c') /\ forall f, __vmread c' f = default (__vmread c f) (last_write l f).

Lemma check_vmwrites_written wr l c c' : check_vmwrites wr l c = (true, c') -> written l c c'.
Proof.
  revert c. induction l as [|[g v] l IH]; intros c; cbn [check_vmwrites].
  - intros [= <-]. split; [by destruct c|done].
  - unfold _vmwrite. destruct (wr g); [|discriminate]. intros [Ec Rd]%IH. split.
    + rewrite Ec. by destruct c.
    + intros f. rewrite Rd. cbn [last_write]. destruct (last_write l f); [done|]. cbn [default].
      rewrite vmread_set. destruct (Z.eqb_spec g f); [by rewrite decide_True|by rewrite decide_False].
Qed.

Lemma check_vmwrites_all l c : exists c', check_vmwrites (fun _ => true) l c = (true, c').
Proof. revert c. induction l as [|[g v] l IH]; intros c; cbn [check_vmwrites]; [by eexists|apply IH]. Qed.

(** A function of checked writes that returns 0 did all of them. *)
Lemma vmws_0 wr l c k c' : vmws wr l c k = (0, c') -> exists c1, written l c c1 /\ k c1 = (0, c').
Proof.
  unfold vmws. destruct (check_vmwrites wr l c) as [[] c1] eqn:E; [|discriminate]. intros K.
  exists c1. split; [by eapply check_vmwrites_written|done].
Qed.

Lemma last_write_None l f : f ∉ map fst l -> last_write l f = None.
Proof.
  induction l as [|[g v] l IH]; [done|]. cbn [map fst last_write]. intros [N1 N2]%not_elem_of_cons.
  rewrite IH by done. by rewrite (proj2 (Z.eqb_neq g f)) by done.
Qed.

(** ** What the processor checks on VM entry *)

(** A control respects the capability MSR [msr]: its must-be-one bits are one, its
    must-be-zero bits zero. *)
Definition ctl_legal (rdmsr : Z -> Z) (msr v : Z) : Prop :=
  Z.land v (allowed0 rdmsr msr) = allowed0 rdmsr msr /\ Z.lor v (allowed1 rdmsr msr) = allowed1 rdmsr msr.
Definition cr_legal (fixed0 fixed1 v : Z) : Prop := Z.land v fixed0 = fixed0 /\ Z.lor v fixed1 = fixed1.

(** What the manual promises of the capability MSRs, on a processor with 64-bit mode. *)
Record caps_ok (rdmsr : Z -> Z) : Prop := CapsOk {
  ca_ctl msr : msr ∈ [MSR_IA32_VMX_PINBASED_CTLS; MSR_IA32_VMX_PROCBASED_CTLS; MSR_IA32_VMX_PROCBASED_CTLS2;
                      MSR_IA32_VMX_ENTRY_CTLS; MSR_IA32_VMX_EXIT_CTLS] ->
    Z.land (allowed0 rdmsr msr) (allowed1 rdmsr msr) = allowed0 rdmsr msr;
  ca_ia32e : Z.testbit (allowed1 rdmsr MSR_IA32_VMX_ENTRY_CTLS) 9 = true;
  ca_cr0 : Z.land (rdmsr MSR_IA32_VMX_CR0_FIXED0) (rdmsr MSR_IA32_VMX_CR0_FIXED1) = rdmsr MSR_IA32_VMX_CR0_FIXED0;
  ca_cr4 : Z.land (rdmsr MSR_IA32_VMX_CR4_FIXED0) (rdmsr MSR_IA32_VMX_CR4_FIXED1) = rdmsr MSR_IA32_VMX_CR4_FIXED0;
  ca_pg : Z.testbit (rdmsr MSR_IA32_VMX_CR0_FIXED1) 31 = true /\ Z.testbit (rdmsr MSR_IA32_VMX_CR0_FIXED1) 0 = true;
  ca_pae : Z.testbit (rdmsr MSR_IA32_VMX_CR4_FIXED1) 5 = true
}.

Record vm_entry_ok (rdmsr : Z -> Z) (B : boot_info) (c : xcpu) : Prop := VmEntryOk {
  ve_pin : ctl_legal rdmsr MSR_IA32_VMX_PINBASED_CTLS (__vmread c VMCS_PIN_BASED_EXEC_CONTROLS);
  ve_proc : ctl_legal rdmsr MSR_IA32_VMX_PROCBASED_CTLS (__vmread c VMCS_PRIMARY_PROC_BASED_EXEC_CONTROLS);
  ve_proc2 : ctl_legal rdmsr MSR_IA32_VMX_PROCBASED_CTLS2 (__vmread c VMCS_SECONDARY_PROC_BASED_EXEC_CONTROLS);
  ve_entry : ctl_legal rdmsr MSR_IA32_VMX_ENTRY_CTLS (__vmread c VMCS_ENTRY_CONTROLS);
  ve_exit : ctl_legal rdmsr MSR_IA32_VMX_EXIT_CTLS (__vmread c VMCS_EXIT_CONTROLS);
  ve_cr0 : cr_legal (rdmsr MSR_IA32_VMX_CR0_FIXED0) (rdmsr MSR_IA32_VMX_CR0_FIXED1) (__vmread c GUEST_CR0);
  ve_cr4 : cr_legal (rdmsr MSR_IA32_VMX_CR4_FIXED0) (rdmsr MSR_IA32_VMX_CR4_FIXED1) (__vmread c GUEST_CR4);
  ve_ia32e : Z.testbit (__vmread c VMCS_ENTRY_CONTROLS) 9 = true;
  ve_paging : Z.testbit (__vmread c GUEST_CR0) 31 = true /\ Z.testbit (__vmread c GUEST_CR0) 0 = true /\
              Z.testbit (__vmread c GUEST_CR4) 5 = true;
  ve_efer : Z.testbit (__vmread c GUEST_IA32_EFER) 8 = true /\ Z.testbit (__vmread c GUEST_IA32_EFER) 10 = true;
  ve_start : __vmread c GUEST_CR3 = bi_pml4 B /\ __vmread c GUEST_RIP = bi_kernel_entry B /\
             __vmread c GUEST_RFLAGS = 2 /\ __vmread c VMCS_LINK_POINTER = 2 ^ 64 - 1;
  ve_targets : __vmread c CR3_TARGET_COUNT = 0
}.

Lemma adjust_bits v a0 a1 : Z.land a0 a1 = a0 ->
  Z.land (Z.land (Z.lor v a0) a1) a0 = a0 /\ Z.lor (Z.land (Z.lor v a0) a1) a1 = a1.
Proof.
  intros S. split; apply Z.bits_inj'; intros n Hn; apply (f_equal (fun z => Z.testbit z n)) in S;
    rewrite ?Z.land_spec, ?Z.lor_spec, ?Z.land_spec, ?Z.lor_spec in *;
    destruct (Z.testbit v n), (Z.testbit a0 n), (Z.testbit a1 n); done.
Qed.

(** Setting a bit the processor allows keeps a control legal. *)
Lemma legal_set a0 a1 v m : Z.land v a0 = a0 -> Z.lor v a1 = a1 -> Z.land m a1 = m ->
  Z.land (Z.lor v m) a0 = a0 /\ Z.lor (Z.lor v m) a1 = a1.
Proof.
  intros H0 H1 Hm. split; apply Z.bits_inj'; intros n Hn; apply (f_equal (fun z => Z.testbit z n)) in H0, H1, Hm;
    rewrite ?Z.land_spec, ?Z.lor_spec, ?Z.land_spec, ?Z.lor_spec in *;
    destruct (Z.testbit v n), (Z.testbit a0 n), (Z.testbit a1 n), (Z.testbit m n); done.
Qed.

Lemma legal_u32 rdmsr msr v : ctl_legal rdmsr msr v -> u32 v = v.
Proof.
  intros [_ H]. apply Z.bits_inj'. intros n Hn. unfold u32. rewrite Z.testbit_mod_pow2 by lia.
  destruct (Z.ltb_spec n 32); [done|]. cbn [andb]. symmetry.
  apply (f_equal (fun z => Z.testbit z n)) in H. rewrite Z.lor_spec in H. unfold allowed1, u32 in H.
  rewrite (Z.mod_pow2_bits_high _ 32) in H by lia. by apply orb_false_iff in H as [? _].
Qed.

Lemma flag_subset a k : 0 <= k -> flag a (Z.shiftl 1 k) = true -> Z.land (Z.shiftl 1 k) a = Z.shiftl 1 k.
Proof.
  intros Hk. rewrite Z.shiftl_1_l, flag_pow2 by done. intros T. apply Z.bits_inj'. intros n Hn.
  rewrite Z.land_spec, Z.pow2_bits_eqb by done. destruct (Z.eqb_spec k n) as [<-|]; [by rewrite T|done].
Qed.

(** ** Each step of the set-up, as the fields it wrote *)
Definition reads (l : list (Z * Z)) (c c' : xcpu) : Prop :=
  forall f, __vmread c' f = default (__vmread c f) (last_write l f).

Lemma last_write_app l1 l2 f : last_write (l1 ++ l2) f = match last_write l2 f with Some v => Some v | None => last_write l1 f end.
Proof.
  induction l1 as [|[g v] l1 IH]; cbn [app last_write]; [by case_match|]. rewrite IH. by case_match.
Qed.

Lemma reads_app l1 l2 c c1 c2 : reads l1 c c1 -> reads l2 c1 c2 -> reads (l1 ++ l2) c c2.
Proof. intros R1 R2 f. rewrite R2, last_write_app. destruct (last_write l2 f); [done|]. apply R1. Qed.

Section Steps.
Context (wr : Z -> bool) (rdmsr : Z -> Z).

Definition exec_writes (k : vmx_exec_ctrls) : list (Z * Z) :=
  [(VMCS_PIN_BASED_EXEC_CONTROLS, adjusted rdmsr (pin_based k) MSR_IA32_VMX_PINBASED_CTLS);
   (VMCS_PRIMARY_PROC_BASED_EXEC_CONTROLS, adjusted rdmsr (primary_proc k) MSR_IA32_VMX_PROCBASED_CTLS);
   (VMCS_SECONDARY_PROC_BASED_EXEC_CONTROLS, adjusted rdmsr (secondary_proc k) MSR_IA32_VMX_PROCBASED_CTLS2);
   (VMCS_ENTRY_CONTROLS, adjusted rdmsr (vm_entry k) MSR_IA32_VMX_ENTRY_CTLS);
   (VMCS_EXIT_CONTROLS, adjusted rdmsr (vm_exit k) MSR_IA32_VMX_EXIT_CTLS)].

Lemma apply_exec_reads k c c' : relm_apply_exec_controls wr rdmsr k c = (0, c') -> reads (exec_writes k) c c'.
Proof. intros (c1 & W & [= <-])%vmws_0. exact (proj2 W). Qed.

(** The fields the later steps write, in which the steps differ only in values. *)
Definition cr_fields : list Z :=
  [GUEST_CR0; GUEST_CR4; GUEST_CR3; CR0_READ_SHADOW; CR4_READ_SHADOW; CR0_GUEST_HOST_MASK; CR4_GUEST_HOST_MASK].

Lemma cr_controls_reads cr3 c c' : relm_setup_cr_controls wr rdmsr cr3 c = (0, c') ->
  exists l, reads l c c' /\ map fst l = cr_fields.
Proof. intros (c1 & W & [= <-])%vmws_0. eexists. split; [exact (proj2 W)|reflexivity]. Qed.

Definition host_fields : list Z :=
  [HOST_CR0; HOST_CR3; HOST_CR4; HOST_RSP; HOST_RIP; HOST_CS_SELECTOR; HOST_SS_SELECTOR; HOST_DS_SELECTOR;
   HOST_ES_SELECTOR; HOST_FS_SELECTOR; HOST_GS_SELECTOR; HOST_TR_SELECTOR; HOST_TR_BASE; HOST_GDTR_BASE; HOST_IDTR_BASE;
   VMCS_LINK_POINTER; HOST_FS_BASE; HOST_GS_BASE; HOST_SYSENTER_CS; HOST_SYSENTER_ESP; HOST_SYSENTER_EIP; HOST_IA32_EFER;
   HOST_IA32_PAT].

Lemma host_state_reads H rsp c c' : relm_setup_host_state wr rdmsr H rsp c = (0, c') ->
  exists l, reads l c c' /\ map fst l = host_fields /\
    last_write l HOST_GDTR_BASE = Some (rdmsr MSR_IA32_SYSENTER_CS) /\
    last_write l HOST_IDTR_BASE = Some (rdmsr MSR_IA32_SYSENTER_ESP).
Proof.
  intros (c1 & W1 & K)%vmws_0. destruct (hr_tr H =? 0); [discriminate|].
  apply vmws_0 in K as (c2 & W2 & [= <-]).
  eexists. split; [exact (reads_app _ _ _ _ _ (proj2 W1) (proj2 W2))|]. split_and!; reflexivity.
Qed.

(** What the long-mode step leaves in the fields the entry checks look at. *)
Definition long_fields (B : boot_info) (ctl : Z) : list (Z * Z) :=
  [(VMCS_ENTRY_CONTROLS, Z.lor (u32 ctl) VM_ENTRY_IA32E_MODE); (GUEST_CR3, bi_pml4 B); (GUEST_IA32_EFER, LONG_EFER);
   (GUEST_CR0, fixed_cr0 rdmsr LONG_CR0); (GUEST_CR4, fixed_cr4 rdmsr X86_CR4_PAE); (GUEST_RIP, bi_kernel_entry B);
   (GUEST_RFLAGS, 2); (VMCS_LINK_POINTER, 2 ^ 64 - 1)].
(** The control fields it leaves alone. *)
Definition kept_fields : list Z :=
  [VMCS_PIN_BASED_EXEC_CONTROLS; VMCS_PRIMARY_PROC_BASED_EXEC_CONTROLS; VMCS_SECONDARY_PROC_BASED_EXEC_CONTROLS;
   VMCS_EXIT_CONTROLS; CR3_TARGET_COUNT; VMCS_EXCEPTION_BITMAP; EPT_POINTER].

Lemma longmode_reads B c c' : relm_setup_guest_state_longmode wr rdmsr B c = (0, c') ->
  exists l, reads l c c' /\
    Forall (fun fv => last_write l (fst fv) = Some (snd fv)) (long_fields B (__vmread c VMCS_ENTRY_CONTROLS)) /\
    Forall (fun f => last_write l f = None) kept_fields.
Proof.
  intros (c1 & W1 & K)%vmws_0. destruct (bi_pml4 B =? 0); [discriminate|].
  apply vmws_0 in K as (c2 & W2 & (c3 & W3 & (c4 & W4 & K)%vmws_0)%vmws_0).
  cbv zeta in K. destruct (bi_kernel_entry B =? 0); [discriminate|]. apply vmws_0 in K as (c5 & W5 & K).
  cbv zeta in K. destruct (bi_boot_params B =? 0); [discriminate|]. apply vmws_0 in K as (c6 & W6 & (c7 & W7 & [= <-])%vmws_0).
  pose proof (reads_app _ _ _ _ _ (proj2 W1) (proj2 W2)) as R.
  pose proof (reads_app _ _ _ _ _ R (proj2 W3 : reads _ c2 _)) as R3.
  pose proof (reads_app _ _ _ _ _ R3 (proj2 W4 : reads _ c3 _)) as R4.
  pose proof (reads_app _ _ _ _ _ R4 (proj2 W5)) as R5.
  pose proof (reads_app _ _ _ _ _ R5 (proj2 W6)) as R6.
  pose proof (reads_app _ _ _ _ _ R6 (proj2 W7 : reads _ c6 _)) as R7.
  eexists. split; [exact R7|]. split.
  - repeat (apply Forall_cons; split; [reflexivity|]). apply Forall_nil. done.
  - repeat (apply Forall_cons; split; [reflexivity|]). apply Forall_nil. done.
Qed.
End Steps.

Definition apic_fields : list Z :=
  [VMCS_VIRTUAL_APIC_PAGE_ADDR; VMCS_APIC_ACCESS_ADDR; VMCS_TPR_THRESHOLD; VMCS_SECONDARY_PROC_BASED_EXEC_CONTROLS].

(** The APIC step: its own fields, and secondary controls the processor allows. *)
Lemma apic_vmcs_fields wr rdmsr m a m' a' :
  relm_apic_vmcs_setup wr (rdmsr MSR_IA32_VMX_PROCBASED_CTLS2) m a = (0, m', a') ->
  (forall f, f ∉ apic_fields -> m' !! f = m !! f) /\
  (ctl_legal rdmsr MSR_IA32_VMX_PROCBASED_CTLS2 (default 0 (m !! VMCS_SECONDARY_PROC_BASED_EXEC_CONTROLS)) ->
   ctl_legal rdmsr MSR_IA32_VMX_PROCBASED_CTLS2 (default 0 (m' !! VMCS_SECONDARY_PROC_BASED_EXEC_CONTROLS))).
Proof.
  unfold relm_apic_vmcs_setup. destruct (_ || _); [discriminate|].
  do 3 (destruct (negb (wr _)); [discriminate|]). cbv zeta.
  set (m1 := <[VMCS_TPR_THRESHOLD := 0]> _).
  assert (forall f, f ∉ apic_fields -> m1 !! f = m !! f) as E1.
  { intros f N. unfold apic_fields in N. rewrite !not_elem_of_cons in N. destruct N as (N1 & N2 & N3 & _).
    unfold m1. by rewrite !lookup_insert_ne by congruence. }
  assert (m1 !! VMCS_SECONDARY_PROC_BASED_EXEC_CONTROLS = m !! VMCS_SECONDARY_PROC_BASED_EXEC_CONTROLS) as Es
    by (unfold m1; rewrite !lookup_insert_ne by discriminate; reflexivity).
  fold (allowed1 rdmsr MSR_IA32_VMX_PROCBASED_CTLS2).
  destruct (flag _ VMCS_PROC2_VIRTUALIZE_APIC_ACCESSES) eqn:F0; cbn [negb].
  2: { intros [[_ <-]%pair_eq _]%pair_eq. split; [exact E1|]. by rewrite Es. }
  destruct (negb (wr _)); [discriminate|]. intros [[_ <-]%pair_eq _]%pair_eq. split.
  - intros f N. rewrite lookup_insert_ne; [by apply E1|]. intros <-. apply N. unfold apic_fields. set_solver.
  - rewrite lookup_insert_eq, Es. cbn [default from_option id]. intros L. rewrite (legal_u32 _ _ _ L). destruct L as [L0 L1].
    apply (flag_subset _ 0) in F0; [|lia].
    destruct (legal_set _ _ _ _ L0 L1 F0) as [M0 M1]. destruct (flag _ VMCS_PROC2_APIC_REGISTER_VIRT) eqn:F8; [|by split].
    apply (flag_subset _ 8) in F8; [|lia]. by apply legal_set.
Qed.

Lemma memory_writes_kept rdmsr v vpid :
  last_write (memory_writes rdmsr v vpid) CR3_TARGET_COUNT = Some 0 /\
  Forall (fun f => last_write (memory_writes rdmsr v vpid) f = None)
    [VMCS_PIN_BASED_EXEC_CONTROLS; VMCS_PRIMARY_PROC_BASED_EXEC_CONTROLS; VMCS_SECONDARY_PROC_BASED_EXEC_CONTROLS;
     VMCS_EXIT_CONTROLS; VMCS_ENTRY_CONTROLS; EPT_POINTER].
Proof.
  unfold memory_writes, area_writes. cbv zeta. split.
  - rewrite !last_write_app. reflexivity.
  - repeat (apply Forall_cons; split; [rewrite !last_write_app; repeat case_match; reflexivity || (cbn in *; congruence)|]).
    apply Forall_nil. done.
Qed.

Lemma adjusted_legal rdmsr req msr : Z.land (allowed0 rdmsr msr) (allowed1 rdmsr msr) = allowed0 rdmsr msr ->
  ctl_legal rdmsr msr (adjusted rdmsr req msr).
Proof. apply adjust_bits. Qed.

(** The guest registers long mode asks for survive the fixed bits. *)
Lemma fixed_bit f0 f1 v n : Z.testbit f1 n = true -> Z.testbit v n = true -> Z.testbit (Z.land (Z.lor v f0) f1) n = true.
Proof. intros H1 Hv. by rewrite Z.land_spec, Z.lor_spec, H1, Hv. Qed.

(** A field that none of the steps after the controls writes. *)
Lemma mid_field rdmsr wr v vpid m a m' a' l1 l2 c2 c3 c4 c5 c6 f :
  reads (memory_writes rdmsr v vpid) c2 c3 -> relm_apic_vmcs_setup wr (rdmsr MSR_IA32_VMX_PROCBASED_CTLS2) m a = (0, m', a') ->
  m = x_vmcs c3 -> c4 = set_vmcs c3 m' -> reads l1 c4 c5 -> reads l2 c5 c6 ->
  map fst l1 = cr_fields -> map fst l2 = host_fields ->
  f ∉ cr_fields ++ host_fields ++ apic_fields ->
  __vmread c6 f = default (__vmread c2 f) (last_write (memory_writes rdmsr v vpid) f).
Proof.
  intros R3 A -> -> R5 R6 F1 F2 N. rewrite !not_elem_of_app in N. destruct N as (Nc & Nh & Na).
  rewrite R6, last_write_None by (by rewrite F2). cbn [default from_option].
  rewrite R5, last_write_None by (by rewrite F1). cbn [default from_option].
  destruct (apic_vmcs_fields _ _ _ _ _ _ A) as [E _]. rewrite <- R3. unfold __vmread. cbn [set_vmcs x_vmcs]. by rewrite E.
Qed.

Ltac notin := refine (bool_decide_unpack _ _); vm_compute; exact I.

(** The steps of a set-up that returned 0. *)
Lemma init_steps (wr : Z -> bool) (rdmsr : Z -> Z) (PA : PageAlloc) (vmclear vmptrld : bool) (H : host_regs)
    (B : boot_info) (vpid : Z) (h h' : host) (ept ept' : option ept_context) (v v' : vmx_arch) :
  vmx_vcpu_init wr rdmsr vmclear vmptrld H B vpid h ept v = (0, h', ept', v') ->
  exists c1 c2 c3 m a' l1 c5 l2 c6 l3, reads (exec_writes rdmsr (va_ctrls v)) c1 c2 /\
    reads (memory_writes rdmsr v vpid) c2 c3 /\
    relm_apic_vmcs_setup wr (rdmsr MSR_IA32_VMX_PROCBASED_CTLS2) (x_vmcs c3) (va_apic v) = (0, m, a') /\
    reads l1 (set_vmcs c3 m) c5 /\ map fst l1 = cr_fields /\ reads l2 c5 c6 /\ map fst l2 = host_fields /\
    last_write l2 HOST_GDTR_BASE = Some (rdmsr MSR_IA32_SYSENTER_CS) /\
    last_write l2 HOST_IDTR_BASE = Some (rdmsr MSR_IA32_SYSENTER_ESP) /\
    reads l3 c6 (va_cpu v') /\
    Forall (fun fv => last_write l3 (fst fv) = Some (snd fv)) (long_fields rdmsr B (__vmread c6 VMCS_ENTRY_CONTROLS)) /\
    Forall (fun f => last_write l3 f = None) kept_fields.
Proof.
  unfold vmx_vcpu_init. cbv zeta.
  destruct (Z.eqb_spec (relm_vmclear vmclear v) 0) as [_|N]; cbn [negb]; [|intros [[[? _]%pair_eq _]%pair_eq _]%pair_eq; congruence].
  destruct (Z.eqb_spec (relm_vmptrld vmptrld v) 0) as [_|N]; cbn [negb]; [|intros [[[? _]%pair_eq _]%pair_eq _]%pair_eq; congruence].
  destruct ept as [e|]; [|discriminate].
  destruct (check_vmwrites wr [(EPT_POINTER, eptp e)] (va_cpu v)) as [[] c1] eqn:E1; [|discriminate].
  destruct (relm_apply_exec_controls wr rdmsr (va_ctrls v) c1) as [r2 c2] eqn:E2.
  destruct (Z.eqb_spec r2 0) as [->|N]; cbn [negb]; [|discriminate].
  destruct (check_vmwrites wr (memory_writes rdmsr v vpid) c2) as [[] c3] eqn:E3; [|discriminate].
  destruct (relm_apic_vmcs_setup wr (rdmsr MSR_IA32_VMX_PROCBASED_CTLS2) (x_vmcs c3) (va_apic v)) as [[r4 m] a] eqn:E4.
  destruct (Z.eqb_spec r4 0) as [->|N]; cbn [negb]; [|discriminate].
  destruct (relm_apic_ept_setup h (Some e) a) as [[r5 h5] e5].
  destruct (Z.eqb_spec r5 0) as [->|N]; cbn [negb]; [|discriminate]. cbn [va_cpu va_cr3 va_set_apic va_set_cpu va_host_rsp].
  destruct (relm_setup_cr_controls wr rdmsr (va_cr3 v) (set_vmcs c3 m)) as [r6 c5] eqn:E6.
  destruct (Z.eqb_spec r6 0) as [->|N]; cbn [negb]; [|discriminate].
  destruct (relm_setup_host_state wr rdmsr H (va_host_rsp v) c5) as [r7 c6] eqn:E7.
  destruct (Z.eqb_spec r7 0) as [->|N]; cbn [negb]; [|discriminate].
  destruct (relm_setup_guest_state_longmode wr rdmsr B c6) as [r8 c7] eqn:E8.
  destruct (Z.eqb_spec r8 0) as [->|N]; cbn [negb]; [|discriminate].
  intros [_ <-]%pair_eq. cbn [va_cpu va_set_start va_set_cpu].
  apply apply_exec_reads in E2. apply check_vmwrites_written in E3 as [_ E3].
  apply cr_controls_reads in E6 as (l1 & R5 & F1). apply host_state_reads in E7 as (l2 & R6 & F2 & G1 & G2).
  apply longmode_reads in E8 as (l3 & R7 & Lg & Kp).
  exists c1, c2, c3, m, a, l1, c5, l2, c6, l3. by split_and!.
Qed.

(** What the fields that VM entry checks hold after a set-up that returned 0. *)
Record init_fields (rdmsr : Z -> Z) (B : boot_info) (v : vmx_arch) (c : xcpu) : Prop := InitFields {
  if_pin : __vmread c VMCS_PIN_BASED_EXEC_CONTROLS = adjusted rdmsr (pin_based (va_ctrls v)) MSR_IA32_VMX_PINBASED_CTLS;
  if_proc : __vmread c VMCS_PRIMARY_PROC_BASED_EXEC_CONTROLS =
    adjusted rdmsr (primary_proc (va_ctrls v)) MSR_IA32_VMX_PROCBASED_CTLS;
  if_proc2 : ctl_legal rdmsr MSR_IA32_VMX_PROCBASED_CTLS2 (__vmread c VMCS_SECONDARY_PROC_BASED_EXEC_CONTROLS);
  if_exit : __vmread c VMCS_EXIT_CONTROLS = adjusted rdmsr (vm_exit (va_ctrls v)) MSR_IA32_VMX_EXIT_CTLS;
  if_entry : exists e, ctl_legal rdmsr MSR_IA32_VMX_ENTRY_CTLS e /\
    __vmread c VMCS_ENTRY_CONTROLS = Z.lor e VM_ENTRY_IA32E_MODE;
  if_cr : __vmread c GUEST_CR0 = fixed_cr0 rdmsr LONG_CR0 /\ __vmread c GUEST_CR4 = fixed_cr4 rdmsr X86_CR4_PAE;
  if_efer : __vmread c GUEST_IA32_EFER = LONG_EFER;
  if_start : __vmread c GUEST_CR3 = bi_pml4 B /\ __vmread c GUEST_RIP = bi_kernel_entry B /\
    __vmread c GUEST_RFLAGS = 2 /\ __vmread c VMCS_LINK_POINTER = 2 ^ 64 - 1;
  if_targets : __vmread c CR3_TARGET_COUNT = 0
}.

Lemma init_fields_ok (wr : Z -> bool) (rdmsr : Z -> Z) (PA : PageAlloc) (vmclear vmptrld : bool) (H : host_regs)
    (B : boot_info) (vpid : Z) (h h' : host) (ept ept' : option ept_context) (v v' : vmx_arch) : caps_ok rdmsr ->
  vmx_vcpu_init wr rdmsr vmclear vmptrld H B vpid h ept v = (0, h', ept', v') -> init_fields rdmsr B v (va_cpu v').
Proof.
  intros Cp (c1 & c2 & c3 & m & a' & l1 & c5 & l2 & c6 & l3 & R2 & R3 & A & R5 & F1 & R6 & F2 & _ & _ & R7 & Lg & Kp)%init_steps.
  destruct (memory_writes_kept rdmsr v vpid) as [Mt Mk]. unfold long_fields in Lg. unfold kept_fields in Kp.
  rewrite !Forall_cons in Lg. rewrite !Forall_cons in Kp. rewrite !Forall_cons in Mk. cbn [fst snd] in Lg.
  destruct Lg as (Le & L3 & Lf & L0 & L4 & Lr & Lfl & Ll & _), Kp as (Kpin & Kproc & Ksec & Kexit & Ktg & _),
    Mk as (Mpin & Mproc & Msec & Mexit & Ment & _).
  assert (forall f x, last_write l3 f = Some x -> __vmread (va_cpu v') f = x) as Set3 by (intros f x E; by rewrite R7, E).
  pose proof (fun f => mid_field _ _ _ _ _ _ _ _ _ _ _ _ _ _ _ f R3 A eq_refl eq_refl R5 R6 F1 F2) as Mid.
  assert (forall f x, last_write l3 f = None -> last_write (memory_writes rdmsr v vpid) f = None ->
    f ∉ cr_fields ++ host_fields ++ apic_fields -> last_write (exec_writes rdmsr (va_ctrls v)) f = Some x ->
    __vmread (va_cpu v') f = x) as Ctl.
  { intros f x N1 N2 N3 Ex. specialize (Mid f N3). cbn [default from_option] in *.
    rewrite R7, N1. cbn [default from_option]. rewrite Mid, N2. cbn [default from_option]. by rewrite R2, Ex. }
  pose proof (ca_ctl _ Cp) as Ca. split.
  - exact (Ctl _ _ Kpin Mpin ltac:(notin) eq_refl).
  - exact (Ctl _ _ Kproc Mproc ltac:(notin) eq_refl).
  - rewrite R7, Ksec. cbn [default from_option]. rewrite R6, last_write_None by (rewrite F2; notin).
    cbn [default from_option]. rewrite R5, last_write_None by (rewrite F1; notin). cbn [default from_option].
    apply (apic_vmcs_fields _ _ _ _ _ _ A). change (default 0 (x_vmcs c3 !! ?f)) with (__vmread c3 f).
    rewrite R3, Msec. cbn [default from_option]. rewrite R2. apply adjusted_legal, Ca. notin.
  - exact (Ctl _ _ Kexit Mexit ltac:(notin) eq_refl).
  - assert (ctl_legal rdmsr MSR_IA32_VMX_ENTRY_CTLS (__vmread c6 VMCS_ENTRY_CONTROLS)) as Leg6.
    { rewrite (Mid VMCS_ENTRY_CONTROLS ltac:(notin)), Ment. cbn [default from_option]. rewrite R2.
      apply adjusted_legal, Ca. notin. }
    exists (__vmread c6 VMCS_ENTRY_CONTROLS). split; [exact Leg6|]. rewrite (legal_u32 _ _ _ Leg6) in Le. exact (Set3 _ _ Le).
  - split; [exact (Set3 _ _ L0)|exact (Set3 _ _ L4)].
  - exact (Set3 _ _ Lf).
  - by rewrite (Set3 _ _ L3), (Set3 _ _ Lr), (Set3 _ _ Lfl), (Set3 _ _ Ll).
  - rewrite R7, Ktg. cbn [default from_option]. rewrite (Mid CR3_TARGET_COUNT ltac:(notin)), Mt. reflexivity.
Qed.

(** C11. A vCPU that was set up is fit to enter the guest: when [vmx_vcpu_init] returns
    0 on a processor with sane capabilities, every execution control and both control
    registers respect what the processor requires and allows, the guest is in 64-bit
    mode in all the places that say so (entry control, EFER, CR0, CR4), it starts at
    the kernel's entry point on the boot page tables with interrupts off, and no CR3
    load is exempt from exiting. *)
Theorem vmx_init_entry_ok (wr : Z -> bool) (rdmsr : Z -> Z) (PA : PageAlloc) (vmclear vmptrld : bool) (H : host_regs)
    (B : boot_info) (vpid : Z) (h h' : host) (ept ept' : option ept_context) (v v' : vmx_arch) :
  caps_ok rdmsr -> vmx_vcpu_init wr rdmsr vmclear vmptrld H B vpid h ept v = (0, h', ept', v') ->
  vm_entry_ok rdmsr B (va_cpu v') /\ long_mode_ok (va_cpu v').
Proof.
  intros Cp E. destruct (init_fields_ok _ _ _ _ _ _ _ _ _ _ _ _ _ _ Cp E) as [Fp Fq F2 Fx (e & Le & Fe) [F0 F4] Ff Fs Ft].
  pose proof (ca_ctl _ Cp) as Ca. destruct (ca_pg _ Cp) as [Pg Pe].
  assert (Z.testbit (__vmread (va_cpu v') VMCS_ENTRY_CONTROLS) 9 = true) as B9 by (rewrite Fe, Z.lor_spec; apply orb_true_r).
  assert (forall n, Z.testbit (rdmsr MSR_IA32_VMX_CR0_FIXED1) n = true -> Z.testbit LONG_CR0 n = true ->
    Z.testbit (__vmread (va_cpu v') GUEST_CR0) n = true) as B0 by (intros n H1 H2; rewrite F0; by apply fixed_bit).
  split; [split|split].
  - rewrite Fp. apply adjusted_legal, Ca. notin.
  - rewrite Fq. apply adjusted_legal, Ca. notin.
  - exact F2.
  - rewrite Fe. destruct Le. apply legal_set; [done|done|]. apply flag_subset; [lia|].
    unfold VM_ENTRY_IA32E_MODE. rewrite Z.shiftl_1_l, flag_pow2 by lia. apply Cp.
  - rewrite Fx. apply adjusted_legal, Ca. notin.
  - rewrite F0. apply adjust_bits, Cp.
  - rewrite F4. apply adjust_bits, Cp.
  - exact B9.
  - split; [by apply B0|]. split; [by apply B0|]. rewrite F4. by apply fixed_bit; [apply Cp|].
  - by rewrite Ff.
  - exact Fs.
  - exact Ft.
  - rewrite Ff, B0 by done. reflexivity.
  - rewrite Ff, B9. reflexivity.
Qed.

(** ** The MSR bitmap, as the processor reads it *)

(** The bit that decides whether an access to [msr] exits; [None]: it always does. *)
Definition msr_slot (msr : Z) (write : bool) : option (Z * Z) :=
  let w := if write then 0x800 else 0 in
  if msr <=? 0x1FFF then Some (w + msr / 8, msr mod 8)
  else if (0xC0000000 <=? msr) && (msr <=? 0xC0001FFF)
  then Some (w + 0x400 + (msr - 0xC0000000) / 8, (msr - 0xC0000000) mod 8)
  else None.
Definition msr_exits (b : gmap Z Z) (msr : Z) (write : bool) : bool :=
  match msr_slot msr write with
  | Some (byte, bit) => Z.testbit (bm_byte b byte) bit
  | None => true
  end.

Lemma msr_slot_inj m1 w1 m2 w2 s : 0 <= m1 -> 0 <= m2 -> msr_slot m1 w1 = Some s -> msr_slot m2 w2 = Some s -> m1 = m2 /\ w1 = w2.
Proof.
  intros H1 H2. unfold msr_slot. destruct (Z.leb_spec m1 0x1FFF), (Z.leb_spec m2 0x1FFF);
    repeat match goal with |- context [(?a <=? ?b) && (?c <=? ?d)] =>
      destruct (Z.leb_spec a b), (Z.leb_spec c d); cbn [andb]; try discriminate; try lia end;
    intros <-%(inj Some) [? ?]%(inj Some)%pair_eq; destruct w1, w2; (split; [|reflexivity || exfalso]);
    Z.to_euclidean_division_equations; lia.
Qed.

Lemma msr_slot_bit m w y n : msr_slot m w = Some (y, n) -> 0 <= n.
Proof. unfold msr_slot. repeat case_match; intros [? <-]%(inj Some)%pair_eq || discriminate; apply Z.mod_pos_bound; lia. Qed.

Lemma bm_set_test b y n y' n' : 0 <= n ->
  Z.testbit (bm_byte (bm_set b y n) y') n' = Z.testbit (bm_byte b y') n' || bool_decide ((y, n) = (y', n')).
Proof.
  intros Hn. unfold bm_set, bm_byte at 1. destruct (decide (y = y')) as [<-|N].
  - rewrite lookup_insert_eq. cbn [default from_option id]. rewrite Z.lor_spec, Z.shiftl_1_l, Z.pow2_bits_eqb by done. f_equal.
    destruct (Z.eqb_spec n n') as [<-|M]; [by rewrite bool_decide_eq_true_2|by rewrite bool_decide_eq_false_2 by (intros [_ ?]%pair_eq; congruence)].
  - rewrite lookup_insert_ne by done. rewrite bool_decide_eq_false_2 by (intros [? _]%pair_eq; congruence). by rewrite orb_false_r.
Qed.

(** Setting the bits of [msr] is setting its slots. *)
Definition set_slot (b : gmap Z Z) (msr : Z) (write : bool) : gmap Z Z :=
  match msr_slot msr write with Some (y, n) => bm_set b y n | None => b end.

Lemma bitmap_set_slots b msr access : 0 <= msr -> relm_msr_bitmap_set b msr access =
  (let b := if flag access RELM_MSR_READ then set_slot b msr false else b in
   if flag access RELM_MSR_WRITE then set_slot b msr true else b).
Proof.
  intros H. unfold relm_msr_bitmap_set, set_slot, msr_slot. rewrite (Z.land_ones msr 13 ltac:(lia) : Z.land msr 0x1FFF = _).
  destruct (Z.leb_spec msr 0x1FFF).
  - rewrite Z.mod_small by lia. cbv zeta. by rewrite !Z.add_0_l, (Z.add_comm (msr / 8)).
  - destruct (_ && _) eqn:R; [|by destruct (flag _ _), (flag _ _)].
    replace (msr mod 2 ^ 13) with (msr - 0xC0000000) by (apply andb_true_iff in R; Z.to_euclidean_division_equations; lia).
    cbv zeta. replace (0x400 + (msr - 0xC0000000) / 8 + 0x800) with (0x800 + 0x400 + (msr - 0xC0000000) / 8) by lia.
    by rewrite Z.add_0_l.
Qed.

Lemma set_slot_exits b msr w m w' : 0 <= msr -> 0 <= m ->
  msr_exits (set_slot b msr w) m w' = msr_exits b m w' || bool_decide (m = msr /\ w' = w).
Proof.
  intros H1 H2. unfold msr_exits, set_slot. destruct (msr_slot m w') as [[y' n']|] eqn:E'; [|done].
  destruct (msr_slot msr w) as [[y n]|] eqn:E.
  - rewrite bm_set_test by (by eapply msr_slot_bit). f_equal. apply bool_decide_ext. split.
    + intros Q. rewrite Q in E. by apply (msr_slot_inj _ _ _ _ _ H2 H1 E').
    + intros [-> ->]. congruence.
  - rewrite bool_decide_eq_false_2, orb_false_r; [done|]. intros [-> ->]. congruence.
Qed.

(** The processor sees what was asked for: after [relm_msr_bitmap_set] an access
    to an MSR exits exactly when it did before, or when it is the access that was to be
    intercepted, in both ranges the bitmap covers; MSRs outside them always exit. *)
Theorem msr_bitmap_set_correct (b : gmap Z Z) (msr access m : Z) (write : bool) : 0 <= msr -> 0 <= m ->
  msr_exits (relm_msr_bitmap_set b msr access) m write =
  msr_exits b m write || (bool_decide (m = msr) && flag access (if write then RELM_MSR_WRITE else RELM_MSR_READ)).
Proof.
  intros H1 H2. rewrite bitmap_set_slots by done. cbv zeta.
  destruct (flag access RELM_MSR_READ) eqn:Fr, (flag access RELM_MSR_WRITE) eqn:Fw, write; rewrite ?set_slot_exits, ?Fr, ?Fw by done;
    repeat case_bool_decide; destruct (msr_exits b m _); naive_solver.
Qed.

(** What is not in either range and was not asked for does not exit: with the bitmap
    the vCPU gets, no write to EFER reaches the hypervisor. *)
Lemma efer_writes_not_intercepted :
  msr_exits (relm_intercept_apic_base (relm_intercept_sysenter_cs ∅)) MSR_IA32_EFER true = false /\
  msr_exits (relm_intercept_apic_base (relm_intercept_sysenter_cs ∅)) MSR_IA32_APIC_BASE false = true.
Proof. by vm_compute. Qed.

(** ** Memory: all or nothing *)
Section Balance.
Context {PA : PageAlloc} {PAO : PageAllocOk PA}.

Lemma apic_alloc_live h a r h' a' : relm_apic_alloc h a = (r, h', a') ->
  (r = 0 /\ exists p q, vapic_page a' = Some p /\ apic_access_page a' = Some q /\
     h_live h' = {[q]} ∪ ({[p]} ∪ h_live h) /\ p ∉ h_live h /\ q ∉ h_live h) \/
  (r = - ENOMEM /\ h_live h' = h_live h).
Proof.
  unfold relm_apic_alloc, get_zeroed_page. destruct (page_choice _ _) as [p|] eqn:P; cbn [h_tick h_live h_words h_bytes].
  2: { intros [[<- <-]%pair_eq _]%pair_eq. by right. }
  apply page_fresh in P. destruct (page_choice _ _) as [q|] eqn:Q; intros [[<- <-]%pair_eq <-]%pair_eq.
  - apply page_fresh in Q. left. split; [done|]. exists p, q. cbn. split_and!; try done. set_solver.
  - right. split; [done|]. cbn. set_solver.
Qed.

Lemma apic_free_live h a p q : vapic_page a = Some p -> apic_access_page a = Some q ->
  h_live (relm_apic_free h a).1 = h_live h ∖ {[p]} ∖ {[q]}.
Proof. unfold relm_apic_free. intros -> E. cbn. by rewrite E. Qed.
End Balance.

Lemma init_bitmaps_enabled rdmsr v : va_ctrls v = relm_init_exec_controls rdmsr ->
  relm_vcpu_io_bitmap_enabled v = true /\ relm_vcpu_msr_bitmap_enabled v = true.
Proof. unfold relm_vcpu_io_bitmap_enabled, relm_vcpu_msr_bitmap_enabled. intros ->. by split. Qed.

Lemma sync_reg_pages a off v :
  vapic_page (relm_vapic_sync_reg a off v) = vapic_page a /\
  apic_access_page (relm_vapic_sync_reg a off v) = apic_access_page a.
Proof. unfold relm_vapic_sync_reg. destruct (vapic_page a) eqn:E; [destruct (_ <? _)|]; by rewrite <- ?E. Qed.

Lemma apic_init_pages a id :
  vapic_page (relm_apic_init a id) = vapic_page a /\ apic_access_page (relm_apic_init a id) = apic_access_page a.
Proof.
  assert (forall A (f : virt_apic -> A -> virt_apic) (l : list A) b,
    (forall b x, vapic_page (f b x) = vapic_page b /\ apic_access_page (f b x) = apic_access_page b) ->
    vapic_page (fold_left f l b) = vapic_page b /\ apic_access_page (fold_left f l b) = apic_access_page b) as Fold.
  { intros A f l b Hf. revert b. induction l as [|x l IH]; intros b; cbn [fold_left]; [done|].
    destruct (IH (f b x)) as [-> ->]. apply Hf. }
  unfold relm_apic_init. cbv zeta. set (a1 := VirtApic _ _ _ _ _ _ _ _ _ _ _ _ _ _).
  change (vapic_page a) with (vapic_page a1). change (apic_access_page a) with (apic_access_page a1).
  clearbody a1. destruct (vapic_page a1) eqn:E; [|done]. rewrite <- E.
  match goal with |- context [fold_left ?f (seq 0 8) ?b] => destruct (Fold _ f (seq 0 8) b) as [-> ->] end.
  { intros b i. do 3 (match goal with |- context [relm_vapic_sync_reg ?x ?o 0] =>
      destruct (sync_reg_pages x o 0) as [-> ->] end). done. }
  apply Fold. intros b [r off]. apply sync_reg_pages.
Qed.

(** ** What a vCPU holds *)
Definition block_addr (b : vmx_blocks) (x : block) : Z :=
  match x with
  | BVmcs => vb_vmcs b | BIo => vb_io b | BMsr => vb_msr b
  | BStore => fst (vb_store b) | BLoad => fst (vb_load b) | BEntry => fst (vb_entry b)
  end.

(** The vCPU holds exactly the blocks [S], has the address of each, and its APIC is [a]. *)
Definition owns (S : gset block) (a : virt_apic) (v : vmx_arch) : Prop :=
  va_held v = S /\ va_apic v = a /\ forall x, x ∈ S -> block_addr (va_blocks v) x <> 0.

Definition all_blocks : gset block := {[BVmcs; BIo; BMsr; BStore; BLoad; BEntry]}.

Lemma first_blocks (x : block) : x ∈ ({[BMsr; BIo; BVmcs]} : gset block) -> x = BVmcs \/ x = BIo \/ x = BMsr.
Proof. set_solver. Qed.

Lemma give_owns S a v x b : owns S a v -> (forall y, y <> x -> block_addr b y = block_addr (va_blocks v) y) ->
  owns (S ∖ {[x]}) a (give_block v x b).
Proof.
  intros (Hh & Ha & Hb) K. split_and!; [by rewrite <- Hh|done|]. cbn [give_block va_set_blocks va_blocks].
  intros y Hy. rewrite K by set_solver. apply Hb. set_solver.
Qed.

Ltac free_owned H x := rewrite (proj2 (Z.eqb_neq _ _)) by (by apply (proj2 (proj2 H) x)); apply give_owns; [exact H|by intros []].

Lemma free_vmcs_owns S a v : owns S a v -> BVmcs ∈ S -> owns (S ∖ {[BVmcs]}) a (relm_free_vmcs_region v).
Proof. intros H I. unfold relm_free_vmcs_region. free_owned H BVmcs. Qed.
Lemma free_io_owns S a v : owns S a v -> BIo ∈ S -> owns (S ∖ {[BIo]}) a (relm_free_io_bitmap v).
Proof. intros H I. unfold relm_free_io_bitmap. free_owned H BIo. Qed.
Lemma free_msr_owns S a v : owns S a v -> BMsr ∈ S -> owns (S ∖ {[BMsr]}) a (relm_free_msr_bitmap v).
Proof. intros H I. unfold relm_free_msr_bitmap. free_owned H BMsr. Qed.

Lemma free_areas_owns a v : owns all_blocks a v -> owns {[BMsr; BIo; BVmcs]} a (relm_free_all_msr_areas v).
Proof.
  intros (Hh & Ha & Hb). unfold relm_free_all_msr_areas. cbv zeta.
  pose proof (proj2 (Z.eqb_neq _ _) (Hb BEntry ltac:(notin))) as Ne. pose proof (proj2 (Z.eqb_neq _ _) (Hb BLoad ltac:(notin))) as Nl.
  pose proof (proj2 (Z.eqb_neq _ _) (Hb BStore ltac:(notin))) as Ns. cbn [block_addr] in Ne, Nl, Ns. rewrite Ne, Nl, Ns.
  split_and!; cbn [va_held va_apic va_set_blocks va_blocks].
  - rewrite Hh. by vm_compute.
  - done.
  - intros x Hx. apply first_blocks in Hx as [->|[->| ->]];
      [exact (Hb BVmcs ltac:(notin))|exact (Hb BIo ltac:(notin))|exact (Hb BMsr ltac:(notin))].
Qed.

Section Owns.
Context (blk : block -> option Z) (blk_nonnull : forall b, blk b <> Some 0).

Lemma take_owns S a v x k r v' : owns S a v ->
  (forall p y, block_addr (k p) y = if decide (y = x) then p else block_addr (va_blocks v) y) ->
  take_block blk v x k = (r, v') ->
  (r = 0 /\ owns ({[x]} ∪ S) a v' /\ va_ctrls v' = va_ctrls v) \/ (r = - ENOMEM /\ owns S a v').
Proof.
  intros (Hh & Ha & Hb) K. unfold take_block. destruct (blk x) as [p|] eqn:E; intros [<- <-]%pair_eq; [left|right; done].
  split_and!; [done| |done]. split_and!; [by rewrite <- Hh|done|]. cbn [va_set_blocks va_blocks].
  intros y Hy. rewrite K. case_decide as D; [intros ->; by apply (blk_nonnull x)|]. apply Hb. set_solver.
Qed.

Lemma setup_areas_owns a v xs es vals r v' : owns {[BMsr; BIo; BVmcs]} a v ->
  Z.of_nat (length xs) <= 65535 -> Z.of_nat (length es) <= 65535 ->
  relm_setup_msr_areas blk v xs es vals = (r, v') ->
  (r = 0 /\ owns all_blocks a v') \/ (r = - ENOMEM /\ owns {[BMsr; BIo; BVmcs]} a v').
Proof.
  intros (Hh & Ha & Hb) Lx Le. unfold relm_setup_msr_areas. cbv zeta. rewrite !(proj2 (Z.ltb_ge _ _)) by done. cbn [orb].
  destruct (blk BStore) as [p1|] eqn:E1; [destruct (blk BLoad) as [p2|] eqn:E2; [destruct (blk BEntry) as [p3|] eqn:E3|]|];
    intros [<- <-]%pair_eq; [left|right..]; (split; [done|]); split_and!;
    cbn [va_held va_apic va_set_blocks va_blocks]; try done.
  3-5: intros x Hx; apply first_blocks in Hx as [->|[->| ->]];
      [exact (Hb BVmcs ltac:(notin))|exact (Hb BIo ltac:(notin))|exact (Hb BMsr ltac:(notin))].
  - rewrite Hh. by vm_compute.
  - intros [] _; cbn; [exact (Hb BVmcs ltac:(notin))|exact (Hb BIo ltac:(notin))|exact (Hb BMsr ltac:(notin))|..];
      intros ->; by eapply blk_nonnull.
Qed.
End Owns.

(** The three error exits give back what was taken before them. *)
Section Exits.
Context {PA : PageAlloc} (h0 h : host) (a : virt_apic).
Hypothesis apic_back : h_live (relm_apic_free h a).1 = h_live h0.

Definition all_back (r : Z * host * vmx_arch) : Prop := r.1.1 = - ENOMEM /\ va_held r.2 = ∅ /\ h_live r.1.2 = h_live h0.

Lemma out_free_apic_back v : owns ∅ a v -> all_back (out_free_apic h v).
Proof.
  intros (Hh & Ha & _). unfold out_free_apic. rewrite Ha. revert apic_back. destruct (relm_apic_free h a) as [h' a'].
  intros E. by split_and!.
Qed.
Lemma out_free_vmcs_back v : owns {[BVmcs]} a v -> all_back (out_free_vmcs h v).
Proof.
  intros O. apply out_free_apic_back. replace (∅ : gset block) with ({[BVmcs]} ∖ {[BVmcs]} : gset block) by (by vm_compute).
  by apply free_vmcs_owns; [|set_solver].
Qed.
Lemma out_free_io_back v : owns {[BIo; BVmcs]} a v -> all_back (out_free_io_bitmap h v).
Proof.
  intros O. apply out_free_vmcs_back.
  replace ({[BVmcs]} : gset block) with ({[BIo; BVmcs]} ∖ {[BIo]} : gset block) by (by vm_compute).
  by apply free_io_owns; [|set_solver].
Qed.
Lemma out_free_msr_back v : owns {[BMsr; BIo; BVmcs]} a v -> all_back (out_free_msr_bitmap h v).
Proof.
  intros O. apply out_free_io_back.
  replace ({[BIo; BVmcs]} : gset block) with ({[BMsr; BIo; BVmcs]} ∖ {[BMsr]} : gset block) by (by vm_compute).
  by apply free_msr_owns; [|set_solver].
Qed.
End Exits.

Lemma free_owns a v : owns all_blocks a v ->
  va_held (relm_free_vmcs_region (relm_free_io_bitmap (relm_free_msr_bitmap (relm_free_all_msr_areas v)))) = ∅.
Proof.
  intros O%free_areas_owns. apply free_msr_owns in O; [|notin]. apply free_io_owns in O; [|notin].
  apply free_vmcs_owns in O; [|notin]. rewrite (proj1 O). by vm_compute.
Qed.

Lemma vmx_free_back {PA : PageAlloc} (h0 h : host) a v : owns all_blocks a v -> h_live (relm_apic_free h a).1 = h_live h0 ->
  va_held (vmx_vcpu_free h v).2 = ∅ /\ h_live (vmx_vcpu_free h v).1 = h_live h0.
Proof.
  intros (H7 & A7 & B7). unfold vmx_vcpu_free. rewrite A7. destruct (relm_apic_free h a) as [h9 a9].
  intros L. split; [|exact L]. apply (free_owns a9). by split_and!.
Qed.

(** C16. Preparing a vCPU is all or nothing: whichever of the eight requests for
    memory the kernel refuses, [vmx_vcpu_alloc] returns -ENOMEM and no block or page
    stays taken; when it succeeds all six blocks are held, and [vmx_vcpu_free] gives
    every block and page back. *)
Theorem vmx_alloc_all_or_nothing {PA : PageAlloc} {PAO : PageAllocOk PA} (wr : Z -> bool) (rdmsr : Z -> Z)
    (blk : block -> option Z) (pml4 vpid stack : Z) (h h' : host) (v v' : vmx_arch) (cur cur' : xcpu) (ret : Z) :
  (forall b, blk b <> Some 0) -> va_held v = ∅ ->
  vmx_vcpu_alloc wr rdmsr blk pml4 vpid stack h v cur = (ret, h', v', cur') ->
  (ret = - ENOMEM /\ va_held v' = ∅ /\ h_live h' = h_live h) \/
  (ret = 0 /\ va_held v' = all_blocks /\
   va_held (vmx_vcpu_free h' v').2 = ∅ /\ h_live (vmx_vcpu_free h' v').1 = h_live h).
Proof.
  intros Nz Hd. unfold vmx_vcpu_alloc. destruct (relm_apic_alloc h (va_apic v)) as [[r h1] a] eqn:A.
  apply apic_alloc_live in A as [(-> & p & q & Ep & Eq & Lv & Np & Nq)|[-> Lv]].
  2: { cbv zeta. intros [[[<- <-]%pair_eq <-]%pair_eq _]%pair_eq. by left. }
  assert (forall b, vapic_page b = Some p -> apic_access_page b = Some q -> h_live (relm_apic_free h1 b).1 = h_live h) as Fr
    by (intros b Eb1 Eb2; rewrite (apic_free_live _ _ _ _ Eb1 Eb2), Lv; set_solver).
  pose proof (Fr _ Ep Eq) as Fa. cbv zeta. cbn [negb Z.eqb].
  assert (forall r c, all_back h r -> (r, c) = (ret, h', v', cur') ->
    (ret = - ENOMEM /\ va_held v' = ∅ /\ h_live h' = h_live h) \/
    (ret = 0 /\ va_held v' = all_blocks /\ va_held (vmx_vcpu_free h' v').2 = ∅ /\ h_live (vmx_vcpu_free h' v').1 = h_live h))
    as Out by (intros x c B [-> _]%pair_eq; by left).
  set (v1 := va_set_start _ _ _). assert (owns ∅ a v1) as O1 by (by split_and!). clearbody v1.
  destruct (relm_setup_vmcs_region blk v1) as [r2 v2] eqn:E2.
  apply (take_owns blk Nz _ _ _ _ _ _ _ O1) in E2 as [(-> & O2 & _)|[-> O2]]; [..|by intros p' []].
  2: { apply Out. by eapply out_free_apic_back. }
  cbn [negb Z.eqb]. set (v3 := va_set_ctrls v2 _). assert (owns {[BVmcs]} a v3) as O3.
  { destruct O2 as (Hh & Ha & Hb). split_and!; [|done..]. rewrite <- (right_id_L ∅ (∪) {[BVmcs]}). exact Hh. }
  destruct (init_bitmaps_enabled rdmsr v3 eq_refl) as [Io _]. rewrite Io.
  destruct (relm_setup_io_bitmap blk v3) as [r4 v4] eqn:E4.
  apply (take_owns blk Nz _ _ _ _ _ _ _ O3) in E4 as [(-> & O4 & K4)|[-> O4]]; [..|by intros p' []].
  2: { apply Out. by eapply out_free_vmcs_back. }
  cbn [negb Z.eqb]. unfold relm_disable_page_fault_intercept, relm_disable_ud_intercept, relm_clear_exception_intercept.
  cbv beta iota zeta. set (v5 := va_set_exceptions _ _). assert (owns {[BIo; BVmcs]} a v5) as O5 by exact O4.
  destruct (init_bitmaps_enabled rdmsr v5) as [_ Ms]; [exact K4|]. rewrite Ms.
  clearbody v5. destruct (relm_setup_msr_bitmap blk v5) as [r6 v6] eqn:E6.
  apply (take_owns blk Nz _ _ _ _ _ _ _ O5) in E6 as [(-> & O6 & _)|[-> O6]]; [..|by intros p' []].
  2: { apply Out. by eapply out_free_io_back. }
  cbn [negb Z.eqb]. destruct (relm_vcpu_setup_msr_state blk v6) as [r7 v7] eqn:E7.
  unfold relm_vcpu_setup_msr_state in E7. rewrite union_assoc_L in O6.
  eapply setup_areas_owns in E7 as [(-> & O7)|[-> O7]]; [..|exact Nz|exact O6|by vm_compute|by vm_compute].
  2: { apply Out. by eapply out_free_msr_back. }
  cbn [negb Z.eqb]. intros [[[<- <-]%pair_eq <-]%pair_eq _]%pair_eq. right. split; [done|]. split; [apply O7|].
  destruct (apic_init_pages a (u8 (vpid - 1))) as [P1 P2]. apply vmx_free_back with (relm_apic_init a (u8 (vpid - 1))).
  - destruct O7 as (H7 & A7 & B7). by rewrite A7.
  - exact (Fr _ (eq_trans P1 Ep) (eq_trans P2 Eq)).
Qed.

(** ** A vCPU that is really set up *)
Module SetupDemo.
#[local] Instance alloc : PageAlloc := bump_alloc 64.

Definition writable (f : Z) : bool := true.
(** A processor that allows every control and requires CR0.{PE,NE,PG} and CR4.VMXE. *)
Definition rdmsr (msr : Z) : Z :=
  if msr =? MSR_IA32_VMX_CR0_FIXED0 then 0x80000021
  else if msr =? MSR_IA32_VMX_CR0_FIXED1 then 0xFFFFFFFF
  else if msr =? MSR_IA32_VMX_CR4_FIXED0 then 0x2000
  else if msr =? MSR_IA32_VMX_CR4_FIXED1 then 0x3727FF
  else if msr =? MSR_IA32_SYSENTER_CS then 0x10
  else if msr =? MSR_IA32_SYSENTER_ESP then 0x7000
  else if msr =? MSR_EFER then 0xD01
  else 0xFFFFFFFF00000000.
Definition blk (b : block) : option Z :=
  Some match b with BVmcs => 0x100000 | BIo => 0x110000 | BMsr => 0x120000 | BStore => 0x130000 | BLoad => 0x140000 | BEntry => 0x150000 end.

Definition cpu0 : xcpu := XCpu (replicate 16 0) 0 ∅ VCPU_STATE_RUNNING false 0 0 0 0 0.
Definition blank : vmx_arch :=
  VmxArch cpu0 0 0 0 0 (VmxExecCtrls 0 0 0 0 0) 0
    (VirtApic None ∅ 0 None 0 (fun _ => 0) zero8 zero8 zero8 0 0 0 false false)
    (VmxBlocks 0 0 0 ∅ (0, []) (0, []) (0, []) 0 0) ∅.
Definition regs : host_regs := HostRegs 0x80050033 0x1000 0x2020 0x40 0xFE0000 0xFE1000 0xFE2000 0xFF0000.
Definition info : boot_info := BootInfo 0x9000 0x100000 0x7000 0x8000000.

Definition allocated : Z * host * vmx_arch * xcpu :=
  vmx_vcpu_alloc writable rdmsr blk (bi_pml4 info) 1 0x200000 EptDemo.h0 blank cpu0.
Definition initialised : Z * host * option ept_context * vmx_arch :=
  vmx_vcpu_init writable rdmsr true true regs info 1 allocated.1.1.2 (Some EptDemo.ept0) allocated.1.2.

Lemma caps : caps_ok rdmsr.
Proof.
  split; try reflexivity; [|split; reflexivity].
  intros msr [->|[->|[->|[->|[->|[]%not_elem_of_nil]%elem_of_cons]%elem_of_cons]%elem_of_cons]%elem_of_cons]%elem_of_cons;
    reflexivity.
Qed.

Lemma vmx_init_entry_ok_witness : vm_entry_ok rdmsr info (va_cpu initialised.2) /\ long_mode_ok (va_cpu initialised.2).
Proof.
  apply (vmx_init_entry_ok writable rdmsr alloc true true regs info 1 allocated.1.1.2 initialised.1.1.2
    (Some EptDemo.ept0) initialised.1.2 allocated.1.2 initialised.2 caps).
  change (initialised = (0, initialised.1.1.2, initialised.1.2, initialised.2)).
  assert (initialised.1.1.1 = 0) as E by (vm_compute; reflexivity). revert E.
  destruct initialised as [[[r h] e] v]. cbn [fst snd]. intros ->. reflexivity.
Defined.

Lemma vmx_alloc_all_or_nothing_witness : allocated.1.1.1 = 0 /\ va_held (vmx_vcpu_free allocated.1.1.2 allocated.1.2).2 = ∅.
Proof.
  assert (allocated.1.1.1 = 0) as E by (vm_compute; reflexivity). split; [exact E|].
  destruct (vmx_alloc_all_or_nothing writable rdmsr blk (bi_pml4 info) 1 0x200000 EptDemo.h0 allocated.1.1.2 blank allocated.1.2
    cpu0 allocated.2 allocated.1.1.1 ltac:(by intros []) eq_refl) as [[F _]|(_ & _ & F & _)].
  - change (allocated = (allocated.1.1.1, allocated.1.1.2, allocated.1.2, allocated.2)). by destruct allocated as [[[r h] v] c].
  - rewrite E in F. discriminate F.
  - exact F.
Defined.

Lemma msr_bitmap_set_correct_witness :
  msr_exits (relm_msr_bitmap_set ∅ 0xC0000080 RELM_MSR_WRITE) 0xC0000080 true = true /\
  msr_exits (relm_msr_bitmap_set ∅ 0xC0000080 RELM_MSR_WRITE) 0xC0000080 false = false.
Proof. split; (rewrite msr_bitmap_set_correct; [reflexivity|lia..]). Defined.

(** The host's descriptor tables, after a set-up that succeeded: the encodings given to
    HOST_SYSENTER_CS and HOST_SYSENTER_ESP are those of HOST_GDTR_BASE and
    HOST_IDTR_BASE, so the bases hold the SYSENTER MSRs instead of the tables. *)
Lemma host_tables_clobbered :
  initialised.1.1.1 = 0 /\
  __vmread (va_cpu initialised.2) HOST_GDTR_BASE = rdmsr MSR_IA32_SYSENTER_CS /\
  __vmread (va_cpu initialised.2) HOST_IDTR_BASE = rdmsr MSR_IA32_SYSENTER_ESP /\
  rdmsr MSR_IA32_SYSENTER_CS <> hr_gdt regs /\ rdmsr MSR_IA32_SYSENTER_ESP <> hr_idt regs.
Proof. split_and!; vm_compute; reflexivity || discriminate. Qed.
End SetupDemo.
