(* ===== verification/WorldSwitch.v ===== *)
(** * The world switch of VMX

    src/arch/x86/vmx/vmx_asm.S, with its C helpers relm_vmentry_save_rsp and relm_vmentry_get_rsp
    (vmexit.c), and vmx_vcpu_run (vmx.c), which calls it: entering the guest, the exit stub
    around [handle_vmexit], re-entering the guest from the stub and unwinding to the caller.

    The assembly is a table of basic blocks over a small machine: sixteen registers (numbered
    as the instruction encoding does), 64-bit stack slots, the zero flag and the launch
    state the processor keeps for the VMCS.  struct guest_regs at [regs_ptr] is
    [vcpu->arch.regs] of the world of [VmExit].  What the processor does between an entry
    and the next exit is a [leg], a parameter; a C function may change every caller-saved
    register and [c_stack] bytes below its stack pointer.  The fuel of [exec] counts blocks;
    two per exit and six for the way in and out are enough. *)
From S2P Require Import Prelude HostMem VmMem GuestMem Mmu Vcpu Virtio FwCfg Decoder Apic Emul VmcsFields VmExit.

Definition RBP : nat := 5.
Definition RSI : nat := 6.
Definition RDI : nat := 7.
Definition R8 : nat := 8.
Definition R9 : nat := 9.
Definition R10 : nat := 10.
Definition R11 : nat := 11.
Definition R12 : nat := 12.
Definition R13 : nat := 13.
Definition R14 : nat := 14.
Definition R15 : nat := 15.

(** ** The code *)

Inductive cfun := C_save_rsp | C_get_rsp | C_handle_vmexit.
Inductive instr :=
  | push (r : nat) | pop (r : nat)
  | movq (src dst : nat)
  | movl (src dst : nat)                (* the upper half of dst becomes 0 *)
  | movl_imm (v : Z) (dst : nat)
  | xorl (r : nat)                      (* xorl %r, %r *)
  | load (off : Z) (base dst : nat)     (* movq off(%base), %dst *)
  | addq_rsp (n : Z)                    (* addq $n, %rsp *)
  | testl (r : nat) | testq (r : nat)
  | call (f : cfun).

Inductive label :=
  | relm_vmentry_asm | do_launch | do_resume | vmx_error
  | relm_vmexit_handler | Lreenter | Lvmresume_failed | Lvmexit_stop | Lvmexit_return_zero | Lunwind | Lvmexit_fatal.

(** How a block ends; the second label of a conditional jump is the next line. *)
Inductive ending :=
  | jmp (l : label) | jz (l next : label) | jnz (l next : label)
  | vmlaunch (next : label) | vmresume (next : label) | ret_ | hlt.

(** The offsets of struct guest_regs and of the block of pushed registers. *)
Definition struct_order : list nat :=
  [RAX; RBX; RCX; RDX; RSI; RDI; RBP; RSP; R8; R9; R10; R11; R12; R13; R14; R15].
Definition GREGS_RAX : Z := 0.
Definition GREGS_RBX : Z := 8.
Definition GREGS_RCX : Z := 16.
Definition GREGS_RDX : Z := 24.
Definition GREGS_RSI : Z := 32.
Definition GREGS_RDI : Z := 40.
Definition GREGS_RBP : Z := 48.
Definition GREGS_R8 : Z := 64.
Definition GREGS_R9 : Z := 72.
Definition GREGS_R10 : Z := 80.
Definition GREGS_R11 : Z := 88.
Definition GREGS_R12 : Z := 96.
Definition GREGS_R13 : Z := 104.
Definition GREGS_R14 : Z := 112.
Definition GREGS_R15 : Z := 120.
Definition VMEXIT_SAVE_SIZE : Z := 120.

Definition callee_saved : list nat := [RBP; RBX; R12; R13; R14; R15].
(** The exit stub pushes all registers but RSP, RAX first. *)
Definition save_order : list nat := [RAX; RBX; RCX; RDX; RSI; RDI; RBP; R8; R9; R10; R11; R12; R13; R14; R15].

Definition code (l : label) : list instr * ending :=
  match l with
  | relm_vmentry_asm =>
      (map push callee_saved ++
       [movq RDI R12; movl RSI R13; movq RSP RDI; call C_save_rsp;
        load GREGS_RAX R12 RAX; load GREGS_RBX R12 RBX; load GREGS_RCX R12 RCX; load GREGS_RDX R12 RDX;
        load GREGS_RSI R12 RSI; load GREGS_RBP R12 RBP; load GREGS_R8 R12 R8; load GREGS_R9 R12 R9;
        load GREGS_R10 R12 R10; load GREGS_R11 R12 R11; load GREGS_R14 R12 R14; load GREGS_R15 R12 R15;
        testl R13;
        load GREGS_RDI R12 RDI; load GREGS_R13 R12 R13; load GREGS_R12 R12 R12],
       jnz do_resume do_launch)
  | do_launch => ([], vmlaunch vmx_error)
  | do_resume => ([], vmresume vmx_error)
  | vmx_error => (movl_imm (-1) RAX :: map pop (rev callee_saved), ret_)
  | relm_vmexit_handler =>
      (map push save_order ++
       [movq RSP RDI; addq_rsp (-8); call C_handle_vmexit; addq_rsp 8; testl RAX],
       jz Lvmexit_stop Lreenter)
  | Lreenter => (map pop (rev save_order), vmresume Lvmresume_failed)
  | Lvmresume_failed => ([addq_rsp VMEXIT_SAVE_SIZE], jmp Lvmexit_return_zero)
  | Lvmexit_stop => ([addq_rsp VMEXIT_SAVE_SIZE], jmp Lvmexit_return_zero)
  | Lvmexit_return_zero => ([call C_get_rsp; testq RAX], jz Lvmexit_fatal Lunwind)
  | Lunwind => ([movq RAX RSP; xorl RAX] ++ map pop (rev callee_saved), ret_)
  | Lvmexit_fatal => ([], hlt)
  end.

(** ** The machine *)

(** From the entry with the registers [g] and the VMCS [v] to the next exit: the registers the
    guest leaves and the VMCS with the exit information; or the processor refuses the
    entry (VMfail) although the launch state is right. *)
Inductive leg := Refused | Exits (f : gprs -> gmap Z Z -> gprs * gmap Z Z).

Record mach := Mach {
  m_reg : nat -> Z; m_mem : Z -> Z; m_zf : bool;
  m_world : world;
  m_vmentry_host_rsp : Z;    (* vcpu->arch.vmentry_host_rsp *)
  m_vmcs_launched : bool;    (* the launch state of the VMCS *)
  m_legs : list leg
}.
Definition with_reg (r : nat) (v : Z) (m : mach) : mach :=
  Mach (fun x => if (x =? r)%nat then v else m_reg m x) (m_mem m) (m_zf m) (m_world m) (m_vmentry_host_rsp m)
    (m_vmcs_launched m) (m_legs m).
Definition with_regs (g : nat -> Z) (m : mach) : mach :=
  Mach g (m_mem m) (m_zf m) (m_world m) (m_vmentry_host_rsp m) (m_vmcs_launched m) (m_legs m).
Definition with_mem (f : Z -> Z) (m : mach) : mach :=
  Mach (m_reg m) f (m_zf m) (m_world m) (m_vmentry_host_rsp m) (m_vmcs_launched m) (m_legs m).
Definition with_zf (b : bool) (m : mach) : mach :=
  Mach (m_reg m) (m_mem m) b (m_world m) (m_vmentry_host_rsp m) (m_vmcs_launched m) (m_legs m).
Definition with_world (w : world) (m : mach) : mach :=
  Mach (m_reg m) (m_mem m) (m_zf m) w (m_vmentry_host_rsp m) (m_vmcs_launched m) (m_legs m).
Definition with_host_rsp (v : Z) (m : mach) : mach :=
  Mach (m_reg m) (m_mem m) (m_zf m) (m_world m) v (m_vmcs_launched m) (m_legs m).
Definition with_hw (b : bool) (ls : list leg) (m : mach) : mach :=
  Mach (m_reg m) (m_mem m) (m_zf m) (m_world m) (m_vmentry_host_rsp m) b ls.

Definition caller_saved (r : nat) : bool := existsb (Nat.eqb r) [RAX; RCX; RDX; RSI; RDI; R8; R9; R10; R11].

(** The registers a guest can see: RSP is in the VMCS. *)
Definition norm (g : nat -> Z) : gprs := map (fun r => if (r =? RSP)%nat then 0 else g r) (seq 0 16).
Definition reg_of (g : gprs) (r : nat) : Z := default 0 (g !! r).

(** Bit 31 of the exit reason: the entry failed while the guest state was loaded, and the
    launch state of the VMCS did not change. *)
Definition entry_failed (w : world) : bool := flag (__vmread (w_cpu w) VM_EXIT_REASON) (Z.shiftl 1 31).

Inductive result := Returned (m : mach) | Parked | Crashed | NoMoreLegs | NoFuel.

(** relm_vmentry_save_rsp and relm_vmentry_get_rsp; the vCPU is the current one. *)
Definition relm_vmentry_save_rsp (rsp : Z) (m : mach) : mach := with_host_rsp rsp m.
Definition relm_vmentry_get_rsp (m : mach) : Z := m_vmentry_host_rsp m.

Section machine.
(** The address of vcpu->arch.regs, the HOST_RSP and the handler behind the C function
    handle_vmexit; what C code leaves in caller-saved registers and below its stack. *)
Context (regs_ptr host_rsp c_stack : Z).
Context (handler : world -> gprs -> access (gprs * world)).
Context (junk_reg : nat -> Z) (junk_mem : Z -> Z).

Definition in_struct (a : Z) : bool := (regs_ptr <=? a) && (a <? regs_ptr + 128).
(** Reading and writing a 64-bit word; the code never writes the structure itself. *)
Definition load64 (m : mach) (a : Z) : Z :=
  if in_struct a then
    match struct_order !! Z.to_nat ((a - regs_ptr) / 8) with
    | Some r => reg_of (x_gprs (w_cpu (m_world m))) r
    | None => 0
    end
  else m_mem m a.
Definition store64 (a v : Z) (m : mach) : option mach :=
  if in_struct a then None else Some (with_mem (fun x => if x =? a then v else m_mem m x) m).

(** The effect of a call on what C may clobber. *)
Definition clobber (m : mach) : mach :=
  let sp := m_reg m RSP in
  with_mem (fun a => if (sp - c_stack <=? a) && (a <? sp) then junk_mem a else m_mem m a)
    (with_regs (fun r => if caller_saved r then junk_reg r else m_reg m r) m).

(** struct stack_guest_gprs at [p]: the pushed registers, R15 at the lowest address. *)
Definition slot_of (p : Z) (k : nat) : Z := p + 8 * (14 - Z.of_nat k).
Definition read_block (m : mach) (p : Z) : gprs :=
  norm (fun r => match list_find (eq r) save_order with Some (k, _) => m_mem m (slot_of p k) | None => 0 end).
Definition write_block (p : Z) (g : gprs) (m : mach) : mach :=
  with_mem (fun a =>
    match list_find (fun k => a = slot_of p k) (seq 0 15) with
    | Some (_, k) => match save_order !! k with Some r => reg_of g r | None => 0 end
    | None => m_mem m a
    end) m.

Definition do_call (f : cfun) (m : mach) : option mach :=
  match f with
  | C_save_rsp => Some (relm_vmentry_save_rsp (m_reg m RDI) (clobber m))
  | C_get_rsp => Some (with_reg RAX (relm_vmentry_get_rsp m) (clobber m))
  | C_handle_vmexit =>
      let p := m_reg m RDI in
      match handler (m_world m) (read_block m p) with
      | Done r (g, w) => Some (with_reg RAX (u32 r) (with_world w (write_block p g (clobber m))))
      | Oops | OutOfFuel => None
      end
  end.

Definition step (i : instr) (m : mach) : option mach :=
  match i with
  | push r => store64 (m_reg m RSP - 8) (m_reg m r) (with_reg RSP (m_reg m RSP - 8) m)
  | pop r => Some (with_reg r (load64 m (m_reg m RSP)) (with_reg RSP (m_reg m RSP + 8) m))
  | movq s d => Some (with_reg d (m_reg m s) m)
  | movl s d => Some (with_reg d (u32 (m_reg m s)) m)
  | movl_imm v d => Some (with_reg d (u32 v) m)
  | xorl r => Some (with_reg r 0 m)
  | load o b d => Some (with_reg d (load64 m (m_reg m b + o)) m)
  | addq_rsp n => Some (with_reg RSP (m_reg m RSP + n) m)
  | testl r => Some (with_zf (u32 (m_reg m r) =? 0) m)
  | testq r => Some (with_zf (m_reg m r =? 0) m)
  | call f => do_call f m
  end.
Fixpoint steps (il : list instr) (m : mach) : option mach :=
  match il with
  | [] => Some m
  | i :: il => match step i m with Some m => steps il m | None => None end
  end.

(** VMLAUNCH wants a clear VMCS, VMRESUME a launched one; on an exit the processor loads
    HOST_RSP and continues at relm_vmexit_handler with the registers of the guest. *)
Definition enter (want : bool) (m : mach) : option (option mach) :=
  match m_legs m with
  | [] => None
  | l :: ls =>
      if negb (Bool.eqb want (m_vmcs_launched m)) then Some None
      else match l with
           | Refused => Some None
           | Exits f =>
               let '(g, v) := f (norm (m_reg m)) (x_vmcs (w_cpu (m_world m))) in
               let w := on_cpu (fun c => set_vmcs c v) (m_world m) in
               Some (Some (with_regs (fun r => if (r =? RSP)%nat then host_rsp else reg_of g r)
                 (with_hw (m_vmcs_launched m || negb (entry_failed w)) ls (with_world w m))))
           end
  end.

Fixpoint exec (fuel : nat) (l : label) (m : mach) : result :=
  match fuel with
  | O => NoFuel
  | S fuel =>
      match steps (code l).1 m with
      | None => Crashed
      | Some m =>
          match (code l).2 with
          | jmp l => exec fuel l m
          | jz l n => exec fuel (if m_zf m then l else n) m
          | jnz l n => exec fuel (if m_zf m then n else l) m
          | vmlaunch n | vmresume n =>
              match enter (match (code l).2 with vmresume _ => true | _ => false end) m with
              | None => NoMoreLegs
              | Some None => exec fuel n (with_hw (m_vmcs_launched m) (tail (m_legs m)) m)
              | Some (Some m) => exec fuel relm_vmexit_handler m
              end
          | ret_ => Returned (with_reg RSP (m_reg m RSP + 8) m)
          | hlt => Parked
          end
      end
  end.

Definition fuel_for (m : mach) : nat := 2 * length (m_legs m) + 6.

(** The call of relm_vmentry_asm by vmx_vcpu_run: arguments in RDI and RSI, the return
    address [ra] on the stack. *)
Definition call_vmentry (ra : Z) (m : mach) : result :=
  match store64 (m_reg m RSP - 8) ra
          (with_reg RSP (m_reg m RSP - 8) (with_reg RDI regs_ptr
            (with_reg RSI (if x_launched (w_cpu (m_world m)) then 1 else 0) m))) with
  | Some m => exec (fuel_for m) relm_vmentry_asm m
  | None => Crashed
  end.

Definition set_launched (c : xcpu) : xcpu :=
  XCpu (x_gprs c) (x_rip c) (x_vmcs c) (x_state c) true (x_exits c) (x_efer c) (x_cr0 c) (x_cr4 c) (x_xcr0 c).
Definition vmx_vcpu_run (ra : Z) (m : mach) : option (Z * mach) :=
  match call_vmentry ra m with
  | Returned m =>
      let ret := s32 (m_reg m RAX) in
      if negb (ret =? 0) then Some (ret, m)
      else Some (0, with_world (on_cpu (fun c => if x_launched c then c else set_launched c) (m_world m)) m)
  | _ => None
  end.
End machine.

(** ** What the assembly is to do

    The guest runs until [handle_vmexit] returns 0; in between it gets back the registers
    the handler left.  [first] tells a refused VMLAUNCH or VMRESUME of relm_vmentry_asm from a refused
    VMRESUME of the exit stub. *)
Inductive switch :=
  | Left (w : world) (hw : bool) (ls : list leg)
  | EntryRefused (w : world) (hw : bool) (ls : list leg)
  | ReentryRefused (w : world) (hw : bool) (ls : list leg)
  | HandlerCrashed
  | OutOfLegs.

Fixpoint guest_runs (handler : world -> gprs -> access (gprs * world)) (first want hw : bool) (ls : list leg)
    (g : gprs) (w : world) : switch :=
  match ls with
  | [] => OutOfLegs
  | l :: ls =>
      if negb (Bool.eqb want hw) then if first then EntryRefused w hw ls else ReentryRefused w hw ls
      else match l with
           | Refused => if first then EntryRefused w hw ls else ReentryRefused w hw ls
           | Exits f =>
               let '(g, v) := f (norm (reg_of g)) (x_vmcs (w_cpu w)) in
               let w := on_cpu (fun c => set_vmcs c v) w in
               let hw := hw || negb (entry_failed w) in
               match handler w (norm (reg_of g)) with
               | Done r (g, w) => if u32 r =? 0 then Left w hw ls else guest_runs handler false true hw ls g w
               | Oops | OutOfFuel => HandlerCrashed
               end
           end
  end.

(** ** Registers and blocks of pushes and pops *)

(** A closed decidable fact. *)
Ltac decide_now := apply (bool_decide_unpack _); vm_compute; exact I.

Lemma norm_ext f g : (forall r, (r < 16)%nat -> r <> RSP -> f r = g r) -> norm f = norm g.
Proof.
  intros H. apply map_ext_in. intros r Hr%in_seq. destruct (Nat.eqb_spec r RSP); [done|]. apply H; [lia|done].
Qed.

Section blocks.
Context (regs_ptr host_rsp c_stack : Z).
Context (handler : world -> gprs -> access (gprs * world)).
Context (junk_reg : nat -> Z) (junk_mem : Z -> Z).
#[local] Notation steps := (steps regs_ptr c_stack handler junk_reg junk_mem).
#[local] Notation step := (step regs_ptr c_stack handler junk_reg junk_mem).
#[local] Notation in_struct := (in_struct regs_ptr).

Lemma steps_app a b m : steps (a ++ b) m = match steps a m with Some m' => steps b m' | None => None end.
Proof. revert m. induction a as [|i a IH]; intros m; simpl; [done|]. destruct (step i m); [apply IH|done]. Qed.

(** The stack words from [lo] up to [hi] are not in struct guest_regs. *)
Definition clear_of (lo hi : Z) : Prop := hi <= regs_ptr \/ regs_ptr + 128 <= lo.
Lemma clear_not_in lo hi a : clear_of lo hi -> lo <= a < hi -> in_struct a = false.
Proof. unfold clear_of, in_struct. intros H Ha. apply andb_false_iff. rewrite Z.leb_gt, Z.ltb_ge. lia. Qed.

Lemma push_steps rs m : RSP ∉ rs ->
  clear_of (m_reg m RSP - 8 * Z.of_nat (length rs)) (m_reg m RSP) ->
  exists reg mem, steps (map push rs) m = Some (with_mem mem (with_regs reg m)) /\
    (forall r, r <> RSP -> reg r = m_reg m r) /\ reg RSP = m_reg m RSP - 8 * Z.of_nat (length rs) /\
    (forall k r, rs !! k = Some r -> mem (m_reg m RSP - 8 * Z.of_nat (S k)) = m_reg m r) /\
    (forall a, a < m_reg m RSP - 8 * Z.of_nat (length rs) \/ m_reg m RSP <= a -> mem a = m_mem m a).
Proof.
  revert m. induction rs as [|r rs IH]; intros m Hr Hc; cbn [length] in Hc.
  { exists (m_reg m), (m_mem m). split; [by destruct m|]. cbn [length]. split_and!; try done; lia. }
  apply not_elem_of_cons in Hr as [Hr Hrs]. cbn [map WorldSwitch.steps WorldSwitch.step]. unfold store64.
  rewrite (clear_not_in _ _ (m_reg m RSP - 8) Hc) by lia.
  set (m1 := with_mem _ _). assert (m_reg m1 RSP = m_reg m RSP - 8) as H1 by done.
  destruct (IH m1 Hrs) as (reg & mem & E & A & B & C & D).
  { rewrite H1. destruct Hc; [left|right]; lia. }
  rewrite H1 in B, C, D. rewrite E. exists reg, mem. split; [done|]. split_and!.
  - intros x Hx. rewrite A by done. unfold m1. cbn [m_reg m_mem with_mem with_reg]. by rewrite (proj2 (Nat.eqb_neq x RSP)).
  - rewrite B. cbn [length]. lia.
  - intros [|k] x Hk; cbn in Hk.
    + injection Hk as <-. rewrite D by lia. unfold m1. cbn [m_reg m_mem with_mem with_reg]. by rewrite (proj2 (Z.eqb_eq _ _)) by lia.
    + replace (m_reg m RSP - 8 * Z.of_nat (S (S k))) with (m_reg m RSP - 8 - 8 * Z.of_nat (S k)) by lia.
      rewrite (C k x Hk). unfold m1. cbn [m_reg m_mem with_mem with_reg]. destruct (Nat.eqb_spec x RSP) as [-> |]; [|done].
      apply list_elem_of_lookup_2 in Hk. done.
  - intros a Ha. rewrite D by (cbn [length] in Ha; lia). unfold m1. cbn [m_reg m_mem with_mem with_reg].
    rewrite (proj2 (Z.eqb_neq a _)); [done|]. cbn [length] in Ha. lia.
Qed.

Lemma pop_steps rs m : RSP ∉ rs -> NoDup rs ->
  clear_of (m_reg m RSP) (m_reg m RSP + 8 * Z.of_nat (length rs)) ->
  exists reg, steps (map pop rs) m = Some (with_regs reg m) /\
    (forall k r, rs !! k = Some r -> reg r = m_mem m (m_reg m RSP + 8 * Z.of_nat k)) /\
    (forall r, r ∉ rs -> r <> RSP -> reg r = m_reg m r) /\ reg RSP = m_reg m RSP + 8 * Z.of_nat (length rs).
Proof.
  revert m. induction rs as [|r rs IH]; intros m Hr Hd Hc.
  { exists (m_reg m). split; [by destruct m|]. cbn [length]. split_and!; try done; lia. }
  apply not_elem_of_cons in Hr as [Hr Hrs]. apply NoDup_cons in Hd as [Hn Hd]. cbn [length] in Hc.
  cbn [map WorldSwitch.steps WorldSwitch.step]. unfold load64.
  rewrite (clear_not_in _ _ (m_reg m RSP) Hc) by lia.
  set (m1 := with_reg r _ _). assert (m_reg m1 RSP = m_reg m RSP + 8) as H1.
  { unfold m1. cbn [m_reg m_mem with_mem with_reg]. by rewrite (proj2 (Nat.eqb_neq RSP r)) by done. }
  destruct (IH m1 Hrs Hd) as (reg & E & A & B & C).
  { rewrite H1. destruct Hc; [left|right]; lia. }
  rewrite H1 in A, C. rewrite E. exists reg. split; [done|]. split_and!.
  - intros [|k] x Hk; cbn in Hk.
    + injection Hk as <-. rewrite B by done. unfold m1. cbn [m_reg m_mem with_mem with_reg]. rewrite Nat.eqb_refl. f_equal. lia.
    + rewrite (A k x Hk). change (m_mem m1) with (m_mem m). f_equal. lia.
  - intros x Hx Hxs. apply not_elem_of_cons in Hx as [Hx Hx']. rewrite B by done. unfold m1. cbn [m_reg m_mem with_mem with_reg].
    by rewrite (proj2 (Nat.eqb_neq x r)), (proj2 (Nat.eqb_neq x RSP)) by done.
  - rewrite C. cbn [length]. lia.
Qed.
Lemma write_block_at p g m k r : save_order !! k = Some r -> m_mem (write_block p g m) (slot_of p k) = reg_of g r.
Proof.
  intros Hk. assert (k < 15)%nat as Hlt by exact (lookup_lt_Some _ _ _ Hk).
  cbn [write_block with_mem m_mem]. destruct (list_find _ _) as [[j k']|] eqn:F.
  - apply list_find_Some in F as (_ & Hs & _). unfold slot_of in Hs. assert (k' = k) as -> by lia. by rewrite Hk.
  - apply list_find_None in F. rewrite Forall_forall in F. destruct (F k); [|done]. apply elem_of_seq. lia.
Qed.
Lemma write_block_other p g m a : a < p \/ p + 120 <= a -> m_mem (write_block p g m) a = m_mem m a.
Proof.
  intros Ha. cbn [write_block with_mem m_mem]. destruct (list_find _ _) as [[j k]|] eqn:F; [|done].
  apply list_find_Some in F as (Hk & Hs & _). apply lookup_seq in Hk as [-> Hk]. unfold slot_of in Hs. lia.
Qed.
Lemma clobber_mem m a : a < m_reg m RSP - c_stack \/ m_reg m RSP <= a ->
  m_mem (clobber c_stack junk_reg junk_mem m) a = m_mem m a.
Proof.
  intros Ha. cbn [clobber with_mem m_mem].
  destruct (Z.leb_spec (m_reg m RSP - c_stack) a), (Z.ltb_spec a (m_reg m RSP)); simpl; done || lia.
Qed.
Lemma clobber_reg m r : caller_saved r = false -> m_reg (clobber c_stack junk_reg junk_mem m) r = m_reg m r.
Proof. intros H. cbn [clobber with_mem with_regs m_reg]. by rewrite H. Qed.

(** A word of struct guest_regs. *)
Lemma load_field m k r : struct_order !! k = Some r ->
  load64 regs_ptr m (regs_ptr + 8 * Z.of_nat k) = reg_of (x_gprs (w_cpu (m_world m))) r.
Proof.
  intros Hk. assert (k < 16)%nat as Hlt by exact (lookup_lt_Some _ _ _ Hk).
  unfold load64, WorldSwitch.in_struct. rewrite (proj2 (Z.leb_le _ _)), (proj2 (Z.ltb_lt _ _)) by lia. cbn [andb].
  replace (regs_ptr + 8 * Z.of_nat k - regs_ptr) with (Z.of_nat k * 8) by lia. rewrite Z.div_mul by lia.
  by rewrite Nat2Z.id, Hk.
Qed.
(** A run of loads from struct guest_regs, each register from its own field. *)
Definition own_field (e : Z * nat) : Prop := exists k, e.1 = 8 * Z.of_nat k /\ struct_order !! k = Some e.2.
Lemma load_steps l m : Forall own_field l -> R12 ∉ l.*2 -> m_reg m R12 = regs_ptr ->
  exists reg, steps (map (fun e => load e.1 R12 e.2) l) m = Some (with_regs reg m) /\
    (forall d, d ∈ l.*2 -> reg d = reg_of (x_gprs (w_cpu (m_world m))) d) /\
    (forall r, r ∉ l.*2 -> reg r = m_reg m r).
Proof.
  revert m. induction l as [|[o d] l IH]; intros m Hl Hn Hb; cbn [fmap list_fmap snd] in Hn.
  { exists (m_reg m). split; [by destruct m|]. split; [|done]. by intros d ?%elem_of_nil. }
  apply Forall_cons in Hl as [(k & Ho & Hk) Hl]. simpl in Ho, Hk. apply not_elem_of_cons in Hn as [Hd Hn].
  cbn [map fst snd WorldSwitch.steps WorldSwitch.step]. rewrite Hb, Ho, (load_field m k d Hk).
  set (v := reg_of _ d).
  destruct (IH (with_reg d v m) Hl Hn) as (reg & E & A & B).
  { cbn [m_reg with_reg]. by rewrite (proj2 (Nat.eqb_neq R12 d)). }
  rewrite E. exists reg. split; [done|]. cbn [fmap list_fmap snd]. split.
  - intros x. destruct (decide (x ∈ l.*2)) as [Hx|Hx]; [by intros _; apply A|].
    intros [-> |]%elem_of_cons; [|done]. rewrite B by done. cbn [m_reg with_reg]. by rewrite Nat.eqb_refl.
  - intros r [Hr Hr']%not_elem_of_cons. rewrite B by done. cbn [m_reg with_reg]. by rewrite (proj2 (Nat.eqb_neq r d)).
Qed.
End blocks.

Section switch_ok.
Context (regs_ptr host_rsp c_stack : Z).
Context (handler : world -> gprs -> access (gprs * world)).
Context (junk_reg : nat -> Z) (junk_mem : Z -> Z).
#[local] Notation steps := (steps regs_ptr c_stack handler junk_reg junk_mem).
#[local] Notation exec := (exec regs_ptr host_rsp c_stack handler junk_reg junk_mem).

(** [m0] is the state at the call, its RSP points to the return address.  The frame of
    relm_vmentry_asm, the stack of the exit stub and struct guest_regs are apart; the stub may use
    120 bytes above HOST_RSP. *)
Context (m0 : mach).
#[local] Notation s0 := (m_reg m0 RSP).
Context (Hc : 0 <= c_stack).
Context (Hframe : s0 + 8 <= host_rsp - 128 - c_stack \/ host_rsp + 120 <= s0 - 48 - c_stack).
Context (Hstruct : clear_of regs_ptr (s0 - 48) s0) (Hstub : clear_of regs_ptr (host_rsp - 120) host_rsp).
Context (Hs0 : s0 <> 48).

(** The stack words that belong to others. *)
Definition others (a : Z) : Prop :=
  (a < s0 - 48 - c_stack \/ s0 <= a) /\ (a < host_rsp - 128 - c_stack \/ host_rsp + 120 <= a).
Definition framed (m : mach) : Prop :=
  m_vmentry_host_rsp m = s0 - 48 /\
  (forall k r, callee_saved !! k = Some r -> m_mem m (s0 - 8 * Z.of_nat (S k)) = m_reg m0 r) /\
  (forall a, others a -> m_mem m a = m_mem m0 a).
(** Back in the caller. *)
Definition back (rax : Z) (w : world) (hw : bool) (ls : list leg) (m : mach) : Prop :=
  m_reg m RAX = rax /\ (forall r, r ∈ callee_saved -> m_reg m r = m_reg m0 r) /\ m_reg m RSP = s0 + 8 /\
  m_world m = w /\ m_vmcs_launched m = hw /\ m_legs m = ls /\ (forall a, others a -> m_mem m a = m_mem m0 a).

Lemma framed_mem m m' : framed m -> m_vmentry_host_rsp m' = m_vmentry_host_rsp m ->
  (forall a, s0 - 48 <= a < s0 \/ others a -> m_mem m' a = m_mem m a) -> framed m'.
Proof.
  intros (A & B & C) Hv Hm. split_and!; [congruence| |].
  - intros k r Hk. rewrite Hm; [by apply B|]. pose proof (lookup_lt_Some _ _ _ Hk). left.
    change (length callee_saved) with 6%nat in *. lia.
  - intros a Ha. rewrite Hm by (by right). by apply C.
Qed.

(** The way back: the epilogue both exits share. *)
Lemma pop_callee_saved m : framed m -> m_reg m RSP = s0 - 48 ->
  exists reg, steps (map pop (rev callee_saved)) m = Some (with_regs reg m) /\
    (forall r, r ∈ callee_saved -> reg r = m_reg m0 r) /\ reg RAX = m_reg m RAX /\ reg RSP = s0.
Proof.
  intros (_ & F & _) Hsp.
  destruct (pop_steps regs_ptr c_stack handler junk_reg junk_mem (rev callee_saved) m) as (reg & -> & A & B & C).
  - decide_now.
  - decide_now.
  - rewrite Hsp. change (length (rev callee_saved)) with 6%nat. replace (s0 - 48 + 8 * Z.of_nat 6) with s0 by lia. done.
  - exists reg. split; [done|]. rewrite Hsp in A, C. split_and!.
    + intros r Hr. apply list_elem_of_lookup in Hr as [k Hk]. rewrite <- (F k r Hk).
      pose proof (lookup_lt_Some _ _ _ Hk) as Hlt. change (length callee_saved) with 6%nat in Hlt.
      rewrite (A (5 - k)%nat r); [f_equal; lia|]. 
      do 6 (destruct k as [|k]; [exact Hk|]). lia.
    + apply B; [|done]. decide_now.
    + rewrite C. change (length (rev callee_saved)) with 6%nat. lia.
Qed.
Lemma exec_error fuel m : framed m -> m_reg m RSP = s0 - 48 ->
  exists m', exec (S fuel) vmx_error m = Returned m' /\
    back (u32 (-1)) (m_world m) (m_vmcs_launched m) (m_legs m) m'.
Proof.
  intros F Hsp. cbn [WorldSwitch.exec code fst snd WorldSwitch.steps WorldSwitch.step].
  set (m1 := with_reg RAX (u32 (-1)) m).
  destruct (pop_callee_saved m1) as (reg & E & A & B & C); [exact F|exact Hsp|]. rewrite E.
  eexists. split; [done|]. destruct F as (_ & _ & F). split_and!; try done.
  - intros r Hr. cbn [m_reg with_reg with_regs]. rewrite (proj2 (Nat.eqb_neq r RSP)); [by apply A|].
    intros ->. revert Hr. decide_now.
  - cbn [m_reg with_reg with_regs]. rewrite Nat.eqb_refl, C. lia.
Qed.

Lemma exec_return fuel m : framed m ->
  m_reg m RSP = host_rsp \/ m_reg m RSP = host_rsp + 120 ->
  exists m', exec (S (S fuel)) Lvmexit_return_zero m = Returned m' /\
    back 0 (m_world m) (m_vmcs_launched m) (m_legs m) m'.
Proof.
  intros F Hsp. pose proof F as (Hv & _ & _).
  cbn [WorldSwitch.exec code fst snd WorldSwitch.steps WorldSwitch.step do_call].
  change (relm_vmentry_get_rsp m) with (m_vmentry_host_rsp m). rewrite !Hv. set (m1 := with_zf _ _).
  assert (m_zf m1 = false) as ->.
  { unfold m1. cbn [m_zf with_zf m_reg with_reg]. apply Z.eqb_neq. cbn. lia. }
  cbn [WorldSwitch.exec code app fst snd WorldSwitch.steps WorldSwitch.step].
  set (m2 := with_reg RAX 0 _).
  assert (framed m2) as F2.
  { apply (framed_mem m); [done|done|]. intros a Ha. change (m_mem m2 a) with (m_mem (clobber c_stack junk_reg junk_mem m) a).
    apply clobber_mem. unfold others in Ha. lia. }
  destruct (pop_callee_saved m2 F2) as (reg & E & A & B & C); [done|]. rewrite E.
  eexists. split; [done|]. destruct F2 as (_ & _ & F2). split_and!; try done.
  - intros r Hr. cbn [m_reg with_reg with_regs]. rewrite (proj2 (Nat.eqb_neq r RSP)); [by apply A|].
    intros ->. revert Hr. decide_now.
  - cbn [m_reg with_reg with_regs]. rewrite Nat.eqb_refl, C. lia.
Qed.

(** The exit stub: the handler sees the registers of the guest, and what it leaves is on
    the stack of the stub. *)
Lemma exit_block m : framed m -> m_reg m RSP = host_rsp ->
  match handler (m_world m) (norm (m_reg m)) with
  | Done r (g, w) => exists m', steps (code relm_vmexit_handler).1 m = Some m' /\ m_zf m' = (u32 r =? 0) /\
      m_reg m' RSP = host_rsp - 120 /\ framed m' /\
      (forall k r, save_order !! k = Some r -> m_mem m' (host_rsp - 8 * Z.of_nat (S k)) = reg_of g r) /\
      m_world m' = w /\ m_vmcs_launched m' = m_vmcs_launched m /\ m_legs m' = m_legs m
  | _ => steps (code relm_vmexit_handler).1 m = None
  end.
Proof.
  intros F Hsp. cbn [code fst]. rewrite steps_app.
  destruct (push_steps regs_ptr c_stack handler junk_reg junk_mem save_order m) as (reg & mem & E & A & B & C & D);
    [decide_now|by rewrite Hsp; change (length save_order) with 15%nat|].
  rewrite E. change (length save_order) with 15%nat in B, D. rewrite Hsp in B, C, D.
  cbn [WorldSwitch.steps WorldSwitch.step do_call].
  set (m1 := with_reg RSP _ _). change (m_world m1) with (m_world m).
  assert (m_reg m1 RDI = host_rsp - 120) as Hrdi.
  { unfold m1. cbn. rewrite B. lia. }
  assert (m_reg m1 RSP = host_rsp - 128) as Hrsp.
  { unfold m1. cbn. rewrite B. lia. }
  assert (read_block m1 (host_rsp - 120) = norm (m_reg m)) as Hrb.
  { unfold read_block. apply norm_ext. intros r Hr Hn. change (m_mem m1) with mem.
    destruct (list_find (eq r) save_order) as [[k r']|] eqn:Fk.
    - apply list_find_Some in Fk as (Hk & <- & _). rewrite <- (C k r Hk). f_equal. unfold slot_of. lia.
    - apply list_find_None in Fk. rewrite Forall_forall in Fk. exfalso. apply (Fk r); [|done].
      do 16 (destruct r as [|r]; [first [decide_now|destruct (Hn eq_refl)]|]). lia. }
  rewrite Hrdi, Hrb. destruct (handler (m_world m) (norm (m_reg m))) as [r [g w]| |]; [|done..].
  eexists. split; [reflexivity|]. 
  set (mb := write_block _ _ _).
  assert (forall a, a < host_rsp - 128 - c_stack \/ host_rsp <= a -> m_mem mb a = m_mem m a) as Hmb.
  { intros a Ha. unfold mb. rewrite write_block_other by lia. rewrite clobber_mem by (rewrite Hrsp; lia).
    change (m_mem m1) with mem. apply D. lia. }
  split_and!; try done.
  - cbn. unfold u32. by rewrite Z.mod_mod.
  - cbn. rewrite B. lia.
  - apply (framed_mem m); [done|done|]. intros a Ha. apply Hmb. unfold others in Ha. lia.
  - intros k x Hk. rewrite <- (write_block_at (host_rsp - 120) g (clobber c_stack junk_reg junk_mem m1) k x Hk).
    cbn [m_mem with_zf with_reg with_world]. f_equal. unfold slot_of. lia.
Qed.
Lemma reenter_block m g : framed m -> m_reg m RSP = host_rsp - 120 ->
  (forall k r, save_order !! k = Some r -> m_mem m (host_rsp - 8 * Z.of_nat (S k)) = reg_of g r) ->
  exists reg, steps (code Lreenter).1 m = Some (with_regs reg m) /\ norm reg = norm (reg_of g) /\ reg RSP = host_rsp.
Proof.
  intros F Hsp Hg. cbn [code fst].
  destruct (pop_steps regs_ptr c_stack handler junk_reg junk_mem (rev save_order) m) as (reg & E & A & _ & C);
    [decide_now|decide_now| |].
  - rewrite Hsp. change (length (rev save_order)) with 15%nat. by replace (host_rsp - 120 + 8 * Z.of_nat 15) with host_rsp by lia.
  - exists reg. split; [exact E|]. rewrite Hsp in A, C. change (length (rev save_order)) with 15%nat in C. split; [|lia].
    apply norm_ext. intros r Hr Hn.
    assert (exists k, save_order !! k = Some r) as [k Hk].
    { apply list_elem_of_lookup. do 16 (destruct r as [|r]; [first [decide_now|destruct (Hn eq_refl)]|]). lia. }
    rewrite <- (Hg k r Hk). pose proof (lookup_lt_Some _ _ _ Hk) as Hlt. change (length save_order) with 15%nat in Hlt.
    rewrite (A (14 - k)%nat r); [f_equal; lia|]. do 15 (destruct k as [|k]; [exact Hk|]). lia.
Qed.

(** The loads of relm_vmentry_asm around the test of the launch flag. *)
Definition loads1 : list (Z * nat) :=
  [(GREGS_RAX, RAX); (GREGS_RBX, RBX); (GREGS_RCX, RCX); (GREGS_RDX, RDX); (GREGS_RSI, RSI); (GREGS_RBP, RBP);
   (GREGS_R8, R8); (GREGS_R9, R9); (GREGS_R10, R10); (GREGS_R11, R11); (GREGS_R14, R14); (GREGS_R15, R15)].
Definition loads2 : list (Z * nat) := [(GREGS_RDI, RDI); (GREGS_R13, R13)].
Lemma loads1_own : Forall own_field loads1.
Proof. repeat constructor; [by exists 0%nat|by exists 1%nat|by exists 2%nat|by exists 3%nat|by exists 4%nat|by exists 6%nat|by exists 8%nat|by exists 9%nat|by exists 10%nat|by exists 11%nat|by exists 14%nat|by exists 15%nat]. Qed.
Lemma loads2_own : Forall own_field loads2.
Proof. repeat constructor; [by exists 5%nat|by exists 13%nat]. Qed.

Lemma entry_code : (code relm_vmentry_asm).1 =
  map push callee_saved ++ [movq RDI R12; movl RSI R13; movq RSP RDI; call C_save_rsp] ++
  map (fun e => load e.1 R12 e.2) loads1 ++ testl R13 :: map (fun e => load e.1 R12 e.2) loads2 ++ [load GREGS_R12 R12 R12].
Proof. reflexivity. Qed.

(** The entry: the frame is built and the registers of struct guest_regs are loaded. *)
Lemma entry_block : m_reg m0 RDI = regs_ptr ->
  exists m, steps (code relm_vmentry_asm).1 m0 = Some m /\ m_zf m = (u32 (m_reg m0 RSI) =? 0) /\
    m_reg m RSP = s0 - 48 /\ framed m /\ norm (m_reg m) = norm (reg_of (x_gprs (w_cpu (m_world m0)))) /\
    m_world m = m_world m0 /\ m_vmcs_launched m = m_vmcs_launched m0 /\ m_legs m = m_legs m0.
Proof.
  intros Hrdi. rewrite entry_code, steps_app.
  destruct (push_steps regs_ptr c_stack handler junk_reg junk_mem callee_saved m0) as (reg & mem & E & A & B & C & D);
    [decide_now|done|].
  rewrite E. change (length callee_saved) with 6%nat in B, D.
  set (mp := with_mem mem (with_regs reg m0)). set (m1 := with_reg RDI (m_reg mp RSP) (with_reg R13 (u32 (m_reg mp RSI)) (with_reg R12 (m_reg mp RDI) mp))).
  assert (m_reg m1 RSP = s0 - 48) as Hsp by (unfold m1; cbn; rewrite B; lia).
  set (m2 := relm_vmentry_save_rsp (m_reg mp RSP) (clobber c_stack junk_reg junk_mem m1)).
  rewrite steps_app. assert (steps [movq RDI R12; movl RSI R13; movq RSP RDI; call C_save_rsp] mp = Some m2) as -> by reflexivity.
  assert (m_reg m2 R12 = regs_ptr) as H12 by (unfold m2, m1; cbn; rewrite A; done).
  assert (m_reg m2 R13 = u32 (m_reg m0 RSI)) as H13 by (unfold m2, m1; cbn; rewrite A; done).
  assert (m_reg m2 RSP = s0 - 48) as Hsp2 by exact Hsp.
  assert (framed m2) as F2.
  { split_and!.
    - unfold m2. cbn. rewrite B. lia.
    - intros k r Hk. rewrite <- (C k r Hk). pose proof (lookup_lt_Some _ _ _ Hk) as Hlt.
      change (length callee_saved) with 6%nat in Hlt.
      transitivity (m_mem (clobber c_stack junk_reg junk_mem m1) (s0 - 8 * Z.of_nat (S k))); [done|].
      rewrite clobber_mem; [done|]. rewrite Hsp. lia.
    - intros a Ha. transitivity (m_mem (clobber c_stack junk_reg junk_mem m1) a); [done|].
      unfold others in Ha. rewrite clobber_mem by (rewrite Hsp; lia). apply D. lia. }
  assert (m_world m2 = m_world m0) as Hw by done. assert (m_vmcs_launched m2 = m_vmcs_launched m0) as Hh by done.
  assert (m_legs m2 = m_legs m0) as Hl by done. clearbody m2. clear E A B C D Hsp m1 mp reg mem.
  destruct (load_steps regs_ptr c_stack handler junk_reg junk_mem loads1 m2) as (reg1 & E1 & A1 & B1);
    [apply loads1_own|decide_now|done|].
  rewrite steps_app, E1. cbn [WorldSwitch.steps WorldSwitch.step]. set (m3 := with_zf _ _).
  destruct (load_steps regs_ptr c_stack handler junk_reg junk_mem loads2 m3) as (reg2 & E2 & A2 & B2);
    [apply loads2_own|decide_now|unfold m3; cbn [m_reg with_zf with_regs]; rewrite B1 by decide_now; done|].
  rewrite steps_app, E2. cbn [WorldSwitch.steps WorldSwitch.step].
  assert (forall r, r ∉ loads1.*2 -> r ∉ loads2.*2 -> reg2 r = m_reg m2 r) as Hrest.
  { intros r H1 H2. rewrite B2 by done. cbn [m3 m_reg with_zf with_regs]. by rewrite B1. }
  eexists. split; [reflexivity|]. split_and!; try done.
  - cbn [m_zf with_reg with_regs]. cbn [m3 m_zf with_zf m_reg with_regs]. rewrite B1 by decide_now.
    rewrite H13. unfold u32. by rewrite Z.mod_mod.
  - cbn [m_reg with_reg with_regs]. change (RSP =? R12)%nat with false. cbv iota. by rewrite Hrest by decide_now.
  - apply norm_ext. intros r Hr Hn. cbn [m_reg with_reg with_regs].
    rewrite Hrest, H12 by decide_now. destruct (Nat.eqb_spec r R12) as [-> |Hr12].
    + rewrite <- Hw. exact (load_field regs_ptr _ 12 R12 eq_refl).
    + rewrite <- Hw. destruct (decide (r ∈ loads2.*2)) as [H2|H2]; [by rewrite A2|]. rewrite B2 by done.
      cbn [m3 m_reg with_zf with_regs]. rewrite A1; [done|].
      revert H2 Hn Hr12. clear -Hr. do 16 (destruct r as [|r]; [intros H2 Hn Hr12; first [decide_now|destruct (Hn eq_refl)|destruct (Hr12 eq_refl)|destruct H2; decide_now]|]). lia.
Qed.

(** How an execution of the assembly ends, by what the specification says. *)
Definition switched (r : result) (s : switch) : Prop :=
  match s with
  | Left w hw ls | ReentryRefused w hw ls => exists m, r = Returned m /\ back 0 w hw ls m
  | EntryRefused w hw ls => exists m, r = Returned m /\ back (u32 (-1)) w hw ls m
  | HandlerCrashed => r = Crashed
  | OutOfLegs => r = NoMoreLegs
  end.

(** From VMLAUNCH or VMRESUME on. *)
Definition from_entry (fuel : nat) (first want : bool) (m : mach) : result :=
  match enter host_rsp want m with
  | None => NoMoreLegs
  | Some None => exec fuel (if first then vmx_error else Lvmresume_failed) (with_hw (m_vmcs_launched m) (tail (m_legs m)) m)
  | Some (Some m) => exec fuel relm_vmexit_handler m
  end.

Lemma refused_ok fuel (first : bool) m : framed m -> m_reg m RSP = (if first then s0 - 48 else host_rsp) -> (3 <= fuel)%nat ->
  switched (exec fuel (if first then vmx_error else Lvmresume_failed) m)
    (if first then EntryRefused (m_world m) (m_vmcs_launched m) (m_legs m)
     else ReentryRefused (m_world m) (m_vmcs_launched m) (m_legs m)).
Proof.
  intros F Hsp Hf. destruct fuel as [|[|[|fuel]]]; [lia..|]. destruct first; [by apply exec_error|].
  cbn [WorldSwitch.exec code fst snd WorldSwitch.steps WorldSwitch.step]. set (m1 := with_reg RSP _ m).
  apply (exec_return fuel m1); [exact F|]. right. unfold m1. cbn [m_reg with_reg]. rewrite Nat.eqb_refl, Hsp. done.
Qed.

Lemma from_entry_ok ls : forall fuel (first want : bool) g m, m_legs m = ls -> framed m ->
  m_reg m RSP = (if first then s0 - 48 else host_rsp) -> norm (m_reg m) = norm (reg_of g) ->
  (2 * length ls + 2 <= fuel)%nat ->
  switched (from_entry fuel first want m) (guest_runs handler first want (m_vmcs_launched m) ls g (m_world m)).
Proof.
  induction ls as [|l ls IH]; intros fuel first want g m Hl F Hsp Hg Hf; unfold from_entry, enter; rewrite Hl; [done|].
  cbn [guest_runs length tail] in *.
  assert (switched (exec fuel (if first then vmx_error else Lvmresume_failed) (with_hw (m_vmcs_launched m) ls m))
    (if first then EntryRefused (m_world m) (m_vmcs_launched m) ls else ReentryRefused (m_world m) (m_vmcs_launched m) ls)) as R.
  { apply (refused_ok fuel first (with_hw (m_vmcs_launched m) ls m)); [exact F|exact Hsp|lia]. }
  destruct (negb _); [exact R|]. destruct l as [|f]; [exact R|]. clear R.
  rewrite Hg. destruct (f _ _) as [g1 v]. set (w1 := on_cpu _ _). set (hw1 := m_vmcs_launched m || _).
  set (m1 := with_regs _ _). assert (framed m1) as F1 by exact F.
  pose proof (exit_block m1 F1 eq_refl) as X. change (m_world m1) with w1 in X.
  replace (norm (m_reg m1)) with (norm (reg_of g1)) in X.
  2:{ apply norm_ext. intros r _ Hn. unfold m1. cbn [m_reg with_regs]. by rewrite (proj2 (Nat.eqb_neq r RSP)). }
  destruct fuel as [|[|fuel]]; [lia..|]. cbn [WorldSwitch.exec].
  destruct (handler w1 (norm (reg_of g1))) as [r [g2 w2]| |]; [|by rewrite X..].
  destruct X as (m2 & -> & Hz & Hsp2 & F2 & Hb & Hw2 & Hh2 & Hl2).
  change (snd (code relm_vmexit_handler)) with (jz Lvmexit_stop Lreenter). cbv iota. rewrite Hz.
  destruct (u32 r =? 0).
  - destruct fuel as [|[|fuel]]; [lia..|]. cbn [code fst snd WorldSwitch.steps WorldSwitch.step].
    set (m3 := with_reg RSP _ m2). assert (Left w2 hw1 ls = Left (m_world m3) (m_vmcs_launched m3) (m_legs m3)) as ->.
    { cbn [m3 m_world m_vmcs_launched m_legs with_reg]. by rewrite Hw2, Hh2, Hl2. }
    apply (exec_return fuel m3); [exact F2|]. left. unfold m3. cbn [m_reg with_reg]. rewrite Nat.eqb_refl, Hsp2. unfold VMEXIT_SAVE_SIZE. lia.
  - destruct (reenter_block m2 g2 F2 Hsp2 Hb) as (reg & -> & Hn & Hr).
    change (snd (code Lreenter)) with (vmresume Lvmresume_failed). cbv iota.
    change hw1 with (m_vmcs_launched m1). rewrite <- Hh2, <- Hw2.
    apply (IH fuel false true g2 (with_regs reg m2)); [exact Hl2|exact F2|exact Hr|exact Hn|lia].
Qed.

Lemma vmentry_ok fuel : m_reg m0 RDI = regs_ptr -> (2 * length (m_legs m0) + 4 <= fuel)%nat ->
  switched (exec fuel relm_vmentry_asm m0)
    (guest_runs handler true (negb (u32 (m_reg m0 RSI) =? 0)) (m_vmcs_launched m0) (m_legs m0)
       (x_gprs (w_cpu (m_world m0))) (m_world m0)).
Proof.
  intros Hrdi Hf. destruct (entry_block Hrdi) as (m & E & Hz & Hsp & F & Hn & Hw & Hh & Hl).
  destruct fuel as [|[|fuel]]; [lia..|]. cbn [WorldSwitch.exec]. rewrite E.
  change (snd (code relm_vmentry_asm)) with (jnz do_resume do_launch). cbv iota. rewrite Hz, <- Hh, <- Hl.
  rewrite <- Hw. rewrite <- Hw in Hn.
  destruct (u32 (m_reg m0 RSI) =? 0); cbn [negb code fst snd WorldSwitch.steps];
    (apply (from_entry_ok (m_legs m) fuel true); [done..|rewrite Hl; lia]).
Qed.
End switch_ok.

(** ** vmx_vcpu_run *)

(** The stack at the call ([s] is RSP), the stack of the exit stub below and around HOST_RSP, and
    struct guest_regs do not overlap. *)
Definition apart (regs_ptr host_rsp c_stack s : Z) : Prop :=
  0 <= c_stack /\ (s <= host_rsp - 128 - c_stack \/ host_rsp + 120 <= s - 56 - c_stack) /\
  clear_of regs_ptr (s - 56) s /\ clear_of regs_ptr (host_rsp - 120) host_rsp /\ s <> 56.

(** vcpu->launched is set once an entry has returned 0. *)
Definition mark_launched (w : world) : world := on_cpu (fun c => if x_launched c then c else set_launched c) w.

(** The machine is back where it was called, with the world [w]. *)
Definition resumed (host_rsp c_stack : Z) (m m' : mach) (w : world) (hw : bool) (ls : list leg) : Prop :=
  (forall r, r ∈ RSP :: callee_saved -> m_reg m' r = m_reg m r) /\
  m_world m' = w /\ m_vmcs_launched m' = hw /\ m_legs m' = ls /\
  (forall a, a < m_reg m RSP - 56 - c_stack \/ m_reg m RSP <= a ->
             a < host_rsp - 128 - c_stack \/ host_rsp + 120 <= a -> m_mem m' a = m_mem m a).

(** What vmx_vcpu_run returns, by what happened. *)
Definition run_result (host_rsp c_stack : Z) (m : mach) (r : option (Z * mach)) (s : switch) : Prop :=
  match s with
  | Left w hw ls | ReentryRefused w hw ls =>
      exists m', r = Some (0, m') /\ resumed host_rsp c_stack m m' (mark_launched w) hw ls
  | EntryRefused w hw ls => exists m', r = Some (-1, m') /\ resumed host_rsp c_stack m m' w hw ls
  | HandlerCrashed | OutOfLegs => r = None
  end.

Lemma apart_frame regs_ptr host_rsp c_stack s : apart regs_ptr host_rsp c_stack s ->
  in_struct regs_ptr (s - 8) = false /\
  0 <= c_stack /\ (s - 8 + 8 <= host_rsp - 128 - c_stack \/ host_rsp + 120 <= s - 8 - 48 - c_stack) /\
  clear_of regs_ptr (s - 8 - 48) (s - 8) /\ clear_of regs_ptr (host_rsp - 120) host_rsp /\ s - 8 <> 48.
Proof.
  intros (A & B & C & D & N). split; [by apply (clear_not_in regs_ptr (s - 56) s); [|lia]|].
  split_and!; try done; try lia. destruct C; [left|right]; lia.
Qed.

Lemma vmx_vcpu_run_ok regs_ptr host_rsp c_stack handler junk_reg junk_mem ra m :
  apart regs_ptr host_rsp c_stack (m_reg m RSP) ->
  let c := w_cpu (m_world m) in
  run_result host_rsp c_stack m (vmx_vcpu_run regs_ptr host_rsp c_stack handler junk_reg junk_mem ra m)
    (guest_runs handler true (x_launched c) (m_vmcs_launched m) (m_legs m) (x_gprs c) (m_world m)).
Proof.
  intros Hap c. destruct (apart_frame _ _ _ _ Hap) as (Hin & Hc & Hf & Hs & Hb & Hn).
  unfold vmx_vcpu_run, call_vmentry, store64. rewrite Hin. set (m0 := with_mem _ _).
  assert (m_reg m0 RSP = m_reg m RSP - 8) as H0 by done.
  assert (m_reg m0 RSI = if x_launched c then 1 else 0) as Hsi by done.
  rewrite <- H0 in Hf, Hs, Hn.
  pose proof (vmentry_ok regs_ptr host_rsp c_stack handler junk_reg junk_mem m0 Hc Hf Hs Hb Hn (fuel_for m0) eq_refl) as K.
  specialize (K ltac:(unfold fuel_for; lia)). rewrite Hsi in K.
  replace (negb (u32 (if x_launched c then 1 else 0) =? 0)) with (x_launched c) in K by (by destruct (x_launched c)).
  change (m_vmcs_launched m0) with (m_vmcs_launched m) in K. change (m_legs m0) with (m_legs m) in K.
  change (m_world m0) with (m_world m) in K. fold c in K.
  assert (forall rax w hw ls m', back host_rsp c_stack m0 rax w hw ls m' ->
    m_reg m' RAX = rax /\ resumed host_rsp c_stack m m' w hw ls) as B.
  { intros rax w hw ls m' (Ha & Hr & Hsp & Hw & Hh & Hl & Hm). split; [done|]. split_and!; try done.
    - intros r [-> |Hr']%elem_of_cons; [rewrite Hsp, H0; lia|]. rewrite Hr by done.
      unfold m0. revert Hr'. cbn [m_reg with_mem with_reg].
      repeat (intros [-> |Hr']%elem_of_cons; [done|]; revert Hr'). by intros ?%elem_of_nil.
    - intros a Ha1 Ha2. rewrite Hm by (unfold others; rewrite H0; lia). unfold m0. cbn [m_mem with_mem].
      by rewrite (proj2 (Z.eqb_neq a _)) by lia. }
  clearbody m0. unfold run_result. destruct (guest_runs _ _ _ _ _ _ _) as [w hw ls|w hw ls|w hw ls| |]; cbn [switched] in K.
  - destruct K as (m' & -> & Hbk). destruct (B _ _ _ _ _ Hbk) as [Hrax Hres]. rewrite Hrax. cbn [Z.eqb negb s32].
    eexists. split; [done|]. destruct Hres as (R1 & R2 & R3 & R4 & R5). split_and!; try done. cbn [m_world with_world]. by rewrite R2.
  - destruct K as (m' & -> & Hbk). destruct (B _ _ _ _ _ Hbk) as [Hrax Hres]. rewrite Hrax. by exists m'.
  - destruct K as (m' & -> & Hbk). destruct (B _ _ _ _ _ Hbk) as [Hrax Hres]. rewrite Hrax. cbn [Z.eqb negb s32].
    eexists. split; [done|]. destruct Hres as (R1 & R2 & R3 & R4 & R5). split_and!; try done. cbn [m_world with_world]. by rewrite R2.
  - by rewrite K.
  - by rewrite K.
Qed.

(** Once launched, a VMCS stays so. *)
Lemma guest_runs_launched handler ls : forall want g w,
  match guest_runs handler false want true ls g w with
  | Left _ hw _ | ReentryRefused _ hw _ => hw = true
  | EntryRefused _ _ _ => False
  | HandlerCrashed | OutOfLegs => True
  end.
Proof.
  induction ls as [|l ls IH]; intros want g w; cbn [guest_runs]; [done|]. destruct (negb _); [done|].
  destruct l as [|f]; [done|]. destruct (f _ _) as [g1 v]. cbn [orb].
  destruct (handler _ _) as [r [g2 w2]| |]; [|done..]. destruct (u32 r =? 0); [done|]. apply IH.
Qed.

Section with_handlers.
Context {Zy : Zydis} (kmap : Z -> bool) (h : host).
Context (optab : Z -> relm_virtio_device_ops).
Context (wr : Z -> bool) (now : Z) (vmptr self : Z) (stk : list Z).
Context (cpuid : Z -> Z -> Z * Z * Z * Z) (rdmsr : Z -> Z).
Context (regs_ptr host_rsp c_stack : Z) (junk_reg : nat -> Z) (junk_mem : Z -> Z).

(** The exit stub with the C handler of [VmExit]. *)
Definition exit_handler : world -> gprs -> access (gprs * world) :=
  handle_vmexit kmap h optab wr now vmptr self stk cpuid rdmsr.
Definition vmx_run (ra : Z) (m : mach) : option (Z * mach) :=
  vmx_vcpu_run regs_ptr host_rsp c_stack exit_handler junk_reg junk_mem ra m.


Lemma entry_failure_stops w g : entry_failed w = true -> exit_handler w g = Done 0 (g, stop VCPU_STATE_STOPPED w).
Proof. unfold entry_failed, exit_handler, handle_vmexit. cbv zeta. by intros ->. Qed.

(** vcpu->launched agrees with the launch state of the VMCS. *)
Definition launch_ok (m : mach) : Prop := x_launched (w_cpu (m_world m)) = m_vmcs_launched m.

(** C15. The launch flag: if vcpu->launched agrees with the launch state of the VMCS, vmx_vcpu_run uses
    the instruction the processor wants: it fails only if the processor refuses the entry for another
    reason, and then changes nothing; and unless the vCPU was stopped, the flag agrees again
    afterwards. *)
Theorem launch_flag_invariant ra m ret m' : apart regs_ptr host_rsp c_stack (m_reg m RSP) -> launch_ok m ->
  vmx_run ra m = Some (ret, m') ->
  (ret <> 0 -> (exists ls, m_legs m = Refused :: ls) /\ m_world m' = m_world m /\ launch_ok m') /\
  (ret = 0 -> x_state (w_cpu (m_world m')) <> VCPU_STATE_STOPPED -> launch_ok m').
Proof.
  intros Hap Hok Hrun.
  pose proof (vmx_vcpu_run_ok regs_ptr host_rsp c_stack exit_handler junk_reg junk_mem ra m Hap) as K.
  cbv zeta in K. fold (vmx_run ra m) in K. rewrite Hrun in K. unfold launch_ok in Hok. rewrite Hok in K. unfold run_result in K.
  assert (forall w hw ls, hw = true -> resumed host_rsp c_stack m m' (mark_launched w) hw ls -> launch_ok m') as L.
  { intros w hw ls -> (_ & Hw & Hh & _). unfold launch_ok. rewrite Hw, Hh. simpl. by destruct (x_launched (w_cpu w)) eqn:E. }
  destruct (m_legs m) as [|l ls]; cbn [guest_runs] in K; [done|]. rewrite Bool.eqb_reflx in K. cbn [negb] in K.
  destruct l as [|f].
  { destruct K as (m2 & [= -> <-] & (_ & Hw & Hh & _)). split; [|by intros ?]. intros _. split; [eauto|].
    split; [done|]. unfold launch_ok. by rewrite Hw, Hh. }
  destruct (f _ _) as [g1 v]. set (w1 := on_cpu _ _) in K. destruct (m_vmcs_launched m || negb (entry_failed w1)) eqn:E.
  - destruct (exit_handler w1 _) as [r [g2 w2]| |]; [|done..]. destruct (u32 r =? 0).
    { destruct K as (m2 & [= -> <-] & Hres). split; [by intros []|]. intros _ _. exact (L _ _ _ eq_refl Hres). }
    pose proof (guest_runs_launched exit_handler ls true g2 w2) as G.
    destruct (guest_runs _ _ _ _ _ _ _); try done; destruct K as (m2 & [= -> <-] & Hres); (split; [by intros []|]); intros _ _; exact (L _ _ _ G Hres).
  - apply orb_false_iff in E as [_ E%negb_false_iff]. rewrite (entry_failure_stops w1 _ E) in K. cbn [u32 Z.eqb] in K.
    destruct K as (m2 & [= -> <-] & (_ & Hw & _)). split; [by intros []|]. intros _ []. rewrite Hw. simpl.
    by destruct (x_launched _).
Qed.

(** A VMRESUME of the exit stub that the processor refuses is reported as 0, like a normal exit. *)
Lemma refused_reentry_reported_as_success ra m w hw ls : apart regs_ptr host_rsp c_stack (m_reg m RSP) ->
  guest_runs exit_handler true (x_launched (w_cpu (m_world m))) (m_vmcs_launched m) (m_legs m)
    (x_gprs (w_cpu (m_world m))) (m_world m) = ReentryRefused w hw ls ->
  exists m', vmx_run ra m = Some (0, m') /\ m_world m' = mark_launched w.
Proof.
  intros Hap E. pose proof (vmx_vcpu_run_ok regs_ptr host_rsp c_stack exit_handler junk_reg junk_mem ra m Hap) as K.
  cbv zeta in K. rewrite E in K. destruct K as (m' & Hr & (_ & Hw & _)). by exists m'.
Qed.
End with_handlers.

Module SwitchDemo.
Import GuestMemDemo MmuDemo VirtioDemo DecoderDemo ApicDemo ExitDemo.

(** A guest that executes CPUID and then stops with an exit nobody handles. *)
Definition exits_with (reason : Z) : leg := Exits (fun g v => (g, <[VM_EXIT_REASON := reason]> v)).
Definition w0 : world := on_cpu (fun c => XCpu (x_gprs c) (x_rip c) (x_vmcs c) (x_state c) false (x_exits c) (x_efer c) (x_cr0 c) (x_cr4 c) (x_xcr0 c))
  (at_exit 0 0 0x1800 0).
Definition m_start (ls : list leg) : mach :=
  Mach (fun r => if (r =? RSP)%nat then 0x80000 else 100 + Z.of_nat r) (fun _ => 7) false w0 0 false ls.
Notation demo_run := (vmx_run (fun _ => true) hx optab0 (fun _ => true) 0 1 0 stk0 (fun _ _ => (1, 2, 3, 4)) caps
  0x10000 0x40000 0x1000 (fun _ => 9) (fun _ => 9)).
Notation demo_handler := (exit_handler (fun _ => true) hx optab0 (fun _ => true) 0 1 0 stk0 (fun _ _ => (1, 2, 3, 4)) caps).
Definition two_exits : mach := m_start [exits_with EXIT_REASON_CPUID; exits_with 0x99].

Lemma demo_apart : apart 0x10000 0x40000 0x1000 0x80000.
Proof. unfold apart, clear_of. lia. Qed.

Lemma rsp_kept : RSP ∈ RSP :: callee_saved.
Proof. decide_now. Qed.
Lemma rbx_kept : RBX ∈ RSP :: callee_saved.
Proof. decide_now. Qed.


(** A guest that halts: the first run launches the VMCS. *)
Definition halts : mach := m_start [exits_with EXIT_REASON_HLT].
Lemma launch_flag_invariant_witness : exists m', demo_run 0 halts = Some (0, m') /\
  x_state (w_cpu (m_world m')) = VCPU_STATE_RUNNING /\ launch_ok m' /\ m_vmcs_launched m' = true.
Proof.
  pose proof (vmx_vcpu_run_ok 0x10000 0x40000 0x1000 demo_handler (fun _ => 9) (fun _ => 9) 0 halts demo_apart) as K. cbv zeta in K.
  assert (exists w, guest_runs demo_handler true (x_launched (w_cpu (m_world halts))) (m_vmcs_launched halts) (m_legs halts)
    (x_gprs (w_cpu (m_world halts))) (m_world halts) = Left w true [] /\
    x_state (w_cpu w) = VCPU_STATE_RUNNING /\ x_launched (w_cpu w) = true) as (w & E & Hs & Hl).
  { eexists. split; [vm_compute; reflexivity|]. vm_compute. split; reflexivity. }
  rewrite E in K. destruct K as (m' & K & _ & Hw & Hh & _).
  unfold mark_launched, on_cpu in Hw. rewrite Hl in Hw.
  assert (x_state (w_cpu (m_world m')) = VCPU_STATE_RUNNING) as Hr by (rewrite Hw; exact Hs).
  exists m'. split; [exact K|]. split; [exact Hr|]. split; [|exact Hh].
  apply (proj2 (launch_flag_invariant (fun _ => true) hx optab0 (fun _ => true) 0 1 0 stk0 (fun _ _ => (1, 2, 3, 4)) caps
    0x10000 0x40000 0x1000 (fun _ => 9) (fun _ => 9) 0 halts 0 m' demo_apart eq_refl K)); [done|]. by rewrite Hr.
Defined.
End SwitchDemo.
