(* ===== verification/Debug.v ===== *)
(** * The live disassembler and the page-fault report

    src/arch/x86/vmx/insn_dump.c (the SVM copy differs only in where the mode of the guest is
    read from), src/debug/insn_dump.c and src/debug/page_fault.c with its three hooks of vmexit.c.

    Nothing here changes the state of a VM, but the code runs in the host at every exit: it
    formats text from guest bytes into arrays on the kernel stack, and it walks the tables of the guest.
    A buffer is the list of its bytes, with whatever was on the stack before; a write
    outside of it is [None].  [Debug.insn_text] says what is to be printed. *)
From S2P Require Import Prelude HostMem VmMem GuestMem Mmu Vcpu Virtio FwCfg Decoder Apic Emul VmcsFields VmExit.

(** ** scnprintf *)

(** The bytes of a C string. *)
Fixpoint cstr (l : list Z) : list Z :=
  match l with
  | [] => []
  | b :: l => if b =? 0 then [] else b :: cstr l
  end.

(** [scnprintf(buf + pos, size, ...)] where the format expands to [text]: the bytes written without the
    terminator.  The kernel refuses a size above INT_MAX. *)
Definition scnprintf (buf : list Z) (pos size : Z) (text : list Z) : option (Z * list Z) :=
  if (size =? 0) || (2 ^ 31 - 1 <? size) then Some (0, buf)
  else
    let n := Z.min (Z.of_nat (length text)) (size - 1) in
    if pos + n + 1 <=? Z.of_nat (length buf)
    then Some (n, overlay buf pos (take (Z.to_nat n) text ++ [0]))
    else None.

(** The digits of %x and %u. *)
Definition digit (d : Z) : Z := if d <? 10 then 48 + d else 87 + d.
Fixpoint digits (fuel : nat) (base v : Z) (acc : list Z) : list Z :=
  match fuel with
  | O => acc
  | S fuel => let acc := digit (v mod base) :: acc in if v / base =? 0 then acc else digits fuel base (v / base) acc
  end.
Definition hex (v : Z) : list Z := digits 16 16 v [].
Definition dec (v : Z) : list Z := digits 10 10 v [].
Notation "$ s" := (string_bytes s) (at level 1, format "$ s").

(** ** What Zydis reports *)

Inductive machine_mode :=
  | ZYDIS_MACHINE_MODE_LONG_64 | ZYDIS_MACHINE_MODE_LONG_COMPAT_32 | ZYDIS_MACHINE_MODE_LONG_COMPAT_16
  | ZYDIS_MACHINE_MODE_LEGACY_32 | ZYDIS_MACHINE_MODE_LEGACY_16 | ZYDIS_MACHINE_MODE_REAL_16.
Inductive stack_width := ZYDIS_STACK_WIDTH_64 | ZYDIS_STACK_WIDTH_32 | ZYDIS_STACK_WIDTH_16.

Record mem_operand := MemOperand {
  mo_segment : Z; mo_base : Z; mo_index : Z; mo_scale : Z; mo_has_displacement : bool; mo_disp : Z
}.
(** A decoded operand; [size] is in bits, an immediate is given as signed and as unsigned. *)
Inductive operand :=
  | OpRegister (reg : Z)
  | OpImmediate (is_signed : bool) (s u : Z)
  | OpMemory (size : Z) (mem : mem_operand)
  | OpPointer (segment offset : Z)
  | OpOther (type : Z).
Record instruction := Instruction {
  i_attributes : Z; i_mnemonic : Z; i_operand_count_visible : nat; i_length : Z
}.

Class ZydisText := {
  zydis_register_string : Z -> list Z; zydis_mnemonic_string : Z -> list Z;
  ZYDIS_REGISTER_NONE : Z; ZYDIS_REGISTER_RIP : Z; ZYDIS_REGISTER_FS : Z; ZYDIS_REGISTER_GS : Z;
  ZYDIS_ATTRIB_HAS_LOCK : Z; ZYDIS_ATTRIB_HAS_REP : Z; ZYDIS_ATTRIB_HAS_REPE : Z; ZYDIS_ATTRIB_HAS_REPNE : Z;
  zydis_decoder_init : machine_mode -> stack_width -> bool;
  zydis_decode_in : machine_mode -> stack_width -> list Z -> option (instruction * list operand)
}.
(** The documented results: the operand array covers the visible operands, and an instruction
    has between one and fifteen bytes. *)
Class ZydisTextOk (Zt : ZydisText) := {
  zt_visible mode width raw i ops : zydis_decode_in mode width raw = Some (i, ops) ->
    (i_operand_count_visible i <= length ops)%nat;
  zt_length mode width raw i ops : zydis_decode_in mode width raw = Some (i, ops) -> 1 <= i_length i <= 15
}.

(** ** Formatting *)

Definition INSN_DUMP_MAX_BYTES : Z := 15.
Definition INSN_DUMP_TEXT_MAX : Z := 160.
(** [char inner\[96\]] and [char operand_text\[96\]] *)
Definition OPERAND_TEXT_MAX : Z := 96.

Definition insn_dump_size_keyword (size_bits : Z) : list Z :=
  if size_bits =? 8 then $"byte ptr"
  else if size_bits =? 16 then $"word ptr"
  else if size_bits =? 32 then $"dword ptr"
  else if size_bits =? 64 then $"qword ptr"
  else if size_bits =? 80 then $"tbyte ptr"
  else if size_bits =? 128 then $"xmmword ptr"
  else if size_bits =? 256 then $"ymmword ptr"
  else if size_bits =? 512 then $"zmmword ptr"
  else $"ptr".

Section Format.
Context {Zt : ZydisText}.
(** What is on the stack where inner and operand_text are. *)
Context (stk_inner stk_operand : list Z).

Definition reg_string (r : Z) : list Z := cstr (zydis_register_string r).

(** [pos += scnprintf(buf + pos, cap - pos, ...)] *)
Definition append_fmt (cap : Z) (text : list Z) (s : list Z * Z) : option (list Z * Z) :=
  '(n, buf) ← scnprintf s.1 s.2 (u64 (cap - s.2)) text; Some (buf, s.2 + n).
Definition put_if (b : bool) (cap : Z) (text : list Z) (s : list Z * Z) : option (list Z * Z) :=
  if b then append_fmt cap text s else Some s.

(** The text between the brackets. *)
Definition format_inner (m : mem_operand) : option (list Z * Z) :=
  let inner := (stk_inner, 0) in
  if mo_base m =? ZYDIS_REGISTER_RIP then append_fmt OPERAND_TEXT_MAX ($"rip+0x" ++ hex (u64 (mo_disp m))) inner
  else
    let wrote := negb (mo_base m =? ZYDIS_REGISTER_NONE) in
    inner ← put_if wrote OPERAND_TEXT_MAX (reg_string (mo_base m)) inner;
    let indexed := negb (mo_index m =? ZYDIS_REGISTER_NONE) in
    inner ← put_if indexed OPERAND_TEXT_MAX
      ((if wrote then $"+" else []) ++ reg_string (mo_index m) ++ $"*" ++ dec (u32 (mo_scale m))) inner;
    let wrote := wrote || indexed in
    let displaced := mo_has_displacement m && negb (mo_disp m =? 0) in
    inner ← put_if displaced OPERAND_TEXT_MAX
      (if mo_disp m <? 0 then $"-0x" ++ hex (u64 (- mo_disp m))
       else (if wrote then $"+" else []) ++ $"0x" ++ hex (u64 (mo_disp m))) inner;
    put_if (negb (wrote || displaced)) OPERAND_TEXT_MAX ($"0x0") inner.

Definition insn_dump_format_operand (buf : list Z) (buf_size : Z) (op : operand) : option (list Z) :=
  match op with
  | OpRegister r => fst <$> append_fmt buf_size (reg_string r) (buf, 0)
  | OpImmediate is_signed s u => fst <$> append_fmt buf_size ($"0x" ++ hex (if is_signed then u64 s else u)) (buf, 0)
  | OpMemory size m =>
      inner ← format_inner m;
      let inner := cstr (inner.1) in
      let seg := mo_segment m in
      fst <$> (if (seg =? ZYDIS_REGISTER_FS) || (seg =? ZYDIS_REGISTER_GS)
               then append_fmt buf_size (insn_dump_size_keyword size ++ $" " ++ reg_string seg ++ $":[" ++ inner ++ $"]") (buf, 0)
               else append_fmt buf_size (insn_dump_size_keyword size ++ $" [" ++ inner ++ $"]") (buf, 0))
  | OpPointer seg off => fst <$> append_fmt buf_size ($"0x" ++ hex (u32 seg) ++ $":0x" ++ hex (u32 off)) (buf, 0)
  | OpOther t => fst <$> append_fmt buf_size ($"<op-type-" ++ dec t ++ $">") (buf, 0)
  end.

(** The loop over the visible operands, from [i] with [n] of them to go. *)
Fixpoint format_operands (n i : nat) (buf_size : Z) (operands : list operand) (s : list Z * Z) : option (list Z * Z) :=
  match n with
  | O => Some s
  | S n =>
      op ← operands !! i;
      operand_text ← insn_dump_format_operand stk_operand OPERAND_TEXT_MAX op;
      s ← append_fmt buf_size ((if (i =? 0)%nat then $" " else $", ") ++ cstr operand_text) s;
      format_operands n (S i) buf_size operands s
  end.

Definition insn_dump_format_instruction (buf : list Z) (buf_size : Z) (insn : instruction) (operands : list operand)
    : option (list Z) :=
  let has a := flag (i_attributes insn) a in
  s ← put_if (has ZYDIS_ATTRIB_HAS_LOCK) buf_size ($"lock ") (buf, 0);
  s ← put_if (has ZYDIS_ATTRIB_HAS_REP) buf_size ($"rep ") s;
  s ← put_if (has ZYDIS_ATTRIB_HAS_REPE) buf_size ($"repe ") s;
  s ← put_if (has ZYDIS_ATTRIB_HAS_REPNE) buf_size ($"repne ") s;
  s ← append_fmt buf_size (cstr (zydis_mnemonic_string (i_mnemonic insn))) s;
  fst <$> format_operands (i_operand_count_visible insn) 0 buf_size operands s.

(** ** What is to be printed

    An address is a sum of terms, a term a text and whether it is subtracted. *)
Definition mem_terms (m : mem_operand) : list (bool * list Z) :=
  (if mo_base m =? ZYDIS_REGISTER_NONE then [] else [(false, reg_string (mo_base m))]) ++
  (if mo_index m =? ZYDIS_REGISTER_NONE then []
   else [(false, reg_string (mo_index m) ++ $"*" ++ dec (u32 (mo_scale m)))]) ++
  (if mo_has_displacement m && negb (mo_disp m =? 0)
   then [(mo_disp m <? 0, $"0x" ++ hex (u64 (Z.abs (mo_disp m))))] else []).
Definition sum_text (ts : list (bool * list Z)) : list Z :=
  match ts with
  | [] => $"0x0"
  | (neg, t) :: ts =>
      (if neg : bool then $"-" else []) ++ t ++ concat (map (fun '(neg, t) => (if neg : bool then $"-" else $"+") ++ t) ts)
  end.
Definition mem_text (m : mem_operand) : list Z :=
  if mo_base m =? ZYDIS_REGISTER_RIP then $"rip+0x" ++ hex (u64 (mo_disp m)) else sum_text (mem_terms m).

(** A text cut to a C string that fits [n] bytes. *)
Definition fit (n : Z) (t : list Z) : list Z := take (Z.to_nat (n - 1)) t.

Definition operand_text (op : operand) : list Z :=
  match op with
  | OpRegister r => reg_string r
  | OpImmediate is_signed s u => $"0x" ++ hex (if is_signed then u64 s else u)
  | OpMemory size m =>
      let seg := mo_segment m in
      insn_dump_size_keyword size ++ $" " ++
      (if (seg =? ZYDIS_REGISTER_FS) || (seg =? ZYDIS_REGISTER_GS) then reg_string seg ++ $":" else []) ++
      $"[" ++ fit OPERAND_TEXT_MAX (mem_text m) ++ $"]"
  | OpPointer seg off => $"0x" ++ hex (u32 seg) ++ $":0x" ++ hex (u32 off)
  | OpOther t => $"<op-type-" ++ dec t ++ $">"
  end.
Definition insn_text (insn : instruction) (operands : list operand) : list Z :=
  let has a t := if flag (i_attributes insn) a then t else [] in
  has ZYDIS_ATTRIB_HAS_LOCK ($"lock ") ++ has ZYDIS_ATTRIB_HAS_REP ($"rep ") ++
  has ZYDIS_ATTRIB_HAS_REPE ($"repe ") ++ has ZYDIS_ATTRIB_HAS_REPNE ($"repne ") ++
  cstr (zydis_mnemonic_string (i_mnemonic insn)) ++
  concat (imap (fun i op => (if (i =? 0)%nat then $" " else $", ") ++ fit OPERAND_TEXT_MAX (operand_text op))
    (take (i_operand_count_visible insn) operands)).
End Format.

(** ** The dump of one instruction and of a range *)

Definition CS_AR_BYTES_D : Z := Z.shiftl 1 14.

Definition insn_dump_pick_mode (c : xcpu) : machine_mode * stack_width :=
  let cr0 := __vmread c GUEST_CR0 in
  let efer := __vmread c GUEST_IA32_EFER in
  let cs_ar := __vmread c GUEST_CS_AR_BYTES in
  let cs_is_default32 := flag cs_ar CS_AR_BYTES_D in
  if flag efer EFER_LMA then
    if flag cs_ar CS_AR_BYTES_L then (ZYDIS_MACHINE_MODE_LONG_64, ZYDIS_STACK_WIDTH_64)
    else if cs_is_default32 then (ZYDIS_MACHINE_MODE_LONG_COMPAT_32, ZYDIS_STACK_WIDTH_32)
    else (ZYDIS_MACHINE_MODE_LONG_COMPAT_16, ZYDIS_STACK_WIDTH_16)
  else if flag cr0 X86_CR0_PE then
    if cs_is_default32 then (ZYDIS_MACHINE_MODE_LEGACY_32, ZYDIS_STACK_WIDTH_32)
    else (ZYDIS_MACHINE_MODE_LEGACY_16, ZYDIS_STACK_WIDTH_16)
  else (ZYDIS_MACHINE_MODE_REAL_16, ZYDIS_STACK_WIDTH_16).

(** Where an instruction was found, the line printed for it and its length. *)
Record dumped := Dumped { dp_gva : Z; dp_text : list Z; dp_length : Z }.

Definition RELM_INSN_DUMP_RANGE_MAX : nat := 256.
Definition RELM_PAGE_FAULT_INSN_DUMP_WINDOW : Z := 0x20.
Definition VM_EXIT_INTR_ERROR_CODE : Z := 0x4406.

(** What relm_dump_page_fault says about the faulting address. *)
Inductive pf_verdict :=
  | PfNoMapping (inconsistent : bool)      (* the tables of the guest do not map it *)
  | PfUnsupported (err : Z)                (* a paging mode the walker does not know *)
  | PfInside (region_start region_size : Z)
  | PfOutside.

Section Dump.
Context {Zt : ZydisText} (kmap : Z -> bool) (h : host) (m : relm_vm_memory) (c : xcpu).
(** What is on the stack where the arrays are, and CR2 of the host CPU. *)
Context (stk_raw stk_inner stk_operand stk_text : list Z) (cr2_ : Z).

(** [None] in the result: nothing was decoded and *out_length is not set. *)
Definition relm_arch_dump_guest_insn (gva : Z) : access (option dumped) :=
  and_then (vmx_mmu_copy_from_guest_virt kmap h m (mmu_regs c) gva (Some stk_raw) INSN_DUMP_MAX_BYTES) (fun ret raw =>
    if ret <? 0 then Done ret None
    else
      let '(mode, width) := insn_dump_pick_mode c in
      if negb (zydis_decoder_init mode width) then Done (- EINVAL) None
      else match zydis_decode_in mode width raw with
           | None => Done (- EINVAL) None
           | Some (insn, operands) =>
               match insn_dump_format_instruction stk_inner stk_operand stk_text INSN_DUMP_TEXT_MAX insn operands with
               | Some text => Done 0 (Some (Dumped gva (cstr text) (i_length insn)))
               | None => Oops
               end
           end).

Definition relm_dump_guest_insn (gva : Z) : access (option dumped) := relm_arch_dump_guest_insn gva.

(** The loop with [n] instructions left to print. *)
Fixpoint dump_loop (n : nat) (cursor gva_end : Z) (printed : list dumped) : access (list dumped) :=
  if negb (cursor <? gva_end) then Done 0 printed
  else match n with
       | O => Done 0 printed
       | S n =>
           and_then (relm_arch_dump_guest_insn cursor) (fun ret d =>
             if ret <? 0 then Done ret printed
             else match d with
                  | Some d => dump_loop n (u64 (cursor + dp_length d)) gva_end (printed ++ [d])
                  | None => dump_loop n cursor gva_end printed
                  end)
       end.

Definition relm_dump_guest_insn_range (gva_start gva_end : Z) : access (list dumped) :=
  if gva_end <=? gva_start then Done (- EINVAL) []
  else dump_loop RELM_INSN_DUMP_RANGE_MAX gva_start gva_end [].

(** ** The page-fault report *)

Definition relm_page_fault_addr_in_guest_ram (gpa : Z) : option (Z * Z) :=
  match List.find (fun r => in_gr r gpa) (mem_regions m) with
  | Some r => Some (gr_gpa_start r, gr_size r)
  | None => None
  end.

Definition relm_page_fault_dump_insn_window (guest_rip : Z) : access (list dumped) :=
  if guest_rip <? RELM_PAGE_FAULT_INSN_DUMP_WINDOW then Done 0 []
  else relm_dump_guest_insn_range (guest_rip - RELM_PAGE_FAULT_INSN_DUMP_WINDOW) guest_rip.

Definition relm_arch_get_page_fault_info : Z * Z * Z := (0, cr2_, u32 (__vmread c VM_EXIT_INTR_ERROR_CODE)).
Definition relm_arch_translate_gva_to_gpa (gva : Z) : access (option Z) := vmx_mmu_gva_to_gpa kmap h m (mmu_regs c) gva.

(** The verdict printed and the instructions printed before RIP. *)
Definition relm_dump_page_fault (guest_rip : Z) : access (option (pf_verdict * list dumped)) :=
  let '(ret, cr2, err) := relm_arch_get_page_fault_info in
  let with_window v := and_then (relm_page_fault_dump_insn_window guest_rip) (fun _ l => Done 0 (Some (v, l))) in
  if ret <? 0 then Done 0 None
  else
    and_then (relm_arch_translate_gva_to_gpa cr2) (fun ret gpa =>
      if ret =? - EFAULT then with_window (PfNoMapping (flag err 1))
      else if ret <? 0 then with_window (PfUnsupported ret)
      else match relm_page_fault_addr_in_guest_ram (default 0 gpa) with
           | Some (start, size) => Done 0 (Some (PfInside start size, []))
           | None => with_window PfOutside
           end).
End Dump.

(** ** Texts without a terminator in them *)

Definition nz (t : list Z) : Prop := Forall (fun b => b <> 0) t.

Lemma nz_app t u : nz t -> nz u -> nz (t ++ u).
Proof. apply Forall_app_2. Qed.
Lemma nz_cstr t : nz (cstr t).
Proof. induction t as [|b t IH]; simpl; [constructor|]. destruct (Z.eqb_spec b 0); by constructor. Qed.
Lemma nz_digits fuel base v acc : 0 < base -> nz acc -> nz (digits fuel base v acc).
Proof.
  intros Hb. revert v acc. induction fuel as [|fuel IH]; intros v acc Ha; simpl; [done|].
  assert (nz (digit (v mod base) :: acc)) as Hd.
  { constructor; [|done]. pose proof (Z.mod_pos_bound v base Hb). unfold digit. destruct (Z.ltb_spec (v mod base) 10); lia. }
  destruct (v / base =? 0); [done|]. by apply IH.
Qed.
Lemma nz_hex v : nz (hex v).
Proof. apply nz_digits; [lia|constructor]. Qed.
Lemma nz_dec v : nz (dec v).
Proof. apply nz_digits; [lia|constructor]. Qed.
Lemma nz_nil : nz [].
Proof. constructor. Qed.
Lemma nz_fit n t : nz t -> nz (fit n t).
Proof. apply Forall_take. Qed.
Lemma nz_if (b : bool) t u : nz t -> nz u -> nz (if b then t else u).
Proof. by destruct b. Qed.

Create HintDb text discriminated.
#[export] Hint Resolve nz_app nz_cstr nz_hex nz_dec nz_nil nz_fit nz_if : text.
#[export] Hint Extern 1 (nz (string_bytes _)) => (repeat constructor; discriminate) : text.

Lemma nz_size_keyword n : nz (insn_dump_size_keyword n).
Proof. unfold insn_dump_size_keyword. auto 20 with text. Qed.
#[export] Hint Resolve nz_size_keyword : text.

Lemma nz_concat ts : Forall nz ts -> nz (concat ts).
Proof. induction 1; simpl; auto with text. Qed.

(** The string in front of a terminator. *)
Lemma cstr_prefix (buf : list Z) k : buf !! k = Some 0 -> nz (take k buf) -> cstr buf = take k buf.
Proof.
  revert buf. induction k as [|k IH]; intros [|b buf]; simpl; try done.
  - by intros [= ->].
  - intros Hk Hz. apply Forall_cons in Hz as [Hb Hz]. rewrite (proj2 (Z.eqb_neq b 0)) by done. by rewrite IH.
Qed.

(** ** A buffer of [cap] bytes after the text [t] was written to it; [ended] when there was a write *)

Record text_ok (cap : Z) (ended : bool) (t : list Z) (s : list Z * Z) : Prop := {
  tk_len : Z.of_nat (length s.1) = cap;
  tk_pos : s.2 = Z.min (Z.of_nat (length t)) (cap - 1);
  tk_text : take (Z.to_nat s.2) s.1 = fit cap t;
  tk_end : ended = true -> s.1 !! Z.to_nat s.2 = Some 0
}.

Lemma text_start cap buf : 1 <= cap -> Z.of_nat (length buf) = cap -> text_ok cap false [] (buf, 0).
Proof. intros Hc Hl. split; [done|simpl; lia| |done]. unfold fit. by rewrite take_nil. Qed.

Lemma text_cstr cap t s : text_ok cap true t s -> nz t -> cstr s.1 = fit cap t.
Proof.
  intros [_ _ Ht He] Hz. rewrite <- Ht. apply cstr_prefix; [by apply He|]. rewrite Ht. auto with text.
Qed.

Lemma overlay_end buf pos text : 0 <= pos -> (Z.to_nat pos + length text + 1 <= length buf)%nat ->
  length (overlay buf pos (text ++ [0])) = length buf /\
  take (Z.to_nat pos + length text) (overlay buf pos (text ++ [0])) = take (Z.to_nat pos) buf ++ text /\
  overlay buf pos (text ++ [0]) !! (Z.to_nat pos + length text)%nat = Some 0.
Proof.
  intros Hp Hl. destruct (take_overlay buf pos (text ++ [0])) as [Ht Hn]; [done|rewrite length_app; simpl; lia|].
  rewrite length_app in Ht. cbn [length] in Ht.
  replace (Z.to_nat (pos + Z.of_nat (length text + 1))) with (S (Z.to_nat pos + length text)) in Ht by lia.
  assert (length (take (Z.to_nat pos) buf) = Z.to_nat pos) as Lt by (rewrite length_take; lia).
  split; [done|]. split.
  - replace (Z.to_nat pos + length text)%nat with ((Z.to_nat pos + length text) `min` S (Z.to_nat pos + length text))%nat by lia. rewrite <- take_take.
    rewrite Ht, app_assoc. rewrite take_app_length'; [done|]. rewrite length_app. lia.
  - rewrite <- (lookup_take_lt _ (S (Z.to_nat pos + length text))) by lia. rewrite Ht, app_assoc.
    rewrite lookup_app_r by (rewrite length_app; lia). rewrite length_app, Lt. by rewrite Nat.sub_diag.
Qed.

Lemma put_ok cap d t text s : 1 <= cap < 2 ^ 31 -> text_ok cap d t s ->
  exists s', append_fmt cap text s = Some s' /\ text_ok cap true (t ++ text) s'.
Proof.
  intros Hc [Hl Hp Ht _]. destruct s as [buf pos]. simpl in *. unfold append_fmt, scnprintf. simpl.
  rewrite (u64_small (cap - pos)) by lia. rewrite (proj2 (Z.eqb_neq (cap - pos) 0)) by lia.
  rewrite (proj2 (Z.ltb_ge _ _)) by lia. simpl.
  set (n := Z.min (Z.of_nat (length text)) (cap - pos - 1)). rewrite (proj2 (Z.leb_le _ _)) by lia. simpl.
  eexists. split; [reflexivity|].
  assert (length (take (Z.to_nat n) text) = Z.to_nat n) as Ln by (rewrite length_take; lia).
  destruct (overlay_end buf pos (take (Z.to_nat n) text)) as (Lo & To & Eo); [lia|lia|].
  rewrite Ln in To, Eo. split; simpl.
  - by rewrite Lo.
  - rewrite length_app. lia.
  - rewrite Z2Nat.inj_add by lia. rewrite To, Ht. unfold fit. rewrite take_app. f_equal.
    destruct (Z.le_gt_cases (Z.of_nat (length text)) (cap - pos - 1)).
    + rewrite !take_ge; [done|lia|lia].
    + f_equal. lia.
  - intros _. rewrite Z2Nat.inj_add by lia. exact Eo.
Qed.

Lemma put_if_ok (b : bool) cap d t text s : 1 <= cap < 2 ^ 31 -> text_ok cap d t s ->
  exists s', put_if b cap text s = Some s' /\ text_ok cap (d || b) (t ++ if b then text else []) s'.
Proof.
  intros Hc Hs. destruct b; simpl.
  - rewrite orb_true_r. by apply (put_ok cap d).
  - exists s. by rewrite orb_false_r, app_nil_r.
Qed.

(** ** The formatter prints the text *)

Section FormatOk.
Context {Zt : ZydisText} (stk_inner stk_operand : list Z).
Context (Hinner : length stk_inner = 96%nat) (Hoperand : length stk_operand = 96%nat).

Lemma nz_mem_text m : nz (mem_text m).
Proof.
  unfold mem_text, sum_text, mem_terms, reg_string.
  destruct (_ =? ZYDIS_REGISTER_RIP); [auto with text|].
  destruct (_ =? ZYDIS_REGISTER_NONE), (_ =? ZYDIS_REGISTER_NONE), (_ && _); cbn [map concat app]; auto 20 with text.
Qed.
Lemma nz_operand_text op : nz (operand_text op).
Proof. pose proof nz_mem_text. destruct op; unfold operand_text, reg_string; auto 20 with text. Qed.

(** The terms the code appends one by one are the sum. *)
Lemma inner_terms m : mo_base m =? ZYDIS_REGISTER_RIP = false ->
  let wrote := negb (mo_base m =? ZYDIS_REGISTER_NONE) in
  let indexed := negb (mo_index m =? ZYDIS_REGISTER_NONE) in
  let displaced := mo_has_displacement m && negb (mo_disp m =? 0) in
  ((([] ++ if wrote then reg_string (mo_base m) else []) ++
    (if indexed then (if wrote then $"+" else []) ++ reg_string (mo_index m) ++ $"*" ++ dec (u32 (mo_scale m)) else [])) ++
   (if displaced then if mo_disp m <? 0 then $"-0x" ++ hex (u64 (- mo_disp m))
                      else (if wrote || indexed then $"+" else []) ++ $"0x" ++ hex (u64 (mo_disp m)) else [])) ++
  (if negb (wrote || indexed || displaced) then $"0x0" else []) = mem_text m.
Proof.
  intros E. cbv zeta. unfold mem_text, mem_terms. rewrite E.
  destruct (Z.ltb_spec (mo_disp m) 0) as [H|H]; [rewrite (Z.abs_neq (mo_disp m)) by lia|rewrite (Z.abs_eq (mo_disp m)) by lia];
    destruct (mo_base m =? ZYDIS_REGISTER_NONE), (mo_index m =? ZYDIS_REGISTER_NONE), (_ && _);
    cbn [negb orb sum_text map concat app]; rewrite ?app_nil_r; rewrite <- ?app_assoc; reflexivity.
Qed.

Lemma format_inner_ok m : exists s, format_inner stk_inner m = Some s /\ text_ok OPERAND_TEXT_MAX true (mem_text m) s.
Proof.
  assert (text_ok OPERAND_TEXT_MAX false [] (stk_inner, 0)) as H0 by (apply text_start; [done|by rewrite Hinner]).
  unfold format_inner. destruct (mo_base m =? ZYDIS_REGISTER_RIP) eqn:E.
  { replace (mem_text m) with ([] ++ $"rip+0x" ++ hex (u64 (mo_disp m))) by (unfold mem_text; by rewrite E).
    by apply (put_ok _ false). }
  rewrite <- (inner_terms m E).
  edestruct put_if_ok as (s1 & -> & H1); [|exact H0|]; [done|]. simpl.
  edestruct put_if_ok as (s2 & -> & H2); [|exact H1|]; [done|]. simpl.
  edestruct put_if_ok as (s3 & -> & H3); [|exact H2|]; [done|]. simpl.
  edestruct put_if_ok as (s4 & -> & H4); [|exact H3|]; [done|]. exists s4. split; [done|].
  destruct (mo_base m =? ZYDIS_REGISTER_NONE), (mo_index m =? ZYDIS_REGISTER_NONE), (_ && _); exact H4.
Qed.

Lemma put_cstr cap buf text : 1 <= cap < 2 ^ 31 -> Z.of_nat (length buf) = cap -> nz text ->
  exists buf', fst <$> append_fmt cap text (buf, 0) = Some buf' /\ Z.of_nat (length buf') = cap /\ cstr buf' = fit cap text.
Proof.
  intros Hc Hl Hz. destruct (put_ok cap false [] text (buf, 0) Hc) as (s & -> & Hs); [by apply text_start; [lia|]|].
  exists (s.1). split; [done|]. split; [by destruct Hs|]. by apply text_cstr.
Qed.

Lemma format_operand_ok cap buf op : 1 <= cap < 2 ^ 31 -> Z.of_nat (length buf) = cap ->
  exists buf', insn_dump_format_operand stk_inner buf cap op = Some buf' /\ Z.of_nat (length buf') = cap /\
    cstr buf' = fit cap (operand_text op).
Proof.
  intros Hc Hl. pose proof (nz_operand_text op) as Hz.
  destruct op as [r|sg s u|size m|seg off|t]; try (by apply put_cstr).
  destruct (format_inner_ok m) as (s & E & Hs). unfold insn_dump_format_operand. rewrite E. simpl.
  rewrite (text_cstr _ _ _ Hs (nz_mem_text m)). unfold operand_text in *.
  destruct (_ || _); cbn [app] in *; rewrite <- ?app_assoc in *; by apply put_cstr.
Qed.

Lemma format_operands_ok cap ops : 1 <= cap < 2 ^ 31 -> forall n i t s, (i + n <= length ops)%nat -> text_ok cap true t s ->
  exists s', format_operands stk_inner stk_operand n i cap ops s = Some s' /\
    text_ok cap true (t ++ concat (imap (fun j op => (if (i + j =? 0)%nat then $" " else $", ") ++ fit OPERAND_TEXT_MAX (operand_text op))
      (take n (drop i ops)))) s'.
Proof.
  intros Hc n. induction n as [|n IH]; intros i t s Hn Hs; cbn [format_operands].
  { exists s. rewrite take_0. simpl. by rewrite app_nil_r. }
  destruct (lookup_lt_is_Some_2 ops i) as [op Eop]; [lia|]. rewrite Eop. simpl.
  destruct (format_operand_ok OPERAND_TEXT_MAX stk_operand op) as (b & -> & _ & Eb); [done|by rewrite Hoperand|]. simpl. rewrite Eb.
  edestruct put_ok as (s1 & -> & H1); [|exact Hs|]; [done|]. simpl.
  destruct (IH (S i) _ s1 ltac:(lia) H1) as (s2 & -> & H2). exists s2. split; [done|].
  rewrite (drop_S _ op) by done. simpl. rewrite Nat.add_0_r. rewrite <- app_assoc in H2.
  erewrite (imap_ext _ _ (take n (drop (S i) ops))); [exact H2|]. intros j x _. simpl. by rewrite Nat.add_succ_r.
Qed.

Lemma nz_insn_text insn ops : nz (insn_text insn ops).
Proof.
  unfold insn_text. pose proof nz_operand_text.
  assert (forall l (f : nat -> bool), nz (concat (imap (fun i op => (if f i then $" " else $", ") ++ fit OPERAND_TEXT_MAX (operand_text op)) l))) as K.
  { intros l f. apply nz_concat, Forall_forall. intros x (i & op & -> & _)%elem_of_lookup_imap. auto 20 with text. }
  specialize (K (take (i_operand_count_visible insn) ops) (fun i => (i =? 0)%nat)). auto 20 with text.
Qed.

Lemma format_instruction_ok stk_text insn ops :
  length stk_text = 160%nat -> (i_operand_count_visible insn <= length ops)%nat ->
  exists text, insn_dump_format_instruction stk_inner stk_operand stk_text INSN_DUMP_TEXT_MAX insn ops = Some text /\
    length text = 160%nat /\ cstr text = fit INSN_DUMP_TEXT_MAX (insn_text insn ops).
Proof.
  intros Hl Hv.
  assert (text_ok INSN_DUMP_TEXT_MAX false [] (stk_text, 0)) as H0 by (apply text_start; [done|by rewrite Hl]).
  unfold insn_dump_format_instruction.
  edestruct put_if_ok as (s1 & -> & H1); [|exact H0|]; [done|]. simpl.
  edestruct put_if_ok as (s2 & -> & H2); [|exact H1|]; [done|]. simpl.
  edestruct put_if_ok as (s3 & -> & H3); [|exact H2|]; [done|]. simpl.
  edestruct put_if_ok as (s4 & -> & H4); [|exact H3|]; [done|]. simpl.
  edestruct put_ok as (s5 & -> & H5); [|exact H4|]; [done|]. simpl.
  edestruct (format_operands_ok INSN_DUMP_TEXT_MAX ops) as (s6 & -> & H6); [done|exact Hv|exact H5|].
  exists (s6.1). split; [done|]. split; [apply tk_len in H6; unfold INSN_DUMP_TEXT_MAX in H6; lia|].
  rewrite <- !app_assoc in H6. exact (text_cstr _ _ _ H6 (nz_insn_text insn ops)).
Qed.

(** C36. Formatting is safe and right: whatever the strings of the library, the operands and the stack
    contain, the disassembler stays inside its three arrays, and the line is the text of
    the instruction - prefixes, mnemonic, operands, addresses written as sums - cut where
    an array ends. *)
Theorem format_instruction_correct stk_text insn ops :
  length stk_text = 160%nat -> (i_operand_count_visible insn <= length ops)%nat ->
  exists text, insn_dump_format_instruction stk_inner stk_operand stk_text INSN_DUMP_TEXT_MAX insn ops = Some text /\
    length text = 160%nat /\ cstr text = fit INSN_DUMP_TEXT_MAX (insn_text insn ops).
Proof. apply format_instruction_ok. Qed.
End FormatOk.

(** ** The dumps *)

(** The instructions follow each other from [start] on, all below [stop]. *)
Fixpoint consecutive (start stop : Z) (l : list dumped) : Prop :=
  match l with
  | [] => True
  | d :: l => dp_gva d = start /\ start < stop /\ consecutive (start + dp_length d) stop l
  end.
Definition end_of (start : Z) (l : list dumped) : Z := fold_left (fun a d => a + dp_length d) l start.

Section DumpOk.
Context {Zt : ZydisText} {Ok : ZydisTextOk Zt}.
Context (kmap : Z -> bool) (h : host) (m : relm_vm_memory) (c : xcpu).
Context (stk_raw stk_inner stk_operand stk_text : list Z) (cr2 : Z).
Context (RI : ram_inv m) (Hk : forall p, kmap p = true).
Context (Hraw : length stk_raw = 15%nat) (Hinner : length stk_inner = 96%nat).
Context (Hoperand : length stk_operand = 96%nat) (Htext : length stk_text = 160%nat).
#[local] Notation dump := (relm_arch_dump_guest_insn kmap h m c stk_raw stk_inner stk_operand stk_text).
#[local] Notation loop := (dump_loop kmap h m c stk_raw stk_inner stk_operand stk_text).

(** The line is the text of the instruction the guest has there. *)
Definition true_line (d : dumped) : Prop :=
  exists raw insn ops, length raw = 15%nat /\
    (forall i, 0 <= i < 15 -> raw !! Z.to_nat i = vbyte h m (mmu_regs c) (dp_gva d + i)) /\
    zydis_decode_in (insn_dump_pick_mode c).1 (insn_dump_pick_mode c).2 raw = Some (insn, ops) /\
    dp_text d = fit INSN_DUMP_TEXT_MAX (insn_text insn ops) /\ dp_length d = i_length insn.

Lemma true_line_length d : true_line d -> 1 <= dp_length d <= 15.
Proof. intros (raw & insn & ops & _ & _ & E & _ & ->). by eapply zt_length. Qed.

Lemma dump_ok gva : 0 <= gva -> gva + 15 < 2 ^ 64 ->
  (exists e, e < 0 /\ dump gva = Done e None) \/
  (exists d, dump gva = Done 0 (Some d) /\ dp_gva d = gva /\ true_line d).
Proof.
  intros H0 H1. unfold relm_arch_dump_guest_insn, INSN_DUMP_MAX_BYTES.
  destruct (copy_virt_result kmap h m (mmu_regs c) gva 15 stk_raw _ RI Hk H0 ltac:(lia) ltac:(lia) Hraw ltac:(by left))
    as [(raw & [Lr Vr] & ->)|(i & e & b & _ & _ & He & ->)]; simpl.
  2: { left. exists e. split; [done|]. by rewrite (proj2 (Z.ltb_lt _ _)). }
  destruct (insn_dump_pick_mode c) as [mode width] eqn:Em. destruct (zydis_decoder_init mode width); simpl.
  2: { left. by exists (- EINVAL). }
  destruct (zydis_decode_in mode width raw) as [[insn ops]|] eqn:Ed.
  2: { left. by exists (- EINVAL). }
  destruct (format_instruction_ok stk_inner stk_operand Hinner Hoperand stk_text insn ops Htext (zt_visible _ _ _ _ _ Ed))
    as (text & -> & _ & Et).
  right. eexists. split; [reflexivity|]. split; [done|]. exists raw, insn, ops. rewrite Em. simpl. done.
Qed.

Lemma range_loop_ok n : forall cursor stop printed, 0 <= cursor -> stop + 15 <= 2 ^ 64 ->
  exists ret l, loop n cursor stop printed = Done ret (printed ++ l) /\ ret <= 0 /\ (length l <= n)%nat /\
    Forall true_line l /\ consecutive cursor stop l /\ (ret = 0 -> length l = n \/ stop <= end_of cursor l).
Proof.
  induction n as [|n IH]; intros cursor stop printed H0 Hs; cbn [dump_loop];
    destruct (Z.ltb_spec cursor stop) as [Hlt|Hge]; cbn [negb].
  1,2,4: exists 0, []; rewrite app_nil_r; split_and!; [done|done|simpl; lia|constructor|done|intros _; simpl; lia].
  destruct (dump_ok cursor H0 ltac:(lia)) as [(e & He & ->)|(d & -> & Hg & Hd)]; simpl.
  { rewrite (proj2 (Z.ltb_lt _ _)) by done. exists e, []. rewrite app_nil_r.
    split_and!; [done|lia|simpl; lia|constructor|done|lia]. }
  pose proof (true_line_length d Hd). rewrite (u64_small (cursor + dp_length d)) by lia.
  destruct (IH (cursor + dp_length d) stop (printed ++ [d]) ltac:(lia) Hs) as (ret & l & -> & Hr & Hn & Hf & Hc & He).
  exists ret, (d :: l). rewrite <- app_assoc. split_and!; [done|done|simpl; lia|by constructor|done|].
  intros E. destruct (He E) as [<-|]; [by left|by right].
Qed.

Lemma range_ok start stop : 0 <= start -> stop + 15 <= 2 ^ 64 -> exists ret l,
  relm_dump_guest_insn_range kmap h m c stk_raw stk_inner stk_operand stk_text start stop = Done ret l.
Proof.
  intros H0 Hs. unfold relm_dump_guest_insn_range. destruct (_ <=? _); [by eexists _, _|].
  destruct (range_loop_ok RELM_INSN_DUMP_RANGE_MAX start stop [] H0 Hs) as (ret & l & -> & _). by eexists _, _.
Qed.

(** The dump of a range ends after at most 256 instructions, whatever the guest bytes are; the lines are the
    instructions the guest has there, one after the other from the start and none from
    beyond the end, and a result of 0 means that the range was covered or the limit
    reached. *)
Theorem dump_range_correct start stop : 0 <= start < stop -> stop + 15 <= 2 ^ 64 ->
  exists ret l, relm_dump_guest_insn_range kmap h m c stk_raw stk_inner stk_operand stk_text start stop = Done ret l /\
    ret <= 0 /\ (length l <= RELM_INSN_DUMP_RANGE_MAX)%nat /\ Forall true_line l /\ consecutive start stop l /\
    (ret = 0 -> length l = RELM_INSN_DUMP_RANGE_MAX \/ stop <= end_of start l).
Proof.
  intros H Hs. unfold relm_dump_guest_insn_range. rewrite (proj2 (Z.leb_gt _ _)) by lia.
  exact (range_loop_ok RELM_INSN_DUMP_RANGE_MAX start stop [] (proj1 H) Hs).
Qed.

(** What the report should say about [cr2]. *)
Definition verdict_ok (v : pf_verdict) : Prop :=
  match x86_translate h m (mmu_regs c) cr2 with
  | None => v = if Z.testbit (efer (mmu_regs c)) 10 && Z.testbit (cr4 (mmu_regs c)) 12 then PfUnsupported (- EINVAL)
                else PfNoMapping (Z.testbit (__vmread c VM_EXIT_INTR_ERROR_CODE) 0)
  | Some gpa => (covered_gpa m gpa /\ exists start size, v = PfInside start size /\ start <= gpa < start + size) \/
                (~ covered_gpa m gpa /\ v = PfOutside)
  end.

Lemma in_ram_ok gpa :
  match relm_page_fault_addr_in_guest_ram m gpa with
  | Some (start, size) => covered_gpa m gpa /\ start <= gpa < start + size
  | None => ~ covered_gpa m gpa
  end.
Proof.
  unfold relm_page_fault_addr_in_guest_ram. pose proof (find_region_spec m RI None gpa) as F. unfold find_region in F.
  destruct (List.find _ _) as [r|]; [|by apply F]. destruct F as [Hr Hg]; [done|]. split; [|done].
  destruct (region_page m RI r gpa Hr Hg) as (ps & p & _ & _ & Hp). by exists p.
Qed.

Lemma window_ok rip : 0 <= rip -> rip + 15 <= 2 ^ 64 ->
  exists ret l, relm_page_fault_dump_insn_window kmap h m c stk_raw stk_inner stk_operand stk_text rip = Done ret l.
Proof.
  intros H0 H1. unfold relm_page_fault_dump_insn_window, RELM_PAGE_FAULT_INSN_DUMP_WINDOW.
  destruct (Z.ltb_spec rip 0x20); [by eexists _, _|]. apply range_ok; lia.
Qed.

End DumpOk.

(** A pass-through window of a device is in the list of regions, and the report calls an address in it
    backed guest RAM. *)
Lemma mmio_window_called_ram m gpa size n flags g : 0 <= gpa -> gpa + size < 2 ^ 64 -> gpa <= g < gpa + size ->
  relm_page_fault_addr_in_guest_ram
    (set_regions m (GuestRegion gpa size None n flags :: mem_regions m) (total_guest_ram m)) g = Some (gpa, size).
Proof.
  intros H0 H1 H2. unfold relm_page_fault_addr_in_guest_ram, in_gr. simpl. rewrite u64_small by lia.
  rewrite (proj2 (Z.leb_le _ _)), (proj2 (Z.ltb_lt _ _)) by lia. done.
Qed.

(** ** Concrete instances

    A library that knows two instructions. *)
Module DebugDemo.
Import GuestMemDemo MmuDemo.

Definition reg_name (r : Z) : list Z :=
  if r =? 1 then $"rax" else if r =? 2 then $"rbx" else if r =? 3 then $"rip" else if r =? 5 then $"gs" else [].
Definition add_insn : instruction := Instruction 1 1 2 2.
Definition add_ops : list operand := [OpMemory 32 (MemOperand 5 1 2 4 true (-16)); OpRegister 1].
#[export] Instance zt : ZydisText := {
  zydis_register_string := reg_name;
  zydis_mnemonic_string x := if x =? 1 then $"add" else $"stosb";
  ZYDIS_REGISTER_NONE := 0; ZYDIS_REGISTER_RIP := 3; ZYDIS_REGISTER_FS := 4; ZYDIS_REGISTER_GS := 5;
  ZYDIS_ATTRIB_HAS_LOCK := 1; ZYDIS_ATTRIB_HAS_REP := 2; ZYDIS_ATTRIB_HAS_REPE := 4; ZYDIS_ATTRIB_HAS_REPNE := 8;
  zydis_decoder_init _ _ := true;
  zydis_decode_in _ _ raw :=
    match raw with
    | b :: _ => if b =? 0 then Some (add_insn, add_ops) else if b =? 0xAA then Some (Instruction 2 2 0 1, []) else None
    | [] => None
    end }.
#[export] Instance zt_ok : ZydisTextOk zt.
Proof.
  split; intros ? ? [|b raw] i ops; simpl; try done;
    destruct (b =? 0); [|destruct (b =? 0xAA)| |destruct (b =? 0xAA)]; try done; intros [= <- <-]; simpl; lia.
Qed.

Definition junk (n : nat) : list Z := replicate n 7.
Lemma format_instruction_correct_witness : exists text,
  insn_dump_format_instruction (junk 96) (junk 96) (junk 160) INSN_DUMP_TEXT_MAX add_insn add_ops = Some text /\
  cstr text = $"lock add dword ptr gs:[rax+rbx*4-0x10], rax".
Proof.
  destruct (format_instruction_correct (junk 96) (junk 96) eq_refl eq_refl (junk 160) add_insn add_ops eq_refl)
    as (text & E & _ & T); [simpl; lia|]. exists text. split; [exact E|]. rewrite T. vm_compute. reflexivity.
Defined.

Definition cpu (err : Z) : xcpu :=
  XCpu [] 0 (<[GUEST_CR0 := X86_CR0_PG]> (<[GUEST_CR4 := X86_CR4_PAE]> (<[GUEST_IA32_EFER := EFER_LMA]>
    (<[GUEST_CS_AR_BYTES := CS_AR_BYTES_L]> {[VM_EXIT_INTR_ERROR_CODE := err]})))) VCPU_STATE_RUNNING true 0 0 0 0 0.

Lemma dump_range_correct_witness : exists l,
  relm_dump_guest_insn_range (fun _ => true) hv m1 (cpu 0) (junk 15) (junk 96) (junk 96) (junk 160) 0x1FFA 0x1FFF = Done 0 l /\
  map dp_gva l = [0x1FFA; 0x1FFC; 0x1FFE] /\ consecutive 0x1FFA 0x1FFF l.
Proof.
  destruct (dump_range_correct (fun _ => true) hv m1 (cpu 0) (junk 15) (junk 96) (junk 96) (junk 160) demo_inv
    (fun _ => eq_refl) eq_refl eq_refl eq_refl eq_refl 0x1FFA 0x1FFF) as (ret & l & E & _ & _ & _ & C & _); [lia|lia|].
  exists l. split; [|split; [|exact C]]; vm_compute in E; injection E as <- <-; vm_compute; reflexivity.
Defined.

End DebugDemo.
