(* ===== verification/VmxHost.v ===== *)
(** * VMX on the host's CPUs

    src/arch/x86/vmx/vmx.c: entering and leaving VMX operation on every online CPU, the
    structures this takes, and the entry points of src/arch/x86/vmx/arch.c.

    A CPU is what its instructions depend on.  VMXON, VMXOFF, VMREAD and writes of CR4
    behave as the architecture documents; where it says that an instruction faults
    the value is [None], which is a fault in the host kernel, and the functions pass it
    on.  [kzalloc] says which CPU's [struct host_cpu] the kernel has memory for, the
    VMXON regions come from the page allocator.  The IPI handlers of [on_each_cpu] touch
    their own CPU only, so they are run one CPU after the other. *)
From S2P Require Import Prelude HostMem VmExit.

Definition IA32_FEATURE_CONTROL_LOCKED : Z := Z.shiftl 1 0.
Definition IA32_FEATURE_CONTROL_MSR_VMXON_ENABLE_OUTSIDE_SMX : Z := Z.shiftl 1 2.
Definition FC_REQUIRED : Z := Z.lor IA32_FEATURE_CONTROL_LOCKED IA32_FEATURE_CONTROL_MSR_VMXON_ENABLE_OUTSIDE_SMX.

(** ** A CPU *)

Record pcpu := PCpu {
  p_ecx : Z;           (** CPUID(1).ECX *)
  p_cr4 : Z;
  p_fc : Z;            (** IA32_FEATURE_CONTROL *)
  p_fc_sticks : bool;  (** a write of the unlocked register takes effect *)
  p_takes : bool;      (** VMXON accepts a region with the right revision *)
  p_vmx : bool         (** in VMX operation *)
}.
Definition p_set_cr4 (c : pcpu) (v : Z) : pcpu := PCpu (p_ecx c) v (p_fc c) (p_fc_sticks c) (p_takes c) (p_vmx c).
Definition p_set_fc (c : pcpu) (v : Z) : pcpu := PCpu (p_ecx c) (p_cr4 c) v (p_fc_sticks c) (p_takes c) (p_vmx c).
Definition p_set_vmx (c : pcpu) (b : bool) : pcpu := PCpu (p_ecx c) (p_cr4 c) (p_fc c) (p_fc_sticks c) (p_takes c) b.

Definition relm_vmx_support (c : pcpu) : bool := flag (p_ecx c) (Z.shiftl 1 5).

(** CR4.VMXE cannot be set on a CPU without VMX nor cleared in VMX operation. *)
Definition mov_cr4 (c : pcpu) (v : Z) : option pcpu :=
  if flag v X86_CR4_VMXE then if relm_vmx_support c then Some (p_set_cr4 c v) else None
  else if p_vmx c then None else Some (p_set_cr4 c v).
(** The value is whether the carry and zero flags stay clear. *)
Definition vmxon (c : pcpu) : option (bool * pcpu) :=
  if negb (flag (p_cr4 c) X86_CR4_VMXE) then None
  else if p_vmx c then Some (false, c)
  else if negb (Z.land (p_fc c) FC_REQUIRED =? FC_REQUIRED) then None
  else if p_takes c then Some (true, p_set_vmx c true) else Some (false, c).
Definition vmxoff (c : pcpu) : option pcpu := if p_vmx c then Some (p_set_vmx c false) else None.
(** [__vmread] outside VMX operation faults. *)
Definition vmread_error (c : pcpu) : option unit := if p_vmx c then Some tt else None.
Definition wrmsr_fc (c : pcpu) (v : Z) : pcpu := if p_fc_sticks c then p_set_fc c v else c.

(** ** One CPU *)

(** The re-read of CR4 only logs. *)
Definition relm_enable_vmx_operation (c : pcpu) : option pcpu :=
  if negb (flag (p_cr4 c) X86_CR4_VMXE) then mov_cr4 c (Z.lor (p_cr4 c) X86_CR4_VMXE) else Some c.

Definition relm_setup_feature_control (c : pcpu) : bool * pcpu :=
  let fc := p_fc c in
  if flag fc IA32_FEATURE_CONTROL_LOCKED then
    if negb (flag fc IA32_FEATURE_CONTROL_MSR_VMXON_ENABLE_OUTSIDE_SMX) then (false, c) else (true, c)
  else
    let c := wrmsr_fc c (Z.lor fc FC_REQUIRED) in
    if negb (Z.land (p_fc c) FC_REQUIRED =? FC_REQUIRED) then (false, c) else (true, c).

(** [vmxon_pa] is that of the CPU's host_cpu. *)
Definition relm_vmxon (vmxon_pa : Z) (c : pcpu) : option (Z * pcpu) :=
  if vmxon_pa =? 0 then Some (- EINVAL, c)
  else match vmxon c with
  | None => None
  | Some (true, c) => Some (0, c)
  | Some (false, c) => match vmread_error c with Some _ => Some (- EIO, c) | None => None end
  end.

Definition relm_vmxoff (c : pcpu) : option (Z * pcpu) :=
  match vmxoff c with Some c => Some (0, c) | None => None end.

(** An online CPU and the VMXON page of the host_cpu that [relm_per_cpu_hcpu] points
    to, [None] for NULL. *)
Record slot := Slot { s_cpu : pcpu; s_hcpu : option Z }.

(** The boolean is whether [work->failed_cpus] is incremented. *)
Definition relm_vmx_enable_cpu (s : slot) : option (bool * slot) :=
  match s_hcpu s with
  | None => Some (true, s)
  | Some pa =>
      match relm_enable_vmx_operation (s_cpu s) with
      | None => None
      | Some c =>
          let '(ok, c) := relm_setup_feature_control c in
          if negb ok then Some (true, Slot c (Some pa))
          else match relm_vmxon pa c with
          | None => None
          | Some (ret, c) => Some (negb (ret =? 0), Slot c (Some pa))
          end
      end
  end.

Definition relm_vmx_disable_cpu (s : slot) : option slot :=
  match s_hcpu s with
  | None => Some s
  | Some pa =>
      match relm_vmxoff (s_cpu s) with
      | None => None
      | Some (_, c) =>
          match mov_cr4 c (Z.land (p_cr4 c) (u64 (Z.lnot X86_CR4_VMXE))) with
          | None => None
          | Some c => Some (Slot c (Some pa))
          end
      end
  end.

(** ** All CPUs *)

(** [w_hcpus] is the number of host_cpu structures in use. *)
Record vmx_world := VmxWorld { w_slots : list slot; w_hcpus : nat; w_mem : host }.

Section All.
Context {PA : PageAlloc} (kzalloc : nat -> bool) (revision : Z).

(** The value is the code, the page and the memory. *)
Definition relm_setup_vmxon_region (h : host) : option Z * host :=
  match get_zeroed_page h with
  | (None, h) => (None, h)
  | (Some p, h) => (Some p, wr64 h p 0 (u32 revision))
  end.
Definition relm_free_vmxon_region (h : host) (pa : Z) : host := if negb (pa =? 0) then free_page h pa else h.

(** The loop over the online CPUs; [i] is the number of the first of [l]. *)
Fixpoint setup_hcpus (i : nat) (l : list slot) (n : nat) (h : host) : bool * list slot * nat * host :=
  match l with
  | [] => (true, [], n, h)
  | s :: l =>
      if negb (kzalloc i) then (false, s :: l, n, h)
      else match relm_setup_vmxon_region h with
      | (None, h) => (false, s :: l, n, h)
      | (Some p, h) =>
          let '(ok, l, n, h) := setup_hcpus (S i) l (S n) h in
          (ok, Slot (s_cpu s) (Some p) :: l, n, h)
      end
  end.

Fixpoint enable_each (l : list slot) : option (nat * list slot) :=
  match l with
  | [] => Some (0%nat, [])
  | s :: l => match relm_vmx_enable_cpu s with
              | None => None
              | Some (failed, s) => match enable_each l with
                                    | None => None
                                    | Some (n, l) => Some ((if failed then S n else n), s :: l)
                                    end
              end
  end.

Fixpoint disable_each (l : list slot) : option (list slot) :=
  match l with
  | [] => Some []
  | s :: l => match relm_vmx_disable_cpu s with
              | None => None
              | Some s => match disable_each l with None => None | Some l => Some (s :: l) end
              end
  end.

Fixpoint free_hcpus (l : list slot) (n : nat) (h : host) : list slot * nat * host :=
  match l with
  | [] => ([], n, h)
  | s :: l =>
      let '(n, h) := match s_hcpu s with None => (n, h) | Some pa => (pred n, relm_free_vmxon_region h pa) end in
      let '(l, n, h) := free_hcpus l n h in
      (Slot (s_cpu s) None :: l, n, h)
  end.

Definition relm_vmx_disable_on_all_cpus (w : vmx_world) : option vmx_world :=
  match disable_each (w_slots w) with
  | None => None
  | Some l => let '(l, n, h) := free_hcpus l (w_hcpus w) (w_mem w) in Some (VmxWorld l n h)
  end.

Definition cleanup (ret : Z) (w : vmx_world) : option (Z * vmx_world) :=
  match relm_vmx_disable_on_all_cpus w with None => None | Some w => Some (ret, w) end.

Definition relm_vmx_enable_on_all_cpus (w : vmx_world) : option (Z * vmx_world) :=
  let '(ok, l, n, h) := setup_hcpus 0 (w_slots w) (w_hcpus w) (w_mem w) in
  if negb ok then cleanup (- ENOMEM) (VmxWorld l n h)
  else match enable_each l with
  | None => None
  | Some (failed, l) =>
      if (0 <? failed)%nat then cleanup (- EIO) (VmxWorld l n h) else Some (0, VmxWorld l n h)
  end.

(** The support check runs on the CPU that loads the module, [boot]. *)
Definition relm_arch_init (boot : pcpu) (w : vmx_world) : option (Z * vmx_world) :=
  if negb (relm_vmx_support boot) then Some (- ENODEV, w) else relm_vmx_enable_on_all_cpus w.
Definition relm_arch_exit (w : vmx_world) : option vmx_world := relm_vmx_disable_on_all_cpus w.

End All.

(** ** Turning VMX on and off *)

(** A CPU that VMX can be turned on for. *)
Definition ready (c : pcpu) : bool :=
  relm_vmx_support c && negb (p_vmx c) && p_takes c &&
  (if flag (p_fc c) IA32_FEATURE_CONTROL_LOCKED
   then flag (p_fc c) IA32_FEATURE_CONTROL_MSR_VMXON_ENABLE_OUTSIDE_SMX else p_fc_sticks c).

Definition vmx_on (c : pcpu) : pcpu :=
  PCpu (p_ecx c) (Z.lor (p_cr4 c) X86_CR4_VMXE)
    (if flag (p_fc c) IA32_FEATURE_CONTROL_LOCKED then p_fc c else Z.lor (p_fc c) FC_REQUIRED)
    (p_fc_sticks c) (p_takes c) true.
Definition vmx_off (c : pcpu) : pcpu :=
  PCpu (p_ecx c) (Z.land (p_cr4 c) (u64 (Z.lnot X86_CR4_VMXE))) (p_fc c) (p_fc_sticks c) (p_takes c) false.

Lemma vmxe_flag v : flag v X86_CR4_VMXE = Z.testbit v 13.
Proof. exact (flag_pow2 v 13 ltac:(lia)). Qed.
Lemma vmxe_set v : flag (Z.lor v X86_CR4_VMXE) X86_CR4_VMXE = true.
Proof. rewrite vmxe_flag, Z.lor_spec. apply orb_true_r. Qed.
Lemma vmxe_clear v : flag (Z.land v (u64 (Z.lnot X86_CR4_VMXE))) X86_CR4_VMXE = false.
Proof. rewrite vmxe_flag, Z.land_spec. apply andb_false_r. Qed.

Lemma fc_required v : (Z.land v FC_REQUIRED =? FC_REQUIRED) =
  flag v IA32_FEATURE_CONTROL_LOCKED && flag v IA32_FEATURE_CONTROL_MSR_VMXON_ENABLE_OUTSIDE_SMX.
Proof.
  rewrite (flag_pow2 v 0 ltac:(lia) : flag v IA32_FEATURE_CONTROL_LOCKED = _).
  rewrite (flag_pow2 v 2 ltac:(lia) : flag v IA32_FEATURE_CONTROL_MSR_VMXON_ENABLE_OUTSIDE_SMX = _).
  exact (land_two_bits v 0 2 ltac:(lia) ltac:(lia)).
Qed.
Lemma fc_required_set v : (Z.land (Z.lor v FC_REQUIRED) FC_REQUIRED =? FC_REQUIRED) = true.
Proof.
  apply Z.eqb_eq, Z.bits_inj'. intros n Hn. rewrite Z.land_spec, Z.lor_spec.
  destruct (Z.testbit v n), (Z.testbit FC_REQUIRED n); reflexivity.
Qed.

Lemma enable_operation_ok c : relm_vmx_support c = true ->
  relm_enable_vmx_operation c = Some (p_set_cr4 c (Z.lor (p_cr4 c) X86_CR4_VMXE)).
Proof.
  intros Hs. unfold relm_enable_vmx_operation, mov_cr4. destruct (flag (p_cr4 c) X86_CR4_VMXE) eqn:E; cbn [negb].
  - rewrite vmxe_flag in E. f_equal. destruct c as [e v f k t x]. unfold p_set_cr4. cbn in *.
    f_equal. symmetry. exact (lor_flag v 13 ltac:(lia) E).
  - rewrite vmxe_set, Hs. exact eq_refl.
Qed.

Lemma enable_cpu_ready c pa : ready c = true -> pa <> 0 ->
  relm_vmx_enable_cpu (Slot c (Some pa)) = Some (false, Slot (vmx_on c) (Some pa)).
Proof.
  unfold ready. intros [[[Hs Hx]%andb_prop Ht]%andb_prop Hf]%andb_prop Hpa. apply negb_true_iff in Hx.
  unfold relm_vmx_enable_cpu. cbn [s_hcpu s_cpu]. rewrite (enable_operation_ok c Hs).
  unfold relm_setup_feature_control, wrmsr_fc, relm_vmxon, vmxon, vmx_on, p_set_cr4, p_set_fc, p_set_vmx.
  cbn [p_fc p_cr4 p_ecx p_fc_sticks p_takes p_vmx]. apply Z.eqb_neq in Hpa. rewrite Hpa.
  destruct (flag (p_fc c) IA32_FEATURE_CONTROL_LOCKED) eqn:El.
  - rewrite Hf. cbn [negb p_fc p_cr4 p_ecx p_fc_sticks p_takes p_vmx]. rewrite vmxe_set, Hx, Ht, fc_required, El, Hf.
    exact eq_refl.
  - rewrite Hf. cbn [negb p_fc p_cr4 p_ecx p_fc_sticks p_takes p_vmx]. rewrite fc_required_set.
    cbn [negb p_fc p_cr4 p_ecx p_fc_sticks p_takes p_vmx]. rewrite vmxe_set, Hx, Ht, fc_required_set. exact eq_refl.
Qed.

Lemma disable_cpu_ok c pa : p_vmx c = true ->
  relm_vmx_disable_cpu (Slot c (Some pa)) = Some (Slot (vmx_off c) (Some pa)).
Proof.
  intros Hx. unfold relm_vmx_disable_cpu, relm_vmxoff, vmxoff, mov_cr4. cbn [s_hcpu s_cpu]. rewrite Hx.
  unfold p_set_vmx. cbn [p_cr4 p_vmx]. rewrite vmxe_clear. exact eq_refl.
Qed.

Lemma enable_each_ready l ps : Forall (fun s => ready (s_cpu s) = true) l -> length ps = length l ->
  (forall p, p ∈ ps -> p <> 0) ->
  enable_each (zip_with (fun s p => Slot (s_cpu s) (Some p)) l ps) =
    Some (0%nat, zip_with (fun s p => Slot (vmx_on (s_cpu s)) (Some p)) l ps).
Proof.
  revert ps. induction l as [|s l IH]; intros [|p ps] Hr Hlen Hp; try discriminate Hlen; [exact eq_refl|].
  cbn [zip_with enable_each]. apply Forall_cons in Hr as [Hs Hr].
  rewrite (enable_cpu_ready _ _ Hs) by (apply Hp; left). rewrite IH; [exact eq_refl|exact Hr|by injection Hlen|].
  intros q Hq. apply Hp. by right.
Qed.

Lemma disable_each_on {f : slot -> pcpu} l ps : (forall s, s ∈ l -> p_vmx (f s) = true) -> length ps = length l ->
  disable_each (zip_with (fun s p => Slot (f s) (Some p)) l ps) =
    Some (zip_with (fun s p => Slot (vmx_off (f s)) (Some p)) l ps).
Proof.
  revert ps. induction l as [|s l IH]; intros [|p ps] Hon Hlen; try discriminate Hlen; [exact eq_refl|].
  cbn [zip_with disable_each]. rewrite disable_cpu_ok by (apply Hon; left). rewrite IH; [exact eq_refl| |by injection Hlen].
  intros q Hq. apply Hon. by right.
Qed.

Lemma free_hcpus_on {f : slot -> pcpu} l : forall ps n h, length ps = length l -> (forall p, p ∈ ps -> p <> 0) ->
  exists h', free_hcpus (zip_with (fun s p => Slot (f s) (Some p)) l ps) n h =
    (map (fun s => Slot (f s) None) l, (n - length l)%nat, h') /\ h_live h' = h_live h ∖ list_to_set ps.
Proof.
  induction l as [|s l IH]; intros [|p ps] n h Hlen Hp; try discriminate Hlen.
  - exists h. cbn. split; [by rewrite Nat.sub_0_r|set_solver].
  - cbn [zip_with free_hcpus s_hcpu s_cpu map length]. unfold relm_free_vmxon_region.
    rewrite (proj2 (Z.eqb_neq p 0)) by (apply Hp; left). cbn [negb].
    destruct (IH ps (pred n) (free_page h p)) as (h' & E & L); [by injection Hlen|intros q Hq; apply Hp; by right|].
    rewrite E. exists h'. split; [|rewrite L; cbn; set_solver].
    replace (pred n - length l)%nat with (n - S (length l))%nat by lia. exact eq_refl.
Qed.
Section AllOk.
Context {PA : PageAlloc} {PAO : PageAllocOk PA} (kzalloc : nat -> bool) (revision : Z).

(** What the loop over the CPUs has taken when it succeeds. *)
Lemma setup_hcpus_ok l : forall i n h l' n' h', setup_hcpus kzalloc revision i l n h = (true, l', n', h') ->
  exists ps, l' = zip_with (fun s p => Slot (s_cpu s) (Some p)) l ps /\ length ps = length l /\
    n' = (n + length l)%nat /\ NoDup ps /\ (forall p, p ∈ ps -> p ∉ h_live h /\ p <> 0 /\ rd64 h' p 0 = u32 revision) /\
    h_live h' = list_to_set ps ∪ h_live h /\ (forall p, p ∈ h_live h -> rd64 h' p 0 = rd64 h p 0).
Proof.
  induction l as [|s l IH]; intros i n h l' n' h'; cbn [setup_hcpus].
  - intros [= <- <- <-]. exists []. split; [exact eq_refl|]. split; [exact eq_refl|]. split; [cbn; lia|].
    split; [constructor|]. split; [intros p Hp; by apply elem_of_nil in Hp|]. split; [cbn; set_solver|].
    intros p _. exact eq_refl.
  - destruct (negb (kzalloc i)); [discriminate|]. unfold relm_setup_vmxon_region.
    destruct (get_zeroed_page h) as [[p|] h1] eqn:Ep; [|discriminate].
    destruct (setup_hcpus _ _ _ _ _ _) as [[[ok l1] n1] h2] eqn:E. intros [= -> <- <- <-].
    destruct (IH _ _ _ _ _ _ E) as (ps & -> & Hlen & -> & Hnd & Hps & Hlive & Hkeep).
    destruct (get_zeroed_page_Some _ _ _ Ep) as [Hc Hl]. rewrite h_live_wr64, Hl in *.
    assert (rd64 h2 p 0 = u32 revision) as Hrev by (rewrite Hkeep by set_solver; apply rd64_wr64_eq).
    exists (p :: ps). cbn [zip_with length]. split; [exact eq_refl|]. split; [lia|]. split; [lia|].
    split; [apply NoDup_cons; split; [intros Hin; apply Hps in Hin; set_solver|exact Hnd]|].
    split.
    { intros q [-> |Hq]%elem_of_cons.
      - split; [exact (page_fresh _ _ _ Hc)|]. split; [|exact Hrev]. apply page_range in Hc. lia.
      - destruct (Hps q Hq) as (H1 & H2 & H3). split; [set_solver|]. split; assumption. }
    split; [rewrite Hlive; cbn; set_solver|].
    intros q Hq. assert (q <> p) as Hne by (intros ->; exact (page_fresh _ _ _ Hc Hq)).
    rewrite Hkeep by set_solver. rewrite rd64_wr64_ne by (left; exact Hne).
    rewrite (rd64_new_page _ _ _ _ _ Ep), decide_False by exact Hne. exact eq_refl.
Qed.

End AllOk.

Section Claims.
Context {PA : PageAlloc} {PAO : PageAllocOk PA} (kzalloc : nat -> bool) (revision : Z).

(** C22. When every online CPU can run VMX and the memory is there, enabling returns 0 with
    every CPU in VMX operation on a page of its own that is fresh and carries the
    revision; disabling then takes every CPU out again, with CR4.VMXE clear, and
    gives back every page and every structure. *)
Theorem vmx_on_off (w : vmx_world)
    (Hready : Forall (fun s => ready (s_cpu s) = true) (w_slots w))
    (Hmem : (setup_hcpus kzalloc revision 0 (w_slots w) (w_hcpus w) (w_mem w)).1.1.1 = true) :
  exists ps w1 w2,
    relm_vmx_enable_on_all_cpus kzalloc revision w = Some (0, w1) /\
    w_slots w1 = zip_with (fun s p => Slot (vmx_on (s_cpu s)) (Some p)) (w_slots w) ps /\
    length ps = length (w_slots w) /\ NoDup ps /\
    (forall p, p ∈ ps -> p ∉ h_live (w_mem w) /\ rd64 (w_mem w1) p 0 = u32 revision) /\
    relm_vmx_disable_on_all_cpus w1 = Some w2 /\
    w_slots w2 = map (fun s => Slot (vmx_off (vmx_on (s_cpu s))) None) (w_slots w) /\
    w_hcpus w2 = w_hcpus w /\ h_live (w_mem w2) = h_live (w_mem w).
Proof.
  unfold relm_vmx_enable_on_all_cpus, relm_vmx_disable_on_all_cpus.
  destruct (setup_hcpus kzalloc revision 0 (w_slots w) (w_hcpus w) (w_mem w)) as [[[ok l] n] h] eqn:E.
  cbn [fst] in Hmem. subst ok. destruct (setup_hcpus_ok _ _ _ _ _ _ _ _ _ E) as (ps & -> & Hlen & -> & Hnd & Hps & Hl & _).
  cbn [negb]. rewrite enable_each_ready; [|exact Hready|exact Hlen|intros p Hp; apply Hps; exact Hp]. cbn [Nat.ltb Nat.leb].
  destruct (free_hcpus_on (f := fun s => vmx_off (vmx_on (s_cpu s))) (w_slots w) ps (w_hcpus w + length (w_slots w)) h Hlen)
    as (h' & Ef & Lf); [intros p Hp; apply Hps; exact Hp|].
  exists ps, (VmxWorld (zip_with (fun s p => Slot (vmx_on (s_cpu s)) (Some p)) (w_slots w) ps) (w_hcpus w + length (w_slots w)) h).
  exists (VmxWorld (map (fun s => Slot (vmx_off (vmx_on (s_cpu s))) None) (w_slots w)) (w_hcpus w) h').
  cbn [w_slots w_hcpus w_mem]. split; [exact eq_refl|]. split; [exact eq_refl|]. split; [exact Hlen|]. split; [exact Hnd|].
  split; [intros p Hp; destruct (Hps p Hp) as (H1 & _ & H3); split; assumption|].
  split; [|split; [exact eq_refl|split; [exact eq_refl|]]].
  - rewrite (disable_each_on (f := fun s => vmx_on (s_cpu s))); [|intros s _; exact eq_refl|exact Hlen].
    rewrite Ef, Nat.add_sub. exact eq_refl.
  - rewrite Lf, Hl. apply set_eq. intros q. rewrite elem_of_difference, elem_of_union, elem_of_list_to_set.
    split; [tauto|]. intros Hq. split; [by right|]. intros Hin. apply Hps in Hin. tauto.
Qed.

(** ** What happens when it fails *)

Lemma disable_each_faults l s : s ∈ l -> p_vmx (s_cpu s) = false -> is_Some (s_hcpu s) -> disable_each l = None.
Proof.
  intros Hin Hx [pa Hpa]. induction l as [|t l IH]; [by apply elem_of_nil in Hin|]. cbn [disable_each].
  apply elem_of_cons in Hin as [<- |Hin].
  - unfold relm_vmx_disable_cpu, relm_vmxoff, vmxoff. rewrite Hpa, Hx. exact eq_refl.
  - destruct (relm_vmx_disable_cpu t); [|exact eq_refl]. rewrite (IH Hin). exact eq_refl.
Qed.

(** Memory runs out after the first CPU was served: the cleanup executes VMXOFF on a CPU
    that never entered VMX operation, which faults. *)
Theorem short_memory_faults (w : vmx_world) (s : slot) (l : list slot) (p : Z) (n : nat) (h : host)
    (Hoff : p_vmx (s_cpu s) = false)
    (Hmem : setup_hcpus kzalloc revision 0 (w_slots w) (w_hcpus w) (w_mem w) = (false, Slot (s_cpu s) (Some p) :: l, n, h)) :
  relm_vmx_enable_on_all_cpus kzalloc revision w = None.
Proof.
  unfold relm_vmx_enable_on_all_cpus, cleanup, relm_vmx_disable_on_all_cpus. rewrite Hmem. cbn [negb w_slots].
  rewrite (disable_each_faults _ (Slot (s_cpu s) (Some p))); [exact eq_refl|left|exact Hoff|by exists p].
Qed.

Lemma refused_cpu c pa : relm_vmx_support c = true -> p_vmx c = false ->
  flag (p_fc c) IA32_FEATURE_CONTROL_LOCKED = true ->
  flag (p_fc c) IA32_FEATURE_CONTROL_MSR_VMXON_ENABLE_OUTSIDE_SMX = false ->
  exists c', relm_vmx_enable_cpu (Slot c (Some pa)) = Some (true, Slot c' (Some pa)) /\ p_vmx c' = false.
Proof.
  intros Hs Hx Hl He. exists (p_set_cr4 c (Z.lor (p_cr4 c) X86_CR4_VMXE)). split; [|exact Hx].
  unfold relm_vmx_enable_cpu. cbn [s_hcpu s_cpu]. rewrite (enable_operation_ok c Hs).
  unfold relm_setup_feature_control, p_set_cr4. cbn [p_fc]. rewrite Hl, He. exact eq_refl.
Qed.

Lemma enable_each_counts l s : forall n l', s ∈ l -> enable_each l = Some (n, l') ->
  exists failed s', relm_vmx_enable_cpu s = Some (failed, s') /\ s' ∈ l' /\ (failed = true -> (0 < n)%nat).
Proof.
  induction l as [|t l IH]; intros n l' Hin; [by apply elem_of_nil in Hin|]. cbn [enable_each].
  destruct (relm_vmx_enable_cpu t) as [[f t']|] eqn:Et; [|discriminate].
  destruct (enable_each l) as [[m k]|] eqn:El; [|discriminate]. intros [= <- <-].
  apply elem_of_cons in Hin as [-> |Hin].
  - exists f, t'. split; [exact Et|]. split; [left|]. intros ->. lia.
  - destruct (IH m k Hin eq_refl) as (f' & s' & E & Hs' & Hn). exists f', s'. split; [exact E|]. split; [by right|].
    intros Hf. specialize (Hn Hf). destruct f; lia.
Qed.

(** A firmware that locked VMX off on one CPU is refused with a fault and not with
    EIO: the cleanup executes VMXOFF on that CPU. *)
Theorem locked_off_faults (w : vmx_world) (s : slot) (p : Z) (l : list slot) (n : nat) (h : host)
    (Hmem : setup_hcpus kzalloc revision 0 (w_slots w) (w_hcpus w) (w_mem w) = (true, l, n, h))
    (Hin : Slot (s_cpu s) (Some p) ∈ l) (Hsup : relm_vmx_support (s_cpu s) = true) (Hoff : p_vmx (s_cpu s) = false)
    (Hlock : flag (p_fc (s_cpu s)) IA32_FEATURE_CONTROL_LOCKED = true)
    (Hdis : flag (p_fc (s_cpu s)) IA32_FEATURE_CONTROL_MSR_VMXON_ENABLE_OUTSIDE_SMX = false) :
  relm_vmx_enable_on_all_cpus kzalloc revision w = None.
Proof.
  unfold relm_vmx_enable_on_all_cpus. rewrite Hmem. cbn [negb].
  destruct (enable_each l) as [[failed l']|] eqn:E; [|exact eq_refl].
  destruct (enable_each_counts l _ failed l' Hin E) as (f & s' & Es & Hs' & Hn).
  destruct (refused_cpu (s_cpu s) p Hsup Hoff Hlock Hdis) as (c' & Ec & Hc'). rewrite Ec in Es.
  apply (inj Some), pair_eq in Es as [<- <-]. specialize (Hn eq_refl).
  destruct (Nat.ltb_spec 0 failed); [|lia]. unfold cleanup, relm_vmx_disable_on_all_cpus. cbn [w_slots].
  rewrite (disable_each_faults l' (Slot c' (Some p)) Hs' Hc'); [exact eq_refl|by exists p].
Qed.

End Claims.

(** ** Two CPUs *)

Module VmxHostDemo.
#[local] Instance alloc : PageAlloc := bump_alloc 8.
Definition cpu : pcpu := PCpu 0x20 0x20 0 true true false.
Definition w0 : vmx_world := VmxWorld [Slot cpu None; Slot cpu None] 0 host0.
Definition always (i : nat) : bool := true.

Lemma vmx_on_off_witness : exists w1 w2, relm_vmx_enable_on_all_cpus always 4 w0 = Some (0, w1) /\
  relm_vmx_disable_on_all_cpus w1 = Some w2 /\ h_live (w_mem w2) = ∅.
Proof.
  destruct (vmx_on_off always 4 w0) as (ps & w1 & w2 & E1 & _ & _ & _ & _ & E2 & _ & _ & L).
  - repeat (apply Forall_cons; split; [vm_compute; exact eq_refl|]). apply Forall_nil. exact I.
  - vm_compute. exact eq_refl.
  - exists w1, w2. split; [exact E1|]. split; [exact E2|]. rewrite L. exact eq_refl.
Defined.

(** One page only: the second CPU gets none. *)
Definition one_page : PageAlloc := bump_alloc 1.
Example second_cpu_faults : relm_vmx_enable_on_all_cpus (PA := one_page) always 4 w0 = None.
Proof. vm_compute. exact eq_refl. Qed.

(** Another hypervisor has VMX on: the call fails with EIO and turns VMX off under it. *)
Definition in_use : pcpu := PCpu 0x20 0x2020 5 true true true.
Example other_hypervisor_stopped :
  option_map (fun '(r, w) => (r, map (fun s => p_vmx (s_cpu s)) (w_slots w)))
    (relm_vmx_enable_on_all_cpus always 4 (VmxWorld [Slot in_use None; Slot in_use None] 0 host0)) =
  Some (- EIO, [false; false]).
Proof. vm_compute. exact eq_refl. Qed.
End VmxHostDemo.
