(* ===== verification/Stage2.v ===== *)
(** * ARM64 stage-2 translation tables

    src/arch/arm64/stage2.c: the geometry of an address space and its encodings for
    the processor, the context of a VM, and the operations that map, look up and
    unmap 4 KiB pages and 2 MiB blocks in tables of three or four levels.

    The EL2 runtime that registers itself is not part of the repository: its
    [invalidate] callback is a field of the registered operations.  A context is
    [option relm_stage2]; ERR_PTR is the left side of a sum.  The code numbers levels
    from the root; [Radix] numbers them from the leaves, so the C level is 4 minus
    the number of levels still to walk. *)
From S2P Require Import Prelude HostMem Radix X86Pt VmMem GuestMem.

Definition S2_ENTRIES_PER_TABLE : Z := 512.
Definition S2_LEVELS : Z := 4.
Definition S2_GRANULE_SHIFT : Z := 12.
Definition S2_TABLE_SIZE : Z := Z.shiftl 1 S2_GRANULE_SHIFT.
Definition S2_MIN_IPA_BITS : Z := 32.
Definition S2_MAX_IPA_BITS : Z := 48.
Definition S2_DEFAULT_IPA_BITS : Z := 39.
Definition S2_DESC_VALID : Z := 1.
Definition S2_DESC_TYPE_MASK : Z := 0x3.
Definition S2_DESC_INVALID : Z := 0.
Definition S2_DESC_BLOCK : Z := 0x1.
Definition S2_DESC_TABLE : Z := 0x3.
Definition S2_DESC_PAGE : Z := 0x3.
Definition S2_MEMATTR_MASK : Z := Z.shiftl 0xf 2.
Definition S2_ACCESS_READ : Z := Z.shiftl 1 6.
Definition S2_ACCESS_WRITE : Z := Z.shiftl 1 7.
Definition S2_ACCESS_MASK : Z := Z.lor S2_ACCESS_READ S2_ACCESS_WRITE.
Definition S2_SH_MASK : Z := Z.shiftl 0x3 8.
Definition S2_AF : Z := Z.shiftl 1 10.
Definition S2_XN : Z := Z.shiftl 1 54.
Definition S2_LEAF_FLAGS_MASK : Z := Z.lor (Z.lor (Z.lor S2_MEMATTR_MASK S2_ACCESS_MASK) S2_SH_MASK) S2_XN.
Definition S2_TABLE_ADDR_MASK : Z := 0x0000fffffffff000.
Definition S2_PAGE_ADDR_MASK : Z := S2_TABLE_ADDR_MASK.
Definition S2_PAGE_SIZE_4KB : Z := Z.shiftl 1 12.
Definition S2_PAGE_SIZE_2MB : Z := Z.shiftl 1 21.
Definition S2_VTCR_SL0_SHIFT : Z := 6.
Definition S2_VTCR_SL0_L0 : Z := Z.shiftl 0x2 S2_VTCR_SL0_SHIFT.
Definition S2_VTCR_SL0_L1 : Z := Z.shiftl 0x1 S2_VTCR_SL0_SHIFT.
Definition S2_VTCR_IRGN0_WBWA : Z := Z.shiftl 0x1 8.
Definition S2_VTCR_ORGN0_WBWA : Z := Z.shiftl 0x1 10.
Definition S2_VTCR_SH0_INNER : Z := Z.shiftl 0x3 12.
Definition S2_VTCR_TG0_4K : Z := 0.
Definition S2_VTCR_PS_SHIFT : Z := 16.
Definition S2_VTCR_VS_16BIT : Z := Z.shiftl 0x1 19.
Definition S2_VTCR_RES1 : Z := Z.shiftl 1 31.
Definition S2_VTCR_WALK_FLAGS : Z :=
  Z.lor (Z.lor (Z.lor (Z.lor S2_VTCR_RES1 S2_VTCR_SH0_INNER) S2_VTCR_ORGN0_WBWA) S2_VTCR_IRGN0_WBWA) S2_VTCR_TG0_4K.
Definition S2_VTTBR_VMID_SHIFT : Z := 48.
Definition S2_ESR_EC_SHIFT : Z := 26.
Definition S2_ESR_EC_MASK : Z := Z.shiftl 0x3f S2_ESR_EC_SHIFT.
Definition S2_ESR_EC_IABT_LOWER : Z := Z.shiftl 0x20 S2_ESR_EC_SHIFT.
Definition S2_ESR_EC_DABT_LOWER : Z := Z.shiftl 0x24 S2_ESR_EC_SHIFT.
Definition S2_ESR_FSC_TYPE_MASK : Z := 0x3c.
Definition S2_ESR_FSC_PERMISSION : Z := 0x0c.

(** ** Geometry *)
Record relm_stage2_geometry := Geometry { ipa_bits : Z; pa_bits : Z; start_level : Z; vmid_bits : Z }.

Definition s2_pa_encoding (bits : Z) : Z :=
  if bits =? 32 then 0 else if bits =? 36 then 1 else if bits =? 40 then 2
  else if bits =? 42 then 3 else if bits =? 44 then 4 else if bits =? 48 then 5 else - EINVAL.

Definition s2_geometry_valid (g : option relm_stage2_geometry) : bool :=
  match g with
  | None => false
  | Some g => (S2_MIN_IPA_BITS <=? ipa_bits g) && (ipa_bits g <=? S2_MAX_IPA_BITS) &&
              (0 <=? s2_pa_encoding (pa_bits g)) &&
              (start_level g =? if ipa_bits g <=? 39 then 1 else 0) &&
              ((vmid_bits g =? 8) || (vmid_bits g =? 16))
  end.

Definition s2_range_fits (address size bits : Z) : bool :=
  let limit := u64 (Z.shiftl 1 bits) in
  negb (size =? 0) && (address <? limit) && (size <=? u64 (limit - address)).

Definition s2_page_aligned (value : Z) : bool := Z.land value (S2_PAGE_SIZE_4KB - 1) =? 0.
Definition s2_level_size (level : Z) : Z := u64 (Z.shiftl 1 (12 + 9 * (3 - level))).
Definition s2_index (ipa level : Z) : Z := Z.land (Z.shiftr ipa (12 + 9 * (3 - level))) 0x1ff.

(** The out-parameter is [have]; the value it receives is on the right. *)
Definition relm_stage2_encode_vtcr (g : option relm_stage2_geometry) (have : bool) : Z + Z :=
  if negb have || negb (s2_geometry_valid g) then inl (- EINVAL)
  else match g with
  | None => inl (- EINVAL)
  | Some g =>
      let value := Z.lor S2_VTCR_WALK_FLAGS (64 - ipa_bits g) in
      let value := Z.lor value (if negb (start_level g =? 0) then S2_VTCR_SL0_L1 else S2_VTCR_SL0_L0) in
      let value := Z.lor value (Z.shiftl (s2_pa_encoding (pa_bits g)) S2_VTCR_PS_SHIFT) in
      inr (if vmid_bits g =? 16 then Z.lor value S2_VTCR_VS_16BIT else value)
  end.

Definition relm_stage2_encode_vttbr (g : option relm_stage2_geometry) (root_pa vmid : Z) (have : bool) : Z + Z :=
  if negb have || negb (s2_geometry_valid g) || negb (s2_page_aligned root_pa) then inl (- EINVAL)
  else match g with
  | None => inl (- EINVAL)
  | Some g =>
      if negb (s2_range_fits root_pa S2_TABLE_SIZE (pa_bits g)) || ((vmid_bits g =? 8) && (255 <? vmid)) then inl (- ERANGE)
      else inr (Z.lor root_pa (u64 (Z.shiftl vmid S2_VTTBR_VMID_SHIFT)))
  end.

(** ** The EL2 runtime *)

(** The ID registers of the host and the callback, [None] for NULL. *)
Record relm_stage2_runtime_ops := RuntimeOps {
  host_pfr0_el1 : Z; host_mmfr0_el1 : Z; host_mmfr1_el1 : Z; op_invalidate : option (Z -> Z -> Z)
}.
Record s2_globals := S2Globals { s2_runtime : relm_stage2_runtime_ops; s2_limits : relm_stage2_geometry; s2_runtime_ready : bool }.

Definition pa_widths : list Z := [32; 36; 40; 42; 44; 48; 52; 56].

Definition s2_decode_limits (ops : relm_stage2_runtime_ops) : Z + relm_stage2_geometry :=
  let field x sh := Z.land (Z.shiftr x sh) 0xf in
  let el2 := field (host_pfr0_el1 ops) 8 in
  let granule := field (host_mmfr0_el1 ops) 28 in
  let granule2 := field (host_mmfr0_el1 ops) 40 in
  let pa := Z.land (host_mmfr0_el1 ops) 0xf in
  let vmids := field (host_mmfr1_el1 ops) 4 in
  match pa_widths !! Z.to_nat pa with
  | None => inl (- EOPNOTSUPP)
  | Some width =>
      if (negb (el2 =? 1) && negb (el2 =? 2)) || (negb (vmids =? 0) && negb (vmids =? 2)) then inl (- EOPNOTSUPP)
      else if (if granule2 =? 0 then negb (granule =? 0) && negb (granule =? 1)
               else negb (granule2 =? 2) && negb (granule2 =? 3)) then inl (- EOPNOTSUPP)
      else
        let bits := if 48 <? width then 48 else width in
        inr (Geometry bits bits (if bits <=? 39 then 1 else 0) (if vmids =? 2 then 16 else 8))
  end.

Definition relm_stage2_register_runtime (G : s2_globals) (ops : option relm_stage2_runtime_ops) : Z * s2_globals :=
  match ops with
  | None => (- EINVAL, G)
  | Some ops =>
      match op_invalidate ops with
      | None => (- EINVAL, G)
      | Some _ =>
          match s2_decode_limits ops with
          | inl ret => (ret, G)
          | inr limits => if s2_runtime_ready G then (- EBUSY, G) else (0, S2Globals ops limits true)
          end
      end
  end.

Definition relm_stage2_unregister_runtime (G : s2_globals) : Z * s2_globals :=
  (0, S2Globals (RuntimeOps 0 0 0 None) (s2_limits G) false).

Definition relm_stage2_check_support (G : s2_globals) : bool := s2_runtime_ready G.

Definition relm_stage2_choose_geometry (G : s2_globals) (requested_ipa_bits : Z) (have : bool) : Z + relm_stage2_geometry :=
  if negb have || (requested_ipa_bits <? S2_MIN_IPA_BITS) || (S2_MAX_IPA_BITS <? requested_ipa_bits) then inl (- EINVAL)
  else if negb (s2_runtime_ready G) || (ipa_bits (s2_limits G) <? requested_ipa_bits) then inl (- EOPNOTSUPP)
  else inr (Geometry (u8 requested_ipa_bits) (pa_bits (s2_limits G)) (if requested_ipa_bits <=? 39 then 1 else 0)
              (vmid_bits (s2_limits G))).

(** ** Contexts and tables *)
Record relm_stage2 := Stage2Ctx {
  s2_root : Z; s2_root_pa : Z; s2_geometry : relm_stage2_geometry; s2_vtcr : Z; s2_vmid : Z; s2_stats : pt_stats
}.
Definition set_s2_stats (s : relm_stage2) (st : pt_stats) : relm_stage2 :=
  Stage2Ctx (s2_root s) (s2_root_pa s) (s2_geometry s) (s2_vtcr s) (s2_vmid s) st.

Definition s2_type (e : Z) : Z := Z.land e S2_DESC_TYPE_MASK.
Definition s2_is_table (e : Z) : bool := s2_type e =? S2_DESC_TABLE.
Definition s2_addr (e : Z) : Z := Z.land e S2_TABLE_ADDR_MASK.

Section Tables.
Context `{PA : PageAlloc}.

(** The recursion ends at level 3, where a table holds pages. *)
Definition s2_free_table_tree (h : host) (table level : Z) : host :=
  free_tree (fun e => negb (s2_is_table e)) s2_addr (Z.to_nat (4 - level)) h table.

Definition relm_stage2_context_create (kz : bool) (G : s2_globals) (h : host) (g : option relm_stage2_geometry) (vmid : Z)
    : (Z + relm_stage2) * host :=
  match relm_stage2_encode_vtcr g true, g with
  | inl ret, _ => (inl ret, h)
  | inr _, None => (inl (- EINVAL), h)
  | inr vtcr, Some g =>
      if (vmid_bits g =? 8) && (255 <? vmid) then (inl (- ERANGE), h)
      else if negb (s2_runtime_ready G) || (ipa_bits (s2_limits G) <? ipa_bits g) ||
              (pa_bits (s2_limits G) <? pa_bits g) || (vmid_bits (s2_limits G) <? vmid_bits g)
      then (inl (- EOPNOTSUPP), h)
      else if negb kz then (inl (- ENOMEM), h)
      else match get_zeroed_page h with
           | (None, h) => (inl (- ENOMEM), h)
           | (Some root, h) => (inr (Stage2Ctx root root g vtcr vmid (PtStats 0 0 0 0)), h)
           end
  end.

(** A call through the callback of a runtime that is not registered is a NULL call. *)
Definition s2_invalidate (G : s2_globals) (s : relm_stage2) : access unit :=
  match relm_stage2_encode_vttbr (Some (s2_geometry s)) (s2_root_pa s) (s2_vmid s) true with
  | inl ret => Done ret tt
  | inr vttbr => match op_invalidate (s2_runtime G) with
                 | None => Oops
                 | Some invalidate => Done (invalidate (s2_vtcr s) vttbr) tt
                 end
  end.

Definition relm_stage2_invalidate_context (G : s2_globals) (s : option relm_stage2) : access unit :=
  match s with None => Done (- EINVAL) tt | Some s => s2_invalidate G s end.

Definition relm_stage2_context_destroy (G : s2_globals) (h : host) (s : option relm_stage2) : access host :=
  match s with
  | None => Done 0 h
  | Some s =>
      match s2_invalidate G s with
      | Done ret _ => if negb (ret =? 0) then Done ret h
                      else Done 0 (s2_free_table_tree h (s2_root s) (start_level (s2_geometry s)))
      | Oops => Oops
      | OutOfFuel => OutOfFuel
      end
  end.

(** The slot [i] of [table]. *)
Definition s2_get_or_create (h : host) (table i : Z) : option Z * host :=
  let entry := rd64 h table i in
  if s2_is_table entry then (Some (s2_addr entry), h)
  else match get_zeroed_page h with
       | (Some child, h) => (Some child, wr64 h table i (Z.lor child S2_DESC_TABLE))
       | (None, h) => (None, h)
       end.

(** The loop of [s2_map_one], [k] levels from [level]. *)
Fixpoint s2_descend (k : nat) (level : Z) (h : host) (table ipa : Z) : option Z * host :=
  match k with
  | O => (Some table, h)
  | S k => match s2_get_or_create h table (s2_index ipa level) with
           | (Some table, h) => s2_descend k (level + 1) h table ipa
           | (None, h) => (None, h)
           end
  end.

Definition s2_leaf_entry (pa flags leaf_level : Z) : Z :=
  Z.lor (Z.lor (Z.lor (Z.land pa S2_PAGE_ADDR_MASK) flags) S2_AF)
    (if leaf_level =? 3 then S2_DESC_PAGE else S2_DESC_BLOCK).

Definition s2_bump (st : pt_stats) (leaf_level : Z) : pt_stats :=
  let total := u64 (total_mapped st + s2_level_size leaf_level) in
  if leaf_level =? 3 then PtStats (u64 (pages_4kb st + 1)) (pages_2mb st) (pages_1gb st) total
  else PtStats (pages_4kb st) (u64 (pages_2mb st + 1)) (pages_1gb st) total.

Definition s2_map_one (h : host) (s : relm_stage2) (ipa pa flags leaf_level : Z) : Z * host * relm_stage2 :=
  let first := start_level (s2_geometry s) in
  match s2_descend (Z.to_nat (leaf_level - first)) first h (s2_root s) ipa with
  | (None, h) => (- ENOMEM, h, s)
  | (Some table, h) =>
      let i := s2_index ipa leaf_level in
      let s := if flag (rd64 h table i) S2_DESC_VALID then s else set_s2_stats s (s2_bump (s2_stats s) leaf_level) in
      (0, wr64 h table i (s2_leaf_entry pa flags leaf_level), s)
  end.

Definition s2_map (h : host) (s : option relm_stage2) (ipa pa flags leaf_level : Z) : Z * host * option relm_stage2 :=
  match s with
  | None => (- EINVAL, h, None)
  | Some c =>
      if negb (s2_page_aligned ipa) || negb (s2_page_aligned pa) then (- EINVAL, h, s)
      else if negb (flag flags S2_ACCESS_READ) then (- EINVAL, h, s)
      else if negb (s2_range_fits ipa (s2_level_size leaf_level) (ipa_bits (s2_geometry c))) ||
              negb (s2_range_fits pa (s2_level_size leaf_level) (pa_bits (s2_geometry c))) then (- ERANGE, h, s)
      else let '(ret, h, c) := s2_map_one h c ipa pa flags leaf_level in (ret, h, Some c)
  end.

Definition relm_stage2_map_page (h : host) (s : option relm_stage2) (ipa pa flags : Z) : Z * host * option relm_stage2 :=
  s2_map h s ipa pa flags 3.

Definition relm_stage2_map_huge_page (h : host) (s : option relm_stage2) (ipa pa flags : Z) : Z * host * option relm_stage2 :=
  if flag (Z.lor ipa pa) (S2_PAGE_SIZE_2MB - 1) then (- EINVAL, h, s) else s2_map h s ipa pa flags 2.

(** The [n] pages left of a range, [skip] the pages to leave out. *)
Fixpoint s2_map_loop (skip : Z -> bool) (n : nat) (offset : Z) (h : host) (s : option relm_stage2) (ipa pa flags : Z)
    : Z * host * option relm_stage2 :=
  match n with
  | O => (0, h, s)
  | S n =>
      if skip (u64 (ipa + offset)) then s2_map_loop skip n (offset + S2_PAGE_SIZE_4KB) h s ipa pa flags
      else match relm_stage2_map_page h s (u64 (ipa + offset)) (u64 (pa + offset)) flags with
           | (ret, h, s) => if negb (ret =? 0) then (ret, h, s)
                            else s2_map_loop skip n (offset + S2_PAGE_SIZE_4KB) h s ipa pa flags
           end
  end.

Definition relm_stage2_map_range (h : host) (s : option relm_stage2) (ipa pa size flags : Z) : Z * host * option relm_stage2 :=
  if (size =? 0) || negb (s2_page_aligned size) then (- EINVAL, h, s)
  else s2_map_loop (fun _ => false) (Z.to_nat (size / S2_PAGE_SIZE_4KB)) 0 h s ipa pa flags.

Definition s2_range_overlaps_mmio (vm : option relm_vm_memory) (ipa size : Z) : bool :=
  let end_ := u64 (ipa + size) in
  match vm with
  | None => false
  | Some m => existsb (fun i => match relm_vm_mmio_region_at m i with
                                | inl _ => false
                                | inr r => (ipa <? u64 (mr_gpa_start r + mr_size r)) && (mr_gpa_start r <? end_)
                                end) (seq 0 (relm_vm_mmio_region_count m))
  end.

Definition relm_stage2_map_guest_ram_4kb (h : host) (s : option relm_stage2) (vm : option relm_vm_memory)
    (ipa pa size flags : Z) : Z * host * option relm_stage2 :=
  if match vm with None => true | Some _ => false end || (size =? 0) || negb (s2_page_aligned size) then (- EINVAL, h, s)
  else s2_map_loop (fun a => s2_range_overlaps_mmio vm a S2_PAGE_SIZE_4KB) (Z.to_nat (size / S2_PAGE_SIZE_4KB)) 0 h s ipa pa flags.

Fixpoint s2_map_huge_loop (fuel : nat) (offset : Z) (h : host) (s : option relm_stage2) (vm : option relm_vm_memory)
    (ipa pa end_ flags : Z) : option (Z * host * option relm_stage2) :=
  if negb (u64 (ipa + offset) <? end_) then Some (0, h, s)
  else
    match fuel with
    | O => None
    | S fuel =>
        let address := u64 (ipa + offset) in
        let physical := u64 (pa + offset) in
        let remaining := u64 (end_ - address) in
        if (S2_PAGE_SIZE_2MB <=? remaining) && negb (flag (Z.lor address physical) (S2_PAGE_SIZE_2MB - 1)) &&
           negb (s2_range_overlaps_mmio vm address S2_PAGE_SIZE_2MB)
        then match relm_stage2_map_huge_page h s address physical flags with
             | (ret, h, s) => if negb (ret =? 0) then Some (ret, h, s)
                              else s2_map_huge_loop fuel (u64 (offset + S2_PAGE_SIZE_2MB)) h s vm ipa pa end_ flags
             end
        else
          let to_boundary := S2_PAGE_SIZE_2MB - Z.land address (S2_PAGE_SIZE_2MB - 1) in
          let chunk := Z.min remaining to_boundary in
          match relm_stage2_map_guest_ram_4kb h s vm address physical chunk flags with
          | (ret, h, s) => if negb (ret =? 0) then Some (ret, h, s)
                           else s2_map_huge_loop fuel (u64 (offset + chunk)) h s vm ipa pa end_ flags
          end
    end.

(** Each round covers at least one page of the range. *)
Definition relm_stage2_map_guest_ram_huge (h : host) (s : option relm_stage2) (vm : option relm_vm_memory)
    (ipa pa size flags : Z) : option (Z * host * option relm_stage2) :=
  if match vm with None => true | Some _ => false end || (size =? 0) || negb (s2_page_aligned size)
  then Some (- EINVAL, h, s)
  else s2_map_huge_loop (Z.to_nat (size / S2_PAGE_SIZE_4KB)) 0 h s vm ipa pa (u64 (ipa + size)) flags.

(** ** Look-up and removal *)

(** [k] levels from [level]: the address, base and size of the leaf over [ipa]. *)
Fixpoint s2_walk (k : nat) (level : Z) (h : host) (table ipa : Z) : Z + (Z * Z * Z) :=
  match k with
  | O => inl (- ENOENT)
  | S k =>
      let entry := rd64 h table (s2_index ipa level) in
      let type := s2_type entry in
      if entry =? 0 then inl (- ENOENT)
      else if (level <? 3) && (type =? S2_DESC_TABLE) then s2_walk k (level + 1) h (s2_addr entry) ipa
      else if (level =? 0) || ((level =? 3) && negb (type =? S2_DESC_PAGE)) || ((level <? 3) && negb (type =? S2_DESC_BLOCK))
      then inl (- EINVAL)
      else
        let size := s2_level_size level in
        let mask := u64 (Z.lnot (size - 1)) in
        inr (Z.land (Z.land entry S2_PAGE_ADDR_MASK) mask, Z.land ipa mask, size)
  end.

Definition s2_walk_ctx (h : host) (s : relm_stage2) (ipa : Z) : Z + (Z * Z * Z) :=
  let first := start_level (s2_geometry s) in s2_walk (Z.to_nat (S2_LEVELS - first)) first h (s2_root s) ipa.

Definition relm_stage2_get_mapping (h : host) (s : option relm_stage2) (ipa : Z) (have : bool) : Z + Z :=
  match s with
  | None => inl (- EINVAL)
  | Some s =>
      if negb have then inl (- EINVAL)
      else match s2_walk_ctx h s ipa with
           | inl ret => inl ret
           | inr (leaf_pa, base, _) => inr (u64 (leaf_pa + (ipa - base)))
           end
  end.

(** The second descent of [relm_stage2_unmap_page]: the table and level of the leaf. *)
Fixpoint s2_leaf_table (k : nat) (level : Z) (h : host) (table ipa size : Z) : option (Z * Z) :=
  if s2_level_size level =? size then Some (table, level)
  else match k with
       | O => None
       | S k => s2_leaf_table k (level + 1) h (s2_addr (rd64 h table (s2_index ipa level))) ipa size
       end.

Definition s2_drop (st : pt_stats) (level size : Z) : pt_stats :=
  let total := u64 (total_mapped st - size) in
  if level =? 3 then PtStats (u64 (pages_4kb st - 1)) (pages_2mb st) (pages_1gb st) total
  else PtStats (pages_4kb st) (u64 (pages_2mb st - 1)) (pages_1gb st) total.

Definition relm_stage2_unmap_page (h : host) (s : option relm_stage2) (ipa : Z) : access (host * option relm_stage2) :=
  match s with
  | None => Done (- EINVAL) (h, s)
  | Some c =>
      match s2_walk_ctx h c ipa with
      | inl ret => Done (if ret =? - ENOENT then 0 else ret) (h, s)
      | inr (_, base, size) =>
          if negb (base =? ipa) then Done (- EINVAL) (h, s)
          else match s2_leaf_table 4 (start_level (s2_geometry c)) h (s2_root c) ipa size with
               | None => OutOfFuel
               | Some (table, level) =>
                   Done 0 (wr64 h table (s2_index ipa level) S2_DESC_INVALID,
                           Some (set_s2_stats c (s2_drop (s2_stats c) level size)))
               end
      end
  end.

Fixpoint s2_unmap_loop (fuel : nat) (h : host) (s : option relm_stage2) (ipa end_ : Z) : access (host * option relm_stage2) :=
  if negb (ipa <? end_) then Done 0 (h, s)
  else match fuel with
       | O => OutOfFuel
       | S fuel =>
           match relm_stage2_unmap_page h s ipa with
           | Done ret (h, s) => if negb (ret =? 0) then Done ret (h, s)
                                else s2_unmap_loop fuel h s (u64 (ipa + S2_PAGE_SIZE_4KB)) end_
           | Oops => Oops
           | OutOfFuel => OutOfFuel
           end
       end.

(** One round per page. *)
Definition relm_stage2_unmap_range (h : host) (s : option relm_stage2) (ipa size : Z) : access (host * option relm_stage2) :=
  let end_ := u64 (ipa + size) in
  if (size =? 0) || negb (s2_page_aligned ipa) || negb (s2_page_aligned size) then Done (- EINVAL) (h, s)
  else s2_unmap_loop (Z.to_nat (size / S2_PAGE_SIZE_4KB)) h s ipa end_.

(** ** The VM's context *)
Definition relm_setup_stage2 (kz : bool) (G : s2_globals) (h : host) (vm_id : Z) (regions : list guest_mem_region)
    (stage2 : option relm_stage2) : Z * host * option relm_stage2 :=
  match stage2 with
  | Some _ => (- EEXIST, h, stage2)
  | None =>
      match relm_stage2_choose_geometry G S2_DEFAULT_IPA_BITS true with
      | inl ret => (ret, h, None)
      | inr g =>
          if negb (forallb (fun r => s2_range_fits (gr_gpa_start r) (gr_size r) (ipa_bits g)) regions) then (- ERANGE, h, None)
          else match relm_stage2_context_create kz G h (Some g) (u16 vm_id) with
               | (inl ret, h) => (ret, h, None)
               | (inr s, h) => (0, h, Some s)
               end
      end
  end.
End Tables.

(** What the abort handler looks at: the exit kind was a synchronous one, the
    context, ESR_EL2. *)
Definition relm_stage2_handle_fault (sync : bool) (stage2 : option relm_stage2) (esr_el2 : Z) : Z :=
  match stage2 with
  | None => - EINVAL
  | Some _ =>
      if negb sync then - EINVAL
      else
        let ec := Z.land esr_el2 S2_ESR_EC_MASK in
        if negb (ec =? S2_ESR_EC_IABT_LOWER) && negb (ec =? S2_ESR_EC_DABT_LOWER) then - EINVAL
        else if Z.land esr_el2 S2_ESR_FSC_TYPE_MASK =? S2_ESR_FSC_PERMISSION then - EACCES else - EFAULT
  end.

(** ** The hardware walk *)
Definition arm_kind (n : nat) (e : Z) : ekind :=
  if negb (flag e S2_DESC_VALID) then KNone
  else match n with
       | 1%nat => if s2_is_table e then KLeaf else KNone
       | 2%nat | 3%nat => if s2_is_table e then KTable (s2_addr e) else KLeaf
       | _ => if s2_is_table e then KTable (s2_addr e) else KNone
       end.

Definition s2_levels (s : relm_stage2) : nat := Z.to_nat (4 - start_level (s2_geometry s)).
Definition leaf_size (n : nat) : Z := 4096 * 512 ^ (Z.of_nat n - 1).

(** A read by the guest: the address must have the width VTCR says, and the leaf the
    access flag. *)
Definition s2_translate (h : host) (s : relm_stage2) (ipa : Z) : option Z :=
  if (0 <=? ipa) && (ipa <? 2 ^ ipa_bits (s2_geometry s)) then
    match walk arm_kind (s2_levels s) h (s2_root s) (vpn ipa) with
    | Some (n, e) => if flag e S2_AF then Some (s2_addr e / leaf_size n * leaf_size n + ipa mod leaf_size n) else None
    | None => None
    end
  else None.

(** ** Entries *)
Lemma arm_kind_0 n : arm_kind n 0 = KNone.
Proof. done. Qed.
Lemma arm_kind_1 e c : arm_kind 1 e <> KTable c.
Proof. unfold arm_kind. by repeat case_match. Qed.

Lemma is_table_valid e : s2_is_table e = true -> flag e S2_DESC_VALID = true.
Proof.
  unfold s2_is_table, s2_type, flag. intros T%Z.eqb_eq. apply negb_true_iff, Z.eqb_neq. intros V.
  apply (f_equal (fun z => Z.land z 1)) in T. rewrite <- Z.land_assoc in T. change (Z.land S2_DESC_TYPE_MASK 1) with S2_DESC_VALID in T.
  by rewrite V in T.
Qed.

Lemma kind_of_table n e : (1 < n)%nat -> s2_is_table e = true -> arm_kind n e = KTable (s2_addr e).
Proof. intros Hn T. unfold arm_kind. rewrite (is_table_valid _ T), T. by destruct n as [|[|[|[|n]]]]; try lia. Qed.

Lemma kind_table_inv n e c : arm_kind n e = KTable c -> s2_is_table e = true /\ c = s2_addr e.
Proof. unfold arm_kind. destruct (s2_is_table e); repeat case_match; intros [=]; done. Qed.

Lemma addr_mask x : s2_addr x = ((x / 4096) mod 2 ^ 36) * 4096.
Proof. exact (land_field x 12 36 ltac:(lia) ltac:(lia)). Qed.

Lemma addr_id x : 0 <= x < 2 ^ 48 -> x mod 4096 = 0 -> s2_addr x = x.
Proof. intros H1 H2. rewrite addr_mask. zpow. zdm. Qed.

(** The fields of a word made of an address, attribute bits and a type. *)
Lemma entry_fields a f ty : Z.land a S2_TABLE_ADDR_MASK = a -> Z.land f S2_TABLE_ADDR_MASK = 0 -> Z.land f 3 = 0 ->
  Z.land ty 3 = ty -> s2_addr (Z.lor (Z.lor a f) ty) = a /\ s2_type (Z.lor (Z.lor a f) ty) = ty.
Proof.
  intros Ha Hf Hf3 Ht. unfold s2_addr, s2_type, S2_DESC_TYPE_MASK. rewrite !Z.land_lor_distr_l, Ha, Hf, Hf3, Ht.
  assert (Z.land ty S2_TABLE_ADDR_MASK = 0) as -> by (rewrite <- Ht, <- Z.land_assoc; apply Z.land_0_r).
  assert (Z.land a 3 = 0) as -> by (rewrite <- Ha, <- Z.land_assoc; apply Z.land_0_r).
  by rewrite !Z.lor_0_r.
Qed.

(** Pages below 2^48, which a table descriptor can hold. *)
Class S2PageAlloc (PA : PageAlloc) : Prop := { s2_page_ok :: PageAllocOk PA; s2_page_48 n s p : page_choice n s = Some p -> p < 2 ^ 48 }.

(** The leaf written for [pa]: its address, its kind, its access flag. *)
Definition flags_ok (flags : Z) : Prop := Z.land flags S2_LEAF_FLAGS_MASK = flags.

Lemma leaf_fields pa flags level : s2_page_aligned pa = true -> 0 <= pa < 2 ^ 48 -> flags_ok flags ->
  s2_addr (s2_leaf_entry pa flags level) = pa /\ flag (s2_leaf_entry pa flags level) S2_AF = true /\
  s2_type (s2_leaf_entry pa flags level) = if level =? 3 then S2_DESC_PAGE else S2_DESC_BLOCK.
Proof.
  intros Al R F. unfold s2_leaf_entry. rewrite <- (Z.lor_assoc _ flags).
  destruct (entry_fields (Z.land pa S2_PAGE_ADDR_MASK) (Z.lor flags S2_AF) (if level =? 3 then S2_DESC_PAGE else S2_DESC_BLOCK))
    as [E1 E2].
  - by rewrite <- Z.land_assoc, Z.land_diag.
  - rewrite Z.land_lor_distr_l, <- F, <- Z.land_assoc. by rewrite Z.land_0_r.
  - rewrite Z.land_lor_distr_l, <- F, <- Z.land_assoc. by rewrite Z.land_0_r.
  - by destruct (level =? 3).
  - rewrite E1, E2. split_and!; [|by rewrite !flag_lor, !orb_true_r|done].
    apply addr_id; [done|]. apply (PAGE_ALIGNED_spec pa). exact Al.
Qed.

Section Correct.
Context `{PA : PageAlloc} {PAok : S2PageAlloc PA}.

Abbreviation s2_link := (fun c : Z => Z.lor c S2_DESC_TABLE).

#[local] Instance arm_format (n : nat) : (1 < n)%nat -> Format arm_kind s2_is_table s2_addr s2_link n.
Proof.
  intros Hn. split.
  - intros e T. unfold arm_kind. rewrite T. by repeat case_match.
  - intros e T _. by apply kind_of_table.
  - intros k s c P. pose proof (page_range _ _ _ P). pose proof (s2_page_48 _ _ _ P). pose proof (page_aligned _ _ _ P).
    destruct (entry_fields c 0 S2_DESC_TABLE) as [E1 E2]; [by apply addr_id; [lia|]|done..|]. rewrite Z.lor_0_r in E1, E2.
    rewrite kind_of_table, E1; [done|done|]. unfold s2_is_table. by rewrite E2.
Qed.

Lemma s2_index_slot (n : nat) ipa : (n <= 3)%nat -> s2_index ipa (3 - Z.of_nat n) = slot n (vpn ipa).
Proof. intros Hn. unfold s2_index. rewrite <- index_slot by done. do 2 f_equal. lia. Qed.

Lemma s2_descend_eq k m h t ipa : (1 <= m)%nat -> (k + m <= 4)%nat ->
  s2_descend k (4 - Z.of_nat (k + m)) h t ipa = descend s2_is_table s2_addr s2_link k m h t (vpn ipa).
Proof.
  intros Hm. revert h t. induction k as [|k IH]; intros h t Hk; [done|]. cbn [s2_descend descend].
  replace (4 - Z.of_nat (S k + m)) with (3 - Z.of_nat (k + m)) by lia. rewrite s2_index_slot by lia.
  change (s2_get_or_create h t (slot (k + m) (vpn ipa))) with (get_or_create s2_is_table s2_addr s2_link h t (slot (k + m) (vpn ipa))).
  destruct (get_or_create _ _ _ h t _) as [[c|] h1]; [|done].
  replace (3 - Z.of_nat (k + m) + 1) with (4 - Z.of_nat (k + m)) by lia. apply IH. lia.
Qed.

(** ** The invariant

    [own] is the tree of tables, [A4] the 4 KiB leaves by page number, [A2] the 2 MiB
    leaves by block number. *)
Definition abs_walk (A4 A2 : gmap Z Z) (v : Z) : option (nat * Z) :=
  match A2 !! (v / 512) with
  | Some e => Some (2%nat, e)
  | None => (fun e => (1%nat, e)) <$> A4 !! v
  end.

Record s2_ok (h : host) (s : relm_stage2) (own : gmap Z (nat * Z)) (A4 A2 : gmap Z Z) : Prop := S2Ok {
  so_geo : s2_geometry_valid (Some (s2_geometry s)) = true;
  so_wf : wf arm_kind h own (s2_root s) (s2_levels s);
  so_cov : covered arm_kind h own (s2_root s) (s2_levels s);
  so_clean : clean arm_kind h own;
  so_walk v : 0 <= v < 512 ^ Z.of_nat (s2_levels s) -> walk arm_kind (s2_levels s) h (s2_root s) v = abs_walk A4 A2 v;
  so_pages v : v ∈ dom A4 -> 0 <= v < 512 ^ Z.of_nat (s2_levels s) /\ A2 !! (v / 512) = None;
  so_blocks b : b ∈ dom A2 -> 0 <= b < 512 ^ Z.of_nat (s2_levels s - 1);
  so_af : map_Forall (fun _ e => flag e S2_AF = true) A4 /\ map_Forall (fun _ e => flag e S2_AF = true) A2;
  so_stats : pages_4kb (s2_stats s) = Z.of_nat (size A4) /\ pages_2mb (s2_stats s) = Z.of_nat (size A2) /\
    total_mapped (s2_stats s) = 4096 * Z.of_nat (size A4) + 2 ^ 21 * Z.of_nat (size A2)
}.

Lemma geometry_facts g : s2_geometry_valid (Some g) = true ->
  32 <= ipa_bits g <= 48 /\ start_level g = (if ipa_bits g <=? 39 then 1 else 0) /\ 32 <= pa_bits g <= 48 /\
  (vmid_bits g = 8 \/ vmid_bits g = 16).
Proof.
  unfold s2_geometry_valid, S2_MIN_IPA_BITS, S2_MAX_IPA_BITS. rewrite !andb_true_iff, orb_true_iff, !Z.leb_le, !Z.eqb_eq.
  intros ((((H1 & H2) & H3) & H4) & H5). split_and!; try done; unfold s2_pa_encoding in H3;
    repeat match type of H3 with context [?a =? ?b] => destruct (Z.eqb_spec a b) as [->|]; [lia|] end; by vm_compute in H3.
Qed.

(** A table walk of three or four levels that covers every address of the space. *)
Lemma levels_facts s : s2_geometry_valid (Some (s2_geometry s)) = true ->
  (s2_levels s = 3%nat \/ s2_levels s = 4%nat) /\ start_level (s2_geometry s) = 4 - Z.of_nat (s2_levels s) /\
  2 ^ ipa_bits (s2_geometry s) <= 4096 * 512 ^ Z.of_nat (s2_levels s).
Proof.
  intros (H1 & H2 & _)%geometry_facts. unfold s2_levels. rewrite H2. destruct (Z.leb_spec (ipa_bits (s2_geometry s)) 39).
  - split_and!; [by left|done|]. change (4096 * 512 ^ Z.of_nat (Z.to_nat (4 - 1))) with (2 ^ 39). apply Z.pow_le_mono_r; lia.
  - split_and!; [by right|done|]. change (4096 * 512 ^ Z.of_nat (Z.to_nat (4 - 0))) with (2 ^ 48). apply Z.pow_le_mono_r; lia.
Qed.

Lemma range_fits_spec a sz bits : 0 <= bits < 64 -> 0 <= a -> s2_range_fits a sz bits = true ->
  a + sz <= 2 ^ bits /\ sz <> 0.
Proof.
  intros Hb Ha. unfold s2_range_fits. rewrite Z.shiftl_1_l, u64_small by (pose proof (Z.pow_lt_mono_r 2 bits 64); lia).
  rewrite !andb_true_iff, negb_true_iff, Z.eqb_neq, Z.ltb_lt, Z.leb_le. intros [[H1 H2] H3].
  rewrite u64_small in H3 by (pose proof (Z.pow_lt_mono_r 2 bits 64); lia). lia.
Qed.

Lemma vpn_small ipa : 0 <= ipa < 2 ^ 48 -> vpn ipa = ipa / 4096.
Proof. intros H. unfold vpn. rewrite Z.mod_small; [done|]. zpow. zdm. Qed.

(** Addresses of the space have page numbers the tables reach. *)
Lemma ipa_page s ipa : s2_geometry_valid (Some (s2_geometry s)) = true -> 0 <= ipa < 2 ^ ipa_bits (s2_geometry s) ->
  vpn ipa = ipa / 4096 /\ 0 <= vpn ipa < 512 ^ Z.of_nat (s2_levels s).
Proof.
  intros G H. pose proof (geometry_facts _ G) as (B & _). pose proof (levels_facts _ G) as (_ & _ & L).
  assert (2 ^ ipa_bits (s2_geometry s) <= 2 ^ 48) by (apply Z.pow_le_mono_r; lia).
  rewrite vpn_small by lia. split; [done|]. split; [apply Z.div_pos; lia|]. apply Z.div_lt_upper_bound; lia.
Qed.

(** ** Creating *)
Lemma s2_create_ok kz G h g vmid s h' : relm_stage2_context_create kz G h g vmid = (inr s, h') ->
  s2_ok h' s {[s2_root s := (s2_levels s, 0)]} ∅ ∅ /\ h_live h' = {[s2_root s]} ∪ h_live h /\ s2_root s ∉ h_live h /\
  g = Some (s2_geometry s) /\ relm_stage2_encode_vtcr g true = inr (s2_vtcr s) /\ s2_root_pa s = s2_root s /\
  s2_vmid s = vmid /\ (vmid_bits (s2_geometry s) = 8 -> vmid <= 255) /\ 0 < s2_root s /\ s2_root s mod 4096 = 0.
Proof.
  unfold relm_stage2_context_create. destruct (relm_stage2_encode_vtcr g true) as [|vtcr] eqn:Ev; [done|].
  destruct g as [g|]; [|done]. destruct (_ && _) eqn:Vm; [done|]. destruct (_ || _); [done|]. destruct (negb kz); [done|].
  destruct (get_zeroed_page h) as [[root|] h1] eqn:P; intros [Es <-]%pair_eq; [|discriminate]. injection Es as <-.
  destruct (get_zeroed_page_Some _ _ _ P) as [Hc L].
  assert (forall i, rd64 h1 root i = 0) as Z0 by (intros i; by rewrite (rd64_new_page _ _ _ _ _ P), decide_True).
  assert (s2_geometry_valid (Some g) = true) as Gv
    by (unfold relm_stage2_encode_vtcr in Ev; by destruct (s2_geometry_valid (Some g))).
  split_and!; try done; [|by apply page_fresh in Hc| |apply page_range in Hc; cbn [s2_root]; lia|by apply page_aligned in Hc].
  2: { cbn [s2_geometry]. intros E8. rewrite E8 in Vm. cbn in Vm. by apply Z.ltb_ge in Vm. }
  split; cbn [s2_root s2_geometry s2_stats]; try done.
  - split; [by rewrite lookup_singleton_eq| |].
    + intros t n p i c [<- _]%lookup_singleton_Some. by rewrite Z0.
    + intros t x [<- _]%lookup_singleton_Some. rewrite L. set_solver.
  - intros t n p [<- _]%lookup_singleton_Some. by left.
  - intros t n p i [<- _]%lookup_singleton_Some. by left.
  - intros v Hv. rewrite (walk_zero _ arm_kind_0) by done. unfold abs_walk. by rewrite !lookup_empty.
Qed.

(** ** Mapping *)

(** The leaf of level [m] over page [v] after a mapping. *)
Definition put_leaf (m : nat) (v leaf : Z) (A : gmap Z Z * gmap Z Z) : gmap Z Z * gmap Z Z :=
  if (m =? 1)%nat then (<[v := leaf]> A.1, A.2) else (A.1, <[v / 512 := leaf]> A.2).

(** No leaf or table of the other size is in the way of a leaf of level [m]. *)
Definition no_clash (own : gmap Z (nat * Z)) (A2 : gmap Z Z) (m : nat) (v : Z) : Prop :=
  if (m =? 1)%nat then A2 !! (v / 512) = None else forall t, own !! t <> Some (1%nat, v / 512).

(** What an attempted mapping may do; [r] is the C result. *)
Record s2_step (h : host) (s : relm_stage2) (own : gmap Z (nat * Z)) (A4 A2 : gmap Z Z) (m : nat) (v leaf r : Z)
    (h' : host) (s' : relm_stage2) (own' : gmap Z (nat * Z)) : Prop := S2Step {
  st_ok : let A := if r =? 0 then put_leaf m v leaf (A4, A2) else (A4, A2) in s2_ok h' s' own' A.1 A.2;
  st_same : exists st, s' = set_s2_stats s st;
  st_mono : own ⊆ own';
  st_code : r = 0 \/ r = - ENOMEM /\ exists k u, page_choice k u = None;
  st_live : h_live h' = h_live h ∪ dom own';
  st_new t : t ∈ dom own' -> t ∈ dom own \/ t ∉ h_live h;
  st_tables t x : own' !! t = Some x -> own !! t = Some x \/ (m <= fst x)%nat /\ snd x = prefix (fst x) v
}.

Lemma prefix_1 v : prefix 1 v = v / 512.
Proof. done. Qed.

Lemma leaf_kind m pa flags : (m = 1%nat \/ m = 2%nat) -> s2_page_aligned pa = true -> 0 <= pa < 2 ^ 48 -> flags_ok flags ->
  arm_kind m (s2_leaf_entry pa flags (4 - Z.of_nat m)) = KLeaf.
Proof.
  intros Hm Al R F. destruct (leaf_fields pa flags (4 - Z.of_nat m) Al R F) as (_ & _ & T).
  destruct Hm as [-> | ->]; [change (4 - Z.of_nat 1) with 3 in *|change (4 - Z.of_nat 2) with 2 in *];
    unfold arm_kind, s2_is_table; rewrite T.
  - rewrite is_table_valid; [done|]. unfold s2_is_table. by rewrite T.
  - assert (flag (s2_leaf_entry pa flags 2) S2_DESC_VALID = true) as ->; [|done].
    unfold s2_leaf_entry. rewrite flag_lor. apply orb_true_r.
Qed.

(** The walk of the tables with one more leaf. *)
Lemma abs_walk_put A4 A2 m v leaf v' : (m = 1%nat \/ m = 2%nat) -> (m = 1%nat -> A2 !! (v / 512) = None) ->
  (if decide (prefix (m - 1) v' = prefix (m - 1) v) then Some (m, leaf) else abs_walk A4 A2 v') =
  abs_walk (put_leaf m v leaf (A4, A2)).1 (put_leaf m v leaf (A4, A2)).2 v'.
Proof.
  unfold abs_walk, put_leaf. intros [-> | ->] N; cbn [Nat.eqb fst snd Nat.sub].
  - rewrite !prefix_0. case_decide as E.
    + subst. by rewrite N, lookup_insert_eq by done.
    + by rewrite lookup_insert_ne by done.
  - rewrite !prefix_1, lookup_insert. repeat case_decide; congruence.
Qed.

Lemma map_size_le (A : gmap Z Z) B : 0 <= B -> (forall v, v ∈ dom A -> 0 <= v < B) -> Z.of_nat (size A) <= B.
Proof.
  intros HB H. rewrite <- size_dom. assert (dom A ⊆ list_to_set (seqZ 0 B)) as S.
  { intros v Hv%H. apply elem_of_list_to_set, elem_of_seqZ. lia. }
  apply subseteq_size in S. rewrite size_list_to_set in S by apply NoDup_seqZ. rewrite length_seqZ in S. lia.
Qed.

Lemma sizes h s own A4 A2 : s2_ok h s own A4 A2 -> Z.of_nat (size A4) <= 2 ^ 36 /\ Z.of_nat (size A2) <= 2 ^ 27.
Proof.
  intros O. destruct (levels_facts _ (so_geo _ _ _ _ _ O)) as ([L|L] & _); split; apply map_size_le; try lia; intros v Hv.
  all: try (apply (so_pages _ _ _ _ _ O) in Hv as [Hv _]; rewrite L in Hv; lia).
  all: apply (so_blocks _ _ _ _ _ O) in Hv; rewrite L in Hv; cbn in Hv; lia.
Qed.

Definition s2_counts (st : pt_stats) (A : gmap Z Z * gmap Z Z) : Prop :=
  pages_4kb st = Z.of_nat (size A.1) /\ pages_2mb st = Z.of_nat (size A.2) /\
  total_mapped st = 4096 * Z.of_nat (size A.1) + 2 ^ 21 * Z.of_nat (size A.2).

Definition leaf_at (m : nat) (v : Z) (A : gmap Z Z * gmap Z Z) : option Z :=
  if (m =? 1)%nat then A.1 !! v else A.2 !! (v / 512).

Lemma s2_counts_put st A4 A2 m v leaf : (m = 1%nat \/ m = 2%nat) -> Z.of_nat (size A4) <= 2 ^ 36 -> Z.of_nat (size A2) <= 2 ^ 27 ->
  s2_counts st (A4, A2) ->
  s2_counts (if bool_decide (is_Some (leaf_at m v (A4, A2))) then st else s2_bump st (4 - Z.of_nat m)) (put_leaf m v leaf (A4, A2)).
Proof.
  intros Hm B4 B2 (C4 & C2 & Ct). cbn [fst snd] in *. unfold leaf_at, put_leaf, s2_counts.
  destruct Hm as [-> | ->]; cbn [Nat.eqb fst snd]; case_bool_decide as S.
  - destruct S as [x Hx]. rewrite map_size_insert_Some by (by rewrite Hx). done.
  - apply eq_None_not_Some in S. rewrite map_size_insert_None by done.
    change (s2_bump st (4 - Z.of_nat 1)) with (PtStats (u64 (pages_4kb st + 1)) (pages_2mb st) (pages_1gb st) (u64 (total_mapped st + 4096))).
    cbn [pages_4kb pages_2mb total_mapped]. rewrite C4, C2, Ct, !u64_small by lia. lia.
  - destruct S as [x Hx]. rewrite map_size_insert_Some by (by rewrite Hx). done.
  - apply eq_None_not_Some in S. rewrite map_size_insert_None by done.
    change (s2_bump st (4 - Z.of_nat 2)) with (PtStats (pages_4kb st) (u64 (pages_2mb st + 1)) (pages_1gb st) (u64 (total_mapped st + 2 ^ 21))).
    cbn [pages_4kb pages_2mb total_mapped]. rewrite C4, C2, Ct, !u64_small by lia. lia.
Qed.

(** A leaf of level [m] in the way of the walk, and the valid bit of its entry. *)
Lemma walk_at_level h s own A4 A2 m v t : s2_ok h s own A4 A2 -> 0 <= v < 512 ^ Z.of_nat (s2_levels s) ->
  (m = 1%nat \/ m = 2%nat) -> no_clash own A2 m v -> path arm_kind h v (s2_levels s) (s2_root s) m t ->
  (forall c, arm_kind m (rd64 h t (slot (m - 1) v)) <> KTable c) /\
  flag (rd64 h t (slot (m - 1) v)) S2_DESC_VALID = bool_decide (is_Some (leaf_at m v (A4, A2))).
Proof.
  intros O Hv Hm Nc P. pose proof (so_wf _ _ _ _ _ O) as W.
  pose proof (path_own _ _ _ _ _ W _ _ _ _ _ (root_own _ _ _ _ _ W _ Hv) P) as Ht.
  assert (forall c, arm_kind m (rd64 h t (slot (m - 1) v)) <> KTable c) as Nt.
  { destruct Hm as [-> | ->]; [intros c; apply arm_kind_1|]. intros c K.
    destruct (wf_child _ _ _ _ _ W _ _ _ _ _ Ht (slot_range 1 v) K) as (n & [= <-] & Hc).
    cbn [no_clash Nat.eqb] in Nc. rewrite <- prefix_slot, prefix_1 in Hc. by apply (Nc c). }
  split; [done|]. pose proof (so_walk _ _ _ _ _ O v Hv) as E. rewrite (path_walk _ _ _ _ _ _ _ P) in E.
  destruct (so_clean _ _ _ _ _ O t m _ (slot (m - 1) v) Ht) as [Z0|K].
  - rewrite Z0. change (flag 0 S2_DESC_VALID) with false. symmetry. apply bool_decide_eq_false_2.
    destruct Hm as [-> | ->]; cbn [walk Nat.sub] in E, Z0; rewrite Z0 in E; cbn in E; unfold abs_walk, leaf_at in *; cbn [Nat.eqb fst snd no_clash] in *.
    + rewrite Nc in E. intros [x Hx]. by rewrite Hx in E.
    + intros [x Hx]. by rewrite Hx in E.
  - assert (arm_kind m (rd64 h t (slot (m - 1) v)) = KLeaf) as Kl
      by (destruct (arm_kind m _) as [|c|] eqn:Ek; [done|by destruct (Nt c)|done]).
    assert (flag (rd64 h t (slot (m - 1) v)) S2_DESC_VALID = true) as -> by (unfold arm_kind in Kl; by destruct (flag _ _)).
    symmetry. apply bool_decide_eq_true_2.
    destruct Hm as [-> | ->]; cbn [walk Nat.sub] in E, Kl; rewrite Kl in E; unfold abs_walk, leaf_at in *; cbn [Nat.eqb fst snd no_clash] in *.
    + rewrite Nc in E. destruct (A4 !! v); [by eexists|done].
    + destruct (A2 !! (v / 512)); [by eexists|]. by destruct (A4 !! v).
Qed.

Lemma ok_descended h s own A4 A2 h' own' : s2_ok h s own A4 A2 ->
  descended arm_kind h h' own own' (s2_root s) (s2_levels s) -> s2_ok h' s own' A4 A2.
Proof.
  intros [G W Cv Cl Wk Pg Bl Af St] (W' & _ & _ & _ & _ & Cv' & Cl' & E). split; auto.
  intros v Hv. rewrite E by done. by apply Wk.
Qed.

(** Writing a leaf at the end of the descent. *)
Lemma ok_put h s own A4 A2 m v t leaf : s2_ok h s own A4 A2 -> 0 <= v < 512 ^ Z.of_nat (s2_levels s) ->
  (m = 1%nat \/ m = 2%nat) -> no_clash own A2 m v -> path arm_kind h v (s2_levels s) (s2_root s) m t ->
  arm_kind m leaf = KLeaf -> flag leaf S2_AF = true ->
  let s' := if flag (rd64 h t (slot (m - 1) v)) S2_DESC_VALID then s else set_s2_stats s (s2_bump (s2_stats s) (4 - Z.of_nat m)) in
  s2_ok (wr64 h t (slot (m - 1) v) leaf) s' own (put_leaf m v leaf (A4, A2)).1 (put_leaf m v leaf (A4, A2)).2.
Proof.
  intros O Hv Hm Nc P Kl Af s'. pose proof (so_wf _ _ _ _ _ O) as W.
  pose proof (path_own _ _ _ _ _ W _ _ _ _ _ (root_own _ _ _ _ _ W _ Hv) P) as Ht.
  destruct (walk_at_level _ _ _ _ _ _ _ _ O Hv Hm Nc P) as [Nt Vb]. destruct (sizes _ _ _ _ _ O) as [B4 B2].
  pose proof (s2_counts_put (s2_stats s) A4 A2 m v leaf Hm B4 B2 (so_stats _ _ _ _ _ O)) as Ct. rewrite <- Vb in Ct.
  assert (s2_stats s' = if flag (rd64 h t (slot (m - 1) v)) S2_DESC_VALID then s2_stats s else s2_bump (s2_stats s) (4 - Z.of_nat m))
    as Es by (unfold s'; destruct (flag (rd64 h t (slot (m - 1) v)) S2_DESC_VALID); reflexivity).
  assert (s2_root s' = s2_root s /\ s2_geometry s' = s2_geometry s) as [Er Eg]
    by (unfold s'; destruct (flag (rd64 h t (slot (m - 1) v)) S2_DESC_VALID); split; reflexivity).
  assert (s2_levels s' = s2_levels s) as El by (unfold s2_levels; by rewrite Eg).
  rewrite <- Es in Ct. clearbody s'.
  assert (m = S (m - 1)) as Sm by lia.
  split; rewrite ?Er, ?Eg, ?El.
  - apply O.
  - by eapply wf_write_leaf; [exact W|exact Ht|].
  - by eapply covered_write; [exact Ht|apply O|].
  - intros t' n' p' i' Hl. rewrite rd64_wr64. case_decide as E; [|by eapply (so_clean _ _ _ _ _ O)].
    destruct E as [-> ->]. rewrite Ht in Hl. injection Hl as <- _. right. by rewrite Kl.
  - intros v' Hv'. rewrite <- abs_walk_put; [|done|intros ->; exact Nc].
    rewrite Sm in P, Kl. rewrite (walk_set _ _ _ _ _ W _ _ _ _ _ Hv Hv' P) by (by rewrite Kl). rewrite Kl, <- Sm.
    case_decide; [done|]. by apply O.
  - intros v' Hd. unfold put_leaf, no_clash in *. destruct Hm as [-> | ->]; cbn [Nat.eqb fst snd] in *.
    + rewrite dom_insert_L in Hd. apply elem_of_union in Hd as [->%elem_of_singleton|Hd]; [done|by apply O].
    + destruct (so_pages _ _ _ _ _ O _ Hd) as [Hr Hn]. split; [done|]. rewrite lookup_insert_ne; [done|]. intros Eb.
      apply elem_of_dom in Hd as [x Hx]. pose proof (so_walk _ _ _ _ _ O v' Hr) as E. unfold abs_walk in E. rewrite Hn, Hx in E.
      rewrite (path_walk _ _ _ _ _ _ _ (path_prefix _ _ _ _ _ _ _ _ P (prefix_S 1 _ _ Eb : prefix 2 v = prefix 2 v'))) in E.
      cbn [walk Nat.sub] in E, Nt. rewrite <- (prefix_slot_eq 1 v v' Eb) in E.
      destruct (arm_kind 2 (rd64 h t (slot 1 v))) eqn:K; [done|by destruct (Nt c)|discriminate E].
  - intros b Hb. unfold put_leaf in Hb. destruct Hm as [-> | ->]; cbn [Nat.eqb fst snd] in *; [by apply O|].
    rewrite dom_insert_L in Hb. apply elem_of_union in Hb as [->%elem_of_singleton|Hb]; [|by apply O].
    destruct (levels_facts _ (so_geo _ _ _ _ _ O)) as ([L|L] & _); rewrite L in *; cbn in *; zdm.
  - unfold put_leaf. destruct (so_af _ _ _ _ _ O). destruct Hm as [-> | ->]; cbn [Nat.eqb fst snd]; split; try done; by apply map_Forall_insert_2.
  - exact Ct.
Qed.

Lemma no_clash_mono own own' A2 m v : no_clash own A2 m v ->
  (forall t x, own' !! t = Some x -> own !! t = Some x \/ (m <= fst x)%nat /\ snd x = prefix (fst x) v) -> (m = 1%nat \/ m = 2%nat) -> no_clash own' A2 m v.
Proof.
  unfold no_clash. intros N L [-> | ->]; [done|]. cbn [Nat.eqb] in *. intros t [H|[H _]]%L; [by apply (N t)|cbn in H; lia].
Qed.

Lemma map_one_spec h s own A4 A2 m ipa pa flags r h' s' : s2_ok h s own A4 A2 -> (m = 1%nat \/ m = 2%nat) ->
  0 <= ipa < 2 ^ ipa_bits (s2_geometry s) -> s2_page_aligned pa = true -> 0 <= pa < 2 ^ 48 -> flags_ok flags ->
  no_clash own A2 m (vpn ipa) -> s2_map_one h s ipa pa flags (4 - Z.of_nat m) = (r, h', s') ->
  exists own', s2_step h s own A4 A2 m (vpn ipa) (s2_leaf_entry pa flags (4 - Z.of_nat m)) r h' s' own'.
Proof.
  intros O Hm Hi Al Hp Fl Nc. pose proof (so_geo _ _ _ _ _ O) as Gv. destruct (ipa_page _ _ Gv Hi) as [_ Hv].
  destruct (levels_facts _ Gv) as (Ln & Ls & _). unfold s2_map_one. rewrite Ls.
  replace (Z.to_nat (4 - Z.of_nat m - (4 - Z.of_nat (s2_levels s)))) with (s2_levels s - m)%nat by lia.
  replace (4 - Z.of_nat (s2_levels s)) with (4 - Z.of_nat (s2_levels s - m + m)) by lia.
  rewrite s2_descend_eq by lia. destruct (descend _ _ _ _ _ _ _ _) as [o h1] eqn:D.
  assert (forall n e, walk arm_kind (s2_levels s) h (s2_root s) (vpn ipa) = Some (n, e) -> (n <= m)%nat) as Lw.
  { intros n e. rewrite (so_walk _ _ _ _ _ O) by done. unfold abs_walk, no_clash in *. destruct Hm as [-> | ->]; cbn [Nat.eqb] in *.
    - rewrite Nc. destruct (A4 !! _); intros [=]; lia.
    - destruct (A2 !! _); [intros [=]; lia|]. destruct (A4 !! _); intros [=]; lia. }
  assert (path arm_kind h (vpn ipa) (s2_levels s) (s2_root s) (s2_levels s - m + m) (s2_root s)) as Pr
    by (replace (s2_levels s - m + m)%nat with (s2_levels s) by lia; apply path_refl).
  destruct (descend_spec arm_kind _ _ _ arm_kind_0 _ m _ own _ _ _ _ _ _ arm_format ltac:(lia) (so_wf _ _ _ _ _ O) Lw Hv Pr D)
    as (own1 & D1 & Lv & Pt & Pn).
  pose proof (ok_descended _ _ _ _ _ _ _ O D1) as O1. pose proof (no_clash_mono _ _ _ _ _ Nc Lv Hm) as Nc1.
  destruct D1 as (_ & S1 & L1 & F1 & _). destruct o as [t|].
  - intros [[<- <-]%pair_eq <-]%pair_eq. exists own1. specialize (Pt _ eq_refl).
    assert (s2_index ipa (4 - Z.of_nat m) = slot (m - 1) (vpn ipa)) as ->
      by (rewrite <- s2_index_slot by lia; f_equal; lia).
    split; [|destruct (flag _ _); [exists (s2_stats s); by destruct s|by eexists]|done|by left|done|done|done]. cbv zeta. change (0 =? 0) with true. cbv iota.
    apply ok_put; try done; [by apply leaf_kind|]. by apply leaf_fields.
  - intros [[<- <-]%pair_eq <-]%pair_eq. exists own1. split; [|exists (s2_stats s); by destruct s|done|right; split; [done|by apply Pn]|done|done|done].
    change (- ENOMEM =? 0) with false. exact O1.
Qed.

(** ** What the guest sees *)
Lemma translate_abs h s own A4 A2 ipa : s2_ok h s own A4 A2 -> 0 <= ipa < 2 ^ ipa_bits (s2_geometry s) ->
  s2_translate h s ipa =
    (fun '(n, e) => s2_addr e / leaf_size n * leaf_size n + ipa mod leaf_size n) <$> abs_walk A4 A2 (vpn ipa).
Proof.
  intros O Hi. destruct (ipa_page _ _ (so_geo _ _ _ _ _ O) Hi) as [_ Hv]. unfold s2_translate.
  rewrite (proj2 (Z.leb_le _ _)), (proj2 (Z.ltb_lt _ _)) by lia. cbn [andb]. rewrite (so_walk _ _ _ _ _ O) by done.
  destruct (so_af _ _ _ _ _ O) as [F4 F2]. unfold abs_walk. destruct (A2 !! _) as [e|] eqn:E2.
  - by rewrite (F2 _ _ E2).
  - destruct (A4 !! _) as [e|] eqn:E4; [|done]. cbn. by rewrite (F4 _ _ E4).
Qed.

Lemma leaf_size_1 : leaf_size 1 = 4096. Proof. done. Qed.
Lemma leaf_size_2 : leaf_size 2 = 2 ^ 21. Proof. done. Qed.
End Correct.

(** ** The interface *)
Definition map_leaf `{PA : PageAlloc} (huge : bool) : host -> option relm_stage2 -> Z -> Z -> Z -> Z * host * option relm_stage2 :=
  if huge then relm_stage2_map_huge_page else relm_stage2_map_page.
Definition map_size (huge : bool) : Z := if huge then 2 ^ 21 else 4096.

(** The arguments the functions accept. *)
Definition map_args (s : relm_stage2) (huge : bool) (ipa pa flags : Z) : Prop :=
  ipa mod map_size huge = 0 /\ pa mod map_size huge = 0 /\ flag flags S2_ACCESS_READ = true /\
  ipa + map_size huge <= 2 ^ ipa_bits (s2_geometry s) /\ pa + map_size huge <= 2 ^ pa_bits (s2_geometry s).

Section Interface.
Context `{PA : PageAlloc} {PAok : S2PageAlloc PA}.

Lemma page_aligned_spec x : s2_page_aligned x = true <-> x mod 4096 = 0.
Proof. exact (PAGE_ALIGNED_spec x). Qed.

Lemma flag_low x : flag x (S2_PAGE_SIZE_2MB - 1) = false <-> x mod 2 ^ 21 = 0.
Proof.
  unfold flag. rewrite negb_false_iff, Z.eqb_eq. change (S2_PAGE_SIZE_2MB - 1) with (2 ^ 21 - 1).
  by rewrite land_ones_mod by lia.
Qed.

Lemma lor_low_zero a b : Z.lor a b mod 2 ^ 21 = 0 <-> a mod 2 ^ 21 = 0 /\ b mod 2 ^ 21 = 0.
Proof.
  rewrite <- !Z.land_ones by lia. rewrite Z.land_lor_distr_l. split; [|intros [-> ->]; done].
  by intros [-> ->]%Z.lor_eq_0_iff.
Qed.

Lemma range_fits_iff a sz bits : 0 <= bits < 64 -> 0 <= a -> 0 < sz -> s2_range_fits a sz bits = true <-> a + sz <= 2 ^ bits.
Proof.
  intros Hb Ha Hs. split; [intros E; by apply range_fits_spec in E as [? _]|]. intros H.
  assert (2 ^ bits < 2 ^ 64) by (apply Z.pow_lt_mono_r; lia). unfold s2_range_fits.
  rewrite Z.shiftl_1_l, (u64_small (2 ^ bits)) by lia. rewrite u64_small by lia.
  rewrite !andb_true_iff, negb_true_iff, Z.eqb_neq, Z.ltb_lt, Z.leb_le. lia.
Qed.

(** The guards of the two functions, and what is left after them. *)
Lemma map_guards h s ipa pa flags level sz : s2_geometry_valid (Some (s2_geometry s)) = true -> 0 <= ipa -> 0 <= pa ->
  s2_level_size level = sz -> 0 < sz ->
  let ok := ipa mod 4096 = 0 /\ pa mod 4096 = 0 /\ flag flags S2_ACCESS_READ = true /\
    ipa + sz <= 2 ^ ipa_bits (s2_geometry s) /\ pa + sz <= 2 ^ pa_bits (s2_geometry s) in
  (ok /\ s2_map h (Some s) ipa pa flags level = (let '(r, h, c) := s2_map_one h s ipa pa flags level in (r, h, Some c))) \/
  (~ ok /\ exists e, (e = - EINVAL \/ e = - ERANGE) /\ s2_map h (Some s) ipa pa flags level = (e, h, Some s)).
Proof.
  intros Gv Hi Hp Ls Hs ok. destruct (geometry_facts _ Gv) as (B1 & _ & B2 & _). unfold s2_map. rewrite Ls.
  pose proof (page_aligned_spec ipa) as A1. pose proof (page_aligned_spec pa) as A2.
  pose proof (range_fits_iff ipa sz (ipa_bits (s2_geometry s)) ltac:(lia) Hi Hs) as R1.
  pose proof (range_fits_iff pa sz (pa_bits (s2_geometry s)) ltac:(lia) Hp Hs) as R2.
  destruct (s2_page_aligned ipa), (s2_page_aligned pa); cbn [negb orb].
  2-4: right; split; [subst ok; intuition congruence|exists (- EINVAL); auto].
  destruct (flag flags S2_ACCESS_READ) eqn:F; cbn [negb].
  2: right; split; [subst ok; intuition congruence|exists (- EINVAL); auto].
  destruct (s2_range_fits ipa sz _), (s2_range_fits pa sz _); cbn [negb orb].
  2-4: right; split; [subst ok; intuition congruence|exists (- ERANGE); auto].
  left. split; [subst ok; intuition auto|done].
Qed.

Lemma map_leaf_unfold h s huge ipa pa flags : s2_geometry_valid (Some (s2_geometry s)) = true -> 0 <= ipa -> 0 <= pa ->
  (map_args s huge ipa pa flags /\ map_leaf huge h (Some s) ipa pa flags =
     (let '(r, h, c) := s2_map_one h s ipa pa flags (if huge then 2 else 3) in (r, h, Some c))) \/
  (~ map_args s huge ipa pa flags /\ exists e, (e = - EINVAL \/ e = - ERANGE) /\ map_leaf huge h (Some s) ipa pa flags = (e, h, Some s)).
Proof.
  intros Gv Hi Hp. unfold map_args, map_size. destruct huge; cbn [map_leaf].
  - unfold relm_stage2_map_huge_page. pose proof (lor_low_zero ipa pa) as L. rewrite <- flag_low in L.
    destruct (flag _ _) eqn:F; [right|].
    + split; [intuition congruence|exists (- EINVAL); auto].
    + destruct L as [L _]. specialize (L eq_refl). destruct L as [L1 L2].
      destruct (map_guards h s ipa pa flags 2 (2 ^ 21) Gv Hi Hp eq_refl ltac:(lia)) as [[(? & ? & ? & ? & ?) E]|[N E]]; [left|right].
      * by split_and!.
      * split; [|done]. intros (? & ? & ? & ? & ?). apply N. split_and!; try done; zdm.
  - exact (map_guards h s ipa pa flags 3 4096 Gv Hi Hp eq_refl ltac:(lia)).
Qed.

Lemma same_leaf huge a b : 0 <= a -> 0 <= b -> b mod map_size huge = 0 ->
  prefix (if huge then 1 else 0) (a / 4096) = prefix (if huge then 1 else 0) (b / 4096) <-> b <= a < b + map_size huge.
Proof. unfold map_size. destruct huge; intros; rewrite ?prefix_1, ?prefix_0; zpow; split; intros; zdm. Qed.

(** The leaf a call writes. *)
Definition map_entry (huge : bool) (pa flags : Z) : Z := s2_leaf_entry pa flags (if huge then 2 else 3).

Lemma map_leaf_spec (huge : bool) h h' s own A4 A2 ipa pa flags r o :
  s2_ok h s own A4 A2 -> 0 <= ipa -> 0 <= pa -> flags_ok flags ->
  no_clash own A2 (if huge then 2 else 1) (vpn ipa) ->
  map_leaf huge h (Some s) ipa pa flags = (r, h', o) ->
  (exists s' own', o = Some s' /\ map_args s huge ipa pa flags /\
     s2_step h s own A4 A2 (if huge then 2 else 1) (vpn ipa) (map_entry huge pa flags) r h' s' own') \/
  (~ map_args s huge ipa pa flags /\ (r = - EINVAL \/ r = - ERANGE) /\ h' = h /\ o = Some s).
Proof.
  intros O Hi Hp Fl Nc. pose proof (so_geo _ _ _ _ _ O) as Gv.
  destruct (map_leaf_unfold h s huge ipa pa flags Gv Hi Hp) as [[Ma ->]|[Na (e & He & ->)]].
  2: { intros [[<- <-]%pair_eq <-]%pair_eq. right. by split_and!. }
  destruct (s2_map_one h s ipa pa flags (if huge then 2 else 3)) as [[r1 h1] s1] eqn:E1. intros [[<- <-]%pair_eq <-]%pair_eq.
  left. pose proof Ma as (M1 & M2 & M3 & M4 & M5). destruct (geometry_facts _ Gv) as (B1 & _ & B2 & _).
  assert (2 ^ pa_bits (s2_geometry s) <= 2 ^ 48) by (apply Z.pow_le_mono_r; lia).
  assert (0 < map_size huge /\ pa mod 4096 = 0) as [Hs Pa4] by (revert M2; unfold map_size; destruct huge; zpow; intros M2; split; zdm).
  assert (0 <= ipa < 2 ^ ipa_bits (s2_geometry s)) as Hi2 by lia. apply page_aligned_spec in Pa4.
  exists s1. unfold map_entry. destruct huge.
  - destruct (map_one_spec h s own A4 A2 2 ipa pa flags r1 h1 s1 O ltac:(auto) Hi2 Pa4 ltac:(lia) Fl Nc E1) as [own' St].
    exists own'. by split_and!.
  - destruct (map_one_spec h s own A4 A2 1 ipa pa flags r1 h1 s1 O ltac:(auto) Hi2 Pa4 ltac:(lia) Fl Nc E1) as [own' St].
    exists own'. by split_and!.
Qed.

(** The translations after a step. *)
Lemma step_translate (huge : bool) h h' s s' own own' A4 A2 ipa pa flags r : s2_ok h s own A4 A2 -> 0 <= ipa -> 0 <= pa -> flags_ok flags ->
  no_clash own A2 (if huge then 2 else 1) (vpn ipa) -> map_args s huge ipa pa flags ->
  s2_step h s own A4 A2 (if huge then 2 else 1) (vpn ipa) (map_entry huge pa flags) r h' s' own' ->
  forall ipa', 0 <= ipa' < 2 ^ ipa_bits (s2_geometry s) -> s2_translate h' s' ipa' =
    if decide (r = 0 /\ ipa <= ipa' < ipa + map_size huge) then Some (pa + (ipa' - ipa)) else s2_translate h s ipa'.
Proof.
  intros O Hi Hp Fl Nc (M1 & M2 & M3 & M4 & M5) St ipa' Hi'. pose proof (so_geo _ _ _ _ _ O) as Gv.
  destruct St as [Ok [st Es] _ _ _ _ _]. cbv zeta in Ok. destruct (geometry_facts _ Gv) as (B1 & _ & B2 & _).
  rewrite (translate_abs _ _ _ _ _ _ Ok) by (by rewrite Es). rewrite (translate_abs _ _ _ _ _ _ O Hi').
  destruct (Z.eqb_spec r 0) as [->|Nr]; [|by rewrite decide_False by tauto].
  assert (2 ^ pa_bits (s2_geometry s) <= 2 ^ 48) by (apply Z.pow_le_mono_r; lia).
  assert (0 < map_size huge /\ pa mod 4096 = 0) as [Hs Pa4] by (revert M2; unfold map_size; destruct huge; zpow; intros M2; split; zdm).
  rewrite <- abs_walk_put; [|destruct huge; auto|destruct huge; [done|intros _; exact Nc]].
  assert (0 <= ipa < 2 ^ ipa_bits (s2_geometry s)) as Hi2 by lia.
  destruct (ipa_page _ _ Gv Hi') as [-> _], (ipa_page _ _ Gv Hi2) as [-> _].
  replace ((if huge then 2 else 1) - 1)%nat with (if huge then 1 else 0)%nat by (by destruct huge).
  pose proof (same_leaf huge ipa' ipa ltac:(lia) ltac:(lia) M1) as Sl. apply page_aligned_spec in Pa4.
  destruct (leaf_fields pa flags (if huge then 2 else 3) Pa4 ltac:(lia) Fl) as [Ea _].
  repeat case_decide; [|tauto|tauto|done]. cbn [fmap option_fmap option_map]. unfold map_entry. rewrite Ea. f_equal.
  replace (leaf_size (if huge then 2 else 1)) with (map_size huge) by (by destruct huge).
  assert (ipa <= ipa' < ipa + map_size huge) as Hr by tauto. clear -M1 M2 Hr. unfold map_size in *. destruct huge; zpow; zdm.
Qed.

(** Mapping a page or a block does exactly that: in a context in good order, the
    call succeeds on good arguments unless the kernel is out of pages and refuses all
    others; after a success the guest reaches [pa + offset] at every address of the
    leaf, no other address changes, and the context stays in good order with exact
    statistics; after any failure the guest sees no change.  A leaf of the other size,
    or for a block a page table, must not be in the way. *)
Theorem stage2_map_correct (huge : bool) (h h' : host) (s : relm_stage2) (own : gmap Z (nat * Z)) (A4 A2 : gmap Z Z)
    (ipa pa flags r : Z) (o : option relm_stage2) :
  s2_ok h s own A4 A2 -> 0 <= ipa -> 0 <= pa -> flags_ok flags ->
  no_clash own A2 (if huge then 2 else 1) (vpn ipa) ->
  map_leaf huge h (Some s) ipa pa flags = (r, h', o) ->
  exists s' own' A4' A2', o = Some s' /\ s2_ok h' s' own' A4' A2' /\
    (r = 0 -> map_args s huge ipa pa flags) /\
    (map_args s huge ipa pa flags -> r = 0 \/ r = - ENOMEM /\ exists k u, page_choice k u = None) /\
    (forall ipa', 0 <= ipa' < 2 ^ ipa_bits (s2_geometry s) -> s2_translate h' s' ipa' =
       if decide (r = 0 /\ ipa <= ipa' < ipa + map_size huge) then Some (pa + (ipa' - ipa)) else s2_translate h s ipa').
Proof.
  intros O Hi Hp Fl Nc E.
  destruct (map_leaf_spec _ _ _ _ _ _ _ _ _ _ _ _ O Hi Hp Fl Nc E) as [(s' & own' & -> & Ma & St)|(Na & Hr & -> & ->)].
  - exists s', own'. do 2 eexists. split_and!; [done|apply St|done|intros _; apply St|].
    exact (step_translate _ _ _ _ _ _ _ _ _ _ _ _ _ O Hi Hp Fl Nc Ma St).
  - exists s, own, A4, A2. split_and!; try done; [intros ->; destruct Hr; discriminate|].
    intros ipa' _. rewrite decide_False; [done|]. intros [-> _]. destruct Hr; discriminate.
Qed.
End Interface.

(** ** The software walk *)
Lemma high_mask x j : 0 <= x < 2 ^ 64 -> 0 <= j <= 64 -> Z.land x (u64 (Z.lnot (2 ^ j - 1))) = x / 2 ^ j * 2 ^ j.
Proof.
  intros Hx Hj. assert (0 < 2 ^ j <= 2 ^ 64) as [Hp Hq] by (split; [lia|apply Z.pow_le_mono_r; lia]).
  rewrite <- Z.shiftr_div_pow2, <- Z.shiftl_mul_pow2 by lia. apply Z.bits_inj'. intros n Hn. unfold u64.
  rewrite Z.land_spec, Z.shiftl_spec, Z.testbit_mod_pow2 by lia.
  destruct (Z.ltb_spec n 64).
  - rewrite Z.lnot_spec by done. replace (2 ^ j - 1) with (Z.ones j) by (rewrite Z.ones_equiv; lia).
    destruct (Z.ltb_spec n j).
    + rewrite Z.ones_spec_low, (Z.testbit_neg_r _ (n - j)) by lia. by rewrite andb_false_r.
    + rewrite Z.ones_spec_high, Z.shiftr_spec by lia. rewrite andb_true_r. f_equal. lia.
  - rewrite andb_false_r. destruct (Z.ltb_spec n j); [by rewrite Z.testbit_neg_r by lia|].
    rewrite Z.shiftr_spec by lia. symmetry. apply (testbit_small _ 64); lia.
Qed.

Lemma leaf_size_pow n : (1 <= n)%nat -> leaf_size n = 2 ^ (12 + 9 * (Z.of_nat n - 1)).
Proof.
  intros Hn. unfold leaf_size. change 512 with (2 ^ 9). rewrite <- Z.pow_mul_r by lia. rewrite Z.pow_add_r by lia. done.
Qed.

Lemma level_size_leaf n : (1 <= n <= 4)%nat -> s2_level_size (4 - Z.of_nat n) = leaf_size n.
Proof. intros Hn. do 5 (destruct n as [|n]; [try lia; reflexivity|]). lia. Qed.

Lemma valid_types e : flag e S2_DESC_VALID = true -> s2_is_table e = false -> s2_type e = S2_DESC_BLOCK.
Proof.
  intros V T. unfold s2_is_table, s2_type, flag, S2_DESC_TYPE_MASK, S2_DESC_BLOCK, S2_DESC_TABLE, S2_DESC_VALID in *.
  apply Z.eqb_neq in T. apply negb_true_iff, Z.eqb_neq in V.
  rewrite (Z.land_ones e 2 ltac:(lia) : Z.land e 3 = _) in *. rewrite (Z.land_ones e 1 ltac:(lia) : Z.land e 1 = _) in V. zpow. zdm.
Qed.

Section Lookup.
Context `{PA : PageAlloc} {PAok : S2PageAlloc PA}.

Lemma walk_found h own root N n t ipa : wf arm_kind h own root N -> clean arm_kind h own ->
  (n <= 4)%nat -> own !! t = Some (n, prefix n (vpn ipa)) -> 0 <= ipa < 2 ^ 64 ->
  s2_walk n (4 - Z.of_nat n) h t ipa =
    match walk arm_kind n h t (vpn ipa) with
    | Some (k, e) => inr (s2_addr e / leaf_size k * leaf_size k, ipa / leaf_size k * leaf_size k, leaf_size k)
    | None => inl (- ENOENT)
    end.
Proof.
  intros W Cl Hn Ht Hi. revert t Hn Ht. induction n as [|n IH]; intros t Hn Ht; [done|].
  cbn [s2_walk walk]. replace (4 - Z.of_nat (S n)) with (3 - Z.of_nat n) by lia. rewrite s2_index_slot by lia.
  set (e := rd64 h t (slot n (vpn ipa))). assert (e = 0 \/ arm_kind (S n) e <> KNone) as Ce by (by eapply Cl).
  destruct (Z.eqb_spec e 0) as [->|N0]; [done|]. destruct Ce as [|Ce]; [done|].
  assert (0 <= s2_addr e < 2 ^ 64) as Ra.
  { rewrite addr_mask. pose proof (Z.mod_pos_bound (e / 4096) (2 ^ 36) ltac:(lia)). lia. }
  assert (forall k, (1 <= k)%nat -> (k <= 4)%nat -> s2_level_size (4 - Z.of_nat k) = leaf_size k /\
    Z.land (s2_addr e) (u64 (Z.lnot (leaf_size k - 1))) = s2_addr e / leaf_size k * leaf_size k /\
    Z.land ipa (u64 (Z.lnot (leaf_size k - 1))) = ipa / leaf_size k * leaf_size k) as Mk.
  { intros k H1 H4. rewrite level_size_leaf by lia. rewrite leaf_size_pow by done. by rewrite !high_mask by lia. }
  destruct (Mk (S n) ltac:(lia) Hn) as (Ls & M1 & M2). replace (4 - Z.of_nat (S n)) with (3 - Z.of_nat n) in Ls by lia.
  change (Z.land e S2_PAGE_ADDR_MASK) with (s2_addr e). rewrite Ls, M1, M2.
  change (s2_type e =? S2_DESC_TABLE) with (s2_is_table e). change (s2_type e =? S2_DESC_PAGE) with (s2_is_table e).
  destruct (s2_is_table e) eqn:T.
  - destruct n as [|n].
    + assert (arm_kind 1 e = KLeaf) as -> by (unfold arm_kind; by rewrite (is_table_valid _ T), T). done.
    + rewrite kind_of_table by (done || lia).
      rewrite (proj2 (Z.ltb_lt _ _)) by lia. cbn [andb]. replace (3 - Z.of_nat (S n) + 1) with (4 - Z.of_nat (S n)) by lia.
      apply IH; [lia|]. destruct (wf_child _ _ _ _ _ W _ _ _ _ _ Ht (slot_range (S n) _) (kind_of_table (S (S n)) _ ltac:(lia) T))
        as (j & [= <-] & ->). by rewrite <- prefix_slot.
  - assert (flag e S2_DESC_VALID = true) as V by (unfold arm_kind in Ce; by destruct (flag e S2_DESC_VALID)).
    rewrite (valid_types _ V T). rewrite andb_false_r. unfold arm_kind in *. rewrite V, T in *. cbn [negb] in *.
    destruct n as [|[|[|n]]]; [done|reflexivity|reflexivity|done].
Qed.

(** The software look-up agrees with the hardware: for every address of the space,
    [relm_stage2_get_mapping] returns the address the guest's access is translated to,
    or -ENOENT when the access faults. *)
Theorem stage2_get_mapping_correct (h : host) (s : relm_stage2) (own : gmap Z (nat * Z)) (A4 A2 : gmap Z Z) (ipa : Z) :
  s2_ok h s own A4 A2 -> 0 <= ipa < 2 ^ ipa_bits (s2_geometry s) ->
  relm_stage2_get_mapping h (Some s) ipa true =
    match s2_translate h s ipa with Some pa => inr pa | None => inl (- ENOENT) end.
Proof.
  intros O Hi. pose proof (so_geo _ _ _ _ _ O) as Gv. destruct (ipa_page _ _ Gv Hi) as [_ Hv].
  destruct (levels_facts _ Gv) as (Ln & Ls & _). destruct (geometry_facts _ Gv) as (B1 & _).
  assert (2 ^ ipa_bits (s2_geometry s) <= 2 ^ 48) by (apply Z.pow_le_mono_r; lia).
  pose proof (so_wf _ _ _ _ _ O) as W. unfold relm_stage2_get_mapping, s2_walk_ctx. cbn [negb]. rewrite Ls.
  replace (Z.to_nat (S2_LEVELS - (4 - Z.of_nat (s2_levels s)))) with (s2_levels s) by (unfold S2_LEVELS; lia).
  assert (s2_levels s <= 4)%nat as L4 by lia.
  rewrite (walk_found _ _ _ _ _ _ _ W (so_clean _ _ _ _ _ O) L4 (root_own _ _ _ _ _ W _ Hv)) by lia.
  rewrite (translate_abs _ _ _ _ _ _ O Hi), (so_walk _ _ _ _ _ O) by done.
  assert (forall n e, (n = 1%nat \/ n = 2%nat) ->
    u64 (s2_addr e / leaf_size n * leaf_size n + (ipa - ipa / leaf_size n * leaf_size n)) =
    s2_addr e / leaf_size n * leaf_size n + ipa mod leaf_size n) as Eq.
  { intros n e Hn. rewrite u64_small.
    - rewrite (Z.mod_eq ipa) by (destruct Hn as [-> | ->]; done). lia.
    - rewrite addr_mask. pose proof (Z.mod_pos_bound (e / 4096) (2 ^ 36) ltac:(lia)) as Hb.
      destruct Hn as [-> | ->]; [rewrite leaf_size_1|rewrite leaf_size_2; zpow]; zdm. }
  unfold abs_walk. destruct (A2 !! _); cbn; [by rewrite Eq by auto|]. destruct (A4 !! _); cbn; [by rewrite Eq by auto|done].
Qed.
End Lookup.

(** ** Unmapping *)
Definition drop_leaf (m : nat) (v : Z) (A : gmap Z Z * gmap Z Z) : gmap Z Z * gmap Z Z :=
  if (m =? 1)%nat then (delete v A.1, A.2) else (A.1, delete (v / 512) A.2).

Lemma leaf_size_inj n k : (1 <= n <= 4)%nat -> (1 <= k <= 4)%nat -> leaf_size n = leaf_size k -> n = k.
Proof. intros Hn Hk. rewrite !leaf_size_pow by lia. intros E%Z.pow_inj_r; lia. Qed.

(** The second descent finds the table of the leaf the walk found. *)
Lemma leaf_table_found h own root N n t ipa k e fuel : wf arm_kind h own root N -> (n <= 4)%nat -> (n <= fuel)%nat ->
  own !! t = Some (n, prefix n (vpn ipa)) -> walk arm_kind n h t (vpn ipa) = Some (k, e) ->
  exists t', s2_leaf_table fuel (4 - Z.of_nat n) h t ipa (leaf_size k) = Some (t', 4 - Z.of_nat k) /\
    path arm_kind h (vpn ipa) n t k t' /\ (1 <= k)%nat /\ rd64 h t' (slot (k - 1) (vpn ipa)) = e /\ arm_kind k e = KLeaf.
Proof.
  intros W. revert t fuel. induction n as [|n IH]; intros t fuel Hn Hf Ht; [done|]. cbn [walk].
  destruct (arm_kind (S n) _) as [|c|] eqn:K; [done| |].
  - intros Hw. pose proof (kind_table_inv _ _ _ K) as [_ ->].
    destruct (wf_child _ _ _ _ _ W _ _ _ _ _ Ht (slot_range n _) K) as (j & [= <-] & Hc). rewrite <- prefix_slot in Hc.
    destruct fuel as [|fuel]; [lia|]. destruct (IH _ fuel ltac:(lia) ltac:(lia) Hc Hw) as (t' & E & P & H1 & Q).
    exists t'. split_and!; try done; [|by eapply path_step|by destruct Q..]. pose proof (path_level _ _ _ _ _ _ _ P).
    cbn [s2_leaf_table]. rewrite level_size_leaf by lia. rewrite (proj2 (Z.eqb_neq _ _)).
    + replace (4 - Z.of_nat (S n)) with (3 - Z.of_nat n) by lia. rewrite s2_index_slot by lia.
      by replace (3 - Z.of_nat n + 1) with (4 - Z.of_nat n) by lia.
    + intros Es%leaf_size_inj; lia.
  - intros [= <- <-]. exists t. split_and!; [|apply path_refl|lia| |done].
    + destruct fuel; cbn [s2_leaf_table]; rewrite level_size_leaf, Z.eqb_refl by lia; done.
    + by replace (S n - 1)%nat with n by lia.
Qed.

Section Unmap.
Context `{PA : PageAlloc} {PAok : S2PageAlloc PA}.

Lemma abs_walk_drop A4 A2 m v v' : (m = 1%nat \/ m = 2%nat) -> is_Some (leaf_at m v (A4, A2)) ->
  (forall u, u ∈ dom A4 -> A2 !! (u / 512) = None) ->
  (if decide (prefix (m - 1) v' = prefix (m - 1) v) then None else abs_walk A4 A2 v') =
  abs_walk (drop_leaf m v (A4, A2)).1 (drop_leaf m v (A4, A2)).2 v'.
Proof.
  unfold abs_walk, drop_leaf, leaf_at. intros [-> | ->] [x Hx] Dj; cbn [Nat.eqb fst snd Nat.sub] in *.
  - rewrite !prefix_0. case_decide as E.
    + subst. rewrite (Dj v) by (apply elem_of_dom; by eexists). by rewrite lookup_delete_eq.
    + by rewrite lookup_delete_ne by done.
  - rewrite !prefix_1. case_decide as E.
    + rewrite E, lookup_delete_eq. destruct (A4 !! v') eqn:E4; [|done].
      assert (A2 !! (v' / 512) = None) as N by (apply Dj, elem_of_dom; by eexists). congruence.
    + by rewrite lookup_delete_ne by done.
Qed.

Lemma s2_counts_drop st A4 A2 m v : (m = 1%nat \/ m = 2%nat) -> is_Some (leaf_at m v (A4, A2)) ->
  Z.of_nat (size A4) <= 2 ^ 36 -> Z.of_nat (size A2) <= 2 ^ 27 -> s2_counts st (A4, A2) ->
  s2_counts (s2_drop st (4 - Z.of_nat m) (leaf_size m)) (drop_leaf m v (A4, A2)).
Proof.
  unfold leaf_at, drop_leaf, s2_counts. intros Hm S B4 B2 (C4 & C2 & Ct). cbn [fst snd] in *.
  destruct Hm as [-> | ->]; cbn [Nat.eqb fst snd] in *; rewrite map_size_delete_Some by done.
  - assert (size A4 <> 0)%nat as N by (intros N%map_size_empty_inv; subst; destruct S as [x Hx]; by rewrite lookup_empty in Hx).
    change (s2_drop st (4 - Z.of_nat 1) (leaf_size 1)) with
      (PtStats (u64 (pages_4kb st - 1)) (pages_2mb st) (pages_1gb st) (u64 (total_mapped st - 4096))).
    cbn [pages_4kb pages_2mb total_mapped]. rewrite C4, C2, Ct, !u64_small by lia. lia.
  - assert (size A2 <> 0)%nat as N by (intros N%map_size_empty_inv; subst; destruct S as [x Hx]; by rewrite lookup_empty in Hx).
    change (s2_drop st (4 - Z.of_nat 2) (leaf_size 2)) with
      (PtStats (pages_4kb st) (u64 (pages_2mb st - 1)) (pages_1gb st) (u64 (total_mapped st - 2 ^ 21))).
    cbn [pages_4kb pages_2mb total_mapped]. rewrite C4, C2, Ct, !u64_small by lia. lia.
Qed.

Lemma ok_drop h s own A4 A2 m v t : s2_ok h s own A4 A2 -> 0 <= v < 512 ^ Z.of_nat (s2_levels s) ->
  (m = 1%nat \/ m = 2%nat) -> is_Some (leaf_at m v (A4, A2)) -> path arm_kind h v (s2_levels s) (s2_root s) m t ->
  arm_kind m (rd64 h t (slot (m - 1) v)) = KLeaf ->
  s2_ok (wr64 h t (slot (m - 1) v) 0) (set_s2_stats s (s2_drop (s2_stats s) (4 - Z.of_nat m) (leaf_size m))) own
    (drop_leaf m v (A4, A2)).1 (drop_leaf m v (A4, A2)).2.
Proof.
  intros O Hv Hm Sm P Kl. pose proof (so_wf _ _ _ _ _ O) as W. destruct (sizes _ _ _ _ _ O) as [B4 B2].
  pose proof (path_own _ _ _ _ _ W _ _ _ _ _ (root_own _ _ _ _ _ W _ Hv) P) as Ht. assert (m = S (m - 1)) as Em by lia.
  split; change (s2_levels (set_s2_stats s (s2_drop (s2_stats s) (4 - Z.of_nat m) (leaf_size m)))) with (s2_levels s);
    cbn [set_s2_stats s2_root s2_geometry s2_stats].
  - apply O.
  - by eapply wf_write_none; [exact W|exact Ht|].
  - eapply covered_write; [exact Ht|apply O|]. intros c. by rewrite Kl.
  - intros t' n' p' i' Hl. rewrite rd64_wr64. case_decide; [by left|by eapply (so_clean _ _ _ _ _ O)].
  - intros v' Hv'. rewrite <- abs_walk_drop; [|done|done|intros u Hu; by apply (so_pages _ _ _ _ _ O)].
    rewrite Em in P. rewrite (walk_set _ _ _ _ _ W _ _ _ _ _ Hv Hv' P) by (by rewrite arm_kind_0).
    rewrite arm_kind_0. case_decide; [done|]. by apply O.
  - intros u Hu. unfold drop_leaf in *. destruct Hm as [-> | ->]; cbn [Nat.eqb fst snd] in *.
    + apply (so_pages _ _ _ _ _ O). set_solver.
    + destruct (so_pages _ _ _ _ _ O _ Hu) as [Hr Hn]. split; [done|]. apply lookup_delete_None. by right.
  - intros b Hb. apply (so_blocks _ _ _ _ _ O). unfold drop_leaf in Hb. destruct Hm as [-> | ->]; cbn [Nat.eqb fst snd] in Hb; set_solver.
  - destruct (so_af _ _ _ _ _ O) as [F4 F2]. unfold drop_leaf. destruct Hm as [-> | ->]; cbn [Nat.eqb fst snd]; split; try done; by apply map_Forall_delete.
  - by apply s2_counts_drop; [..|apply O].
Qed.

Lemma leaf_block n ipa ipa' : (n = 1%nat \/ n = 2%nat) -> 0 <= ipa -> 0 <= ipa' -> ipa mod leaf_size n = 0 ->
  prefix (n - 1) (ipa' / 4096) = prefix (n - 1) (ipa / 4096) <-> ipa <= ipa' < ipa + leaf_size n.
Proof.
  intros [-> | ->] H1 H2 H3; [exact (same_leaf false ipa' ipa H2 H1 H3)|exact (same_leaf true ipa' ipa H2 H1 H3)].
Qed.

Lemma unmap_spec (h : host) (s : relm_stage2) (own : gmap Z (nat * Z)) (A4 A2 : gmap Z Z) (ipa : Z) :
  s2_ok h s own A4 A2 -> 0 <= ipa < 2 ^ ipa_bits (s2_geometry s) ->
  exists r h' s' A4' A2', relm_stage2_unmap_page h (Some s) ipa = Done r (h', Some s') /\ s2_ok h' s' own A4' A2' /\
    (A4' ⊆ A4 /\ A2' ⊆ A2 /\ h_live h' = h_live h /\ exists st, s' = set_s2_stats s st) /\
    match abs_walk A4 A2 (vpn ipa) with
    | None => r = 0 /\ h' = h /\ s' = s
    | Some (n, _) =>
        if ipa mod leaf_size n =? 0 then r = 0 /\
          forall ipa', 0 <= ipa' < 2 ^ ipa_bits (s2_geometry s) -> s2_translate h' s' ipa' =
            if decide (ipa <= ipa' < ipa + leaf_size n) then None else s2_translate h s ipa'
        else r = - EINVAL /\ h' = h /\ s' = s
    end.
Proof.
  intros O Hi. pose proof (so_geo _ _ _ _ _ O) as Gv. destruct (ipa_page _ _ Gv Hi) as [Ev Hv].
  destruct (levels_facts _ Gv) as (Ln & Ls & _). destruct (geometry_facts _ Gv) as (B1 & _).
  assert (2 ^ ipa_bits (s2_geometry s) <= 2 ^ 48) by (apply Z.pow_le_mono_r; lia). assert (s2_levels s <= 4)%nat as L4 by lia.
  pose proof (so_wf _ _ _ _ _ O) as W. pose proof (root_own _ _ _ _ _ W _ Hv) as Hr.
  unfold relm_stage2_unmap_page, s2_walk_ctx. rewrite Ls.
  replace (Z.to_nat (S2_LEVELS - (4 - Z.of_nat (s2_levels s)))) with (s2_levels s) by (unfold S2_LEVELS; lia).
  rewrite (walk_found _ _ _ _ _ _ _ W (so_clean _ _ _ _ _ O) L4 Hr) by lia. rewrite <- (so_walk _ _ _ _ _ O) by done.
  destruct (walk arm_kind (s2_levels s) h (s2_root s) (vpn ipa)) as [[n e]|] eqn:Ew;
    [|exists 0, h, s, A4, A2; split_and!; try done; exists (s2_stats s); by destruct s].
  assert ((n = 1%nat \/ n = 2%nat) /\ is_Some (leaf_at n (vpn ipa) (A4, A2))) as [Hn Hl].
  { rewrite (so_walk _ _ _ _ _ O) in Ew by done. unfold abs_walk, leaf_at in *. destruct (A2 !! _) eqn:E2.
    - injection Ew as <- <-. cbn. rewrite E2. eauto.
    - destruct (A4 !! _) eqn:E4; [|done]. injection Ew as <- <-. cbn. rewrite E4. eauto. }
  assert (leaf_size n <> 0) as Nz by (destruct Hn as [-> | ->]; done).
  assert (ipa / leaf_size n * leaf_size n = ipa <-> ipa mod leaf_size n = 0) as Eb by (rewrite (Z.mod_eq ipa) by done; lia).
  destruct (Z.eqb_spec (ipa / leaf_size n * leaf_size n) ipa) as [E0|N0]; cbn [negb].
  2: { rewrite (proj2 (Z.eqb_neq _ _)) by tauto. exists (- EINVAL), h, s, A4, A2.
       split_and!; try done. exists (s2_stats s). by destruct s. }
  apply Eb in E0. rewrite (proj2 (Z.eqb_eq _ _) E0).
  destruct (leaf_table_found _ _ _ _ _ _ _ _ _ 4 W L4 L4 Hr Ew) as (t & -> & P & _ & Er & Kl).
  assert (s2_index ipa (4 - Z.of_nat n) = slot (n - 1) (vpn ipa)) as -> by (rewrite <- s2_index_slot by lia; f_equal; lia).
  rewrite <- Er in Kl. pose proof (ok_drop _ _ _ _ _ _ _ _ O Hv Hn Hl P Kl) as O'.
  do 5 eexists. split; [reflexivity|]. split; [exact O'|]. split.
  { unfold drop_leaf. destruct (n =? 1)%nat; cbn [fst snd]; split_and!; try done; (by eexists) || apply delete_subseteq. }
  split; [done|].
  intros ipa' Hi'. etransitivity; [exact (translate_abs _ _ _ _ _ _ O' Hi')|]. rewrite (translate_abs _ _ _ _ _ _ O Hi').
  rewrite <- abs_walk_drop; [|done|done|intros u Hu; by apply (so_pages _ _ _ _ _ O)].
  destruct (ipa_page _ _ Gv Hi') as [-> _]. rewrite Ev.
  pose proof (leaf_block n ipa ipa' Hn ltac:(lia) ltac:(lia) E0). repeat case_decide; tauto || done.
Qed.

(** Unmapping removes one leaf or nothing: an address that is not mapped is left
    alone with result 0; the base of a page or block takes exactly that leaf away and
    keeps the statistics exact; an address inside a leaf is refused with -EINVAL.  The
    function always returns. *)
Theorem stage2_unmap_correct (h : host) (s : relm_stage2) (own : gmap Z (nat * Z)) (A4 A2 : gmap Z Z) (ipa : Z) :
  s2_ok h s own A4 A2 -> 0 <= ipa < 2 ^ ipa_bits (s2_geometry s) ->
  exists r h' s' A4' A2', relm_stage2_unmap_page h (Some s) ipa = Done r (h', Some s') /\ s2_ok h' s' own A4' A2' /\
    match abs_walk A4 A2 (vpn ipa) with
    | None => r = 0 /\ h' = h /\ s' = s
    | Some (n, _) =>
        if ipa mod leaf_size n =? 0 then r = 0 /\
          forall ipa', 0 <= ipa' < 2 ^ ipa_bits (s2_geometry s) -> s2_translate h' s' ipa' =
            if decide (ipa <= ipa' < ipa + leaf_size n) then None else s2_translate h s ipa'
        else r = - EINVAL /\ h' = h /\ s' = s
    end.
Proof.
  intros O Hi. destruct (unmap_spec h s own A4 A2 ipa O Hi) as (r & h' & s' & A4' & A2' & E & O' & _ & R).
  by exists r, h', s', A4', A2'.
Qed.

(** ** Tear-down *)
Lemma free_tables_live h s own A4 A2 : s2_ok h s own A4 A2 ->
  h_live (s2_free_table_tree h (s2_root s) (start_level (s2_geometry s))) = h_live h ∖ dom own.
Proof.
  intros O. destruct (levels_facts _ (so_geo _ _ _ _ _ O)) as (Ln & Ls & _). unfold s2_free_table_tree. rewrite Ls.
  replace (Z.to_nat (4 - (4 - Z.of_nat (s2_levels s)))) with (s2_levels s) by lia.
  apply (free_root_live arm_kind _ s2_addr h own _ _ (so_wf _ _ _ _ _ O) (so_cov _ _ _ _ _ O) arm_kind_1); [|lia].
  intros t n p i Ht Hi. cbv zeta. destruct (s2_is_table (rd64 h t i)) eqn:T; cbn [negb].
  - apply kind_of_table; [lia|done].
  - intros c K. apply kind_table_inv in K as [? _]. congruence.
Qed.

(** ** The life of a context *)
Inductive s2_op := SMap (huge : bool) (ipa pa flags : Z) | SUnmap (ipa : Z).

(** A sequence of calls on one context, with the results they returned. *)
Fixpoint s2_run (h : host) (s : option relm_stage2) (ops : list s2_op) : access (list (s2_op * Z) * host * option relm_stage2) :=
  match ops with
  | [] => Done 0 ([], h, s)
  | op :: ops =>
      match match op with
            | SMap huge ipa pa flags => let '(r, h, s) := map_leaf huge h s ipa pa flags in Done r (h, s)
            | SUnmap ipa => relm_stage2_unmap_page h s ipa
            end with
      | Done r (h, s) => match s2_run h s ops with
                         | Done c (tr, h, s) => Done c ((op, r) :: tr, h, s)
                         | Oops => Oops
                         | OutOfFuel => OutOfFuel
                         end
      | Oops => Oops
      | OutOfFuel => OutOfFuel
      end
  end.

(** [hr b]: the 2 MiB block [b] of the guest is backed by a block, not by pages. *)
Definition leaf_bytes (hr : Z -> bool) (ipa : Z) : Z := map_size (hr (ipa / 2 ^ 21)).
Definition op_ok (hr : Z -> bool) (bits : Z) (op : s2_op) : Prop :=
  match op with
  | SMap huge ipa pa flags => 0 <= ipa /\ 0 <= pa /\ flags_ok flags /\ hr (vpn ipa / 512) = huge
  | SUnmap ipa => 0 <= ipa < 2 ^ bits
  end.

(** The abstract address space: each call that returned 0 changes one leaf. *)
Definition s2_spec_step (hr : Z -> bool) (f : Z -> option Z) (op : s2_op) (r : Z) : Z -> option Z := fun x =>
  match op with
  | SMap huge ipa pa _ => if decide (r = 0 /\ ipa <= x < ipa + map_size huge) then Some (pa + (x - ipa)) else f x
  | SUnmap ipa => if decide (r = 0 /\ x / leaf_bytes hr ipa = ipa / leaf_bytes hr ipa) then None else f x
  end.
Definition s2_spec_run (hr : Z -> bool) (f : Z -> option Z) (tr : list (s2_op * Z)) : Z -> option Z :=
  fold_left (fun f '(op, r) => s2_spec_step hr f op r) tr f.

(** The invariant of the run: pages and blocks keep to their own 2 MiB blocks. *)
Record s2_sorted (hr : Z -> bool) (own : gmap Z (nat * Z)) (A4 A2 : gmap Z Z) : Prop := S2Sorted {
  ss_pages v : v ∈ dom A4 -> hr (v / 512) = false;
  ss_blocks b : b ∈ dom A2 -> hr b = true;
  ss_tables t b : own !! t = Some (1%nat, b) -> hr b = false
}.

Lemma sorted_no_clash hr own A4 A2 huge v : s2_sorted hr own A4 A2 -> hr (v / 512) = huge -> no_clash own A2 (if huge then 2 else 1) v.
Proof.
  intros [_ B T] E. unfold no_clash. destruct huge; cbn [Nat.eqb].
  - intros t Ht%T. congruence.
  - destruct (A2 !! (v / 512)) eqn:E2; [|done]. assert (hr (v / 512) = true) by (apply B, elem_of_dom; by eexists). congruence.
Qed.

Lemma sorted_step hr huge h h' s s' own own' A4 A2 v leaf r : s2_sorted hr own A4 A2 -> hr (v / 512) = huge ->
  s2_step h s own A4 A2 (if huge then 2 else 1) v leaf r h' s' own' ->
  let A := if r =? 0 then put_leaf (if huge then 2 else 1) v leaf (A4, A2) else (A4, A2) in s2_sorted hr own' A.1 A.2.
Proof.
  intros [P B T] E St A. assert (forall t b, own' !! t = Some (1%nat, b) -> hr b = false) as T'.
  { intros t b [H|[H1 H2]]%(st_tables _ _ _ _ _ _ _ _ _ _ _ _ St); [by eapply T|]. cbn in H1, H2. destruct huge; [lia|].
    by rewrite H2, prefix_1. }
  unfold A, put_leaf. destruct (r =? 0); [|by split]. destruct huge; cbn [Nat.eqb fst snd]; split; try done.
  - intros b. rewrite dom_insert_L. intros [->%elem_of_singleton|Hb]%elem_of_union; [done|by apply B].
  - intros u. rewrite dom_insert_L. intros [->%elem_of_singleton|Hu]%elem_of_union; [done|by apply P].
Qed.

Lemma same_block hr ipa x : 0 <= ipa -> 0 <= x -> x / leaf_bytes hr ipa = ipa / leaf_bytes hr ipa ->
  x / 4096 / 512 = ipa / 4096 / 512 /\ (hr (ipa / 4096 / 512) = false -> x / 4096 = ipa / 4096).
Proof.
  intros Hi Hx. unfold leaf_bytes, map_size. replace (ipa / 2 ^ 21) with (ipa / 4096 / 512) by (zpow; zdm).
  destruct (hr (ipa / 4096 / 512)); zpow; intros; split; intros; try discriminate; zdm.
Qed.

(** Unmapping is the abstract step. *)
Lemma unmap_sim hr h s own A4 A2 ipa : s2_ok h s own A4 A2 -> s2_sorted hr own A4 A2 -> 0 <= ipa < 2 ^ ipa_bits (s2_geometry s) ->
  exists r h' s' A4' A2', relm_stage2_unmap_page h (Some s) ipa = Done r (h', Some s') /\ s2_ok h' s' own A4' A2' /\
    s2_sorted hr own A4' A2' /\ h_live h' = h_live h /\ (exists st, s' = set_s2_stats s st) /\
    forall x, 0 <= x < 2 ^ ipa_bits (s2_geometry s) -> s2_translate h' s' x = s2_spec_step hr (s2_translate h s) (SUnmap ipa) r x.
Proof.
  intros O Sd Hi. pose proof (so_geo _ _ _ _ _ O) as Gv. destruct (ipa_page _ _ Gv Hi) as [Ev _]. pose proof Sd as [P B T].
  destruct (unmap_spec h s own A4 A2 ipa O Hi) as (r & h' & s' & A4' & A2' & E & O' & (S4 & S2 & L & Eg) & R).
  exists r, h', s', A4', A2'. split_and!; [done|done| |done|done|].
  { apply subseteq_dom in S4, S2. split; [intros v Hv; apply P; set_solver|intros b Hb; apply B; set_solver|done]. }
  intros x Hx. cbn [s2_spec_step]. destruct (abs_walk A4 A2 (vpn ipa)) as [[n e]|] eqn:Ew.
  - assert (leaf_size n = leaf_bytes hr ipa) as El.
    { unfold leaf_bytes. replace (ipa / 2 ^ 21) with (vpn ipa / 512) by (rewrite Ev; zpow; zdm). unfold abs_walk in Ew.
      destruct (A2 !! _) eqn:E2; [|destruct (A4 !! _) eqn:E4; [|done]]; injection Ew as <- _.
      - by rewrite (B (vpn ipa / 512)) by (apply elem_of_dom; by eexists).
      - by rewrite (P (vpn ipa)) by (apply elem_of_dom; by eexists). }
    rewrite El in R. destruct (Z.eqb_spec (ipa mod leaf_bytes hr ipa) 0) as [E0|N0].
    + destruct R as [-> Et]. rewrite Et by done. assert (0 < leaf_bytes hr ipa) as Lp by (unfold leaf_bytes, map_size; by destruct (hr _)).
      assert (ipa <= x < ipa + leaf_bytes hr ipa <-> x / leaf_bytes hr ipa = ipa / leaf_bytes hr ipa) as Q.
      { clear -E0 Lp. revert E0. generalize (leaf_bytes hr ipa) Lp. intros l Hl E0. split; intros H.
        - assert (ipa = l * (ipa / l)) by (rewrite (Z.div_mod ipa l) at 1; lia). symmetry. apply (Z.div_unique_pos _ _ _ (x - ipa)); lia.
        - rewrite (Z.div_mod x l), (Z.div_mod ipa l), H by lia. pose proof (Z.mod_pos_bound x l Hl). lia. }
      repeat case_decide; tauto || done.
    + destruct R as (-> & -> & ->). by rewrite decide_False by (intros [? _]; discriminate).
  - destruct R as (-> & -> & ->). case_decide as D; [|done]. destruct D as [_ D].
    destruct (same_block _ _ _ (proj1 Hi) (proj1 Hx) D) as [D1 D2]. rewrite (translate_abs _ _ _ _ _ _ O Hx).
    destruct (ipa_page _ _ Gv Hx) as [-> _]. rewrite Ev in Ew. unfold abs_walk in *. rewrite D1.
    destruct (A2 !! _) eqn:E2; [done|]. destruct (A4 !! (x / 4096)) eqn:E4; [|done].
    rewrite D2 in E4; [by rewrite E4 in Ew|]. rewrite <- D1. apply P, elem_of_dom. by eexists.
Qed.

(** Either call is its abstract step. *)
Lemma op_sim hr op h s own A4 A2 : s2_ok h s own A4 A2 -> s2_sorted hr own A4 A2 -> op_ok hr (ipa_bits (s2_geometry s)) op ->
  exists r h' s' own' A4' A2',
    match op with
    | SMap huge ipa pa flags => let '(r, h, s) := map_leaf huge h (Some s) ipa pa flags in Done r (h, s)
    | SUnmap ipa => relm_stage2_unmap_page h (Some s) ipa
    end = Done r (h', Some s') /\ s2_ok h' s' own' A4' A2' /\ s2_sorted hr own' A4' A2' /\
    h_live h' ∖ dom own' = h_live h ∖ dom own /\ (exists st, s' = set_s2_stats s st) /\
    forall x, 0 <= x < 2 ^ ipa_bits (s2_geometry s) -> s2_translate h' s' x = s2_spec_step hr (s2_translate h s) op r x.
Proof.
  intros O Sd Ok. destruct op as [huge ipa pa flags|ipa].
  - destruct Ok as (Hi & Hp & Fl & Hh). pose proof (sorted_no_clash _ _ _ _ _ _ Sd Hh) as Nc.
    destruct (map_leaf huge h (Some s) ipa pa flags) as [[r h'] o] eqn:E.
    destruct (map_leaf_spec _ _ _ _ _ _ _ _ _ _ _ _ O Hi Hp Fl Nc E) as [(s' & own' & -> & Ma & St)|(Na & Hr & -> & ->)].
    + exists r, h', s', own'. do 2 eexists. split_and!; [done|apply St|by eapply sorted_step| |apply St|].
      * pose proof (subseteq_dom _ _ (st_mono _ _ _ _ _ _ _ _ _ _ _ _ St)) as Sb. rewrite (st_live _ _ _ _ _ _ _ _ _ _ _ _ St).
        apply set_eq. intros x. pose proof (st_new _ _ _ _ _ _ _ _ _ _ _ _ St x). set_solver.
      * exact (step_translate _ _ _ _ _ _ _ _ _ _ _ _ _ O Hi Hp Fl Nc Ma St).
    + exists r, h, s, own, A4, A2. split_and!; try done; [exists (s2_stats s); by destruct s|].
      intros x _. cbn [s2_spec_step]. rewrite decide_False; [done|]. intros [-> _]. destruct Hr; discriminate.
  - destruct (unmap_sim hr h s own A4 A2 ipa O Sd Ok) as (r & h' & s' & A4' & A2' & E & O' & Sd' & L & Fr & Et).
    exists r, h', s', own, A4', A2'. rewrite L. by split_and!.
Qed.

Lemma run_sim hr ops h s own A4 A2 f : s2_ok h s own A4 A2 -> s2_sorted hr own A4 A2 ->
  Forall (op_ok hr (ipa_bits (s2_geometry s))) ops ->
  (forall x, 0 <= x < 2 ^ ipa_bits (s2_geometry s) -> s2_translate h s x = f x) ->
  exists tr h' s' own' A4' A2', s2_run h (Some s) ops = Done 0 (tr, h', Some s') /\ map fst tr = ops /\
    s2_ok h' s' own' A4' A2' /\ h_live h' ∖ dom own' = h_live h ∖ dom own /\ (exists st, s' = set_s2_stats s st) /\
    forall x, 0 <= x < 2 ^ ipa_bits (s2_geometry s) -> s2_translate h' s' x = s2_spec_run hr f tr x.
Proof.
  revert h s own A4 A2 f. induction ops as [|op ops IH]; intros h s own A4 A2 f O Sd F Hf.
  { exists [], h, s, own, A4, A2. split_and!; try done. exists (s2_stats s). by destruct s. }
  apply Forall_cons in F as [Fo Fs]. cbn [s2_run].
  destruct (op_sim hr op h s own A4 A2 O Sd Fo) as (r & h1 & s1 & own1 & A4' & A2' & -> & O1 & Sd1 & L1 & [st ->] & Et).
  destruct (IH h1 _ own1 A4' A2' (s2_spec_step hr f op r) O1 Sd1 Fs) as (tr & h' & s' & own' & A4'' & A2'' & -> & Ef & O' & L' & [st' ->] & Et').
  { intros x Hx. rewrite Et by done. unfold s2_spec_step. destruct op; case_decide; (done || by apply Hf). }
  exists ((op, r) :: tr), h', (set_s2_stats (set_s2_stats s st) st'), own', A4'', A2''.
  split_and!; [done|cbn; by rewrite Ef|done|congruence|by eexists|exact Et'].
Qed.

Lemma vttbr_fits g root vmid : s2_geometry_valid (Some g) = true -> root mod 4096 = 0 -> 0 <= root -> root + 4096 <= 2 ^ pa_bits g ->
  (vmid_bits g = 8 -> vmid <= 255) ->
  relm_stage2_encode_vttbr (Some g) root vmid true = inr (Z.lor root (u64 (Z.shiftl vmid S2_VTTBR_VMID_SHIFT))).
Proof.
  intros Gv Al H0 Fit V. destruct (geometry_facts _ Gv) as (_ & _ & B & Hv). unfold relm_stage2_encode_vttbr.
  rewrite Gv, (proj2 (page_aligned_spec _) Al). cbn [negb orb]. change S2_TABLE_SIZE with 4096.
  rewrite (proj2 (range_fits_iff root 4096 (pa_bits g) ltac:(lia) H0 ltac:(lia)) Fit). cbn [negb orb].
  destruct (Z.eqb_spec (vmid_bits g) 8) as [E|]; [|done]. by rewrite (proj2 (Z.ltb_ge _ _)) by auto.
Qed.

End Unmap.

(** ** Geometry *)

(** The state of the runtime registration, from boot on. *)
Inductive s2_registered : s2_globals -> Prop :=
| reg_boot : s2_registered (S2Globals (RuntimeOps 0 0 0 None) (Geometry 0 0 0 0) false)
| reg_register G ops : s2_registered G -> s2_registered (relm_stage2_register_runtime G ops).2
| reg_unregister G : s2_registered G -> s2_registered (relm_stage2_unregister_runtime G).2.

Lemma decode_limits_valid ops g : s2_decode_limits ops = inr g -> s2_geometry_valid (Some g) = true.
Proof.
  unfold s2_decode_limits. set (pa := Z.land (host_mmfr0_el1 ops) 0xf). destruct (pa_widths !! Z.to_nat pa) as [w|] eqn:W; [|done].
  destruct (_ || _); [done|]. destruct (if _ =? 0 then _ else _); [done|]. intros [= <-].
  apply list_elem_of_lookup_2 in W. unfold pa_widths in W. rewrite !elem_of_cons, elem_of_nil in W.
  destruct (Z.land (Z.shiftr (host_mmfr1_el1 ops) 4) 0xf =? 2);
    destruct W as [->|[->|[->|[->|[->|[->|[->|[->|[]]]]]]]]]; reflexivity.
Qed.

Lemma registered_valid G : s2_registered G -> s2_runtime_ready G = true ->
  s2_geometry_valid (Some (s2_limits G)) = true /\ is_Some (op_invalidate (s2_runtime G)).
Proof.
  induction 1 as [|G ops R IH|G R IH]; [done| |done]. unfold relm_stage2_register_runtime.
  destruct ops as [ops|]; [|exact IH]. destruct (op_invalidate ops) eqn:I; [|exact IH].
  destruct (s2_decode_limits ops) as [|g] eqn:D; [exact IH|]. destruct (s2_runtime_ready G) eqn:Rd; [intros _; by apply IH|].
  intros _. cbn [snd s2_limits s2_runtime]. split; [by apply decode_limits_valid in D|by rewrite I].
Qed.

(** The fields of VTCR_EL2 as the processor reads them. *)
Definition vtcr_reads (v : Z) (g : relm_stage2_geometry) : bool :=
  (Z.land v 0x3f =? 64 - ipa_bits g) && (Z.land (Z.shiftr v 6) 0x3 =? if ipa_bits g <=? 39 then 1 else 2) &&
  (Z.land (Z.shiftr v 14) 0x3 =? 0) &&
  (nth (Z.to_nat (Z.land (Z.shiftr v 16) 0x7)) [32; 36; 40; 42; 44; 48] 0 =? pa_bits g) &&
  (Bool.eqb (Z.testbit v 19) (vmid_bits g =? 16)) && negb (Z.testbit v 21) && negb (Z.testbit v 22) && Z.testbit v 31 &&
  (v <? 2 ^ 32).

Definition all_geometries : list relm_stage2_geometry :=
  flat_map (fun n => flat_map (fun p => map (fun m => Geometry n p (if n <=? 39 then 1 else 0) m) [8; 16]) [32; 36; 40; 42; 44; 48])
    (seqZ 32 17).

Lemma geometry_listed g : s2_geometry_valid (Some g) = true -> g ∈ all_geometries.
Proof.
  intros Gv. destruct (geometry_facts _ Gv) as (B & Sl & _ & V). destruct g as [n p l m]. cbn [ipa_bits start_level vmid_bits pa_bits] in *. subst l.
  unfold all_geometries. apply list_elem_of_In, in_flat_map. exists n. split; [apply list_elem_of_In, elem_of_seqZ; lia|].
  apply in_flat_map. exists p. split; [|apply in_map_iff; exists m; split; [done|]; destruct V as [-> | ->]; cbn; auto].
  unfold s2_geometry_valid in Gv. rewrite !andb_true_iff in Gv. destruct Gv as (((_ & E) & _) & _). apply Z.leb_le in E.
  cbn [pa_bits] in E. unfold s2_pa_encoding in E.
  repeat match type of E with context [?a =? ?b] => destruct (Z.eqb_spec a b) as [->|]; [cbn; tauto|] end. by vm_compute in E.
Qed.

Lemma vtcr_all : forallb (fun g => match relm_stage2_encode_vtcr (Some g) true with inr v => vtcr_reads v g | inl _ => false end)
  all_geometries = true.
Proof. vm_compute. reflexivity. Qed.

Lemma vtcr_encodes g : s2_geometry_valid (Some g) = true ->
  exists v, relm_stage2_encode_vtcr (Some g) true = inr v /\ vtcr_reads v g = true.
Proof.
  intros Gv%geometry_listed. pose proof vtcr_all as A. rewrite forallb_forall in A. specialize (A g ltac:(by apply list_elem_of_In)).
  destruct (relm_stage2_encode_vtcr (Some g) true) as [|v]; [done|]. by exists v.
Qed.

(** C39. Geometries are well formed: whatever the ID registers of the host say and
    however often a runtime registers and unregisters, a geometry that
    [relm_stage2_choose_geometry] hands out is valid and as wide as asked, and the
    VTCR_EL2 made of it has exactly its input size, start level, granule, output size
    and VMID width in the fields the processor reads. *)
Theorem chosen_geometry_valid (G : s2_globals) (n : Z) (g : relm_stage2_geometry) :
  s2_registered G -> relm_stage2_choose_geometry G n true = inr g ->
  s2_geometry_valid (Some g) = true /\ ipa_bits g = n /\ (n <= ipa_bits (s2_limits G)) /\
  exists v, relm_stage2_encode_vtcr (Some g) true = inr v /\ vtcr_reads v g = true.
Proof.
  intros R. unfold relm_stage2_choose_geometry, S2_MIN_IPA_BITS, S2_MAX_IPA_BITS. cbn [negb orb].
  destruct (Z.ltb_spec n 32); [done|]. destruct (Z.ltb_spec 48 n); [done|]. cbn [orb].
  destruct (s2_runtime_ready G) eqn:Rd; [|done]. destruct (Z.ltb_spec (ipa_bits (s2_limits G)) n); [done|].
  intros [= <-]. destruct (registered_valid _ R Rd) as [Gv _].
  assert (u8 n = n) as Eu by (apply Z.mod_small; lia).
  assert (s2_geometry_valid (Some (Geometry (u8 n) (pa_bits (s2_limits G)) (if n <=? 39 then 1 else 0) (vmid_bits (s2_limits G)))) = true) as Gv'.
  { rewrite Eu. unfold s2_geometry_valid in *. cbn [ipa_bits pa_bits start_level vmid_bits]. rewrite !andb_true_iff in Gv |- *.
    destruct Gv as (((_ & E1) & _) & E2). unfold S2_MIN_IPA_BITS, S2_MAX_IPA_BITS. rewrite !Z.leb_le, Z.eqb_refl. apply Z.leb_le in E1. split_and!; done || lia. }
  split_and!; [done|exact Eu|done|by apply vtcr_encodes].
Qed.

(** ** Ranges *)
Section Ranges.
Context `{PA : PageAlloc} {PAok : S2PageAlloc PA}.

(** [k] pages of the range were dealt with. *)
Definition range_translate (skip : Z -> bool) (f : Z -> option Z) (ipa pa from k x : Z) : option Z :=
  if decide (ipa + from <= x < ipa + from + 4096 * k /\ skip (x / 4096 * 4096) = false) then Some (pa + (x - ipa)) else f x.

Lemma range_next (skip : Z -> bool) (f g : Z -> option Z) ipa pa off k x : 0 <= x -> 0 <= k -> ipa mod 4096 = 0 -> off mod 4096 = 0 ->
  g x = (if decide (skip (ipa + off) = false /\ ipa + off <= x < ipa + off + 4096) then Some (pa + (x - ipa)) else f x) ->
  range_translate skip g ipa pa (off + 4096) k x = range_translate skip f ipa pa off (k + 1) x.
Proof.
  intros Hx Hk Ai Ao Eg. unfold range_translate. rewrite Eg.
  assert (x / 4096 * 4096 = ipa + off <-> ipa + off <= x < ipa + off + 4096) as Pg by zdm.
  destruct (decide (ipa + off <= x < ipa + off + 4096)) as [In|Out].
  - rewrite (proj2 Pg In). rewrite (decide_False (P := _ /\ _)) by lia.
    destruct (skip (ipa + off)); [by rewrite !decide_False by (intros [? ?]; congruence)|].
    by rewrite !decide_True by (split; (done || lia)).
  - assert (ipa + off <= x < ipa + off + 4096 * (k + 1) <-> ipa + (off + 4096) <= x < ipa + (off + 4096) + 4096 * k) as Sp by lia.
    rewrite (decide_False (P := skip (ipa + off) = false /\ _)) by tauto. repeat case_decide; tauto || done.
Qed.

Lemma map_loop_spec skip n off h s own A4 A2 ipa pa flags :
  s2_ok h s own A4 A2 -> 0 <= ipa -> 0 <= pa -> 0 <= off -> ipa mod 4096 = 0 -> off mod 4096 = 0 -> flags_ok flags ->
  ipa + off + 4096 * Z.of_nat n <= 2 ^ 64 -> pa + off + 4096 * Z.of_nat n <= 2 ^ 64 ->
  (forall x, ipa + off <= x < ipa + off + 4096 * Z.of_nat n -> A2 !! (vpn x / 512) = None) ->
  exists r h' s' own' A4' k, s2_map_loop skip n off h (Some s) ipa pa flags = (r, h', Some s') /\ s2_ok h' s' own' A4' A2 /\
    (exists st, s' = set_s2_stats s st) /\ 0 <= k <= Z.of_nat n /\ (r = 0 -> k = Z.of_nat n) /\
    forall x, 0 <= x < 2 ^ ipa_bits (s2_geometry s) -> s2_translate h' s' x = range_translate skip (s2_translate h s) ipa pa off k x.
Proof.
  revert off h s own A4. induction n as [|n IH]; intros off h s own A4 O Hi Hp Ho Ai Ao Fl Bi Bp Nb.
  { exists 0, h, s, own, A4, 0. split_and!; try done; [exists (s2_stats s); by destruct s|].
    intros x _. unfold range_translate. by rewrite decide_False by lia. }
  cbn [s2_map_loop]. rewrite !u64_small by lia. change S2_PAGE_SIZE_4KB with 4096.
  assert (forall h1 s1 own1 A4', s2_ok h1 s1 own1 A4' A2 -> (exists st, s1 = set_s2_stats s st) ->
    exists r h' s' own' A4' k, s2_map_loop skip n (off + 4096) h1 (Some s1) ipa pa flags = (r, h', Some s') /\ s2_ok h' s' own' A4' A2 /\
    (exists st, s' = set_s2_stats s st) /\ 0 <= k <= Z.of_nat n /\ (r = 0 -> k = Z.of_nat n) /\
    forall x, 0 <= x < 2 ^ ipa_bits (s2_geometry s) -> s2_translate h' s' x = range_translate skip (s2_translate h1 s1) ipa pa (off + 4096) k x) as Next.
  { intros h1 s1 own1 A4' O1 [st ->].
    destruct (IH (off + 4096) h1 _ own1 A4' O1 Hi Hp ltac:(lia) Ai ltac:(zdm) Fl ltac:(lia) ltac:(lia) ltac:(intros x Hx; apply Nb; lia))
      as (r & h' & s' & own' & A4'' & k & E & O' & [st' ->] & Hk & Hr & Et).
    exists r, h', (set_s2_stats (set_s2_stats s st) st'), own', A4'', k. split_and!; try done; try lia. by eexists. }
  destruct (skip (ipa + off)) eqn:Sk.
  - destruct (Next h s own A4 O ltac:(exists (s2_stats s); by destruct s)) as (r & h' & s' & own' & A4' & k & -> & O' & Fr & Hk & Hr & Et).
    exists r, h', s', own', A4', (k + 1). split_and!; try done; try lia.
    intros x Hx. rewrite Et by done. apply range_next; try done; try lia.
    rewrite Sk. by rewrite decide_False by (intros [? _]; congruence).
  - pose proof (Nb (ipa + off) ltac:(lia)) as Nc.
    destruct (relm_stage2_map_page h (Some s) (ipa + off) (pa + off) flags) as [[r1 h1] o1] eqn:E1.
    destruct (map_leaf_spec false h h1 s own A4 A2 (ipa + off) (pa + off) flags r1 o1 O ltac:(lia) ltac:(lia) Fl Nc E1)
      as [(s1 & own1 & -> & Ma & St)|(Na & Hr & -> & ->)].
    + pose proof (step_translate false h h1 s s1 own own1 A4 A2 (ipa + off) (pa + off) flags r1 O ltac:(lia) ltac:(lia) Fl Nc Ma St) as Et1.
      pose proof (st_ok _ _ _ _ _ _ _ _ _ _ _ _ St) as O1. pose proof (st_same _ _ _ _ _ _ _ _ _ _ _ _ St) as Fr1. cbv zeta in O1.
      destruct (Z.eqb_spec r1 0) as [->|Nr]; cbn [negb].
      * destruct (Next _ _ _ _ O1 Fr1) as (r & h' & s' & own' & A4' & k & -> & O' & Fr & Hk & Hr & Et).
        exists r, h', s', own', A4', (k + 1). split_and!; try done; try lia.
        intros x Hx. rewrite Et by done. apply range_next; try done; try lia. rewrite Et1 by done. rewrite Sk.
        unfold map_size. repeat case_decide; try done; try (exfalso; tauto). f_equal. lia.
      * exists r1, h1, s1, own1, A4, 0. split_and!; try done; try lia.
        intros x Hx. rewrite Et1 by done. unfold range_translate. by rewrite !decide_False by (intros [? ?]; lia).
    + rewrite (proj2 (Z.eqb_neq r1 0)) by (destruct Hr; subst; done). cbn [negb].
      exists r1, h, s, own, A4, 0. split_and!; try done; try lia; [exists (s2_stats s); by destruct s|destruct Hr; subst; done|].
      intros x Hx. unfold range_translate. by rewrite decide_False by lia.
Qed.

(** Guest RAM is mapped where it should be and nowhere else: mapping a range of
    whole pages with [relm_stage2_map_guest_ram_4kb] gives every page of the range its
    own frame, except the pages that overlap an MMIO window, which stay as they were
    so that they trap; when it fails, the same holds of the pages before the one that
    failed. *)
Theorem stage2_map_guest_ram_correct (h : host) (s : relm_stage2) (own : gmap Z (nat * Z)) (A4 A2 : gmap Z Z)
    (m : relm_vm_memory) (ipa pa sz flags : Z) :
  s2_ok h s own A4 A2 -> 0 <= ipa -> 0 <= pa -> ipa mod 4096 = 0 -> 0 < sz -> sz mod 4096 = 0 -> flags_ok flags ->
  ipa + sz <= 2 ^ 64 -> pa + sz <= 2 ^ 64 -> (forall x, ipa <= x < ipa + sz -> A2 !! (vpn x / 512) = None) ->
  exists r h' s' own' A4' mapped, relm_stage2_map_guest_ram_4kb h (Some s) (Some m) ipa pa sz flags = (r, h', Some s') /\
    s2_ok h' s' own' A4' A2 /\ 0 <= mapped <= sz /\ (r = 0 -> mapped = sz) /\
    forall x, 0 <= x < 2 ^ ipa_bits (s2_geometry s) -> s2_translate h' s' x =
      if decide (ipa <= x < ipa + mapped /\ s2_range_overlaps_mmio (Some m) (x / 4096 * 4096) 4096 = false)
      then Some (pa + (x - ipa)) else s2_translate h s x.
Proof.
  intros O Hi Hp Ai Hs As Fl Bi Bp Nb. unfold relm_stage2_map_guest_ram_4kb.
  rewrite (proj2 (Z.eqb_neq sz 0)), (proj2 (page_aligned_spec sz) As) by lia. cbn [orb negb]. change S2_PAGE_SIZE_4KB with 4096.
  assert (4096 * Z.of_nat (Z.to_nat (sz / 4096)) = sz) as En by zdm.
  destruct (map_loop_spec (fun a => s2_range_overlaps_mmio (Some m) a 4096) (Z.to_nat (sz / 4096)) 0 h s own A4 A2 ipa pa flags
    O Hi Hp ltac:(lia) Ai eq_refl Fl ltac:(lia) ltac:(lia) ltac:(intros x Hx; apply Nb; lia))
    as (r & h' & s' & own' & A4' & k & E & O' & _ & Hk & Hr & Et).
  exists r, h', s', own', A4', (4096 * k). split_and!; try done; try lia.
  intros x Hx. rewrite Et by done. unfold range_translate. rewrite Z.add_0_r. done.
Qed.

(** The mapper of blocks always returns: each round takes at least one page. *)
Lemma s2_huge_loop_total fuel off h s vm ipa pa sz flags : 0 <= ipa -> ipa + sz < 2 ^ 64 -> 0 <= off <= sz -> off mod 4096 = 0 ->
  sz mod 4096 = 0 -> sz <= off + 4096 * Z.of_nat fuel ->
  exists r, s2_map_huge_loop fuel off h s vm ipa pa (ipa + sz) flags = Some r.
Proof.
  intros Hi Hb. revert off h s. induction fuel as [|fuel IH]; intros off h s Ho Ao As Hf; cbn [s2_map_huge_loop]; rewrite u64_small by lia.
  { rewrite (proj2 (Z.ltb_ge _ _)) by lia. by eexists. }
  destruct (Z.ltb_spec (ipa + off) (ipa + sz)) as [L|]; cbn [negb]; [|by eexists].
  rewrite (u64_small (ipa + sz - (ipa + off))) by lia. change S2_PAGE_SIZE_2MB with 2097152.
  destruct (_ && _ && _) eqn:B.
  - apply andb_true_iff in B as [[B _]%andb_true_iff _]. apply Z.leb_le in B.
    destruct (relm_stage2_map_huge_page _ _ _ _ _) as [[r h1] s1]. destruct (negb (r =? 0)); [by eexists|].
    rewrite u64_small by lia. apply IH; try done; [lia|zdm|lia].
  - set (t := 2097152 - Z.land (ipa + off) (2097152 - 1)).
    assert (0 < t <= 2097152) as Ht.
    { unfold t. change (2097152 - 1) with (2 ^ 21 - 1). rewrite land_ones_mod by lia.
      pose proof (Z.mod_pos_bound (ipa + off) (2 ^ 21) ltac:(lia)). lia. }
    set (c := Z.min _ t). assert (0 < c <= sz - off) as Hc by lia.
    destruct (relm_stage2_map_guest_ram_4kb _ _ _ _ _ c _) as [[r h1] s1] eqn:E. destruct (Z.eqb_spec r 0) as [->|]; cbn [negb]; [|by eexists].
    assert (c mod 4096 = 0) as Ac.
    { unfold relm_stage2_map_guest_ram_4kb in E. destruct (s2_page_aligned c) eqn:Al; [by apply page_aligned_spec|].
      rewrite orb_true_r in E. discriminate E. }
    rewrite u64_small by lia. apply IH; try done; [lia|zdm|zdm].
Qed.

(** C40. [relm_stage2_map_guest_ram_huge] terminates on every input: whatever the range,
    its alignment, the MMIO windows and the failures of the calls it makes, the loop
    over blocks and pages ends after at most one round per page, also when the end of
    the range wraps around. *)
Theorem stage2_map_guest_ram_huge_terminates (h : host) (s : option relm_stage2) (vm : option relm_vm_memory) (ipa pa sz flags : Z) :
  0 <= ipa < 2 ^ 64 -> 0 <= sz < 2 ^ 64 ->
  exists r, relm_stage2_map_guest_ram_huge h s vm ipa pa sz flags = Some r.
Proof.
  intros Hi Hs. unfold relm_stage2_map_guest_ram_huge. destruct (_ || _ || _) eqn:B; [by eexists|].
  apply orb_false_iff in B as [B Al%negb_false_iff]. apply orb_false_iff in B as [_ Nz%Z.eqb_neq]. apply page_aligned_spec in Al.
  change S2_PAGE_SIZE_4KB with 4096. destruct (decide (ipa + sz < 2 ^ 64)).
  - rewrite u64_small by lia. apply s2_huge_loop_total; try done; try lia. zdm.
  - assert (u64 (ipa + sz) <= ipa) as W by (unfold u64; rewrite <- (Z.mod_add _ (-1)) by lia; rewrite Z.mod_small by lia; lia).
    destruct (Z.to_nat (sz / 4096)); cbn [s2_map_huge_loop]; rewrite Z.add_0_r, (u64_small ipa) by lia;
      rewrite (proj2 (Z.ltb_ge _ _)) by lia; by eexists.
Qed.
End Ranges.

(** ** Concrete contexts *)
Module Stage2Demo.
#[local] Instance alloc : PageAlloc := bump_alloc 64.
#[local] Instance alloc_s2 : S2PageAlloc alloc.
Proof.
  split; [apply _|]. intros n s p. unfold page_choice, alloc, bump_alloc. case_decide; [done|].
  destruct (n <? 64)%nat eqn:L; [|done]. destruct (_ <? _); [|done]. intros [= <-]. apply Nat.ltb_lt in L. lia.
Qed.

(** A host with EL2, 48-bit addresses and 16-bit VMIDs. *)
Definition ops : relm_stage2_runtime_ops := RuntimeOps 0x100 0x5 0x20 (Some (fun _ _ => 0)).
Definition boot : s2_globals := S2Globals (RuntimeOps 0 0 0 None) (Geometry 0 0 0 0) false.
Definition G : s2_globals := (relm_stage2_register_runtime boot (Some ops)).2.
Definition geo : relm_stage2_geometry := Geometry 39 48 1 16.
Definition s0 : relm_stage2 := Stage2Ctx 4096 4096 geo 0x800D3559 7 (PtStats 0 0 0 0).
Definition h0 : host := (relm_stage2_context_create true G host0 (Some geo) 7).2.

Lemma created : relm_stage2_context_create true G host0 (Some geo) 7 = (inr s0, h0).
Proof.
  unfold h0. assert ((relm_stage2_context_create true G host0 (Some geo) 7).1 = inr s0) as E by (vm_compute; reflexivity).
  destruct (relm_stage2_context_create true G host0 (Some geo) 7) as [r h]. cbn [fst snd] in *. by rewrite E.
Qed.
Lemma s0_ok : s2_ok h0 s0 {[4096 := (3%nat, 0)]} ∅ ∅.
Proof. exact (proj1 (s2_create_ok _ _ _ _ _ _ _ created)). Qed.

(** A page at 0x5000, a block at 1 GiB, and the page taken away again. *)
Definition hr (b : Z) : bool := b =? 512.
Definition life : list s2_op := [SMap false 0x5000 0x9000 S2_ACCESS_READ; SMap true 0x40000000 0x80000000 S2_ACCESS_READ; SUnmap 0x5000].


Lemma stage2_map_correct_witness : exists h' s', relm_stage2_map_page h0 (Some s0) 0x5000 0x9000 S2_ACCESS_READ = (0, h', Some s') /\
  s2_translate h' s' 0x5123 = Some 0x9123.
Proof.
  assert ((relm_stage2_map_page h0 (Some s0) 0x5000 0x9000 S2_ACCESS_READ).1.1 = 0) as R by (vm_compute; reflexivity).
  destruct (relm_stage2_map_page h0 (Some s0) 0x5000 0x9000 S2_ACCESS_READ) as [[r h'] o] eqn:E. cbn [fst] in R. subst r.
  destruct (stage2_map_correct false h0 h' s0 _ ∅ ∅ 0x5000 0x9000 S2_ACCESS_READ 0 o s0_ok ltac:(lia) ltac:(lia) eq_refl eq_refl E)
    as (s' & own' & A4' & A2' & -> & _ & _ & _ & Et).
  exists h', s'. split; [done|]. rewrite Et by (vm_compute; split; [discriminate|reflexivity]). by rewrite decide_True by (unfold map_size; lia).
Defined.

Lemma stage2_get_mapping_correct_witness : relm_stage2_get_mapping h0 (Some s0) 0x5123 true = inl (- ENOENT).
Proof.
  rewrite (stage2_get_mapping_correct h0 s0 _ ∅ ∅ 0x5123 s0_ok) by (vm_compute; split; [discriminate|reflexivity]). vm_compute. reflexivity.
Defined.

Lemma stage2_unmap_correct_witness : exists h' s', relm_stage2_unmap_page h0 (Some s0) 0x5000 = Done 0 (h', Some s') /\ h' = h0.
Proof.
  destruct (stage2_unmap_correct h0 s0 _ ∅ ∅ 0x5000 s0_ok ltac:(vm_compute; split; [discriminate|reflexivity]))
    as (r & h' & s' & A4' & A2' & E & _ & -> & -> & ->). by exists h0, s0.
Defined.

Definition mem0 : relm_vm_memory := VmMemory [] 0 [] 0.
Lemma stage2_map_guest_ram_correct_witness : exists h' s',
  relm_stage2_map_guest_ram_4kb h0 (Some s0) (Some mem0) 0x4000 0x20000 0x2000 S2_ACCESS_READ = (0, h', Some s') /\
  s2_translate h' s' 0x5678 = Some 0x21678.
Proof.
  destruct (stage2_map_guest_ram_correct h0 s0 _ ∅ ∅ mem0 0x4000 0x20000 0x2000 S2_ACCESS_READ s0_ok ltac:(lia) ltac:(lia) eq_refl
    ltac:(lia) eq_refl eq_refl ltac:(lia) ltac:(lia) ltac:(intros; apply lookup_empty)) as (r & h' & s' & own' & A4' & k & E & _ & Hk & Hr & Et).
  assert ((relm_stage2_map_guest_ram_4kb h0 (Some s0) (Some mem0) 0x4000 0x20000 0x2000 S2_ACCESS_READ).1.1 = 0) as R by (vm_compute; reflexivity).
  rewrite E in R. cbn [fst] in R. subst r.
  exists h', s'. split; [done|]. rewrite Et by (vm_compute; split; [discriminate|reflexivity]). rewrite (Hr eq_refl).
  by rewrite decide_True by (split; [lia|reflexivity]).
Defined.

Lemma stage2_map_guest_ram_huge_terminates_witness : exists r,
  relm_stage2_map_guest_ram_huge h0 (Some s0) (Some mem0) 0x1FE000 0x40000 0x403000 S2_ACCESS_READ = Some r.
Proof. apply stage2_map_guest_ram_huge_terminates; lia. Defined.

Lemma chosen_geometry_valid_witness : relm_stage2_choose_geometry G 39 true = inr geo /\ s2_geometry_valid (Some geo) = true.
Proof.
  assert (relm_stage2_choose_geometry G 39 true = inr geo) as E by (vm_compute; reflexivity). split; [exact E|].
  apply (chosen_geometry_valid G 39 geo); [|exact E]. apply (reg_register boot (Some ops)), reg_boot.
Defined.

(** ** What goes wrong *)
Definition run_from (ops : list s2_op) : list Z * host * option relm_stage2 :=
  match s2_run h0 (Some s0) ops with
  | Done _ (tr, h, s) => (map snd tr, h, s)
  | _ => ([], h0, None)
  end.
Definition look (st : list Z * host * option relm_stage2) (ipa : Z) : option (Z + Z) :=
  match st.2 with Some s => Some (relm_stage2_get_mapping st.1.2 (Some s) ipa true) | None => None end.

(** Mapping a page inside a block returns 0 and drops the other 511 pages of the block. *)
Lemma page_over_block_drops_block :
  let st := run_from [SMap true 0x40000000 0x80000000 S2_ACCESS_READ; SMap false 0x40005000 0x9000 S2_ACCESS_READ] in
  st.1.1 = [0; 0] /\ look st 0x40005000 = Some (inr 0x9000) /\ look st 0x40000000 = Some (inl (- ENOENT)).
Proof. vm_compute. split_and!; reflexivity. Qed.

(** Mapping a block over the table of pages that were unmapped leaks that table. *)
Lemma block_over_table_leaks :
  let st := run_from [SMap false 0x40005000 0x9000 S2_ACCESS_READ; SUnmap 0x40005000; SMap true 0x40000000 0x80000000 S2_ACCESS_READ] in
  st.1.1 = [0; 0; 0] /\
  match relm_stage2_context_destroy G st.1.2 st.2 with Done 0 hd => bool_decide (h_live hd = ∅) | _ => true end = false.
Proof. vm_compute. split; reflexivity. Qed.

(** The look-up does not check the width of the address: high bits alias. *)
Lemma lookup_aliases_high_bits :
  look (run_from [SMap false 0x5000 0x9000 S2_ACCESS_READ]) (2 ^ 39 + 0x5000) = Some (inr 0x9000).
Proof. vm_compute. reflexivity. Qed.

(** Destroying a context after the runtime unregistered calls through NULL. *)
Lemma destroy_after_unregister_oops :
  relm_stage2_context_destroy (relm_stage2_unregister_runtime G).2 h0 (Some s0) = Oops.
Proof. vm_compute. reflexivity. Qed.
End Stage2Demo.
