(* ===== verification/Boot.v ===== *)
(** * The direct Linux boot loader

    src/arch/x86/boot/boot.c and include/boot/arch/x86/loader.h: the kernel image,
    the initrd, the command line, the zero page, and the diagnostic GDT and IDT are
    written into guest memory through the guest copy of [GuestMem].

    [request_firmware] is a parameter: the code it returns and the bytes of the
    file.  The VM's memory regions are the constant [m]; the host memory is the
    state, and a C string is the list of its bytes without the terminator. *)
From S2P Require Import Prelude HostMem Radix VmMem GuestMem Mmu GuestPt E820 VmcsFields.

Definition RELM_BOOT_HDRS_MAGIC : Z := 0x53726448.
Definition RELM_BOOT_FLAG_MAGIC : Z := 0xAA55.
Definition RELM_BOOT_PROTOCOL_MIN : Z := 0x020C.
Definition RELM_XLF_KERNEL_64 : Z := Z.shiftl 1 0.
Definition RELM_LOADFLAGS_LOADED_HIGH : Z := Z.shiftl 1 0.
Definition RELM_BP_E820_MAX : Z := 128.
Definition RELM_BP_LOADER_TYPE : Z := 0xFF.
Definition RELM_BP_OFFSET_E820_ENTRIES : Z := 0x1E8.
Definition RELM_BP_OFFSET_HDR : Z := 0x1F1.
Definition RELM_BP_OFFSET_E820_TABLE : Z := 0x2D0.
Definition RELM_BP_SIZE : Z := 0x1000.
Definition RELM_BZIMAGE_HDR_OFFSET : Z := 0x1F1.
Definition RELM_STARTUP_64_OFFSET : Z := 0x200.
Definition RELM_BOOT_PARAMS_GPA : Z := 0x7000.
Definition RELM_CMDLINE_GPA : Z := 0x20000.
Definition RELM_CMDLINE_MAX_LEN : Z := 4096.
Definition RELM_KERNEL_LOAD_GPA : Z := 0x01000000.
Definition RELM_KERNEL_MAX_SIZE : Z := 64 * 1024 * 1024.
Definition RELM_INITRD_LOAD_GPA : Z := 0x04000000.
Definition RELM_INITRD_MAX_SIZE : Z := 60 * 1024 * 1024.
Definition RELM_GUEST_IDT_STUBS_GPA : Z := 0x6000.
Definition RELM_GUEST_IDT_STUBS_STRIDE : Z := 16.
Definition RELM_GUEST_IDT_STUBS_SIZE : Z := 256 * RELM_GUEST_IDT_STUBS_STRIDE.
Definition RELM_GUEST_GDT_CS_SEL : Z := 0x0008.
Definition RELM_KERNEL_FW_NAME : string := "relm/vmlinuz".
Definition RELM_INITRD_FW_NAME : string := "relm/initrd.img".
Definition RELM_DEFAULT_CMDLINE : list Z :=
  string_bytes "console=ttyS0,115200 earlyprintk=serial nokaslr panic=1".

(** ** The setup header *)

Record relm_setup_header := SetupHeader {
  setup_sects : Z; root_flags : Z; syssize : Z; ram_size : Z; vid_mode : Z; root_dev : Z;
  boot_flag : Z; jump : Z; header : Z; version : Z; realmode_swtch : Z; start_sys_seg : Z;
  kernel_version : Z; type_of_loader : Z; loadflags : Z; setup_move_size : Z; code32_start : Z;
  ramdisk_image : Z; ramdisk_size : Z; bootsect_kludge : Z; heap_end_ptr : Z; ext_loader_ver : Z;
  ext_loader_type : Z; cmd_line_ptr : Z; initrd_addr_max : Z; kernel_alignment : Z;
  relocatable_kernel : Z; min_alignment : Z; xloadflags : Z; cmdline_size : Z; hardware_subarch : Z;
  hardware_subarch_data : Z; payload_offset : Z; payload_length : Z; setup_data : Z;
  pref_address : Z; init_size : Z; handover_offset : Z; kernel_info_offset : Z
}.

(** The packed layout: the size of each member, in order. *)
Definition header_layout : list nat :=
  [1; 2; 4; 2; 2; 2; 2; 2; 4; 2; 4; 2; 2; 1; 1; 2; 4; 4; 4; 4; 2; 1; 1; 4; 4; 4; 1; 1; 2; 4; 4; 8; 4; 4; 8;
   8; 4; 4; 4]%nat.
Definition header_members (x : relm_setup_header) : list Z :=
  [setup_sects x; root_flags x; syssize x; ram_size x; vid_mode x; root_dev x; boot_flag x; jump x; header x;
   version x; realmode_swtch x; start_sys_seg x; kernel_version x; type_of_loader x; loadflags x;
   setup_move_size x; code32_start x; ramdisk_image x; ramdisk_size x; bootsect_kludge x; heap_end_ptr x;
   ext_loader_ver x; ext_loader_type x; cmd_line_ptr x; initrd_addr_max x; kernel_alignment x;
   relocatable_kernel x; min_alignment x; xloadflags x; cmdline_size x; hardware_subarch x;
   hardware_subarch_data x; payload_offset x; payload_length x; setup_data x; pref_address x; init_size x;
   handover_offset x; kernel_info_offset x].
Definition sizeof_setup_header : Z := Z.of_nat (list_sum header_layout).

Fixpoint pack (layout : list nat) (vs : list Z) : list Z :=
  match layout, vs with
  | n :: layout, v :: vs => le_bytes n v ++ pack layout vs
  | _, _ => []
  end.
Definition header_bytes (x : relm_setup_header) : list Z := pack header_layout (header_members x).

(** The member of [n] bytes at offset [o] of the boot protocol, which counts from
    the start of the file. *)
Definition member (bs : list Z) (o : Z) (n : nat) : Z :=
  of_le (take n (drop (Z.to_nat (o - RELM_BZIMAGE_HDR_OFFSET)) bs)).
(** [memcpy(&hdr, fw->data + RELM_BZIMAGE_HDR_OFFSET, sizeof(hdr))] *)
Definition header_of_bytes (bs : list Z) : relm_setup_header :=
  let f := member bs in
  SetupHeader (f 0x1F1 1%nat) (f 0x1F2 2%nat) (f 0x1F4 4%nat) (f 0x1F8 2%nat) (f 0x1FA 2%nat) (f 0x1FC 2%nat)
    (f 0x1FE 2%nat) (f 0x200 2%nat) (f 0x202 4%nat) (f 0x206 2%nat) (f 0x208 4%nat) (f 0x20C 2%nat)
    (f 0x20E 2%nat) (f 0x210 1%nat) (f 0x211 1%nat) (f 0x212 2%nat) (f 0x214 4%nat)
    (f 0x218 4%nat) (f 0x21C 4%nat) (f 0x220 4%nat) (f 0x224 2%nat) (f 0x226 1%nat)
    (f 0x227 1%nat) (f 0x228 4%nat) (f 0x22C 4%nat) (f 0x230 4%nat)
    (f 0x234 1%nat) (f 0x235 1%nat) (f 0x236 2%nat) (f 0x238 4%nat) (f 0x23C 4%nat)
    (f 0x240 8%nat) (f 0x248 4%nat) (f 0x24C 4%nat) (f 0x250 8%nat)
    (f 0x258 8%nat) (f 0x260 4%nat) (f 0x264 4%nat) (f 0x268 4%nat).

Definition relm_validate_setup_header (hdr : relm_setup_header) : Z :=
  if negb (boot_flag hdr =? RELM_BOOT_FLAG_MAGIC) then - EINVAL
  else if negb (header hdr =? RELM_BOOT_HDRS_MAGIC) then - EINVAL
  else if version hdr <? RELM_BOOT_PROTOCOL_MIN then - ENOTSUPP
  else if negb (flag (xloadflags hdr) RELM_XLF_KERNEL_64) then - ENOTSUPP
  else if negb (flag (loadflags hdr) RELM_LOADFLAGS_LOADED_HIGH) then - ENOTSUPP
  else 0.

(** ** Writing into the guest *)

Definition E2BIG : Z := 7.

(** [ret = x; k]: the steps of a function that returns an [int] with the memory it
    leaves, [x] being one access to the guest. *)
Definition after {A B} (x : access A) (k : Z -> A -> access B) : access B :=
  match x with
  | Done r a => k r a
  | Oops => Oops
  | OutOfFuel => OutOfFuel
  end.
Declare Scope boot_scope.
Delimit Scope boot_scope with boot.
Notation "'call' ( r , a ) := x 'in' k" := (after x (fun r a => k))
  (at level 200, r name, a name, x at level 100, k at level 200, right associativity) : boot_scope.
Open Scope boot_scope.

Section Loader.
Context (kmap : Z -> bool) (request_firmware : string -> Z * list Z) (m : relm_vm_memory).

Definition copy_to (h : host) (gpa : Z) (bs : list Z) (size : Z) : access host :=
  relm_vm_copy_to_guest kmap h m gpa (Some bs) size.

(** [(n == sizeof(v)) ? 0 : (n < 0 ? n : -EIO)], the way five writers of the file
    turn the count of a copy of [size] bytes into a code. *)
Definition write_exact (h : host) (gpa : Z) (bs : list Z) (size : Z) : access host :=
  call (n, h) := copy_to h gpa bs size in
  Done (if n =? size then 0 else if n <? 0 then n else - EIO) h.

Definition relm_guest_write_u8 (h : host) (gpa v : Z) : access host := write_exact h gpa (le_bytes 1 v) 1.
Definition relm_guest_write_u32 (h : host) (gpa v : Z) : access host := write_exact h gpa (le_bytes 4 v) 4.

(** The value is the memory and, when the code is 0, what [*hdr_out] and
    [*kernel_entry_gpa] receive. *)
Definition relm_kernel_load (have_dev have_hdr have_entry : bool) (h : host)
    : access (host * option (relm_setup_header * Z)) :=
  if negb have_dev || negb have_hdr || negb have_entry then Done (- EINVAL) (h, None)
  else
    let '(ret, data) := request_firmware RELM_KERNEL_FW_NAME in
    let fw_size := Z.of_nat (length data) in
    if negb (ret =? 0) then Done ret (h, None)
    else if fw_size <? RELM_BZIMAGE_HDR_OFFSET + sizeof_setup_header then Done (- EINVAL) (h, None)
    else
      let hdr := header_of_bytes (take (Z.to_nat sizeof_setup_header)
                                    (drop (Z.to_nat RELM_BZIMAGE_HDR_OFFSET) data)) in
      let ret := relm_validate_setup_header hdr in
      if negb (ret =? 0) then Done ret (h, None)
      else
        let sects := if negb (setup_sects hdr =? 0) then setup_sects hdr else 4 in
        let setup_size := (sects + 1) * 512 in
        if fw_size <=? setup_size then Done (- EINVAL) (h, None)
        else
          let pm_kernel_size := fw_size - setup_size in
          if RELM_KERNEL_MAX_SIZE <? pm_kernel_size then Done (- E2BIG) (h, None)
          else
            let load_gpa := if negb (pref_address hdr =? 0) then pref_address hdr else RELM_KERNEL_LOAD_GPA in
            if total_guest_ram m <? u64 (load_gpa + pm_kernel_size) then Done (- ENOMEM) (h, None)
            else
              call (ret, h) := copy_to h load_gpa (drop (Z.to_nat setup_size) data) pm_kernel_size in
              if ret <? 0 then Done ret (h, None)
              else Done 0 (h, Some (hdr, u64 (load_gpa + RELM_STARTUP_64_OFFSET))).

(** The value is the memory and [*initrd_size]; it is unwritten ([None]) when the
    arguments are refused. *)
Definition relm_initrd_load (have_dev have_size : bool) (h : host) : access (host * option Z) :=
  if negb have_dev || negb have_size then Done (- EINVAL) (h, None)
  else
    let '(ret, data) := request_firmware RELM_INITRD_FW_NAME in
    let fw_size := Z.of_nat (length data) in
    if negb (ret =? 0) then Done 0 (h, Some 0)
    else if RELM_INITRD_MAX_SIZE <? fw_size then Done (- E2BIG) (h, Some 0)
    else if total_guest_ram m <? u64 (RELM_INITRD_LOAD_GPA + fw_size) then Done (- ENOMEM) (h, Some 0)
    else
      call (ret, h) := copy_to h RELM_INITRD_LOAD_GPA data fw_size in
      if ret <? 0 then Done ret (h, Some 0) else Done 0 (h, Some (fw_size mod 2 ^ 32)).

(** [strnlen] of a string given without its terminator *)
Fixpoint strnlen (s : list Z) (n : nat) : nat :=
  match n, s with
  | S n, c :: s => if c =? 0 then O else S (strnlen s n)
  | _, _ => O
  end.

Definition relm_cmdline_load (cmdline : option (list Z)) (h : host) : access host :=
  let cmdline := match cmdline with Some s => s | None => RELM_DEFAULT_CMDLINE end in
  let len := Z.of_nat (strnlen cmdline (Z.to_nat (RELM_CMDLINE_MAX_LEN - 1))) in
  call (ret, h) := relm_vm_zero_guest_memory kmap h m RELM_CMDLINE_GPA RELM_CMDLINE_MAX_LEN in
  if ret <? 0 then Done ret h
  else
    call (ret, h) := copy_to h RELM_CMDLINE_GPA cmdline len in
    if ret <? 0 then Done ret h
    else
      call (ret, h) := relm_guest_write_u8 h (RELM_CMDLINE_GPA + len) 0 in
      if negb (ret =? 0) then Done ret h else Done 0 h.

(** The six members the loader fills in. *)
Definition patch_header (x : relm_setup_header) (initrd_size : Z) : relm_setup_header :=
  SetupHeader (setup_sects x) (root_flags x) (syssize x) (ram_size x) 0xFFFF (root_dev x) (boot_flag x)
    (jump x) (header x) (version x) (realmode_swtch x) (start_sys_seg x) (kernel_version x)
    RELM_BP_LOADER_TYPE (loadflags x) (setup_move_size x) (code32_start x)
    (if negb (initrd_size =? 0) then RELM_INITRD_LOAD_GPA mod 2 ^ 32 else 0) initrd_size
    (bootsect_kludge x) (heap_end_ptr x) (ext_loader_ver x) (ext_loader_type x)
    (RELM_CMDLINE_GPA mod 2 ^ 32) (initrd_addr_max x) (kernel_alignment x) (relocatable_kernel x)
    (min_alignment x) (xloadflags x) (RELM_CMDLINE_MAX_LEN - 1) (hardware_subarch x)
    (hardware_subarch_data x) (payload_offset x) (payload_length x) (setup_data x) (pref_address x)
    (init_size x) (handover_offset x) (kernel_info_offset x).

(** [struct relm_bp_e820_entry], packed *)
Definition bp_e820_bytes (e : e820_entry) : list Z :=
  pack [8; 8; 4]%nat [e_addr e; e_size e; e_type e].

(** The loops over [i] that write one block of [s] bytes each stop at the first
    code that [bad] rejects. *)
Fixpoint write_blocks (write : host -> nat -> access host) (bad : Z -> bool) (i n : nat) (h : host)
    : access host :=
  match n with
  | O => Done 0 h
  | S n =>
      call (ret, h) := write h i in
      if bad ret then Done ret h else write_blocks write bad (S i) n h
  end.

(** The value is the memory and what [vm->arch.boot_params_gpa] receives.  The
    map on the stack is uninitialised before the build, which clears it. *)
Definition relm_boot_params_build (hdr_in : option relm_setup_header) (initrd_size : Z) (e820_0 : relm_e820_map)
    (h : host) : access (host * option Z) :=
  match hdr_in with
  | None => Done (- EINVAL) (h, None)
  | Some hdr_in =>
      call (ret, h) := relm_vm_zero_guest_memory kmap h m RELM_BOOT_PARAMS_GPA RELM_BP_SIZE in
      if ret <? 0 then Done ret (h, None)
      else
        let '(ret, e820) := relm_e820_build (total_guest_ram m) e820_0 in
        let count := Z.of_nat (e820_count e820) in
        if negb (ret =? 0) then Done ret (h, None)
        else if RELM_BP_E820_MAX <? count then Done (- E2BIG) (h, None)
        else
          let hdr := patch_header hdr_in initrd_size in
          call (ret, h) := copy_to h (RELM_BOOT_PARAMS_GPA + RELM_BP_OFFSET_HDR) (header_bytes hdr) sizeof_setup_header in
          if ret <? 0 then Done ret (h, None)
          else
            call (ret, h) := relm_guest_write_u8 h (RELM_BOOT_PARAMS_GPA + RELM_BP_OFFSET_E820_ENTRIES) (count mod 256) in
            if negb (ret =? 0) then Done ret (h, None)
            else
              call (ret, h) := write_blocks (fun h i =>
                          copy_to h (RELM_BOOT_PARAMS_GPA + RELM_BP_OFFSET_E820_TABLE + Z.of_nat i * 20)
                            (bp_e820_bytes (default (E820Entry 0 0 0) (entries e820 !! i))) 20)
                          (fun ret => ret <? 0) 0 (e820_count e820) h in
              if ret <? 0 then Done ret (h, None) else Done 0 (h, Some RELM_BOOT_PARAMS_GPA)
  end.

(** ** The diagnostic GDT and IDT *)

Definition relm_write_gdt_entry (h : host) (index entry : Z) : access host :=
  write_exact h (RELM_GUEST_GDT_GPA + (index * 8) mod 2 ^ 32) (le_bytes 8 entry) 8.

Definition idt_gate (handler_gpa : Z) : list Z :=
  let b k := Z.land (Z.shiftr handler_gpa k) 0xFF in
  [ b 0; b 8; Z.land RELM_GUEST_GDT_CS_SEL 0xFF; Z.land (Z.shiftr RELM_GUEST_GDT_CS_SEL 8) 0xFF;
    0x00; 0x8E; b 16; b 24; b 32; b 40; b 48; b 56; 0x00; 0x00; 0x00; 0x00 ].
Definition relm_write_idt_gate (h : host) (vec handler_gpa : Z) : access host :=
  write_exact h (RELM_GUEST_IDT_GPA + (vec * 16) mod 2 ^ 32) (idt_gate handler_gpa) 16.

(** stub.S: [movl $0, %eax; vmcall] and 24 bytes of HLT *)
Definition relm_idt_stub_template : list Z :=
  [0xB8; 0; 0; 0; 0] ++ [0x0F; 0x01; 0xC1] ++ replicate 24 0xF4.
Definition idt_stub (vec : Z) : list Z :=
  <[1%nat := Z.land vec 0xFF]> (take (Z.to_nat RELM_GUEST_IDT_STUBS_STRIDE) relm_idt_stub_template).
Definition relm_write_idt_stub (h : host) (vec : Z) : access host :=
  write_exact h (RELM_GUEST_IDT_STUBS_GPA + (vec * RELM_GUEST_IDT_STUBS_STRIDE) mod 2 ^ 32) (idt_stub vec) 16.

Definition relm_install_diag_idt_gdt (h : host) : access host :=
  let nonzero (ret : Z) := negb (ret =? 0) in
  call (ret, h) := relm_vm_zero_guest_memory kmap h m RELM_GUEST_GDT_GPA 0x1000 in
  if ret <? 0 then Done ret h else
  call (ret, h) := relm_vm_zero_guest_memory kmap h m RELM_GUEST_IDT_GPA RELM_GUEST_IDT_SIZE in
  if ret <? 0 then Done ret h else
  call (ret, h) := relm_vm_zero_guest_memory kmap h m RELM_GUEST_IDT_STUBS_GPA RELM_GUEST_IDT_STUBS_SIZE in
  if ret <? 0 then Done ret h else
  call (ret, h) := relm_write_gdt_entry h 0 0x0000000000000000 in
  if nonzero ret then Done ret h else
  call (ret, h) := relm_write_gdt_entry h 1 0x00AF9B000000FFFF in
  if nonzero ret then Done ret h else
  call (ret, h) := relm_write_gdt_entry h 2 0x00CF93000000FFFF in
  if nonzero ret then Done ret h else
  call (ret, h) := write_blocks (fun h v => relm_write_idt_stub h (Z.of_nat v)) nonzero 0 256 h in
  if nonzero ret then Done ret h else
  call (ret, h) := write_blocks (fun h v => relm_write_idt_gate h (Z.of_nat v)
              (RELM_GUEST_IDT_STUBS_GPA + (Z.of_nat v * RELM_GUEST_IDT_STUBS_STRIDE) mod 2 ^ 32)) nonzero 0 256 h in
  if nonzero ret then Done ret h else
  Done 0 h.

(** ** The whole load *)

Record relm_boot_config := BootConfig {
  bc_cmdline : option (list Z); bc_initrd_name : option string; bc_kernel_name : option string
}.

(** The guest memory and the two members of [vm->arch] the loader sets. *)
Record boot_vm := BootVm { bv_host : host; kernel_entry_gpa : Z; boot_params_gpa : Z }.

(** [kernel_name] and [initrd_name] of the configuration are only logged. *)
Definition relm_boot_load (have_dev : bool) (cfg : option relm_boot_config) (e820_0 : relm_e820_map)
    (vm : boot_vm) : access boot_vm :=
  let cmdline := match cfg with Some c => bc_cmdline c | None => None end in
  if negb have_dev then Done (- EINVAL) vm
  else
    call (ret, kl) := relm_kernel_load true true true (bv_host vm) in
    if negb (ret =? 0) then Done ret (BootVm (fst kl) (kernel_entry_gpa vm) (boot_params_gpa vm)) else
    match kl with
    | (h, None) => Oops   (* success always writes [hdr] and [entry_gpa] *)
    | (h, Some (hdr, entry_gpa)) =>
        call (ret, il) := relm_initrd_load true true h in
        let initrd_size := default 0 (snd il) in
        if negb (ret =? 0) then Done ret (BootVm (fst il) (kernel_entry_gpa vm) (boot_params_gpa vm))
        else
          call (ret, h) := relm_cmdline_load cmdline (fst il) in
          if negb (ret =? 0) then Done ret (BootVm h (kernel_entry_gpa vm) (boot_params_gpa vm))
          else
            call (ret, bp) := relm_boot_params_build (Some hdr) initrd_size e820_0 h in
            let bpg := default (boot_params_gpa vm) (snd bp) in
            if negb (ret =? 0) then Done ret (BootVm (fst bp) (kernel_entry_gpa vm) bpg)
            else
              call (ret, h) := relm_install_diag_idt_gdt (fst bp) in
              if negb (ret =? 0) then Done ret (BootVm h (kernel_entry_gpa vm) bpg)
              else Done 0 (BootVm h entry_gpa bpg)
    end.
End Loader.

Definition relm_linux_loader_entry_gpa (vm : option boot_vm) : Z :=
  match vm with Some v => kernel_entry_gpa v | None => 0 end.

(** ** The packed header *)

(** A value that fits each member. *)
Fixpoint fits (layout : list nat) (vs : list Z) : Prop :=
  match layout, vs with
  | [], [] => True
  | n :: layout, v :: vs => 0 <= v < 256 ^ Z.of_nat n /\ fits layout vs
  | _, _ => False
  end.
Fixpoint unpack (layout : list nat) (bs : list Z) : list Z :=
  match layout with
  | [] => []
  | n :: layout => of_le (take n bs) :: unpack layout (drop n bs)
  end.

Lemma unpack_pack layout vs rest : fits layout vs -> unpack layout (pack layout vs ++ rest) = vs.
Proof.
  revert vs. induction layout as [|n layout IH]; intros [|v vs] F; try done. destruct F as [Hv F].
  cbn [pack unpack]. rewrite <- app_assoc.
  rewrite take_app_length', drop_app_length' by (by rewrite le_bytes_length).
  rewrite of_le_bytes, Z.mod_small by done. by rewrite IH.
Qed.

Lemma pack_unpack layout bs : Forall is_byte bs -> length bs = list_sum layout ->
  pack layout (unpack layout bs) = bs.
Proof.
  revert bs. induction layout as [|n layout IH]; intros bs Hb Hl; [by apply nil_length_inv in Hl|].
  cbn [list_sum] in Hl. cbn [pack unpack].
  assert (length (take n bs) = n) as Ln by (rewrite length_take; simpl in Hl; lia).
  rewrite <- Ln at 1. rewrite le_bytes_of_le by (by apply Forall_take).
  rewrite IH; [by rewrite take_drop|by apply Forall_drop|]. rewrite length_drop. simpl in Hl. lia.
Qed.

Lemma fits_unpack layout bs : Forall is_byte bs -> length bs = list_sum layout ->
  fits layout (unpack layout bs).
Proof.
  revert bs. induction layout as [|n layout IH]; intros bs Hb Hl; [done|]. simpl in Hl |- *. split.
  - assert (length (take n bs) = n) as Ln by (rewrite length_take; lia).
    pose proof (of_le_range _ (Forall_take _ n _ Hb)) as R. by rewrite Ln in R.
  - apply IH; [by apply Forall_drop|]. rewrite length_drop. lia.
Qed.

Lemma pack_length layout vs : length layout = length vs -> length (pack layout vs) = list_sum layout.
Proof.
  revert vs. induction layout as [|n layout IH]; intros [|v vs] E; try done.
  simpl in E |- *. rewrite length_app, le_bytes_length, IH by lia. done.
Qed.

(** Evaluates the members of an explicit header. *)
Ltac cbn_header := cbn [setup_sects root_flags syssize ram_size vid_mode root_dev boot_flag jump header version
    realmode_swtch start_sys_seg kernel_version type_of_loader loadflags setup_move_size code32_start
    ramdisk_image ramdisk_size bootsect_kludge heap_end_ptr ext_loader_ver ext_loader_type cmd_line_ptr
    initrd_addr_max kernel_alignment relocatable_kernel min_alignment xloadflags cmdline_size
    hardware_subarch hardware_subarch_data payload_offset payload_length setup_data pref_address init_size
    handover_offset kernel_info_offset].

(** The member functions read the members of the layout in order. *)
Lemma header_members_of_bytes bs : header_members (header_of_bytes bs) = unpack header_layout bs.
Proof.
  unfold header_members, header_of_bytes, header_layout, member, RELM_BZIMAGE_HDR_OFFSET.
  cbn [unpack]. cbn_header.
  rewrite !drop_drop. reflexivity.
Qed.

Lemma header_members_inj x y : header_members x = header_members y -> x = y.
Proof. destruct x, y. unfold header_members. cbn. intros [= -> -> -> -> -> -> -> -> -> -> -> -> -> -> -> -> -> -> -> -> -> -> -> -> -> -> -> -> -> -> -> -> -> -> -> -> -> -> ->]. done. Qed.


(** ** Writes into flat guest RAM *)

Section Writes.
Context (kmap : Z -> bool) (m : relm_vm_memory) (RI : ram_inv m) (Hk : forall p, kmap p = true).
Context (flat : forall g, 0 <= g < total_guest_ram m -> covered_gpa m g) (Hram : total_guest_ram m < 2 ^ 48).

(** The guest's memory after [bs] was written at [gpa]; the host's tables and pages
    in use are as before. *)
Definition wrote (h : host) (gpa : Z) (bs : list Z) (h' : host) : Prop :=
  h_words h' = h_words h /\ h_live h' = h_live h /\
  forall g, covered_gpa m g -> gbyte h' m g =
    if decide (gpa <= g < gpa + Z.of_nat (length bs)) then bs !! Z.to_nat (g - gpa) else gbyte h m g.

(** The guest finds [bs] at [gpa]. *)
Definition holds (h : host) (gpa : Z) (bs : list Z) : Prop :=
  forall j, (j < length bs)%nat -> covered_gpa m (gpa + Z.of_nat j) /\
    gbyte h m (gpa + Z.of_nat j) = bs !! j.

Lemma stored_wrote h gpa src k h' : stored m h gpa src k h' -> 0 <= k <= Z.of_nat (length src) ->
  wrote h gpa (take (Z.to_nat k) src) h'.
Proof.
  intros S Hl. split; [apply S|]. split; [apply S|]. intros g Hg.
  rewrite (gbyte_stored m RI _ _ _ _ _ _ S) by (done || lia). rewrite length_take.
  repeat case_decide; try done; try lia. rewrite lookup_take_lt by lia. done.
Qed.

Lemma copy_all h gpa bs size : 0 <= gpa -> 0 < size < 2 ^ 31 -> gpa + size <= total_guest_ram m ->
  size <= Z.of_nat (length bs) ->
  exists h', copy_to kmap m h gpa bs size = Done size h' /\ wrote h gpa (take (Z.to_nat size) bs) h'.
Proof.
  intros H0 Hs Hr Hl.
  destruct (copy_to_spec kmap h m gpa size bs RI Hk H0 ltac:(lia) ltac:(lia) Hl) as (k & h' & E & Kn & _ & R & S).
  assert (k = size) as ->.
  { destruct (decide (k = size)); [done|]. destruct R as [|N]; [done|]. destruct N. apply flat. lia. }
  exists h'. unfold copy_to. rewrite E. unfold access_code. rewrite Z.eqb_refl, s32_small by lia.
  split; [done|]. apply stored_wrote; [done|lia].
Qed.

Lemma zero_all h gpa size : 0 <= gpa -> 0 < size < 2 ^ 31 -> gpa + size <= total_guest_ram m ->
  exists h', relm_vm_zero_guest_memory kmap h m gpa size = Done size h' /\
    wrote h gpa (replicate (Z.to_nat size) 0) h'.
Proof.
  intros H0 Hs Hr.
  destruct (zero_guest_memory_correct kmap h m gpa size RI Hk H0 ltac:(lia) ltac:(lia)) as (k & h' & E & Kn & R & S).
  assert (k = size) as ->.
  { destruct (decide (k = size)); [done|]. destruct R as [|N]; [done|]. destruct N. apply flat. lia. }
  exists h'. rewrite E. unfold access_code. rewrite Z.eqb_refl, s32_small by lia.
  split; [done|]. apply stored_wrote in S; [|rewrite length_replicate; lia].
  by rewrite take_ge in S by (rewrite length_replicate; lia).
Qed.

Lemma write_exact_all h gpa bs size : 0 <= gpa -> 0 < size < 2 ^ 31 -> gpa + size <= total_guest_ram m ->
  size = Z.of_nat (length bs) ->
  exists h', write_exact kmap m h gpa bs size = Done 0 h' /\ wrote h gpa bs h'.
Proof.
  intros H0 Hs Hr Hl. destruct (copy_all h gpa bs size H0 Hs Hr ltac:(lia)) as (h' & E & W).
  exists h'. unfold write_exact. rewrite E. cbn [after]. rewrite Z.eqb_refl.
  split; [done|]. by rewrite take_ge in W by lia.
Qed.

(** A write into a range just written replaces a part of it. *)
Lemma wrote_into h a bs h1 b cs h2 : wrote h a bs h1 -> wrote h1 b cs h2 -> a <= b ->
  b + Z.of_nat (length cs) <= a + Z.of_nat (length bs) ->
  wrote h a (list_inserts (Z.to_nat (b - a)) cs bs) h2.
Proof.
  intros (W1 & L1 & B1) (W2 & L2 & B2) Hab Hl. split; [congruence|]. split; [congruence|].
  intros g Hg. rewrite B2, B1, length_inserts by done.
  destruct (decide (b <= g < b + Z.of_nat (length cs))).
  - rewrite decide_True by lia. rewrite list_lookup_inserts by lia. f_equal. lia.
  - case_decide; [|done]. symmetry.
    destruct (decide (g < b)).
    + apply list_lookup_inserts_lt. lia.
    + apply list_lookup_inserts_ge. lia.
Qed.

(** Two writes side by side are one. *)
Lemma wrote_app h a bs h1 cs h2 : wrote h a bs h1 -> wrote h1 (a + Z.of_nat (length bs)) cs h2 ->
  wrote h a (bs ++ cs) h2.
Proof.
  intros (W1 & L1 & B1) (W2 & L2 & B2). split; [congruence|]. split; [congruence|].
  intros g Hg. rewrite B2, B1, length_app by done. repeat case_decide; try done; try lia.
  - rewrite lookup_app_r by lia. f_equal. lia.
  - rewrite lookup_app_l by lia. done.
Qed.

Lemma wrote_nil h a : wrote h a [] h.
Proof. split_and!; try done. intros g _. simpl. rewrite decide_False by lia. done. Qed.

(** A loop over consecutive blocks writes their concatenation. *)
Lemma write_blocks_spec write bad (blk : nat -> list Z) base s n h :
  (forall h i, (i < n)%nat -> exists r h', write h i = Done r h' /\ bad r = false /\
     wrote h (base + Z.of_nat (s * i)) (blk i) h') ->
  (forall i, (i < n)%nat -> length (blk i) = s) ->
  exists h', write_blocks write bad 0 n h = Done 0 h' /\ wrote h base (concat (map blk (seq 0 n))) h'.
Proof.
  intros Hw Hl.
  enough (forall k i h, (i + k = n)%nat -> exists h', write_blocks write bad i k h = Done 0 h' /\
    wrote h (base + Z.of_nat (s * i)) (concat (map blk (seq i k))) h') as G.
  { destruct (G n 0%nat h eq_refl) as (h' & E & W). exists h'. split; [done|].
    by rewrite Nat.mul_0_r, Z.add_0_r in W. }
  intros k. induction k as [|k IH]; intros i h1 Hi; cbn [write_blocks seq map concat].
  { exists h1. split; [done|apply wrote_nil]. }
  destruct (Hw h1 i ltac:(lia)) as (r & h2 & E & Hb & W). rewrite E. cbn [after]. rewrite Hb.
  destruct (IH (S i) h2 ltac:(lia)) as (h3 & E3 & W3). exists h3. split; [done|].
  apply (wrote_app _ _ _ h2); [done|]. rewrite Hl by lia.
  replace (base + Z.of_nat (s * i) + Z.of_nat s) with (base + Z.of_nat (s * S i)) by lia. done.
Qed.

Lemma wrote_holds h gpa bs h' : wrote h gpa bs h' -> 0 <= gpa -> gpa + Z.of_nat (length bs) <= total_guest_ram m ->
  holds h' gpa bs.
Proof.
  intros (_ & _ & B) H0 Hr j Hj. assert (covered_gpa m (gpa + Z.of_nat j)) as C by (apply flat; lia).
  split; [done|]. rewrite B, decide_True by (done || lia). f_equal. lia.
Qed.

Lemma wrote_keeps h gpa bs h' a cs : wrote h gpa bs h' -> holds h a cs ->
  a + Z.of_nat (length cs) <= gpa \/ gpa + Z.of_nat (length bs) <= a -> holds h' a cs.
Proof.
  intros (_ & _ & B) H D j Hj. destruct (H j Hj) as [C E]. split; [done|].
  rewrite B, decide_False by (done || lia). done.
Qed.

Lemma holds_part h gpa bs o n : holds h gpa bs -> (o + n <= length bs)%nat ->
  holds h (gpa + Z.of_nat o) (take n (drop o bs)).
Proof.
  intros H Hl j Hj. rewrite length_take, length_drop in Hj.
  destruct (H (o + j)%nat ltac:(lia)) as [C E].
  replace (gpa + Z.of_nat o + Z.of_nat j) with (gpa + Z.of_nat (o + j)) by lia.
  split; [done|]. rewrite E, lookup_take_lt, lookup_drop by lia. done.
Qed.

Lemma holds_gbytes h gpa bs : holds h gpa bs -> gbytes h m (length bs) gpa = Some bs.
Proof.
  intros H. unfold gbytes. apply mapM_Some, Forall2_same_length_lookup_2; [by rewrite length_seq|].
  intros i x y [-> Hi]%lookup_seq Hy. cbn [Nat.add]. destruct (H i Hi) as [_ ->]. done.
Qed.
End Writes.

(** ** What the parts of the loader write *)

Lemma inserts_zeros (s : list Z) (n : nat) : (length s < n)%nat ->
  list_inserts (length s) [0] (list_inserts 0 s (replicate n 0)) = s ++ replicate (n - length s) 0.
Proof.
  intros Hl. apply list_eq. intros i. cbn [list_inserts].
  destruct (decide (i < length s)%nat) as [D|D].
  - rewrite list_lookup_insert_ne, list_lookup_inserts, lookup_app_l by (rewrite ?length_replicate; lia).
    f_equal. lia.
  - rewrite lookup_app_r by lia. destruct (decide (i = length s)) as [-> |D'].
    + rewrite list_lookup_insert_eq by (rewrite length_inserts, length_replicate; lia).
      rewrite lookup_replicate_2 by lia. done.
    + rewrite list_lookup_insert_ne, list_lookup_inserts_ge by lia.
      destruct (decide (i < n)%nat).
      * rewrite !lookup_replicate_2 by lia. done.
      * rewrite !lookup_ge_None_2 by (rewrite length_replicate; lia). done.
Qed.

(** A C string of at most 4095 bytes. *)
Definition c_str (s : list Z) : Prop := Forall (fun c => c <> 0) s /\ (length s <= 4095)%nat.

Lemma strnlen_c_str s n : Forall (fun c => c <> 0) s -> (length s <= n)%nat -> strnlen s n = length s.
Proof.
  revert n. induction s as [|c s IH]; intros [|n] F Hl; try done; [simpl in Hl; lia|].
  apply Forall_cons in F as [Hc F]. cbn [strnlen length] in *.
  rewrite (proj2 (Z.eqb_neq _ _)) by done. by rewrite IH by (done || lia).
Qed.

(** The page of the command line: the string and zeros. *)
Definition cmdline_page (s : list Z) : list Z := s ++ replicate (4096 - length s) 0.

(** The zero page: the header, the number of map entries and the map. *)
Definition zero_page (hdr : relm_setup_header) (es : list e820_entry) : list Z :=
  list_inserts 0x2D0 (concat (map bp_e820_bytes es))
    (list_inserts 0x1E8 [Z.of_nat (length es)]
      (list_inserts 0x1F1 (header_bytes hdr) (replicate (Z.to_nat 4096) 0))).

Definition gdt_page : list Z :=
  list_inserts 0 (le_bytes 8 0 ++ le_bytes 8 0x00AF9B000000FFFF ++ le_bytes 8 0x00CF93000000FFFF)
    (replicate (Z.to_nat 4096) 0).
Definition idt_page : list Z := concat (map (fun v => idt_gate (0x6000 + Z.of_nat v * 16)) (seq 0 256)).
Definition stub_page : list Z := concat (map (fun v => idt_stub (Z.of_nat v)) (seq 0 256)).

(** The step over a call whose code is known to be a success. *)
Ltac call_ok E := rewrite E; cbn [after];
  repeat match goal with
  | |- context [negb (0 =? 0)] => change (negb (0 =? 0)) with false
  | |- context [?a <? 0] => rewrite (proj2 (Z.ltb_ge a 0)) by lia
  end; cbv iota.

Section Parts.
Context (kmap : Z -> bool) (request_firmware : string -> Z * list Z).
Context (m : relm_vm_memory) (RI : ram_inv m) (Hk : forall p, kmap p = true).
Context (flat : forall g, 0 <= g < total_guest_ram m -> covered_gpa m g).
Context (Hram : 0x200000 <= total_guest_ram m < 2 ^ 48).

Notation copy_all := (copy_all kmap m RI Hk flat (proj2 Hram)).
Notation zero_all := (zero_all kmap m RI Hk flat (proj2 Hram)).
Notation write_exact_all := (write_exact_all kmap m RI Hk flat (proj2 Hram)).

Lemma cmdline_spec h s : c_str s -> s <> [] ->
  exists h', relm_cmdline_load kmap m (Some s) h = Done 0 h' /\ wrote m h 0x20000 (cmdline_page s) h'.
Proof.
  intros [F Hl] Hn. unfold relm_cmdline_load, RELM_CMDLINE_GPA, RELM_CMDLINE_MAX_LEN.
  rewrite strnlen_c_str by (done || lia).
  assert (0 < length s)%nat as Hp by (destruct s; [done|simpl; lia]).
  destruct (zero_all h 0x20000 4096) as (h1 & E1 & W1); [lia..|]. call_ok E1.
  destruct (copy_all h1 0x20000 s (Z.of_nat (length s))) as (h2 & E2 & W2); [lia..|].
  rewrite Nat2Z.id, take_ge in W2 by lia.
  call_ok E2. unfold relm_guest_write_u8.
  destruct (write_exact_all h2 (0x20000 + Z.of_nat (length s)) (le_bytes 1 0) 1) as (h3 & E3 & W3); [lia..|done|].
  call_ok E3. exists h3. split; [done|].
  pose proof (wrote_into m _ _ _ _ _ _ _ W1 W2 ltac:(lia) ltac:(rewrite length_replicate; lia)) as W12.
  pose proof (wrote_into m _ _ _ _ _ _ _ W12 W3 ltac:(lia)
    ltac:(rewrite length_inserts, length_replicate; simpl; lia)) as W.
  replace (Z.to_nat (0x20000 + Z.of_nat (length s) - 0x20000)) with (length s) in W by lia.
  rewrite Z.sub_diag in W. change (le_bytes 1 0) with [0] in W. rewrite inserts_zeros in W by lia.
  unfold cmdline_page. replace (4096 - length s)%nat with (Z.to_nat 4096 - length s)%nat by lia. exact W.
Qed.

(** An empty command line is refused: a guest copy of no bytes is an error. *)
Lemma cmdline_empty h : exists h', relm_cmdline_load kmap m (Some []) h = Done (- EINVAL) h' /\
  wrote m h 0x20000 (replicate (Z.to_nat 4096) 0) h'.
Proof.
  unfold relm_cmdline_load, RELM_CMDLINE_GPA, RELM_CMDLINE_MAX_LEN.
  destruct (zero_all h 0x20000 4096) as (h1 & E1 & W1); [lia..|]. call_ok E1.
  exists h1. split; [|done]. by destruct (Z.to_nat (4096 - 1)).
Qed.

Lemma bp_e820_length e : length (bp_e820_bytes e) = 20%nat.
Proof. done. Qed.
Lemma header_bytes_length x : length (header_bytes x) = Z.to_nat sizeof_setup_header.
Proof. by apply pack_length. Qed.

Lemma boot_params_spec h hdr isz e0 : exists h' e820,
  relm_e820_build (total_guest_ram m) e0 = (0, e820) /\ length (e820_live e820) = 4%nat /\
  relm_boot_params_build kmap m (Some hdr) isz e0 h = Done 0 (h', Some 0x7000) /\
  wrote m h 0x7000 (zero_page (patch_header hdr isz) (e820_live e820)) h'.
Proof.
  unfold relm_boot_params_build, RELM_BOOT_PARAMS_GPA, RELM_BP_SIZE, RELM_BP_OFFSET_HDR,
    RELM_BP_OFFSET_E820_ENTRIES, RELM_BP_OFFSET_E820_TABLE.
  destruct (e820_build_eq (total_guest_ram m) e0) as [rest Ee]; [lia|]. rewrite Ee.
  set (es := [E820Entry 0 0xA0000 1; E820Entry 0xA0000 0x60000 2;
    E820Entry 0x100000 (total_guest_ram m - 0x100000) 1; E820Entry 0xFFFE0000 0x20000 2]).
  change (E820Map _ 4) with (E820Map (es ++ rest) 4). cbn [e820_count entries].
  change (Z.of_nat 4) with 4. change (RELM_BP_E820_MAX <? 4) with false. change (negb (0 =? 0)) with false.
  cbv iota.
  destruct (zero_all h 0x7000 0x1000) as (h1 & E1 & W1); [lia..|]. call_ok E1. cbv zeta.
  destruct (copy_all h1 (0x7000 + 0x1F1) (header_bytes (patch_header hdr isz)) sizeof_setup_header)
    as (h2 & E2 & W2); [lia|done|change sizeof_setup_header with 123; lia|rewrite header_bytes_length; done|].
  rewrite take_ge in W2 by (rewrite header_bytes_length; done).
  change sizeof_setup_header with 123 in E2 |- *. call_ok E2. unfold relm_guest_write_u8.
  destruct (write_exact_all h2 (0x7000 + 0x1E8) (le_bytes 1 (4 mod 256)) 1) as (h3 & E3 & W3); [lia..|done|].
  call_ok E3.
  set (d := E820Entry 0 0 0).
  destruct (write_blocks_spec m (fun h i => copy_to kmap m h (0x7000 + 0x2D0 + Z.of_nat i * 20)
      (bp_e820_bytes (default d ((es ++ rest) !! i))) 20) (fun ret => ret <? 0)
      (fun i => bp_e820_bytes (default d (es !! i))) 0x72D0 20 4 h3) as (h4 & E4 & W4).
  { intros h' i Hi. rewrite lookup_app_l by (simpl; lia).
    destruct (copy_all h' (0x7000 + 0x2D0 + Z.of_nat i * 20) (bp_e820_bytes (default d (es !! i))) 20)
      as (h'' & E & W); [lia..|done|]. exists 20, h''. split; [exact E|]. split; [done|].
    replace (0x72D0 + Z.of_nat (20 * i)) with (0x7000 + 0x2D0 + Z.of_nat i * 20) by lia.
    by rewrite take_ge in W by done. }
  { done. }
  call_ok E4.
  exists h4, (E820Map (es ++ rest) 4). split_and!; [done|done|done|].
  change (e820_live _) with es. unfold zero_page.
  pose proof (wrote_into m _ _ _ _ _ _ _ W1 W2 ltac:(lia) ltac:(rewrite header_bytes_length; done)) as V.
  pose proof (wrote_into m _ _ _ _ _ _ _ V W3 ltac:(lia) ltac:(rewrite length_inserts; done)) as V'.
  exact (wrote_into m _ _ _ _ _ _ _ V' W4 ltac:(lia) ltac:(rewrite !length_inserts; done)).
Qed.

Lemma idt_stub_length v : length (idt_stub v) = 16%nat.
Proof. unfold idt_stub. by rewrite length_insert. Qed.

Lemma pages_length : length gdt_page = 4096%nat /\ length idt_page = 4096%nat /\ length stub_page = 4096%nat.
Proof. vm_compute. done. Qed.

(** The diagnostic tables fill the three pages from 0x4000. *)
Lemma diag_spec h : exists h1 h2 h3, relm_install_diag_idt_gdt kmap m h = Done 0 h3 /\
  wrote m h 0x4000 (gdt_page ++ replicate (Z.to_nat 4096) 0 ++ replicate (Z.to_nat 4096) 0) h1 /\
  wrote m h1 0x6000 stub_page h2 /\ wrote m h2 0x5000 idt_page h3.
Proof.
  unfold relm_install_diag_idt_gdt, RELM_GUEST_GDT_GPA, RELM_GUEST_IDT_GPA, RELM_GUEST_IDT_STUBS_GPA,
    RELM_GUEST_IDT_SIZE, RELM_GUEST_IDT_STUBS_SIZE, RELM_GUEST_IDT_STUBS_STRIDE. cbv zeta.
  destruct (zero_all h 0x4000 0x1000) as (g1 & E1 & W1); [lia..|]. call_ok E1.
  destruct (zero_all g1 0x5000 (256 * 16)) as (g2 & E2 & W2); [lia..|]. call_ok E2.
  destruct (zero_all g2 0x6000 (256 * 16)) as (g3 & E3 & W3); [lia..|]. call_ok E3.
  unfold relm_write_gdt_entry, RELM_GUEST_GDT_GPA.
  change ((0 * 8) mod 2 ^ 32) with 0. change ((1 * 8) mod 2 ^ 32) with 8. change ((2 * 8) mod 2 ^ 32) with 16.
  destruct (write_exact_all g3 (0x4000 + 0) (le_bytes 8 0) 8) as (g4 & E4 & W4);
    [lia..|done|]. call_ok E4.
  destruct (write_exact_all g4 (0x4000 + 8) (le_bytes 8 0x00AF9B000000FFFF) 8) as (g5 & E5 & W5);
    [lia..|done|]. call_ok E5.
  destruct (write_exact_all g5 (0x4000 + 16) (le_bytes 8 0x00CF93000000FFFF) 8) as (g6 & E6 & W6);
    [lia..|done|]. call_ok E6.
  destruct (write_blocks_spec m (fun h v => relm_write_idt_stub kmap m h (Z.of_nat v)) (fun r => negb (r =? 0))
    (fun v => idt_stub (Z.of_nat v)) 0x6000 16 256 g6) as (g7 & E7 & W7).
  { intros h' i Hi. unfold relm_write_idt_stub, RELM_GUEST_IDT_STUBS_GPA, RELM_GUEST_IDT_STUBS_STRIDE.
    rewrite Z.mod_small by lia.
    destruct (write_exact_all h' (0x6000 + Z.of_nat i * 16) (idt_stub (Z.of_nat i)) 16) as (h'' & E & W);
      [lia..|by rewrite idt_stub_length|].
    exists 0, h''. split; [exact E|]. split; [done|].
    by replace (0x6000 + Z.of_nat (16 * i)) with (0x6000 + Z.of_nat i * 16) by lia. }
  { intros. apply idt_stub_length. }
  call_ok E7.
  destruct (write_blocks_spec m (fun h v => relm_write_idt_gate kmap m h (Z.of_nat v)
      (0x6000 + (Z.of_nat v * 16) mod 2 ^ 32)) (fun r => negb (r =? 0))
    (fun v => idt_gate (0x6000 + Z.of_nat v * 16)) 0x5000 16 256 g7) as (g8 & E8 & W8).
  { intros h' i Hi. unfold relm_write_idt_gate, RELM_GUEST_IDT_GPA. rewrite !Z.mod_small by lia.
    destruct (write_exact_all h' (0x5000 + Z.of_nat i * 16) (idt_gate (0x6000 + Z.of_nat i * 16)) 16)
      as (h'' & E & W); [lia..|done|].
    exists 0, h''. split; [exact E|]. split; [done|].
    by replace (0x5000 + Z.of_nat (16 * i)) with (0x5000 + Z.of_nat i * 16) by lia. }
  { done. }
  call_ok E8. exists g6, g7, g8. split; [done|]. split; [|by split].
  pose proof (wrote_app m _ _ _ _ _ _ W1 W2) as V. pose proof (wrote_app m _ _ _ _ _ _ V W3) as V3.
  pose proof (wrote_app m _ _ _ _ _ _ W4 W5) as V5. pose proof (wrote_app m _ _ _ _ _ _ V5 W6) as V6.
  exact (wrote_into m _ _ _ _ _ _ _ V3 V6 ltac:(simpl; lia) ltac:(vm_compute; discriminate)).
Qed.

(** What the boot protocol asks of an image. *)
Definition image_header (img : list Z) : relm_setup_header := header_of_bytes (take 123 (drop 0x1F1 img)).
Definition bootable (x : relm_setup_header) : Prop :=
  boot_flag x = 0xAA55 /\ header x = 0x53726448 /\ 0x20C <= version x /\
  Z.testbit (xloadflags x) 0 = true /\ Z.testbit (loadflags x) 0 = true.
Definition setup_bytes (img : list Z) : Z :=
  let s := setup_sects (image_header img) in ((if decide (s = 0) then 4 else s) + 1) * 512.
Definition payload (img : list Z) : list Z := drop (Z.to_nat (setup_bytes img)) img.
Definition load_address (img : list Z) : Z :=
  let p := pref_address (image_header img) in if decide (p = 0) then 0x1000000 else p.
Record loadable (img : list Z) : Prop := Loadable {
  lo_size : (0x26C <= length img)%nat;
  lo_hdr : bootable (image_header img);
  lo_payload : setup_bytes img < Z.of_nat (length img);
  lo_max : Z.of_nat (length (payload img)) <= 0x4000000;
  lo_ram : load_address img + Z.of_nat (length (payload img)) <= total_guest_ram m
}.

Lemma validate_spec x : (bootable x /\ relm_validate_setup_header x = 0) \/
  (~ bootable x /\ relm_validate_setup_header x < 0).
Proof.
  unfold bootable, relm_validate_setup_header, RELM_BOOT_FLAG_MAGIC, RELM_BOOT_HDRS_MAGIC,
    RELM_BOOT_PROTOCOL_MIN, RELM_XLF_KERNEL_64, RELM_LOADFLAGS_LOADED_HIGH.
  change (Z.shiftl 1 0) with (2 ^ 0). rewrite !flag_pow2 by lia.
  repeat match goal with |- context [if negb ?b then _ else _] =>
    let B := fresh in destruct b eqn:B; cbn [negb] end.
  all: try match goal with |- context [if ?b then _ else _] => let B := fresh in destruct b eqn:B end.
  all: tidy_bool; unfold EINVAL, ENOTSUPP; intuition (lia || congruence).
Qed.

(** An address outside RAM is refused before anything is written. *)
Lemma copy_uncovered h gpa bs size : 0 < size -> ~ covered_gpa m gpa ->
  copy_to kmap m h gpa bs size = Done (- EFAULT) h.
Proof.
  intros Hs N. unfold copy_to, relm_vm_copy_to_guest. rewrite (proj2 (Z.eqb_neq size 0)) by lia.
  destruct (Z.to_nat size) as [|f] eqn:Ef; [lia|]. cbn [guest_loop].
  rewrite (proj2 (Z.ltb_lt 0 size)) by lia. cbn [negb].
  pose proof (find_region_spec m RI None gpa ltac:(done)) as F.
  destruct (find_region m None gpa) as [r|]; [|done]. destruct F as [Hr Hg], N.
  destruct (region_page m RI r gpa Hr Hg) as (ps & p & E & L & _). exists p, r, ps. done.
Qed.

(** Reading a payload: its length, and that its place fits the address space. *)
Lemma image_fits img : Forall is_byte img -> (0x26C <= length img)%nat ->
  0 <= setup_sects (image_header img) < 256 /\ 0 <= pref_address (image_header img) < 2 ^ 64.
Proof.
  intros Hb Hl.
  pose proof (fits_unpack header_layout (take 123 (drop 0x1F1 img)) (Forall_take _ _ _ (Forall_drop _ _ _ Hb))) as F.
  rewrite <- header_members_of_bytes in F. fold (image_header img) in F.
  assert (length (take 123 (drop 0x1F1 img)) = list_sum header_layout) as L.
  { rewrite length_take, length_drop. change (list_sum header_layout) with 123%nat. lia. }
  specialize (F L). cbn [fits header_layout header_members] in F.
  change (256 ^ Z.of_nat 1) with 256 in F. change (256 ^ Z.of_nat 8) with (2 ^ 64) in F. tauto.
Qed.

Lemma kernel_load_spec h img : request_firmware RELM_KERNEL_FW_NAME = (0, img) -> Forall is_byte img ->
  (loadable img /\ exists h', relm_kernel_load kmap request_firmware m true true true h =
     Done 0 (h', Some (image_header img, load_address img + 0x200)) /\
     wrote m h (load_address img) (payload img) h') \/
  (~ loadable img /\ exists e, e < 0 /\ relm_kernel_load kmap request_firmware m true true true h = Done e (h, None)).
Proof.
  intros Ef Hb. unfold relm_kernel_load. rewrite Ef. cbn [negb orb Z.eqb].
  change (RELM_BZIMAGE_HDR_OFFSET + sizeof_setup_header) with 0x26C.
  change (header_of_bytes _) with (image_header img).
  destruct (Z.ltb_spec (Z.of_nat (length img)) 0x26C) as [L|L].
  { right. split; [intros []; lia|]. by exists (- EINVAL). }
  destruct (image_fits img Hb ltac:(lia)) as [Fs Fp].
  destruct (validate_spec (image_header img)) as [[B ->]|[B V]].
  2:{ right. split; [by intros []|]. rewrite (proj2 (Z.eqb_neq _ 0)) by lia. eauto. }
  cbn [negb Z.eqb].
  assert (((if negb (setup_sects (image_header img) =? 0) then setup_sects (image_header img) else 4) + 1) * 512
    = setup_bytes img) as ->.
  { unfold setup_bytes. case_decide as D; [by rewrite D|]. by rewrite (proj2 (Z.eqb_neq _ _) D). }
  assert ((if negb (pref_address (image_header img) =? 0) then pref_address (image_header img)
    else RELM_KERNEL_LOAD_GPA) = load_address img) as ->.
  { unfold load_address. case_decide as D; [by rewrite D|]. by rewrite (proj2 (Z.eqb_neq _ _) D). }
  assert (0 <= setup_bytes img) as Hs by (unfold setup_bytes; case_decide; lia).
  assert (0 <= load_address img < 2 ^ 64) as Ha by (unfold load_address; case_decide; lia).
  destruct (Z.leb_spec (Z.of_nat (length img)) (setup_bytes img)) as [P|P].
  { right. split; [intros []; lia|]. by exists (- EINVAL). }
  assert (Z.of_nat (length (payload img)) = Z.of_nat (length img) - setup_bytes img) as Lp
    by (unfold payload; rewrite length_drop; lia).
  unfold RELM_KERNEL_MAX_SIZE. rewrite <- Lp. fold (payload img).
  destruct (Z.ltb_spec (64 * 1024 * 1024) (Z.of_nat (length (payload img)))) as [X|X].
  { right. split; [intros []; lia|]. by exists (- E2BIG). }
  destruct (Z.ltb_spec (total_guest_ram m) (u64 (load_address img + Z.of_nat (length (payload img))))) as [R|R].
  { right. split; [|by exists (- ENOMEM)]. intros [_ _ _ _ R']. rewrite u64_small in R by lia. lia. }
  destruct (decide (load_address img + Z.of_nat (length (payload img)) < 2 ^ 64)) as [D|D].
  - rewrite u64_small in R by lia. left. split; [split; done || lia|].
    destruct (copy_all h (load_address img) (payload img) (Z.of_nat (length (payload img))))
      as (h' & E & W); [lia..|]. call_ok E.
    rewrite Nat2Z.id, take_ge in W by lia. exists h'. split; [|done].
    unfold RELM_STARTUP_64_OFFSET. rewrite u64_small by lia. done.
  - right. split; [intros [_ _ _ _ R']; lia|]. exists (- EFAULT). split; [done|].
    rewrite copy_uncovered; [done|lia|]. intros (p & r & ps & Hr & _ & Hg & _).
    destruct (ra_ok _ RI r Hr) as (? & _ & _ & _ & _ & _ & ?). lia.
Qed.

Lemma initrd_spec h data : request_firmware RELM_INITRD_FW_NAME = (0, data) -> data <> [] ->
  Z.of_nat (length data) <= 0x3C00000 -> 0x4000000 + Z.of_nat (length data) <= total_guest_ram m ->
  exists h', relm_initrd_load kmap request_firmware m true true h = Done 0 (h', Some (Z.of_nat (length data))) /\
    wrote m h 0x4000000 data h'.
Proof.
  intros Ef Hn Hm Hr. assert (0 < length data)%nat by (destruct data; [done|simpl; lia]).
  unfold relm_initrd_load, RELM_INITRD_MAX_SIZE, RELM_INITRD_LOAD_GPA. rewrite Ef. cbn [negb orb Z.eqb].
  rewrite u64_small by lia. rewrite !(proj2 (Z.ltb_ge _ _)) by lia.
  destruct (copy_all h 0x4000000 data (Z.of_nat (length data))) as (h' & E & W); [lia..|]. call_ok E.
  rewrite Nat2Z.id, take_ge in W by lia. rewrite Z.mod_small by lia. by exists h'.
Qed.

(** The initrd file: [ird] is its content, empty when there is none. *)
Definition initrd_file (ird : list Z) : Prop :=
  (ird = [] /\ fst (request_firmware RELM_INITRD_FW_NAME) <> 0) \/
  (ird <> [] /\ request_firmware RELM_INITRD_FW_NAME = (0, ird)).
Definition initrd_ok (ird : list Z) : Prop := initrd_file ird /\
  (ird = [] \/ Z.of_nat (length ird) <= 0x3C00000 /\ 0x4000000 + Z.of_nat (length ird) <= total_guest_ram m).

Lemma initrd_file_spec h ird : initrd_ok ird ->
  exists h', relm_initrd_load kmap request_firmware m true true h = Done 0 (h', Some (Z.of_nat (length ird))) /\
    wrote m h 0x4000000 ird h'.
Proof.
  intros [[[-> N]|[N E]] O]; [|destruct O as [|[]]; [done|by apply initrd_spec]].
  exists h. split; [|apply wrote_nil]. unfold relm_initrd_load.
  destruct (request_firmware RELM_INITRD_FW_NAME) as [e d]. cbn [fst] in N. cbn [negb orb].
  by rewrite (proj2 (Z.eqb_neq _ _) N).
Qed.

Definition cmdline_of (cfg : option relm_boot_config) : list Z :=
  default RELM_DEFAULT_CMDLINE (cfg ≫= bc_cmdline).

(** The writes of a successful load, in order. *)
Definition boot_writes (h : host) (img ird s : list Z) (es : list e820_entry) (h' : host) : Prop :=
  exists h1 h2 h3 h4 h5 h6,
    wrote m h (load_address img) (payload img) h1 /\ wrote m h1 0x4000000 ird h2 /\
    wrote m h2 0x20000 (cmdline_page s) h3 /\
    wrote m h3 0x7000 (zero_page (patch_header (image_header img) (Z.of_nat (length ird))) es) h4 /\
    wrote m h4 0x4000 (gdt_page ++ replicate (Z.to_nat 4096) 0 ++ replicate (Z.to_nat 4096) 0) h5 /\
    wrote m h5 0x6000 stub_page h6 /\ wrote m h6 0x5000 idt_page h'.

Lemma boot_load_spec cfg e0 vm img ird : request_firmware RELM_KERNEL_FW_NAME = (0, img) -> Forall is_byte img ->
  loadable img -> initrd_ok ird -> c_str (cmdline_of cfg) -> cmdline_of cfg <> [] ->
  exists h' e820, relm_e820_build (total_guest_ram m) e0 = (0, e820) /\ length (e820_live e820) = 4%nat /\
    relm_boot_load kmap request_firmware m true cfg e0 vm =
      Done 0 (BootVm h' (load_address img + 0x200) 0x7000) /\
    boot_writes (bv_host vm) img ird (cmdline_of cfg) (e820_live e820) h'.
Proof.
  intros Ef Hb Lo Io Cs Cn. unfold relm_boot_load. cbn [negb].
  destruct (kernel_load_spec (bv_host vm) img Ef Hb) as [(_ & h1 & E1 & W1)|[N _]]; [|done]. call_ok E1.
  destruct (initrd_file_spec h1 ird Io) as (h2 & E2 & W2). call_ok E2. cbn [fst snd default].
  assert (relm_cmdline_load kmap m (match cfg with Some c => bc_cmdline c | None => None end) h2 =
          relm_cmdline_load kmap m (Some (cmdline_of cfg)) h2) as ->.
  { unfold cmdline_of, relm_cmdline_load. destruct cfg as [[[s|] ? ?]|]; cbn [mbind option_bind default from_option bc_cmdline id]; reflexivity. }
  destruct (cmdline_spec h2 _ Cs Cn) as (h3 & E3 & W3). call_ok E3.
  destruct (boot_params_spec h3 (image_header img) (Z.of_nat (length ird)) e0) as (h4 & e820 & Ee & Le & E4 & W4).
  cbn [id]. call_ok E4. cbn [fst snd default].
  destruct (diag_spec h4) as (h5 & h6 & h7 & E7 & W5 & W6 & W7). call_ok E7.
  exists h7, e820. split; [exact Ee|]. split; [exact Le|]. split; [reflexivity|].
  exists h1, h2, h3, h4, h5, h6. repeat (split; [assumption|]). assumption.
Qed.

(** What a guest finds that starts at [kernel_entry_gpa] with [boot_params_gpa] in
    RSI: [h] is the memory before the load, [vm'] the VM after it. *)
Record booted (h : host) (img ird s : list Z) (es : list e820_entry) (vm' : boot_vm) : Prop := Booted {
  bo_entry : kernel_entry_gpa vm' = load_address img + 0x200 /\ boot_params_gpa vm' = 0x7000;
  bo_kernel : holds m (bv_host vm') (load_address img) (payload img);
  bo_initrd : holds m (bv_host vm') 0x4000000 ird;
  bo_cmdline : holds m (bv_host vm') 0x20000 (s ++ [0]);
  bo_header : exists bs, gbytes (bv_host vm') m 123 (0x7000 + 0x1F1) = Some bs /\
    header_of_bytes bs = patch_header (image_header img) (Z.of_nat (length ird));
  bo_e820 : gbyte (bv_host vm') m (0x7000 + 0x1E8) = Some (Z.of_nat (length es)) /\
    forall i e, es !! i = Some e ->
      gbytes (bv_host vm') m 20 (0x7000 + 0x2D0 + 20 * Z.of_nat i) = Some (bp_e820_bytes e);
  bo_gdt : of_le <$> gbytes (bv_host vm') m 8 (0x4000 + RELM_GUEST_GDT_CS_SEL) = Some 0x00AF9B000000FFFF;
  bo_idt v : (v < 256)%nat -> exists stub,
    gbytes (bv_host vm') m 16 (0x5000 + 16 * Z.of_nat v) = Some (idt_gate stub) /\
    gbytes (bv_host vm') m 16 stub = Some (idt_stub (Z.of_nat v));
  bo_frame g : covered_gpa m g -> ~ 0x4000 <= g < 0x8000 -> ~ 0x20000 <= g < 0x21000 ->
    ~ load_address img <= g < load_address img + Z.of_nat (length (payload img)) ->
    ~ 0x4000000 <= g < 0x4000000 + Z.of_nat (length ird) ->
    gbyte (bv_host vm') m g = gbyte h m g
}.

(** ** Reading the pages back *)

Lemma inserts_part (l k : list Z) i : (i + length k <= length l)%nat ->
  take (length k) (drop i (list_inserts i k l)) = k.
Proof.
  intros Hl. apply list_eq. intros j. destruct (decide (j < length k)%nat).
  - rewrite lookup_take_lt, lookup_drop, list_lookup_inserts by lia. f_equal. lia.
  - rewrite !lookup_ge_None_2; [done|lia|rewrite length_take; lia].
Qed.

Lemma inserts_other (l k : list Z) i o n : (o + n <= i \/ i + length k <= o)%nat ->
  take n (drop o (list_inserts i k l)) = take n (drop o l).
Proof.
  intros D. apply list_eq. intros j. destruct (decide (j < n)%nat).
  - rewrite !lookup_take_lt, !lookup_drop by lia.
    destruct D; [apply list_lookup_inserts_lt|apply list_lookup_inserts_ge]; lia.
  - rewrite !lookup_take_ge by lia. done.
Qed.

Lemma concat_block {A} (f : A -> list Z) s (l : list A) i x : (forall x, length (f x) = s) -> l !! i = Some x ->
  take s (drop (s * i) (concat (map f l))) = f x.
Proof.
  intros Hl. revert i. induction l as [|y l IH]; intros [|i] Hi; try done; cbn [map concat].
  - injection Hi as ->. rewrite Nat.mul_0_r, drop_0, take_app_length' by done. done.
  - rewrite drop_app_ge by (rewrite Hl; lia). rewrite Hl.
    replace (s * S i - s)%nat with (s * i)%nat by lia. by apply IH.
Qed.

Lemma concat_map_length {A} (f : A -> list Z) s es : (forall e, length (f e) = s) ->
  length (concat (map f es)) = (s * length es)%nat.
Proof.
  intros Hl. induction es as [|e es IH]; cbn [map concat length]; [lia|]. rewrite length_app, Hl, IH. lia.
Qed.

Lemma zero_page_length hdr es : length (zero_page hdr es) = 4096%nat.
Proof. unfold zero_page. by rewrite !length_inserts, length_replicate. Qed.

Lemma zero_page_header hdr es : (20 * length es <= 0xD30)%nat ->
  take 123 (drop 0x1F1 (zero_page hdr es)) = header_bytes hdr.
Proof.
  intros Hl. unfold zero_page. rewrite !inserts_other by (rewrite ?length_nil; simpl length; lia).
  change 123%nat with (Z.to_nat sizeof_setup_header). rewrite <- (header_bytes_length hdr) at 1.
  apply inserts_part. rewrite header_bytes_length, length_replicate. change (Z.to_nat sizeof_setup_header) with 123%nat. lia.
Qed.

Lemma zero_page_count hdr es : take 1 (drop 0x1E8 (zero_page hdr es)) = [Z.of_nat (length es)].
Proof.
  unfold zero_page. rewrite inserts_other by lia.
  apply (inserts_part _ [Z.of_nat (length es)]). rewrite length_inserts, length_replicate. simpl length. lia.
Qed.

Lemma zero_page_e820 hdr es i e : (20 * length es <= 0xD30)%nat -> es !! i = Some e ->
  take 20 (drop (0x2D0 + 20 * i) (zero_page hdr es)) = bp_e820_bytes e.
Proof.
  intros Hl He. pose proof (lookup_lt_Some _ _ _ He) as Hi. unfold zero_page.
  set (l := list_inserts 0x1E8 _ _). set (c := concat _).
  assert (length c = 20 * length es)%nat as Lc by (apply concat_map_length, bp_e820_length).
  assert (take (length c) (drop 0x2D0 (list_inserts 0x2D0 c l)) = c) as P.
  { apply inserts_part. rewrite Lc. unfold l. rewrite !length_inserts, length_replicate. lia. }
  rewrite <- drop_drop. rewrite <- (take_drop (length c) (drop 0x2D0 _)), P.
  rewrite drop_app_le, take_app_le by (rewrite ?length_drop; lia).
  apply concat_block; [apply bp_e820_length|done].
Qed.

(** A block of [n] bytes of what the guest holds, as the guest reads it. *)
Lemma holds_read h gpa bs o n : holds m h gpa bs -> (o + n <= length bs)%nat ->
  gbytes h m n (gpa + Z.of_nat o) = Some (take n (drop o bs)).
Proof.
  intros H Hl. rewrite <- (holds_gbytes m h _ _ (holds_part m _ _ _ o n H Hl)).
  by rewrite length_take, length_drop, Nat.min_l by lia.
Qed.

Lemma patch_fits x isz : fits header_layout (header_members x) -> 0 <= isz < 2 ^ 32 ->
  fits header_layout (header_members (patch_header x isz)).
Proof.
  intros F Hi. unfold patch_header. cbn [fits header_layout header_members] in F |- *.
  change (256 ^ Z.of_nat 1) with 256 in *. change (256 ^ Z.of_nat 2) with 65536 in *.
  change (256 ^ Z.of_nat 4) with (2 ^ 32) in *. change (256 ^ Z.of_nat 8) with (2 ^ 64) in *.
  repeat match type of F with _ /\ _ => destruct F as [? F] end.
  change (RELM_CMDLINE_GPA mod 2 ^ 32) with 0x20000. change (RELM_INITRD_LOAD_GPA mod 2 ^ 32) with 0x4000000.
  unfold RELM_BP_LOADER_TYPE, RELM_CMDLINE_MAX_LEN.
  cbn_header. repeat match goal with |- (_ <= _ < _) /\ _ => split; [first [assumption|lia|destruct (negb (isz =? 0)); lia]|] end.
  exact I.
Qed.

Lemma image_header_fits img : Forall is_byte img -> (0x26C <= length img)%nat ->
  fits header_layout (header_members (image_header img)).
Proof.
  intros Hb Hl. unfold image_header. rewrite header_members_of_bytes.
  apply fits_unpack; [by apply Forall_take, Forall_drop|].
  rewrite length_take, length_drop. change (list_sum header_layout) with 123%nat. lia.
Qed.

(** The kernel is above the low tables and apart from the initrd. *)
Definition kernel_apart (img ird : list Z) : Prop := 0x21000 <= load_address img /\
  (ird = [] \/ load_address img + Z.of_nat (length (payload img)) <= 0x4000000 \/
   0x4000000 + Z.of_nat (length ird) <= load_address img).

(** Every later write leaves the earlier pieces alone. *)
Lemma writes_holds h img ird s es h' : boot_writes h img ird s es h' -> loadable img -> initrd_ok ird ->
  c_str s -> kernel_apart img ird ->
  holds m h' (load_address img) (payload img) /\ holds m h' 0x4000000 ird /\ holds m h' 0x20000 (cmdline_page s) /\
  holds m h' 0x7000 (zero_page (patch_header (image_header img) (Z.of_nat (length ird))) es) /\
  holds m h' 0x4000 gdt_page /\ holds m h' 0x5000 idt_page /\ holds m h' 0x6000 stub_page.
Proof.
  intros (h1 & h2 & h3 & h4 & h5 & h6 & W1 & W2 & W3 & W4 & W5 & W6 & W7) [_ _ _ _ Rk] [_ Ro] [_ Ls] [Ka Kd].
  destruct pages_length as (Lg & Li & Lt). set (d := gdt_page ++ _) in *.
  assert (Z.of_nat (length d) = 0x3000) as Ld by (unfold d; rewrite !length_app, !length_replicate, Lg; lia).
  assert (take 4096 (drop 0 d) = gdt_page) as Td by (unfold d; rewrite drop_0, take_app_length' by done; done).
  set (z := zero_page _ _) in *. assert (Z.of_nat (length z) = 4096) as Lz by (unfold z; by rewrite zero_page_length).
  set (c := cmdline_page s) in *.
  assert (Z.of_nat (length c) = 4096) as Lc.
  { unfold c, cmdline_page. rewrite length_app, length_replicate. lia. }
  clearbody d z c.
  assert (ird = [] -> length ird = 0%nat) as Z0 by (by intros ->).
  assert (holds m h1 (load_address img) (payload img)) as Hk1 by (apply (wrote_holds m flat _ _ _ _ W1); lia).
  assert (holds m h2 (load_address img) (payload img)) as Hk2.
  { destruct Kd as [E|Kd]; [|apply (wrote_keeps m _ _ _ _ _ _ W2 Hk1); lia].
    intros j Hj. destruct (Hk1 j Hj) as [Cj Ej]. split; [done|]. destruct W2 as (_ & _ & B).
    rewrite B, decide_False; [done|rewrite (Z0 E); lia|done]. }
  assert (holds m h2 0x4000000 ird) as Hi2.
  { destruct Ro as [E|[_ Ro]]; [|apply (wrote_holds m flat _ _ _ _ W2); lia].
    intros j Hj. rewrite (Z0 E) in Hj. lia. }
  assert (forall a b, 0x21000 <= a -> holds m h2 a b -> holds m h' a b) as High.
  { intros a b Ha Hb.
    apply (wrote_keeps m _ _ _ _ _ _ W7); [|lia]. apply (wrote_keeps m _ _ _ _ _ _ W6); [|lia].
    apply (wrote_keeps m _ _ _ _ _ _ W5); [|lia]. apply (wrote_keeps m _ _ _ _ _ _ W4); [|lia].
    apply (wrote_keeps m _ _ _ _ _ _ W3); [done|lia]. }
  assert (forall a b, a + Z.of_nat (length b) <= 0x5000 \/ 0x7000 <= a -> holds m h5 a b -> holds m h' a b) as Low.
  { intros a b Ha Hb.
    apply (wrote_keeps m _ _ _ _ _ _ W7); [|lia]. apply (wrote_keeps m _ _ _ _ _ _ W6); [done|lia]. }
  split; [by apply High|]. split; [by apply High|]. split_and!.
  - apply Low; [lia|]. apply (wrote_keeps m _ _ _ _ _ _ W5); [|lia]. apply (wrote_keeps m _ _ _ _ _ _ W4); [|lia].
    apply (wrote_holds m flat _ _ _ _ W3); lia.
  - apply Low; [lia|]. apply (wrote_keeps m _ _ _ _ _ _ W5); [|lia]. apply (wrote_holds m flat _ _ _ _ W4); lia.
  - apply Low; [lia|]. rewrite <- Td.
    apply (holds_part m _ 0x4000 d 0); [apply (wrote_holds m flat _ _ _ _ W5); lia|lia].
  - apply (wrote_holds m flat _ _ _ _ W7); lia.
  - apply (wrote_keeps m _ _ _ _ _ _ W7); [|lia]. apply (wrote_holds m flat _ _ _ _ W6); lia.
Qed.

Lemma writes_frame h img ird s es h' g : boot_writes h img ird s es h' -> c_str s -> covered_gpa m g ->
  ~ 0x4000 <= g < 0x8000 -> ~ 0x20000 <= g < 0x21000 ->
  ~ load_address img <= g < load_address img + Z.of_nat (length (payload img)) ->
  ~ 0x4000000 <= g < 0x4000000 + Z.of_nat (length ird) -> gbyte h' m g = gbyte h m g.
Proof.
  intros (h1 & h2 & h3 & h4 & h5 & h6 & W1 & W2 & W3 & W4 & W5 & W6 & W7) [_ Ls] C N1 N2 N3 N4.
  destruct pages_length as (Lg & Li & Lt).
  assert (forall h a bs h', wrote m h a bs h' -> ~ a <= g < a + Z.of_nat (length bs) -> gbyte h' m g = gbyte h m g) as F.
  { intros x a bs y (_ & _ & B) N. by rewrite B, decide_False. }
  rewrite (F _ _ _ _ W7), (F _ _ _ _ W6), (F _ _ _ _ W5), (F _ _ _ _ W4), (F _ _ _ _ W3), (F _ _ _ _ W2), (F _ _ _ _ W1);
    rewrite ?zero_page_length; try lia; try done.
  - unfold cmdline_page. rewrite length_app, length_replicate. lia.
  - rewrite !length_app, !length_replicate, Lg. lia.
Qed.
End Parts.

(** ** What the loader guarantees

    [flat_ram m]: RAM starts at 0 and has no hole, as relm_create_vm makes it, and the
    pages can be mapped. *)
Record flat_ram (kmap : Z -> bool) (m : relm_vm_memory) : Prop := FlatRam {
  fr_inv : ram_inv m;
  fr_kmap p : kmap p = true;
  fr_flat g : 0 <= g < total_guest_ram m -> covered_gpa m g;
  fr_size : 0x200000 <= total_guest_ram m < 2 ^ 48
}.

Lemma holds_bytes m h gpa (l k : list Z) : holds m h gpa (l ++ k) -> holds m h gpa l.
Proof.
  intros H j Hj. destruct (H j) as [C E]; [rewrite length_app; lia|]. split; [done|].
  by rewrite E, lookup_app_l.
Qed.

Lemma gdt_code : of_le (take 8 (drop 8 gdt_page)) = 0x00AF9B000000FFFF.
Proof. vm_compute. reflexivity. Qed.

Lemma booted_spec kmap fw m h img ird s es h' : flat_ram kmap m -> Forall is_byte img ->
  boot_writes m h img ird s es h' -> loadable m img -> initrd_ok fw m ird -> c_str s -> kernel_apart img ird ->
  (20 * length es <= 0xD30)%nat ->
  booted m h img ird s es (BootVm h' (load_address img + 0x200) 0x7000).
Proof.
  intros [RI Hk fl Hr] Hb W Lo Io Cs Ka Le.
  destruct (writes_holds fw m fl Hr _ _ _ _ _ _ W Lo Io Cs Ka) as (Hkn & Hi & Hc & Hz & Hg & Hd & Ht).
  destruct pages_length as (Lg & Li & Lt). pose proof (lo_size _ _ Lo) as Ls.
  assert (0 <= Z.of_nat (length ird) < 2 ^ 32) as Hsz by (destruct Io as [_ [-> |[? _]]]; simpl; lia).
  split; cbn [bv_host kernel_entry_gpa boot_params_gpa].
  - done.
  - done.
  - done.
  - unfold cmdline_page in Hc. destruct Cs as [_ Cl].
    replace (4096 - length s)%nat with (S (4095 - length s)) in Hc by lia.
    cbn [replicate] in Hc. rewrite (cons_middle 0 s), app_assoc in Hc. by apply holds_bytes in Hc.
  - eexists. split; [apply (holds_read m _ 0x7000 _ 0x1F1 123 Hz); rewrite zero_page_length; lia|].
    rewrite zero_page_header by done. rewrite <- (app_nil_r (header_bytes _)).
    apply header_members_inj. rewrite header_members_of_bytes. apply unpack_pack.
    apply patch_fits; [by apply image_header_fits|done].
  - split.
    + pose proof (holds_read m _ 0x7000 _ 0x1E8 1 Hz ltac:(rewrite zero_page_length; lia)) as R.
      rewrite zero_page_count in R. unfold gbytes in R. cbn [seq mapM mbind option_bind] in R.
      change (0x7000 + Z.of_nat 0x1E8 + Z.of_nat 0) with (0x7000 + 0x1E8) in R.
      destruct (gbyte h' m (0x7000 + 0x1E8)); [|done]. by injection R as ->.
    + intros i e Hie. pose proof (lookup_lt_Some _ _ _ Hie).
      rewrite <- (zero_page_e820 (patch_header (image_header img) (Z.of_nat (length ird))) es i e Le Hie).
      replace (0x7000 + 0x2D0 + 20 * Z.of_nat i) with (0x7000 + Z.of_nat (0x2D0 + 20 * i)) by lia.
      apply (holds_read m _ _ _ _ _ Hz). rewrite zero_page_length. lia.
  - pose proof (holds_read m _ 0x4000 _ 8 8 Hg ltac:(rewrite Lg; lia)) as R.
    change (0x4000 + Z.of_nat 8) with (0x4000 + RELM_GUEST_GDT_CS_SEL) in R. rewrite R.
    cbn [fmap option_fmap option_map]. by rewrite gdt_code.
  - intros v Hv. exists (0x6000 + Z.of_nat v * 16). split.
    + replace (0x5000 + 16 * Z.of_nat v) with (0x5000 + Z.of_nat (16 * v)) by lia.
      rewrite (holds_read m _ _ _ _ 16 Hd) by (rewrite Li; lia). f_equal.
      apply (concat_block (fun v => idt_gate (0x6000 + Z.of_nat v * 16))); [done|]. by apply lookup_seq_lt.
    + replace (0x6000 + Z.of_nat v * 16) with (0x6000 + Z.of_nat (16 * v)) by lia.
      rewrite (holds_read m _ _ _ _ 16 Ht) by (rewrite Lt; lia). f_equal.
      apply (concat_block (fun v => idt_stub (Z.of_nat v))); [intros; apply idt_stub_length|]. by apply lookup_seq_lt.
  - intros g. by apply (writes_frame m _ _ _ s es).
Qed.



(** ** Where the checks of the loader fall short *)

(** The kernel may reach past 64 MiB, and the initrd is then written over it: the
    load returns 0 and the guest finds a byte of the initrd inside its kernel. *)
Theorem initrd_over_kernel (kmap : Z -> bool) (fw : string -> Z * list Z) (m : relm_vm_memory)
    (cfg : option relm_boot_config) (e0 : relm_e820_map) (vm : boot_vm) (img ird : list Z) (b : Z) :
  flat_ram kmap m -> fw RELM_KERNEL_FW_NAME = (0, img) -> Forall is_byte img -> loadable m img ->
  initrd_ok fw m (b :: ird) -> c_str (cmdline_of cfg) -> cmdline_of cfg <> [] ->
  load_address img <= 0x4000000 < load_address img + Z.of_nat (length (payload img)) ->
  exists vm', relm_boot_load kmap fw m true cfg e0 vm = Done 0 vm' /\ gbyte (bv_host vm') m 0x4000000 = Some b.
Proof.
  intros [RI Hk fl Hr] Ef Hb Lo Io Cs Cn Ov. pose proof (lo_ram _ _ Lo) as Rk.
  destruct (boot_load_spec kmap fw m RI Hk fl Hr cfg e0 vm img (b :: ird) Ef Hb Lo Io Cs Cn)
    as (h' & e820 & _ & _ & E & h1 & h2 & h3 & h4 & h5 & h6 & _ & W2 & W3 & W4 & W5 & W6 & W7).
  destruct pages_length as (Lg & Li & Lt). destruct Cs as [_ Ls].
  exists (BootVm h' (load_address img + 0x200) 0x7000). split; [exact E|]. cbn [bv_host].
  assert (holds m h2 0x4000000 [b]) as H2.
  { apply (holds_bytes m _ _ [b] ird). apply (wrote_holds m fl _ _ _ _ W2); [lia|].
    destruct Io as [_ [?|[_ ?]]]; [done|]. done. }
  assert (holds m h' 0x4000000 [b]) as H'; [|by destruct (H' 0%nat ltac:(simpl; lia))].
  apply (wrote_keeps m _ _ _ _ _ _ W7); [|lia]. apply (wrote_keeps m _ _ _ _ _ _ W6); [|lia].
  apply (wrote_keeps m _ _ _ _ _ _ W5); [|rewrite !length_app, !length_replicate, Lg; lia].
  apply (wrote_keeps m _ _ _ _ _ _ W4); [|rewrite zero_page_length; lia].
  apply (wrote_keeps m _ _ _ _ _ _ W3); [done|].
  unfold cmdline_page. rewrite length_app, length_replicate. lia.
Qed.

(** An initrd may end at the end of RAM, where the boot page tables are: it is
    accepted and written over their last page. *)
Theorem initrd_over_page_tables (kmap : Z -> bool) (fw : string -> Z * list Z) (m : relm_vm_memory) (h : host)
    (ird : list Z) (b : Z) :
  flat_ram kmap m -> fw RELM_INITRD_FW_NAME = (0, ird ++ [b]) -> Z.of_nat (length (ird ++ [b])) <= 0x3C00000 ->
  0x4000000 + Z.of_nat (length (ird ++ [b])) = total_guest_ram m ->
  exists h' n, relm_initrd_load kmap fw m true true h = Done 0 (h', n) /\
    gbyte h' m (total_guest_ram m - 1) = Some b.
Proof.
  intros [RI Hk fl Hr] Ef Hm He. rewrite length_app in He. cbn [length] in He.
  destruct (initrd_spec kmap fw m RI Hk fl Hr h _ Ef) as (h' & E & W);
    [by destruct ird|done|rewrite length_app; simpl; lia|].
  exists h'. eexists. split; [exact E|]. destruct W as (_ & _ & B).
  rewrite B, decide_True; [|rewrite length_app; simpl; lia|apply fl; lia].
  rewrite lookup_app_r by lia. replace (_ - _)%nat with 0%nat by lia. done.
Qed.

(** An empty command line makes the load fail, although it is a valid one. *)
Theorem empty_cmdline_refused (kmap : Z -> bool) (m : relm_vm_memory) (h : host) : flat_ram kmap m ->
  exists h', relm_cmdline_load kmap m (Some []) h = Done (- EINVAL) h'.
Proof.
  intros [RI Hk fl Hr]. destruct (cmdline_empty kmap m RI Hk fl Hr h) as (h' & E & _). by exists h'.
Qed.

(** The names of the configuration choose nothing. *)
Theorem names_ignored (kmap : Z -> bool) (fw : string -> Z * list Z) (m : relm_vm_memory) (s : option (list Z))
    (i k i' k' : option string) (e0 : relm_e820_map) (vm : boot_vm) (dev : bool) :
  relm_boot_load kmap fw m dev (Some (BootConfig s i k)) e0 vm =
  relm_boot_load kmap fw m dev (Some (BootConfig s i' k')) e0 vm.
Proof. reflexivity. Qed.

(** ** A concrete boot: 128 MiB of RAM, a kernel of six bytes and an initrd *)
Module BootDemo.
Definition pages (n : nat) : list Z := map (fun i => 4096 * (Z.of_nat i + 1)) (seq 0 n).
Definition flat_mem (n : nat) : relm_vm_memory :=
  set_regions vm_memory0
    [GuestRegion 0 (4096 * Z.of_nat n) (Some (map Some (pages n))) (Z.of_nat n) RAM_FLAGS] (4096 * Z.of_nat n).

Lemma pages_lookup n i p : pages n !! i = Some p <-> (i < n)%nat /\ p = 4096 * (Z.of_nat i + 1).
Proof.
  unfold pages. rewrite list_lookup_fmap. split.
  - destruct (seq 0 n !! i) as [j|] eqn:E; [|done]. apply lookup_seq in E as [-> ?]. by intros [= <-].
  - intros [Hi ->]. by rewrite lookup_seq_lt.
Qed.

Lemma flat_at n g p : ram_at (flat_mem n) g p <->
  0 <= g < 4096 * Z.of_nat n /\ pages n !! Z.to_nat (g / 4096) = Some p.
Proof.
  unfold flat_mem. rewrite (ram_at_cons _ _ _ (pages n)) by done. cbn [gr_gpa_start gr_size].
  rewrite Z.sub_0_r. split.
  - intros [[Hg E]|(r & _ & []%not_elem_of_nil & _)]. done.
  - intros [Hg E]. by left.
Qed.

Lemma flat_mem_ram n : (512 <= n)%nat -> Z.of_nat n < 2 ^ 35 -> flat_ram (fun _ => true) (flat_mem n).
Proof.
  intros Hn Hm. assert (length (pages n) = n) as Ln by (unfold pages; by rewrite length_map, length_seq).
  split; [split| | |].
  - intros r ->%list_elem_of_singleton. exists (pages n). rewrite Ln. cbn [gr_pages gr_size gr_nr_pages gr_gpa_start].
    split_and!; try done; lia.
  - intros r r' g ->%list_elem_of_singleton ->%list_elem_of_singleton. done.
  - intros g g' p [Hg [_ E]%pages_lookup]%flat_at [Hg' [_ E']%pages_lookup]%flat_at. zdm.
  - done.
  - intros g Hg. change (total_guest_ram (flat_mem n)) with (4096 * Z.of_nat n) in Hg.
    exists (4096 * (Z.of_nat (Z.to_nat (g / 4096)) + 1)). apply flat_at. split; [lia|]. apply pages_lookup. zdm.
  - change (total_guest_ram (flat_mem n)) with (4096 * Z.of_nat n). lia.
Qed.

(** A header with one setup sector and no preferred address. *)
Definition hdr0 : relm_setup_header :=
  patch_header (SetupHeader 1 0 0 0 0 0 0xAA55 0 0x53726448 0x20F 0 0 0 0 1 0 0 0 0 0 0 0 0 0 0 0 0 0 1 0 0 0 0 0 0
                  0 0 0 0) 0.
Definition bzimage : list Z :=
  replicate 0x1F1 0 ++ header_bytes hdr0 ++ replicate 404 0 ++ [0x90; 0x90; 0x90; 0x90; 0x90; 0xF4].
Definition initrd : list Z := [0x30; 0x37; 0x30].
Definition firmware (name : string) : Z * list Z :=
  if String.eqb name RELM_KERNEL_FW_NAME then (0, bzimage)
  else if String.eqb name RELM_INITRD_FW_NAME then (0, initrd) else (- 2, []).
Definition mem : relm_vm_memory := flat_mem (Z.to_nat 32768).

Lemma mem_ram : flat_ram (fun _ => true) mem.
Proof. apply flat_mem_ram; lia. Qed.
Lemma mem_size : total_guest_ram mem = 0x8000000.
Proof. change (total_guest_ram mem) with (4096 * Z.of_nat (Z.to_nat 32768)). lia. Qed.
Lemma bzimage_bytes : Forall is_byte bzimage.
Proof. apply (bool_decide_unpack _). vm_compute. done. Qed.
Lemma image_facts : payload bzimage = [0x90; 0x90; 0x90; 0x90; 0x90; 0xF4] /\ load_address bzimage = 0x1000000 /\
  setup_bytes bzimage = 1024 /\ length bzimage = 1030%nat /\ bootable (image_header bzimage).
Proof. vm_compute. repeat split; discriminate || reflexivity. Qed.
Lemma image_loadable : loadable mem bzimage.
Proof.
  destruct image_facts as (P & L & S & Ln & B). split; [rewrite Ln; lia|exact B|rewrite S, Ln; lia| |];
    rewrite ?P, ?L, ?mem_size; simpl; lia.
Qed.



End BootDemo.
