(* ===== verification/Iommu.v ===== *)
(** * The IOMMU domain of a VM

    src/core/iommu.c and include/relm/iommu.h: the domain that device DMA is
    translated through, its mappings, and the devices handed to the guest.

    The IOMMU layer of Linux is behind the interface [IommuApi]: [io_map] and the
    other calls on a domain, and [io_walk], what a device's access to an I/O address
    gets.  [IommuApiOk] is what the calls are documented to do.  A PCI device is
    named by its number; [refs] counts the references held on it. *)
From S2P Require Import Prelude HostMem Radix X86Pt MemOps VmMem Ept GuestMem VmDemo.

Definition IOMMU_READ : Z := 1.
Definition IOMMU_WRITE : Z := 2.
Definition IOMMU_CACHE : Z := 4.

Class IommuApi := {
  iommu_domain : Type;
  io_present : bool;                                  (** iommu_present(dev->bus) *)
  io_domain_alloc : option iommu_domain;                       (** iommu_domain_alloc(dev->bus) *)
  io_map : iommu_domain -> Z -> Z -> Z -> Z -> Z * iommu_domain;        (** iova, physical address, size, protection *)
  io_unmap : iommu_domain -> Z -> Z -> Z * iommu_domain;                (** the number of bytes unmapped *)
  io_attach : iommu_domain -> Z -> Z * iommu_domain;
  io_detach : iommu_domain -> Z -> iommu_domain;
  io_walk : iommu_domain -> Z -> option (Z * Z);               (** the address a device reaches, and the protection *)
  io_attached : iommu_domain -> gset Z
}.

(** A mapping call for whole pages maps them or changes nothing; unmapping removes
    the bytes it reports, from the start of the range; attaching and detaching a
    device leave the translations alone, and a device that is attached is busy; a new
    domain is empty. *)
Class IommuApiOk (A : IommuApi) := {
  io_alloc_ok d : io_domain_alloc = Some d -> io_attached d = ∅ /\ forall a, io_walk d a = None;
  io_map_ok d iova pa size prot r d' : iova mod 4096 = 0 -> pa mod 4096 = 0 -> size mod 4096 = 0 -> 0 < size ->
    io_map d iova pa size prot = (r, d') ->
    forall a, io_walk d' a = if decide (r = 0 /\ iova <= a < iova + size) then Some (pa + (a - iova), prot)
                             else io_walk d a;
  io_map_attached d iova pa size prot : io_attached (snd (io_map d iova pa size prot)) = io_attached d;
  io_unmap_ok d iova size n d' : io_unmap d iova size = (n, d') ->
    (0 <= size -> 0 <= n <= size) /\ io_attached d' = io_attached d /\
    forall a, io_walk d' a = if decide (iova <= a < iova + n) then None else io_walk d a;
  io_attach_ok d p r d' : io_attach d p = (r, d') ->
    io_attached d' = (if decide (r = 0) then {[p]} ∪ io_attached d else io_attached d) /\
    (p ∈ io_attached d -> r <> 0) /\ forall a, io_walk d' a = io_walk d a;
  io_detach_ok d p : io_attached (io_detach d p) = io_attached d ∖ {[p]} /\
    forall a, io_walk (io_detach d p) a = io_walk d a
}.

Section Iommu.
Context {A : IommuApi}.

Record relm_iommu_context := IommuCtx {
  domain : option iommu_domain;
  devices : list Z;      (** the list of [struct relm_pass_device], by device *)
  n_devs : Z;
  enabled : bool;
  n_mapped_pages : Z;
  fault_count : Z
}.

(** The context in [vm->arch] and the reference counts of the PCI devices. *)
Record iommu_state := Iommu { io : relm_iommu_context; refs : Z -> Z }.

Definition pci_dev_get (f : Z -> Z) (p : Z) : Z -> Z := fun q => if decide (q = p) then f q + 1 else f q.
Definition pci_dev_put (f : Z -> Z) (p : Z) : Z -> Z := fun q => if decide (q = p) then f q - 1 else f q.

Definition relm_iommu_fault_handler (x : relm_iommu_context) : Z * relm_iommu_context :=
  (- ENOSYS, IommuCtx (domain x) (devices x) (n_devs x) (enabled x) (n_mapped_pages x) (u64 (fault_count x + 1))).

Definition relm_iommu_init (x : relm_iommu_context) : Z * relm_iommu_context :=
  if negb io_present then (- ENODEV, x)
  else match io_domain_alloc with
       | None => (- ENOMEM, IommuCtx None (devices x) (n_devs x) (enabled x) (n_mapped_pages x) (fault_count x))
       | Some d => (0, IommuCtx (Some d) [] 0 true 0 0)
       end.

(** [!iommu->enabled || !iommu->domain] *)
Definition active (x : relm_iommu_context) : option iommu_domain := if enabled x then domain x else None.

Definition relm_iommu_destroy (s : iommu_state) : iommu_state :=
  match active (io s) with
  | None => s
  | Some d =>
      let '(d, f) := fold_left (fun '(d, f) p => (io_detach d p, pci_dev_put f p)) (devices (io s)) (d, refs s) in
      Iommu (IommuCtx None [] 0 false (n_mapped_pages (io s)) (fault_count (io s))) f
  end.

Definition relm_iommu_map (x : relm_iommu_context) (gpa hpa size : Z) (write : bool) : Z * relm_iommu_context :=
  match active x with
  | None => (0, x)
  | Some d =>
      let prot := IOMMU_READ in
      let prot := if write then Z.lor prot IOMMU_WRITE else prot in
      let prot := Z.lor prot IOMMU_CACHE in
      let '(ret, d) := io_map d gpa hpa size prot in
      if negb (ret =? 0) then
        (ret, IommuCtx (Some d) (devices x) (n_devs x) (enabled x) (n_mapped_pages x) (fault_count x))
      else
        (0, IommuCtx (Some d) (devices x) (n_devs x) (enabled x)
              (u64 (n_mapped_pages x + size / PAGE_SIZE)) (fault_count x))
  end.

Definition relm_iommu_unmap (x : relm_iommu_context) (gpa size : Z) : relm_iommu_context :=
  match active x with
  | None => x
  | Some d =>
      let '(unmapped, d) := io_unmap d gpa size in
      let pages := unmapped / PAGE_SIZE in
      let n := if pages <=? n_mapped_pages x then n_mapped_pages x - pages else 0 in
      IommuCtx (Some d) (devices x) (n_devs x) (enabled x) n (fault_count x)
  end.

(** The loop over the pages of RAM; what the tables do not map is skipped. *)
Fixpoint map_ram_loop (n : nat) (h : host) (ept : option ept_context) (gpa : Z) (x : relm_iommu_context)
    : Z * relm_iommu_context :=
  match n with
  | O => (0, x)
  | S n =>
      match relm_ept_get_mapping h ept gpa with
      | inl _ => map_ram_loop n h ept (u64 (gpa + PAGE_SIZE)) x
      | inr hpa =>
          let hpa := Z.land hpa PAGE_MASK in
          let '(ret, x) := relm_iommu_map x gpa hpa PAGE_SIZE true in
          if negb (ret =? 0) then (ret, x) else map_ram_loop n h ept (u64 (gpa + PAGE_SIZE)) x
      end
  end.

(** The loop ends after one round for each page, as long as the RAM ends a page
    below 2^64. *)
Definition relm_iommu_map_guest_ram (h : host) (ept : option ept_context) (total_guest_ram : Z)
    (x : relm_iommu_context) : Z * relm_iommu_context :=
  match active x with
  | None => (- EINVAL, x)
  | Some _ => map_ram_loop (Z.to_nat ((total_guest_ram + 4095) / 4096)) h ept 0 x
  end.

(** [kmalloc_ok]: the tracking entry could be allocated. *)
Definition relm_iommu_attach_device (kmalloc_ok : bool) (s : iommu_state) (pdev : Z) : Z * iommu_state :=
  let x := io s in
  match active x with
  | None => (- EINVAL, s)
  | Some d =>
      if negb kmalloc_ok then (- ENOMEM, s)
      else
        let f := pci_dev_get (refs s) pdev in
        let '(ret, d) := io_attach d pdev in
        if negb (ret =? 0) then
          (ret, Iommu (IommuCtx (Some d) (devices x) (n_devs x) (enabled x) (n_mapped_pages x) (fault_count x))
                  (pci_dev_put f pdev))
        else
          (0, Iommu (IommuCtx (Some d) (pdev :: devices x) (u32 (n_devs x + 1)) (enabled x) (n_mapped_pages x)
                       (fault_count x)) f)
  end.

(** [list_del] of the first entry of the device *)
Fixpoint remove_first (p : Z) (l : list Z) : list Z :=
  match l with
  | [] => []
  | q :: l => if q =? p then l else q :: remove_first p l
  end.

Definition relm_iommu_detach_device (s : iommu_state) (pdev : Z) : iommu_state :=
  let x := io s in
  match active x with
  | None => s
  | Some d =>
      if existsb (fun q => q =? pdev) (devices x) then
        Iommu (IommuCtx (Some (io_detach d pdev)) (remove_first pdev (devices x)) (u32 (n_devs x - 1)) (enabled x)
                 (n_mapped_pages x) (fault_count x)) (pci_dev_put (refs s) pdev)
      else s
  end.

Definition relm_arch_iommu_enabled (x : relm_iommu_context) : bool := enabled x.
End Iommu.

(** ** The domain mirrors the second-stage tables *)

(** Addresses of one page are translated alike. *)
Lemma ept_translate_page h ept T b a : ept_ok h ept T -> 0 <= b -> b mod 4096 = 0 -> b <= a < b + 4096 ->
  match ept_translate h ept b with
  | Some p => p mod 4096 = 0 /\ 0 <= p < 2 ^ 52 /\ ept_translate h ept a = Some (p + (a - b))
  | None => ept_translate h ept a = None
  end.
Proof.
  intros (own & ms & _ & [I _]) Hb Ha Hab. unfold ept_translate, pt_translate.
  assert (vpn a = vpn b) as -> by (unfold vpn; f_equal; zdm).
  rewrite (pt_find_walk _ _ _ _ _ I). destruct (pt_find _ _ _) as [pt|]; [|done]. cbv zeta.
  destruct (flag _ PT_VALID); [|done]. cbn [Nat.leb]. rewrite !leaf_address_frame.
  set (e := rd64 _ _ _). change mask52 with (Z.shiftl (Z.ones 40) 12). rewrite land_field by lia.
  assert (0 <= (e / 2 ^ 12) mod 2 ^ 40 < 2 ^ 40) by (apply Z.mod_pos_bound; lia).
  set (q := (e / 2 ^ 12) mod 2 ^ 40) in *. rewrite Ha. split_and!; [zdm|lia|lia|]. f_equal. zdm.
Qed.

Section Mirror.
Context {A : IommuApi} {Aok : IommuApiOk A}.

Definition RW : Z := Z.lor (Z.lor IOMMU_READ IOMMU_WRITE) IOMMU_CACHE.

(** The first [k] pages from [g] translate as the tables do; the rest is as in [d]. *)
Definition mirrored (h : host) (ept : ept_context) (g k : Z) (d : iommu_domain) (a : Z) : option (Z * Z) :=
  if decide (g <= a < g + 4096 * k) then
    match ept_translate h ept a with Some p => Some (p, RW) | None => io_walk d a end
  else io_walk d a.

(** What the loops leave alone. *)
Definition same_rest (x x' : relm_iommu_context) : Prop :=
  devices x' = devices x /\ n_devs x' = n_devs x /\ enabled x' = enabled x /\ fault_count x' = fault_count x.

Lemma iommu_map_spec x d gpa hpa r x' : active x = Some d -> gpa mod 4096 = 0 -> hpa mod 4096 = 0 ->
  relm_iommu_map x gpa hpa PAGE_SIZE true = (r, x') ->
  same_rest x x' /\ exists d', active x' = Some d' /\ io_attached d' = io_attached d /\
    forall a, io_walk d' a = if decide (r = 0 /\ gpa <= a < gpa + 4096) then Some (hpa + (a - gpa), RW)
                             else io_walk d a.
Proof.
  intros Ha Hg Hh. unfold relm_iommu_map. rewrite Ha. cbv zeta.
  destruct (io_map d gpa hpa PAGE_SIZE _) as [r1 d1] eqn:E.
  pose proof (io_map_ok d gpa hpa PAGE_SIZE RW r1 d1 Hg Hh eq_refl eq_refl E) as W.
  pose proof (io_map_attached d gpa hpa PAGE_SIZE RW) as At. unfold RW in At. rewrite E in At. cbn [snd] in At.
  assert (enabled x = true) as En by (unfold active in Ha; by destruct (enabled x)).
  destruct (Z.eqb_spec r1 0) as [-> |N]; cbn [negb]; intros [= <- <-].
  all: split; [done|]; exists d1; unfold active; cbn [enabled domain]; rewrite En; by split_and!.
Qed.

Lemma map_ram_loop_spec n : forall h ept T g x d r x', ept_ok h ept T -> active x = Some d ->
  g mod 4096 = 0 -> 0 <= g -> g + 4096 * Z.of_nat n <= 2 ^ 63 ->
  map_ram_loop n h (Some ept) g x = (r, x') ->
  same_rest x x' /\ exists d' k, active x' = Some d' /\ io_attached d' = io_attached d /\
    0 <= k <= Z.of_nat n /\ (r = 0 -> k = Z.of_nat n) /\
    forall a, io_walk d' a = mirrored h ept g k d a.
Proof.
  induction n as [|n IH]; intros h ept T g x d r x' Ok Ha Hg H0 Hn; cbn [map_ram_loop].
  { intros [= <- <-]. split; [done|]. exists d, 0. split_and!; try done. intros a. unfold mirrored.
    by rewrite decide_False by lia. }
  rewrite Nat2Z.inj_succ in *.
  assert (relm_ept_get_mapping h (Some ept) g =
    match ept_translate h ept g with Some hpa => inr hpa | None => inl (- ENOENT) end) as ->
    by (by apply (ept_get_mapping_correct h ept T)).
  pose proof (fun a => ept_translate_page h ept T g a Ok H0 Hg) as Pg.
  rewrite u64_small by (unfold PAGE_SIZE; lia).
  destruct (ept_translate h ept g) as [p|] eqn:Eg.
  - destruct (Pg g ltac:(lia)) as (Hp & Rp & _). assert (Z.land p PAGE_MASK = p) as ->.
    { change PAGE_MASK with (Z.shiftl (Z.ones 52) 12). rewrite land_field by lia. zdm. }
    destruct (relm_iommu_map x g p PAGE_SIZE true) as [r1 x1] eqn:E1.
    destruct (iommu_map_spec x d g p r1 x1 Ha Hg Hp E1) as (S1 & d1 & A1 & At1 & W1).
    destruct (Z.eqb_spec r1 0) as [-> |N]; cbn [negb].
    + intros E. unfold PAGE_SIZE in E.
      destruct (IH h ept T (g + 4096) x1 d1 r x' Ok A1 ltac:(zdm) ltac:(lia) ltac:(lia) E)
        as (S2 & d2 & k & A2 & At2 & K & Kr & W2).
      split; [unfold same_rest in *; intuition congruence|].
      exists d2, (k + 1). split_and!; [done|congruence|lia|lia|intros; rewrite Kr by done; lia|].
      intros a. rewrite W2. unfold mirrored. rewrite !W1.
      destruct (decide (g <= a < g + 4096)) as [D|D].
      * rewrite decide_False, decide_True, decide_True by lia. destruct (Pg a D) as (_ & _ & ->). done.
      * rewrite (decide_False (P := 0 = 0 /\ _)) by tauto.
        repeat case_decide; try done; lia.
    + intros [= <- <-]. split; [done|]. exists d1, 0. split_and!; [done|done|lia|lia|done|].
      intros a. rewrite W1, decide_False by tauto. unfold mirrored. by rewrite decide_False by lia.
  - intros E. unfold PAGE_SIZE in E.
    destruct (IH h ept T (g + 4096) x d r x' Ok Ha ltac:(zdm) ltac:(lia) ltac:(lia) E)
      as (S2 & d2 & k & A2 & At2 & K & Kr & W2).
    split; [done|]. exists d2, (k + 1). split_and!; [done|done|lia|lia|intros; rewrite Kr by done; lia|].
    intros a. rewrite W2. unfold mirrored. destruct (decide (g <= a < g + 4096)) as [D|D].
    + rewrite decide_False, decide_True by lia. by rewrite (Pg a D).
    + repeat case_decide; try done; lia.
Qed.
End Mirror.

(** ** The devices *)
Section Devices.
Context {A : IommuApi} {Aok : IommuApiOk A}.

Inductive iommu_op :=
  | OMap (gpa hpa size : Z) (write : bool)
  | OUnmap (gpa size : Z)
  | OMapRam (h : host) (ept : option ept_context) (total_guest_ram : Z)
  | OFault
  | OAttach (kmalloc_ok : bool) (pdev : Z)
  | ODetach (pdev : Z)
  | ODestroy.

Definition iommu_step (s : iommu_state) (op : iommu_op) : iommu_state :=
  match op with
  | OMap gpa hpa size w => Iommu (snd (relm_iommu_map (io s) gpa hpa size w)) (refs s)
  | OUnmap gpa size => Iommu (relm_iommu_unmap (io s) gpa size) (refs s)
  | OMapRam h ept total => Iommu (snd (relm_iommu_map_guest_ram h ept total (io s))) (refs s)
  | OFault => Iommu (snd (relm_iommu_fault_handler (io s))) (refs s)
  | OAttach kz p => snd (relm_iommu_attach_device kz s p)
  | ODetach p => relm_iommu_detach_device s p
  | ODestroy => relm_iommu_destroy s
  end.

(** The list is exactly the set of devices attached to the domain, each is listed
    once and holds one reference beyond those of [base]; a disabled context has no
    domain and no devices. *)
Record io_inv (base : Z -> Z) (s : iommu_state) : Prop := IoInv {
  ii_on : enabled (io s) = true -> exists d, domain (io s) = Some d /\ io_attached d = list_to_set (devices (io s));
  ii_off : enabled (io s) = false -> domain (io s) = None /\ devices (io s) = [];
  ii_nodup : NoDup (devices (io s));
  ii_count : n_devs (io s) = u32 (Z.of_nat (length (devices (io s))));
  ii_refs p : refs s p = base p + (if decide (p ∈ devices (io s)) then 1 else 0)
}.

Lemma active_on base s d : io_inv base s -> active (io s) = Some d ->
  enabled (io s) = true /\ domain (io s) = Some d /\ io_attached d = list_to_set (devices (io s)).
Proof.
  intros I Ha. unfold active in Ha. destruct (enabled (io s)) eqn:En; [|done].
  destruct (ii_on _ _ I En) as (d' & Ed & At). split_and!; congruence.
Qed.

(** A step that changes neither the list nor what is attached. *)
Lemma io_inv_domain base s x d d' : io_inv base s -> active (io s) = Some d ->
  io_attached d' = io_attached d -> domain x = Some d' -> enabled x = enabled (io s) ->
  devices x = devices (io s) -> n_devs x = n_devs (io s) -> io_inv base (Iommu x (refs s)).
Proof.
  intros I Ha At Ed Ee Edv En. destruct (active_on _ _ _ I Ha) as (On & Edd & Atd).
  split; cbn [io refs].
  - intros _. exists d'. split; [done|]. by rewrite At, Edv.
  - congruence.
  - rewrite Edv. apply I.
  - rewrite En, Edv. apply I.
  - intros p. rewrite Edv. apply I.
Qed.

Lemma io_inv_map base s gpa hpa size w : io_inv base s ->
  io_inv base (Iommu (snd (relm_iommu_map (io s) gpa hpa size w)) (refs s)).
Proof.
  intros I. unfold relm_iommu_map. destruct (active (io s)) as [d|] eqn:Ha; [|by destruct s].
  cbv zeta. set (prot := Z.lor _ IOMMU_CACHE). pose proof (io_map_attached d gpa hpa size prot) as At.
  destruct (io_map d gpa hpa size prot) as [r d']. cbn [snd] in At.
  destruct (negb (r =? 0)); cbn [snd]; by apply (io_inv_domain base s _ d d').
Qed.

Lemma io_inv_unmap base s gpa size : io_inv base s -> io_inv base (Iommu (relm_iommu_unmap (io s) gpa size) (refs s)).
Proof.
  intros I. unfold relm_iommu_unmap. destruct (active (io s)) as [d|] eqn:Ha; [|by destruct s].
  destruct (io_unmap d gpa size) as [n d'] eqn:E. destruct (io_unmap_ok _ _ _ _ _ E) as (_ & At & _).
  by apply (io_inv_domain base s _ d d').
Qed.

Lemma io_inv_loop base n h ept : forall g s, io_inv base s ->
  io_inv base (Iommu (snd (map_ram_loop n h ept g (io s))) (refs s)).
Proof.
  induction n as [|n IH]; intros g s I; cbn [map_ram_loop]; [by destruct s|].
  destruct (relm_ept_get_mapping h ept g) as [e|hpa]; [by apply IH|]. cbv zeta.
  pose proof (io_inv_map base s g (Z.land hpa PAGE_MASK) PAGE_SIZE true I) as I1.
  destruct (relm_iommu_map (io s) g (Z.land hpa PAGE_MASK) PAGE_SIZE true) as [r x]. cbn [snd] in I1.
  destruct (negb (r =? 0)); [done|]. apply (IH _ (Iommu x (refs s)) I1).
Qed.

Lemma io_inv_attach base s kz p : io_inv base s -> io_inv base (snd (relm_iommu_attach_device kz s p)).
Proof.
  intros I. unfold relm_iommu_attach_device. destruct (active (io s)) as [d|] eqn:Ha; [|done].
  destruct kz; [|done]. cbn [negb]. cbv zeta. destruct (io_attach d p) as [r d'] eqn:E.
  destruct (io_attach_ok _ _ _ _ E) as (At & Busy & _). destruct (active_on _ _ _ I Ha) as (On & Ed & Atd).
  destruct (Z.eqb_spec r 0) as [-> |N]; cbn [negb snd].
  - rewrite decide_True in At by done.
    assert (p ∉ devices (io s)) as Np.
    { intros Hp. apply Busy; [|done]. rewrite Atd. by apply elem_of_list_to_set. }
    split; cbn [io refs domain enabled devices n_devs].
    + intros _. exists d'. split; [done|]. by rewrite At, Atd.
    + congruence.
    + constructor; [done|apply I].
    + rewrite (ii_count _ _ I). unfold u32. cbn [length]. rewrite Zplus_mod_idemp_l. f_equal. lia.
    + intros q. unfold pci_dev_get. rewrite (ii_refs _ _ I).
      destruct (decide (q = p)) as [-> |D].
      * rewrite (decide_False (P := p ∈ devices (io s))), decide_True by (done || left). lia.
      * f_equal. apply decide_ext. rewrite elem_of_cons. tauto.
  - rewrite decide_False in At by done.
    destruct (io_inv_domain base s (IommuCtx (Some d') (devices (io s)) (n_devs (io s)) (enabled (io s))
      (n_mapped_pages (io s)) (fault_count (io s))) d d' I Ha At eq_refl eq_refl eq_refl eq_refl) as [? ? ? ? R].
    split; try done. cbn [refs io devices] in *. intros q. unfold pci_dev_put, pci_dev_get.
    rewrite <- R. case_decide; lia.
Qed.

Lemma remove_first_spec p l : NoDup l -> p ∈ l ->
  NoDup (remove_first p l) /\ (forall q, q ∈ remove_first p l <-> q ∈ l /\ q <> p) /\
  length l = S (length (remove_first p l)).
Proof.
  induction 1 as [|x l Hx N IH]; [by intros []%not_elem_of_nil|]. cbn [remove_first].
  destruct (Z.eqb_spec x p) as [-> |D].
  - intros _. split; [done|]. split; [|done]. intros q. rewrite elem_of_cons.
    split; [intros Hq; split; [by right|congruence]|]. intros [[-> |Hq] Nq]; done.
  - intros [-> |Hp]%elem_of_cons; [done|]. destruct (IH Hp) as (N' & E & L). split_and!.
    + constructor; [|done]. rewrite E. tauto.
    + intros q. rewrite !elem_of_cons, E. split; [intros [-> |[? ?]]; tauto|]. tauto.
    + cbn [length]. congruence.
Qed.

Lemma io_inv_detach base s p : io_inv base s -> io_inv base (relm_iommu_detach_device s p).
Proof.
  intros I. unfold relm_iommu_detach_device. destruct (active (io s)) as [d|] eqn:Ha; [|done].
  destruct (existsb _ _) eqn:Ex; [|done].
  apply existsb_exists in Ex as (q & Hq%list_elem_of_In & ->%Z.eqb_eq).
  destruct (active_on _ _ _ I Ha) as (On & Ed & Atd).
  destruct (remove_first_spec p _ (ii_nodup _ _ I) Hq) as (N & E & L). destruct (io_detach_ok d p) as [At _].
  split; cbn [io refs domain enabled devices n_devs].
  - intros _. eexists. split; [done|]. rewrite At, Atd. apply set_eq. intros q.
    rewrite elem_of_difference, !elem_of_list_to_set, E, elem_of_singleton. done.
  - congruence.
  - done.
  - rewrite (ii_count _ _ I), L. unfold u32. rewrite Zminus_mod_idemp_l. f_equal. lia.
  - intros q. unfold pci_dev_put. rewrite (ii_refs _ _ I). destruct (decide (q = p)) as [-> |D].
    + rewrite decide_True, decide_False by (done || (rewrite E; tauto)). lia.
    + f_equal. apply decide_ext. rewrite E. tauto.
Qed.

(** Destroying detaches every device and drops every reference. *)
Lemma destroy_loop l d f : NoDup l ->
  let '(d', f') := fold_left (fun '(d, f) p => (io_detach d p, pci_dev_put f p)) l (d, f) in
  io_attached d' = io_attached d ∖ list_to_set l /\
  forall q, f' q = f q - (if decide (q ∈ l) then 1 else 0).
Proof.
  intros N. revert d f. induction N as [|p l Hp N IH]; intros d f; cbn [fold_left].
  { split; [set_solver|]. intros q. rewrite decide_False by apply not_elem_of_nil. lia. }
  specialize (IH (io_detach d p) (pci_dev_put f p)).
  destruct (fold_left _ l _) as [d' f']. destruct IH as [At F]. split.
  - rewrite At, (proj1 (io_detach_ok d p)). cbn [list_to_set]. set_solver.
  - intros q. rewrite F. unfold pci_dev_put. destruct (decide (q = p)) as [-> |D].
    + rewrite decide_False, decide_True by (done || left). lia.
    + f_equal. apply decide_ext. rewrite elem_of_cons. tauto.
Qed.

Lemma io_inv_destroy base s : io_inv base s -> io_inv base (relm_iommu_destroy s) /\
  active (io (relm_iommu_destroy s)) = None /\
  (enabled (io s) = true -> forall p, refs (relm_iommu_destroy s) p = base p).
Proof.
  intros I. unfold relm_iommu_destroy. destruct (active (io s)) as [d|] eqn:Ha.
  - pose proof (destroy_loop (devices (io s)) d (refs s) (ii_nodup _ _ I)) as D.
    destruct (fold_left _ _ _) as [d' f']. destruct D as [_ F].
    assert (forall p, f' p = base p) as R.
    { intros p. rewrite F, (ii_refs _ _ I). lia. }
    split; [|done]. split; cbn [io refs domain enabled devices n_devs]; try done; [constructor|].
    intros p. rewrite R, decide_False by apply not_elem_of_nil. lia.
  - split; [done|]. split; [done|]. intros On. destruct (ii_on _ _ I On) as (d & Ed & _).
    unfold active in Ha. rewrite On in Ha. congruence.
Qed.

Lemma io_inv_step base s op : io_inv base s -> io_inv base (iommu_step s op).
Proof.
  intros I. destruct op; cbn [iommu_step].
  - by apply io_inv_map.
  - by apply io_inv_unmap.
  - unfold relm_iommu_map_guest_ram. destruct (active (io s)); [by apply io_inv_loop|by destruct s].
  - by destruct s, I.
  - by apply io_inv_attach.
  - by apply io_inv_detach.
  - by apply io_inv_destroy.
Qed.

Lemma io_inv_init base x x' : relm_iommu_init x = (0, x') -> io_inv base (Iommu x' base).
Proof.
  unfold relm_iommu_init. destruct io_present; [|done]. cbn [negb].
  destruct io_domain_alloc as [d|] eqn:E; [|done]. intros [= <-].
  destruct (io_alloc_ok d E) as [At _]. split; cbn [io refs domain enabled devices n_devs]; try done.
  - intros _. by exists d.
  - constructor.
  - intros p. rewrite decide_False by apply not_elem_of_nil. lia.
Qed.

Lemma io_inv_run base ops : forall s, io_inv base s -> io_inv base (fold_left iommu_step ops s).
Proof. induction ops as [|op ops IH]; intros s I; [done|]. cbn [fold_left]. by apply IH, io_inv_step. Qed.
End Devices.

(** The book-keeping of pass-through devices.  From a successful initialisation,
    after any sequence of mappings, unmappings, faults, attachments and detachments
    (failed ones included), the list names exactly the devices attached to the
    domain, each once, the counter is its length, and exactly the listed devices hold
    one more reference; destroying the domain then drops every reference and leaves
    the context disabled. *)
Theorem iommu_devices_tracked {A : IommuApi} {Aok : IommuApiOk A} (base : Z -> Z) (x x' : relm_iommu_context)
    (ops : list iommu_op) :
  relm_iommu_init x = (0, x') ->
  let s := fold_left iommu_step ops (Iommu x' base) in
  io_inv base s /\ io_inv base (relm_iommu_destroy s) /\ active (io (relm_iommu_destroy s)) = None /\
  forall p, refs (relm_iommu_destroy s) p = base p.
Proof.
  intros E s. assert (io_inv base s) as I by (apply io_inv_run; by apply (io_inv_init base x)).
  destruct (io_inv_destroy base s I) as (I' & Ac & R). split_and!; try done. intros p.
  destruct (enabled (io s)) eqn:En; [by apply R|]. destruct (ii_off _ _ I En) as [Ed Dv].
  unfold relm_iommu_destroy, active. rewrite En. rewrite (ii_refs _ _ I), Dv.
  rewrite decide_False by apply not_elem_of_nil. lia.
Qed.

(** Mapping RAM into a new domain: [k] pages are mapped, all of them on success. *)
Lemma init_map_ram {A : IommuApi} {Aok : IommuApiOk A} h ept T ram x0 x1 x2 r :
  ept_ok h ept T -> 0 <= ram <= 2 ^ 48 -> relm_iommu_init x0 = (0, x1) ->
  relm_iommu_map_guest_ram h (Some ept) ram x1 = (r, x2) ->
  exists d k, active x2 = Some d /\ 0 <= k /\ 4096 * k < ram + 4096 /\ (r = 0 -> ram <= 4096 * k) /\
    forall a, io_walk d a = if decide (0 <= a < 4096 * k) then (fun p => (p, RW)) <$> ept_translate h ept a else None.
Proof.
  intros Ok Hr Ei Em.
  assert (exists d0, active x1 = Some d0 /\ forall a, io_walk d0 a = None) as (d0 & A0 & W0).
  { unfold relm_iommu_init in Ei. destruct io_present; [|done]. cbn [negb] in Ei.
    destruct io_domain_alloc as [d|] eqn:Ed; [|done]. injection Ei as <-.
    exists d. split; [done|]. apply (io_alloc_ok d Ed). }
  unfold relm_iommu_map_guest_ram in Em. rewrite A0 in Em. set (n := Z.to_nat ((ram + 4095) / 4096)) in *.
  assert (ram <= 4096 * Z.of_nat n < ram + 4096) as En by (unfold n; rewrite Z2Nat.id; zdm).
  destruct (map_ram_loop_spec n h ept T 0 x1 d0 r x2 Ok A0 eq_refl ltac:(lia) ltac:(lia) Em)
    as (_ & d & k & Ad & _ & K & Kr & W). exists d, k. split_and!; [done|lia|lia|lia|].
  intros a. rewrite W. unfold mirrored. rewrite W0, Z.add_0_l. case_decide; [|done]. by destruct (ept_translate h ept a).
Qed.


(** ** What is missing: the domain outlives the VM

    Nothing calls [relm_iommu_destroy]: when the VM's memory is released the domain
    still translates to its pages, which the host may hand to anyone. *)
Theorem domain_outlives_ram {A : IommuApi} {Aok : IommuApiOk A} `{PA : PageAlloc} {PAok : PageAllocOk PA}
    (h h' : host) (ept : ept_context) (m : relm_vm_memory) (T : gset Z) (x0 x1 x2 : relm_iommu_context)
    (vm' : @vm_mem vmx_mem_ops) (a : Z) :
  @vm_inv PA vmx_mem_ops vmx_mem_ops_ok h ept m T -> 0 <= a < total_guest_ram m ->
  total_guest_ram m <= 2 ^ 48 -> (forall g, 0 <= g < total_guest_ram m -> covered_gpa m g) ->
  relm_iommu_init x0 = (0, x1) -> relm_iommu_map_guest_ram h (Some ept) (total_guest_ram m) x1 = (0, x2) ->
  relm_vm_free_guest_mem h (@VmMem vmx_mem_ops (Some ept) m) = (h', vm') ->
  exists d p, active x2 = Some d /\ io_walk d a = Some (p + a mod 4096, RW) /\ p ∉ h_live h'.
Proof.
  intros V Ha Ht Cv Ei Em Ef.
  destruct (init_map_ram h ept T (total_guest_ram m) x0 x1 x2 0 (vi_ctx _ _ _ _ V) ltac:(lia) Ei Em) as (d & k & Ad & K & _ & Kr & W).
  destruct (@free_mem_spec PA PAok vmx_mem_ops vmx_mem_ops_ok h h' ept m T vm' V Ef) as (Lv & _).
  destruct (Cv a Ha) as [p At]. pose proof (vi_translate _ _ _ _ V a p At) as Tr. exists d, p.
  split; [done|]. split.
  - rewrite W, decide_True by lia. change (ept_translate h ept a = Some (p + a mod 4096)) in Tr. by rewrite Tr.
  - rewrite Lv. intros [_ N]. by apply (N a).
Qed.

(** ** A concrete IOMMU: page-granular maps *)
Module IommuDemo.
Record pdom := PDom { pd_map : gmap Z (Z * Z); pd_dev : gset Z }.

Definition pmap (d : pdom) (iova pa size prot : Z) : Z * pdom :=
  (0, PDom (fold_left (fun mp i => <[iova / 4096 + Z.of_nat i := (pa + 4096 * Z.of_nat i, prot)]> mp)
       (seq 0 (Z.to_nat (size / 4096))) (pd_map d)) (pd_dev d)).

(** Only whole pages are unmapped. *)
Definition punmap (d : pdom) (iova size : Z) : Z * pdom :=
  if decide (iova mod 4096 = 0 /\ size mod 4096 = 0 /\ 0 <= size) then
    (size, PDom (fold_left (fun mp i => delete (iova / 4096 + Z.of_nat i) mp)
              (seq 0 (Z.to_nat (size / 4096))) (pd_map d)) (pd_dev d))
  else (0, d).

#[local] Instance papi : IommuApi := {|
  iommu_domain := pdom;
  io_present := true;
  io_domain_alloc := Some (PDom ∅ ∅);
  io_map := pmap;
  io_unmap := punmap;
  io_attach d p := if decide (p ∈ pd_dev d) then (- 16, d) else (0, PDom (pd_map d) ({[p]} ∪ pd_dev d));
  io_detach d p := PDom (pd_map d) (pd_dev d ∖ {[p]});
  io_walk d a := (fun '(p, prot) => (p + a mod 4096, prot)) <$> pd_map d !! (a / 4096);
  io_attached := pd_dev
|}.

Lemma pmap_lookup iova pa prot n (mp : gmap Z (Z * Z)) k :
  fold_left (fun mp i => <[iova / 4096 + Z.of_nat i := (pa + 4096 * Z.of_nat i, prot)]> mp) (seq 0 n) mp !! k =
  if decide (iova / 4096 <= k < iova / 4096 + Z.of_nat n) then Some (pa + 4096 * (k - iova / 4096), prot) else mp !! k.
Proof.
  induction n as [|n IH]; [cbn; by rewrite decide_False by lia|].
  rewrite seq_S, fold_left_app. cbn [fold_left Nat.add].
  destruct (decide (k = iova / 4096 + Z.of_nat n)) as [-> |D].
  - rewrite lookup_insert_eq, decide_True by lia. do 2 f_equal. lia.
  - rewrite lookup_insert_ne, IH by lia. apply decide_ext. lia.
Qed.

Lemma punmap_lookup iova n (mp : gmap Z (Z * Z)) k :
  fold_left (fun mp i => delete (iova / 4096 + Z.of_nat i) mp) (seq 0 n) mp !! k =
  if decide (iova / 4096 <= k < iova / 4096 + Z.of_nat n) then None else mp !! k.
Proof.
  induction n as [|n IH]; [cbn; by rewrite decide_False by lia|].
  rewrite seq_S, fold_left_app. cbn [fold_left Nat.add].
  destruct (decide (k = iova / 4096 + Z.of_nat n)) as [-> |D].
  - rewrite lookup_delete_eq, decide_True by lia. done.
  - rewrite lookup_delete_ne, IH by lia. apply decide_ext. lia.
Qed.

#[local] Instance papi_ok : IommuApiOk papi.
Proof.
  split.
  - intros d [= <-]. done.
  - intros d iova pa size prot r d' Hi Hp Hs H0 [= <- <-] a. cbn. rewrite pmap_lookup.
    destruct (decide (0 = 0 /\ iova <= a < iova + size)) as [[_ D]|D].
    + rewrite decide_True by zdm. cbn. do 2 f_equal. zdm.
    + rewrite decide_False by zdm. done.
  - done.
  - intros d iova size n d'. cbn. unfold punmap. destruct (decide _) as [(Hi & Hs & H0)|D]; intros [= <- <-].
    + split; [done|]. split; [done|]. intros a. cbn. rewrite punmap_lookup.
      destruct (decide (iova <= a < iova + size)); [by rewrite decide_True by zdm|by rewrite decide_False by zdm].
    + split; [lia|]. split; [done|]. intros a. by rewrite decide_False by lia.
  - intros d p r d'. cbn. destruct (decide (p ∈ pd_dev d)); intros [= <- <-]; done.
  - done.
Qed.

Definition ctx0 : relm_iommu_context := IommuCtx None [] 0 false 0 0.

Lemma iommu_devices_tracked_witness :
  let s := fold_left iommu_step [OAttach true 7; OAttach true 9; OAttach true 7; ODetach 7] (Iommu (snd (relm_iommu_init ctx0)) (fun _ => 1)) in
  devices (io s) = [9] /\ refs (relm_iommu_destroy s) 9 = 1.
Proof.
  destruct (iommu_devices_tracked (fun _ => 1) ctx0 (snd (relm_iommu_init ctx0))
    [OAttach true 7; OAttach true 9; OAttach true 7; ODetach 7] eq_refl) as (_ & _ & _ & R).
  split; [vm_compute; reflexivity|apply R].
Defined.

End IommuDemo.
