(* ===== verification/Svm.v ===== *)
(** * The SVM backend

    src/arch/x86/svm/svm.c: turning SVM on for every CPU, the memory of a vCPU, and
    the initial guest state in the VMCB save area (include/arch/x86/svm/vmcb.h).

    A CPU is what its instructions answer: CPUID, the VM_CR and EFER registers, and
    whether a write of EFER takes effect.  The blocks of [__get_free_pages] are named
    by their address, NULL is 0; the allocator is the parameter [kalloc], a function
    of the blocks in use and of the order.  [rdpat] is the host's PAT. *)
From S2P Require Import Prelude HostMem Radix X86Pt VmMem GuestMem Mmu GuestPt Ept Npt E820 VmcsFields Boot.

Definition EFER_SVME : Z := Z.shiftl 1 12.
Definition MSR_VM_CR_LOCK : Z := Z.shiftl 1 3.
Definition MSR_VM_CR_SVMDIS : Z := Z.shiftl 1 4.
Definition SVM_ASID_FROM_VPID (vpid : Z) : Z := u32 (u32 vpid + 1).
Definition SEABIOS_INITIAL_CR0 : Z := 0x60000010.
Definition SEABIOS_INITIAL_CR4 : Z := 0.
Definition SEABIOS_INITIAL_EFER : Z := 0.

(** ** Turning SVM on *)

Record cpu := Cpu {
  cpuid_ecx : Z;       (** of leaf SVM_CPUID_EXT_FEATURES *)
  vm_cr : Z;
  c_efer : Z;
  efer_sticks : bool   (** a write of EFER takes effect *)
}.
Definition wr_efer (c : cpu) (v : Z) : cpu :=
  if efer_sticks c then Cpu (cpuid_ecx c) (vm_cr c) v (efer_sticks c) else c.

Definition relm_svm_check_support (c : cpu) : bool :=
  if negb (flag (cpuid_ecx c) SVM_CPUID_FEATURE_BIT) then false
  else if flag (vm_cr c) MSR_VM_CR_SVMDIS then false
  else true.

(** The re-read of EFER only logs. *)
Definition relm_enable_svm_operation (c : cpu) : cpu :=
  if negb (flag (c_efer c) EFER_SVME) then wr_efer c (Z.lor (c_efer c) EFER_SVME) else c.

(** The value is whether [work->failed_cpus] was incremented. *)
Definition relm_svm_enable_cpu (c : cpu) : bool * cpu :=
  if negb (relm_svm_check_support c) then (true, c) else (false, relm_enable_svm_operation c).

Definition relm_svm_disable_cpu (c : cpu) : cpu :=
  if flag (c_efer c) EFER_SVME then wr_efer c (Z.land (c_efer c) (u64 (Z.lnot EFER_SVME))) else c.

Definition relm_svm_disable_on_all_cpus (cs : list cpu) : list cpu := map relm_svm_disable_cpu cs.

Definition relm_svm_enable_on_all_cpus (cs : list cpu) : Z * list cpu :=
  let done := map relm_svm_enable_cpu cs in
  let failed_cpus := length (filter (fun x => fst x = true) done) in
  let cs := map snd done in
  if (0 <? failed_cpus)%nat then (- EIO, relm_svm_disable_on_all_cpus cs) else (0, cs).

(** ** The memory of a vCPU *)

(** The pointers and physical addresses of [struct vcpu_arch]. *)
Record svm_blocks := SvmBlocks {
  vmcb : Z; vmcb_pa : Z; hsave : Z; hsave_pa : Z; host_vmcb : Z; host_vmcb_pa : Z;
  msrpm : Z; msrpm_pa : Z; iopm : Z; iopm_pa : Z; asid : Z
}.
Definition no_blocks : svm_blocks := SvmBlocks 0 0 0 0 0 0 0 0 0 0 0.

(** [get_order(n * PAGE_SIZE)] for n = 1, 2, 3 *)
Definition order_1 : nat := 0.
Definition order_2 : nat := 1.
Definition order_3 : nat := 2.

Class BlockAlloc := kalloc : gset Z -> nat -> option Z.
Class BlockAllocOk (BA : BlockAlloc) := kalloc_ok s o p : kalloc s o = Some p -> p ∉ s /\ p <> 0.

Section Memory.
Context {BA : BlockAlloc}.

Definition get_block (s : gset Z) (o : nat) : Z * gset Z :=
  match kalloc s o with Some p => (p, {[p]} ∪ s) | None => (0, s) end.
Definition free_block (s : gset Z) (p : Z) : gset Z := s ∖ {[p]}.

(** The error exits leave the pointers in the structure. *)
Definition out_free_vmcb (s : gset Z) (b : svm_blocks) : Z * gset Z * svm_blocks :=
  (- ENOMEM, free_block s (vmcb b), b).
Definition out_free_hsave (s : gset Z) (b : svm_blocks) : Z * gset Z * svm_blocks :=
  out_free_vmcb (free_block s (hsave b)) b.
Definition out_free_host_vmcb (s : gset Z) (b : svm_blocks) : Z * gset Z * svm_blocks :=
  out_free_hsave (free_block s (host_vmcb b)) b.
Definition out_free_msrpm (s : gset Z) (b : svm_blocks) : Z * gset Z * svm_blocks :=
  out_free_host_vmcb (free_block s (msrpm b)) b.

Definition relm_vcpu_alloc_init (vpid : Z) (s : gset Z) (b : svm_blocks) : Z * gset Z * svm_blocks :=
  let '(p1, s) := get_block s order_1 in
  let b := SvmBlocks p1 (vmcb_pa b) (hsave b) (hsave_pa b) (host_vmcb b) (host_vmcb_pa b) (msrpm b) (msrpm_pa b)
             (iopm b) (iopm_pa b) (asid b) in
  if p1 =? 0 then (- ENOMEM, s, b) else
  let '(p2, s) := get_block s order_1 in
  let b := SvmBlocks p1 p1 p2 (hsave_pa b) (host_vmcb b) (host_vmcb_pa b) (msrpm b) (msrpm_pa b)
             (iopm b) (iopm_pa b) (asid b) in
  if p2 =? 0 then out_free_vmcb s b else
  let '(p3, s) := get_block s order_1 in
  let b := SvmBlocks p1 p1 p2 p2 p3 (host_vmcb_pa b) (msrpm b) (msrpm_pa b) (iopm b) (iopm_pa b) (asid b) in
  if p3 =? 0 then out_free_hsave s b else
  let '(p4, s) := get_block s order_2 in
  let b := SvmBlocks p1 p1 p2 p2 p3 p3 p4 (msrpm_pa b) (iopm b) (iopm_pa b) (asid b) in
  if p4 =? 0 then out_free_host_vmcb s b else
  let '(p5, s) := get_block s order_3 in
  let b := SvmBlocks p1 p1 p2 p2 p3 p3 p4 p4 p5 (iopm_pa b) (asid b) in
  if p5 =? 0 then out_free_msrpm s b else
  (0, s, SvmBlocks p1 p1 p2 p2 p3 p3 p4 p4 p5 p5 (SVM_ASID_FROM_VPID vpid)).

Definition relm_free_vcpu (s : gset Z) (b : svm_blocks) : gset Z * svm_blocks :=
  let drop s p := if negb (p =? 0) then free_block s p else s in
  let pa p q := if negb (p =? 0) then 0 else q in
  let s := drop s (iopm b) in
  let s := drop s (msrpm b) in
  let s := drop s (host_vmcb b) in
  let s := drop s (hsave b) in
  let s := drop s (vmcb b) in
  (s, SvmBlocks 0 (pa (vmcb b) (vmcb_pa b)) 0 (pa (hsave b) (hsave_pa b)) 0 (pa (host_vmcb b) (host_vmcb_pa b))
        0 (pa (msrpm b) (msrpm_pa b)) 0 (pa (iopm b) (iopm_pa b)) (asid b)).
End Memory.

(** ** The guest's initial state *)

Record vmcb_seg := Seg { selector : Z; attrib : Z; limit : Z; base : Z }.

(** The members of the save area that the code writes. *)
Record vmcb_save_area := Save {
  es : vmcb_seg; cs : vmcb_seg; ss : vmcb_seg; ds : vmcb_seg; fs : vmcb_seg; gs : vmcb_seg;
  gdtr : vmcb_seg; ldtr : vmcb_seg; idtr : vmcb_seg; tr : vmcb_seg;
  cpl : Z; s_efer : Z; s_cr4 : Z; s_cr3 : Z; s_cr0 : Z; s_rflags : Z; s_rip : Z; s_rsp : Z; g_pat : Z
}.

(** The cached control registers and the registers of [vcpu->arch] the code uses. *)
Record svm_cpu := SvmCpu {
  a_cr0 : Z; a_cr3 : Z; a_cr4 : Z; a_efer : Z; a_rip : Z; a_rsi : Z; a_rsp : Z; a_rflags : Z;
  gdtr_base : Z; gdtr_limit : Z; idtr_base : Z; idtr_limit : Z
}.

(** Writing [.base] and [.limit] only. *)
Definition seg_base_limit (s : vmcb_seg) (b l : Z) : vmcb_seg := Seg (selector s) (attrib s) l b.

Section GuestState.
Context (rdpat : Z).

Definition svm_init_guest_state_firmware (have_vmcb : bool) (s : vmcb_save_area) (a : svm_cpu)
    : Z * vmcb_save_area * svm_cpu :=
  if negb have_vmcb then (- EINVAL, s, a)
  else
    let code := Seg SEABIOS_INITIAL_CS_SELECTOR SEABIOS_INITIAL_CS_ACCESS SEABIOS_INITIAL_CS_LIMIT
                  SEABIOS_INITIAL_CS_BASE in
    let data := Seg SEABIOS_INITIAL_DS_SELECTOR SEABIOS_INITIAL_DS_ACCESS SEABIOS_INITIAL_DS_LIMIT
                  SEABIOS_INITIAL_DS_BASE in
    let s := Save data code data data data data
               (seg_base_limit (gdtr s) SEABIOS_INITIAL_GDTR_BASE SEABIOS_INITIAL_GDTR_LIMIT)
               (Seg 0 SEABIOS_INITIAL_LDTR_ACCESS 0xFFFF 0)
               (seg_base_limit (idtr s) SEABIOS_INITIAL_IDTR_BASE 0x3FF)
               (Seg 0 SEABIOS_INITIAL_TR_ACCESS 0x67 0)
               0 (Z.lor SEABIOS_INITIAL_EFER EFER_SVME) SEABIOS_INITIAL_CR4 0 SEABIOS_INITIAL_CR0
               SEABIOS_INITIAL_RFLAGS SEABIOS_INITIAL_RIP 0 rdpat in
    (0, s, SvmCpu (s_cr0 s) (s_cr3 s) (s_cr4 s) (s_efer s) (s_rip s) (a_rsi a) (s_rsp s) (s_rflags s)
             (gdtr_base a) (gdtr_limit a) (idtr_base a) (idtr_limit a)).

Definition svm_init_guest_state_protected (have_vmcb : bool) (s : vmcb_save_area) (a : svm_cpu)
    : Z * vmcb_save_area * svm_cpu :=
  if negb have_vmcb then (- EINVAL, s, a)
  else
    let code := Seg 0x08 0x0C9B 0xFFFFFFFF 0 in
    let data := Seg 0x10 0x0C93 0xFFFFFFFF 0 in
    let s := Save data code data data data data
               (seg_base_limit (gdtr s) (gdtr_base a) (gdtr_limit a)) (Seg 0 0 0 0)
               (seg_base_limit (idtr s) (idtr_base a) (idtr_limit a)) (Seg 0 0x08B 0x67 0)
               0 EFER_SVME (a_cr4 a) (a_cr3 a) (Z.lor (Z.lor (a_cr0 a) X86_CR0_PE) X86_CR0_NE)
               0x2 (a_rip a) (a_rsp a) rdpat in
    (0, s, SvmCpu (s_cr0 s) (a_cr3 a) (a_cr4 a) (s_efer s) (a_rip a) (a_rsi a) (a_rsp a) (s_rflags s)
             (gdtr_base a) (gdtr_limit a) (idtr_base a) (idtr_limit a)).

(** What [vm->arch] and [vm->memory] say about the guest to start; the VMCB pointer
    is not checked here. *)
Record svm_boot := SvmBoot { b_pml4_gpa : Z; b_kernel_entry : Z; b_boot_params : Z; b_total_ram : Z }.

Definition svm_init_guest_state_longmode (B : svm_boot) (s : vmcb_save_area) (a : svm_cpu)
    : Z * vmcb_save_area * svm_cpu :=
  if b_pml4_gpa B =? 0 then (- EINVAL, s, a)
  else
    let entry_rip := b_kernel_entry B in
    if entry_rip =? 0 then (- EINVAL, s, a)
    else
      let entry_rsi := b_boot_params B in
      if entry_rsi =? 0 then (- EINVAL, s, a)
      else
        let code := Seg 0x08 0x0A9B 0xFFFFFFFF 0 in
        let data := Seg 0x10 0x0C93 0xFFFFFFFF 0 in
        let entry_rsp := Z.land (u64 (b_total_ram B - 3 * PAGE_SIZE)) (u64 (Z.lnot 0xF)) in
        let s := Save data code data data data data
                   (seg_base_limit (gdtr s) RELM_GUEST_GDT_GPA (RELM_GUEST_GDT_SIZE - 1)) (Seg 0 0 0 0)
                   (seg_base_limit (idtr s) RELM_GUEST_IDT_GPA (RELM_GUEST_IDT_SIZE - 1)) (Seg 0 0x08B 0x67 0)
                   0 (Z.lor (Z.lor (Z.lor EFER_LME EFER_LMA) EFER_SCE) EFER_SVME) X86_CR4_PAE (b_pml4_gpa B)
                   (Z.lor (Z.lor (Z.lor X86_CR0_PG X86_CR0_PE) X86_CR0_NE) X86_CR0_WP)
                   0x2 entry_rip entry_rsp rdpat in
        (0, s, SvmCpu (s_cr0 s) (s_cr3 s) (s_cr4 s) (s_efer s) entry_rip entry_rsi entry_rsp (s_rflags s)
                 (gdtr_base a) (gdtr_limit a) (idtr_base a) (idtr_limit a)).

Definition relm_init_vmcb_state (B : svm_boot) (s : vmcb_save_area) (a : svm_cpu) : Z * vmcb_save_area * svm_cpu :=
  svm_init_guest_state_longmode B s a.

(** The two pointers the function writes through, [ctrl] and [icpt], are never
    assigned: past the checks, every store is an access to a stray address. *)
Definition relm_vcpu_vmcb_setup (have_vm have_vmcb : bool) (npt : option npt_context) : access unit :=
  if negb have_vm || negb have_vmcb then Done (- EINVAL) tt
  else match npt with
       | None => Done (- ENODEV) tt
       | Some _ => Oops
       end.

(** The value is the save area, the registers, and what [MSR_VM_HSAVE_PA] receives. *)
Definition svm_vcpu_init (b : svm_blocks) (have_vm : bool) (npt : option npt_context) (B : svm_boot)
    (s : vmcb_save_area) (a : svm_cpu) : access (vmcb_save_area * svm_cpu * option Z) :=
  if hsave_pa b =? 0 then Done (- EINVAL) (s, a, None)
  else
    match relm_vcpu_vmcb_setup have_vm (negb (vmcb b =? 0)) npt with
    | Oops => Oops
    | OutOfFuel => OutOfFuel
    | Done ret _ =>
        if negb (ret =? 0) then Done ret (s, a, Some (hsave_pa b))
        else let '(ret, s, a) := relm_init_vmcb_state B s a in Done ret (s, a, Some (hsave_pa b))
    end.
End GuestState.

Definition svm_setup_mmu : Z := 0.
Definition svm_inject_irq (irq : Z) : Z := - ENOSYS.
Definition svm_read_msr (msr : Z) : Z := - EINVAL.
Definition svm_write_msr (msr val : Z) : Z := - EINVAL.

(** ** Correctness *)

(** [SVME] is on. *)
Definition svm_on (c : cpu) : bool := Z.testbit (c_efer c) 12.

Lemma svme_flag e : flag e EFER_SVME = Z.testbit e 12.
Proof. change EFER_SVME with (2 ^ 12). by apply flag_pow2. Qed.

Lemma enable_on c : efer_sticks c = true -> svm_on (relm_enable_svm_operation c) = true /\
  efer_sticks (relm_enable_svm_operation c) = true.
Proof.
  intros St. unfold relm_enable_svm_operation, wr_efer, svm_on. rewrite svme_flag, St.
  destruct (Z.testbit (c_efer c) 12) eqn:E; [done|]. cbn [negb c_efer efer_sticks]. split; [|done].
  rewrite Z.lor_spec, E. done.
Qed.

Lemma disable_off c : efer_sticks c = true -> svm_on (relm_svm_disable_cpu c) = false.
Proof.
  intros St. unfold relm_svm_disable_cpu, wr_efer, svm_on. rewrite svme_flag, St.
  destruct (Z.testbit (c_efer c) 12) eqn:E; [|done]. cbn [c_efer]. rewrite Z.land_spec. apply andb_false_r.
Qed.

Lemma support_enable c : relm_svm_check_support (relm_enable_svm_operation c) = relm_svm_check_support c.
Proof. unfold relm_enable_svm_operation, wr_efer. by repeat case_match. Qed.

(** Turning SVM on is all or nothing.  Where a write of EFER takes effect on every
    CPU: the call returns 0 exactly when every CPU has SVM and firmware has not
    disabled it, and then SVME is set on all of them; otherwise it returns -EIO and
    SVME is clear on every CPU, also on those that had been enabled. *)
Theorem svm_enable_all_or_nothing (cs : list cpu) : Forall (fun c => efer_sticks c = true) cs ->
  let '(ret, cs') := relm_svm_enable_on_all_cpus cs in
  length cs' = length cs /\
  if forallb relm_svm_check_support cs then ret = 0 /\ forallb svm_on cs' = true
  else ret = - EIO /\ Forall (fun c => svm_on c = false) cs'.
Proof.
  intros St. unfold relm_svm_enable_on_all_cpus. cbv zeta.
  set (done := map relm_svm_enable_cpu cs).
  assert ((0 < length (filter (fun x => fst x = true) done))%nat <-> forallb relm_svm_check_support cs = false) as Hf.
  { unfold done. clear. induction cs as [|c cs IH]; [simpl; lia|]. cbn [map forallb].
    unfold relm_svm_enable_cpu at 1. destruct (relm_svm_check_support c); cbn [negb andb].
    - rewrite filter_cons_False by done. exact IH.
    - rewrite filter_cons_True by done. simpl. split; [done|lia]. }
  assert (Forall (fun c => efer_sticks c = true) (map snd done)) as Sd.
  { unfold done. rewrite Forall_map, Forall_map. eapply Forall_impl; [exact St|]. intros c Hc. unfold relm_svm_enable_cpu.
    destruct (relm_svm_check_support c); cbn [negb snd]; [by apply enable_on|done]. }
  destruct (Nat.ltb_spec 0 (length (filter (fun x => fst x = true) done))) as [L|L].
  - rewrite (proj1 Hf L). unfold relm_svm_disable_on_all_cpus. rewrite !length_map. unfold done. rewrite length_map.
    split; [done|]. split; [done|]. rewrite Forall_map. eapply Forall_impl; [exact Sd|].
    intros c. apply disable_off.
  - destruct (forallb relm_svm_check_support cs) eqn:F; [|lia]. unfold done. rewrite !length_map.
    split; [done|]. split; [done|]. rewrite forallb_forall in F. apply forallb_forall. intros c Hc.
    apply in_map_iff in Hc as (x & <- & Hx). apply in_map_iff in Hx as (c & <- & Hc).
    unfold relm_svm_enable_cpu. rewrite (F c Hc). cbn [negb snd]. apply enable_on.
    rewrite Forall_forall in St. apply St. by apply list_elem_of_In.
Qed.

(** A CPU on which the write does not take effect is not counted as failed: the call
    returns 0 with SVM off there. *)
Theorem svm_enable_unnoticed : exists c, relm_svm_enable_on_all_cpus [c] = (0, [c]) /\ svm_on c = false.
Proof. exists (Cpu 4 0 0 false). by split. Qed.

(** ** The memory of a vCPU is taken whole or not at all *)
Section MemoryOk.
Context {BA : BlockAlloc} {BAok : BlockAllocOk BA}.

Lemma get_block_spec s o p s' : get_block s o = (p, s') ->
  (p = 0 /\ s' = s) \/ (p <> 0 /\ p ∉ s /\ s' = {[p]} ∪ s).
Proof.
  unfold get_block. destruct (kalloc s o) as [q|] eqn:E; intros [= <- <-]; [right|by left].
  by destruct (kalloc_ok _ _ _ E).
Qed.

(** The five blocks are different and [s'] is [s] with them. *)
Definition took (s : gset Z) (l : list Z) (s' : gset Z) : Prop :=
  NoDup l /\ (forall p, p ∈ l -> p <> 0 /\ p ∉ s) /\ s' = list_to_set l ∪ s.

Lemma took_one s l s1 o p s2 : took s l s1 -> get_block s1 o = (p, s2) -> p <> 0 -> took s (p :: l) s2.
Proof.
  intros (N & F & ->) G Hp. apply get_block_spec in G as [[? _]|(_ & Np & ->)]; [done|].
  apply not_elem_of_union in Np as [Nl Ns]. rewrite elem_of_list_to_set in Nl. split; [by constructor|]. split.
  - intros q [-> |Hq]%elem_of_cons; [done|by apply F].
  - cbn [list_to_set]. by rewrite assoc_L by apply _.
Qed.

Lemma untake s l s' p : took s (p :: l) s' -> took s l (free_block s' p).
Proof.
  intros (N & F & ->). apply NoDup_cons in N as [Np N]. split; [done|]. split; [intros; apply F; by right|].
  unfold free_block. destruct (F p (list_elem_of_here _ _)) as [_ Ns]. apply set_eq. intros q.
  rewrite elem_of_difference, elem_of_singleton, !elem_of_union, !elem_of_list_to_set, elem_of_cons.
  split; [intros [[[-> |?]|?] ?]; tauto|]. intros [Hq|Hq]; split; [tauto|congruence|tauto|congruence].
Qed.

Lemma took_nil s s' : took s [] s' -> s' = s.
Proof. intros (_ & _ & ->). cbn [list_to_set]. by rewrite left_id_L by apply _. Qed.

(** The blocks of a failed request. *)
Lemma get_zero s1 o s2 : get_block s1 o = (0, s2) -> s2 = s1.
Proof. intros [[_ ->]|[? _]]%get_block_spec; done. Qed.

Lemma alloc_spec vpid s b r s' b' : relm_vcpu_alloc_init vpid s b = (r, s', b') ->
  (r = - ENOMEM /\ s' = s) \/
  (r = 0 /\ took s [iopm b'; msrpm b'; host_vmcb b'; hsave b'; vmcb b'] s' /\
   vmcb_pa b' = vmcb b' /\ hsave_pa b' = hsave b' /\ host_vmcb_pa b' = host_vmcb b' /\
   msrpm_pa b' = msrpm b' /\ iopm_pa b' = iopm b' /\ asid b' = SVM_ASID_FROM_VPID vpid).
Proof.
  assert (took s [] s) as T0.
  { split; [constructor|]. split; [by intros p []%not_elem_of_nil|]. cbn [list_to_set]. by rewrite left_id_L by apply _. }
  unfold relm_vcpu_alloc_init.
  destruct (get_block s order_1) as [p1 s1] eqn:G1. cbv beta iota zeta.
  destruct (Z.eqb_spec p1 0) as [-> |N1].
  { intros [= <- <- _]. left. by apply get_zero in G1. }
  pose proof (took_one _ _ _ _ _ _ T0 G1 N1) as T1.
  destruct (get_block s1 order_1) as [p2 s2] eqn:G2. cbv beta iota zeta.
  destruct (Z.eqb_spec p2 0) as [-> |N2].
  { apply get_zero in G2 as ->. intros [= <- <- _]. left. split; [done|]. by apply took_nil, untake. }
  pose proof (took_one _ _ _ _ _ _ T1 G2 N2) as T2.
  destruct (get_block s2 order_1) as [p3 s3] eqn:G3. cbv beta iota zeta.
  destruct (Z.eqb_spec p3 0) as [-> |N3].
  { apply get_zero in G3 as ->. intros [= <- <- _]. left. split; [done|]. by apply took_nil, untake, untake. }
  pose proof (took_one _ _ _ _ _ _ T2 G3 N3) as T3.
  destruct (get_block s3 order_2) as [p4 s4] eqn:G4. cbv beta iota zeta.
  destruct (Z.eqb_spec p4 0) as [-> |N4].
  { apply get_zero in G4 as ->. intros [= <- <- _]. left. split; [done|]. by apply took_nil, untake, untake, untake. }
  pose proof (took_one _ _ _ _ _ _ T3 G4 N4) as T4.
  destruct (get_block s4 order_3) as [p5 s5] eqn:G5. cbv beta iota zeta.
  destruct (Z.eqb_spec p5 0) as [-> |N5].
  { apply get_zero in G5 as ->. intros [= <- <- _]. left. split; [done|]. by apply took_nil, untake, untake, untake, untake. }
  pose proof (took_one _ _ _ _ _ _ T4 G5 N5) as T5.
  intros [= <- <- <-]. right. split; [done|]. split; [exact T5|]. done.
Qed.

Lemma free_spec s b s' b' s0 : took s [iopm b; msrpm b; host_vmcb b; hsave b; vmcb b] s0 ->
  relm_free_vcpu s0 b = (s', b') -> s' = s /\ vmcb b' = 0.
Proof.
  intros T E. pose proof T as (_ & F & _). unfold relm_free_vcpu in E. cbv zeta in E.
  rewrite !(proj2 (Z.eqb_neq _ 0)) in E by (apply F; rewrite !elem_of_cons; tauto). cbn [negb] in E.
  injection E as <- <-. split; [|done]. by apply took_nil, untake, untake, untake, untake, untake.
Qed.
End MemoryOk.

(** Preparing a vCPU for SVM is all or nothing: whichever of the five requests for
    memory is refused, the call returns -ENOMEM and no block stays taken; when it
    succeeds the five blocks are new and different, the physical addresses are theirs,
    the ASID is not 0 (which is the host's), and freeing the vCPU gives everything
    back and clears the pointers. *)
Theorem svm_alloc_all_or_nothing {BA : BlockAlloc} {BAok : BlockAllocOk BA} (vpid r : Z) (s s' : gset Z)
    (b b' : svm_blocks) :
  0 <= vpid < 2 ^ 32 - 1 -> relm_vcpu_alloc_init vpid s b = (r, s', b') ->
  (r = - ENOMEM /\ s' = s) \/
  (r = 0 /\ took s [iopm b'; msrpm b'; host_vmcb b'; hsave b'; vmcb b'] s' /\
   vmcb_pa b' = vmcb b' /\ hsave_pa b' = hsave b' /\ host_vmcb_pa b' = host_vmcb b' /\
   msrpm_pa b' = msrpm b' /\ iopm_pa b' = iopm b' /\ asid b' <> 0 /\
   fst (relm_free_vcpu s' b') = s /\ vmcb (snd (relm_free_vcpu s' b')) = 0).
Proof.
  intros Hv E. destruct (alloc_spec vpid s b r s' b' E) as [|(-> & T & P1 & P2 & P3 & P4 & P5 & A)]; [by left|].
  right. split; [done|]. split; [done|]. do 5 (split; [done|]). split.
  - rewrite A. unfold SVM_ASID_FROM_VPID, u32. rewrite (Z.mod_small vpid), Z.mod_small by lia. lia.
  - destruct (relm_free_vcpu s' b') as [s2 b2] eqn:Ef.
    by destruct (free_spec s b' s2 b2 s' T Ef).
Qed.

(** ** The processor accepts the state

    The consistency checks of VMRUN on the save area (AMD64 Architecture Programmer's
    Manual, volume 2, "Canonicalization and Consistency Checks"): a state that breaks
    one of them makes VMRUN exit with VMEXIT_INVALID. *)
Record vmrun_ok (s : vmcb_save_area) : Prop := VmrunOk {
  vr_svme : Z.testbit (s_efer s) 12 = true;
  vr_cache : Z.testbit (s_cr0 s) 29 = true -> Z.testbit (s_cr0 s) 30 = true;
  vr_cr0 : 0 <= s_cr0 s < 2 ^ 32;
  vr_cr3 : 0 <= s_cr3 s < 2 ^ 52;
  vr_cr4 : 0 <= s_cr4 s < 2 ^ 11;
  vr_efer : Z.land (s_efer s) (Z.lnot 0x1D01) = 0;
  vr_pae : Z.testbit (s_efer s) 8 = true -> Z.testbit (s_cr0 s) 31 = true -> Z.testbit (s_cr4 s) 5 = true;
  vr_pe : Z.testbit (s_efer s) 8 = true -> Z.testbit (s_cr0 s) 31 = true -> Z.testbit (s_cr0 s) 0 = true;
  (** bits 9 and 10 of the attributes are L and D *)
  vr_code : Z.testbit (s_efer s) 8 = true -> Z.testbit (s_cr0 s) 31 = true -> Z.testbit (s_cr4 s) 5 = true ->
    Z.testbit (attrib (cs s)) 9 = true -> Z.testbit (attrib (cs s)) 10 = false
}.

(** The bit tests of constants. *)
Ltac bits_done := try done; try (vm_compute; done); try (vm_compute; split; discriminate || reflexivity).

(** The 64-bit boot state of the SVM backend.  With the page tables, the entry
    point and the boot parameters set, the state passes the checks of VMRUN; the guest
    is in long mode with the VM's page tables in CR3 and enters a 64-bit code segment
    at the kernel's entry point with the boot parameters in RSI, a 16-byte aligned
    stack below the three pages of page tables, and the descriptor-table registers on
    the tables the boot loader has written.  With one of the three missing, the call
    returns -EINVAL and nothing is changed. *)
Theorem svm_longmode_correct (pat : Z) (B : svm_boot) (s s' : vmcb_save_area) (a a' : svm_cpu) (r : Z) :
  0 <= b_pml4_gpa B < 2 ^ 52 -> 3 * 4096 <= b_total_ram B < 2 ^ 64 ->
  svm_init_guest_state_longmode pat B s a = (r, s', a') ->
  if decide (b_pml4_gpa B <> 0 /\ b_kernel_entry B <> 0 /\ b_boot_params B <> 0) then
    r = 0 /\ vmrun_ok s' /\ long_mode (GuestRegs (s_cr0 s') (s_cr3 s') (s_cr4 s') (s_efer s') (base (cs s')) (attrib (cs s'))) /\
    s_cr3 s' = b_pml4_gpa B /\ Z.testbit (attrib (cs s')) 9 = true /\
    s_rip s' = b_kernel_entry B /\ a_rip a' = s_rip s' /\ a_rsi a' = b_boot_params B /\
    s_rsp s' <= b_total_ram B - 3 * 4096 < s_rsp s' + 16 /\ s_rsp s' mod 16 = 0 /\
    base (gdtr s') = 0x4000 /\ limit (gdtr s') = 23 /\ base (idtr s') = 0x5000 /\ limit (idtr s') = 4095
  else r = - EINVAL /\ s' = s /\ a' = a.
Proof.
  intros Hp Hr. unfold svm_init_guest_state_longmode.
  destruct (Z.eqb_spec (b_pml4_gpa B) 0) as [E1|N1]; [intros [= <- <- <-]; by rewrite decide_False by tauto|].
  destruct (Z.eqb_spec (b_kernel_entry B) 0) as [E2|N2]; [intros [= <- <- <-]; by rewrite decide_False by tauto|].
  destruct (Z.eqb_spec (b_boot_params B) 0) as [E3|N3]; [intros [= <- <- <-]; by rewrite decide_False by tauto|].
  rewrite decide_True by done.
  assert (Z.land (u64 (b_total_ram B - 3 * PAGE_SIZE)) (u64 (Z.lnot 0xF)) =
          (b_total_ram B - 3 * 4096) / 16 * 16) as Es.
  { unfold PAGE_SIZE. rewrite u64_small by lia. change (u64 (Z.lnot 0xF)) with (Z.shiftl (Z.ones 60) 4).
    rewrite land_field by lia. change (2 ^ 4) with 16. rewrite Z.mod_small by zdm. done. }
  rewrite Es. intros [= <- <- <-].
  cbn [s_cr0 s_cr3 s_cr4 s_efer s_rip s_rsp cs gdtr idtr base limit attrib seg_base_limit a_rip a_rsi].
  split; [done|]. split; [split; cbn [s_cr0 s_cr3 s_cr4 s_efer cs attrib]; bits_done|].
  split; [split_and!; done|]. do 5 (split; [done|]). split; [zdm|]. split; [zdm|]. done.
Qed.

(** The reset state of a firmware guest passes the checks too, and starts at the
    reset vector in real mode. *)
Theorem svm_firmware_correct (pat : Z) (s s' : vmcb_save_area) (a a' : svm_cpu) (r : Z) :
  svm_init_guest_state_firmware pat true s a = (r, s', a') ->
  r = 0 /\ vmrun_ok s' /\ base (cs s') + s_rip s' = 0xFFFFFFF0 /\
  Z.testbit (s_cr0 s') 0 = false /\ Z.testbit (s_cr0 s') 31 = false /\ a_rip a' = s_rip s'.
Proof.
  intros [= <- <- <-]. cbn [s_cr0 s_rip cs base a_rip].
  split; [done|]. split; [split; cbn [s_cr0 s_cr3 s_cr4 s_efer cs attrib]; bits_done|]. done.
Qed.

(** The second phase never succeeds: with every argument in place the set-up of the
    control area stores through pointers that were never assigned. *)
Theorem svm_init_never_succeeds (pat : Z) (b : svm_blocks) (have_vm : bool) (npt : option npt_context)
    (B : svm_boot) (s : vmcb_save_area) (a : svm_cpu) :
  match svm_vcpu_init pat b have_vm npt B s a with
  | Done r _ => r < 0
  | Oops => hsave_pa b <> 0 /\ vmcb b <> 0 /\ have_vm = true /\ npt <> None
  | OutOfFuel => False
  end.
Proof.
  unfold svm_vcpu_init, relm_vcpu_vmcb_setup. destruct (Z.eqb_spec (hsave_pa b) 0); [done|].
  destruct have_vm; [|done]. destruct (Z.eqb_spec (vmcb b) 0); [done|]. by destruct npt.
Qed.

(** ** The layout of the VMCB

    The members of the two structures in order, with the sizes the declarations give
    them; [offset] is the offset of a member in the packed structure. *)
Open Scope string_scope.
Definition vmcb_control_area : list (string * Z) :=
  [("intercept_cr", 4); ("intercept_dr", 4); ("intercept_exceptions", 4); ("intercept_1", 4); ("intercept_2", 4);
   ("intercept_3", 4); ("resrved_1", 0x03C - 0x018); ("pause_filter_thresh", 2); ("pause_filter_count", 2);
   ("iopm_base_pa", 8); ("msrpm_base_pa", 8); ("tsc_offset", 8); ("asid", 4); ("tlb_ctl", 1); ("reserved_2", 3);
   ("int_ctl", 4); ("int_vector", 4); ("int_state", 4); ("reserved_3", 4); ("exit_code", 8); ("exit_info_1", 8);
   ("exit_info_2", 8); ("exit_int_info", 4); ("exit_int_info_err", 4); ("nested_ctl", 8); ("avic_vapic_bar", 8);
   ("ghcb_gpa", 8); ("virt_ext", 8); ("clean", 8); ("reserved_4", 4); ("next_rip", 8); ("insn_len", 1);
   ("insn_bytes", 15); ("avic_backing_page", 8); ("reserved_5", 8); ("avic_logical_id", 8); ("avic_physical_id", 8);
   ("reserved_6", 0x400 - 0x100)].
Definition vmcb_save_layout : list (string * Z) :=
  [("es", 16); ("cs", 16); ("ss", 16); ("ds", 16); ("fs", 16); ("gs", 16); ("gdtr", 16); ("ldtr", 16); ("idtr", 16);
   ("tr", 16); ("reserved_1", 43); ("cpl", 1); ("reserved_2", 4); ("efer", 8); ("reserved_3", 112); ("cr4", 8);
   ("cr3", 8); ("cr0", 8); ("dr7", 8); ("dr6", 8); ("rflags", 8); ("rip", 8); ("reserved_4", 88); ("rsp", 8);
   ("s_cet", 8); ("ssp", 8); ("isst_addr", 8); ("rax", 8); ("star", 8); ("lstar", 8); ("cstar", 8); ("sfmask", 8);
   ("kernel_gs_base", 8); ("sysenter_cs", 8); ("sysenter_esp", 8); ("sysenter_eip", 8); ("cr2", 8);
   ("reserved_5", 32); ("g_pat", 8); ("dbgctl", 8); ("br_from", 8); ("br_to", 8); ("last_excp_from", 8);
   ("last_excp_to", 8); ("reserved_6", 4096 - 0x400 - 0x298)].

Fixpoint offset (l : list (string * Z)) (f : string) (o : Z) : option Z :=
  match l with
  | [] => None
  | (g, n) :: l => if String.eqb f g then Some o else offset l f (o + n)
  end.
Definition area_size (l : list (string * Z)) : Z := fold_right Z.add 0 (map snd l).

(** Every assertion of the header about the save area holds. *)
Theorem save_area_asserted :
  map (fun f => offset vmcb_save_layout f 0) ["cpl"; "efer"; "cr4"; "rflags"; "rip"; "rsp"; "rax"; "star"; "cr2"; "g_pat"] =
    map Some [0x0CB; 0x0D0; 0x148; 0x170; 0x178; 0x1D8; 0x1F8; 0x200; 0x240; 0x268] /\
  area_size vmcb_save_layout = 4096 - 0x400.
Proof. split; vm_compute; reflexivity. Qed.

(** The control area breaks them: the members at 0x0A8 and 0x0B0 are missing, so what
    follows is too low and the area too short. *)
Theorem control_area_misplaced :
  offset vmcb_control_area "nested_ctl" 0 = Some 0x090 /\
  offset vmcb_control_area "event_inj" 0 = None /\ offset vmcb_control_area "nested_cr3" 0 = None /\
  offset vmcb_control_area "next_rip" 0 = Some 0x0BC /\ area_size vmcb_control_area = 0x400 - 12.
Proof. split_and!; vm_compute; reflexivity. Qed.

(** ** A concrete vCPU *)
Module SvmDemo.
(** Blocks of four pages each, five of them. *)
#[local] Instance blocks : BlockAlloc := fun s _ =>
  let p := 0x4000 * (Z.of_nat (size s) + 1) in
  if decide (p ∈ s) then None else if (size s <? 5)%nat then Some p else None.
#[local] Instance blocks_ok : BlockAllocOk blocks.
Proof.
  intros s o p. unfold kalloc, blocks. case_decide; [done|]. destruct (_ <? _)%nat; [|done]. intros [= <-].
  split; [done|lia].
Qed.

Lemma svm_enable_all_or_nothing_witness :
  relm_svm_enable_on_all_cpus [Cpu 4 0 0 true; Cpu 4 0x18 0x500 true] = (- EIO, [Cpu 4 0 0 true; Cpu 4 0x18 0x500 true]) /\
  svm_on (Cpu 4 0 0 true) = false.
Proof.
  pose proof (svm_enable_all_or_nothing [Cpu 4 0 0 true; Cpu 4 0x18 0x500 true]) as T.
  assert (relm_svm_enable_on_all_cpus [Cpu 4 0 0 true; Cpu 4 0x18 0x500 true] =
    (- EIO, [Cpu 4 0 0 true; Cpu 4 0x18 0x500 true])) as E by (vm_compute; reflexivity).
  rewrite E in T. split; [exact E|].
  destruct T as (_ & _ & F); [by repeat constructor|]. by apply Forall_cons in F as [F _].
Defined.

Lemma svm_alloc_all_or_nothing_witness : exists s' b',
  relm_vcpu_alloc_init 1 ∅ no_blocks = (0, s', b') /\ fst (relm_free_vcpu s' b') = ∅.
Proof.
  destruct (relm_vcpu_alloc_init 1 ∅ no_blocks) as [[r s'] b'] eqn:E.
  destruct (svm_alloc_all_or_nothing 1 r ∅ s' no_blocks b' ltac:(lia) E) as [[Er _]|(Er & _ & _ & _ & _ & _ & _ & _ & F & _)].
  - assert (fst (fst (relm_vcpu_alloc_init 1 ∅ no_blocks)) = 0) as E0 by (vm_compute; reflexivity).
    rewrite E, Er in E0. discriminate E0.
  - exists s', b'. split; [rewrite Er; reflexivity|exact F].
Defined.

Definition seg0 : vmcb_seg := Seg 0 0 0 0.
Definition save0 : vmcb_save_area := Save seg0 seg0 seg0 seg0 seg0 seg0 seg0 seg0 seg0 seg0 0 0 0 0 0 0 0 0 0.
Definition cpu0 : svm_cpu := SvmCpu 0 0 0 0 0 0 0 0 0 0 0 0.
Definition boot0 : svm_boot := SvmBoot 0x7FFD000 0x1000200 0x7000 0x8000000.

Lemma svm_longmode_correct_witness : exists s' a',
  svm_init_guest_state_longmode 0x7040600070406 boot0 save0 cpu0 = (0, s', a') /\ vmrun_ok s' /\
  a_rsi a' = 0x7000 /\ s_rsp s' = 0x7FFD000.
Proof.
  destruct (svm_init_guest_state_longmode 0x7040600070406 boot0 save0 cpu0) as [[r s'] a'] eqn:E.
  pose proof (svm_longmode_correct 0x7040600070406 boot0 save0 s' cpu0 a' r ltac:(vm_compute; split; discriminate || reflexivity)
    ltac:(vm_compute; split; discriminate || reflexivity) E) as T.
  rewrite decide_True in T by (split_and!; discriminate).
  destruct T as (-> & V & _ & _ & _ & _ & _ & Rs & _). exists s', a'. split; [done|]. split; [exact V|].
  split; [exact Rs|]. injection E as <- _. vm_compute. reflexivity.
Defined.

Lemma svm_firmware_correct_witness : exists s' a',
  svm_init_guest_state_firmware 0 true save0 cpu0 = (0, s', a') /\ vmrun_ok s'.
Proof.
  destruct (svm_init_guest_state_firmware 0 true save0 cpu0) as [[r s'] a'] eqn:E.
  destruct (svm_firmware_correct 0 save0 s' cpu0 a' r E) as (-> & V & _). by exists s', a'.
Defined.
End SvmDemo.
