(* ===== verification/Arm64.v ===== *)
(** * The ARM64 backend

    src/arch/arm64/arm64.c and vmexit.c, include/arch/arm64/guest_controls.h,
    hyp_regs.h, vmexit.h and vcpu_arch.h: the control words of a guest, the switch
    between host and guest registers, the dispatch of a synchronous exit, and the
    general registers of a guest.

    The system registers of the CPU are a function from registers to values.  The
    host runs at EL2 with HCR_EL2.E2H set, where the name of an EL1 register reaches
    its EL2 counterpart and the [_EL12] names reach the register of EL1 itself. *)
From S2P Require Import Prelude HostMem X86Pt Vcpu Stage2.

(** ** Control bits *)
Definition HCR_TERR : Z := Z.shiftl 1 36.
Definition HCR_TLOR : Z := Z.shiftl 1 35.
Definition HCR_E2H : Z := Z.shiftl 1 34.
Definition HCR_RW : Z := Z.shiftl 1 31.
Definition HCR_TGE : Z := Z.shiftl 1 27.
Definition HCR_TVM : Z := Z.shiftl 1 26.
Definition HCR_TSW : Z := Z.shiftl 1 22.
Definition HCR_TACR : Z := Z.shiftl 1 21.
Definition HCR_TIDCP : Z := Z.shiftl 1 20.
Definition HCR_TSC : Z := Z.shiftl 1 19.
Definition HCR_TID3 : Z := Z.shiftl 1 18.
Definition HCR_TID2 : Z := Z.shiftl 1 17.
Definition HCR_TID1 : Z := Z.shiftl 1 16.
Definition HCR_TWE : Z := Z.shiftl 1 14.
Definition HCR_TWI : Z := Z.shiftl 1 13.
Definition HCR_BSU_IS : Z := Z.shiftl 1 10.
Definition HCR_FB : Z := Z.shiftl 1 9.
Definition HCR_AMO : Z := Z.shiftl 1 5.
Definition HCR_IMO : Z := Z.shiftl 1 4.
Definition HCR_FMO : Z := Z.shiftl 1 3.
Definition HCR_PTW : Z := Z.shiftl 1 2.
Definition HCR_SWIO : Z := Z.shiftl 1 1.
Definition HCR_VM : Z := Z.shiftl 1 0.
Definition CPTR_EL2_TAM : Z := Z.shiftl 1 30.
Definition CPTR_EL2_VHE_TTA : Z := Z.shiftl 1 28.
Definition CPTR_EL2_VHE_FPEN_MASK : Z := Z.shiftl 0x3 20.
Definition MDCR_EL2_TTRF : Z := Z.shiftl 1 19.
Definition MDCR_EL2_TPMS : Z := Z.shiftl 1 14.
Definition MDCR_EL2_TDRA : Z := Z.shiftl 1 11.
Definition MDCR_EL2_TDOSA : Z := Z.shiftl 1 10.
Definition MDCR_EL2_TDA : Z := Z.shiftl 1 9.
Definition MDCR_EL2_TPM : Z := Z.shiftl 1 6.
Definition MDCR_EL2_TPMCR : Z := Z.shiftl 1 5.
Definition MDCR_EL2_HPMN_MASK : Z := 0x1f.
Definition RELM_CNTHCTL_VHE_EL1PCTEN : Z := Z.shiftl 1 10.
(** BSU[11:10]: the header uses this mask without defining it. *)
Definition HCR_BSU_MASK : Z := Z.shiftl 3 10.

Record relm_arm64_guest_ctrls := Ctrls { hcr_el2 : Z; cptr_el2 : Z; mdcr_el2 : Z; cnthctl_el2 : Z }.

(** [x |= m] and [x &= ~m] *)
Definition or_bits (m x : Z) : Z := Z.lor x m.
Definition andn_bits (m x : Z) : Z := Z.land x (u64 (Z.lnot m)).
Definition on_hcr (f : Z -> Z) (c : relm_arm64_guest_ctrls) : relm_arm64_guest_ctrls :=
  Ctrls (f (hcr_el2 c)) (cptr_el2 c) (mdcr_el2 c) (cnthctl_el2 c).
Definition on_cptr (f : Z -> Z) (c : relm_arm64_guest_ctrls) : relm_arm64_guest_ctrls :=
  Ctrls (hcr_el2 c) (f (cptr_el2 c)) (mdcr_el2 c) (cnthctl_el2 c).
Definition on_mdcr (f : Z -> Z) (c : relm_arm64_guest_ctrls) : relm_arm64_guest_ctrls :=
  Ctrls (hcr_el2 c) (cptr_el2 c) (f (mdcr_el2 c)) (cnthctl_el2 c).

Definition relm_arm64_enable_vhe := on_hcr (or_bits HCR_E2H).
Definition relm_arm64_set_trap_general_exceptions := on_hcr (or_bits HCR_TGE).
Definition relm_arm64_clear_trap_general_exceptions := on_hcr (andn_bits HCR_TGE).
Definition relm_arm64_set_execution_state_64bit := on_hcr (or_bits HCR_RW).
Definition relm_arm64_set_execution_state_32bit := on_hcr (andn_bits HCR_RW).
(** The definition of this one has lost its name in the header. *)
Definition relm_arm64_enable_stage2_mmu := on_hcr (or_bits HCR_VM).
Definition relm_arm64_disable_stage2_mmu := on_hcr (andn_bits HCR_VM).
Definition relm_arm64_route_physical_serror_to_el2 := on_hcr (or_bits HCR_AMO).
Definition relm_arm64_clear_physical_serror_routing := on_hcr (andn_bits HCR_AMO).
Definition relm_arm64_route_physical_irq_to_el2 := on_hcr (or_bits HCR_IMO).
Definition relm_arm64_clear_physical_irq_routing := on_hcr (andn_bits HCR_IMO).
Definition relm_arm64_route_physical_fiq_to_el2 := on_hcr (or_bits HCR_FMO).
Definition relm_arm64_clear_physical_fiq_routing := on_hcr (andn_bits HCR_FMO).
Definition relm_arm64_set_trap_wfi := on_hcr (or_bits HCR_TWI).
Definition relm_arm64_clear_trap_wfi := on_hcr (andn_bits HCR_TWI).
Definition relm_arm64_set_trap_wfe := on_hcr (or_bits HCR_TWE).
Definition relm_arm64_clear_trap_wfe := on_hcr (andn_bits HCR_TWE).
Definition relm_arm64_set_trap_smc := on_hcr (or_bits HCR_TSC).
Definition relm_arm64_clear_trap_smc := on_hcr (andn_bits HCR_TSC).
Definition relm_arm64_set_trap_id_group3 := on_hcr (or_bits HCR_TID3).
Definition relm_arm64_clear_trap_id_group3 := on_hcr (andn_bits HCR_TID3).
Definition relm_arm64_set_trap_id_group2 := on_hcr (or_bits HCR_TID2).
Definition relm_arm64_clear_trap_id_group2 := on_hcr (andn_bits HCR_TID2).
Definition relm_arm64_set_trap_id_group1 := on_hcr (or_bits HCR_TID1).
Definition relm_arm64_clear_trap_id_group1 := on_hcr (andn_bits HCR_TID1).
Definition relm_arm64_set_trap_auxiliary_control := on_hcr (or_bits HCR_TACR).
Definition relm_arm64_clear_trap_auxiliary_control := on_hcr (andn_bits HCR_TACR).
Definition relm_arm64_set_trap_implementation_defined := on_hcr (or_bits HCR_TIDCP).
Definition relm_arm64_clear_trap_implementation_defined := on_hcr (andn_bits HCR_TIDCP).
Definition relm_arm64_set_trap_cache_set_way := on_hcr (or_bits HCR_TSW).
Definition relm_arm64_clear_trap_cache_set_way := on_hcr (andn_bits HCR_TSW).
Definition relm_arm64_enable_set_way_invalidation_override := on_hcr (or_bits HCR_SWIO).
Definition relm_arm64_disable_set_way_invalidation_override := on_hcr (andn_bits HCR_SWIO).
Definition relm_arm64_set_trap_virtual_memory_writes := on_hcr (or_bits HCR_TVM).
Definition relm_arm64_clear_trap_virtual_memory_writes := on_hcr (andn_bits HCR_TVM).
Definition relm_arm64_enable_page_table_walk_protection := on_hcr (or_bits HCR_PTW).
Definition relm_arm64_disable_page_table_walk_protection := on_hcr (andn_bits HCR_PTW).
Definition relm_arm64_set_barrier_upgrade_inner_shareable :=
  on_hcr (fun x => Z.lor (Z.land x (u64 (Z.lnot HCR_BSU_MASK))) HCR_BSU_IS).
Definition relm_arm64_clear_barrier_upgrade := on_hcr (andn_bits HCR_BSU_MASK).
Definition relm_arm64_enable_force_broadcast := on_hcr (or_bits HCR_FB).
Definition relm_arm64_disable_force_broadcast := on_hcr (andn_bits HCR_FB).
Definition relm_arm64_set_trap_lor := on_hcr (or_bits HCR_TLOR).
Definition relm_arm64_clear_trap_lor := on_hcr (andn_bits HCR_TLOR).
Definition relm_arm64_set_trap_ras_error_records := on_hcr (or_bits HCR_TERR).
Definition relm_arm64_clear_trap_ras_error_records := on_hcr (andn_bits HCR_TERR).
Definition relm_arm64_enable_fp_simd :=
  on_cptr (fun x => Z.lor (Z.land x (u64 (Z.lnot CPTR_EL2_VHE_FPEN_MASK))) CPTR_EL2_VHE_FPEN_MASK).
Definition relm_arm64_disable_fp_simd := on_cptr (andn_bits CPTR_EL2_VHE_FPEN_MASK).
Definition relm_arm64_set_trap_trace_access := on_cptr (or_bits CPTR_EL2_VHE_TTA).
Definition relm_arm64_clear_trap_trace_access := on_cptr (andn_bits CPTR_EL2_VHE_TTA).
Definition relm_arm64_set_trap_activity_monitors := on_cptr (or_bits CPTR_EL2_TAM).
Definition relm_arm64_clear_trap_activity_monitors := on_cptr (andn_bits CPTR_EL2_TAM).
Definition relm_arm64_set_trap_debug_access := on_mdcr (or_bits MDCR_EL2_TDA).
Definition relm_arm64_clear_trap_debug_access := on_mdcr (andn_bits MDCR_EL2_TDA).
Definition relm_arm64_set_trap_debug_rom_address := on_mdcr (or_bits MDCR_EL2_TDRA).
Definition relm_arm64_clear_trap_debug_rom_address := on_mdcr (andn_bits MDCR_EL2_TDRA).
Definition relm_arm64_set_trap_debug_os_access := on_mdcr (or_bits MDCR_EL2_TDOSA).
Definition relm_arm64_clear_trap_debug_os_access := on_mdcr (andn_bits MDCR_EL2_TDOSA).
Definition relm_arm64_set_trap_pmu_access := on_mdcr (or_bits MDCR_EL2_TPM).
Definition relm_arm64_clear_trap_pmu_access := on_mdcr (andn_bits MDCR_EL2_TPM).
Definition relm_arm64_set_trap_pmu_control := on_mdcr (or_bits MDCR_EL2_TPMCR).
Definition relm_arm64_clear_trap_pmu_control := on_mdcr (andn_bits MDCR_EL2_TPMCR).

(** ** The guest's controls *)

Definition CurrentEl2 : Z := 8.
(** [FIELD_GET] of the four-bit identification field at [lo] *)
Definition id_field (lo v : Z) : Z := Z.land (Z.shiftr v lo) 0xF.
Definition ID_AA64MMFR1_EL1_LO (v : Z) : Z := id_field 16 v.
Definition ID_AA64PFR0_EL1_RAS (v : Z) : Z := id_field 28 v.
Definition ID_AA64PFR0_EL1_AMU (v : Z) : Z := id_field 44 v.
Definition ID_AA64DFR0_EL1_TraceVer (v : Z) : Z := id_field 4 v.

(** What the identification registers and the state of the CPU say. *)
Record cpu_ids := CpuIds { current_el : Z; host_hcr : Z; pfr0 : Z; dfr0 : Z; mmfr1 : Z }.

Definition when (b : bool) (f : relm_arm64_guest_ctrls -> relm_arm64_guest_ctrls) (c : relm_arm64_guest_ctrls)
    : relm_arm64_guest_ctrls := if b then f c else c.

Definition ctrls_steps (i : cpu_ids) : list (relm_arm64_guest_ctrls -> relm_arm64_guest_ctrls) :=
  [relm_arm64_enable_vhe; relm_arm64_clear_trap_general_exceptions; relm_arm64_set_execution_state_64bit;
   relm_arm64_enable_stage2_mmu;
   relm_arm64_route_physical_serror_to_el2; relm_arm64_route_physical_irq_to_el2;
   relm_arm64_route_physical_fiq_to_el2;
   relm_arm64_set_trap_wfi; relm_arm64_set_trap_wfe; relm_arm64_set_trap_smc;
   relm_arm64_set_trap_id_group3; relm_arm64_set_trap_id_group2; relm_arm64_set_trap_id_group1;
   relm_arm64_set_trap_auxiliary_control; relm_arm64_set_trap_implementation_defined;
   relm_arm64_set_trap_cache_set_way; relm_arm64_enable_set_way_invalidation_override;
   relm_arm64_set_trap_virtual_memory_writes;
   relm_arm64_enable_page_table_walk_protection; relm_arm64_set_barrier_upgrade_inner_shareable;
   relm_arm64_enable_force_broadcast;
   when (negb (ID_AA64MMFR1_EL1_LO (mmfr1 i) =? 0)) relm_arm64_set_trap_lor;
   when (negb (ID_AA64PFR0_EL1_RAS (pfr0 i) =? 0)) relm_arm64_set_trap_ras_error_records;
   relm_arm64_enable_fp_simd;
   when (negb (ID_AA64DFR0_EL1_TraceVer (dfr0 i) =? 0)) relm_arm64_set_trap_trace_access;
   when (negb (ID_AA64PFR0_EL1_AMU (pfr0 i) =? 0)) relm_arm64_set_trap_activity_monitors;
   relm_arm64_set_trap_debug_access; relm_arm64_set_trap_debug_rom_address; relm_arm64_set_trap_debug_os_access].

(** [ctrls] is what vcpu->arch.ctrls holds before. *)
Definition relm_setup_guest_ctrls_vhe (i : cpu_ids) (ctrls : relm_arm64_guest_ctrls)
    : Z * relm_arm64_guest_ctrls :=
  if negb (current_el i =? CurrentEl2) then (- EOPNOTSUPP, ctrls)
  else
    let both := Z.lor HCR_E2H HCR_TGE in
    if negb (Z.land (host_hcr i) both =? both) then (- EOPNOTSUPP, ctrls)
    else (0, fold_left (fun c f => f c) (ctrls_steps i) (Ctrls 0 0 0 0)).

(** ** The guest's first registers *)

Definition PSR_MODE_EL1h : Z := 5.
Definition PSR_D_BIT : Z := 0x200.
Definition PSR_A_BIT : Z := 0x100.
Definition PSR_I_BIT : Z := 0x80.
Definition PSR_F_BIT : Z := 0x40.

(** [x] are the registers x0 to x30. *)
Record guest_regs := Regs { x : list Z; pc : Z; pstate : Z }.

Definition relm_arm64_read_xreg (r : guest_regs) (reg : Z) : Z :=
  if (0 <=? reg) && (reg <=? 30) then default 0 (x r !! Z.to_nat reg) else 0.
Definition relm_arm64_write_xreg (r : guest_regs) (reg value : Z) : guest_regs :=
  if (0 <=? reg) && (reg <=? 30) then Regs (<[Z.to_nat reg := value]> (x r)) (pc r) (pstate r) else r.
Definition relm_arm64_write_wreg (r : guest_regs) (reg value : Z) : guest_regs :=
  relm_arm64_write_xreg r reg (u32 value).

(** [kernel_entry_ipa] and [dtb_ipa] are those of [vm->arch]. *)
Definition relm_setup_guest_state_aarch64 (kernel_entry_ipa dtb_ipa : Z) (r : guest_regs) : Z * guest_regs :=
  if kernel_entry_ipa =? 0 then (- EINVAL, r)
  else if dtb_ipa =? 0 then (- EINVAL, r)
  else
    let ps := Z.lor (Z.lor (Z.lor (Z.lor PSR_MODE_EL1h PSR_D_BIT) PSR_A_BIT) PSR_I_BIT) PSR_F_BIT in
    let r := relm_arm64_write_xreg r 0 dtb_ipa in
    let r := relm_arm64_write_xreg r 1 0 in
    let r := relm_arm64_write_xreg r 2 0 in
    let r := relm_arm64_write_xreg r 3 0 in
    (0, Regs (x r) kernel_entry_ipa ps).

(** ** System registers *)

(** Registers with a counterpart at EL2: [El1 b] is the register of EL1 (or EL0, for
    the timers), [El2 b] the one of EL2 that the EL1 name reaches from the host.
    [El2 CPACR] is CPTR_EL2 and [El2 CNTKCTL] is CNTHCTL_EL2. *)
Inductive banked :=
  | SCTLR | CPACR | TTBR0 | TTBR1 | TCR | MAIR | AMAIR | VBAR | CONTEXTIDR | CNTKCTL | ELR | SPSR | ESR | AFSR0
  | AFSR1 | FAR | CNTV_CVAL | CNTV_CTL | CNTP_CVAL | CNTP_CTL.
(** Registers that exist once. *)
Inductive plain := CSSELR_EL1 | TPIDR_EL1 | MDSCR_EL1 | TPIDR_EL0 | TPIDRRO_EL0 | PAR_EL1 | SP_EL1.
Inductive sysreg :=
  | El1 (b : banked) | El2 (b : banked) | Pl (p : plain)
  | HCR_EL2 | VTCR_EL2 | VTTBR_EL2 | VPIDR_EL2 | VMPIDR_EL2 | MDCR_EL2.

#[export] Instance banked_eq_dec : EqDecision banked.
Proof. solve_decision. Defined.
#[export] Instance plain_eq_dec : EqDecision plain.
Proof. solve_decision. Defined.
#[export] Instance sysreg_eq_dec : EqDecision sysreg.
Proof. solve_decision. Defined.

Definition sysregs : Type := sysreg -> Z.
Definition wrs (s : sysregs) (r : sysreg) (v : Z) : sysregs := fun q => if decide (q = r) then v else s q.

(** The register that the EL1 name reaches from EL2. *)
Definition here (s : sysregs) (b : banked) : sysreg := if Z.testbit (s HCR_EL2) 34 then El2 b else El1 b.

(** The control registers of the timers are kept in 32 bits. *)
Definition kept (b : banked) (v : Z) : Z :=
  match b with CNTV_CTL | CNTP_CTL => u32 v | _ => v end.

(** In the order of the source. *)
Definition el1_order : list banked :=
  [SCTLR; CPACR; TTBR0; TTBR1; TCR; MAIR; AMAIR; VBAR; CONTEXTIDR; CNTKCTL; ELR; SPSR; ESR; AFSR0; AFSR1; FAR].
Definition plain_order : list plain :=
  [CSSELR_EL1; TPIDR_EL1; MDSCR_EL1; TPIDR_EL0; TPIDRRO_EL0; PAR_EL1; SP_EL1].
Definition timer_order : list banked := [CNTV_CVAL; CNTV_CTL; CNTP_CVAL; CNTP_CTL].

Record relm_arm64_host_state := HostState { hs_hcr : Z; hs_vbar_el2 : Z; hs_reg : banked -> Z }.

(** What [vcpu->arch] keeps for the guest: the EL1 state with the timers, the
    registers that exist once, the identity of the virtual CPU and the controls. *)
Record arm_vcpu := ArmVcpu {
  av_el1 : banked -> Z; av_plain : plain -> Z; virtual_midr : Z; virtual_mpidr : Z;
  av_ctrls : relm_arm64_guest_ctrls
}.

Definition write_all (l : list (sysreg * Z)) (s : sysregs) : sysregs :=
  fold_left (fun s '(r, v) => wrs s r v) l s.

(** [vectors] is the address of relm_hyp_vectors. *)
Definition relm_arm64_guest_entry (vectors : Z) (v : arm_vcpu) (stage2 : option relm_stage2) (host : relm_arm64_host_state)
    (s : sysregs) : Z * relm_arm64_host_state * sysregs :=
  match stage2 with
  | None => (- EINVAL, host, s)
  | Some st =>
      match relm_stage2_encode_vttbr (Some (s2_geometry st)) (s2_root_pa st) (s2_vmid st) true with
      | inl ret => (ret, host, s)
      | inr vttbr =>
          let host := HostState (s HCR_EL2) (s (El2 VBAR)) (fun b => kept b (s (here s b))) in
          let s := write_all
            ([(VTCR_EL2, s2_vtcr st); (VTTBR_EL2, vttbr)] ++
             map (fun b => (El1 b, av_el1 v b)) el1_order ++
             map (fun p => (Pl p, av_plain v p)) plain_order ++
             map (fun b => (El1 b, av_el1 v b)) timer_order ++
             [(VPIDR_EL2, virtual_midr v); (VMPIDR_EL2, virtual_mpidr v);
              (El2 CPACR, cptr_el2 (av_ctrls v)); (MDCR_EL2, mdcr_el2 (av_ctrls v));
              (El2 CNTKCTL, cnthctl_el2 (av_ctrls v)); (El2 VBAR, vectors); (HCR_EL2, hcr_el2 (av_ctrls v))]) s in
          (0, host, s)
      end
  end.

Definition relm_arm64_guest_exit (v : arm_vcpu) (host : relm_arm64_host_state) (s : sysregs)
    : arm_vcpu * sysregs :=
  let s := wrs s HCR_EL2 (hs_hcr host) in
  let v := ArmVcpu (fun b => kept b (s (El1 b))) (fun p => s (Pl p)) (virtual_midr v) (virtual_mpidr v)
             (av_ctrls v) in
  let s := write_all [(El1 CNTV_CTL, 0); (El1 CNTP_CTL, 0); (El2 VBAR, hs_vbar_el2 host)] s in
  (v, write_all (map (fun b => (here s b, hs_reg host b)) (el1_order ++ timer_order)) s).

(** ** Running and leaving *)

Definition RELM_ARM64_EXIT_SYNC : Z := 1.
Definition RELM_ARM64_EXIT_IRQ : Z := 2.
Definition RELM_ARM64_EXIT_FIQ : Z := 3.
Definition RELM_ARM64_EXIT_SERROR : Z := 4.

(** [run_asm] is the guest: entered with the registers, it leaves a code and the
    registers.  The value is the code, the vCPU, the host's saved state, the
    registers and [exit_kind], when it is set. *)
Definition arm64_vcpu_run (vectors : Z) (run_asm : sysregs -> Z * sysregs) (v : arm_vcpu)
    (stage2 : option relm_stage2) (host : relm_arm64_host_state) (s : sysregs)
    : Z * arm_vcpu * relm_arm64_host_state * sysregs * option Z :=
  let '(ret, host, s) := relm_arm64_guest_entry vectors v stage2 host s in
  if negb (ret =? 0) then (ret, v, host, s, None)
  else
    let '(code, s) := run_asm s in
    let '(v, s) := relm_arm64_guest_exit v host s in
    if (code =? RELM_ARM64_EXIT_SYNC) || (code =? RELM_ARM64_EXIT_IRQ) || (code =? RELM_ARM64_EXIT_FIQ) ||
       (code =? RELM_ARM64_EXIT_SERROR)
    then (0, v, host, s, Some code)
    else (- EIO, v, host, s, None).

Definition arm64_handle_exit (st : vcpu_state) : Z :=
  match st with VCPU_STATE_ERROR => - EFAULT | _ => 0 end.
Definition arm64_vcpu_alloc (have_vcpu have_vm : bool) : Z :=
  if negb have_vcpu || negb have_vm then - EINVAL else 0.
Definition arm64_inject_irq (irq : Z) : Z := - EINVAL.

(** The value is the code, the controls, the registers and whether the vCPU is
    marked powered on and initialised. *)
Definition arm64_vcpu_init (i : cpu_ids) (kernel_entry_ipa dtb_ipa : Z) (c : relm_arm64_guest_ctrls) (r : guest_regs)
    : Z * relm_arm64_guest_ctrls * guest_regs * bool :=
  let '(ret, c) := relm_setup_guest_ctrls_vhe i c in
  if negb (ret =? 0) then (ret, c, r, false)
  else
    let '(ret, r) := relm_setup_guest_state_aarch64 kernel_entry_ipa dtb_ipa r in
    if negb (ret =? 0) then (ret, c, r, false) else (0, c, r, true).

(** ** Synchronous exits *)

Definition RELM_ARM64_ESR_EC_SHIFT : Z := 26.
Definition RELM_ARM64_ESR_EC_MASK : Z := Z.shiftl 0x3f RELM_ARM64_ESR_EC_SHIFT.
Definition RELM_ARM64_EC_UNKNOWN : Z := 0x00.
Definition RELM_ARM64_EC_WFX : Z := 0x01.
Definition RELM_ARM64_EC_FP_ASIMD : Z := 0x07.
Definition RELM_ARM64_EC_PAUTH : Z := 0x09.
Definition RELM_ARM64_EC_BTI : Z := 0x0d.
Definition RELM_ARM64_EC_ILLEGAL_STATE : Z := 0x0e.
Definition RELM_ARM64_EC_SVC64 : Z := 0x15.
Definition RELM_ARM64_EC_HVC64 : Z := 0x16.
Definition RELM_ARM64_EC_SMC64 : Z := 0x17.
Definition RELM_ARM64_EC_SYS64 : Z := 0x18.
Definition RELM_ARM64_EC_SVE : Z := 0x19.
Definition RELM_ARM64_EC_ERET : Z := 0x1a.
Definition RELM_ARM64_EC_FPAC : Z := 0x1c.
Definition RELM_ARM64_EC_SME : Z := 0x1d.
Definition RELM_ARM64_EC_IABT_LOWER : Z := 0x20.
Definition RELM_ARM64_EC_IABT_CURRENT : Z := 0x21.
Definition RELM_ARM64_EC_PC_ALIGNMENT : Z := 0x22.
Definition RELM_ARM64_EC_DABT_LOWER : Z := 0x24.
Definition RELM_ARM64_EC_DABT_CURRENT : Z := 0x25.
Definition RELM_ARM64_EC_SP_ALIGNMENT : Z := 0x26.
Definition RELM_ARM64_EC_FP_EXCEPTION64 : Z := 0x2c.
Definition RELM_ARM64_EC_SERROR : Z := 0x2f.
Definition RELM_ARM64_EC_BREAKPOINT_LOWER : Z := 0x30.
Definition RELM_ARM64_EC_BREAKPOINT_CURRENT : Z := 0x31.
Definition RELM_ARM64_EC_SINGLE_STEP_LOWER : Z := 0x32.
Definition RELM_ARM64_EC_SINGLE_STEP_CURRENT : Z := 0x33.
Definition RELM_ARM64_EC_WATCHPOINT_LOWER : Z := 0x34.
Definition RELM_ARM64_EC_WATCHPOINT_CURRENT : Z := 0x35.
Definition RELM_ARM64_EC_BRK64 : Z := 0x3c.

(** The handlers are declared and not yet written: the dispatch is the choice of one. *)
Inductive sync_handler :=
  | handle_unknown_exception | handle_wfx | handle_fp_simd_trap | handle_pauth_trap | handle_sve_trap
  | handle_sme_trap | handle_bti_exception | handle_illegal_execution_state | handle_eret_trap
  | handle_pauth_fault | handle_hvc | handle_smc | handle_sysreg | handle_instruction_abort
  | handle_data_abort | handle_pc_alignment | handle_sp_alignment | handle_fp_exception | handle_breakpoint
  | handle_single_step | handle_watchpoint | handle_brk | handle_unexpected_sync | handle_unhandled_sync.

#[export] Instance sync_handler_eq_dec : EqDecision sync_handler.
Proof. solve_decision. Defined.

Definition relm_arm64_dispatch_sync (esr_el2 : Z) : sync_handler :=
  let ec := u32 (Z.shiftr (Z.land esr_el2 RELM_ARM64_ESR_EC_MASK) RELM_ARM64_ESR_EC_SHIFT) in
  if ec =? RELM_ARM64_EC_UNKNOWN then handle_unknown_exception
  else if ec =? RELM_ARM64_EC_WFX then handle_wfx
  else if ec =? RELM_ARM64_EC_FP_ASIMD then handle_fp_simd_trap
  else if ec =? RELM_ARM64_EC_PAUTH then handle_pauth_trap
  else if ec =? RELM_ARM64_EC_SVE then handle_sve_trap
  else if ec =? RELM_ARM64_EC_SME then handle_sme_trap
  else if ec =? RELM_ARM64_EC_BTI then handle_bti_exception
  else if ec =? RELM_ARM64_EC_ILLEGAL_STATE then handle_illegal_execution_state
  else if ec =? RELM_ARM64_EC_ERET then handle_eret_trap
  else if ec =? RELM_ARM64_EC_FPAC then handle_pauth_fault
  else if ec =? RELM_ARM64_EC_HVC64 then handle_hvc
  else if ec =? RELM_ARM64_EC_SMC64 then handle_smc
  else if ec =? RELM_ARM64_EC_SYS64 then handle_sysreg
  else if ec =? RELM_ARM64_EC_IABT_LOWER then handle_instruction_abort
  else if ec =? RELM_ARM64_EC_DABT_LOWER then handle_data_abort
  else if ec =? RELM_ARM64_EC_PC_ALIGNMENT then handle_pc_alignment
  else if ec =? RELM_ARM64_EC_SP_ALIGNMENT then handle_sp_alignment
  else if ec =? RELM_ARM64_EC_FP_EXCEPTION64 then handle_fp_exception
  else if ec =? RELM_ARM64_EC_BREAKPOINT_LOWER then handle_breakpoint
  else if ec =? RELM_ARM64_EC_SINGLE_STEP_LOWER then handle_single_step
  else if ec =? RELM_ARM64_EC_WATCHPOINT_LOWER then handle_watchpoint
  else if ec =? RELM_ARM64_EC_BRK64 then handle_brk
  else if (ec =? RELM_ARM64_EC_SVC64) || (ec =? RELM_ARM64_EC_IABT_CURRENT) ||
          (ec =? RELM_ARM64_EC_DABT_CURRENT) || (ec =? RELM_ARM64_EC_BREAKPOINT_CURRENT) ||
          (ec =? RELM_ARM64_EC_SINGLE_STEP_CURRENT) || (ec =? RELM_ARM64_EC_WATCHPOINT_CURRENT) ||
          (ec =? RELM_ARM64_EC_SERROR) then handle_unexpected_sync
  else handle_unhandled_sync.

(** ** The controls *)

(** [w] is the word whose set bits are [l]. *)
Definition has_bits (l : list Z) (w : Z) : Prop := forall n, 0 <= n -> Z.testbit w n = bool_decide (n ∈ l).

Definition bits_check (l : list Z) (w : Z) : bool :=
  (0 <=? w) && (w <? 2 ^ 64) && forallb (fun n => n <? 64) l &&
  forallb (fun n => eqb (Z.testbit w n) (bool_decide (n ∈ l))) (map Z.of_nat (seq 0 64)).

Lemma bits_check_ok l w : bits_check l w = true -> has_bits l w.
Proof.
  unfold bits_check. intros [[[Hw Hw']%andb_prop Hl]%andb_prop Hc]%andb_prop n Hn.
  destruct (decide (n < 64)) as [Hlt|Hge].
  - rewrite forallb_forall in Hc. apply eqb_prop, Hc, in_map_iff.
    exists (Z.to_nat n). split; [lia|]. apply in_seq. lia.
  - rewrite (testbit_small w 64 n) by lia. symmetry. apply bool_decide_eq_false. intros Hin.
    rewrite forallb_forall in Hl. apply list_elem_of_In, Hl in Hin. lia.
Qed.

(** The host is at EL2 with the virtualization host extension in use. *)
Definition vhe_host (i : cpu_ids) : bool :=
  (current_el i =? CurrentEl2) && Z.testbit (host_hcr i) 34 && Z.testbit (host_hcr i) 27.

Lemma vhe_bits h : (Z.land h (Z.lor HCR_E2H HCR_TGE) =? Z.lor HCR_E2H HCR_TGE) = Z.testbit h 34 && Z.testbit h 27.
Proof. exact (land_two_bits h 34 27 ltac:(lia) ltac:(lia)). Qed.

Lemma setup_ctrls_eq i old : relm_setup_guest_ctrls_vhe i old =
  if vhe_host i then (0, fold_left (fun c f => f c) (ctrls_steps i) (Ctrls 0 0 0 0)) else (- EOPNOTSUPP, old).
Proof.
  unfold relm_setup_guest_ctrls_vhe, vhe_host. cbv zeta. rewrite vhe_bits.
  destruct (current_el i =? CurrentEl2); cbn [negb andb]; [|exact eq_refl].
  destruct (Z.testbit (host_hcr i) 34 && Z.testbit (host_hcr i) 27); cbn [negb]; exact eq_refl.
Qed.

Definition when_bit (f : Z) (n : Z) : list Z := if f =? 0 then [] else [n].

(** The steps as a function of the four features. *)
Lemma ctrls_steps_bits i :
  let c := fold_left (fun c f => f c) (ctrls_steps i) (Ctrls 0 0 0 0) in
  has_bits ([0; 1; 2; 3; 4; 5; 9; 10; 13; 14; 16; 17; 18; 19; 20; 21; 22; 26; 31; 34] ++
            when_bit (ID_AA64MMFR1_EL1_LO (mmfr1 i)) 35 ++ when_bit (ID_AA64PFR0_EL1_RAS (pfr0 i)) 36) (hcr_el2 c) /\
  has_bits ([20; 21] ++ when_bit (ID_AA64DFR0_EL1_TraceVer (dfr0 i)) 28 ++
            when_bit (ID_AA64PFR0_EL1_AMU (pfr0 i)) 30) (cptr_el2 c) /\
  has_bits [9; 10; 11] (mdcr_el2 c) /\ cnthctl_el2 c = 0.
Proof.
  unfold ctrls_steps, when_bit. cbv zeta.
  destruct (ID_AA64MMFR1_EL1_LO (mmfr1 i) =? 0), (ID_AA64PFR0_EL1_RAS (pfr0 i) =? 0),
    (ID_AA64DFR0_EL1_TraceVer (dfr0 i) =? 0), (ID_AA64PFR0_EL1_AMU (pfr0 i) =? 0).
  all: split; [apply bits_check_ok; vm_compute; exact eq_refl|].
  all: split; [apply bits_check_ok; vm_compute; exact eq_refl|].
  all: split; [apply bits_check_ok; vm_compute; exact eq_refl|vm_compute; exact eq_refl].
Qed.

(** The controls of a guest are set exactly when the host runs at EL2 with E2H and TGE
    set; otherwise the setup refuses with EOPNOTSUPP and leaves the old ones.  On success
    HCR_EL2 has stage 2 (VM), AArch64 (RW) and E2H on and TGE off, routes IRQ, FIQ and
    SError to EL2, traps WFI, WFE, SMC, the identification, auxiliary and
    implementation-defined registers, set/way maintenance and writes to the translation
    registers, and traps LOR and the error records where the CPU has them; CPTR_EL2
    leaves floating point to the guest and traps trace and the activity monitors where
    they exist; MDCR_EL2 traps the three groups of debug registers and nothing else. *)
Theorem guest_ctrls_correct (i : cpu_ids) (old : relm_arm64_guest_ctrls) :
  let '(ret, c) := relm_setup_guest_ctrls_vhe i old in
  (ret = if vhe_host i then 0 else - EOPNOTSUPP) /\
  if vhe_host i then
    has_bits ([0; 1; 2; 3; 4; 5; 9; 10; 13; 14; 16; 17; 18; 19; 20; 21; 22; 26; 31; 34] ++
              when_bit (ID_AA64MMFR1_EL1_LO (mmfr1 i)) 35 ++ when_bit (ID_AA64PFR0_EL1_RAS (pfr0 i)) 36)
             (hcr_el2 c) /\
    has_bits ([20; 21] ++ when_bit (ID_AA64DFR0_EL1_TraceVer (dfr0 i)) 28 ++
              when_bit (ID_AA64PFR0_EL1_AMU (pfr0 i)) 30) (cptr_el2 c) /\
    has_bits [9; 10; 11] (mdcr_el2 c) /\ cnthctl_el2 c = 0
  else c = old.
Proof.
  rewrite setup_ctrls_eq. pose proof (ctrls_steps_bits i) as Hs. cbv zeta in Hs. revert Hs.
  generalize (fold_left (fun c f => f c) (ctrls_steps i) (Ctrls 0 0 0 0)). intros c Hs.
  destruct (vhe_host i); (split; [exact eq_refl|]); [exact Hs|exact eq_refl].
Qed.

(** ** The switch between host and guest *)

Definition all_banked : list banked := el1_order ++ timer_order.

Lemma write_all_app l k s : write_all (l ++ k) s = write_all k (write_all l s).
Proof. apply fold_left_app. Qed.
Lemma write_all_other l s r : r ∉ l.*1 -> write_all l s r = s r.
Proof.
  revert s. induction l as [|[q v] l IH]; intros s Hr; [exact eq_refl|]. cbn [fmap list_fmap fst] in Hr.
  apply not_elem_of_cons in Hr as [Hq Hr]. change (write_all l (wrs s q v) r = s r). rewrite (IH _ Hr).
  unfold wrs. rewrite decide_False by assumption. exact eq_refl.
Qed.
(** Registers written once hold what was written. *)
Lemma write_all_family {A} (F : A -> sysreg) (f : A -> Z) l s a : Inj (=) (=) F -> NoDup l -> a ∈ l ->
  write_all (map (fun a => (F a, f a)) l) s (F a) = f a.
Proof.
  intros HF. revert s. induction l as [|b l IH]; intros s Hnd Ha; [by apply elem_of_nil in Ha|].
  apply NoDup_cons in Hnd as [Hb Hnd]. apply elem_of_cons in Ha as [-> |Ha]; [|exact (IH _ Hnd Ha)].
  change (write_all (map (fun a => (F a, f a)) l) (wrs s (F b) (f b)) (F b) = f b).
  rewrite write_all_other; [unfold wrs; rewrite decide_True by exact eq_refl; exact eq_refl|].
  intros Hin. apply list_elem_of_fmap in Hin as ([q w] & E & Hin). apply list_elem_of_In, in_map_iff in Hin as (c & Ec & Hc).
  injection Ec as <- <-. cbn in E. apply HF in E as ->. apply list_elem_of_In in Hc. exact (Hb Hc).
Qed.

#[export] Instance El1_inj : Inj (=) (=) El1.
Proof. intros a b E. by injection E. Qed.
#[export] Instance El2_inj : Inj (=) (=) El2.
Proof. intros a b E. by injection E. Qed.
#[export] Instance Pl_inj : Inj (=) (=) Pl.
Proof. intros a b E. by injection E. Qed.

Lemma all_banked_nodup : NoDup all_banked.
Proof. apply (bool_decide_unpack (NoDup all_banked)). vm_compute. exact I. Qed.
Lemma all_banked_in b : b ∈ all_banked.
Proof. apply (bool_decide_unpack (b ∈ all_banked)). destruct b; vm_compute; exact I. Qed.

(** What a successful entry leaves in the registers, by register. *)
Lemma entry_regs vectors v stage2 h s ret h' s' : relm_arm64_guest_entry vectors v stage2 h s = (ret, h', s') ->
  (ret = 0 /\ hs_hcr h' = s HCR_EL2 /\ hs_vbar_el2 h' = s (El2 VBAR) /\
   (forall b, hs_reg h' b = kept b (s (here s b))) /\
   (forall b, s' (El1 b) = av_el1 v b) /\ (forall p, s' (Pl p) = av_plain v p) /\
   s' HCR_EL2 = hcr_el2 (av_ctrls v) /\ s' (El2 VBAR) = vectors /\ s' (El2 CPACR) = cptr_el2 (av_ctrls v) /\
   s' MDCR_EL2 = mdcr_el2 (av_ctrls v) /\ s' VPIDR_EL2 = virtual_midr v /\ s' VMPIDR_EL2 = virtual_mpidr v /\
   exists st, stage2 = Some st /\ s' VTCR_EL2 = s2_vtcr st /\
     inr (s' VTTBR_EL2) = relm_stage2_encode_vttbr (Some (s2_geometry st)) (s2_root_pa st) (s2_vmid st) true) \/
  (ret < 0 /\ h' = h /\ s' = s).
Proof.
  unfold relm_arm64_guest_entry. destruct stage2 as [st|]; [|intros [= <- <- <-]; right; repeat split; unfold EINVAL; lia].
  destruct (relm_stage2_encode_vttbr (Some (s2_geometry st)) (s2_root_pa st) (s2_vmid st) true) as [e|vttbr] eqn:Ev.
  - intros [= <- <- <-]. right. split; [|split; exact eq_refl].
    revert Ev. unfold relm_stage2_encode_vttbr. repeat case_match; intros; simplify_eq; unfold EINVAL, ERANGE; lia.
  - intros [= <- <- <-]. left. split; [exact eq_refl|]. cbn [hs_hcr hs_vbar_el2 hs_reg].
    split; [exact eq_refl|]. split; [exact eq_refl|]. split; [intros b; exact eq_refl|].
    split; [intros []; exact eq_refl|]. split; [intros []; exact eq_refl|].
    do 6 (split; [exact eq_refl|]). exists st. split; [exact eq_refl|]. split; [exact eq_refl|]. exact (eq_sym Ev).
Qed.

Lemma exit_keeps v h s v' s' : relm_arm64_guest_exit v h s = (v', s') ->
  (forall b, av_el1 v' b = kept b (s (El1 b))) /\ (forall p, av_plain v' p = s (Pl p)) /\
  virtual_midr v' = virtual_midr v /\ virtual_mpidr v' = virtual_mpidr v /\ av_ctrls v' = av_ctrls v.
Proof. unfold relm_arm64_guest_exit. cbv zeta. intros [= <- <-]. repeat split. Qed.

(** From a host with E2H set an exit writes the EL2 registers. *)
Lemma exit_restores v h s v' s' : Z.testbit (hs_hcr h) 34 = true -> relm_arm64_guest_exit v h s = (v', s') ->
  s' HCR_EL2 = hs_hcr h /\ (forall b, s' (El2 b) = hs_reg h b) /\ s' (El1 CNTV_CTL) = 0 /\ s' (El1 CNTP_CTL) = 0 /\
  (forall p, s' (Pl p) = s (Pl p)) /\ s' MDCR_EL2 = s MDCR_EL2 /\ s' VTTBR_EL2 = s VTTBR_EL2 /\
  s' VTCR_EL2 = s VTCR_EL2 /\ s' VPIDR_EL2 = s VPIDR_EL2 /\ s' VMPIDR_EL2 = s VMPIDR_EL2.
Proof.
  intros Hb. unfold relm_arm64_guest_exit. cbv zeta. intros E. apply pair_eq in E as [_ <-]. fold all_banked.
  set (s0 := write_all _ (wrs s HCR_EL2 (hs_hcr h))).
  assert (map (fun b => (here s0 b, hs_reg h b)) all_banked = map (fun b => (El2 b, hs_reg h b)) all_banked) as ->.
  { apply map_ext. intros b. f_equal. unfold here. change (s0 HCR_EL2) with (hs_hcr h). by rewrite Hb. }
  assert (forall r, (forall b, r <> El2 b) ->
    write_all (map (fun b => (El2 b, hs_reg h b)) all_banked) s0 r = s0 r) as Hoth.
  { intros r Hr. apply write_all_other. intros Hin. apply list_elem_of_fmap in Hin as ([q w] & -> & Hin).
    apply list_elem_of_In, in_map_iff in Hin as (b & E & _). injection E as <- _. exact (Hr b eq_refl). }
  split; [rewrite Hoth by discriminate; exact eq_refl|].
  split; [intros b; apply (write_all_family El2); [exact _|exact all_banked_nodup|exact (all_banked_in b)]|].
  do 2 (split; [rewrite Hoth by discriminate; exact eq_refl|]).
  split; [intros p; rewrite Hoth by discriminate; exact eq_refl|].
  repeat split; rewrite Hoth by discriminate; exact eq_refl.
Qed.

(** C12. Whatever the guest does to the system registers, and whatever way the run ends, the
    host gets its own HCR_EL2 and every banked register of EL2 back as they were,
    the timers included, and after a guest was entered the guest's two timers are off,
    so that none of its deadlines interrupts the host. *)
Theorem host_restored (vectors : Z) (run_asm : sysregs -> Z * sysregs) (v : arm_vcpu) (stage2 : option relm_stage2)
    (host : relm_arm64_host_state) (s : sysregs) (ret : Z) (v' : arm_vcpu) (host' : relm_arm64_host_state)
    (s' : sysregs) (kind : option Z)
    (Hvhe : Z.testbit (s HCR_EL2) 34 = true)
    (Htimers : forall b, kept b (s (El2 b)) = s (El2 b))
    (Hrun : arm64_vcpu_run vectors run_asm v stage2 host s = (ret, v', host', s', kind)) :
  s' HCR_EL2 = s HCR_EL2 /\ (forall b, s' (El2 b) = s (El2 b)) /\
  (s' (El1 CNTV_CTL) = 0 /\ s' (El1 CNTP_CTL) = 0 \/ ret < 0 /\ s' = s /\ v' = v) /\
  (ret = 0 <-> exists k, kind = Some k /\ 1 <= k <= 4).
Proof.
  unfold arm64_vcpu_run in Hrun.
  destruct (relm_arm64_guest_entry vectors v stage2 host s) as [[r h] s1] eqn:En.
  destruct (entry_regs _ _ _ _ _ _ _ _ En) as [(-> & Hh & _ & Hreg & _)|(Hneg & -> & ->)].
  - cbn [Z.eqb negb] in Hrun. destruct (run_asm s1) as [code s2] eqn:Er.
    destruct (relm_arm64_guest_exit v h s2) as [v2 s3] eqn:Ex.
    assert (Z.testbit (hs_hcr h) 34 = true) as Hb by (rewrite Hh; exact Hvhe).
    destruct (exit_restores _ _ _ _ _ Hb Ex) as (E1 & E2 & E3 & E4 & _).
    assert (forall b, s3 (El2 b) = s (El2 b)) as Hel2.
    { intros b. rewrite E2, Hreg. unfold here. rewrite Hvhe. apply Htimers. }
    destruct (_ || _) eqn:Ek in Hrun; injection Hrun as <- <- <- <- <-.
    + split; [by rewrite E1|]. split; [exact Hel2|]. split; [left; split; assumption|].
      split; [|done]. intros _. exists code. split; [exact eq_refl|].
      unfold RELM_ARM64_EXIT_SYNC, RELM_ARM64_EXIT_IRQ, RELM_ARM64_EXIT_FIQ, RELM_ARM64_EXIT_SERROR in Ek. lia.
    + split; [by rewrite E1|]. split; [exact Hel2|]. split; [left; split; assumption|].
      split; [unfold EIO; lia|intros (k & Hk & _); discriminate Hk].
  - assert (r =? 0 = false) as Hr by lia. rewrite Hr in Hrun. cbn [negb] in Hrun. injection Hrun as <- <- <- <- <-.
    split; [exact eq_refl|]. split; [intros b; exact eq_refl|]. split; [right; repeat split; assumption|].
    split; [lia|intros (k & Hk & _); discriminate Hk].
Qed.

(** C27. A guest resumes with the system registers it left with: what an exit saves is what
    the next entry loads, whichever host runs in between and whatever it leaves in
    the registers. *)
Theorem guest_resumes (vectors : Z) (v v' : arm_vcpu) (host host1 host2 : relm_arm64_host_state)
    (stage2 : option relm_stage2) (left_with after_exit any_host resumed : sysregs)
    (Hexit : relm_arm64_guest_exit v host left_with = (v', after_exit))
    (Hentry : relm_arm64_guest_entry vectors v' stage2 host1 any_host = (0, host2, resumed)) :
  (forall b, resumed (El1 b) = kept b (left_with (El1 b))) /\
  (forall p, resumed (Pl p) = left_with (Pl p)) /\
  resumed HCR_EL2 = hcr_el2 (av_ctrls v) /\ resumed (El2 CPACR) = cptr_el2 (av_ctrls v) /\
  resumed MDCR_EL2 = mdcr_el2 (av_ctrls v) /\
  resumed VPIDR_EL2 = virtual_midr v /\ resumed VMPIDR_EL2 = virtual_mpidr v.
Proof.
  destruct (exit_keeps _ _ _ _ _ Hexit) as (K1 & K2 & K3 & K4 & K5).
  destruct (entry_regs _ _ _ _ _ _ _ _ Hentry) as [(_ & _ & _ & _ & H1 & H2 & H3 & _ & H4 & H5 & H6 & H7 & _)|(Hneg & _)];
    [|lia].
  split; [intros b; by rewrite H1|]. split; [intros p; by rewrite H2|].
  rewrite H3, H4, H5, H6, H7, K3, K4, K5. repeat split.
Qed.

(** The registers that exist once, MDCR_EL2 and the stage 2 registers come back to the
    host with the guest's values: nothing saves or restores the host's. *)
Theorem host_singles_lost (vectors : Z) (v v' : arm_vcpu) (stage2 : option relm_stage2)
    (host host' : relm_arm64_host_state) (s entered after : sysregs)
    (Hvhe : Z.testbit (s HCR_EL2) 34 = true)
    (Hentry : relm_arm64_guest_entry vectors v stage2 host s = (0, host', entered))
    (Hexit : relm_arm64_guest_exit v host' entered = (v', after)) :
  (forall p, after (Pl p) = av_plain v p) /\ after MDCR_EL2 = mdcr_el2 (av_ctrls v) /\
  after VPIDR_EL2 = virtual_midr v /\ after VMPIDR_EL2 = virtual_mpidr v.
Proof.
  destruct (entry_regs _ _ _ _ _ _ _ _ Hentry) as [(_ & Hh & _ & _ & _ & H2 & _ & _ & _ & H5 & H6 & H7 & _)|(Hneg & _)];
    [|lia].
  rewrite <- Hh in Hvhe. destruct (exit_restores _ _ _ _ _ Hvhe Hexit) as (_ & _ & _ & _ & E1 & E2 & _ & _ & E5 & E6).
  split; [intros p; by rewrite E1|]. rewrite E2, E5, E6. repeat split; assumption.
Qed.

(** ** Dispatch, registers and the first state *)

(** The exception class is bits 31 to 26 of the syndrome. *)
Definition ec_of (esr : Z) : Z := Z.shiftr esr 26 mod 64.

Lemma dispatch_ec esr : relm_arm64_dispatch_sync esr = relm_arm64_dispatch_sync (Z.shiftl (ec_of esr) 26).
Proof.
  assert (Z.shiftr (Z.land esr RELM_ARM64_ESR_EC_MASK) RELM_ARM64_ESR_EC_SHIFT =
          Z.shiftr (Z.land (Z.shiftl (ec_of esr) 26) RELM_ARM64_ESR_EC_MASK) RELM_ARM64_ESR_EC_SHIFT) as E.
  { unfold RELM_ARM64_ESR_EC_MASK, RELM_ARM64_ESR_EC_SHIFT, ec_of. rewrite !Z.shiftr_land.
    change (Z.shiftr (Z.shiftl 63 26) 26) with (2 ^ 6 - 1). rewrite Z.shiftr_shiftl_l by lia. rewrite !land_ones_mod by lia.
    change (2 ^ 6) with 64. rewrite Z.sub_diag, Z.shiftl_0_r, Z.mod_mod by lia. exact eq_refl. }
  unfold relm_arm64_dispatch_sync. rewrite E. exact eq_refl.
Qed.

Lemma ec_cases (P : Z -> Prop) : Forall P (map Z.of_nat (seq 0 64)) -> forall esr, P (ec_of esr).
Proof.
  intros H esr. rewrite Forall_forall in H. apply H, list_elem_of_In, in_map_iff. exists (Z.to_nat (ec_of esr)).
  pose proof (Z.mod_pos_bound (Z.shiftr esr 26) 64 eq_refl) as Hb. fold (ec_of esr) in Hb.
  split; [lia|]. apply in_seq. lia.
Qed.

(** The classes that a guest exit never has: a call to guest EL1 and faults of EL2. *)
Definition unexpected_classes : list Z :=
  [RELM_ARM64_EC_SVC64; RELM_ARM64_EC_IABT_CURRENT; RELM_ARM64_EC_DABT_CURRENT; RELM_ARM64_EC_SERROR;
   RELM_ARM64_EC_BREAKPOINT_CURRENT; RELM_ARM64_EC_SINGLE_STEP_CURRENT; RELM_ARM64_EC_WATCHPOINT_CURRENT].

Definition class_ok (ec : Z) : bool :=
  let h := relm_arm64_dispatch_sync (Z.shiftl ec 26) in
  bool_decide (h = handle_unexpected_sync <-> ec ∈ unexpected_classes) &&
  forallb (fun ec' => bool_decide (h = relm_arm64_dispatch_sync (Z.shiftl ec' 26) ->
                                    h = handle_unexpected_sync \/ h = handle_unhandled_sync \/ ec = ec'))
          (map Z.of_nat (seq 0 64)).

Lemma all_classes_ok : Forall (fun ec => class_ok ec = true) (map Z.of_nat (seq 0 64)).
Proof. apply (bool_decide_unpack _). vm_compute. exact I. Qed.

(** The dispatch looks at the class only; the classes that mean a fault of the
    hypervisor itself, a system error or a call to the guest's kernel reach no
    emulation handler, and every emulation handler serves one class. *)
Theorem dispatch_sync_correct (esr esr' : Z) :
  (ec_of esr = ec_of esr' -> relm_arm64_dispatch_sync esr = relm_arm64_dispatch_sync esr') /\
  (relm_arm64_dispatch_sync esr = handle_unexpected_sync <-> ec_of esr ∈ unexpected_classes) /\
  (relm_arm64_dispatch_sync esr = relm_arm64_dispatch_sync esr' ->
   relm_arm64_dispatch_sync esr = handle_unexpected_sync \/ relm_arm64_dispatch_sync esr = handle_unhandled_sync \/
   ec_of esr = ec_of esr').
Proof.
  rewrite (dispatch_ec esr), (dispatch_ec esr'). split; [intros ->; exact eq_refl|].
  pose proof (ec_cases _ all_classes_ok esr) as H. cbn beta in H. unfold class_ok in H. cbv zeta in H.
  apply andb_prop in H as [Hu Hi]. apply bool_decide_eq_true in Hu. split; [exact Hu|].
  rewrite forallb_forall in Hi.
  pose proof (ec_cases (fun e => e ∈ map Z.of_nat (seq 0 64))) as Hall. cbn beta in Hall.
  assert (ec_of esr' ∈ map Z.of_nat (seq 0 64)) as Hin by (apply Hall; apply Forall_forall; auto).
  apply list_elem_of_In in Hin. exact (bool_decide_eq_true_1 _ (Hi _ Hin)).
Qed.

(** A register that is written is read back; 31 and beyond read as zero and are not
    written. *)
Theorem xreg_read_write (r : guest_regs) (reg reg' value : Z) (Hlen : length (x r) = 31%nat) (Hreg : 0 <= reg) :
  relm_arm64_read_xreg (relm_arm64_write_xreg r reg value) reg' =
    (if (reg =? reg') && (reg <=? 30) then value else relm_arm64_read_xreg r reg') /\
  length (x (relm_arm64_write_xreg r reg value)) = 31%nat.
Proof.
  unfold relm_arm64_read_xreg, relm_arm64_write_xreg.
  destruct ((0 <=? reg) && (reg <=? 30)) eqn:Ew; cbn [x].
  - split; [|by rewrite length_insert].
    destruct ((0 <=? reg') && (reg' <=? 30)) eqn:Er.
    + destruct (Z.eqb_spec reg reg') as [<- |Hne]; cbn [andb].
      * replace (reg <=? 30) with true by lia. rewrite list_lookup_insert_eq by lia. exact eq_refl.
      * rewrite list_lookup_insert_ne by lia. exact eq_refl.
    + destruct (Z.eqb_spec reg reg'); cbn [andb]; [lia|exact eq_refl].
  - split; [|exact Hlen]. replace ((reg =? reg') && (reg <=? 30)) with false by lia. exact eq_refl.
Qed.

(** A vCPU is powered on exactly when the host can run guests and the loader has set the
    entry point and the device tree; it then starts at the entry with the device tree
    in x0, x1 to x3 zero, at EL1 with every exception masked. *)
Theorem vcpu_init_correct (i : cpu_ids) (entry dtb : Z) (c : relm_arm64_guest_ctrls) (r : guest_regs)
    (Hlen : length (x r) = 31%nat) :
  let '(ret, c', r', on) := arm64_vcpu_init i entry dtb c r in
  on = (vhe_host i && negb (entry =? 0) && negb (dtb =? 0)) /\ (ret = 0 <-> on = true) /\
  if on then pc r' = entry /\ take 4 (x r') = [dtb; 0; 0; 0] /\ drop 4 (x r') = drop 4 (x r) /\ pstate r' = 0x3c5
  else r' = r.
Proof.
  unfold arm64_vcpu_init. rewrite setup_ctrls_eq.
  generalize (fold_left (fun c f => f c) (ctrls_steps i) (Ctrls 0 0 0 0)). intros c1.
  destruct (vhe_host i); [|repeat split; discriminate]. cbn [Z.eqb negb andb]. unfold relm_setup_guest_state_aarch64.
  destruct (entry =? 0); [repeat split; discriminate|]. destruct (dtb =? 0); [repeat split; discriminate|].
  cbv zeta. cbn [Z.eqb negb andb]. split; [exact eq_refl|]. split; [split; reflexivity|]. cbn [pc pstate x].
  split; [exact eq_refl|].
  destruct r as [xs p ps]. cbn [x] in *. destruct xs as [|x0 [|x1 [|x2 [|x3 xs]]]]; try discriminate Hlen.
  repeat split.
Qed.

(** ** A guest that changes registers and leaves with a trap *)

Module Arm64Demo.

Definition st : relm_stage2 := Stage2Ctx 4096 4096 (Geometry 39 48 1 16) 0x800D3559 7 (PtStats 0 0 0 0).
Definition ctrls : relm_arm64_guest_ctrls :=
  (relm_setup_guest_ctrls_vhe (CpuIds 8 (Z.lor HCR_E2H HCR_TGE) 0 0 0) (Ctrls 0 0 0 0)).2.
Definition guest : arm_vcpu := ArmVcpu (fun _ => 3) (fun _ => 4) 0x410FD0C0 0x80000000 ctrls.
Definition no_host : relm_arm64_host_state := HostState 0 0 (fun _ => 0).
(** The host's registers: E2H and TGE set, 1 elsewhere. *)
Definition host_regs : sysregs := fun r => match r with HCR_EL2 => Z.lor HCR_E2H HCR_TGE | _ => 1 end.
(** It sets its vectors and its thread pointer, then makes a call. *)
Definition run (s : sysregs) : Z * sysregs := (RELM_ARM64_EXIT_SYNC, wrs (wrs s (El1 VBAR) 0x8000) (Pl TPIDR_EL1) 0x77).
Definition vectors : Z := 0xFFFF000000080000.

Definition entered : relm_arm64_host_state * sysregs :=
  let '(_, h, s) := relm_arm64_guest_entry vectors guest (Some st) no_host host_regs in (h, s).
Definition left : arm_vcpu * sysregs := relm_arm64_guest_exit guest entered.1 (run entered.2).2.
Definition resumed : relm_arm64_host_state * sysregs :=
  let '(_, h, s) := relm_arm64_guest_entry vectors left.1 (Some st) entered.1 left.2 in (h, s).

Lemma host_restored_witness : exists v' h' s' k,
  arm64_vcpu_run vectors run guest (Some st) no_host host_regs = (0, v', h', s', k) /\
  s' HCR_EL2 = Z.lor HCR_E2H HCR_TGE /\ (forall b, s' (El2 b) = 1) /\ s' (El1 CNTV_CTL) = 0.
Proof.
  destruct (arm64_vcpu_run vectors run guest (Some st) no_host host_regs) as [[[[r v'] h'] s'] k] eqn:E.
  assert (r = 0) as Hr by (change r with ((r, v', h', s', k).1.1.1.1); rewrite <- E; vm_compute; exact eq_refl).
  destruct (host_restored vectors run guest (Some st) no_host host_regs r v' h' s' k) as (H1 & H2 & H3 & _).
  - vm_compute. exact eq_refl.
  - intros b. destruct b; vm_compute; exact eq_refl.
  - exact E.
  - subst r. exists v', h', s', k. split; [exact eq_refl|]. split; [exact H1|]. split; [exact H2|].
    destruct H3 as [[H3 _]|[H3 _]]; [exact H3|lia].
Defined.

Lemma guest_resumes_witness : resumed.2 (El1 VBAR) = 0x8000 /\ resumed.2 (Pl TPIDR_EL1) = 0x77.
Proof.
  destruct (guest_resumes vectors guest left.1 entered.1 entered.1 resumed.1 (Some st) (run entered.2).2 left.2 left.2 resumed.2)
    as (H1 & H2 & _).
  - apply surjective_pairing.
  - unfold resumed. assert ((relm_arm64_guest_entry vectors left.1 (Some st) entered.1 left.2).1.1 = 0) as E
      by (vm_compute; exact eq_refl).
    destruct (relm_arm64_guest_entry vectors left.1 (Some st) entered.1 left.2) as [[r h] s]. cbn [fst snd] in *. by subst r.
  - rewrite H1, H2. split; vm_compute; exact eq_refl.
Defined.

(** The host's own thread pointer does not come back. *)
Example thread_pointer_lost : left.2 (Pl TPIDR_EL1) = 0x77 /\ host_regs (Pl TPIDR_EL1) = 1.
Proof. split; vm_compute; exact eq_refl. Qed.

End Arm64Demo.
