(* ===== verification/Module.v ===== *)
(** * The kernel module

    src/core/relm.c: loading the module brings up the architecture, a platform device, one
    VM with its IOMMU domain, its boot image and one vCPU, and runs it; a failure
    undoes the steps before it, and unloading takes everything down.

    The functions it calls are the subject of the other files; here they are the
    answers [A] they give, and a run is the list of calls it makes. *)
From S2P Require Import Prelude.

Inductive call :=
  | CArchInit | CPdevRegister | CCreateVm | CIommuInit | CBootLoad
  | CIommuMapRam | CAddVcpu | CRunVm
  | CStopVm | CPrintStats | CDestroyVm | CPdevUnregister | CArchExit.

#[export] Instance call_eq_dec : EqDecision call.
Proof. solve_decision. Defined.

(** The code each call answers with ([create_ok] is whether [relm_create_vm] returns a
    VM), and whether the VM has a statistics operation. *)
Record answers := Answers { code : call -> Z; create_ok : bool; has_print_stats : bool }.

(** Whether the static pointers are set. *)
Record globals := Globals { my_vm : bool; relm_pdev : bool }.

Section Run.
Context (A : answers).

Definition cleanup_arch (ret : Z) (tr : list call) : Z * globals * list call :=
  (ret, Globals false false, tr ++ [CArchExit]).
Definition cleanup_pdev (ret : Z) (tr : list call) : Z * globals * list call :=
  cleanup_arch ret (tr ++ [CPdevUnregister]).
Definition cleanup_vm (ret : Z) (tr : list call) : Z * globals * list call :=
  cleanup_pdev ret (tr ++ [CDestroyVm]).

(** A failing IOMMU is not fatal; [relm_arch_iommu_enabled] is whether it came up. *)
Definition relm_module_init : Z * globals * list call :=
  let ret := code A CArchInit in
  let tr := [CArchInit] in
  if negb (ret =? 0) then (ret, Globals false false, tr)
  else
  let ret := code A CPdevRegister in
  let tr := tr ++ [CPdevRegister] in
  if negb (ret =? 0) then cleanup_arch ret tr
  else
  let tr := tr ++ [CCreateVm] in
  if negb (create_ok A) then cleanup_pdev (- ENOMEM) tr
  else
  let iommu := code A CIommuInit =? 0 in
  let tr := tr ++ [CIommuInit] in
  let ret := code A CBootLoad in
  let tr := tr ++ [CBootLoad] in
  if negb (ret =? 0) then cleanup_vm ret tr
  else
  let tr := if iommu then tr ++ [CIommuMapRam] else tr in
  let ret := if iommu then code A CIommuMapRam else 0 in
  if negb (ret =? 0) then cleanup_vm ret tr
  else
  let ret := code A CAddVcpu in
  let tr := tr ++ [CAddVcpu] in
  if negb (ret =? 0) then cleanup_vm ret tr
  else
  let ret := code A CRunVm in
  let tr := tr ++ [CRunVm] in
  if negb (ret =? 0) then cleanup_vm ret tr
  else (0, Globals true true, tr).

Definition relm_module_exit (g : globals) : globals * list call :=
  let tr := if my_vm g then [CStopVm] ++ (if has_print_stats A then [CPrintStats] else []) ++ [CDestroyVm]
            else [] in
  let tr := if relm_pdev g then tr ++ [CPdevUnregister] else tr in
  (Globals false false, tr ++ [CArchExit]).

(** ** What is in use *)

Inductive resource := Arch | Pdev | Vm.
#[export] Instance resource_eq_dec : EqDecision resource.
Proof. solve_decision. Defined.

(** The stack of what the calls have taken, newest first; releasing what is not on top
    is [None]. *)
Definition effect (c : call) (held : list resource) : option (list resource) :=
  let take (ok : bool) r := Some (if ok then r :: held else held) in
  let drop r := match held with q :: held => if decide (q = r) then Some held else None | [] => None end in
  match c with
  | CArchInit => take (code A CArchInit =? 0) Arch
  | CPdevRegister => take (code A CPdevRegister =? 0) Pdev
  | CCreateVm => take (create_ok A) Vm
  | CDestroyVm => drop Vm
  | CPdevUnregister => drop Pdev
  | CArchExit => drop Arch
  | CBootLoad | CIommuInit | CIommuMapRam | CAddVcpu | CRunVm | CStopVm =>
      match held with Vm :: _ => Some held | _ => None end
  | CPrintStats => Some held
  end.
Fixpoint effects (tr : list call) (held : list resource) : option (list resource) :=
  match tr with
  | [] => Some held
  | c :: tr => match effect c held with Some held => effects tr held | None => None end
  end.

(** Loading either succeeds with the architecture, the device and the VM in use, or
    returns the code that stopped it with nothing in use; every release is of the last
    thing taken, and no call is made on a VM that is not there.  Unloading after a
    success leaves nothing. *)
Theorem module_balanced (ret : Z) (g : globals) (tr : list call)
    (Hcodes : forall c, code A c <= 0) (Hinit : relm_module_init = (ret, g, tr)) :
  if ret =? 0
  then effects tr [] = Some [Vm; Pdev; Arch] /\ g = Globals true true /\
       effects (tr ++ (relm_module_exit g).2) [] = Some [] /\ (relm_module_exit g).1 = Globals false false
  else ret < 0 /\ effects tr [] = Some [] /\ g = Globals false false.
Proof.
  revert Hinit. unfold relm_module_init, cleanup_vm, cleanup_pdev, cleanup_arch, relm_module_exit. cbv zeta.
  assert (forall c, code A c =? 0 = false -> code A c < 0) as Hneg by (intros c Hc; pose proof (Hcodes c); lia).
  destruct (code A CArchInit =? 0) eqn:E1; cbn [negb].
  2: { intros [= <- <- <-]. rewrite E1. pose proof (Hneg _ E1). cbn. rewrite E1. auto. }
  destruct (code A CPdevRegister =? 0) eqn:E2; cbn [negb].
  2: { intros [= <- <- <-]. rewrite E2. pose proof (Hneg _ E2). cbn. rewrite E1, E2. auto. }
  destruct (create_ok A) eqn:E3; cbn [negb].
  2: { intros [= <- <- <-]. cbn. rewrite E1, E2, E3. repeat split. }
  destruct (code A CBootLoad =? 0) eqn:E4; cbn [negb].
  2: { intros [= <- <- <-]. rewrite E4. pose proof (Hneg _ E4). cbn. rewrite E1, E2, E3. auto. }
  destruct (code A CIommuInit =? 0) eqn:E5.
  - destruct (code A CIommuMapRam =? 0) eqn:E6; cbn [negb].
    2: { intros [= <- <- <-]. rewrite E6. pose proof (Hneg _ E6). cbn. rewrite E1, E2, E3. auto. }
    destruct (code A CAddVcpu =? 0) eqn:E7; cbn [negb].
    2: { intros [= <- <- <-]. rewrite E7. pose proof (Hneg _ E7). cbn. rewrite E1, E2, E3. auto. }
    destruct (code A CRunVm =? 0) eqn:E8; cbn [negb].
    2: { intros [= <- <- <-]. rewrite E8. pose proof (Hneg _ E8). cbn. rewrite E1, E2, E3. auto. }
    intros [= <- <- <-]. cbn. rewrite E1, E2, E3. destruct (has_print_stats A); repeat split.
  - cbn [Z.eqb negb]. destruct (code A CAddVcpu =? 0) eqn:E7; cbn [negb].
    2: { intros [= <- <- <-]. rewrite E7. pose proof (Hneg _ E7). cbn. rewrite E1, E2, E3. auto. }
    destruct (code A CRunVm =? 0) eqn:E8; cbn [negb].
    2: { intros [= <- <- <-]. rewrite E8. pose proof (Hneg _ E8). cbn. rewrite E1, E2, E3. auto. }
    intros [= <- <- <-]. cbn. rewrite E1, E2, E3. destruct (has_print_stats A); repeat split.
Qed.

End Run.

(** ** One load *)
Module ModuleDemo.
Definition fine : answers := Answers (fun _ => 0) true true.

(** The vCPU cannot be added: three steps are undone. *)
Definition no_vcpu : answers := Answers (fun c => if decide (c = CAddVcpu) then - ENOMEM else 0) true true.

Lemma module_balanced_witness : exists g tr, relm_module_init no_vcpu = (- ENOMEM, g, tr) /\ effects no_vcpu tr [] = Some [].
Proof.
  destruct (relm_module_init no_vcpu) as [[r g] tr] eqn:E.
  assert (r = - ENOMEM) as -> by (change r with (r, g, tr).1.1; rewrite <- E; vm_compute; exact eq_refl).
  exists g, tr. split; [exact eq_refl|].
  apply (module_balanced no_vcpu (- ENOMEM) g tr).
  - intros []; vm_compute; discriminate.
  - exact E.
Defined.

(** No call ever gives the IOMMU domain back. *)
Example load_and_unload : (relm_module_init fine).2 ++ (relm_module_exit fine (relm_module_init fine).1.2).2 =
  [CArchInit; CPdevRegister; CCreateVm; CIommuInit; CBootLoad;
   CIommuMapRam; CAddVcpu; CRunVm; CStopVm; CPrintStats; CDestroyVm;
   CPdevUnregister; CArchExit].
Proof. vm_compute. exact eq_refl. Qed.
End ModuleDemo.
