(* ===== verification/Seabios.v ===== *)
(** * The SeaBIOS loader

    src/firmware/seabios.c: the firmware image is copied into a block of 32 pages that is
    mapped, read-only, at the top of the first 4 GiB, where a CPU starts after reset;
    then the fw_cfg device is filled.

    [fw] is what [request_firmware] returns, an error or the bytes of the file; [rom] the
    block [__get_free_pages] returns, [None] for NULL.  The block's contents are the
    bytes last copied into it.  The loader writes through vm->fw_data, taken as set. *)
From S2P Require Import Prelude HostMem MemOps Ept E820 FwCfg.

Definition SEABIOS_SIZE : Z := 128 * 1024.
Definition SEABIOS_ROM_TOP_GPA : Z := 0x100000000 - SEABIOS_SIZE.
Definition SEABIOS_EPT_FLAGS : Z := 0x5.

(** [rom_bytes] are the contents of the block at [seabios_hva]. *)
Record relm_firmware_data := FwData {
  seabios_hva : Z; seabios_hpa : Z; rom_bytes : list Z; fw_cfg : fw_cfg_device
}.

Section Load.
Context {PA : PageAlloc}.

(** [for (offset = 0; offset < SEABIOS_SIZE; offset += PAGE_SIZE)]; [n] pages are left. *)
Fixpoint rom_loop (n : nat) (i : Z) (h : host) (ept : option ept_context) (seabios_pa : Z)
    : Z * host * option ept_context :=
  match n with
  | O => (0, h, ept)
  | S n =>
      match relm_ept_map_page h ept (u64 (SEABIOS_ROM_TOP_GPA + i * 4096)) (u64 (seabios_pa + i * 4096)) SEABIOS_EPT_FLAGS with
      | (ret, h, ept) => if negb (ret =? 0) then (ret, h, ept) else rom_loop n (i + 1) h ept seabios_pa
      end
  end.

Definition relm_seabios_load (fw : Z + list Z) (rom : option Z) (d : relm_firmware_data) (h : host)
    (ept : option ept_context) : Z * relm_firmware_data * host * option ept_context :=
  match fw with
  | inl ret => (ret, d, h, ept)
  | inr data =>
      if negb (Z.of_nat (length data) =? SEABIOS_SIZE) then (- EINVAL, d, h, ept)
      else match rom with
      | None => (- ENOMEM, d, h, ept)
      | Some seabios_va =>
          let d := FwData seabios_va seabios_va data (fw_cfg d) in
          let '(ret, h, ept) := rom_loop (Z.to_nat (SEABIOS_SIZE / 4096)) 0 h ept seabios_va in
          (ret, d, h, ept)
      end
  end.

(** The value is the structure and the block given back, if any. *)
Definition relm_seabios_unload (d : relm_firmware_data) : relm_firmware_data * option Z :=
  if negb (seabios_hva d =? 0) then (FwData 0 0 [] (fw_cfg d), Some (seabios_hva d)) else (d, None).

(** [km], [kz], [ram] and [online_vcpus] are what [relm_fw_cfg_setup] uses of the kernel and
    of the VM.  The last value is the block given back, if any. *)
Definition relm_seabios_setup (fw : Z + list Z) (rom : option Z) (km : Z -> bool) (kz : bool) (ram online_vcpus : Z)
    (d : relm_firmware_data) (h : host) (ept : option ept_context)
    : Z * relm_firmware_data * host * option ept_context * option Z :=
  let '(ret, d, h, ept) := relm_seabios_load fw rom d h ept in
  if negb (ret =? 0) then (ret, d, h, ept, None)
  else
    let '(ret, f) := relm_fw_cfg_setup km kz (fw_cfg d) ram online_vcpus in
    let d := FwData (seabios_hva d) (seabios_hpa d) (rom_bytes d) f in
    if negb (ret =? 0) then let '(d, freed) := relm_seabios_unload d in (ret, d, h, ept, freed)
    else (0, d, h, ept, None).

End Load.

(** ** Correctness *)
Section Correct.
Context {PA : PageAlloc} {PAO : PageAllocOk PA}.

Lemma map_page_code h ept gpa hpa flags : (relm_ept_map_page h ept gpa hpa flags).1.1 <= 0.
Proof.
  unfold relm_ept_map_page. repeat (case_match; cbn [fst]; try (unfold EINVAL, ENOMEM; lia)).
Qed.

Lemma rom_loop_eq n i h ept pa : rom_loop n i h ept pa =
  range_loop (fun h c gpa hpa => relm_ept_map_page h c gpa hpa SEABIOS_EPT_FLAGS) (fun _ => false) n i h ept
    SEABIOS_ROM_TOP_GPA pa.
Proof.
  revert i h ept. induction n as [|n IH]; intros i h ept; [exact eq_refl|]. cbn [rom_loop range_loop].
  pose proof (map_page_code h ept (u64 (SEABIOS_ROM_TOP_GPA + i * 4096)) (u64 (pa + i * 4096)) SEABIOS_EPT_FLAGS) as Hc.
  destruct (relm_ept_map_page h ept _ _ _) as [[r h1] o1]. cbn [fst] in Hc.
  replace (negb (r =? 0)) with (r <? 0) by lia. destruct (r <? 0); [exact eq_refl|apply IH].
Qed.

Lemma rom_loop_maps h ept T p r h' o : ept_ok h ept T -> p mod 4096 = 0 -> 0 < p -> p + SEABIOS_SIZE <= 2 ^ 52 ->
  rom_loop (Z.to_nat (SEABIOS_SIZE / 4096)) 0 h (Some ept) p = (r, h', o) ->
  exists ept' T' done_, o = Some ept' /\ ept_ok h' ept' T' /\
    (r = 0 /\ done_ = SEABIOS_SIZE \/ r = - ENOMEM /\ 0 <= done_ < SEABIOS_SIZE) /\
    forall gpa, 0 <= gpa < 2 ^ 48 -> ept_translate h' ept' gpa =
      if decide (SEABIOS_ROM_TOP_GPA <= gpa < SEABIOS_ROM_TOP_GPA + done_)
      then Some (p + (gpa - SEABIOS_ROM_TOP_GPA)) else ept_translate h ept gpa.
Proof.
  intros Hok Hp Hp0 Hps E. rewrite rom_loop_eq in E. unfold SEABIOS_SIZE in *.
  apply (range_loop_spec _ _ _ _ (ept_map_promise SEABIOS_EPT_FLAGS eq_refl eq_refl) _ _ _ _ T) in E;
    [|exact Hok|exact (ept_ok_live _ _ _ Hok)|reflexivity|exact Hp|lia|vm_compute; discriminate|lia|vm_compute; discriminate|
      change (Z.of_nat (Z.to_nat (128 * 1024 / 4096))) with 32; lia].
  change (Z.of_nat (Z.to_nat (128 * 1024 / 4096))) with 32 in E.
  destruct E as (ept' & T' & k & -> & Ok' & _ & _ & _ & _ & K & Et).
  exists ept', T', (k * 4096). split; [exact eq_refl|]. split; [exact Ok'|].
  split; [destruct K as [[-> ->]|[-> K]]; [left|right]; (split; [exact eq_refl|lia])|].
  intros gpa Hgpa. rewrite Et by exact Hgpa. unfold range_done. apply decide_ext. rewrite Z.mul_0_l, Z.add_0_r. tauto.
Qed.

(** Loading the firmware into a well-formed EPT context: an error of the firmware
    loader, a file of another size or a missing block is returned with nothing changed;
    otherwise the image is the block's contents and every guest address of the 128 KiB
    below 4 GiB translates to its byte of the block, the rest as before, the reset
    vector 0xFFFFFFF0 being 16 bytes below the block's end.  When a table page cannot be
    had, ENOMEM, the same holds of the pages mapped so far. *)
Theorem seabios_load_correct (fw : Z + list Z) (rom : option Z) (d : relm_firmware_data) (h : host) (ept : ept_context)
    (T : gset Z) (ret : Z) (d' : relm_firmware_data) (h' : host) (o : option ept_context)
    (Hok : ept_ok h ept T)
    (Hrom : forall p, rom = Some p -> p mod 4096 = 0 /\ 0 < p /\ p + SEABIOS_SIZE <= 2 ^ 52)
    (Hload : relm_seabios_load fw rom d h (Some ept) = (ret, d', h', o)) :
  match fw, rom with
  | inl e, _ => ret = e /\ d' = d /\ h' = h /\ o = Some ept
  | inr data, None => (ret = - EINVAL \/ ret = - ENOMEM) /\ d' = d /\ h' = h /\ o = Some ept
  | inr data, Some p =>
      if Z.of_nat (length data) =? SEABIOS_SIZE then
        exists ept' T' done_, o = Some ept' /\ ept_ok h' ept' T' /\ d' = FwData p p data (fw_cfg d) /\
          (ret = 0 /\ done_ = SEABIOS_SIZE \/ ret = - ENOMEM /\ 0 <= done_ < SEABIOS_SIZE) /\
          forall gpa, 0 <= gpa < 2 ^ 48 -> ept_translate h' ept' gpa =
            if decide (SEABIOS_ROM_TOP_GPA <= gpa < SEABIOS_ROM_TOP_GPA + done_)
            then Some (p + (gpa - SEABIOS_ROM_TOP_GPA)) else ept_translate h ept gpa
      else ret = - EINVAL /\ d' = d /\ h' = h /\ o = Some ept
  end.
Proof.
  unfold relm_seabios_load in Hload. destruct fw as [e|data]; [by simplify_eq|].
  destruct (Z.of_nat (length data) =? SEABIOS_SIZE) eqn:Es; cbn [negb] in Hload.
  2: { injection Hload as <- <- <- <-. destruct rom; [by repeat split|]. split; [by left|]. by repeat split. }
  destruct rom as [p|]; [|injection Hload as <- <- <- <-; split; [by right|]; by repeat split].
  destruct (Hrom p eq_refl) as (Hp & Hp0 & Hps).
  destruct (rom_loop _ _ _ _ _) as [[r h1] o1] eqn:E. injection Hload as <- <- <- <-.
  destruct (rom_loop_maps _ _ _ _ _ _ _ Hok Hp Hp0 Hps E) as (ept' & T' & k & H1 & H2 & H3 & H4).
  by exists ept', T', k.
Qed.

(** A failing setup gives the block back while the guest still reaches it: nothing
    unmaps the pages. *)
Theorem unload_keeps_mapping (fw : Z + list Z) (rom : option Z) (km : Z -> bool) (kz : bool) (ram online_vcpus : Z)
    (d d' : relm_firmware_data) (h h' : host) (ept ept' : ept_context) (T : gset Z) (ret p : Z) (gpa : Z)
    (Hok : ept_ok h ept T)
    (Hrom : rom = Some p /\ p mod 4096 = 0 /\ 0 < p /\ p + SEABIOS_SIZE <= 2 ^ 52)
    (Hload : forall e, fw = inl e -> e <> 0)
    (Hset : relm_seabios_setup fw rom km kz ram online_vcpus d h (Some ept) = (ret, d', h', Some ept', Some p))
    (Hgpa : SEABIOS_ROM_TOP_GPA <= gpa < 0x100000000) :
  ept_translate h' ept' gpa = Some (p + (gpa - SEABIOS_ROM_TOP_GPA)) /\ seabios_hva d' = 0.
Proof.
  destruct Hrom as (-> & Hp & Hp0 & Hps). unfold relm_seabios_setup in Hset.
  destruct (relm_seabios_load fw (Some p) d h (Some ept)) as [[[r d1] h1] o1] eqn:El.
  destruct (Z.eqb_spec r 0) as [-> |Hr]; cbn [negb] in Hset; [|discriminate Hset].
  destruct (relm_fw_cfg_setup _ _ _ _ _) as [r2 f]. destruct (negb (r2 =? 0)); [|discriminate Hset].
  unfold relm_seabios_unload in Hset. cbn [seabios_hva seabios_hpa rom_bytes fw_cfg] in Hset.
  destruct (negb (seabios_hva d1 =? 0)) eqn:Ev; [|discriminate Hset]. injection Hset as _ <- <- -> Hv.
  split; [|exact eq_refl]. unfold relm_seabios_load in El. destruct fw as [e|data].
  { injection El as -> <- <- <-. by destruct (Hload 0 eq_refl). }
  destruct (negb _); [discriminate El|].
  destruct (rom_loop _ _ _ _ _) as [[r3 h3] o3] eqn:E. injection El as -> _ <- ->.
  destruct (rom_loop_maps _ _ _ _ _ _ _ Hok Hp Hp0 Hps E) as (e' & T' & k & H1 & _ & [[_ ->]|[H3 _]] & H4); [|discriminate H3].
  injection H1 as <-. rewrite H4 by (unfold SEABIOS_ROM_TOP_GPA, SEABIOS_SIZE in Hgpa; zpow; lia).
  rewrite decide_True; [exact eq_refl|]. unfold SEABIOS_ROM_TOP_GPA, SEABIOS_SIZE in *. lia.
Qed.
End Correct.

(** ** An image of 128 KiB *)
Module SeabiosDemo.
#[local] Instance alloc : PageAlloc := EptDemo.alloc.
#[local] Instance alloc_ok : PageAllocOk alloc := bump_alloc_ok 64.
Definition image : list Z := replicate (Z.to_nat SEABIOS_SIZE) 0x90.
Definition data0 : relm_firmware_data := FwData 0 0 [] relm_fw_cfg_init.
Definition rom : Z := 0x10000000.

Lemma image_size : Z.of_nat (length image) =? SEABIOS_SIZE = true.
Proof. unfold image. rewrite length_replicate, Z2Nat.id; [apply Z.eqb_refl|vm_compute; discriminate]. Qed.

Lemma load_code : (rom_loop (Z.to_nat (SEABIOS_SIZE / 4096)) 0 EptDemo.h0 (Some EptDemo.ept0) rom).1.1 = 0.
Proof. vm_compute. exact eq_refl. Qed.

Lemma seabios_load_correct_witness : exists d' h' ept',
  relm_seabios_load (inr image) (Some rom) data0 EptDemo.h0 (Some EptDemo.ept0) = (0, d', h', Some ept') /\
  ept_translate h' ept' 0xFFFFFFF0 = Some (rom + 0x1FFF0).
Proof.
  destruct (relm_seabios_load (inr image) (Some rom) data0 EptDemo.h0 (Some EptDemo.ept0)) as [[[r d'] h'] o] eqn:E.
  assert (r = 0) as Hr.
  { revert E. unfold relm_seabios_load. rewrite image_size. cbn [negb]. pose proof load_code as C. revert C.
    generalize (rom_loop (Z.to_nat (SEABIOS_SIZE / 4096)) 0 EptDemo.h0 (Some EptDemo.ept0) rom). intros [[r1 h1] o1] C E.
    cbn [fst] in C. injection E as <- _ _ _. exact C. }
  subst r.
  pose proof (seabios_load_correct (inr image) (Some rom) data0 EptDemo.h0 EptDemo.ept0 {[4096]} 0 d' h' o
    EptDemo.ept_demo_ok) as H. cbv beta iota in H. rewrite image_size in H.
  destruct H as (ept' & T' & k & -> & _ & _ & [[_ ->]|[H3 _]] & Et); [|exact E| |discriminate H3].
  - intros p [= <-]. vm_compute. split; [exact eq_refl|]. split; [exact eq_refl|discriminate].
  - exists d', h', ept'. split; [exact eq_refl|]. rewrite Et by (zpow; lia). vm_compute. exact eq_refl.
Defined.
End SeabiosDemo.
